(* ===== verification/_CoqProject ===== *)
-Q . S2P
Prelude.v
Catalog.v
Counting.v
Clock.v
Orders.v
Accounts.v
Settlement.v
Payments.v
AccountCharge.v
OrderSteps.v
OrderRepository.v
OrderLifecycle.v
StepPlans.v
OrderMachine.v
NextSteps.v
PyDecimal.v
Pricing.v
PricingFacts.v
Allocation.v
Promotion.v
PromotionFacts.v
Text.v
Uuid.v
Crc16.v
Vietqr.v
TransferCode.v
Outbox.v
OutboxFacts.v
Idempotency.v
Approvals.v
ApprovalsFacts.v
CancellationMoney.v
CreditChains.v
PolicyDecision.v
Calendar.v
Promise.v
OpeningHours.v
Json.v
TurnaroundDocument.v
PromiseRules.v
Configurations.v
PromiseLedger.v
PromiseLedgerFacts.v
Storage.v
StorageFacts.v
Unclaimed.v
UnclaimedFacts.v
Delivery.v
RangePrices.v
Quotes.v
QuoteComposition.v
QuotesFacts.v
QuoteCompositionFacts.v
QuoteLedger.v
QuotePrices.v
QuoteCredits.v
QuoteEstimate.v
QuoteExamples.v
QuoteWitness.v
Remedies.v
RemedyLedger.v
RemedyFacts.v
RemedyMachine.v
RemedyHistory.v
RemedyKept.v
RemedySafety.v
RemedyExamples.v
CashCount.v
CashBook.v
CashMachine.v
CashKept.v
CashSafety.v
CashExamples.v
LateDelivery.v
LateDeliveries.v
LateList.v
LateSafety.v
LateExamples.v
