(* ===== verification/Prelude.v ===== *)
(** Nha Trang Laundry: a verification library of the shop's operational core.

    * The program

    The repository is the back office of one laundry: staff take goods in, price them,
    move each order through intake and production, take money at the counter, by bank
    transfer or on a monthly account, and hand the goods back.  [packages/domain] holds the
    rules as pure functions; [packages/db] holds one repository class per kind of record,
    each method one PostgreSQL transaction that locks a row, asks the domain, and writes
    the row, its ledgers, an audit entry and outbox events together; [apps/worker] drains
    the outbox; [apps/api] and [apps/web] are the routes and the console above them.

    * How the model is laid out

    Shared files:
    - [Prelude]: the [result] monad (an exception is an [Err] with the reason), the
      notation [is?]/[in?] for Python's tests, lists, stable sorting, ordered dictionaries,
      reachability, and the tactics [result_inv] and [guards] every component uses.
    - [Counting]: the integers of an interval that satisfy a test, for references that count
      instant by instant.  [Clock]: aware and naive [datetime]s and [timedelta]s.  [Text]: ASCII text.
      [PyDecimal]: [decimal.Decimal] at the 28 digits of the default context.
    - [Catalog]: the enumerations of [domain/catalog.py].

    Orders and money (sources under [packages/domain] unless [db/] is said):
    - [Orders] <- [orders.py]: commercial, intake and production transitions.
    - [Settlement], [Payments], [Accounts], [AccountCharge] <- the files of those names:
      what is owed, which payment is recorded, when goods may leave.
    - [OrderSteps] <- [order_steps.py]: planning a composite counter step, and listing the
      legal ones.
    - [OrderRepository] <- [db/orders.py], [db/payments.py], [db/settlement.py],
      [db/delivery_legs.py], [db/accounts.py], [unclaimed.py]: the commands, as functions
      from the locked row with its ledgers to the row after.
    - [OrderLifecycle] (the invariant of a row), [StepPlans] (a planned step never stops
      half way), [OrderMachine] (the transition system and what every reachable order
      satisfies), [NextSteps] (the list of legal steps is exact).

    Prices:
    - [Pricing], [PricingFacts] <- [pricing.py].
    - [Allocation] <- [promotion.py], [allocate_largest_remainder]; [Promotion],
      [PromotionFacts] <- the rest of [promotion.py].  [Allocation.Proportional] is the
      interface between them: what a fair split promises its users.

    Bank transfers:
    - [Crc16], [Vietqr], [TransferCode] <- [vietqr.py]: the QR payload and its checksum,
      the amount a QR asks for (through [Payments]), the transfer codes.

    Authority, delivery of effects:
    - [Approvals], [ApprovalsFacts] <- [approvals.py], [db/approvals.py]: the request,
      decision, attestation and one-time claim of an approval, as transactions on its three
      tables.  A request goes through [Idempotency.execute].
    - [Idempotency] <- [db/idempotency.py].
    - [Outbox], [OutboxFacts] <- [db/outbox.py], [db/transactions.py], the worker's
      [InternalOutboxWorker] and one cycle of its supervisor.
    - [PolicyDecision] <- [packages/policy] [decision.py] and the worker's
      [agent_run_policy.py]: the gate in front of an agent run.

    Cancelled orders:
    - [CancellationMoney] <- [cancellation_money.py], [db/cancellation_money.py]: what a
      cancelled order's money becomes.  [CreditChains]: together with the credit side of
      [db/remedies.py], a transition system over the credits and cancellations of one order.

    Promises and the documents the owner publishes:
    - [Json], [Configurations] <- [db/configurations.py]: versioned, immutable documents.
    - [Calendar]: years, months and days of Python's [date].  [Promise], [PromiseRules] <-
      [promise.py]: the promised-ready time of an order; [OpeningHours]: the pointwise
      reference its two ways of counting hours are compared with; [TurnaroundDocument]: the
      parser of the published policy.
    - [PromiseLedger], [PromiseLedgerFacts] <- [db/promise_policy.py], [db/order_promises.py],
      the promise part of [db/orders.py]: publication, the first promise, and its changes.

    Laundry left waiting:
    - [Storage], [StorageFacts] <- [unclaimed.py]: the published policy, the clock of days
      on the shelf, the storage fee, what a waiver takes off and when laundry may be disposed
      of, with the SQL count of the waiting list ([db/storage_fees.py]).
    - [Unclaimed], [UnclaimedFacts] <- [db/unclaimed.py], the fee part of [db/payments.py],
      [db/settlement.py] and [db/accounts.py]: the commands on a waiting order with its fee,
      waiver, attempts and disposal, over [OrderRepository]'s row, as a machine with a clock.

    Quotes:
    - [Uuid]: the text forms of a UUID.  [Delivery] <- [delivery.py]; [RangePrices] <-
      [range_prices.py]: the published bands and the amounts a person attests in them.
    - [Quotes], [QuotesFacts] <- [quotes.py]: an immutable quote revision, its normal form and
      its validator.  [QuoteComposition], [QuoteCompositionFacts] <- [quote_composition.py]:
      composing a fresh price, accepting it, closing its bands, reserving remedy credits on it
      and releasing those a new price cannot carry.
    - [QuoteLedger]: the invariant of every revision the program derives.  [QuotePrices],
      [QuoteCredits], [QuoteEstimate]: what it says of bills, credits and estimates.
      [QuoteExamples], [QuoteWitness]: concrete revisions, and the theorems applied to them.

    Remedies:
    - [Remedies] <- [remedies.py]: the published figures, the fee and the ceilings of one item
      or garment, and the decision on one request.  [RemedyLedger] <- [db/remedies.py]:
      proposing, the owner's envelope through [Approvals], and carrying out, as the separate
      transactions they are.  [RemedyFacts]: what the decision promises of sums.
    - [RemedyHistory]: any interleaving of those transactions, with figures republished, envelopes
      decided and orders moving between them, and its invariant; [RemedyMachine] (what the
      approval and configuration tables keep, and what paying checks), [RemedyKept] (every
      step but paying keeps the invariant), [RemedySafety] (paying does too; the theorems).
      [RemedyExamples]: histories run as functions, and the witnesses.

    The drawer:
    - [CashCount] <- [cash_count.py], [capture_note] of [shop_capture.py]: what the drawer should
      hold, the difference of a count, what an entry may be, the stored trace and its replay.
      [CashBook] <- [db/cash_counts.py], [validate_window] of [db/reports.py]: the drawer summed
      from the ledgers, the table with its constraints, recording, the sheet and the history.
    - [CashMachine], [CashKept]: the domain's laws, the chains of corrections, and the invariant
      of any history of counts and ledger movements; [CashSafety]: the theorems.
      [CashExamples]: a day run as a function, and the witnesses.

    Late deliveries:
    - [LateDelivery] <- [late_delivery.py]: the deadline, the arrival and the minutes between,
      held against its reference.  [LateDeliveries] <-
      [db/late_deliveries.py], with the credit's preview of [db/remedies.py], the next step of
      [db/remedy_reads.py] and the counter's incident of [db/incidents.py]: the list, its count
      and the verdict, which proposes through [RemedyLedger] in its own transaction.
    - [LateList]: the list and the preview; [LateSafety]: a verdict undone, what its claim keeps,
      and any history of legs, promises, remedies and verdicts.  [LateExamples]: one late
      delivery, the witnesses, and a list filled by a backlog.

    * What the theorems show

    - Safety of the shop: goods leave only when paid, charged or handed back
      ([goods_leave_only_when_paid]); a balance is what the ledgers say
      ([balance_matches_ledger]); nothing is executed on one person's word
      ([approvals_are_maker_checked]); an event is completed at most once
      ([outbox_at_most_once]) and a command runs at most once ([execute_once]).
    - Refinement and equivalence: a step succeeds exactly when its plan does
      ([execute_step_iff_planned]); the listed steps are exactly the legal ones
      ([next_steps_exact]); production follows its abstract machine; outbox rows follow
      their abstract life cycle ([outbox_refines_life_cycle]); a QR is issued exactly when
      its payment would be booked ([order_qr_is_bookable]).
    - Functional correctness of prices, promotions, splits, payments, settlements and
      approvals against integer reference definitions or exact conditions.
    - Liveness and termination: the outbox drains ([outbox_drains]); a promotion on valid
      input always has a result ([evaluate_promotion_total]).
    - Round trips of decimal text, VietQR payloads and transfer codes; detection of
      misread payloads; bounds of approval windows; the error paths.
    - Cancelled orders: no order's defect is paid for twice ([no_double_compensation]) as
      long as the clock does not run backwards; with a clock that does, it can be.
    - The agent gate: an allowed run is synthetic and draft-only
      ([agent_runs_stay_synthetic]), and the exact condition ([policy_allows_iff]).
    - Promises: each names a time in opening hours after acceptance ([promises_can_be_kept]);
      hours are counted exactly as the pointwise reference says
      ([opening_hours_promise_exact], [calendar_promise_earliest]); the latest line decides
      ([promise_is_the_latest_line]); the screen is right ([promise_options_truthful]); the
      published document is in force and well formed ([published_policy_is_in_force],
      [parsed_policies_are_sound]); the record cannot be rewritten ([promise_ledger_sound]).
    - Laundry left waiting: the days counted are the days on the shelf
      ([waiting_days_on_the_shelf], [count_turns_when_reached]); the fee is the policy's, and
      never leaves an order owing less than it paid ([storage_fee_owed],
      [storage_ledger_sound]); a waiver takes off the unpaid part ([waiver_takes_off_the_unpaid]);
      disposal needs the published rule ([disposal_follows_the_rule]); no command fails on
      its own tables ([storage_commands_answer]).
    - Quotes: every derived revision's bill is its lines less one programme discount and each
      reserved credit ([derived_bill]); acceptance changes no figure ([accept_keeps_the_price],
      [accept_decided]); a band closes inside itself ([close_within_the_band]); a credit counts
      in full or is given back ([credit_lands_whole], [no_credit_is_lost], [programme_wins]);
      an estimate is the reference price ([estimate_adds_up]); the document does not depend on
      the order of assembly ([build_order_independent]).
    - Remedies: what is paid on an item, a garment or a line stays within a published limit
      ([paid_within_the_limits]); no claim is paid on one person's word that is the owner's
      ([claims_paid_were_authorised]); one credit a claim ([each_claim_credited_once]); a closed
      incident owes nothing ([closed_incidents_owe_nothing]); splitting a claim gains nothing
      ([splitting_gains_nothing]).
    - The drawer: each kind of a day's counts is one chain of corrections
      ([one_drawer_chain]); a closing count reproduces from its stored trace
      ([counts_reproduce]); an entry is recorded exactly when it should be
      ([count_recorded_iff]); the sheet says when the books moved since
      ([changed_since_count_exact]).
    - Late deliveries: only the customer moves the deadline
      ([only_the_customer_moves_the_deadline]); the list misses nothing ([late_list_exact]); the
      figure on the button is the claim's ([button_is_the_claim]); a verdict and its
      measurement stand ([a_verdict_stands]).

    * Conventions

    A database transaction is a function from tables to tables or an error, so a raised
    exception rolls back by construction; what the code commits before raising (an expired
    approval) is returned with the error.  Row locks make the transactions on one row
    sequential; an interleaving is a sequence of them.  Integers are unbounded, as
    Python's are; a bound the code or a CHECK states is written out.  Tests of a value's
    type ([isinstance], [type(x) is int]) are discharged by the types.  Texts are ASCII.
    Identifiers are integers.  Digests, canonical JSON (a library's) and rows of tables
    that another part owns are parameters, and each theorem holds for all of them.
    Recursion is structural everywhere except the VietQR field loop, whose fuel is the
    length of the payload: every field consumes at least its four-character header, so the
    fuel never runs out before the text does.  The day-by-day loops of a promise carry the
    400 days the code itself walks, and running out is the code's own error.  The 128-bit ids, 16-bit checksum and
    28-digit decimals are kept at their width.

    * Not modelled

    - [apps/api], [apps/web], [apps/public-agent-tools]: HTTP routing, sessions, rendering.
    - The agent side of [apps/worker] past its policy gate, [packages/evals], [packages/contracts],
      [packages/observability]: model calls, evaluation runs, schemas, telemetry.
    - [scripts]: browser and repository checks, not part of the running program.
    - The domain and repository modules not named above: the manifest lists each with the
      reason; most read rows and format them, or parse an owner-published document.
    - Inside the modelled parts: audit rows and event payloads, label tables, Unicode
      normalisation, and the reading of published terms documents. *)
From stdpp Require Export prelude gmap strings sorting relations.
From Stdlib Require Export ZArith Lia.

(** * Notation of the development *)

Declare Scope laundry_scope.
Delimit Scope laundry_scope with laundry.

(** [x is? y] is Python's [x is y] / [x == y] on a decidable type, as a bool;
    [x in? l] is membership of a tuple or frozenset given by its elements. *)
Notation "x 'is?' y" := (bool_decide (x = y)) (at level 70, no associativity) : laundry_scope.
Notation "x 'in?' l" := (bool_decide (x ∈ l)) (at level 70, no associativity) : laundry_scope.
#[local] Open Scope laundry_scope.

(** * Fallible code: a value, or the exception that was raised *)

Inductive result (E A : Type) :=
| Ok (a : A)
| Err (e : E).
Arguments Ok {E A} a.
Arguments Err {E A} e.

#[export] Instance result_ret E : MRet (result E) := λ A a, Ok a.
#[export] Instance result_bind E : MBind (result E) := λ A B f m,
  match m with Ok a => f a | Err e => Err e end.
#[export] Instance result_eq_dec {E A} `{EqDecision E, EqDecision A} :
  EqDecision (result E A).
Proof. solve_decision. Defined.

(** [raise_if c e] is [if c: raise e]. *)
Definition raise_if {E} (c : bool) (e : E) : result E unit :=
  if c then Err e else Ok tt.

(** [require o e] unwraps an optional value or raises. *)
Definition require_some {E A} (o : option A) (e : E) : result E A :=
  match o with Some a => Ok a | None => Err e end.

Definition is_Ok {E A} (r : result E A) : bool :=
  match r with Ok _ => true | Err _ => false end.

Section result_facts.
Context {E A B : Type}.
Implicit Types (m : result E A) (f : A → result E B).

Lemma bind_Ok m f b : (m ≫= f) = Ok b ↔ ∃ a, m = Ok a ∧ f a = Ok b.
Proof. destruct m; cbn; naive_solver. Qed.

Lemma bind_Err m f e :
  (m ≫= f) = Err e ↔ m = Err e ∨ ∃ a, m = Ok a ∧ f a = Err e.
Proof. destruct m; cbn; naive_solver. Qed.

Lemma raise_if_Ok c (e : E) u : raise_if c e = Ok u ↔ c = false.
Proof. destruct c, u; cbn; naive_solver. Qed.

Lemma raise_if_Err c (e e' : E) : raise_if c e = Err e' ↔ c = true ∧ e = e'.
Proof. destruct c; cbn; naive_solver. Qed.

Lemma require_some_Ok (o : option A) (e : E) a :
  require_some o e = Ok a ↔ o = Some a.
Proof. destruct o; cbn; naive_solver. Qed.

Lemma raise_bind_Ok c (e : E) (m : result E B) b :
  (raise_if c e ;; m) = Ok b ↔ c = false ∧ m = Ok b.
Proof. destruct c; cbn; naive_solver. Qed.

Lemma raise_bind_Err c (e : E) (m : result E B) e' :
  (raise_if c e ;; m) = Err e' ↔ (c = true ∧ e = e') ∨ (c = false ∧ m = Err e').
Proof. destruct c; cbn; naive_solver. Qed.

Lemma is_Ok_true m : is_Ok m = true ↔ ∃ a, m = Ok a.
Proof. destruct m; cbn; naive_solver. Qed.
End result_facts.

(** A state-machine operation never both succeeds and fails. *)
Lemma result_cases {E A} (r : result E A) : (∃ a, r = Ok a) ∨ (∃ e, r = Err e).
Proof. destruct r; eauto. Qed.

(** [mapM] over [result], left to right, stopping at the first exception. *)
Fixpoint traverse {E A B} (f : A → result E B) (l : list A) : result E (list B) :=
  match l with
  | [] => Ok []
  | x :: l' => y ← f x; ys ← traverse f l'; Ok (y :: ys)
  end.

(** A loop that threads an accumulator through fallible steps. *)
Fixpoint fold_result {E A S} (f : S → A → result E S) (s : S) (l : list A) : result E S :=
  match l with
  | [] => Ok s
  | x :: l' => s' ← f s x; fold_result f s' l'
  end.

Section loop_facts.
Context {E A B S : Type}.

Lemma traverse_Forall2 (f : A → result E B) l k :
  traverse f l = Ok k ↔ Forall2 (λ x y, f x = Ok y) l k.
Proof.
  revert k; induction l as [|x l IH]; intros k; cbn.
  - split; [intros [= <-]; constructor | by inversion 1].
  - rewrite bind_Ok. setoid_rewrite bind_Ok. split.
    + intros (y & Hy & ys & Hys & [= <-]). constructor; [done|by apply IH].
    + inversion 1; subst. eexists; split; [done|]. eexists; split; [|done].
      by apply IH.
Qed.

Lemma fold_result_app (f : S → A → result E S) s l1 l2 :
  fold_result f s (l1 ++ l2) = (s' ← fold_result f s l1; fold_result f s' l2).
Proof. revert s; induction l1 as [|x l1 IH]; intros s; cbn; [done|].
  destruct (f s x); cbn; auto. Qed.

(** Loop invariants: what every step keeps, the whole loop keeps. *)
Lemma fold_result_inv (P : S → Prop) (f : S → A → result E S) l s s' :
  (∀ s0 x s1, x ∈ l → P s0 → f s0 x = Ok s1 → P s1) →
  P s → fold_result f s l = Ok s' → P s'.
Proof.
  revert s; induction l as [|x l IH]; intros s Hstep Hs; cbn.
  - by intros [= <-].
  - rewrite bind_Ok. intros (s1 & Hx & Hrest).
    apply (IH s1); [|eapply Hstep; [left|exact Hs|exact Hx]|exact Hrest].
    intros; eapply Hstep; [right|..]; eassumption.
Qed.
End loop_facts.

(** * Tactics *)

(** Unfold one layer of a successful computation into the facts it proves. *)
Ltac result_step :=
  match goal with
  | H : (raise_if _ _ ;; _) = Ok _ |- _ => apply raise_bind_Ok in H as [? H]
  | H : (_ ≫= _) = Ok _ |- _ => apply bind_Ok in H as (? & ? & H)
  | H : raise_if _ _ = Ok _ |- _ => apply raise_if_Ok in H
  | H : require_some _ _ = Ok _ |- _ => apply require_some_Ok in H
  | H : Ok _ = Ok _ |- _ => injection H as H
  | H : Err _ = Ok _ |- _ => discriminate H
  | H : Ok _ = Err _ |- _ => discriminate H
  end.
Ltac result_inv := repeat result_step; subst.

(** Turn boolean guards into the propositions they decide. *)
Ltac guard_step :=
  match goal with
  | H : bool_decide _ = true |- _ => apply bool_decide_eq_true in H
  | H : bool_decide _ = false |- _ => apply bool_decide_eq_false in H
  | H : _ && _ = true |- _ => apply andb_true_iff in H as [? ?]
  | H : _ || _ = false |- _ => apply orb_false_iff in H as [? ?]
  | H : negb _ = true |- _ => apply negb_true_iff in H
  | H : negb _ = false |- _ => apply negb_false_iff in H
  | H : (_ <? _)%Z = true |- _ => apply Z.ltb_lt in H
  | H : (_ <? _)%Z = false |- _ => apply Z.ltb_ge in H
  | H : (_ <=? _)%Z = true |- _ => apply Z.leb_le in H
  | H : (_ <=? _)%Z = false |- _ => apply Z.leb_gt in H
  | H : (_ =? _)%Z = true |- _ => apply Z.eqb_eq in H
  | H : (_ =? _)%Z = false |- _ => apply Z.eqb_neq in H
  end.
Ltac guards := repeat guard_step.

(** Close a decidable proposition about constants by computing it. *)
Ltac decided := apply (bool_decide_unpack _); vm_compute; exact I.

(** Split the outermost [if] of [H] on its condition. *)
Ltac case_if H :=
  match type of H with
  | (if ?b then _ else _) = _ => destruct b eqn:?
  | context [if ?b then _ else _] => destruct b eqn:?
  end; guards; result_inv.

(** The same without turning the condition into a hypothesis. *)
Ltac split_if H :=
  match type of H with (if ?b then _ else _) = _ => destruct b end.

(** Run a definition whose guards are matches: split every match of [H]. *)
Ltac split_matches H :=
  repeat (match type of H with context [match ?x with _ => _ end] =>
            let Heq := fresh "Hm" in destruct x eqn:Heq end;
          try discriminate H).

(** * Lists *)

Definition sumZ (l : list Z) : Z := foldr Z.add 0%Z l.

Section sums.
Local Open Scope Z_scope.

Lemma sumZ_cons x l : sumZ (x :: l) = x + sumZ l.
Proof. done. Qed.

Lemma sumZ_app l1 l2 : sumZ (l1 ++ l2) = sumZ l1 + sumZ l2.
Proof. unfold sumZ. induction l1; cbn; lia. Qed.

Lemma sumZ_perm l1 l2 : l1 ≡ₚ l2 → sumZ l1 = sumZ l2.
Proof. unfold sumZ. induction 1; cbn; lia. Qed.

Lemma sumZ_nonneg l : Forall (λ x, 0 <= x) l → 0 <= sumZ l.
Proof. unfold sumZ. induction 1; cbn; lia. Qed.

Lemma sumZ_map_ext {A} (f g : A → Z) l :
  Forall (λ x, f x = g x) l → sumZ (f <$> l) = sumZ (g <$> l).
Proof. unfold sumZ. induction 1; cbn; lia. Qed.

Lemma sumZ_map_le {A} (f g : A → Z) l :
  Forall (λ x, f x <= g x) l → sumZ (f <$> l) <= sumZ (g <$> l).
Proof. unfold sumZ. induction 1; cbn; lia. Qed.

Lemma sumZ_map_add {A} (f g : A → Z) l :
  sumZ ((λ x, f x + g x) <$> l) = sumZ (f <$> l) + sumZ (g <$> l).
Proof. unfold sumZ. induction l; cbn; lia. Qed.

Lemma sumZ_map_mul {A} (f : A → Z) k l :
  sumZ ((λ x, k * f x) <$> l) = k * sumZ (f <$> l).
Proof. unfold sumZ. induction l; cbn; lia. Qed.

Lemma sumZ_map_scale {A} (f g : A → Z) k l :
  (∀ x, g x = k * f x) → sumZ (g <$> l) = k * sumZ (f <$> l).
Proof. intros H. unfold sumZ. induction l as [|x l IH]; cbn; [lia|]. rewrite H. lia. Qed.
End sums.

(** Python's [sorted(l, key=...)]: stable, by a boolean "not after" test. *)
Section stable_sort.
Context {A : Type} (leb : A → A → bool).

Fixpoint insert_sorted (x : A) (l : list A) : list A :=
  match l with
  | [] => [x]
  | y :: l' => if leb x y then x :: y :: l' else y :: insert_sorted x l'
  end.

Fixpoint stable_sort (l : list A) : list A :=
  match l with
  | [] => []
  | x :: l' => insert_sorted x (stable_sort l')
  end.

Lemma insert_sorted_perm x l : insert_sorted x l ≡ₚ x :: l.
Proof.
  induction l as [|y l IH]; cbn; [done|]. destruct (leb x y); [done|].
  rewrite IH. by constructor.
Qed.

Lemma stable_sort_perm l : stable_sort l ≡ₚ l.
Proof. induction l; cbn; [done|]. rewrite insert_sorted_perm. by f_equiv. Qed.

Lemma stable_sort_length l : length (stable_sort l) = length l.
Proof. by rewrite stable_sort_perm. Qed.

Hypothesis leb_total : ∀ x y, leb x y = false → leb y x = true.
Hypothesis leb_trans : ∀ x y z, leb x y = true → leb y z = true → leb x z = true.

Lemma insert_sorted_StronglySorted x l :
  StronglySorted (λ a b, leb a b = true) l →
  StronglySorted (λ a b, leb a b = true) (insert_sorted x l).
Proof.
  induction 1 as [|y l Hs IH Hy]; cbn; [by repeat constructor|].
  destruct (leb x y) eqn:Hxy.
  - constructor; [by constructor|]. constructor; [done|].
    eapply Forall_impl; [exact Hy|]. eauto.
  - constructor; [done|].
    rewrite insert_sorted_perm. constructor; auto.
Qed.

Lemma stable_sort_sorted l : StronglySorted (λ a b, leb a b = true) (stable_sort l).
Proof. induction l; cbn; [constructor|]. by apply insert_sorted_StronglySorted. Qed.
End stable_sort.

(** Two sorted permutations of one list agree when the order is antisymmetric
    on its elements; this is what makes a sort independent of input order. *)
Lemma StronglySorted_unique {A} (R : A → A → Prop) l1 l2 :
  (∀ x y, x ∈ l1 → y ∈ l1 → R x y → R y x → x = y) →
  StronglySorted R l1 → StronglySorted R l2 → l1 ≡ₚ l2 → l1 = l2.
Proof.
  revert l2; induction l1 as [|x l1 IH]; intros l2 Hanti H1 H2 HP.
  - by apply Permutation_nil_l in HP as ->.
  - destruct l2 as [|y l2]; [by apply Permutation_nil_r in HP|].
    assert (x = y) as ->.
    { inversion_clear H1 as [|?? Hs1 Hx]. inversion_clear H2 as [|?? Hs2 Hy].
      assert (y ∈ x :: l1) as Hy1 by (rewrite HP; left).
      assert (x ∈ y :: l2) as Hx2 by (rewrite <- HP; left).
      apply elem_of_cons in Hy1 as [->|Hy1]; [done|].
      apply elem_of_cons in Hx2 as [->|Hx2]; [done|].
      rewrite Forall_forall in Hx, Hy.
      apply Hanti; [left|by right| |]; auto. }
    f_equal. apply IH.
    + intros; apply Hanti; [right|right|..]; done.
    + by inversion H1.
    + by inversion H2.
    + by apply Permutation_cons_inv in HP.
Qed.

(** * Python dictionaries whose insertion order is observed *)

Definition dict (K V : Type) := list (K * V).

Fixpoint dict_get {K V} `{EqDecision K} (d : dict K V) (k : K) : option V :=
  match d with
  | [] => None
  | (k', v) :: d' => if decide (k = k') then Some v else dict_get d' k
  end.

(** [d[k] = f (d.get(k))]: replace in place, or append a new key. *)
Fixpoint dict_alter {K V} `{EqDecision K} (f : option V → V) (k : K) (d : dict K V) : dict K V :=
  match d with
  | [] => [(k, f None)]
  | (k', v) :: d' =>
      if decide (k = k') then (k', f (Some v)) :: d' else (k', v) :: dict_alter f k d'
  end.

Section dict_facts.
Context {K V : Type} `{EqDecision K}.
Implicit Types (d : dict K V).

Lemma dict_get_alter f d k : dict_get (dict_alter f k d) k = Some (f (dict_get d k)).
Proof.
  induction d as [|[k' v] d IH]; cbn; [by case_decide|].
  case_decide; cbn; by case_decide.
Qed.

Lemma dict_get_alter_ne f d k k' :
  k ≠ k' → dict_get (dict_alter f k d) k' = dict_get d k'.
Proof.
  intros Hne. induction d as [|[k0 v] d IH]; cbn; [by case_decide|].
  repeat (case_decide; cbn; try congruence).
Qed.

Lemma dict_get_None d k : dict_get d k = None ↔ k ∉ d.*1.
Proof.
  induction d as [|[k' v] d IH]; cbn; [set_solver|].
  case_decide; rewrite not_elem_of_cons; naive_solver.
Qed.

Lemma dict_keys_alter f d k :
  (dict_alter f k d).*1 = if decide (k ∈ d.*1) then d.*1 else d.*1 ++ [k].
Proof.
  induction d as [|[k' v] d IH]; [done|]. cbn [dict_alter].
  destruct (decide (k = k')) as [->|Hne]; cbn [fmap list_fmap fst].
  - rewrite decide_True by left. done.
  - rewrite IH. destruct (decide (k ∈ d.*1)) as [Hin|Hin].
    + by rewrite decide_True by (by right).
    + rewrite decide_False; [done|]. rewrite elem_of_cons. naive_solver.
Qed.

Lemma dict_alter_NoDup f d k : NoDup d.*1 → NoDup (dict_alter f k d).*1.
Proof.
  intros Hd. rewrite dict_keys_alter. case_decide; [done|].
  apply NoDup_app. split_and!; [done|set_solver|apply NoDup_singleton].
Qed.

Lemma dict_get_Some_elem d k v : dict_get d k = Some v → (k, v) ∈ d.
Proof.
  induction d as [|[k' v'] d IH]; cbn; [done|].
  case_decide; subst; [intros [= ->]; left|right; auto].
Qed.

Lemma dict_elem_get d k v : NoDup d.*1 → (k, v) ∈ d → dict_get d k = Some v.
Proof.
  induction d as [|[k' v'] d IH]; cbn; intros Hnd Hin; [set_solver|].
  apply NoDup_cons in Hnd as [Hn Hnd].
  apply elem_of_cons in Hin as [[= -> ->]|Hin]; [by case_decide|].
  case_decide; subst; [|auto].
  destruct Hn. apply list_elem_of_fmap. by exists (k', v).
Qed.
End dict_facts.

(** [dict.fromkeys(l)] as a list: each element once, in order of first appearance. *)
Fixpoint fromkeys_from {A} `{EqDecision A} (seen l : list A) : list A :=
  match l with
  | [] => []
  | x :: l' => if x in? seen then fromkeys_from seen l' else x :: fromkeys_from (x :: seen) l'
  end.
Definition fromkeys {A} `{EqDecision A} : list A → list A := fromkeys_from [].

Lemma fromkeys_from_spec {A} `{EqDecision A} (l : list A) : ∀ seen,
  NoDup (fromkeys_from seen l) ∧ ∀ x, x ∈ fromkeys_from seen l ↔ x ∈ l ∧ x ∉ seen.
Proof.
  induction l as [|y l IH]; intros seen; cbn; [split; [constructor|set_solver]|].
  case_bool_decide as Hy; [destruct (IH seen) as [? Hx]; split; [done|]; intros x; rewrite Hx; set_solver|].
  destruct (IH (y :: seen)) as [Hnd Hx]. split; [constructor; [rewrite Hx; set_solver|done]|].
  intros x. rewrite !elem_of_cons, Hx, elem_of_cons. destruct (decide (x = y)) as [->|]; naive_solver.
Qed.

Lemma fromkeys_NoDup {A} `{EqDecision A} (l : list A) : NoDup (fromkeys l).
Proof. apply fromkeys_from_spec. Qed.
Lemma elem_of_fromkeys {A} `{EqDecision A} (l : list A) x : x ∈ fromkeys l ↔ x ∈ l.
Proof. unfold fromkeys. rewrite (proj2 (fromkeys_from_spec l [])). set_solver. Qed.

(** [any] is false of no element. *)
Lemma existsb_false {A} (f : A → bool) l x : existsb f l = false → x ∈ l → f x = false.
Proof.
  intros H Hx. destruct (f x) eqn:E; [|done]. rewrite <- H. symmetry. apply existsb_exists.
  exists x. by rewrite <- list_elem_of_In.
Qed.

(** [len(set(l)) == len(l)] says that nothing repeats. *)
Lemma fromkeys_length {A} `{EqDecision A} (l : list A) : length (fromkeys l) = length l → NoDup l.
Proof.
  intros Hl. rewrite <- (submseteq_length_Permutation (fromkeys l) l); [apply fromkeys_NoDup| |lia].
  apply NoDup_submseteq; [apply fromkeys_NoDup|]. intros x. by rewrite elem_of_fromkeys.
Qed.

(** * State machines: reachability and invariants *)

Section machine.
Context {S : Type} (init : S → Prop) (step : S → S → Prop).

Definition reachable (s : S) : Prop := ∃ s0, init s0 ∧ rtc step s0 s.

Lemma reachable_invariant (I : S → Prop) :
  (∀ s, init s → I s) → (∀ s s', I s → step s s' → I s') →
  ∀ s, reachable s → I s.
Proof.
  intros Hinit Hstep s (s0 & H0 & Hs). apply Hinit in H0.
  induction Hs; eauto.
Qed.

Lemma rtc_invariant (I : S → Prop) s s' :
  (∀ a b, I a → step a b → I b) → I s → rtc step s s' → I s'.
Proof. intros Hstep Hs H. induction H; eauto. Qed.
End machine.

(** * Integer rounding shared by the money routines *)

Section rounding.
Local Open Scope Z_scope.

(** Round half up: [(n + d // 2) // d] for an even positive [d]. *)
Lemma half_up_bounds n d :
  0 < d → n / d <= (n + d / 2) / d <= n / d + 1.
Proof.
  intros Hd. pose proof (Z.div_mod n d ltac:(lia)).
  pose proof (Z.mod_pos_bound n d Hd).
  pose proof (Z.div_pos d 2 ltac:(lia) ltac:(lia)).
  pose proof (Z.div_le_upper_bound d 2 d ltac:(lia) ltac:(lia)).
  split; [apply Z.div_le_mono; lia|].
  apply Z.lt_succ_r, Z.div_lt_upper_bound; [done|]. nia.
Qed.
End rounding.

(** * Automation shared by the components *)

Create HintDb laundry.
#[export] Hint Resolve stable_sort_perm stable_sort_length insert_sorted_perm : laundry.
#[export] Hint Resolve sumZ_nonneg dict_alter_NoDup : laundry.
#[export] Hint Rewrite @sumZ_app @sumZ_cons @dict_get_alter : laundry.
