(* ===== verification/Catalog.v ===== *)
(** The shared vocabulary of the program: the enumerations of
    [packages/domain/.../catalog.py], one Module per Python [StrEnum], each with
    its decidable equality, the two fulfilment-mode sets, and enumerability
    (what [for x in Enum] iterates over). *)
From S2P Require Import Prelude.
Local Open Scope laundry_scope.

Module Unit.
Inductive t :=
  | KG | ITEM | PAIR | SET | ANIMAL_PLUSH_ITEM | CASE | M2.
#[export] Instance eq_dec : EqDecision t.
Proof. solve_decision. Defined.
End Unit.

Module PriceRuleType.
Inductive t :=
  | FIXED_PER_UNIT | RANGE_PER_UNIT | AGGREGATE_TIER_PER_UNIT | FIXED_PER_ORDER
  | MANUAL.
#[export] Instance eq_dec : EqDecision t.
Proof. solve_decision. Defined.
End PriceRuleType.

Module QuantityBasis.
Inductive t :=
  | CUSTOMER_ESTIMATE | STAFF_MEASUREMENT | APPROVED_MANUAL.
#[export] Instance eq_dec : EqDecision t.
Proof. solve_decision. Defined.
End QuantityBasis.

Module QuoteFinality.
Inductive t :=
  | ESTIMATE | RANGE | APPROVED_EXACT.
#[export] Instance eq_dec : EqDecision t.
Proof. solve_decision. Defined.
End QuoteFinality.

Module QuoteRevisionStatus.
Inductive t :=
  | DRAFT | PROVISIONAL | REVIEW_REQUIRED | APPROVED | PRESENTED | ACKNOWLEDGED_ESTIMATE
  | ACCEPTED_FINAL | SUPERSEDED | EXPIRED | REJECTED.
#[export] Instance eq_dec : EqDecision t.
Proof. solve_decision. Defined.
End QuoteRevisionStatus.

Module AdjustmentDirection.
Inductive t :=
  | DEBIT | CREDIT.
#[export] Instance eq_dec : EqDecision t.
Proof. solve_decision. Defined.
End AdjustmentDirection.

Module PolicyOutcome.
Inductive t :=
  | ALLOW | REQUIRE_HUMAN | DENY.
#[export] Instance eq_dec : EqDecision t.
Proof. solve_decision. Defined.
End PolicyOutcome.

Module ActorRole.
Inductive t :=
  | OWNER_ADMIN | OPS_APPROVER | OPERATOR | DRIVER | ACCOUNTANT | AUDITOR
  | PUBLIC_AGENT | PRIVATE_AGENT | AGENT_RUNNER | OUTBOX_WORKER.
#[export] Instance eq_dec : EqDecision t.
Proof. solve_decision. Defined.
End ActorRole.

Module PromotionResolution.
Inductive t :=
  | AUTO_IF_TARGETED | HUMAN_CONFIRM | NOT_ELIGIBLE.
#[export] Instance eq_dec : EqDecision t.
Proof. solve_decision. Defined.
End PromotionResolution.

Module PromotionStatus.
Inductive t :=
  | NOT_APPLICABLE | PROVISIONAL | ELIGIBLE | INELIGIBLE | REQUIRES_HUMAN.
#[export] Instance eq_dec : EqDecision t.
Proof. solve_decision. Defined.
End PromotionStatus.

Module PromotionEligibilityEvent.
Inductive t :=
  | QUOTE_PRESENTED | CUSTOMER_ESTIMATE_ACKNOWLEDGED | CUSTOMER_FINAL_QUOTE_ACCEPTED
  | STORE_COMMERCIAL_ACCEPTED | PRODUCTION_ACCEPTED.
#[export] Instance eq_dec : EqDecision t.
Proof. solve_decision. Defined.
End PromotionEligibilityEvent.

Module CommitmentAuthority.
Inductive t :=
  | INFORMATION_ONLY | DRAFT_ONLY | HUMAN_CONFIRM | AUTO_WITHIN_ENVELOPE | PROHIBITED.
#[export] Instance eq_dec : EqDecision t.
Proof. solve_decision. Defined.
End CommitmentAuthority.

Module FulfillmentMode.
Inductive t :=
  | SELF_DROP_SELF_COLLECT | PICKUP_AND_RETURN | PICKUP_ONLY | RETURN_ONLY.
#[export] Instance eq_dec : EqDecision t.
Proof. solve_decision. Defined.
End FulfillmentMode.

Module CustodyResolution.
Inductive t :=
  | NOT_RECEIVED | RETURNED_UNWASHED_REFUNDED | SHOP_FAULT_NO_CHARGE
  | UNCLAIMED_DISPOSED.
#[export] Instance eq_dec : EqDecision t.
Proof. solve_decision. Defined.
End CustodyResolution.

Module RewashReason.
Inductive t :=
  | NOT_CLEAN | MACHINE_FAULT | OTHER.
#[export] Instance eq_dec : EqDecision t.
Proof. solve_decision. Defined.
End RewashReason.

Module IntakeRejectionReason.
Inductive t :=
  | NOT_SERVICEABLE | DAMAGED_ON_ARRIVAL | OTHER.
#[export] Instance eq_dec : EqDecision t.
Proof. solve_decision. Defined.
End IntakeRejectionReason.

Module CommercialOrderStatus.
Inductive t :=
  | DRAFT | REQUESTED | STORE_CONFIRMATION_PENDING | CONFIRMED | ACTIVE
  | CANCELLATION_REVIEW | CANCELLED | COMPLETED.
#[export] Instance eq_dec : EqDecision t.
Proof. solve_decision. Defined.
End CommercialOrderStatus.

Module IntakeStatus.
Inductive t :=
  | AWAITING_HANDOFF | RECEIVED_PENDING_INSPECTION | WAITING_PRICE_APPROVAL
  | WAITING_CUSTOMER_RECONFIRMATION | WAITING_SLOT_APPROVAL | ACCEPTED | REJECTED.
#[export] Instance eq_dec : EqDecision t.
Proof. solve_decision. Defined.
End IntakeStatus.

Module ProductionStatus.
Inductive t :=
  | NOT_STARTED | QUEUED | IN_PROCESS | QUALITY_CHECK | READY_AT_STORE | RELEASED
  | ON_HOLD | EXCEPTION.
#[export] Instance eq_dec : EqDecision t.
Proof. solve_decision. Defined.
End ProductionStatus.

Module OrderBalanceStatus.
Inductive t :=
  | UNPAID | PARTIALLY_PAID | PAID | OVERPAID | ON_ACCOUNT | REFUNDED.
#[export] Instance eq_dec : EqDecision t.
Proof. solve_decision. Defined.
End OrderBalanceStatus.

Module ApprovalAction.
Inductive t :=
  | PRESENT_QUOTE | FINALIZE_QUOTE | CONFIRM_SLOT | SET_RANGE_PRICE | SET_DELIVERY_FEE
  | APPLY_PROMOTION | SEND_MESSAGE | ACCEPT_ORDER | CANCEL_ACTIVE_ORDER
  | APPROVE_REMEDY | APPROVE_B2B_TERMS | PUBLISH_POLICY | EXPORT_SANITIZED_DATA.
#[export] Instance eq_dec : EqDecision t.
Proof. solve_decision. Defined.
End ApprovalAction.

Module SlaLifecycle.
Inductive t :=
  | DRAFT | SCHEDULED | RUNNING | COMPLETED | CANCELLED.
#[export] Instance eq_dec : EqDecision t.
Proof. solve_decision. Defined.
End SlaLifecycle.

Module SlaOutcome.
Inductive t :=
  | PENDING | MET | BREACHED | WAIVED.
#[export] Instance eq_dec : EqDecision t.
Proof. solve_decision. Defined.
End SlaOutcome.

Module ErrorCode.
Inductive t :=
  | VALIDATION_ERROR | AMBIGUOUS_SERVICE | INCOMPATIBLE_UNIT | MISSING_REQUIRED_FACT
  | PRICE_RULE_UNRESOLVED | MEASUREMENT_POLICY_UNRESOLVED
  | PROMOTION_ELIGIBILITY_UNRESOLVED | RANGE_PRICE_REQUIRES_HUMAN
  | DELIVERY_DISTANCE_UNVERIFIED | DELIVERY_FEE_REQUIRES_HUMAN | SLOT_APPROVAL_REQUIRED
  | CUSTOMER_RECONFIRMATION_REQUIRED | HUMAN_APPROVAL_REQUIRED
  | INVALID_STATE_TRANSITION | STALE_VERSION | IDEMPOTENCY_CONFLICT
  | SUPPRESSED_CONTACT | POLICY_DENIED | TOOL_UNAVAILABLE | RATE_LIMITED.
#[export] Instance eq_dec : EqDecision t.
Proof. solve_decision. Defined.
End ErrorCode.


(** Decidable equality of every enumeration, exported without their members:
    [PAID] is always written [OrderBalanceStatus.PAID], as in the source. *)
#[export] Existing Instance Unit.eq_dec.
#[export] Existing Instance PriceRuleType.eq_dec.
#[export] Existing Instance QuantityBasis.eq_dec.
#[export] Existing Instance QuoteFinality.eq_dec.
#[export] Existing Instance QuoteRevisionStatus.eq_dec.
#[export] Existing Instance AdjustmentDirection.eq_dec.
#[export] Existing Instance PolicyOutcome.eq_dec.
#[export] Existing Instance ActorRole.eq_dec.
#[export] Existing Instance PromotionResolution.eq_dec.
#[export] Existing Instance PromotionStatus.eq_dec.
#[export] Existing Instance PromotionEligibilityEvent.eq_dec.
#[export] Existing Instance CommitmentAuthority.eq_dec.
#[export] Existing Instance FulfillmentMode.eq_dec.
#[export] Existing Instance CustodyResolution.eq_dec.
#[export] Existing Instance RewashReason.eq_dec.
#[export] Existing Instance IntakeRejectionReason.eq_dec.
#[export] Existing Instance CommercialOrderStatus.eq_dec.
#[export] Existing Instance IntakeStatus.eq_dec.
#[export] Existing Instance ProductionStatus.eq_dec.
#[export] Existing Instance OrderBalanceStatus.eq_dec.
#[export] Existing Instance ApprovalAction.eq_dec.
#[export] Existing Instance SlaLifecycle.eq_dec.
#[export] Existing Instance SlaOutcome.eq_dec.
#[export] Existing Instance ErrorCode.eq_dec.

(** Modes that end with the courier handing laundry to the customer. *)
Definition MODES_EXPECTING_RETURN : list FulfillmentMode.t :=
  [FulfillmentMode.PICKUP_AND_RETURN; FulfillmentMode.RETURN_ONLY].

(** Modes that begin with the courier collecting laundry from the customer. *)
Definition MODES_EXPECTING_PICKUP : list FulfillmentMode.t :=
  [FulfillmentMode.PICKUP_AND_RETURN; FulfillmentMode.PICKUP_ONLY].

(** What [for x in Enum] iterates over, in declaration order. *)
Class Enumerated (A : Type) := {
  members : list A;
  members_complete : ∀ x : A, x ∈ members;
}.
Arguments members A {_}.

#[export] Instance custody_members : Enumerated CustodyResolution.t.
Proof.
  refine {| members := [CustodyResolution.NOT_RECEIVED;
              CustodyResolution.RETURNED_UNWASHED_REFUNDED;
              CustodyResolution.SHOP_FAULT_NO_CHARGE;
              CustodyResolution.UNCLAIMED_DISPOSED] |}.
  abstract (intros []; set_solver).
Defined.

#[export] Instance rewash_members : Enumerated RewashReason.t.
Proof.
  refine {| members := [RewashReason.NOT_CLEAN; RewashReason.MACHINE_FAULT; RewashReason.OTHER] |}.
  abstract (intros []; set_solver).
Defined.

#[export] Instance rejection_members : Enumerated IntakeRejectionReason.t.
Proof.
  refine {| members := [IntakeRejectionReason.NOT_SERVICEABLE;
              IntakeRejectionReason.DAMAGED_ON_ARRIVAL;
              IntakeRejectionReason.OTHER] |}.
  abstract (intros []; set_solver).
Defined.

(** A courier takes the goods back exactly when the customer does not collect;
    every mode is one or the other. *)
Lemma modes_expecting_return_iff mode :
  mode ∈ MODES_EXPECTING_RETURN ↔
  mode = FulfillmentMode.PICKUP_AND_RETURN ∨ mode = FulfillmentMode.RETURN_ONLY.
Proof. destruct mode; set_solver. Qed.
