(* ===== verification/Counting.v ===== *)
(** Counting the microseconds of a span of time at which something holds: the pointwise
    reference of every clock that runs only part of the time. *)
From S2P Require Import Prelude.
Local Open Scope Z_scope.

Section counting.
Context (p : Z → bool).

(** The instants of [[a, b)] at which [p] holds. *)
Definition spanned (a b : Z) : Z := Z.of_nat (length (List.filter p (seqZ a (b - a)))).

Lemma spanned_split a b c : a <= b <= c → spanned a c = spanned a b + spanned b c.
Proof.
  intros H. unfold spanned. replace (c - a) with ((b - a) + (c - b)) by lia.
  rewrite seqZ_app by lia. rewrite List.filter_app, length_app.
  replace (a + (b - a)) with b by lia. lia.
Qed.

Lemma spanned_nil a b : b <= a → spanned a b = 0.
Proof. intros H. unfold spanned. by rewrite seqZ_nil by lia. Qed.

Lemma spanned_nonneg a b : 0 <= spanned a b.
Proof. unfold spanned. lia. Qed.

Lemma spanned_none a b : (∀ w, a <= w < b → p w = false) → spanned a b = 0.
Proof.
  intros H. unfold spanned. destruct (List.filter _ _) as [|w l] eqn:E; [done|].
  assert (In w (List.filter (p) (seqZ a (b - a)))) as [Hin Hw]%List.filter_In by (rewrite E; by left).
  apply list_elem_of_In, elem_of_seqZ in Hin. rewrite H in Hw; [done|lia].
Qed.

Lemma spanned_all a b : a <= b → (∀ w, a <= w < b → p w = true) → spanned a b = b - a.
Proof.
  intros Hle H. unfold spanned. rewrite forallb_filter_id.
  - rewrite length_seqZ. lia.
  - apply forallb_forall. intros w Hin. apply list_elem_of_In, elem_of_seqZ in Hin. apply H. lia.
Qed.

Lemma spanned_le a b : a <= b → spanned a b <= b - a.
Proof.
  intros. unfold spanned. pose proof (List.filter_length_le (p) (seqZ a (b - a))) as H1.
  rewrite length_seqZ in H1. lia.
Qed.

Lemma spanned_mono a b c : a <= b <= c → spanned a b <= spanned a c.
Proof. intros. rewrite (spanned_split a b c) by done. pose proof (spanned_nonneg b c). lia. Qed.

(** The working time after [a] reaches an amount for the first time at one instant only. *)
Lemma spanned_unique a e e' :
  spanned a e = spanned a e' → a < e → a < e' →
  p (e - 1) = true → p (e' - 1) = true → e = e'.
Proof.
  assert (∀ e e', spanned a e = spanned a e' → a < e' → e < e' →
    p (e' - 1) = true → a < e → False) as aux.
  { clear e e'. intros e e' Heq Ha Hlt Hw He.
    rewrite (spanned_split a e e'), (spanned_split e (e' - 1) e') in Heq by lia.
    rewrite (spanned_all (e' - 1) e') in Heq; [|lia|intros w Hw'; by replace w with (e' - 1) by lia].
    pose proof (spanned_nonneg e (e' - 1)). lia. }
  intros Heq Ha Ha' Hw Hw'. destruct (Z.lt_trichotomy e e') as [Hlt|[->|Hlt]]; [|done|].
  - by destruct (aux e e' Heq Ha' Hlt Hw' Ha).
  - by destruct (aux e' e (eq_sym Heq) Ha Hlt Hw Ha').
Qed.

Lemma spanned_mono_left a b c : a <= b <= c → spanned b c <= spanned a c.
Proof. intros. rewrite (spanned_split a b c) by done. pose proof (spanned_nonneg a b). lia. Qed.
End counting.

(** Two predicates that agree on the span count alike. *)
Lemma spanned_ext p q a b : (∀ w, a <= w < b → p w = q w) → spanned p a b = spanned q a b.
Proof.
  intros H. unfold spanned. f_equal. f_equal. apply List.filter_ext_in. intros w Hw.
  apply list_elem_of_In, elem_of_seqZ in Hw. apply H. lia.
Qed.

(** A predicate and its complement fill the span. *)
Lemma spanned_negb p a b : a <= b → spanned p a b + spanned (λ w, negb (p w)) a b = b - a.
Proof.
  intros H. unfold spanned. rewrite <- Nat2Z.inj_add.
  assert (∀ l, length (List.filter p l) + length (List.filter (λ w, negb (p w)) l) = length l)%nat as ->.
  { induction l as [|w l IH]; [done|]. cbn. destruct (p w); cbn; lia. }
  rewrite length_seqZ. lia.
Qed.
