(* ===== verification/Clock.v ===== *)
(** Instants and durations, as the program uses Python's [datetime] and
    [timedelta]: microsecond wall clocks with a fixed UTC offset (or none, for a
    naive value), compared and subtracted as instants.  Every zone the program
    computes in is a fixed offset: [Asia/Ho_Chi_Minh] has kept no daylight saving
    since 1975 and is +07:00 throughout.  The range limit of [datetime] (years 1
    to 9999) is not modelled. *)
From S2P Require Import Prelude.
Local Open Scope Z_scope.
Local Open Scope laundry_scope.

Definition us_per_second : Z := 1_000_000.
Definition us_per_hour : Z := 3_600 * us_per_second.
Definition us_per_day : Z := 24 * us_per_hour.

(** [wall_us]: microseconds of the wall clock since 1970-01-01T00:00 on that same
    wall; [utcoffset_us]: its distance from UTC, [None] for a naive value. *)
Record datetime := DateTime {
  wall_us : Z;
  utcoffset_us : option Z;
}.
#[export] Instance datetime_eq_dec : EqDecision datetime.
Proof. solve_decision. Defined.

(** [value.tzinfo is not None and value.utcoffset() is not None]. *)
Definition aware (d : datetime) : bool :=
  match utcoffset_us d with Some _ => true | None => false end.

Definition instant (d : datetime) : Z := wall_us d - default 0 (utcoffset_us d).

Definition dt_ltb (a b : datetime) : bool := instant a <? instant b.
Definition dt_leb (a b : datetime) : bool := instant a <=? instant b.

(** A [timedelta] is its length in microseconds. *)
Definition timedelta := Z.
Definition hours (n : Z) : timedelta := n * us_per_hour.
Definition minutes (n : Z) : timedelta := n * 60 * us_per_second.
Definition seconds (n : Z) : timedelta := n * us_per_second.

Definition dt_add (d : datetime) (delta : timedelta) : datetime :=
  DateTime (wall_us d + delta) (utcoffset_us d).
Definition dt_sub (a b : datetime) : timedelta := instant a - instant b.

(** Python's normalised components: [0 <= seconds < 86400], [0 <= us < 10^6]. *)
Definition td_days (t : timedelta) : Z := t / us_per_day.
Definition td_seconds (t : timedelta) : Z := t mod us_per_day / us_per_second.
Definition td_microseconds (t : timedelta) : Z := t mod us_per_second.

(** [value.astimezone(tz)] for a zone at a fixed offset. *)
Definition astimezone (offset : Z) (d : datetime) : datetime :=
  DateTime (instant d + offset) (Some offset).

(** [Asia/Ho_Chi_Minh], the shop's business time zone. *)
Definition HO_CHI_MINH : Z := 7 * us_per_hour.

(** [d.date()], as a day number, and [datetime.combine(day, time(0), tzinfo)]. *)
Definition date_of (d : datetime) : Z := wall_us d / us_per_day.
Definition midnight (day offset : Z) : datetime :=
  DateTime (day * us_per_day) (Some offset).

Lemma instant_dt_add d t : instant (dt_add d t) = instant d + t.
Proof. unfold instant, dt_add; cbn. lia. Qed.

Lemma instant_astimezone o d : instant (astimezone o d) = instant d.
Proof. unfold astimezone, instant; cbn. lia. Qed.

Lemma aware_dt_add d t : aware (dt_add d t) = aware d.
Proof. done. Qed.

Lemma dt_ltb_lt a b : dt_ltb a b = true ↔ instant a < instant b.
Proof. apply Z.ltb_lt. Qed.
Lemma dt_leb_le a b : dt_leb a b = true ↔ instant a <= instant b.
Proof. apply Z.leb_le. Qed.

(** Normalised components rebuild the duration. *)
Lemma td_components t :
  td_days t * us_per_day + td_seconds t * us_per_second + td_microseconds t = t.
Proof.
  unfold td_days, td_seconds, td_microseconds.
  assert (us_per_day = 86_400 * us_per_second) as -> by done.
  pose proof (Z.div_mod t (86_400 * us_per_second) ltac:(done)) as H1.
  pose proof (Z.div_mod (t mod (86_400 * us_per_second)) us_per_second ltac:(done)) as H2.
  replace ((t mod (86_400 * us_per_second)) mod us_per_second)
    with (t mod us_per_second) in H2; [lia|].
  rewrite <- Znumtheory.Zmod_div_mod; [done|done|done|].
  exists 86_400. done.
Qed.

#[export] Hint Rewrite instant_dt_add instant_astimezone : laundry.
