(* ===== verification/Orders.v ===== *)
(** The order state machines ([packages/domain/.../orders.py]): the commercial,
    intake and production dimensions of one order, the transition function of
    each, and the cross-dimension invariant they keep.  A raised
    [OrderTransitionError] is an [Err] carrying the source's message. *)
From S2P Require Import Prelude Catalog Clock.
Local Open Scope laundry_scope.
Local Open Scope string_scope.

(** [OrderTransitionError] with its message, and the three subclasses that
    [order_steps.py] raises; [Uncaught] is a Python exception of another class. *)
Inductive OrderError :=
| OrderTransitionError (message : string)
| StepRequiresHuman (reason_codes : list string)
| GoodsMayNotLeave (reason_code : string)
| RefundMethodRequired
| Uncaught (exception : string).
#[export] Instance order_error_eq_dec : EqDecision OrderError.
Proof. solve_decision. Defined.

Abbreviation outcome A := (result OrderError A).

Record IntakeReadiness := {
  custody_recorded : bool;
  quantity_basis_approved : bool;
  service_classified : bool;
  exact_price_approved : bool;
  customer_reconfirmation_satisfied : bool;
  slot_approved : bool;
}.

Definition ready (r : IntakeReadiness) : bool :=
  custody_recorded r && quantity_basis_approved r && service_classified r &&
  exact_price_approved r && customer_reconfirmation_satisfied r && slot_approved r.

Record OrderState := {
  commercial : CommercialOrderStatus.t;
  intake : IntakeStatus.t;
  production : ProductionStatus.t;
  fulfillment_mode : FulfillmentMode.t;
  balance : OrderBalanceStatus.t;
  required_delivery_legs_succeeded : bool;
  self_collection_recorded : bool;
  production_accepted_at : option datetime;
  production_resume_status : option ProductionStatus.t;
}.
#[export] Instance order_state_eq_dec : EqDecision OrderState.
Proof. solve_decision. Defined.

(** [dataclasses.replace] on the fields the transitions write. *)
Definition set_commercial (s : OrderState) c b : OrderState :=
  {| commercial := c; intake := intake s; production := production s;
     fulfillment_mode := fulfillment_mode s; balance := b;
     required_delivery_legs_succeeded := required_delivery_legs_succeeded s;
     self_collection_recorded := self_collection_recorded s;
     production_accepted_at := production_accepted_at s;
     production_resume_status := production_resume_status s |}.
Definition set_intake (s : OrderState) i accepted : OrderState :=
  {| commercial := commercial s; intake := i; production := production s;
     fulfillment_mode := fulfillment_mode s; balance := balance s;
     required_delivery_legs_succeeded := required_delivery_legs_succeeded s;
     self_collection_recorded := self_collection_recorded s;
     production_accepted_at := accepted;
     production_resume_status := production_resume_status s |}.
Definition set_production (s : OrderState) p resume : OrderState :=
  {| commercial := commercial s; intake := intake s; production := p;
     fulfillment_mode := fulfillment_mode s; balance := balance s;
     required_delivery_legs_succeeded := required_delivery_legs_succeeded s;
     self_collection_recorded := self_collection_recorded s;
     production_accepted_at := production_accepted_at s;
     production_resume_status := resume |}.

Definition COMMERCIAL_TRANSITIONS (c : CommercialOrderStatus.t) : list CommercialOrderStatus.t :=
  match c with
  | CommercialOrderStatus.DRAFT =>
      [CommercialOrderStatus.REQUESTED; CommercialOrderStatus.CANCELLED]
  | CommercialOrderStatus.REQUESTED =>
      [CommercialOrderStatus.STORE_CONFIRMATION_PENDING; CommercialOrderStatus.CANCELLED]
  | CommercialOrderStatus.STORE_CONFIRMATION_PENDING =>
      [CommercialOrderStatus.CONFIRMED; CommercialOrderStatus.CANCELLED]
  | CommercialOrderStatus.CONFIRMED =>
      [CommercialOrderStatus.ACTIVE; CommercialOrderStatus.CANCELLED]
  | CommercialOrderStatus.ACTIVE => [CommercialOrderStatus.CANCELLATION_REVIEW]
  | CommercialOrderStatus.CANCELLATION_REVIEW =>
      [CommercialOrderStatus.CANCELLED; CommercialOrderStatus.ACTIVE]
  | CommercialOrderStatus.CANCELLED => []
  | CommercialOrderStatus.COMPLETED => []
  end.

Definition INTAKE_SEQUENCE : list IntakeStatus.t :=
  [IntakeStatus.AWAITING_HANDOFF; IntakeStatus.RECEIVED_PENDING_INSPECTION;
   IntakeStatus.WAITING_PRICE_APPROVAL; IntakeStatus.WAITING_CUSTOMER_RECONFIRMATION;
   IntakeStatus.WAITING_SLOT_APPROVAL; IntakeStatus.ACCEPTED].

Definition CUSTODY_NOT_HELD_INTAKE_STATUSES : list IntakeStatus.t :=
  [IntakeStatus.AWAITING_HANDOFF; IntakeStatus.REJECTED].

Definition TERMINAL_COMMERCIAL_STATUSES : list CommercialOrderStatus.t :=
  [CommercialOrderStatus.CANCELLED; CommercialOrderStatus.COMPLETED].

Definition CUSTOMER_NOT_CHARGED_RESOLUTIONS : list CustodyResolution.t :=
  [CustodyResolution.RETURNED_UNWASHED_REFUNDED; CustodyResolution.SHOP_FAULT_NO_CHARGE].

Definition PRODUCTION_SEQUENCE : list ProductionStatus.t :=
  [ProductionStatus.NOT_STARTED; ProductionStatus.QUEUED; ProductionStatus.IN_PROCESS;
   ProductionStatus.QUALITY_CHECK; ProductionStatus.READY_AT_STORE; ProductionStatus.RELEASED].

(** [seq.index(x)]: the position, or Python's [ValueError]. *)
Fixpoint position {A} `{EqDecision A} (x : A) (l : list A) : option nat :=
  match l with
  | [] => None
  | y :: l' => if decide (x = y) then Some 0 else S <$> position x l'
  end.
Definition index {A} `{EqDecision A} (l : list A) (x : A) : outcome nat :=
  require_some (position x l) (Uncaught "ValueError").

(** * Cancellation rules *)

Definition _balance_after_cancellation (b : OrderBalanceStatus.t)
    (resolution : option CustodyResolution.t) : outcome OrderBalanceStatus.t :=
  if b is? OrderBalanceStatus.UNPAID then Ok b
  else if (resolution is? Some CustodyResolution.UNCLAIMED_DISPOSED)
          && (b in? [OrderBalanceStatus.PAID; OrderBalanceStatus.PARTIALLY_PAID])
  then Ok b
  else if b in? [OrderBalanceStatus.PAID; OrderBalanceStatus.PARTIALLY_PAID] then
    match resolution with
    | Some r =>
        if r in? CUSTOMER_NOT_CHARGED_RESOLUTIONS then Ok OrderBalanceStatus.REFUNDED
        else Err (OrderTransitionError
          "HUMAN_APPROVAL_REQUIRED: the order was paid, and this resolution does not say the money went back to the customer")
    | None => Err (OrderTransitionError
          "HUMAN_APPROVAL_REQUIRED: the order was paid, and this resolution does not say the money went back to the customer")
    end
  else Err (OrderTransitionError
    "NOT_SUPPORTED: cancelling an order with this balance is not a supported settlement shape").

Definition _reject_resolution_contradicting_the_record (state : OrderState)
    (resolution : option CustodyResolution.t) : outcome unit :=
  let received := negb (intake state is? IntakeStatus.AWAITING_HANDOFF) in
  raise_if ((resolution is? Some CustodyResolution.NOT_RECEIVED) && received)
    (OrderTransitionError
      "INVALID_STATE_TRANSITION: the order records custody of the goods, so they cannot be resolved as never received") ;;
  let washed := negb (production state is? ProductionStatus.NOT_STARTED) in
  raise_if ((resolution is? Some CustodyResolution.RETURNED_UNWASHED_REFUNDED) && washed)
    (OrderTransitionError
      "INVALID_STATE_TRANSITION: production has begun on the goods, so they cannot be resolved as returned unwashed") ;;
  raise_if ((resolution is? Some CustodyResolution.UNCLAIMED_DISPOSED)
            && (negb (production state is? ProductionStatus.READY_AT_STORE)
                || self_collection_recorded state))
    (OrderTransitionError
      "INVALID_STATE_TRANSITION: only finished laundry still on the shelf can be disposed of as unclaimed").

Definition _work_has_begun (state : OrderState) : bool :=
  negb (production state is? ProductionStatus.NOT_STARTED)
  || negb (intake state in? CUSTODY_NOT_HELD_INTAKE_STATUSES)
  || negb (balance state is? OrderBalanceStatus.UNPAID).

(** * The three transition functions *)

Definition transition_commercial (state : OrderState) (target : CommercialOrderStatus.t)
    (cancellation_approved custody_and_financial_resolution_recorded : bool)
    (custody_resolution : option CustodyResolution.t)
    (unclaimed_disposal_verified : bool) : outcome OrderState :=
  raise_if ((custody_resolution is? Some CustodyResolution.UNCLAIMED_DISPOSED)
            && negb unclaimed_disposal_verified)
    (OrderTransitionError
      "HUMAN_APPROVAL_REQUIRED: disposal of unclaimed laundry is the owner's, on its own route (DEC-036)") ;;
  if target is? CommercialOrderStatus.COMPLETED then
    raise_if (negb (commercial state is? CommercialOrderStatus.ACTIVE))
      (OrderTransitionError "INVALID_STATE_TRANSITION: order is not active") ;;
    raise_if (negb (production state is? ProductionStatus.RELEASED))
      (OrderTransitionError "INVALID_STATE_TRANSITION: production is not released") ;;
    raise_if (negb (required_delivery_legs_succeeded state || self_collection_recorded state))
      (OrderTransitionError "INVALID_STATE_TRANSITION: fulfillment is incomplete") ;;
    raise_if (negb (balance state in? [OrderBalanceStatus.PAID; OrderBalanceStatus.ON_ACCOUNT]))
      (OrderTransitionError "INVALID_STATE_TRANSITION: balance is not settled") ;;
    Ok (set_commercial state target (balance state))
  else
  raise_if (negb (target in? COMMERCIAL_TRANSITIONS (commercial state)))
    (OrderTransitionError "INVALID_STATE_TRANSITION: illegal commercial transition") ;;
  raise_if ((target is? CommercialOrderStatus.ACTIVE)
            && negb (intake state is? IntakeStatus.ACCEPTED))
    (OrderTransitionError "INVALID_STATE_TRANSITION: intake is not accepted") ;;
  if target is? CommercialOrderStatus.CANCELLED then
    if commercial state is? CommercialOrderStatus.CANCELLATION_REVIEW then
      raise_if (negb (cancellation_approved && custody_and_financial_resolution_recorded))
        (OrderTransitionError "HUMAN_APPROVAL_REQUIRED: cancellation resolution is incomplete") ;;
      _reject_resolution_contradicting_the_record state custody_resolution ;;
      b ← _balance_after_cancellation (balance state) custody_resolution;
      Ok (set_commercial state target b)
    else
      raise_if (_work_has_begun state)
        (OrderTransitionError
          "HUMAN_APPROVAL_REQUIRED: work has begun; cancel through cancellation review") ;;
      Ok (set_commercial state target (balance state))
  else Ok (set_commercial state target (balance state)).

Definition transition_intake (state : OrderState) (target : IntakeStatus.t)
    (readiness : option IntakeReadiness) (accepted_at : option datetime) : outcome OrderState :=
  raise_if (commercial state in? TERMINAL_COMMERCIAL_STATUSES)
    (OrderTransitionError "INVALID_STATE_TRANSITION: order is closed") ;;
  raise_if (intake state in? [IntakeStatus.ACCEPTED; IntakeStatus.REJECTED])
    (OrderTransitionError "INVALID_STATE_TRANSITION: intake is terminal") ;;
  if target is? IntakeStatus.REJECTED then
    raise_if (intake state is? IntakeStatus.AWAITING_HANDOFF)
      (OrderTransitionError "INVALID_STATE_TRANSITION: custody was never received") ;;
    Ok (set_intake state target (production_accepted_at state))
  else
  raise_if (negb (target in? INTAKE_SEQUENCE))
    (OrderTransitionError "INVALID_STATE_TRANSITION: invalid intake target") ;;
  current_index ← index INTAKE_SEQUENCE (intake state);
  target_index ← index INTAKE_SEQUENCE target;
  raise_if (target_index <=? current_index)%nat
    (OrderTransitionError "INVALID_STATE_TRANSITION: intake cannot move backward") ;;
  raise_if ((intake state is? IntakeStatus.AWAITING_HANDOFF)
            && negb (target is? IntakeStatus.RECEIVED_PENDING_INSPECTION))
    (OrderTransitionError "INVALID_STATE_TRANSITION: handoff must be recorded first") ;;
  if target is? IntakeStatus.ACCEPTED then
    raise_if (match readiness with None => true | Some r => negb (ready r) end)
      (OrderTransitionError "HUMAN_APPROVAL_REQUIRED: intake blockers remain") ;;
    raise_if (match accepted_at with None => true | Some t => negb (aware t) end)
      (OrderTransitionError "VALIDATION_ERROR: production acceptance time is required") ;;
    raise_if (bool_decide (is_Some (production_accepted_at state)))
      (OrderTransitionError "INVALID_STATE_TRANSITION: production was already accepted") ;;
    Ok (set_intake state target accepted_at)
  else Ok (set_intake state target (production_accepted_at state)).

Definition transition_production (state : OrderState) (target : ProductionStatus.t)
    : outcome OrderState :=
  raise_if (commercial state in? TERMINAL_COMMERCIAL_STATUSES)
    (OrderTransitionError "INVALID_STATE_TRANSITION: order is closed") ;;
  let current := production state in
  raise_if ((target is? ProductionStatus.NOT_STARTED) || (target is? current))
    (OrderTransitionError "INVALID_STATE_TRANSITION: invalid production target") ;;
  raise_if (negb (intake state is? IntakeStatus.ACCEPTED))
    (OrderTransitionError "INVALID_STATE_TRANSITION: intake is not accepted") ;;
  if current is? ProductionStatus.ON_HOLD then
    raise_if (negb (Some target is? production_resume_status state))
      (OrderTransitionError "INVALID_STATE_TRANSITION: invalid hold resume target") ;;
    Ok (set_production state target None)
  else if current is? ProductionStatus.EXCEPTION then
    match production_resume_status state with
    | Some resume =>
        raise_if (negb (target in? PRODUCTION_SEQUENCE))
          (OrderTransitionError "INVALID_STATE_TRANSITION: invalid exception resume target") ;;
        target_index ← index PRODUCTION_SEQUENCE target;
        resume_index ← index PRODUCTION_SEQUENCE resume;
        raise_if (resume_index <? target_index)%nat
          (OrderTransitionError
            "INVALID_STATE_TRANSITION: an exception cannot resume past where it interrupted") ;;
        Ok (set_production state target None)
    | None =>
        Err (OrderTransitionError
          "INVALID_STATE_TRANSITION: invalid exception resume target")
    end
  else
  raise_if (current is? ProductionStatus.RELEASED)
    (OrderTransitionError "INVALID_STATE_TRANSITION: production is terminal") ;;
  if target is? ProductionStatus.ON_HOLD then
    raise_if (current is? ProductionStatus.NOT_STARTED)
      (OrderTransitionError "INVALID_STATE_TRANSITION: unstarted work cannot be held") ;;
    Ok (set_production state target (Some current))
  else if target is? ProductionStatus.EXCEPTION then
    raise_if (current is? ProductionStatus.NOT_STARTED)
      (OrderTransitionError
        "INVALID_STATE_TRANSITION: unstarted work has no production exception") ;;
    Ok (set_production state target (Some current))
  else
  current_index ← index PRODUCTION_SEQUENCE current;
  target_index ← (if target in? PRODUCTION_SEQUENCE
                  then index PRODUCTION_SEQUENCE target
                  else Err (OrderTransitionError
                    "INVALID_STATE_TRANSITION: illegal production transition"));
  raise_if (negb (target_index =? current_index + 1)%nat)
    (OrderTransitionError "INVALID_STATE_TRANSITION: illegal production transition") ;;
  Ok (set_production state target None).

Example hold_and_resume s :
  let held := {| commercial := CommercialOrderStatus.ACTIVE; intake := IntakeStatus.ACCEPTED;
    production := ProductionStatus.IN_PROCESS;
    fulfillment_mode := FulfillmentMode.SELF_DROP_SELF_COLLECT;
    balance := OrderBalanceStatus.UNPAID; required_delivery_legs_succeeded := false;
    self_collection_recorded := false; production_accepted_at := s;
    production_resume_status := None |} in
  (h ← transition_production held ProductionStatus.ON_HOLD;
   transition_production h ProductionStatus.IN_PROCESS) = Ok held.
Proof. reflexivity. Qed.

(** * The production machine as a relation *)

Definition next_production (p : ProductionStatus.t) : option ProductionStatus.t :=
  match p with
  | ProductionStatus.NOT_STARTED => Some ProductionStatus.QUEUED
  | ProductionStatus.QUEUED => Some ProductionStatus.IN_PROCESS
  | ProductionStatus.IN_PROCESS => Some ProductionStatus.QUALITY_CHECK
  | ProductionStatus.QUALITY_CHECK => Some ProductionStatus.READY_AT_STORE
  | ProductionStatus.READY_AT_STORE => Some ProductionStatus.RELEASED
  | _ => None
  end.

(** Laundry being worked on or finished and still in the shop. *)
Definition on_the_floor : list ProductionStatus.t :=
  [ProductionStatus.QUEUED; ProductionStatus.IN_PROCESS;
   ProductionStatus.QUALITY_CHECK; ProductionStatus.READY_AT_STORE].

Definition progress (p : ProductionStatus.t) : nat :=
  default 0 (position p PRODUCTION_SEQUENCE).

(** Abstract specification of [transition_production]: status and resume point
    before, target, resume point after. *)
Inductive ProductionEdge :
    ProductionStatus.t → option ProductionStatus.t →
    ProductionStatus.t → option ProductionStatus.t → Prop :=
| edge_advance p q r : next_production p = Some q → ProductionEdge p r q None
| edge_hold p r : p ∈ on_the_floor → ProductionEdge p r ProductionStatus.ON_HOLD (Some p)
| edge_except p r : p ∈ on_the_floor → ProductionEdge p r ProductionStatus.EXCEPTION (Some p)
| edge_lift p :
    p ≠ ProductionStatus.ON_HOLD → p ≠ ProductionStatus.NOT_STARTED →
    ProductionEdge ProductionStatus.ON_HOLD (Some p) p None
| edge_recover p q :
    p ∈ PRODUCTION_SEQUENCE → q ∈ PRODUCTION_SEQUENCE →
    q ≠ ProductionStatus.NOT_STARTED → (progress q ≤ progress p)%nat →
    ProductionEdge ProductionStatus.EXCEPTION (Some p) q None.

#[local] Hint Constructors ProductionEdge : laundry.

(** The part of [transition_production] after its two guards on the order. *)
Definition production_outcome (current : ProductionStatus.t)
    (resume : option ProductionStatus.t) (target : ProductionStatus.t) :
    option (option ProductionStatus.t) :=
  let s := {| commercial := CommercialOrderStatus.ACTIVE; intake := IntakeStatus.ACCEPTED;
    production := current; fulfillment_mode := FulfillmentMode.SELF_DROP_SELF_COLLECT;
    balance := OrderBalanceStatus.UNPAID; required_delivery_legs_succeeded := false;
    self_collection_recorded := false; production_accepted_at := None;
    production_resume_status := resume |} in
  match transition_production s target with
  | Ok s' => Some (production_resume_status s')
  | Err _ => None
  end.

Lemma production_outcome_edge current resume target r' :
  production_outcome current resume target = Some r' ↔
  ProductionEdge current resume target r'.
Proof.
  split.
  - destruct current, target; try discriminate;
      try (destruct resume as [[]|]; try discriminate);
      intros [= <-]; first
      [ by apply edge_advance
      | apply edge_hold; decided
      | apply edge_except; decided
      | by apply edge_lift
      | apply edge_recover; [decided|decided|done|decided] ].
  - intros He. destruct He as [p q r Hn|p r Hp|p r Hp|p|p q Hp Hq Hne Hle].
    + destruct p; cbn in Hn; by simplify_eq.
    + revert Hp; destruct p; (done || (intros Hp; contradict Hp; decided)).
    + revert Hp; destruct p; (done || (intros Hp; contradict Hp; decided)).
    + by destruct p.
    + revert Hp Hq Hle; destruct p, q;
        (done || (intros _ _ Hle; contradict Hle; decided)
         || (intros Hp; contradict Hp; decided) || (intros _ Hq; contradict Hq; decided)).
Qed.

(** On an open, accepted order only the production fields decide. *)
Lemma transition_production_open s t :
  commercial s ∉ TERMINAL_COMMERCIAL_STATUSES → intake s = IntakeStatus.ACCEPTED →
  match production_outcome (production s) (production_resume_status s) t with
  | Some r' => transition_production s t = Ok (set_production s t r')
  | None => ∃ e, transition_production s t = Err e
  end.
Proof.
  destruct s as [c i p m b l sc acc r]; cbn [commercial intake production
    production_resume_status]; intros Hc ->.
  unfold transition_production at 1 2; cbn [commercial intake production
    production_resume_status].
  rewrite (bool_decide_false (c ∈ _)) by done.
  destruct p, t; try destruct r as [[]|]; first [reflexivity | eexists; reflexivity].
Qed.

Lemma transition_production_guards s t s' :
  transition_production s t = Ok s' →
  commercial s ∉ TERMINAL_COMMERCIAL_STATUSES ∧ intake s = IntakeStatus.ACCEPTED.
Proof.
  unfold transition_production. intros H. result_inv. guards.
  by split.
Qed.

Lemma transition_production_spec s t s' :
  transition_production s t = Ok s' ↔
  commercial s ∉ TERMINAL_COMMERCIAL_STATUSES ∧ intake s = IntakeStatus.ACCEPTED ∧
  ∃ r', ProductionEdge (production s) (production_resume_status s) t r' ∧
        s' = set_production s t r'.
Proof.
  setoid_rewrite <- production_outcome_edge. split.
  - intros H. pose proof (transition_production_guards _ _ _ H) as [Hc Hi].
    pose proof (transition_production_open s t Hc Hi) as Ho.
    destruct (production_outcome _ _ _) as [r'|]; [|naive_solver congruence].
    rewrite Ho in H. naive_solver.
  - intros (Hc & Hi & r' & He & ->).
    pose proof (transition_production_open s t Hc Hi) as Ho. by rewrite He in Ho.
Qed.

(** * The cross-dimension invariant *)

(** What holds of every order row the program writes. *)
Record wf (s : OrderState) : Prop := {
  wf_accepted : intake s = IntakeStatus.ACCEPTED ↔ is_Some (production_accepted_at s);
  wf_started : production s ≠ ProductionStatus.NOT_STARTED → intake s = IntakeStatus.ACCEPTED;
  wf_resume : match production_resume_status s with
              | Some r => production s ∈ [ProductionStatus.ON_HOLD; ProductionStatus.EXCEPTION]
                          ∧ r ∈ on_the_floor
              | None => production s ∉ [ProductionStatus.ON_HOLD; ProductionStatus.EXCEPTION]
              end;
  wf_running : commercial s ∈ [CommercialOrderStatus.ACTIVE;
                               CommercialOrderStatus.CANCELLATION_REVIEW;
                               CommercialOrderStatus.COMPLETED] →
               intake s = IntakeStatus.ACCEPTED;
  wf_completed : commercial s = CommercialOrderStatus.COMPLETED →
                 production s = ProductionStatus.RELEASED
                 ∧ (required_delivery_legs_succeeded s || self_collection_recorded s) = true
                 ∧ balance s ∈ [OrderBalanceStatus.PAID; OrderBalanceStatus.ON_ACCOUNT];
  wf_refunded : balance s = OrderBalanceStatus.REFUNDED →
                commercial s = CommercialOrderStatus.CANCELLED;
}.

(** An order as [OrderRepository.create] writes it. *)
Definition new_order (mode : FulfillmentMode.t) : OrderState :=
  {| commercial := CommercialOrderStatus.REQUESTED; intake := IntakeStatus.AWAITING_HANDOFF;
     production := ProductionStatus.NOT_STARTED; fulfillment_mode := mode;
     balance := OrderBalanceStatus.UNPAID; required_delivery_legs_succeeded := false;
     self_collection_recorded := false; production_accepted_at := None;
     production_resume_status := None |}.

Lemma wf_new_order mode : wf (new_order mode).
Proof.
  split; cbn; first [done | by split; [done|intros [? [=]]] | decided].
Qed.

Lemma production_edge_resume p r q r' :
  ProductionEdge p r q r' →
  match r' with
  | Some x => q ∈ [ProductionStatus.ON_HOLD; ProductionStatus.EXCEPTION] ∧ x ∈ on_the_floor
  | None => (∀ x, r = Some x → x ∈ on_the_floor) →
            q ∉ [ProductionStatus.ON_HOLD; ProductionStatus.EXCEPTION]
  end.
Proof.
  destruct 1 as [p q r Hn|p r Hp|p r Hp|p|p q Hp Hq Hne Hle].
  - intros _. destruct p; cbn in Hn; simplify_eq; decided.
  - split; [decided|done].
  - split; [decided|done].
  - intros Hr. specialize (Hr p eq_refl). revert Hr.
    destruct p; (intros _; decided) || (intros Hp; contradict Hp; decided).
  - intros _. revert Hq. destruct q; (intros _; decided) || (intros Hp'; contradict Hp'; decided).
Qed.

Lemma production_edge_target p r q r' :
  ProductionEdge p r q r' → q ≠ ProductionStatus.NOT_STARTED.
Proof. destruct 1 as [p q r Hn|p r Hp|p r Hp|p|p q Hp Hq Hne Hle]; try done. by destruct p; simplify_eq/=. Qed.

Lemma transition_production_wf s t s' :
  wf s → transition_production s t = Ok s' → wf s'.
Proof.
  intros Hs Ht. apply transition_production_spec in Ht as (Hc & Hi & r' & He & ->).
  destruct Hs as [Ha Hst Hr Hrun Hcomp Href].
  pose proof (production_edge_resume _ _ _ _ He) as Hres.
  split; cbn; try done.
  - destruct r' as [x|]; [done|]. apply Hres. intros x Hx. rewrite Hx in Hr. naive_solver.
  - intros Hcomp'. contradict Hc. rewrite Hcomp'. decided.
Qed.

(** What a commercial move leaves alone, and when it may settle or refund. *)
Lemma transition_commercial_shape s t ca cr res uv s' :
  transition_commercial s t ca cr res uv = Ok s' →
  ∃ b, s' = set_commercial s t b ∧
    (t ≠ CommercialOrderStatus.CANCELLED → b = balance s).
Proof.
  unfold transition_commercial. intros H. result_inv.
  case_bool_decide; result_inv; [eauto|].
  case_bool_decide; [|result_inv; eauto].
  case_bool_decide; result_inv; eexists; (split; [done|congruence]).
Qed.

Lemma balance_after_cancellation_spec b res b' :
  _balance_after_cancellation b res = Ok b' →
  (b' = b ∧ (b = OrderBalanceStatus.UNPAID ∨
             res = Some CustodyResolution.UNCLAIMED_DISPOSED ∧
             b ∈ [OrderBalanceStatus.PAID; OrderBalanceStatus.PARTIALLY_PAID])) ∨
  (b' = OrderBalanceStatus.REFUNDED ∧
   b ∈ [OrderBalanceStatus.PAID; OrderBalanceStatus.PARTIALLY_PAID] ∧
   ∃ r, res = Some r ∧ r ∈ CUSTOMER_NOT_CHARGED_RESOLUTIONS).
Proof.
  unfold _balance_after_cancellation.
  case_bool_decide; [naive_solver|].
  destruct (_ && _) eqn:Hd; [guards; naive_solver|]. clear Hd.
  case_bool_decide; [|done]. destruct res as [r|]; [|done].
  case_bool_decide; naive_solver.
Qed.

(** The guards each commercial target passed. *)
Lemma transition_commercial_guards s t ca cr res uv s' :
  transition_commercial s t ca cr res uv = Ok s' →
  match t with
  | CommercialOrderStatus.COMPLETED =>
      commercial s = CommercialOrderStatus.ACTIVE ∧
      production s = ProductionStatus.RELEASED ∧
      (required_delivery_legs_succeeded s || self_collection_recorded s) = true ∧
      balance s ∈ [OrderBalanceStatus.PAID; OrderBalanceStatus.ON_ACCOUNT] ∧
      s' = set_commercial s t (balance s)
  | CommercialOrderStatus.CANCELLED =>
      t ∈ COMMERCIAL_TRANSITIONS (commercial s) ∧
      (commercial s = CommercialOrderStatus.CANCELLATION_REVIEW ∧
       ca = true ∧ cr = true ∧
       _reject_resolution_contradicting_the_record s res = Ok tt ∧
       _balance_after_cancellation (balance s) res = Ok (balance s')
       ∨ commercial s ≠ CommercialOrderStatus.CANCELLATION_REVIEW ∧
       _work_has_begun s = false ∧ balance s' = balance s)
  | CommercialOrderStatus.ACTIVE =>
      t ∈ COMMERCIAL_TRANSITIONS (commercial s) ∧ intake s = IntakeStatus.ACCEPTED ∧
      s' = set_commercial s t (balance s)
  | _ => t ∈ COMMERCIAL_TRANSITIONS (commercial s) ∧ s' = set_commercial s t (balance s)
  end.
Proof.
  unfold transition_commercial. intros H. result_inv.
  destruct (decide (t = CommercialOrderStatus.COMPLETED)) as [->|Hcomp].
  { rewrite bool_decide_true in H by done. result_inv. guards. naive_solver. }
  rewrite bool_decide_false in H by done. result_inv. guards.
  destruct (decide (t = CommercialOrderStatus.CANCELLED)) as [->|Hcanc].
  - rewrite bool_decide_true in H by done. split; [done|].
    case_if H; guards; cbn; [left|right]; [|by split_and!].
    match goal with u : () |- _ => destruct u end. by split_and!.
  - rewrite bool_decide_false in H by done. result_inv.
    destruct t; split_and!; try done.
    apply andb_false_iff in H2 as [Hf|Hf]; guards; done.
Qed.

Lemma transition_commercial_wf s t ca cr res uv s' :
  wf s → transition_commercial s t ca cr res uv = Ok s' → wf s'.
Proof.
  intros [Ha Hst Hr Hrun Hcomp Href] Ht.
  pose proof (transition_commercial_guards _ _ _ _ _ _ _ Ht) as Hg.
  destruct (transition_commercial_shape _ _ _ _ _ _ _ Ht) as (b & -> & Hb).
  split; cbn; try done.
  - intros Hin. destruct t; try (contradict Hin; decided).
    + by destruct Hg as (_ & ? & _).
    + destruct Hg as [Hg _]. apply Hrun. revert Hg.
      destruct (commercial s); (intros _; decided) || (intros Hg; contradict Hg; decided).
    + apply Hrun. destruct Hg as [-> _]. decided.
  - intros ->. destruct Hg as (_ & ? & ? & ? & _).
    split_and!; [done|done|]. by rewrite Hb.
  - intros ->. destruct (decide (t = CommercialOrderStatus.CANCELLED)) as [?|Hne]; [done|].
    specialize (Hb Hne). specialize (Href (eq_sym Hb)). rewrite Href in Hg.
    destruct t; try done; destruct Hg as [Hg _]; first [done | contradict Hg; decided].
Qed.

Lemma transition_intake_guards s t rd at_ s' :
  transition_intake s t rd at_ = Ok s' →
  commercial s ∉ TERMINAL_COMMERCIAL_STATUSES ∧
  intake s ∉ [IntakeStatus.ACCEPTED; IntakeStatus.REJECTED] ∧
  if t is? IntakeStatus.ACCEPTED then
    s' = set_intake s t at_ ∧ (∃ r, rd = Some r ∧ ready r = true) ∧
    (∃ d, at_ = Some d ∧ aware d = true) ∧ production_accepted_at s = None ∧
    intake s ≠ IntakeStatus.AWAITING_HANDOFF
  else s' = set_intake s t (production_accepted_at s).
Proof.
  unfold transition_intake. intros H. result_inv. guards. split; [done|]. split; [done|].
  destruct (decide (t = IntakeStatus.REJECTED)) as [->|Hrej].
  { rewrite bool_decide_true in H by done. by result_inv. }
  rewrite bool_decide_false in H by done. result_inv.
  destruct (decide (t = IntakeStatus.ACCEPTED)) as [->|Hacc].
  - rewrite bool_decide_true in H |- * by done. result_inv. guards.
    destruct rd as [r|], at_ as [d|]; try done. guards. split_and!; eauto.
    + apply eq_None_not_Some. done.
    + intros Hi. match goal with H : _ && _ = false |- _ => rename H into Hf end.
      rewrite (bool_decide_true _ Hi) in Hf. done.
  - rewrite bool_decide_false in H |- * by done. by result_inv.
Qed.

Lemma transition_intake_wf s t rd at_ s' :
  wf s → transition_intake s t rd at_ = Ok s' → wf s'.
Proof.
  intros [Ha Hst Hr Hrun Hcomp Href] Ht.
  apply transition_intake_guards in Ht as (Hc & Hi & Ht).
  assert (intake s ≠ IntakeStatus.ACCEPTED) as Hna by set_solver.
  assert (production s = ProductionStatus.NOT_STARTED) as Hp by (apply dec_stable; auto).
  assert (production_accepted_at s = None) as Hnone
    by (apply eq_None_not_Some; by rewrite <- Ha).
  case_bool_decide as Hacc.
  - destruct Ht as (-> & _ & (d & -> & _) & _). by split.
  - rewrite Ht. split; cbn; try done.
    + rewrite Hnone. split; [done|by intros [? [=]]].
    + intros Hr'. exfalso; eauto.
Qed.

(** the production machine refines its abstract specification: on an order that is
    not closed and whose goods intake accepted, [transition_production] accepts exactly
    the edges of [ProductionEdge] -- one stage forward, a hold or an exception that
    remembers where the work stopped, the lifted hold back to that stage and no other,
    an exception back to that stage or an earlier one -- writes exactly that edge's
    status and resume point, and refuses everything else. *)
Theorem transition_production_refines s t s' :
  transition_production s t = Ok s' ↔
  commercial s ∉ TERMINAL_COMMERCIAL_STATUSES ∧ intake s = IntakeStatus.ACCEPTED ∧
  ∃ r', ProductionEdge (production s) (production_resume_status s) t r' ∧
        s' = set_production s t r'.
Proof. apply transition_production_spec. Qed.

(** no transition, on any of the three axes and whatever its arguments, takes a
    well-formed order to an ill-formed one. *)
Theorem transitions_preserve_wf s s' :
  wf s →
  (∃ t ca cr res uv, transition_commercial s t ca cr res uv = Ok s') ∨
  (∃ t rd at_, transition_intake s t rd at_ = Ok s') ∨
  (∃ t, transition_production s t = Ok s') →
  wf s'.
Proof.
  intros Hs [(t & ca & cr & res & uv & H)|[(t & rd & at_ & H)|(t & H)]].
  - by eapply transition_commercial_wf.
  - by eapply transition_intake_wf.
  - by eapply transition_production_wf.
Qed.

Lemma transitions_preserve_wf_witness :
  ∃ s', transition_intake (new_order FulfillmentMode.SELF_DROP_SELF_COLLECT)
          IntakeStatus.RECEIVED_PENDING_INSPECTION None None = Ok s' ∧ wf s'.
Proof.
  eexists. split; [vm_compute; reflexivity|].
  apply (transitions_preserve_wf (new_order FulfillmentMode.SELF_DROP_SELF_COLLECT)).
  - apply wf_new_order.
  - right; left. exists IntakeStatus.RECEIVED_PENDING_INSPECTION, None, None. vm_compute. reflexivity.
Defined.
