(* ===== verification/Accounts.v ===== *)
(** Account customers ([packages/domain/.../accounts.py]): the owner's limit, due
    dates of monthly statements, the overdue block and its lift, whether an
    account lets an order leave unpaid, and the oldest-first split of a payment. *)
From S2P Require Import Prelude Catalog Clock.
Local Open Scope Z_scope.
Local Open Scope laundry_scope.

Definition STATEMENT_DUE_DAY : Z := 15.
Definition MAX_ACCOUNT_VND : Z := 9_007_199_254_740_991.
Definition MAX_LIFT_DAYS : Z := 31.

Module AccountStatus.
Inductive t :=
  | ACTIVE | SUSPENDED.
#[export] Instance eq_dec : EqDecision t.
Proof. solve_decision. Defined.
End AccountStatus.

Module AccountRefusal.
Inductive t :=
  | ACCOUNT_TERMS_UNPUBLISHED | ACCOUNT_REQUIRES_BUSINESS | CUSTOMER_ERASED
  | ACCOUNT_ALREADY_OPEN | NOT_AN_ACCOUNT_CUSTOMER | ACCOUNT_SUSPENDED
  | ACCOUNT_LIMIT_UNSET | ACCOUNT_LIMIT_INVALID | ACCOUNT_LIMIT_EXCEEDED
  | ACCOUNT_OVERDUE | LIFT_EXPIRY_INVALID | LIFT_REASON_REQUIRED | NOTHING_TO_CHANGE
  | MONTH_INVALID | MONTH_NOT_ENDED | ORDER_NOT_ACTIVE | NOTHING_OWED
  | NO_PRESENTABLE_TOTAL | GOODS_NOT_READY_FOR_HANDOVER
  | ACCOUNT_CHARGE_IS_THE_HANDOVER | COLLECTION_WAS_NOT_BY_THE_CUSTOMER
  | ALREADY_COLLECTED.
#[export] Instance eq_dec : EqDecision t.
Proof. solve_decision. Defined.
End AccountRefusal.

#[export] Existing Instance AccountStatus.eq_dec.
#[export] Existing Instance AccountRefusal.eq_dec.

(** [AccountRuleError] carries its refusal; a plain [ValueError] is a caller's bug. *)
Inductive AccountError :=
| AccountRuleError (code : AccountRefusal.t)
| ValueError.
#[export] Instance account_error_eq_dec : EqDecision AccountError.
Proof. solve_decision. Defined.

Abbreviation account_result A := (result AccountError A).

(** * Months and due dates *)

(** A calendar date; ordered by year, then month, then day, as Python orders it. *)
Record date := Date { year : Z; month : Z; day : Z }.
#[export] Instance date_eq_dec : EqDecision date.
Proof. solve_decision. Defined.

Definition date_ltb (a b : date) : bool :=
  (year a <? year b)
  || ((year a =? year b) && ((month a <? month b)
      || ((month a =? month b) && (day a <? day b)))).

Definition _require_first_day (m : date) : account_result unit :=
  raise_if (negb (day m =? 1)) ValueError.

Definition next_month (m : date) : account_result date :=
  _require_first_day m ;;
  Ok (if month m =? 12 then Date (year m + 1) 1 1 else Date (year m) (month m + 1) 1).

Definition previous_month (m : date) : account_result date :=
  _require_first_day m ;;
  Ok (if month m =? 1 then Date (year m - 1) 12 1 else Date (year m) (month m - 1) 1).

Definition statement_due_on (m : date) : account_result date :=
  following ← next_month m;
  Ok (Date (year following) (month following) STATEMENT_DUE_DAY).

Definition latest_due_month (today : date) : account_result date :=
  let m := Date (year today) (month today) 1 in
  candidate ← previous_month m;
  due ← statement_due_on candidate;
  if date_ltb due today then Ok candidate else previous_month candidate.

(** * The limit and the owner's lift *)

(** The owner's typed limit: [None] is "not typed yet". *)
Definition validate_limit (value : option Z) : account_result (option Z) :=
  match value with
  | None => Ok None
  | Some v =>
      raise_if ((v <? 1) || (MAX_ACCOUNT_VND <? v))
        (AccountRuleError AccountRefusal.ACCOUNT_LIMIT_INVALID) ;;
      Ok (Some v)
  end.

(** Days are proleptic ordinals, which is how Python orders and adds dates. *)
Definition lift_until_instant (until today : Z) : account_result datetime :=
  raise_if ((until <? today) || (today + MAX_LIFT_DAYS <? until))
    (AccountRuleError AccountRefusal.LIFT_EXPIRY_INVALID) ;;
  Ok (midnight (until + 1) HO_CHI_MINH).

(** * Where an account stands *)

Record AccountStanding := {
  status : AccountStatus.t;
  credit_limit_vnd : option Z;
  outstanding_vnd : Z;
  overdue_vnd : Z;
  overdue_block_lifted_until : option datetime;
  as_of : datetime;
}.

Definition overdue (s : AccountStanding) : bool := 0 <? overdue_vnd s.

Definition block_lifted (s : AccountStanding) : bool :=
  match overdue_block_lifted_until s with
  | Some until => dt_ltb (as_of s) until
  | None => false
  end.

Definition available_vnd (s : AccountStanding) : option Z :=
  match credit_limit_vnd s with
  | None => None
  | Some limit => Some (Z.max (limit - outstanding_vnd s) 0)
  end.

Record AccountHandoverFacts := {
  standing : AccountStanding;
  order_remaining_vnd : Z;
}.

Definition _whole (v : Z) : bool := (0 <=? v) && (v <=? MAX_ACCOUNT_VND).

Definition account_handover_refusal (facts : AccountHandoverFacts)
    : account_result (option AccountRefusal.t) :=
  let st := standing facts in
  if status st is? AccountStatus.SUSPENDED then Ok (Some AccountRefusal.ACCOUNT_SUSPENDED)
  else match credit_limit_vnd st with
  | None => Ok (Some AccountRefusal.ACCOUNT_LIMIT_UNSET)
  | Some limit =>
      if overdue st && negb (block_lifted st) then Ok (Some AccountRefusal.ACCOUNT_OVERDUE)
      else
      raise_if (negb (_whole (order_remaining_vnd facts)) || negb (_whole (outstanding_vnd st)))
        ValueError ;;
      if limit <? outstanding_vnd st + order_remaining_vnd facts
      then Ok (Some AccountRefusal.ACCOUNT_LIMIT_EXCEEDED)
      else Ok None
  end.

(** * A payment against the account *)

Record OpenCharge := { charge_id : string; order_id : string; remaining_vnd : Z }.

Record Allocation := {
  alloc_charge_id : string;
  alloc_order_id : string;
  amount_vnd : Z;
  settles : bool;
}.

(** The loop body: what is left of the payment, and the allocations; stopping early is
    the [break]. *)
Fixpoint allocate_loop (unspent : Z) (open_charges : list OpenCharge)
    : account_result (Z * list Allocation) :=
  match open_charges with
  | [] => Ok (unspent, [])
  | item :: rest =>
      raise_if (negb (_whole (remaining_vnd item)) || (remaining_vnd item <? 1)) ValueError ;;
      if unspent =? 0 then Ok (unspent, [])
      else
        let take := Z.min unspent (remaining_vnd item) in
        '(unspent', allocations) ← allocate_loop (unspent - take) rest;
        Ok (unspent', {| alloc_charge_id := charge_id item; alloc_order_id := order_id item;
                      amount_vnd := take; settles := take =? remaining_vnd item |}
                   :: allocations)
  end.

Definition allocate_oldest_first (amount : Z) (open_charges : list OpenCharge)
    : account_result (list Allocation) :=
  raise_if (negb (_whole amount) || (amount <? 1)) ValueError ;;
  '(unspent, allocations) ← allocate_loop amount open_charges;
  raise_if (negb (unspent =? 0)) ValueError ;;
  Ok allocations.

Example allocate_example :
  amount_vnd <$> default [] (match allocate_oldest_first 70
    [{| charge_id := "a"; order_id := "1"; remaining_vnd := 50 |};
     {| charge_id := "b"; order_id := "2"; remaining_vnd := 40 |};
     {| charge_id := "c"; order_id := "3"; remaining_vnd := 9 |}]
    with Ok l => Some l | Err _ => None end) = [50; 20].
Proof. reflexivity. Qed.

(** * Facts *)

Definition owed (cs : list OpenCharge) : Z := sumZ (remaining_vnd <$> cs).
Definition open_charge_valid (c : OpenCharge) : Prop := 1 <= remaining_vnd c <= MAX_ACCOUNT_VND.

Lemma whole_iff v : _whole v = true ↔ 0 <= v <= MAX_ACCOUNT_VND.
Proof. unfold _whole. lia. Qed.

(** The loop never fails on charges that owe something, spends what it can, and
    pays each charge the rest of the payment or its own remainder. *)
Lemma allocate_loop_spec cs : Forall open_charge_valid cs → ∀ a, 0 <= a →
  ∃ l, allocate_loop a cs = Ok (a - Z.min a (owed cs), l) ∧
    sumZ (amount_vnd <$> l) = Z.min a (owed cs) ∧
    ∀ i x, l !! i = Some x → ∃ c, cs !! i = Some c ∧
      alloc_charge_id x = charge_id c ∧ alloc_order_id x = order_id c ∧
      amount_vnd x = Z.min (remaining_vnd c) (a - owed (take i cs)) ∧
      1 <= amount_vnd x ∧ settles x = (amount_vnd x =? remaining_vnd c).
Proof.
  induction 1 as [|c cs Hc Hcs IH]; intros a Ha.
  { exists []. cbn. rewrite Z.min_r by done. split_and!; [f_equal; f_equal; lia|done|done]. }
  assert (0 <= owed cs) as Hpos.
  { apply sumZ_nonneg, Forall_fmap. eapply Forall_impl; [exact Hcs|].
    unfold open_charge_valid; cbn. lia. }
  assert (owed (c :: cs) = remaining_vnd c + owed cs) as Howed by done.
  unfold open_charge_valid in Hc. cbn [allocate_loop].
  replace (negb (_whole (remaining_vnd c)) || (remaining_vnd c <? 1)) with false
    by (unfold _whole; lia). cbn [raise_if mbind result_bind].
  destruct (Z.eqb_spec a 0) as [->|Hne].
  { exists []. rewrite Z.min_l by lia. split_and!; [f_equal; f_equal; lia|done|done]. }
  destruct (IH (a - Z.min a (remaining_vnd c))) as (l & -> & Hsum & Hl); [lia|].
  eexists; cbn [mbind result_bind]. split; [f_equal; f_equal; rewrite Howed; lia|].
  split; [cbn [fmap list_fmap]; rewrite sumZ_cons, Hsum, Howed; cbn; lia|].
  intros [|i] x; cbn [lookup list_lookup].
  - intros [= <-]. exists c. cbn. split_and!; try done; unfold owed; cbn; lia.
  - intros Hx. destruct (Hl i x Hx) as (c' & Hc' & ? & ? & Hamt & Hge & ?).
    exists c'. split_and!; try done. rewrite Hamt. cbn [take].
    change (owed (c :: take i cs)) with (remaining_vnd c + owed (take i cs)).
    assert (0 <= owed (take i cs)) as Hpre.
    { apply sumZ_nonneg, Forall_fmap, Forall_take. eapply Forall_impl; [exact Hcs|].
      unfold open_charge_valid; cbn. lia. }
    lia.
Qed.

(** an account payment is split oldest first and completely.  When it is at
    most what the account owes, the split succeeds, its amounts sum to the
    payment, the i-th allocation belongs to the i-th open charge and is that
    charge's remainder or whatever the older charges left of the payment, and it
    is marked settling exactly when it pays the charge in full; a payment larger
    than everything owed raises. *)
Theorem allocate_oldest_first_correct amount cs :
  Forall open_charge_valid cs → 1 <= amount <= MAX_ACCOUNT_VND →
  (amount <= owed cs →
   ∃ l, allocate_oldest_first amount cs = Ok l ∧ sumZ (amount_vnd <$> l) = amount ∧
     ∀ i x, l !! i = Some x → ∃ c, cs !! i = Some c ∧
       alloc_charge_id x = charge_id c ∧ alloc_order_id x = order_id c ∧
       amount_vnd x = Z.min (remaining_vnd c) (amount - owed (take i cs)) ∧
       1 <= amount_vnd x ∧ settles x = (amount_vnd x =? remaining_vnd c)) ∧
  (owed cs < amount → allocate_oldest_first amount cs = Err ValueError).
Proof.
  intros Hcs Ha. destruct (allocate_loop_spec cs Hcs amount) as (l & Hloop & Hsum & Hl); [lia|].
  unfold allocate_oldest_first.
  replace (negb (_whole amount) || (amount <? 1)) with false by (unfold _whole; lia).
  rewrite Hloop. cbn. split; intros Howed.
  - exists l. rewrite Z.min_l in * by lia. rewrite Z.sub_diag. by split_and!.
  - rewrite Z.min_r by lia. by replace (amount - owed cs =? 0) with false by lia.
Qed.

Lemma allocate_oldest_first_correct_witness :
  let cs := [{| charge_id := "a"; order_id := "1"; remaining_vnd := 50 |};
             {| charge_id := "b"; order_id := "2"; remaining_vnd := 40 |}] in
  (∃ l, allocate_oldest_first 70 cs = Ok l ∧ sumZ (amount_vnd <$> l) = 70) ∧
  allocate_oldest_first 91 cs = Err ValueError.
Proof.
  set (cs := [_; _]).
  assert (Forall open_charge_valid cs) as Hcs
    by (repeat constructor; unfold MAX_ACCOUNT_VND; cbn; lia).
  split.
  - destruct (allocate_oldest_first_correct 70 cs Hcs) as [H _]; [unfold MAX_ACCOUNT_VND; lia|].
    destruct H as (l & ? & ? & _); [vm_compute; discriminate|]. by exists l.
  - apply (allocate_oldest_first_correct 91 cs Hcs); [unfold MAX_ACCOUNT_VND; lia|].
    vm_compute. reflexivity.
Defined.

(** * Due dates *)

Definition date_valid (d : date) : Prop := 1 <= month d <= 12 ∧ 1 <= day d <= 31.

Lemma date_ltb_lt a b :
  date_ltb a b = true ↔
  year a < year b ∨ year a = year b ∧ (month a < month b ∨ month a = month b ∧ day a < day b).
Proof. unfold date_ltb. lia. Qed.

(** A calendar month, by its first day. *)
Definition month_start (m : date) : Prop := day m = 1 ∧ 1 <= month m <= 12.

Definition month_before (a b : date) : Prop :=
  year a < year b ∨ year a = year b ∧ month a < month b.

Lemma next_month_Ok m :
  month_start m → ∃ n, next_month m = Ok n ∧ month_start n ∧ month_before m n.
Proof.
  destruct m as [y mo d]; intros [Hd Hm]; cbn in Hd, Hm; subst d.
  unfold next_month, _require_first_day, month_start, month_before. cbn.
  destruct (Z.eqb_spec mo 12); eexists; (split; [done|]); cbn; lia.
Qed.

Lemma previous_month_Ok m :
  month_start m →
  ∃ p, previous_month m = Ok p ∧ month_start p ∧ month_before p m ∧ next_month p = Ok m.
Proof.
  destruct m as [y mo d]; intros [Hd Hm]; cbn in Hd, Hm; subst d.
  unfold previous_month, next_month, _require_first_day, month_start, month_before. cbn.
  destruct (Z.eqb_spec mo 1) as [->|]; eexists; (split; [done|]); cbn.
  - split_and!; [lia..|]. repeat f_equal; lia.
  - replace (mo - 1 =? 12) with false by lia. split_and!; [lia..|]. repeat f_equal; lia.
Qed.

Lemma statement_due_on_next m n :
  next_month m = Ok n → statement_due_on m = Ok (Date (year n) (month n) STATEMENT_DUE_DAY).
Proof. unfold statement_due_on. by intros ->. Qed.

(** [latest_due_month] is the latest statement month already past due: on any
    calendar day it returns a month whose due date (the 15th of the next month)
    is strictly before that day, while the following month is not yet past due. *)
Theorem latest_due_month_is_latest today :
  date_valid today →
  ∃ m due n due', latest_due_month today = Ok m ∧ statement_due_on m = Ok due ∧
    date_ltb due today = true ∧
    next_month m = Ok n ∧ statement_due_on n = Ok due' ∧ date_ltb due' today = false.
Proof.
  intros [Hm Hd]. set (first := Date (year today) (month today) 1).
  assert (month_start first) as Hfirst by (split; [done|exact Hm]).
  destruct (previous_month_Ok first Hfirst) as (p & Hp & Hp1 & Hpb & Hpn).
  destruct (previous_month_Ok p Hp1) as (q & Hq & Hq1 & Hqb & Hqn).
  destruct (next_month_Ok first Hfirst) as (n & Hn & Hn1 & Hnb).
  unfold month_start, month_before in *. cbn in Hpb, Hnb.
  unfold latest_due_month. fold first. rewrite Hp. cbn.
  rewrite (statement_due_on_next p first Hpn). cbn.
  destruct (date_ltb (Date _ _ STATEMENT_DUE_DAY) today) eqn:Hlt.
  - eexists p, _, first, _. rewrite (statement_due_on_next p first Hpn),
      (statement_due_on_next first n Hn). split_and!; [done..|].
    unfold date_ltb, STATEMENT_DUE_DAY; cbn. lia.
  - eexists q, _, p, _. rewrite (statement_due_on_next p first Hpn),
      (statement_due_on_next q p Hqn). split_and!; [done|done| |done|done|done].
    unfold date_ltb, STATEMENT_DUE_DAY; cbn. lia.
Qed.

Lemma latest_due_month_is_latest_witness :
  ∃ m due n due', latest_due_month (Date 2026 10 16) = Ok m ∧ statement_due_on m = Ok due ∧
    date_ltb due (Date 2026 10 16) = true ∧
    next_month m = Ok n ∧ statement_due_on n = Ok due' ∧
    date_ltb due' (Date 2026 10 16) = false.
Proof. apply (latest_due_month_is_latest (Date 2026 10 16)). split; cbn; lia. Defined.

(** * When the account lets goods leave *)

(** An account lets an order leave exactly under the owner's four conditions. *)
Lemma account_handover_refusal_None f :
  account_handover_refusal f = Ok None ↔
  status (standing f) = AccountStatus.ACTIVE ∧
  (∃ limit, credit_limit_vnd (standing f) = Some limit ∧
     outstanding_vnd (standing f) + order_remaining_vnd f <= limit) ∧
  (overdue (standing f) = false ∨ block_lifted (standing f) = true) ∧
  _whole (order_remaining_vnd f) = true ∧ _whole (outstanding_vnd (standing f)) = true.
Proof.
  unfold account_handover_refusal.
  destruct (status (standing f)); cbn; [|split; [done|naive_solver]].
  destruct (credit_limit_vnd (standing f)) as [limit|]; [|split; [done|naive_solver]].
  destruct (overdue _) eqn:Ho, (block_lifted _) eqn:Hl; cbn;
    destruct (_whole (order_remaining_vnd f)), (_whole (outstanding_vnd (standing f))); cbn;
    try (split; [done|naive_solver]);
    destruct (Z.ltb_spec limit (outstanding_vnd (standing f) + order_remaining_vnd f));
    (split; [intros ?; first [done | split_and!; eauto with lia] | naive_solver lia]).
Qed.
