(* ===== verification/Settlement.v ===== *)
(** Settlement ([packages/domain/.../settlement.py]): the supported settlement
    shapes, the "goods leave only when paid" rule every door of the shop asks,
    and the pickup of a prepaid order. *)
From S2P Require Import Prelude Catalog Clock Orders Accounts.
Local Open Scope laundry_scope.
Local Open Scope string_scope.
Local Open Scope Z_scope.

Definition MAX_SETTLEMENT_VND : Z := 9007199254740991.

Module SettlementShape.
Inductive t :=
| EXACT_PAYMENT_SELF_COLLECTION
| EXACT_PAYMENT_PREPAID_DELIVERY
| EXACT_PAYMENT_PREPAID_SELF_COLLECTION
| EXACT_PAYMENT_ON_ACCOUNT.
#[export] Instance eq_dec : EqDecision t.
Proof. solve_decision. Defined.
End SettlementShape.
#[export] Existing Instance SettlementShape.eq_dec.

Module SettlementRefusal.
Inductive t :=
| NO_PRESENTABLE_TOTAL
| TOTAL_IS_A_RANGE
| AMOUNT_IS_NOT_THE_EXACT_TOTAL
| COLLECTION_WAS_NOT_BY_THE_CUSTOMER.
#[export] Instance eq_dec : EqDecision t.
Proof. solve_decision. Defined.
End SettlementRefusal.
#[export] Existing Instance SettlementRefusal.eq_dec.

Definition REFUSAL_DECISIONS (r : SettlementRefusal.t) : string :=
  match r with
  | SettlementRefusal.NO_PRESENTABLE_TOTAL => "DEC-003"
  | SettlementRefusal.TOTAL_IS_A_RANGE => "DEC-001"
  | SettlementRefusal.AMOUNT_IS_NOT_THE_EXACT_TOTAL => "DEC-010"
  | SettlementRefusal.COLLECTION_WAS_NOT_BY_THE_CUSTOMER => "DEC-003"
  end.

Record QuotedTotal := { minimum_vnd : option Z; maximum_vnd : option Z }.

Inductive SettlementOutcome :=
| SettlementAccepted (shape : SettlementShape.t) (expected_total_vnd : Z)
| SettlementNotSupported (refusal : SettlementRefusal.t) (decision : string).
#[export] Instance settlement_outcome_eq_dec : EqDecision SettlementOutcome.
Proof. solve_decision. Defined.

Definition _refuse (r : SettlementRefusal.t) : SettlementOutcome :=
  SettlementNotSupported r (REFUSAL_DECISIONS r).

Definition _valid_amount (value : Z) : bool := (0 <=? value) && (value <=? MAX_SETTLEMENT_VND).

Definition evaluate_settlement (quoted : QuotedTotal) (tendered_vnd : Z)
    (collected_by_customer : bool) (mode : FulfillmentMode.t) (on_account : bool)
    : SettlementOutcome :=
  if negb (_valid_amount tendered_vnd)
  then _refuse SettlementRefusal.AMOUNT_IS_NOT_THE_EXACT_TOTAL
  else match minimum_vnd quoted, maximum_vnd quoted with
  | Some minimum, Some maximum =>
      if negb (minimum =? maximum) then _refuse SettlementRefusal.TOTAL_IS_A_RANGE
      else if negb (_valid_amount minimum) then _refuse SettlementRefusal.NO_PRESENTABLE_TOTAL
      else if negb (tendered_vnd =? minimum)
      then _refuse SettlementRefusal.AMOUNT_IS_NOT_THE_EXACT_TOTAL
      else if on_account then
        if collected_by_customer
        then _refuse SettlementRefusal.COLLECTION_WAS_NOT_BY_THE_CUSTOMER
        else SettlementAccepted SettlementShape.EXACT_PAYMENT_ON_ACCOUNT minimum
      else if collected_by_customer then
        if mode in? MODES_EXPECTING_RETURN
        then _refuse SettlementRefusal.COLLECTION_WAS_NOT_BY_THE_CUSTOMER
        else SettlementAccepted SettlementShape.EXACT_PAYMENT_SELF_COLLECTION minimum
      else if negb (mode in? MODES_EXPECTING_RETURN)
      then SettlementAccepted SettlementShape.EXACT_PAYMENT_PREPAID_SELF_COLLECTION minimum
      else SettlementAccepted SettlementShape.EXACT_PAYMENT_PREPAID_DELIVERY minimum
  | _, _ => _refuse SettlementRefusal.NO_PRESENTABLE_TOTAL
  end.

(** * When goods may leave *)

Definition HANDOVER_READY_PRODUCTION : list ProductionStatus.t :=
  [ProductionStatus.READY_AT_STORE; ProductionStatus.RELEASED].

Definition GOODS_NOT_READY_FOR_HANDOVER := "GOODS_NOT_READY_FOR_HANDOVER".
Definition RELEASE_REQUIRES_PAYMENT := "RELEASE_REQUIRES_PAYMENT".
Definition DELIVERY_REQUIRES_PAYMENT := "DELIVERY_REQUIRES_PAYMENT".

Definition handover_refusal (p : ProductionStatus.t) : option string :=
  if p in? HANDOVER_READY_PRODUCTION then None else Some GOODS_NOT_READY_FOR_HANDOVER.

Definition GOODS_MAY_LEAVE_BALANCES : list OrderBalanceStatus.t :=
  [OrderBalanceStatus.PAID; OrderBalanceStatus.ON_ACCOUNT].

Definition _OWING_BALANCES : list OrderBalanceStatus.t :=
  [OrderBalanceStatus.UNPAID; OrderBalanceStatus.PARTIALLY_PAID].

Definition goods_may_leave (b : OrderBalanceStatus.t) (account : option AccountHandoverFacts)
    : account_result bool :=
  if b in? GOODS_MAY_LEAVE_BALANCES then Ok true
  else match account with
  | None => Ok false
  | Some facts =>
      if negb (b in? _OWING_BALANCES) then Ok false
      else refusal ← account_handover_refusal facts; Ok (refusal is? None)
  end.

(** The callers without an account never reach the fallible branch. *)
Definition goods_paid (b : OrderBalanceStatus.t) : bool := b in? GOODS_MAY_LEAVE_BALANCES.

Lemma goods_may_leave_None b : goods_may_leave b None = Ok (goods_paid b).
Proof. unfold goods_may_leave, goods_paid. by destruct (b in? GOODS_MAY_LEAVE_BALANCES). Qed.

Definition delivery_refusal (b : OrderBalanceStatus.t) (p : ProductionStatus.t)
    : account_result (option string) :=
  match handover_refusal p with
  | Some refusal => Ok (Some refusal)
  | None =>
      leave ← goods_may_leave b None;
      if negb leave then Ok (Some DELIVERY_REQUIRES_PAYMENT) else Ok None
  end.

Module CollectionRefusal.
Inductive t :=
| ORDER_NOT_ACTIVE
| ALREADY_COLLECTED
| COLLECTION_REQUIRES_PAYMENT
| NOT_A_PREPAID_SELF_COLLECTION
| GOODS_NOT_READY_FOR_HANDOVER.
#[export] Instance eq_dec : EqDecision t.
Proof. solve_decision. Defined.
End CollectionRefusal.
#[export] Existing Instance CollectionRefusal.eq_dec.

Definition evaluate_collection (c : CommercialOrderStatus.t) (p : ProductionStatus.t)
    (b : OrderBalanceStatus.t) (settlement_shape : option SettlementShape.t)
    (collected : bool) : account_result (option CollectionRefusal.t) :=
  if negb (c is? CommercialOrderStatus.ACTIVE)
  then Ok (Some CollectionRefusal.ORDER_NOT_ACTIVE)
  else if collected then Ok (Some CollectionRefusal.ALREADY_COLLECTED)
  else leave ← goods_may_leave b None;
  if negb leave then Ok (Some CollectionRefusal.COLLECTION_REQUIRES_PAYMENT)
  else if negb (settlement_shape is? Some SettlementShape.EXACT_PAYMENT_PREPAID_SELF_COLLECTION)
  then Ok (Some CollectionRefusal.NOT_A_PREPAID_SELF_COLLECTION)
  else if bool_decide (is_Some (handover_refusal p))
  then Ok (Some CollectionRefusal.GOODS_NOT_READY_FOR_HANDOVER)
  else Ok None.

(** * What the rules promise *)

Lemma handover_refusal_None p :
  handover_refusal p = None ↔ p ∈ HANDOVER_READY_PRODUCTION.
Proof. unfold handover_refusal. case_bool_decide; naive_solver. Qed.

(** The shape an exact payment gets, from what happens to the goods. *)
Definition shape_of (collected on_account : bool) (mode : FulfillmentMode.t)
    : option SettlementShape.t :=
  match on_account, collected, mode in? MODES_EXPECTING_RETURN with
  | true, false, _ => Some SettlementShape.EXACT_PAYMENT_ON_ACCOUNT
  | false, true, false => Some SettlementShape.EXACT_PAYMENT_SELF_COLLECTION
  | false, false, false => Some SettlementShape.EXACT_PAYMENT_PREPAID_SELF_COLLECTION
  | false, false, true => Some SettlementShape.EXACT_PAYMENT_PREPAID_DELIVERY
  | true, true, _ | false, true, true => None
  end.

Lemma evaluate_settlement_iff q tendered collected mode on_account shape total :
  evaluate_settlement q tendered collected mode on_account = SettlementAccepted shape total ↔
  total = tendered ∧ 0 <= total <= MAX_SETTLEMENT_VND ∧
  minimum_vnd q = Some total ∧ maximum_vnd q = Some total ∧
  shape_of collected on_account mode = Some shape.
Proof.
  unfold evaluate_settlement, _valid_amount, shape_of.
  destruct q as [[mn|] [mx|]]; cbn [minimum_vnd maximum_vnd];
    destruct (Z.leb_spec 0 tendered), (Z.leb_spec tendered MAX_SETTLEMENT_VND);
    cbn [negb andb]; try (split; [discriminate|intros (?&?&?&?&?); simplify_eq; lia]).
  destruct (Z.eqb_spec mn mx) as [->|]; cbn [negb];
    [|split; [discriminate|intros (?&?&?&?&?); simplify_eq]].
  destruct (Z.leb_spec 0 mx), (Z.leb_spec mx MAX_SETTLEMENT_VND), (Z.eqb_spec tendered mx);
    cbn [negb andb]; try (split; [discriminate|intros (?&?&?&?&?); simplify_eq; lia]).
  subst. destruct on_account, collected, (mode in? MODES_EXPECTING_RETURN); cbn [negb];
    (split; [intros [= <- <-]; by split_and! | intros (?&?&?&?&?); by simplify_eq]).
Qed.

(** a settlement is accepted exactly when the quote presents one total (not a
    range, not unresolved), the money handed over is that total to the đồng and
    a machine-safe amount, and the collection tick does not contradict the
    fulfilment mode or the account charge; the shape recorded is then determined
    by how the goods reach the customer, and the amount is the tendered one. *)
Theorem evaluate_settlement_accepts q tendered collected mode on_account shape total :
  evaluate_settlement q tendered collected mode on_account = SettlementAccepted shape total ↔
  total = tendered ∧ 0 <= total <= MAX_SETTLEMENT_VND ∧
  minimum_vnd q = Some total ∧ maximum_vnd q = Some total ∧
  shape_of collected on_account mode = Some shape.
Proof. apply evaluate_settlement_iff.
Qed.

(** the one statement of "goods leave only when paid": the order's goods may
    leave exactly when its balance is paid or already on account, or when it
    still owes money and its active account, with a typed limit, no unlifted
    overdue statement and room for what the order owes, carries it. *)
Theorem goods_may_leave_iff b account :
  goods_may_leave b account = Ok true ↔
  b ∈ GOODS_MAY_LEAVE_BALANCES ∨
  (b ∈ _OWING_BALANCES ∧ ∃ f limit, account = Some f ∧
     status (standing f) = AccountStatus.ACTIVE ∧
     credit_limit_vnd (standing f) = Some limit ∧
     outstanding_vnd (standing f) + order_remaining_vnd f <= limit ∧
     (overdue (standing f) = false ∨ block_lifted (standing f) = true) ∧
     _whole (order_remaining_vnd f) = true ∧ _whole (outstanding_vnd (standing f)) = true).
Proof.
  unfold goods_may_leave. case_bool_decide as Hb; [naive_solver|].
  destruct account as [f|]; [|naive_solver].
  destruct (decide (b ∈ _OWING_BALANCES)) as [Ho|Ho].
  - rewrite (bool_decide_true _ Ho). cbn. rewrite bind_Ok. split.
    + intros (r & Hr & [= Hn]). apply bool_decide_eq_true in Hn as ->.
      apply account_handover_refusal_None in Hr as (?&(limit&?&?)&?&?&?).
      right. split; [done|]. by exists f, limit.
    + intros [?|(_ & f' & limit & [= <-] & ?&?&?&?&?&?)]; [done|].
      exists None. split; [|done]. apply account_handover_refusal_None. split_and!; eauto.
  - rewrite (bool_decide_false _ Ho). cbn. naive_solver.
Qed.

Lemma evaluate_collection_iff c p b shape collected :
  evaluate_collection c p b shape collected = Ok None ↔
  c = CommercialOrderStatus.ACTIVE ∧ collected = false ∧ b ∈ GOODS_MAY_LEAVE_BALANCES ∧
  shape = Some SettlementShape.EXACT_PAYMENT_PREPAID_SELF_COLLECTION ∧
  p ∈ HANDOVER_READY_PRODUCTION.
Proof.
  unfold evaluate_collection. rewrite goods_may_leave_None, <- handover_refusal_None.
  unfold goods_paid. cbn.
  destruct collected; repeat case_bool_decide; cbn; try naive_solver;
    destruct (handover_refusal p); cbn; naive_solver.
Qed.

(** a pickup is recorded exactly for a running order that was prepaid for
    collection at the counter, whose money lets it leave, whose laundry is
    finished, and that nobody collected before. *)
Theorem evaluate_collection_allows c p b shape collected :
  evaluate_collection c p b shape collected = Ok None ↔
  c = CommercialOrderStatus.ACTIVE ∧ collected = false ∧ b ∈ GOODS_MAY_LEAVE_BALANCES ∧
  shape = Some SettlementShape.EXACT_PAYMENT_PREPAID_SELF_COLLECTION ∧
  p ∈ HANDOVER_READY_PRODUCTION.
Proof. apply evaluate_collection_iff.
Qed.

(** A courier leaves with goods only if they are finished and paid for. *)
Lemma delivery_refusal_allows b p :
  delivery_refusal b p = Ok None ↔
  p ∈ HANDOVER_READY_PRODUCTION ∧ b ∈ GOODS_MAY_LEAVE_BALANCES.
Proof.
  unfold delivery_refusal. rewrite goods_may_leave_None, <- handover_refusal_None. unfold goods_paid.
  destruct (handover_refusal p); cbn; [naive_solver|]. case_bool_decide; cbn; naive_solver.
Qed.
