(* ===== verification/Payments.v ===== *)
(** Payments at the counter ([packages/domain/.../payments.py]): what an order
    owes, what its ledger has taken, and whether one more payment is recorded. *)
From Stdlib Require Import Ascii String.
From S2P Require Import Prelude Catalog Clock Orders Accounts Settlement.
Local Open Scope laundry_scope.
Local Open Scope Z_scope.

Module PaymentMethod.
Inductive t := TIEN_MAT | CHUYEN_KHOAN.
#[export] Instance eq_dec : EqDecision t.
Proof. solve_decision. Defined.
End PaymentMethod.
#[export] Existing Instance PaymentMethod.eq_dec.

Module ChargeKind.
Inductive t := QUOTED_TOTAL | STORAGE_FEE.
#[export] Instance eq_dec : EqDecision t.
Proof. solve_decision. Defined.
End ChargeKind.
#[export] Existing Instance ChargeKind.eq_dec.

Record OrderCharge := { kind : ChargeKind.t; amount_vnd : Z }.

Module PaymentRefusal.
Inductive t :=
| NO_PRESENTABLE_TOTAL | ORDER_NOT_ACTIVE | NOTHING_OWED | PAYMENT_AMOUNT_INVALID
| OVERPAYMENT_REFUSED | TRANSFER_NOT_SEEN | BANK_REF_INVALID | HANDOVER_REQUIRES_FULL_PAYMENT.
#[export] Instance eq_dec : EqDecision t.
Proof. solve_decision. Defined.
End PaymentRefusal.
#[export] Existing Instance PaymentRefusal.eq_dec.

(** [ValueError], and the failed [assert] of [evaluate_payment]. *)
Inductive PaymentError := ValueError | AssertionError.
#[export] Instance payment_error_eq_dec : EqDecision PaymentError.
Proof. solve_decision. Defined.
Abbreviation payment_result A := (result PaymentError A).

(** [[A-Z0-9]] of an ASCII pattern. *)
Definition upper_alnum (c : ascii) : bool :=
  let n := Z.of_nat (nat_of_ascii c) in
  ((65 <=? n) && (n <=? 90)) || ((48 <=? n) && (n <=? 57)).

(** [BANK_REF_PATTERN.fullmatch], the pattern being ^[A-Z0-9]{2,12}$. *)
Definition BANK_REF_PATTERN (text : string) : bool :=
  forallb upper_alnum (list_ascii_of_string text)
  && (2 <=? String.length text)%nat && (String.length text <=? 12)%nat.

Definition PAYABLE_BALANCES : list OrderBalanceStatus.t :=
  [OrderBalanceStatus.UNPAID; OrderBalanceStatus.PARTIALLY_PAID].

Definition _whole_vnd (value : Z) : bool := (0 <=? value) && (value <=? MAX_SETTLEMENT_VND).

(** The outer option is Python's [None]: the quote presents no single total. *)
Definition owed_charges (quoted : QuotedTotal) (storage_fee_vnd : Z)
    : payment_result (option (list OrderCharge)) :=
  match minimum_vnd quoted, maximum_vnd quoted with
  | Some minimum, Some maximum =>
      if negb (minimum =? maximum) then Ok None
      else if negb (_whole_vnd minimum) then Ok None
      else
      raise_if (negb (_whole_vnd storage_fee_vnd)) ValueError ;;
      let charges := [{| kind := ChargeKind.QUOTED_TOTAL; amount_vnd := minimum |}] in
      Ok (Some (if 0 <? storage_fee_vnd
                then charges ++ [{| kind := ChargeKind.STORAGE_FEE;
                                    amount_vnd := storage_fee_vnd |}]
                else charges))
  | _, _ => Ok None
  end.

(** The first charge of the kind, 0 when there is none. *)
Definition charge_amount (charges : option (list OrderCharge)) (k : ChargeKind.t) : Z :=
  match List.find (λ c, kind c is? k) (default [] charges) with
  | Some c => amount_vnd c
  | None => 0
  end.

Definition owed_total (charges : list OrderCharge) : payment_result Z :=
  fold_result (λ total c,
    raise_if (negb (_whole_vnd (amount_vnd c))) ValueError ;; Ok (total + amount_vnd c))
    0 charges.

Record PaymentPosition := {
  position_charges : list OrderCharge;
  position_owed_vnd : option Z;
  position_paid_vnd : Z;
  position_remaining_vnd : option Z;
}.

Definition payment_position (charges : option (list OrderCharge)) (paid_vnd : Z)
    : payment_result PaymentPosition :=
  raise_if (negb (_whole_vnd paid_vnd)) ValueError ;;
  match charges with
  | None => Ok {| position_charges := []; position_owed_vnd := None;
                  position_paid_vnd := paid_vnd; position_remaining_vnd := None |}
  | Some charges =>
      owed ← owed_total charges;
      raise_if (owed <? paid_vnd) ValueError ;;
      Ok {| position_charges := charges; position_owed_vnd := Some owed;
            position_paid_vnd := paid_vnd; position_remaining_vnd := Some (owed - paid_vnd) |}
  end.

Record PaymentAccepted := {
  accepted_amount_vnd : Z;
  owed_vnd : Z;
  paid_after_vnd : Z;
  remaining_after_vnd : Z;
  balance_after : OrderBalanceStatus.t;
  collected_by_customer : bool;
}.

Definition completes (a : PaymentAccepted) : bool :=
  balance_after a is? OrderBalanceStatus.PAID.

Inductive PaymentOutcome :=
| Accepted (a : PaymentAccepted)
| Refused (refusal : PaymentRefusal.t).

Definition evaluate_payment (commercial : CommercialOrderStatus.t)
    (balance : OrderBalanceStatus.t) (charges : option (list OrderCharge))
    (paid_vnd amount_vnd : Z) (method : PaymentMethod.t) (transfer_seen : bool)
    (bank_ref_last : option string) (collected_by_customer : bool)
    : payment_result PaymentOutcome :=
  if negb (commercial is? CommercialOrderStatus.ACTIVE)
  then Ok (Refused PaymentRefusal.ORDER_NOT_ACTIVE)
  else if negb (balance in? PAYABLE_BALANCES) then Ok (Refused PaymentRefusal.NOTHING_OWED)
  else match charges with
  | None => Ok (Refused PaymentRefusal.NO_PRESENTABLE_TOTAL)
  | Some _ =>
  if negb (_whole_vnd amount_vnd) then Ok (Refused PaymentRefusal.PAYMENT_AMOUNT_INVALID)
  else if (method is? PaymentMethod.CHUYEN_KHOAN) && negb transfer_seen
  then Ok (Refused PaymentRefusal.TRANSFER_NOT_SEEN)
  else if match bank_ref_last with
          | None => false
          | Some ref => negb (method is? PaymentMethod.CHUYEN_KHOAN) || negb (BANK_REF_PATTERN ref)
          end
  then Ok (Refused PaymentRefusal.BANK_REF_INVALID)
  else
  position ← payment_position charges paid_vnd;
  owed ← require_some (position_owed_vnd position) AssertionError;
  remaining ← require_some (position_remaining_vnd position) AssertionError;
  if (amount_vnd =? 0) && (remaining =? 0) then
    Ok (Accepted {| accepted_amount_vnd := 0; owed_vnd := owed; paid_after_vnd := paid_vnd;
                    remaining_after_vnd := 0; balance_after := OrderBalanceStatus.PAID;
                    collected_by_customer := collected_by_customer |})
  else if amount_vnd <? 1 then Ok (Refused PaymentRefusal.PAYMENT_AMOUNT_INVALID)
  else if remaining =? 0 then Ok (Refused PaymentRefusal.NOTHING_OWED)
  else if remaining <? amount_vnd then Ok (Refused PaymentRefusal.OVERPAYMENT_REFUSED)
  else
  let paid_after := paid_vnd + amount_vnd in
  let remaining_after := owed - paid_after in
  let balance_after :=
    if remaining_after =? 0 then OrderBalanceStatus.PAID else OrderBalanceStatus.PARTIALLY_PAID in
  if collected_by_customer && negb (balance_after is? OrderBalanceStatus.PAID)
  then Ok (Refused PaymentRefusal.HANDOVER_REQUIRES_FULL_PAYMENT)
  else Ok (Accepted {| accepted_amount_vnd := amount_vnd; owed_vnd := owed;
                       paid_after_vnd := paid_after; remaining_after_vnd := remaining_after;
                       balance_after := balance_after;
                       collected_by_customer := collected_by_customer |})
  end.

(** * Charges *)

Definition charges_total (cs : list OrderCharge) : Z := sumZ (amount_vnd <$> cs).
Definition charge_valid (c : OrderCharge) : Prop := 0 <= amount_vnd c <= MAX_SETTLEMENT_VND.

Lemma _whole_vnd_spec v : _whole_vnd v = true ↔ 0 <= v <= MAX_SETTLEMENT_VND.
Proof. unfold _whole_vnd. lia. Qed.

Lemma owed_total_from cs t :
  Forall charge_valid cs →
  fold_result (λ total c,
    raise_if (negb (_whole_vnd (amount_vnd c))) ValueError ;; Ok (total + amount_vnd c))
    t cs = Ok (t + charges_total cs).
Proof.
  intros H. revert t. unfold charges_total.
  induction H as [|c cs Hc Hcs IH]; intros t; cbn; [f_equal; lia|].
  apply _whole_vnd_spec in Hc. rewrite Hc. cbn [negb raise_if]. cbn. rewrite IH.
  unfold sumZ. cbn. f_equal. lia.
Qed.

Lemma owed_total_spec cs :
  Forall charge_valid cs → owed_total cs = Ok (charges_total cs).
Proof. intros H. unfold owed_total. by rewrite owed_total_from. Qed.

Lemma owed_total_Ok cs t :
  owed_total cs = Ok t → Forall charge_valid cs ∧ t = charges_total cs.
Proof.
  intros H. assert (Forall charge_valid cs) as Hv.
  { revert H. unfold owed_total. generalize 0.
    induction cs as [|c cs IH]; intros z H; [constructor|]. cbn [fold_result] in H.
    apply bind_Ok in H as (z' & Hz & H). apply raise_bind_Ok in Hz as [Hz _].
    apply negb_false_iff, _whole_vnd_spec in Hz. constructor; [done|]. by eapply IH. }
  split; [done|]. rewrite owed_total_spec in H by done. by injection H.
Qed.
#[local] Hint Resolve owed_total_spec : laundry.

(** the charges of an order say exactly what its quote and its storage fee say:
    a quote without one presentable total gives no charges at all (never a zero
    owed); otherwise the charges sum to the quoted total plus the fee, each is
    readable back by its kind, and none is listed at zero fee. *)
Theorem owed_charges_correct q fee :
  0 <= fee <= MAX_SETTLEMENT_VND →
  (∀ total, minimum_vnd q = Some total → maximum_vnd q = Some total →
     0 <= total <= MAX_SETTLEMENT_VND →
     ∃ cs, owed_charges q fee = Ok (Some cs) ∧ owed_total cs = Ok (total + fee) ∧
       charge_amount (Some cs) ChargeKind.QUOTED_TOTAL = total ∧
       charge_amount (Some cs) ChargeKind.STORAGE_FEE = fee ∧
       (fee = 0 → cs = [{| kind := ChargeKind.QUOTED_TOTAL; amount_vnd := total |}])) ∧
  ((∀ total, 0 <= total <= MAX_SETTLEMENT_VND →
     ¬ (minimum_vnd q = Some total ∧ maximum_vnd q = Some total)) →
   owed_charges q fee = Ok None).
Proof.
  intros Hfee. pose proof (proj2 (_whole_vnd_spec fee) Hfee) as Hf. unfold owed_charges. split.
  - intros total -> -> Ht. rewrite Z.eqb_refl, Hf, (proj2 (_whole_vnd_spec _) Ht). cbn.
    destruct (Z.ltb_spec 0 fee); eexists; (split; [done|]); split_and!;
      first
        [ done | lia | change (0 = fee); lia
        | rewrite owed_total_spec;
          [unfold charges_total, sumZ; cbn; f_equal; lia
          |cbn; rewrite ?Forall_cons, Forall_nil; unfold charge_valid; cbn; lia]
        | intros; lia ].
  - destruct (minimum_vnd q) as [mn|], (maximum_vnd q) as [mx|]; try done. intros Hno.
    destruct (Z.eqb_spec mn mx) as [->|]; [|done]. destruct (_whole_vnd mx) eqn:Hw; [|done].
    destruct (Hno mx); [by apply _whole_vnd_spec|done].
Qed.

Lemma owed_charges_correct_witness :
  ∃ cs, owed_charges {| minimum_vnd := Some 60000; maximum_vnd := Some 60000 |} 5000 = Ok (Some cs) ∧
    owed_total cs = Ok 65000.
Proof.
  destruct (owed_charges_correct {| minimum_vnd := Some 60000; maximum_vnd := Some 60000 |} 5000)
    as [H _]; [unfold MAX_SETTLEMENT_VND; lia|].
  destruct (H 60000) as (cs & H1 & H2 & _); [done|done|unfold MAX_SETTLEMENT_VND; lia|].
  by exists cs.
Defined.

(** * One payment *)

Lemma payment_position_Some cs paid p :
  payment_position (Some cs) paid = Ok p →
  position_owed_vnd p = Some (charges_total cs) ∧
  position_remaining_vnd p = Some (charges_total cs - paid) ∧
  position_paid_vnd p = paid ∧ Forall charge_valid cs ∧ 0 <= paid <= charges_total cs.
Proof.
  unfold payment_position. intros H. result_inv. guards.
  apply owed_total_Ok in H1 as [Hv ->]. apply _whole_vnd_spec in H0. cbn. by split_and!; try lia.
Qed.

Lemma payment_position_total cs paid :
  Forall charge_valid cs → 0 <= paid <= charges_total cs → paid <= MAX_SETTLEMENT_VND →
  ∃ p, payment_position (Some cs) paid = Ok p.
Proof.
  intros Hv Hp Hm. unfold payment_position.
  rewrite (proj2 (_whole_vnd_spec paid)) by lia. cbn. rewrite owed_total_spec by done. cbn.
  replace (charges_total cs <? paid) with false by lia. by eexists.
Qed.

(** How the counter recorded the money: what the method must come with. *)
Definition method_ok (m : PaymentMethod.t) (seen : bool) (ref : option string) : Prop :=
  (m = PaymentMethod.CHUYEN_KHOAN → seen = true) ∧
  (∀ r, ref = Some r → m = PaymentMethod.CHUYEN_KHOAN ∧ BANK_REF_PATTERN r = true).

(** The rule in one table: what is accepted, and with which amounts. *)
Definition payment_accepted (owed paid amount : Z) (collected : bool)
    (a : PaymentAccepted) : Prop :=
  let rest := owed - paid - amount in
  a = {| accepted_amount_vnd := amount; owed_vnd := owed; paid_after_vnd := paid + amount;
         remaining_after_vnd := rest;
         balance_after := if rest =? 0 then OrderBalanceStatus.PAID
                          else OrderBalanceStatus.PARTIALLY_PAID;
         collected_by_customer := collected |} ∧
  (1 <= amount <= owed - paid ∨ amount = 0 ∧ owed = paid) ∧ (collected = true → rest = 0).

Lemma evaluate_payment_total c b cs paid amount m seen ref collected :
  Forall charge_valid cs → 0 <= paid <= charges_total cs → paid <= MAX_SETTLEMENT_VND →
  ∃ o, evaluate_payment c b (Some cs) paid amount m seen ref collected = Ok o.
Proof.
  intros Hv Hp Hm. unfold evaluate_payment.
  destruct (payment_position_total cs paid Hv Hp Hm) as [p Hpos].
  destruct (payment_position_Some cs paid p Hpos) as (Ho & Hr & _).
  rewrite Hpos. cbn. rewrite Ho, Hr. cbn.
  repeat match goal with
         | |- ∃ o, (if ?b then _ else _) = Ok o => destruct b; [by eexists|]
         end.
  by eexists.
Qed.

Lemma method_ok_guards m seen ref :
  ((m is? PaymentMethod.CHUYEN_KHOAN) && negb seen = false ∧
   match ref with
   | None => false
   | Some r => negb (m is? PaymentMethod.CHUYEN_KHOAN) || negb (BANK_REF_PATTERN r)
   end = false) ↔ method_ok m seen ref.
Proof.
  unfold method_ok. destruct m, seen, ref as [r|]; cbn; try destruct (BANK_REF_PATTERN r) eqn:?;
    cbn; naive_solver.
Qed.

(** The arithmetic tail of [evaluate_payment], after its guards. *)
Lemma accept_step owed paid amount collected a :
  0 <= amount →
  (if (amount =? 0) && (owed - paid =? 0) then
    Ok (Accepted {| accepted_amount_vnd := 0; owed_vnd := owed; paid_after_vnd := paid;
                    remaining_after_vnd := 0; balance_after := OrderBalanceStatus.PAID;
                    collected_by_customer := collected |})
   else if amount <? 1 then Ok (Refused PaymentRefusal.PAYMENT_AMOUNT_INVALID)
   else if owed - paid =? 0 then Ok (Refused PaymentRefusal.NOTHING_OWED)
   else if owed - paid <? amount then Ok (Refused PaymentRefusal.OVERPAYMENT_REFUSED)
   else if collected && negb ((if owed - (paid + amount) =? 0 then OrderBalanceStatus.PAID
                               else OrderBalanceStatus.PARTIALLY_PAID)
                              is? OrderBalanceStatus.PAID)
   then Ok (Refused PaymentRefusal.HANDOVER_REQUIRES_FULL_PAYMENT)
   else Ok (Accepted {| accepted_amount_vnd := amount; owed_vnd := owed;
     paid_after_vnd := paid + amount; remaining_after_vnd := owed - (paid + amount);
     balance_after := if owed - (paid + amount) =? 0 then OrderBalanceStatus.PAID
                      else OrderBalanceStatus.PARTIALLY_PAID;
     collected_by_customer := collected |}) : payment_result PaymentOutcome) = Ok (Accepted a) ↔
  payment_accepted owed paid amount collected a.
Proof.
  intros Ha. unfold payment_accepted.
  replace (owed - (paid + amount)) with (owed - paid - amount) by lia.
  destruct (Z.eqb_spec amount 0) as [->|Hn], (Z.eqb_spec (owed - paid) 0); cbn [andb].
  - replace (owed - paid - 0 =? 0) with true by lia. rewrite Z.add_0_r.
    replace (owed - paid - 0) with 0 by lia. split; [intros [= <-]|intros (-> & _)]; [|done].
    split_and!; [done|lia|done].
  - replace (0 <? 1) with true by lia. split; [done|lia].
  - replace (amount <? 1) with false by lia. split; [done|lia].
  - replace (amount <? 1) with false by lia. destruct (Z.ltb_spec (owed - paid) amount).
    { split; [done|lia]. }
    destruct (Z.eqb_spec (owed - paid - amount) 0), collected; cbn;
      (split; [intros [= <-]|intros (?&?&?); subst; try done]); try (split_and!; [done|lia|done]).
    naive_solver.
Qed.

Lemma evaluate_payment_iff c b charges paid amount m seen ref collected a :
  evaluate_payment c b charges paid amount m seen ref collected = Ok (Accepted a) ↔
  c = CommercialOrderStatus.ACTIVE ∧ b ∈ PAYABLE_BALANCES ∧ method_ok m seen ref ∧
  amount <= MAX_SETTLEMENT_VND ∧ paid <= MAX_SETTLEMENT_VND ∧
  ∃ cs, charges = Some cs ∧ Forall charge_valid cs ∧ 0 <= paid ∧
    payment_accepted (charges_total cs) paid amount collected a.
Proof.
  unfold evaluate_payment. rewrite <- method_ok_guards.
  destruct (decide (c = CommercialOrderStatus.ACTIVE)) as [Hc|Hc];
    [rewrite (bool_decide_true _ Hc)|rewrite (bool_decide_false _ Hc); naive_solver]; cbn [negb].
  destruct (decide (b ∈ PAYABLE_BALANCES)) as [Hb|Hb];
    [rewrite (bool_decide_true _ Hb)|rewrite (bool_decide_false _ Hb); naive_solver]; cbn [negb].
  destruct charges as [cs|]; [|naive_solver].
  destruct (_whole_vnd amount) eqn:Hw; cbn [negb];
    [apply _whole_vnd_spec in Hw|
     split; [discriminate|intros (_&_&_&?&_&?&[= <-]&_&?&_&?&_);
                          rewrite (proj2 (_whole_vnd_spec amount)) in Hw by lia; done]].
  destruct ((m is? _) && negb seen); [naive_solver|].
  destruct (match ref with Some _ => _ | None => _ end) eqn:?; [naive_solver|].
  destruct (payment_position (Some cs) paid) as [p|e] eqn:Hp; cycle 1.
  { split; [done|]. intros (_&_&_&_&Hm&?&[= <-]&Hv&?&_&?&_).
    destruct (payment_position_total cs paid) as [p' Hp']; [done|lia|done|congruence]. }
  destruct (payment_position_Some _ _ _ Hp) as (Ho & Hr & _ & Hv & Hbd).
  unfold payment_position in Hp. apply raise_bind_Ok in Hp as [Hpw _].
  apply negb_false_iff, _whole_vnd_spec in Hpw.
  cbn. rewrite Ho, Hr. cbn. rewrite accept_step by lia. naive_solver lia.
Qed.

(** a payment is recorded exactly when the order is running and still owes
    money, the money came the way its method requires, the ledger is within what
    the charges sum to, and the amount is between 1 đồng and what remains (or 0
    when nothing remains); goods are handed over only with the payment that
    leaves nothing.  The acceptance then adds the amount to the ledger, and the
    order reads PAID exactly when the charges are covered. *)
Theorem evaluate_payment_accepts c b charges paid amount m seen ref collected a :
  evaluate_payment c b charges paid amount m seen ref collected = Ok (Accepted a) ↔
  c = CommercialOrderStatus.ACTIVE ∧ b ∈ PAYABLE_BALANCES ∧ method_ok m seen ref ∧
  amount <= MAX_SETTLEMENT_VND ∧ paid <= MAX_SETTLEMENT_VND ∧
  ∃ cs, charges = Some cs ∧ Forall charge_valid cs ∧ 0 <= paid ∧
    payment_accepted (charges_total cs) paid amount collected a.
Proof. apply evaluate_payment_iff.
Qed.
