(* ===== verification/AccountCharge.v ===== *)
(** Letting an order leave on its account, and paying the account
    ([packages/domain/.../account_charge.py]). *)
From S2P Require Import Prelude Catalog Clock Orders Accounts Settlement Payments.
Local Open Scope laundry_scope.
Local Open Scope Z_scope.

Record AccountChargeAccepted := {
  charge_amount_vnd : Z;
  charge_owed_vnd : Z;
  paid_before_vnd : Z;
  outstanding_after_vnd : Z;
  charge_collected : bool;
}.

Inductive AccountChargeOutcome :=
| ChargeAccepted (a : AccountChargeAccepted)
| AccountChargeRefused (refusal : AccountRefusal.t).

(** The [ValueError] of [accounts.py] seen from this module. *)
Definition lift_account {A} (r : account_result A) : payment_result A :=
  match r with Ok a => Ok a | Err _ => Err Payments.ValueError end.

Definition evaluate_account_charge (c : CommercialOrderStatus.t) (p : ProductionStatus.t)
    (b : OrderBalanceStatus.t) (mode : FulfillmentMode.t) (collected : bool)
    (owed_vnd : option Z) (paid_vnd : Z) (collected_by_customer : bool)
    (account : option AccountStanding) : payment_result AccountChargeOutcome :=
  if negb (c is? CommercialOrderStatus.ACTIVE)
  then Ok (AccountChargeRefused AccountRefusal.ORDER_NOT_ACTIVE)
  else match account with
  | None => Ok (AccountChargeRefused AccountRefusal.NOT_AN_ACCOUNT_CUSTOMER)
  | Some standing =>
  if negb (b in? PAYABLE_BALANCES) then Ok (AccountChargeRefused AccountRefusal.NOTHING_OWED)
  else match owed_vnd with
  | None => Ok (AccountChargeRefused AccountRefusal.NO_PRESENTABLE_TOTAL)
  | Some owed =>
  raise_if (negb (_whole_vnd owed) || negb (_whole_vnd paid_vnd) || (owed <? paid_vnd))
    Payments.ValueError ;;
  let remaining := owed - paid_vnd in
  if remaining =? 0 then Ok (AccountChargeRefused AccountRefusal.NOTHING_OWED)
  else
  let returns := mode in? MODES_EXPECTING_RETURN in
  if returns && collected_by_customer
  then Ok (AccountChargeRefused AccountRefusal.COLLECTION_WAS_NOT_BY_THE_CUSTOMER)
  else if negb returns && negb collected_by_customer
  then Ok (AccountChargeRefused AccountRefusal.ACCOUNT_CHARGE_IS_THE_HANDOVER)
  else if collected then Ok (AccountChargeRefused AccountRefusal.ALREADY_COLLECTED)
  else if bool_decide (is_Some (handover_refusal p))
  then Ok (AccountChargeRefused AccountRefusal.GOODS_NOT_READY_FOR_HANDOVER)
  else
  let facts := {| standing := standing; order_remaining_vnd := remaining |} in
  leave ← lift_account (goods_may_leave b (Some facts));
  if negb leave then
    refusal ← lift_account (account_handover_refusal facts);
    match refusal with
    | None => Err AssertionError
    | Some refusal => Ok (AccountChargeRefused refusal)
    end
  else Ok (ChargeAccepted
    {| charge_amount_vnd := remaining; charge_owed_vnd := owed; paid_before_vnd := paid_vnd;
       outstanding_after_vnd := outstanding_vnd standing + remaining;
       charge_collected := collected_by_customer |})
  end end.

Definition account_payment_refusal (outstanding amount : Z) (method : PaymentMethod.t)
    (transfer_seen : bool) (bank_ref_last : option string)
    : payment_result (option PaymentRefusal.t) :=
  raise_if (negb (_whole_vnd outstanding)) Payments.ValueError ;;
  if outstanding =? 0 then Ok (Some PaymentRefusal.NOTHING_OWED)
  else if negb (_whole_vnd amount) || (amount <? 1)
  then Ok (Some PaymentRefusal.PAYMENT_AMOUNT_INVALID)
  else if (method is? PaymentMethod.CHUYEN_KHOAN) && negb transfer_seen
  then Ok (Some PaymentRefusal.TRANSFER_NOT_SEEN)
  else if match bank_ref_last with
          | None => false
          | Some ref => negb (method is? PaymentMethod.CHUYEN_KHOAN) || negb (BANK_REF_PATTERN ref)
          end
  then Ok (Some PaymentRefusal.BANK_REF_INVALID)
  else if outstanding <? amount then Ok (Some PaymentRefusal.OVERPAYMENT_REFUSED)
  else Ok None.

(** * What the rules promise *)

(** The account's own conditions, as [account_handover_refusal_None] states them. *)
Lemma goods_may_leave_payable b f :
  b ∈ PAYABLE_BALANCES →
  goods_may_leave b (Some f) = (r ← account_handover_refusal f; Ok (r is? None)).
Proof.
  intros Hb. unfold goods_may_leave.
  assert (b = OrderBalanceStatus.UNPAID ∨ b = OrderBalanceStatus.PARTIALLY_PAID) as [->| ->]
    by (unfold PAYABLE_BALANCES in Hb; set_solver); done.
Qed.

(** The branch of [evaluate_account_charge] after its guards: the account decides,
    and the [AssertionError] is unreachable. *)
Lemma admit_step b f yes o :
  b ∈ PAYABLE_BALANCES →
  (leave ← lift_account (goods_may_leave b (Some f));
   if negb leave then
     refusal ← lift_account (account_handover_refusal f);
     match refusal with
     | None => Err AssertionError
     | Some refusal => Ok (AccountChargeRefused refusal)
     end
   else Ok (ChargeAccepted yes)) = o →
  (account_handover_refusal f = Ok None ∧ o = Ok (ChargeAccepted yes)) ∨
  (account_handover_refusal f ≠ Ok None ∧
   (o = Err Payments.ValueError ∨ ∃ r, o = Ok (AccountChargeRefused r))).
Proof.
  intros Hb <-. rewrite goods_may_leave_payable by done.
  destruct (account_handover_refusal f) as [[r|]|e]; cbn; eauto.
Qed.

Lemma evaluate_account_charge_iff c p b mode col owed paid tick acc a :
  evaluate_account_charge c p b mode col owed paid tick acc = Ok (ChargeAccepted a) ↔
  ∃ o st limit, owed = Some o ∧ acc = Some st ∧ credit_limit_vnd st = Some limit ∧
    c = CommercialOrderStatus.ACTIVE ∧ b ∈ PAYABLE_BALANCES ∧
    0 <= paid < o ∧ o <= MAX_SETTLEMENT_VND ∧ 0 <= outstanding_vnd st <= MAX_SETTLEMENT_VND ∧
    tick = negb (mode in? MODES_EXPECTING_RETURN) ∧ col = false ∧
    p ∈ HANDOVER_READY_PRODUCTION ∧
    status st = AccountStatus.ACTIVE ∧ (overdue st = false ∨ block_lifted st = true) ∧
    outstanding_after_vnd a <= limit ∧
    a = {| charge_amount_vnd := o - paid; charge_owed_vnd := o; paid_before_vnd := paid;
           outstanding_after_vnd := outstanding_vnd st + (o - paid);
           charge_collected := tick |}.
Proof.
  unfold evaluate_account_charge. setoid_rewrite <- handover_refusal_None.
  destruct (decide (c = CommercialOrderStatus.ACTIVE)) as [Hc|Hc];
    [rewrite (bool_decide_true _ Hc)|rewrite (bool_decide_false _ Hc); naive_solver]; cbn [negb].
  destruct acc as [st|]; [|naive_solver].
  destruct (decide (b ∈ PAYABLE_BALANCES)) as [Hb|Hb];
    [rewrite (bool_decide_true _ Hb)|rewrite (bool_decide_false _ Hb); naive_solver]; cbn [negb].
  destruct owed as [o|]; [|naive_solver].
  rewrite raise_bind_Ok, !orb_false_iff, !negb_false_iff, !_whole_vnd_spec, Z.ltb_ge.
  destruct (Z.eqb_spec (o - paid) 0); [naive_solver lia|].
  match goal with |- (_ ∧ ?x = _) ↔ _ => remember x as out eqn:Hout end.
  destruct (mode in? MODES_EXPECTING_RETURN), tick, col; cbn [negb andb] in Hout;
    try (subst out; split; [intros [_ H]; discriminate H
                           |intros (?&?&?&_&_&_&_&_&_&_&_&H&H'&_); done]);
    (destruct (handover_refusal p) eqn:Hh; cbn in Hout;
     [subst out; split; [intros [_ H]; discriminate H
                        |intros (?&?&?&_&_&_&_&_&_&_&_&_&_&H&_); done]|]);
    symmetry in Hout; apply admit_step in Hout; try done;
    rewrite account_handover_refusal_None, !whole_iff in Hout; cbn in Hout;
    unfold MAX_ACCOUNT_VND, MAX_SETTLEMENT_VND in *;
    destruct Hout as [[Hf ->]|[Hf Hno]].
  1, 3: destruct Hf as (?&(limit&?&?)&?&?&?); split;
    [intros [? [= <-]]; exists o, st, limit; cbn; split_and!; done || lia
    |intros (?&?&?&[= <-]&[= <-]&?&?&?&?&?&?&?&?&?&?&?&?& ->); split_and!; done || lia].
  all: split;
    [intros [_ ->]; by destruct Hno as [?|[? ?]]
    |intros (?&?&?&[= <-]&[= <-]&?&?&?&?&?&?&?&?&?&?&?&?& ->)].
  all: destruct Hf; cbn in *; split_and!; eauto; lia.
Qed.

(** the account carries an order's goods out exactly when the order is running
    and owes money, its finished laundry leaves the way its mode says (a customer
    who collects takes it in the same press, a delivery is never "collected"),
    nobody collected it before, and the active account has a typed limit that
    still covers it and no unlifted overdue statement; what is charged is exactly
    what the order still owes, and the account stays within its limit. *)
Theorem evaluate_account_charge_accepts c p b mode col owed paid tick acc a :
  evaluate_account_charge c p b mode col owed paid tick acc = Ok (ChargeAccepted a) ↔
  ∃ o st limit, owed = Some o ∧ acc = Some st ∧ credit_limit_vnd st = Some limit ∧
    c = CommercialOrderStatus.ACTIVE ∧ b ∈ PAYABLE_BALANCES ∧
    0 <= paid < o ∧ o <= MAX_SETTLEMENT_VND ∧ 0 <= outstanding_vnd st <= MAX_SETTLEMENT_VND ∧
    tick = negb (mode in? MODES_EXPECTING_RETURN) ∧ col = false ∧
    p ∈ HANDOVER_READY_PRODUCTION ∧
    status st = AccountStatus.ACTIVE ∧ (overdue st = false ∨ block_lifted st = true) ∧
    outstanding_after_vnd a <= limit ∧
    a = {| charge_amount_vnd := o - paid; charge_owed_vnd := o; paid_before_vnd := paid;
           outstanding_after_vnd := outstanding_vnd st + (o - paid);
           charge_collected := tick |}.
Proof. apply evaluate_account_charge_iff.
Qed.

(** money against the account is recorded exactly when it is between 1 đồng and
    what the account owes and came the way its method requires -- the counter's
    rules for one order, over the account's total; and then the oldest-first split
    of it over open charges that sum to that total always succeeds. *)
Theorem account_payment_splits cs amount m seen ref :
  Forall open_charge_valid cs → owed cs <= MAX_SETTLEMENT_VND →
  (account_payment_refusal (owed cs) amount m seen ref = Ok None ↔
   1 <= amount <= owed cs ∧ method_ok m seen ref) ∧
  (account_payment_refusal (owed cs) amount m seen ref = Ok None →
   ∃ l, allocate_oldest_first amount cs = Ok l ∧ sumZ (Accounts.amount_vnd <$> l) = amount).
Proof.
  intros Hcs Hmax.
  assert (0 <= owed cs) as Hpos.
  { apply sumZ_nonneg, Forall_fmap. eapply Forall_impl; [exact Hcs|].
    unfold open_charge_valid; cbn. lia. }
  assert (account_payment_refusal (owed cs) amount m seen ref = Ok None ↔
    1 <= amount <= owed cs ∧ method_ok m seen ref) as Hiff.
  { unfold account_payment_refusal. rewrite <- method_ok_guards, raise_bind_Ok, negb_false_iff,
      _whole_vnd_spec.
    destruct (Z.eqb_spec (owed cs) 0); [split; [naive_solver|lia]|].
    destruct (negb (_whole_vnd amount) || (amount <? 1)) eqn:Hw;
      [unfold _whole_vnd in Hw; split; [naive_solver|lia]|].
    unfold _whole_vnd in Hw.
    destruct ((m is? _) && negb seen); [naive_solver|].
    destruct (match ref with Some _ => _ | None => _ end); [naive_solver|].
    destruct (Z.ltb_spec (owed cs) amount); split; naive_solver lia. }
  split; [exact Hiff|]. intros H. apply Hiff in H as [Ha _].
  destruct (allocate_loop_spec cs Hcs amount) as (l & Hl & Hs & _); [lia|].
  exists l. unfold allocate_oldest_first.
  replace (negb (_whole amount) || (amount <? 1)) with false
    by (unfold _whole, MAX_ACCOUNT_VND, MAX_SETTLEMENT_VND in *; lia).
  rewrite Hl. cbn. rewrite Z.min_l by lia. rewrite Z.sub_diag. cbn. split; [done|lia].
Qed.

Lemma account_payment_splits_witness :
  ∃ l, allocate_oldest_first 50
         [{| charge_id := "a"; order_id := "1"; remaining_vnd := 50 |};
          {| charge_id := "b"; order_id := "2"; remaining_vnd := 40 |}] = Ok l ∧
    sumZ (Accounts.amount_vnd <$> l) = 50.
Proof.
  set (cs := [_; _]).
  assert (Forall open_charge_valid cs) as Hcs
    by (repeat constructor; unfold MAX_ACCOUNT_VND; cbn; lia).
  apply (account_payment_splits cs 50 PaymentMethod.TIEN_MAT false None); [done| |vm_compute; done].
  vm_compute. discriminate.
Defined.
