(* ===== verification/OrderSteps.v ===== *)
(** Composite staff steps ([packages/domain/.../order_steps.py]): a step is planned
    by simulating single-axis transitions with the real transition functions, and
    the list of legal next steps is what a dry run of each step accepts. *)
From S2P Require Import Prelude Catalog Clock Orders Accounts Settlement Payments.
Local Open Scope laundry_scope.
Local Open Scope string_scope.

Module OrderStep.
Inductive t :=
| RECEIVE | START_WASH | QUALITY_CHECK | MARK_READY | HOLD | RESUME | REWASH | RELEASE
| HAND_OVER | COMPLETE | CANCEL | REJECT_INTAKE | REOPEN | TAKE_PAYMENT | COLLECT
| DELIVERY_PICKUP | DELIVERY_RETURN.
#[export] Instance eq_dec : EqDecision t.
Proof. solve_decision. Defined.
Definition value (s : t) : string :=
  match s with
  | RECEIVE => "RECEIVE" | START_WASH => "START_WASH" | QUALITY_CHECK => "QUALITY_CHECK"
  | MARK_READY => "MARK_READY" | HOLD => "HOLD" | RESUME => "RESUME" | REWASH => "REWASH"
  | RELEASE => "RELEASE" | HAND_OVER => "HAND_OVER" | COMPLETE => "COMPLETE"
  | CANCEL => "CANCEL" | REJECT_INTAKE => "REJECT_INTAKE" | REOPEN => "REOPEN"
  | TAKE_PAYMENT => "TAKE_PAYMENT" | COLLECT => "COLLECT"
  | DELIVERY_PICKUP => "DELIVERY_PICKUP" | DELIVERY_RETURN => "DELIVERY_RETURN"
  end.
End OrderStep.
#[export] Existing Instance OrderStep.eq_dec.

Definition COMPOSITE_STEPS : list OrderStep.t :=
  [OrderStep.RECEIVE; OrderStep.START_WASH; OrderStep.QUALITY_CHECK; OrderStep.MARK_READY;
   OrderStep.HOLD; OrderStep.RESUME; OrderStep.REWASH; OrderStep.RELEASE; OrderStep.HAND_OVER;
   OrderStep.COMPLETE; OrderStep.CANCEL; OrderStep.REJECT_INTAKE; OrderStep.REOPEN].

Definition NEVER_PRIMARY_STEPS : list OrderStep.t :=
  [OrderStep.REWASH; OrderStep.REJECT_INTAKE].

Definition REWASH_FROM_PRODUCTION : list ProductionStatus.t :=
  [ProductionStatus.QUALITY_CHECK; ProductionStatus.READY_AT_STORE].

Definition REJECT_INTAKE_FROM : list IntakeStatus.t :=
  [IntakeStatus.RECEIVED_PENDING_INSPECTION; IntakeStatus.WAITING_PRICE_APPROVAL;
   IntakeStatus.WAITING_CUSTOMER_RECONFIRMATION; IntakeStatus.WAITING_SLOT_APPROVAL].

Definition _COMMERCIAL_BEFORE_ACTIVE : list CommercialOrderStatus.t :=
  [CommercialOrderStatus.DRAFT; CommercialOrderStatus.REQUESTED;
   CommercialOrderStatus.STORE_CONFIRMATION_PENDING; CommercialOrderStatus.CONFIRMED].

(** [tuple(OrderStep)]: the enum's declaration order. *)
Definition STEP_ORDER : list OrderStep.t :=
  [OrderStep.RECEIVE; OrderStep.START_WASH; OrderStep.QUALITY_CHECK; OrderStep.MARK_READY;
   OrderStep.HOLD; OrderStep.RESUME; OrderStep.REWASH; OrderStep.RELEASE; OrderStep.HAND_OVER;
   OrderStep.COMPLETE; OrderStep.CANCEL; OrderStep.REJECT_INTAKE; OrderStep.REOPEN;
   OrderStep.TAKE_PAYMENT; OrderStep.COLLECT; OrderStep.DELIVERY_PICKUP;
   OrderStep.DELIVERY_RETURN].

Record QuoteReadinessFacts := {
  q_quantity_basis_approved : bool;
  q_service_classified : bool;
  q_exact_price_approved : bool;
  q_customer_reconfirmation_satisfied : bool;
}.

Definition derive_intake_readiness (i : IntakeStatus.t) (quote : QuoteReadinessFacts)
    (slot : bool) : IntakeReadiness :=
  {| custody_recorded := negb (i is? IntakeStatus.AWAITING_HANDOFF);
     quantity_basis_approved := q_quantity_basis_approved quote;
     service_classified := q_service_classified quote;
     exact_price_approved := q_exact_price_approved quote;
     customer_reconfirmation_satisfied := q_customer_reconfirmation_satisfied quote;
     slot_approved := slot |}.

Definition READINESS_BLOCKER_CODES : list ((IntakeReadiness → bool) * string) :=
  [(custody_recorded, "CUSTODY_NOT_RECORDED");
   (quantity_basis_approved, "QUANTITY_NOT_MEASURED");
   (service_classified, "SERVICE_NOT_CLASSIFIED");
   (exact_price_approved, "EXACT_PRICE_NOT_APPROVED");
   (customer_reconfirmation_satisfied, "CUSTOMER_AGREEMENT_MISSING");
   (slot_approved, "SLOT_APPROVAL_REQUIRED")].

Definition readiness_blockers (r : IntakeReadiness) : list string :=
  snd <$> filter (λ fc, fc.1 r = false) READINESS_BLOCKER_CODES.

Record StepFacts := {
  state : OrderState;
  quote_readiness : QuoteReadinessFacts;
  quoted_total : QuotedTotal;
  settlement_shape : option SettlementShape.t;
  pickup_leg_succeeded : bool;
}.

Record PlannedTransition := {
  commercial_target : option CommercialOrderStatus.t;
  intake_target : option IntakeStatus.t;
  production_target : option ProductionStatus.t;
  intake_readiness : option IntakeReadiness;
  custody_resolution : option CustodyResolution.t;
  rewash_reason : option RewashReason.t;
  rejection_reason : option IntakeRejectionReason.t;
  refund_method : option PaymentMethod.t;
}.

Definition planned_nothing : PlannedTransition :=
  {| commercial_target := None; intake_target := None; production_target := None;
     intake_readiness := None; custody_resolution := None; rewash_reason := None;
     rejection_reason := None; refund_method := None |}.
Definition planned_commercial t r : PlannedTransition :=
  {| commercial_target := Some t; intake_target := None; production_target := None;
     intake_readiness := None; custody_resolution := r; rewash_reason := None;
     rejection_reason := None; refund_method := None |}.
Definition planned_intake t r : PlannedTransition :=
  {| commercial_target := None; intake_target := Some t; production_target := None;
     intake_readiness := r; custody_resolution := None; rewash_reason := None;
     rejection_reason := None; refund_method := None |}.
Definition planned_production t : PlannedTransition :=
  {| commercial_target := None; intake_target := None; production_target := Some t;
     intake_readiness := None; custody_resolution := None; rewash_reason := None;
     rejection_reason := None; refund_method := None |}.

(** [dataclasses.replace] of the three fields a step adds to a planned transition. *)
Definition with_rewash_reason r (p : PlannedTransition) : PlannedTransition :=
  {| commercial_target := commercial_target p; intake_target := intake_target p;
     production_target := production_target p; intake_readiness := intake_readiness p;
     custody_resolution := custody_resolution p; rewash_reason := Some r;
     rejection_reason := rejection_reason p; refund_method := refund_method p |}.
Definition with_rejection_reason r (p : PlannedTransition) : PlannedTransition :=
  {| commercial_target := commercial_target p; intake_target := intake_target p;
     production_target := production_target p; intake_readiness := intake_readiness p;
     custody_resolution := custody_resolution p; rewash_reason := rewash_reason p;
     rejection_reason := Some r; refund_method := refund_method p |}.
Definition with_refund_method m (p : PlannedTransition) : PlannedTransition :=
  {| commercial_target := commercial_target p; intake_target := intake_target p;
     production_target := production_target p; intake_readiness := intake_readiness p;
     custody_resolution := custody_resolution p; rewash_reason := rewash_reason p;
     rejection_reason := rejection_reason p; refund_method := Some m |}.

Record NextStep := {
  step : OrderStep.t;
  primary : bool;
  requires : list string;
  custody_resolutions : list CustodyResolution.t;
  rewash_reasons : list RewashReason.t;
  rejection_reasons : list IntakeRejectionReason.t;
}.

Definition REFUND_METHOD_REQUIRED := "REFUND_METHOD_REQUIRED".

(** [datetime(2000, 1, 1, tzinfo=UTC)]. *)
Definition _DRY_RUN_INSTANT : datetime :=
  {| wall_us := (946684800 * 1000000)%Z; utcoffset_us := Some 0%Z |}.

Definition _COMMERCIAL_TO_CONFIRMED : list CommercialOrderStatus.t :=
  [CommercialOrderStatus.REQUESTED; CommercialOrderStatus.STORE_CONFIRMATION_PENDING;
   CommercialOrderStatus.CONFIRMED].

Definition _NOTHING_TO_DO : OrderError :=
  OrderTransitionError "INVALID_STATE_TRANSITION: this step has nothing to do for the order now".

(** * The simulation *)

Record _Simulation := { sim_state : OrderState; planned : list PlannedTransition }.

Definition sim_commercial (sim : _Simulation) (target : CommercialOrderStatus.t)
    (resolution : option CustodyResolution.t) : outcome _Simulation :=
  let resolved := bool_decide (is_Some resolution) in
  s ← transition_commercial (sim_state sim) target resolved resolved resolution false;
  Ok {| sim_state := s; planned := (planned sim ++ [planned_commercial target resolution])%list |}.

Definition sim_intake (sim : _Simulation) (target : IntakeStatus.t)
    (readiness : option IntakeReadiness) (accepted_at : option datetime) : outcome _Simulation :=
  s ← transition_intake (sim_state sim) target readiness accepted_at;
  Ok {| sim_state := s; planned := (planned sim ++ [planned_intake target readiness])%list |}.

Definition sim_production (sim : _Simulation) (target : ProductionStatus.t)
    : outcome _Simulation :=
  s ← transition_production (sim_state sim) target;
  Ok {| sim_state := s; planned := (planned sim ++ [planned_production target])%list |}.

(** [simulation.planned[i] = replace(...)]; an index out of range raises. *)
Definition replace_planned (sim : _Simulation) (i : nat)
    (f : PlannedTransition → PlannedTransition) : outcome _Simulation :=
  p ← require_some (planned sim !! i) (Uncaught "IndexError");
  Ok {| sim_state := sim_state sim; planned := <[i := f p]> (planned sim) |}.

Definition _require_production (s : OrderState) (expected : ProductionStatus.t) : outcome unit :=
  raise_if (commercial s in? [CommercialOrderStatus.CANCELLED; CommercialOrderStatus.COMPLETED])
    (OrderTransitionError "INVALID_STATE_TRANSITION: order is closed") ;;
  raise_if (negb (production s is? expected))
    (OrderTransitionError "INVALID_STATE_TRANSITION: illegal production transition").

(** A [ValueError] of the account rules, seen from a step. *)
Definition lift_uncaught {A} (r : account_result A) : outcome A :=
  match r with Ok a => Ok a | Err _ => Err (Uncaught "ValueError") end.

(** The rule without an account, as the steps ask it; it never raises. *)
Definition may_leave (b : OrderBalanceStatus.t) : outcome bool :=
  lift_uncaught (goods_may_leave b None).

(** One pass of the loop over [_COMMERCIAL_TO_CONFIRMED[1:]]. *)
Definition advance_to_confirmed (sim : _Simulation) (target : CommercialOrderStatus.t)
    : outcome _Simulation :=
  let current := commercial (sim_state sim) in
  if current in? _COMMERCIAL_TO_CONFIRMED then
    i ← index _COMMERCIAL_TO_CONFIRMED current;
    j ← index _COMMERCIAL_TO_CONFIRMED target;
    if (i <? j)%nat then sim_commercial sim target None else Ok sim
  else Ok sim.

Definition _plan_receive (sim : _Simulation) (facts : StepFacts) (slot : bool)
    (accepted_at : datetime) : outcome _Simulation :=
  let s := state facts in
  raise_if (commercial s in? [CommercialOrderStatus.ACTIVE;
                              CommercialOrderStatus.CANCELLATION_REVIEW]) _NOTHING_TO_DO ;;
  sim ← (if intake s is? IntakeStatus.AWAITING_HANDOFF
         then sim_intake sim IntakeStatus.RECEIVED_PENDING_INSPECTION None None
         else Ok sim);
  sim ← (if commercial (sim_state sim) is? CommercialOrderStatus.DRAFT
         then sim_commercial sim CommercialOrderStatus.REQUESTED None
         else Ok sim);
  sim ← fold_result advance_to_confirmed sim (drop 1 _COMMERCIAL_TO_CONFIRMED);
  sim ← (if negb (intake (sim_state sim) is? IntakeStatus.ACCEPTED) then
           let readiness :=
             derive_intake_readiness (intake (sim_state sim)) (quote_readiness facts) slot in
           let blockers := readiness_blockers readiness in
           raise_if (negb (blockers is? []) && negb (intake (sim_state sim) is? IntakeStatus.REJECTED))
             (StepRequiresHuman blockers) ;;
           sim_intake sim IntakeStatus.ACCEPTED (Some readiness) (Some accepted_at)
         else Ok sim);
  sim_commercial sim CommercialOrderStatus.ACTIVE None.

Definition _plan_cancel (sim : _Simulation) (resolution : option CustodyResolution.t)
    : outcome _Simulation :=
  let c := commercial (sim_state sim) in
  if c is? CommercialOrderStatus.ACTIVE then
    sim ← sim_commercial sim CommercialOrderStatus.CANCELLATION_REVIEW None;
    sim_commercial sim CommercialOrderStatus.CANCELLED resolution
  else if c is? CommercialOrderStatus.CANCELLATION_REVIEW then
    sim_commercial sim CommercialOrderStatus.CANCELLED resolution
  else sim_commercial sim CommercialOrderStatus.CANCELLED resolution.

Definition _attach_refund_method (sim : _Simulation) (before : OrderState)
    (method : option PaymentMethod.t) : outcome _Simulation :=
  let refunds := (balance (sim_state sim) is? OrderBalanceStatus.REFUNDED)
                 && negb (balance before is? OrderBalanceStatus.REFUNDED) in
  if negb refunds then
    raise_if (bool_decide (is_Some method))
      (OrderTransitionError
        "VALIDATION_ERROR: refund_method is taken only by a cancellation that hands money back") ;;
    Ok sim
  else match method with
  | None => Err RefundMethodRequired
  | Some m => replace_planned sim (length (planned sim) - 1) (with_refund_method m)
  end.

Definition _plan_rewash (sim : _Simulation) (reason : option RewashReason.t)
    : outcome _Simulation :=
  let s := sim_state sim in
  raise_if (commercial s in? TERMINAL_COMMERCIAL_STATUSES)
    (OrderTransitionError "INVALID_STATE_TRANSITION: order is closed") ;;
  raise_if (negb (commercial s is? CommercialOrderStatus.ACTIVE))
    (OrderTransitionError
      "INVALID_STATE_TRANSITION: laundry is washed again only on an active order") ;;
  raise_if (negb (production s in? REWASH_FROM_PRODUCTION))
    (OrderTransitionError
      "INVALID_STATE_TRANSITION: a rewash starts at quality check or from the shelf, before the goods leave the shop") ;;
  raise_if (self_collection_recorded s)
    (OrderTransitionError
      "INVALID_STATE_TRANSITION: the customer is recorded as having taken the goods; a garment brought back is a complaint") ;;
  match reason with
  | None => Err (OrderTransitionError "VALIDATION_ERROR: REWASH requires rewash_reason")
  | Some reason =>
      sim ← sim_production sim ProductionStatus.EXCEPTION;
      sim ← sim_production sim ProductionStatus.IN_PROCESS;
      replace_planned sim 0 (with_rewash_reason reason)
  end.

Definition _plan_reject_intake (sim : _Simulation) (reason : option IntakeRejectionReason.t)
    : outcome _Simulation :=
  let s := sim_state sim in
  raise_if (commercial s in? TERMINAL_COMMERCIAL_STATUSES)
    (OrderTransitionError "INVALID_STATE_TRANSITION: order is closed") ;;
  raise_if (negb (commercial s in? _COMMERCIAL_BEFORE_ACTIVE))
    (OrderTransitionError
      "INVALID_STATE_TRANSITION: goods are refused only before the order is accepted for work") ;;
  raise_if (intake s is? IntakeStatus.AWAITING_HANDOFF)
    (OrderTransitionError
      "INVALID_STATE_TRANSITION: nothing was received, so there is nothing to refuse") ;;
  raise_if (negb (intake s in? REJECT_INTAKE_FROM))
    (OrderTransitionError
      "INVALID_STATE_TRANSITION: goods are refused only while they wait on the counter") ;;
  match reason with
  | None => Err (OrderTransitionError "VALIDATION_ERROR: REJECT_INTAKE requires rejection_reason")
  | Some reason =>
      sim ← sim_intake sim IntakeStatus.REJECTED None None;
      sim ← sim_commercial sim CommercialOrderStatus.CANCELLED None;
      replace_planned sim 0 (with_rejection_reason reason)
  end.

(** What the caller of a step supplies besides the step. *)
Record StepAnswers := {
  ans_custody : option CustodyResolution.t;
  ans_rewash : option RewashReason.t;
  ans_rejection : option IntakeRejectionReason.t;
  ans_refund : option PaymentMethod.t;
}.
Definition no_answers : StepAnswers :=
  {| ans_custody := None; ans_rewash := None; ans_rejection := None; ans_refund := None |}.

(** The branch of [plan_step] for each composite step, run on a fresh simulation. *)
Definition plan_branch (st : OrderStep.t) (facts : StepFacts) (slot : bool)
    (accepted_at : datetime) (a : StepAnswers) : outcome _Simulation :=
  let s := state facts in
  let sim := {| sim_state := s; planned := [] |} in
  match st with
  | OrderStep.RECEIVE => _plan_receive sim facts slot accepted_at
  | OrderStep.START_WASH =>
      raise_if (negb (commercial s is? CommercialOrderStatus.ACTIVE))
        (OrderTransitionError
          "INVALID_STATE_TRANSITION: washing starts only on an active order") ;;
      (if negb (production s in? [ProductionStatus.NOT_STARTED; ProductionStatus.QUEUED])
       then _require_production s ProductionStatus.QUEUED else Ok tt) ;;
      sim ← (if production s is? ProductionStatus.NOT_STARTED
             then sim_production sim ProductionStatus.QUEUED else Ok sim);
      sim_production sim ProductionStatus.IN_PROCESS
  | OrderStep.QUALITY_CHECK =>
      _require_production s ProductionStatus.IN_PROCESS ;;
      sim_production sim ProductionStatus.QUALITY_CHECK
  | OrderStep.MARK_READY =>
      _require_production s ProductionStatus.QUALITY_CHECK ;;
      sim_production sim ProductionStatus.READY_AT_STORE
  | OrderStep.HOLD => sim_production sim ProductionStatus.ON_HOLD
  | OrderStep.RESUME =>
      raise_if (negb (production s in? [ProductionStatus.ON_HOLD; ProductionStatus.EXCEPTION]))
        _NOTHING_TO_DO ;;
      resume ← require_some (production_resume_status s)
        (OrderTransitionError "INVALID_STATE_TRANSITION: invalid hold resume target");
      sim_production sim resume
  | OrderStep.RELEASE =>
      _require_production s ProductionStatus.READY_AT_STORE ;;
      leave ← may_leave (balance s);
      raise_if (negb leave) (GoodsMayNotLeave RELEASE_REQUIRES_PAYMENT) ;;
      sim_production sim ProductionStatus.RELEASED
  | OrderStep.HAND_OVER =>
      sim ← (if negb (production s is? ProductionStatus.RELEASED) then
               _require_production s ProductionStatus.READY_AT_STORE ;;
               sim_production sim ProductionStatus.RELEASED
             else Ok sim);
      sim_commercial sim CommercialOrderStatus.COMPLETED None
  | OrderStep.COMPLETE => sim_commercial sim CommercialOrderStatus.COMPLETED None
  | OrderStep.CANCEL =>
      sim ← _plan_cancel sim (ans_custody a);
      _attach_refund_method sim s (ans_refund a)
  | OrderStep.REOPEN =>
      raise_if (negb (commercial s is? CommercialOrderStatus.CANCELLATION_REVIEW))
        _NOTHING_TO_DO ;;
      sim_commercial sim CommercialOrderStatus.ACTIVE None
  | OrderStep.REWASH => _plan_rewash sim (ans_rewash a)
  | OrderStep.REJECT_INTAKE => _plan_reject_intake sim (ans_rejection a)
  | OrderStep.TAKE_PAYMENT | OrderStep.COLLECT
  | OrderStep.DELIVERY_PICKUP | OrderStep.DELIVERY_RETURN => Ok sim
  end.

Definition plan_step (st : OrderStep.t) (facts : StepFacts) (slot : bool)
    (accepted_at : datetime) (a : StepAnswers) : outcome (list PlannedTransition) :=
  raise_if (negb (st in? COMPOSITE_STEPS))
    (OrderTransitionError ("INVALID_STATE_TRANSITION: " +:+ OrderStep.value st +:+
      " is recorded on its own route, not as a step")) ;;
  raise_if (bool_decide (is_Some (ans_rewash a)) && negb (st is? OrderStep.REWASH))
    (OrderTransitionError "VALIDATION_ERROR: rewash_reason is taken only by REWASH") ;;
  raise_if (bool_decide (is_Some (ans_rejection a)) && negb (st is? OrderStep.REJECT_INTAKE))
    (OrderTransitionError "VALIDATION_ERROR: rejection_reason is taken only by REJECT_INTAKE") ;;
  raise_if (bool_decide (is_Some (ans_custody a)) && (st in? NEVER_PRIMARY_STEPS))
    (OrderTransitionError
      ("VALIDATION_ERROR: custody_resolution is not taken by " +:+ OrderStep.value st)) ;;
  raise_if (bool_decide (is_Some (ans_refund a)) && negb (st is? OrderStep.CANCEL))
    (OrderTransitionError "VALIDATION_ERROR: refund_method is taken only by CANCEL") ;;
  sim ← plan_branch st facts slot accepted_at a;
  raise_if (length (planned sim) =? 0)%nat _NOTHING_TO_DO ;;
  Ok (planned sim).

(** * The list of legal next steps *)

(** [try: plan_step(...) except OrderTransitionError: return False]. *)
Definition accepts {A} (r : outcome A) : outcome bool :=
  match r with
  | Ok _ => Ok true
  | Err (Uncaught e) => Err (Uncaught e)
  | Err _ => Ok false
  end.

Definition _legal (st : OrderStep.t) (facts : StepFacts) (a : StepAnswers) : outcome bool :=
  accepts (plan_step st facts true _DRY_RUN_INSTANT a).

Definition answer_custody c m : StepAnswers :=
  {| ans_custody := c; ans_rewash := None; ans_rejection := None; ans_refund := m |}.
Definition answer_rewash r : StepAnswers :=
  {| ans_custody := None; ans_rewash := Some r; ans_rejection := None; ans_refund := None |}.
Definition answer_rejection r : StepAnswers :=
  {| ans_custody := None; ans_rewash := None; ans_rejection := Some r; ans_refund := None |}.

Definition _cancel_legal (facts : StepFacts) (c : option CustodyResolution.t)
    : outcome (bool * bool) :=
  match plan_step OrderStep.CANCEL facts true _DRY_RUN_INSTANT (answer_custody c None) with
  | Err RefundMethodRequired =>
      legal ← _legal OrderStep.CANCEL facts (answer_custody c (Some PaymentMethod.TIEN_MAT));
      Ok (legal, true)
  | Err (Uncaught e) => Err (Uncaught e)
  | Err _ => Ok (false, false)
  | Ok _ => Ok (true, false)
  end.

Definition _payment_legal (facts : StepFacts) : bool :=
  let s := state facts in
  if negb (commercial s is? CommercialOrderStatus.ACTIVE) then false
  else if negb (balance s in? [OrderBalanceStatus.UNPAID; OrderBalanceStatus.PARTIALLY_PAID])
  then false
  else match minimum_vnd (quoted_total facts) with
  | None => false
  | Some total =>
      match evaluate_settlement (quoted_total facts) total false (fulfillment_mode s) false with
      | SettlementAccepted _ _ => true
      | SettlementNotSupported _ _ => false
      end
  end.

Definition payment_may_hand_over (facts : StepFacts) : bool :=
  let s := state facts in
  _payment_legal facts
  && negb (fulfillment_mode s in? MODES_EXPECTING_RETURN)
  && negb (self_collection_recorded s)
  && (handover_refusal (production s) is? None).

(** [dict[OrderStep, NextStep]]; its order is never observed. *)
Definition found_steps := OrderStep.t → option NextStep.
(** [if c: found[k] = n]. *)
Definition put_if (c : bool) (k : OrderStep.t) (n : NextStep) (d : found_steps) : found_steps :=
  λ x, if c && (x is? k) then Some n else d x.
Definition drop_step (k : OrderStep.t) (d : found_steps) : found_steps :=
  λ x, if x is? k then None else d x.

Definition plain_step st req : NextStep :=
  {| step := st; primary := false; requires := req; custody_resolutions := [];
     rewash_reasons := []; rejection_reasons := [] |}.

(** [COMPOSITE_STEPS - {CANCEL, RECEIVE} - NEVER_PRIMARY_STEPS]. *)
Definition steps_without_answers : list OrderStep.t :=
  filter (λ st, st ∉ [OrderStep.CANCEL; OrderStep.RECEIVE] ∧ st ∉ NEVER_PRIMARY_STEPS)
    COMPOSITE_STEPS.

(** The members of an enum a fallible predicate accepts, in order. *)
Fixpoint filter_result {A} (f : A → outcome bool) (l : list A) : outcome (list A) :=
  match l with
  | [] => Ok []
  | x :: l' => b ← f x; r ← filter_result f l'; Ok (if b : bool then x :: r else r)
  end.

(** The [CANCEL] entry: directly, or through review with the answers it takes. *)
Definition find_cancel (facts : StepFacts) (found : found_steps) : outcome found_steps :=
  '(direct, direct_refunds) ← _cancel_legal facts None;
  if direct : bool then
    Ok (put_if true OrderStep.CANCEL
          (plain_step OrderStep.CANCEL (if direct_refunds : bool then ["refund_method"] else []))
          found)
  else
  answers ← traverse (λ r, a ← _cancel_legal facts (Some r); Ok (r, a)) (members CustodyResolution.t);
  let accepted := fst <$> filter (λ x, x.2.1 = true) answers in
  let refunds := existsb (λ x, x.2.1 && x.2.2) answers in
  Ok (put_if (negb (accepted is? [])) OrderStep.CANCEL
        {| step := OrderStep.CANCEL; primary := false;
           requires := if refunds then ["custody_resolution"; "refund_method"]
                       else ["custody_resolution"];
           custody_resolutions := accepted; rewash_reasons := []; rejection_reasons := [] |}
        found).

(** One pass of the loop over the steps that take no answer. *)
Definition find_plain (facts : StepFacts) (found : found_steps) (st : OrderStep.t)
    : outcome found_steps :=
  legal ← _legal st facts no_answers;
  Ok (put_if legal st (plain_step st []) found).

(** While the handover is legal, a bare release is not offered; on released goods
    the handover is offered as the completion it is. *)
Definition prune_hand_over (p : ProductionStatus.t) (found : found_steps) : found_steps :=
  if bool_decide (is_Some (found OrderStep.HAND_OVER)) then
    if p is? ProductionStatus.RELEASED
    then drop_step OrderStep.HAND_OVER found
    else drop_step OrderStep.RELEASE found
  else found.

Definition _legal_steps (facts : StepFacts) : outcome found_steps :=
  let s := state facts in
  found ← fold_result (find_plain facts) (λ _, None) steps_without_answers;
  receive ← _legal OrderStep.RECEIVE facts no_answers;
  let found := put_if receive OrderStep.RECEIVE
    (plain_step OrderStep.RECEIVE ["slot_approved"]) found in
  found ← find_cancel facts found;
  rewash ← filter_result (λ r, _legal OrderStep.REWASH facts (answer_rewash r))
    (members RewashReason.t);
  let found := put_if (negb (rewash is? [])) OrderStep.REWASH
    {| step := OrderStep.REWASH; primary := false; requires := ["rewash_reason"];
       custody_resolutions := []; rewash_reasons := rewash; rejection_reasons := [] |} found in
  rejection ← filter_result (λ r, _legal OrderStep.REJECT_INTAKE facts (answer_rejection r))
    (members IntakeRejectionReason.t);
  let found := put_if (negb (rejection is? [])) OrderStep.REJECT_INTAKE
    {| step := OrderStep.REJECT_INTAKE; primary := false; requires := ["rejection_reason"];
       custody_resolutions := []; rewash_reasons := []; rejection_reasons := rejection |} found in
  let found := prune_hand_over (production s) found in
  let found := put_if (_payment_legal facts) OrderStep.TAKE_PAYMENT
    (plain_step OrderStep.TAKE_PAYMENT ["amount_vnd"; "method"]) found in
  collection ← lift_uncaught (evaluate_collection (commercial s) (production s) (balance s)
    (settlement_shape facts) (self_collection_recorded s));
  let found := put_if (collection is? None) OrderStep.COLLECT
    (plain_step OrderStep.COLLECT []) found in
  let active := commercial s is? CommercialOrderStatus.ACTIVE in
  let found := put_if
    (active && (fulfillment_mode s in? MODES_EXPECTING_PICKUP) && negb (pickup_leg_succeeded facts))
    OrderStep.DELIVERY_PICKUP (plain_step OrderStep.DELIVERY_PICKUP []) found in
  if active && (fulfillment_mode s in? MODES_EXPECTING_RETURN)
     && negb (required_delivery_legs_succeeded s) then
    refusal ← lift_uncaught (delivery_refusal (balance s) (production s));
    Ok (put_if (refusal is? None) OrderStep.DELIVERY_RETURN
          (plain_step OrderStep.DELIVERY_RETURN []) found)
  else Ok found.

Definition _primary_order (facts : StepFacts) : list OrderStep.t :=
  if commercial (state facts) is? CommercialOrderStatus.CANCELLATION_REVIEW
  then [OrderStep.CANCEL; OrderStep.REOPEN]
  else
  let finish :=
    if fulfillment_mode (state facts) in? MODES_EXPECTING_RETURN then
      [OrderStep.TAKE_PAYMENT; OrderStep.RELEASE; OrderStep.DELIVERY_RETURN;
       OrderStep.HAND_OVER; OrderStep.COMPLETE]
    else [OrderStep.TAKE_PAYMENT; OrderStep.COLLECT; OrderStep.HAND_OVER; OrderStep.COMPLETE] in
  ([OrderStep.RECEIVE; OrderStep.RESUME; OrderStep.START_WASH; OrderStep.QUALITY_CHECK;
    OrderStep.MARK_READY] ++ finish)%list.

Definition is_found (found : found_steps) (st : OrderStep.t) : bool :=
  bool_decide (is_Some (found st)).

(** [x or y] on optional values: the first that is not [None]. *)
Definition or_else {A} (x y : option A) : option A :=
  match x with Some _ => x | None => y end.

Definition choose_primary (facts : StepFacts) (found : found_steps) : option OrderStep.t :=
  let candidates :=
    List.filter (λ st, is_found found st && negb (st in? NEVER_PRIMARY_STEPS)) STEP_ORDER in
  or_else (List.find (is_found found) (_primary_order facts))
    (or_else (List.find (λ st, negb (st in? [OrderStep.CANCEL; OrderStep.HOLD])) candidates)
       (head candidates)).

Definition mark_primary (p : option OrderStep.t) (n : NextStep) : NextStep :=
  {| step := step n; primary := Some (step n) is? p; requires := requires n;
     custody_resolutions := custody_resolutions n; rewash_reasons := rewash_reasons n;
     rejection_reasons := rejection_reasons n |}.

(** [if not found: return ()] is the [flat_map] of an empty dictionary. *)
Definition next_steps (facts : StepFacts) : outcome (list NextStep) :=
  found ← _legal_steps facts;
  if negb (existsb (is_found found) STEP_ORDER) then Ok []
  else
  let p := choose_primary facts found in
  Ok (omap (λ st, mark_primary p <$> found st) STEP_ORDER).
