(* ===== verification/OrderRepository.v ===== *)
(** The stored order and the commands that move it ([packages/db/.../orders.py],
    [payments.py], [settlement.py], [delivery_legs.py], [accounts.py]): each command
    reads the order row and its ledgers under the row's lock, asks the domain, and
    writes row and ledgers in one transaction.  An [OrderRow] is that row with the
    child rows those commands read and write; a command is a function from the row
    before to the row after, or the refusal with nothing written. *)
From S2P Require Import Prelude Catalog Clock Orders Accounts Settlement Payments AccountCharge.
From S2P Require Import OrderSteps.
Local Open Scope laundry_scope.
Local Open Scope string_scope.
Local Open Scope Z_scope.

(** * Rows *)

Record SettlementRow := {
  settled_shape : SettlementShape.t;
  settled_expected_vnd : Z;
  settled_paid_vnd : Z;
}.

Record RefundRow := {
  refunded_vnd : Z;
  refund_resolution : CustodyResolution.t;
  refund_row_method : PaymentMethod.t;
}.

Record ChargeRow := {
  row_owed_vnd : Z;
  row_paid_before_vnd : Z;
  row_amount_vnd : Z;
  row_fee_vnd : Z;
}.

Module DeliveryLegKind.
Inductive t := PICKUP | RETURN.
#[export] Instance eq_dec : EqDecision t.
Proof. solve_decision. Defined.
End DeliveryLegKind.
#[export] Existing Instance DeliveryLegKind.eq_dec.

Module DeliveryLegOutcome.
Inductive t := SUCCEEDED | FAILED.
#[export] Instance eq_dec : EqDecision t.
Proof. solve_decision. Defined.
End DeliveryLegOutcome.
#[export] Existing Instance DeliveryLegOutcome.eq_dec.

Record StorageHold := { held_at : datetime; resumed_at : option datetime }.

Record OrderRow := {
  row_state : OrderState;
  row_version : Z;
  row_quoted : QuotedTotal;
  row_readiness : QuoteReadinessFacts;
  production_ready_at : option datetime;
  production_released_at : option datetime;
  closed_at : option datetime;
  order_payments : list Z;
  order_settlement : option SettlementRow;
  order_refund : option RefundRow;
  account_charge : option ChargeRow;
  collection_recorded : bool;
  delivery_legs : list (DeliveryLegKind.t * DeliveryLegOutcome.t);
  storage_holds : list StorageHold;
}.

(** The staff member a command comes from, as the row's store sees them. *)
Record Caller := { has_role : bool; mfa_verified : bool; store_member : bool }.

Inductive RepoError :=
| AuthorizationError
| StateError (reason_code : string)
| DomainError (e : OrderError)
| ProgramError.

Abbreviation repo A := (result RepoError A).

(** Role with MFA, then membership of the row's store. *)
Definition authorize (c : Caller) : repo unit :=
  raise_if (negb (has_role c) || negb (mfa_verified c)) AuthorizationError ;;
  raise_if (negb (store_member c)) AuthorizationError.

Definition lift_domain {A} (r : outcome A) : repo A :=
  match r with Ok a => Ok a | Err e => Err (DomainError e) end.
Definition lift_program {E A} (r : result E A) : repo A :=
  match r with Ok a => Ok a | Err _ => Err ProgramError end.

(** * The production clocks *)

Definition SHELF_INTERRUPTIONS : list ProductionStatus.t :=
  [ProductionStatus.ON_HOLD; ProductionStatus.EXCEPTION].

Module HoldMove.
Inductive t := START | END.
#[export] Instance eq_dec : EqDecision t.
Proof. solve_decision. Defined.
End HoldMove.
#[export] Existing Instance HoldMove.eq_dec.

Definition hold_move (before after : ProductionStatus.t) (resume_to : option ProductionStatus.t)
    : option HoldMove.t :=
  if (after in? SHELF_INTERRUPTIONS) && (before is? ProductionStatus.READY_AT_STORE)
     && (resume_to is? Some ProductionStatus.READY_AT_STORE)
  then Some HoldMove.START
  else if (before is? ProductionStatus.ON_HOLD) && (after is? ProductionStatus.READY_AT_STORE)
  then Some HoldMove.END
  else if before is? ProductionStatus.EXCEPTION then Some HoldMove.END
  else None.

Definition _ready_clock_effect (moving_production : bool) (before after : ProductionStatus.t)
    (resume_to : option ProductionStatus.t) (moment : datetime) : option datetime * bool :=
  if negb moving_production then (None, true)
  else if after is? ProductionStatus.READY_AT_STORE then
    if before in? SHELF_INTERRUPTIONS then (None, true) else (Some moment, false)
  else if after is? ProductionStatus.RELEASED then (None, true)
  else if (after in? SHELF_INTERRUPTIONS) && (resume_to is? Some ProductionStatus.READY_AT_STORE)
  then (None, true)
  else (None, false).

(** * One transition *)

Record OrderTransitionCommand := {
  cmd_commercial : option CommercialOrderStatus.t;
  cmd_intake : option IntakeStatus.t;
  cmd_production : option ProductionStatus.t;
  cmd_readiness : option IntakeReadiness;
  cmd_accepted_at : option datetime;
  cmd_custody : option CustodyResolution.t;
  cmd_unclaimed_verified : bool;
  cmd_refund : option PaymentMethod.t;
}.

(** The domain's decision on the locked row, with the goods-leave guard. *)
Definition decide_transition (current : OrderState) (cmd : OrderTransitionCommand)
    : repo OrderState :=
  match cmd_commercial cmd, cmd_intake cmd, cmd_production cmd with
  | Some target, _, _ =>
      let resolved := bool_decide (is_Some (cmd_custody cmd)) in
      lift_domain (transition_commercial current target resolved resolved (cmd_custody cmd)
        (cmd_unclaimed_verified cmd))
  | None, Some target, _ =>
      lift_domain (transition_intake current target (cmd_readiness cmd) (cmd_accepted_at cmd))
  | None, None, Some target =>
      next ← lift_domain (transition_production current target);
      leave ← lift_domain (may_leave (balance current));
      raise_if ((production next is? ProductionStatus.RELEASED) && negb leave)
        (DomainError (GoodsMayNotLeave RELEASE_REQUIRES_PAYMENT)) ;;
      Ok next
  | None, None, None => Err (StateError "order transition target is missing")
  end.

(** [_refund_source]: the settled amount of an order paid in full, the ledger's
    sum of a deposit. *)
Definition _refund_source (row : OrderRow) (partly_paid : bool) : option Z :=
  if partly_paid then
    if sumZ (order_payments row) <=? 0 then None else Some (sumZ (order_payments row))
  else settled_paid_vnd <$> order_settlement row.

Definition _refund_for_cancellation (row : OrderRow) (resolution : option CustodyResolution.t)
    (method : option PaymentMethod.t) (partly_paid : bool) : repo RefundRow :=
  resolution ← require_some resolution
    (StateError "HUMAN_APPROVAL_REQUIRED: a refund needs a custody resolution");
  method ← require_some method
    (StateError "HUMAN_APPROVAL_REQUIRED: a refund needs its refund_method");
  amount ← require_some (_refund_source row partly_paid)
    (StateError "nothing can be refunded");
  Ok {| refunded_vnd := amount; refund_resolution := resolution; refund_row_method := method |}.

(** SQL's [COALESCE]. *)
Definition coalesce {A} (l : list (option A)) : option A := head (omap id l).

Definition end_holds (moment : datetime) (l : list StorageHold) : list StorageHold :=
  (λ h, match resumed_at h with
        | None => {| held_at := held_at h; resumed_at := Some moment |}
        | Some _ => h
        end) <$> l.

Definition write_holds (m : option HoldMove.t) (moment : datetime) (l : list StorageHold)
    : list StorageHold :=
  match m with
  | Some HoldMove.START => l ++ [{| held_at := moment; resumed_at := None |}]
  | Some HoldMove.END => end_holds moment l
  | None => l
  end%list.

(** [_apply_locked_transition], for an order no remedy credit touches. *)
Definition _apply_locked_transition (row : OrderRow) (cmd : OrderTransitionCommand)
    (occurred_at : datetime) : repo OrderRow :=
  let current := row_state row in
  next ← decide_transition current cmd;
  let refunding :=
    (balance current in? [OrderBalanceStatus.PAID; OrderBalanceStatus.PARTIALLY_PAID])
    && (balance next is? OrderBalanceStatus.REFUNDED) in
  raise_if (refunding && negb (bool_decide (is_Some (cmd_refund cmd))))
    (StateError REFUND_METHOD_REQUIRED) ;;
  raise_if (negb refunding && bool_decide (is_Some (cmd_refund cmd)))
    (StateError "VALIDATION_ERROR: refund_method is taken only by a cancellation that hands money back") ;;
  refund ← (if refunding then
      r ← _refund_for_cancellation row (cmd_custody cmd) (cmd_refund cmd)
            (balance current is? OrderBalanceStatus.PARTIALLY_PAID);
      Ok (Some r)
    else Ok (order_refund row));
  let moving := bool_decide (is_Some (cmd_production cmd)) in
  let '(ready_now, ready_keep) := _ready_clock_effect moving (production current)
    (production next) (production_resume_status next) occurred_at in
  Ok {| row_state := next;
        row_version := row_version row + 1;
        row_quoted := row_quoted row;
        row_readiness := row_readiness row;
        production_ready_at := coalesce
          [ready_now; if ready_keep : bool then production_ready_at row else None;
           if moving && (production next is? ProductionStatus.READY_AT_STORE)
           then Some occurred_at else None];
        production_released_at := coalesce
          [production_released_at row;
           if moving && (production next is? ProductionStatus.RELEASED)
           then Some occurred_at else None];
        closed_at := coalesce
          [closed_at row;
           if commercial next is? CommercialOrderStatus.COMPLETED then Some occurred_at else None];
        order_payments := order_payments row;
        order_settlement := order_settlement row;
        order_refund := refund;
        account_charge := account_charge row;
        collection_recorded := collection_recorded row;
        delivery_legs := delivery_legs row;
        storage_holds := write_holds
          (if moving then hold_move (production current) (production next)
                            (production_resume_status next) else None)
          occurred_at (storage_holds row) |}.

Definition dimension_count (cmd : OrderTransitionCommand) : Z :=
  (if bool_decide (is_Some (cmd_commercial cmd)) then 1 else 0)
  + (if bool_decide (is_Some (cmd_intake cmd)) then 1 else 0)
  + (if bool_decide (is_Some (cmd_production cmd)) then 1 else 0).

Definition transition (row : OrderRow) (caller : Caller) (expected_row_version : Z)
    (cmd : OrderTransitionCommand) (occurred_at : datetime) : repo OrderRow :=
  raise_if (negb (has_role caller)) AuthorizationError ;;
  raise_if (negb (dimension_count cmd =? 1) || (expected_row_version <? 1))
    (StateError "exactly one valid order state target is required") ;;
  raise_if (negb (store_member caller)) AuthorizationError ;;
  raise_if (negb (row_version row =? expected_row_version)) (StateError "STALE_VERSION") ;;
  _apply_locked_transition row cmd occurred_at.

(** * A composite step *)

(** [_step_facts]: the facts a step decides from, out of the row. *)
Definition _step_facts (row : OrderRow) : StepFacts :=
  {| state := row_state row;
     quote_readiness := row_readiness row;
     quoted_total := row_quoted row;
     settlement_shape := settled_shape <$> order_settlement row;
     pickup_leg_succeeded := existsb (λ leg, (leg.1 is? DeliveryLegKind.PICKUP)
       && (leg.2 is? DeliveryLegOutcome.SUCCEEDED)) (delivery_legs row) |}.

(** The command one planned transition becomes. *)
Definition planned_command (p : PlannedTransition) (moment : datetime) : OrderTransitionCommand :=
  {| cmd_commercial := commercial_target p;
     cmd_intake := intake_target p;
     cmd_production := production_target p;
     cmd_readiness := intake_readiness p;
     cmd_accepted_at :=
       if intake_target p is? Some IntakeStatus.ACCEPTED then Some moment else None;
     cmd_custody := custody_resolution p;
     cmd_unclaimed_verified := false;
     cmd_refund := refund_method p |}.

(** The loop of [execute_step]: every transition at its own microsecond, re-checking
    the version the previous one wrote. *)
Fixpoint replay (row : OrderRow) (version index : Z) (occurred_at : datetime)
    (plan : list PlannedTransition) : repo OrderRow :=
  match plan with
  | [] => Ok row
  | p :: plan' =>
      let moment := dt_add occurred_at index in
      raise_if (negb (row_version row =? version)) (StateError "STALE_VERSION") ;;
      row' ← _apply_locked_transition row (planned_command p moment) moment;
      replay row' (row_version row') (index + 1) occurred_at plan'
  end.

Definition execute_step (row : OrderRow) (caller : Caller) (expected_row_version : Z)
    (st : OrderStep.t) (slot : bool) (a : StepAnswers) (occurred_at : datetime) : repo OrderRow :=
  raise_if (negb (has_role caller)) AuthorizationError ;;
  raise_if (negb (st in? COMPOSITE_STEPS) || (expected_row_version <? 1))
    (StateError "a composite order step and a valid row version are required") ;;
  raise_if (negb (store_member caller)) AuthorizationError ;;
  raise_if (negb (row_version row =? expected_row_version)) (StateError "STALE_VERSION") ;;
  plan ← lift_domain (plan_step st (_step_facts row) slot occurred_at a);
  replay row expected_row_version 0 occurred_at plan.

(** * Money *)

(** [UPDATE orders SET balance_status = ..., self_collection_recorded = ...,
    row_version = row_version + 1]. *)
Definition set_money (s : OrderState) (b : OrderBalanceStatus.t) (collected : bool) : OrderState :=
  {| commercial := commercial s; intake := intake s; production := production s;
     fulfillment_mode := fulfillment_mode s; balance := b;
     required_delivery_legs_succeeded := required_delivery_legs_succeeded s;
     self_collection_recorded := collected;
     production_accepted_at := production_accepted_at s;
     production_resume_status := production_resume_status s |}.

Definition update_money (row : OrderRow) (b : OrderBalanceStatus.t) (collected : bool)
    (payments : list Z) (settlement : option SettlementRow) (charge : option ChargeRow)
    (collection : bool) : OrderRow :=
  {| row_state := set_money (row_state row) b collected;
     row_version := row_version row + 1;
     row_quoted := row_quoted row; row_readiness := row_readiness row;
     production_ready_at := production_ready_at row;
     production_released_at := production_released_at row;
     closed_at := closed_at row;
     order_payments := payments; order_settlement := settlement;
     order_refund := order_refund row; account_charge := charge;
     collection_recorded := collection;
     delivery_legs := delivery_legs row; storage_holds := storage_holds row |}.

Record PaymentCommand := {
  pay_amount_vnd : Z;
  pay_method : PaymentMethod.t;
  pay_transfer_seen : bool;
  pay_bank_ref : option string;
  pay_collected : bool;
}.

Definition refused_settlement {A} (o : SettlementOutcome) (k : SettlementShape.t → Z → repo A)
    : repo A :=
  match o with
  | SettlementAccepted shape total => k shape total
  | SettlementNotSupported _ decision => Err (StateError decision)
  end.

(** The laundry of a customer who takes it with the payment is finished. *)
Definition require_handover (shape : SettlementShape.t) (p : ProductionStatus.t) : repo unit :=
  if shape is? SettlementShape.EXACT_PAYMENT_SELF_COLLECTION then
    match handover_refusal p with
    | Some refusal => Err (StateError refusal)
    | None => Ok tt
    end
  else Ok tt.

(** [PaymentRepository.record]; [bank_ref] is already normalised and [storage_fee]
    is the fee owed at the instant, read under the lock. *)
Definition record_payment (row : OrderRow) (caller : Caller) (expected_row_version : Z)
    (storage_fee : Z) (cmd : PaymentCommand) : repo OrderRow :=
  authorize caller ;;
  raise_if (negb (row_version row =? expected_row_version)) (StateError "STALE_VERSION") ;;
  let s := row_state row in
  let paid_so_far := sumZ (order_payments row) in
  charges ← lift_program (owed_charges (row_quoted row) storage_fee);
  outcome ← lift_program (evaluate_payment (commercial s) (balance s) charges paid_so_far
    (pay_amount_vnd cmd) (pay_method cmd) (pay_transfer_seen cmd) (pay_bank_ref cmd)
    (pay_collected cmd));
  match outcome with
  | Refused _ => Err (StateError "the payment is not recorded")
  | Accepted a =>
      let payments := if 0 <? accepted_amount_vnd a
                      then (order_payments row ++ [accepted_amount_vnd a])%list
                      else order_payments row in
      if completes a then
        refused_settlement
          (evaluate_settlement (row_quoted row) (Payments.owed_vnd a - storage_fee)
             (pay_collected cmd) (fulfillment_mode s) false)
          (λ shape _,
            require_handover shape (production s) ;;
            Ok (update_money row (balance_after a)
                  (self_collection_recorded s
                   || (shape is? SettlementShape.EXACT_PAYMENT_SELF_COLLECTION))
                  payments
                  (Some {| settled_shape := shape; settled_expected_vnd := Payments.owed_vnd a;
                           settled_paid_vnd := paid_after_vnd a |})
                  (account_charge row) (collection_recorded row)))
      else Ok (update_money row (balance_after a) (self_collection_recorded s) payments
                 (order_settlement row) (account_charge row) (collection_recorded row))
  end.

(** [SettlementRepository.record]: the exact-total route. *)
Definition record_settlement (row : OrderRow) (caller : Caller) (storage_fee paid_amount_vnd : Z)
    (collected_by_customer : bool) : repo OrderRow :=
  authorize caller ;;
  let s := row_state row in
  raise_if (negb (commercial s is? CommercialOrderStatus.ACTIVE)) (StateError "ORDER_NOT_ACTIVE") ;;
  raise_if (balance s is? OrderBalanceStatus.PARTIALLY_PAID) (StateError "ORDER_PARTLY_PAID") ;;
  raise_if (negb (balance s is? OrderBalanceStatus.UNPAID)) (StateError "ALREADY_SETTLED") ;;
  raise_if (0 <? storage_fee) (StateError "STORAGE_FEE_OWED") ;;
  refused_settlement
    (evaluate_settlement (row_quoted row) paid_amount_vnd collected_by_customer
       (fulfillment_mode s) false)
    (λ shape expected,
      require_handover shape (production s) ;;
      Ok (update_money row OrderBalanceStatus.PAID
            (shape is? SettlementShape.EXACT_PAYMENT_SELF_COLLECTION)
            (if 0 <? paid_amount_vnd then (order_payments row ++ [paid_amount_vnd])%list
             else order_payments row)
            (Some {| settled_shape := shape; settled_expected_vnd := expected;
                     settled_paid_vnd := paid_amount_vnd |})
            (account_charge row) (collection_recorded row))).

(** [SettlementRepository.record_collection]: a prepaid customer takes the goods. *)
Definition record_collection (row : OrderRow) (caller : Caller) (expected_row_version : Z)
    : repo OrderRow :=
  authorize caller ;;
  raise_if (negb (row_version row =? expected_row_version)) (StateError "STALE_VERSION") ;;
  let s := row_state row in
  refusal ← lift_program (evaluate_collection (commercial s) (production s) (balance s)
    (settled_shape <$> order_settlement row) (self_collection_recorded s));
  raise_if (bool_decide (is_Some refusal)) (StateError "the pickup cannot be recorded") ;;
  raise_if (self_collection_recorded s || negb (balance s is? OrderBalanceStatus.PAID))
    (StateError "STALE_VERSION") ;;
  Ok (update_money row (balance s) true (order_payments row) (order_settlement row)
        (account_charge row) true).

(** [DeliveryLegRepository.record]: the trip row, and the flag of a first
    successful return. *)
Definition record_leg (row : OrderRow) (caller : Caller) (kind : DeliveryLegKind.t)
    (leg_outcome : DeliveryLegOutcome.t) : repo OrderRow :=
  authorize caller ;;
  let s := row_state row in
  let mode := fulfillment_mode s in
  raise_if (negb (commercial s is? CommercialOrderStatus.ACTIVE))
    (StateError "only an active order can have a delivery recorded") ;;
  raise_if (mode is? FulfillmentMode.SELF_DROP_SELF_COLLECT)
    (StateError "this order has no delivery: the customer brings and collects it themselves") ;;
  raise_if ((kind is? DeliveryLegKind.RETURN) && negb (mode in? MODES_EXPECTING_RETURN))
    (StateError "this order's fulfilment mode has no return leg") ;;
  raise_if ((kind is? DeliveryLegKind.PICKUP) && negb (mode in? MODES_EXPECTING_PICKUP))
    (StateError "this order's fulfilment mode has no pickup leg") ;;
  (if kind is? DeliveryLegKind.RETURN then
     refused ← lift_program (delivery_refusal (balance s) (production s));
     match refused with Some code => Err (StateError code) | None => Ok tt end
   else Ok tt) ;;
  raise_if ((leg_outcome is? DeliveryLegOutcome.SUCCEEDED)
            && ((kind, DeliveryLegOutcome.SUCCEEDED) in? delivery_legs row))
    (StateError "this delivery was already recorded as successful") ;;
  let legs := (delivery_legs row ++ [(kind, leg_outcome)])%list in
  let finishes := (kind is? DeliveryLegKind.RETURN)
    && (leg_outcome is? DeliveryLegOutcome.SUCCEEDED)
    && negb (required_delivery_legs_succeeded s) in
  Ok {| row_state :=
          {| commercial := commercial s; intake := intake s; production := production s;
             fulfillment_mode := mode; balance := balance s;
             required_delivery_legs_succeeded := required_delivery_legs_succeeded s || finishes;
             self_collection_recorded := self_collection_recorded s;
             production_accepted_at := production_accepted_at s;
             production_resume_status := production_resume_status s |};
        row_version := if finishes then row_version row + 1 else row_version row;
        row_quoted := row_quoted row; row_readiness := row_readiness row;
        production_ready_at := production_ready_at row;
        production_released_at := production_released_at row;
        closed_at := closed_at row; order_payments := order_payments row;
        order_settlement := order_settlement row; order_refund := order_refund row;
        account_charge := account_charge row; collection_recorded := collection_recorded row;
        delivery_legs := legs; storage_holds := storage_holds row |}.

(** * The account *)

(** [AccountRepository.charge] on the order row; [standing] is the account's, read
    under its row lock. *)
Definition charge (row : OrderRow) (caller : Caller) (expected_row_version storage_fee : Z)
    (standing : AccountStanding) (collected_by_customer : bool) : repo OrderRow :=
  authorize caller ;;
  raise_if (negb (row_version row =? expected_row_version)) (StateError "STALE_VERSION") ;;
  let s := row_state row in
  charges ← lift_program (owed_charges (row_quoted row) storage_fee);
  owed ← match charges with
         | None => Ok None
         | Some cs => t ← lift_program (owed_total cs); Ok (Some t)
         end;
  outcome ← lift_program (evaluate_account_charge (commercial s) (production s) (balance s)
    (fulfillment_mode s) (self_collection_recorded s) owed (sumZ (order_payments row))
    collected_by_customer (Some standing));
  match outcome with
  | AccountChargeRefused _ => Err (StateError "the account refuses the order")
  | ChargeAccepted a =>
      Ok (update_money row OrderBalanceStatus.ON_ACCOUNT
            (self_collection_recorded s || charge_collected a)
            (order_payments row) (order_settlement row)
            (Some {| row_owed_vnd := charge_owed_vnd a; row_paid_before_vnd := paid_before_vnd a;
                     row_amount_vnd := charge_amount_vnd a; row_fee_vnd := storage_fee |})
            (collection_recorded row))
  end.

(** [_allocate]: one order's share of an account payment. *)
Definition _allocate (row : OrderRow) (ch : ChargeRow) (amount_vnd : Z) : repo OrderRow :=
  let s := row_state row in
  let paid_before := sumZ (order_payments row) in
  raise_if (negb (balance s is? OrderBalanceStatus.ON_ACCOUNT)) (StateError "STALE_VERSION") ;;
  let paid_after := paid_before + amount_vnd in
  raise_if (row_owed_vnd ch <? paid_after)
    (StateError "an account payment would pay an order past what it owed") ;;
  let payments := (order_payments row ++ [amount_vnd])%list in
  if paid_after =? row_owed_vnd ch then
    refused_settlement
      (evaluate_settlement (row_quoted row) (row_owed_vnd ch - row_fee_vnd ch) false
         (fulfillment_mode s) true)
      (λ shape _,
        Ok (update_money row OrderBalanceStatus.PAID (self_collection_recorded s) payments
              (Some {| settled_shape := shape; settled_expected_vnd := row_owed_vnd ch;
                       settled_paid_vnd := paid_after |})
              (account_charge row) (collection_recorded row)))
  else
    Ok {| row_state := s; row_version := row_version row;
          row_quoted := row_quoted row; row_readiness := row_readiness row;
          production_ready_at := production_ready_at row;
          production_released_at := production_released_at row;
          closed_at := closed_at row; order_payments := payments;
          order_settlement := order_settlement row; order_refund := order_refund row;
          account_charge := account_charge row; collection_recorded := collection_recorded row;
          delivery_legs := delivery_legs row; storage_holds := storage_holds row |}.
