(* ===== verification/OrderLifecycle.v ===== *)
(** The life of one order: every command of [OrderRepository] as a step relation on
    its row, and the invariant that ties the order's state to its money ledgers,
    its clocks and its goods. *)
From S2P Require Import Prelude Catalog Clock Orders Accounts Settlement Payments AccountCharge.
From S2P Require Import OrderSteps OrderRepository.
Local Open Scope laundry_scope.
Local Open Scope string_scope.
Local Open Scope Z_scope.

#[local] Arguments sumZ : simpl never.

(** * The invariant *)

(** The laundry has been reported finished and not reworked since. *)
Definition finished_at (p : ProductionStatus.t) (resume : option ProductionStatus.t) : bool :=
  (p in? HANDOVER_READY_PRODUCTION) || (resume is? Some ProductionStatus.READY_AT_STORE).
Definition finished (s : OrderState) : bool :=
  finished_at (production s) (production_resume_status s).

(** The customer, or a courier on the way to them, has the goods. *)
Definition goods_out (s : OrderState) : bool :=
  (production s is? ProductionStatus.RELEASED) || self_collection_recorded s
  || required_delivery_legs_succeeded s.

(** The money due: one quoted total plus a storage fee. *)
Definition due (row : OrderRow) (amount : Z) : Prop :=
  ∃ total fee, minimum_vnd (row_quoted row) = Some total ∧ maximum_vnd (row_quoted row) = Some total ∧
    0 <= total ∧ 0 <= fee ∧ amount = total + fee.

Definition ledger (row : OrderRow) : Prop :=
  let paid := sumZ (order_payments row) in
  match balance (row_state row) with
  | OrderBalanceStatus.UNPAID =>
      order_payments row = [] ∧ order_settlement row = None ∧ account_charge row = None ∧
      order_refund row = None
  | OrderBalanceStatus.PARTIALLY_PAID =>
      0 < paid ∧ order_settlement row = None ∧ account_charge row = None ∧
      order_refund row = None
  | OrderBalanceStatus.PAID =>
      due row paid ∧ order_refund row = None ∧
      ∃ st, order_settlement row = Some st ∧ settled_paid_vnd st = paid ∧
            settled_expected_vnd st = paid
  | OrderBalanceStatus.ON_ACCOUNT =>
      order_settlement row = None ∧ order_refund row = None ∧
      ∃ c, account_charge row = Some c ∧ due row (row_owed_vnd c) ∧
           row_paid_before_vnd c <= paid < row_owed_vnd c ∧
           row_amount_vnd c = row_owed_vnd c - row_paid_before_vnd c
  | OrderBalanceStatus.REFUNDED =>
      ∃ r, order_refund row = Some r ∧ refunded_vnd r = paid
  | _ => False
  end.

Definition open_holds (row : OrderRow) : list StorageHold :=
  filter (λ h, resumed_at h = None) (storage_holds row).

Record sound (row : OrderRow) : Prop := {
  sound_version : 1 <= row_version row;
  sound_wf : wf (row_state row);
  sound_payments : Forall (λ a, 1 <= a) (order_payments row);
  sound_ledger : ledger row;
  sound_goods : goods_out (row_state row) = true →
    balance (row_state row) ∈ [OrderBalanceStatus.PAID; OrderBalanceStatus.ON_ACCOUNT;
                               OrderBalanceStatus.REFUNDED];
  sound_ready : is_Some (production_ready_at row) ↔ finished (row_state row) = true;
  sound_released : is_Some (production_released_at row) ↔
    production (row_state row) = ProductionStatus.RELEASED;
  sound_closed : is_Some (closed_at row) ↔
    commercial (row_state row) = CommercialOrderStatus.COMPLETED;
  sound_holds : length (open_holds row) =
    (if production_resume_status (row_state row) is? Some ProductionStatus.READY_AT_STORE
     then 1 else 0)%nat;
}.

(** The row [OrderRepository.create] inserts. *)
Definition new_row (mode : FulfillmentMode.t) (q : QuotedTotal) (rd : QuoteReadinessFacts)
    : OrderRow :=
  {| row_state := new_order mode; row_version := 1; row_quoted := q; row_readiness := rd;
     production_ready_at := None; production_released_at := None; closed_at := None;
     order_payments := []; order_settlement := None; order_refund := None;
     account_charge := None; collection_recorded := false; delivery_legs := [];
     storage_holds := [] |}.

Lemma sound_new_row mode q rd : sound (new_row mode q rd).
Proof.
  split; cbn; try done; try (by split; [intros [? [=]]|done]).
  - apply wf_new_order.
Qed.

(** * Transitions keep it *)

(** What the decision leaves alone, whichever axis moves. *)
Lemma decide_transition_spec s cmd n :
  wf s → dimension_count cmd = 1 → decide_transition s cmd = Ok n →
  wf n ∧
  required_delivery_legs_succeeded n = required_delivery_legs_succeeded s ∧
  self_collection_recorded n = self_collection_recorded s ∧
  match cmd_production cmd with
  | None => production n = production s ∧ production_resume_status n = production_resume_status s ∧
      (balance n = balance s ∨
       balance n = OrderBalanceStatus.REFUNDED ∧
       balance s ∈ [OrderBalanceStatus.PAID; OrderBalanceStatus.PARTIALLY_PAID]) ∧
      (commercial n = CommercialOrderStatus.COMPLETED ↔
       commercial s = CommercialOrderStatus.COMPLETED ∨
       cmd_commercial cmd = Some CommercialOrderStatus.COMPLETED)
  | Some t => production n = t ∧
      ProductionEdge (production s) (production_resume_status s) t (production_resume_status n) ∧
      balance n = balance s ∧ commercial n = commercial s ∧
      commercial s ∉ TERMINAL_COMMERCIAL_STATUSES ∧
      (t = ProductionStatus.RELEASED → goods_paid (balance s) = true)
  end.
Proof.
  intros Hwf Hdim H. unfold decide_transition in H. unfold dimension_count in Hdim.
  destruct (cmd_commercial cmd) as [c|] eqn:Hc, (cmd_intake cmd) as [i|] eqn:Hi,
    (cmd_production cmd) as [p|] eqn:Hp; cbn in Hdim; try lia; try done.
  - destruct (transition_commercial s c _ _ _ _) as [n'|] eqn:Ht; [|done]. injection H as ->.
    pose proof (transition_commercial_wf _ _ _ _ _ _ _ Hwf Ht) as Hn.
    pose proof (transition_commercial_guards _ _ _ _ _ _ _ Ht) as Hg.
    destruct (transition_commercial_shape _ _ _ _ _ _ _ Ht) as (b & -> & Hb).
    split; [done|]. cbn. split_and!; try done.
    + destruct (decide (c = CommercialOrderStatus.CANCELLED)) as [->|Hne]; [|left; auto].
      destruct Hg as (_ & [(_&_&_&_&Hbal)|(_&_&Hbal)]); [|by left].
      apply balance_after_cancellation_spec in Hbal as [[Hb' _]|(Hb' & ? & _)]; auto.
    + split; [intros ->; by right|intros [Hs|[= ->]]; [|done]].
      destruct c; try done; destruct Hg as [Hg _]; rewrite Hs in Hg; contradict Hg; decided.
  - destruct (transition_intake s i _ _) as [n'|] eqn:Ht; [|done]. injection H as ->.
    pose proof (transition_intake_wf _ _ _ _ _ Hwf Ht) as Hn.
    apply transition_intake_guards in Ht as (Hterm & _ & Ht). split; [done|].
    case_bool_decide; [destruct Ht as [-> _]|rewrite Ht]; cbn; split_and!; auto;
      (split; [by left|by intros [?|?]]).
  - apply bind_Ok in H as (n' & Ht & H). unfold may_leave in H.
    rewrite goods_may_leave_None in H. cbn in H. result_inv.
    destruct (transition_production s p) as [n''|] eqn:Htp; [|done]. injection Ht as ->.
    pose proof (transition_production_wf _ _ _ Hwf Htp) as Hn.
    apply transition_production_spec in Htp as (Hterm & _ & r' & He & ->).
    split; [done|]. cbn in *. split_and!; try done. intros ->.
    destruct (goods_paid (balance s)); done.
Qed.

(** * The clocks follow the production edges *)

Definition shelf_paused (resume : option ProductionStatus.t) : bool :=
  resume is? Some ProductionStatus.READY_AT_STORE.

(** Split the finitely many production edges of a well-formed interruption. *)
Ltac edges He Hr :=
  destruct He as [p q r Hn|p r Hp|p r Hp|p Hp1 Hp2|p q Hp Hq Hne Hle];
  [ destruct p; cbn in Hn; simplify_eq; destruct r as [r|]; try (exfalso; revert Hr; decided);
      try (destruct Hr as [Hr _]; contradict Hr; decided)
  | revert Hp; destruct p; try (intros Hp; contradict Hp; decided); intros _;
      destruct r as [r|]; try (destruct Hr as [Hr _]; contradict Hr; decided)
  | revert Hp; destruct p; try (intros Hp; contradict Hp; decided); intros _;
      destruct r as [r|]; try (destruct Hr as [Hr _]; contradict Hr; decided)
  | destruct Hr as [_ Hr]; destruct p; try (contradict Hr; decided)
  | destruct Hr as [_ Hr]; destruct p; try (contradict Hr; decided); destruct q;
      try (contradict Hle; decided); try (contradict Hq; decided); try done ].

Definition resume_ok (p : ProductionStatus.t) (r : option ProductionStatus.t) : Prop :=
  match r with
  | Some x => p ∈ [ProductionStatus.ON_HOLD; ProductionStatus.EXCEPTION] ∧ x ∈ on_the_floor
  | None => p ∉ [ProductionStatus.ON_HOLD; ProductionStatus.EXCEPTION]
  end.

Lemma ready_clock_edge p r t r' m ready :
  ProductionEdge p r t r' → resume_ok p r →
  (is_Some ready ↔ finished_at p r = true) →
  let '(now, keep) := _ready_clock_effect true p t r' m in
  is_Some (coalesce [now; if keep : bool then ready else None;
                     if t is? ProductionStatus.READY_AT_STORE then Some m else None])
  ↔ finished_at t r' = true.
Proof.
  intros He Hr. unfold resume_ok in Hr. edges He Hr.
  all: destruct ready; cbn; intros [H1 H2]; split; intros H; try done; try by eauto.
  all: try (by destruct H).
  all: try (specialize (H2 eq_refl); by destruct H2).
Qed.

Lemma hold_move_edge p r t r' m holds :
  ProductionEdge p r t r' → resume_ok p r →
  length (filter (λ h, resumed_at h = None) holds) = (if shelf_paused r then 1 else 0)%nat →
  length (filter (λ h, resumed_at h = None) (write_holds (hold_move p t r') m holds))
  = (if shelf_paused r' then 1 else 0)%nat.
Proof.
  assert (∀ l, filter (λ h, resumed_at h = None) (end_holds m l) = []) as Hend.
  { induction l as [|h l IH]; [done|]. unfold end_holds in *. rewrite fmap_cons, filter_cons.
    rewrite decide_False; [done|]. by destruct (resumed_at h) eqn:Hh; cbn; rewrite ?Hh. }
  intros He Hr. unfold resume_ok in Hr. edges He Hr.
  all: cbn; rewrite ?Hend; try done.
  all: intros Hl;
    match goal with |- length (filter _ (write_holds ?h _ _)) = _ =>
      change h with (Some HoldMove.START) end;
    unfold write_holds; rewrite filter_app, length_app, Hl; done.
Qed.

(** * Preservation, command by command *)

(** The ledger part of the invariant reads only these fields. *)
Lemma ledger_ext r1 r2 :
  balance (row_state r1) = balance (row_state r2) → row_quoted r1 = row_quoted r2 →
  order_payments r1 = order_payments r2 → order_settlement r1 = order_settlement r2 →
  order_refund r1 = order_refund r2 → account_charge r1 = account_charge r2 →
  ledger r1 → ledger r2.
Proof. unfold ledger, due. by intros -> -> -> -> -> ->. Qed.

Lemma refund_source_paid row cmd refund :
  ledger row →
  balance (row_state row) ∈ [OrderBalanceStatus.PAID; OrderBalanceStatus.PARTIALLY_PAID] →
  _refund_for_cancellation row (cmd_custody cmd) (cmd_refund cmd)
    (balance (row_state row) is? OrderBalanceStatus.PARTIALLY_PAID) = Ok refund →
  refunded_vnd refund = sumZ (order_payments row).
Proof.
  unfold _refund_for_cancellation, _refund_source, ledger. intros Hl Hb H.
  rewrite !elem_of_cons in Hb. destruct Hb as [Hb|[Hb|Hb]]; [..|by apply elem_of_nil in Hb];
    rewrite Hb in *.
  - rewrite bool_decide_false in H by done. destruct Hl as (_ & _ & st & Hst & Hpaid & _).
    rewrite Hst in H. cbn in H. by result_inv.
  - rewrite bool_decide_true in H by done. result_inv. cbn. by case_match; simplify_eq.
Qed.

Lemma coalesce_pair {A} (a b : option A) :
  is_Some (coalesce [a; b]) ↔ is_Some a ∨ is_Some b.
Proof. destruct a, b; cbn; split; intros H; eauto; by destruct H. Qed.

Lemma apply_sound row cmd at_ row' :
  sound row → dimension_count cmd = 1 →
  _apply_locked_transition row cmd at_ = Ok row' →
  sound row' ∧ row_version row' = row_version row + 1.
Proof.
  intros [Hver Hwf Hpay Hled Hgoods Hready Hrel Hclosed Hholds] Hdim H.
  unfold _apply_locked_transition in H. apply bind_Ok in H as (n & Hn & H).
  destruct (decide_transition_spec _ _ _ Hwf Hdim Hn) as (Hwf' & Hlegs & Hself & Haxis).
  apply raise_bind_Ok in H as [_ H]. apply raise_bind_Ok in H as [_ H].
  apply bind_Ok in H as (refund & Hrefund & H).
  destruct (_ready_clock_effect _ _ _ _ _) as [now keep] eqn:Hclock. injection H as <-.
  split; [|done]. destruct (cmd_production cmd) as [t|] eqn:Ht.
  - destruct Haxis as (<- & Hedge & Hbal & Hcom & Hterm & Hout).
    pose proof (wf_resume _ Hwf) as Hres. fold (resume_ok (production (row_state row))
      (production_resume_status (row_state row))) in Hres.
    rewrite Hbal, andb_false_intro2 in Hrefund by
      (apply bool_decide_eq_false; intros Hb;
       apply (wf_refunded _ Hwf) in Hb; apply Hterm; rewrite Hb; decided).
    injection Hrefund as <-. split; cbn; try done; [lia|..].
    + revert Hled. apply ledger_ext; cbn; by rewrite ?Hbal.
    + unfold goods_out in *. rewrite Hlegs, Hself, Hbal. intros Hg.
      destruct (self_collection_recorded (row_state row)
                || required_delivery_legs_succeeded (row_state row)) eqn:Hsl.
      * apply Hgoods. rewrite <- orb_assoc, Hsl. apply orb_true_r.
      * rewrite <- orb_assoc, Hsl, orb_false_r in Hg. guards. specialize (Hout Hg).
        unfold goods_paid in Hout. guards. revert Hout. clear.
        unfold GOODS_MAY_LEAVE_BALANCES. set_solver.
    + pose proof (ready_clock_edge _ _ _ _ at_ (production_ready_at row) Hedge Hres Hready) as Hc.
      change (bool_decide (is_Some (Some (production n)))) with true in *.
      rewrite Hclock in Hc. exact Hc.
    + rewrite coalesce_pair, Hrel. split.
      * intros [Hp|Hp]; [|by case_bool_decide; [|destruct Hp]].
        rewrite Hp in Hedge. inversion Hedge; simplify_eq; try set_solver; try done.
      * intros ->. right. rewrite bool_decide_true by done. eauto.
    + rewrite coalesce_pair, Hclosed, Hcom. split; [|by left].
      intros [?|Hp]; [done|]. by case_bool_decide; [|destruct Hp].
    + by eapply hold_move_edge.
  - destruct Haxis as (Hprod & Hresume & Hbal & Hcom). injection Hclock as <- <-.
    assert (balance n ∈ [OrderBalanceStatus.PAID; OrderBalanceStatus.ON_ACCOUNT;
              OrderBalanceStatus.REFUNDED] ∨ balance n = balance (row_state row)) as Hbal2.
    { destruct Hbal as [?|[-> _]]; [by right|left; decided]. }
    split; cbn; try done; [lia|..].
    + destruct (decide (balance n = balance (row_state row))) as [He|He].
      * destruct ((balance (row_state row) in? _) && (balance n is? _)) eqn:Hr.
        { apply andb_true_iff in Hr as [Hr1 Hr2]. guards. rewrite <- He, Hr2 in Hr1.
          contradict Hr1. decided. }
        injection Hrefund as <-. revert Hled. by apply ledger_ext.
      * destruct Hbal as [?|[Hn1 Hn2]]; [done|]. rewrite Hn1, (bool_decide_true _ Hn2) in Hrefund.
        cbn in Hrefund. apply bind_Ok in Hrefund as (rf & Hrf & [= <-]).
        unfold ledger. cbn. rewrite Hn1. exists rf. split; [done|].
        by eapply refund_source_paid.
    + unfold goods_out in *. rewrite Hlegs, Hself, Hprod. intros Hg.
      destruct Hbal2 as [?|Hbal2]; [done|]. rewrite Hbal2. by apply Hgoods.
    + unfold finished in *. rewrite Hprod, Hresume, <- Hready. cbn.
      destruct (production_ready_at row); cbn; [done|]. split; intros [? ?]; done.
    + rewrite Hprod, <- Hrel, coalesce_pair. split; [intros [?|[? ?]]; done|by left].
    + rewrite coalesce_pair, Hclosed. split.
      * intros [?|Hp]; [apply Hcom; by left|]. case_bool_decide; [done|by destruct Hp].
      * intros Hc. right. rewrite bool_decide_true by done. eauto.
    + by rewrite Hresume.
Qed.

(** ** Money *)

Lemma wf_set_money s b collected :
  wf s → b ≠ OrderBalanceStatus.REFUNDED →
  (commercial s = CommercialOrderStatus.COMPLETED →
   b ∈ [OrderBalanceStatus.PAID; OrderBalanceStatus.ON_ACCOUNT]) →
  (self_collection_recorded s = true → collected = true) →
  wf (set_money s b collected).
Proof.
  intros [Ha Hst Hr Hrun Hcomp Href] Hb Hc Hcol. split; cbn; try done.
  intros Hco. destruct (Hcomp Hco) as (? & Hor & _). split_and!; [done| |auto].
  destruct (required_delivery_legs_succeeded s); [done|]. auto.
Qed.

Lemma update_money_sound row b collected pays st ch coll :
  sound row → b ≠ OrderBalanceStatus.REFUNDED →
  (commercial (row_state row) = CommercialOrderStatus.COMPLETED →
   b ∈ [OrderBalanceStatus.PAID; OrderBalanceStatus.ON_ACCOUNT]) →
  (self_collection_recorded (row_state row) = true → collected = true) →
  Forall (λ a, 1 <= a) pays →
  ledger (update_money row b collected pays st ch coll) →
  (goods_out (set_money (row_state row) b collected) = true →
   b ∈ [OrderBalanceStatus.PAID; OrderBalanceStatus.ON_ACCOUNT]) →
  sound (update_money row b collected pays st ch coll).
Proof.
  intros [Hver Hwf Hpay Hled Hgoods Hready Hrel Hclosed Hholds] Hb Hc Hcol Hpays Hl Hg.
  split; cbn; try done; [lia|by apply wf_set_money|].
  intros Ho. apply Hg in Ho. revert Ho. rewrite !elem_of_cons. naive_solver.
Qed.

(** Goods still in the shop on a balance that owes money. *)
Lemma payable_in_shop row :
  sound row → balance (row_state row) ∈ PAYABLE_BALANCES →
  goods_out (row_state row) = false ∧ order_settlement row = None ∧
  account_charge row = None ∧ order_refund row = None ∧
  commercial (row_state row) ≠ CommercialOrderStatus.COMPLETED.
Proof.
  intros Hs Hb. pose proof (sound_ledger _ Hs) as Hl. unfold ledger in Hl.
  assert (balance (row_state row) ∉ [OrderBalanceStatus.PAID; OrderBalanceStatus.ON_ACCOUNT;
            OrderBalanceStatus.REFUNDED]) as Hn.
  { revert Hb. destruct (balance (row_state row));
      (intros _; decided) || (intros Hb; contradict Hb; decided). }
  assert (order_settlement row = None ∧ account_charge row = None ∧ order_refund row = None)
    as (Hst & Hch & Href).
  { revert Hl Hb. unfold PAYABLE_BALANCES. clear. destruct (balance (row_state row));
      intros Hl Hb; try (contradict Hb; decided); by destruct Hl as (_ & ? & ? & ?). }
  split_and!; try done.
  - destruct (goods_out _) eqn:Hg; [|done]. by apply (sound_goods _ Hs) in Hg.
  - intros Hc. apply (wf_completed _ (sound_wf _ Hs)) in Hc as (_ & _ & Hc).
    apply Hn. revert Hc. destruct (balance (row_state row));
      (intros _; decided) || (intros Hc; contradict Hc; decided).
Qed.

Lemma owed_charges_Some q fee cs :
  owed_charges q fee = Ok (Some cs) →
  0 <= fee ∧ ∃ total, minimum_vnd q = Some total ∧ maximum_vnd q = Some total ∧ 0 <= total ∧
    charges_total cs = total + fee.
Proof.
  unfold owed_charges. destruct (minimum_vnd q) as [mn|], (maximum_vnd q) as [mx|]; try done.
  destruct (Z.eqb_spec mn mx) as [->|]; [|done]. destruct (_whole_vnd mx) eqn:Hw; [|done].
  intros H. cbn in H. apply raise_bind_Ok in H as [Hf H]. injection H as <-.
  apply negb_false_iff, _whole_vnd_spec in Hf. apply _whole_vnd_spec in Hw.
  split; [lia|]. exists mx. split_and!; [done|done|lia|].
  destruct (Z.ltb_spec 0 fee); unfold charges_total, sumZ; cbn; lia.
Qed.

Lemma authorize_Ok c (A : Type) (k : repo A) a :
  (authorize c ;; k) = Ok a ↔
  has_role c = true ∧ mfa_verified c = true ∧ store_member c = true ∧ k = Ok a.
Proof. unfold authorize. destruct c as [[] [] []]; cbn; naive_solver. Qed.

Lemma sum_with_payment (l : list Z) a :
  0 <= a → sumZ (if 0 <? a then l ++ [a] else l)%list = sumZ l + a.
Proof. intros Ha. destruct (Z.ltb_spec 0 a); rewrite ?sumZ_app; unfold sumZ; cbn; lia. Qed.

Lemma payments_with (l : list Z) a :
  Forall (λ x, 1 <= x) l → Forall (λ x, 1 <= x) (if 0 <? a then l ++ [a] else l)%list.
Proof.
  intros Hl. destruct (Z.ltb_spec 0 a); [|done].
  apply Forall_app. split; [done|]. constructor; [lia|constructor].
Qed.

Lemma lift_program_Ok {E A} (r : result E A) a : lift_program r = Ok a ↔ r = Ok a.
Proof. destruct r; cbn; naive_solver. Qed.

Lemma record_payment_sound row caller v fee cmd row' :
  sound row → record_payment row caller v fee cmd = Ok row' → sound row'.
Proof.
  intros Hs H. unfold record_payment in H. apply authorize_Ok in H as (_ & _ & _ & H).
  apply raise_bind_Ok in H as [_ H]. apply bind_Ok in H as (charges & Hch & H).
  apply bind_Ok in H as (o & Ho & H). apply (proj1 (lift_program_Ok _ _)) in Hch, Ho.
  destruct o as [a|]; [|done].
  apply evaluate_payment_iff in Ho as (Hact & Hpay & _ & _ & _ & cs & -> & Hv & Hp & Hacc).
  destruct (payable_in_shop row Hs Hpay) as (Hin & Hst & Hchg & Href & Hnc).
  apply owed_charges_Some in Hch as (Hfee & total & Hmin & Hmax & Htot & Hcs).
  destruct Hacc as (-> & Hamt & Hcol). cbn in H.
  pose proof (sound_payments _ Hs) as Hpays.
  assert (0 <= pay_amount_vnd cmd) as Ha0 by lia.
  destruct (Z.eqb_spec (charges_total cs - sumZ (order_payments row) - pay_amount_vnd cmd) 0)
    as [Hz|Hz]; unfold completes in H; cbn [balance_after] in H.
  - rewrite bool_decide_true in H by done.
    destruct (evaluate_settlement _ _ _ _ _) as [shape t|] eqn:Hset; [|done]. cbn in H.
    apply evaluate_settlement_iff in Hset as (-> & Ht & Hm1 & Hm2 & _).
    apply bind_Ok in H as ([] & _ & H). injection H as <-.
    apply update_money_sound; try done.
    + by intros ->.
    + by apply payments_with.
    + unfold ledger. cbn. rewrite sum_with_payment by done. split_and!; [|done|].
      * exists total, fee. cbn. split_and!; try done; lia.
      * eexists. split; [done|]. cbn. lia.
    + intros _. decided.
  - rewrite bool_decide_false in H by done. injection H as <-.
    apply update_money_sound; try done.
    + by apply payments_with.
    + unfold ledger. cbn. rewrite sum_with_payment by done. split_and!; try done.
      pose proof (sumZ_nonneg (order_payments row)) as Hn. 
      assert (0 <= sumZ (order_payments row)) by
        (apply Hn; eapply Forall_impl; [exact Hpays|cbn; lia]). lia.
    + unfold goods_out in *. cbn. by rewrite Hin.
Qed.

Lemma record_settlement_sound row caller fee amount tick row' :
  sound row → record_settlement row caller fee amount tick = Ok row' → sound row'.
Proof.
  intros Hs H. unfold record_settlement in H. apply authorize_Ok in H as (_ & _ & _ & H).
  apply raise_bind_Ok in H as [_ H]. apply raise_bind_Ok in H as [_ H].
  apply raise_bind_Ok in H as [Hu H]. apply raise_bind_Ok in H as [Hf H].
  apply negb_false_iff in Hu. guards.
  assert (balance (row_state row) ∈ PAYABLE_BALANCES) as Hpay by (rewrite Hu; decided).
  destruct (payable_in_shop row Hs Hpay) as (Hin & Hst & Hchg & Href & Hnc).
  pose proof (sound_ledger _ Hs) as Hl. unfold ledger in Hl. rewrite Hu in Hl.
  destruct Hl as (Hnil & _).
  destruct (evaluate_settlement _ _ _ _ _) as [shape t|] eqn:Hset; [|done]. cbn in H.
  apply evaluate_settlement_iff in Hset as (-> & Ht & Hm1 & Hm2 & _).
  apply bind_Ok in H as ([] & _ & H). injection H as <-.
  apply update_money_sound; try done.
  - intros Hself. unfold goods_out in Hin. rewrite Hself, orb_true_r in Hin. done.
  - apply payments_with, Hs.
  - unfold ledger. cbn. rewrite sum_with_payment by lia. rewrite Hnil. cbn. change (sumZ []) with 0. split_and!; [|done|].
    + exists amount, 0. cbn. split_and!; try done; lia.
    + eexists. split; [done|]. cbn. lia.
  - intros _. decided.
Qed.

Lemma record_collection_sound row caller v row' :
  sound row → record_collection row caller v = Ok row' → sound row'.
Proof.
  intros Hs H. unfold record_collection in H. apply authorize_Ok in H as (_ & _ & _ & H).
  apply raise_bind_Ok in H as [_ H]. apply bind_Ok in H as (r & Hr & H).
  apply (proj1 (lift_program_Ok _ _)) in Hr. apply raise_bind_Ok in H as [Hn H].
  apply raise_bind_Ok in H as [Hp H]. injection H as <-.
  destruct r as [r|]; [done|]. apply evaluate_collection_iff in Hr as (Hc & _).
  apply orb_false_iff in Hp as [_ Hp]. apply negb_false_iff, bool_decide_eq_true in Hp.
  apply update_money_sound; try done.
  - by rewrite Hp.
  - by rewrite Hc.
  - apply Hs.
  - pose proof (sound_ledger _ Hs) as Hl. revert Hl. by apply ledger_ext.
  - intros _. rewrite Hp. decided.
Qed.

Lemma record_leg_sound row caller k o row' :
  sound row → record_leg row caller k o = Ok row' → sound row'.
Proof.
  intros Hs H. unfold record_leg in H. apply authorize_Ok in H as (_ & _ & _ & H).
  apply raise_bind_Ok in H as [Ha H]. do 3 apply raise_bind_Ok in H as [_ H].
  apply bind_Ok in H as ([] & Hret & H). apply raise_bind_Ok in H as [_ H]. injection H as <-.
  apply negb_false_iff, bool_decide_eq_true in Ha.
  destruct Hs as [Hver Hwf Hpay Hled Hgoods Hready Hrel Hclosed Hholds].
  set (fin := (k is? DeliveryLegKind.RETURN) && (o is? DeliveryLegOutcome.SUCCEEDED)
              && negb (required_delivery_legs_succeeded (row_state row))).
  assert (fin = true → balance (row_state row) ∈ GOODS_MAY_LEAVE_BALANCES) as Hfin.
  { intros Hf. unfold fin in Hf. rewrite !andb_true_iff in Hf. destruct Hf as [[Hk _] _].
    rewrite Hk in Hret. apply bind_Ok in Hret as (d & Hd & Hret).
    apply (proj1 (lift_program_Ok _ _)) in Hd. destruct d as [|]; [done|].
    by apply delivery_refusal_allows in Hd as [_ ?]. }
  split; cbn; try done.
  - destruct fin; lia.
  - destruct Hwf as [Wa Wst Wr Wrun Wcomp Wref]. split; cbn; try done.
    rewrite Ha. done.
  - intros Hg. unfold goods_out in Hg. cbn in Hg. rewrite orb_assoc in Hg.
    apply orb_true_iff in Hg as [Hg|Hg]; [by apply Hgoods|].
    apply Hfin in Hg. revert Hg. unfold GOODS_MAY_LEAVE_BALANCES. clear.
    destruct (balance (row_state row)); (intros _; decided) || (intros Hc; contradict Hc; decided).
Qed.

Lemma charge_sound row caller v fee standing tick row' :
  sound row → charge row caller v fee standing tick = Ok row' → sound row'.
Proof.
  intros Hs H. unfold charge in H. apply authorize_Ok in H as (_ & _ & _ & H).
  apply raise_bind_Ok in H as [_ H]. apply bind_Ok in H as (charges & Hch & H).
  apply bind_Ok in H as (owed & Howed & H). apply bind_Ok in H as (out & Hout & H).
  apply (proj1 (lift_program_Ok _ _)) in Hch, Hout. destruct out as [a|]; [|done].
  injection H as <-.
  apply evaluate_account_charge_iff in Hout
    as (t & st & limit & Ho & Hst & _ & Hact & Hpay & Hpaid & _ & _ & _ & _ & _ & _ & _ & _ & ->).
  cbn. destruct (payable_in_shop row Hs Hpay) as (Hin & Hset & Hchg & Href & Hnc).
  destruct charges as [cs|]; [|simplify_eq/=].
  apply owed_charges_Some in Hch as (Hfee & total & Hmin & Hmax & Htot & Hcs).
  apply bind_Ok in Howed as (t' & Ht' & [= <-]). apply (proj1 (lift_program_Ok _ _)) in Ht'.
  apply owed_total_Ok in Ht' as [_ ->]. injection Ho as <-.
  apply update_money_sound; try done.
  - by intros ->.
  - apply Hs.
  - unfold ledger. cbn. split_and!; [done|done|]. eexists. split; [done|]. cbn.
    split; [|split; lia]. exists total, fee. by split_and!.
  - intros _. decided.
Qed.

Lemma _allocate_sound row ch amount row' :
  sound row → account_charge row = Some ch → 1 <= amount →
  _allocate row ch amount = Ok row' → sound row'.
Proof.
  intros Hs Hch Ham H. unfold _allocate in H. apply raise_bind_Ok in H as [Hb H].
  apply raise_bind_Ok in H as [Hle H]. apply negb_false_iff, bool_decide_eq_true in Hb.
  pose proof (sound_ledger _ Hs) as Hl. unfold ledger in Hl. rewrite Hb in Hl.
  destruct Hl as (Hset & Href & c & Hc & Hdue & Hbd & Hamt). rewrite Hch in Hc.
  injection Hc as <-. guards.
  assert (Forall (λ x, 1 <= x) (order_payments row ++ [amount])) as Hpays.
  { apply Forall_app. split; [apply Hs|]. by constructor. }
  assert (sumZ (order_payments row ++ [amount]) = sumZ (order_payments row) + amount) as Hsum
    by (rewrite sumZ_app; unfold sumZ; cbn; lia).
  destruct (Z.eqb_spec (sumZ (order_payments row) + amount) (row_owed_vnd ch)) as [Heq|Hne].
  - destruct (evaluate_settlement _ _ _ _ _) as [shape t|]; [|done]. cbn in H.
    injection H as <-. apply update_money_sound; try done.
    + intros _. decided.
    + unfold ledger. cbn. rewrite Hsum. split_and!; [|done|].
      * rewrite Heq. exact Hdue.
      * eexists. split; [done|]. cbn. lia.
    + intros _. decided.
  - injection H as <-.
    destruct Hs as [Hver Hwf Hpay Hled Hgoods Hready Hrel Hclosed Hholds].
    split; cbn; try done. unfold ledger. cbn. rewrite Hb, Hsum. split_and!; [done|done|].
    exists ch. split_and!; [done|exact Hdue|lia|lia|done].
Qed.
