(* ===== verification/StepPlans.v ===== *)
(** A composite step is all or nothing: every plan [plan_step] accepts is written by
    [execute_step] transition by transition without a refusal in the middle. *)
From S2P Require Import Prelude Catalog Clock Orders Accounts Settlement Payments AccountCharge.
From S2P Require Import OrderSteps OrderRepository OrderLifecycle.
Local Open Scope laundry_scope.
Local Open Scope string_scope.
Local Open Scope Z_scope.

(** * States that differ only in the acceptance instant

    The simulation stamps acceptance with the step's instant, the repository with
    the transition's own microsecond; no transition looks at the value. *)

Definition set_accepted (s : OrderState) (a : option datetime) : OrderState :=
  {| commercial := commercial s; intake := intake s; production := production s;
     fulfillment_mode := fulfillment_mode s; balance := balance s;
     required_delivery_legs_succeeded := required_delivery_legs_succeeded s;
     self_collection_recorded := self_collection_recorded s;
     production_accepted_at := a;
     production_resume_status := production_resume_status s |}.

Definition same (s r : OrderState) : Prop :=
  ∃ a, r = set_accepted s a ∧ (is_Some a ↔ is_Some (production_accepted_at s)).

Lemma same_refl s : same s s.
Proof. exists (production_accepted_at s). by destruct s. Qed.

Lemma same_balance s r : same s r → balance r = balance s.
Proof. by intros (a & -> & _). Qed.

Lemma transition_commercial_same s r t ca cr res uv s' :
  same s r → transition_commercial s t ca cr res uv = Ok s' →
  ∃ r', transition_commercial r t ca cr res uv = Ok r' ∧ same s' r'.
Proof.
  intros (a & -> & Ha) H. exists (set_accepted s' a). split.
  - revert H. unfold transition_commercial, _reject_resolution_contradicting_the_record,
      _work_has_begun. cbn.
    repeat match goal with
           | |- (raise_if ?c _ ;; _) = _ → _ => destruct c; cbn; [discriminate|]
           | |- (if ?c then _ else _) = _ → _ => destruct c
           | |- context [_balance_after_cancellation ?b ?x] =>
               destruct (_balance_after_cancellation b x); cbn
           end; try discriminate; try (by intros [= <-]).
    all: repeat match goal with
           | |- context [raise_if ?c _] => destruct c; cbn; try discriminate
           end; try (by intros [= <-]).
  - destruct (transition_commercial_shape _ _ _ _ _ _ _ H) as (b & -> & _). by exists a.
Qed.

Lemma transition_production_same s r t s' :
  same s r → transition_production s t = Ok s' →
  ∃ r', transition_production r t = Ok r' ∧ same s' r'.
Proof.
  intros (a & -> & Ha) H. apply transition_production_spec in H as (Hc & Hi & x & He & ->).
  exists (set_production (set_accepted s a) t x). split; [|by exists a].
  apply transition_production_spec. split_and!; [done|done|]. by exists x.
Qed.

Lemma transition_intake_same s r t rd x m s' :
  same s r → transition_intake s t rd x = Ok s' → aware m = true →
  ∃ r', transition_intake r t rd (if t is? IntakeStatus.ACCEPTED then Some m else None) = Ok r' ∧
        same s' r'.
Proof.
  intros (a & -> & Ha) H Hm.
  pose proof (transition_intake_guards _ _ _ _ _ H) as (_ & _ & Hg).
  revert H. unfold transition_intake. cbn.
  destruct (commercial s in? _); cbn; [done|]. destruct (intake s in? _); cbn; [done|].
  destruct (decide (t = IntakeStatus.REJECTED)) as [->|Hrej].
  { rewrite bool_decide_true by done. destruct (intake s is? _); cbn; [done|].
    intros [= <-]. eexists. split; [done|]. by exists a. }
  rewrite (bool_decide_false (t = IntakeStatus.REJECTED)) by done.
  destruct (t in? _); cbn; [|done].
  destruct (index INTAKE_SEQUENCE (intake s)) as [i|]; cbn; [|done].
  destruct (index INTAKE_SEQUENCE t) as [j|]; cbn; [|done].
  destruct (j <=? i)%nat; cbn; [done|]. destruct ((intake s is? _) && _); cbn; [done|].
  destruct (decide (t = IntakeStatus.ACCEPTED)) as [->|Hacc].
  - rewrite bool_decide_true in Hg |- * by done.
    destruct Hg as (_ & (q & -> & Hq) & (d & -> & Hd) & Hn & _). rewrite Hq, Hd, Hn, Hm. cbn.
    assert (a = None) as -> by (apply eq_None_not_Some; rewrite Ha, Hn; by intros [? ?]).
    intros [= <-]. eexists. split; [done|]. exists (Some m). split; [done|]. by split.
  - rewrite (bool_decide_false (t = IntakeStatus.ACCEPTED)) by done.
    intros [= <-]. eexists. split; [done|]. by exists a.
Qed.

(** * One planned transition is written *)

Definition refunding (s n : OrderState) : bool :=
  (balance s in? [OrderBalanceStatus.PAID; OrderBalanceStatus.PARTIALLY_PAID])
  && (balance n is? OrderBalanceStatus.REFUNDED).

(** [p] moves one axis, and from any sound row standing at [s], writing it leads to one
    standing at [s']. *)
Definition follows (s : OrderState) (p : PlannedTransition) (s' : OrderState) : Prop :=
  (∀ m, dimension_count (planned_command p m) = 1) ∧
  ∀ row m, sound row → same s (row_state row) → aware m = true →
  ∃ row', _apply_locked_transition row (planned_command p m) m = Ok row' ∧
    same s' (row_state row') ∧ sound row' ∧ row_version row' = row_version row + 1.

Lemma refund_available row c m :
  sound row →
  balance (row_state row) ∈ [OrderBalanceStatus.PAID; OrderBalanceStatus.PARTIALLY_PAID] →
  ∃ r, _refund_for_cancellation row (Some c) (Some m)
    (balance (row_state row) is? OrderBalanceStatus.PARTIALLY_PAID) = Ok r.
Proof.
  intros Hs Hb. pose proof (sound_ledger _ Hs) as Hl. unfold ledger in Hl.
  unfold _refund_for_cancellation, _refund_source. cbn.
  rewrite !elem_of_cons in Hb. destruct Hb as [Hb|[Hb|Hb]]; [..|by apply elem_of_nil in Hb];
    rewrite Hb in *.
  - destruct Hl as (_ & _ & st & -> & _). rewrite bool_decide_false by done. by eexists.
  - destruct Hl as (Hp & _). rewrite bool_decide_true by done.
    destruct (Z.leb_spec (sumZ (order_payments row)) 0); [lia|]. by eexists.
Qed.

Lemma apply_decided row p m n :
  sound row → dimension_count (planned_command p m) = 1 →
  decide_transition (row_state row) (planned_command p m) = Ok n →
  refunding (row_state row) n = bool_decide (is_Some (refund_method p)) →
  (refunding (row_state row) n = true → is_Some (custody_resolution p)) →
  ∃ row', _apply_locked_transition row (planned_command p m) m = Ok row' ∧
    row_state row' = n ∧ sound row' ∧ row_version row' = row_version row + 1.
Proof.
  intros Hs Hdim Hd Href Hres.
  assert (∃ row', _apply_locked_transition row (planned_command p m) m = Ok row' ∧
            row_state row' = n) as (row' & Happ & Hst).
  { unfold _apply_locked_transition. rewrite Hd. cbn [mbind result_bind].
    fold (refunding (row_state row) n).
    change (cmd_refund (planned_command p m)) with (refund_method p).
    change (cmd_custody (planned_command p m)) with (custody_resolution p).
    destruct (refunding (row_state row) n) eqn:Hr.
    - symmetry in Href. guards. destruct Href as [meth Hm]. rewrite Hm.
      destruct (Hres eq_refl) as [c ->]. change (bool_decide (is_Some (Some meth))) with true. cbn [negb andb raise_if].
      unfold refunding in Hr. guards.
      destruct (refund_available row c meth) as [x Hx]; [done|done|].
      cbn [mbind result_bind]. rewrite Hx. cbn [mbind result_bind].
      destruct (_ready_clock_effect _ _ _ _ _). by eexists.
    - rewrite <- Href. cbn [negb andb raise_if mbind result_bind].
      destruct (_ready_clock_effect _ _ _ _ _). by eexists. }
  exists row'. destruct (apply_sound _ _ _ _ Hs Hdim Happ) as [? ?]. by split_and!.
Qed.

Lemma refund_shape s t ca cr r uv s' :
  wf s → transition_commercial s t ca cr r uv = Ok s' → refunding s s' = true →
  t = CommercialOrderStatus.CANCELLED ∧ is_Some r.
Proof.
  intros Hwf H Hr. pose proof (transition_commercial_guards _ _ _ _ _ _ _ H) as Hg.
  destruct (transition_commercial_shape _ _ _ _ _ _ _ H) as (b & -> & Hb).
  unfold refunding in Hr. cbn in Hr. guards. rename select (balance s ∈ _) into Hin.
  assert (balance s ≠ OrderBalanceStatus.REFUNDED) as Hne
    by (intros E; rewrite E in Hin; contradict Hin; decided).
  destruct (decide (t = CommercialOrderStatus.CANCELLED)) as [->|Hn];
    [|specialize (Hb Hn); congruence].
  split; [done|]. destruct Hg as (_ & [(_&_&_&_&Hbal)|(_&_&Hbal)]); cbn in Hbal; [|congruence].
  apply balance_after_cancellation_spec in Hbal as [[? _]|(_ & _ & x & -> & _)]; [congruence|eauto].
Qed.

Lemma refunding_same s r s' r' :
  same s r → same s' r' → refunding r r' = refunding s s'.
Proof. intros Hs Hs'. unfold refunding. by rewrite (same_balance _ _ Hs), (same_balance _ _ Hs'). Qed.

Lemma follows_commercial s t r s' p :
  let resolved := bool_decide (is_Some r) in
  transition_commercial s t resolved resolved r false = Ok s' →
  commercial_target p = Some t → intake_target p = None → production_target p = None →
  custody_resolution p = r →
  refunding s s' = bool_decide (is_Some (refund_method p)) →
  follows s p s'.
Proof.
  intros resolved H Ht Hi Hp Hc Href. subst resolved.
  assert (∀ m, dimension_count (planned_command p m) = 1) as Hdim
    by (intros m; unfold dimension_count; cbn; by rewrite Ht, Hi, Hp).
  split; [exact Hdim|]. intros row m Hs Hsame Hm.
  destruct (transition_commercial_same _ _ _ _ _ _ _ _ Hsame H) as (n & Hn & Hsn).
  assert (decide_transition (row_state row) (planned_command p m) = Ok n) as Hd.
  { unfold decide_transition. cbn. rewrite Ht, Hc. by rewrite Hn. }
  destruct (apply_decided row p m n) as (row' & ? & <- & ? & ?); eauto.
  - by rewrite (refunding_same _ _ _ _ Hsame Hsn).
  - intros Hr. rewrite Hc. by apply (refund_shape _ _ _ _ _ _ _ (sound_wf _ Hs) Hn) in Hr as [_ ?].
Qed.


Lemma follows_intake s t rd x s' :
  transition_intake s t rd x = Ok s' → follows s (planned_intake t rd) s'.
Proof.
  intros H. split; [done|]. intros row m Hs Hsame Hm.
  destruct (transition_intake_same _ _ _ _ _ m _ Hsame H Hm) as (n & Hn & Hsn).
  assert (decide_transition (row_state row) (planned_command (planned_intake t rd) m) = Ok n) as Hd.
  { unfold decide_transition. cbn.
    assert ((Some t is? Some IntakeStatus.ACCEPTED) = (t is? IntakeStatus.ACCEPTED)) as ->
      by (apply bool_decide_ext; naive_solver).
    by rewrite Hn. }
  assert (refunding (row_state row) n = false) as Hr.
  { apply transition_intake_guards in Hn as (_ & _ & Hg).
    assert (balance n = balance (row_state row)) as Hb
      by (case_bool_decide; [by destruct Hg as [-> _]|by rewrite Hg]).
    unfold refunding. rewrite Hb. by destruct (balance (row_state row)). }
  destruct (apply_decided row (planned_intake t rd) m n) as (row' & ? & <- & ? & ?); eauto.
  by rewrite Hr.
Qed.

Lemma follows_production s t s' :
  transition_production s t = Ok s' →
  (t = ProductionStatus.RELEASED → goods_paid (balance s) = true) →
  follows s (planned_production t) s'.
Proof.
  intros H Hpaid. split; [done|]. intros row m Hs Hsame Hm.
  destruct (transition_production_same _ _ _ _ Hsame H) as (n & Hn & Hsn).
  pose proof Hn as Hshape. apply transition_production_spec in Hshape as (_ & _ & x & _ & Hshape).
  assert (refunding (row_state row) n = false) as Hr.
  { rewrite Hshape. unfold refunding. cbn. by destruct (balance (row_state row)). }
  assert (decide_transition (row_state row) (planned_command (planned_production t) m) = Ok n) as Hd.
  { unfold decide_transition. cbn. rewrite Hn. cbn. unfold may_leave. rewrite goods_may_leave_None.
    cbn. rewrite Hshape. cbn. rewrite (same_balance _ _ Hsame).
    destruct (decide (t = ProductionStatus.RELEASED)) as [He|He].
    - rewrite (Hpaid He). cbn. by rewrite andb_false_r.
    - by rewrite bool_decide_false. }
  destruct (apply_decided row (planned_production t) m n) as (row' & ? & <- & ? & ?); eauto.
  by rewrite Hr.
Qed.

(** * Plans *)

Inductive follows_all : OrderState → list PlannedTransition → OrderState → Prop :=
| follows_nil s : follows_all s [] s
| follows_cons s p s1 l s2 : follows s p s1 → follows_all s1 l s2 → follows_all s (p :: l) s2.

Lemma follows_snoc s l s1 p s2 :
  follows_all s l s1 → follows s1 p s2 → follows_all s (l ++ [p]) s2.
Proof. induction 1; intros; cbn; econstructor; eauto using follows_nil. Qed.

(** The repository's loop writes every plan that follows. *)
Lemma replay_follows s l s' : follows_all s l s' → ∀ row i t,
  sound row → same s (row_state row) → aware t = true →
  ∃ row', replay row (row_version row) i t l = Ok row' ∧
    same s' (row_state row') ∧ sound row' ∧
    row_version row' = row_version row + Z.of_nat (length l).
Proof.
  induction 1 as [s|s p s1 l s2 Hp _ IH]; intros row i t Hs Hsame Ht.
  - exists row. cbn. split_and!; [done..|lia].
  - cbn [replay]. rewrite Z.eqb_refl. cbn [negb raise_if mbind result_bind].
    destruct (proj2 Hp row (dt_add t i) Hs Hsame) as (row1 & -> & Hsame1 & Hs1 & Hv1);
      [by rewrite aware_dt_add|].
    cbn [mbind result_bind]. destruct (IH row1 (i + 1) t Hs1 Hsame1 Ht) as (row2 & -> & ? & ? & Hv2).
    exists row2. cbn [length]. split_and!; [done..|lia].
Qed.

(** What every transition of the loop keeps, a step keeps: [P] of the row and the number of
    transitions written. *)
Section replay_invariant.
Context (P : OrderRow → Z → Prop) (t : datetime).
Context (P_apply : ∀ row i cmd row', sound row → P row i → dimension_count cmd = 1 →
  cmd_unclaimed_verified cmd = false →
  _apply_locked_transition row cmd (dt_add t i) = Ok row' → P row' (i + 1)).

Lemma replay_invariant s l s' : follows_all s l s' → ∀ row i row',
  sound row → same s (row_state row) → aware t = true → P row i →
  replay row (row_version row) i t l = Ok row' →
  P row' (i + (row_version row' - row_version row)).
Proof.
  induction 1 as [|s p s1 l s2 Hp _ IH]; intros row i row' Hs Hsame Ht HP Hr.
  - injection Hr as <-. by replace (i + _) with i by lia.
  - cbn [replay] in Hr. rewrite Z.eqb_refl in Hr. cbn [negb raise_if mbind result_bind] in Hr.
    destruct Hp as [Hdim Hp].
    destruct (Hp row (dt_add t i) Hs Hsame) as (row1 & Happ & Hsame1 & Hs1 & Hv1);
      [by rewrite aware_dt_add|].
    rewrite Happ in Hr. cbn [mbind result_bind] in Hr.
    replace (i + _) with (i + 1 + (row_version row' - row_version row1)) by lia.
    eapply IH; [done..| |exact Hr]. by eapply (P_apply row i _ row1 Hs HP (Hdim (dt_add t i)) eq_refl).
Qed.
End replay_invariant.

(** What the simulation has planned so far can be written. *)
Definition ran (s : OrderState) (sim : _Simulation) : Prop :=
  follows_all s (planned sim) (sim_state sim).

Lemma ran_init s : ran s {| sim_state := s; planned := [] |}.
Proof. constructor. Qed.

Lemma ran_intake s sim t rd x sim' :
  ran s sim → sim_intake sim t rd x = Ok sim' → ran s sim'.
Proof.
  intros Hr H. unfold sim_intake in H. apply bind_Ok in H as (n & Hn & [= <-]).
  unfold ran. cbn. eapply follows_snoc; [exact Hr|]. by eapply follows_intake.
Qed.

Lemma ran_production s sim t sim' :
  ran s sim → sim_production sim t = Ok sim' →
  (t = ProductionStatus.RELEASED → goods_paid (balance (sim_state sim)) = true) → ran s sim'.
Proof.
  intros Hr H Hp. unfold sim_production in H. apply bind_Ok in H as (n & Hn & [= <-]).
  unfold ran. cbn. eapply follows_snoc; [exact Hr|]. by eapply follows_production.
Qed.

Lemma sim_commercial_Ok sim t r sim' :
  sim_commercial sim t r = Ok sim' →
  let resolved := bool_decide (is_Some r) in
  transition_commercial (sim_state sim) t resolved resolved r false = Ok (sim_state sim') ∧
  planned sim' = (planned sim ++ [planned_commercial t r])%list.
Proof. unfold sim_commercial. intros H. apply bind_Ok in H as (n & Hn & [= <-]). done. Qed.

Lemma ran_commercial s sim t r sim' :
  ran s sim → sim_commercial sim t r = Ok sim' →
  refunding (sim_state sim) (sim_state sim') = false → ran s sim'.
Proof.
  intros Hr H Hn. apply sim_commercial_Ok in H as [Ht Hp]. unfold ran. rewrite Hp.
  eapply follows_snoc; [exact Hr|]. by eapply follows_commercial.
Qed.

(** A step without a custody answer never hands money back. *)
Lemma no_refund_None sim t sim' :
  wf (sim_state sim) → sim_commercial sim t None = Ok sim' →
  refunding (sim_state sim) (sim_state sim') = false.
Proof.
  intros Hwf H. apply sim_commercial_Ok in H as [Ht _].
  destruct (refunding _ _) eqn:Hr; [|done].
  by apply (refund_shape _ _ _ _ _ _ _ Hwf Ht) in Hr as [_ [? ?]].
Qed.

Lemma sim_commercial_wf sim t r sim' :
  wf (sim_state sim) → sim_commercial sim t r = Ok sim' → wf (sim_state sim').
Proof. intros Hwf H. apply sim_commercial_Ok in H as [Ht _]. by eapply transition_commercial_wf. Qed.

Lemma sim_intake_wf sim t rd x sim' :
  wf (sim_state sim) → sim_intake sim t rd x = Ok sim' → wf (sim_state sim').
Proof.
  intros Hwf H. unfold sim_intake in H. apply bind_Ok in H as (n & Hn & [= <-]).
  by eapply transition_intake_wf.
Qed.

Lemma sim_production_Ok sim t sim' :
  sim_production sim t = Ok sim' →
  transition_production (sim_state sim) t = Ok (sim_state sim') ∧
  planned sim' = (planned sim ++ [planned_production t])%list ∧
  balance (sim_state sim') = balance (sim_state sim).
Proof.
  unfold sim_production. intros H. apply bind_Ok in H as (n & Hn & [= <-]). split_and!; [done..|].
  apply transition_production_spec in Hn as (_ & _ & r & _ & ->). done.
Qed.

Lemma follows_cmd s p q s' :
  (∀ m, planned_command q m = planned_command p m) → follows s p s' → follows s q s'.
Proof. intros Hpq [Hd Hp]. split; [|intros row m Hs Hsame Hm]; intros; rewrite Hpq; [apply Hd|by apply Hp]. Qed.

(** A reason recorded on a planned transition changes no command. *)
Lemma ran_replace_head s sim f sim' :
  (∀ p m, planned_command (f p) m = planned_command p m) →
  ran s sim → replace_planned sim 0 f = Ok sim' → ran s sim'.
Proof.
  intros Hf Hr H. unfold replace_planned in H. apply bind_Ok in H as (p & Hp & [= <-]).
  unfold ran in *. cbn. apply (proj1 (require_some_Ok _ _ _)) in Hp.
  destruct (planned sim) as [|p0 l]; [done|]. cbn in Hp |- *. injection Hp as ->.
  inversion_clear Hr as [|? ? s1 ? ? Hfp Hrest]. econstructor; [|exact Hrest].
  by eapply follows_cmd; [apply Hf|].
Qed.

Lemma ran_receive facts slot t sim' :
  wf (state facts) →
  _plan_receive {| sim_state := state facts; planned := [] |} facts slot t = Ok sim' →
  ran (state facts) sim'.
Proof.
  intros Hwf H. unfold _plan_receive in H. apply raise_bind_Ok in H as [_ H].
  set (I := λ sim, ran (state facts) sim ∧ wf (sim_state sim)).
  assert (∀ sim t sim', I sim → sim_commercial sim t None = Ok sim' → I sim') as Hcom.
  { intros sim c sim1 [Hr Hw] Hc. split; [|by eapply sim_commercial_wf].
    eapply ran_commercial; eauto using no_refund_None. }
  assert (∀ sim c rd x sim', I sim → sim_intake sim c rd x = Ok sim' → I sim') as Hint.
  { intros sim c rd x sim1 [Hr Hw] Hc. split; [by eapply ran_intake|by eapply sim_intake_wf]. }
  assert (I {| sim_state := state facts; planned := [] |}) as H0 by (split; [apply ran_init|done]).
  apply bind_Ok in H as (s1 & H1 & H). assert (I s1) as HI1.
  { split_if H1; [eapply Hint; [exact H0|exact H1]|by injection H1 as <-]. }
  apply bind_Ok in H as (s2 & H2 & H). assert (I s2) as HI2.
  { split_if H2; [eapply Hcom; [exact HI1|exact H2]|by injection H2 as <-]. }
  apply bind_Ok in H as (s3 & H3 & H). assert (I s3) as HI3.
  { eapply (fold_result_inv I); [|exact HI2|exact H3]. intros sim c sim1 _ Hi Ha.
    unfold advance_to_confirmed in Ha. split_if Ha; [|by injection Ha as <-].
    apply bind_Ok in Ha as (i & _ & Ha). apply bind_Ok in Ha as (j & _ & Ha).
    destruct (i <? j)%nat; [eapply Hcom; [exact Hi|exact Ha]|by injection Ha as <-]. }
  apply bind_Ok in H as (s4 & H4 & H). assert (I s4) as HI4.
  { split_if H4; [|by injection H4 as <-].
    apply raise_bind_Ok in H4 as [_ H4]. eapply Hint; [exact HI3|exact H4]. }
  by destruct (Hcom _ _ _ HI4 H).
Qed.

Lemma ran_last_refund s sim t r sim' m sim'' :
  wf (sim_state sim) → ran s sim → sim_commercial sim t r = Ok sim' →
  balance s = balance (sim_state sim) →
  _attach_refund_method sim' s m = Ok sim'' → ran s sim''.
Proof.
  intros Hwf Hr H Hb Ha. unfold _attach_refund_method in Ha.
  assert ((balance (sim_state sim') is? OrderBalanceStatus.REFUNDED)
          && negb (balance s is? OrderBalanceStatus.REFUNDED)
          = refunding (sim_state sim) (sim_state sim')) as Heq.
  { apply sim_commercial_Ok in H as [Ht _]. unfold refunding. rewrite Hb.
    pose proof (transition_commercial_guards _ _ _ _ _ _ _ Ht) as Hg.
    destruct (transition_commercial_shape _ _ _ _ _ _ _ Ht) as (b & Hs & Hb').
    rewrite Hs. cbn. destruct (decide (t = CommercialOrderStatus.CANCELLED)) as [->|Hn].
    - destruct Hg as (_ & [(_&_&_&_&Hbal)|(_&_&Hbal)]); rewrite Hs in Hbal; cbn in Hbal.
      + apply balance_after_cancellation_spec in Hbal as [[-> _]|(-> & Hin & _)].
        * by destruct (balance (sim_state sim)).
        * rewrite (bool_decide_true _ Hin), andb_comm. f_equal.
          apply negb_true_iff, bool_decide_eq_false. intros E. rewrite E in Hin.
          contradict Hin. decided.
      + rewrite Hbal. by destruct (balance (sim_state sim)).
    - rewrite (Hb' Hn). by destruct (balance (sim_state sim)). }
  rewrite Heq in Ha. destruct (refunding _ _) eqn:Href; cbn in Ha.
  - destruct m as [m|]; [|done]. unfold replace_planned in Ha.
    apply bind_Ok in Ha as (p & Hp & [= <-]). apply (proj1 (require_some_Ok _ _ _)) in Hp.
    apply sim_commercial_Ok in H as [Ht Hpl]. unfold ran. cbn. rewrite Hpl in *.
    rewrite length_app in *. cbn in Hp |- *.
    replace (length (planned sim) + 1 - 1)%nat with (length (planned sim) + 0)%nat in * by lia.
    rewrite lookup_app_r in Hp by lia. rewrite insert_app_r.
    replace (length (planned sim) + 0 - length (planned sim))%nat with 0%nat in Hp by lia.
    cbn in Hp |- *. injection Hp as <-. eapply follows_snoc; [exact Hr|].
    eapply follows_commercial; [exact Ht|done..].
  - apply raise_bind_Ok in Ha as [_ [= <-]]. by eapply ran_commercial.
Qed.

Lemma ran_rewash s reason sim' :
  _plan_rewash {| sim_state := s; planned := [] |} reason = Ok sim' → ran s sim'.
Proof.
  intros H. unfold _plan_rewash in H. do 4 apply raise_bind_Ok in H as [_ H].
  destruct reason as [r|]; [|done].
  apply bind_Ok in H as (s1 & H1 & H). apply bind_Ok in H as (s2 & H2 & H).
  eapply (ran_replace_head _ _ (with_rewash_reason r)); [done| |exact H].
  eapply ran_production; [|exact H2|done]. eapply ran_production; [apply ran_init|exact H1|done].
Qed.

Lemma ran_reject_intake s reason sim' :
  wf s → _plan_reject_intake {| sim_state := s; planned := [] |} reason = Ok sim' → ran s sim'.
Proof.
  intros Hwf H. unfold _plan_reject_intake in H. do 4 apply raise_bind_Ok in H as [_ H].
  destruct reason as [r|]; [|done].
  apply bind_Ok in H as (s1 & H1 & H). apply bind_Ok in H as (s2 & H2 & H).
  eapply (ran_replace_head _ _ (with_rejection_reason r)); [done| |exact H].
  eapply ran_commercial; [eapply ran_intake; [apply ran_init|exact H1]|exact H2|].
  eapply no_refund_None; [|exact H2]. eapply sim_intake_wf; [|exact H1]. done.
Qed.

Lemma ran_cancel s res m sim sim' :
  wf s → _plan_cancel {| sim_state := s; planned := [] |} res = Ok sim →
  _attach_refund_method sim s m = Ok sim' → ran s sim'.
Proof.
  intros Hwf H Ha. unfold _plan_cancel in H. cbn [sim_state] in H.
  assert (sim_commercial {| sim_state := s; planned := [] |} CommercialOrderStatus.CANCELLED res
          = Ok sim → ran s sim') as Hdirect.
  { intros Hc. eapply ran_last_refund; [| |exact Hc| |exact Ha]; [done|apply ran_init|done]. }
  split_if H; [|split_if H; by apply Hdirect].
  apply bind_Ok in H as (s1 & H1 & H). pose proof H1 as H1'.
  apply sim_commercial_Ok in H1' as [Ht _].
  destruct (transition_commercial_shape _ _ _ _ _ _ _ Ht) as (b & Hs & Hb).
  eapply ran_last_refund; [| |exact H| |exact Ha].
  - by eapply sim_commercial_wf; [|exact H1].
  - eapply ran_commercial; [apply ran_init|exact H1|]. by eapply no_refund_None; [|exact H1].
  - rewrite Hs. cbn. by rewrite Hb.
Qed.

(** A handover closes the order, so what it releases is paid for. *)
Lemma completed_paid sim sim' :
  sim_commercial sim CommercialOrderStatus.COMPLETED None = Ok sim' →
  goods_paid (balance (sim_state sim)) = true.
Proof.
  intros H. apply sim_commercial_Ok in H as [Ht _].
  pose proof (transition_commercial_guards _ _ _ _ _ _ _ Ht) as (_ & _ & _ & Hb & _).
  by apply bool_decide_eq_true.
Qed.

Lemma plan_branch_ran st facts slot t a sim :
  wf (state facts) → plan_branch st facts slot t a = Ok sim → ran (state facts) sim.
Proof.
  intros Hwf H. pose proof (ran_init (state facts)) as H0.
  assert (∀ c sim, sim_commercial {| sim_state := state facts; planned := [] |} c None = Ok sim →
            ran (state facts) sim) as Hcom.
  { intros c s1 Hc. eapply ran_commercial; [exact H0|exact Hc|]. by eapply no_refund_None. }
  destruct st; cbn [plan_branch] in H; try (by injection H as <-).
  - by eapply ran_receive.
  - apply raise_bind_Ok in H as [_ H]. apply bind_Ok in H as (u & _ & H).
    apply bind_Ok in H as (s1 & H1 & H). eapply ran_production; [|exact H|done].
    split_if H1; [by eapply ran_production|by injection H1 as <-].
  - apply bind_Ok in H as (u & _ & H). by eapply ran_production.
  - apply bind_Ok in H as (u & _ & H). by eapply ran_production.
  - by eapply ran_production.
  - apply raise_bind_Ok in H as [_ H]. apply bind_Ok in H as (r & Hr & H).
    apply (proj1 (require_some_Ok _ _ _)) in Hr. eapply ran_production; [exact H0|exact H|].
    intros ->. pose proof (wf_resume _ Hwf) as Hw. rewrite Hr in Hw. destruct Hw as [_ Hw].
    contradict Hw. decided.
  - by eapply ran_rewash.
  - apply bind_Ok in H as (u & _ & H). apply bind_Ok in H as (leave & Hl & H).
    apply raise_bind_Ok in H as [Hn H]. eapply ran_production; [exact H0|exact H|]. intros _.
    unfold may_leave in Hl. rewrite goods_may_leave_None in Hl. injection Hl as <-.
    by apply negb_false_iff.
  - apply bind_Ok in H as (s1 & H1 & H). pose proof (completed_paid _ _ H) as Hpaid.
    split_if H1; cbn in H1.
    + apply bind_Ok in H1 as (u & _ & H1).
      pose proof (sim_production_Ok _ _ _ H1) as (Ht & _ & Hb). cbn in Hb.
      eapply ran_commercial; [eapply ran_production; [exact H0|exact H1|]|exact H|].
      * intros _. cbn. by rewrite <- Hb.
      * eapply no_refund_None; [|exact H]. by eapply transition_production_wf.
    + injection H1 as <-. by eapply Hcom.
  - by eapply Hcom.
  - apply bind_Ok in H as (s1 & H1 & H). by eapply ran_cancel.
  - by eapply ran_reject_intake.
  - apply raise_bind_Ok in H as [_ H]. by eapply Hcom.
Qed.

Lemma plan_step_Ok st facts slot t a plan :
  plan_step st facts slot t a = Ok plan →
  st ∈ COMPOSITE_STEPS ∧ plan ≠ [] ∧
  ∃ sim, plan_branch st facts slot t a = Ok sim ∧ planned sim = plan.
Proof.
  unfold plan_step. intros H. apply raise_bind_Ok in H as [Hc H].
  do 4 apply raise_bind_Ok in H as [_ H]. apply bind_Ok in H as (sim & Hs & H).
  apply raise_bind_Ok in H as [Hl [= <-]]. guards. split_and!; [done| |by exists sim].
  intros Hn. rewrite Hn in Hl. done.
Qed.


Lemma execute_step_sound row caller v st slot a t row' :
  sound row → aware t = true → execute_step row caller v st slot a t = Ok row' → sound row'.
Proof.
  intros Hs Ht H. unfold execute_step in H. do 3 apply raise_bind_Ok in H as [_ H].
  apply raise_bind_Ok in H as [Hv H]. guards. subst v.
  destruct (plan_step _ _ _ _ _) as [plan|] eqn:Hp; [|done]. cbn in H.
  destruct (plan_step_Ok _ _ _ _ _ _ Hp) as (_ & _ & sim & Hb & <-).
  apply plan_branch_ran in Hb; [|apply Hs].
  destruct (replay_follows _ _ _ Hb row 0 t Hs (same_refl _) Ht) as (row1 & Hr & _ & ? & _).
  rewrite Hr in H. by injection H as <-.
Qed.

(** An invariant of the transitions is one of the composite steps. *)
Lemma execute_step_invariant (P : OrderRow → Z → Prop) row caller v st slot a t row' :
  sound row → aware t = true → P row 0 →
  (∀ r i cmd r', sound r → P r i → dimension_count cmd = 1 → cmd_unclaimed_verified cmd = false →
     _apply_locked_transition r cmd (dt_add t i) = Ok r' → P r' (i + 1)) →
  execute_step row caller v st slot a t = Ok row' → P row' (row_version row' - row_version row).
Proof.
  intros Hs Ht HP Happ H. unfold execute_step in H. do 3 apply raise_bind_Ok in H as [_ H].
  apply raise_bind_Ok in H as [Hv H]. guards. subst v.
  destruct (plan_step _ _ _ _ _) as [plan|] eqn:Hp; [|done]. cbn in H.
  destruct (plan_step_Ok _ _ _ _ _ _ Hp) as (_ & _ & sim & Hb & <-).
  apply plan_branch_ran in Hb; [|apply Hs].
  by apply (replay_invariant P t Happ _ _ _ Hb row 0 row' Hs (same_refl _) Ht HP).
Qed.

Definition witness_row : OrderRow :=
  new_row FulfillmentMode.SELF_DROP_SELF_COLLECT
    {| minimum_vnd := Some 60000; maximum_vnd := Some 60000 |}
    {| q_quantity_basis_approved := true; q_service_classified := true;
       q_exact_price_approved := true; q_customer_reconfirmation_satisfied := true |}.

