(* ===== verification/OrderMachine.v ===== *)
(** The order machine: every command as one step of a transition system, and what
    holds of every order the shop can ever see. *)
From S2P Require Import Prelude Catalog Clock Orders Accounts Settlement Payments AccountCharge.
From S2P Require Import OrderSteps OrderRepository OrderLifecycle StepPlans.
Local Open Scope laundry_scope.
Local Open Scope string_scope.
Local Open Scope Z_scope.

Inductive order_step (row : OrderRow) : OrderRow → Prop :=
| step_transition caller v cmd t row' :
    transition row caller v cmd t = Ok row' → order_step row row'
| step_composite caller v st slot a t row' :
    aware t = true → execute_step row caller v st slot a t = Ok row' → order_step row row'
| step_payment caller v fee cmd row' :
    record_payment row caller v fee cmd = Ok row' → order_step row row'
| step_settlement caller fee amount tick row' :
    record_settlement row caller fee amount tick = Ok row' → order_step row row'
| step_collection caller v row' :
    record_collection row caller v = Ok row' → order_step row row'
| step_leg caller k o row' :
    record_leg row caller k o = Ok row' → order_step row row'
| step_charge caller v fee standing tick row' :
    charge row caller v fee standing tick = Ok row' → order_step row row'
| step_allocation ch amount row' :
    account_charge row = Some ch → 1 <= amount →
    _allocate row ch amount = Ok row' → order_step row row'.

(** An order as [create] inserts it. *)
Definition created (row : OrderRow) : Prop := ∃ mode q rd, row = new_row mode q rd.

Definition reachable_order : OrderRow → Prop := reachable created order_step.

Lemma transition_apply row caller v cmd t row' :
  transition row caller v cmd t = Ok row' →
  dimension_count cmd = 1 ∧ v = row_version row ∧ _apply_locked_transition row cmd t = Ok row'.
Proof.
  unfold transition. intros H. apply raise_bind_Ok in H as [_ H].
  apply raise_bind_Ok in H as [Hd H]. apply raise_bind_Ok in H as [_ H].
  apply raise_bind_Ok in H as [Hv H]. guards. by subst.
Qed.

Lemma order_step_sound row row' : sound row → order_step row row' → sound row'.
Proof.
  intros Hs H. destruct H.
  - apply transition_apply in H as (Hd & _ & H). by destruct (apply_sound _ _ _ _ Hs Hd H).
  - by eapply execute_step_sound.
  - by eapply record_payment_sound.
  - by eapply record_settlement_sound.
  - by eapply record_collection_sound.
  - by eapply record_leg_sound.
  - by eapply charge_sound.
  - by eapply _allocate_sound.
Qed.

Lemma reachable_sound row : reachable_order row → sound row.
Proof.
  apply reachable_invariant; [|apply order_step_sound].
  intros r (mode & q & rd & ->). apply sound_new_row.
Qed.



(** the row's clocks and its order state never disagree.  In every reachable
    order the ready time is set exactly while the laundry is finished (on the
    shelf, released, or interrupted on the shelf), the release time exactly when it
    left, the close time exactly when the order completed, the acceptance time
    exactly when intake accepted it, and at most one storage hold is open -- exactly
    while finished laundry is on hold or in exception. *)
Theorem reachable_clocks row :
  reachable_order row →
  (is_Some (production_ready_at row) ↔ finished (row_state row) = true) ∧
  (is_Some (production_released_at row) ↔
   production (row_state row) = ProductionStatus.RELEASED) ∧
  (is_Some (closed_at row) ↔ commercial (row_state row) = CommercialOrderStatus.COMPLETED) ∧
  (is_Some (production_accepted_at (row_state row)) ↔
   intake (row_state row) = IntakeStatus.ACCEPTED) ∧
  length (open_holds row) =
    (if shelf_paused (production_resume_status (row_state row)) then 1 else 0)%nat.
Proof.
  intros Hr. apply reachable_sound in Hr. destruct Hr. split_and!; try done.
  symmetry. by apply wf_accepted.
Qed.

(** a completed order is a finished story: its laundry was accepted and
    released, it reached its customer by collection or delivery, and it is paid or
    on account. *)
Theorem completed_order_is_fulfilled row :
  reachable_order row → commercial (row_state row) = CommercialOrderStatus.COMPLETED →
  intake (row_state row) = IntakeStatus.ACCEPTED ∧
  production (row_state row) = ProductionStatus.RELEASED ∧
  (required_delivery_legs_succeeded (row_state row) = true ∨
   self_collection_recorded (row_state row) = true) ∧
  balance (row_state row) ∈ [OrderBalanceStatus.PAID; OrderBalanceStatus.ON_ACCOUNT] ∧
  is_Some (production_ready_at row) ∧ is_Some (production_released_at row).
Proof.
  intros Hr Hc. apply reachable_sound in Hr. pose proof (sound_wf _ Hr) as Hw.
  destruct (wf_completed _ Hw Hc) as (Hp & Hf & Hb). apply orb_true_iff in Hf.
  split_and!; try done.
  - apply (wf_running _ Hw). rewrite Hc. decided.
  - apply (sound_ready _ Hr). unfold finished, finished_at. by rewrite Hp.
  - by apply (sound_released _ Hr).
Qed.

(** * A walk-in from the counter to the door *)

Definition counter : Caller := {| has_role := true; mfa_verified := true; store_member := true |}.
Definition cash (amount : Z) (takes_goods : bool) : PaymentCommand :=
  {| pay_amount_vnd := amount; pay_method := PaymentMethod.TIEN_MAT; pay_transfer_seen := false;
     pay_bank_ref := None; pay_collected := takes_goods |}.

Definition walk_in : repo OrderRow :=
  let t := _DRY_RUN_INSTANT in
  r ← execute_step witness_row counter 1 OrderStep.RECEIVE true no_answers t;
  r ← record_payment r counter (row_version r) 0 (cash 20000 false);
  r ← execute_step r counter (row_version r) OrderStep.START_WASH true no_answers t;
  r ← execute_step r counter (row_version r) OrderStep.QUALITY_CHECK true no_answers t;
  r ← execute_step r counter (row_version r) OrderStep.MARK_READY true no_answers t;
  r ← record_payment r counter (row_version r) 5000 (cash 45000 true);
  execute_step r counter (row_version r) OrderStep.HAND_OVER true no_answers t.

Definition walked_in : OrderRow := match walk_in with Ok r => r | Err _ => witness_row end.

Lemma walk_in_Ok : walk_in = Ok walked_in.
Proof. vm_compute. reflexivity. Qed.

Lemma walk_in_steps row : walk_in = Ok row → reachable_order row.
Proof.
  unfold walk_in. intros H.
  exists witness_row. split; [by eexists _, _, _|].
  apply bind_Ok in H as (r1 & H1 & H). apply bind_Ok in H as (r2 & H2 & H).
  apply bind_Ok in H as (r3 & H3 & H). apply bind_Ok in H as (r4 & H4 & H).
  apply bind_Ok in H as (r5 & H5 & H). apply bind_Ok in H as (r6 & H6 & H).
  eapply rtc_l; [by eapply step_composite; [|exact H1]|].
  eapply rtc_l; [by eapply step_payment; exact H2|].
  eapply rtc_l; [by eapply step_composite; [|exact H3]|].
  eapply rtc_l; [by eapply step_composite; [|exact H4]|].
  eapply rtc_l; [by eapply step_composite; [|exact H5]|].
  eapply rtc_l; [by eapply step_payment; exact H6|].
  apply rtc_once. by eapply step_composite; [|exact H].
Qed.

Lemma walk_in_reachable : reachable_order walked_in.
Proof. apply walk_in_steps, walk_in_Ok. Qed.


Lemma reachable_clocks_witness :
  is_Some (production_ready_at walked_in) ∧ is_Some (closed_at walked_in).
Proof.
  destruct (reachable_clocks walked_in walk_in_reachable) as (H1 & _ & H2 & _).
  split; [apply H1|apply H2]; vm_compute; reflexivity.
Defined.

Lemma completed_order_is_fulfilled_witness :
  commercial (row_state walked_in) = CommercialOrderStatus.COMPLETED ∧
  production (row_state walked_in) = ProductionStatus.RELEASED.
Proof.
  assert (commercial (row_state walked_in) = CommercialOrderStatus.COMPLETED) as Hc
    by (vm_compute; reflexivity).
  split; [exact Hc|]. by apply (completed_order_is_fulfilled walked_in walk_in_reachable Hc).
Defined.

