(* ===== verification/NextSteps.v ===== *)
(** The list of legal next steps the console shows is exactly what the step route
    accepts: total on every well-formed order, sound, complete, and with at most
    one primary step. *)
From S2P Require Import Prelude Catalog Clock Orders Accounts Settlement Payments AccountCharge.
From S2P Require Import OrderSteps OrderRepository OrderLifecycle StepPlans.
Local Open Scope laundry_scope.
Local Open Scope string_scope.

(** * No step raises anything but a refusal *)

Definition caught {A} (r : outcome A) : Prop := ∀ e, r ≠ Err (Uncaught e).

Lemma caught_Ok {A} (a : A) : caught (Ok a : outcome A).
Proof. intros e [=]. Qed.
Lemma caught_bind {A B} (m : outcome A) (f : A → outcome B) :
  caught m → (∀ a, m = Ok a → caught (f a)) → caught (m ≫= f).
Proof. intros Hm Hf e He. apply bind_Err in He as [He|(a & Ha & He)]; [by eapply Hm|by eapply Hf]. Qed.
Lemma caught_raise (c : bool) e : caught (Err e : outcome unit) → caught (raise_if c e).
Proof. intros He. destruct c; [exact He|apply caught_Ok]. Qed.
Lemma caught_refusal {A} e :
  match e with Uncaught _ => False | _ => True end → caught (Err e : outcome A).
Proof. intros He x [= ->]. done. Qed.

Lemma caught_require {A} (o : option A) e :
  match e with Uncaught _ => False | _ => True end → caught (require_some o e).
Proof. intros He. destruct o; [apply caught_Ok|by apply caught_refusal]. Qed.

(** Decompose a computation until only its uncertain calls are left. *)
Ltac caught_step :=
  match goal with
  | |- caught (_ ≫= _) => apply caught_bind; [|intros ? ?]
  | |- caught (raise_if _ _) => apply caught_raise, caught_refusal; exact I
  | |- caught (require_some _ _) => apply caught_require; exact I
  | |- caught (Ok _) => apply caught_Ok
  | |- caught (Err _) => apply caught_refusal; exact I
  | |- caught (if ?b then _ else _) => let Hb := fresh "Hb" in destruct b eqn:Hb
  | |- caught (match ?o with Some _ => _ | None => _ end) => let Ho := fresh "Ho" in destruct o eqn:Ho
  end.
Ltac caughts := repeat caught_step.

Lemma index_caught {A} `{EqDecision A} (l : list A) x : x ∈ l → caught (index l x).
Proof.
  intros Hx. unfold index. destruct (position x l) as [i|] eqn:Hp; [apply caught_Ok|].
  exfalso. induction l as [|y l IH]; [by apply elem_of_nil in Hx|]. cbn in Hp.
  case_decide; [done|]. apply IH; [by apply elem_of_cons in Hx as [?|?]|].
  by destruct (position x l).
Qed.

Lemma transition_commercial_caught s t ca cr res uv :
  caught (transition_commercial s t ca cr res uv).
Proof.
  unfold transition_commercial, _reject_resolution_contradicting_the_record,
    _balance_after_cancellation. caughts.
Qed.

Lemma transition_intake_caught s t rd x : caught (transition_intake s t rd x).
Proof.
  unfold transition_intake. caughts.
  - apply index_caught. rename select (raise_if (intake s in? _) _ = _) into Hi.
    apply raise_if_Ok in Hi. guards. revert Hi.
    destruct (intake s); (intros _; decided) || (intros Hi; contradict Hi; decided).
  - apply index_caught. rename select (raise_if (negb (t in? _)) _ = _) into Ht.
    apply raise_if_Ok in Ht. by guards.
Qed.

Lemma transition_production_caught s t : wf s → caught (transition_production s t).
Proof.
  intros Hwf. pose proof (wf_resume _ Hwf) as Hr. unfold transition_production. caughts.
  - apply index_caught. rename select (raise_if (negb (t in? _)) _ = _) into Ht.
    apply raise_if_Ok in Ht. by guards.
  - apply index_caught. destruct Hr as [_ Hr]. revert Hr.
    destruct t0; (intros _; decided) || (intros Hr; contradict Hr; decided).
  - apply index_caught. guards. destruct (production s); first [decided|done].
  - apply index_caught. by guards.
Qed.

Lemma sim_commercial_caught sim t r : caught (sim_commercial sim t r).
Proof. unfold sim_commercial. caughts. apply transition_commercial_caught. Qed.

Lemma sim_intake_caught sim t rd x : caught (sim_intake sim t rd x).
Proof. unfold sim_intake. caughts. apply transition_intake_caught. Qed.

Lemma sim_production_caught sim t : wf (sim_state sim) → caught (sim_production sim t).
Proof. intros Hwf. unfold sim_production. caughts. by apply transition_production_caught. Qed.

Lemma sim_production_wf sim t sim' :
  wf (sim_state sim) → sim_production sim t = Ok sim' → wf (sim_state sim').
Proof. intros Hwf H. apply sim_production_Ok in H as (H & _). by eapply transition_production_wf. Qed.

Lemma replace_planned_caught sim i f :
  (i < length (planned sim))%nat → caught (replace_planned sim i f).
Proof.
  intros Hi. unfold replace_planned. apply lookup_lt_is_Some in Hi as [p ->]. cbn. apply caught_Ok.
Qed.

Lemma sim_commercial_planned sim t r sim' :
  sim_commercial sim t r = Ok sim' → length (planned sim') = S (length (planned sim)).
Proof. intros H. apply sim_commercial_Ok in H as [_ ->]. rewrite length_app. cbn. lia. Qed.

Lemma sim_production_planned sim t sim' :
  sim_production sim t = Ok sim' → length (planned sim') = S (length (planned sim)).
Proof. intros H. apply sim_production_Ok in H as (_ & -> & _). rewrite length_app. cbn. lia. Qed.

Lemma _require_production_caught s p : caught (_require_production s p).
Proof. unfold _require_production. caughts. Qed.

Lemma may_leave_caught b : caught (may_leave b).
Proof. unfold may_leave. rewrite goods_may_leave_None. apply caught_Ok. Qed.

#[local] Hint Resolve sim_commercial_caught sim_intake_caught sim_production_caught
  sim_commercial_wf sim_intake_wf sim_production_wf _require_production_caught
  may_leave_caught : caught.

Lemma fold_result_caught {A S} (f : S → A → outcome S) l s :
  (∀ s x, x ∈ l → caught (f s x)) → caught (fold_result f s l).
Proof.
  revert s; induction l as [|x l IH]; intros s Hf; cbn; caughts.
  - apply Hf. left.
  - apply IH. intros s' y Hy. apply Hf. by right.
Qed.

Lemma plan_receive_caught sim facts slot t : caught (_plan_receive sim facts slot t).
Proof.
  unfold _plan_receive. caughts; auto with caught.
  apply fold_result_caught. intros s c Hc. unfold advance_to_confirmed. caughts; auto with caught.
  - apply index_caught. by guards.
  - apply index_caught. revert Hc. unfold _COMMERCIAL_TO_CONFIRMED. cbn.
    rewrite !elem_of_cons. tauto.
Qed.

Lemma plan_cancel_caught sim r : caught (_plan_cancel sim r).
Proof. unfold _plan_cancel. caughts; auto with caught. Qed.

Lemma plan_cancel_planned sim r sim' :
  _plan_cancel sim r = Ok sim' → (0 < length (planned sim'))%nat.
Proof.
  unfold _plan_cancel. intros H. split_if H; [apply bind_Ok in H as (s1 & _ & H)|split_if H];
    apply sim_commercial_planned in H; lia.
Qed.

Lemma attach_refund_caught sim s m :
  (0 < length (planned sim))%nat → caught (_attach_refund_method sim s m).
Proof.
  intros Hl. unfold _attach_refund_method. caughts. apply replace_planned_caught. lia.
Qed.

Lemma plan_rewash_caught s r : wf s → caught (_plan_rewash {| sim_state := s; planned := [] |} r).
Proof.
  intros Hwf. unfold _plan_rewash. caughts; eauto with caught.
  - apply sim_production_caught. by eapply sim_production_wf; [|eassumption].
  - apply replace_planned_caught. rename select (sim_production _ ProductionStatus.IN_PROCESS = _) into H4.
    apply sim_production_planned in H4. lia.
Qed.

Lemma plan_reject_caught s r :
  caught (_plan_reject_intake {| sim_state := s; planned := [] |} r).
Proof.
  unfold _plan_reject_intake. caughts; eauto with caught.
  apply replace_planned_caught. rename select (sim_commercial _ _ _ = _) into H4.
  apply sim_commercial_planned in H4. lia.
Qed.

Lemma plan_branch_caught st facts slot t a :
  wf (state facts) → caught (plan_branch st facts slot t a).
Proof.
  intros Hwf. destruct st; cbn [plan_branch]; caughts; eauto with caught.
  - apply plan_receive_caught.
  - apply sim_production_caught. rename select (_ = Ok a2) into Hq.
    split_if Hq; [by eapply sim_production_wf; [|exact Hq]|by injection Hq as <-].
  - by apply plan_rewash_caught.
  - apply plan_cancel_caught.
  - apply attach_refund_caught. by eapply plan_cancel_planned.
  - apply plan_reject_caught.
Qed.

Lemma plan_step_caught st facts slot t a :
  wf (state facts) → caught (plan_step st facts slot t a).
Proof.
  intros Hwf. unfold plan_step. caughts. by apply plan_branch_caught.
Qed.

(** * The listing, step by step *)

(** [plan_step] would accept the step with these answers. *)
Definition step_ok (st : OrderStep.t) (facts : StepFacts) (a : StepAnswers) : bool :=
  match plan_step st facts true _DRY_RUN_INSTANT a with Ok _ => true | Err _ => false end.

Lemma _legal_ok st facts a :
  wf (state facts) → _legal st facts a = Ok (step_ok st facts a).
Proof.
  intros Hwf. unfold _legal, step_ok. pose proof (plan_step_caught st facts true _DRY_RUN_INSTANT a Hwf)
    as Hc. destruct (plan_step _ _ _ _ _) as [|[]]; cbn; try done. by destruct (Hc exception).
Qed.

Definition cash_back : option PaymentMethod.t := Some PaymentMethod.TIEN_MAT.

(** A cancellation with this custody answer is legal, and whether it asks for a
    refund method. *)
Definition cancel_ok (facts : StepFacts) (c : option CustodyResolution.t) : bool * bool :=
  match plan_step OrderStep.CANCEL facts true _DRY_RUN_INSTANT (answer_custody c None) with
  | Err RefundMethodRequired => (step_ok OrderStep.CANCEL facts (answer_custody c cash_back), true)
  | Err _ => (false, false)
  | Ok _ => (true, false)
  end.

Lemma _cancel_legal_ok facts c :
  wf (state facts) → _cancel_legal facts c = Ok (cancel_ok facts c).
Proof.
  intros Hwf. unfold _cancel_legal, cancel_ok.
  pose proof (plan_step_caught OrderStep.CANCEL facts true _DRY_RUN_INSTANT
    (answer_custody c None) Hwf) as Hc.
  destruct (plan_step _ _ _ _ _) as [|[]]; cbn; try done.
  - by rewrite _legal_ok.
  - by destruct (Hc exception).
Qed.

(** The custody answers a cancellation through review accepts. *)
Definition custody_answers (facts : StepFacts) : list CustodyResolution.t :=
  filter (λ r, (cancel_ok facts (Some r)).1 = true) (members CustodyResolution.t).

Definition cancel_entry (facts : StepFacts) : option NextStep :=
  let '(direct, refunds) := cancel_ok facts None in
  if direct : bool
  then Some (plain_step OrderStep.CANCEL (if refunds : bool then ["refund_method"] else []))
  else if custody_answers facts is? [] then None
  else Some {| step := OrderStep.CANCEL; primary := false;
               requires :=
                 if existsb (λ r, (cancel_ok facts (Some r)).1 && (cancel_ok facts (Some r)).2)
                      (members CustodyResolution.t)
                 then ["custody_resolution"; "refund_method"] else ["custody_resolution"];
               custody_resolutions := custody_answers facts;
               rewash_reasons := []; rejection_reasons := [] |}.

Lemma traverse_Ok {A B} (f : A → B) (l : list A) :
  traverse (λ x, Ok (f x) : outcome B) l = Ok (f <$> l).
Proof. induction l as [|x l IH]; cbn; [done|]. by rewrite IH. Qed.

Lemma traverse_ext {A B} (f g : A → outcome B) (l : list A) :
  (∀ x, f x = g x) → traverse f l = traverse g l.
Proof. intros Hfg. induction l as [|x l IH]; cbn; [done|]. by rewrite Hfg, IH. Qed.

Lemma filter_result_ok {A} (f : A → bool) (l : list A) :
  filter_result (λ x, Ok (f x)) l = Ok (filter (λ x, f x = true) l).
Proof.
  induction l as [|x l IH]; cbn [filter_result]; [done|]. rewrite IH. cbn [mbind result_bind].
  rewrite filter_cons. by destruct (f x).
Qed.

Lemma filter_result_ext {A} (f g : A → outcome bool) (l : list A) :
  (∀ x, f x = g x) → filter_result f l = filter_result g l.
Proof. intros Hfg. induction l as [|x l IH]; cbn; [done|]. by rewrite Hfg, IH. Qed.

Lemma find_cancel_ok facts found :
  wf (state facts) →
  ∃ found', find_cancel facts found = Ok found' ∧ ∀ x, found' x =
    if x is? OrderStep.CANCEL then match cancel_entry facts with
                                   | Some n => Some n
                                   | None => found x
                                   end else found x.
Proof.
  intros Hwf. unfold find_cancel, cancel_entry. rewrite _cancel_legal_ok by done.
  cbn [mbind result_bind]. destruct (cancel_ok facts None) as [[] refunds].
  { eexists. split; [done|]. intros x. unfold put_if. cbn. by destruct (x is? _). }
  rewrite (traverse_ext _ (λ r, Ok (r, cancel_ok facts (Some r)))) by
    (intros r; by rewrite _cancel_legal_ok).
  rewrite traverse_Ok. cbn [mbind result_bind].
  assert (∀ l, (filter (λ x : CustodyResolution.t * (bool * bool), x.2.1 = true)
            ((λ r, (r, cancel_ok facts (Some r))) <$> l)).*1
          = filter (λ r, (cancel_ok facts (Some r)).1 = true) l) as Hf.
  { induction l as [|r l IH]; [done|]. rewrite fmap_cons, !filter_cons. cbn.
    case_decide; cbn; by rewrite IH. }
  rewrite Hf. fold (custody_answers facts).
  assert (∀ l, existsb (λ x : CustodyResolution.t * (bool * bool), x.2.1 && x.2.2)
            ((λ r, (r, cancel_ok facts (Some r))) <$> l)
          = existsb (λ r, (cancel_ok facts (Some r)).1 && (cancel_ok facts (Some r)).2) l) as He.
  { induction l as [|r l IH]; [done|]. cbn. by rewrite IH. }
  rewrite He. eexists. split; [done|]. intros x. unfold put_if.
  destruct (custody_answers facts is? []), (x is? OrderStep.CANCEL); done.
Qed.

Lemma find_plain_eq facts found st :
  wf (state facts) →
  find_plain facts found st =
  Ok (put_if (step_ok st facts no_answers) st (plain_step st []) found).
Proof. intros Hwf. unfold find_plain. by rewrite _legal_ok. Qed.

(** The loop over the steps that need no answer. *)
Lemma find_plain_ok facts l found :
  wf (state facts) →
  ∃ found', fold_result (find_plain facts) found l = Ok found' ∧
    ∀ st, found' st = if (st in? l) && step_ok st facts no_answers
                      then Some (plain_step st []) else found st.
Proof.
  intros Hwf. revert found. induction l as [|x l IH]; intros found; [by exists found|].
  cbn [fold_result]. rewrite find_plain_eq by done. cbn [mbind result_bind].
  destruct (IH (put_if (step_ok x facts no_answers) x (plain_step x []) found))
    as (found' & Hf & Hspec).
  exists found'. split; [exact Hf|]. intros st. rewrite Hspec. unfold put_if.
  destruct (decide (st = x)) as [->|Hne].
  - rewrite (bool_decide_true (x ∈ x :: l)) by left.
    rewrite (bool_decide_true (x = x)) by done.
    destruct (step_ok x facts no_answers); cbn; [by destruct (x in? l)|by rewrite andb_false_r].
  - assert ((st in? x :: l) = (st in? l)) as ->.
    { apply bool_decide_ext. rewrite elem_of_cons. naive_solver. }
    rewrite (bool_decide_false (st = x)) by done. by rewrite andb_false_r.
Qed.

Definition rewash_answers (facts : StepFacts) : list RewashReason.t :=
  filter (λ r, step_ok OrderStep.REWASH facts (answer_rewash r) = true) (members RewashReason.t).
Definition rejection_answers (facts : StepFacts) : list IntakeRejectionReason.t :=
  filter (λ r, step_ok OrderStep.REJECT_INTAKE facts (answer_rejection r) = true)
    (members IntakeRejectionReason.t).

#[local] Arguments custody_answers : simpl never.
#[local] Arguments rewash_answers : simpl never.
#[local] Arguments rejection_answers : simpl never.

(** The listing as one table: when a step is offered, and with which answers. *)
Definition offer (facts : StepFacts) (st : OrderStep.t) : option NextStep :=
  let s := state facts in
  let ok := step_ok st facts no_answers in
  let active := commercial s is? CommercialOrderStatus.ACTIVE in
  let released := production s is? ProductionStatus.RELEASED in
  let only_if (b : bool) (n : NextStep) := if b then Some n else None in
  match st with
  | OrderStep.RECEIVE => only_if ok (plain_step st ["slot_approved"])
  | OrderStep.CANCEL => cancel_entry facts
  | OrderStep.REWASH => only_if (negb (rewash_answers facts is? []))
      {| step := st; primary := false; requires := ["rewash_reason"]; custody_resolutions := [];
         rewash_reasons := rewash_answers facts; rejection_reasons := [] |}
  | OrderStep.REJECT_INTAKE => only_if (negb (rejection_answers facts is? []))
      {| step := st; primary := false; requires := ["rejection_reason"]; custody_resolutions := [];
         rewash_reasons := []; rejection_reasons := rejection_answers facts |}
  | OrderStep.HAND_OVER => only_if (ok && negb released) (plain_step st [])
  | OrderStep.RELEASE =>
      only_if (ok && negb (step_ok OrderStep.HAND_OVER facts no_answers && negb released))
        (plain_step st [])
  | OrderStep.TAKE_PAYMENT => only_if (_payment_legal facts) (plain_step st ["amount_vnd"; "method"])
  | OrderStep.COLLECT =>
      only_if (evaluate_collection (commercial s) (production s) (balance s)
                 (settlement_shape facts) (self_collection_recorded s) is? Ok None)
        (plain_step st [])
  | OrderStep.DELIVERY_PICKUP =>
      only_if (active && (fulfillment_mode s in? MODES_EXPECTING_PICKUP)
               && negb (pickup_leg_succeeded facts)) (plain_step st [])
  | OrderStep.DELIVERY_RETURN =>
      only_if (active && (fulfillment_mode s in? MODES_EXPECTING_RETURN)
               && negb (required_delivery_legs_succeeded s)
               && (delivery_refusal (balance s) (production s) is? Ok None)) (plain_step st [])
  | _ => only_if ok (plain_step st [])
  end.

Lemma evaluate_collection_total c p b shape col :
  ∃ r, evaluate_collection c p b shape col = Ok r.
Proof.
  unfold evaluate_collection. rewrite goods_may_leave_None. cbn.
  repeat (case_match; try by eexists).
Qed.

Lemma delivery_refusal_total b p : ∃ r, delivery_refusal b p = Ok r.
Proof.
  unfold delivery_refusal. rewrite goods_may_leave_None. cbn. repeat (case_match; try by eexists).
Qed.

(** Evaluate the tests between constant steps. *)
Ltac eval_step_tests :=
  repeat match goal with
         | |- context [@bool_decide (@eq OrderStep.t ?a ?b) ?d] =>
             let v := eval vm_compute in (@bool_decide (@eq OrderStep.t a b) d) in
             change (@bool_decide (@eq OrderStep.t a b) d) with v
         | |- context [@bool_decide (?a ∈ steps_without_answers) ?d] =>
             let v := eval vm_compute in (@bool_decide (a ∈ steps_without_answers) d) in
             change (@bool_decide (a ∈ steps_without_answers) d) with v
         end; rewrite ?andb_false_r, ?andb_true_r; cbv iota.

Lemma prune_hand_over_eq p found x :
  prune_hand_over p found x =
  match x with
  | OrderStep.HAND_OVER =>
      if p is? ProductionStatus.RELEASED then None else found OrderStep.HAND_OVER
  | OrderStep.RELEASE =>
      if bool_decide (is_Some (found OrderStep.HAND_OVER)) && negb (p is? ProductionStatus.RELEASED)
      then None else found OrderStep.RELEASE
  | _ => found x
  end.
Proof.
  unfold prune_hand_over, drop_step.
  destruct (found OrderStep.HAND_OVER) as [n|] eqn:Hf; cbn;
    destruct (p is? ProductionStatus.RELEASED); destruct x; try done; cbn; try rewrite Hf; done.
Qed.

(** [_legal_steps] never fails and builds exactly the table. *)
Lemma legal_steps_offer facts :
  wf (state facts) →
  ∃ found, _legal_steps facts = Ok found ∧ ∀ st, found st = offer facts st.
Proof.
  intros Hwf. unfold _legal_steps.
  destruct (find_plain_ok facts steps_without_answers (λ _, None) Hwf) as (f0 & Hf0 & Hplain).
  rewrite Hf0. cbn [mbind result_bind]. rewrite _legal_ok by done. cbn [mbind result_bind].
  edestruct (find_cancel_ok facts) as (f1 & Hf1 & Hcancel); [done|]. rewrite Hf1.
  cbn [mbind result_bind].
  rewrite (filter_result_ext _ (λ r, Ok (step_ok OrderStep.REWASH facts (answer_rewash r)))) by
    (intros r; by rewrite _legal_ok).
  rewrite filter_result_ok. cbn [mbind result_bind]. fold (rewash_answers facts).
  rewrite (filter_result_ext _ (λ r, Ok (step_ok OrderStep.REJECT_INTAKE facts (answer_rejection r))))
    by (intros r; by rewrite _legal_ok).
  rewrite filter_result_ok. cbn [mbind result_bind]. fold (rejection_answers facts).
  destruct (evaluate_collection_total (commercial (state facts)) (production (state facts))
    (balance (state facts)) (settlement_shape facts) (self_collection_recorded (state facts)))
    as [rc Hrc].
  destruct (delivery_refusal_total (balance (state facts)) (production (state facts))) as [rd Hrd].
  rewrite Hrc, Hrd. cbn [lift_uncaught mbind result_bind].
  assert (∀ n : NextStep, is_Some (Some n)) as Hsome by eauto.
  assert ((Ok rc : account_result _) is? Ok None = (rc is? None)) as Hrc'
    by (apply bool_decide_ext; naive_solver).
  assert ((Ok rd : account_result _) is? Ok None = (rd is? None)) as Hrd'
    by (apply bool_decide_ext; naive_solver).
  match goal with |- ∃ _, (if ?c then Ok ?a else Ok ?b) = _ ∧ _ =>
    exists (if c then a else b); split; [by destruct c|];
    intros st; transitivity (put_if (c && (rd is? None)) OrderStep.DELIVERY_RETURN
      (plain_step OrderStep.DELIVERY_RETURN []) b st); [by destruct c|] end.
  unfold offer. rewrite Hrc, Hrd, Hrc', Hrd'. unfold put_if at 1 2 3 4.
  destruct st; rewrite prune_hand_over_eq; unfold put_if; eval_step_tests;
    rewrite ?Hcancel; unfold put_if; eval_step_tests; rewrite ?Hplain; eval_step_tests; try done.
  - by destruct (step_ok OrderStep.RELEASE facts no_answers),
      (step_ok OrderStep.HAND_OVER facts no_answers),
      (production (state facts) is? ProductionStatus.RELEASED).
  - by destruct (step_ok OrderStep.HAND_OVER facts no_answers),
      (production (state facts) is? ProductionStatus.RELEASED).
  - by destruct (cancel_entry facts).
Qed.

(** * What the listing promises *)

(** The acceptance instant never decides a step. *)
Lemma plan_receive_instant sim facts slot t1 t2 sim1 :
  aware t2 = true → _plan_receive sim facts slot t1 = Ok sim1 →
  ∃ sim2, _plan_receive sim facts slot t2 = Ok sim2 ∧ planned sim2 = planned sim1.
Proof.
  intros Ht H. unfold _plan_receive in *. apply raise_bind_Ok in H as [-> H]. cbn [raise_if mbind result_bind].
  apply bind_Ok in H as (s1 & -> & H). cbn [mbind result_bind].
  apply bind_Ok in H as (s2 & -> & H). cbn [mbind result_bind].
  apply bind_Ok in H as (s3 & -> & H). cbn [mbind result_bind].
  destruct (intake (sim_state s3) is? IntakeStatus.ACCEPTED); cbn [negb] in *.
  { exists sim1. by split. }
  apply bind_Ok in H as (s4 & H4 & H). apply raise_bind_Ok in H4 as [-> H4].
  cbn [raise_if mbind result_bind]. unfold sim_intake in *.
  apply bind_Ok in H4 as (n & Hn & [= <-]).
  destruct (transition_intake_same _ _ _ _ _ t2 _ (same_refl _) Hn Ht) as (n2 & Hn2 & Hsame).
  rewrite bool_decide_true in Hn2 by done. rewrite Hn2. cbn [mbind result_bind].
  unfold sim_commercial in *. cbn [sim_state] in *. apply bind_Ok in H as (x & Hx & [= <-]).
  destruct (transition_commercial_same _ _ _ _ _ _ _ _ Hsame Hx) as (x2 & -> & _).
  eexists. split; [done|]. done.
Qed.

Lemma plan_step_instant st facts slot t1 t2 a plan :
  aware t2 = true → plan_step st facts slot t1 a = Ok plan → plan_step st facts slot t2 a = Ok plan.
Proof.
  intros Ht H. unfold plan_step in *.
  repeat (apply raise_bind_Ok in H as [? H];
          match goal with E : _ = false |- _ => rewrite E; clear E end; cbn [raise_if mbind result_bind]).
  apply bind_Ok in H as (sim & Hb & H).
  assert (∃ sim2, plan_branch st facts slot t2 a = Ok sim2 ∧ planned sim2 = planned sim)
    as (sim2 & -> & Hp).
  { destruct st; try (by exists sim). by eapply plan_receive_instant. }
  cbn [mbind result_bind]. by rewrite Hp.
Qed.

Lemma step_ok_plan st facts a t :
  aware t = true → step_ok st facts a = true → ∃ plan, plan_step st facts true t a = Ok plan.
Proof.
  intros Ht H. unfold step_ok in H. destruct (plan_step _ _ _ _ _) as [plan|] eqn:Hp; [|done].
  exists plan. by eapply plan_step_instant.
Qed.

Lemma plan_step_ok st facts t a plan :
  plan_step st facts true t a = Ok plan → step_ok st facts a = true.
Proof. intros H. unfold step_ok. by rewrite (plan_step_instant _ _ _ _ _DRY_RUN_INSTANT _ _ eq_refl H). Qed.

Lemma next_steps_table facts :
  wf (state facts) →
  ∃ p, next_steps facts = Ok (omap (λ st, mark_primary p <$> offer facts st) STEP_ORDER) ∧
    (∀ st, p = Some st → st ∉ NEVER_PRIMARY_STEPS ∧ is_Some (offer facts st)) ∧
    (∀ st, is_Some (offer facts st) → st ∉ NEVER_PRIMARY_STEPS → is_Some p).
Proof.
  intros Hwf. destruct (legal_steps_offer facts Hwf) as (found & Hf & Hoffer).
  unfold next_steps. rewrite Hf. cbn [mbind result_bind].
  assert (∀ st, st ∈ STEP_ORDER) as Hall by (intros []; decided).
  assert (∀ st, is_found found st = true ↔ is_Some (offer facts st)) as Hfound.
  { intros st. unfold is_found. rewrite bool_decide_eq_true, Hoffer. done. }
  assert (∀ p, omap (λ st, mark_primary p <$> found st) STEP_ORDER
             = omap (λ st, mark_primary p <$> offer facts st) STEP_ORDER) as Homap.
  { intros p. apply list_omap_ext, Forall2_same_length_lookup. split; [done|].
    intros i x y -> [= ->]. by rewrite Hoffer. }
  destruct (existsb (is_found found) STEP_ORDER) eqn:Hex; cbn [negb].
  - exists (choose_primary facts found). rewrite Homap. split; [done|].
    unfold choose_primary. set (cands := List.filter _ STEP_ORDER).
    assert (∀ x, x ∈ cands ↔ is_Some (offer facts x) ∧ x ∉ NEVER_PRIMARY_STEPS) as Hcands.
    { intros x. unfold cands. rewrite list_elem_of_In, filter_In, <- list_elem_of_In,
        andb_true_iff, Hfound, negb_true_iff, bool_decide_eq_false.
      split; [by intros (_ & ? & ?)|intros [? ?]; split_and!; auto]. }
    clearbody cands.
    split.
    + intros st Hst. destruct (List.find _ (_primary_order facts)) as [y|] eqn:Hfind; cbn in Hst.
      * injection Hst as ->. apply find_some in Hfind as [Hin Hy]. split; [|by apply Hfound].
        apply list_elem_of_In in Hin. unfold _primary_order in Hin.
        intros Hnever. revert Hin. unfold NEVER_PRIMARY_STEPS in Hnever.
        rewrite !elem_of_cons in Hnever. destruct Hnever as [->|[->|Hn]];
          [..|by apply elem_of_nil in Hn]; repeat case_bool_decide; intros Hin; contradict Hin; decided.
      * destruct (List.find _ cands) as [y|] eqn:Hfind2; cbn in Hst.
        -- injection Hst as ->. apply find_some in Hfind2 as [Hin _].
           apply list_elem_of_In, Hcands in Hin as [??]. done.
        -- destruct cands as [|c l]; [discriminate|]. cbn in Hst. injection Hst as ->.
           destruct (proj1 (Hcands st)) as [??]; [left|done].
    + intros st Ho Hn. destruct (List.find _ (_primary_order facts)); cbn; [by eexists|].
      destruct (List.find _ cands); cbn; [by eexists|].
      assert (st ∈ cands) as Hin by (by apply Hcands).
      destruct cands; [by apply elem_of_nil in Hin|by eexists].
  - exists None. split.
    + f_equal. symmetry. assert (∀ st, offer facts st = None) as Hnone.
      { intros st. apply eq_None_not_Some. rewrite <- Hfound. intros Hs.
        assert (existsb (is_found found) STEP_ORDER = true); [|congruence].
        apply existsb_exists. exists st. split; [by apply list_elem_of_In|done]. }
      apply elem_of_nil_inv. intros n Hn. apply list_elem_of_omap in Hn as (x & _ & Hx).
      by rewrite Hnone in Hx.
    + split; [done|]. intros st Hs _. apply Hfound in Hs.
      assert (existsb (is_found found) STEP_ORDER = true); [|congruence].
      apply existsb_exists. exists st. split; [by apply list_elem_of_In|done].
Qed.

Lemma cancel_ok_plan facts c needs :
  cancel_ok facts c = (true, needs) →
  ∃ m, (m = None ∨ needs = true) ∧ step_ok OrderStep.CANCEL facts (answer_custody c m) = true.
Proof.
  unfold cancel_ok. destruct (plan_step _ _ _ _ _) as [plan|[]] eqn:Hp; try done.
  - intros [= <-]. exists None. split; [by left|]. unfold step_ok. by rewrite Hp.
  - intros [= Hok <-]. exists cash_back. split; [by right|done].
Qed.

(** An answer a listed step takes: one of the listed ones, none when none is. *)
Definition picks {A} (l : list A) (o : option A) : Prop :=
  match l with [] => o = None | _ => ∃ x, o = Some x ∧ x ∈ l end.

Lemma picks_filter {A} (P : A → Prop) `{∀ x, Decision (P x)} l o :
  filter P l ≠ [] → picks (filter P l) o → ∃ x, o = Some x ∧ P x.
Proof.
  intros Hne Hp. unfold picks in Hp. destruct (filter P l) as [|y k] eqn:Hf; [done|].
  destruct Hp as (x & -> & Hx). rewrite <- Hf in Hx. apply list_elem_of_filter in Hx as [? _]. eauto.
Qed.

Lemma offer_sound facts st n c rw rj t :
  offer facts st = Some n → st ∈ COMPOSITE_STEPS → aware t = true →
  picks (custody_resolutions n) c → picks (rewash_reasons n) rw → picks (rejection_reasons n) rj →
  ∃ m plan, (m = None ∨ "refund_method" ∈ requires n) ∧
    plan_step st facts true t
      {| ans_custody := c; ans_rewash := rw; ans_rejection := rj; ans_refund := m |} = Ok plan.
Proof.
  intros Ho Hc Ht Hpc Hpw Hpj.
  assert (∀ a, step_ok st facts a = true → ∃ plan, plan_step st facts true t a = Ok plan) as Hplan
    by (intros a; by apply step_ok_plan).
  destruct st; cbn [offer] in Ho; try (contradict Hc; decided);
    try (destruct (step_ok _ facts no_answers) eqn:Hok; cbn in Ho; [|discriminate Ho];
         try (destruct (negb _); [|discriminate Ho]);
         injection Ho as <-; cbn in Hpc, Hpw, Hpj; subst;
         destruct (Hplan _ Hok) as [plan Hp]; exists None, plan; split; [by left|exact Hp]).
  - destruct (rewash_answers facts is? []) eqn:Hr; [discriminate Ho|]. cbn in Ho.
    injection Ho as <-.
    cbn [custody_resolutions rewash_reasons rejection_reasons picks] in Hpc, Hpw, Hpj.
    subst. guards. apply picks_filter in Hpw as (x & -> & Hx); [|done].
    destruct (Hplan _ Hx) as [plan Hp]. exists None, plan. split; [by left|exact Hp].
  - unfold cancel_entry in Ho. destruct (cancel_ok facts None) as [[] needs] eqn:Hdirect.
    + injection Ho as <-. cbn in Hpc, Hpw, Hpj. subst.
      destruct (cancel_ok_plan _ _ _ Hdirect) as (m & Hm & Hok).
      destruct (Hplan _ Hok) as [plan Hp]. exists m, plan. split; [|exact Hp].
      destruct Hm as [->| ->]; [by left|]. right. cbn. left.
    + destruct (custody_answers facts is? []) eqn:Hr; [discriminate Ho|].
      injection Ho as <-. cbn [custody_resolutions rewash_reasons rejection_reasons picks] in *.
      subst. guards. apply picks_filter in Hpc as (x & -> & Hx); [|done].
      destruct (cancel_ok facts (Some x)) as [b nd] eqn:Hx2. cbn in Hx. subst b.
      destruct (cancel_ok_plan _ _ _ Hx2) as (m & Hm & Hok).
      destruct (Hplan _ Hok) as [plan Hp]. exists m, plan. split; [|exact Hp].
      destruct Hm as [->| ->]; [by left|]. right. cbn [requires].
      match goal with |- context [if ?b then _ else _] => assert (b = true) as -> end;
        [|right; left].
      destruct x; rewrite Hx2; cbn; by rewrite ?orb_true_r.
  - destruct (rejection_answers facts is? []) eqn:Hr; [discriminate Ho|]. cbn in Ho.
    injection Ho as <-.
    cbn [custody_resolutions rewash_reasons rejection_reasons picks] in Hpc, Hpw, Hpj.
    subst. guards. apply picks_filter in Hpj as (x & -> & Hx); [|done].
    destruct (Hplan _ Hx) as [plan Hp]. exists None, plan. split; [by left|exact Hp].
Qed.

(** A step without answers ignores a custody answer somebody adds. *)
Lemma step_ok_no_answers st facts t a plan :
  plan_step st facts true t a = Ok plan →
  st ∉ [OrderStep.CANCEL; OrderStep.REWASH; OrderStep.REJECT_INTAKE] →
  step_ok st facts no_answers = true.
Proof.
  intros H Hst. apply plan_step_ok in H. unfold step_ok in *.
  assert (∀ a', plan_branch st facts true _DRY_RUN_INSTANT a' =
                plan_branch st facts true _DRY_RUN_INSTANT no_answers) as Hb.
  { intros a'. destruct st; try done; contradict Hst; decided. }
  unfold plan_step in *. rewrite Hb in H.
  destruct (raise_if (negb (st in? COMPOSITE_STEPS)) _); [|done]. cbn [mbind result_bind] in *.
  do 4 (match type of H with context [raise_if ?c ?e ≫= _] =>
          destruct (raise_if c e) as [[]|]; [|done]; cbn [mbind result_bind] in H end).
  cbn [no_answers ans_rewash ans_rejection ans_custody ans_refund].
  change (bool_decide (is_Some None)) with false. cbn [andb raise_if mbind result_bind].
  exact H.
Qed.

Lemma plan_rewash_needs sim o sim' : _plan_rewash sim o = Ok sim' → is_Some o.
Proof.
  unfold _plan_rewash. intros H. do 4 apply raise_bind_Ok in H as [_ H]. by destruct o.
Qed.

Lemma plan_reject_needs sim o sim' : _plan_reject_intake sim o = Ok sim' → is_Some o.
Proof.
  unfold _plan_reject_intake. intros H. do 4 apply raise_bind_Ok in H as [_ H]. by destruct o.
Qed.

(** The answers a step refuses to take. *)
Lemma plan_step_answers st facts slot t a plan :
  plan_step st facts slot t a = Ok plan →
  (st ≠ OrderStep.REWASH → ans_rewash a = None) ∧
  (st ≠ OrderStep.REJECT_INTAKE → ans_rejection a = None) ∧
  (st ∈ NEVER_PRIMARY_STEPS → ans_custody a = None) ∧
  (st ≠ OrderStep.CANCEL → ans_refund a = None).
Proof.
  unfold plan_step. intros H. apply raise_bind_Ok in H as [_ H].
  apply raise_bind_Ok in H as [H1 H]. apply raise_bind_Ok in H as [H2 H].
  apply raise_bind_Ok in H as [H3 H]. apply raise_bind_Ok in H as [H4 _].
  split_and!; intros Hst; apply eq_None_not_Some; intros Hs.
  - rewrite (bool_decide_true _ Hs), (bool_decide_false _ Hst) in H1. done.
  - rewrite (bool_decide_true _ Hs), (bool_decide_false _ Hst) in H2. done.
  - rewrite (bool_decide_true _ Hs), (bool_decide_true _ Hst) in H3. done.
  - rewrite (bool_decide_true _ Hs), (bool_decide_false _ Hst) in H4. done.
Qed.

(** Adding a refund method never turns an accepted cancellation into one that asks
    for it. *)
Lemma cancel_ok_complete facts c m :
  step_ok OrderStep.CANCEL facts (answer_custody c m) = true → (cancel_ok facts c).1 = true.
Proof.
  unfold cancel_ok, step_ok, plan_step. intros H.
  cbn [raise_if mbind result_bind answer_custody ans_rewash ans_rejection ans_custody ans_refund] in *.
  rewrite ?(bool_decide_false (OrderStep.CANCEL ∈ NEVER_PRIMARY_STEPS)) in * by decided.
  rewrite ?(bool_decide_true (OrderStep.CANCEL ∈ COMPOSITE_STEPS)) in * by decided.
  rewrite ?(bool_decide_true (OrderStep.CANCEL = OrderStep.CANCEL)) in * by done.
  change (bool_decide (is_Some None)) with false in *.
  rewrite ?andb_false_r in *. cbn [negb andb raise_if mbind result_bind] in *.
  cbn [plan_branch ans_custody ans_refund answer_custody] in *.
  destruct (_plan_cancel _ c) as [sim|e] eqn:Hp; cbn [mbind result_bind] in *; [|done].
  pose proof (plan_cancel_planned _ _ _ Hp) as Hlen.
  unfold _attach_refund_method in *.
  destruct (negb _) eqn:Hr.
  - cbn. replace (length (planned sim) =? 0)%nat with false; [done|].
    symmetry. apply Nat.eqb_neq. lia.
  - unfold replace_planned.
    destruct (lookup_lt_is_Some_2 (planned sim) (length (planned sim) - 1)) as [p ->]; [lia|].
    cbn. rewrite length_insert.
    replace (length (planned sim) =? 0)%nat with false; [done|].
    symmetry. apply Nat.eqb_neq. lia.
Qed.

(** [next_steps] does not miss a legal step; a bare release is subsumed by the
    handover, and a handover of released goods is listed as the completion. *)
Lemma offer_complete facts st t a plan :
  plan_step st facts true t a = Ok plan →
  ∃ st' n, offer facts st' = Some n ∧
    (st' = st ∨ st = OrderStep.RELEASE ∧ st' = OrderStep.HAND_OVER ∨
     st = OrderStep.HAND_OVER ∧ st' = OrderStep.COMPLETE).
Proof.
  intros H. pose proof (plan_step_answers _ _ _ _ _ _ H) as (Hw & Hj & Hc & Hm).
  pose proof (step_ok_no_answers _ _ _ _ _ H) as Hno.
  pose proof (plan_step_ok _ _ _ _ _ H) as Hok.
  apply plan_step_Ok in H as (Hcomp & _ & sim & Hb & _).
  destruct a as [c w j m]; cbn [ans_custody ans_rewash ans_rejection ans_refund] in *.
  destruct (decide (st = OrderStep.REWASH)) as [->|Hnw].
  { pose proof (plan_rewash_needs _ _ _ Hb) as [r Hr]. cbn in Hr. subst w.
    rewrite (Hc ltac:(decided)), (Hj ltac:(done)), (Hm ltac:(done)) in Hok.
    exists OrderStep.REWASH. cbn. rewrite bool_decide_false; [eexists; by split; [|left]|].
    intros He. assert (r ∈ rewash_answers facts) as Hin
      by (apply list_elem_of_filter; split; [exact Hok|apply members_complete]).
    rewrite He in Hin. by apply elem_of_nil in Hin. }
  destruct (decide (st = OrderStep.REJECT_INTAKE)) as [->|Hnj].
  { pose proof (plan_reject_needs _ _ _ Hb) as [r Hr]. cbn in Hr. subst j.
    rewrite (Hc ltac:(decided)), (Hw ltac:(done)), (Hm ltac:(done)) in Hok.
    exists OrderStep.REJECT_INTAKE. cbn. rewrite bool_decide_false; [eexists; by split; [|left]|].
    intros He. assert (r ∈ rejection_answers facts) as Hin
      by (apply list_elem_of_filter; split; [exact Hok|apply members_complete]).
    rewrite He in Hin. by apply elem_of_nil in Hin. }
  destruct (decide (st = OrderStep.CANCEL)) as [->|Hnc].
  { rewrite (Hw ltac:(done)), (Hj ltac:(done)) in Hok. exists OrderStep.CANCEL. cbn.
    unfold cancel_entry. apply cancel_ok_complete in Hok.
    destruct (cancel_ok facts None) as [[] needs] eqn:Hd; [eexists; by split; [|left]|].
    destruct c as [r|]; [|by rewrite Hd in Hok].
    rewrite bool_decide_false; [eexists; by split; [|left]|].
    intros He. assert (r ∈ custody_answers facts) as Hin
      by (apply list_elem_of_filter; split; [exact Hok|apply members_complete]).
    rewrite He in Hin. by apply elem_of_nil in Hin. }
  assert (step_ok st facts no_answers = true) as Hplain.
  { apply Hno. rewrite !not_elem_of_cons. split_and!; [done..|apply not_elem_of_nil]. }
  destruct (decide (st = OrderStep.RELEASE)) as [->|Hnr].
  { destruct (step_ok OrderStep.HAND_OVER facts no_answers
              && negb (production (state facts) is? ProductionStatus.RELEASED)) eqn:Hho.
    - exists OrderStep.HAND_OVER. cbn. rewrite Hho. eexists. split; [done|]. by right; left.
    - exists OrderStep.RELEASE. cbn. rewrite Hplain, Hho. eexists. split; [done|]. by left. }
  destruct (decide (st = OrderStep.HAND_OVER)) as [->|Hnh].
  { destruct (production (state facts) is? ProductionStatus.RELEASED) eqn:Hrel.
    - exists OrderStep.COMPLETE. cbn.
      assert (step_ok OrderStep.COMPLETE facts no_answers = true) as ->.
      { revert Hplain. unfold step_ok, plan_step, plan_branch. rewrite Hrel. done. }
      eexists. split; [done|]. by right; right.
    - exists OrderStep.HAND_OVER. cbn. rewrite Hplain, Hrel. eexists. split; [done|]. by left. }
  exists st. destruct st; cbn; try done; try (contradict Hcomp; decided);
    rewrite Hplain; eexists; (split; [done|by left]).
Qed.

(** ** A closed order offers nothing *)

Lemma terminal_commercial s t ca cr res uv s' :
  commercial s ∈ TERMINAL_COMMERCIAL_STATUSES → transition_commercial s t ca cr res uv ≠ Ok s'.
Proof.
  intros Hs H. pose proof (transition_commercial_guards _ _ _ _ _ _ _ H) as Hg.
  unfold TERMINAL_COMMERCIAL_STATUSES in Hs. rewrite !elem_of_cons in Hs.
  destruct Hs as [Hs|[Hs|Hs]]; [..|by apply elem_of_nil in Hs]; rewrite Hs in Hg;
    destruct t; destruct Hg as [Hg _]; done || (contradict Hg; decided).
Qed.

Lemma terminal_step_ok st facts a :
  commercial (state facts) ∈ TERMINAL_COMMERCIAL_STATUSES → step_ok st facts a = false.
Proof.
  intros Hs. destruct (step_ok st facts a) eqn:Hok; [|done]. exfalso.
  apply (step_ok_plan _ _ _ _DRY_RUN_INSTANT eq_refl) in Hok as [plan Hp].
  apply plan_step_Ok in Hp as (Hc & Hne & sim & Hb & Hpl).
  assert (∀ t r s1, sim_commercial {| sim_state := state facts; planned := [] |} t r ≠ Ok s1) as Hcom.
  { intros t r s1 H. apply sim_commercial_Ok in H as [H _].
    by apply (terminal_commercial _ _ _ _ _ _ _ Hs) in H. }
  assert (∀ t s1, sim_production {| sim_state := state facts; planned := [] |} t ≠ Ok s1) as Hprod.
  { intros t s1 H. apply sim_production_Ok in H as [H _].
    by apply transition_production_guards in H as [H _]. }
  assert (∀ t rd x s1, sim_intake {| sim_state := state facts; planned := [] |} t rd x ≠ Ok s1) as Hin.
  { intros t rd x s1 H. unfold sim_intake in H. apply bind_Ok in H as (n & H & _).
    by apply transition_intake_guards in H as [H _]. }
  destruct st; cbn [plan_branch] in Hb; try (contradict Hc; decided).
  - unfold _plan_receive in Hb. apply raise_bind_Ok in Hb as [_ Hb].
    apply bind_Ok in Hb as (s1 & H1 & Hb). split_if H1; [by apply Hin in H1|]. injection H1 as <-.
    assert (commercial (state facts) ∉ _COMMERCIAL_TO_CONFIRMED ∧
            commercial (state facts) ≠ CommercialOrderStatus.DRAFT) as [Hnc Hnd].
    { revert Hs. destruct (commercial (state facts));
        (intros Hs; contradict Hs; decided) || (intros _; split; decided). }
    cbn [sim_state] in Hb. rewrite (bool_decide_false _ Hnd) in Hb. cbn [mbind result_bind] in Hb.
    cbn [drop _COMMERCIAL_TO_CONFIRMED fold_result] in Hb. unfold advance_to_confirmed in Hb.
    cbn [sim_state] in Hb. rewrite (bool_decide_false _ Hnc) in Hb. cbn [mbind result_bind sim_state] in Hb.
    rewrite (bool_decide_false _ Hnc) in Hb. cbn [mbind result_bind sim_state] in Hb.
    apply bind_Ok in Hb as (s4 & H4 & Hb). split_if H4.
    + apply raise_bind_Ok in H4 as [_ H4]. by apply Hin in H4.
    + injection H4 as <-. by apply Hcom in Hb.
  - apply raise_bind_Ok in Hb as [_ Hb]. apply bind_Ok in Hb as (u & _ & Hb).
    apply bind_Ok in Hb as (s1 & H1 & Hb). split_if H1; [by apply Hprod in H1|].
    injection H1 as <-. by apply Hprod in Hb.
  - apply bind_Ok in Hb as (u & _ & Hb). by apply Hprod in Hb.
  - apply bind_Ok in Hb as (u & _ & Hb). by apply Hprod in Hb.
  - by apply Hprod in Hb.
  - apply raise_bind_Ok in Hb as [_ Hb]. apply bind_Ok in Hb as (r & _ & Hb). by apply Hprod in Hb.
  - unfold _plan_rewash in Hb. do 4 apply raise_bind_Ok in Hb as [_ Hb].
    destruct (ans_rewash a); [|done]. apply bind_Ok in Hb as (s1 & H1 & _). by apply Hprod in H1.
  - apply bind_Ok in Hb as (u & _ & Hb). apply bind_Ok in Hb as (l & _ & Hb).
    apply raise_bind_Ok in Hb as [_ Hb]. by apply Hprod in Hb.
  - apply bind_Ok in Hb as (s1 & H1 & Hb). split_if H1.
    + apply bind_Ok in H1 as (u & _ & H1). by apply Hprod in H1.
    + injection H1 as <-. by apply Hcom in Hb.
  - by apply Hcom in Hb.
  - apply bind_Ok in Hb as (s1 & H1 & _). unfold _plan_cancel in H1.
    split_if H1; [apply bind_Ok in H1 as (s2 & H1 & _)|split_if H1]; by apply Hcom in H1.
  - unfold _plan_reject_intake in Hb. do 4 apply raise_bind_Ok in Hb as [_ Hb].
    destruct (ans_rejection a); [|done]. apply bind_Ok in Hb as (s1 & H1 & _). by apply Hin in H1.
  - apply raise_bind_Ok in Hb as [_ Hb]. by apply Hcom in Hb.
Qed.

Lemma terminal_offer facts st :
  commercial (state facts) ∈ TERMINAL_COMMERCIAL_STATUSES → offer facts st = None.
Proof.
  intros Hs. assert (commercial (state facts) ≠ CommercialOrderStatus.ACTIVE) as Hna.
  { intros E. rewrite E in Hs. contradict Hs. decided. }
  assert (∀ c, (cancel_ok facts c).1 = false) as Hc.
  { intros c. pose proof (terminal_step_ok OrderStep.CANCEL facts (answer_custody c None) Hs) as H1.
    unfold cancel_ok. unfold step_ok in H1.
    destruct (plan_step _ _ _ _ _) as [plan|[]]; try done. by apply terminal_step_ok. }
  destruct st; cbn [offer]; rewrite ?terminal_step_ok by done; try done.
  - rewrite bool_decide_true; [done|]. apply elem_of_nil_inv. intros r Hr.
    apply list_elem_of_filter in Hr as [Hr _]. by rewrite terminal_step_ok in Hr.
  - unfold cancel_entry. pose proof (Hc None) as H0.
    destruct (cancel_ok facts None) as [b r]. cbn in H0. subst b.
    rewrite bool_decide_true; [done|]. apply elem_of_nil_inv. intros x Hx.
    apply list_elem_of_filter in Hx as [Hx _]. by rewrite Hc in Hx.
  - rewrite bool_decide_true; [done|]. apply elem_of_nil_inv. intros r Hr.
    apply list_elem_of_filter in Hr as [Hr _]. by rewrite terminal_step_ok in Hr.
  - unfold _payment_legal. by rewrite (bool_decide_false _ Hna).
  - rewrite bool_decide_false; [done|]. intros E. by apply evaluate_collection_iff in E as [? _].
  - by rewrite (bool_decide_false _ Hna).
  - by rewrite (bool_decide_false _ Hna).
Qed.

Lemma cancel_entry_step facts n : cancel_entry facts = Some n → step n = OrderStep.CANCEL ∧ primary n = false.
Proof.
  unfold cancel_entry. destruct (cancel_ok facts None) as [[] r]; [by intros [= <-]|].
  case_bool_decide; [done|by intros [= <-]].
Qed.

Lemma offer_step facts st n : offer facts st = Some n → step n = st ∧ primary n = false.
Proof.
  destruct st; cbn [offer]; try apply cancel_entry_step;
    (match goal with |- (if ?b then _ else _) = _ → _ => destruct b end); by intros [= <-].
Qed.

Lemma listed_sublist facts p l :
  sublist (step <$> omap (λ st, mark_primary p <$> offer facts st) l) l.
Proof.
  induction l as [|st l IH]; [constructor|]. cbn.
  destruct (offer facts st) as [n|] eqn:Hn; cbn; [|by constructor].
  destruct (offer_step _ _ _ Hn) as [-> _]. by constructor.
Qed.

Lemma listed_iff facts p n :
  n ∈ omap (λ st, mark_primary p <$> offer facts st) STEP_ORDER ↔
  ∃ m, offer facts (step m) = Some m ∧ n = mark_primary p m.
Proof.
  rewrite list_elem_of_omap. split.
  - intros (st & _ & Hn). apply fmap_Some in Hn as (m & Hm & ->).
    exists m. destruct (offer_step _ _ _ Hm) as [<- _]. by split.
  - intros (m & Hm & ->). exists (step m). rewrite Hm. split; [|done].
    by destruct (step m); decided.
Qed.


Definition fresh_facts : StepFacts := _step_facts witness_row.


(** at most one step is primary, and never a rewash or an intake refusal; as
    soon as any other step is legal, exactly one is; and a closed order lists
    nothing at all. *)
Theorem next_steps_primary facts :
  wf (state facts) →
  ∃ l, next_steps facts = Ok l ∧
    (∀ n1 n2, n1 ∈ l → n2 ∈ l → primary n1 = true → primary n2 = true → n1 = n2) ∧
    (∀ n, n ∈ l → primary n = true → step n ∉ NEVER_PRIMARY_STEPS) ∧
    ((∃ n, n ∈ l ∧ step n ∉ NEVER_PRIMARY_STEPS) → ∃ n, n ∈ l ∧ primary n = true) ∧
    (commercial (state facts) ∈ TERMINAL_COMMERCIAL_STATUSES → l = []).
Proof.
  intros Hwf. destruct (next_steps_table facts Hwf) as (p & Hl & Hp1 & Hp2).
  eexists. split; [exact Hl|]. split_and!.
  - intros n1 n2 H1 H2 Hpr1 Hpr2. apply listed_iff in H1 as (m1 & Hm1 & ->).
    apply listed_iff in H2 as (m2 & Hm2 & ->). cbn in Hpr1, Hpr2. guards. congruence.
  - intros n Hn Hpr. apply listed_iff in Hn as (m & Hm & ->). cbn in *. guards.
    by destruct (Hp1 (step m) (eq_sym Hpr)).
  - intros (n & Hn & Hne). apply listed_iff in Hn as (m & Hm & ->). cbn in Hne.
    destruct (Hp2 (step m)) as [st Hst]; [by rewrite Hm; eexists|done|].
    destruct (Hp1 st Hst) as (_ & [k Hk]). destruct (offer_step _ _ _ Hk) as [Hs _].
    exists (mark_primary p k). split; [apply listed_iff; exists k; by rewrite Hs|].
    cbn. rewrite Hs, Hst. by apply bool_decide_eq_true.
  - intros Hterm. apply elem_of_nil_inv. intros n Hn. apply listed_iff in Hn as (m & Hm & _).
    by rewrite terminal_offer in Hm.
Qed.

Lemma next_steps_primary_witness :
  ∃ l, next_steps fresh_facts = Ok l ∧ ∃ n, n ∈ l ∧ primary n = true.
Proof.
  destruct (next_steps_primary fresh_facts) as (l & Hl & _ & _ & Hex & _); [apply wf_new_order|].
  exists l. split; [exact Hl|]. apply Hex. vm_compute in Hl. injection Hl as <-.
  eexists. split; [left|]. decided.
Defined.
