(* ===== verification/PyDecimal.v ===== *)
(** Python's [decimal.Decimal] as the pricing code uses it: a signed coefficient and
    an exponent, exact comparison, and arithmetic rounded half-even to the default
    context's 28 digits.  Signed zeros and the flags of a context are not modelled:
    no operation of the program observes them. *)
From Stdlib Require Import Ascii String.
From S2P Require Import Prelude.
Local Open Scope laundry_scope.
Local Open Scope Z_scope.

Inductive decimal :=
| Finite (coef exp : Z)
| Special.
#[export] Instance decimal_eq_dec : EqDecision decimal.
Proof. solve_decision. Defined.

Definition context_precision : Z := 28.

Definition is_finite (d : decimal) : bool :=
  match d with Finite _ _ => true | Special => false end.

(** * Rounding a coefficient *)

(** [n / 10^k] rounded half to even; [n / 10^k] rounded half up (away from zero). *)
Definition div_half_even (n k : Z) : Z :=
  let d := 10 ^ k in
  let q := n / d in
  let r := n mod d in
  if (d <? 2 * r) || ((d =? 2 * r) && Z.odd q) then q + 1 else q.

Definition div_half_up (n k : Z) : Z := Z.sgn n * ((2 * Z.abs n + 10 ^ k) / (2 * 10 ^ k)).

Fixpoint count_digits (fuel : nat) (n : Z) : Z :=
  match fuel with
  | O => 0
  | S f => if n =? 0 then 0 else 1 + count_digits f (n / 10)
  end.
(** The number of decimal digits of [|n|], 0 for zero. *)
Definition ndigits (n : Z) : Z := count_digits (S (Z.to_nat (Z.log2 (Z.abs n)))) (Z.abs n).

(** [Decimal._fix]: round to the context's precision; a carry to one more digit
    drops that digit too. *)
Definition fix_precision (d : decimal) : decimal :=
  match d with
  | Special => Special
  | Finite c e =>
      let over := ndigits c - context_precision in
      if over <=? 0 then Finite c e
      else
      let c' := Z.sgn c * div_half_even (Z.abs c) over in
      if ndigits c' <=? context_precision then Finite c' (e + over)
      else Finite (Z.sgn c * (Z.abs c' / 10)) (e + over + 1)
  end.

(** * Arithmetic and comparison *)

Definition aligned (c e m : Z) : Z := c * 10 ^ (e - m).

Definition dec_add (a b : decimal) : decimal :=
  match a, b with
  | Finite ca ea, Finite cb eb =>
      let m := Z.min ea eb in
      fix_precision (Finite (aligned ca ea m + aligned cb eb m) m)
  | _, _ => Special
  end.

Definition dec_mul (a b : decimal) : decimal :=
  match a, b with
  | Finite ca ea, Finite cb eb => fix_precision (Finite (ca * cb) (ea + eb))
  | _, _ => Special
  end.

(** [Decimal(n)] for an [int]. *)
Definition of_int (n : Z) : decimal := Finite n 0.

(** The value comparison of two finite decimals; special values are only ever
    tested with [is_finite] first. *)
Definition dec_compare (a b : decimal) : comparison :=
  match a, b with
  | Finite ca ea, Finite cb eb =>
      let m := Z.min ea eb in aligned ca ea m ?= aligned cb eb m
  | _, _ => Eq
  end.
Definition dec_ltb a b : bool := match dec_compare a b with Lt => true | _ => false end.
Definition dec_leb a b : bool := match dec_compare a b with Gt => false | _ => true end.
Definition dec_eqb a b : bool := match dec_compare a b with Eq => true | _ => false end.

(** [max(a, b)]: the first argument unless the second is greater. *)
Definition dec_max a b : decimal := if dec_ltb a b then b else a.

(** [d.quantize(Decimal(1), rounding=ROUND_HALF_UP)]; [None] is [InvalidOperation]. *)
Definition quantize_unit (d : decimal) : option Z :=
  match d with
  | Special => None
  | Finite c e =>
      let q := if 0 <=? e then c * 10 ^ e else div_half_up c (- e) in
      if ndigits q <=? context_precision then Some q else None
  end.

(** [d == d.to_integral_value()] on a finite decimal. *)
Definition is_integral (d : decimal) : bool :=
  match d with
  | Special => false
  | Finite c e => (0 <=? e) || (c mod 10 ^ (- e) =? 0)
  end.

(** * Text *)

Definition digit_value (c : ascii) : option Z :=
  let n := Z.of_nat (nat_of_ascii c) in
  if (48 <=? n) && (n <=? 57) then Some (n - 48) else None.
Definition digit_char (d : Z) : ascii := ascii_of_nat (Z.to_nat (48 + d)).

(** [Decimal(text)] of an unsigned literal: all digits, and how many follow the point. *)
Fixpoint literal (coef : Z) (exp : Z) (point : bool) (l : list ascii) : option decimal :=
  match l with
  | [] => Some (Finite coef exp)
  | c :: l' =>
      match digit_value c with
      | Some d => literal (10 * coef + d) (if point then exp - 1 else exp) point l'
      | None => if (c is? "."%char) && negb point then literal coef exp true l' else None
      end
  end.
Definition of_literal (text : string) : option decimal :=
  literal 0 0 false (list_ascii_of_string text).

(** The digits of a natural number, most significant first. *)
Fixpoint to_digits (fuel : nat) (n : Z) (acc : list Z) : list Z :=
  match fuel with
  | O => acc
  | S f => if n <? 10 then n :: acc else to_digits f (n / 10) (n mod 10 :: acc)
  end.
Definition digits (n : Z) : list Z := to_digits (S (Z.to_nat (Z.log2 n))) n [].

(** [format(d, "f")]. *)
Definition format_f (d : decimal) : list ascii :=
  match d with
  | Special => []
  | Finite c e =>
      let sign := if c <? 0 then ["-"%char] else [] in
      if 0 <=? e then sign ++ (digit_char <$> digits (Z.abs c * 10 ^ e))
      else
      let ds := digits (Z.abs c) in
      let k := Z.to_nat (- e) in
      let padded := replicate (S k - length ds) 0 ++ ds in
      let left := (length padded - k)%nat in
      sign ++ (digit_char <$> take left padded) ++ ["."%char]
        ++ (digit_char <$> drop left padded)
  end.

Fixpoint strip_leading (c : ascii) (l : list ascii) : list ascii :=
  match l with
  | [] => []
  | x :: l' => if x is? c then strip_leading c l' else l
  end.
Definition rstrip (c : ascii) (l : list ascii) : list ascii := reverse (strip_leading c (reverse l)).

(** [_decimal_text]. *)
Definition _decimal_text (d : decimal) : string :=
  let text := format_f d in
  let text := if "."%char in? text then rstrip "." (rstrip "0" text) else text in
  string_of_list_ascii (if text is? [] then ["0"%char] else text).

Example text_1 : _decimal_text (Finite 12500 (-3)) = "12.5"%string.
Proof. reflexivity. Qed.
Example text_2 : _decimal_text (Finite 100 (-2)) = "1"%string.
Proof. reflexivity. Qed.
Example text_3 : _decimal_text (Finite 7 (-3)) = "0.007"%string.
Proof. reflexivity. Qed.
Example literal_1 : of_literal "12.50" = Some (Finite 1250 (-2)).
Proof. reflexivity. Qed.
Example fix_1 : fix_precision (Finite (10 ^ 29 - 1) 0) = Finite (10 ^ 27) 2.
Proof. reflexivity. Qed.

(** * Counting digits *)

Lemma count_digits_le fuel n k :
  0 <= n < 2 ^ Z.of_nat fuel → 0 <= k → (count_digits fuel n <= k ↔ n < 10 ^ k).
Proof.
  revert n k. induction fuel as [|f IH]; intros n k Hn Hk.
  { cbn in *. assert (n = 0) as -> by lia. pose proof (Z.pow_pos_nonneg 10 k). lia. }
  cbn [count_digits]. destruct (Z.eqb_spec n 0) as [->|Hne].
  { pose proof (Z.pow_pos_nonneg 10 k). lia. }
  assert (0 <= n / 10 < 2 ^ Z.of_nat f) as Hn'.
  { split; [apply Z.div_pos; lia|]. apply Z.div_lt_upper_bound; [lia|].
    rewrite Nat2Z.inj_succ, Z.pow_succ_r in Hn by lia. lia. }
  destruct (decide (k = 0)) as [->|Hk0].
  { cbn. split; [|lia]. intros H.
    assert (count_digits f (n / 10) < 0) as Hneg by lia.
    assert (∀ f m, 0 <= count_digits f m) as Hpos.
    { clear. induction f as [|f IH]; intros m; cbn; [lia|]. destruct (m =? 0); [lia|].
      specialize (IH (m / 10)). lia. }
    specialize (Hpos f (n / 10)). lia. }
  specialize (IH (n / 10) (k - 1) Hn' ltac:(lia)).
  assert (n / 10 < 10 ^ (k - 1) ↔ n < 10 ^ k) as Heq.
  { replace k with (Z.succ (k - 1)) at 2 by lia. rewrite Z.pow_succ_r by lia. split; intros H.
    - pose proof (Z.mod_pos_bound n 10 ltac:(lia)). pose proof (Z.div_mod n 10 ltac:(lia)). lia.
    - apply Z.div_lt_upper_bound; lia. }
  rewrite <- Heq, <- IH. lia.
Qed.

Lemma ndigits_le n k : 0 <= k → (ndigits n <= k ↔ Z.abs n < 10 ^ k).
Proof.
  intros Hk. unfold ndigits. apply count_digits_le; [|done]. split; [lia|].
  destruct (decide (n = 0)) as [->|Hn]; [done|].
  rewrite Nat2Z.inj_succ, Z2Nat.id by apply Z.log2_nonneg.
  apply Z.log2_spec. lia.
Qed.

(** Up to 28 digits a coefficient is kept as it is. *)
Lemma fix_precision_exact c e : Z.abs c < 10 ^ 28 → fix_precision (Finite c e) = Finite c e.
Proof.
  intros Hc. unfold fix_precision. apply ndigits_le in Hc; [|lia].
  unfold context_precision. by replace (ndigits c - 28 <=? 0) with true by lia.
Qed.

Lemma div_half_even_bounds n k :
  0 <= n → 0 <= k → n / 10 ^ k <= div_half_even n k <= n / 10 ^ k + 1.
Proof. intros Hn Hk. unfold div_half_even. destruct (_ || _); lia. Qed.

Lemma div_half_up_nonneg n k :
  0 <= n → 0 <= k → div_half_up n k = (2 * n + 10 ^ k) / (2 * 10 ^ k).
Proof.
  intros Hn Hk. unfold div_half_up. rewrite Z.abs_eq by done.
  destruct (decide (n = 0)) as [->|].
  - cbn [Z.sgn]. symmetry. rewrite Z.mul_0_l. apply Z.div_small.
    pose proof (Z.pow_pos_nonneg 10 k). lia.
  - rewrite Z.sgn_pos by lia. lia.
Qed.

(** * Quantities in thousandths

    Every quantity the program accepts has at most three decimals, so it is a whole
    number of thousandths. *)

Definition is_milli (d : decimal) (m : Z) : Prop :=
  ∃ c e, d = Finite c e ∧ -3 <= e <= 0 ∧ c * 10 ^ (e + 3) = m.

Lemma is_milli_coef d m : is_milli d m → ∃ c e,
  d = Finite c e ∧ -3 <= e <= 0 ∧ c * 10 ^ (e + 3) = m ∧ Z.abs c <= Z.abs m.
Proof.
  intros (c & e & -> & He & <-). exists c, e.
  split; [done|]. split; [done|]. split; [done|]. rewrite Z.abs_mul. assert (1 <= Z.abs (10 ^ (e + 3))); [|nia].
  pose proof (Z.pow_pos_nonneg 10 (e + 3)). lia.
Qed.

(** [10 ^ (e - m) * 10 ^ (m + 3)] collected back. *)
Lemma aligned_milli c e m : -3 <= m <= e → aligned c e m * 10 ^ (m + 3) = c * 10 ^ (e + 3).
Proof.
  intros H. unfold aligned. rewrite <- Z.mul_assoc, <- Z.pow_add_r by lia. do 2 f_equal. lia.
Qed.

Lemma is_milli_add a b m n :
  is_milli a m → is_milli b n → Z.abs (m + n) < 10 ^ 28 → is_milli (dec_add a b) (m + n).
Proof.
  intros (ca & ea & -> & Hea & Ha) (cb & eb & -> & Heb & Hb) Hsum. unfold dec_add.
  set (mn := Z.min ea eb).
  assert ((aligned ca ea mn + aligned cb eb mn) * 10 ^ (mn + 3) = m + n) as Heq.
  { rewrite Z.mul_add_distr_r, !aligned_milli by lia. lia. }
  rewrite fix_precision_exact.
  - exists (aligned ca ea mn + aligned cb eb mn), mn. split_and!; [done|lia|lia|done].
  - rewrite <- Heq, Z.abs_mul in Hsum.
    pose proof (Z.pow_pos_nonneg 10 (mn + 3) ltac:(lia) ltac:(lia)). nia.
Qed.

Lemma dec_compare_milli a b m n :
  is_milli a m → is_milli b n → dec_compare a b = (m ?= n).
Proof.
  intros (ca & ea & -> & Hea & <-) (cb & eb & -> & Heb & <-). cbn.
  rewrite <- (aligned_milli ca ea (Z.min ea eb)), <- (aligned_milli cb eb (Z.min ea eb)) by lia.
  pose proof (Z.pow_pos_nonneg 10 (Z.min ea eb + 3) ltac:(lia) ltac:(lia)).
  apply Zmult_compare_compat_r. lia.
Qed.

Lemma is_milli_integral d m : is_milli d m → is_integral d = (m mod 1000 =? 0).
Proof.
  intros (c & e & -> & He & <-). cbn [is_integral].
  replace 1000 with (10 ^ (- e) * 10 ^ (e + 3))
    by (rewrite <- Z.pow_add_r by lia; replace (- e + (e + 3)) with 3 by lia; done).
  pose proof (Z.pow_pos_nonneg 10 (e + 3) ltac:(lia) ltac:(lia)).
  pose proof (Z.pow_pos_nonneg 10 (- e) ltac:(lia) ltac:(lia)).
  rewrite Z.mul_mod_distr_r by lia.
  replace (c mod 10 ^ (- e) * 10 ^ (e + 3) =? 0) with (c mod 10 ^ (- e) =? 0).
  - destruct (Z.leb_spec 0 e); [|done]. assert (e = 0) as -> by lia. cbn. by rewrite Z.mod_1_r.
  - destruct (Z.eqb_spec (c mod 10 ^ (- e)) 0) as [->|]; [done|].
    symmetry. apply Z.eqb_neq. nia.
Qed.

(** * The order of decimals *)

(** Comparison does not depend on the exponent both sides are brought to. *)
Lemma dec_compare_at ca ea cb eb m :
  m <= ea → m <= eb → dec_compare (Finite ca ea) (Finite cb eb) = (aligned ca ea m ?= aligned cb eb m).
Proof.
  intros Ha Hb. cbn. set (k := Z.min ea eb).
  assert (∀ c e, k <= e → aligned c e m = aligned c e k * 10 ^ (k - m)) as Heq.
  { intros c e He. unfold aligned. rewrite <- Z.mul_assoc, <- Z.pow_add_r by lia.
    do 2 f_equal. lia. }
  rewrite !Heq by lia. pose proof (Z.pow_pos_nonneg 10 (k - m) ltac:(lia) ltac:(lia)).
  apply Zmult_compare_compat_r. lia.
Qed.

Lemma dec_leb_trans a b c :
  is_finite a = true → is_finite b = true → is_finite c = true →
  dec_leb a b = true → dec_leb b c = true → dec_leb a c = true.
Proof.
  destruct a as [ca ea|], b as [cb eb|], c as [cc ec|]; try done. intros _ _ _.
  unfold dec_leb. set (m := Z.min ea (Z.min eb ec)).
  rewrite !(dec_compare_at _ _ _ _ m) by lia.
  destruct (Z.compare_spec (aligned ca ea m) (aligned cb eb m)),
    (Z.compare_spec (aligned cb eb m) (aligned cc ec m)),
    (Z.compare_spec (aligned ca ea m) (aligned cc ec m)); try done; lia.
Qed.

Lemma dec_leb_ltb a b :
  is_finite a = true → is_finite b = true → dec_leb a b = negb (dec_ltb b a).
Proof.
  destruct a as [ca ea|], b as [cb eb|]; try done. intros _ _. unfold dec_leb, dec_ltb. cbn.
  rewrite (Z.min_comm eb ea).
  destruct (Z.compare_spec (aligned ca ea (Z.min ea eb)) (aligned cb eb (Z.min ea eb))),
    (Z.compare_spec (aligned cb eb (Z.min ea eb)) (aligned ca ea (Z.min ea eb))); try done; lia.
Qed.

Lemma dec_ltb_leb a b : dec_ltb a b = true → dec_leb a b = true.
Proof. unfold dec_ltb, dec_leb. by destruct (dec_compare a b). Qed.

Lemma dec_eqb_leb a b : dec_eqb a b = true → dec_leb a b = true.
Proof. unfold dec_eqb, dec_leb. by destruct (dec_compare a b). Qed.

Lemma dec_eqb_sym a b : dec_eqb a b = true → dec_eqb b a = true.
Proof.
  unfold dec_eqb. destruct a as [ca ea|], b as [cb eb|]; try done. cbn.
  rewrite (Z.min_comm eb ea).
  destruct (Z.compare_spec (aligned ca ea (Z.min ea eb)) (aligned cb eb (Z.min ea eb))); [|done..].
  intros _. by rewrite H, Z.compare_refl.
Qed.

Lemma is_milli_finite d m : is_milli d m → is_finite d = true.
Proof. by intros (c & e & -> & _). Qed.

(** Two decimals with one exponent and one value are the same decimal. *)
Definition exponent (d : decimal) : Z := match d with Finite _ e => e | Special => 0 end.
Lemma is_milli_inj a b m : is_milli a m → is_milli b m → exponent a = exponent b → a = b.
Proof.
  intros (ca & ea & -> & Hea & <-) (cb & eb & -> & Heb & Hm). cbn. intros <-. f_equal.
  apply Z.mul_reg_r in Hm; [done|]. pose proof (Z.pow_pos_nonneg 10 (ea + 3)). lia.
Qed.

Lemma dec_add_exponent a b m n :
  is_milli a m → is_milli b n → Z.abs (m + n) < 10 ^ 28 →
  exponent (dec_add a b) = Z.min (exponent a) (exponent b).
Proof.
  intros (ca & ea & -> & Hea & Ha) (cb & eb & -> & Heb & Hb) Hsum. unfold dec_add.
  rewrite fix_precision_exact; [done|]. revert Hsum. set (mn := Z.min ea eb). intros Hsum.
  rewrite <- Ha, <- Hb, <- (aligned_milli ca ea mn), <- (aligned_milli cb eb mn) in Hsum by lia.
  rewrite <- Z.mul_add_distr_r, Z.abs_mul in Hsum.
  pose proof (Z.pow_pos_nonneg 10 (mn + 3) ltac:(lia) ltac:(lia)). nia.
Qed.

(** [sum(values, start=Decimal())] of quantities: the exact sum, at the finest
    exponent among them. *)
Lemma fold_dec_add ds : ∀ ms acc a,
  Forall2 (λ d m, is_milli d m ∧ 0 <= m <= 10 ^ 12) ds ms →
  is_milli acc a → 0 <= a → a + Z.of_nat (length ds) * 10 ^ 12 < 10 ^ 28 →
  is_milli (fold_left dec_add ds acc) (a + sumZ ms) ∧
  exponent (fold_left dec_add ds acc) = foldr Z.min (exponent acc) (exponent <$> ds).
Proof.
  induction ds as [|d ds IH]; intros ms acc a Hf Hacc Ha Hlen.
  - apply Forall2_nil_inv_l in Hf as ->. cbn. by rewrite Z.add_0_r.
  - apply Forall2_cons_inv_l in Hf as (m & ms' & [Hd Hm] & Hf & ->).
    cbn [length] in Hlen. rewrite Nat2Z.inj_succ in Hlen.
    assert (is_milli (dec_add acc d) (a + m)) as Hadd by (apply is_milli_add; [done|done|lia]).
    destruct (IH ms' (dec_add acc d) (a + m)) as [H1 H2]; [done|done|lia|lia|].
    cbn [fold_left]. rewrite sumZ_cons, Z.add_assoc. split; [done|]. rewrite H2.
    rewrite (dec_add_exponent _ _ a m) by (done || lia). cbn [fmap list_fmap foldr].
    generalize (exponent <$> ds) as es. intros es. induction es as [|x es IHes]; cbn; lia.
Qed.

(** * A quantity times a price

    28 digits are enough: whenever the context rounds the product, the amount is far
    above every accepted one, and it stays so. *)

(** [m] thousandths at [p] per unit, half up to a whole unit. *)
Definition half_up_milli (m p : Z) : Z := (2 * (m * p) + 1000) / 2000.

Lemma div_half_up_scale n k j :
  0 <= n → 0 <= k → 0 <= j → div_half_up (n * 10 ^ j) (k + j) = div_half_up n k.
Proof.
  intros Hn Hk Hj. pose proof (Z.pow_pos_nonneg 10 j ltac:(lia) Hj).
  pose proof (Z.pow_pos_nonneg 10 k ltac:(lia) Hk).
  rewrite !div_half_up_nonneg by nia. rewrite Z.pow_add_r by lia.
  replace (2 * (n * 10 ^ j) + 10 ^ k * 10 ^ j) with ((2 * n + 10 ^ k) * 10 ^ j) by lia.
  replace (2 * (10 ^ k * 10 ^ j)) with (2 * 10 ^ k * 10 ^ j) by lia.
  apply Z.div_mul_cancel_r; lia.
Qed.

Lemma half_up_milli_coef c e m p :
  -3 <= e <= 0 → c * 10 ^ (e + 3) = m → 0 <= c → 0 <= p →
  half_up_milli m p = div_half_up (c * p) (- e).
Proof.
  intros He <- Hc Hp. rewrite <- (div_half_up_scale (c * p) (- e) (e + 3)) by nia.
  replace (- e + (e + 3)) with 3 by lia. unfold half_up_milli.
  rewrite div_half_up_nonneg; [|pose proof (Z.pow_pos_nonneg 10 (e + 3)); nia|lia].
  change (2 * 10 ^ 3) with 2000. change (10 ^ 3) with 1000. f_equal. lia.
Qed.

Lemma div_half_up_range n k :
  0 <= n → 0 <= k → n / 10 ^ k <= div_half_up n k ∧ 0 <= div_half_up n k <= n.
Proof.
  intros Hn Hk. rewrite div_half_up_nonneg by done.
  pose proof (Z.pow_pos_nonneg 10 k ltac:(lia) Hk) as Hp. set (d := 10 ^ k) in *. clearbody d.
  split_and!; [|apply Z.div_pos; lia|].
  - apply Z.div_le_lower_bound; [lia|].
    pose proof (Z.mul_div_le n d Hp). lia.
  - apply Z.lt_succ_r, Z.div_lt_upper_bound; [lia|]. nia.
Qed.

Lemma quantize_exact c e p m :
  -3 <= e <= 0 → c * 10 ^ (e + 3) = m → 0 <= c → 0 <= p → c * p < 10 ^ 28 →
  quantize_unit (fix_precision (Finite (c * p) e)) = Some (half_up_milli m p).
Proof.
  intros He Hm Hc Hp Hn. rewrite fix_precision_exact by nia.
  pose proof (div_half_up_range (c * p) (- e) ltac:(nia) ltac:(lia)) as [_ Hr].
  rewrite (half_up_milli_coef c e m p) by done. unfold quantize_unit. cbv zeta.
  replace (if 0 <=? e then c * p * 10 ^ e else div_half_up (c * p) (- e))
    with (div_half_up (c * p) (- e)).
  - replace (ndigits _ <=? context_precision) with true; [done|].
    symmetry. apply Z.leb_le, ndigits_le; [done|]. unfold context_precision. lia.
  - destruct (Z.leb_spec 0 e); [|done]. assert (e = 0) as -> by lia. cbn.
    rewrite Z.mul_1_r, div_half_up_nonneg by nia. change (10 ^ (- 0)) with 1.
    symmetry. apply Z.div_unique with 1; nia.
Qed.

(** The coefficient of a product that does not fit: rounded to 28 digits, its order of
    magnitude kept. *)
Lemma fix_precision_large n e :
  10 ^ 28 <= n < 10 ^ 31 → ∃ c' e', fix_precision (Finite n e) = Finite c' e' ∧
    10 ^ 27 <= c' < 10 ^ 28 ∧ e < e' <= e + 4 ∧ c' * 10 ^ (e' - e) <= n + 10 ^ (e' - e).
Proof.
  intros Hn. unfold fix_precision.
  assert (28 < ndigits n <= 31) as Hd.
  { split; [|apply ndigits_le; lia]. apply Z.nle_gt. rewrite ndigits_le by lia. lia. }
  unfold context_precision. set (over := ndigits n - 28).
  replace (over <=? 0) with false by lia. rewrite Z.sgn_pos, Z.abs_eq, Z.mul_1_l by lia.
  assert (n < 10 ^ (28 + over)) as Hup.
  { assert (Z.abs n < 10 ^ (28 + over)); [|lia]. apply ndigits_le; lia. }
  assert (10 ^ (27 + over) <= n) as Hlo.
  { assert (¬ Z.abs n < 10 ^ (27 + over)); [|lia]. rewrite <- ndigits_le by lia. lia. }
  pose proof (div_half_even_bounds n over ltac:(lia) ltac:(lia)) as Hb.
  rewrite Z.pow_add_r in Hup, Hlo by lia.
  assert (1 <= over <= 3) as Hov by lia. clearbody over.
  set (c' := div_half_even n over) in *. clearbody c'.
  set (d := 10 ^ over) in *.
  assert (0 < d) as Hd0 by (apply Z.pow_pos_nonneg; lia).
  pose proof (Z.div_mod n d ltac:(lia)) as Hdm. pose proof (Z.mod_pos_bound n d Hd0) as Hmod.
  assert (10 ^ 27 <= n / d) as H27 by (apply Z.div_le_lower_bound; lia).
  assert (n / d < 10 ^ 28) as H28 by (apply Z.div_lt_upper_bound; lia).
  destruct (Z.leb_spec (ndigits c') 28) as [Hc|Hc].
  - exists c', (e + over). apply ndigits_le in Hc; [|lia].
    replace (e + over - e) with over by lia. fold d. split; [done|]. split; [lia|].
    split; [lia|]. nia.
  - assert (c' = 10 ^ 28) as ->.
    { assert (¬ Z.abs c' < 10 ^ 28); [|lia]. rewrite <- ndigits_le by lia. lia. }
    exists (10 ^ 27), (e + over + 1). change (1 * (Z.abs (10 ^ 28) / 10)) with (10 ^ 27).
    replace (e + over + 1 - e) with (over + 1) by lia. rewrite Z.pow_add_r by lia. fold d.
    split; [done|]. split; [lia|]. split; [lia|]. change (10 ^ 1) with 10.
    set (q := n / d) in *. clearbody q. assert (10 ^ 28 * d <= (q + 1) * d) by nia. lia.
Qed.

(** The amount of a product that does not fit in 28 digits is beyond every limit below
    10^25, and is still computed. *)
Lemma quantize_large c e p m :
  -3 <= e <= 0 → c * 10 ^ (e + 3) = m → 0 <= m < 10 ^ 12 → 0 <= p < 10 ^ 19 - 10 ^ 17 →
  10 ^ 28 <= c * p →
  ∃ a, quantize_unit (fix_precision (Finite (c * p) e)) = Some a ∧ 10 ^ 25 <= a
       ∧ 10 ^ 25 <= half_up_milli m p.
Proof.
  intros He Hm Hmr Hp Hn.
  assert (0 < 10 ^ (e + 3) <= 1000) as Hs.
  { split; [apply Z.pow_pos_nonneg; lia|]. change 1000 with (10 ^ 3). apply Z.pow_le_mono_r; lia. }
  assert (c * p * 10 ^ (e + 3) = m * p) as Hmp by (rewrite <- Hm; lia).
  assert (m * p < 10 ^ 31 - 10 ^ 29) as Hmp' by nia.
  assert (c * p < 10 ^ 31) as Hn' by nia.
  destruct (fix_precision_large (c * p) e) as (c' & e' & -> & Hc' & He' & Hup); [lia|].
  assert (e' <= 0) as He0.
  { apply Z.le_ngt. intros Hpos.
    assert (10 ^ (e' - e) * 10 ^ (e + 3) >= 10 ^ 4) as H4.
    { rewrite <- Z.pow_add_r by lia. apply Z.le_ge, Z.pow_le_mono_r; lia. }
    set (x := 10 ^ (e' - e)) in *. set (y := 10 ^ (e + 3)) in *.
    assert ((c' - 1) * (x * y) <= m * p) by nia. nia. }
  assert (1 <= 10 ^ (- e') <= 100) as Hs'.
  { split; [pose proof (Z.pow_pos_nonneg 10 (- e')); lia|].
    change 100 with (10 ^ 2). apply Z.pow_le_mono_r; lia. }
  exists (div_half_up c' (- e')). split_and!.
  - unfold quantize_unit. cbv zeta. pose proof (div_half_up_range c' (- e') ltac:(lia) ltac:(lia)) as [_ Hr].
    replace (if 0 <=? e' then c' * 10 ^ e' else div_half_up c' (- e')) with (div_half_up c' (- e')).
    + replace (ndigits _ <=? context_precision) with true; [done|].
      symmetry. apply Z.leb_le, ndigits_le; [done|]. unfold context_precision. lia.
    + destruct (Z.leb_spec 0 e'); [|done]. assert (e' = 0) as -> by lia. cbn.
      rewrite Z.mul_1_r, div_half_up_nonneg by lia. change (10 ^ (- 0)) with 1.
      symmetry. apply Z.div_unique with 1; lia.
  - pose proof (div_half_up_range c' (- e') ltac:(lia) ltac:(lia)) as [Hl _].
    etransitivity; [|exact Hl]. apply Z.div_le_lower_bound; [lia|]. nia.
  - unfold half_up_milli. apply Z.div_le_lower_bound; [lia|]. nia.
Qed.

(** [int((total * price).quantize(1, ROUND_HALF_UP))] below 10^25: exactly half up. *)
Lemma quantize_product d m p :
  is_milli d m → 0 <= m < 10 ^ 12 → 0 <= p < 10 ^ 19 - 10 ^ 17 →
  ∃ a, quantize_unit (dec_mul d (of_int p)) = Some a ∧ 0 <= a ∧
    (a = half_up_milli m p ∨ 10 ^ 25 <= a ∧ 10 ^ 25 <= half_up_milli m p).
Proof.
  intros (c & e & -> & He & Hm) Hmr Hp. unfold dec_mul, of_int. rewrite Z.add_0_r.
  assert (0 <= c) as Hc by (pose proof (Z.pow_pos_nonneg 10 (e + 3) ltac:(lia) ltac:(lia)); nia).
  destruct (Z.lt_ge_cases (c * p) (10 ^ 28)) as [Hn|Hn].
  - exists (half_up_milli m p). split; [apply quantize_exact; done || lia|].
    split; [apply Z.div_pos; nia|by left].
  - destruct (quantize_large c e p m) as (a & ? & ? & ?); [done..|].
    exists a. split; [done|]. split; [lia|by right].
Qed.
#[global] Arguments fix_precision : simpl never.
#[global] Arguments dec_add : simpl never.
#[global] Arguments dec_mul : simpl never.

(** * Printing and reading back *)

Definition eval_digits (c : Z) (ds : list Z) : Z := fold_left (λ a d, 10 * a + d) ds c.
Definition is_digit (d : Z) : Prop := 0 <= d <= 9.

Lemma digit_value_char d : is_digit d → digit_value (digit_char d) = Some d.
Proof.
  intros [H1 H2].
  assert (d ∈ [0; 1; 2; 3; 4; 5; 6; 7; 8; 9]) as Hd by (rewrite !elem_of_cons; lia).
  repeat (apply elem_of_cons in Hd as [->|Hd]; [reflexivity|]). by apply elem_of_nil in Hd.
Qed.

Lemma digit_char_value c d x : digit_value c = None → is_digit d → digit_char d = x → x ≠ c.
Proof. intros Hc Hd <- <-. by rewrite digit_value_char in Hc. Qed.

Lemma eval_digits_app c l1 l2 : eval_digits c (l1 ++ l2) = eval_digits (eval_digits c l1) l2.
Proof. apply fold_left_app. Qed.

Lemma eval_zeros c n : eval_digits c (replicate n 0) = c * 10 ^ Z.of_nat n.
Proof.
  revert c. induction n as [|n IH]; intros c; [cbn; lia|].
  cbn [replicate]. unfold eval_digits in *. cbn [fold_left]. rewrite IH, Nat2Z.inj_succ, Z.pow_succ_r by lia. lia.
Qed.

Lemma eval_lead n l : eval_digits 0 (replicate n 0 ++ l) = eval_digits 0 l.
Proof. rewrite eval_digits_app, eval_zeros. by rewrite Z.mul_0_l. Qed.

Lemma to_digits_spec fuel : ∀ n acc,
  0 <= n < 2 ^ Z.of_nat fuel → (fuel ≠ 0)%nat → Forall is_digit acc →
  Forall is_digit (to_digits fuel n acc) ∧ to_digits fuel n acc ≠ [] ∧
  eval_digits 0 (to_digits fuel n acc) = eval_digits n acc.
Proof.
  induction fuel as [|f IH]; intros n acc Hn Hf Hacc; [done|]. cbn [to_digits].
  destruct (Z.ltb_spec n 10).
  - split_and!; [|done|done]. constructor; [unfold is_digit; lia|done].
  - pose proof (Z.mod_pos_bound n 10 ltac:(lia)). pose proof (Z.div_mod n 10 ltac:(lia)) as Hdm.
    assert (0 <= n / 10 < 2 ^ Z.of_nat f) as Hn'.
    { split; [apply Z.div_pos; lia|]. apply Z.div_lt_upper_bound; [lia|].
      rewrite Nat2Z.inj_succ, Z.pow_succ_r in Hn by lia. lia. }
    assert (f ≠ 0)%nat as Hf'.
    { intros ->. cbn in Hn'. pose proof (Z.div_le_lower_bound n 10 1). lia. }
    destruct (IH (n / 10) (n mod 10 :: acc) Hn' Hf') as (Ha & Hb & Hc).
    { constructor; [unfold is_digit; lia|done]. }
    split_and!; [done|done|]. rewrite Hc.
    unfold eval_digits. cbn [fold_left]. by rewrite <- Hdm.
Qed.

Lemma digits_spec n : 0 <= n →
  Forall is_digit (digits n) ∧ digits n ≠ [] ∧ eval_digits 0 (digits n) = n.
Proof.
  intros Hn. unfold digits.
  destruct (to_digits_spec (S (Z.to_nat (Z.log2 n))) n []) as (H1 & H2 & H3).
  - split; [lia|]. destruct (decide (n = 0)) as [->|Hne]; [done|].
    rewrite Nat2Z.inj_succ, Z2Nat.id by apply Z.log2_nonneg. apply Z.log2_spec. lia.
  - lia.
  - constructor.
  - split_and!; [done|done|]. done.
Qed.

(** Reading digits: before the point the exponent stays, after it each digit lowers it. *)
Lemma literal_digits ds : ∀ c e point rest, Forall is_digit ds →
  literal c e point ((digit_char <$> ds) ++ rest) =
    literal (eval_digits c ds) (if point : bool then e - Z.of_nat (length ds) else e) point rest.
Proof.
  induction ds as [|d ds IH]; intros c e point rest Hd.
  - cbn. by destruct point; [rewrite Z.sub_0_r|].
  - apply Forall_cons in Hd as [Hd Hds]. cbn [fmap list_fmap app literal].
    rewrite digit_value_char, IH by done. unfold eval_digits. cbn [fold_left length].
    destruct point; [|done]. f_equal. lia.
Qed.

Lemma literal_point c e rest : literal c e false ("."%char :: rest) = literal c e true rest.
Proof. done. Qed.

(** ** Stripping trailing characters *)

Lemma strip_leading_replicate c n l : strip_leading c (replicate n c ++ l) = strip_leading c l.
Proof. induction n as [|n IH]; [done|]. cbn. by rewrite bool_decide_true. Qed.

Lemma rstrip_app c l n : rstrip c (l ++ replicate n c) = rstrip c l.
Proof.
  unfold rstrip. by rewrite reverse_app, reverse_replicate, strip_leading_replicate.
Qed.

Lemma rstrip_last c l x : x ≠ c → rstrip c (l ++ [x]) = l ++ [x].
Proof.
  intros Hx. unfold rstrip. rewrite reverse_app, reverse_singleton. cbn [app strip_leading].
  rewrite bool_decide_false by done. by rewrite reverse_cons, reverse_involutive.
Qed.

(** Digits split into a part that does not end in zero, and zeros. *)
Lemma trailing_zeros ds : ∃ f n, ds = f ++ replicate n 0 ∧ (f = [] ∨ ∃ g x, f = g ++ [x] ∧ x ≠ 0).
Proof.
  induction ds as [|x ds IH] using rev_ind.
  - exists [], 0%nat. auto.
  - destruct (decide (x = 0)) as [->|Hx].
    + destruct IH as (f & n & -> & Hf). exists f, (S n).
      rewrite <- app_assoc, <- replicate_S_end. auto.
    + exists (ds ++ [x]), 0%nat. cbn. rewrite app_nil_r.
      split; [done|]. right. by exists ds, x.
Qed.

Lemma digit_char_zero : digit_char 0 = "0"%char.
Proof. done. Qed.

Lemma digit_not_point d : is_digit d → digit_char d ≠ "."%char.
Proof. intros Hd. by eapply digit_char_value. Qed.

Lemma digit_not_zero d : is_digit d → d ≠ 0 → digit_char d ≠ "0"%char.
Proof.
  intros Hd Hne Heq. pose proof (digit_value_char d Hd) as H. rewrite Heq in H. by injection H.
Qed.

(** The text of a decimal with digits [L] before its point and [F] after it. *)
Definition plain_text (L F : list Z) : list ascii :=
  (digit_char <$> L) ++ (if F is? [] then [] else "."%char :: (digit_char <$> F)).

Lemma strip_point L ds f n :
  Forall is_digit (L ++ ds) → L ≠ [] → ds = f ++ replicate n 0 →
  (f = [] ∨ ∃ g x, f = g ++ [x] ∧ x ≠ 0) →
  rstrip "." (rstrip "0" ((digit_char <$> L) ++ "."%char :: (digit_char <$> ds))) = plain_text L f.
Proof.
  intros Hd HL -> Hf. apply Forall_app in Hd as [HdL Hd]. apply Forall_app in Hd as [Hdf _].
  rewrite fmap_app, fmap_replicate, digit_char_zero, app_comm_cons, app_assoc, rstrip_app.
  unfold plain_text. destruct Hf as [->|(g & x & -> & Hx)].
  - rewrite bool_decide_true by done. rewrite (rstrip_last "0") by done.
    rewrite app_nil_r. change ["."%char] with (replicate 1 "."%char). rewrite rstrip_app.
    destruct (exists_last HL) as (L' & y & ->). rewrite fmap_app. apply rstrip_last.
    apply digit_not_point. by apply Forall_app in HdL as [_ HdL]; inversion HdL.
  - rewrite bool_decide_false by (by destruct g). rewrite fmap_app.
    apply Forall_app in Hdf as [_ Hxd]. apply Forall_inv in Hxd.
    rewrite app_comm_cons, app_assoc. cbn [fmap list_fmap].
    rewrite (rstrip_last "0") by by apply digit_not_zero.
    rewrite (rstrip_last "."); [done|]. by apply digit_not_point.
Qed.

Lemma of_plain_text L f : Forall is_digit L → Forall is_digit f →
  of_literal (string_of_list_ascii (plain_text L f)) =
    Some (Finite (eval_digits 0 (L ++ f)) (- Z.of_nat (length f))).
Proof.
  intros HL Hf. unfold of_literal, plain_text. rewrite list_ascii_of_string_of_list_ascii.
  rewrite literal_digits by done. rewrite eval_digits_app. case_bool_decide as He.
  - by subst.
  - rewrite literal_point, <- (app_nil_r (digit_char <$> f)), literal_digits by done. done.
Qed.

Lemma plain_text_nonempty L f : L ≠ [] → plain_text L f ≠ [].
Proof. by destruct L. Qed.

Lemma no_point L : Forall is_digit L → "."%char ∉ digit_char <$> L.
Proof.
  intros HL Hin. apply list_elem_of_fmap in Hin as (d & Hd & Hin).
  rewrite Forall_forall in HL. by apply (digit_not_point d (HL d Hin)).
Qed.

Lemma format_text c e : 0 <= c → e <= 0 → ∃ L f n,
  _decimal_text (Finite c e) = string_of_list_ascii (plain_text L f) ∧
  Forall is_digit (L ++ f) ∧ eval_digits 0 (L ++ f) * 10 ^ Z.of_nat n = c ∧
  Z.of_nat (length f) + Z.of_nat n = - e.
Proof.
  intros Hc He. unfold _decimal_text, format_f.
  replace (c <? 0) with false by lia. cbv zeta. rewrite Z.abs_eq by done. cbn [app].
  destruct (Z.leb_spec 0 e) as [H0|H0].
  - assert (e = 0) as -> by lia. change (10 ^ 0) with 1. rewrite Z.mul_1_r.
    destruct (digits_spec c Hc) as (Hd & Hne & Hev).
    exists (digits c), [], 0%nat. rewrite (bool_decide_false ("."%char ∈ _)) by by apply no_point.
    rewrite (bool_decide_false (_ = [])) by by destruct (digits c).
    unfold plain_text. rewrite (bool_decide_true ([] = [])), !app_nil_r by done.
    split_and!; [done|done|change (10 ^ Z.of_nat 0) with 1; lia|done].
  - destruct (digits_spec c Hc) as (Hd & Hne & Hev).
    set (k := Z.to_nat (- e)). set (padded := replicate (S k - length (digits c)) 0 ++ digits c).
    set (left := (length padded - k)%nat).
    assert (S k <= length padded)%nat as Hlen
      by (unfold padded; rewrite length_app, length_replicate; lia).
    assert (Forall is_digit padded) as Hpd.
    { apply Forall_app. split; [|done]. by apply Forall_replicate. }
    assert (eval_digits 0 padded = c) as Hpe by (unfold padded; by rewrite eval_lead).
    destruct (trailing_zeros (drop left padded)) as (f & n & Hf & Hcase).
    assert (take left padded ++ drop left padded = padded) as Hsplit by apply take_drop.
    assert (length (drop left padded) = k) as Hk by (rewrite length_drop; lia).
    rewrite Hf in Hsplit, Hk. rewrite length_app, length_replicate in Hk.
    exists (take left padded), f, n.
    rewrite (bool_decide_true ("."%char ∈ _)) by (rewrite elem_of_app; right; left).
    assert (take left padded ≠ []) as HL
      by (intros Hnil; apply (f_equal length) in Hnil; rewrite length_take in Hnil; change (length []) with 0%nat in Hnil; unfold left in Hnil; lia).
    rewrite (strip_point _ _ f n); [|by rewrite Hf, Hsplit|done|done|done].
    rewrite (bool_decide_false (_ = [])) by by apply plain_text_nonempty.
    assert (Forall is_digit ((take left padded ++ f) ++ replicate n 0)) as Hall
      by by rewrite <- app_assoc, Hsplit.
    apply Forall_app in Hall as [Hall _]. split_and!; [done|done| |unfold k in *; lia].
    by rewrite <- eval_zeros, <- eval_digits_app, <- app_assoc, Hsplit.
Qed.

(** the text of a calculation trace is not an approximation: printing a quantity and
    reading it back gives the same quantity. *)
Theorem decimal_text_roundtrip d m :
  is_milli d m → 0 <= m → ∃ d', of_literal (_decimal_text d) = Some d' ∧ is_milli d' m.
Proof.
  intros (c & e & -> & He & <-) Hm.
  assert (0 <= c) as Hc by (pose proof (Z.pow_pos_nonneg 10 (e + 3) ltac:(lia) ltac:(lia)); nia).
  destruct (format_text c e Hc ltac:(lia)) as (L & f & n & -> & Hd & Hev & Hk).
  apply Forall_app in Hd as [HL Hf]. rewrite of_plain_text by done.
  eexists. split; [done|]. eexists _, _. split; [done|]. split; [lia|].
  rewrite <- Hev, <- Z.mul_assoc, <- Z.pow_add_r by lia. do 2 f_equal. lia.
Qed.

Lemma decimal_text_roundtrip_witness :
  _decimal_text (Finite 12500 (-3)) = "12.5"%string ∧
  ∃ d', of_literal (_decimal_text (Finite 12500 (-3))) = Some d' ∧ is_milli d' 12500.
Proof.
  split; [vm_compute; reflexivity|]. apply decimal_text_roundtrip; [|lia].
  exists 12500, (-3). split_and!; [done|lia|lia|vm_compute; reflexivity].
Defined.
