(* ===== verification/Pricing.v ===== *)
(** Deterministic pricing ([packages/domain/.../pricing.py]): quantities are exact
    decimals of at most three places, lines of one service are priced together, and
    money is rounded once, half up, to a whole đồng. *)
From Stdlib Require Import Ascii String.
From S2P Require Import Prelude Catalog PyDecimal.
Local Open Scope laundry_scope.
Local Open Scope Z_scope.

Definition MAX_NUMERIC_QUANTITY : decimal := Finite 999999999999 (-3).
Definition MAX_BIGINT_VND : Z := 9223372036854775807.
Definition COUNT_UNITS : list Unit.t :=
  [Unit.ITEM; Unit.PAIR; Unit.SET; Unit.ANIMAL_PLUSH_ITEM; Unit.CASE].

(** [PricingError] with its code; the other two are Python's own. *)
Inductive PricingFailure :=
| PricingError (code : ErrorCode.t)
| InvalidOperation
| AssertionError.
#[export] Instance pricing_failure_eq_dec : EqDecision PricingFailure.
Proof. solve_decision. Defined.
Abbreviation priced A := (result PricingFailure A).

Record PriceTier := {
  minimum_quantity : decimal;
  maximum_quantity_exclusive : option decimal;
  tier_unit_price_vnd : Z;
  minimum_billable_quantity : option decimal;
}.

Record PriceRule := {
  rule_service_code : string;
  rule_type : PriceRuleType.t;
  unit_price_vnd : option Z;
  range_min_vnd : option Z;
  range_max_vnd : option Z;
  tiers : list PriceTier;
  rule_unit : Unit.t;
}.

Record PriceLine := {
  service_code : string;
  quantity : string;
  line_unit : Unit.t;
  quantity_basis : QuantityBasis.t;
}.

Record CalculationTrace := {
  trace_service_code : string;
  trace_rule_type : PriceRuleType.t;
  trace_unit : Unit.t;
  input_quantities : list string;
  quantity_bases : list QuantityBasis.t;
  aggregate_quantity : string;
  billable_quantity : string;
  selected_tier : option nat;
  trace_unit_price_vnd : option Z;
  range_min_unit_vnd : option Z;
  range_max_unit_vnd : option Z;
  rounding : string;
}.

Record PriceResult := {
  list_amount_vnd : option Z;
  result_min_vnd : option Z;
  result_max_vnd : option Z;
  requires_human : bool;
  finality : QuoteFinality.t;
  trace : CalculationTrace;
}.

(** * Quantities *)

(** [QUANTITY_PATTERN.fullmatch] as the automaton of the pattern: one zero or digits
    not beginning with zero, then optionally a point and at least one digit. *)
Inductive pattern_state := Start | Zero | Integer | Point | Fraction | Reject.
Definition pattern_step (s : pattern_state) (c : ascii) : pattern_state :=
  match s, digit_value c with
  | Start, Some d => if d =? 0 then Zero else Integer
  | Integer, Some _ => Integer
  | Point, Some _ | Fraction, Some _ => Fraction
  | Zero, None | Integer, None => if c is? "."%char then Point else Reject
  | _, _ => Reject
  end.
Definition QUANTITY_PATTERN (text : string) : bool :=
  match fold_left pattern_step (list_ascii_of_string text) Start with
  | Zero | Integer | Fraction => true
  | _ => false
  end.

Definition _quantity (value : string) (u : Unit.t) : priced decimal :=
  raise_if (negb (QUANTITY_PATTERN value)) (PricingError ErrorCode.MISSING_REQUIRED_FACT) ;;
  q ← require_some (of_literal value) (PricingError ErrorCode.MISSING_REQUIRED_FACT);
  match q with
  | Special => Err (PricingError ErrorCode.MISSING_REQUIRED_FACT)
  | Finite _ exponent =>
      let decimal_places := Z.max 0 (- exponent) in
      raise_if (negb (is_finite q) || dec_leb q (of_int 0) || dec_ltb MAX_NUMERIC_QUANTITY q
                || (3 <? decimal_places) || ((u in? COUNT_UNITS) && negb (is_integral q)))
        (PricingError ErrorCode.MISSING_REQUIRED_FACT) ;;
      Ok q
  end.

Definition _valid_positive_vnd (v : option Z) : bool :=
  match v with Some v => (0 <? v) && (v <=? MAX_BIGINT_VND) | None => false end.

Definition _round_vnd (value : decimal) : priced Z :=
  rounded ← require_some (quantize_unit value) InvalidOperation;
  raise_if ((rounded <? 0) || (MAX_BIGINT_VND <? rounded))
    (PricingError ErrorCode.PRICE_RULE_UNRESOLVED) ;;
  Ok rounded.

(** * Rules *)

Definition unresolved : PricingFailure := PricingError ErrorCode.PRICE_RULE_UNRESOLVED.

Definition not_finite (d : option decimal) : bool :=
  match d with Some d => negb (is_finite d) | None => false end.

(** One pass of the tier loop: the expected minimum of the next tier, or the error. *)
Definition check_tier (expected_minimum : decimal) (t : PriceTier) : priced decimal :=
  let invalid_maximum := not_finite (maximum_quantity_exclusive t) in
  let invalid_minimum_billable := not_finite (minimum_billable_quantity t) in
  raise_if (negb (is_finite (minimum_quantity t)) || invalid_maximum || invalid_minimum_billable
            || negb (dec_eqb (minimum_quantity t) expected_minimum)
            || negb (_valid_positive_vnd (Some (tier_unit_price_vnd t)))
            || match minimum_billable_quantity t with
               | Some m => dec_ltb m (minimum_quantity t)
               | None => false
               end) unresolved ;;
  match maximum_quantity_exclusive t with
  | None => Ok (of_int (-1))
  | Some maximum =>
      raise_if (dec_leb maximum (minimum_quantity t)) unresolved ;;
      Ok maximum
  end.

Definition _validate_rule (rule : PriceRule) : priced unit :=
  match rule_type rule with
  | PriceRuleType.FIXED_PER_UNIT | PriceRuleType.FIXED_PER_ORDER =>
      raise_if (negb (_valid_positive_vnd (unit_price_vnd rule))) unresolved ;;
      raise_if (bool_decide (is_Some (range_min_vnd rule)) || bool_decide (is_Some (range_max_vnd rule))
                || negb (length (tiers rule) =? 0)%nat) unresolved
  | PriceRuleType.RANGE_PER_UNIT =>
      raise_if (negb (_valid_positive_vnd (range_min_vnd rule))
                || negb (_valid_positive_vnd (range_max_vnd rule))
                || bool_decide (is_Some (unit_price_vnd rule))
                || negb (length (tiers rule) =? 0)%nat) unresolved ;;
      minimum ← require_some (range_min_vnd rule) AssertionError;
      maximum ← require_some (range_max_vnd rule) AssertionError;
      raise_if (maximum <? minimum) unresolved
  | PriceRuleType.AGGREGATE_TIER_PER_UNIT =>
      raise_if (bool_decide (is_Some (unit_price_vnd rule)) || bool_decide (is_Some (range_min_vnd rule))
                || bool_decide (is_Some (range_max_vnd rule)) || (length (tiers rule) =? 0)%nat)
        unresolved ;;
      expected ← fold_result check_tier (of_int 0) (tiers rule);
      raise_if (negb (dec_eqb expected (of_int (-1)))) unresolved
  | PriceRuleType.MANUAL => Err unresolved
  end.

(** * The price of one service's lines *)

Definition contains (q : decimal) (t : PriceTier) : bool :=
  dec_leb (minimum_quantity t) q
  && match maximum_quantity_exclusive t with None => true | Some m => dec_ltb q m end.

(** [next(((index, candidate) for ... if ...), None)]. *)
Fixpoint first_tier (i : nat) (q : decimal) (l : list PriceTier) : option (nat * PriceTier) :=
  match l with
  | [] => None
  | t :: l' => if contains q t then Some (i, t) else first_tier (S i) q l'
  end.

Definition make_trace (rule : PriceRule) (inputs : list string) (bases : list QuantityBasis.t)
    (aggregate billable : string) (tier : option nat) (unit_price range_min range_max : option Z)
    : CalculationTrace :=
  {| trace_service_code := rule_service_code rule; trace_rule_type := rule_type rule;
     trace_unit := rule_unit rule; input_quantities := inputs; quantity_bases := bases;
     aggregate_quantity := aggregate; billable_quantity := billable; selected_tier := tier;
     trace_unit_price_vnd := unit_price; range_min_unit_vnd := range_min;
     range_max_unit_vnd := range_max; rounding := "ROUND_HALF_UP_1_VND" |}.

Definition estimate (amount : Z) (tr : CalculationTrace) : PriceResult :=
  {| list_amount_vnd := Some amount; result_min_vnd := None; result_max_vnd := None;
     requires_human := false; finality := QuoteFinality.ESTIMATE; trace := tr |}.

Definition _price (rule : PriceRule) (lines : list (PriceLine * decimal)) : priced PriceResult :=
  _validate_rule rule ;;
  let total := fold_left dec_add lines.*2 (of_int 0) in
  raise_if (dec_ltb MAX_NUMERIC_QUANTITY total) (PricingError ErrorCode.MISSING_REQUIRED_FACT) ;;
  let inputs := _decimal_text <$> lines.*2 in
  let bases := (λ l, quantity_basis l.1) <$> lines in
  let aggregate := _decimal_text total in
  match rule_type rule with
  | PriceRuleType.FIXED_PER_UNIT =>
      price ← require_some (unit_price_vnd rule) AssertionError;
      amount ← _round_vnd (dec_mul total (of_int price));
      Ok (estimate amount (make_trace rule inputs bases aggregate aggregate None (Some price) None None))
  | PriceRuleType.FIXED_PER_ORDER =>
      price ← require_some (unit_price_vnd rule) AssertionError;
      raise_if (negb (dec_eqb total (of_int 1))) (PricingError ErrorCode.INCOMPATIBLE_UNIT) ;;
      Ok (estimate price (make_trace rule inputs bases aggregate "1" None (Some price) None None))
  | PriceRuleType.RANGE_PER_UNIT =>
      lo ← require_some (range_min_vnd rule) AssertionError;
      hi ← require_some (range_max_vnd rule) AssertionError;
      minimum ← _round_vnd (dec_mul total (of_int lo));
      maximum ← _round_vnd (dec_mul total (of_int hi));
      Ok {| list_amount_vnd := None; result_min_vnd := Some minimum; result_max_vnd := Some maximum;
            requires_human := true; finality := QuoteFinality.RANGE;
            trace := make_trace rule inputs bases aggregate aggregate None None (Some lo) (Some hi) |}
  | PriceRuleType.AGGREGATE_TIER_PER_UNIT =>
      match first_tier 0 total (tiers rule) with
      | None => Err unresolved
      | Some (index, tier) =>
          let billable := dec_max total (default (of_int 0) (minimum_billable_quantity tier)) in
          amount ← _round_vnd (dec_mul billable (of_int (tier_unit_price_vnd tier)));
          Ok (estimate amount (make_trace rule inputs bases aggregate (_decimal_text billable)
                (Some index) (Some (tier_unit_price_vnd tier)) None None))
      end
  | PriceRuleType.MANUAL => Err unresolved
  end.

(** * A whole order *)

(** One pass of the grouping loop: the line checked and appended to its service. *)
Definition group_line (rules : gmap string PriceRule)
    (grouped : dict string (list (PriceLine * decimal))) (line : PriceLine)
    : priced (dict string (list (PriceLine * decimal))) :=
  match rules !! service_code line with
  | None => Err unresolved
  | Some rule =>
      raise_if (negb (rule_service_code rule is? service_code line)) unresolved ;;
      raise_if (negb (line_unit line is? rule_unit rule)) (PricingError ErrorCode.INCOMPATIBLE_UNIT) ;;
      q ← _quantity (quantity line) (line_unit line);
      Ok (dict_alter (λ old, (default [] old ++ [(line, q)])%list) (service_code line) grouped)
  end.

Definition price_lines (rules : gmap string PriceRule) (lines : list PriceLine)
    : priced (dict string PriceResult) :=
  raise_if (length lines =? 0)%nat (PricingError ErrorCode.MISSING_REQUIRED_FACT) ;;
  grouped ← fold_result (group_line rules) [] lines;
  traverse (λ '(code, group),
    rule ← require_some (rules !! code) AssertionError;
    r ← _price rule group;
    Ok (code, r)) grouped.
