(* ===== verification/PricingFacts.v ===== *)
(** What the pricing engine charges: the amounts of [Pricing.price_lines] against an
    integer reference calculation over thousandths of a unit. *)
From Stdlib Require Import Ascii String.
From S2P Require Import Prelude Catalog PyDecimal Pricing.
Local Open Scope laundry_scope.
Local Open Scope Z_scope.

(** * Accepted quantities *)

Lemma digit_value_range c d : digit_value c = Some d → 0 <= d <= 9.
Proof.
  unfold digit_value. case_match; [|done]. intros [= <-].
  apply andb_true_iff in H as [?%Z.leb_le ?%Z.leb_le]. lia.
Qed.

Lemma literal_sign l : ∀ c e point d,
  0 <= c → e <= 0 → literal c e point l = Some d →
  ∃ c' e', d = Finite c' e' ∧ 0 <= c' ∧ e' <= 0.
Proof.
  induction l as [|x l IH]; intros c e point d Hc He; cbn.
  - intros [= <-]. eauto.
  - destruct (digit_value x) as [v|] eqn:Hv.
    + apply digit_value_range in Hv. apply IH; [lia|]. destruct point; lia.
    + destruct (_ && _); [|done]. by apply IH.
Qed.

(** A quantity the engine accepts, in thousandths. *)
Definition quantity_ok (u : Unit.t) (m : Z) : Prop :=
  1 <= m <= 999999999999 ∧ (u ∈ COUNT_UNITS → m mod 1000 = 0).

Lemma _quantity_milli v u q : _quantity v u = Ok q → ∃ m, is_milli q m ∧ quantity_ok u m.
Proof.
  unfold _quantity. intros H. result_inv.
  destruct (literal_sign _ 0 0 false x ltac:(lia) ltac:(lia) ltac:(eassumption))
    as (c & e & -> & Hc & He). result_inv. guards.
  assert (is_milli (Finite c e) (c * 10 ^ (e + 3))) as Hm by (exists c, e; split_and!; lia || done).
  exists (c * 10 ^ (e + 3)). split; [done|].
  set (m := c * 10 ^ (e + 3)) in *. clearbody m.
  match goal with H : dec_leb _ (of_int 0) = false |- _ => rename H into Hpos end.
  match goal with H : dec_ltb MAX_NUMERIC_QUANTITY _ = false |- _ => rename H into Hmax end.
  match goal with H : _ && _ = false |- _ => rename H into Hcount end.
  assert (is_milli (of_int 0) 0) as Hz by (exists 0, 0; by split_and!).
  assert (is_milli MAX_NUMERIC_QUANTITY 999999999999) as HM by (exists 999999999999, (-3); by split_and!).
  unfold dec_leb in Hpos. unfold dec_ltb in Hmax.
  rewrite (dec_compare_milli _ _ _ _ Hm Hz) in Hpos.
  rewrite (dec_compare_milli _ _ _ _ HM Hm) in Hmax.
  rewrite (is_milli_integral _ _ Hm) in Hcount. split.
  - destruct (Z.compare_spec m 0), (Z.compare_spec 999999999999 m); try done; lia.
  - intros Hu. rewrite (bool_decide_true _ Hu) in Hcount. cbn in Hcount.
    apply negb_false_iff, Z.eqb_eq in Hcount. done.
Qed.

(** * The reference calculation *)

Definition MAX_MILLI : Z := 999999999999.

Definition bounded (amount : Z) : priced Z :=
  if amount <=? MAX_BIGINT_VND then Ok amount else Err unresolved.

(** What one service costs for [m] thousandths of a unit: one total, or a range. *)
Record money := { one_total : option Z; from_total : option Z; to_total : option Z }.
Definition total_of (a : Z) : money :=
  {| one_total := Some a; from_total := None; to_total := None |}.

(** A decimal bound against a quantity in thousandths. *)
Definition milli (m : Z) : decimal := Finite m (-3).

Definition reference_tier (m : Z) (l : list PriceTier) : option PriceTier :=
  head (filter (λ t, contains (milli m) t = true) l).

Definition reference_price (rule : PriceRule) (floor : PriceTier → Z) (m : Z) : priced money :=
  match rule_type rule with
  | PriceRuleType.FIXED_PER_UNIT =>
      a ← bounded (half_up_milli m (default 0 (unit_price_vnd rule))); Ok (total_of a)
  | PriceRuleType.FIXED_PER_ORDER =>
      if m =? 1000 then Ok (total_of (default 0 (unit_price_vnd rule)))
      else Err (PricingError ErrorCode.INCOMPATIBLE_UNIT)
  | PriceRuleType.RANGE_PER_UNIT =>
      lo ← bounded (half_up_milli m (default 0 (range_min_vnd rule)));
      hi ← bounded (half_up_milli m (default 0 (range_max_vnd rule)));
      Ok {| one_total := None; from_total := Some lo; to_total := Some hi |}
  | PriceRuleType.AGGREGATE_TIER_PER_UNIT =>
      match reference_tier m (tiers rule) with
      | None => Err unresolved
      | Some t => a ← bounded (half_up_milli (Z.max m (floor t)) (tier_unit_price_vnd t));
                  Ok (total_of a)
      end
  | PriceRuleType.MANUAL => Err unresolved
  end.

Definition money_of (r : PriceResult) : money :=
  {| one_total := list_amount_vnd r; from_total := result_min_vnd r; to_total := result_max_vnd r |}.
Definition money_result (r : priced PriceResult) : priced money :=
  match r with Ok r => Ok (money_of r) | Err e => Err e end.

Lemma _round_vnd_product d m p :
  is_milli d m → 0 <= m <= MAX_MILLI → 0 < p <= MAX_BIGINT_VND →
  _round_vnd (dec_mul d (of_int p)) = bounded (half_up_milli m p).
Proof.
  intros Hd Hm Hp. unfold MAX_MILLI, MAX_BIGINT_VND in *.
  destruct (quantize_product d m p Hd) as (a & Ha & Ha0 & Hcases); [lia..|].
  unfold _round_vnd, bounded, MAX_BIGINT_VND. rewrite Ha. cbn [require_some mbind result_bind].
  replace (a <? 0) with false by lia. cbn [orb].
  destruct Hcases as [->|[H1 H2]].
  - destruct (Z.leb_spec (half_up_milli m p) 9223372036854775807),
      (Z.ltb_spec 9223372036854775807 (half_up_milli m p)); try lia; done.
  - replace (half_up_milli m p <=? 9223372036854775807) with false by lia.
    by replace (9223372036854775807 <? a) with true by lia.
Qed.

(** * Tiers *)

Lemma is_milli_milli m : is_milli (milli m) m.
Proof. exists m, (-3). split_and!; [done|lia|lia|]. cbn. lia. Qed.

Lemma aligned_milli_at c e mn m :
  -3 <= e <= 0 → c * 10 ^ (e + 3) = m → mn <= -3 → aligned c e mn = aligned m (-3) mn.
Proof.
  intros He <- Hmn. unfold aligned. rewrite <- Z.mul_assoc, <- Z.pow_add_r by lia.
  do 2 f_equal. lia.
Qed.

(** Comparing with a quantity looks only at its value. *)
Lemma dec_compare_value a b m :
  is_milli a m → dec_compare a b = dec_compare (milli m) b ∧ dec_compare b a = dec_compare b (milli m).
Proof.
  intros (c & e & -> & He & Hm). destruct b as [cb eb|]; [|done].
  unfold milli. set (mn := Z.min eb (-3)).
  rewrite !(dec_compare_at _ _ _ _ mn) by lia.
  by rewrite (aligned_milli_at c e mn m) by (done || lia).
Qed.

Lemma contains_value q m t : is_milli q m → contains q t = contains (milli m) t.
Proof.
  intros Hq. unfold contains, dec_leb, dec_ltb.
  rewrite (proj2 (dec_compare_value q (minimum_quantity t) m Hq)). f_equal.
  destruct (maximum_quantity_exclusive t) as [b|]; [|done].
  by rewrite (proj1 (dec_compare_value q b m Hq)).
Qed.

Lemma first_tier_reference q m l : is_milli q m → ∀ i,
  snd <$> first_tier i q l = reference_tier m l.
Proof.
  intros Hq. unfold reference_tier. induction l as [|t l IH]; intros i; [done|].
  cbn [first_tier]. rewrite (contains_value q m t Hq), filter_cons.
  destruct (contains (milli m) t); [by rewrite decide_True|].
  by rewrite decide_False, IH.
Qed.

Lemma first_tier_Some i q l j t :
  first_tier i q l = Some (j, t) →
  ∃ pre post, l = (pre ++ t :: post)%list ∧ j = (i + length pre)%nat ∧ contains q t = true ∧
    Forall (λ t', contains q t' = false) pre.
Proof.
  revert i. induction l as [|x l IH]; intros i; cbn; [done|].
  destruct (contains q x) eqn:Hx.
  - intros [= <- <-]. exists [], l. cbn. split_and!; auto with lia.
  - intros H. destruct (IH _ H) as (pre & post & -> & -> & ? & ?).
    exists (x :: pre), post. cbn. split_and!; [done|lia|done|by constructor].
Qed.

(** One accepted pass of the tier loop. *)
Lemma check_tier_Ok exp t exp' :
  check_tier exp t = Ok exp' →
  is_finite (minimum_quantity t) = true ∧ dec_eqb (minimum_quantity t) exp = true ∧
  0 < tier_unit_price_vnd t <= MAX_BIGINT_VND ∧
  (∀ b, minimum_billable_quantity t = Some b →
        is_finite b = true ∧ dec_ltb b (minimum_quantity t) = false) ∧
  match maximum_quantity_exclusive t with
  | None => exp' = of_int (-1)
  | Some b => exp' = b ∧ is_finite b = true ∧ dec_leb b (minimum_quantity t) = false
  end.
Proof.
  unfold check_tier. intros H. apply raise_bind_Ok in H as [Hg H].
  guards. unfold _valid_positive_vnd in *. guards.
  split_and!; try done.
  - intros b Hb. rewrite Hb in *. cbn in *. guards. done.
  - destruct (maximum_quantity_exclusive t) as [b|]; cbn in *; result_inv; [|done].
    guards. by split_and!.
Qed.

(** Validated tiers cover every quantity from 0 up: the loop that selects one never
    comes back empty. *)
Lemma tiers_cover l : ∀ exp final q,
  fold_result check_tier exp l = Ok final → dec_eqb final (of_int (-1)) = true →
  is_finite exp = true → is_finite q = true →
  dec_leb (of_int 0) exp = true → dec_leb exp q = true →
  ∃ t, t ∈ l ∧ contains q t = true.
Proof.
  induction l as [|t l IH]; intros exp final q Hl Hf He Hq H0 Hle; cbn in Hl.
  - injection Hl as <-. apply dec_eqb_leb in Hf.
    by pose proof (dec_leb_trans (of_int 0) exp (of_int (-1)) eq_refl He eq_refl H0 Hf).
  - apply bind_Ok in Hl as (exp' & Ht & Hl).
    apply check_tier_Ok in Ht as (Hmin & Heq & _ & _ & Hmax).
    assert (dec_leb (minimum_quantity t) q = true) as Hin.
    { eapply dec_leb_trans; [done|exact He|done|by apply dec_eqb_leb|done]. }
    destruct (maximum_quantity_exclusive t) as [b|] eqn:Hb.
    + destruct Hmax as (-> & Hfin & Hgt).
      destruct (dec_ltb q b) eqn:Hlt.
      * exists t. split; [left|]. unfold contains. by rewrite Hin, Hb, Hlt.
      * destruct (IH b final q) as (t' & ? & ?); try done.
        { rewrite dec_leb_ltb in Hgt by done. apply negb_false_iff in Hgt.
          eapply dec_leb_trans; [done|exact He|done|done|].
          eapply dec_leb_trans; [done|exact Hmin|done|by apply dec_eqb_leb, dec_eqb_sym|].
          by apply dec_ltb_leb. }
        { by rewrite dec_leb_ltb, Hlt. }
        exists t'. split; [by right|done].
    + exists t. split; [left|]. unfold contains. by rewrite Hin, Hb.
Qed.

(** * Rules *)

Definition price_ok (p : Z) : Prop := 0 < p <= MAX_BIGINT_VND.

Lemma _valid_positive_vnd_Some v :
  _valid_positive_vnd v = true ↔ ∃ p, v = Some p ∧ price_ok p.
Proof.
  unfold _valid_positive_vnd, price_ok. destruct v as [p|].
  - rewrite andb_true_iff, Z.ltb_lt, Z.leb_le. naive_solver.
  - naive_solver.
Qed.

Lemma _validate_rule_Ok r u :
  _validate_rule r = Ok u →
  match rule_type r with
  | PriceRuleType.FIXED_PER_UNIT | PriceRuleType.FIXED_PER_ORDER =>
      ∃ p, unit_price_vnd r = Some p ∧ price_ok p
  | PriceRuleType.RANGE_PER_UNIT =>
      ∃ lo hi, range_min_vnd r = Some lo ∧ range_max_vnd r = Some hi ∧
               price_ok lo ∧ price_ok hi ∧ lo <= hi
  | PriceRuleType.AGGREGATE_TIER_PER_UNIT =>
      ∃ final, fold_result check_tier (of_int 0) (tiers r) = Ok final ∧
               dec_eqb final (of_int (-1)) = true
  | PriceRuleType.MANUAL => False
  end.
Proof.
  unfold _validate_rule. intros H. destruct (rule_type r); [..|done].
  1,4: apply raise_bind_Ok in H as [Hp H]; by apply negb_false_iff, _valid_positive_vnd_Some in Hp.
  - apply raise_bind_Ok in H as [Hg H].
    apply bind_Ok in H as (lo & Hlo & H). apply bind_Ok in H as (hi & Hhi & H).
    apply require_some_Ok in Hlo, Hhi. apply raise_if_Ok in H. guards.
    rewrite Hlo, Hhi in *.
    repeat match goal with H : _valid_positive_vnd _ = true |- _ =>
      apply _valid_positive_vnd_Some in H as (? & [= <-] & ?) end.
    exists lo, hi. by split_and!.
  - apply raise_bind_Ok in H as [Hg H]. apply bind_Ok in H as (final & Hf & H).
    apply raise_if_Ok in H. apply negb_false_iff in H. eauto.
Qed.

Lemma check_tiers_Err l exp e : fold_result check_tier exp l = Err e → e = unresolved.
Proof.
  revert exp. induction l as [|t l IH]; intros exp; cbn; [done|].
  intros [H|(x & _ & H)]%bind_Err; [|by apply (IH x)].
  unfold check_tier in H. apply raise_bind_Err in H as [[_ <-]|[_ H]]; [done|].
  destruct (maximum_quantity_exclusive t); [|done].
  by apply raise_bind_Err in H as [[_ <-]|[_ H]].
Qed.

(** A rule that does not validate is always the pricing error, never an assertion. *)
Lemma _validate_rule_Err r e : _validate_rule r = Err e → e = unresolved.
Proof.
  unfold _validate_rule. intros H. destruct (rule_type r).
  1,4: apply raise_bind_Err in H as [[_ <-]|[_ H]]; [done|by apply raise_if_Err in H as [_ <-]].
  - apply raise_bind_Err in H as [[_ <-]|[Hg H]]; [done|]. guards.
    repeat match goal with H : _valid_positive_vnd _ = true |- _ =>
      apply _valid_positive_vnd_Some in H as (? & ? & _) end.
    rewrite (ltac:(eassumption) : range_min_vnd r = Some _), (ltac:(eassumption) : range_max_vnd r = Some _) in H.
    by apply raise_if_Err in H as [_ <-].
  - apply raise_bind_Err in H as [[_ <-]|[_ H]]; [done|].
    apply bind_Err in H as [H|(f & _ & H)]; [by apply check_tiers_Err in H|].
    by apply raise_if_Err in H as [_ <-].
  - by injection H.
Qed.

Lemma check_tiers_prices l : ∀ exp final t,
  fold_result check_tier exp l = Ok final → t ∈ l → price_ok (tier_unit_price_vnd t).
Proof.
  induction l as [|x l IH]; intros exp final t Hl Ht; cbn in Hl; [by apply elem_of_nil in Ht|].
  apply bind_Ok in Hl as (exp' & Hx & Hl). apply elem_of_cons in Ht as [->|Ht]; [|eauto].
  by apply check_tier_Ok in Hx as (_ & _ & ? & _).
Qed.

(** * One service *)

(** The minimum billed quantities of a rule's tiers, in thousandths, within the range
    of quantities. *)
Definition floors (rule : PriceRule) (floor : PriceTier → Z) : Prop :=
  ∀ t, t ∈ tiers rule →
    is_milli (default (of_int 0) (minimum_billable_quantity t)) (floor t) ∧ floor t <= MAX_MILLI.

Lemma is_milli_max a b m n : is_milli a m → is_milli b n → is_milli (dec_max a b) (Z.max m n).
Proof.
  intros Ha Hb. unfold dec_max, dec_ltb. rewrite (dec_compare_milli _ _ _ _ Ha Hb).
  destruct (Z.compare_spec m n).
  - by rewrite Z.max_l by lia.
  - by rewrite Z.max_r by lia.
  - by rewrite Z.max_l by lia.
Qed.

(** Grouped lines and their quantities in thousandths. *)
Definition weighs (lines : list (PriceLine * decimal)) (ms : list Z) : Prop :=
  Forall2 (λ d m, is_milli d m ∧ 0 <= m <= 10 ^ 12) lines.*2 ms ∧
  Z.of_nat (length lines) <= 10 ^ 15.

Lemma weighs_total lines ms :
  weighs lines ms → is_milli (fold_left dec_add lines.*2 (of_int 0)) (sumZ ms) ∧ 0 <= sumZ ms.
Proof.
  intros [Hf Hlen]. rewrite <- (length_fmap snd) in Hlen.
  destruct (fold_dec_add lines.*2 ms (of_int 0) 0 Hf) as [H _]; [|done|lia|].
  - exists 0, 0. by split_and!.
  - split; [exact H|]. apply sumZ_nonneg.
    clear -Hf. induction Hf as [|d m ds ms' Hdm _ IH]; constructor; [lia|done].
Qed.

Lemma _price_reference rule lines ms floor :
  weighs lines ms → floors rule floor → _validate_rule rule = Ok tt →
  money_result (_price rule lines) =
    if MAX_MILLI <? sumZ ms then Err (PricingError ErrorCode.MISSING_REQUIRED_FACT)
    else reference_price rule floor (sumZ ms).
Proof.
  intros Hw Hfl Hv. pose proof (weighs_total _ _ Hw) as [Ht Hpos].
  unfold _price. rewrite Hv. cbn [mbind result_bind]. cbv zeta.
  set (total := fold_left dec_add lines.*2 (of_int 0)) in *. set (m := sumZ ms) in *.
  clearbody total m.
  assert (dec_ltb MAX_NUMERIC_QUANTITY total = (MAX_MILLI <? m)) as ->.
  { unfold dec_ltb. rewrite (dec_compare_milli _ _ MAX_MILLI m); [done| |done].
    exists 999999999999, (-3). by split_and!. }
  destruct (Z.ltb_spec MAX_MILLI m) as [|Hm]; [done|]. cbn [raise_if mbind result_bind].
  apply _validate_rule_Ok in Hv. unfold reference_price.
  destruct (rule_type rule) eqn:Hrt; [..|done].
  - destruct Hv as (p & Hp & Hok). rewrite Hp. cbn [require_some mbind result_bind default].
    rewrite (_round_vnd_product _ m p Ht) by (done || lia). by destruct (bounded _).
  - destruct Hv as (lo & hi & Hlo & Hhi & Hokl & Hokh & Hle). rewrite Hlo, Hhi.
    cbn [require_some mbind result_bind default].
    rewrite !(_round_vnd_product _ m _ Ht) by (done || lia). by repeat destruct (bounded _).
  - destruct Hv as (final & Hfold & Hfin).
    pose proof (first_tier_reference total m (tiers rule) Ht 0) as Href.
    destruct (first_tier 0 total (tiers rule)) as [[j t]|] eqn:Hsel; cbn in Href; rewrite <- Href; [|done].
    apply first_tier_Some in Hsel as (pre & post & Hl & _).
    assert (t ∈ tiers rule) as Hin by (rewrite Hl, elem_of_app; right; left).
    destruct (Hfl t Hin) as [Hfloor Hmax].
    rewrite (_round_vnd_product _ (Z.max m (floor t))); [by destruct (bounded _)| |lia|].
    + by apply is_milli_max.
    + by eapply check_tiers_prices.
  - destruct Hv as (p & Hp & Hok). rewrite Hp. cbn [require_some mbind result_bind default].
    assert (dec_eqb total (of_int 1) = (m =? 1000)) as ->.
    { unfold dec_eqb. rewrite (dec_compare_milli _ _ m 1000 Ht).
      - destruct (Z.compare_spec m 1000), (Z.eqb_spec m 1000); done || lia.
      - exists 1, 0. by split_and!. }
    by destruct (m =? 1000).
Qed.

(** * A whole order *)

(** The checks one line passes before it is grouped. *)
Definition checked (rules : gmap string PriceRule) (line : PriceLine) : priced decimal :=
  match rules !! service_code line with
  | None => Err unresolved
  | Some rule =>
      raise_if (negb (rule_service_code rule is? service_code line)) unresolved ;;
      raise_if (negb (line_unit line is? rule_unit rule)) (PricingError ErrorCode.INCOMPATIBLE_UNIT) ;;
      _quantity (quantity line) (line_unit line)
  end.

Definition add_line (g : dict string (list (PriceLine * decimal))) (p : PriceLine * decimal)
    : dict string (list (PriceLine * decimal)) :=
  dict_alter (λ old, (default [] old ++ [p])%list) (service_code p.1) g.

Definition of_service (code : string) (l : list (PriceLine * decimal)) :=
  filter (λ p, service_code p.1 = code) l.

Lemma group_line_checked rules g line :
  group_line rules g line = (q ← checked rules line; Ok (add_line g (line, q))).
Proof.
  unfold group_line, checked, add_line. destruct (rules !! service_code line) as [rule|]; [|done].
  destruct (negb (rule_service_code _ is? _)), (negb (line_unit _ is? _)); done.
Qed.

Lemma group_lines_Ok rules lines : ∀ g g',
  fold_result (group_line rules) g lines = Ok g' ↔
  ∃ qs, traverse (checked rules) lines = Ok qs ∧ g' = fold_left add_line (zip lines qs) g.
Proof.
  induction lines as [|x l IH]; intros g g'; cbn [fold_result traverse].
  - split; [intros [= <-]; by exists []|by intros (qs & [= <-] & ->)].
  - rewrite group_line_checked. destruct (checked rules x) as [q|e] eqn:Hx; cbn [mbind result_bind].
    + rewrite IH. split.
      * intros (qs & -> & ->). exists (q :: qs). done.
      * intros (qs & Hqs & ->). apply bind_Ok in Hqs as (qs' & Hq & [= <-]). exists qs'. done.
    + split; [done|by intros (qs & ? & _)].
Qed.

Lemma grouped_get code l : ∀ g,
  dict_get (fold_left add_line l g) code =
    match of_service code l with
    | [] => dict_get g code
    | group => Some (default [] (dict_get g code) ++ group)%list
    end.
Proof.
  induction l as [|p l IH]; intros g; [done|]. cbn [fold_left]. rewrite IH.
  unfold of_service. rewrite filter_cons. destruct (decide (service_code p.1 = code)) as [<-|Hne].
  - unfold add_line at 1 2. rewrite dict_get_alter. cbn [default].
    destruct (filter _ l); [done|]. cbn. by rewrite <- app_assoc.
  - unfold add_line at 1 2. by rewrite dict_get_alter_ne.
Qed.

Lemma grouped_NoDup l : ∀ g, NoDup g.*1 → NoDup (fold_left add_line l g).*1.
Proof. induction l as [|p l IH]; intros g Hg; [done|]. by apply IH, dict_alter_NoDup. Qed.

Lemma traverse_dict {E A B} (f : string * A → result E B) (d : dict string A) d' :
  NoDup d.*1 →
  traverse (λ kv, r ← f kv; Ok (kv.1, r)) d = Ok d' →
  ∀ k, match dict_get d k with
       | None => dict_get d' k = None
       | Some a => ∃ b, f (k, a) = Ok b ∧ dict_get d' k = Some b
       end.
Proof.
  revert d'. induction d as [|[k0 a] d IH]; intros d' Hnd H k; cbn in H.
  - by injection H as <-.
  - apply bind_Ok in H as (y & Hy & H). apply bind_Ok in Hy as (b & Hb & [= <-]).
    apply bind_Ok in H as (ys & Hys & [= <-]). cbn [fmap list_fmap fst] in Hnd.
    apply NoDup_cons in Hnd as [_ Hnd]. cbn. case_decide as Hk; [subst; eauto|].
    by apply IH.
Qed.

Lemma traverse_total {E A B} (f : A → result E B) l :
  (∀ x, x ∈ l → ∃ y, f x = Ok y) → ∃ ys, traverse f l = Ok ys.
Proof.
  induction l as [|x l IH]; intros H; [by exists []|]. cbn.
  destruct (H x) as [y ->]; [left|]. destruct IH as [ys ->]; [|by exists (y :: ys)].
  intros z Hz. apply H. by right.
Qed.

(** ** The reference of a whole order *)

Definition to_milli (d : decimal) : Z :=
  match d with Finite c e => c * 10 ^ (e + 3) | Special => 0 end.
Definition line_milli (line : PriceLine) : Z :=
  match _quantity (quantity line) (line_unit line) with Ok q => to_milli q | Err _ => 0 end.
Definition service_total (code : string) (lines : list PriceLine) : Z :=
  sumZ (line_milli <$> filter (λ l, service_code l = code) lines).
Definition floor_milli (t : PriceTier) : Z :=
  to_milli (default (of_int 0) (minimum_billable_quantity t)).

(** Every minimum billed quantity of the pricebook is a quantity itself. *)
Definition billable (rules : gmap string PriceRule) : Prop :=
  ∀ code rule, rules !! code = Some rule → floors rule floor_milli.

Definition service_price (rules : gmap string PriceRule) (lines : list PriceLine) (code : string)
    : priced money :=
  match rules !! code with
  | None => Err unresolved
  | Some rule =>
      _validate_rule rule ;;
      if MAX_MILLI <? service_total code lines
      then Err (PricingError ErrorCode.MISSING_REQUIRED_FACT)
      else reference_price rule floor_milli (service_total code lines)
  end.

Lemma to_milli_is d m : is_milli d m → to_milli d = m.
Proof. by intros (c & e & -> & _ & <-). Qed.

Lemma checked_Ok rules line q :
  checked rules line = Ok q →
  is_milli q (line_milli line) ∧ quantity_ok (line_unit line) (line_milli line)
  ∧ is_Some (rules !! service_code line).
Proof.
  unfold checked, line_milli. destruct (rules !! service_code line) as [rule|]; [|done].
  intros H. apply raise_bind_Ok in H as [_ H]. apply raise_bind_Ok in H as [_ H]. rewrite H.
  destruct (_quantity_milli _ _ _ H) as (m & Hm & Hok).
  rewrite (to_milli_is _ _ Hm). by split_and!.
Qed.

(** The group of a service holds its lines in order, each with its quantity. *)
Lemma group_of rules code lines : ∀ qs,
  traverse (checked rules) lines = Ok qs →
  (of_service code (zip lines qs)).*1 = filter (λ l, service_code l = code) lines ∧
  Forall2 (λ d m, is_milli d m ∧ 0 <= m <= 10 ^ 12) (of_service code (zip lines qs)).*2
    (line_milli <$> filter (λ l, service_code l = code) lines).
Proof.
  induction lines as [|x l IH]; intros qs; cbn [traverse].
  - intros [= <-]. split; [done|constructor].
  - intros H. apply bind_Ok in H as (q & Hq & H). apply bind_Ok in H as (qs' & Hqs & [= <-]).
    destruct (IH _ Hqs) as [H1 H2]. unfold of_service in *. cbn [zip].
    rewrite !filter_cons. cbn [fst]. destruct (decide (service_code x = code)); [|done].
    cbn. rewrite H1. split; [done|]. constructor; [|done].
    apply checked_Ok in Hq as (Hm & [Hr _] & _). split; [done|lia].
Qed.

Section whole_order.
  Context (rules : gmap string PriceRule) (lines : list PriceLine).
  Hypothesis Hbill : billable rules.
  Hypothesis Hlen : Z.of_nat (length lines) <= 10 ^ 15.

Let price_group (kv : string * list (PriceLine * decimal)) : priced PriceResult :=
  rule ← require_some (rules !! kv.1) AssertionError; _price rule kv.2.

Lemma price_lines_grouped d :
  price_lines rules lines = Ok d ↔
  lines ≠ [] ∧ ∃ qs, traverse (checked rules) lines = Ok qs ∧
    traverse (λ kv, r ← price_group kv; Ok (kv.1, r)) (fold_left add_line (zip lines qs) []) = Ok d.
Proof.
  unfold price_lines. rewrite raise_bind_Ok, bind_Ok.
  assert (∀ g : dict string (list (PriceLine * decimal)),
    traverse (λ '(code, group), rule ← require_some (rules !! code) AssertionError;
      r ← _price rule group; Ok (code, r)) g
    = traverse (λ kv, r ← price_group kv; Ok (kv.1, r)) g) as Hext.
  { induction g as [|[c grp] g IH]; [done|]. cbn [traverse]. rewrite IH.
    unfold price_group. cbn [fst snd]. by destruct (require_some _ _). }
  setoid_rewrite Hext. setoid_rewrite group_lines_Ok.
  rewrite Nat.eqb_neq, length_zero_iff_nil. naive_solver.
Qed.

(** The price of a non-empty group is the reference price of its service. *)
Lemma price_group_reference code qs :
  traverse (checked rules) lines = Ok qs →
  filter (λ l, service_code l = code) lines ≠ [] →
  money_result (price_group (code, of_service code (zip lines qs))) = service_price rules lines code.
Proof.
  intros Hqs Hne. destruct (group_of rules code lines qs Hqs) as [H1 H2].
  assert (is_Some (rules !! code)) as [rule Hrule].
  { destruct (filter _ lines) as [|l ls] eqn:Hf; [done|].
    assert (l ∈ filter (λ l, service_code l = code) lines) as Hl by (rewrite Hf; left).
    apply list_elem_of_filter in Hl as [<- Hl].
    apply traverse_Forall2 in Hqs. apply list_elem_of_lookup in Hl as [i Hi].
    destruct (Forall2_lookup_l _ _ _ _ _ Hqs Hi) as (q & _ & Hq). by apply checked_Ok in Hq as (_ & _ & ?). }
  unfold price_group, service_price. cbn [fst snd]. rewrite Hrule. cbn [require_some mbind result_bind].
  assert (weighs (of_service code (zip lines qs))
    (line_milli <$> filter (λ l, service_code l = code) lines)) as Hw.
  { split; [done|]. rewrite <- (length_fmap fst), H1.
    pose proof (length_filter (λ l, service_code l = code) lines). lia. }
  destruct (_validate_rule rule) as [[]|e] eqn:Hv; cbn [mbind result_bind].
  - apply _price_reference; [done| |done]. by eapply Hbill.
  - unfold _price. by rewrite Hv.
Qed.
End whole_order.

(** The price of [code] in an order, when it has lines of that service. *)
Definition order_price (rules : gmap string PriceRule) (lines : list PriceLine) (code : string)
    : option money :=
  if code in? (service_code <$> lines) then
    match service_price rules lines code with Ok m => Some m | Err _ => None end
  else None.

Lemma service_lines_nil code lines :
  filter (λ l, service_code l = code) lines = [] ↔ code ∉ service_code <$> lines.
Proof.
  split.
  - intros Hf Hin. apply list_elem_of_fmap in Hin as (l & -> & Hl).
    assert (l ∈ filter (λ x, service_code x = service_code l) lines) as H
      by by apply list_elem_of_filter.
    rewrite Hf in H. by apply elem_of_nil in H.
  - intros Hin. destruct (filter _ lines) as [|l ls] eqn:Hf; [done|]. destruct Hin.
    assert (l ∈ filter (λ x, service_code x = code) lines) as H by (rewrite Hf; left).
    apply list_elem_of_filter in H as [<- H]. by apply list_elem_of_fmap_2.
Qed.

Lemma price_lines_get rules lines d code :
  billable rules → Z.of_nat (length lines) <= 10 ^ 15 →
  price_lines rules lines = Ok d →
  match dict_get d code with
  | None => code ∉ service_code <$> lines
  | Some r => code ∈ service_code <$> lines ∧ service_price rules lines code = Ok (money_of r)
  end.
Proof.
  intros Hb Hl H. apply price_lines_grouped in H as (_ & qs & Hqs & H).
  pose proof (traverse_dict _ _ _ (grouped_NoDup _ [] (NoDup_nil_2)) H code) as Hd.
  rewrite grouped_get in Hd. cbn [dict_get] in Hd. destruct (group_of rules code lines qs Hqs) as [H1 _].
  destruct (of_service code (zip lines qs)) as [|g gs] eqn:Hg.
  - cbn in H1. rewrite Hd. by apply service_lines_nil.
  - assert (filter (λ l, service_code l = code) lines ≠ []) as Hne by (rewrite <- H1; done).
    destruct Hd as (r & Hr & ->). split.
    + apply dec_stable. intros Hn. by apply service_lines_nil in Hn.
    + rewrite <- (price_group_reference rules lines Hb Hl code qs Hqs Hne), Hg.
      cbn [default app] in Hr. by rewrite Hr.
Qed.

Lemma price_lines_total rules lines :
  billable rules → Z.of_nat (length lines) <= 10 ^ 15 → lines ≠ [] →
  (∀ l, l ∈ lines → ∃ q, checked rules l = Ok q) →
  (∀ l, l ∈ lines → ∃ m, service_price rules lines (service_code l) = Ok m) →
  ∃ d, price_lines rules lines = Ok d.
Proof.
  intros Hb Hlen Hne Hc Hp. setoid_rewrite price_lines_grouped.
  destruct (traverse_total _ _ Hc) as [qs Hqs].
  assert (∃ d, traverse (λ kv, r ← (rule ← require_some (rules !! kv.1) AssertionError; _price rule kv.2);
    Ok (kv.1, r)) (fold_left add_line (zip lines qs) []) = Ok d) as [d Hd]; [|by exists d; eauto].
  apply traverse_total. intros [code grp] Hin.
  apply (dict_elem_get _ _ _ (grouped_NoDup _ [] NoDup_nil_2)) in Hin.
  rewrite grouped_get in Hin. cbn [dict_get] in Hin.
  destruct (group_of rules code lines qs Hqs) as [H1 _].
  destruct (of_service code (zip lines qs)) as [|g gs] eqn:Hg; [done|]. injection Hin as <-.
  assert (filter (λ l, service_code l = code) lines ≠ []) as Hf by (rewrite <- H1; done).
  pose proof (price_group_reference rules lines Hb Hlen code qs Hqs Hf) as Hr.
  assert (code ∈ service_code <$> lines) as Hcode
    by (apply dec_stable; intros Hn; by apply service_lines_nil in Hn).
  apply list_elem_of_fmap in Hcode as (l & -> & Hl). destruct (Hp l Hl) as [m Hm].
  rewrite Hm, Hg in Hr. cbn [fst snd] in *. destruct (require_some _ _) as [rule|e]; [|done].
  cbn [mbind result_bind default app] in *. destruct (_price rule (g :: gs)); [|done]. by eexists.
Qed.

(** C12: an order is priced exactly when it has lines, every line passes its checks and
    every service's lines together have a price; and then each service is charged the
    reference amount of its total quantity: thousandths times price, half up to a whole
    đồng, once per service, with the tier its total falls in and that tier's minimum
    billed quantity.  Rounding to the decimal context's 28 digits never shows. *)
Theorem price_lines_charges rules lines :
  billable rules → Z.of_nat (length lines) <= 10 ^ 15 →
  ((∃ d, price_lines rules lines = Ok d) ↔
   lines ≠ [] ∧ (∀ l, l ∈ lines → ∃ q, checked rules l = Ok q) ∧
   (∀ l, l ∈ lines → ∃ m, service_price rules lines (service_code l) = Ok m)) ∧
  (∀ d, price_lines rules lines = Ok d →
   ∀ code, money_of <$> dict_get d code = order_price rules lines code).
Proof.
  intros Hb Hlen. split; [split|].
  - intros [d Hd]. pose proof Hd as Hg. apply price_lines_grouped in Hg as (Hne & qs & Hqs & _).
    split; [done|]. split.
    + intros l Hl. apply traverse_Forall2 in Hqs. apply list_elem_of_lookup in Hl as [i Hi].
      destruct (Forall2_lookup_l _ _ _ _ _ Hqs Hi) as (q & _ & Hq). eauto.
    + intros l Hl. pose proof (price_lines_get _ _ _ (service_code l) Hb Hlen Hd) as H.
      destruct (dict_get d (service_code l)) as [r|]; [naive_solver|].
      destruct H. by apply list_elem_of_fmap_2.
  - intros (Hne & Hc & Hp). by apply price_lines_total.
  - intros d Hd code. pose proof (price_lines_get _ _ _ code Hb Hlen Hd) as H. unfold order_price.
    destruct (dict_get d code) as [r|].
    + destruct H as [Hin ->]. by rewrite bool_decide_true.
    + by rewrite bool_decide_false.
Qed.

Lemma service_total_perm code l1 l2 : l1 ≡ₚ l2 → service_total code l1 = service_total code l2.
Proof. intros HP. unfold service_total. apply sumZ_perm. by rewrite HP. Qed.

Lemma service_price_perm rules code l1 l2 :
  l1 ≡ₚ l2 → service_price rules l1 code = service_price rules l2 code.
Proof. intros HP. unfold service_price. by rewrite (service_total_perm code l1 l2 HP). Qed.

(** the order in which lines are written does not change a đồng: a permuted order is
    priced if and only if the first one is, with the same services and amounts. *)
Theorem price_lines_order_independent rules l1 l2 d1 :
  billable rules → Z.of_nat (length l1) <= 10 ^ 15 → l1 ≡ₚ l2 →
  price_lines rules l1 = Ok d1 →
  ∃ d2, price_lines rules l2 = Ok d2 ∧
    ∀ code, money_of <$> dict_get d1 code = money_of <$> dict_get d2 code.
Proof.
  intros Hb Hlen HP H1. assert (Z.of_nat (length l2) <= 10 ^ 15) as Hlen2 by by rewrite <- HP.
  assert (∀ code d l, Z.of_nat (length l) <= 10 ^ 15 → price_lines rules l = Ok d →
    money_of <$> dict_get d code = order_price rules l code) as Hget.
  { intros code d l Hl Hd. pose proof (price_lines_get _ _ _ code Hb Hl Hd) as H. unfold order_price.
    destruct (dict_get d code) as [r|]; [destruct H as [Hin ->]; by rewrite bool_decide_true|].
    by rewrite bool_decide_false. }
  destruct (price_lines_total rules l2 Hb Hlen2) as [d2 Hd2].
  - intros ->. apply Permutation_nil_r in HP as ->. by apply price_lines_grouped in H1 as [? _].
  - intros l Hl. rewrite <- HP in Hl. apply price_lines_grouped in H1 as (_ & qs & Hqs & _).
    apply traverse_Forall2 in Hqs. apply list_elem_of_lookup in Hl as [i Hi].
    destruct (Forall2_lookup_l _ _ _ _ _ Hqs Hi) as (q & _ & Hq). eauto.
  - intros l Hl. rewrite <- HP in Hl. rewrite <- (service_price_perm rules _ l1 l2 HP).
    pose proof (price_lines_get _ _ _ (service_code l) Hb Hlen H1) as H.
    destruct (dict_get d1 (service_code l)) as [r|]; [naive_solver|].
    destruct H. by apply list_elem_of_fmap_2.
  - exists d2. split; [done|]. intros code. rewrite (Hget code d1 l1), (Hget code d2 l2) by done.
    unfold order_price. rewrite (service_price_perm rules code l1 l2 HP).
    by rewrite (bool_decide_ext (code ∈ service_code <$> l1) (code ∈ service_code <$> l2)) by (by rewrite HP).
Qed.

(** tiers that pass validation leave no gap: for every quantity from zero up exactly
    one tier is selected -- the first that contains it, every earlier one ending at or
    below it -- and that tier has a valid price, so a tiered service is never refused
    for want of a tier. *)
Theorem validated_tiers_select rule q :
  rule_type rule = PriceRuleType.AGGREGATE_TIER_PER_UNIT →
  _validate_rule rule = Ok tt → is_finite q = true → dec_leb (of_int 0) q = true →
  ∃ pre t post, tiers rule = (pre ++ t :: post)%list ∧
    first_tier 0 q (tiers rule) = Some (length pre, t) ∧ contains q t = true ∧
    Forall (λ t', contains q t' = false) pre ∧ price_ok (tier_unit_price_vnd t).
Proof.
  intros Hrt Hv Hq H0. apply _validate_rule_Ok in Hv. rewrite Hrt in Hv.
  destruct Hv as (final & Hfold & Hfin).
  destruct (tiers_cover _ _ _ q Hfold Hfin eq_refl Hq eq_refl H0) as (t0 & Hin0 & Hc0).
  destruct (first_tier 0 q (tiers rule)) as [[j t]|] eqn:Hsel.
  - apply first_tier_Some in Hsel as (pre & post & Hl & -> & Hc & Hpre). cbn.
    exists pre, t, post. split_and!; try done.
    eapply check_tiers_prices; [exact Hfold|]. rewrite Hl, elem_of_app. right; left.
  - exfalso. assert (∀ i, first_tier i q (tiers rule) = None → ∀ t, t ∈ tiers rule → contains q t = false) as Hnone.
    { clear. induction (tiers rule) as [|x l IH]; intros i H t Ht; [by apply elem_of_nil in Ht|].
      cbn in H. destruct (contains q x) eqn:Hx; [done|].
      apply elem_of_cons in Ht as [->|Ht]; [done|by eapply IH]. }
    by rewrite (Hnone 0%nat Hsel t0 Hin0) in Hc0.
Qed.

(** * A pricebook *)

Definition wash : PriceRule :=
  {| rule_service_code := "WASH"; rule_type := PriceRuleType.AGGREGATE_TIER_PER_UNIT;
     unit_price_vnd := None; range_min_vnd := None; range_max_vnd := None;
     tiers := [ {| minimum_quantity := of_int 0; maximum_quantity_exclusive := Some (of_int 5);
                   tier_unit_price_vnd := 25000; minimum_billable_quantity := Some (of_int 3) |};
                {| minimum_quantity := of_int 5; maximum_quantity_exclusive := None;
                   tier_unit_price_vnd := 22000; minimum_billable_quantity := None |} ];
     rule_unit := Unit.KG |}.
Definition kg (q : string) : PriceLine :=
  {| service_code := "WASH"; quantity := q; line_unit := Unit.KG;
     quantity_basis := QuantityBasis.CUSTOMER_ESTIMATE |}.
Definition pricebook : gmap string PriceRule := {[ "WASH"%string := wash ]}.

Lemma pricebook_billable : billable pricebook.
Proof.
  intros code rule Hr. unfold pricebook in Hr. apply lookup_singleton_Some in Hr as [_ <-].
  intros t Ht. apply elem_of_cons in Ht as [->|Ht].
  - split; [|vm_compute; discriminate]. exists 3, 0. by split_and!.
  - apply elem_of_cons in Ht as [->|Ht]; [|by apply elem_of_nil in Ht].
    split; [|vm_compute; discriminate]. exists 0, 0. by split_and!.
Qed.

(** Two bags of 2.5 kg are a 5 kg order: the second tier's price on their total. *)
Definition two_bags : priced (dict string PriceResult) := price_lines pricebook [kg "2.5"; kg "2.50"].
Definition two_bags_priced : dict string PriceResult := match two_bags with Ok d => d | Err _ => [] end.

Lemma price_lines_charges_witness :
  two_bags = Ok two_bags_priced ∧
  money_of <$> dict_get two_bags_priced "WASH" = Some (total_of 110000).
Proof.
  assert (two_bags = Ok two_bags_priced) as H by (vm_compute; reflexivity).
  split; [exact H|].
  destruct (price_lines_charges pricebook [kg "2.5"; kg "2.50"] pricebook_billable) as [_ Hget];
    [cbn; lia|].
  rewrite (Hget _ H). vm_compute. reflexivity.
Defined.

Lemma price_lines_order_independent_witness :
  ∃ d2, price_lines pricebook [kg "2.50"; kg "2.5"] = Ok d2 ∧
    ∀ code, money_of <$> dict_get two_bags_priced code = money_of <$> dict_get d2 code.
Proof.
  apply (price_lines_order_independent pricebook [kg "2.5"; kg "2.50"]).
  - exact pricebook_billable.
  - cbn. lia.
  - constructor.
  - vm_compute. reflexivity.
Defined.

Lemma validated_tiers_select_witness :
  first_tier 0 (of_int 4) (tiers wash) = head (imap pair (tiers wash)) ∧
  ∃ pre t post, tiers wash = (pre ++ t :: post)%list ∧
    first_tier 0 (of_int 4) (tiers wash) = Some (length pre, t) ∧ contains (of_int 4) t = true ∧
    Forall (λ t', contains (of_int 4) t' = false) pre ∧ price_ok (tier_unit_price_vnd t).
Proof.
  split; [vm_compute; reflexivity|].
  apply (validated_tiers_select wash (of_int 4)); vm_compute; reflexivity.
Defined.

(** * Two places where validation stops short *)

(** The "no further tier" marker is the quantity -1, so a tier written after the
    unbounded one passes validation when it says it begins at -1. *)
Definition marker_tier : PriceTier :=
  {| minimum_quantity := of_int (-1); maximum_quantity_exclusive := None;
     tier_unit_price_vnd := 1; minimum_billable_quantity := None |}.
Example tier_after_the_last_accepted :
  _validate_rule {| rule_service_code := "WASH"; rule_type := PriceRuleType.AGGREGATE_TIER_PER_UNIT;
    unit_price_vnd := None; range_min_vnd := None; range_max_vnd := None;
    tiers := tiers wash ++ [marker_tier]; rule_unit := Unit.KG |} = Ok tt.
Proof. vm_compute. reflexivity. Qed.

(** A minimum billed quantity has no upper limit: here 10^25 units. *)
Definition unbounded_minimum : PriceRule :=
  {| rule_service_code := "WASH"; rule_type := PriceRuleType.AGGREGATE_TIER_PER_UNIT;
     unit_price_vnd := None; range_min_vnd := None; range_max_vnd := None;
     tiers := [ {| minimum_quantity := of_int 0; maximum_quantity_exclusive := None;
                   tier_unit_price_vnd := 25000; minimum_billable_quantity := Some (Finite 1 25) |} ];
     rule_unit := Unit.KG |}.

(** validation lets a price escape as Python's own exception: the rule validates, and
    pricing one kilogram with it raises [decimal.InvalidOperation]. *)
Theorem unbounded_minimum_escapes :
  _validate_rule unbounded_minimum = Ok tt ∧
  price_lines {[ "WASH"%string := unbounded_minimum ]} [kg "1"] = Err InvalidOperation.
Proof. vm_compute. done. Qed.
