(* ===== verification/Allocation.v ===== *)
(** Splitting a whole number of đồng across lines ([promotion.py]'s
    [allocate_largest_remainder]): floors first, then one đồng at a time to the largest
    remainders, ties by line id.  Promotions and remedy credits both split money with
    it; [Proportional] is what they rely on. *)
From S2P Require Import Prelude.
Local Open Scope laundry_scope.
Local Open Scope Z_scope.

Record LargestRemainderAllocation := {
  ordered_ids : list string;
  floor_allocations_vnd : list Z;
  remainders : list Z;
  remainder_award_order : list string;
  final_allocations_vnd : list Z;
}.

(** [l[:n]] for any integer [n]: a negative bound counts from the end. *)
Definition py_take {A} (n : Z) (l : list A) : list A :=
  if n <? 0 then take (Z.to_nat (Z.of_nat (length l) + n)) l else take (Z.to_nat n) l.

Definition id_leb (a b : string * Z) : bool := String.leb a.1 b.1.

(** The key [(-remainders[index], ordered[index][0])], compared as Python compares
    tuples; [ids] and [rems] are read at two valid indexes. *)
Definition award_leb (ids : list string) (rems : list Z) (i j : nat) : bool :=
  let ri := nth i rems 0 in
  let rj := nth j rems 0 in
  (rj <? ri) || ((ri =? rj) && String.leb (nth i ids "") (nth j ids "")).

Definition allocate_largest_remainder (weights : list (string * Z))
    (multiplier denominator total_vnd : Z) : LargestRemainderAllocation :=
  let ordered := stable_sort id_leb weights in
  let floor_allocations := (λ w, w.2 * multiplier / denominator) <$> ordered in
  let remainders := (λ w, (w.2 * multiplier) mod denominator) <$> ordered in
  let awards_needed := total_vnd - sumZ floor_allocations in
  let award_indexes := py_take awards_needed
    (stable_sort (award_leb ordered.*1 remainders) (seq 0 (length ordered))) in
  let final_allocations :=
    imap (λ i f, if i in? award_indexes then f + 1 else f) floor_allocations in
  {| ordered_ids := ordered.*1;
     floor_allocations_vnd := floor_allocations;
     remainders := remainders;
     remainder_award_order := (λ i, nth i ordered.*1 "") <$> award_indexes;
     final_allocations_vnd := final_allocations |}.

(** The docstring's example: 33,333 đồng over three equal lines. *)
Example three_shirts :
  final_allocations_vnd (allocate_largest_remainder
    [("c", 111111); ("a", 111111); ("b", 111111)]%string 33333 333333 33333) = [11111; 11111; 11111].
Proof. reflexivity. Qed.
Example odd_dong :
  final_allocations_vnd (allocate_largest_remainder
    [("c", 10); ("a", 10); ("b", 10)]%string 20 30 20) = [7; 7; 6].
Proof. reflexivity. Qed.

(** * The award order *)

Lemma id_leb_trans a b c : id_leb a b = true → id_leb b c = true → id_leb a c = true.
Proof.
  unfold id_leb. intros H1 H2.
  apply Is_true_eq_true. transitivity b.1; by apply Is_true_eq_left.
Qed.

Lemma leb_total_bool s1 s2 : String.leb s1 s2 = false → String.leb s2 s1 = true.
Proof. destruct (String.leb_total s1 s2); congruence. Qed.

Lemma id_leb_total a b : id_leb a b = false → id_leb b a = true.
Proof. apply leb_total_bool. Qed.

Section award_order.
Context (ids : list string) (rems : list Z).

Lemma award_leb_rem i j : award_leb ids rems i j = true → nth j rems 0 <= nth i rems 0.
Proof. unfold award_leb. intros [?%Z.ltb_lt|[?%Z.eqb_eq _]%andb_true_iff]%orb_true_iff; lia. Qed.

Lemma award_leb_total i j : award_leb ids rems i j = false → award_leb ids rems j i = true.
Proof.
  unfold award_leb. intros [?%Z.ltb_ge H]%orb_false_iff.
  destruct (Z.ltb_spec (nth i rems 0) (nth j rems 0)); [done|].
  replace (nth i rems 0 =? nth j rems 0) with true in H by lia.
  replace (nth j rems 0 =? nth i rems 0) with true by lia. by apply leb_total_bool.
Qed.

Lemma award_leb_trans i j k :
  award_leb ids rems i j = true → award_leb ids rems j k = true → award_leb ids rems i k = true.
Proof.
  unfold award_leb.
  intros [?%Z.ltb_lt|[?%Z.eqb_eq Hs]%andb_true_iff]%orb_true_iff
    [?%Z.ltb_lt|[?%Z.eqb_eq Hs']%andb_true_iff]%orb_true_iff;
    apply orb_true_iff; try (left; apply Z.ltb_lt; lia).
  right. apply andb_true_iff. split; [apply Z.eqb_eq; lia|].
  by apply (id_leb_trans (nth i ids "", 0) (nth j ids "", 0) (nth k ids "", 0)).
Qed.
End award_order.

(** * Sums over award indexes *)

Lemma sumZ_imap_add (b : nat → Z) l : ∀ off,
  sumZ (imap (λ i f, f + b (off + i)%nat) l) = sumZ l + sumZ (b <$> seq off (length l)).
Proof.
  induction l as [|f l IH]; intros off; [done|].
  cbn [imap length seq fmap list_fmap]. rewrite !sumZ_cons, Nat.add_0_r.
  assert (imap ((λ i f0, f0 + b (off + i)%nat) ∘ S) l = imap (λ i f0, f0 + b (S off + i)%nat) l) as ->.
  { apply imap_ext. intros i x _. cbn. do 2 f_equal. lia. }
  rewrite IH. lia.
Qed.

Lemma sumZ_nth l : sumZ ((λ i, nth i l 0) <$> seq 0 (length l)) = sumZ l.
Proof.
  induction l as [|x l IH]; [done|].
  cbn [length seq fmap list_fmap]. rewrite !sumZ_cons, <- fmap_S_seq, <- list_fmap_compose. f_equal.
  exact IH.
Qed.

(** At most [c] for each positive entry. *)
Lemma sumZ_positive (g : nat → Z) c l :
  0 <= c → Forall (λ i, 0 <= g i <= c) l →
  sumZ (g <$> l) <= c * Z.of_nat (length (filter (λ i, 0 < g i) l)).
Proof.
  intros Hc. induction 1 as [|i l Hi Hl IH]; [cbn; lia|].
  cbn [fmap list_fmap]. rewrite sumZ_cons, filter_cons. case_decide; cbn [length]; lia.
Qed.

Lemma sumZ_const (b : nat → Z) v l : Forall (λ i, b i = v) l → sumZ (b <$> l) = v * Z.of_nat (length l).
Proof.
  induction 1 as [|i l Hi Hl IH]; [cbn; lia|].
  cbn [fmap list_fmap length]. rewrite sumZ_cons. lia.
Qed.

Section shares.
Context (weights : list (string * Z)) (multiplier denominator total : Z).
Hypothesis Hd : 0 < denominator.
(** The total is within half a đồng of the exact amount. *)
Hypothesis Htotal : 2 * Z.abs (denominator * total - multiplier * sumZ weights.*2) <= denominator.

Let ordered := stable_sort id_leb weights.
Let floors := (λ w, w.2 * multiplier / denominator) <$> ordered.
Let rems := (λ w, (w.2 * multiplier) mod denominator) <$> ordered.
Let n := length ordered.
Let order := stable_sort (award_leb ordered.*1 rems) (seq 0 n).
Let awards := total - sumZ floors.
Let awarded := take (Z.to_nat awards) order.

Lemma ordered_perm : ordered ≡ₚ weights.
Proof. apply stable_sort_perm. Qed.

Lemma order_perm : order ≡ₚ seq 0 n.
Proof. apply stable_sort_perm. Qed.

Lemma length_rems : length rems = n.
Proof. unfold rems, n. by rewrite length_fmap. Qed.

Lemma rems_range i : 0 <= nth i rems 0 <= denominator - 1.
Proof.
  destruct (decide (i < n)%nat) as [Hi|Hi].
  - assert (nth i rems 0 ∈ rems) as Hin.
    { rewrite list_elem_of_In. apply nth_In. by rewrite length_rems. }
    apply list_elem_of_fmap in Hin as (w & -> & _).
    pose proof (Z.mod_pos_bound (w.2 * multiplier) denominator Hd). lia.
  - rewrite nth_overflow; [lia|]. rewrite length_rems. lia.
Qed.

(** Floors and remainders together are the exact amount. *)
Lemma floors_and_rems : denominator * sumZ floors + sumZ rems = multiplier * sumZ weights.*2.
Proof.
  unfold floors, rems. rewrite <- (sumZ_perm _ _ (fmap_Permutation snd _ _ ordered_perm)).
  induction ordered as [|w l IH]; [cbn; lia|]. rewrite !fmap_cons, !sumZ_cons.
  pose proof (Z.div_mod (w.2 * multiplier) denominator ltac:(lia)). cbv zeta in IH. nia.
Qed.

Lemma awards_range :
  0 <= awards <= Z.of_nat (length (filter (λ i, 0 < nth i rems 0) order)).
Proof.
  pose proof floors_and_rems as Hf.
  assert (0 <= sumZ rems) as Hr0.
  { apply sumZ_nonneg, Forall_fmap, Forall_true. intros w. cbn.
    pose proof (Z.mod_pos_bound (w.2 * multiplier) denominator Hd). lia. }
  pose proof (sumZ_positive (λ i, nth i rems 0) (denominator - 1) order) as Hk.
  rewrite (sumZ_perm _ _ (fmap_Permutation (λ i, nth i rems 0) _ _ order_perm)) in Hk.
  rewrite <- length_rems, sumZ_nth in Hk.
  specialize (Hk ltac:(lia)). rewrite Forall_forall in Hk.
  specialize (Hk (λ i _, rems_range i)).
  set (k := Z.of_nat (length (filter (λ i, 0 < nth i rems 0) order))) in *.
  unfold awards. set (short := total - sumZ floors).
  assert (denominator * short = denominator * total - multiplier * sumZ weights.*2 + sumZ rems) as Hs
    by (unfold short; lia).
  assert (0 <= k) by (unfold k; lia). clearbody k short.
  split; nia.
Qed.

Lemma awarded_split : order = (awarded ++ drop (Z.to_nat awards) order)%list.
Proof. symmetry. apply take_drop. Qed.

Lemma awarded_first i j :
  i ∈ awarded → j ∈ order → j ∉ awarded → award_leb ordered.*1 rems i j = true.
Proof.
  intros Hi Hj Hnj. rewrite awarded_split, elem_of_app in Hj. destruct Hj as [|Hj]; [done|].
  apply (StronglySorted_app_1_elem_of (λ a b, award_leb ordered.*1 rems a b = true) awarded
           (drop (Z.to_nat awards) order)); [|done|done].
  rewrite <- awarded_split. apply stable_sort_sorted.
  - apply award_leb_total.
  - apply award_leb_trans.
Qed.

(** A đồng goes only to a line that had a fraction left. *)
Lemma awarded_positive i : i ∈ awarded → 0 < nth i rems 0.
Proof.
  intros Hi. destruct (decide (0 < nth i rems 0)) as [|Hz]; [done|exfalso].
  pose proof awards_range as [H0 Hk]. pose proof (rems_range i).
  rewrite awarded_split, filter_app in Hk. rewrite length_app in Hk.
  assert (filter (λ i, 0 < nth i rems 0) (drop (Z.to_nat awards) order) = []) as Hnil.
  { apply elem_of_nil_inv. intros j Hj. apply list_elem_of_filter in Hj as [Hp Hj].
    assert (award_leb ordered.*1 rems i j = true) as Hij%award_leb_rem; [|lia].
    apply (StronglySorted_app_1_elem_of (λ a b, award_leb ordered.*1 rems a b = true) awarded
             (drop (Z.to_nat awards) order)); [|done|done].
    rewrite <- awarded_split. apply stable_sort_sorted; [apply award_leb_total|apply award_leb_trans]. }
  rewrite Hnil in Hk. change (length []) with 0%nat in Hk.
  assert (length (filter (λ i, (0 < nth i rems 0)%Z) awarded) < length awarded)%nat
    by by eapply length_filter_lt.
  pose proof (length_take order (Z.to_nat awards)). unfold awarded in *. lia.
Qed.
Lemma py_take_awards : py_take awards order = awarded.
Proof. unfold py_take. pose proof awards_range. by replace (awards <? 0) with false by lia. Qed.

Lemma length_awarded : Z.of_nat (length awarded) = awards.
Proof.
  pose proof awards_range as [H0 Hk]. unfold awarded. rewrite length_take.
  pose proof (length_filter (λ i, 0 < nth i rems 0) order). lia.
Qed.

Let share (i : nat) (f : Z) : Z := if i in? awarded then f + 1 else f.

Lemma final_allocations_eq :
  final_allocations_vnd (allocate_largest_remainder weights multiplier denominator total)
  = imap share floors.
Proof. unfold share. rewrite <- py_take_awards. reflexivity. Qed.

Let bonus (i : nat) : Z := if i in? awarded then 1 else 0.

Lemma shares_sum : sumZ (imap share floors) = total.
Proof.
  assert (imap share floors
    = imap (λ i f, f + bonus (0 + i)%nat) floors) as ->.
  { apply imap_ext. intros i f _. unfold share, bonus. cbn. case_bool_decide; lia. }
  rewrite (sumZ_imap_add bonus floors 0).
  assert (length floors = n) as -> by (unfold floors, n; by rewrite length_fmap).
  rewrite <- (sumZ_perm _ _ (fmap_Permutation _ _ _ order_perm)), awarded_split, fmap_app, sumZ_app.
  assert (NoDup (awarded ++ drop (Z.to_nat awards) order)) as Hnd
    by (rewrite <- awarded_split, order_perm; apply NoDup_seq).
  apply NoDup_app in Hnd as (_ & Hdis & _).
  rewrite (sumZ_const _ 1 awarded), (sumZ_const _ 0 (drop _ _)), length_awarded; [unfold awards; lia| |].
  - apply Forall_forall. intros i Hi. unfold bonus. rewrite bool_decide_false; [done|]. intros Ha. by apply (Hdis i).
  - apply Forall_forall. intros i Hi. unfold bonus. by rewrite bool_decide_true.
Qed.

(** Each share is the exact one rounded to one of its two neighbours. *)
Lemma share_close i w :
  ordered !! i = Some w →
  ∃ f, imap share floors !! i = Some f ∧ w.2 * multiplier / denominator <= f ∧
    f * denominator < w.2 * multiplier + denominator ∧ w.2 * multiplier < f * denominator + denominator.
Proof.
  intros Hi. rewrite list_lookup_imap. unfold floors. rewrite list_lookup_fmap, Hi. cbn.
  eexists. split; [done|]. unfold share.
  pose proof (Z.div_mod (w.2 * multiplier) denominator ltac:(lia)).
  pose proof (Z.mod_pos_bound (w.2 * multiplier) denominator Hd).
  case_bool_decide as Ha; [|nia].
  apply awarded_positive in Ha.
  assert (nth i rems 0 = (w.2 * multiplier) mod denominator) as Hr.
  { apply nth_lookup_Some. unfold rems. by rewrite list_lookup_fmap, Hi. }
  rewrite Hr in Ha. nia.
Qed.

Lemma shares_fair i j fi fj wi wj :
  ordered !! i = Some wi → ordered !! j = Some wj →
  imap share floors !! i = Some fi → imap share floors !! j = Some fj →
  fi = wi.2 * multiplier / denominator + 1 → fj = wj.2 * multiplier / denominator →
  (wj.2 * multiplier) mod denominator <= (wi.2 * multiplier) mod denominator.
Proof.
  intros Hi Hj Hfi Hfj Efi Efj. rewrite list_lookup_imap in Hfi, Hfj. unfold floors in Hfi, Hfj.
  rewrite list_lookup_fmap, Hi in Hfi. rewrite list_lookup_fmap, Hj in Hfj. cbn in Hfi, Hfj.
  injection Hfi as Hfi. injection Hfj as Hfj. unfold share in Hfi, Hfj.
  case_bool_decide as Haj; [lia|]. case_bool_decide as Hai; [|lia].
  assert (j ∈ order) as Hjo.
  { rewrite order_perm. apply elem_of_seq. apply lookup_lt_Some in Hj. unfold n. lia. }
  apply (awarded_first i j Hai Hjo), award_leb_rem in Haj.
  assert (∀ k w, ordered !! k = Some w → nth k rems 0 = (w.2 * multiplier) mod denominator) as Hr.
  { intros k w Hk. apply nth_lookup_Some. unfold rems. by rewrite list_lookup_fmap, Hk. }
  by rewrite (Hr i wi Hi), (Hr j wj Hj) in Haj.
Qed.
End shares.

(** * What its callers rely on *)

(** A way of splitting money by weight: the shares are the ids' in id order, sum to the
    total, and each is the exact share rounded to one of its two neighbours. *)
Class Proportional (split : list (string * Z) → Z → Z → Z → list (string * Z)) := {
  split_ids weights m d total : (split weights m d total).*1 ≡ₚ weights.*1;
  split_sum weights m d total :
    0 < d → 2 * Z.abs (d * total - m * sumZ weights.*2) <= d →
    sumZ (split weights m d total).*2 = total;
  split_close weights m d total k share :
    0 < d → 2 * Z.abs (d * total - m * sumZ weights.*2) <= d →
    (k, share) ∈ split weights m d total →
    ∃ w, (k, w) ∈ weights ∧ w * m / d <= share ∧
         share * d < w * m + d ∧ w * m < share * d + d;
  split_perm w1 w2 m d total :
    NoDup w1.*1 → w1 ≡ₚ w2 → split w1 m d total = split w2 m d total;
}.

(** [dict(zip(ordered_ids, final_allocations_vnd))]. *)
Definition allocation_pairs (weights : list (string * Z)) (m d total : Z) : list (string * Z) :=
  let a := allocate_largest_remainder weights m d total in
  zip (ordered_ids a) (final_allocations_vnd a).

Lemma length_final weights m d total :
  length (final_allocations_vnd (allocate_largest_remainder weights m d total)) = length weights.
Proof. cbn. by rewrite length_imap, length_fmap, stable_sort_length. Qed.

Lemma pairs_ids weights m d total :
  (allocation_pairs weights m d total).*1 = (stable_sort id_leb weights).*1.
Proof.
  unfold allocation_pairs. apply fst_zip. rewrite length_final. cbn.
  by rewrite length_fmap, stable_sort_length.
Qed.

Lemma pairs_shares weights m d total :
  (allocation_pairs weights m d total).*2
  = final_allocations_vnd (allocate_largest_remainder weights m d total).
Proof.
  unfold allocation_pairs. apply snd_zip. rewrite length_final. cbn.
  by rewrite length_fmap, stable_sort_length.
Qed.

(** Sorting by id forgets the order the lines came in. *)
Lemma sort_by_id_perm w1 w2 :
  NoDup w1.*1 → w1 ≡ₚ w2 → stable_sort id_leb w1 = stable_sort id_leb w2.
Proof.
  intros Hnd HP. apply (StronglySorted_unique (λ a b, id_leb a b = true)).
  - intros [x a] [y b] Hx Hy Hxy Hyx. unfold id_leb in *. cbn in *.
    assert (x = y) as -> by by apply String.leb_antisym.
    rewrite stable_sort_perm in Hx, Hy. f_equal.
    apply (dict_elem_get (V := Z) w1 y a) in Hx; [|done]. apply (dict_elem_get (V := Z) w1 y b) in Hy; [|done].
    congruence.
  - apply stable_sort_sorted; [apply id_leb_total|apply id_leb_trans].
  - apply stable_sort_sorted; [apply id_leb_total|apply id_leb_trans].
  - by rewrite !stable_sort_perm.
Qed.

#[export] Instance allocation_proportional : Proportional allocation_pairs.
Proof.
  split.
  - intros weights m d total. rewrite pairs_ids. by rewrite stable_sort_perm.
  - intros weights m d total Hd Ht. rewrite pairs_shares, final_allocations_eq by done.
    by apply shares_sum.
  - intros weights m d total k x Hd Ht Hin. unfold allocation_pairs in Hin.
    rewrite (final_allocations_eq _ _ _ _ Hd Ht) in Hin.
    apply list_elem_of_lookup in Hin as [i Hi]. apply lookup_zip_Some in Hi as [Hk Hx].
    cbn in Hk. rewrite list_lookup_fmap in Hk.
    destruct (stable_sort id_leb weights !! i) as [w|] eqn:Hw; [|done]. injection Hk as <-.
    destruct (share_close weights m d total Hd Ht i w Hw) as (f & Hf & H1 & H2 & H3).
    rewrite Hf in Hx. injection Hx as <-. exists w.2. split_and!; [|done..].
    rewrite <- (stable_sort_perm id_leb weights). rewrite <- surjective_pairing.
    by eapply list_elem_of_lookup_2.
  - intros w1 w2 m d total Hnd HP. unfold allocation_pairs, allocate_largest_remainder.
    by rewrite (sort_by_id_perm w1 w2 Hnd HP).
Qed.

(** splitting money loses and invents nothing and is as fair as whole đồng allow:
    when the total is within half a đồng of the exact amount, the shares sum to exactly
    the total, each share is its exact share rounded down or up (and unrounded when
    exact), and a line gets the extra đồng only if its remainder is at least that of
    every line that does not. *)
Theorem allocate_largest_remainder_fair weights m d total :
  0 < d → 2 * Z.abs (d * total - m * sumZ weights.*2) <= d →
  let a := allocate_largest_remainder weights m d total in
  let ordered := stable_sort id_leb weights in
  sumZ (final_allocations_vnd a) = total ∧
  (∀ i w, ordered !! i = Some w →
     ∃ f, final_allocations_vnd a !! i = Some f ∧ w.2 * m / d <= f ∧
          f * d < w.2 * m + d ∧ w.2 * m < f * d + d) ∧
  (∀ i j wi wj fi fj, ordered !! i = Some wi → ordered !! j = Some wj →
     final_allocations_vnd a !! i = Some fi → final_allocations_vnd a !! j = Some fj →
     fi = wi.2 * m / d + 1 → fj = wj.2 * m / d → (wj.2 * m) mod d <= (wi.2 * m) mod d).
Proof.
  intros Hd Ht. cbv zeta. rewrite final_allocations_eq by done. split_and!.
  - by apply shares_sum.
  - by apply share_close.
  - intros i j wi wj fi fj. exact (shares_fair weights m d total i j fi fj wi wj).
Qed.

Lemma allocate_largest_remainder_fair_witness :
  sumZ (final_allocations_vnd (allocate_largest_remainder
    [("c", 10); ("a", 10); ("b", 10)]%string 20 30 20)) = 20.
Proof.
  destruct (allocate_largest_remainder_fair [("c", 10); ("a", 10); ("b", 10)]%string 20 30 20)
    as [H _]; [lia|vm_compute; discriminate|exact H].
Defined.

(** the same lines in another order are split identically, trace included: the
    allocation depends on the ids, not on the order the lines were written in. *)
Theorem allocate_order_independent w1 w2 m d total :
  NoDup w1.*1 → w1 ≡ₚ w2 →
  allocate_largest_remainder w1 m d total = allocate_largest_remainder w2 m d total.
Proof.
  intros Hnd HP. unfold allocate_largest_remainder. by rewrite (sort_by_id_perm w1 w2 Hnd HP).
Qed.

Lemma allocate_order_independent_witness :
  allocate_largest_remainder [("c", 10); ("a", 10)]%string 7 20 7
  = allocate_largest_remainder [("a", 10); ("c", 10)]%string 7 20 7.
Proof.
  apply allocate_order_independent; [decided|constructor].
Defined.
