(* ===== verification/Promotion.v ===== *)
(** Promotion decisions ([promotion.py]): which lines of an order a programme touches,
    how much each rate group is discounted, and whether a person must decide. *)
From Stdlib Require Import String.
From S2P Require Import Prelude Catalog Clock Allocation.
Local Open Scope laundry_scope.
Local Open Scope string_scope.
Local Open Scope Z_scope.

Definition MAX_BIGINT_VND : Z := 9223372036854775807.
Definition RATE_DENOMINATOR : Z := 10000.
Definition LARGEST_REMAINDER_RULE := "ROUND_HALF_UP_1_VND_THEN_LARGEST_REMAINDER_LINE_ID_ASC".

Module PromotionReason.
Inductive t :=
  | PROMOTION_APPLIED | PROMOTION_OUTSIDE_INTERVAL | PROMOTION_NOT_TARGETED
  | PROMOTION_TARGET_REQUIRES_HUMAN | PROMOTION_STACKING_REQUIRES_HUMAN
  | PROMOTION_ELIGIBILITY_UNRESOLVED.
#[export] Instance eq_dec : EqDecision t.
Proof. solve_decision. Defined.
End PromotionReason.
#[export] Existing Instance PromotionReason.eq_dec.

(** [PromotionError] carries a code; an [assert] that fails is Python's own. *)
Inductive PromotionFailure :=
| PromotionError (code : ErrorCode.t)
| AssertionError.
#[export] Instance promotion_failure_eq_dec : EqDecision PromotionFailure.
Proof. solve_decision. Defined.
Abbreviation promoted A := (result PromotionFailure A).
Definition validation_error : PromotionFailure := PromotionError ErrorCode.VALIDATION_ERROR.

Record PromotionPolicy := {
  code : string;
  start_at : datetime;
  end_at_exclusive : datetime;
  timezone : string;
  policy_event : option PromotionEligibilityEvent.t;
  stacking_allowed : bool;
}.

Record PromotionLine := {
  line_id : string;
  list_amount_vnd : Z;
  resolution : PromotionResolution.t;
  rate_bps : option Z;
}.

Record PromotionLineAdjustment := {
  adj_line_id : string;
  adj_list_amount_vnd : Z;
  adj_rate_bps : option Z;
  discount_vnd : Z;
  net_amount_vnd : Z;
  adj_resolution : PromotionResolution.t;
}.

Record PromotionAllocationTrace := {
  trace_rate_bps : Z;
  eligible_line_ids : list string;
  eligible_subtotal_vnd : Z;
  exact_discount_numerator : Z;
  exact_discount_denominator : Z;
  rounded_discount_vnd : Z;
  allocation : LargestRemainderAllocation;
}.

Record PromotionCalculationTrace := {
  policy_code : string;
  interval_start_at : datetime;
  interval_end_at_exclusive : datetime;
  configured_eligibility_event : option PromotionEligibilityEvent.t;
  observed_eligibility_event : option PromotionEligibilityEvent.t;
  observed_eligibility_at : option datetime;
  candidate_reference_at : datetime;
  candidate_inside_interval : bool;
  eligibility_resolved : bool;
  allocation_groups : list PromotionAllocationTrace;
  rounding : string;
  delivery_discount_vnd : Z;
}.

Record PromotionResult := {
  status : PromotionStatus.t;
  outcome : PolicyOutcome.t;
  list_service_subtotal_vnd : Z;
  eligible_service_subtotal_vnd : Z;
  discount_amount_vnd : Z;
  net_service_subtotal_vnd : Z;
  delivery_fee_vnd : Z;
  display_total_vnd : Z;
  eligibility_event : option PromotionEligibilityEvent.t;
  eligibility_at : option datetime;
  adjustments : list PromotionLineAdjustment;
  reason_codes : list PromotionReason.t;
  trace : PromotionCalculationTrace;
}.

(** * Validation *)

Definition _require_aware (v : datetime) : promoted unit := raise_if (negb (aware v)) validation_error.
Definition _require_vnd (v : Z) : promoted unit :=
  raise_if (negb ((0 <=? v) && (v <=? MAX_BIGINT_VND))) validation_error.
Definition _checked_add (first second : Z) : promoted Z :=
  raise_if (MAX_BIGINT_VND <? first + second) validation_error ;; Ok (first + second).

Definition _validate_policy (p : PromotionPolicy) : promoted unit :=
  raise_if ((code p is? "") || negb (timezone p is? "Asia/Ho_Chi_Minh")) validation_error ;;
  _require_aware (start_at p) ;;
  _require_aware (end_at_exclusive p) ;;
  raise_if (dt_leb (end_at_exclusive p) (start_at p)) validation_error.

Definition _validate_line (line : PromotionLine) (seen_line_ids : list string) : promoted unit :=
  raise_if ((line_id line is? "") || (line_id line in? seen_line_ids)) validation_error ;;
  _require_vnd (list_amount_vnd line) ;;
  if resolution line is? PromotionResolution.NOT_ELIGIBLE then
    raise_if (bool_decide (is_Some (rate_bps line))) validation_error
  else
    raise_if (match rate_bps line with
              | None => true
              | Some r => negb ((0 <? r) && (r <=? RATE_DENOMINATOR))
              end) validation_error.

(** One pass of the validation loop: the ids seen and the subtotal so far. *)
Definition validate_pass (acc : list string * Z) (line : PromotionLine) : promoted (list string * Z) :=
  _validate_line line acc.1 ;;
  subtotal ← _checked_add acc.2 (list_amount_vnd line);
  Ok (line_id line :: acc.1, subtotal).

(** * Discounts *)

Definition _allocate_group (lines : list PromotionLine) (rate : Z)
    : dict string Z * PromotionAllocationTrace :=
  let subtotal := sumZ (list_amount_vnd <$> lines) in
  let numerator := subtotal * rate in
  let rounded_group_discount := (numerator + RATE_DENOMINATOR / 2) / RATE_DENOMINATOR in
  let weights := (λ l, (line_id l, list_amount_vnd l)) <$> lines in
  let a := allocate_largest_remainder weights rate RATE_DENOMINATOR rounded_group_discount in
  (zip (ordered_ids a) (final_allocations_vnd a),
   {| trace_rate_bps := rate; eligible_line_ids := ordered_ids a;
      eligible_subtotal_vnd := subtotal; exact_discount_numerator := numerator;
      exact_discount_denominator := RATE_DENOMINATOR;
      rounded_discount_vnd := rounded_group_discount; allocation := a |}).

(** One pass of the grouping loop over [grouped] and the eligible subtotal. *)
Definition group_pass (acc : dict Z (list PromotionLine) * Z) (line : PromotionLine)
    : promoted (dict Z (list PromotionLine) * Z) :=
  if resolution line is? PromotionResolution.AUTO_IF_TARGETED then
    rate ← require_some (rate_bps line) AssertionError;
    subtotal ← _checked_add acc.2 (list_amount_vnd line);
    Ok (dict_alter (λ old, (default [] old ++ [line])%list) rate acc.1, subtotal)
  else Ok acc.

(** [d.update(other)]. *)
Definition dict_update {V} (d other : dict string V) : dict string V :=
  fold_left (λ d kv, dict_alter (λ _, kv.2) kv.1 d) other d.

Definition allocate_groups (grouped : dict Z (list PromotionLine))
    : dict string Z * list PromotionAllocationTrace :=
  fold_left (λ acc rate,
      let group := _allocate_group (default [] (dict_get grouped rate)) rate in
      (dict_update acc.1 group.1, (acc.2 ++ [group.2])%list))
    (stable_sort Z.leb grouped.*1) ([], []).

Definition adjustment (allocations : dict string Z) (line : PromotionLine) : PromotionLineAdjustment :=
  let d := default 0 (dict_get allocations (line_id line)) in
  {| adj_line_id := line_id line; adj_list_amount_vnd := list_amount_vnd line;
     adj_rate_bps := rate_bps line; discount_vnd := d;
     net_amount_vnd := list_amount_vnd line - d; adj_resolution := resolution line |}.

(** * The decision *)

Record Decision := { d_status : PromotionStatus.t; d_outcome : PolicyOutcome.t;
                     d_reasons : list PromotionReason.t }.

Definition first_decision (relevant resolved inside has_human stacking_blocked : bool) : Decision :=
  if negb relevant then
    {| d_status := PromotionStatus.NOT_APPLICABLE; d_outcome := PolicyOutcome.ALLOW;
       d_reasons := [PromotionReason.PROMOTION_NOT_TARGETED] |}
  else if negb resolved then
    {| d_status := PromotionStatus.PROVISIONAL; d_outcome := PolicyOutcome.REQUIRE_HUMAN;
       d_reasons := [PromotionReason.PROMOTION_ELIGIBILITY_UNRESOLVED] |}
  else if negb inside then
    {| d_status := PromotionStatus.INELIGIBLE; d_outcome := PolicyOutcome.ALLOW;
       d_reasons := [PromotionReason.PROMOTION_OUTSIDE_INTERVAL] |}
  else if has_human || stacking_blocked then
    {| d_status := PromotionStatus.REQUIRES_HUMAN; d_outcome := PolicyOutcome.REQUIRE_HUMAN;
       d_reasons := [] |}
  else {| d_status := PromotionStatus.ELIGIBLE; d_outcome := PolicyOutcome.ALLOW; d_reasons := [] |}.

Definition decide_promotion (relevant resolved inside has_human stacking_blocked : bool) (discount : Z)
    : Decision :=
  let d := first_decision relevant resolved inside has_human stacking_blocked in
  let d := if inside && has_human then
      {| d_status := d_status d; d_outcome := d_outcome d;
         d_reasons := d_reasons d ++ [PromotionReason.PROMOTION_TARGET_REQUIRES_HUMAN] |}
    else d in
  let d := if inside && stacking_blocked then
      {| d_status :=
           if d_status d in? [PromotionStatus.PROVISIONAL; PromotionStatus.NOT_APPLICABLE]
           then d_status d else PromotionStatus.REQUIRES_HUMAN;
         d_outcome := PolicyOutcome.REQUIRE_HUMAN;
         d_reasons := d_reasons d ++ [PromotionReason.PROMOTION_STACKING_REQUIRES_HUMAN] |}
    else d in
  if discount =? 0 then d
  else {| d_status := d_status d; d_outcome := d_outcome d;
          d_reasons := d_reasons d ++ [PromotionReason.PROMOTION_APPLIED] |}.

Definition inside (p : PromotionPolicy) (at_ : datetime) : bool :=
  dt_leb (start_at p) at_ && dt_ltb at_ (end_at_exclusive p).

Definition evaluate_promotion (policy : PromotionPolicy) (lines : list PromotionLine)
    (evaluation_at : datetime) (event : option PromotionEligibilityEvent.t)
    (event_at : option datetime) (delivery_fee : Z) (other_promotion_present : bool)
    : promoted PromotionResult :=
  _validate_policy policy ;;
  _require_aware evaluation_at ;;
  (match event_at with Some at_ => _require_aware at_ | None => Ok tt end) ;;
  _require_vnd delivery_fee ;;
  raise_if (length lines =? 0)%nat (PromotionError ErrorCode.MISSING_REQUIRED_FACT) ;;
  validated ← fold_result validate_pass ([], 0) lines;
  let list_subtotal := validated.2 in
  let has_auto := existsb (λ l, resolution l is? PromotionResolution.AUTO_IF_TARGETED) lines in
  let has_human := existsb (λ l, resolution l is? PromotionResolution.HUMAN_CONFIRM) lines in
  let reference_at := default evaluation_at event_at in
  let inside_interval := inside policy reference_at in
  let resolved :=
    bool_decide (is_Some (policy_event policy)) && (event is? policy_event policy)
    && bool_decide (is_Some event_at) in
  let relevant := has_auto || has_human in
  let apply_candidate := relevant && inside_interval in
  grouped ← (if apply_candidate then fold_result group_pass ([], 0) lines else Ok ([], 0));
  let '(allocations, group_traces) := allocate_groups grouped.1 in
  let discount := sumZ allocations.*2 in
  raise_if (list_subtotal <? discount) validation_error ;;
  let net_subtotal := list_subtotal - discount in
  display_total ← _checked_add net_subtotal delivery_fee;
  let d := decide_promotion relevant resolved inside_interval has_human
             (other_promotion_present && negb (stacking_allowed policy)) discount in
  Ok {| status := d_status d; outcome := d_outcome d;
        list_service_subtotal_vnd := list_subtotal;
        eligible_service_subtotal_vnd := grouped.2;
        discount_amount_vnd := discount;
        net_service_subtotal_vnd := net_subtotal;
        delivery_fee_vnd := delivery_fee;
        display_total_vnd := display_total;
        eligibility_event := if resolved then event else None;
        eligibility_at := if resolved then event_at else None;
        adjustments := adjustment allocations <$> lines;
        reason_codes := d_reasons d;
        trace :=
          {| policy_code := code policy;
             interval_start_at := start_at policy;
             interval_end_at_exclusive := end_at_exclusive policy;
             configured_eligibility_event := policy_event policy;
             observed_eligibility_event := event;
             observed_eligibility_at := event_at;
             candidate_reference_at := reference_at;
             candidate_inside_interval := inside_interval;
             eligibility_resolved := resolved;
             allocation_groups := group_traces;
             rounding := LARGEST_REMAINDER_RULE;
             delivery_discount_vnd := 0 |} |}.

(** The programme of the eval fixtures and an order under it. *)
Definition july : PromotionPolicy :=
  {| code := "PROMO_WET30_DRY40_20260717_20260831";
     start_at := midnight 20651 HO_CHI_MINH; end_at_exclusive := midnight 20697 HO_CHI_MINH;
     timezone := "Asia/Ho_Chi_Minh";
     policy_event := Some PromotionEligibilityEvent.STORE_COMMERCIAL_ACCEPTED;
     stacking_allowed := false |}.
Definition shirt (id : string) (amount rate : Z) : PromotionLine :=
  {| line_id := id; list_amount_vnd := amount;
     resolution := PromotionResolution.AUTO_IF_TARGETED; rate_bps := Some rate |}.
Definition july_order : promoted PromotionResult :=
  evaluate_promotion july [shirt "b" 33335 3000; shirt "a" 33333 3000; shirt "c" 50000 4000]
    (midnight 20660 HO_CHI_MINH) (Some PromotionEligibilityEvent.STORE_COMMERCIAL_ACCEPTED)
    (Some (midnight 20660 HO_CHI_MINH)) 15000 false.
Example july_discounts :
  match july_order with
  | Ok r => (discount_vnd <$> adjustments r, display_total_vnd r, status r, reason_codes r)
  | Err _ => ([], 0, PromotionStatus.NOT_APPLICABLE, [])
  end = ([10000; 10000; 20000], 91668, PromotionStatus.ELIGIBLE, [PromotionReason.PROMOTION_APPLIED]).
Proof. vm_compute. reflexivity. Qed.

(** The docstring of [allocate_largest_remainder] bounds the shortfall by one less than
    the number of lines; a promotion's half-up group total can need one đồng per line. *)
Example shortfall_of_one_line :
  let a := allocate_largest_remainder [("a", 1)] 5000 RATE_DENOMINATOR
             ((1 * 5000 + RATE_DENOMINATOR / 2) / RATE_DENOMINATOR) in
  final_allocations_vnd a = [1] ∧ floor_allocations_vnd a = [0].
Proof. done. Qed.
