(* ===== verification/PromotionFacts.v ===== *)
(** What a promotion does to an order's money: every line keeps its amount as discount
    plus net, no line is discounted below zero, and the order of lines is irrelevant. *)
From Stdlib Require Import String.
From S2P Require Import Prelude Catalog Clock Allocation Promotion.
Local Open Scope laundry_scope.
Local Open Scope Z_scope.

#[local] Arguments sumZ : simpl never.

(** * Valid lines *)

Record valid_line (l : PromotionLine) : Prop := {
  vl_id : line_id l ≠ ""%string;
  vl_amount : 0 <= list_amount_vnd l <= MAX_BIGINT_VND;
  vl_rate : if resolution l is? PromotionResolution.NOT_ELIGIBLE then rate_bps l = None
            else ∃ r, rate_bps l = Some r ∧ 0 < r <= RATE_DENOMINATOR;
}.

Lemma _require_vnd_Ok v u : _require_vnd v = Ok u ↔ 0 <= v <= MAX_BIGINT_VND.
Proof. unfold _require_vnd. rewrite raise_if_Ok, negb_false_iff, andb_true_iff, !Z.leb_le. done. Qed.

Lemma _validate_line_Ok l seen u :
  _validate_line l seen = Ok u ↔ valid_line l ∧ line_id l ∉ seen.
Proof.
  unfold _validate_line. rewrite raise_bind_Ok, bind_Ok. destruct u.
  setoid_rewrite _require_vnd_Ok.
  rewrite orb_false_iff, !bool_decide_eq_false.
  destruct (resolution l is? PromotionResolution.NOT_ELIGIBLE) eqn:Hr.
  - setoid_rewrite raise_if_Ok. setoid_rewrite bool_decide_eq_false.
    setoid_rewrite <- eq_None_not_Some. split.
    + intros ([H1 H2] & [] & Ha & Hn). split; [|done]. split; [done|done|by rewrite Hr].
    + intros [[H1 Ha Hn] H2]. rewrite Hr in Hn. split; [done|]. by exists ().
  - setoid_rewrite raise_if_Ok. split.
    + intros ([H1 H2] & [] & Ha & Hn). split; [|done]. split; [done|done|]. rewrite Hr.
      destruct (rate_bps l) as [r|]; [|done]. apply negb_false_iff in Hn. guards. eauto.
    + intros [[H1 Ha Hn] H2]. rewrite Hr in Hn. destruct Hn as (r & -> & ?). split; [done|].
      exists (). split; [done|]. apply negb_false_iff, andb_true_iff. rewrite Z.ltb_lt, Z.leb_le. lia.
Qed.

Lemma _checked_add_Ok a b s : _checked_add a b = Ok s ↔ s = a + b ∧ a + b <= MAX_BIGINT_VND.
Proof.
  unfold _checked_add. rewrite raise_bind_Ok, Z.ltb_ge. naive_solver.
Qed.

(** The lines of one order: each valid, ids distinct. *)
Definition valid_lines (lines : list PromotionLine) : Prop :=
  Forall valid_line lines ∧ NoDup (line_id <$> lines).

Lemma validate_pass_spec lines : ∀ seen s v,
  fold_result validate_pass (seen, s) lines = Ok v →
  Forall valid_line lines ∧ NoDup (line_id <$> lines) ∧
  (∀ l, l ∈ lines → line_id l ∉ seen) ∧
  v.2 = s + sumZ (list_amount_vnd <$> lines) ∧ (s <= MAX_BIGINT_VND → v.2 <= MAX_BIGINT_VND).
Proof.
  induction lines as [|l ls IH]; intros seen s v; cbn [fold_result].
  - intros [= <-]. cbn. unfold sumZ. cbn. split_and!; [by apply Forall_nil_2|by apply NoDup_nil_2| |lia|done].
    by intros ? ?%elem_of_nil.
  - intros H. apply bind_Ok in H as ([seen' s'] & Hp & H). unfold validate_pass in Hp.
    apply bind_Ok in Hp as ([] & Hl & Hp). apply _validate_line_Ok in Hl as [Hl Hns].
    apply bind_Ok in Hp as (x & Hx & [= <- <-]). apply _checked_add_Ok in Hx as [-> Hmax].
    destruct (IH _ _ _ H) as (H1 & H2 & H3 & H4 & H5). cbn [fst snd] in *.
    rewrite !fmap_cons, sumZ_cons. split_and!; [by constructor| | |lia|auto].
    + apply NoDup_cons. split; [|done]. intros Hin. apply list_elem_of_fmap in Hin as (l' & Heq & Hl').
      apply (H3 l' Hl'). rewrite <- Heq. left.
    + intros l' [->|Hl']%elem_of_cons; [done|]. intros Hs. apply (H3 l' Hl'). by right.
Qed.

Lemma validate_pass_total lines : ∀ seen s,
  Forall valid_line lines → NoDup (line_id <$> lines) →
  (∀ l, l ∈ lines → line_id l ∉ seen) → 0 <= s → s + sumZ (list_amount_vnd <$> lines) <= MAX_BIGINT_VND →
  ∃ v, fold_result validate_pass (seen, s) lines = Ok v.
Proof.
  induction lines as [|l ls IH]; intros seen s Hv Hnd Hs H0 Hmax; [by eexists|].
  apply Forall_cons in Hv as [Hl Hv]. rewrite fmap_cons in *. apply NoDup_cons in Hnd as [Hn Hnd].
  rewrite sumZ_cons in Hmax.
  assert (0 <= sumZ (list_amount_vnd <$> ls)) as Hpos.
  { apply sumZ_nonneg, Forall_fmap. eapply Forall_impl; [exact Hv|]. intros x Hx. cbn. apply Hx. }
  pose proof (vl_amount _ Hl).
  cbn [fold_result].
  assert (validate_pass (seen, s) l = Ok (line_id l :: seen, s + list_amount_vnd l)) as ->.
  { unfold validate_pass. cbn [fst snd].
    rewrite (proj2 (_validate_line_Ok l seen ())); [|split; [done|]; apply Hs; left].
    by rewrite (proj2 (_checked_add_Ok s (list_amount_vnd l) (s + list_amount_vnd l))) by lia. }
  cbn [mbind result_bind]. apply IH; [done|done| |lia|lia].
  intros l' Hl'. rewrite elem_of_cons. intros [Heq|Hin].
  - apply Hn. rewrite <- Heq. by apply list_elem_of_fmap_2.
  - apply (Hs l'); [by right|done].
Qed.

(** * Groups *)

Definition targeted (lines : list PromotionLine) (rate : Z) : list PromotionLine :=
  filter (λ l, resolution l = PromotionResolution.AUTO_IF_TARGETED ∧ rate_bps l = Some rate) lines.
Definition auto_lines (lines : list PromotionLine) : list PromotionLine :=
  filter (λ l, resolution l = PromotionResolution.AUTO_IF_TARGETED) lines.

Definition targets (l : PromotionLine) (rate : Z) : Prop :=
  resolution l = PromotionResolution.AUTO_IF_TARGETED ∧ rate_bps l = Some rate.

Lemma targeted_cons l ls rate :
  (targets l rate → targeted (l :: ls) rate = l :: targeted ls rate) ∧
  (¬ targets l rate → targeted (l :: ls) rate = targeted ls rate).
Proof.
  unfold targeted, targets. rewrite filter_cons. by split; intros H; [rewrite decide_True|rewrite decide_False].
Qed.

Lemma group_pass_spec lines : ∀ g s v,
  fold_result group_pass (g, s) lines = Ok v →
  v.2 = s + sumZ (list_amount_vnd <$> auto_lines lines) ∧
  (∀ rate, default [] (dict_get v.1 rate) = (default [] (dict_get g rate) ++ targeted lines rate)%list) ∧
  (∀ rate, rate ∈ v.1.*1 ↔ rate ∈ g.*1 ∨ targeted lines rate ≠ []) ∧
  (NoDup g.*1 → NoDup v.1.*1).
Proof.
  induction lines as [|l ls IH]; intros g s v; cbn [fold_result].
  - intros [= <-]. cbn. split_and!; [unfold sumZ; cbn; lia| |naive_solver|done].
    intros rate. by rewrite app_nil_r.
  - intros H. apply bind_Ok in H as ([g' s'] & Hp & H). unfold group_pass in Hp. cbn [fst snd] in Hp.
    destruct (IH _ _ _ H) as (H1 & H2 & H3 & H4). unfold auto_lines in *. rewrite filter_cons.
    destruct (decide (resolution l = PromotionResolution.AUTO_IF_TARGETED)) as [Ha|Ha].
    + rewrite (bool_decide_true _ Ha) in Hp. apply bind_Ok in Hp as (rate0 & Hr & Hp).
      apply require_some_Ok in Hr. apply bind_Ok in Hp as (s1 & Hs1 & [= <- <-]).
      apply _checked_add_Ok in Hs1 as [-> _]. rewrite fmap_cons, sumZ_cons.
      assert (∀ rate, targets l rate ↔ rate = rate0) as Hiff
        by (unfold targets; intros rate; rewrite Hr; naive_solver).
      split_and!; [lia| | |intros Hg; by apply H4, dict_alter_NoDup].
      * intros rate. rewrite H2. destruct (decide (rate = rate0)) as [->|Hne].
        -- rewrite dict_get_alter, (proj1 (targeted_cons _ _ _)) by by apply Hiff.
           cbn. by rewrite <- app_assoc.
        -- by rewrite dict_get_alter_ne, (proj2 (targeted_cons _ _ _)) by (done || by rewrite Hiff).
      * intros rate. rewrite H3, dict_keys_alter. destruct (decide (rate = rate0)) as [->|Hne].
        -- rewrite (proj1 (targeted_cons _ _ _)) by by apply Hiff. split; [by right|left].
           case_decide; [done|]. apply elem_of_app; right; left.
        -- rewrite (proj2 (targeted_cons _ _ _)) by by rewrite Hiff.
           case_decide; [done|]. rewrite elem_of_app, list_elem_of_singleton. naive_solver.
    + rewrite (bool_decide_false _ Ha) in Hp. injection Hp as <- <-.
      assert (∀ rate, ¬ targets l rate) as Hno by (unfold targets; naive_solver).
      split_and!; [done| | |done].
      * intros rate. by rewrite H2, (proj2 (targeted_cons _ _ _)).
      * intros rate. by rewrite H3, (proj2 (targeted_cons _ _ _)).
Qed.

(** * Allocations of all groups *)

Lemma dict_update_fresh {V} (d other : dict string V) :
  NoDup other.*1 → (∀ k, k ∈ other.*1 → k ∉ d.*1) → dict_update d other = (d ++ other)%list.
Proof.
  unfold dict_update. revert d. induction other as [|[k v] other IH]; intros d Hnd Hdis; cbn.
  - by rewrite app_nil_r.
  - cbn in Hnd. apply NoDup_cons in Hnd as [Hk Hnd].
    assert (dict_alter (λ _, v) k d = d ++ [(k, v)])%list as ->.
    { assert (k ∉ d.*1) as Hn by (apply Hdis; left). clear -Hn.
      induction d as [|[k' v'] d IH]; [done|]. cbn in *. rewrite decide_False by (intros ->; apply Hn; left).
      rewrite IH; [done|]. intros ?. apply Hn. by right. }
    rewrite IH; [by rewrite <- app_assoc|done|].
    intros k' Hk'. rewrite fmap_app, elem_of_app. cbn. rewrite list_elem_of_singleton.
    intros [Hin| ->]; [|done]. by apply (Hdis k'); [right|].
Qed.

Definition weights_of (lines : list PromotionLine) : list (string * Z) :=
  (λ l, (line_id l, list_amount_vnd l)) <$> lines.
Definition group_total (lines : list PromotionLine) (rate : Z) : Z :=
  (sumZ (list_amount_vnd <$> lines) * rate + 5000) / 10000.
Definition group_shares (lines : list PromotionLine) (rate : Z) : dict string Z :=
  allocation_pairs (weights_of lines) rate RATE_DENOMINATOR (group_total lines rate).

Lemma _allocate_group_shares lines rate : (_allocate_group lines rate).1 = group_shares lines rate.
Proof. done. Qed.

Lemma weights_amounts lines : (weights_of lines).*2 = list_amount_vnd <$> lines.
Proof. unfold weights_of. rewrite <- list_fmap_compose. by apply list_fmap_ext. Qed.
Lemma weights_ids lines : (weights_of lines).*1 = line_id <$> lines.
Proof. unfold weights_of. rewrite <- list_fmap_compose. by apply list_fmap_ext. Qed.

(** The rounded group discount is within half a đồng of the exact one. *)
Lemma group_total_close lines rate :
  2 * Z.abs (RATE_DENOMINATOR * group_total lines rate - rate * sumZ (weights_of lines).*2)
    <= RATE_DENOMINATOR.
Proof.
  rewrite weights_amounts. unfold group_total, RATE_DENOMINATOR.
  set (n := sumZ _ * rate). replace (rate * sumZ (list_amount_vnd <$> lines)) with n by (unfold n; lia).
  clearbody n. pose proof (Z.div_mod (n + 5000) 10000 ltac:(lia)).
  pose proof (Z.mod_pos_bound (n + 5000) 10000 ltac:(lia)). lia.
Qed.

Section with_split.
(** Only the promise of [Proportional] is used of the splitting routine. *)
Context `{HP : Proportional allocation_pairs}.

Lemma shares_ids lines rate : (group_shares lines rate).*1 ≡ₚ line_id <$> lines.
Proof. unfold group_shares. by rewrite split_ids, weights_ids. Qed.

Lemma shares_total lines rate : sumZ (group_shares lines rate).*2 = group_total lines rate.
Proof. apply split_sum; [done|apply group_total_close]. Qed.

(** No share exceeds its line: a rate is at most 100%. *)
Lemma share_bounds lines rate k x :
  0 <= rate <= RATE_DENOMINATOR → (∀ l, l ∈ lines → 0 <= list_amount_vnd l) →
  (k, x) ∈ group_shares lines rate →
  ∃ l, l ∈ lines ∧ line_id l = k ∧ 0 <= x <= list_amount_vnd l.
Proof.
  intros Hr Hl Hin. apply split_close in Hin as (w & Hw & H1 & H2 & H3); [|done|apply group_total_close].
  unfold weights_of in Hw. apply list_elem_of_fmap in Hw as (l & [= -> ->] & Hin).
  exists l. split_and!; [done|done| |].
  - etransitivity; [|exact H1]. apply Z.div_pos; [|done]. specialize (Hl l Hin). nia.
  - specialize (Hl l Hin). unfold RATE_DENOMINATOR in *. nia.
Qed.

Lemma group_shares_perm l1 l2 rate :
  NoDup (line_id <$> l1) → l1 ≡ₚ l2 → group_shares l1 rate = group_shares l2 rate.
Proof.
  intros Hnd HPm. unfold group_shares, group_total.
  rewrite (sumZ_perm _ _ (fmap_Permutation list_amount_vnd _ _ HPm)).
  apply split_perm; [by rewrite weights_ids|by apply fmap_Permutation].
Qed.
End with_split.

Lemma line_by_id lines l l' :
  NoDup (line_id <$> lines) → l ∈ lines → l' ∈ lines → line_id l = line_id l' → l = l'.
Proof.
  intros Hnd Hl Hl' Heq. set (d := (λ l, (line_id l, l)) <$> lines).
  assert (NoDup d.*1) as Hd by (unfold d; by rewrite <- list_fmap_compose).
  assert (∀ x, x ∈ lines → dict_get d (line_id x) = Some x) as Hget.
  { intros x Hx. apply dict_elem_get; [done|]. unfold d. apply list_elem_of_fmap. by exists x. }
  pose proof (Hget _ Hl) as H1. rewrite Heq, (Hget _ Hl') in H1. by injection H1.
Qed.

Lemma targeted_elem lines rate l : l ∈ targeted lines rate ↔ targets l rate ∧ l ∈ lines.
Proof. unfold targeted, targets. by rewrite list_elem_of_filter. Qed.

Lemma targeted_sublist lines rate : sublist (targeted lines rate) lines.
Proof. apply sublist_filter. Qed.

Lemma targeted_NoDup lines rate : NoDup (line_id <$> lines) → NoDup (line_id <$> targeted lines rate).
Proof. intros H. eapply sublist_NoDup; [exact H|]. apply fmap_sublist, targeted_sublist. Qed.

(** The allocations of the groups, rate by rate. *)
Definition all_shares (lines : list PromotionLine) (rates : list Z) : dict string Z :=
  concat ((λ r, group_shares (targeted lines r) r) <$> rates).

Lemma all_shares_elem lines rates k x :
  (k, x) ∈ all_shares lines rates ↔ ∃ r, r ∈ rates ∧ (k, x) ∈ group_shares (targeted lines r) r.
Proof.
  unfold all_shares. induction rates as [|r rs IH]; cbn [fmap list_fmap concat].
  - split; [by intros ?%elem_of_nil|by intros (? & ?%elem_of_nil & _)].
  - rewrite elem_of_app. unfold fmap in IH. rewrite IH. setoid_rewrite elem_of_cons. naive_solver.
Qed.

Lemma shares_key lines rate k x :
  (k, x) ∈ group_shares lines rate → k ∈ line_id <$> lines.
Proof.
  intros H. rewrite <- (shares_ids lines rate). change k with (k, x).1.
  by apply list_elem_of_fmap_2.
Qed.

Lemma allocate_groups_shares lines grouped :
  NoDup (line_id <$> lines) → NoDup grouped.*1 →
  (∀ rate, default [] (dict_get grouped rate) = targeted lines rate) →
  (allocate_groups grouped).1 = all_shares lines (stable_sort Z.leb grouped.*1)
  ∧ NoDup (all_shares lines (stable_sort Z.leb grouped.*1)).*1.
Proof.
  intros Hnd Hk Hg. unfold allocate_groups.
  assert (NoDup (stable_sort Z.leb grouped.*1)) as Hrs by by rewrite stable_sort_perm.
  assert (∀ rs acc tr, NoDup rs → NoDup acc.*1 →
    (∀ r k, r ∈ rs → k ∈ line_id <$> targeted lines r → k ∉ acc.*1) →
    (fold_left (λ acc rate,
      let group := _allocate_group (default [] (dict_get grouped rate)) rate in
      (dict_update acc.1 group.1, (acc.2 ++ [group.2])%list)) rs (acc, tr)).1
    = (acc ++ all_shares lines rs)%list ∧ NoDup (acc ++ all_shares lines rs).*1) as Hgen.
  2:{ destruct (Hgen (stable_sort Z.leb grouped.*1) [] []) as [H1 H2]; [done|constructor| |].
      - intros r k _ _ Hin. by apply elem_of_nil in Hin.
      - split; [exact H1|exact H2]. }
  clear Hrs. induction rs as [|r rs IH]; intros acc tr Hrs Hacc Hdis; cbn [fold_left].
  - unfold all_shares. cbn. by rewrite app_nil_r.
  - apply NoDup_cons in Hrs as [Hr Hrs]. cbn [fst snd]. cbv zeta. rewrite Hg, _allocate_group_shares.
    assert (NoDup (group_shares (targeted lines r) r).*1) as Hs
      by (rewrite shares_ids; by apply targeted_NoDup).
    assert (∀ k, k ∈ (group_shares (targeted lines r) r).*1 → k ∉ acc.*1) as Hdk.
    { intros k Hin. apply (Hdis r k); [left|]. by rewrite <- (shares_ids (targeted lines r) r). }
    rewrite dict_update_fresh by done. unfold all_shares. rewrite fmap_cons. cbn [concat].
    rewrite app_assoc. apply IH; [done| |].
    + rewrite fmap_app. apply NoDup_app. split_and!; [done| |done]. intros k Hin Hin'. by apply (Hdk k).
    + intros r' k Hr' Hin. rewrite fmap_app, elem_of_app. intros [Ha|Ha].
      { by apply (Hdis r' k); [right|..]. }
      rewrite (shares_ids (targeted lines r) r) in Ha.
      apply list_elem_of_fmap in Hin as (l & -> & [[Hl1 Hl2] Hl]%targeted_elem).
      apply list_elem_of_fmap in Ha as (l' & Heq & [[Hm1 Hm2] Hl']%targeted_elem).
      assert (l = l') as -> by by eapply line_by_id. congruence.
Qed.

(** * Sums of looked-up shares *)

Lemma sumZ_indicator (ks : list string) k v :
  NoDup ks → k ∈ ks → sumZ ((λ x, if decide (x = k) then v else 0) <$> ks) = v.
Proof.
  intros Hnd Hin. induction ks as [|y ks IH]; [by apply elem_of_nil in Hin|].
  apply NoDup_cons in Hnd as [Hy Hnd]. rewrite fmap_cons, sumZ_cons.
  destruct (decide (y = k)) as [->|Hne].
  - assert (sumZ ((λ x, if decide (x = k) then v else 0) <$> ks) = 0) as ->; [|lia].
    clear IH Hin. induction ks as [|z ks IH]; [done|]. rewrite fmap_cons, sumZ_cons.
    apply not_elem_of_cons in Hy as [? ?]. apply NoDup_cons in Hnd as [_ Hnd].
    rewrite decide_False by done. rewrite IH by done. lia.
  - apply elem_of_cons in Hin as [->|Hin]; [done|]. rewrite IH by done. lia.
Qed.

Lemma sumZ_lookup (ks : list string) (d : dict string Z) :
  NoDup ks → NoDup d.*1 → (∀ k, k ∈ d.*1 → k ∈ ks) →
  sumZ ((λ k, default 0 (dict_get d k)) <$> ks) = sumZ d.*2.
Proof.
  intros Hks. induction d as [|[k v] d IH]; intros Hd Hsub.
  - cbn. induction ks as [|x ks IHk]; [done|]. rewrite fmap_cons, sumZ_cons, IHk; [done|by inversion Hks|].
    intros k' Hk'. by apply elem_of_nil in Hk'.
  - cbn in Hd. apply NoDup_cons in Hd as [Hk Hd].
    assert (sumZ ((λ k0, default 0 (dict_get ((k, v) :: d) k0)) <$> ks)
      = sumZ ((λ x, (if decide (x = k) then v else 0) + default 0 (dict_get d x)) <$> ks)) as ->.
    { apply sumZ_map_ext, Forall_true. intros x. cbn. destruct (decide (x = k)) as [->|]; cbn; [|lia].
      apply dict_get_None in Hk. rewrite Hk. cbn. lia. }
    rewrite sumZ_map_add, IH; [|done|intros k' Hk'; apply Hsub; by right].
    rewrite sumZ_indicator by (done || apply Hsub; left). done.
Qed.

Lemma auto_sum_le lines :
  Forall valid_line lines → 0 <= sumZ (list_amount_vnd <$> auto_lines lines) <= sumZ (list_amount_vnd <$> lines).
Proof.
  unfold auto_lines. induction 1 as [|l ls [_ Ha _] _ IH]; [done|].
  rewrite filter_cons. case_decide; rewrite ?fmap_cons, ?sumZ_cons; lia.
Qed.

Lemma group_pass_total lines : ∀ g s,
  Forall valid_line lines → s + sumZ (list_amount_vnd <$> auto_lines lines) <= MAX_BIGINT_VND →
  ∃ v, fold_result group_pass (g, s) lines = Ok v.
Proof.
  induction lines as [|l ls IH]; intros g s Hv Hs; [by eexists|].
  apply Forall_cons in Hv as [Hl Hv]. pose proof (auto_sum_le ls Hv).
  unfold auto_lines in Hs. rewrite filter_cons in Hs.
  cbn [fold_result]. unfold group_pass at 2. cbn [fst snd].
  destruct (decide (resolution l = PromotionResolution.AUTO_IF_TARGETED)) as [Ha|Ha].
  - rewrite fmap_cons, sumZ_cons in Hs. rewrite (bool_decide_true _ Ha).
    pose proof (vl_rate _ Hl) as Hr. rewrite Ha in Hr. cbn in Hr. destruct Hr as (r & -> & _).
    cbn [require_some mbind result_bind]. fold (auto_lines ls) in Hs.
    rewrite (proj2 (_checked_add_Ok s (list_amount_vnd l) (s + list_amount_vnd l))) by lia.
    cbn [mbind result_bind]. apply IH; [done|]. fold (auto_lines ls) in *. lia.
  - rewrite (bool_decide_false _ Ha). cbn [mbind result_bind]. by apply IH.
Qed.

(** * One evaluation, taken apart *)

Section evaluation.
Context (policy : PromotionPolicy) (lines : list PromotionLine) (evaluation_at : datetime)
  (event : option PromotionEligibilityEvent.t) (event_at : option datetime) (fee : Z) (other : bool).

Let evaluated := evaluate_promotion policy lines evaluation_at event event_at fee other.
Let inside_interval := inside policy (default evaluation_at event_at).
Let has_auto := existsb (λ l, resolution l is? PromotionResolution.AUTO_IF_TARGETED) lines.
Let has_human := existsb (λ l, resolution l is? PromotionResolution.HUMAN_CONFIRM) lines.

(** The discounts the evaluation allocates. *)
Definition discounts : dict string Z :=
  match (if (has_auto || has_human) && inside_interval then fold_result group_pass ([], 0) lines
         else Ok ([], 0)) with
  | Ok grouped => (allocate_groups grouped.1).1
  | Err _ => []
  end.

Lemma discounts_spec :
  valid_lines lines → sumZ (list_amount_vnd <$> lines) <= MAX_BIGINT_VND →
  NoDup discounts.*1 ∧
  (∀ k x, (k, x) ∈ discounts ↔
     inside_interval = true ∧ ∃ r, (k, x) ∈ group_shares (targeted lines r) r).
Proof.
  intros [Hv Hnd] Hmax. unfold discounts. destruct inside_interval; cycle 1.
  { rewrite andb_false_r. cbn. split; [constructor|]. intros k x.
    split; [by intros ?%elem_of_nil|by intros [? _]]. }
  rewrite andb_true_r.
  assert (∀ r k x, (k, x) ∈ group_shares (targeted lines r) r → targeted lines r ≠ []) as Hne.
  { intros r k x Hin Hnil. apply shares_key in Hin. rewrite Hnil in Hin. by apply elem_of_nil in Hin. }
  destruct (has_auto || has_human) eqn:Hrel.
  - destruct (group_pass_total lines [] 0 Hv) as [v Hg]; [pose proof (auto_sum_le lines Hv); lia|].
    match goal with |- context [match ?x with Ok _ => _ | Err _ => _ end] =>
      assert (x = Ok v) as -> by exact Hg end.
    pose proof (group_pass_spec _ _ _ _ Hg) as (_ & H2 & H3 & H4).
    destruct (allocate_groups_shares lines v.1 Hnd) as [-> Hnd']; [by apply H4; constructor|exact H2|].
    split; [done|]. intros k x. rewrite all_shares_elem. split.
    + intros (r & _ & Hin). eauto.
    + intros (_ & r & Hin). exists r. split; [|done]. rewrite stable_sort_perm, H3. right. eauto.
  - cbn. split; [constructor|]. intros k x. split; [by intros ?%elem_of_nil|].
    intros (_ & r & Hin). exfalso. apply orb_false_iff in Hrel as [Ha _].
    destruct (targeted lines r) as [|l ls] eqn:Ht; [apply (Hne r k x); [by rewrite Ht|done]|].
    assert (l ∈ targeted lines r) as Hl by (rewrite Ht; left).
    apply targeted_elem in Hl as [[Hl1 _] Hl].
    assert (has_auto = true); [|congruence]. unfold has_auto. apply existsb_exists. exists l.
    split; [by apply list_elem_of_In|]. by apply bool_decide_eq_true.
Qed.

Lemma evaluate_promotion_inv r :
  evaluated = Ok r →
  valid_lines lines ∧ lines ≠ [] ∧ sumZ (list_amount_vnd <$> lines) <= MAX_BIGINT_VND ∧
  0 <= fee <= MAX_BIGINT_VND ∧
  list_service_subtotal_vnd r = sumZ (list_amount_vnd <$> lines) ∧
  discount_amount_vnd r = sumZ discounts.*2 ∧
  net_service_subtotal_vnd r = list_service_subtotal_vnd r - discount_amount_vnd r ∧
  delivery_fee_vnd r = fee ∧
  display_total_vnd r = net_service_subtotal_vnd r + fee ∧ display_total_vnd r <= MAX_BIGINT_VND ∧
  adjustments r = adjustment discounts <$> lines.
Proof.
  unfold evaluated, evaluate_promotion. intros H.
  apply bind_Ok in H as (? & _ & H). apply bind_Ok in H as (? & _ & H).
  apply bind_Ok in H as (? & _ & H). apply bind_Ok in H as (? & Hfee & H). apply _require_vnd_Ok in Hfee.
  apply raise_bind_Ok in H as [Hne H]. apply bind_Ok in H as (v & Hv & H).
  apply validate_pass_spec in Hv as (Hval & Hnd & _ & Hsum & Hmax).
  apply bind_Ok in H as (grouped & Hg & H).
  assert (discounts = (allocate_groups grouped.1).1) as ->.
  { unfold discounts. match goal with |- context [match ?x with Ok _ => _ | Err _ => _ end] =>
      assert (x = Ok grouped) as -> by exact Hg end. done. }
  destruct (allocate_groups grouped.1) as [allocations traces]. cbn [fst].
  apply raise_bind_Ok in H as [_ H]. apply bind_Ok in H as (display & Hd & [= <-]).
  apply _checked_add_Ok in Hd as [-> Hd]. cbn. unfold valid_lines.
  assert (lines ≠ []) by (intros ->; done).
  assert (v.2 <= MAX_BIGINT_VND) by (apply Hmax; done).
  split_and!; try done; lia.
Qed.

Lemma discount_bounds l :
  valid_lines lines → sumZ (list_amount_vnd <$> lines) <= MAX_BIGINT_VND → l ∈ lines →
  0 <= default 0 (dict_get discounts (line_id l)) <= list_amount_vnd l ∧
  (resolution l ≠ PromotionResolution.AUTO_IF_TARGETED → dict_get discounts (line_id l) = None).
Proof.
  intros Hv Hmax Hl. destruct (discounts_spec Hv Hmax) as [Hnd Hiff]. destruct Hv as [Hv Hids].
  rewrite Forall_forall in Hv.
  destruct (dict_get discounts (line_id l)) as [x|] eqn:Hx; cbn.
  - apply dict_get_Some_elem, Hiff in Hx as (_ & r & Hin).
    destruct (decide (targeted lines r = [])) as [Hnil|Hne].
    { apply shares_key in Hin. rewrite Hnil in Hin. by apply elem_of_nil in Hin. }
    assert (0 <= r <= RATE_DENOMINATOR) as Hr.
    { destruct (targeted lines r) as [|l0 ls] eqn:Ht; [done|].
      assert (l0 ∈ targeted lines r) as Hl0 by (rewrite Ht; left).
      apply targeted_elem in Hl0 as [[Ha Hrate] Hl0]. pose proof (vl_rate _ (Hv _ Hl0)) as Hvr.
      rewrite Ha in Hvr. cbn in Hvr. destruct Hvr as (r' & Hr' & ?). rewrite Hrate in Hr'.
      injection Hr' as <-. lia. }
    destruct (share_bounds _ _ _ _ Hr (λ l0 H0, proj1 (vl_amount _ (Hv l0 (proj2 (proj1 (targeted_elem _ _ _) H0))))) Hin)
      as (l' & [[Ha' _] Hl']%targeted_elem & Heq & Hb).
    assert (l' = l) as -> by by eapply line_by_id. split; [done|]. by intros [].
  - split; [|done]. pose proof (vl_amount _ (Hv _ Hl)). lia.
Qed.

Lemma discounts_sum :
  valid_lines lines → sumZ (list_amount_vnd <$> lines) <= MAX_BIGINT_VND →
  sumZ (discount_vnd <$> (adjustment discounts <$> lines)) = sumZ discounts.*2.
Proof.
  intros Hv Hmax. destruct (discounts_spec Hv Hmax) as [Hnd Hiff].
  rewrite <- (sumZ_lookup (line_id <$> lines)); [|apply Hv|done|].
  - by rewrite <- !list_fmap_compose.
  - intros k Hk. apply list_elem_of_fmap in Hk as ([k' x] & -> & Hin). apply Hiff in Hin as (_ & r & Hin).
    apply shares_key in Hin. cbn. apply list_elem_of_fmap in Hin as (l & -> & [_ Hl]%targeted_elem).
    by apply list_elem_of_fmap_2.
Qed.

(** A rate group's discounts sum to the group's half-up total. *)
Lemma group_discount r :
  valid_lines lines → sumZ (list_amount_vnd <$> lines) <= MAX_BIGINT_VND →
  sumZ (discount_vnd <$> (adjustment discounts <$> targeted lines r)) =
    if inside_interval then group_total (targeted lines r) r else 0.
Proof.
  intros Hv Hmax. destruct (discounts_spec Hv Hmax) as [Hnd Hiff].
  assert (NoDup (line_id <$> targeted lines r)) as Hids by (apply targeted_NoDup, Hv).
  destruct inside_interval; cycle 1.
  - assert (discounts = []) as ->.
    { apply elem_of_nil_inv. intros [k x] Hin. apply Hiff in Hin as [? _]. done. }
    rewrite <- list_fmap_compose. induction (targeted lines r) as [|l ls IH]; [done|].
    rewrite fmap_cons, sumZ_cons, IH; [done|]. by inversion Hids.
  - rewrite <- shares_total, <- (sumZ_lookup (line_id <$> targeted lines r)); [|done| |].
    + rewrite <- !list_fmap_compose. apply sumZ_map_ext, Forall_forall. intros l Hl. cbn.
      assert (NoDup (group_shares (targeted lines r) r).*1) as Hns by by rewrite shares_ids.
      assert (line_id l ∈ (group_shares (targeted lines r) r).*1) as Hin
        by (rewrite shares_ids; by apply list_elem_of_fmap_2).
      apply list_elem_of_fmap in Hin as ([k x] & Hk & Hin). cbn in Hk. subst k.
      rewrite (dict_elem_get _ _ _ Hns Hin). f_equal. apply dict_elem_get; [done|].
      apply Hiff. eauto.
    + by rewrite shares_ids.
    + intros k Hk. by rewrite shares_ids in Hk.
Qed.
End evaluation.

(** C32: a promotion conserves money.  Whenever an evaluation returns, every line keeps
    its list amount as discount plus net with neither below zero, lines that are not
    automatically targeted keep all of it, the discounts sum to the discount, the nets
    to the net subtotal, and the displayed total is that net plus the undiscounted
    delivery fee, within 64 bits. *)
Theorem promotion_conserves_money policy lines at_ event event_at fee other r :
  evaluate_promotion policy lines at_ event event_at fee other = Ok r →
  list_service_subtotal_vnd r = sumZ (list_amount_vnd <$> lines) ∧
  discount_amount_vnd r = sumZ (discount_vnd <$> adjustments r) ∧
  net_service_subtotal_vnd r = sumZ (net_amount_vnd <$> adjustments r) ∧
  net_service_subtotal_vnd r + discount_amount_vnd r = list_service_subtotal_vnd r ∧
  display_total_vnd r = net_service_subtotal_vnd r + fee ∧ 0 <= display_total_vnd r <= MAX_BIGINT_VND ∧
  (adj_line_id <$> adjustments r) = (line_id <$> lines) ∧
  Forall (λ a, 0 <= discount_vnd a ∧ 0 <= net_amount_vnd a ∧
    discount_vnd a + net_amount_vnd a = adj_list_amount_vnd a ∧
    (adj_resolution a ≠ PromotionResolution.AUTO_IF_TARGETED → discount_vnd a = 0)) (adjustments r).
Proof.
  intros H. apply evaluate_promotion_inv in H as (Hv & Hne & Hmax & Hfee & Hl & Hd & Hn & Hf & Hdisp & Hdm & Ha).
  set (ds := discounts _ _ _ _) in *.
  assert (Forall (λ l, 0 <= default 0 (dict_get ds (line_id l)) <= list_amount_vnd l) lines) as Hb.
  { apply Forall_forall. intros l Hin. by apply discount_bounds. }
  pose proof (discounts_sum policy lines at_ event_at Hv Hmax) as Hsum. fold ds in Hsum.
  assert (sumZ (net_amount_vnd <$> adjustments r) = sumZ (list_amount_vnd <$> lines) - sumZ ds.*2) as Hnet.
  { rewrite Ha, <- Hsum, <- !list_fmap_compose. generalize ds. clear. intros d.
    induction lines as [|l ls IH]; [done|]. rewrite !fmap_cons, !sumZ_cons, IH.
    change ((net_amount_vnd ∘ adjustment d) l) with (list_amount_vnd l - (discount_vnd ∘ adjustment d) l).
    lia. }
  assert (0 <= sumZ (net_amount_vnd <$> adjustments r)) as Hpos.
  { apply sumZ_nonneg. rewrite Ha, <- list_fmap_compose. apply Forall_fmap.
    eapply Forall_impl; [exact Hb|]. intros l Hx. cbv beta in Hx.
    unfold compose, adjustment. cbn [net_amount_vnd]. lia. }
  split_and!; try lia.
  - by rewrite Hd, Ha, Hsum.
  - rewrite Ha, <- list_fmap_compose. by apply list_fmap_ext.
  - rewrite Ha. apply Forall_fmap, Forall_forall. intros l Hin. unfold compose, adjustment.
    cbn [net_amount_vnd discount_vnd adj_list_amount_vnd adj_resolution].
    destruct (discount_bounds policy lines at_ event_at l Hv Hmax Hin) as [Hbl Hno].
    fold ds in Hbl, Hno. split_and!; [lia..|]. intros Hr. by rewrite Hno.
Qed.

(** each rate group gets exactly its discount: inside the programme's interval the
    discounts of the lines targeted at a rate sum to that rate of their subtotal,
    rounded half up to a đồng once for the whole group; outside it nothing is
    discounted. *)
Theorem promotion_group_discount policy lines at_ event event_at fee other r rate :
  evaluate_promotion policy lines at_ event event_at fee other = Ok r →
  sumZ (discount_vnd <$> filter (λ a, adj_resolution a = PromotionResolution.AUTO_IF_TARGETED
                                      ∧ adj_rate_bps a = Some rate) (adjustments r)) =
    if inside policy (default at_ event_at)
    then (sumZ (list_amount_vnd <$> targeted lines rate) * rate + 5000) / 10000 else 0.
Proof.
  intros H. apply evaluate_promotion_inv in H as (Hv & _ & Hmax & _ & _ & _ & _ & _ & _ & _ & Ha).
  etransitivity; [|exact (group_discount policy lines at_ event_at rate Hv Hmax)].
  rewrite Ha. do 2 f_equal.
  generalize (discounts policy lines at_ event_at). clear. intros d.
  induction lines as [|l ls IH]; [done|]. unfold targeted in *. rewrite fmap_cons, !filter_cons.
  destruct (decide (resolution l = _ ∧ _)) as [Hl|Hl].
  - rewrite (decide_True (P := adj_resolution (adjustment d l) = _ ∧ _)) by done.
    by rewrite fmap_cons, IH.
  - by rewrite (decide_False (P := adj_resolution (adjustment d l) = _ ∧ _)).
Qed.

(** Every accepted or refused policy. *)
Definition valid_policy (p : PromotionPolicy) : bool :=
  negb (code p is? ""%string) && (timezone p is? "Asia/Ho_Chi_Minh"%string)
  && aware (start_at p) && aware (end_at_exclusive p) && dt_ltb (start_at p) (end_at_exclusive p).

Lemma _validate_policy_Ok p u : _validate_policy p = Ok u ↔ valid_policy p = true.
Proof.
  unfold _validate_policy, valid_policy, _require_aware, dt_ltb, dt_leb. destruct u.
  destruct (code p is? _), (timezone p is? _), (aware (start_at p)), (aware (end_at_exclusive p)); try done.
  cbn. rewrite raise_if_Ok, Z.leb_gt, Z.ltb_lt. done.
Qed.

Lemma _require_aware_Ok v : aware v = true → _require_aware v = Ok ().
Proof. intros H. unfold _require_aware. by rewrite H. Qed.

(** C40: the evaluation is total on valid inputs.  With a valid policy, aware instants,
    a delivery fee in range and at least one line, all valid with distinct ids and a
    total that fits 64 bits with the fee, it returns a result: the check that a
    discount does not exceed the subtotal and the assertion on a targeted line's rate
    never fire. *)
Theorem evaluate_promotion_total policy lines at_ event event_at fee other :
  valid_policy policy = true → aware at_ = true → aware (default at_ event_at) = true →
  valid_lines lines → lines ≠ [] → 0 <= fee →
  sumZ (list_amount_vnd <$> lines) + fee <= MAX_BIGINT_VND →
  ∃ r, evaluate_promotion policy lines at_ event event_at fee other = Ok r.
Proof.
  intros Hp Hat Hev Hv Hne Hfee Hsum. destruct Hv as [Hval Hnd] eqn:Ev.
  assert (0 <= sumZ (list_amount_vnd <$> lines)) as Hpos
    by (pose proof (auto_sum_le lines Hval); lia).
  assert (sumZ (list_amount_vnd <$> lines) <= MAX_BIGINT_VND) as Hmax by lia.
  unfold evaluate_promotion. rewrite (proj2 (_validate_policy_Ok policy ()) Hp).
  cbn [mbind result_bind]. rewrite (_require_aware_Ok at_ Hat). cbn [mbind result_bind].
  assert (match event_at with Some a => _require_aware a | None => Ok () end = Ok ()) as ->.
  { destruct event_at as [a|]; [|done]. by apply _require_aware_Ok. }
  cbn [mbind result_bind]. rewrite (proj2 (_require_vnd_Ok fee ())) by lia.
  cbn [mbind result_bind].
  replace (length lines =? 0)%nat with false by (by destruct lines). cbn [raise_if mbind result_bind].
  destruct (validate_pass_total lines [] 0 Hval Hnd) as [v Hvp]; [by intros ? ? ?%elem_of_nil|lia|lia|].
  rewrite Hvp. cbn [mbind result_bind].
  pose proof (validate_pass_spec _ _ _ _ Hvp) as (_ & _ & _ & Hv2 & _).
  pose proof (discounts_sum policy lines at_ event_at (conj Hval Hnd) Hmax) as Hds.
  assert (0 <= sumZ (discounts policy lines at_ event_at).*2 <= sumZ (list_amount_vnd <$> lines)) as Hdb.
  { rewrite <- Hds, <- list_fmap_compose.
    assert (Forall (λ l, 0 <= (discount_vnd ∘ adjustment (discounts policy lines at_ event_at)) l
                         <= list_amount_vnd l) lines) as Hb.
    { apply Forall_forall. intros l Hl. by apply discount_bounds. }
    split.
    - apply sumZ_nonneg, Forall_fmap. eapply Forall_impl; [exact Hb|]. intros l Hx. apply Hx.
    - apply sumZ_map_le. eapply Forall_impl; [exact Hb|]. intros l Hx. apply Hx. }
  unfold discounts in Hdb.
  match type of Hdb with context [match ?x with Ok _ => _ | Err _ => _ end] =>
    match goal with |- context [?y ≫= _] => change y with x; destruct x as [g|e] eqn:Hg end end; cycle 1.
  { exfalso. destruct (_ && _); [|done].
    destruct (group_pass_total lines [] 0 Hval) as [w Hw]; [pose proof (auto_sum_le lines Hval); lia|].
    assert (Err e = Ok w) by (rewrite <- Hw; symmetry; exact Hg). done. }
  cbn [mbind result_bind]. destruct (allocate_groups g.1) as [allocations traces]. cbn [fst] in Hdb.
  replace (v.2 <? sumZ allocations.*2) with false by lia. cbn [raise_if mbind result_bind].
  rewrite (proj2 (_checked_add_Ok (v.2 - sumZ allocations.*2) fee (v.2 - sumZ allocations.*2 + fee))) by lia.
  cbn [mbind result_bind]. by eexists.
Qed.

(** * The July order *)

Definition july_lines : list PromotionLine :=
  [shirt "b" 33335 3000; shirt "a" 33333 3000; shirt "c" 50000 4000].
Definition noon : datetime := midnight 20660 HO_CHI_MINH.
Definition july_result : PromotionResult :=
  match july_order with Ok r => r | Err _ =>
    {| status := PromotionStatus.NOT_APPLICABLE; outcome := PolicyOutcome.ALLOW;
       list_service_subtotal_vnd := 0; eligible_service_subtotal_vnd := 0; discount_amount_vnd := 0;
       net_service_subtotal_vnd := 0; delivery_fee_vnd := 0; display_total_vnd := 0;
       eligibility_event := None; eligibility_at := None; adjustments := []; reason_codes := [];
       trace := {| policy_code := ""; interval_start_at := noon; interval_end_at_exclusive := noon;
         configured_eligibility_event := None; observed_eligibility_event := None;
         observed_eligibility_at := None; candidate_reference_at := noon;
         candidate_inside_interval := false; eligibility_resolved := false; allocation_groups := [];
         rounding := ""; delivery_discount_vnd := 0 |} |} end.

Lemma promotion_conserves_money_witness :
  july_order = Ok july_result ∧
  net_service_subtotal_vnd july_result + discount_amount_vnd july_result = 116668.
Proof.
  assert (july_order = Ok july_result) as H by (vm_compute; reflexivity).
  split; [exact H|].
  destruct (promotion_conserves_money _ _ _ _ _ _ _ _ H) as (Hl & _ & _ & Hs & _).
  rewrite Hs, Hl. vm_compute. reflexivity.
Defined.

Lemma promotion_group_discount_witness :
  july_order = Ok july_result ∧
  sumZ (discount_vnd <$> filter (λ a, adj_resolution a = PromotionResolution.AUTO_IF_TARGETED
    ∧ adj_rate_bps a = Some 3000) (adjustments july_result)) = 20000.
Proof.
  assert (july_order = Ok july_result) as H by (vm_compute; reflexivity).
  split; [exact H|].
  rewrite (promotion_group_discount _ _ _ _ _ _ _ _ 3000 H). vm_compute. reflexivity.
Defined.

Lemma evaluate_promotion_total_witness :
  ∃ r, evaluate_promotion july july_lines noon None None 15000 false = Ok r.
Proof.
  apply evaluate_promotion_total.
  - vm_compute. reflexivity.
  - vm_compute. reflexivity.
  - vm_compute. reflexivity.
  - split.
    + repeat constructor; try discriminate; try (cbn; unfold MAX_BIGINT_VND; lia);
        eexists; (split; [reflexivity|unfold RATE_DENOMINATOR; lia]).
    + decided.
  - discriminate.
  - lia.
  - vm_compute. discriminate.
Defined.
