(* ===== verification/Text.v ===== *)
(** Python text over the ASCII range, as lists of characters: decimal and hexadecimal
    printing and reading, and the character classes the components' patterns use. *)
From Stdlib Require Import Ascii String.
From S2P Require Import Prelude PyDecimal.
Local Open Scope laundry_scope.
Local Open Scope Z_scope.

Definition text := list ascii.
Definition txt (s : string) : text := list_ascii_of_string s.
#[export] Instance text_eq_dec : EqDecision text := _.

Definition ord (c : ascii) : Z := Z.of_nat (nat_of_ascii c).
Definition chr (n : Z) : ascii := ascii_of_nat (Z.to_nat n).
Definition between (lo hi : Z) (c : ascii) : bool := (lo <=? ord c) && (ord c <=? hi).

Definition isascii (t : text) : bool := forallb (λ c, ord c <? 128) t.
Definition is_digit_char (c : ascii) : bool := between 48 57 c.
(** [str.isdigit] on ASCII text: at least one character, all of them digits. *)
Definition isdigit (t : text) : bool := negb (t is? []) && forallb is_digit_char t.

(** [str(n)] for [n >= 0], and [int(t)] for digits. *)
Definition str (n : Z) : text := digit_char <$> digits n.
Definition int (t : text) : Z := fold_left (λ a c, 10 * a + default 0 (digit_value c)) t 0.

(** [f"{n:0kd}"] for [0 <= n < 10^k]. *)
Fixpoint zero_padded (k : nat) (n : Z) : text :=
  match k with
  | O => []
  | S k' => zero_padded k' (n / 10) ++ [digit_char (n mod 10)]
  end.

(** One upper-case hexadecimal digit, and [f"{n:0kX}"] for [0 <= n < 16^k]. *)
Definition hex_char (d : Z) : ascii := if d <? 10 then chr (48 + d) else chr (55 + d).
Fixpoint hex_padded (k : nat) (n : Z) : text :=
  match k with
  | O => []
  | S k' => hex_padded k' (n / 16) ++ [hex_char (n mod 16)]
  end.

Definition upper_char (c : ascii) : ascii := if between 97 122 c then chr (ord c - 32) else c.
Definition lower_char (c : ascii) : ascii := if between 65 90 c then chr (ord c + 32) else c.
Definition upper (t : text) : text := upper_char <$> t.
Definition lower (t : text) : text := lower_char <$> t.

(** The ASCII characters [str.split] splits on. *)
Definition is_space (c : ascii) : bool := between 9 13 c || between 28 32 c.

(** [str.strip] of ASCII text. *)
Fixpoint lstrip (t : text) : text :=
  match t with c :: t' => if is_space c then lstrip t' else t | [] => [] end.
Definition strip (t : text) : text := reverse (lstrip (reverse (lstrip t))).

Definition startswith (p t : text) : bool := take (length p) t is? p.

(** What every canonical document's hash starts with. *)
Definition HASH_PREFIX : string := "JCS-SHA256-V1:".

(** Full matches of [^JCS-SHA256-V1:[0-9a-f]{64}$] and of [[A-Z][A-Z0-9_]{1,n}]. *)
Definition HASH_PATTERN (h : string) : bool :=
  let t := txt h in
  startswith (txt "JCS-SHA256-V1:") t && (length t =? 14 + 64)%nat
  && forallb (λ c, is_digit_char c || between 97 102 c) (drop 14 t).
Definition code_text (longest : nat) (s : string) : bool :=
  match txt s with
  | c :: t => between 65 90 c && (1 <=? length t)%nat && (length t <=? longest)%nat
              && forallb (λ c, between 65 90 c || is_digit_char c || (ord c =? 95)) t
  | [] => false
  end.

(** * Characters *)

Lemma ord_range c : 0 <= ord c < 256.
Proof. unfold ord. pose proof (nat_ascii_bounded c). lia. Qed.

Lemma ord_inj c d : ord c = ord d → c = d.
Proof.
  unfold ord. intros H. apply Nat2Z.inj in H.
  by rewrite <- (ascii_nat_embedding c), H, ascii_nat_embedding.
Qed.

Lemma ord_chr n : 0 <= n < 256 → ord (chr n) = n.
Proof. intros H. unfold ord, chr. rewrite nat_ascii_embedding; lia. Qed.

(** A fact about every character, checked on all 256 of them. *)
Definition all_chars : list ascii := chr <$> seqZ 0 256.
Lemma all_chars_complete c : c ∈ all_chars.
Proof.
  unfold all_chars. apply list_elem_of_fmap. exists (ord c). split.
  - apply ord_inj. by rewrite ord_chr by apply ord_range.
  - apply elem_of_seqZ. pose proof (ord_range c). lia.
Qed.
Lemma for_all_chars (P : ascii → bool) : forallb P all_chars = true → ∀ c, P c = true.
Proof. intros H c. rewrite forallb_forall in H. apply H, list_elem_of_In, all_chars_complete. Qed.

(** * Decimal text *)

Lemma is_digit_char_digit d : is_digit d → is_digit_char (digit_char d) = true.
Proof.
  intros [H1 H2]. assert (d ∈ [0; 1; 2; 3; 4; 5; 6; 7; 8; 9]) as Hd by (rewrite !elem_of_cons; lia).
  repeat (apply elem_of_cons in Hd as [->|Hd]; [reflexivity|]). by apply elem_of_nil in Hd.
Qed.

Lemma forallb_digits ds : Forall is_digit ds → forallb is_digit_char (digit_char <$> ds) = true.
Proof. induction 1 as [|d ds Hd _ IH]; [done|]. cbn. by rewrite is_digit_char_digit, IH. Qed.

Lemma fold_int ds : ∀ a, Forall is_digit ds →
  fold_left (λ a c, 10 * a + default 0 (digit_value c)) (digit_char <$> ds) a = eval_digits a ds.
Proof.
  induction ds as [|d ds IH]; intros a Hd; [done|]. apply Forall_cons in Hd as [Hd Hds].
  cbn [fmap list_fmap fold_left]. rewrite digit_value_char by done. cbn [default]. by apply IH.
Qed.

Lemma int_str n : 0 <= n → int (str n) = n.
Proof.
  intros Hn. unfold int, str. destruct (digits_spec n Hn) as (H1 & _ & H3). by rewrite fold_int.
Qed.

Lemma isdigit_str n : 0 <= n → isdigit (str n) = true.
Proof.
  intros Hn. unfold isdigit, str. destruct (digits_spec n Hn) as (H1 & H2 & _).
  rewrite forallb_digits, andb_true_r by done. rewrite bool_decide_false; [done|].
  destruct (digits n); [done|discriminate].
Qed.

(** A positive number is not printed with a leading zero. *)
Lemma to_digits_head fuel : ∀ n acc, 0 < n < 2 ^ Z.of_nat fuel →
  ∃ d ds, to_digits fuel n acc = d :: ds ∧ 1 <= d <= 9.
Proof.
  induction fuel as [|f IH]; intros n acc Hn; [cbn in Hn; lia|]. cbn [to_digits].
  destruct (Z.ltb_spec n 10); [exists n, acc; split; [done|lia]|].
  apply IH. split; [apply Z.div_str_pos; lia|]. apply Z.div_lt_upper_bound; [lia|].
  rewrite Nat2Z.inj_succ, Z.pow_succ_r in Hn by lia. lia.
Qed.

Lemma str_head n : 0 < n → ∃ d ds, str n = digit_char d :: ds ∧ 1 <= d <= 9.
Proof.
  intros Hn. unfold str, digits.
  destruct (to_digits_head (S (Z.to_nat (Z.log2 n))) n []) as (d & ds & -> & Hd).
  - split; [done|]. rewrite Nat2Z.inj_succ, Z2Nat.id by apply Z.log2_nonneg. by apply Z.log2_spec.
  - exists d, (digit_char <$> ds). done.
Qed.

Lemma length_to_digits fuel : ∀ k n acc, 0 <= n < 10 ^ Z.of_nat (S k) →
  (length (to_digits fuel n acc) <= S k + length acc)%nat.
Proof.
  induction fuel as [|f IH]; intros k n acc Hn; [cbn; lia|]. cbn [to_digits].
  destruct (Z.ltb_spec n 10); [cbn; lia|]. destruct k as [|k]; [cbn in Hn; lia|].
  rewrite Nat2Z.inj_succ, Z.pow_succ_r in Hn by lia.
  etrans; [apply (IH k)|cbn; lia]. split; [apply Z.div_pos; lia|apply Z.div_lt_upper_bound; lia].
Qed.

(** A number below [10^k] has at most [k] digits. *)
Lemma length_str k n : 0 <= n < 10 ^ Z.of_nat (S k) → (length (str n) <= S k)%nat.
Proof.
  intros Hn. unfold str, digits. rewrite length_fmap.
  etrans; [by apply (length_to_digits _ k)|cbn; lia].
Qed.

Lemma length_zero_padded k : ∀ n, length (zero_padded k n) = k.
Proof. induction k as [|k IH]; intros n; [done|]. cbn. rewrite length_app, IH. cbn. lia. Qed.

Lemma zero_padded_digits k : ∀ n, ∃ ds, zero_padded k n = digit_char <$> ds ∧ Forall is_digit ds ∧
  (0 <= n < 10 ^ Z.of_nat k → eval_digits 0 ds = n).
Proof.
  induction k as [|k IH]; intros n.
  - exists []. split_and!; [done|by apply Forall_nil_2|]. cbn. lia.
  - destruct (IH (n / 10)) as (ds & Heq & Hd & Hev). exists (ds ++ [n mod 10]).
    pose proof (Z.mod_pos_bound n 10 ltac:(lia)). pose proof (Z.div_mod n 10 ltac:(lia)) as Hdm.
    split_and!.
    + cbn [zero_padded]. rewrite Heq, fmap_app. done.
    + apply Forall_app. split; [done|]. apply Forall_singleton. unfold is_digit. lia.
    + intros Hn. rewrite eval_digits_app, Hev; [unfold eval_digits; cbn [fold_left]; lia|].
      rewrite Nat2Z.inj_succ, Z.pow_succ_r in Hn by lia. split; [apply Z.div_pos; lia|].
      apply Z.div_lt_upper_bound; lia.
Qed.

Lemma int_zero_padded k n : 0 <= n < 10 ^ Z.of_nat k → int (zero_padded k n) = n.
Proof.
  intros Hn. destruct (zero_padded_digits k n) as (ds & -> & Hd & Hev).
  unfold int. rewrite fold_int by done. by apply Hev.
Qed.

Lemma forallb_zero_padded k n : forallb is_digit_char (zero_padded k n) = true.
Proof. destruct (zero_padded_digits k n) as (ds & -> & Hd & _). by apply forallb_digits. Qed.

(** * Hexadecimal text *)

Definition hex_value (c : ascii) : Z := if ord c <? 58 then ord c - 48 else ord c - 55.

Lemma hex_value_char d : 0 <= d < 16 → hex_value (hex_char d) = d.
Proof.
  intros Hd. unfold hex_char, hex_value. destruct (Z.ltb_spec d 10); rewrite ord_chr by lia.
  - replace (48 + d <? 58) with true by lia. lia.
  - replace (55 + d <? 58) with false by lia. lia.
Qed.

Lemma length_hex_padded k : ∀ n, length (hex_padded k n) = k.
Proof. induction k as [|k IH]; intros n; [done|]. cbn. rewrite length_app, IH. cbn. lia. Qed.

Lemma hex_padded_inj k : ∀ m n,
  0 <= m < 16 ^ Z.of_nat k → 0 <= n < 16 ^ Z.of_nat k → hex_padded k m = hex_padded k n → m = n.
Proof.
  induction k as [|k IH]; intros m n Hm Hn; [cbn in *; lia|]. cbn [hex_padded].
  rewrite Nat2Z.inj_succ, Z.pow_succ_r in Hm, Hn by lia.
  intros [Hi Hl]%app_inj_tail.
  apply IH in Hi; [|split; [apply Z.div_pos; lia|apply Z.div_lt_upper_bound; lia]..].
  apply (f_equal hex_value) in Hl.
  pose proof (Z.mod_pos_bound m 16 ltac:(lia)). pose proof (Z.mod_pos_bound n 16 ltac:(lia)).
  rewrite !hex_value_char in Hl by done.
  rewrite (Z.div_mod m 16), (Z.div_mod n 16) by lia. lia.
Qed.
