(* ===== verification/Uuid.v ===== *)
(** Python's [UUID] as a 128-bit number: its [hex] and [str] spellings and the reader
    [UUID(text)], which drops the URN prefix, braces and hyphens and then reads 32
    characters with [int(..., 16)]. *)
From Stdlib Require Import Ascii String.
From S2P Require Import Prelude Text.
Local Open Scope laundry_scope.
Local Open Scope Z_scope.

(** [UUID.hex]. *)
Definition uuid_hex (u : Z) : text := lower (hex_padded 32 u).

(** [str(UUID)]: groups of 8, 4, 4, 4 and 12 digits. *)
Definition uuid_str (u : Z) : text :=
  let h := uuid_hex u in
  let part i n := take n (drop i h) in
  part 0%nat 8%nat ++ "-"%char :: part 8%nat 4%nat ++ "-"%char :: part 12%nat 4%nat
    ++ "-"%char :: part 16%nat 4%nat ++ "-"%char :: part 20%nat 12%nat.

(** [text.replace(word, "")]: occurrences from the left, not overlapping. *)
Fixpoint remove_word (fuel : nat) (word t : text) : text :=
  match fuel with
  | O => t
  | S fuel =>
      match t with
      | [] => []
      | c :: t' => if startswith word t then remove_word fuel word (drop (length word) t)
                   else c :: remove_word fuel word t'
      end
  end.
Definition removed (word t : text) : text := remove_word (length t) word t.

(** [text.strip("{}")]. *)
Definition brace (c : ascii) : bool := (c is? "{"%char) || (c is? "}"%char).
Fixpoint lstrip_braces (t : text) : text :=
  match t with c :: t' => if brace c then lstrip_braces t' else t | [] => [] end.
Definition strip_braces (t : text) : text := reverse (lstrip_braces (reverse (lstrip_braces t))).

Definition hex_digit (c : ascii) : option Z :=
  if is_digit_char c then Some (ord c - 48)
  else if between 97 102 c then Some (ord c - 87)
  else if between 65 70 c then Some (ord c - 55) else None.

(** The digits of [int(text, 16)]: single underscores between digits are allowed. *)
Fixpoint hex_digits (acc : Z) (t : text) : option Z :=
  match t with
  | [] => Some acc
  | c :: t' =>
      match hex_digit c with
      | Some d => hex_digits (16 * acc + d) t'
      | None =>
          if c is? "_"%char then
            match t' with
            | d :: t'' => match hex_digit d with
                          | Some v => hex_digits (16 * acc + v) t''
                          | None => None
                          end
            | [] => None
            end
          else None
      end
  end.
(** Without the base prefix [0x] and an underscore after it. *)
Definition without_0x (t : text) : text :=
  match t with
  | c :: x :: t' =>
      if (c is? "0"%char) && ((x is? "x"%char) || (x is? "X"%char)) then
        match t' with u :: t'' => if u is? "_"%char then t'' else t' | [] => t' end
      else t
  | _ => t
  end.
Definition unsigned_hex (t : text) : option Z :=
  match without_0x t with
  | c :: t' => d ← hex_digit c; hex_digits d t'
  | [] => None
  end.
Definition int16 (t : text) : option Z :=
  match strip t with
  | c :: t' => if c is? "-"%char then Z.opp <$> unsigned_hex t'
               else if c is? "+"%char then unsigned_hex t' else unsigned_hex (c :: t')
  | [] => None
  end.

(** [UUID(text)]; [None] is its [ValueError]. *)
Definition UUID (t : text) : option Z :=
  let h := removed [ "-"%char ] (strip_braces (removed (txt "uuid:") (removed (txt "urn:") t))) in
  if (length h =? 32)%nat then
    n ← int16 h;
    if (0 <=? n) && (n <? 2 ^ 128) then Some n else None
  else None.

Example uuid_1 : string_of_list_ascii (uuid_str 81985529216486895) = "00000000-0000-0000-0123-456789abcdef"%string.
Proof. reflexivity. Qed.
Example uuid_2 : UUID (txt "{00000000-0000-0000-0123-456789ABCDEF}") = Some 81985529216486895.
Proof. reflexivity. Qed.

(** * Reading back what was written *)

Definition lower_hex (c : ascii) : bool := is_digit_char c || between 97 102 c.
Definition id_char (c : ascii) : bool := lower_hex c || (c is? "-"%char).

Lemma startswith_head word t c : startswith word t = true → head word = Some c → head t = Some c.
Proof.
  unfold startswith. intros H%bool_decide_eq_true Hc. rewrite <- H in Hc. destruct t; [by destruct word|].
  by destruct word.
Qed.

Lemma removed_absent word t c : head word = Some c → c ∉ t → removed word t = t.
Proof.
  intros Hw. unfold removed. generalize (length t) as fuel. intros fuel. revert t.
  induction fuel as [|fuel IH]; intros t Hc; [done|]. destruct t as [|x t]; [done|]. cbn [remove_word].
  destruct (startswith word (x :: t)) eqn:Hs.
  - apply (startswith_head _ _ c) in Hs; [|done]. injection Hs as ->. destruct Hc. left.
  - f_equal. apply IH. set_solver.
Qed.

Lemma remove_char c t : ∀ fuel, (length t <= fuel)%nat →
  remove_word fuel [c] t = filter (λ x, x ≠ c) t.
Proof.
  induction t as [|x t IH]; intros fuel Hf; [by destruct fuel|]. cbn in Hf.
  destruct fuel as [|fuel]; [lia|]. cbn [remove_word]. rewrite filter_cons.
  unfold startswith. cbn [length take]. destruct (decide (x = c)) as [->|Hne].
  - rewrite bool_decide_true, decide_False by naive_solver. cbn. rewrite drop_0. apply IH. lia.
  - rewrite bool_decide_false, decide_True by naive_solver. f_equal. apply IH. lia.
Qed.

Lemma lstrip_braces_none t : Forall (λ c, brace c = false) t → lstrip_braces t = t.
Proof. destruct 1 as [|c t Hc _]; [done|]. cbn. by rewrite Hc. Qed.

Lemma strip_braces_none t : Forall (λ c, brace c = false) t → strip_braces t = t.
Proof.
  intros H. unfold strip_braces. rewrite (lstrip_braces_none t H), lstrip_braces_none.
  - apply reverse_involutive.
  - by apply Forall_reverse.
Qed.

Lemma forall_chars (P Q : ascii → bool) t :
  forallb (λ c, implb (P c) (Q c)) all_chars = true → Forall (λ c, P c = true) t → Forall (λ c, Q c = true) t.
Proof.
  intros H Ht. eapply Forall_impl; [exact Ht|]. intros c Hc. pose proof (for_all_chars _ H c) as Hi. cbn in Hi. by rewrite Hc in Hi.
Qed.

Lemma lstrip_none t : Forall (λ c, is_space c = false) t → lstrip t = t.
Proof. destruct 1 as [|c t Hc _]; [done|]. cbn. by rewrite Hc. Qed.

Lemma strip_none t : Forall (λ c, is_space c = false) t → strip t = t.
Proof.
  intros H. unfold strip. rewrite (lstrip_none t H), lstrip_none; [apply reverse_involutive|].
  by apply Forall_reverse.
Qed.

(** A hexadecimal digit, in either case. *)
Definition hex_text (c : ascii) : bool := is_digit_char c || between 97 102 c || between 65 70 c.

Lemma unsigned_hex_plain t : t ≠ [] → Forall (λ c, hex_text c = true) t → unsigned_hex t = hex_digits 0 t.
Proof.
  intros Hne Ht. unfold unsigned_hex.
  assert (without_0x t = t) as ->.
  { destruct t as [|c [|x t]]; [done..|]. cbn. apply Forall_cons in Ht as [_ [Hx _]%Forall_cons].
    rewrite (bool_decide_false (x = "x"%char)), (bool_decide_false (x = "X"%char)), andb_false_r; [done| |];
      intros ->; by vm_compute in Hx. }
  destruct t as [|c t]; [done|]. cbn [hex_digits]. apply Forall_cons in Ht as [Hc _]. unfold hex_text in Hc.
  unfold hex_digit. destruct (is_digit_char c), (between 97 102 c), (between 65 70 c); done.
Qed.

Lemma hex_text_forall (P : ascii → bool) t :
  forallb (λ c, implb (hex_text c) (P c)) all_chars = true →
  Forall (λ c, hex_text c = true) t → Forall (λ c, P c = true) t.
Proof. apply forall_chars. Qed.

Lemma int16_plain t : t ≠ [] → Forall (λ c, hex_text c = true) t → int16 t = hex_digits 0 t.
Proof.
  intros Hne Ht. unfold int16. rewrite strip_none.
  2:{ eapply Forall_impl; [apply (hex_text_forall (λ c, negb (is_space c))); [by vm_compute|exact Ht]|].
      intros c Hc. by apply negb_true_iff in Hc. }
  rewrite <- unsigned_hex_plain by done. destruct t as [|c t]; [done|].
  apply Forall_cons in Ht as [Hc _].
  by rewrite !bool_decide_false by (intros ->; by vm_compute in Hc).
Qed.

Section reading.
(** [f] is a spelling of the hexadecimal digits. *)
Context (f : ascii → ascii) (Hf : ∀ d, 0 <= d < 16 → hex_digit (f (hex_char d)) = Some d).

Lemma hex_digits_padded k : ∀ n acc rest, 0 <= n < 16 ^ Z.of_nat k →
  hex_digits acc ((f <$> hex_padded k n) ++ rest) = hex_digits (acc * 16 ^ Z.of_nat k + n) rest.
Proof.
  induction k as [|k IH]; intros n acc rest Hn.
  - cbn in Hn. cbn. f_equal. lia.
  - rewrite Nat2Z.inj_succ, Z.pow_succ_r in * by lia. cbn [hex_padded]. rewrite fmap_app, <- app_assoc.
    pose proof (Z.mod_pos_bound n 16 ltac:(lia)). pose proof (Z.div_mod n 16 ltac:(lia)).
    rewrite IH by (split; [apply Z.div_pos; lia|apply Z.div_lt_upper_bound; lia]).
    cbn [fmap list_fmap app hex_digits]. rewrite Hf by done. f_equal. lia.
Qed.
End reading.

Lemma hex_digit_upper d : 0 <= d < 16 → hex_digit (hex_char d) = Some d.
Proof.
  intros Hd. assert (d ∈ seqZ 0 16) as Hin by (apply elem_of_seqZ; lia). clear Hd. revert d Hin.
  apply Forall_forall. repeat (constructor; [by vm_compute|]). constructor.
Qed.
Lemma hex_digit_lower d : 0 <= d < 16 → hex_digit (lower_char (hex_char d)) = Some d.
Proof.
  intros Hd. assert (d ∈ seqZ 0 16) as Hin by (apply elem_of_seqZ; lia). clear Hd. revert d Hin.
  apply Forall_forall. repeat (constructor; [by vm_compute|]). constructor.
Qed.

Lemma hex_padded_text k : ∀ n, Forall (λ c, hex_text c = true ∧ hex_text (lower_char c) = true
    ∧ lower_hex (lower_char c) = true) (hex_padded k n).
Proof.
  induction k as [|k IH]; intros n; [constructor|]. cbn. apply Forall_app. split; [apply IH|].
  apply Forall_singleton. pose proof (Z.mod_pos_bound n 16 ltac:(lia)) as Hd. generalize dependent (n mod 16).
  intros d Hd. assert (d ∈ seqZ 0 16) as Hin by (apply elem_of_seqZ; lia). clear Hd. revert d Hin.
  apply Forall_forall. repeat (constructor; [by vm_compute|]). constructor.
Qed.

Definition is_uuid (u : Z) : Prop := 0 <= u < 2 ^ 128.

(** A text of 32 hexadecimal digits, however hyphenated, is read as its number. *)
Lemma UUID_reads t h u :
  filter (λ c, c ≠ "-"%char) t = h → Forall (λ c, hex_text c = true ∨ c = "-"%char) t →
  length h = 32%nat → Forall (λ c, hex_text c = true) h → hex_digits 0 h = Some u → is_uuid u →
  UUID t = Some u.
Proof.
  intros Hh Ht Hlen Hhex Hu Hr. unfold UUID.
  assert (∀ c, hex_text c = false → c ≠ "-"%char → c ∉ t) as Hno.
  { intros c Hc Hd Hin. rewrite Forall_forall in Ht. destruct (Ht c Hin); congruence. }
  rewrite (removed_absent (txt "urn:") t "u"%char), (removed_absent (txt "uuid:") t "u"%char)
    by (done || by apply Hno).
  rewrite strip_braces_none.
  2:{ eapply Forall_impl; [exact Ht|]. intros c [Hc| ->]; [|done].
      pose proof (for_all_chars (λ c, implb (hex_text c) (negb (brace c))) ltac:(by vm_compute) c) as Hi.
      cbn in Hi. rewrite Hc in Hi. by apply negb_true_iff in Hi. }
  unfold removed. rewrite remove_char by done. rewrite Hh, Hlen. cbn [Nat.eqb].
  rewrite int16_plain, Hu by (done || by intros ->). cbn.
  replace ((0 <=? u) && (u <? 2 ^ 128)) with true; [done|]. unfold is_uuid in Hr. lia.
Qed.

Lemma filter_hyphen_none t : Forall (λ c, hex_text c = true) t → filter (λ c, c ≠ "-"%char) t = t.
Proof.
  induction 1 as [|c t Hc _ IH]; [done|]. rewrite filter_cons, IH, decide_True; [done|].
  by intros ->.
Qed.

(** [UUID(hex=u.hex.upper())]. *)
Lemma UUID_hex_upper u : is_uuid u → UUID (hex_padded 32 u) = Some u.
Proof.
  intros Hu. assert (Forall (λ c, hex_text c = true) (hex_padded 32 u)) as Hx
    by (eapply Forall_impl; [apply hex_padded_text|]; cbn; intros ? H; apply H).
  eapply UUID_reads; [by apply filter_hyphen_none| |apply length_hex_padded|done| |done].
  - eapply Forall_impl; [exact Hx|]. by left.
  - rewrite <- (app_nil_r (hex_padded 32 u)), <- (list_fmap_id (hex_padded 32 u)).
    rewrite (hex_digits_padded id hex_digit_upper) by exact Hu. done.
Qed.

Lemma uuid_hex_text u : Forall (λ c, hex_text c = true) (uuid_hex u).
Proof.
  unfold uuid_hex, lower. apply Forall_fmap. eapply Forall_impl; [apply hex_padded_text|]. cbn. intros ? H. apply H.
Qed.
Lemma length_uuid_hex u : length (uuid_hex u) = 32%nat.
Proof. unfold uuid_hex, lower. by rewrite length_fmap, length_hex_padded. Qed.

Lemma filter_hyphen_group (a b : text) : Forall (λ c, hex_text c = true) a →
  filter (λ c, c ≠ "-"%char) (a ++ "-"%char :: b) = a ++ filter (λ c, c ≠ "-"%char) b.
Proof.
  intros Ha. induction Ha as [|c a Hc _ IH]; cbn [app].
  - by rewrite filter_cons, decide_False by naive_solver.
  - rewrite filter_cons, decide_True by (by intros ->). by f_equal.
Qed.

(** The hyphens of [str(u)] taken out leave its 32 digits. *)
Lemma uuid_str_digits u : filter (λ c, c ≠ "-"%char) (uuid_str u) = uuid_hex u.
Proof.
  unfold uuid_str. cbv zeta beta. pose proof (uuid_hex_text u) as Hx. pose proof (length_uuid_hex u) as Hl.
  revert Hx Hl. generalize (uuid_hex u) as h. intros h Hx Hl.
  assert (∀ n i, Forall (λ c, hex_text c = true) (take n (drop i h))) as Hpart
    by (intros; by apply Forall_take, Forall_drop).
  rewrite !filter_hyphen_group, filter_hyphen_none by apply Hpart.
  do 32 (destruct h as [|? h]; [done|]). by destruct h.
Qed.

(** [UUID(str(u))]. *)
Lemma UUID_str u : is_uuid u → UUID (uuid_str u) = Some u.
Proof.
  intros Hu. eapply UUID_reads; [apply uuid_str_digits| |apply length_uuid_hex|apply uuid_hex_text| |done].
  - assert (∀ n i, Forall (λ c, hex_text c = true ∨ c = "-"%char) (take n (drop i (uuid_hex u)))) as Hpart.
    { intros. apply Forall_take, Forall_drop. eapply Forall_impl; [apply uuid_hex_text|]. by left. }
    unfold uuid_str. repeat (apply Forall_app_2; [apply Hpart|constructor; [by right|]]). apply Hpart.
  - unfold uuid_hex, lower. rewrite <- (app_nil_r (lower_char <$> _)).
    rewrite (hex_digits_padded lower_char hex_digit_lower) by exact Hu. done.
Qed.
