(* ===== verification/Crc16.v ===== *)
(** The checksum of the VietQR payload, CRC-16/CCITT-FALSE ([vietqr.py]), bit by bit as
    the source computes it, and what it detects: any change confined to two
    adjacent characters of the text. *)
From Stdlib Require Import Ascii String.
From S2P Require Import Prelude Text.
Local Open Scope laundry_scope.
Local Open Scope Z_scope.

(** One turn of the inner loop. *)
Definition crc_bit (crc : Z) : Z :=
  Z.land (if negb (Z.land crc 0x8000 =? 0) then Z.lxor (Z.shiftl crc 1) 0x1021
          else Z.shiftl crc 1) 0xFFFF.

(** One turn of the outer loop: a byte, then [for _ in range(8)]. *)
Definition crc_byte (crc byte : Z) : Z := Nat.iter 8 crc_bit (Z.lxor crc (Z.shiftl byte 8)).

Definition crc16_ccitt_false (data : list Z) : Z := fold_left crc_byte data 0xFFFF.

(** [f"{crc16_ccitt_false(text.encode('ascii')):04X}"], of ASCII text. *)
Definition crc_hex (t : text) : text := hex_padded 4 (crc16_ccitt_false (ord <$> t)).

(** The check value the source's docstring gives. *)
Example crc_check_value : crc_hex (txt "123456789") = txt "29B1".
Proof. vm_compute. reflexivity. Qed.

(** * The bit step, as linear maps on 16-bit words *)

Definition word16 (c : Z) : Prop := 0 <= c < 2 ^ 16.

Lemma word16_bits c : 0 <= c → (∀ i, 16 <= i → Z.testbit c i = false) → word16 c.
Proof.
  intros Hc Hb. split; [done|]. destruct (decide (c = 0)) as [->|Hne]; [lia|].
  apply Z.log2_lt_pow2; [lia|]. destruct (Z.lt_ge_cases (Z.log2 c) 16) as [|Hge]; [done|].
  specialize (Hb _ Hge). rewrite Z.bit_log2 in Hb by lia. done.
Qed.

Lemma word16_high c i : word16 c → 16 <= i → Z.testbit c i = false.
Proof.
  intros [Hc Hl] Hi. destruct (decide (c = 0)) as [->|Hne]; [apply Z.bits_0|].
  apply Z.bits_above_log2; [done|]. apply Z.lt_le_trans with 16; [|done]. apply Z.log2_lt_pow2; lia.
Qed.

Lemma word16_ext c d :
  word16 c → word16 d → (∀ i, 0 <= i < 16 → Z.testbit c i = Z.testbit d i) → c = d.
Proof.
  intros Hc Hd Heq. apply Z.bits_inj'. intros i Hi.
  destruct (Z.lt_ge_cases i 16); [by apply Heq|]. by rewrite !word16_high.
Qed.

Lemma top_bit c : Z.land c 0x8000 =? 0 = negb (Z.testbit c 15).
Proof.
  destruct (Z.testbit c 15) eqn:Ht; cbn [negb].
  - apply Z.eqb_neq. intros H. apply (f_equal (λ z, Z.testbit z 15)) in H.
    rewrite Z.land_spec, Ht, Z.bits_0 in H. discriminate H.
  - apply Z.eqb_eq, Z.bits_inj'. intros i Hi. rewrite Z.land_spec, Z.bits_0.
    change 0x8000 with (2 ^ 15). rewrite Z.pow2_bits_eqb by lia.
    destruct (Z.eqb_spec 15 i) as [<-|]; [by rewrite Ht|apply andb_false_r].
Qed.

(** The bits after one turn. *)
Lemma crc_bit_spec c i : 0 <= i < 16 →
  Z.testbit (crc_bit c) i = xorb (Z.testbit c (i - 1)) (Z.testbit c 15 && Z.testbit 0x1021 i).
Proof.
  intros Hi. unfold crc_bit. rewrite Z.land_spec, top_bit, negb_involutive.
  change 0xFFFF with (Z.ones 16). rewrite Z.ones_spec_low, andb_true_r by lia.
  destruct (Z.testbit c 15); rewrite ?Z.lxor_spec, Z.shiftl_spec by lia; [done|].
  by rewrite xorb_false_r.
Qed.

Lemma crc_bit_word c : word16 (crc_bit c).
Proof.
  apply word16_bits.
  - unfold crc_bit. apply Z.land_nonneg. lia.
  - intros i Hi. unfold crc_bit. change 0xFFFF with (Z.ones 16).
    by rewrite Z.land_spec, Z.ones_spec_high, andb_false_r by lia.
Qed.

(** A turn is linear over exclusive or, and it forgets nothing. *)
Lemma crc_bit_lxor c d : crc_bit (Z.lxor c d) = Z.lxor (crc_bit c) (crc_bit d).
Proof.
  apply word16_ext; [apply crc_bit_word| |].
  - apply word16_bits; [apply Z.lxor_nonneg; split; intros; apply crc_bit_word|].
    intros i Hi. by rewrite Z.lxor_spec, !word16_high by (done || apply crc_bit_word).
  - intros i Hi. rewrite Z.lxor_spec, !crc_bit_spec, !Z.lxor_spec by done.
    destruct (Z.testbit c _), (Z.testbit c 15), (Z.testbit d _), (Z.testbit d 15),
      (Z.testbit 0x1021 i); reflexivity.
Qed.

Lemma crc_bit_inj c d : word16 c → word16 d → crc_bit c = crc_bit d → c = d.
Proof.
  intros Hc Hd Heq.
  assert (∀ i, 0 <= i < 16 → Z.testbit (crc_bit c) i = Z.testbit (crc_bit d) i) as Hb
    by (intros; by rewrite Heq).
  assert (Z.testbit c 15 = Z.testbit d 15) as Htop.
  { specialize (Hb 0 ltac:(lia)). rewrite !crc_bit_spec, !Z.testbit_neg_r in Hb by lia.
    cbn [xorb] in Hb. change (Z.testbit 0x1021 0) with true in Hb. by rewrite !andb_true_r in Hb. }
  apply word16_ext; [done..|]. intros i Hi. destruct (decide (i = 15)) as [->|]; [done|].
  specialize (Hb (i + 1) ltac:(lia)). rewrite !crc_bit_spec, Htop in Hb by lia.
  replace (i + 1 - 1) with i in Hb by lia.
  destruct (Z.testbit d 15 && Z.testbit 0x1021 (i + 1)), (Z.testbit c i), (Z.testbit d i); done.
Qed.

(** * Several turns *)

Lemma iter_crc_word n c : word16 c → word16 (Nat.iter n crc_bit c).
Proof. destruct n; [done|]. intros _. apply crc_bit_word. Qed.

Lemma iter_crc_lxor n c d :
  Nat.iter n crc_bit (Z.lxor c d) = Z.lxor (Nat.iter n crc_bit c) (Nat.iter n crc_bit d).
Proof. induction n as [|n IH]; [done|]. by rewrite !Nat.iter_succ, IH, crc_bit_lxor. Qed.

Lemma iter_crc_inj n c d :
  word16 c → word16 d → Nat.iter n crc_bit c = Nat.iter n crc_bit d → c = d.
Proof.
  intros Hc Hd. induction n as [|n IH]; [done|]. rewrite !Nat.iter_succ. intros H. apply IH.
  apply crc_bit_inj; [by apply iter_crc_word..|done].
Qed.

Lemma shiftl_byte_word b : 0 <= b < 256 → word16 (Z.shiftl b 8).
Proof. intros Hb. rewrite Z.shiftl_mul_pow2 by lia. unfold word16. lia. Qed.

Lemma lxor_word c d : word16 c → word16 d → word16 (Z.lxor c d).
Proof.
  intros Hc Hd. apply word16_bits.
  - apply Z.lxor_nonneg. destruct Hc, Hd. lia.
  - intros i Hi. by rewrite Z.lxor_spec, !word16_high.
Qed.

(** Eight turns of a value below 256 only shift it. *)
Lemma iter_crc_low n b : 0 <= b < 256 → (n <= 8)%nat →
  Nat.iter n crc_bit b = Z.shiftl b (Z.of_nat n).
Proof.
  intros Hb. induction n as [|n IH]; intros Hn; [by rewrite Z.shiftl_0_r|].
  rewrite Nat.iter_succ, IH, Nat2Z.inj_succ, <- Z.add_1_r by lia.
  assert (0 <= Z.shiftl b (Z.of_nat n) < 2 ^ 15) as Hs.
  { rewrite Z.shiftl_mul_pow2 by lia. split; [nia|].
    apply Z.lt_le_trans with (256 * 2 ^ Z.of_nat n); [apply Z.mul_lt_mono_pos_r; lia|].
    change (2 ^ 15) with (256 * 2 ^ 7). apply Z.mul_le_mono_nonneg_l; [lia|].
    apply Z.pow_le_mono_r; lia. }
  assert (Z.log2 (Z.shiftl b (Z.of_nat n)) < 15) as Hl.
  { destruct (decide (Z.shiftl b (Z.of_nat n) = 0)) as [->|]; [done|]. apply Z.log2_lt_pow2; lia. }
  unfold crc_bit. rewrite top_bit, (Z.bits_above_log2 _ 15 (proj1 Hs) Hl). cbn [negb]. rewrite Z.shiftl_shiftl by lia. change 0xFFFF with (Z.ones 16).
  rewrite Z.land_ones by lia. apply Z.mod_small. rewrite <- Z.shiftl_shiftl by lia.
  rewrite (Z.shiftl_mul_pow2 _ 1) by lia. lia.
Qed.

Lemma crc_byte_word c b : word16 c → 0 <= b < 256 → word16 (crc_byte c b).
Proof. intros Hc Hb. apply iter_crc_word, lxor_word; [done|by apply shiftl_byte_word]. Qed.

(** The register after more bytes determines the register before them. *)
Lemma crc_byte_inj c d b :
  word16 c → word16 d → 0 <= b < 256 → crc_byte c b = crc_byte d b → c = d.
Proof.
  intros Hc Hd Hb H. apply iter_crc_inj in H; [|apply lxor_word; [done|by apply shiftl_byte_word]..].
  apply (f_equal (λ z, Z.lxor z (Z.shiftl b 8))) in H.
  by rewrite !Z.lxor_assoc, Z.lxor_nilpotent, !Z.lxor_0_r in H.
Qed.

(** Two bytes are the sixteen turns of one 16-bit word. *)
Lemma crc_two_bytes c a b : 0 <= b < 256 →
  crc_byte (crc_byte c a) b = Nat.iter 16 crc_bit (Z.lxor c (Z.lxor (Z.shiftl a 8) b)).
Proof.
  intros Hb. unfold crc_byte. change 16%nat with (8 + 8)%nat. rewrite Nat.iter_add. f_equal.
  rewrite <- Z.lxor_assoc. rewrite (iter_crc_lxor 8 (Z.lxor c _) b).
  by rewrite (iter_crc_low 8 b Hb).
Qed.

Lemma byte_pair_inj a b a' b' : 0 <= b < 256 → 0 <= b' < 256 →
  Z.lxor (Z.shiftl a 8) b = Z.lxor (Z.shiftl a' 8) b' → a = a' ∧ b = b'.
Proof.
  intros Hb Hb'.
  assert (∀ x y, 0 <= y < 256 → Z.lxor (Z.shiftl x 8) y = 256 * x + y) as Hadd.
  { intros x y Hy. rewrite <- Z.add_nocarry_lxor.
    - rewrite Z.shiftl_mul_pow2 by lia. lia.
    - apply Z.bits_inj'. intros i Hi. rewrite Z.land_spec, Z.bits_0.
      destruct (Z.lt_ge_cases i 8) as [Hl|Hge]; [by rewrite Z.shiftl_spec_low|].
      apply andb_false_iff. right. destruct (decide (y = 0)) as [->|]; [apply Z.bits_0|].
      apply Z.bits_above_log2; [lia|]. apply Z.lt_le_trans with 8; [|done].
      apply Z.log2_lt_pow2; lia. }
  rewrite !Hadd by done. lia.
Qed.

(** * Whole texts *)

Lemma crc_fold_word data : ∀ c, word16 c → Forall (λ b, 0 <= b < 256) data →
  word16 (fold_left crc_byte data c).
Proof.
  induction data as [|b data IH]; intros c Hc Hd; [done|]. inversion Hd; subst. cbn.
  apply IH; [by apply crc_byte_word|done].
Qed.

Lemma crc_fold_inj data : ∀ c d, word16 c → word16 d → Forall (λ b, 0 <= b < 256) data →
  fold_left crc_byte data c = fold_left crc_byte data d → c = d.
Proof.
  induction data as [|b data IH]; intros c d Hc Hd Hb H; [done|]. inversion Hb; subst. cbn in H.
  apply IH in H; [|by apply crc_byte_word..|done]. by apply crc_byte_inj in H.
Qed.

Lemma bytes_range (t : text) : Forall (λ b, 0 <= b < 256) (ord <$> t).
Proof. apply Forall_fmap, Forall_forall. intros c _. apply ord_range. Qed.

Lemma crc_word (t : text) : word16 (crc16_ccitt_false (ord <$> t)).
Proof. apply crc_fold_word; [unfold word16; lia|apply bytes_range]. Qed.

Lemma crc_hex_number (t u : text) :
  crc_hex t = crc_hex u → crc16_ccitt_false (ord <$> t) = crc16_ccitt_false (ord <$> u).
Proof.
  unfold crc_hex. generalize (crc_word t) (crc_word u).
  generalize (crc16_ccitt_false (ord <$> t)) (crc16_ccitt_false (ord <$> u)).
  intros m n Hm Hn. apply hex_padded_inj; [exact Hm|exact Hn].
Qed.

Lemma lxor_cancel c x y : Z.lxor c x = Z.lxor c y → x = y.
Proof.
  intros H. apply (f_equal (Z.lxor c)) in H.
  by rewrite <- !Z.lxor_assoc, Z.lxor_nilpotent, !Z.lxor_0_l in H.
Qed.

(** One byte, or two, are determined by the registers before and after them. *)
Lemma crc_one_byte_inj c a b : word16 c → 0 <= a < 256 → 0 <= b < 256 →
  crc_byte c a = crc_byte c b → a = b.
Proof.
  intros Hc Ha Hb H. unfold crc_byte in H.
  apply iter_crc_inj in H; [|apply lxor_word; [done|by apply shiftl_byte_word]..].
  apply lxor_cancel in H. rewrite !Z.shiftl_mul_pow2 in H by lia. lia.
Qed.

Lemma crc_two_bytes_inj c a b a' b' : word16 c →
  0 <= a < 256 → 0 <= b < 256 → 0 <= a' < 256 → 0 <= b' < 256 →
  crc_byte (crc_byte c a) b = crc_byte (crc_byte c a') b' → a = a' ∧ b = b'.
Proof.
  intros Hc Ha Hb Ha' Hb' H. rewrite !crc_two_bytes in H by done.
  assert (∀ x y, 0 <= x < 256 → 0 <= y < 256 → word16 (Z.lxor (Z.shiftl x 8) y)) as Hp.
  { intros x y Hx Hy. apply lxor_word; [by apply shiftl_byte_word|]. unfold word16. lia. }
  apply iter_crc_inj in H; [|apply lxor_word; [done|by apply Hp]..].
  apply lxor_cancel in H. by apply byte_pair_inj.
Qed.

(** The turns of a byte are never unfolded below. *)
#[local] Opaque crc_byte.

Lemma crc_window_inj c (w w' : text) :
  word16 c → length w = length w' → (length w <= 2)%nat →
  fold_left crc_byte (ord <$> w) c = fold_left crc_byte (ord <$> w') c → w = w'.
Proof.
  intros Hc Hlen Hw H.
  destruct w as [|a [|b [|]]], w' as [|a' [|b' [|]]]; try discriminate Hlen; cbn in Hw; try lia; [done|..];
    cbn [fmap list_fmap fold_left] in H.
  - apply (crc_one_byte_inj c (ord a) (ord a')) in H; [|done|apply ord_range..].
    by apply ord_inj in H as ->.
  - apply (crc_two_bytes_inj c (ord a) (ord b) (ord a') (ord b')) in H as [Ha Hb];
      [|done|apply ord_range..].
    by apply ord_inj in Ha as ->; apply ord_inj in Hb as ->.
Qed.

(** Texts that agree outside two adjacent characters and have one checksum are equal. *)
Lemma crc_hex_inj (l w w' r : text) :
  length w = length w' → (length w <= 2)%nat →
  crc_hex (l ++ w ++ r) = crc_hex (l ++ w' ++ r) → w = w'.
Proof.
  intros Hlen Hw H. apply crc_hex_number in H.
  unfold crc16_ccitt_false in H. rewrite !fmap_app, !fold_left_app in H.
  assert (word16 (fold_left crc_byte (ord <$> l) 0xFFFF)) as Hc by apply crc_word.
  apply crc_fold_inj in H; [|apply crc_fold_word; [done|apply bytes_range]..|apply bytes_range].
  by apply crc_window_inj in H.
Qed.
