(* ===== verification/Vietqr.v ===== *)
(** The VietQR payload ([vietqr.py]): building it, reading it back, and the amount an
    order's or an account month's QR asks for.  Texts are ASCII; the [isinstance]
    guards are discharged by the types, and the bank-account document is left out. *)
From Stdlib Require Import Ascii String.
From S2P Require Import Prelude Catalog Settlement.
From S2P Require Import Payments.
From S2P Require Import PyDecimal Text Crc16.
Local Open Scope laundry_scope.
Local Open Scope Z_scope.

(** [VietQrError], one constructor per message. *)
Inductive VietQrError :=
| FieldTooLong (tag : text)
| BadBankBin
| BadAccountNumber
| BadAmount
| AmountWithoutMemo
| BadMemo
| BadTransferCode
| FieldCutShort
| FieldHeaderNotDigits
| FieldPastEnd (tag : text)
| FieldTwice (tag : text)
| NotAscii
| NoCrcField
| CrcMismatch
| BadFormatIndicator
| BadPointOfInitiation
| NotNapas
| BadCurrencyOrCountry
| AmountNotDigits
| DynamicMismatch.
#[export] Instance vietqr_error_eq_dec : EqDecision VietQrError.
Proof. solve_decision. Defined.
Abbreviation qr_result A := (result VietQrError A).

Definition NAPAS_GUID : text := txt "A000000727".
Definition SERVICE_TO_ACCOUNT : text := txt "QRIBFTTA".
Definition CURRENCY_VND : text := txt "704".
Definition COUNTRY_VN : text := txt "VN".
Definition POINT_OF_INITIATION_STATIC : text := txt "11".
Definition POINT_OF_INITIATION_DYNAMIC : text := txt "12".

(** Full matches of the patterns. *)
Definition BANK_BIN_PATTERN (t : text) : bool :=
  (length t =? 6)%nat && forallb is_digit_char t.
Definition ACCOUNT_NUMBER_PATTERN (t : text) : bool :=
  (6 <=? length t)%nat && (length t <=? 19)%nat
  && forallb (λ c, between 65 90 c || between 97 122 c || is_digit_char c) t.
Definition TRANSFER_CODE_PATTERN (t : text) : bool :=
  (1 <=? length t)%nat && (length t <=? 25)%nat && forallb upper_alnum t.

(** * The payload *)

Definition _field (tag value : text) : qr_result text :=
  if (99 <? length value)%nat then Err (FieldTooLong tag)
  else Ok (tag ++ zero_padded 2 (Z.of_nat (length value)) ++ value).

Definition _require_account (bank_bin account_number : text) : qr_result unit :=
  raise_if (negb (BANK_BIN_PATTERN bank_bin)) BadBankBin ;;
  raise_if (negb (ACCOUNT_NUMBER_PATTERN account_number)) BadAccountNumber.

Definition _require_amount (amount_vnd : Z) : qr_result Z :=
  if negb ((1 <=? amount_vnd) && (amount_vnd <=? MAX_SETTLEMENT_VND)) then Err BadAmount
  else Ok amount_vnd.

Definition _account_template (bank_bin account_number : text) : qr_result text :=
  bin ← _field (txt "00") bank_bin;
  account ← _field (txt "01") account_number;
  guid ← _field (txt "00") NAPAS_GUID;
  beneficiary ← _field (txt "01") (bin ++ account);
  service ← _field (txt "02") SERVICE_TO_ACCOUNT;
  Ok (guid ++ beneficiary ++ service).

Definition _with_crc (body : text) : text :=
  let unsigned := body ++ txt "6304" in unsigned ++ crc_hex unsigned.

Definition printable (c : ascii) : bool := between 0x20 0x7E c.

Definition napas_payload (bank_bin account_number : text) (amount_vnd : option Z)
    (purpose : option text) : qr_result text :=
  _require_account bank_bin account_number ;;
  raise_if (xorb (amount_vnd is? None) (purpose is? None)) AmountWithoutMemo ;;
  format ← _field (txt "00") (txt "01");
  match amount_vnd, purpose with
  | Some amount_vnd, Some purpose =>
      amount ← _require_amount amount_vnd;
      raise_if (negb ((1 <=? length purpose)%nat && (length purpose <=? 25)%nat)
                || negb (forallb printable purpose)) BadMemo ;;
      initiation ← _field (txt "01") POINT_OF_INITIATION_DYNAMIC;
      template ← _account_template bank_bin account_number;
      account ← _field (txt "38") template;
      currency ← _field (txt "53") CURRENCY_VND;
      amount_field ← _field (txt "54") (str amount);
      country ← _field (txt "58") COUNTRY_VN;
      memo ← _field (txt "08") purpose;
      additional ← _field (txt "62") memo;
      Ok (_with_crc (concat [format; initiation; account; currency; amount_field; country; additional]))
  | _, _ =>
      initiation ← _field (txt "01") POINT_OF_INITIATION_STATIC;
      template ← _account_template bank_bin account_number;
      account ← _field (txt "38") template;
      currency ← _field (txt "53") CURRENCY_VND;
      country ← _field (txt "58") COUNTRY_VN;
      Ok (_with_crc (concat [format; initiation; account; currency; country]))
  end.

Definition vietqr_payload (bank_bin account_number : text) (amount_vnd : Z)
    (transfer_code : text) : qr_result text :=
  raise_if (negb (TRANSFER_CODE_PATTERN transfer_code)) BadTransferCode ;;
  amount ← _require_amount amount_vnd;
  napas_payload bank_bin account_number (Some amount) (Some transfer_code).

Definition static_vietqr_payload (bank_bin account_number : text) : qr_result text :=
  napas_payload bank_bin account_number None None.

(** * The parser *)

Record ParsedVietQr := {
  dynamic : bool;
  parsed_bank_bin : text;
  parsed_account_number : text;
  parsed_amount_vnd : option Z;
  parsed_purpose : option text;
  parsed_crc : text;
}.
#[export] Instance parsed_eq_dec : EqDecision ParsedVietQr.
Proof. solve_decision. Defined.

(** [t[i:j]] for [0 <= i <= j]. *)
Definition slice (t : text) (i j : nat) : text := take (j - i) (drop i t).

(** The loop of [_fields]; each turn moves the position forward by at least four, so
    [length t] turns end it ([fields_loop_turn] below). *)
Fixpoint fields_loop (fuel : nat) (t : text) (position : nat) (found : dict text text)
    : qr_result (dict text text) :=
  match fuel with
  | O => Ok found
  | S fuel' =>
      if negb (position <? length t)%nat then Ok found
      else if (length t <? position + 4)%nat then Err FieldCutShort
      else
      let tag := slice t position (position + 2) in
      let size := slice t (position + 2) (position + 4) in
      if negb (isdigit tag) || negb (isdigit size) then Err FieldHeaderNotDigits
      else
      let stop := (position + 4 + Z.to_nat (int size))%nat in
      if (length t <? stop)%nat then Err (FieldPastEnd tag)
      else if tag in? found.*1 then Err (FieldTwice tag)
      else fields_loop fuel' t stop (found ++ [(tag, slice t (position + 4) stop)])
  end.

Definition _fields (t : text) : qr_result (dict text text) := fields_loop (length t) t 0 [].

(** [t[-8:-4]] and the like, of a text of at least eight characters. *)
Definition but_last (k : nat) (t : text) : text := take (length t - k) t.
Definition last_chars (k : nat) (t : text) : text := drop (length t - k) t.

Definition parse_payload (t : text) : qr_result ParsedVietQr :=
  raise_if (negb (isascii t) || (length t <? 8)%nat) NotAscii ;;
  raise_if (negb (but_last 4 (last_chars 8 t) is? txt "6304")) NoCrcField ;;
  raise_if (negb (crc_hex (but_last 4 t) is? last_chars 4 t)) CrcMismatch ;;
  fields ← _fields (but_last 8 t);
  raise_if (negb (dict_get fields (txt "00") is? Some (txt "01"))) BadFormatIndicator ;;
  let initiation := dict_get fields (txt "01") in
  raise_if (negb (initiation in? [Some POINT_OF_INITIATION_STATIC; Some POINT_OF_INITIATION_DYNAMIC]))
    BadPointOfInitiation ;;
  template ← _fields (default [] (dict_get fields (txt "38")));
  raise_if (negb (dict_get template (txt "00") is? Some NAPAS_GUID)
            || negb (dict_get template (txt "02") is? Some SERVICE_TO_ACCOUNT)) NotNapas ;;
  beneficiary ← _fields (default [] (dict_get template (txt "01")));
  let bank_bin := default [] (dict_get beneficiary (txt "00")) in
  let account := default [] (dict_get beneficiary (txt "01")) in
  _require_account bank_bin account ;;
  raise_if (negb (dict_get fields (txt "53") is? Some CURRENCY_VND)
            || negb (dict_get fields (txt "58") is? Some COUNTRY_VN)) BadCurrencyOrCountry ;;
  amount ← match dict_get fields (txt "54") with
           | Some amount_text =>
               raise_if (negb (isdigit amount_text) || startswith (txt "0") amount_text) AmountNotDigits ;;
               amount ← _require_amount (int amount_text);
               Ok (Some amount)
           | None => Ok None
           end;
  purpose ← match dict_get fields (txt "62") with
            | Some additional => sub ← _fields additional; Ok (dict_get sub (txt "08"))
            | None => Ok None
            end;
  let dynamic := initiation is? Some POINT_OF_INITIATION_DYNAMIC in
  raise_if (xorb dynamic (negb (amount is? None))) DynamicMismatch ;;
  Ok {| dynamic := dynamic; parsed_bank_bin := bank_bin; parsed_account_number := account;
        parsed_amount_vnd := amount; parsed_purpose := purpose; parsed_crc := last_chars 4 t |}.

(** * When an order has a QR *)

Module QrRefusal.
Inductive t :=
| BANK_ACCOUNT_UNPUBLISHED | NOTHING_OWED | ORDER_NOT_ACTIVE | NO_PRESENTABLE_TOTAL
| MONTH_NOT_STARTED | AMOUNT_ABOVE_REMAINING | AMOUNT_INVALID.
#[export] Instance eq_dec : EqDecision t.
Proof. solve_decision. Defined.
End QrRefusal.
#[export] Existing Instance QrRefusal.eq_dec.

(** [int | QrRefusal]. *)
Inductive QrAmount :=
| Asks (vnd : Z)
| NoQr (refusal : QrRefusal.t).
#[export] Instance qr_amount_eq_dec : EqDecision QrAmount.
Proof. solve_decision. Defined.

Definition _OWING_BALANCES : list OrderBalanceStatus.t :=
  [OrderBalanceStatus.UNPAID; OrderBalanceStatus.PARTIALLY_PAID].

Definition order_qr_amount (commercial : CommercialOrderStatus.t) (balance : OrderBalanceStatus.t)
    (remaining_vnd part_vnd : option Z) : qr_result QrAmount :=
  if negb (balance in? _OWING_BALANCES) then Ok (NoQr QrRefusal.NOTHING_OWED)
  else if negb (commercial is? CommercialOrderStatus.ACTIVE) then Ok (NoQr QrRefusal.ORDER_NOT_ACTIVE)
  else match remaining_vnd with
  | None => Ok (NoQr QrRefusal.NO_PRESENTABLE_TOTAL)
  | Some remaining_vnd =>
      if remaining_vnd =? 0 then Ok (NoQr QrRefusal.NOTHING_OWED)
      else match part_vnd with
      | None => amount ← _require_amount remaining_vnd; Ok (Asks amount)
      | Some part_vnd =>
          if negb ((1 <=? part_vnd) && (part_vnd <=? MAX_SETTLEMENT_VND))
          then Ok (NoQr QrRefusal.AMOUNT_INVALID)
          else if remaining_vnd <? part_vnd then Ok (NoQr QrRefusal.AMOUNT_ABOVE_REMAINING)
          else Ok (Asks part_vnd)
      end
  end.

(** The outer [None] is the [ValueError] of a negative figure. *)
Definition account_month_qr_amount (unpaid_vnd : Z) : option (qr_result QrAmount) :=
  if unpaid_vnd <? 0 then None
  else if unpaid_vnd =? 0 then Some (Ok (NoQr QrRefusal.NOTHING_OWED))
  else Some (amount ← _require_amount unpaid_vnd; Ok (Asks amount)).


(** The source's golden vectors (test_vietqr.py), built and read back. *)
Example static_golden_vector :
  static_vietqr_payload (txt "970416") (txt "257678859") =
  Ok (txt "00020101021138530010A0000007270123000697041601092576788590208QRIBFTTA53037045802VN6304AE9F").
Proof. vm_compute. reflexivity. Qed.

Example dynamic_golden_vector :
  napas_payload (txt "970416") (txt "257678859") (Some 10_000) (Some (txt "Chuyen tien")) =
  Ok (txt "00020101021238530010A0000007270123000697041601092576788590208QRIBFTTA53037045405100005802VN62150811Chuyen tien630453E6").
Proof. vm_compute. reflexivity. Qed.

(** * Fields *)

Definition field_text (f : text * text) : text :=
  f.1 ++ zero_padded 2 (Z.of_nat (length f.2)) ++ f.2.

(** A field the parser reads back: a two-digit tag and at most 99 characters. *)
Definition good_field (f : text * text) : Prop :=
  length f.1 = 2%nat ∧ isdigit f.1 = true ∧ (length f.2 <= 99)%nat.

Lemma _field_Ok tag v f :
  _field tag v = Ok f ↔ (length v <= 99)%nat ∧ f = field_text (tag, v).
Proof.
  unfold _field. destruct (Nat.ltb_spec 99 (length v)); [split; [done|lia]|].
  split; [intros [= <-]; split; [lia|done]|by intros [_ ->]].
Qed.

Lemma slice_app_mid (a b c : text) i j :
  i = length a → j = (length a + length b)%nat → slice (a ++ b ++ c) i j = b.
Proof.
  intros -> ->. unfold slice. rewrite drop_app_length, Nat.add_comm, Nat.add_sub.
  apply take_app_length.
Qed.

Lemma length_field_text f : length (field_text f) = (length f.1 + 2 + length f.2)%nat.
Proof. unfold field_text. rewrite !length_app, length_zero_padded. lia. Qed.

Lemma isdigit_zero_padded k n : isdigit (zero_padded (S k) n) = true.
Proof.
  unfold isdigit. rewrite forallb_zero_padded, andb_true_r, bool_decide_false; [done|].
  intros H. apply (f_equal length) in H. by rewrite length_zero_padded in H.
Qed.

(** One turn of the loop reads one good field. *)
Lemma fields_turn fuel before f rest found :
  good_field f → f.1 ∉ found.*1 →
  fields_loop (S fuel) (before ++ field_text f ++ rest) (length before) found =
  fields_loop fuel (before ++ field_text f ++ rest) (length (before ++ field_text f)) (found ++ [f]).
Proof.
  destruct f as [tag v]. cbn [fst]. intros (Htag & Hdig & Hv) Hnew. cbn [fst snd] in Htag, Hdig, Hv.
  assert (int (zero_padded 2 (Z.of_nat (length v))) = Z.of_nat (length v)) as Hint
    by (apply int_zero_padded; cbn; lia).
  set (t := before ++ field_text (tag, v) ++ rest).
  assert (length t = (length before + (4 + length v) + length rest)%nat) as Hlen.
  { subst t. rewrite !length_app, length_field_text. cbn [fst snd]. lia. }
  assert (slice t (length before) (length before + 2) = tag) as Hs1.
  { subst t. unfold field_text. cbn [fst snd]. rewrite <- !app_assoc. apply slice_app_mid; lia. }
  assert (slice t (length before + 2) (length before + 4) =
          zero_padded 2 (Z.of_nat (length v))) as Hs2.
  { subst t. unfold field_text. cbn [fst snd]. rewrite <- !app_assoc, (app_assoc before).
    apply slice_app_mid; rewrite length_app, ?length_zero_padded; lia. }
  assert (slice t (length before + 4) (length before + 4 + length v) = v) as Hs3.
  { subst t. unfold field_text. cbn [fst snd]. rewrite <- !app_assoc, (app_assoc before).
    rewrite (app_assoc (before ++ tag)).
    apply slice_app_mid; rewrite !length_app, length_zero_padded; lia. }
  cbn [fields_loop]. rewrite Hs1, Hs2, Hint, Nat2Z.id, Hs3, Hdig, isdigit_zero_padded, Hlen.
  rewrite (proj2 (Nat.ltb_lt _ _)) by lia. rewrite (proj2 (Nat.ltb_ge _ _)) by lia.
  rewrite (proj2 (Nat.ltb_ge _ _)) by lia. rewrite bool_decide_false by done. cbn [negb orb].
  f_equal. rewrite length_app, length_field_text. cbn [fst snd]. lia.
Qed.

(** At the end of the text the loop stops, whatever fuel is left. *)
Lemma fields_end fuel t position found :
  (length t <= position)%nat → fields_loop fuel t position found = Ok found.
Proof.
  intros H. destruct fuel as [|fuel]; [done|]. cbn [fields_loop].
  by rewrite (proj2 (Nat.ltb_ge _ _)) by done.
Qed.

Lemma fields_list fs : ∀ fuel before found,
  Forall good_field fs → NoDup (found ++ fs).*1 → (length fs <= fuel)%nat →
  fields_loop fuel (before ++ concat (field_text <$> fs)) (length before) found = Ok (found ++ fs).
Proof.
  induction fs as [|f fs IH]; intros fuel before found Hg Hnd Hf.
  - rewrite fields_end by (cbn; rewrite app_nil_r; done). by rewrite app_nil_r.
  - apply Forall_cons in Hg as [Hgf Hg]. destruct fuel as [|fuel]; [cbn in Hf; lia|].
    cbn [fmap list_fmap concat] in *. rewrite fields_turn; [|done|].
    + rewrite (app_assoc before).
      replace (found ++ f :: fs) with ((found ++ [f]) ++ fs) by by rewrite <- app_assoc.
      apply IH; [done| |cbn in Hf; lia]. by rewrite <- app_assoc.
    + rewrite fmap_app in Hnd. apply NoDup_app in Hnd as (_ & Hd & _).
      intros Hin. apply (Hd _ Hin). left.
Qed.

(** Well-formed fields read back as they were written. *)
Lemma fields_of_fields fs :
  Forall good_field fs → NoDup fs.*1 → _fields (concat (field_text <$> fs)) = Ok fs.
Proof.
  intros Hg Hnd. unfold _fields.
  apply (fields_list fs _ [] []); [done|done|].
  clear Hnd. induction Hg as [|f fs _ _ IH]; [done|]. cbn.
  rewrite length_app, length_field_text. lia.
Qed.

(** The fuel never ends the loop before the text does: each turn is the source's. *)
Lemma fields_loop_fuel fuel fuel' t : ∀ position found,
  (length t - position <= fuel)%nat → (length t - position <= fuel')%nat →
  fields_loop fuel t position found = fields_loop fuel' t position found.
Proof.
  revert fuel'. induction fuel as [|fuel IH]; intros fuel' position found Hf Hf'.
  { by rewrite !fields_end by lia. }
  destruct fuel' as [|fuel']; [by rewrite !fields_end by lia|]. cbn [fields_loop].
  destruct (position <? length t)%nat eqn:Hp; [|done]. cbn [negb].
  destruct (length t <? position + 4)%nat; [done|].
  destruct (negb _ || negb _); [done|]. destruct (length t <? _)%nat; [done|].
  destruct (bool_decide _); [done|]. apply Nat.ltb_lt in Hp. apply IH; lia.
Qed.

(** * What the payload says *)

Definition beneficiary_fields (bank_bin account : text) : list (text * text) :=
  [(txt "00", bank_bin); (txt "01", account)].
Definition template_fields (bank_bin account : text) : list (text * text) :=
  [(txt "00", NAPAS_GUID);
   (txt "01", concat (field_text <$> beneficiary_fields bank_bin account));
   (txt "02", SERVICE_TO_ACCOUNT)].

(** The amount and the memo of a dynamic QR. *)
Definition payload_fields (bank_bin account : text) (paid : option (Z * text)) : list (text * text) :=
  [(txt "00", txt "01");
   (txt "01", if paid then POINT_OF_INITIATION_DYNAMIC else POINT_OF_INITIATION_STATIC);
   (txt "38", concat (field_text <$> template_fields bank_bin account));
   (txt "53", CURRENCY_VND)] ++
  match paid with
  | Some (amount, purpose) =>
      [(txt "54", str amount); (txt "58", COUNTRY_VN);
       (txt "62", concat (field_text <$> [(txt "08", purpose)]))]
  | None => [(txt "58", COUNTRY_VN)]
  end.

Definition account_valid (bank_bin account : text) : Prop :=
  BANK_BIN_PATTERN bank_bin = true ∧ ACCOUNT_NUMBER_PATTERN account = true.
Definition paid_valid (paid : option (Z * text)) : Prop :=
  match paid with
  | Some (amount, purpose) =>
      1 <= amount <= MAX_SETTLEMENT_VND ∧ (1 <= length purpose <= 25)%nat ∧
      forallb printable purpose = true
  | None => True
  end.

Lemma _require_account_Ok b a u : _require_account b a = Ok u ↔ account_valid b a.
Proof.
  unfold _require_account, account_valid. rewrite raise_bind_Ok, raise_if_Ok, !negb_false_iff. done.
Qed.

Lemma _require_amount_Ok v w : _require_amount v = Ok w ↔ w = v ∧ 1 <= v <= MAX_SETTLEMENT_VND.
Proof.
  unfold _require_amount. destruct ((1 <=? v) && (v <=? MAX_SETTLEMENT_VND)) eqn:Hv; cbn [negb].
  - split; [intros [= <-]; split; [done|lia]|by intros [-> _]].
  - split; [done|lia].
Qed.

Lemma account_lengths b a : account_valid b a → length b = 6%nat ∧ (6 <= length a <= 19)%nat.
Proof.
  unfold account_valid, BANK_BIN_PATTERN, ACCOUNT_NUMBER_PATTERN.
  rewrite !andb_true_iff, Nat.eqb_eq, !Nat.leb_le. tauto.
Qed.

Lemma amount_length v : 1 <= v <= MAX_SETTLEMENT_VND → (1 <= length (str v) <= 16)%nat.
Proof.
  intros Hv. split; [|apply (length_str 15); split; [lia|];
    apply Z.le_lt_trans with MAX_SETTLEMENT_VND; [lia|reflexivity]].
  destruct (str_head v) as (d & ds & -> & _); [lia|]. cbn. lia.
Qed.

Lemma length_template b a :
  account_valid b a → (length (concat (field_text <$> template_fields b a)) <= 63)%nat.
Proof.
  intros [Hb Ha]%account_lengths. unfold template_fields, beneficiary_fields.
  cbn [fmap list_fmap concat].
  rewrite !length_app, !length_field_text. cbn [fst snd]. rewrite !length_app, !length_field_text. cbn. lia.
Qed.

Lemma payload_fields_good b a paid :
  account_valid b a → paid_valid paid → Forall good_field (payload_fields b a paid).
Proof.
  intros Hv Hp. pose proof (length_template b a Hv). unfold good_field.
  destruct paid as [[amount purpose]|]; cbn [payload_fields app];
    repeat apply Forall_cons_2; try apply Forall_nil_2; cbn [fst snd];
    (split_and!; [reflexivity|reflexivity|try (cbn; lia)]); try lia.
  - destruct Hp as [Hp _]. pose proof (amount_length _ Hp). lia.
  - destruct Hp as (_ & Hp & _). cbn [fmap list_fmap concat]. rewrite app_nil_r, length_field_text.
    cbn [fst snd]. cbn. lia.
Qed.

Lemma inner_fields_good b a : account_valid b a →
  Forall good_field (template_fields b a) ∧ Forall good_field (beneficiary_fields b a).
Proof.
  intros [Hb Ha]%account_lengths. unfold good_field.
  split; repeat apply Forall_cons_2; try apply Forall_nil_2; cbn [fst snd];
    (split_and!; [reflexivity|reflexivity|try (cbn; lia)]).
  unfold beneficiary_fields. cbn [fmap list_fmap concat].
  rewrite !length_app, !length_field_text. cbn. lia.
Qed.

Lemma fields_written fs :
  Forall good_field fs → Forall (λ f, _field f.1 f.2 = Ok (field_text f)) fs.
Proof.
  intros Hg. eapply Forall_impl; [exact Hg|]. intros [tag v] (_ & _ & H). by apply _field_Ok.
Qed.

Lemma _account_template_eq b a : account_valid b a →
  _account_template b a = Ok (concat (field_text <$> template_fields b a)).
Proof.
  intros Hv. destruct (inner_fields_good b a Hv) as [Ht%fields_written Hb%fields_written].
  unfold template_fields, beneficiary_fields in *. rewrite !Forall_cons in Ht. rewrite !Forall_cons in Hb.
  destruct Ht as (T0 & T1 & T2 & _), Hb as (B0 & B1 & _). cbn [fst snd] in *.
  cbn [fmap list_fmap concat] in T1 |- *. rewrite !app_nil_r in *.
  unfold _account_template. by rewrite B0, B1, T0; cbn [mbind result_bind]; rewrite T1, T2.
Qed.

(** The payload of valid inputs: every field fits, so nothing is refused. *)
Lemma napas_payload_eq b a paid :
  account_valid b a → paid_valid paid →
  napas_payload b a (fst <$> paid) (snd <$> paid) =
  Ok (_with_crc (concat (field_text <$> payload_fields b a paid))).
Proof.
  intros Hv Hp. pose proof (fields_written _ (payload_fields_good b a paid Hv Hp)) as Hg.
  unfold napas_payload. rewrite (proj2 (_require_account_Ok b a tt) Hv). cbn [mbind result_bind].
  destruct paid as [[amount purpose]|]; unfold payload_fields in *; cbn [app] in *;
    rewrite !Forall_cons in Hg; cbn [fst snd fmap option_fmap option_map] in *.
  - destruct Hp as (Ha & Hl & Hc), Hg as (G0 & G1 & G2 & G3 & G4 & G5 & G6 & _).
    cbn [fmap list_fmap concat] in G6 |- *. rewrite !app_nil_r in *.
    rewrite !bool_decide_false by done. cbn [xorb raise_if mbind result_bind].
    rewrite (proj2 (_require_amount_Ok amount amount)) by done. rewrite G0. cbn [mbind result_bind].
    rewrite !(proj2 (Nat.leb_le _ _)) by lia.
    rewrite Hc, G1, _account_template_eq by done. cbn [negb orb raise_if mbind result_bind].
    rewrite G2, G3, G4, G5, (proj2 (_field_Ok (txt "08") purpose _)) by (split; [lia|done]).
    cbn [mbind result_bind]. rewrite G6. cbn [mbind result_bind concat]. by rewrite app_nil_r.
  - destruct Hg as (G0 & G1 & G2 & G3 & G4 & _).
    rewrite !bool_decide_true by done. cbn [xorb raise_if mbind result_bind].
    rewrite G0, G1, _account_template_eq by done. cbn [mbind result_bind].
    by rewrite G2, G3, G4.
Qed.

Lemma napas_payload_valid b a amount purpose t :
  napas_payload b a amount purpose = Ok t →
  account_valid b a ∧ ∃ paid, amount = fst <$> paid ∧ purpose = snd <$> paid ∧ paid_valid paid.
Proof.
  unfold napas_payload. intros H. apply bind_Ok in H as (u & Hv & H). apply _require_account_Ok in Hv.
  split; [done|]. apply raise_bind_Ok in H as [Hx H]. apply bind_Ok in H as (f & _ & H).
  destruct amount as [amount|], purpose as [purpose|]; try discriminate Hx.
  - exists (Some (amount, purpose)). split_and!; [done..|].
    apply bind_Ok in H as (v & Ha & H). apply _require_amount_Ok in Ha as [-> Ha].
    apply raise_bind_Ok in H as [Hc _]. apply orb_false_iff in Hc as [Hl Hc].
    apply negb_false_iff, andb_true_iff in Hl. rewrite !Nat.leb_le in Hl.
    split_and!; [apply Ha|apply Ha|apply Hl|apply Hl|by apply negb_false_iff].
  - by exists None.
Qed.

(** * Reading a payload back *)

Lemma isascii_app t u : isascii (t ++ u) = isascii t && isascii u.
Proof. apply forallb_app. Qed.

Lemma isascii_digits t : forallb is_digit_char t = true → isascii t = true.
Proof.
  unfold isascii. rewrite !forallb_forall. intros H c Hc%H. revert Hc.
  unfold is_digit_char, between. lia.
Qed.

Lemma isascii_fields fs :
  Forall (λ f, isascii f.1 = true ∧ isascii f.2 = true) fs →
  isascii (concat (field_text <$> fs)) = true.
Proof.
  induction 1 as [|f fs [H1 H2] _ IH]; [done|]. rewrite fmap_cons. cbn [concat].
  unfold field_text at 1. rewrite !isascii_app, H1, H2, IH.
  by rewrite (isascii_digits (zero_padded _ _)) by apply forallb_zero_padded.
Qed.

Lemma isascii_hex k : ∀ n, isascii (hex_padded k n) = true.
Proof.
  induction k as [|k IH]; intros n; [done|]. cbn [hex_padded]. rewrite isascii_app, IH. cbn.
  rewrite andb_true_r. pose proof (Z.mod_pos_bound n 16 ltac:(lia)). unfold hex_char.
  destruct (Z.ltb_spec (n mod 16) 10); rewrite ord_chr; lia.
Qed.

Lemma forallb_weaken {A} (p q : A → bool) l :
  (∀ x, p x = true → q x = true) → forallb p l = true → forallb q l = true.
Proof. intros H. rewrite !forallb_forall. eauto. Qed.

Lemma isascii_account b a : account_valid b a → isascii b = true ∧ isascii a = true.
Proof.
  unfold account_valid, BANK_BIN_PATTERN, ACCOUNT_NUMBER_PATTERN. rewrite !andb_true_iff.
  intros [[_ Hb] [_ Ha]]. split; [by apply isascii_digits|]. revert Ha.
  apply forallb_weaken. intros c. unfold is_digit_char, between. lia.
Qed.

Lemma isascii_payload_fields b a paid : account_valid b a → paid_valid paid →
  isascii (concat (field_text <$> payload_fields b a paid)) = true.
Proof.
  intros Hv Hp. destruct (isascii_account b a Hv) as [Hb Ha]. apply isascii_fields.
  assert (isascii (concat (field_text <$> template_fields b a)) = true) as Ht.
  { apply isascii_fields. unfold template_fields. rewrite !Forall_cons. cbn [fst snd].
    rewrite isascii_fields; [by repeat split|]. unfold beneficiary_fields. rewrite !Forall_cons.
    by repeat split. }
  destruct paid as [[amount purpose]|]; cbn [payload_fields app]; rewrite !Forall_cons; cbn [fst snd].
  - destruct Hp as (Ham & _ & Hc). rewrite Ht. rewrite (isascii_digits (str amount)).
    + rewrite isascii_fields; [by repeat split|]. rewrite !Forall_cons. cbn [fst snd].
      split_and!; [done| |done]. revert Hc. apply forallb_weaken. intros c.
      unfold printable, between. lia.
    + pose proof (isdigit_str amount ltac:(lia)) as H. unfold isdigit in H.
      by apply andb_true_iff in H as [_ H].
  - by rewrite Ht.
Qed.

Lemma but_last_app (t u : text) k : length u = k → but_last k (t ++ u) = t.
Proof. intros <-. unfold but_last. rewrite length_app, Nat.add_sub. apply take_app_length. Qed.
Lemma last_chars_app (t u : text) k : length u = k → last_chars k (t ++ u) = u.
Proof. intros <-. unfold last_chars. rewrite length_app, Nat.add_sub. apply drop_app_length. Qed.

(** The checksum part of the parser accepts what [_with_crc] writes. *)
Lemma with_crc_parts body :
  but_last 8 (_with_crc body) = body ∧ but_last 4 (last_chars 8 (_with_crc body)) = txt "6304" ∧
  crc_hex (but_last 4 (_with_crc body)) = last_chars 4 (_with_crc body) ∧
  (8 <= length (_with_crc body))%nat ∧ isascii (_with_crc body) = isascii body.
Proof.
  unfold _with_crc. set (c := crc_hex (body ++ txt "6304")).
  assert (length c = 4%nat) as Hc by apply length_hex_padded.
  assert (isascii c = true) as Ha by apply isascii_hex.
  split_and!.
  - rewrite <- app_assoc. apply but_last_app. rewrite length_app, Hc. done.
  - rewrite <- app_assoc, last_chars_app; [by apply but_last_app|]. rewrite length_app, Hc. done.
  - by rewrite but_last_app, last_chars_app.
  - rewrite !length_app, Hc. cbn. lia.
  - rewrite !isascii_app, Ha. by rewrite !andb_true_r.
Qed.

(** What the parser says of a payload with these fields. *)
Definition parsed_of (b a : text) (paid : option (Z * text)) (crc : text) : ParsedVietQr :=
  {| dynamic := negb (paid is? None); parsed_bank_bin := b; parsed_account_number := a;
     parsed_amount_vnd := fst <$> paid; parsed_purpose := snd <$> paid; parsed_crc := crc |}.

(** A field looked up in a literal list of fields. *)
Ltac field_is d k v :=
  repeat match goal with
  | |- context [@dict_get ?K ?V ?I d k] => change (@dict_get K V I d k) with v
  end; cbn [from_option id].

(** The part of the parser that reads the optional amount. *)
Lemma read_amount amount : 1 <= amount <= MAX_SETTLEMENT_VND →
  negb (isdigit (str amount)) || startswith (txt "0") (str amount) = false ∧
  _require_amount (int (str amount)) = Ok amount.
Proof.
  intros Ha. rewrite isdigit_str, int_str by lia. split; [|by apply _require_amount_Ok].
  destruct (str_head amount) as (d & ds & -> & Hd); [lia|]. cbn [negb orb].
  assert (d ∈ [1; 2; 3; 4; 5; 6; 7; 8; 9]) as Hin by (rewrite !elem_of_cons; lia).
  repeat (apply elem_of_cons in Hin as [->|Hin]; [reflexivity|]). by apply elem_of_nil in Hin.
Qed.

Lemma parse_with_crc b a paid : account_valid b a → paid_valid paid →
  let t := _with_crc (concat (field_text <$> payload_fields b a paid)) in
  parse_payload t = Ok (parsed_of b a paid (last_chars 4 t)).
Proof.
  intros Hv Hp t. destruct (inner_fields_good b a Hv) as [Ht Hb].
  pose proof (payload_fields_good b a paid Hv Hp) as Hg.
  destruct (with_crc_parts (concat (field_text <$> payload_fields b a paid))) as (H1 & H2 & H3 & H4 & H5).
  fold t in H1, H2, H3, H4, H5. rewrite isascii_payload_fields in H5 by done.
  unfold parse_payload. rewrite H5, H2, H3, H1. rewrite (proj2 (Nat.ltb_ge _ _)) by done.
  rewrite !(bool_decide_true (_ = _)) by done. cbn [negb orb raise_if mbind result_bind].
  rewrite fields_of_fields by (done || destruct paid as [[]|]; decided). cbn [mbind result_bind].
  field_is (payload_fields b a paid) (txt "38") (Some (concat (field_text <$> template_fields b a))).
  field_is (payload_fields b a paid) (txt "00") (Some (txt "01")).
  field_is (payload_fields b a paid) (txt "53") (Some CURRENCY_VND).
  rewrite fields_of_fields by (done || decided). cbn [mbind result_bind].
  field_is (template_fields b a) (txt "01") (Some (concat (field_text <$> beneficiary_fields b a))).
  field_is (template_fields b a) (txt "00") (Some NAPAS_GUID).
  field_is (template_fields b a) (txt "02") (Some SERVICE_TO_ACCOUNT).
  rewrite fields_of_fields by (done || decided). cbn [mbind result_bind].
  field_is (beneficiary_fields b a) (txt "00") (Some b).
  field_is (beneficiary_fields b a) (txt "01") (Some a).
  rewrite (proj2 (_require_account_Ok b a tt)) by done.
  destruct paid as [[amount purpose]|].
  - destruct Hp as (Ham & Hl & Hc). destruct (read_amount amount Ham) as [R1 R2].
    pose (fs := payload_fields b a (Some (amount, purpose))). fold fs.
    field_is fs (txt "01") (Some POINT_OF_INITIATION_DYNAMIC).
    field_is fs (txt "58") (Some COUNTRY_VN). field_is fs (txt "54") (Some (str amount)).
    field_is fs (txt "62") (Some (concat (field_text <$> [(txt "08", purpose)]))).
    rewrite R1, R2, fields_of_fields; [done| |decided].
    apply Forall_singleton. repeat split. cbn. lia.
  - done.
Qed.

(** C34: the payload is built exactly when the account number, the amount and the memo
    are ones the standard carries, amount and memo together or not at all; and the
    parser reads back from it the account, the amount and the memo it was built from. *)
Theorem napas_payload_roundtrip b a amount purpose :
  (is_Ok (napas_payload b a amount purpose) = true ↔
   account_valid b a ∧ ∃ paid, amount = fst <$> paid ∧ purpose = snd <$> paid ∧ paid_valid paid) ∧
  ∀ t, napas_payload b a amount purpose = Ok t →
    parse_payload t = Ok {| dynamic := negb (amount is? None); parsed_bank_bin := b;
      parsed_account_number := a; parsed_amount_vnd := amount; parsed_purpose := purpose;
      parsed_crc := last_chars 4 t |}.
Proof.
  split.
  - rewrite is_Ok_true. split.
    + intros [t H]. by apply napas_payload_valid in H.
    + intros (Hv & paid & -> & -> & Hp). eexists. by apply napas_payload_eq.
  - intros t H. destruct (napas_payload_valid _ _ _ _ _ H) as (Hv & paid & -> & -> & Hp).
    rewrite napas_payload_eq in H by done. injection H as <-.
    etrans; [exact (parse_with_crc b a paid Hv Hp)|]. by destruct paid as [[]|].
Qed.

(** The parts of an accepted payload: a body, the CRC field's head, the CRC. *)
Lemma parse_payload_crc t p : parse_payload t = Ok p →
  ∃ body, t = (body ++ txt "6304") ++ crc_hex (body ++ txt "6304").
Proof.
  unfold parse_payload. intros H. apply raise_bind_Ok in H as [H1 H].
  apply raise_bind_Ok in H as [H2 H]. apply raise_bind_Ok in H as [H3 _]. guards.
  apply Nat.ltb_ge in H0. exists (but_last 8 t).
  assert (but_last 4 t = but_last 8 t ++ txt "6304") as Hb.
  { rewrite <- H2. unfold but_last, last_chars. rewrite length_drop.
    replace (length t - (length t - 8) - 4)%nat with 4%nat by lia.
    rewrite take_take_drop. f_equal. lia. }
  rewrite <- Hb, H3. unfold but_last, last_chars. by rewrite take_drop.
Qed.

(** Two such texts with one signed part are one text. *)
Lemma same_signed_part (l w w' r u u' : text) :
  l ++ w ++ r = u ++ crc_hex u → l ++ w' ++ r = u' ++ crc_hex u' → u = u' → w = w'.
Proof. intros H H' <-. rewrite <- H' in H. by apply app_inv_head, app_inv_tail in H. Qed.

Lemma take_signed (t u : text) : t = u ++ crc_hex u → u = take (length t - 4) t.
Proof.
  intros ->. pose proof (length_hex_padded 4 (crc16_ccitt_false (ord <$> u))) as Hc.
  fold (crc_hex u) in Hc. rewrite length_app, Hc, Nat.add_sub. by rewrite take_app_length.
Qed.

(** C33: damage confined to two adjacent characters never goes unnoticed: two texts the
    parser accepts that agree everywhere else are the same text.  A digit misread and
    two neighbours swapped are such changes. *)
Theorem parse_payload_detects (l w w' r : text) p p' :
  length w = length w' → (length w <= 2)%nat →
  parse_payload (l ++ w ++ r) = Ok p → parse_payload (l ++ w' ++ r) = Ok p' → w = w'.
Proof.
  intros Hlen Hw H H'.
  apply parse_payload_crc in H as [body Ht]. apply parse_payload_crc in H' as [body' Ht'].
  destruct (le_lt_dec 4 (length r)) as [Hr|Hr].
  - assert (∀ v, take (length (l ++ v ++ r) - 4) (l ++ v ++ r) = l ++ v ++ take (length r - 4) r) as Hk.
    { intros v. rewrite !length_app.
      replace (length l + (length v + length r) - 4)%nat
        with (length l + (length v + (length r - 4)))%nat by lia.
      by rewrite !take_app_add. }
    pose proof (take_signed _ _ Ht) as Hu. pose proof (take_signed _ _ Ht') as Hu'.
    rewrite Hk in Hu, Hu'. apply (crc_hex_inj l w w' (take (length r - 4) r)); [done..|].
    rewrite <- Hu, <- Hu'. rewrite Hu in Ht at 1. rewrite Hu' in Ht' at 1.
    rewrite <- !app_assoc in Ht, Ht'. apply app_inv_head, app_inv_head in Ht.
    apply app_inv_head, app_inv_head in Ht'.
    apply (app_inv_head (take (length r - 4) r)). by etrans; [symmetry|].
  - apply (same_signed_part l w w' r _ _ Ht Ht').
    pose proof (take_signed _ _ Ht) as Hu. pose proof (take_signed _ _ Ht') as Hu'.
    rewrite !length_app, <- ?Hlen in Hu, Hu'.
    destruct (le_lt_dec (length w + length r) 4) as [Hwr|Hwr].
    + rewrite take_app_le in Hu, Hu' by lia. congruence.
    + destruct w as [|x [|y [|]]], w' as [|x' [|y' [|]]]; try discriminate Hlen; cbn in *; try lia.
      replace (length l + S (S (length r)) - 4)%nat with (length l + 1)%nat in Hu, Hu' by lia.
      rewrite !take_app_add in Hu, Hu'. cbn [take] in Hu, Hu'. rewrite Hu, Hu'.
      assert (∀ b z, b ++ txt "6304" = l ++ [z] → z = "4"%char) as Hlast.
      { intros b z Hz. change (txt "6304") with (txt "630" ++ ["4"%char]) in Hz.
        rewrite app_assoc in Hz. by apply app_inj_tail in Hz as [_ <-]. }
      by rewrite (Hlast _ _ Hu), (Hlast _ _ Hu').
Qed.

(** * The amount asked for *)

Lemma order_qr_amount_Asks c b remaining part v :
  order_qr_amount c b remaining part = Ok (Asks v) ↔
  b ∈ _OWING_BALANCES ∧ c = CommercialOrderStatus.ACTIVE ∧
  ∃ r, remaining = Some r ∧ r ≠ 0 ∧ v = default r part ∧ 1 <= v <= MAX_SETTLEMENT_VND ∧
    (part = None ∨ v <= r).
Proof.
  unfold order_qr_amount, _require_amount.
  destruct (decide (b ∈ _OWING_BALANCES)) as [Hb|Hb];
    [rewrite (bool_decide_true _ Hb)|rewrite (bool_decide_false _ Hb); naive_solver].
  destruct (decide (c = CommercialOrderStatus.ACTIVE)) as [->|Hc];
    [rewrite bool_decide_true by done|rewrite (bool_decide_false _ Hc); naive_solver]. cbn [negb].
  destruct remaining as [r|]; [|naive_solver].
  destruct (Z.eqb_spec r 0); [naive_solver|]. destruct part as [v'|]; cbn [default from_option id].
  - destruct ((1 <=? v') && (v' <=? MAX_SETTLEMENT_VND)) eqn:Hv; cbn [negb].
    + destruct (Z.ltb_spec r v'); [split; [done|]|].
      * intros (_&_&?&[= <-]&_&->&_&[?|?]); [done|lia].
      * split; [intros [= <-]; split_and!; [done..|]; exists r; split_and!; try done; [lia|lia|by right]|].
        by intros (_&_&?&_&_&->&_).
    + split; [done|]. intros (_&_&?&_&_&->&?&_). lia.
  - destruct ((1 <=? r) && (r <=? MAX_SETTLEMENT_VND)) eqn:Hv; cbn [negb mbind result_bind].
    + split; [intros [= <-]; split_and!; [done..|]; exists r; split_and!; try done; [lia|lia|by left]|].
      by intros (_&_&?&[= <-]&_&->&_).
    + split; [done|]. intros (_&_&?&[= <-]&_&->&?&_). lia.
Qed.

(** the QR of an order asks for [v] exactly when [v] is what was typed, or all that
    remains when nothing was, and the payment route would record a seen transfer of
    [v] now: no QR sends the shop money it cannot book, and no refused QR hides a
    payment it would take. *)
Theorem order_qr_is_bookable c b cs paid position part v :
  payment_position (Some cs) paid = Ok position →
  order_qr_amount c b (position_remaining_vnd position) part = Ok (Asks v) ↔
  Some v = (if part then part else position_remaining_vnd position) ∧ 1 <= v ∧
  ∃ a, evaluate_payment c b (Some cs) paid v PaymentMethod.CHUYEN_KHOAN true None false
       = Ok (Accepted a).
Proof.
  intros Hp. pose proof Hp as Hw. unfold payment_position in Hw. apply raise_bind_Ok in Hw as [Hw _].
  apply negb_false_iff, _whole_vnd_spec in Hw.
  apply payment_position_Some in Hp as (_ & Hr & _ & Hv & Hpaid). rewrite Hr, order_qr_amount_Asks.
  setoid_rewrite evaluate_payment_iff. split.
  - intros (Hb & -> & r & [= <-] & Hne & -> & Hvr & Hpart). split_and!; [by destruct part|apply Hvr|].
    assert (default (charges_total cs - paid) part <= charges_total cs - paid) as Hle
      by (destruct Hpart as [->|?]; [cbn; lia|done]).
    eexists. split_and!; [done|done| |apply Hvr|apply Hw|].
    + unfold method_ok. naive_solver.
    + exists cs. split_and!; [done|done|lia|]. split; [reflexivity|]. split; [lia|done].
  - intros (Hpart & Hv1 & a & -> & Hb & _ & Hvm & _ & cs' & [= <-] & _ & _ & _ & [Hle|Hle] & _);
      [|lia]. split_and!; [done|done|]. exists (charges_total cs - paid).
    split_and!; [done|lia| |lia|lia|]; destruct part; injection Hpart as <-; auto.
    right. lia.
Qed.

Lemma order_qr_is_bookable_witness :
  order_qr_amount CommercialOrderStatus.ACTIVE OrderBalanceStatus.PARTIALLY_PAID (Some 70_000)
    (Some 50_000) = Ok (Asks 50_000).
Proof.
  apply (order_qr_is_bookable CommercialOrderStatus.ACTIVE OrderBalanceStatus.PARTIALLY_PAID
    [{| kind := ChargeKind.QUOTED_TOTAL; amount_vnd := 100_000 |}] 30_000
    {| position_charges := [{| kind := ChargeKind.QUOTED_TOTAL; amount_vnd := 100_000 |}];
       position_owed_vnd := Some 100_000; position_paid_vnd := 30_000;
       position_remaining_vnd := Some 70_000 |} (Some 50_000) 50_000);
    [vm_compute; reflexivity|].
  split_and!; [reflexivity|lia|]. eexists. vm_compute. reflexivity.
Defined.

Lemma parse_payload_detects_witness :
  parse_payload (txt "00020101021138530010A0000007270123000697041601092576788590208QRIBFTTA53037045802VN6304AE9F") ≠
    Err CrcMismatch ∧
  (∀ x y p', parse_payload (txt "000201010211" ++ [x; y] ++
     txt "530010A0000007270123000697041601092576788590208QRIBFTTA53037045802VN6304AE9F") = Ok p' →
   [x; y] = txt "38").
Proof.
  split; [vm_compute; discriminate|]. intros x y p' H. symmetry.
  refine (parse_payload_detects (txt "000201010211") (txt "38") [x; y] _ _ p' eq_refl _ _ H);
    [cbn; lia|vm_compute; reflexivity].
Defined.

Lemma napas_payload_roundtrip_witness :
  parse_payload (txt "00020101021238530010A0000007270123000697041601092576788590208QRIBFTTA53037045405100005802VN62150811Chuyen tien630453E6") =
  Ok {| dynamic := true; parsed_bank_bin := txt "970416"; parsed_account_number := txt "257678859";
        parsed_amount_vnd := Some 10_000; parsed_purpose := Some (txt "Chuyen tien");
        parsed_crc := txt "53E6" |}.
Proof.
  exact (proj2 (napas_payload_roundtrip (txt "970416") (txt "257678859") (Some 10_000)
    (Some (txt "Chuyen tien"))) _ dynamic_golden_vector).
Defined.
