(* ===== verification/TransferCode.v ===== *)
(** The transfer codes of [vietqr.py]: what the counter prints in a QR's memo, and which
    order or account month a code typed back by staff names.  Texts are ASCII; an id is
    a 128-bit number whose [hex] is 32 lower-case digits. *)
From Stdlib Require Import Ascii String.
From S2P Require Import Prelude Accounts.
From S2P Require Import PyDecimal Text Uuid.
Local Open Scope laundry_scope.
Local Open Scope Z_scope.

Definition TRANSFER_CODE_PREFIX : text := txt "NTL".
Definition ACCOUNT_MONTH_PREFIX : text := txt "NTLCN".
Definition TICKET_FORM_MAX : Z := 999.

Definition order_transfer_code (order_id : Z) (ticket_number : option Z)
    (ticket_issued_on : option date) : text :=
  match ticket_number, ticket_issued_on with
  | Some ticket_number, Some issued =>
      if (1 <=? ticket_number) && (ticket_number <=? TICKET_FORM_MAX)
      then TRANSFER_CODE_PREFIX ++ zero_padded 2 (day issued) ++ zero_padded 2 (month issued)
           ++ zero_padded 3 ticket_number
      else TRANSFER_CODE_PREFIX ++ upper (take 8 (uuid_hex order_id))
  | _, _ => TRANSFER_CODE_PREFIX ++ upper (take 8 (uuid_hex order_id))
  end.

Definition account_month_transfer_code (account_id : Z) (m : date) : text :=
  ACCOUNT_MONTH_PREFIX ++ upper (take 6 (uuid_hex account_id)) ++ zero_padded 2 (month m)
  ++ zero_padded 2 (year m mod 100).

Inductive TransferCode :=
| TicketTransferCode (day month ticket_number : Z)
| OrderIdTransferCode (prefix : text)
| AccountMonthTransferCode (account_prefix : text) (month year_two_digits : Z).
#[export] Instance transfer_code_eq_dec : EqDecision TransferCode.
Proof. solve_decision. Defined.

(** ["".join(text.split()).upper()]. *)
Definition normalise_transfer_code (t : text) : text := upper (filter (λ c, is_space c = false) t).

(** A full match of [^PREFIX(group 1)(group 2)...$]: the prefix, then groups of fixed
    widths over a character class each. *)
Fixpoint match_groups (groups : list (nat * (ascii → bool))) (t : text) : option (list text) :=
  match groups with
  | [] => if t is? [] then Some [] else None
  | (width, cls) :: groups' =>
      let g := take width t in
      if (length g =? width)%nat && forallb cls g
      then cons g <$> match_groups groups' (drop width t)
      else None
  end.
Definition fullmatch (prefix : text) (groups : list (nat * (ascii → bool))) (t : text)
    : option (list text) :=
  if startswith prefix t then match_groups groups (drop (length prefix) t) else None.

Definition upper_hex (c : ascii) : bool := is_digit_char c || between 65 70 c.

Definition _TICKET_FORM : text → option (list text) :=
  fullmatch (txt "NTL") [(2%nat, is_digit_char); (2%nat, is_digit_char); (3%nat, is_digit_char)].
Definition _ID_FORM : text → option (list text) := fullmatch (txt "NTL") [(8%nat, upper_hex)].
Definition _ACCOUNT_MONTH_FORM : text → option (list text) :=
  fullmatch (txt "NTLCN") [(6%nat, upper_hex); (2%nat, is_digit_char); (2%nat, is_digit_char)].

Definition _days_in_month (m : Z) : Z :=
  if m =? 2 then 29 else if m in? [4; 6; 9; 11] then 30 else 31.

Definition parse_transfer_code (t : text) : option TransferCode :=
  let code := normalise_transfer_code t in
  match _TICKET_FORM code with
  | Some [dd; mm; nnn] =>
      let day := int dd in
      let month := int mm in
      let number := int nnn in
      if negb ((1 <=? month) && (month <=? 12)) || negb ((1 <=? day) && (day <=? _days_in_month month))
         || (number <? 1)
      then None
      else Some (TicketTransferCode day month number)
  | _ =>
  match _ID_FORM code with
  | Some [prefix] => Some (OrderIdTransferCode (lower prefix))
  | _ =>
  match _ACCOUNT_MONTH_FORM code with
  | Some [prefix; mm; yy] =>
      if (1 <=? int mm) && (int mm <=? 12)
      then Some (AccountMonthTransferCode (lower prefix) (int mm) (int yy))
      else None
  | _ => None
  end end end.

(** The examples of the source's docstring. *)
Example ticket_code :
  order_transfer_code 0 (Some 12) (Some (Date 2026 9 28)) = txt "NTL2809012".
Proof. vm_compute. reflexivity. Qed.
Example typed_ticket_code :
  parse_transfer_code (txt "  ntl 2809 012 ") = Some (TicketTransferCode 28 9 12).
Proof. vm_compute. reflexivity. Qed.
Example no_such_day : parse_transfer_code (txt "NTL3213001") = None.
Proof. vm_compute. reflexivity. Qed.

(** * The forms *)

Lemma match_groups_concat groups : ∀ ts,
  Forall2 (λ g t, length t = g.1 ∧ forallb g.2 t = true) groups ts →
  match_groups groups (concat ts) = Some ts.
Proof.
  induction groups as [|[width cls] groups IH]; intros ts H.
  - by apply Forall2_nil_inv_l in H as ->.
  - apply Forall2_cons_inv_l in H as (t & ts' & [Hl Hc] & H & ->). cbn [concat match_groups fst snd] in *.
    subst width. rewrite take_app_length, drop_app_length, Nat.eqb_refl, Hc. cbn [andb].
    by rewrite IH.
Qed.

Lemma match_groups_length groups : ∀ t ts,
  match_groups groups t = Some ts → length t = sum_list (fst <$> groups).
Proof.
  induction groups as [|[width cls] groups IH]; intros t ts; cbn [match_groups].
  - case_bool_decide; [by subst|done].
  - destruct ((length (take width t) =? width)%nat && _) eqn:Hg; [|done].
    apply andb_true_iff in Hg as [Hl _]. apply Nat.eqb_eq in Hl.
    intros H. apply fmap_Some in H as (ts' & H%IH & _). rewrite fmap_cons. cbn.
    rewrite length_drop in H. rewrite length_take in Hl. rewrite <- H. lia.
Qed.

Lemma startswith_app p t : startswith p (p ++ t) = true.
Proof. unfold startswith. rewrite take_app_length. by apply bool_decide_true. Qed.

Lemma fullmatch_concat prefix groups ts :
  Forall2 (λ g t, length t = g.1 ∧ forallb g.2 t = true) groups ts →
  fullmatch prefix groups (prefix ++ concat ts) = Some ts.
Proof.
  intros H. unfold fullmatch. rewrite startswith_app, drop_app_length. by apply match_groups_concat.
Qed.

Lemma fullmatch_length prefix groups t :
  length t ≠ (length prefix + sum_list (fst <$> groups))%nat → fullmatch prefix groups t = None.
Proof.
  intros Hne. unfold fullmatch. destruct (startswith prefix t) eqn:Hs; [|done].
  destruct (match_groups groups (drop (length prefix) t)) eqn:Hm; [|done].
  apply match_groups_length in Hm. rewrite length_drop in Hm. destruct Hne.
  unfold startswith in Hs. apply bool_decide_eq_true in Hs.
  apply (f_equal length) in Hs. rewrite length_take in Hs. lia.
Qed.

(** * Ids as hexadecimal text *)

Lemma hex_chars k : ∀ n, forallb upper_hex (hex_padded k n) = true.
Proof.
  induction k as [|k IH]; intros n; [done|]. cbn [hex_padded]. rewrite forallb_app, IH. cbn.
  rewrite andb_true_r. pose proof (Z.mod_pos_bound n 16 ltac:(lia)).
  unfold hex_char, upper_hex, is_digit_char, between.
  destruct (Z.ltb_spec (n mod 16) 10); rewrite ord_chr by lia; lia.
Qed.

Lemma upper_lower_hex t : forallb upper_hex t = true → upper (lower t) = t.
Proof.
  unfold upper, lower. induction t as [|c t IH]; [done|]. cbn [forallb].
  intros [Hc Ht]%andb_true_iff. cbn [fmap list_fmap]. f_equal; [|by apply IH].
  revert c Hc. cut (∀ c, negb (upper_hex c) || (upper_char (lower_char c) is? c) = true).
  { intros H c Hc. specialize (H c). rewrite Hc in H. by apply bool_decide_eq_true in H. }
  apply for_all_chars. vm_compute. reflexivity.
Qed.

Lemma fmap_take {A B} (f : A → B) n l : f <$> take n l = take n (f <$> l).
Proof. revert n. induction l; intros [|n]; cbn; f_equal; auto. Qed.

Lemma upper_uuid k u : upper (take k (uuid_hex u)) = take k (hex_padded 32 u).
Proof.
  unfold uuid_hex, upper at 1. rewrite fmap_take. f_equal.
  apply (upper_lower_hex (hex_padded 32 u)), hex_chars.
Qed.

Lemma lower_take k u : lower (take k (hex_padded 32 u)) = take k (uuid_hex u).
Proof. apply fmap_take. Qed.

(** * Normal forms *)

Definition code_char (c : ascii) : bool := is_digit_char c || between 65 90 c.

Lemma code_char_normal c : code_char c = true → is_space c = false ∧ upper_char c = c.
Proof.
  revert c. cut (∀ c, negb (code_char c) || (negb (is_space c) && (upper_char c is? c)) = true).
  { intros H c Hc. specialize (H c). rewrite Hc in H. cbn [negb orb] in H. by guards. }
  apply for_all_chars. vm_compute. reflexivity.
Qed.

(** A code is its own normal form. *)
Lemma normalise_code t : forallb code_char t = true → normalise_transfer_code t = t.
Proof.
  unfold normalise_transfer_code, upper. induction t as [|c t IH]; [done|]. cbn [forallb].
  intros [Hc Ht]%andb_true_iff. apply code_char_normal in Hc as [Hs Hu].
  unfold text in *. rewrite filter_cons_True by done. cbn [fmap list_fmap]. f_equal; [done|by apply IH].
Qed.

Lemma upper_hex_code c : upper_hex c = true → code_char c = true.
Proof. unfold upper_hex, code_char, is_digit_char, between. lia. Qed.

Lemma forallb_take {A} (p : A → bool) n l : forallb p l = true → forallb p (take n l) = true.
Proof. rewrite !forallb_forall. intros H x Hx. apply H. rewrite <- (firstn_skipn n l), in_app_iff. auto. Qed.

Lemma id_group k u : (k <= 32)%nat →
  length (take k (hex_padded 32 u)) = k ∧ forallb upper_hex (take k (hex_padded 32 u)) = true.
Proof.
  intros Hk. rewrite length_take, length_hex_padded. split; [lia|]. apply forallb_take, hex_chars.
Qed.

Lemma digit_group k n : length (zero_padded k n) = k ∧ forallb is_digit_char (zero_padded k n) = true.
Proof. split; [apply length_zero_padded|apply forallb_zero_padded]. Qed.
#[local] Hint Resolve digit_group : laundry.

Lemma digits_code k n : forallb code_char (zero_padded k n) = true.
Proof.
  rewrite forallb_forall. intros c Hc. unfold code_char. apply orb_true_iff. left.
  revert c Hc. apply forallb_forall, forallb_zero_padded.
Qed.

Lemma id_code k u : forallb code_char (take k (hex_padded 32 u)) = true.
Proof.
  rewrite forallb_forall. intros c Hc. apply upper_hex_code. revert c Hc.
  apply forallb_forall, forallb_take, hex_chars.
Qed.

(** * Reading the three forms *)

Lemma parse_normal t code : normalise_transfer_code t = code → forallb code_char code = true →
  parse_transfer_code t = parse_transfer_code code.
Proof. intros Ht Hc. unfold parse_transfer_code. by rewrite (normalise_code code), Ht. Qed.

Lemma parse_ticket_form d m n :
  1 <= m <= 12 → 1 <= d <= _days_in_month m → 1 <= n <= 999 →
  let code := TRANSFER_CODE_PREFIX ++ zero_padded 2 d ++ zero_padded 2 m ++ zero_padded 3 n in
  forallb code_char code = true ∧ parse_transfer_code code = Some (TicketTransferCode d m n).
Proof.
  intros Hm Hd Hn code. assert (d <= 31) as Hd'.
  { revert Hd. unfold _days_in_month. destruct (m =? 2); [lia|]. case_bool_decide; lia. }
  assert (forallb code_char code = true) as Hcode.
  { subst code. by rewrite !forallb_app, !digits_code. }
  split; [done|]. unfold parse_transfer_code. rewrite normalise_code by done.
  assert (_TICKET_FORM code = Some [zero_padded 2 d; zero_padded 2 m; zero_padded 3 n]) as ->.
  { subst code. rewrite <- (app_nil_r (zero_padded 3 n)).
    apply (fullmatch_concat (txt "NTL") _ [zero_padded 2 d; zero_padded 2 m; zero_padded 3 n]).
    repeat constructor; auto with laundry; apply digit_group. }
  rewrite !int_zero_padded by (cbn; lia).
  replace ((1 <=? m) && (m <=? 12)) with true by lia.
  replace ((1 <=? d) && (d <=? _days_in_month m)) with true by lia.
  by replace (n <? 1) with false by lia.
Qed.

Lemma parse_id_form u :
  let code := TRANSFER_CODE_PREFIX ++ take 8 (hex_padded 32 u) in
  forallb code_char code = true ∧
  parse_transfer_code code = Some (OrderIdTransferCode (take 8 (uuid_hex u))).
Proof.
  intros code. destruct (id_group 8 u ltac:(lia)) as [Hl Hc].
  assert (forallb code_char code = true) as Hcode by (subst code; by rewrite forallb_app, id_code).
  split; [done|]. unfold parse_transfer_code. rewrite normalise_code by done.
  assert (_TICKET_FORM code = None) as ->.
  { apply fullmatch_length. subst code. rewrite length_app, Hl. cbn. lia. }
  assert (_ID_FORM code = Some [take 8 (hex_padded 32 u)]) as ->.
  { subst code. rewrite <- (app_nil_r (take 8 _)).
    by apply (fullmatch_concat (txt "NTL") _ [take 8 (hex_padded 32 u)]); repeat constructor. }
  by rewrite lower_take.
Qed.

Lemma parse_account_form u m y : 1 <= m <= 12 → 0 <= y < 100 →
  let code := ACCOUNT_MONTH_PREFIX ++ take 6 (hex_padded 32 u) ++ zero_padded 2 m ++ zero_padded 2 y in
  forallb code_char code = true ∧
  parse_transfer_code code = Some (AccountMonthTransferCode (take 6 (uuid_hex u)) m y).
Proof.
  intros Hm Hy code. destruct (id_group 6 u ltac:(lia)) as [Hl Hc].
  assert (length code = 15%nat) as Hlen.
  { subst code. by rewrite !length_app, Hl, !length_zero_padded. }
  assert (forallb code_char code = true) as Hcode.
  { subst code. by rewrite !forallb_app, id_code, !digits_code. }
  split; [done|]. unfold parse_transfer_code. rewrite normalise_code by done.
  assert (_TICKET_FORM code = None) as -> by (apply fullmatch_length; rewrite Hlen; cbn; lia).
  assert (_ID_FORM code = None) as -> by (apply fullmatch_length; rewrite Hlen; cbn; lia).
  assert (_ACCOUNT_MONTH_FORM code =
    Some [take 6 (hex_padded 32 u); zero_padded 2 m; zero_padded 2 y]) as ->.
  { subst code. rewrite <- (app_nil_r (zero_padded 2 y)).
    apply (fullmatch_concat (txt "NTLCN") _ [take 6 (hex_padded 32 u); zero_padded 2 m; zero_padded 2 y]).
    repeat constructor; try done; apply digit_group. }
  rewrite !int_zero_padded, lower_take by (cbn; lia).
  by replace ((1 <=? m) && (m <=? 12)) with true by lia.
Qed.

(** A day of the calendar; [_days_in_month] allows 29 February in every year. *)
Definition calendar_day (d : date) : Prop :=
  1 <= month d <= 12 ∧ 1 <= day d <= _days_in_month (month d).

(** Whether the counter's ticket names the order, or the id has to. *)
Definition ticket_of (ticket_number : option Z) (issued : option date) : option (Z * date) :=
  match ticket_number, issued with
  | Some n, Some d => if (1 <=? n) && (n <=? TICKET_FORM_MAX) then Some (n, d) else None
  | _, _ => None
  end.

Lemma order_code_cases u ticket issued :
  order_transfer_code u ticket issued =
  TRANSFER_CODE_PREFIX ++
    match ticket_of ticket issued with
    | Some (n, d) => zero_padded 2 (day d) ++ zero_padded 2 (month d) ++ zero_padded 3 n
    | None => take 8 (hex_padded 32 u)
    end.
Proof.
  rewrite <- upper_uuid. unfold order_transfer_code, ticket_of.
  destruct ticket as [n|], issued as [d|]; [|done..]. by destruct ((1 <=? n) && _).
Qed.

(** a transfer code, however it is spaced and cased when it is typed back, names
    what it was issued for: the ticket and its day when the order has a ticket of
    three digits, the first eight digits of the order's id otherwise, and the account
    and month of a statement; no code of one form reads as another. *)
Theorem transfer_code_roundtrip typed u ticket issued m :
  (∀ d, issued = Some d → calendar_day d) →
  1 <= month m <= 12 →
  (normalise_transfer_code typed = order_transfer_code u ticket issued →
   parse_transfer_code typed = Some
     match ticket_of ticket issued with
     | Some (n, d) => TicketTransferCode (day d) (month d) n
     | None => OrderIdTransferCode (take 8 (uuid_hex u))
     end) ∧
  (normalise_transfer_code typed = account_month_transfer_code u m →
   parse_transfer_code typed =
     Some (AccountMonthTransferCode (take 6 (uuid_hex u)) (month m) (year m mod 100))).
Proof.
  intros Hd Hm. split; intros Ht.
  - rewrite order_code_cases in Ht. destruct (ticket_of ticket issued) as [[n d]|] eqn:Htk.
    + assert (issued = Some d ∧ 1 <= n <= 999) as [Hi Hn].
      { unfold ticket_of, TICKET_FORM_MAX in Htk. destruct ticket as [n'|], issued as [d'|]; try done.
        destruct ((1 <=? n') && _) eqn:Hn; [|done]. injection Htk as <- <-. split; [done|lia]. }
      destruct (Hd d Hi) as [Hmd Hdd].
      destruct (parse_ticket_form (day d) (month d) n) as [Hc Hp]; [done..|].
      by rewrite (parse_normal _ _ Ht).
    + destruct (parse_id_form u) as [Hc Hp]. by rewrite (parse_normal _ _ Ht).
  - unfold account_month_transfer_code in Ht. rewrite upper_uuid in Ht.
    pose proof (Z.mod_pos_bound (year m) 100 ltac:(lia)).
    destruct (parse_account_form u (month m) (year m mod 100)) as [Hc Hp]; [done..|].
    by rewrite (parse_normal _ _ Ht).
Qed.

Lemma transfer_code_roundtrip_witness :
  parse_transfer_code (txt "ntl 2809 012") = Some (TicketTransferCode 28 9 12) ∧
  parse_transfer_code (txt "NTLCN0000000926") =
    Some (AccountMonthTransferCode (txt "000000") 9 26).
Proof.
  split.
  - refine (proj1 (transfer_code_roundtrip (txt "ntl 2809 012") 7 (Some 12)
      (Some (Date 2026 9 28)) (Date 2026 9 1) _ _) _);
      [intros d [= <-]; unfold calendar_day; vm_compute; repeat split; discriminate|cbn; lia|vm_compute; reflexivity].
  - refine (proj2 (transfer_code_roundtrip (txt "NTLCN0000000926") 7 None None (Date 2026 9 1) _ _) _);
      [done|cbn; lia|vm_compute; reflexivity].
Defined.
