(* ===== verification/Outbox.v ===== *)
(** The internal outbox ([db/outbox.py]), the material-change envelope that fills it
    ([db/transactions.py]) and the worker that drains it ([worker/__init__.py]): the
    table as a map from event id to row, each repository method as one transaction on
    it, and the trigger and constraints of the migrations as checks on every write.
    Payloads are a type of their own and their canonical hash is a parameter: the
    canonical form is a library's.  Instants are microseconds. *)
From Stdlib Require Import Ascii String.
From S2P Require Import Prelude Clock Text.
Local Open Scope laundry_scope.
Local Open Scope Z_scope.

Module OutboxStatus.
Inductive t := PENDING | PROCESSING | HELD | SENT | DEAD | CANCELLED.
#[export] Instance eq_dec : EqDecision t.
Proof. solve_decision. Defined.
End OutboxStatus.
#[export] Existing Instance OutboxStatus.eq_dec.

Definition INTERNAL_EVENT_TYPES : list string :=
  ["approval.requested.v1"; "agent.run_completed.v1"; "agent.run_requested.v1";
   "agent.tool_called.v1"; "approval.decided.v1"; "approval.execution_claimed.v1";
   "approval.expired.v1"; "configuration.draft_created.v1"; "configuration.published.v1";
   "consent.changed.v1"; "inbox.dispatch_requested.v1"; "message.manual_send_attested.v1";
   "message.manual_send_prepared.v1"; "marketing.delivery_held.v1"; "order.requested.v1";
   "order.state_transitioned.v1"; "quote.revision_created.v1";
   "security.inbox_replay_conflict.v1"; "staff.identity_changed.v1"]%string.

Definition RETRY_DELAYS (attempt_count : Z) : option timedelta :=
  if attempt_count =? 1 then Some (seconds 30)
  else if attempt_count =? 2 then Some (minutes 2)
  else if attempt_count =? 3 then Some (minutes 10)
  else if attempt_count =? 4 then Some (hours 1)
  else if attempt_count =? 5 then Some (hours 6)
  else None.

(** The lease of a claim. *)
Definition LEASE : timedelta := seconds 30.

Inductive OutboxError :=
| OutboxAuthorizationError
| StaleCompletion
| BadErrorClass
| StaleRetry
| PayloadNotObject
| ChangedDuringRecovery
| BadMaterialChange (* a ValueError of [commit_material_change] *)
| DatabaseError. (* a constraint or the transition trigger *)
#[export] Instance outbox_error_eq_dec : EqDecision OutboxError.
Proof. solve_decision. Defined.
Abbreviation outbox_result A := (result OutboxError A).

Section outbox.
Context {P : Type} (snapshot_hash : P → string).

(** A row of [outbox_events]; [payload] is [None] for JSON that is not an object. *)
Record row := Row {
  aggregate_type : string;
  aggregate_id : Z;
  event_type : string;
  payload : option P;
  idempotency_key : string;
  correlation_id : Z;
  occurred_at : Z;
  available_at : Z;
  status : OutboxStatus.t;
  attempt_count : Z;
  sent_at : option Z;
  held_reason : option string;
  claim_token : option Z;
  claimed_at : option Z;
  lease_expires_at : option Z;
}.

Record dead_letter := DeadLetter {
  outbox_event_id : Z;
  normalized_payload_hash : string;
  last_error_class : string;
  attempts : Z;
  first_attempted_at : Z;
  last_attempted_at : Z;
  replay_eligible : bool;
}.

(** A row of [domain_events] or [audit_events]: aggregate, version, type or action. *)
Record ledger_entry := LedgerEntry {
  entry_aggregate : string * Z;
  entry_version : Z;
  entry_type : string;
  entry_at : Z;
}.

Record db := Db {
  outbox_events : gmap Z row;
  dead_letter_events : list dead_letter;
  domain_events : list ledger_entry;
  audit_events : list ledger_entry;
}.

(** * Writes, as the migrations guard them *)

(** The columns no update may touch, and the status moves the trigger knows. *)
Definition same_envelope (old new : row) : bool :=
  (aggregate_type old is? aggregate_type new) && (aggregate_id old =? aggregate_id new)
  && (event_type old is? event_type new) && (idempotency_key old is? idempotency_key new)
  && (correlation_id old =? correlation_id new) && (occurred_at old =? occurred_at new).

Definition enforce_outbox_status_transition (old new : row) : bool :=
  same_envelope old new &&
  match status old, status new with
  | OutboxStatus.PENDING, OutboxStatus.PROCESSING =>
      (attempt_count new =? attempt_count old + 1) && negb (claim_token new is? None)
      && match claimed_at new, lease_expires_at new with
         | Some c, Some l => c <? l
         | _, _ => false
         end
  | OutboxStatus.PENDING, (OutboxStatus.HELD | OutboxStatus.CANCELLED)
  | OutboxStatus.HELD, (OutboxStatus.PENDING | OutboxStatus.CANCELLED) =>
      (attempt_count new =? attempt_count old) && (claim_token new is? None)
  | OutboxStatus.PROCESSING,
      (OutboxStatus.PENDING | OutboxStatus.HELD | OutboxStatus.SENT | OutboxStatus.DEAD) =>
      (attempt_count new =? attempt_count old) && (claim_token new is? None)
      && (claimed_at new is? None) && (lease_expires_at new is? None)
  | _, _ => false
  end.

Definition outbox_claim_lease_shape (r : row) : bool :=
  match claim_token r, claimed_at r, lease_expires_at r with
  | Some _, Some c, Some l => (status r is? OutboxStatus.PROCESSING) && (c <? l)
  | None, None, None => negb (status r is? OutboxStatus.PROCESSING)
  | _, _, _ => false
  end.

Definition set_events (d : db) (m : gmap Z row) : db :=
  Db m (dead_letter_events d) (domain_events d) (audit_events d).

(** [UPDATE outbox_events ... WHERE id = %s] of a row read as [old]. *)
Definition update_event (d : db) (id : Z) (old new : row) : outbox_result db :=
  raise_if (negb (enforce_outbox_status_transition old new && outbox_claim_lease_shape new))
    DatabaseError ;;
  Ok (set_events d (<[id := new]> (outbox_events d))).

Definition insert_dead_letter (d : db) (l : dead_letter) : outbox_result db :=
  raise_if ((outbox_event_id l in? (outbox_event_id <$> dead_letter_events d))
            || negb (0 <? attempts l) || (last_attempted_at l <? first_attempted_at l)
            || negb ((1 <=? String.length (last_error_class l))%nat
                     && (String.length (last_error_class l) <=? 100)%nat)) DatabaseError ;;
  Ok (Db (outbox_events d) (dead_letter_events d ++ [l]) (domain_events d) (audit_events d)).

(** A transaction: what it did, or the database as it was. *)
Definition transaction {A} (d : db) (r : outbox_result (db * A)) : db * outbox_result A :=
  match r with
  | Ok (d', a) => (d', Ok a)
  | Err e => (d, Err e)
  end.

(** * The repository *)

(** The worker's role check; [is_worker] is [role is ActorRole.OUTBOX_WORKER]. *)
Definition _require_worker (is_worker : bool) : outbox_result unit :=
  raise_if (negb is_worker) OutboxAuthorizationError.

Record ClaimedOutboxEvent := Claimed {
  event_id : Z;
  event_claim_token : Z;
  claimed_event_type : string;
  claimed_payload : P;
  claimed_attempt_count : Z;
  claimed_lease_expires_at : Z;
}.

(** Postgres orders by several columns lexicographically. *)
Fixpoint lex_leb (a b : list Z) : bool :=
  match a, b with
  | x :: a', y :: b' => (x <? y) || ((x =? y) && lex_leb a' b')
  | [], _ => true
  | _, [] => false
  end.

Definition claim_key (e : Z * row) : list Z := [available_at e.2; occurred_at e.2; e.1].
Definition claimable (now : Z) (locked : gset Z) (e : Z * row) : bool :=
  (status e.2 is? OutboxStatus.PENDING) && (available_at e.2 <=? now)
  && (event_type e.2 in? INTERNAL_EVENT_TYPES) && negb (bool_decide (e.1 ∈ locked)).

(** [ORDER BY key LIMIT 1] of the rows a test keeps; [locked] are the rows other
    transactions hold, which SKIP LOCKED passes over. *)
Definition first_by (key : Z * row → list Z) (keep : Z * row → bool) (m : gmap Z row)
    : option (Z * row) :=
  head (stable_sort (λ a b, lex_leb (key a) (key b)) (filter (λ e, keep e = true) (map_to_list m))).

Definition claim_row (r : row) (token now : Z) : row :=
  Row (aggregate_type r) (aggregate_id r) (event_type r) (payload r) (idempotency_key r)
    (correlation_id r) (occurred_at r) (available_at r) OutboxStatus.PROCESSING
    (attempt_count r + 1) (sent_at r) None (Some token) (Some now) (Some (now + LEASE)).

(** A claim released into another status. *)
Definition release_row (r : row) (st : OutboxStatus.t) (available : Z) (sent : option Z)
    (reason : option string) : row :=
  Row (aggregate_type r) (aggregate_id r) (event_type r) (payload r) (idempotency_key r)
    (correlation_id r) (occurred_at r) available st (attempt_count r) sent reason None None None.

(** The event as handed to the worker, read after the claim is committed. *)
Definition _claimed_event (id token : Z) (r : row) (lease : Z) : outbox_result ClaimedOutboxEvent :=
  p ← require_some (payload r) PayloadNotObject;
  Ok (Claimed id token (event_type r) p (attempt_count r) lease).

Definition claim_next_internal (d : db) (locked : gset Z) (is_worker : bool) (now token : Z)
    : db * outbox_result (option ClaimedOutboxEvent) :=
  match _require_worker is_worker with
  | Err e => (d, Err e)
  | Ok _ =>
  match first_by claim_key (claimable now locked) (outbox_events d) with
  | None => (d, Ok None)
  | Some (id, r) =>
      let r' := claim_row r token now in
      match update_event d id r r' with
      | Err e => (d, Err e)
      | Ok d' => (d', c ← _claimed_event id token r' (now + LEASE); Ok (Some c))
      end
  end end.

(** The row of [WHERE id = %s AND status = 'PROCESSING' AND claim_token = %s AND
    lease_expires_at >= CURRENT_TIMESTAMP]. *)
Definition live_claim (d : db) (id token db_now : Z) : option row :=
  r ← outbox_events d !! id;
  if (status r is? OutboxStatus.PROCESSING) && (claim_token r is? Some token)
     && match lease_expires_at r with Some l => db_now <=? l | None => false end
  then Some r else None.

Definition complete_internal (d : db) (id token : Z) (is_worker : bool) (now db_now : Z)
    : db * outbox_result unit :=
  transaction d (
    _require_worker is_worker ;;
    r ← require_some (live_claim d id token db_now) StaleCompletion;
    d' ← update_event d id r
           (release_row r OutboxStatus.SENT (available_at r) (Some now) (held_reason r));
    Ok (d', tt)).

(** [not error_class.strip() or len(error_class) > 100]. *)
Definition bad_error_class (error_class : string) : bool :=
  forallb is_space (txt error_class) || (100 <? String.length error_class)%nat.

(** The status the event was left in. *)
Definition retry_or_dead_letter_internal (d : db) (id token : Z) (is_worker : bool)
    (error_class : string) (retryable : bool) (now db_now : Z)
    : db * outbox_result OutboxStatus.t :=
  transaction d (
    _require_worker is_worker ;;
    raise_if (bad_error_class error_class) BadErrorClass ;;
    r ← require_some (live_claim d id token db_now) StaleRetry;
    match (if retryable then RETRY_DELAYS (attempt_count r) else None) with
    | Some delay =>
        d' ← update_event d id r
               (release_row r OutboxStatus.PENDING (now + delay) (sent_at r) (Some error_class));
        Ok (d', OutboxStatus.PENDING)
    | None =>
        p ← require_some (payload r) PayloadNotObject;
        d' ← update_event d id r
               (release_row r OutboxStatus.DEAD (available_at r) (sent_at r) (Some error_class));
        d'' ← insert_dead_letter d' (DeadLetter id (snapshot_hash p) error_class (attempt_count r)
                 (occurred_at r) now retryable);
        Ok (d'', OutboxStatus.DEAD)
    end).

Definition UNKNOWN_OUTCOME : string := "UNKNOWN_INTERNAL_HANDLER_OUTCOME".
Definition expired (now : Z) (locked : gset Z) (e : Z * row) : bool :=
  (status e.2 is? OutboxStatus.PROCESSING)
  && match lease_expires_at e.2 with Some l => l <? now | None => false end
  && (event_type e.2 in? INTERNAL_EVENT_TYPES) && negb (bool_decide (e.1 ∈ locked)).
Definition lease_key (e : Z * row) : list Z := [default 0 (lease_expires_at e.2); e.1].

Definition recover_expired_internal (d : db) (locked : gset Z) (is_worker : bool) (now : Z)
    : db * outbox_result (option Z) :=
  transaction d (
    _require_worker is_worker ;;
    match first_by lease_key (expired now locked) (outbox_events d) with
    | None => Ok (d, None)
    | Some (id, r) =>
        p ← require_some (payload r) PayloadNotObject;
        d' ← update_event d id r
               (release_row r OutboxStatus.DEAD (available_at r) (sent_at r) (Some UNKNOWN_OUTCOME));
        d'' ← insert_dead_letter d' (DeadLetter id (snapshot_hash p) UNKNOWN_OUTCOME
                 (attempt_count r) (occurred_at r) now false);
        Ok (Db (outbox_events d'') (dead_letter_events d'')
              (domain_events d'' ++ [LedgerEntry ("OUTBOX_EVENT"%string, id) (attempt_count r)
                 "OUTBOX_PROCESSING_LEASE_EXPIRED" now])
              (audit_events d'' ++ [LedgerEntry ("OUTBOX_EVENT"%string, id) (attempt_count r)
                 "OUTBOX_EXPIRED_TO_DLQ" now]), Some id)
    end).

(** * The material-change envelope *)

Record OutboxEvent := NewEvent {
  new_event_type : string;
  new_payload : P;
  new_idempotency_key : string;
}.

Record MaterialChange := {
  change_aggregate_type : string;
  change_aggregate_id : Z;
  aggregate_version : Z;
  change_event_type : string;
  audit_action : string;
  change_correlation_id : Z;
  change_outbox_events : list OutboxEvent;
  change_occurred_at : Z;
}.

(** The row an insert makes; [available_at] defaults to CURRENT_TIMESTAMP. *)
Definition new_row (c : MaterialChange) (e : OutboxEvent) (db_now : Z) : row :=
  Row (change_aggregate_type c) (change_aggregate_id c) (new_event_type e) (Some (new_payload e))
    (new_idempotency_key e) (change_correlation_id c) (change_occurred_at c) db_now
    OutboxStatus.PENDING 0 None None None None None.

Definition key_taken (d : db) (key : string) : bool :=
  existsb (λ e, idempotency_key e.2 is? key) (map_to_list (outbox_events d)).

(** The primary key and the UNIQUE idempotency key. *)
Definition insert_event (c : MaterialChange) (db_now : Z) (d : db) (e : Z * OutboxEvent)
    : outbox_result db :=
  raise_if (negb (outbox_events d !! e.1 is? None) || key_taken d (new_idempotency_key e.2))
    DatabaseError ;;
  Ok (set_events d (<[e.1 := new_row c e.2 db_now]> (outbox_events d))).

(** [ids] are the [uuid4] values of the inserted events; [mutate] is the caller's change
    to tables of its own, which may raise. *)
Definition commit_material_change {T} (d : db) (t : T) (c : MaterialChange)
    (mutate : T → outbox_result T) (ids : list Z) (db_now : Z) : (db * T) * outbox_result unit :=
  let run :=
    raise_if (aggregate_version c <? 1) BadMaterialChange ;;
    raise_if (length (change_outbox_events c) =? 0)%nat BadMaterialChange ;;
    t' ← mutate t;
    let d1 := Db (outbox_events d) (dead_letter_events d)
      (domain_events d ++ [LedgerEntry (change_aggregate_type c, change_aggregate_id c)
         (aggregate_version c) (change_event_type c) (change_occurred_at c)])
      (audit_events d ++ [LedgerEntry (change_aggregate_type c, change_aggregate_id c)
         (aggregate_version c) (audit_action c) (change_occurred_at c)]) in
    d2 ← fold_result (insert_event c db_now) d1 (zip ids (change_outbox_events c));
    Ok (d2, t')
  in match run with
     | Ok dt => (dt, Ok tt)
     | Err e => ((d, t), Err e)
     end.

(** * The worker *)

Inductive WorkerStatus := STOPPED | IDLE | ABANDONED | WORKER_DEAD | RETRY_SCHEDULED | COMPLETED.

(** The clocks of one run: the claim's, and the application's and the database's when the
    handler is over. *)
Record clocks := Clocks { claim_now : Z; finish_now : Z; finish_db_now : Z }.

(** What a handler did: it returned, or it raised. *)
Definition handler := ClaimedOutboxEvent → bool.

Definition _process_claimed_event (d : db) (e : ClaimedOutboxEvent) (handlers : gmap string handler)
    (t : clocks) (authority : bool) : db * outbox_result WorkerStatus :=
  match handlers !! claimed_event_type e with
  | None =>
      if negb authority then (d, Ok ABANDONED)
      else let '(d', r) := retry_or_dead_letter_internal d (event_id e) (event_claim_token e) true
             "HANDLER_NOT_CONFIGURED" false (finish_now t) (finish_db_now t) in
           (d', _ ← r; Ok WORKER_DEAD)
  | Some h =>
      if negb (h e) then
        if negb authority then (d, Ok ABANDONED)
        else let '(d', r) := retry_or_dead_letter_internal d (event_id e) (event_claim_token e) true
               "INTERNAL_HANDLER_TRANSIENT_FAILURE" true (finish_now t) (finish_db_now t) in
             (d', _ ← r; Ok RETRY_SCHEDULED)
      else if negb authority then (d, Ok ABANDONED)
      else let '(d', r) := complete_internal d (event_id e) (event_claim_token e) true
             (finish_now t) (finish_db_now t) in
           (d', _ ← r; Ok COMPLETED)
  end.

(** [authority] before the claim and after the handler. *)
Definition run_once (d : db) (locked : gset Z) (handlers : gmap string handler) (t : clocks)
    (token : Z) (authority authority' : bool) : db * outbox_result WorkerStatus :=
  if negb authority then (d, Ok STOPPED)
  else match claim_next_internal d locked true (claim_now t) token with
  | (d', Err e) => (d', Err e)
  | (d', Ok None) => (d', Ok IDLE)
  | (d', Ok (Some e)) => _process_claimed_event d' e handlers t authority'
  end.

(** One cycle of the supervisor ([host.py]) with the agent queue disabled: bounded recovery
    when it is due, then one event.  A failed step ends the cycle. *)
Definition run_cycle (d : db) (locked : gset Z) (handlers : gmap string handler)
    (recovery_due : bool) (recover_now : Z) (t : clocks) (token : Z) (authority authority' : bool)
    : db * outbox_result WorkerStatus :=
  if negb authority then (d, Ok STOPPED)
  else match (if recovery_due then recover_expired_internal d locked true recover_now
              else (d, Ok None)) with
  | (d', Err e) => (d', Err e)
  | (d', Ok _) => run_once d' locked handlers t token authority authority'
  end.

(** * Any interleaving of commands *)

(** The repository's transactions as the actions concurrent workers interleave, with the
    rows other transactions hold and the clocks left open. *)
Inductive action :=
| Commit (c : MaterialChange) (ids : list Z) (db_now : Z)
| Claim (locked : gset Z) (now token : Z)
| Complete (id token now db_now : Z)
| RetryOrDie (id token : Z) (error_class : string) (retryable : bool) (now db_now : Z)
| Recover (locked : gset Z) (now : Z).

(** What happened to an event, and under which claim. *)
Inductive happening :=
| WasClaimed (id token : Z)
| WasCompleted (id token : Z)
| WasRetried (id token : Z)
| WasDeadLettered (id : Z).

Definition perform (d : db) (a : action) : db * list happening :=
  match a with
  | Commit c ids db_now =>
      let '((d', _), _) := commit_material_change d tt c Ok ids db_now in (d', [])
  | Claim locked now token =>
      let '(d', _) := claim_next_internal d locked true now token in
      (d', match first_by claim_key (claimable now locked) (outbox_events d) with
           | Some (id, r) => if is_Ok (update_event d id r (claim_row r token now))
                             then [WasClaimed id token] else []
           | None => []
           end)
  | Complete id token now db_now =>
      let '(d', r) := complete_internal d id token true now db_now in
      (d', if is_Ok r then [WasCompleted id token] else [])
  | RetryOrDie id token error_class retryable now db_now =>
      let '(d', r) := retry_or_dead_letter_internal d id token true error_class retryable now db_now in
      (d', match r with
           | Ok st => if st is? OutboxStatus.DEAD then [WasDeadLettered id] else [WasRetried id token]
           | Err _ => []
           end)
  | Recover locked now =>
      let '(d', r) := recover_expired_internal d locked true now in
      (d', match r with Ok (Some id) => [WasDeadLettered id] | _ => [] end)
  end.

Fixpoint perform_all (d : db) (acts : list action) : db * list happening :=
  match acts with
  | [] => (d, [])
  | a :: acts' =>
      let '(d1, l1) := perform d a in
      let '(d2, l2) := perform_all d1 acts' in
      (d2, l1 ++ l2)
  end.

Definition empty_db : db := Db ∅ [] [] [].
End outbox.
