(* ===== verification/OutboxFacts.v ===== *)
(** What the outbox promises: an abstract life cycle per event that every interleaving of
    the repository's commands follows, at most one completion or dead letter per event and
    never more than six claims, and a worker that empties the queue. *)
From Stdlib Require Import Ascii String.
From S2P Require Import Prelude Clock Text.
From S2P Require Import Outbox.
Local Open Scope laundry_scope.
Local Open Scope Z_scope.

(** * The abstract life cycle *)

Inductive life :=
| Waiting (attempts : Z)
| Running (attempts token : Z)
| Done (attempts : Z)
| Dead (attempts : Z)
| Parked (attempts : Z).

Inductive life_step (m : gmap Z life) : list happening → gmap Z life → Prop :=
| life_nothing : life_step m [] m
| life_submitted new : (∀ id n, new !! id = Some n → n = Waiting 0) → m ##ₘ new →
    life_step m [] (m ∪ new)
| life_claimed id n token : m !! id = Some (Waiting n) → n <= 5 →
    life_step m [WasClaimed id token] (<[id := Running (n + 1) token]> m)
| life_completed id n token : m !! id = Some (Running n token) →
    life_step m [WasCompleted id token] (<[id := Done n]> m)
| life_retried id n token : m !! id = Some (Running n token) → n <= 5 →
    life_step m [WasRetried id token] (<[id := Waiting n]> m)
| life_died id n token : m !! id = Some (Running n token) →
    life_step m [WasDeadLettered id] (<[id := Dead n]> m).

Inductive life_trace (m : gmap Z life) : list happening → gmap Z life → Prop :=
| trace_nil : life_trace m [] m
| trace_step l1 m1 l2 m2 : life_step m l1 m1 → life_trace m1 l2 m2 → life_trace m (l1 ++ l2) m2.

(** * Sorting and selecting *)

Lemma lex_leb_refl a : lex_leb a a = true.
Proof. induction a as [|x a IH]; [done|]. cbn. rewrite IH, Z.eqb_refl. by rewrite orb_true_r. Qed.

Lemma lex_leb_total a : ∀ b, lex_leb a b = false → lex_leb b a = true.
Proof.
  induction a as [|x a IH]; intros [|y b]; cbn; try done.
  intros [Hlt Hrest]%orb_false_iff. apply orb_true_iff. apply andb_false_iff in Hrest.
  destruct (Z.ltb_spec y x); [by left|]. right.
  assert (x = y) as -> by lia. rewrite Z.eqb_refl in *. cbn. destruct Hrest as [|H1]; [done|].
  by apply IH.
Qed.

Lemma lex_leb_trans a : ∀ b c, lex_leb a b = true → lex_leb b c = true → lex_leb a c = true.
Proof.
  induction a as [|x a IH]; intros [|y b] [|z c]; cbn; try done.
  intros [H1|H1]%orb_true_iff [H2|H2]%orb_true_iff; apply orb_true_iff;
    rewrite ?andb_true_iff in *.
  - left. lia.
  - left. lia.
  - left. lia.
  - destruct H1 as [H1 R1], H2 as [H2 R2]. right. split; [lia|by eapply IH].
Qed.

Lemma head_Some_elem {A} (l : list A) x : head l = Some x → x ∈ l.
Proof. destruct l; [done|]. intros [= ->]. left. Qed.

(** The row [ORDER BY ... LIMIT 1] picks. *)
Lemma first_by_Some {P} key keep (m : gmap Z (row (P := P))) id r :
  first_by key keep m = Some (id, r) →
  m !! id = Some r ∧ keep (id, r) = true ∧
  ∀ id' r', m !! id' = Some r' → keep (id', r') = true →
    lex_leb (key (id, r)) (key (id', r')) = true.
Proof.
  unfold first_by. set (leb := λ a b, lex_leb (key a) (key b)).
  set (l := filter _ _). intros Hh.
  assert (∀ e, e ∈ l ↔ keep e = true ∧ m !! e.1 = Some e.2) as Hl.
  { intros [i x]. subst l. rewrite list_elem_of_filter, elem_of_map_to_list. done. }
  pose proof (head_Some_elem _ _ Hh) as Hin. rewrite stable_sort_perm in Hin.
  apply Hl in Hin as [Hk Hm]. split_and!; [done..|]. intros id' r' Hm' Hk'.
  assert (StronglySorted (λ a b, leb a b = true) (stable_sort leb l)) as Hs.
  { apply stable_sort_sorted; unfold leb; [intros ??; apply lex_leb_total|].
    intros ???. apply lex_leb_trans. }
  assert ((id', r') ∈ stable_sort leb l) as Hin' by (rewrite stable_sort_perm; by apply Hl).
  destruct (stable_sort leb l) as [|e0 l']; [done|]. injection Hh as ->.
  apply elem_of_cons in Hin' as [<-|Hin']; [apply lex_leb_refl|].
  inversion_clear Hs as [|?? _ Hall]. rewrite Forall_forall in Hall. by apply Hall.
Qed.

Lemma first_by_None {P} key keep (m : gmap Z (row (P := P))) :
  first_by key keep m = None ↔ ∀ id r, m !! id = Some r → keep (id, r) = false.
Proof.
  unfold first_by. set (l := filter _ _).
  assert (∀ e, e ∈ l ↔ keep e = true ∧ m !! e.1 = Some e.2) as Hl.
  { intros [i x]. subst l. rewrite list_elem_of_filter, elem_of_map_to_list. done. }
  pose proof (stable_sort_perm (λ a b, lex_leb (key a) (key b)) l) as Hp. split.
  - intros Hh id r Hm. destruct (keep (id, r)) eqn:Hk; [|done].
    assert ((id, r) ∈ l) as Hin by by apply Hl. rewrite <- Hp in Hin.
    destruct (stable_sort _ l); [by apply elem_of_nil in Hin|done].
  - intros Hnone. destruct (stable_sort _ l) as [|[i x] l'] eqn:Hs; [done|].
    assert ((i, x) ∈ l) as Hin by (rewrite <- Hp; left). apply Hl in Hin as [Hk Hm].
    by rewrite (Hnone i x Hm) in Hk.
Qed.

Section outbox_facts.
Context {P : Type} (snapshot_hash : P → string).
Notation row := (@row P).
Notation db := (@db P).
Implicit Types (r : row) (d : db).

(** * The invariant of the table *)

Definition row_ok (r : row) : Prop :=
  outbox_claim_lease_shape r = true ∧ payload r ≠ None ∧
  match status r with
  | OutboxStatus.PENDING => 0 <= attempt_count r <= 5
  | OutboxStatus.PROCESSING | OutboxStatus.SENT | OutboxStatus.DEAD => 1 <= attempt_count r <= 6
  | OutboxStatus.HELD | OutboxStatus.CANCELLED => False
  end.

Definition db_ok (d : db) : Prop :=
  (∀ id r, outbox_events d !! id = Some r → row_ok r) ∧
  NoDup (outbox_event_id <$> dead_letter_events d) ∧
  ∀ id, id ∈ (outbox_event_id <$> dead_letter_events d) ↔
    ∃ r, outbox_events d !! id = Some r ∧ status r = OutboxStatus.DEAD.

(** The life of a row. *)
Definition life_of (r : row) : life :=
  match status r with
  | OutboxStatus.PENDING => Waiting (attempt_count r)
  | OutboxStatus.PROCESSING => Running (attempt_count r) (default 0 (claim_token r))
  | OutboxStatus.SENT => Done (attempt_count r)
  | OutboxStatus.DEAD => Dead (attempt_count r)
  | OutboxStatus.HELD | OutboxStatus.CANCELLED => Parked (attempt_count r)
  end.
Definition lives (d : db) : gmap Z life := life_of <$> outbox_events d.

Lemma same_envelope_claim r token now : same_envelope r (claim_row r token now) = true.
Proof. unfold same_envelope, claim_row. cbn. rewrite !bool_decide_true, !Z.eqb_refl by done. done. Qed.

Lemma same_envelope_release r st av sent reason :
  same_envelope r (release_row r st av sent reason) = true.
Proof. unfold same_envelope, release_row. cbn. rewrite !bool_decide_true, !Z.eqb_refl by done. done. Qed.

(** Claiming a pending row, and releasing a claimed one, pass the trigger and the check. *)
Lemma update_claim d id r token now : status r = OutboxStatus.PENDING →
  update_event d id r (claim_row r token now) =
  Ok (set_events d (<[id := claim_row r token now]> (outbox_events d))).
Proof.
  intros Hs. unfold update_event, enforce_outbox_status_transition. rewrite same_envelope_claim, Hs.
  cbn. rewrite Z.eqb_refl. unfold outbox_claim_lease_shape. cbn.
  replace (now <? now + LEASE) with true by (unfold LEASE, seconds, us_per_second; lia). done.
Qed.

Lemma update_release d id r st av sent reason : status r = OutboxStatus.PROCESSING →
  st ∈ [OutboxStatus.PENDING; OutboxStatus.SENT; OutboxStatus.DEAD] →
  update_event d id r (release_row r st av sent reason) =
  Ok (set_events d (<[id := release_row r st av sent reason]> (outbox_events d))).
Proof.
  intros Hs Hst. unfold update_event, enforce_outbox_status_transition.
  rewrite same_envelope_release, Hs. unfold outbox_claim_lease_shape. cbn. rewrite Z.eqb_refl.
  rewrite !elem_of_cons in Hst. destruct Hst as [->|[->|[->|Hst]]]; [done..|by apply elem_of_nil in Hst].
Qed.

Lemma live_claim_Some d id token db_now r :
  live_claim d id token db_now = Some r ↔
  outbox_events d !! id = Some r ∧ status r = OutboxStatus.PROCESSING ∧
  claim_token r = Some token ∧ ∃ l, lease_expires_at r = Some l ∧ db_now <= l.
Proof.
  unfold live_claim. destruct (outbox_events d !! id) as [r'|]; cbn; [|naive_solver].
  destruct (decide (status r' = OutboxStatus.PROCESSING)) as [Hs|Hs];
    [rewrite (bool_decide_true _ Hs)|rewrite (bool_decide_false _ Hs); naive_solver].
  destruct (decide (claim_token r' = Some token)) as [Ht|Ht];
    [rewrite (bool_decide_true _ Ht)|rewrite (bool_decide_false _ Ht); naive_solver]. cbn.
  destruct (lease_expires_at r') as [l|] eqn:Hl; [|naive_solver].
  destruct (Z.leb_spec db_now l); naive_solver lia.
Qed.

Lemma claimable_true now locked id r : claimable now locked (id, r) = true ↔
  status r = OutboxStatus.PENDING ∧ available_at r <= now ∧ event_type r ∈ INTERNAL_EVENT_TYPES ∧
  id ∉ locked.
Proof.
  unfold claimable. cbn [fst snd]. rewrite !andb_true_iff, negb_true_iff, !bool_decide_eq_true,
    bool_decide_eq_false, Z.leb_le. tauto.
Qed.

Lemma expired_true now locked id r : expired now locked (id, r) = true ↔
  status r = OutboxStatus.PROCESSING ∧ (∃ l, lease_expires_at r = Some l ∧ l < now) ∧
  event_type r ∈ INTERNAL_EVENT_TYPES ∧ id ∉ locked.
Proof.
  unfold expired. cbn [fst snd]. rewrite !andb_true_iff, negb_true_iff, !bool_decide_eq_true,
    bool_decide_eq_false. destruct (lease_expires_at r); [|naive_solver].
  rewrite Z.ltb_lt. naive_solver.
Qed.

(** Replacing one row keeps the invariant, unless it becomes a dead letter. *)
Lemma db_ok_set d id r r' : db_ok d → outbox_events d !! id = Some r → row_ok r' →
  status r ≠ OutboxStatus.DEAD → status r' ≠ OutboxStatus.DEAD →
  db_ok (set_events d (<[id := r']> (outbox_events d))).
Proof.
  intros (Hr & Hn & Hd) Hid Hok Hs Hs'. split_and!; cbn.
  - intros i x. rewrite lookup_insert_Some. intros [[-> <-]|[_ H]]; [done|by eapply Hr].
  - done.
  - intros i. rewrite Hd. split; intros (x & Hx & Hxs).
    + exists x. rewrite lookup_insert_ne; [done|]. intros ->. congruence.
    + apply lookup_insert_Some in Hx as [[-> <-]|[_ Hx]]; [done|by exists x].
Qed.

Lemma lives_set d id r : lives (set_events d (<[id := r]> (outbox_events d))) =
  <[id := life_of r]> (lives d).
Proof. unfold lives. cbn. by rewrite fmap_insert. Qed.

Lemma lives_lookup d id r : outbox_events d !! id = Some r → lives d !! id = Some (life_of r).
Proof. intros H. unfold lives. by rewrite lookup_fmap, H. Qed.

(** Burying a claimed row: it and its dead letter are written together. *)
Lemma db_ok_dead d id r reason l dom aud : db_ok d →
  outbox_events d !! id = Some r → status r = OutboxStatus.PROCESSING → outbox_event_id l = id →
  db_ok (Db (<[id := release_row r OutboxStatus.DEAD (available_at r) (sent_at r) reason]>
               (outbox_events d)) (dead_letter_events d ++ [l]) dom aud).
Proof.
  intros (Hr & Hn & Hd) Hid Hs Hl. destruct (Hr _ _ Hid) as (_ & Hp & Ha). rewrite Hs in Ha.
  split_and!; cbn.
  - intros i x. rewrite lookup_insert_Some. intros [[-> <-]|[_ H]]; [|by eapply Hr]. done.
  - rewrite fmap_app. cbn. apply NoDup_app. split_and!; [done| |apply NoDup_singleton].
    intros i Hi ->%list_elem_of_singleton. rewrite Hl in Hi. apply Hd in Hi as (x & Hx & Hxs). congruence.
  - intros i. rewrite fmap_app, elem_of_app, Hd. cbn. rewrite list_elem_of_singleton, Hl. split.
    + intros [(x & Hx & Hxs)| ->].
      * exists x. rewrite lookup_insert_ne; [done|]. intros ->. congruence.
      * eexists. by rewrite lookup_insert_eq.
    + intros (x & Hx & Hxs). apply lookup_insert_Some in Hx as [[-> <-]|[_ Hx]]; [by right|].
      left. by exists x.
Qed.

Lemma row_ok_claim r token now : row_ok r → status r = OutboxStatus.PENDING →
  row_ok (claim_row r token now).
Proof.
  intros (_ & Hp & Ha) Hs. rewrite Hs in Ha. unfold row_ok, outbox_claim_lease_shape. cbn.
  replace (now <? now + LEASE) with true by (unfold LEASE, seconds, us_per_second; lia).
  split_and!; [done|done|lia|lia].
Qed.

Lemma row_ok_processing r : row_ok r → status r = OutboxStatus.PROCESSING →
  1 <= attempt_count r <= 6 ∧ payload r ≠ None.
Proof. intros (_ & Hp & Ha) Hs. by rewrite Hs in Ha. Qed.

Lemma retry_delays_Some n delay : RETRY_DELAYS n = Some delay → 1 <= n <= 5 ∧ 0 < delay.
Proof.
  unfold RETRY_DELAYS, hours, minutes, seconds, us_per_hour, us_per_second.
  repeat case_match; intros [= <-]; lia.
Qed.

Lemma retry_delays_None n : 1 <= n <= 6 → RETRY_DELAYS n = None → n = 6.
Proof. unfold RETRY_DELAYS. repeat case_match; try done; lia. Qed.

Lemma transaction_Ok {A} d (m : outbox_result (db * A)) d' a :
  transaction d m = (d', Ok a) ↔ m = Ok (d', a).
Proof. unfold transaction. destruct m as [[d0 a0]|e]; naive_solver. Qed.

Lemma transaction_Err {A} d (m : outbox_result (db * A)) d' e :
  transaction d m = (d', Err e) → d' = d.
Proof. unfold transaction. destruct m as [[d0 a0]|e0]; naive_solver. Qed.

(** What each command does to the table, when it succeeds. *)
Lemma complete_spec d id token now db_now d' :
  complete_internal d id token true now db_now = (d', Ok tt) →
  ∃ r, live_claim d id token db_now = Some r ∧
    d' = set_events d (<[id := release_row r OutboxStatus.SENT (available_at r) (Some now)
                                 (held_reason r)]> (outbox_events d)).
Proof.
  unfold complete_internal. intros H. apply transaction_Ok in H. cbn [_require_worker negb raise_if] in H.
  apply bind_Ok in H as (u & _ & H). apply bind_Ok in H as (r & Hr & H).
  apply require_some_Ok in Hr. exists r. split; [done|].
  pose proof (proj1 (live_claim_Some _ _ _ _ _) Hr) as (_ & Hs & _).
  rewrite update_release in H by (done || set_solver). cbn in H. by injection H as <-.
Qed.

Lemma retry_spec d id token ec retryable now db_now d' st :
  retry_or_dead_letter_internal snapshot_hash d id token true ec retryable now db_now = (d', Ok st) →
  ∃ r, live_claim d id token db_now = Some r ∧
    ((∃ delay, retryable = true ∧ RETRY_DELAYS (attempt_count r) = Some delay ∧
       st = OutboxStatus.PENDING ∧
       d' = set_events d (<[id := release_row r OutboxStatus.PENDING (now + delay) (sent_at r)
                                    (Some ec)]> (outbox_events d))) ∨
     (st = OutboxStatus.DEAD ∧ (retryable = true → RETRY_DELAYS (attempt_count r) = None) ∧
       ∃ l, outbox_event_id l = id ∧ attempts l = attempt_count r ∧
         d' = Db (<[id := release_row r OutboxStatus.DEAD (available_at r) (sent_at r) (Some ec)]>
                    (outbox_events d)) (dead_letter_events d ++ [l]) (domain_events d)
                (audit_events d))).
Proof.
  unfold retry_or_dead_letter_internal. intros H. apply transaction_Ok in H.
  apply bind_Ok in H as (u & _ & H). apply raise_bind_Ok in H as [_ H].
  apply bind_Ok in H as (r & Hr & H). apply require_some_Ok in Hr. exists r. split; [done|].
  pose proof (proj1 (live_claim_Some _ _ _ _ _) Hr) as (_ & Hs & _).
  destruct (if retryable then RETRY_DELAYS (attempt_count r) else None) as [delay|] eqn:Hd.
  - left. exists delay. destruct retryable; [|done].
    rewrite update_release in H by (done || set_solver). cbn in H. by injection H as <- <-.
  - right. apply bind_Ok in H as (p & _ & H).
    rewrite update_release in H by (done || set_solver). cbn [mbind result_bind] in H.
    apply bind_Ok in H as (d2 & Hi & H). injection H as <- <-.
    unfold insert_dead_letter in Hi. apply raise_bind_Ok in Hi as [_ Hi]. injection Hi as <-.
    split_and!; [done|by intros ->|]. eexists. split; [|split; [|reflexivity]]; done.
Qed.

Lemma recover_spec d locked now d' o :
  recover_expired_internal snapshot_hash d locked true now = (d', Ok o) →
  (o = None ∧ d' = d ∧ first_by lease_key (expired now locked) (outbox_events d) = None) ∨
  ∃ id r l dom aud, o = Some id ∧
    first_by lease_key (expired now locked) (outbox_events d) = Some (id, r) ∧
    outbox_event_id l = id ∧
    d' = Db (<[id := release_row r OutboxStatus.DEAD (available_at r) (sent_at r)
                       (Some UNKNOWN_OUTCOME)]> (outbox_events d)) (dead_letter_events d ++ [l]) dom aud.
Proof.
  unfold recover_expired_internal. intros H. apply transaction_Ok in H.
  apply bind_Ok in H as (u & _ & H).
  destruct (first_by lease_key _ _) as [[id r]|] eqn:Hf; [|injection H as <- <-; by left].
  right. apply bind_Ok in H as (p & _ & H).
  pose proof (first_by_Some _ _ _ _ _ Hf) as (_ & Hk & _). apply expired_true in Hk as (Hs & _).
  rewrite update_release in H by (done || set_solver). cbn [mbind result_bind] in H.
  apply bind_Ok in H as (d2 & Hi & H). injection H as <- <-.
  unfold insert_dead_letter in Hi. apply raise_bind_Ok in Hi as [_ Hi]. injection Hi as <-.
  eexists id, r, _, _, _. split; [done|]. split; [done|]. split; [|reflexivity]. done.
Qed.

(** A claim writes the row before anything can fail. *)
Lemma claim_spec d locked now token d' res : db_ok d →
  claim_next_internal d locked true now token = (d', res) →
  match first_by claim_key (claimable now locked) (outbox_events d) with
  | None => d' = d ∧ res = Ok None
  | Some (id, r) =>
      status r = OutboxStatus.PENDING ∧ outbox_events d !! id = Some r ∧
      d' = set_events d (<[id := claim_row r token now]> (outbox_events d)) ∧
      ∃ p, payload r = Some p ∧
        res = Ok (Some (Claimed id token (event_type r) p (attempt_count r + 1) (now + LEASE)))
  end.
Proof.
  intros Hok. unfold claim_next_internal. cbn [_require_worker negb raise_if].
  destruct (first_by claim_key _ _) as [[id r]|] eqn:Hf; [|intros [= <- <-]; done].
  pose proof (first_by_Some _ _ _ _ _ Hf) as (Hm & Hk & _). apply claimable_true in Hk as (Hs & _).
  rewrite update_claim by done. intros [= <- <-]. split_and!; [done..|].
  destruct Hok as [Hr _]. destruct (Hr _ _ Hm) as (_ & Hp & _).
  destruct (payload r) as [p|] eqn:Hpay; [|done]. exists p. split; [done|].
  unfold _claimed_event. cbn. by rewrite Hpay.
Qed.

(** New rows are waiting, and their ids are new. *)
Lemma insert_events_spec c db_now new : ∀ d d', db_ok d →
  fold_result (insert_event c db_now) d new = Ok d' →
  db_ok d' ∧ ∃ m, lives d ##ₘ m ∧ lives d' = lives d ∪ m ∧
    ∀ id n, m !! id = Some n → n = Waiting 0.
Proof.
  induction new as [|[id e] new IH]; intros d d' Hok.
  - intros [= <-]. split; [done|]. exists ∅. rewrite map_union_empty.
    split_and!; [apply map_disjoint_empty_r|done|]. by intros ?? ?%lookup_empty_Some.
  - cbn [fold_result]. intros H. apply bind_Ok in H as (d1 & Hi & H). unfold insert_event in Hi.
    apply raise_bind_Ok in Hi as [Hg Hi]. injection Hi as <-. apply orb_false_iff in Hg as [Hnew _].
    apply negb_false_iff, bool_decide_eq_true in Hnew. cbn [fst snd] in *.
    assert (db_ok (set_events d (<[id := new_row c e db_now]> (outbox_events d)))) as Hok1.
    { destruct Hok as (Hr & Hn & Hd). split_and!; cbn; [|done|].
      - intros i x. rewrite lookup_insert_Some. intros [[-> <-]|[_ Hx]]; [|by eapply Hr].
        unfold row_ok. cbn. split_and!; [done|done|lia|lia].
      - intros i. rewrite Hd. split; intros (x & Hx & Hxs).
        + exists x. rewrite lookup_insert_ne; [done|]. intros ->. congruence.
        + apply lookup_insert_Some in Hx as [[-> <-]|[_ Hx]]; [done|by exists x]. }
    destruct (IH _ _ Hok1 H) as (Hok' & m & Hdis & Heq & Hw). split; [done|].
    rewrite lives_set in Hdis, Heq. cbn in Hdis, Heq. exists (<[id := Waiting 0]> m).
    apply map_disjoint_insert_l in Hdis as [Hmid Hdis].
    assert (lives d !! id = None) as Hld by (unfold lives; by rewrite lookup_fmap, Hnew).
    split_and!.
    + by apply map_disjoint_insert_r.
    + rewrite Heq. rewrite <- insert_union_l. by rewrite <- insert_union_r.
    + intros i n. rewrite lookup_insert_Some. intros [[-> <-]|[_ Hx]]; [done|by eapply Hw].
Qed.

Lemma commit_spec d c ids db_now d' u res : db_ok d →
  commit_material_change d tt c Ok ids db_now = ((d', u), res) →
  db_ok d' ∧ ∃ m, lives d ##ₘ m ∧ lives d' = lives d ∪ m ∧ ∀ id n, m !! id = Some n → n = Waiting 0.
Proof.
  intros Hok. unfold commit_material_change.
  assert (∃ m, lives d ##ₘ m ∧ lives d = lives d ∪ m ∧ ∀ id n, m !! id = Some n → n = Waiting 0)
    as Hsame.
  { exists ∅. rewrite map_union_empty. split_and!; [apply map_disjoint_empty_r|done|].
    by intros ?? ?%lookup_empty_Some. }
  destruct (raise_if (aggregate_version c <? 1) _) as [?|e]; [|intros [= <- <-]; done].
  cbn [mbind result_bind].
  destruct (raise_if (length _ =? 0)%nat _) as [?|e]; [|intros [= <- <-]; done].
  cbn [mbind result_bind].
  match goal with |- context [fold_result ?f ?d1 ?l] => destruct (fold_result f d1 l) as [d2|e] eqn:Hf end;
    cbn [mbind result_bind]; [|intros [= <- <-]; done]. intros [= <- _ _].
  eapply insert_events_spec in Hf; [exact Hf|]. exact Hok.
Qed.

Lemma live_claim_life d id token db_now r : live_claim d id token db_now = Some r →
  outbox_events d !! id = Some r ∧ status r = OutboxStatus.PROCESSING ∧
  lives d !! id = Some (Running (attempt_count r) token).
Proof.
  intros (Hm & Hs & Ht & _)%live_claim_Some. split_and!; [done..|].
  rewrite (lives_lookup d id r Hm). unfold life_of. by rewrite Hs, Ht.
Qed.

(** Every command is one step of one event's life cycle, or none; what it does to the
    table is what the step says. *)
Lemma perform_step d a d' l : db_ok d → perform snapshot_hash d a = (d', l) →
  db_ok d' ∧ life_step (lives d) l (lives d').
Proof.
  intros Hok. destruct a as [c ids db_now|locked now token|id token now db_now
                            |id token ec retryable now db_now|locked now]; cbn [perform].
  - destruct (commit_material_change d tt c Ok ids db_now) as [[d1 u] res] eqn:Hc.
    intros [= <- <-]. apply commit_spec in Hc as (Hok' & m & Hdis & -> & Hw); [|done].
    split; [done|]. by apply life_submitted.
  - destruct (claim_next_internal d locked true now token) as [d1 res] eqn:Hc.
    apply claim_spec in Hc; [|done].
    destruct (first_by claim_key _ _) as [[id r]|].
    + destruct Hc as (Hs & Hm & -> & _). rewrite update_claim by done. cbn [is_Ok]. intros [= <- <-].
      pose proof (proj1 Hok _ _ Hm) as Hr. split.
      * apply (db_ok_set d id r); try done; [by apply row_ok_claim|by rewrite Hs].
      * rewrite lives_set. apply life_claimed.
        -- rewrite (lives_lookup d id r Hm). unfold life_of. by rewrite Hs.
        -- destruct Hr as (_ & _ & Ha). rewrite Hs in Ha. lia.
    + destruct Hc as [-> _]. intros [= <- <-]. split; [done|constructor].
  - destruct (complete_internal d id token true now db_now) as [d1 [[]|e]] eqn:Hc; intros [= <- <-].
    + apply complete_spec in Hc as (r & Hl & ->). apply live_claim_life in Hl as (Hm & Hs & Hlf).
      pose proof (proj1 Hok _ _ Hm) as Hr. cbn [is_Ok]. split.
      * apply (db_ok_set d id r); try done; [|by rewrite Hs].
        apply row_ok_processing in Hr as [Ha Hp]; [|done]. unfold row_ok. cbn. by split_and!; try lia.
      * rewrite lives_set. eapply (life_completed _ _ (attempt_count r)). done.
    + apply transaction_Err in Hc as ->. split; [done|constructor].
  - destruct (retry_or_dead_letter_internal snapshot_hash d id token true ec retryable now db_now)
      as [d1 [st|e]] eqn:Hc; intros [= <- <-].
    + apply retry_spec in Hc as (r & Hl & Hc). apply live_claim_life in Hl as (Hm & Hs & Hlf).
      pose proof (proj1 Hok _ _ Hm) as Hr.
      destruct Hc as [(delay & _ & Hd & -> & ->)|(-> & _ & dl & Hdl & _ & ->)].
      * apply retry_delays_Some in Hd as [Hd _]. cbn. split.
        -- apply (db_ok_set d id r); try done; [|by rewrite Hs].
           apply row_ok_processing in Hr as [Ha Hp]; [|done]. unfold row_ok. cbn. by split_and!; try lia.
        -- unfold lives. cbn. rewrite fmap_insert. eapply (life_retried _ _ (attempt_count r)); [done|lia].
      * cbn. split; [by apply db_ok_dead|]. unfold lives. cbn. rewrite fmap_insert.
        eapply (life_died _ _ (attempt_count r)). done.
    + apply transaction_Err in Hc as ->. split; [done|constructor].
  - destruct (recover_expired_internal snapshot_hash d locked true now) as [d1 [o|e]] eqn:Hc;
      intros [= <- <-].
    + apply recover_spec in Hc as [(-> & -> & _)|(id & r & dl & dom & aud & -> & Hf & Hdl & ->)];
        [split; [done|constructor]|].
      apply first_by_Some in Hf as (Hm & Hk & _). apply expired_true in Hk as (Hs & _).
      split; [by apply db_ok_dead|]. unfold lives. cbn. rewrite fmap_insert.
      eapply (life_died _ _ (attempt_count r)).
      rewrite lookup_fmap, Hm. cbn. unfold life_of. by rewrite Hs.
    + apply transaction_Err in Hc as ->. split; [done|constructor].
Qed.

Lemma db_ok_empty : db_ok empty_db.
Proof.
  split_and!; cbn.
  - by intros ?? ?%lookup_empty_Some.
  - apply NoDup_nil_2.
  - intros id. rewrite elem_of_nil. split; [done|]. by intros (? & ?%lookup_empty_Some & _).
Qed.

Lemma perform_all_trace acts : ∀ d d' l, db_ok d → perform_all snapshot_hash d acts = (d', l) →
  db_ok d' ∧ life_trace (lives d) l (lives d').
Proof.
  induction acts as [|a acts IH]; intros d d' l Hok; cbn [perform_all].
  - intros [= <- <-]. split; [done|constructor].
  - destruct (perform snapshot_hash d a) as [d1 l1] eqn:H1.
    destruct (perform_all snapshot_hash d1 acts) as [d2 l2] eqn:H2. intros [= <- <-].
    destruct (perform_step _ _ _ _ Hok H1) as [Hok1 Hs]. destruct (IH _ _ _ Hok1 H2) as [Hok2 Ht].
    split; [done|]. by eapply trace_step.
Qed.

Lemma lives_empty : lives empty_db = ∅.
Proof. unfold lives. cbn. apply fmap_empty. Qed.
End outbox_facts.

(** * Counting what happened to an event *)

Definition claim_of (id : Z) (h : happening) : bool :=
  match h with WasClaimed id' _ => id =? id' | _ => false end.
Definition completion_of (id : Z) (h : happening) : bool :=
  match h with WasCompleted id' _ => id =? id' | _ => false end.
Definition burial_of (id : Z) (h : happening) : bool :=
  match h with WasDeadLettered id' => id =? id' | _ => false end.

Definition times (p : happening → bool) (l : list happening) : Z :=
  sumZ ((λ h, if p h then 1 else 0) <$> l).

(** The token of the latest claim of the event. *)
Definition last_claim (id : Z) (l : list happening) : option Z :=
  foldl (λ o h, match h with
                | WasClaimed id' token => if id =? id' then Some token else o
                | _ => o
                end) None l.

Lemma times_app p l1 l2 : times p (l1 ++ l2) = times p l1 + times p l2.
Proof. unfold times. by rewrite fmap_app, sumZ_app. Qed.

Lemma last_claim_app id l1 h :
  last_claim id (l1 ++ [h]) = match h with
                              | WasClaimed id' token => if id =? id' then Some token else last_claim id l1
                              | _ => last_claim id l1
                              end.
Proof. unfold last_claim. by rewrite foldl_app. Qed.

(** What a history says an event's life is. *)
Definition history_ok (id : Z) (l : list happening) (o : option life) : Prop :=
  match o with
  | None => times (claim_of id) l = 0 ∧ times (completion_of id) l = 0 ∧ times (burial_of id) l = 0
  | Some (Waiting n) => times (claim_of id) l = n ∧ 0 <= n <= 5 ∧
      times (completion_of id) l = 0 ∧ times (burial_of id) l = 0
  | Some (Running n token) => times (claim_of id) l = n ∧ n <= 6 ∧ last_claim id l = Some token ∧
      times (completion_of id) l = 0 ∧ times (burial_of id) l = 0
  | Some (Done n) => times (claim_of id) l = n ∧ n <= 6 ∧
      times (completion_of id) l = 1 ∧ times (burial_of id) l = 0
  | Some (Dead n) => times (claim_of id) l = n ∧ n <= 6 ∧
      times (completion_of id) l = 0 ∧ times (burial_of id) l = 1
  | Some (Parked _) => False
  end.

(** No completion under any claim but the latest. *)
Definition fenced (l : list happening) : Prop :=
  ∀ l1 id token l2, l = l1 ++ WasCompleted id token :: l2 → last_claim id l1 = Some token.

Lemma fenced_snoc l h : fenced l →
  (∀ id token, h = WasCompleted id token → last_claim id l = Some token) → fenced (l ++ [h]).
Proof.
  intros Hf Hh l1 id token l2 Heq. destruct l2 as [|h' l2] using rev_ind.
  - apply app_inj_tail in Heq as [-> ->]. by apply Hh.
  - rewrite app_comm_cons, app_assoc in Heq. apply app_inj_tail in Heq as [-> _].
    by eapply Hf.
Qed.

(** A happening to one event leaves the history of the others. *)
Lemma history_other id l h o : claim_of id h = false → completion_of id h = false →
  burial_of id h = false → history_ok id l o → history_ok id (l ++ [h]) o.
Proof.
  intros Hc Hd Hb. unfold history_ok.
  assert (last_claim id (l ++ [h]) = last_claim id l) as Hl.
  { rewrite last_claim_app. destruct h as [id' token| | |]; [|done..]. cbn in Hc. by rewrite Hc. }
  assert (∀ p, p h = false → times p (l ++ [h]) = times p l) as Ht.
  { intros p Hp. rewrite times_app. unfold times at 2. cbn. rewrite Hp. lia. }
  rewrite Hl, !Ht by done. done.
Qed.

Lemma life_step_history m l0 l m' : (∀ id, history_ok id l0 (m !! id)) → fenced l0 →
  life_step m l m' → (∀ id, history_ok id (l0 ++ l) (m' !! id)) ∧ fenced (l0 ++ l).
Proof.
  intros Hh Hf Hs.
  assert (∀ i h (x : life), (∀ id, id ≠ i → claim_of id h = false ∧ completion_of id h = false ∧
             burial_of id h = false) → history_ok i (l0 ++ [h]) (Some x) →
           ∀ id, history_ok id (l0 ++ [h]) (<[i := x]> m !! id)) as Hone.
  { intros i h x Hother Hi id. destruct (decide (id = i)) as [->|Hne].
    - by rewrite lookup_insert_eq.
    - rewrite lookup_insert_ne by done. destruct (Hother id Hne) as (?&?&?). by apply history_other. }
  assert (∀ p h, times p (l0 ++ [h]) = times p l0 + (if p h then 1 else 0)) as Ht.
  { intros p h. rewrite times_app. unfold times at 2. cbn. lia. }
  destruct Hs as [|new Hnew Hdis|id n token Hid Hn|id n token Hid|id n token Hid Hn|id n token Hid];
    rewrite ?app_nil_r; try (specialize (Hh id) as Hi; rewrite Hid in Hi).
  - done.
  - split; [|done]. intros id. specialize (Hh id). rewrite lookup_union.
    destruct (m !! id) as [x|] eqn:Hm.
    + by rewrite union_Some_l.
    + rewrite (left_id_L None _). destruct (new !! id) as [x|] eqn:Hx; [|done].
      rewrite (Hnew _ _ Hx). unfold history_ok in *. destruct Hh as (?&?&?). by split_and!; try lia.
  - split; [|apply fenced_snoc; [done|discriminate]]. apply Hone.
    { intros i Hne. cbn. split_and!; [by apply Z.eqb_neq|done..]. }
    unfold history_ok in *. rewrite !Ht, last_claim_app. cbn. rewrite Z.eqb_refl.
    destruct Hi as (?&?&?&?). split_and!; try lia; done.
  - split; [|apply fenced_snoc; [done|intros i tk [= <- <-]; by destruct Hi as (_&_&?&_)]]. apply Hone.
    { intros i Hne. cbn. split_and!; [done|by apply Z.eqb_neq|done]. }
    unfold history_ok in *. rewrite !Ht. cbn. rewrite Z.eqb_refl.
    destruct Hi as (?&?&?&?&?). split_and!; lia.
  - split; [|apply fenced_snoc; [done|discriminate]]. apply Hone; [done|].
    unfold history_ok in *. rewrite !Ht. cbn. destruct Hi as (<-&?&?&?&?).
    assert (0 <= times (claim_of id) l0).
    { apply sumZ_nonneg, Forall_fmap, Forall_forall. intros h _. cbn. destruct (claim_of id h); lia. }
    split_and!; lia.
  - split; [|apply fenced_snoc; [done|discriminate]]. apply Hone.
    { intros i Hne. cbn. split_and!; [done|done|by apply Z.eqb_neq]. }
    unfold history_ok in *. rewrite !Ht. cbn. rewrite Z.eqb_refl.
    destruct Hi as (?&?&?&?&?). split_and!; lia.
Qed.

Lemma life_trace_history m l m' : life_trace m l m' → ∀ l0,
  (∀ id, history_ok id l0 (m !! id)) → fenced l0 →
  (∀ id, history_ok id (l0 ++ l) (m' !! id)) ∧ fenced (l0 ++ l).
Proof.
  induction 1 as [m|m l1 m1 l2 m2 Hs Ht IH]; intros l0 Hh Hf; [by rewrite app_nil_r|].
  destruct (life_step_history _ _ _ _ Hh Hf Hs) as [Hh1 Hf1].
  rewrite app_assoc. by apply IH.
Qed.

(** * The theorems *)

(** C39: whatever commands run, in whatever order and with whatever tokens and clocks, every
    event follows the abstract life cycle -- submitted, claimed, then completed, retried
    or buried -- and the dead-letter table holds exactly one row per buried event. *)
Theorem outbox_refines_life_cycle {P} (snapshot_hash : P → string) acts d l :
  perform_all snapshot_hash empty_db acts = (d, l) →
  life_trace ∅ l (lives d) ∧
  NoDup (outbox_event_id <$> dead_letter_events d) ∧
  ∀ id, id ∈ (outbox_event_id <$> dead_letter_events d) ↔ ∃ n, lives d !! id = Some (Dead n).
Proof.
  intros H. apply perform_all_trace in H as [Hok Ht]; [|apply db_ok_empty]. rewrite lives_empty in Ht.
  split; [done|]. destruct Hok as (_ & Hn & Hd). split; [done|]. intros id. rewrite Hd.
  unfold lives. rewrite lookup_fmap. split.
  - intros (r & -> & Hs). exists (attempt_count r). cbn. unfold life_of. by rewrite Hs.
  - intros [n Hn']. destruct (outbox_events d !! id) as [r|]; [|done]. exists r. split; [done|].
    cbn in Hn'. unfold life_of in Hn'. by destruct (status r).
Qed.

(** C13: an event is completed at most once, never both completed and buried, claimed at
    most six times, and completed only under its latest claim: a worker whose claim was
    taken over or expired cannot complete it. *)
Theorem outbox_at_most_once {P} (snapshot_hash : P → string) acts d l :
  perform_all snapshot_hash empty_db acts = (d, l) →
  (∀ id, times (completion_of id) l + times (burial_of id) l <= 1 ∧ times (claim_of id) l <= 6) ∧
  (∀ l1 id token l2, l = l1 ++ WasCompleted id token :: l2 → last_claim id l1 = Some token).
Proof.
  intros H. apply perform_all_trace in H as [Hok Ht]; [|apply db_ok_empty]. rewrite lives_empty in Ht.
  destruct (life_trace_history _ _ _ Ht []) as [Hh Hf].
  - intros id. rewrite lookup_empty. done.
  - intros [|] ? ? ?; discriminate.
  - split; [|done]. intros id. specialize (Hh id). rewrite app_nil_l in Hh.
    destruct (lives d !! id) as [[n|n tk|n|n|n]|]; unfold history_ok in Hh; [..|done|];
      destruct_and?; lia.
Qed.

Section drain.
Context {P : Type} (snapshot_hash : P → string) (handlers : gmap string (@handler P)).
Notation row := (@row P).
Notation db := (@db P).
Implicit Types (r : row) (d : db).

(** * Draining the queue *)

(** What is left to do for a row. *)
Definition weight (r : row) : Z :=
  if event_type r in? INTERNAL_EVENT_TYPES then
    match status r with
    | OutboxStatus.PENDING => 7 - attempt_count r
    | OutboxStatus.PROCESSING => 1
    | _ => 0
    end
  else 0.
Definition budget (m : gmap Z row) : Z := map_fold (λ _ r acc, weight r + acc) 0 m.

Lemma budget_delete m id r : m !! id = Some r → budget m = weight r + budget (delete id m).
Proof. intros H. unfold budget. rewrite (map_fold_delete_L _ _ id r m); [done|intros; lia|done]. Qed.

Lemma budget_insert m id r r' : m !! id = Some r →
  budget (<[id := r']> m) = budget m - weight r + weight r'.
Proof.
  intros H. rewrite (budget_delete m id r H), (budget_delete (<[id := r']> m) id r')
    by (by rewrite lookup_insert_eq). rewrite delete_insert_eq. lia.
Qed.

Lemma weight_nonneg r : row_ok r → 0 <= weight r.
Proof.
  intros (_ & _ & Ha). unfold weight. case_bool_decide; [|lia]. destruct (status r); lia.
Qed.

Lemma budget_nonneg m : (∀ id r, m !! id = Some r → row_ok r) → 0 <= budget m.
Proof.
  intros Hm. unfold budget. revert Hm. apply (map_fold_weak_ind
    (λ acc (m : gmap Z row), (∀ id r, m !! id = Some r → row_ok r) → 0 <= acc)); [done|].
  intros i x m' acc Hi IH Hall. pose proof (weight_nonneg x (Hall i x (lookup_insert_eq _ _ _))).
  assert (0 <= acc); [|lia]. apply IH. intros j y Hj. apply (Hall j). rewrite lookup_insert_ne; [done|].
  intros ->. congruence.
Qed.

Lemma budget_ge m id r : (∀ id r, m !! id = Some r → row_ok r) → m !! id = Some r →
  weight r <= budget m.
Proof.
  intros Hm Hid. rewrite (budget_delete m id r Hid).
  assert (0 <= budget (delete id m)); [|lia]. apply budget_nonneg. intros i x Hx.
  apply lookup_delete_Some in Hx as [_ Hx]. by eapply Hm.
Qed.

(** A positive budget is some internal row still waiting or under a claim. *)
Lemma budget_pos m : 0 < budget m → ∃ id r, m !! id = Some r ∧ 0 < weight r.
Proof.
  unfold budget. apply (map_fold_weak_ind (λ acc m, 0 < acc → ∃ id r, m !! id = Some r ∧ 0 < weight r));
    [lia|]. intros i x m' acc Hi IH Hpos. destruct (decide (0 < weight x)) as [Hx|Hx].
  - exists i, x. by rewrite lookup_insert_eq.
  - destruct IH as (j & y & Hj & Hy); [lia|]. exists j, y. split; [|done].
    rewrite lookup_insert_ne; [done|]. intros ->. congruence.
Qed.

(** By [T] every row is due, every claim has expired, and no row is from the future. *)
Definition ready (T : Z) (d : db) : Prop :=
  ∀ id r, outbox_events d !! id = Some r →
    available_at r <= T ∧ occurred_at r <= T ∧ ∀ l, lease_expires_at r = Some l → l < T.

(** The instants one cycle reads. *)
Record round := Round { recover_now : Z; run_clocks : clocks; run_token : Z; still_authorized : bool }.

Definition horizon (t : clocks) : Z := Z.max (claim_now t) (finish_now t) + hours 6.

(** Cycles far enough apart that whatever one leaves is due, or expired, by the next. *)
Fixpoint spaced (T : Z) (rounds : list round) : Prop :=
  match rounds with
  | [] => True
  | r :: rounds' => T <= recover_now r ∧ T <= claim_now (run_clocks r) ∧
      spaced (Z.max T (horizon (run_clocks r))) rounds'
  end.

Definition cycle (d : db) (r : round) : db :=
  (run_cycle snapshot_hash d ∅ handlers true (recover_now r) (run_clocks r) (run_token r)
     true (still_authorized r)).1.

(** What one cycle does to the work left: it is sound, and it makes progress. *)
Definition progress (d d' : db) : Prop :=
  db_ok d' ∧ budget (outbox_events d') <= budget (outbox_events d).

Lemma db_ok_bound d id r : db_ok d → outbox_events d !! id = Some r →
  0 <= weight r <= budget (outbox_events d).
Proof.
  intros (Hr & _) Hid. split; [apply weight_nonneg; by eapply Hr|]. by eapply budget_ge.
Qed.

Lemma ready_set T T' d id r m dl dom aud : ready T d → T <= T' → m = <[id := r]> (outbox_events d) →
  available_at r <= T' ∧ occurred_at r <= T' ∧ (∀ l, lease_expires_at r = Some l → l < T') →
  ready T' (Db m dl dom aud).
Proof.
  intros Hd HT -> Hr i x. cbn. rewrite lookup_insert_Some. intros [[-> <-]|[_ Hx]]; [done|].
  destruct (Hd _ _ Hx) as (H1 & H2 & H3). split_and!; [lia|lia|]. intros l Hl. specialize (H3 l Hl). lia.
Qed.

Lemma ready_weaken T T' d : ready T d → T <= T' → ready T' d.
Proof.
  intros Hd HT i x Hx. destruct (Hd _ _ Hx) as (H1 & H2 & H3). split_and!; [lia|lia|].
  intros l Hl. specialize (H3 l Hl). lia.
Qed.

(** Recovery never fails on a sound table, buries an expired claim if there is one, and
    adds no work. *)
Lemma recover_progress T now d : db_ok d → ready T d → T <= now →
  ∃ d' o, recover_expired_internal snapshot_hash d ∅ true now = (d', Ok o) ∧ progress d d' ∧ ready T d' ∧
    ((o = None ∧ d' = d ∧ ∀ id r, outbox_events d !! id = Some r → status r = OutboxStatus.PROCESSING →
        event_type r ∉ INTERNAL_EVENT_TYPES) ∨
     budget (outbox_events d') < budget (outbox_events d)).
Proof.
  intros Hok Hready Hnow. destruct (recover_expired_internal snapshot_hash d ∅ true now) as [d' res] eqn:Hrec.
  destruct (first_by lease_key (expired now ∅) (outbox_events d)) as [[id r]|] eqn:Hf.
  - pose proof (first_by_Some _ _ _ _ _ Hf) as (Hm & Hk & _).
    apply expired_true in Hk as (Hs & _ & Hty & _).
    destruct (proj1 Hok _ _ Hm) as (Hshape & Hp & Ha). rewrite Hs in Ha.
    destruct (payload r) as [p|] eqn:Hpay; [|done].
    unfold recover_expired_internal in Hrec. rewrite Hf, Hpay in Hrec.
    cbn [_require_worker negb raise_if mbind result_bind require_some] in Hrec.
    rewrite update_release in Hrec by (done || set_solver). cbn [mbind result_bind] in Hrec.
    assert (insert_dead_letter (set_events d (<[id := release_row r OutboxStatus.DEAD (available_at r)
        (sent_at r) (Some UNKNOWN_OUTCOME)]> (outbox_events d)))
        (DeadLetter id (snapshot_hash p) UNKNOWN_OUTCOME (attempt_count r) (occurred_at r) now false) =
      Ok (Db (<[id := release_row r OutboxStatus.DEAD (available_at r) (sent_at r)
                  (Some UNKNOWN_OUTCOME)]> (outbox_events d))
           (dead_letter_events d ++ [DeadLetter id (snapshot_hash p) UNKNOWN_OUTCOME (attempt_count r)
              (occurred_at r) now false]) (domain_events d) (audit_events d))) as Hins.
    { unfold insert_dead_letter. cbn [set_events dead_letter_events outbox_event_id attempts
        first_attempted_at last_attempted_at last_error_class].
      rewrite bool_decide_false.
      - destruct (Hready _ _ Hm) as (_ & Ho & _). replace (0 <? attempt_count r) with true by lia.
        replace (now <? occurred_at r) with false by lia. done.
      - intros Hin. destruct Hok as (_ & _ & Hd). apply Hd in Hin as (r' & Hr' & Hs'). congruence. }
    rewrite Hins in Hrec. cbn in Hrec. injection Hrec as <- <-. eexists _, _. split; [reflexivity|].
    assert (budget (<[id := release_row r OutboxStatus.DEAD (available_at r) (sent_at r)
              (Some UNKNOWN_OUTCOME)]> (outbox_events d)) = budget (outbox_events d) - 1) as Hb.
    { rewrite (budget_insert _ id r) by done. unfold weight. cbn.
      rewrite !bool_decide_true, Hs by done. lia. }
    split; [split; [by apply db_ok_dead|cbn; lia]|]. split; [|right; cbn; lia].
    apply (ready_set T T d id _ _ _ _ _ Hready (Z.le_refl T) eq_refl).
    destruct (Hready _ _ Hm) as (?&?&_). by split_and!.
  - unfold recover_expired_internal in Hrec. rewrite Hf in Hrec. cbn in Hrec. injection Hrec as <- <-.
    exists d, None. split; [done|]. split; [split; [done|lia]|]. split; [done|]. left.
    split_and!; [done..|]. intros id r Hm Hs Hty.
    pose proof (proj1 (first_by_None _ _ _) Hf id r Hm) as Hk.
    enough (expired now ∅ (id, r) = true) by congruence. apply expired_true.
    split_and!; [done| |done|set_solver]. destruct (Hready _ _ Hm) as (_ & _ & Hl).
    destruct (proj1 Hok _ _ Hm) as (Hshape & _). unfold outbox_claim_lease_shape in Hshape.
    rewrite Hs in Hshape. destruct (claim_token r), (claimed_at r), (lease_expires_at r) as [l|]; try done.
    exists l. split; [done|]. specialize (Hl l eq_refl). lia.
Qed.

(** Finishing a claimed event: the claimed row's place holds at most one unit of work less
    than the pending row it came from, and every instant in it is before the horizon. *)
Definition settled (T : Z) (d d' : db) (id : Z) (r : row) : Prop :=
  db_ok d' ∧ ready T d' ∧
  ∃ r', outbox_events d' = <[id := r']> (outbox_events d) ∧ event_type r' = event_type r ∧
    weight r' < 7 - attempt_count r.

Lemma delay_bound n delay : RETRY_DELAYS n = Some delay → delay <= hours 6.
Proof.
  unfold RETRY_DELAYS, hours, minutes, seconds, us_per_hour, us_per_second.
  repeat case_match; intros [= <-]; lia.
Qed.

Lemma weight_internal r : event_type r ∈ INTERNAL_EVENT_TYPES → weight r =
  match status r with
  | OutboxStatus.PENDING => 7 - attempt_count r
  | OutboxStatus.PROCESSING => 1
  | _ => 0
  end.
Proof. intros H. unfold weight. by rewrite bool_decide_true. Qed.

Lemma process_settles T d id r p t token authority : db_ok d → ready T d →
  outbox_events d !! id = Some r → status r = OutboxStatus.PENDING →
  event_type r ∈ INTERNAL_EVENT_TYPES → payload r = Some p → T <= claim_now t →
  let d1 := set_events d (<[id := claim_row r token (claim_now t)]> (outbox_events d)) in
  let e := Claimed id token (event_type r) p (attempt_count r + 1) (claim_now t + LEASE) in
  settled (Z.max T (horizon t)) d (_process_claimed_event snapshot_hash d1 e handlers t authority).1 id r.
Proof.
  intros Hok Hready Hm Hs Hty Hp Ht d1 e. pose proof (proj1 Hok _ _ Hm) as Hrow.
  destruct (Hready _ _ Hm) as (Hav & Hoc & _).
  assert (0 <= attempt_count r <= 5) as Hatt by (destruct Hrow as (_ & _ & Ha); by rewrite Hs in Ha).
  assert (db_ok d1) as Hok1.
  { apply (db_ok_set d id r); try done; [by apply row_ok_claim|by rewrite Hs]. }
  set (r1 := claim_row r token (claim_now t)) in *.
  assert (outbox_events d1 !! id = Some r1) as Hm1 by (cbn; by rewrite lookup_insert_eq).
  assert (Z.max T (horizon t) >= T ∧ claim_now t + LEASE < horizon t ∧ finish_now t + hours 6 <= horizon t)
    as (HT & Hlease & Hfin).
  { unfold horizon, LEASE, seconds, hours, us_per_hour, us_per_second. lia. }
  (* a row put in the place of the claimed one *)
  assert (∀ r' dl dom aud, db_ok (Db (<[id := r']> (outbox_events d1)) dl dom aud) →
            available_at r' <= Z.max T (horizon t) → occurred_at r' <= Z.max T (horizon t) →
            (∀ l, lease_expires_at r' = Some l → l < Z.max T (horizon t)) →
            event_type r' = event_type r → weight r' < 7 - attempt_count r →
            settled (Z.max T (horizon t)) d (Db (<[id := r']> (outbox_events d1)) dl dom aud) id r) as Hput.
  { intros r' dl dom aud Hok' Ha Ho Hl Hty' Hw. split; [done|]. split.
    - eapply (ready_set T); [exact Hready|lia| |by split_and!]. cbn. by rewrite insert_insert_eq.
    - exists r'. split_and!; [|done|done]. cbn. by rewrite insert_insert_eq. }
  (* the claim left as it is *)
  assert (settled (Z.max T (horizon t)) d d1 id r) as Hleft.
  { assert (d1 = Db (<[id := r1]> (outbox_events d1)) (dead_letter_events d1) (domain_events d1)
      (audit_events d1)) as ->.
    { subst d1. cbn. by rewrite insert_insert_eq. }
    apply Hput; cbn.
    - rewrite insert_insert_eq. exact Hok1.
    - lia.
    - lia.
    - intros l [= <-]. lia.
    - done.
    - rewrite weight_internal by done. cbn. lia. }
  assert (∀ ec rt st d2, retry_or_dead_letter_internal snapshot_hash d1 id token true ec rt
            (finish_now t) (finish_db_now t) = (d2, st) →
          settled (Z.max T (horizon t)) d d2 id r) as Hretry.
  { intros ec rt [st|er] d2 Hr; [|by apply transaction_Err in Hr as ->].
    pose proof Hr as Hperf. apply retry_spec in Hr as (x & Hl & Hc).
    pose proof (live_claim_life _ _ _ _ _ Hl) as (Hx & Hxs & _). rewrite Hm1 in Hx. injection Hx as <-.
    assert (db_ok d2) as Hok2.
    { pose proof (perform_step snapshot_hash d1 (RetryOrDie id token ec rt (finish_now t) (finish_db_now t))
        d2 (if bool_decide (st = OutboxStatus.DEAD) then [WasDeadLettered id] else [WasRetried id token])
        Hok1) as H. apply H. cbn. by rewrite Hperf. }
    destruct Hc as [(delay & _ & Hd & -> & ->)|(-> & _ & dl & _ & _ & ->)].
    - pose proof (delay_bound _ _ Hd). apply Hput; cbn; try done; try lia.
      rewrite weight_internal by done. cbn. lia.
    - apply Hput; cbn; try done; try lia. rewrite weight_internal by done. cbn. lia. }
  unfold _process_claimed_event. cbn [claimed_event_type e event_id event_claim_token].
  destruct (handlers !! event_type r) as [h|].
  - destruct (negb (h _)).
    + destruct (negb authority); [done|].
      destruct (retry_or_dead_letter_internal _ _ _ _ _ _ _ _ _) as [d2 st] eqn:Hr. by eapply Hretry.
    + destruct (negb authority); [done|].
      destruct (complete_internal d1 id token true (finish_now t) (finish_db_now t)) as [d2 [[]|er]] eqn:Hc;
        [|by apply transaction_Err in Hc as ->].
      pose proof Hc as Hperf. apply complete_spec in Hc as (x & Hl & ->).
      pose proof (live_claim_life _ _ _ _ _ Hl) as (Hx & Hxs & _). rewrite Hm1 in Hx. injection Hx as <-.
      apply Hput; cbn; try done; try lia; [|rewrite weight_internal by done; cbn; lia].
      apply (perform_step snapshot_hash d1 (Complete id token (finish_now t) (finish_db_now t)) _
               [WasCompleted id token] Hok1). cbn. by rewrite Hperf.
  - destruct (negb authority); [done|].
    destruct (retry_or_dead_letter_internal _ _ _ _ _ _ _ _ _) as [d2 st] eqn:Hr. by eapply Hretry.
Qed.

(** No row is lost, and its type never changes. *)
Definition keeps_rows (d d' : db) : Prop := ∀ id r, outbox_events d !! id = Some r →
  ∃ r', outbox_events d' !! id = Some r' ∧ event_type r' = event_type r.

Lemma keeps_rows_refl d : keeps_rows d d.
Proof. intros id r H. by exists r. Qed.
Lemma keeps_rows_trans d1 d2 d3 : keeps_rows d1 d2 → keeps_rows d2 d3 → keeps_rows d1 d3.
Proof.
  intros H1 H2 id r H. destruct (H1 _ _ H) as (r' & H' & Ht'). destruct (H2 _ _ H') as (r'' & H'' & Ht'').
  exists r''. split; [done|congruence].
Qed.

Lemma keeps_rows_insert d d' id r r' : outbox_events d !! id = Some r → event_type r' = event_type r →
  outbox_events d' = <[id := r']> (outbox_events d) → keeps_rows d d'.
Proof.
  intros Hm Ht Hd i x Hx. rewrite Hd. destruct (decide (i = id)) as [->|Hne].
  - rewrite lookup_insert_eq. exists r'. split; [done|congruence].
  - rewrite lookup_insert_ne by done. by exists x.
Qed.

Lemma recover_keeps now d d' o :
  recover_expired_internal snapshot_hash d ∅ true now = (d', Ok o) → keeps_rows d d'.
Proof.
  intros [(_ & -> & _)|(id & r & l & dom & aud & _ & Hf & _ & ->)]%recover_spec; [apply keeps_rows_refl|].
  apply first_by_Some in Hf as (Hm & _).
  eapply (keeps_rows_insert d _ id r); [done| |reflexivity]. done.
Qed.

(** With nothing expired, one run of the worker either finds nothing to do at all or does
    at least one unit of work. *)
Lemma run_once_progress T d t token authority : db_ok d → ready T d → T <= claim_now t →
  let d' := (run_once snapshot_hash d ∅ handlers t token true authority).1 in
  db_ok d' ∧ ready (Z.max T (horizon t)) d' ∧ keeps_rows d d' ∧
  (budget (outbox_events d') < budget (outbox_events d) ∨
   d' = d ∧ ∀ id r, outbox_events d !! id = Some r → event_type r ∈ INTERNAL_EVENT_TYPES →
     status r ≠ OutboxStatus.PENDING).
Proof.
  intros Hok Hready Ht. unfold run_once. cbn [negb].
  destruct (claim_next_internal d ∅ true (claim_now t) token) as [d1 res] eqn:Hc.
  apply claim_spec in Hc; [|done].
  destruct (first_by claim_key _ _) as [[id r]|] eqn:Hf.
  - destruct Hc as (Hs & Hm & -> & p & Hp & ->).
    apply first_by_Some in Hf as (_ & Hk & _). apply claimable_true in Hk as (_ & _ & Hty & _).
    destruct (process_settles T d id r p t token authority Hok Hready Hm Hs Hty Hp Ht)
      as (Hok' & Hready' & r' & Heq & Hty' & Hw).
    refine (conj _ (conj _ (conj _ _))); [exact Hok'|exact Hready'|by eapply keeps_rows_insert|]. left.
    rewrite Heq, (budget_insert _ id r) by done. rewrite (weight_internal r), Hs by done. lia.
  - destruct Hc as [-> ->]. cbn [fst].
    refine (conj _ (conj _ (conj _ _))); [done|exact (ready_weaken T _ d Hready (Z.le_max_l _ _))|apply keeps_rows_refl|]. right. split; [done|].
    intros id r Hm Hty Hs. pose proof (proj1 (first_by_None _ _ _) Hf id r Hm) as Hk.
    enough (claimable (claim_now t) ∅ (id, r) = true) by congruence. apply claimable_true.
    split_and!; [done| |done|set_solver]. destruct (Hready _ _ Hm) as (?&_). lia.
Qed.

Lemma cycle_progress T d (r : round) : db_ok d → ready T d → T <= recover_now r → T <= claim_now (run_clocks r) →
  db_ok (cycle d r) ∧ ready (Z.max T (horizon (run_clocks r))) (cycle d r) ∧
  keeps_rows d (cycle d r) ∧
  (budget (outbox_events (cycle d r)) < budget (outbox_events d) ∨
   budget (outbox_events (cycle d r)) = 0).
Proof.
  intros Hok Hready Hrec Hrun.
  destruct (recover_progress T (recover_now r) d Hok Hready Hrec)
    as (d1 & o & Heq & [Hok1 Hb1] & Hready1 & Hcase).
  pose proof (recover_keeps _ _ _ _ Heq) as Hk1.
  destruct (run_once_progress T d1 (run_clocks r) (run_token r) (still_authorized r) Hok1 Hready1 Hrun)
    as (Hok2 & Hready2 & Hk2 & Hcase2).
  assert (cycle d r = (run_once snapshot_hash d1 ∅ handlers (run_clocks r) (run_token r) true
            (still_authorized r)).1) as -> by (unfold cycle, run_cycle; cbn [negb]; by rewrite Heq).
  refine (conj _ (conj _ (conj _ _))); [done|done|by eapply keeps_rows_trans|].
  destruct Hcase as [(-> & -> & Hno)|Hlt]; [|left; destruct Hcase2 as [?|[-> _]]; lia].
  destruct Hcase2 as [?|[-> Hidle]]; [left; lia|]. right.
  pose proof (budget_nonneg _ (proj1 Hok)). destruct (Z.lt_trichotomy 0 (budget (outbox_events d)))
    as [Hpos|[Hz|]]; [|done|lia].
  destruct (budget_pos _ Hpos) as (id & x & Hx & Hw). unfold weight in Hw.
  case_bool_decide as Hty; [|lia]. destruct (status x) eqn:Hs; try lia.
  - by destruct (Hidle _ _ Hx Hty).
  - by destruct (Hno _ _ Hx Hs).
Qed.

Definition drain (d : db) (rounds : list round) : db := foldl cycle d rounds.

Lemma drain_progress rounds : ∀ T d, db_ok d → ready T d → spaced T rounds →
  db_ok (drain d rounds) ∧ keeps_rows d (drain d rounds) ∧
  (budget (outbox_events (drain d rounds)) <= budget (outbox_events d) - Z.of_nat (length rounds) ∨
   budget (outbox_events (drain d rounds)) = 0).
Proof.
  induction rounds as [|r rounds IH]; intros T d Hok Hready Hsp.
  - cbn. refine (conj _ (conj _ _)); [done|apply keeps_rows_refl|left; lia].
  - destruct Hsp as (H1 & H2 & Hsp).
    destruct (cycle_progress T d r Hok Hready H1 H2) as (Hok1 & Hready1 & Hk1 & Hb1).
    destruct (IH _ _ Hok1 Hready1 Hsp) as (Hok2 & Hk2 & Hb2). cbn [drain foldl].
    refine (conj _ (conj _ _)); [done|by eapply keeps_rows_trans|].
    pose proof (budget_nonneg _ (proj1 Hok2)). cbn [length]. unfold drain in *. lia.
Qed.

(** C3: the queue drains.  Whatever the handlers do -- return, raise, be missing, outlive
    their lease, lose their authority half way -- cycles far enough apart leave every
    internal event sent or in the dead-letter queue once there have been as many as there
    was work: at most seven per waiting event and one per claim found.  No event is lost. *)
Theorem outbox_drains T d rounds :
  db_ok d → ready T d → spaced T rounds → budget (outbox_events d) <= Z.of_nat (length rounds) →
  ∀ id r, outbox_events d !! id = Some r → event_type r ∈ INTERNAL_EVENT_TYPES →
    ∃ r', outbox_events (drain d rounds) !! id = Some r' ∧
      (status r' = OutboxStatus.SENT ∨
       status r' = OutboxStatus.DEAD ∧
       id ∈ (outbox_event_id <$> dead_letter_events (drain d rounds))).
Proof.
  intros Hok Hready Hsp Hlen id r Hm Hty.
  destruct (drain_progress rounds T d Hok Hready Hsp) as (Hok' & Hk & Hb).
  destruct (Hk _ _ Hm) as (r' & Hm' & Hty'). exists r'. split; [done|].
  pose proof (budget_ge _ id r' (proj1 Hok') Hm') as Hw. pose proof (proj1 Hok' _ _ Hm') as Hrow.
  pose proof (weight_nonneg r' Hrow). rewrite weight_internal in * by congruence.
  destruct Hrow as (_ & _ & Ha). destruct (status r') eqn:Hs; try done; try lia; [by left|].
  right. split; [done|]. destruct Hok' as (_ & _ & Hd). apply Hd. by exists r'.
Qed.
End drain.

(** * A run *)

Definition requested : OutboxEvent (P := unit) := NewEvent "order.requested.v1" tt "order:1".
Definition one_change : MaterialChange := {|
  change_aggregate_type := "ORDER"; change_aggregate_id := 1; aggregate_version := 1;
  change_event_type := "ORDER_REQUESTED"; audit_action := "ORDER_REQUEST";
  change_correlation_id := 9; change_outbox_events := [requested]; change_occurred_at := 0 |}.

(** Submitted, claimed, failed, claimed again after the delay; the first claim cannot
    complete the event any more, the second does. *)
Definition retried_run : list (@action unit) :=
  [Commit one_change [7] 0; Claim ∅ 0 100; RetryOrDie 7 100 "BUSY" true 0 0;
   Claim ∅ (seconds 29) 101; Claim ∅ (seconds 30) 102; Complete 7 100 (seconds 31) (seconds 31);
   Complete 7 102 (seconds 31) (seconds 31); Recover ∅ (hours 9)].

Example retried_run_happenings :
  (perform_all (λ _, "h"%string) empty_db retried_run).2 =
  [WasClaimed 7 100; WasRetried 7 100; WasClaimed 7 102; WasCompleted 7 102].
Proof. vm_compute. reflexivity. Qed.

Lemma outbox_refines_life_cycle_witness :
  life_trace ∅ (perform_all (λ _, "h"%string) empty_db retried_run).2
    (lives (perform_all (λ _, "h"%string) empty_db retried_run).1).
Proof.
  exact (proj1 (outbox_refines_life_cycle (λ _, "h"%string) retried_run _ _ (surjective_pairing _))).
Defined.

Lemma outbox_at_most_once_witness :
  last_claim 7 [WasClaimed 7 100; WasRetried 7 100; WasClaimed 7 102] = Some 102.
Proof.
  exact (proj2 (outbox_at_most_once (λ _, "h"%string) retried_run _ _ (surjective_pairing _))
    [WasClaimed 7 100; WasRetried 7 100; WasClaimed 7 102] 7 102 [] retried_run_happenings).
Defined.

(** One event whose handler always raises. *)
Definition stuck_row : row (P := unit) :=
  Row "ORDER" 1 "order.requested.v1" (Some tt) "order:1" 9 0 0 OutboxStatus.PENDING 0
    None None None None None.
Definition stuck_db : db := Db {[7 := stuck_row]} [] [] [].

Lemma stuck_rows id r : outbox_events stuck_db !! id = Some r → id = 7 ∧ r = stuck_row.
Proof. cbn. intros [<- <-]%lookup_singleton_Some. done. Qed.

Definition raising : gmap string (@handler unit) := {["order.requested.v1"%string := λ _, false]}.
Definition weekly (k : Z) : round :=
  Round (hours (24 * 7 * k)) (Clocks (hours (24 * 7 * k)) (hours (24 * 7 * k)) (hours (24 * 7 * k))) k true.
Definition weeks : list round := weekly <$> [1; 2; 3; 4; 5; 6; 7].

Lemma outbox_drains_witness :
  ∃ r', outbox_events (drain (λ _, "h"%string) raising stuck_db weeks) !! 7 = Some r' ∧
    (status r' = OutboxStatus.SENT ∨
     status r' = OutboxStatus.DEAD ∧
     7 ∈ (outbox_event_id <$> dead_letter_events (drain (λ _, "h"%string) raising stuck_db weeks))).
Proof.
  apply (outbox_drains (λ _, "h"%string) raising 0 stuck_db weeks) with (r := stuck_row).
  - split; [|split].
    + intros id r [-> ->]%stuck_rows. vm_compute. repeat split; discriminate.
    + apply NoDup_nil_2.
    + intros id. split; [intros H; by apply elem_of_nil in H|].
      intros (r & [_ ->]%stuck_rows & Hs). discriminate Hs.
  - intros id r [-> ->]%stuck_rows. split; [|split]; [vm_compute; discriminate..|].
    intros l Hl. discriminate Hl.
  - repeat (split; [vm_compute; discriminate|]). exact I.
  - vm_compute. discriminate.
  - reflexivity.
  - decided.
Defined.

(** The run that ends in the dead-letter queue still reports a scheduled retry. *)
Definition last_attempt : row (P := unit) :=
  Row "ORDER" 1 "order.requested.v1" (Some tt) "order:1" 9 0 0 OutboxStatus.PENDING 5
    None None None None None.

Example dead_letter_reported_as_retry :
  let '(d, r) := run_once (λ _, "h"%string) (Db {[7 := last_attempt]} [] [] []) ∅ raising
                   (Clocks 0 0 0) 1 true true in
  r = Ok RETRY_SCHEDULED ∧ (status <$> outbox_events d !! 7) = Some OutboxStatus.DEAD.
Proof. vm_compute. done. Qed.
