(* ===== verification/Idempotency.v ===== *)
(** Lifetime idempotency of material commands ([db/idempotency.py]): a command runs once,
    and every later delivery of it returns the original response and changes nothing.
    The tables the command works on, the response's type, the canonical form of both
    (RFC 8785, a library's) and the keyed digest are parameters. *)
From Stdlib Require Import Ascii String.
From S2P Require Import Prelude Text.
Local Open Scope laundry_scope.

Inductive IdempotencyError (E : Type) :=
| BadText (* ValueError of [_required_text] *)
| NotCanonical (* CanonicalizationError *)
| IdempotencyConflictError
| IdempotencyStateError
| ExecutorError (e : E).
Arguments BadText {E}.
Arguments NotCanonical {E}.
Arguments IdempotencyConflictError {E}.
Arguments IdempotencyStateError {E}.
Arguments ExecutorError {E} e.

(** [1 <= len(value.strip()) <= 300], and the stripped text. *)
Definition _required_text {E} (value : string) : result (IdempotencyError E) text :=
  let stripped := strip (txt value) in
  raise_if ((stripped is? []) || (300 <? length stripped)%nat) BadText ;;
  Ok stripped.

Section idempotency.
(** [request_hash]: canonical form, then digest, of a request payload; [normal]: the
    response as its canonical JSON reads back. *)
Context {T V R E : Type} (request_hash : V → option string) (normal : R → option R).

Record idempotency_record := Record_ {
  record_hash : string;
  record_response : option R;
}.

(** The records and the tables the commands work on, in one database. *)
Record store := Store {
  records : gmap (text * text) idempotency_record;
  tables : T;
}.

Record IdempotentCommand := Command {
  scope : string;
  key : string;
  command_payload : V;
}.

Record IdempotentResult := Result_ {
  response : R;
  replayed : bool;
  result_hash : string;
}.

Definition set_record (s : store) (k : text * text) (r : idempotency_record) (t : T) : store :=
  Store (<[k := r]> (records s)) t.

(** The body of the transaction; the claim is inserted with no response, then completed. *)
Definition execute_body (s : store) (k : text * text) (hash : string)
    (executor : T → result E (T * R)) : result (IdempotencyError E) (store * IdempotentResult) :=
  match records s !! k with
  | Some r =>
      raise_if (negb (record_hash r is? hash)) IdempotencyConflictError ;;
      stored ← require_some (record_response r) IdempotencyStateError;
      Ok (s, Result_ stored true hash)
  | None =>
      let claimed := set_record s k (Record_ hash None) (tables s) in
      '(t, mapping) ← match executor (tables claimed) with
                      | Ok tm => Ok tm
                      | Err e => Err (ExecutorError e)
                      end;
      value ← require_some (normal mapping) NotCanonical;
      (* UPDATE ... WHERE response IS NULL RETURNING *)
      raise_if (negb (bool_decide (is_Some (records claimed !! k)))) IdempotencyStateError ;;
      Ok (set_record claimed k (Record_ hash (Some value)) t, Result_ value false hash)
  end.

Definition execute (s : store) (c : IdempotentCommand) (executor : T → result E (T * R))
    : store * result (IdempotencyError E) IdempotentResult :=
  match (sc ← _required_text (scope c);
         ky ← _required_text (key c);
         hash ← require_some (request_hash (command_payload c)) NotCanonical;
         execute_body s (sc, ky) hash executor) with
  | Ok (s', r) => (s', Ok r)
  | Err e => (s, Err e)
  end.

(** Deliveries in the order their transactions commit: any commands, any executors. *)
Fixpoint deliver (s : store) (l : list (IdempotentCommand * (T → result E (T * R)))) : store :=
  match l with
  | [] => s
  | (c, f) :: l' => deliver (execute s c f).1 l'
  end.

(** * Facts *)

(** Every record in the store is complete: the claim and its response are one commit. *)
Definition complete (s : store) : Prop :=
  ∀ k r, records s !! k = Some r → is_Some (record_response r).

Lemma execute_Ok s c f s' r : execute s c f = (s', Ok r) →
  ∃ sc ky hash, _required_text (E := E) (scope c) = Ok sc ∧ _required_text (E := E) (key c) = Ok ky ∧
    request_hash (command_payload c) = Some hash ∧ execute_body s (sc, ky) hash f = Ok (s', r).
Proof.
  unfold execute. intros H.
  destruct (_required_text (scope c)) as [sc|e] eqn:H1; [|done].
  destruct (_required_text (key c)) as [ky|e] eqn:H2; [|done].
  destruct (request_hash (command_payload c)) as [hash|] eqn:H3; [|done]. cbn in H.
  exists sc, ky, hash. split_and!; [done..|].
  destruct (execute_body s (sc, ky) hash f) as [[s1 r1]|e]; [|done]. by injection H as -> ->.
Qed.

Lemma execute_Err s c f s' e : execute s c f = (s', Err e) → s' = s.
Proof. unfold execute. destruct (_ ≫= _) as [[s1 r1]|e']; [done|]. by intros [= <- _]. Qed.

Lemma execute_body_spec s k hash f s' r : execute_body s k hash f = Ok (s', r) →
  (s' = s ∧ replayed r = true ∧ result_hash r = hash ∧
     records s !! k = Some (Record_ hash (Some (response r)))) ∨
  (records s !! k = None ∧ replayed r = false ∧ result_hash r = hash ∧
   ∃ t m, f (tables s) = Ok (t, m) ∧ normal m = Some (response r) ∧
     s' = Store (<[k := Record_ hash (Some (response r))]> (records s)) t).
Proof.
  unfold execute_body. destruct (records s !! k) as [[h0 o0]|] eqn:Hk; intros H.
  - left. apply raise_bind_Ok in H as [Hh H]. apply bind_Ok in H as (v & Hv & H).
    apply require_some_Ok in Hv. injection H as <- <-. cbn in *. guards. by subst.
  - right. cbn [set_record tables] in H.
    destruct (f (tables s)) as [[t m]|e]; [|done]. cbn in H.
    apply bind_Ok in H as (v & Hv & H). apply require_some_Ok in Hv.
    apply raise_bind_Ok in H as [_ H]. injection H as <- <-. split_and!; [done..|].
    exists t, m. split; [done|]. split; [done|]. unfold set_record. cbn. by rewrite insert_insert_eq.
Qed.

(** Whatever is delivered, a completed record stays as it is. *)
Lemma execute_keeps s c f k h v : records s !! k = Some (Record_ h (Some v)) →
  records (execute s c f).1 !! k = Some (Record_ h (Some v)).
Proof.
  intros Hk. destruct (execute s c f) as [s' [r|e]] eqn:He.
  - apply execute_Ok in He as (sc & ky & hash & _ & _ & _ & Hb).
    apply execute_body_spec in Hb as [(-> & _)|(Hnone & _ & _ & t & m & _ & _ & ->)]; [done|].
    cbn. rewrite lookup_insert_ne; [done|]. intros Heq. rewrite Heq in Hnone. congruence.
  - by apply execute_Err in He as ->.
Qed.

Lemma deliver_keeps l : ∀ s k h v, records s !! k = Some (Record_ h (Some v)) →
  records (deliver s l) !! k = Some (Record_ h (Some v)).
Proof.
  induction l as [|[c f] l IH]; intros s k h v Hk; [done|]. cbn. by apply IH, execute_keeps.
Qed.

(** A stored response is what any delivery of its key gets. *)
Lemma execute_stored s c f sc ky hash h v :
  _required_text (E := E) (scope c) = Ok sc → _required_text (E := E) (key c) = Ok ky →
  request_hash (command_payload c) = Some hash → records s !! (sc, ky) = Some (Record_ h (Some v)) →
  execute s c f = (s, if decide (h = hash) then Ok (Result_ v true hash)
                      else Err IdempotencyConflictError).
Proof.
  intros H1 H2 H3 Hk. unfold execute. rewrite H1, H2, H3. cbn. unfold execute_body. rewrite Hk. cbn.
  destruct (decide (h = hash)) as [->|Hne].
  - by rewrite bool_decide_true.
  - by rewrite bool_decide_false.
Qed.

(** C29: a command that succeeded once never runs again.  After any other deliveries, the
    same key with the same request returns the original response and changes nothing,
    whatever the executor would do now; the same key with a different request is refused
    and changes nothing; and a delivery that fails leaves the database as it was. *)
Theorem execute_once s c f s1 r l c' f' :
  execute s c f = (s1, Ok r) → scope c' = scope c → key c' = key c →
  let s2 := deliver s1 l in
  (request_hash (command_payload c') = request_hash (command_payload c) →
   execute s2 c' f' = (s2, Ok (Result_ (response r) true (result_hash r)))) ∧
  (∀ h', request_hash (command_payload c') = Some h' → h' ≠ result_hash r →
   execute s2 c' f' = (s2, Err IdempotencyConflictError)) ∧
  (∀ e s3, execute s2 c' f' = (s3, Err e) → s3 = s2).
Proof.
  intros He Hsc Hky s2. apply execute_Ok in He as (sc & ky & hash & H1 & H2 & H3 & Hb).
  assert (records s1 !! (sc, ky) = Some (Record_ hash (Some (response r))) ∧ result_hash r = hash)
    as [Hk Hr].
  { apply execute_body_spec in Hb as [(-> & _ & ? & ?)|(_ & _ & ? & t & m & _ & _ & ->)]; [done|].
    cbn. by rewrite lookup_insert_eq. }
  apply (deliver_keeps l) in Hk. fold s2 in Hk. rewrite <- Hsc in H1. rewrite <- Hky in H2.
  split_and!.
  - intros Hh. rewrite H3 in Hh. rewrite (execute_stored s2 c' f' _ _ _ _ _ H1 H2 Hh Hk), Hr.
    by rewrite decide_True.
  - intros h' Hh Hne. rewrite (execute_stored s2 c' f' _ _ _ _ _ H1 H2 Hh Hk).
    rewrite decide_False by congruence. done.
  - intros e s3 H. by apply execute_Err in H.
Qed.
End idempotency.

(** A drawer that takes 50,000 đồng: the second delivery of the same request is answered
    with the first response, after another payment has been recorded. *)
Definition pay (amount : nat) (drawer : nat) : result unit (nat * nat) :=
  Ok (drawer + amount, drawer + amount).
Definition pay_first : IdempotentCommand (V := nat) := Command "payment:order-1" "k-1" 50.
Definition pay_other : IdempotentCommand (V := nat) := Command "payment:order-1" "k-2" 20.
Definition digest (v : nat) : option string := Some (if (v =? 50)%nat then "JCS-A" else "JCS-B")%string.
Definition first_delivery := execute digest Some (Store ∅ 100) pay_first (pay 50).

Lemma execute_once_witness :
  let s2 := deliver digest Some first_delivery.1 [(pay_other, pay 20)] in
  tables s2 = 170 ∧
  execute digest Some s2 pay_first (pay 50) = (s2, Ok (Result_ 150 true "JCS-A")).
Proof.
  split; [vm_compute; reflexivity|].
  exact (proj1 (execute_once digest Some (Store ∅ 100) pay_first (pay 50) first_delivery.1
    (Result_ 150 false "JCS-A") [(pay_other, pay 20)] pay_first (pay 50) eq_refl eq_refl eq_refl)
    eq_refl).
Defined.
