(* ===== verification/Approvals.v ===== *)
(** Approvals: the policy table and the envelope's window ([domain/approvals.py]), and the
    request, decision, counter attestation and one-time execution claim of an approval
    ([db/approvals.py]) as transactions on the approval tables, with the triggers and
    checks of their migrations.  The rows of the other tables the code reads -- store
    membership, orders, quotes, drafts, exports -- are given by a [world]; the digest of a
    canonical document is a parameter. *)
From Stdlib Require Import Ascii String.
From S2P Require Import Prelude Catalog Clock Text.
From S2P Require Import Idempotency.
Local Open Scope laundry_scope.
Local Open Scope Z_scope.

(** * The policy table *)

Module ApprovalWindow.
Inductive t := FIXED | END_OF_NEXT_BUSINESS_DAY.
#[export] Instance eq_dec : EqDecision t.
Proof. solve_decision. Defined.
End ApprovalWindow.
#[export] Existing Instance ApprovalWindow.eq_dec.

Record ApprovalPolicy := Policy {
  policy_required_role : ActorRole.t;
  maximum_ttl : timedelta;
  policy_reason_codes : list string;
  policy_obligations : list string;
  policy_execution_capability : string;
  window : ApprovalWindow.t;
}.

Definition _OPS_30_MIN : ApprovalPolicy :=
  Policy ActorRole.OPS_APPROVER (minutes 30) ["CUSTOMER_FACING_COMMITMENT"%string]
    ["RECHECK_RESOURCE_VERSION"; "RECHECK_POLICY_AT_EXECUTION"]%string
    "HUMAN_APPROVED_ACTION" ApprovalWindow.FIXED.
Definition _OPS_15_MIN : ApprovalPolicy :=
  Policy ActorRole.OPS_APPROVER (minutes 15) ["CAPACITY_OR_ORDER_CONFIRMATION"%string]
    ["RECHECK_RESOURCE_VERSION"; "RECHECK_CAPACITY_AT_EXECUTION"]%string
    "HUMAN_APPROVED_ACTION" ApprovalWindow.FIXED.
Definition _COUNTER_ATTESTATION : ApprovalPolicy :=
  Policy ActorRole.OPERATOR (minutes 30) ["CUSTOMER_FACING_COMMITMENT"%string]
    ["RECHECK_RESOURCE_VERSION"%string] "STAFF_ATTESTED_ACTION" ApprovalWindow.FIXED.
Definition _OWNER_FINANCIAL : ApprovalPolicy :=
  Policy ActorRole.OWNER_ADMIN (minutes 10) ["FINANCIAL_OR_POLICY_ACTION"%string]
    ["MFA_REQUIRED"; "SEPARATION_OF_DUTY"; "RECHECK_RESOURCE_VERSION"]%string
    "OWNER_APPROVED_ACTION" ApprovalWindow.FIXED.
Definition _OWNER_REMEDY : ApprovalPolicy :=
  Policy (policy_required_role _OWNER_FINANCIAL) (hours 48) (policy_reason_codes _OWNER_FINANCIAL)
    (policy_obligations _OWNER_FINANCIAL) (policy_execution_capability _OWNER_FINANCIAL)
    ApprovalWindow.END_OF_NEXT_BUSINESS_DAY.

(** Every action has a policy, so the missing-policy refusal is unreachable. *)
Definition APPROVAL_POLICIES (a : ApprovalAction.t) : ApprovalPolicy :=
  match a with
  | ApprovalAction.PRESENT_QUOTE | ApprovalAction.SEND_MESSAGE => _OPS_30_MIN
  | ApprovalAction.FINALIZE_QUOTE | ApprovalAction.SET_RANGE_PRICE => _COUNTER_ATTESTATION
  | ApprovalAction.CONFIRM_SLOT | ApprovalAction.ACCEPT_ORDER => _OPS_15_MIN
  | ApprovalAction.APPROVE_REMEDY => _OWNER_REMEDY
  | ApprovalAction.SET_DELIVERY_FEE | ApprovalAction.APPLY_PROMOTION
  | ApprovalAction.CANCEL_ACTIVE_ORDER | ApprovalAction.APPROVE_B2B_TERMS
  | ApprovalAction.PUBLISH_POLICY | ApprovalAction.EXPORT_SANITIZED_DATA => _OWNER_FINANCIAL
  end.

Definition APPROVAL_RESOURCE_TYPES (a : ApprovalAction.t) : string :=
  match a with
  | ApprovalAction.PRESENT_QUOTE | ApprovalAction.FINALIZE_QUOTE
  | ApprovalAction.SET_RANGE_PRICE | ApprovalAction.APPLY_PROMOTION => "QUOTE_REVISION"
  | ApprovalAction.CONFIRM_SLOT => "SLOT_PROPOSAL"
  | ApprovalAction.SET_DELIVERY_FEE => "DELIVERY_FEE_PROPOSAL"
  | ApprovalAction.SEND_MESSAGE => "MESSAGE_DRAFT"
  | ApprovalAction.ACCEPT_ORDER | ApprovalAction.CANCEL_ACTIVE_ORDER => "ORDER"
  | ApprovalAction.APPROVE_REMEDY => "REMEDY_PROPOSAL"
  | ApprovalAction.APPROVE_B2B_TERMS => "B2B_TERMS"
  | ApprovalAction.PUBLISH_POLICY => "POLICY_VERSION"
  | ApprovalAction.EXPORT_SANITIZED_DATA => "EXPORT_REQUEST"
  end.

(** * Errors *)

Inductive ApprovalError :=
| ApprovalEnvelopeError (* VALIDATION_ERROR: invalid approval binding *)
| WindowExceedsMaximum
| ApprovalUnavailable
| BindingStale
| NotPending
| NotExecutable
| ReservedForManualSend
| PolicyVersionStale
| ApprovalExpired
| UnverifiableResourceType
| ResourceNotInStore
| ContentDigestUnknown
| RecipientSuppressed
| ApprovalResourceChangedError
| BadReasonCode
| NoteTooLong
| StateStale
| ApprovalAuthorizationError
| InvalidTransition (* the state table's trigger *)
| ConstraintViolation (* a key or a check of the approval tables *).
#[export] Instance approval_error_eq_dec : EqDecision ApprovalError.
Proof. solve_decision. Defined.
Abbreviation approval_result A := (result ApprovalError A).

(** * The envelope *)

(** [datetime.combine(day + 2 days, time(0), BUSINESS_TIMEZONE).astimezone(tz)]. *)
Definition approval_expires_at (policy : ApprovalPolicy) (requested_at : datetime)
    : approval_result datetime :=
  match utcoffset_us requested_at with
  | None => Err ApprovalEnvelopeError
  | Some offset =>
      if window policy is? ApprovalWindow.FIXED then Ok (dt_add requested_at (maximum_ttl policy))
      else
      let local_day := date_of (astimezone HO_CHI_MINH requested_at) in
      let closes := astimezone offset (midnight (local_day + 2) HO_CHI_MINH) in
      if negb (dt_ltb requested_at closes && dt_leb closes (dt_add requested_at (maximum_ttl policy)))
      then Err WindowExceedsMaximum
      else Ok closes
  end.

Definition between_len (lo hi : nat) (t : text) : bool :=
  (lo <=? length t)%nat && (length t <=? hi)%nat.
Definition CODE_PATTERN : string → bool := code_text 127.
Definition blank (s : string) : bool := strip (txt s) is? [].

(** * The approval tables *)

Module ApprovalStatus.
Inductive t :=
  | REQUESTED | APPROVED | EXECUTING | EXECUTED | FAILED | MANUAL_REVIEW | DLQ | REJECTED
  | EXPIRED | CANCELLED.
#[export] Instance eq_dec : EqDecision t.
Proof. solve_decision. Defined.
End ApprovalStatus.
#[export] Existing Instance ApprovalStatus.eq_dec.

(** A row of [approval_requests] joined with its row of [approval_request_states]. *)
Record approval := Approval {
  action : ApprovalAction.t;
  resource_type : string;
  resource_id : Z;
  resource_version : Z;
  snapshot_hash : string;
  rendered_hash : string;
  policy_version : string;
  required_role : ActorRole.t;
  reason_codes : list string;
  obligations : list string;
  execution_capability : string;
  requested_by : Z;
  requested_at : datetime;
  expires_at : datetime;
  store_id : Z;
  status : ApprovalStatus.t;
  row_version : Z;
  updated_at : datetime;
}.
#[export] Instance approval_eq_dec : EqDecision approval.
Proof. solve_decision. Defined.

Definition with_state (r : approval) (s : ApprovalStatus.t) (version : Z) (at_ : datetime) : approval :=
  Approval (action r) (resource_type r) (resource_id r) (resource_version r) (snapshot_hash r)
    (rendered_hash r) (policy_version r) (required_role r) (reason_codes r) (obligations r)
    (execution_capability r) (requested_by r) (requested_at r) (expires_at r) (store_id r)
    s version at_.

(** The resource version, the snapshot digest and the rendering digest. *)
Definition binding_of (r : approval) : Z * string * string :=
  (resource_version r, snapshot_hash r, rendered_hash r).

Module ApprovalDecision.
Inductive t :=
  | APPROVED | REJECTED.
#[export] Instance eq_dec : EqDecision t.
Proof. solve_decision. Defined.
End ApprovalDecision.
#[export] Existing Instance ApprovalDecision.eq_dec.

(** [counter_attested] is the flag of the decision's event and audit details. *)
Record decision_row := DecisionRow {
  decided_approval : Z;
  decision_type : ApprovalAction.t;
  decision : ApprovalDecision.t;
  decided_by : Z;
  decision_reason : string;
  decision_note : option string;
  decision_binding : Z * string * string;
  decided_at : datetime;
  counter_attested : bool;
}.

Record execution_row := ExecutionRow {
  executed_approval : Z;
  execution_binding : Z * string * string;
  claimed_at : datetime;
}.

Record db := Db {
  approvals : gmap Z approval;
  decisions : list decision_row;
  executions : list execution_row;
}.

(** [enforce_approval_state_transition]: the trigger's table of moves. *)
Definition transition_allowed (old new : ApprovalStatus.t) : bool :=
  match old with
  | ApprovalStatus.REQUESTED =>
      new in? [ApprovalStatus.APPROVED; ApprovalStatus.REJECTED; ApprovalStatus.EXPIRED;
               ApprovalStatus.CANCELLED]
  | ApprovalStatus.APPROVED =>
      new in? [ApprovalStatus.EXECUTING; ApprovalStatus.EXPIRED; ApprovalStatus.CANCELLED]
  | ApprovalStatus.EXECUTING => new in? [ApprovalStatus.EXECUTED; ApprovalStatus.FAILED]
  | ApprovalStatus.FAILED => new in? [ApprovalStatus.MANUAL_REVIEW; ApprovalStatus.DLQ]
  | _ => false
  end.

(** [UPDATE approval_request_states SET status, row_version + 1, updated_at WHERE
    row_version = old_version [AND status = required] RETURNING ...], through the trigger. *)
Definition update_state (d : db) (approval_id : Z) (required : option ApprovalStatus.t)
    (old_version : Z) (new : ApprovalStatus.t) (at_ : datetime) : approval_result db :=
  r ← require_some (approvals d !! approval_id) StateStale;
  raise_if (negb (row_version r =? old_version)
            || match required with Some s => negb (status r is? s) | None => false end) StateStale ;;
  raise_if (dt_ltb at_ (updated_at r) || negb (transition_allowed (status r) new)) InvalidTransition ;;
  Ok (Db (<[approval_id := with_state r new (row_version r + 1) at_]> (approvals d))
        (decisions d) (executions d)).

(** [UNIQUE (approval_request_id)] and the checks of the decision table. *)
Definition insert_decision (d : db) (row : decision_row) : approval_result db :=
  raise_if (decided_approval row in? (decided_approval <$> decisions d)) ConstraintViolation ;;
  raise_if (match decision_note row with
            | Some n => negb (between_len 1 500 (txt n))
            | None => false end
            || negb (code_text 99 (decision_reason row))) ConstraintViolation ;;
  Ok (Db (approvals d) (row :: decisions d) (executions d)).

Definition insert_execution (d : db) (row : execution_row) : approval_result db :=
  raise_if (executed_approval row in? (executed_approval <$> executions d)) ConstraintViolation ;;
  Ok (Db (approvals d) (decisions d) (row :: executions d)).

(** * What the other tables say *)

Module SuppressionState.
Inductive t :=
  | CLEAR | SUPPRESSED | PENDING_REVIEW_BLOCKED | UNKNOWN_BLOCKED.
#[export] Instance eq_dec : EqDecision t.
Proof. solve_decision. Defined.
End SuppressionState.
#[export] Existing Instance SuppressionState.eq_dec.

Module ReviewDecision.
Inductive t :=
  | APPROVE | EDIT | REJECT.
End ReviewDecision.

(** A draft joined with its review, if it has one. *)
Record draft_row := DraftRow {
  draft_store : Z;
  conversation_binding_id : Z;
  contact_binding_id : Z;
  draft_text : string;
  review_decision : option ReviewDecision.t;
  edited_text : option string;
}.

Record MessageDraftFacts := DraftFacts {
  facts_run : Z;
  facts_store : Z;
  facts_conversation : Z;
  facts_contact : Z;
  facts_version : Z;
}.

Record CurrentResourceBinding := Current {
  current_store : Z;
  current_version : Z;
  current_snapshot : string;
  current_rendered : option string;
}.

Record world := World {
  staff_store_assignments : Z → Z → bool; (* staff, store: a row not revoked *)
  orders_row : Z → option (Z * Z * string); (* store, row version, quote digest *)
  quotes_row : Z → option (Z * Z); (* store, current revision *)
  quote_revisions_row : Z → Z → option string; (* snapshot digest of a revision *)
  remedy_proposals_row : Z → option (Z * Z * string); (* store, order, proposal digest *)
  export_requests_row : Z → option (Z * Z * string * option Z);
    (* store, row version, snapshot digest, who defined it *)
  read_export_request_binding : Z → option (Z * Z * string * string);
  agent_drafts_row : Z → option draft_row;
  manual_send_envelopes_row : Z → bool;
  transactional_suppression_state : Z → string → option SuppressionState.t;
}.

Definition is_store_member (w : world) (staff store : Z) : bool := staff_store_assignments w staff store.
Definition require_store_membership (w : world) (staff store : Z) : approval_result unit :=
  raise_if (negb (is_store_member w staff store)) ApprovalAuthorizationError.

Definition AGENT_TEXT_REVISION : Z := 1.
Definition EDITED_TEXT_REVISION : Z := 2.
Definition MANUAL_SEND_CHANNELS : list string := ["INTERNAL_TEST"%string].

Definition transactional_suppression_refusal (w : world) (contact : Z) (channel : string) : bool :=
  match transactional_suppression_state w contact channel with
  | None | Some SuppressionState.CLEAR => false
  | Some _ => true
  end.

Section resources.
(** [canonical_document(...).snapshot_hash] of the facts, and of the facts with the words. *)
Context (facts_hash : MessageDraftFacts → string) (rendering_hash : MessageDraftFacts → string → string).

(** The binding, and the contact the draft is for. *)
Definition message_draft_binding (facts : MessageDraftFacts) (words : string)
    : CurrentResourceBinding * Z :=
  (Current (facts_store facts) (facts_version facts) (facts_hash facts)
     (Some (rendering_hash facts words)), facts_contact facts).

Definition read_message_draft_binding (w : world) (run : Z) : option (CurrentResourceBinding * Z) :=
  d ← agent_drafts_row w run;
  '(revision, words) ← match review_decision d with
                       | Some ReviewDecision.REJECT => None
                       | Some ReviewDecision.EDIT =>
                           t ← edited_text d; Some (EDITED_TEXT_REVISION, t)
                       | _ => Some (AGENT_TEXT_REVISION, draft_text d)
                       end;
  Some (message_draft_binding
          (DraftFacts run (draft_store d) (conversation_binding_id d) (contact_binding_id d) revision)
          words).

Definition _current_message_draft (w : world) (id : Z) : option CurrentResourceBinding :=
  fst <$> read_message_draft_binding w id.
Definition _current_export_request (w : world) (id : Z) : option CurrentResourceBinding :=
  '(store, version, snapshot, rendered) ← read_export_request_binding w id;
  Some (Current store version snapshot (Some rendered)).
Definition _current_quote_revision (w : world) (id : Z) : option CurrentResourceBinding :=
  '(store, revision) ← quotes_row w id;
  snapshot ← quote_revisions_row w id revision;
  Some (Current store revision snapshot None).
Definition _current_order (w : world) (id : Z) : option CurrentResourceBinding :=
  '(store, version, snapshot) ← orders_row w id;
  Some (Current store version snapshot None).
Definition _current_remedy_proposal (w : world) (id : Z) : option CurrentResourceBinding :=
  '(store, order, proposal) ← remedy_proposals_row w id;
  '(_, _, snapshot) ← orders_row w order;
  Some (Current store 1 snapshot (Some proposal)).

Definition DECISION_TIME_RESOLVERS (type : string)
    : option (world → Z → option CurrentResourceBinding) :=
  if type is? "MESSAGE_DRAFT"%string then Some _current_message_draft
  else if type is? "EXPORT_REQUEST"%string then Some _current_export_request
  else if type is? "QUOTE_REVISION"%string then Some _current_quote_revision
  else if type is? "ORDER"%string then Some _current_order
  else if type is? "REMEDY_PROPOSAL"%string then Some _current_remedy_proposal
  else None.
Definition UNRESOLVABLE_AT_DECISION : list string :=
  ["SLOT_PROPOSAL"; "DELIVERY_FEE_PROPOSAL"; "B2B_TERMS"; "POLICY_VERSION"]%string.

Definition _require_resource_unchanged (w : world) (r : approval) : approval_result unit :=
  match DECISION_TIME_RESOLVERS (resource_type r) with
  | None => raise_if (negb (resource_type r in? UNRESOLVABLE_AT_DECISION)) UnverifiableResourceType
  | Some resolver =>
      current ← require_some (resolver w (resource_id r)) ApprovalResourceChangedError;
      raise_if (negb (current_store current =? store_id r)
                || negb (current_version current =? resource_version r)
                || negb (current_snapshot current is? snapshot_hash r)
                || match current_rendered current with
                   | Some h => negb (h is? rendered_hash r)
                   | None => false end) ApprovalResourceChangedError
  end.

(** * Raising an envelope *)

Record ApprovalRequestCommand := RequestCommand {
  req_action : ApprovalAction.t;
  req_resource_type : string;
  req_resource_id : Z;
  req_resource_version : Z;
  req_snapshot_hash : string;
  req_rendered_hash : string;
  req_policy_version : string;
  req_requested_by : Z;
  req_idempotency_key : string;
  req_store_id : Z;
  req_actor_type : string;
  req_requested_at : datetime;
}.

(** [True] when the type is a computed one and its content is the one named. *)
Definition _require_computed_resource (w : world) (c : ApprovalRequestCommand) : approval_result bool :=
  if req_resource_type c is? "MESSAGE_DRAFT"%string then
    content ← require_some (_current_message_draft w (req_resource_id c)) ResourceNotInStore;
    raise_if (negb (current_store content =? req_store_id c)) ResourceNotInStore ;;
    raise_if (negb (current_version content =? req_resource_version c)
              || negb (current_snapshot content is? req_snapshot_hash c)
              || negb (current_rendered content is? Some (req_rendered_hash c))) ContentDigestUnknown ;;
    Ok true
  else Ok false.

(** A resolvable type's store and stored digest. *)
Definition _RESOLVABLE_RESOURCES (w : world) (type : string) : option (Z → option (Z * string)) :=
  if type is? "ORDER"%string then
    Some (λ id, '(store, _, snapshot) ← orders_row w id; Some (store, snapshot))
  else if type is? "EXPORT_REQUEST"%string then
    Some (λ id, '(store, _, snapshot, _) ← export_requests_row w id; Some (store, snapshot))
  else None.

Definition _require_resolvable_resource (w : world) (c : ApprovalRequestCommand)
    : approval_result unit :=
  computed ← _require_computed_resource w c;
  if (computed : bool) then Ok tt else
  match _RESOLVABLE_RESOURCES w (req_resource_type c) with
  | None => Ok tt
  | Some query =>
      '(store, snapshot) ← require_some (query (req_resource_id c)) ResourceNotInStore;
      raise_if (negb (store =? req_store_id c)) ResourceNotInStore ;;
      raise_if (negb (snapshot is? req_snapshot_hash c)) ContentDigestUnknown
  end.

Definition _require_recipient_not_suppressed (w : world) (c : ApprovalRequestCommand)
    : approval_result unit :=
  if negb (req_action c is? ApprovalAction.SEND_MESSAGE)
     || negb (req_resource_type c is? "MESSAGE_DRAFT"%string) then Ok tt
  else match read_message_draft_binding w (req_resource_id c) with
  | None => Ok tt
  | Some (_, contact) =>
      raise_if (existsb (transactional_suppression_refusal w contact) MANUAL_SEND_CHANNELS)
        RecipientSuppressed
  end.

Definition build_approval_envelope (c : ApprovalRequestCommand) : approval_result approval :=
  let policy := APPROVAL_POLICIES (req_action c) in
  raise_if (negb (APPROVAL_RESOURCE_TYPES (req_action c) is? req_resource_type c)
            || negb (CODE_PATTERN (req_resource_type c)) || (req_resource_version c <? 1)
            || negb (HASH_PATTERN (req_snapshot_hash c)) || negb (HASH_PATTERN (req_rendered_hash c))
            || blank (req_policy_version c) || negb (aware (req_requested_at c)))
    ApprovalEnvelopeError ;;
  expiry ← approval_expires_at policy (req_requested_at c);
  Ok (Approval (req_action c) (req_resource_type c) (req_resource_id c) (req_resource_version c)
        (req_snapshot_hash c) (req_rendered_hash c) (req_policy_version c)
        (policy_required_role policy) (policy_reason_codes policy) (policy_obligations policy)
        (policy_execution_capability policy) (req_requested_by c) (req_requested_at c) expiry
        (req_store_id c) ApprovalStatus.REQUESTED 1 (req_requested_at c)).

Record StoredApproval := Stored {
  approval_request_id : Z;
  stored_status : ApprovalStatus.t;
  stored_role : ActorRole.t;
  stored_expiry : datetime;
}.
Definition stored (id : Z) (r : approval) (s : ApprovalStatus.t) : StoredApproval :=
  Stored id s (required_role r) (expires_at r).

(** The executor of the request command; the id is fresh, and an inserted row's key and
    checks are the table's. *)
Definition create (c : ApprovalRequestCommand) (approval_id : Z) (d : db)
    : approval_result (db * StoredApproval) :=
  envelope ← build_approval_envelope c;
  raise_if (bool_decide (is_Some (approvals d !! approval_id))
            || negb (between_len 1 200 (txt (policy_version envelope)))) ConstraintViolation ;;
  Ok (Db (<[approval_id := envelope]> (approvals d)) (decisions d) (executions d),
      stored approval_id envelope ApprovalStatus.REQUESTED).
End resources.

(** The request payload whose digest an idempotency key is bound to. *)
Record request_payload := Payload {
  payload_action : ApprovalAction.t;
  payload_resource : string * Z * Z;
  payload_hashes : string * string;
  payload_policy_version : string;
  payload_requested_by : Z;
  payload_store : Z;
}.

(** * Deciding *)

Record StaffPrincipal := Principal {
  staff_user_id : Z;
  roles : list ActorRole.t;
  mfa_verified : bool;
}.

Record ApprovalDecisionCommand := DecisionCommand {
  dec_approval : Z;
  dec_decision : ApprovalDecision.t;
  dec_version : Z;
  dec_snapshot : string;
  dec_rendered : string;
  dec_reason : string;
  dec_principal : StaffPrincipal;
  dec_at : datetime;
  dec_note : option string;
}.

Record ApprovalAttestationCommand := AttestationCommand {
  att_approval : Z;
  att_version : Z;
  att_snapshot : string;
  att_rendered : string;
  att_reason : string;
  att_principal : StaffPrincipal;
  att_at : datetime;
}.

Record ApprovalExecutionCommand := ExecutionCommand {
  exe_approval : Z;
  exe_role : ActorRole.t;
  exe_version : Z;
  exe_snapshot : string;
  exe_rendered : string;
  exe_policy_version : string;
  exe_at : datetime;
}.

Definition _validate_reason_code (reason : string) : approval_result unit :=
  raise_if (negb (code_text 99 reason)) BadReasonCode.

Definition _validate_human_decision (c : ApprovalDecisionCommand) : approval_result unit :=
  _validate_reason_code (dec_reason c) ;;
  raise_if (match dec_note c with Some n => (500 <? length (txt n))%nat | None => false end) NoteTooLong.

Definition _lock_approval (d : db) (id : Z) : approval_result approval :=
  require_some (approvals d !! id) ApprovalUnavailable.

Definition _RESOURCE_DEFINERS (w : world) (type : string) : option (Z → option Z) :=
  if type is? "EXPORT_REQUEST"%string then
    Some (λ id, '(_, _, _, definer) ← export_requests_row w id; definer)
  else None.

Definition _require_separation_from_the_definer (w : world) (type : string) (id : Z)
    (p : StaffPrincipal) : approval_result unit :=
  match _RESOURCE_DEFINERS w type with
  | None => Ok tt
  | Some statement =>
      match statement id with
      | None => Ok tt
      | Some definer => raise_if (staff_user_id p =? definer) ApprovalAuthorizationError
      end
  end.

Definition _authorize_decision (w : world) (r : approval) (p : StaffPrincipal) : approval_result unit :=
  require_store_membership w (staff_user_id p) (store_id r) ;;
  raise_if (negb (ActorRole.OWNER_ADMIN in? roles p) && negb (required_role r in? roles p))
    ApprovalAuthorizationError ;;
  raise_if (negb (mfa_verified p)) ApprovalAuthorizationError ;;
  raise_if (staff_user_id p =? requested_by r) ApprovalAuthorizationError ;;
  _require_separation_from_the_definer w (resource_type r) (resource_id r) p.

Definition COUNTER_ATTESTED_CAPABILITY : string := "STAFF_ATTESTED_ACTION".
Definition COUNTER_ATTESTATION_ROLES : list ActorRole.t :=
  [ActorRole.OWNER_ADMIN; ActorRole.OPS_APPROVER; ActorRole.OPERATOR].

Definition _authorize_attestation (w : world) (r : approval) (p : StaffPrincipal)
    : approval_result unit :=
  require_store_membership w (staff_user_id p) (store_id r) ;;
  raise_if (negb (execution_capability r is? COUNTER_ATTESTED_CAPABILITY)
            || ("SEPARATION_OF_DUTY"%string in? obligations r)
            || negb (existsb (λ role, role in? COUNTER_ATTESTATION_ROLES) (roles p))
            || negb (mfa_verified p)
            || negb (staff_user_id p =? requested_by r)) ApprovalAuthorizationError.

Definition _require_exact_binding (r : approval) (version : Z) (snapshot rendered : string)
    : approval_result unit :=
  raise_if (negb (resource_version r =? version) || negb (snapshot_hash r is? snapshot)
            || negb (rendered_hash r is? rendered)) BindingStale.

Definition decided_status (c : ApprovalDecision.t) : ApprovalStatus.t :=
  match c with
  | ApprovalDecision.APPROVED => ApprovalStatus.APPROVED
  | ApprovalDecision.REJECTED => ApprovalStatus.REJECTED
  end.

Definition _record_decision (d : db) (r : approval) (row : decision_row) : approval_result db :=
  d' ← update_state d (decided_approval row) (Some ApprovalStatus.REQUESTED) (row_version r)
         (decided_status (decision row)) (decided_at row);
  insert_decision d' row.

Definition _change_approval_state (d : db) (id : Z) (old_version : Z) (new : ApprovalStatus.t)
    (at_ : datetime) : approval_result db :=
  update_state d id None old_version new at_.

Module ApprovalRepository.
Section operations.
Context (facts_hash : MessageDraftFacts → string) (rendering_hash : MessageDraftFacts → string → string).
(** The digest of a request's payload, the text of an identifier, and the response as
    its canonical JSON reads back. *)
Context (request_hash : request_payload → option string) (uuid_text : Z → string)
        (action_text : ApprovalAction.t → string) (normal : StoredApproval → option StoredApproval).

Abbreviation unchanged := (_require_resource_unchanged facts_hash rendering_hash).
Abbreviation txn := (approval_result (db * bool * option StoredApproval)).

(** The transaction of [decide]; the boolean is [expired]. *)
Definition decide_body (w : world) (d : db) (c : ApprovalDecisionCommand) : txn :=
  r ← _lock_approval d (dec_approval c);
  _authorize_decision w r (dec_principal c) ;;
  _require_exact_binding r (dec_version c) (dec_snapshot c) (dec_rendered c) ;;
  raise_if (negb (status r is? ApprovalStatus.REQUESTED)) NotPending ;;
  (if dt_ltb (dec_at c) (expires_at r) && (dec_decision c is? ApprovalDecision.APPROVED)
   then unchanged w r else Ok tt) ;;
  if dt_leb (expires_at r) (dec_at c) then
    d' ← _change_approval_state d (dec_approval c) (row_version r) ApprovalStatus.EXPIRED (dec_at c);
    Ok (d', true, Some (stored (dec_approval c) r ApprovalStatus.EXPIRED))
  else
    d' ← _record_decision d r
           (DecisionRow (dec_approval c) (action r) (dec_decision c) (staff_user_id (dec_principal c))
              (dec_reason c) (dec_note c) (dec_version c, dec_snapshot c, dec_rendered c) (dec_at c) false);
    Ok (d', false, Some (stored (dec_approval c) r (decided_status (dec_decision c)))).

(** Commit what the transaction did, then raise on an expiry the caller did not ask for. *)
Definition conclude (d : db) (t : txn) (return_expired : bool) : db * approval_result StoredApproval :=
  match t with
  | Err e => (d, Err e)
  | Ok (d', expired, s) =>
      (d', raise_if (expired && negb return_expired) ApprovalExpired ;;
           require_some s StateStale)
  end.

Definition decide (w : world) (d : db) (c : ApprovalDecisionCommand) (return_expired : bool)
    : db * approval_result StoredApproval :=
  match _validate_human_decision c with
  | Err e => (d, Err e)
  | Ok _ => conclude d (decide_body w d c) return_expired
  end.

Definition attest_body (w : world) (d : db) (c : ApprovalAttestationCommand) : txn :=
  r ← _lock_approval d (att_approval c);
  _authorize_attestation w r (att_principal c) ;;
  _require_exact_binding r (att_version c) (att_snapshot c) (att_rendered c) ;;
  raise_if (negb (status r is? ApprovalStatus.REQUESTED)) NotPending ;;
  (if dt_ltb (att_at c) (expires_at r) then unchanged w r else Ok tt) ;;
  if dt_leb (expires_at r) (att_at c) then
    d' ← _change_approval_state d (att_approval c) (row_version r) ApprovalStatus.EXPIRED (att_at c);
    Ok (d', true, None)
  else
    d' ← _record_decision d r
           (DecisionRow (att_approval c) (action r) ApprovalDecision.APPROVED
              (staff_user_id (att_principal c)) (att_reason c) None
              (att_version c, att_snapshot c, att_rendered c) (att_at c) true);
    Ok (d', false, Some (stored (att_approval c) r ApprovalStatus.APPROVED)).

Definition attest (w : world) (d : db) (c : ApprovalAttestationCommand)
    : db * approval_result StoredApproval :=
  match _validate_reason_code (att_reason c) with
  | Err e => (d, Err e)
  | Ok _ => conclude d (attest_body w d c) false
  end.

Definition claim_body (w : world) (d : db) (c : ApprovalExecutionCommand) : txn :=
  r ← _lock_approval d (exe_approval c);
  raise_if (negb (status r is? ApprovalStatus.APPROVED)) NotExecutable ;;
  raise_if (manual_send_envelopes_row w (exe_approval c)) ReservedForManualSend ;;
  if dt_leb (expires_at r) (exe_at c) then
    d' ← _change_approval_state d (exe_approval c) (row_version r) ApprovalStatus.EXPIRED (exe_at c);
    Ok (d', true, None)
  else
    _require_exact_binding r (exe_version c) (exe_snapshot c) (exe_rendered c) ;;
    raise_if (negb (policy_version r is? exe_policy_version c)) PolicyVersionStale ;;
    unchanged w r ;;
    d1 ← update_state d (exe_approval c) (Some ApprovalStatus.APPROVED) (row_version r)
           ApprovalStatus.EXECUTING (exe_at c);
    d' ← insert_execution d1
           (ExecutionRow (exe_approval c) (exe_version c, exe_snapshot c, exe_rendered c) (exe_at c));
    Ok (d', false, Some (stored (exe_approval c) r ApprovalStatus.EXECUTING)).

Definition claim_execution (w : world) (d : db) (c : ApprovalExecutionCommand)
    : db * approval_result StoredApproval :=
  if negb (exe_role c is? ActorRole.OUTBOX_WORKER) then (d, Err ApprovalAuthorizationError)
  else conclude d (claim_body w d c) false.

(** [request]: the checks, then the executor under the command's idempotency key. *)
Definition request_checks (w : world) (c : ApprovalRequestCommand) : approval_result unit :=
  (if req_actor_type c is? "STAFF"%string
   then require_store_membership w (req_requested_by c) (req_store_id c) else Ok tt) ;;
  _require_resolvable_resource facts_hash rendering_hash w c ;;
  _require_recipient_not_suppressed facts_hash rendering_hash w c.

Definition request_command (c : ApprovalRequestCommand) : IdempotentCommand :=
  Command ("approval:" ++ req_resource_type c ++ ":" ++ uuid_text (req_resource_id c) ++ ":"
           ++ string_of_list_ascii (str (req_resource_version c)) ++ ":"
           ++ action_text (req_action c))%string
    (req_idempotency_key c)
    (Payload (req_action c) (req_resource_type c, req_resource_id c, req_resource_version c)
       (req_snapshot_hash c, req_rendered_hash c) (req_policy_version c) (req_requested_by c)
       (req_store_id c)).

Definition request (w : world) (s : store (T := db) (R := StoredApproval)) (c : ApprovalRequestCommand)
    (approval_id : Z) : store * result (IdempotencyError ApprovalError) (IdempotentResult (R := StoredApproval)) :=
  match request_checks w c with
  | Err e => (s, Err (ExecutorError e))
  | Ok _ => execute request_hash normal s (request_command c) (create c approval_id)
  end.

(** Any sequence of the four operations, each with the world of its moment. *)
Inductive operation :=
  | Request (w : world) (c : ApprovalRequestCommand) (approval_id : Z)
  | Decide (w : world) (c : ApprovalDecisionCommand) (return_expired : bool)
  | Attest (w : world) (c : ApprovalAttestationCommand)
  | Claim (w : world) (c : ApprovalExecutionCommand).

Definition with_tables (s : store (T := db) (R := StoredApproval)) (d : db) : store := Store (records s) d.

Definition run (s : store (T := db) (R := StoredApproval)) (o : operation) : store :=
  match o with
  | Request w c id => (request w s c id).1
  | Decide w c e => with_tables s (decide w (tables s) c e).1
  | Attest w c => with_tables s (attest w (tables s) c).1
  | Claim w c => with_tables s (claim_execution w (tables s) c).1
  end.

Definition empty_store : store (T := db) (R := StoredApproval) := Store ∅ (Db ∅ [] []).
Definition history (l : list operation) : store := foldl run empty_store l.
End operations.
End ApprovalRepository.
