(* ===== verification/ApprovalsFacts.v ===== *)
(** What every history of the approval tables keeps, and the envelope's window. *)
From Stdlib Require Import Ascii String.
From S2P Require Import Prelude Catalog Clock Text.
From S2P Require Import Idempotency.
From S2P Require Import Approvals.
Local Open Scope laundry_scope.
Local Open Scope Z_scope.

(** * The invariant: one approval at a time *)

Definition decided (d : db) (id : Z) : list decision_row :=
  filter (λ x, decided_approval x = id) (decisions d).
Definition executed (d : db) (id : Z) : list execution_row :=
  filter (λ e, executed_approval e = id) (executions d).

(** The fields the policy table fixed when the envelope was raised. *)
Definition policy_bound (r : approval) : Prop :=
  let p := APPROVAL_POLICIES (action r) in
  required_role r = policy_required_role p ∧ obligations r = policy_obligations p ∧
  execution_capability r = policy_execution_capability p ∧
  resource_type r = APPROVAL_RESOURCE_TYPES (action r) ∧
  approval_expires_at p (requested_at r) = Ok (expires_at r).

(** Who may have signed: somebody else, or the requester of a counter-attested action. *)
Definition signed_by (r : approval) (x : decision_row) : Prop :=
  if counter_attested x
  then decided_by x = requested_by r ∧ execution_capability r = COUNTER_ATTESTED_CAPABILITY
       ∧ "SEPARATION_OF_DUTY"%string ∉ obligations r
  else decided_by x ≠ requested_by r.

(** A decision made on the exact content, inside the window. *)
Definition decided_well (r : approval) (x : decision_row) : Prop :=
  decision_binding x = binding_of r ∧ decision_type x = action r ∧ signed_by r x ∧
  instant (requested_at r) <= instant (decided_at x) < instant (expires_at r).

Definition executed_well (r : approval) (x : decision_row) (e : execution_row) : Prop :=
  execution_binding e = binding_of r ∧
  instant (decided_at x) <= instant (claimed_at e) < instant (expires_at r).

Inductive life (r : approval) : list decision_row → list execution_row → Prop :=
  | life_requested : status r = ApprovalStatus.REQUESTED → updated_at r = requested_at r → life r [] []
  | life_rejected x : status r = ApprovalStatus.REJECTED → decision x = ApprovalDecision.REJECTED →
      decided_well r x → life r [x] []
  | life_approved x : status r = ApprovalStatus.APPROVED → decision x = ApprovalDecision.APPROVED →
      updated_at r = decided_at x → decided_well r x → life r [x] []
  | life_expired l : status r = ApprovalStatus.EXPIRED → (length l <= 1)%nat →
      Forall (λ x, decision x = ApprovalDecision.APPROVED) l → Forall (decided_well r) l →
      instant (expires_at r) <= instant (updated_at r) → life r l []
  | life_executing x e : status r = ApprovalStatus.EXECUTING → decision x = ApprovalDecision.APPROVED →
      decided_well r x → executed_well r x e → life r [x] [e].

Definition sound_at (d : db) (id : Z) : Prop :=
  match approvals d !! id with
  | None => decided d id = [] ∧ executed d id = []
  | Some r => policy_bound r ∧ life r (decided d id) (executed d id)
  end.
Definition sound (d : db) : Prop := ∀ id, sound_at d id.

(** * What each write does to the tables *)

Lemma update_state_Ok d id req v new t d' : update_state d id req v new t = Ok d' →
  ∃ r, approvals d !! id = Some r ∧ row_version r = v ∧
    match req with Some s => status r = s | None => True end ∧
    instant (updated_at r) <= instant t ∧ transition_allowed (status r) new = true ∧
    d' = Db (<[id := with_state r new (row_version r + 1) t]> (approvals d)) (decisions d) (executions d).
Proof.
  unfold update_state. intros H. result_inv. guards.
  match goal with Hr : approvals d !! id = Some ?r |- _ => exists r end.
  split_and!; try done.
  - by destruct req; guards.
  - unfold dt_ltb in *. by guards.
Qed.

Lemma filter_nil_all {A} (P : A → Prop) `{∀ x, Decision (P x)} (l : list A) :
  (∀ x, x ∈ l → ¬ P x) → filter P l = [].
Proof.
  intros Hl. destruct (filter P l) as [|y k] eqn:Hf; [done|].
  assert (y ∈ filter P l) as Hy by (rewrite Hf; left).
  apply list_elem_of_filter in Hy as [HP Hy]. by destruct (Hl y Hy).
Qed.

Lemma insert_decision_Ok d x d' : insert_decision d x = Ok d' →
  decided d (decided_approval x) = [] ∧ d' = Db (approvals d) (x :: decisions d) (executions d).
Proof.
  unfold insert_decision. intros H. result_inv. split; [|done]. guards.
  apply filter_nil_all. intros y Hy Heq.
  match goal with Hn : decided_approval x ∉ _ |- _ => destruct Hn end.
  apply list_elem_of_fmap. by exists y.
Qed.

Lemma insert_execution_Ok d x d' : insert_execution d x = Ok d' →
  d' = Db (approvals d) (decisions d) (x :: executions d).
Proof. unfold insert_execution. intros H. by result_inv. Qed.

(** Other approvals do not see a write on this one. *)
Lemma sound_intro d d' id : sound d →
  (∀ j, j ≠ id → approvals d' !! j = approvals d !! j ∧ decided d' j = decided d j
                 ∧ executed d' j = executed d j) →
  sound_at d' id → sound d'.
Proof.
  intros Hs Hother Hid j. destruct (decide (j = id)) as [->|Hne]; [done|].
  destruct (Hother j Hne) as (H1 & H2 & H3). unfold sound_at. rewrite H1, H2, H3. apply Hs.
Qed.

Lemma decided_cons m x l es j :
  decided (Db m (x :: l) es) j = if decide (decided_approval x = j) then x :: decided (Db m l es) j
                                 else decided (Db m l es) j.
Proof. unfold decided. cbn [decisions]. by rewrite filter_cons. Qed.
Lemma executed_cons m l x es j :
  executed (Db m l (x :: es)) j = if decide (executed_approval x = j) then x :: executed (Db m l es) j
                                  else executed (Db m l es) j.
Proof. unfold executed. cbn [executions]. by rewrite filter_cons. Qed.

Ltac other_rows :=
  intros j Hj; cbn [approvals]; rewrite ?decided_cons, ?executed_cons, ?lookup_insert_ne by done;
  rewrite ?decide_False by done; done.

(** Expiry, from either state it is reached from. *)
Lemma sound_expire d id r t d' : sound d → approvals d !! id = Some r →
  status r = ApprovalStatus.REQUESTED ∨ status r = ApprovalStatus.APPROVED →
  instant (expires_at r) <= instant t →
  _change_approval_state d id (row_version r) ApprovalStatus.EXPIRED t = Ok d' → sound d'.
Proof.
  intros Hs Hr Hst Ht H. unfold _change_approval_state in H.
  apply update_state_Ok in H as (r' & Hr' & _ & _ & _ & _ & ->).
  rewrite Hr in Hr'. injection Hr' as <-. apply (sound_intro d _ id); [done|other_rows|].
  pose proof (Hs id) as Hid. unfold sound_at in *. rewrite Hr in Hid. cbn [approvals].
  rewrite lookup_insert_eq. destruct Hid as [Hp Hl]. split; [done|].
  inversion Hl as [Hx|x Hx|x Hx Hd|l Hx|x e Hx]; try (destruct Hst; congruence);
    cbn [decided executed decisions executions filter].
  - change (decided _ id) with (decided d id). change (executed _ id) with (executed d id).
    replace (decided d id) with ([] : list decision_row). replace (executed d id) with ([] : list execution_row).
    by apply life_expired; [|cbn; lia|apply Forall_nil|apply Forall_nil|].
  - change (decided _ id) with (decided d id). change (executed _ id) with (executed d id).
    replace (decided d id) with [x]. replace (executed d id) with ([] : list execution_row).
    by apply life_expired; [|cbn; lia|apply Forall_singleton|apply Forall_singleton|].
Qed.

Lemma sound_record d id r x d' : sound d → approvals d !! id = Some r →
  status r = ApprovalStatus.REQUESTED → decided_approval x = id → decision_type x = action r →
  decision_binding x = binding_of r → signed_by r x → instant (decided_at x) < instant (expires_at r) →
  _record_decision d r x = Ok d' → sound d'.
Proof.
  intros Hs Hr Hst <- Hty Hb Hsig Ht H. unfold _record_decision in H. result_inv.
  match goal with Hu : update_state _ _ _ _ _ _ = Ok _ |- _ =>
    apply update_state_Ok in Hu as (r' & Hr' & _ & _ & Hle & _ & ->) end.
  rewrite Hr in Hr'. injection Hr' as <-.
  apply insert_decision_Ok in H as [Hnone ->].
  apply (sound_intro d _ (decided_approval x)); [done|other_rows|].
  pose proof (Hs (decided_approval x)) as Hid. unfold sound_at in *. rewrite Hr in Hid. cbn [approvals].
  rewrite lookup_insert_eq, decided_cons, decide_True by done.
  destruct Hid as [Hp Hl]. split; [done|].
  change (decided (Db _ _ _) (decided_approval x)) with (decided d (decided_approval x)).
  change (executed (Db _ _ _) (decided_approval x)) with (executed d (decided_approval x)).
  inversion Hl as [_ Hup|y Hy|y Hy|l Hy|y e Hy]; try congruence.
  assert (decided_well (with_state r (decided_status (decision x)) (row_version r + 1) (decided_at x)) x).
  { repeat split; try done. cbn. rewrite Hup in Hle. lia. }
  destruct (decision x) eqn:Hd; [by apply life_approved|by apply life_rejected].
Qed.

Lemma sound_execute d id r e d1 d' : sound d → approvals d !! id = Some r →
  status r = ApprovalStatus.APPROVED → executed_approval e = id →
  execution_binding e = binding_of r → instant (claimed_at e) < instant (expires_at r) →
  update_state d id (Some ApprovalStatus.APPROVED) (row_version r) ApprovalStatus.EXECUTING
    (claimed_at e) = Ok d1 →
  insert_execution d1 e = Ok d' → sound d'.
Proof.
  intros Hs Hr Hst <- Hb Ht H1 H2.
  apply update_state_Ok in H1 as (r' & Hr' & _ & _ & Hle & _ & ->).
  rewrite Hr in Hr'. injection Hr' as <-. apply insert_execution_Ok in H2 as ->.
  apply (sound_intro d _ (executed_approval e)); [done|other_rows|].
  pose proof (Hs (executed_approval e)) as Hid. unfold sound_at in *. rewrite Hr in Hid.
  cbn [approvals]. rewrite lookup_insert_eq, executed_cons, decide_True by done.
  destruct Hid as [Hp Hl]. split; [done|].
  change (decided (Db _ _ _) (executed_approval e)) with (decided d (executed_approval e)).
  change (executed (Db _ _ _) (executed_approval e)) with (executed d (executed_approval e)).
  inversion Hl as [Hy|y Hy|x Hx Hd Hup Hw|l Hy|y e' Hy]; try congruence.
  apply life_executing; try done. split; [done|]. rewrite Hup in Hle. cbn. lia.
Qed.

(** * Every operation keeps it *)

Lemma envelope_policy c r : build_approval_envelope c = Ok r →
  policy_bound r ∧ status r = ApprovalStatus.REQUESTED ∧ updated_at r = requested_at r.
Proof.
  unfold build_approval_envelope. intros H. result_inv. guards.
  unfold policy_bound. cbn. split_and!; done.
Qed.

Lemma sound_create c id d d' s : sound d → create c id d = Ok (d', s) → sound d'.
Proof.
  intros Hs H. unfold create in H. apply bind_Ok in H as (r & Hr & H). result_inv. guards.
  apply (sound_intro d _ id); [done|other_rows|].
  match goal with Hn : ¬ is_Some _ |- _ => apply eq_None_not_Some in Hn; rename Hn into Hnone end.
  pose proof (Hs id) as Hid. unfold sound_at in *. rewrite Hnone in Hid. cbn [approvals].
  rewrite lookup_insert_eq. apply envelope_policy in Hr as (Hp & Hst & Hup). split; [done|].
  destruct Hid as [Hd He]. unfold decided, executed in *. cbn. rewrite Hd, He. by apply life_requested.
Qed.

Section operations.
Context (facts_hash : MessageDraftFacts → string) (rendering_hash : MessageDraftFacts → string → string).
Context (request_hash : request_payload → option string) (uuid_text : Z → string)
        (action_text : ApprovalAction.t → string) (normal : StoredApproval → option StoredApproval).
Implicit Types (w : world) (d : db).

Abbreviation unchanged := (_require_resource_unchanged facts_hash rendering_hash).
Abbreviation run := (ApprovalRepository.run facts_hash rendering_hash request_hash uuid_text action_text normal).
Abbreviation history := (ApprovalRepository.history facts_hash rendering_hash request_hash uuid_text action_text normal).
Abbreviation decide_body := (ApprovalRepository.decide_body facts_hash rendering_hash).
Abbreviation attest_body := (ApprovalRepository.attest_body facts_hash rendering_hash).
Abbreviation claim_body := (ApprovalRepository.claim_body facts_hash rendering_hash).

Lemma exact_binding r v a b u : _require_exact_binding r v a b = Ok u → (v, a, b) = binding_of r.
Proof. unfold _require_exact_binding. intros H. result_inv. guards. unfold binding_of. congruence. Qed.

Lemma authorized_decider w r p u : _authorize_decision w r p = Ok u →
  is_store_member w (staff_user_id p) (store_id r) = true ∧
  (ActorRole.OWNER_ADMIN ∈ roles p ∨ required_role r ∈ roles p) ∧
  mfa_verified p = true ∧ staff_user_id p ≠ requested_by r.
Proof.
  unfold _authorize_decision, require_store_membership. intros H. result_inv. guards.
  split_and!; [done| |done|done].
  match goal with Hb : _ && _ = false |- _ => apply andb_false_iff in Hb as [Hb|Hb] end; guards; auto.
Qed.

Lemma decide_body_Ok w d c d' e s : decide_body w d c = Ok (d', e, s) →
  ∃ r u, approvals d !! dec_approval c = Some r ∧ _authorize_decision w r (dec_principal c) = Ok u ∧
    status r = ApprovalStatus.REQUESTED ∧ (dec_version c, dec_snapshot c, dec_rendered c) = binding_of r ∧
    ((instant (expires_at r) <= instant (dec_at c) ∧ e = true ∧
      s = Some (stored (dec_approval c) r ApprovalStatus.EXPIRED) ∧
      _change_approval_state d (dec_approval c) (row_version r) ApprovalStatus.EXPIRED (dec_at c) = Ok d') ∨
     (instant (dec_at c) < instant (expires_at r) ∧ e = false ∧
      s = Some (stored (dec_approval c) r (decided_status (dec_decision c))) ∧
      (dec_decision c = ApprovalDecision.APPROVED → unchanged w r = Ok tt) ∧
      _record_decision d r
        (DecisionRow (dec_approval c) (action r) (dec_decision c) (staff_user_id (dec_principal c))
           (dec_reason c) (dec_note c) (dec_version c, dec_snapshot c, dec_rendered c) (dec_at c) false)
        = Ok d')).
Proof.
  unfold ApprovalRepository.decide_body, _lock_approval. intros H.
  apply bind_Ok in H as (r & Hr & H). apply require_some_Ok in Hr.
  apply bind_Ok in H as (u & Ha & H). apply bind_Ok in H as (u2 & Hb & H). apply exact_binding in Hb.
  apply raise_bind_Ok in H as [Hst H]. apply bind_Ok in H as ([] & Hun & H). guards.
  exists r, u. do 4 (split; [done|]). unfold dt_ltb, dt_leb in *.
  destruct (_ <=? _) eqn:Hexp; guards; apply bind_Ok in H as (d1 & Hd & [= <- <- <-]).
  - by left.
  - right. split_and!; try done. intros Hap. rewrite Hap in Hun.
    rewrite (proj2 (Z.ltb_lt _ _)), bool_decide_true in Hun by done. done.
Qed.

Lemma sound_decide w d c b : sound d →
  sound (ApprovalRepository.decide facts_hash rendering_hash w d c b).1.
Proof.
  intros Hs. unfold ApprovalRepository.decide. destruct (_validate_human_decision c); [|done].
  unfold ApprovalRepository.conclude. destruct (decide_body w d c) as [[[d' e] s]|] eqn:H; [|done].
  apply decide_body_Ok in H as (r & u & Hr & Ha & Hst & Hb & [(Ht & _ & _ & H)|(Ht & _ & _ & _ & H)]).
  - eapply sound_expire; [done|exact Hr|by left|exact Ht|exact H].
  - refine (sound_record d _ r (DecisionRow _ _ _ _ _ _ _ _ _) d' Hs Hr Hst eq_refl eq_refl Hb _ Ht H).
    apply authorized_decider in Ha as (_ & _ & _ & Hne). exact Hne.
Qed.

Lemma attest_body_Ok w d c d' e s : attest_body w d c = Ok (d', e, s) →
  ∃ r u, approvals d !! att_approval c = Some r ∧ _authorize_attestation w r (att_principal c) = Ok u ∧
    status r = ApprovalStatus.REQUESTED ∧ (att_version c, att_snapshot c, att_rendered c) = binding_of r ∧
    ((instant (expires_at r) <= instant (att_at c) ∧ e = true ∧ s = None ∧
      _change_approval_state d (att_approval c) (row_version r) ApprovalStatus.EXPIRED (att_at c) = Ok d') ∨
     (instant (att_at c) < instant (expires_at r) ∧ e = false ∧ is_Some s ∧
      _record_decision d r
        (DecisionRow (att_approval c) (action r) ApprovalDecision.APPROVED
           (staff_user_id (att_principal c)) (att_reason c) None
           (att_version c, att_snapshot c, att_rendered c) (att_at c) true) = Ok d')).
Proof.
  unfold ApprovalRepository.attest_body, _lock_approval. intros H.
  apply bind_Ok in H as (r & Hr & H). apply require_some_Ok in Hr.
  apply bind_Ok in H as (u & Ha & H). apply bind_Ok in H as (u2 & Hb & H). apply exact_binding in Hb.
  apply raise_bind_Ok in H as [Hst H]. apply bind_Ok in H as (u3 & _ & H). guards.
  exists r, u. do 4 (split; [done|]). unfold dt_leb in H.
  destruct (_ <=? _) eqn:Hexp; guards; apply bind_Ok in H as (d1 & Hd & [= <- <- <-]); [by left|by right].
Qed.

Lemma claim_body_Ok w d c d' e s : claim_body w d c = Ok (d', e, s) →
  ∃ r, approvals d !! exe_approval c = Some r ∧ status r = ApprovalStatus.APPROVED ∧
    ((instant (expires_at r) <= instant (exe_at c) ∧ e = true ∧ s = None ∧
      _change_approval_state d (exe_approval c) (row_version r) ApprovalStatus.EXPIRED (exe_at c) = Ok d') ∨
     (instant (exe_at c) < instant (expires_at r) ∧ e = false ∧ is_Some s ∧
      (exe_version c, exe_snapshot c, exe_rendered c) = binding_of r ∧
      ∃ d1, update_state d (exe_approval c) (Some ApprovalStatus.APPROVED) (row_version r)
              ApprovalStatus.EXECUTING (exe_at c) = Ok d1 ∧
        insert_execution d1 (ExecutionRow (exe_approval c) (exe_version c, exe_snapshot c, exe_rendered c)
                               (exe_at c)) = Ok d')).
Proof.
  unfold ApprovalRepository.claim_body, _lock_approval. intros H.
  apply bind_Ok in H as (r & Hr & H). apply require_some_Ok in Hr.
  apply raise_bind_Ok in H as [Hst H]. apply raise_bind_Ok in H as [_ H]. guards.
  exists r. do 2 (split; [done|]). unfold dt_leb in H. destruct (_ <=? _) eqn:Hexp; guards.
  - apply bind_Ok in H as (d1 & Hd & [= <- <- <-]). by left.
  - apply bind_Ok in H as (u2 & Hb & H). apply exact_binding in Hb.
    apply raise_bind_Ok in H as [_ H]. apply bind_Ok in H as (u3 & _ & H).
    apply bind_Ok in H as (d1 & Hd & H). apply bind_Ok in H as (d2 & He & [= <- <- <-]).
    right. do 4 (split; [done|]). by exists d1.
Qed.

Lemma sound_attest w d c : sound d →
  sound (ApprovalRepository.attest facts_hash rendering_hash w d c).1.
Proof.
  intros Hs. unfold ApprovalRepository.attest. destruct (_validate_reason_code _); [|done].
  unfold ApprovalRepository.conclude. destruct (attest_body w d c) as [[[d' e] s]|] eqn:H; [|done].
  apply attest_body_Ok in H as (r & u & Hr & Ha & Hst & Hb & [(Ht & _ & _ & H)|(Ht & _ & _ & H)]).
  - eapply sound_expire; [done|exact Hr|by left|exact Ht|exact H].
  - refine (sound_record d _ r (DecisionRow _ _ _ _ _ _ _ _ _) _ Hs Hr Hst eq_refl eq_refl Hb _ Ht H).
    unfold _authorize_attestation in Ha. result_inv. guards. unfold signed_by. cbn. by split_and!.
Qed.

Lemma sound_claim w d c : sound d →
  sound (ApprovalRepository.claim_execution facts_hash rendering_hash w d c).1.
Proof.
  intros Hs. unfold ApprovalRepository.claim_execution. destruct (negb _); [done|].
  unfold ApprovalRepository.conclude. destruct (claim_body w d c) as [[[d' e] s]|] eqn:H; [|done].
  apply claim_body_Ok in H as (r & Hr & Hst & [(Ht & _ & _ & H)|(Ht & _ & _ & Hb & d1 & H1 & H2)]).
  - eapply sound_expire; [done|exact Hr|by right|exact Ht|exact H].
  - exact (sound_execute d _ r (ExecutionRow _ _ _) d1 d' Hs Hr Hst eq_refl Hb Ht H1 H2).
Qed.

Lemma sound_request w s c id : sound (tables s) →
  sound (tables (ApprovalRepository.request facts_hash rendering_hash request_hash uuid_text action_text
                   normal w s c id).1).
Proof.
  intros Hs. unfold ApprovalRepository.request. destruct (ApprovalRepository.request_checks _ _ _ _); [|done].
  destruct (execute _ _ _ _ _) as [s' [x|e]] eqn:H.
  - apply execute_Ok in H as (sc & ky & hash & _ & _ & _ & H).
    apply execute_body_spec in H as [(-> & _)|(_ & _ & _ & t & m & H & _ & ->)]; [done|].
    cbn. by eapply sound_create.
  - by apply execute_Err in H as ->.
Qed.

Lemma sound_history l : sound (tables (history l)).
Proof.
  unfold ApprovalRepository.history.
  assert (∀ s, sound (tables s) → sound (tables (foldl run s l))) as Hgen.
  { induction l as [|o l IH]; intros s Hs; [done|]. cbn [foldl]. apply IH.
    destruct o; cbn [ApprovalRepository.run];
      [by apply sound_request|by apply sound_decide|by apply sound_attest|by apply sound_claim]. }
  apply Hgen. intros id. unfold sound_at. cbn. done.
Qed.

(** What separation of duty asks of a decider, besides not being the requester. *)
Definition may_sign (w : world) (r : approval) (p : StaffPrincipal) : Prop :=
  is_store_member w (staff_user_id p) (store_id r) = true ∧
  (ActorRole.OWNER_ADMIN ∈ roles p ∨ required_role r ∈ roles p) ∧
  mfa_verified p = true ∧ staff_user_id p ≠ requested_by r ∧
  (resource_type r = "EXPORT_REQUEST"%string →
   ∀ store v h definer, export_requests_row w (resource_id r) = Some (store, v, h, Some definer) →
   staff_user_id p ≠ definer).

Lemma authorize_decision_iff w r p : _authorize_decision w r p = Ok tt ↔ may_sign w r p.
Proof.
  unfold _authorize_decision, require_store_membership, may_sign. rewrite !raise_bind_Ok.
  rewrite negb_false_iff, andb_false_iff, !negb_false_iff, !bool_decide_eq_true, Z.eqb_neq.
  enough (_require_separation_from_the_definer w (resource_type r) (resource_id r) p = Ok tt ↔
          (resource_type r = "EXPORT_REQUEST"%string →
           ∀ store v h definer, export_requests_row w (resource_id r) = Some (store, v, h, Some definer) →
           staff_user_id p ≠ definer)) as -> by tauto.
  unfold _require_separation_from_the_definer, _RESOURCE_DEFINERS.
  case_bool_decide as Ht; [|split; [intros _ ?; done|done]].
  destruct (export_requests_row w (resource_id r)) as [[[[st v] h] [x|]]|] eqn:Hrow; cbn;
    [rewrite raise_if_Ok, Z.eqb_neq; naive_solver|naive_solver|naive_solver].
Qed.

Lemma requested_update d r id t new : approvals d !! id = Some r → status r = ApprovalStatus.REQUESTED →
  instant (updated_at r) <= instant t → transition_allowed ApprovalStatus.REQUESTED new = true →
  update_state d id (Some ApprovalStatus.REQUESTED) (row_version r) new t
  = Ok (Db (<[id := with_state r new (row_version r + 1) t]> (approvals d)) (decisions d) (executions d)).
Proof.
  intros Hr Hst Ht Htr. unfold update_state. rewrite Hr. cbn -[transition_allowed].
  rewrite Hst, Z.eqb_refl, bool_decide_true by done. cbn -[transition_allowed]. unfold dt_ltb. rewrite (proj2 (Z.ltb_ge _ _)) by done. by rewrite Htr.
Qed.

Lemma undecided_insert d x : decided d (decided_approval x) = [] →
  code_text 99 (decision_reason x) = true →
  (∀ n, decision_note x = Some n → between_len 1 500 (txt n) = true) →
  insert_decision d x = Ok (Db (approvals d) (x :: decisions d) (executions d)).
Proof.
  intros Hd Hr Hn. unfold insert_decision. rewrite Hr.
  rewrite bool_decide_false.
  - cbn. destruct (decision_note x) as [n|]; [by rewrite Hn|done].
  - intros (y & Hy & Hin)%list_elem_of_fmap.
    by apply (filter_nil_not_elem_of (λ z, decided_approval z = decided_approval x) _ y) in Hd.
Qed.

(** The resource still has the store, version and digests the envelope binds, or is of a
    kind this server has no table for. *)
Definition still_bound (w : world) (r : approval) : Prop :=
  match DECISION_TIME_RESOLVERS facts_hash rendering_hash (resource_type r) with
  | None => resource_type r ∈ UNRESOLVABLE_AT_DECISION
  | Some resolver =>
      ∃ current, resolver w (resource_id r) = Some current ∧ current_store current = store_id r ∧
        current_version current = resource_version r ∧ current_snapshot current = snapshot_hash r ∧
        (current_rendered current = None ∨ current_rendered current = Some (rendered_hash r))
  end.

Lemma unchanged_iff w r : unchanged w r = Ok tt ↔ still_bound w r.
Proof.
  unfold _require_resource_unchanged, still_bound. destruct (DECISION_TIME_RESOLVERS _ _ _) as [f|].
  - rewrite bind_Ok. setoid_rewrite require_some_Ok. setoid_rewrite raise_if_Ok.
    setoid_rewrite orb_false_iff. setoid_rewrite orb_false_iff. setoid_rewrite orb_false_iff.
    setoid_rewrite negb_false_iff. setoid_rewrite bool_decide_eq_true. setoid_rewrite Z.eqb_eq.
    split; intros (x & Hx & H); exists x; (split; [done|]).
    + destruct (current_rendered x) as [h|]; [|naive_solver].
      destruct H as [? Hh]. apply negb_false_iff, bool_decide_eq_true in Hh. naive_solver.
    + destruct H as (? & ? & ? & [->| ->]); [done|]. by rewrite bool_decide_true.
  - by rewrite raise_if_Ok, negb_false_iff, bool_decide_eq_true.
Qed.

(** C30: an approval is granted exactly when the envelope is pending and inside its window,
    the approver is an MFA-verified member of its store holding the required role (or the
    owner), neither its requester nor -- for an export -- the person who defined it, they
    were shown the stored version and both digests, the resource still has that content
    now, and the reason code and note are well formed. *)
Theorem approval_granted_iff l w c b : dec_decision c = ApprovalDecision.APPROVED →
  let d := tables (history l) in
  ((∃ s, (ApprovalRepository.decide facts_hash rendering_hash w d c b).2 = Ok s ∧
         stored_status s = ApprovalStatus.APPROVED) ↔
   ∃ r, approvals d !! dec_approval c = Some r ∧ status r = ApprovalStatus.REQUESTED ∧
     may_sign w r (dec_principal c) ∧
     (dec_version c, dec_snapshot c, dec_rendered c) = binding_of r ∧ still_bound w r ∧
     instant (requested_at r) <= instant (dec_at c) < instant (expires_at r) ∧
     code_text 99 (dec_reason c) = true ∧
     (∀ n, dec_note c = Some n → between_len 1 500 (txt n) = true)).
Proof.
  intros Hap d. pose proof (sound_history l) as Hs. fold d in Hs. clearbody d.
  unfold ApprovalRepository.decide, ApprovalRepository.conclude. split.
  - intros (s & H & Hst). destruct (_validate_human_decision c) as [u|] eqn:Hv; [|done].
    destruct (decide_body w d c) as [[[d' e] os]|] eqn:Hb; [|done].
    apply decide_body_Ok in Hb as (r & [] & Hr & Ha & Hq & Hbind & Hcase). exists r.
    destruct Hcase as [(_ & _ & -> & _)|(Ht & -> & -> & Hun & Hrec)].
    { apply bind_Ok in H as (? & _ & [= <-]). done. }
    apply authorize_decision_iff in Ha. unfold _record_decision in Hrec. result_inv.
    match goal with Hu : update_state _ _ _ _ _ _ = Ok _ |- _ =>
      apply update_state_Ok in Hu as (r' & Hr' & _ & _ & Hle & _ & ->) end.
    cbn in Hr', Hle. rewrite Hr in Hr'. injection Hr' as <-.
    pose proof (Hs (dec_approval c)) as Hid. unfold sound_at in Hid. rewrite Hr in Hid.
    destruct Hid as [_ Hl]. inversion Hl as [_ Hup|? Hy|? Hy|? Hy|? ? Hy]; try congruence.
    rewrite Hup in Hle. unfold insert_decision in Hrec. cbn in Hrec. result_inv. guards.
    do 4 (split; [done|]). split; [by apply unchanged_iff, Hun|]. split; [by split|]. split; [done|].
    intros n Hn. rewrite Hn in *. by guards.
  - intros (r & Hr & Hq & Ha & Hbind & Hun & [Hge Hlt] & Hreason & Hnote). apply unchanged_iff in Hun.
    pose proof (Hs (dec_approval c)) as Hid. unfold sound_at in Hid. rewrite Hr in Hid.
    destruct Hid as [_ Hl]. inversion Hl as [_ Hup Hd|? Hy|? Hy|? Hy|? ? Hy]; try congruence.
    exists (stored (dec_approval c) r ApprovalStatus.APPROVED). split; [|done].
    assert (_validate_human_decision c = Ok tt) as ->.
    { unfold _validate_human_decision, _validate_reason_code. rewrite Hreason.
      cbn [negb raise_if mbind result_bind]. destruct (dec_note c) as [n|]; [|done]. specialize (Hnote n eq_refl). unfold between_len in Hnote.
      apply andb_true_iff in Hnote as [_ Hn]. apply Nat.leb_le in Hn.
      by rewrite (proj2 (Nat.ltb_ge _ _)). }
    unfold ApprovalRepository.decide_body, _lock_approval. rewrite Hr. cbn [require_some mbind result_bind].
    rewrite (proj2 (authorize_decision_iff _ _ _) Ha). cbn [mbind result_bind].
    injection Hbind as -> -> ->. unfold _require_exact_binding.
    rewrite Z.eqb_refl, !bool_decide_true by done. cbn [negb orb raise_if mbind result_bind].
    unfold dt_ltb, dt_leb. rewrite (proj2 (Z.ltb_lt _ _) Hlt), (proj2 (Z.leb_gt _ _) Hlt).
    cbn [andb]. rewrite Hun, Hap. cbn [mbind result_bind].
    unfold _record_decision. cbn [decided_approval decision decided_at decided_status].
    rewrite (requested_update _ r) by (done || by rewrite Hup). cbn [mbind result_bind].
    by rewrite undecided_insert.
Qed.

(** C9: nothing is executed on one person's word.  After any sequence of requests,
    decisions, attestations and claims, in any order and at any times, every execution is
    the only one of its approval, that approval has exactly one decision, an approval, and
    both bind the version and digests the envelope was raised for; the decision was made
    inside the window and the claim after it and before the expiry; and the decider is not
    the requester, unless the action is one the counter attests. *)
Theorem approvals_are_maker_checked l e :
  e ∈ executions (tables (history l)) →
  let d := tables (history l) in
  ∃ r x, approvals d !! executed_approval e = Some r ∧
    decided d (executed_approval e) = [x] ∧ executed d (executed_approval e) = [e] ∧
    decision x = ApprovalDecision.APPROVED ∧
    decision_binding x = binding_of r ∧ execution_binding e = binding_of r ∧
    instant (requested_at r) <= instant (decided_at x) ∧
    instant (decided_at x) <= instant (claimed_at e) < instant (expires_at r) ∧
    (decided_by x ≠ requested_by r ∨
     counter_attested x = true ∧ action r ∈ [ApprovalAction.FINALIZE_QUOTE; ApprovalAction.SET_RANGE_PRICE]).
Proof.
  intros He d. pose proof (sound_history l (executed_approval e)) as Hid. fold d in He, Hid.
  assert (e ∈ executed d (executed_approval e)) as Hin by by apply list_elem_of_filter.
  unfold sound_at in Hid. destruct (approvals d !! executed_approval e) as [r|];
    [|destruct Hid as [_ Hn]; rewrite Hn in Hin; by apply not_elem_of_nil in Hin].
  destruct Hid as [Hp Hl].
  inversion Hl as [Hy Hu Hd Hn|x Hy ? ? Hd Hn|x Hy ? ? ? Hd Hn|k Hy ? ? ? ? Hd Hn|x e' Hy Hx Hw Hew Hd Hn];
    rewrite <- Hn in Hin; try by apply not_elem_of_nil in Hin.
  apply list_elem_of_singleton in Hin as ->.
  destruct Hw as (Hb & _ & Hsig & Ht), Hew as [Heb Het]. exists r, x. split_and!; try done; try lia.
  unfold signed_by in Hsig. destruct (counter_attested x); [right|by left].
  split; [done|]. destruct Hsig as (_ & Hcap & _), Hp as (_ & _ & Hc & _). rewrite Hcap in Hc.
  destruct (action r); first [discriminate Hc|set_solver].
Qed.

(** A refusal leaves the tables alone, or expires an approval whose window has passed. *)
Definition refused (d : db) (id : Z) (t : datetime) (d' : db) (e : ApprovalError) : Prop :=
  d' = d ∨
  e = ApprovalExpired ∧ ∃ r, approvals d !! id = Some r ∧ instant (expires_at r) <= instant t ∧
    status r ∈ [ApprovalStatus.REQUESTED; ApprovalStatus.APPROVED] ∧
    d' = Db (<[id := with_state r ApprovalStatus.EXPIRED (row_version r + 1) t]> (approvals d))
            (decisions d) (executions d).

Lemma expired_refused d id r t d' : approvals d !! id = Some r → instant (expires_at r) <= instant t →
  status r ∈ [ApprovalStatus.REQUESTED; ApprovalStatus.APPROVED] →
  _change_approval_state d id (row_version r) ApprovalStatus.EXPIRED t = Ok d' →
  refused d id t d' ApprovalExpired.
Proof.
  intros Hr Ht Hst H. right. split; [done|]. exists r. do 3 (split; [done|]).
  apply update_state_Ok in H as (r' & Hr' & _ & _ & _ & _ & ->). by rewrite Hr in Hr'; injection Hr' as <-.
Qed.

(** a decision, an attestation or a claim that is refused changes no table -- no
    decision, no execution, no state -- with one exception the code makes on purpose: an
    approval found past its window is recorded as EXPIRED before the refusal is raised. *)
Theorem refusals_change_nothing w d :
  (∀ c b d' e, ApprovalRepository.decide facts_hash rendering_hash w d c b = (d', Err e) →
     refused d (dec_approval c) (dec_at c) d' e) ∧
  (∀ c d' e, ApprovalRepository.attest facts_hash rendering_hash w d c = (d', Err e) →
     refused d (att_approval c) (att_at c) d' e) ∧
  (∀ c d' e, ApprovalRepository.claim_execution facts_hash rendering_hash w d c = (d', Err e) →
     refused d (exe_approval c) (exe_at c) d' e).
Proof.
  split_and!.
  - intros c b d' e H. unfold ApprovalRepository.decide, ApprovalRepository.conclude in H.
    destruct (_validate_human_decision c); [|injection H as <- <-; by left].
    destruct (decide_body w d c) as [[[d1 x] s]|] eqn:Hb; [|injection H as <- <-; by left].
    apply decide_body_Ok in Hb as (r & u & Hr & _ & Hst & _ & [(Ht & -> & -> & Hd)|(_ & -> & -> & _)]).
    + destruct b; [done|]. injection H as <- <-. eapply expired_refused; try done. rewrite Hst. set_solver.
    + done.
  - intros c d' e H. unfold ApprovalRepository.attest, ApprovalRepository.conclude in H.
    destruct (_validate_reason_code _); [|injection H as <- <-; by left].
    destruct (attest_body w d c) as [[[d1 x] s]|] eqn:Hb; [|injection H as <- <-; by left].
    apply attest_body_Ok in Hb as (r & u & Hr & _ & Hst & _ & [(Ht & -> & -> & Hd)|(_ & -> & [v ->] & _)]).
    + injection H as <- <-. eapply expired_refused; try done. rewrite Hst. set_solver.
    + done.
  - intros c d' e H. unfold ApprovalRepository.claim_execution, ApprovalRepository.conclude in H.
    destruct (negb _); [injection H as <- <-; by left|].
    destruct (claim_body w d c) as [[[d1 x] s]|] eqn:Hb; [|injection H as <- <-; by left].
    apply claim_body_Ok in Hb as (r & Hr & Hst & [(Ht & -> & -> & Hd)|(_ & -> & [v ->] & _)]).
    + injection H as <- <-. eapply expired_refused; try done. rewrite Hst. set_solver.
    + done.
Qed.
End operations.

(** every approval has a window and no window exceeds what its policy promises.  A
    fixed window is the action's published minutes; an owner's remedy window closes at a
    business midnight, two calendar days on, more than 24 and at most 48 hours later, in
    the caller's own zone; so the exceeded-maximum refusal is unreachable, and only a
    naive timestamp is refused. *)
Theorem approval_window_bounds (a : ApprovalAction.t) (t : datetime) :
  let p := APPROVAL_POLICIES a in
  match approval_expires_at p t with
  | Ok e =>
      utcoffset_us e = utcoffset_us t ∧ instant t < instant e <= instant t + maximum_ttl p ∧
      (window p = ApprovalWindow.FIXED → instant e = instant t + maximum_ttl p) ∧
      (window p = ApprovalWindow.END_OF_NEXT_BUSINESS_DAY →
       let local := astimezone HO_CHI_MINH in
       hours 24 < dt_sub e t <= hours 48 ∧
       local e = midnight (date_of (local t) + 2) HO_CHI_MINH)
  | Err x => x = ApprovalEnvelopeError ∧ aware t = false
  end.
Proof.
  unfold approval_expires_at, aware. destruct (utcoffset_us t) as [o|] eqn:Ho; [|done].
  case_bool_decide as Hw.
  - cbn [dt_add utcoffset_us]. rewrite instant_dt_add. split_and!; [done|..]; try done; try lia.
    + assert (0 < maximum_ttl (APPROVAL_POLICIES a)) by (by destruct a). lia.
    + by rewrite Hw.
  - assert (a = ApprovalAction.APPROVE_REMEDY) as -> by (destruct a; try done; by destruct Hw).
    cbn [APPROVAL_POLICIES _OWNER_REMEDY maximum_ttl].
    set (day := date_of (astimezone HO_CHI_MINH t)).
    assert (instant t = day * us_per_day + (wall_us (astimezone HO_CHI_MINH t)) mod us_per_day - HO_CHI_MINH)
      as Ht.
    { unfold day, date_of. rewrite Z.mul_comm, <- Z.div_mod by done. unfold astimezone. cbn. lia. }
    pose proof (Z.mod_pos_bound (wall_us (astimezone HO_CHI_MINH t)) us_per_day ltac:(done)) as Hm.
    assert (instant (astimezone o (midnight (day + 2) HO_CHI_MINH)) = (day + 2) * us_per_day - HO_CHI_MINH)
      as Hc by by rewrite instant_astimezone.
    assert (hours 48 = 2 * us_per_day) as H48 by done. assert (hours 24 = us_per_day) as H24 by done.
    unfold dt_ltb, dt_leb. rewrite instant_dt_add, Hc, H48.
    rewrite (proj2 (Z.ltb_lt _ _)), (proj2 (Z.leb_le _ _)) by lia. cbn [andb negb].
    split; [done|]. split; [lia|]. split; [done|]. intros _. cbn zeta. unfold dt_sub. rewrite H24, Hc.
    split; [lia|]. unfold astimezone at 1. rewrite Hc. unfold midnight, day. f_equal. lia.
Qed.

(** * A cancellation, from request to claim *)

Definition digest_text : string :=
  "JCS-SHA256-V1:0123456789abcdef0123456789abcdef0123456789abcdef0123456789abcdef".
(** Staff 10 and 20 belong to store 1, where order 7 is at row version 3. *)
Definition shop_world : world :=
  World (λ staff store, (store =? 1) && ((staff =? 10) || (staff =? 20)))
    (λ id, if id =? 7 then Some (1, 3, digest_text) else None)
    (λ _, None) (λ _ _, None) (λ _, None) (λ _, None) (λ _, None) (λ _, None) (λ _, false) (λ _ _, None).
Definition at_minute (m : Z) : datetime := DateTime (minutes m) (Some 0).

Definition cancel_request : ApprovalRequestCommand :=
  RequestCommand ApprovalAction.CANCEL_ACTIVE_ORDER "ORDER" 7 3 digest_text digest_text "policy-1" 10
    "key-1" 1 "STAFF" (at_minute 0).
Definition owner_decision : ApprovalDecisionCommand :=
  DecisionCommand 100 ApprovalDecision.APPROVED 3 digest_text digest_text "CUSTOMER_ASKED"
    (Principal 20 [ActorRole.OWNER_ADMIN] true) (at_minute 4) (Some "called the customer"%string).
Definition worker_claim : ApprovalExecutionCommand :=
  ExecutionCommand 100 ActorRole.OUTBOX_WORKER 3 digest_text digest_text "policy-1" (at_minute 6).
Definition cancellation : list ApprovalRepository.operation :=
  [ApprovalRepository.Request shop_world cancel_request 100;
   ApprovalRepository.Decide shop_world owner_decision false;
   ApprovalRepository.Claim shop_world worker_claim].
Definition shop_history (l : list ApprovalRepository.operation) : db :=
  tables (ApprovalRepository.history (λ _, digest_text) (λ _ _, digest_text) (λ _, Some "request"%string)
            (λ _, "7"%string) (λ _, "CANCEL_ACTIVE_ORDER"%string) Some l).
Definition claimed_execution : execution_row :=
  ExecutionRow 100 (3, digest_text, digest_text) (at_minute 6).

Lemma approvals_are_maker_checked_witness :
  executions (shop_history cancellation) = [claimed_execution] ∧
  ∃ r x, approvals (shop_history cancellation) !! 100 = Some r ∧
    decided (shop_history cancellation) 100 = [x] ∧ decided_by x ≠ requested_by r.
Proof.
  assert (executions (shop_history cancellation) = [claimed_execution]) as He
    by (vm_compute; reflexivity).
  split; [exact He|].
  destruct (approvals_are_maker_checked (λ _, digest_text) (λ _ _, digest_text) (λ _, Some "request"%string)
              (λ _, "7"%string) (λ _, "CANCEL_ACTIVE_ORDER"%string) Some cancellation claimed_execution)
    as (r & x & Hr & Hx & _ & _ & _ & _ & _ & _ & Hwho).
  { change (claimed_execution ∈ executions (shop_history cancellation)). rewrite He. left. }
  exists r, x. split; [exact Hr|]. split; [exact Hx|].
  destruct Hwho as [Hne|[_ Ha]]; [exact Hne|].
  assert (action <$> (approvals (shop_history cancellation) !! 100) = Some ApprovalAction.CANCEL_ACTIVE_ORDER)
    as Hc by (vm_compute; reflexivity).
  assert (action r = ApprovalAction.CANCEL_ACTIVE_ORDER) as Hc' by (unfold shop_history in Hc; cbn [claimed_execution executed_approval] in Hr; rewrite Hr in Hc; by injection Hc).
  rewrite Hc' in Ha. exfalso. revert Ha. decided.
Defined.

Lemma approval_granted_iff_witness :
  dec_decision owner_decision = ApprovalDecision.APPROVED ∧
  ∃ s, (ApprovalRepository.decide (λ _, digest_text) (λ _ _, digest_text) shop_world
          (shop_history (take 1 cancellation)) owner_decision false).2 = Ok s ∧
       stored_status s = ApprovalStatus.APPROVED.
Proof.
  split; [reflexivity|].
  apply (approval_granted_iff (λ _, digest_text) (λ _ _, digest_text) (λ _, Some "request"%string)
           (λ _, "7"%string) (λ _, "CANCEL_ACTIVE_ORDER"%string) Some (take 1 cancellation) shop_world
           owner_decision false eq_refl).
  eexists. split; [vm_compute; reflexivity|]. split; [reflexivity|].
  split; [split_and!; try decided; intros Ht; exfalso; revert Ht; decided|].
  split; [reflexivity|]. split; [eexists; split_and!; try reflexivity; by left|]. split; [by vm_compute|].
  split; [reflexivity|]. intros n [= <-]. reflexivity.
Defined.
