(* ===== verification/CancellationMoney.v ===== *)
(** What a cancellation does to remedy money: the plan ([domain/cancellation_money.py]) and
    the tables it moves ([db/cancellation_money.py], and the issue and spend of a credit in
    [db/remedies.py]), as transactions on orders and credits.  The words printed beside a
    plan, the kind of a remedy and the audit rows are left out; the rest of a cancellation
    (custody, production) is [OrderRepository]'s.  Times are microseconds of an instant. *)
From S2P Require Import Prelude Catalog Orders Settlement.
Local Open Scope laundry_scope.
Local Open Scope Z_scope.

(** * The plan *)

Module CreditState.
Inductive t :=
  | UNSPENT | SPENT | VOIDED.
#[export] Instance eq_dec : EqDecision t.
Proof. solve_decision. Defined.
End CreditState.
#[export] Existing Instance CreditState.eq_dec.

Module CancellationMoneyRefusal.
Inductive t :=
  | CREDIT_CHAIN_NOT_NETTED | CANCELLATION_MONEY_CHANGED.
#[export] Instance eq_dec : EqDecision t.
Proof. solve_decision. Defined.
End CancellationMoneyRefusal.
#[export] Existing Instance CancellationMoneyRefusal.eq_dec.

Inductive MoneyError :=
| CancellationMoneyRefused (code : CancellationMoneyRefusal.t)
| FigureInvalid (* ValueError *)
| StaleVersion (* CancellationMoneyError *)
| BalanceRefused (* the domain refuses to cancel at this balance *)
| NothingToRefund
| OrderMissing
| AlreadyCancelled
| QuoteConverted
| CreditNotFound
| CreditVoidedRefusal
| CreditAlreadyRedeemed
| OrderRefunded
| RemedyAlreadyExecuted
| ConstraintViolated.
#[export] Instance money_error_eq_dec : EqDecision MoneyError.
Proof. solve_decision. Defined.
Abbreviation money_result A := (result MoneyError A).

Record RemedyCreditFact := CreditFact {
  credit_id : Z;
  fact_amount_vnd : Z;
  state : CreditState.t;
  issuer_uncovered : bool;
}.

Record CancellationMoneyPlan := Plan {
  voided : list RemedyCreditFact;
  netted : list RemedyCreditFact;
  refundable_vnd : Z;
  netted_vnd : Z;
  reissued : list RemedyCreditFact;
  refusal : option CancellationMoneyRefusal.t;
}.

Definition refund_vnd (p : CancellationMoneyPlan) : Z := refundable_vnd p - netted_vnd p.
Definition nonempty {A} (l : list A) : bool := match l with [] => false | _ => true end.
Definition moves_remedy_money (p : CancellationMoneyPlan) : bool :=
  nonempty (voided p) || nonempty (netted p) || nonempty (reissued p).

Record CancellationMoneyFigures := Figures {
  shown_refund_vnd : Z;
  shown_netted_vnd : Z;
  shown_voided_vnd : Z;
  shown_reissued_vnd : Z;
}.
#[export] Instance figures_eq_dec : EqDecision CancellationMoneyFigures.
Proof. solve_decision. Defined.

(** [__post_init__] of the figures. *)
Definition figure_ok (v : Z) : bool := (0 <=? v) && (v <=? MAX_SETTLEMENT_VND).
Definition new_figures (f : CancellationMoneyFigures) : money_result CancellationMoneyFigures :=
  raise_if (negb (figure_ok (shown_refund_vnd f) && figure_ok (shown_netted_vnd f)
                  && figure_ok (shown_voided_vnd f) && figure_ok (shown_reissued_vnd f))) FigureInvalid ;;
  Ok f.

Definition face (l : list RemedyCreditFact) : Z := sumZ (fact_amount_vnd <$> l).

Definition figures (p : CancellationMoneyPlan) : money_result CancellationMoneyFigures :=
  new_figures (Figures (refund_vnd p) (netted_vnd p) (face (voided p)) (face (reissued p))).

Definition require_allowed (p : CancellationMoneyPlan) (expected : option CancellationMoneyFigures)
    : money_result unit :=
  match refusal p with
  | Some r => Err (CancellationMoneyRefused r)
  | None =>
      match expected with
      | None => raise_if (moves_remedy_money p)
                  (CancellationMoneyRefused CancellationMoneyRefusal.CANCELLATION_MONEY_CHANGED)
      | Some e =>
          f ← figures p;
          raise_if (negb (e is? f))
            (CancellationMoneyRefused CancellationMoneyRefusal.CANCELLATION_MONEY_CHANGED)
      end
  end.

Definition cancellation_money_plan (resolution : option CustodyResolution.t) (refundable : Z)
    (issued_from_order spent_on_order : list RemedyCreditFact) : money_result CancellationMoneyPlan :=
  raise_if (negb (figure_ok refundable)) FigureInvalid ;;
  raise_if (existsb (λ c, fact_amount_vnd c <=? 0) (issued_from_order ++ spent_on_order)) FigureInvalid ;;
  if resolution is? Some CustodyResolution.UNCLAIMED_DISPOSED then Ok (Plan [] [] refundable 0 [] None)
  else
    let voided := filter (λ c, state c = CreditState.UNSPENT) issued_from_order in
    let netted := filter (λ c, state c = CreditState.SPENT) issued_from_order in
    let netted_vnd := Z.min refundable (face netted) in
    let reissued := filter (λ c, state c = CreditState.SPENT) spent_on_order in
    let refusal := if existsb issuer_uncovered reissued
                   then Some CancellationMoneyRefusal.CREDIT_CHAIN_NOT_NETTED else None in
    Ok (Plan voided netted refundable netted_vnd reissued refusal).

(** * The tables *)

(** A row of [remedy_credits]; [redeemed]: when, and on which quote revision; [void]: when,
    and with which order. *)
Record credit := Credit {
  remedy_proposal_id : Z;
  credit_store_id : Z;
  bearer_contact_id : Z;
  issued_from_order_id : Z;
  amount_vnd : Z;
  policy_version_id : Z;
  issued_at : Z;
  redeemed : option (Z * (Z * Z));
  void : option (Z * Z);
  reissue_of : option Z;
  reissued_for_order_id : option Z;
  credit_row_version : Z;
}.

Record order_refund := OrderRefund {
  refunded_amount_vnd : Z;
  netted_remedy_vnd : Z;
  refunded_at : Z;
}.

(** An order with what its ledger holds, its refund row and whether it was disposed of. *)
Record order := Order {
  store_id : Z;
  bound_contact_id : Z;
  current_quote : Z * Z; (* quote, revision *)
  balance_status : OrderBalanceStatus.t;
  paid_vnd : Z;
  cancelled : bool;
  disposed : bool;
  order_refunds : option order_refund;
}.

Record db := Db {
  orders : gmap Z order;
  credits : gmap Z credit;
}.

Definition set_order (d : db) (id : Z) (o : order) : db := Db (<[id := o]> (orders d)) (credits d).
Definition set_credit (d : db) (id : Z) (c : credit) : db := Db (orders d) (<[id := c]> (credits d)).

Definition is_redeemed (c : credit) : bool := match redeemed c with Some _ => true | None => false end.
Definition is_voided (c : credit) : bool := match void c with Some _ => true | None => false end.

(** [EXISTS (SELECT 1 FROM remedy_credits r WHERE r.reissue_of = c.id)]. *)
Definition is_reissued (m : gmap Z credit) (id : Z) : bool :=
  existsb (λ kc, reissue_of kc.2 is? Some id) (map_to_list m).

(** [ORDER BY c.issued_at, c.id]. *)
Definition issue_leb (a b : Z * credit) : bool :=
  (issued_at a.2 <? issued_at b.2) || ((issued_at a.2 =? issued_at b.2) && (a.1 <=? b.1)).

Definition _ISSUED_SQL (d : db) (order_id : Z) : list (Z * credit) :=
  stable_sort issue_leb
    (filter (λ kc, issued_from_order_id kc.2 = order_id ∧ is_reissued (credits d) kc.1 = false)
       (map_to_list (credits d))).

(** The face value of the issuer's credits spent by the time of its refund, each chain by its
    latest link at that time. *)
Definition counted (m : gmap Z credit) (issuer at_ : Z) (id : Z) (c : credit) : Z :=
  match redeemed c with
  | Some (t, _) =>
      if (issued_from_order_id c =? issuer) && (t <=? at_)
         && negb (existsb (λ kc, (reissue_of kc.2 is? Some id) && (issued_at kc.2 <=? at_)) (map_to_list m))
      then amount_vnd c else 0
  | None => 0
  end.
Definition total (f : Z → credit → Z) (m : gmap Z credit) : Z :=
  sumZ ((λ kc, f kc.1 kc.2) <$> map_to_list m).

Definition covered (d : db) (issuer : Z) (o : order) : bool :=
  match order_refunds o with
  | Some r => total (counted (credits d) issuer (refunded_at r)) (credits d) <=? netted_remedy_vnd r
  | None => false
  end.
Definition uncovered (d : db) (issuer : Z) : bool :=
  match orders d !! issuer with
  | Some o => cancelled o && negb (disposed o) && negb (covered d issuer o)
  | None => false
  end.

Definition _SPENT_SQL (d : db) (o : order) : list (Z * credit) :=
  stable_sort issue_leb
    (filter (λ kc, snd <$> redeemed kc.2 = Some (current_quote o)
                   ∧ is_Some (orders d !! issued_from_order_id kc.2))
       (map_to_list (credits d))).

(** [_locked]: a row's fact. *)
Definition _locked (issuer_uncovered : credit → bool) (kc : Z * credit) : RemedyCreditFact :=
  CreditFact kc.1 (amount_vnd kc.2)
    (if is_voided kc.2 then CreditState.VOIDED
     else if is_redeemed kc.2 then CreditState.SPENT else CreditState.UNSPENT)
    (issuer_uncovered kc.2).

Definition plan_cancellation_money (d : db) (order_id : Z) (o : order)
    (resolution : option CustodyResolution.t) (refundable : Z) : money_result CancellationMoneyPlan :=
  cancellation_money_plan resolution refundable
    (_locked (λ _, false) <$> _ISSUED_SQL d order_id)
    (_locked (λ c, uncovered d (issued_from_order_id c)) <$> _SPENT_SQL d o).

(** * Writing the plan *)

Definition with_void (c : credit) (v : Z * Z) : credit :=
  Credit (remedy_proposal_id c) (credit_store_id c) (bearer_contact_id c) (issued_from_order_id c)
    (amount_vnd c) (policy_version_id c) (issued_at c) (redeemed c) (Some v) (reissue_of c)
    (reissued_for_order_id c) (credit_row_version c + 1).
Definition with_redeemed (c : credit) (r : Z * (Z * Z)) : credit :=
  Credit (remedy_proposal_id c) (credit_store_id c) (bearer_contact_id c) (issued_from_order_id c)
    (amount_vnd c) (policy_version_id c) (issued_at c) (Some r) (void c) (reissue_of c)
    (reissued_for_order_id c) (credit_row_version c + 1).

(** [UPDATE ... WHERE id AND redeemed_at IS NULL AND voided_at IS NULL RETURNING id]; the
    row version of the locked row is the one in the table. *)
Definition void_credit (order_id now : Z) (d : db) (fact : RemedyCreditFact) : money_result db :=
  c ← require_some (credits d !! credit_id fact) StaleVersion;
  raise_if (is_redeemed c || is_voided c) StaleVersion ;;
  raise_if (negb (order_id =? issued_from_order_id c)) ConstraintViolated ;;
  Ok (set_credit d (credit_id fact) (with_void c (now, order_id))).

(** The inserted reissue, its unique key and its trigger. *)
Definition reissue_credit (order_id now : Z) (o : order) (mint : Z → Z) (d : db)
    (fact : RemedyCreditFact) : money_result db :=
  original ← require_some (credits d !! credit_id fact) StaleVersion;
  let new_id := mint (credit_id fact) in
  raise_if (bool_decide (is_Some (credits d !! new_id)) || is_reissued (credits d) (credit_id fact)
            || negb (bool_decide (snd <$> redeemed original = Some (current_quote o)))) ConstraintViolated ;;
  Ok (set_credit d new_id
        (Credit (remedy_proposal_id original) (credit_store_id original) (bound_contact_id o)
           (issued_from_order_id original) (amount_vnd original) (policy_version_id original) now
           None None (Some (credit_id fact)) (Some order_id) 1)).

Definition write_cancellation_credit_moves (order_id now : Z) (o : order) (mint : Z → Z)
    (plan : CancellationMoneyPlan) (d : db) : money_result db :=
  d1 ← fold_result (void_credit order_id now) d (voided plan);
  fold_result (reissue_credit order_id now o mint) d1 (reissued plan).

(** What a refunding cancellation hands back before any netting. *)
Definition _refund_source (o : order) : money_result Z :=
  raise_if ((balance_status o is? OrderBalanceStatus.PARTIALLY_PAID) && (paid_vnd o <=? 0)) NothingToRefund ;;
  Ok (paid_vnd o).

(** The money side of [OrderRepository]'s cancellation of one order. *)
Definition cancel (d : db) (order_id : Z) (resolution : option CustodyResolution.t)
    (expected : option CancellationMoneyFigures) (now : Z) (mint : Z → Z) : money_result db :=
  o ← require_some (orders d !! order_id) OrderMissing;
  raise_if (cancelled o) AlreadyCancelled ;;
  balance' ← match _balance_after_cancellation (balance_status o) resolution with
             | Ok b => Ok b
             | Err _ => Err BalanceRefused
             end;
  let refunding := (balance_status o in? [OrderBalanceStatus.PAID; OrderBalanceStatus.PARTIALLY_PAID])
                   && (balance' is? OrderBalanceStatus.REFUNDED) in
  source ← (if refunding then amount ← _refund_source o; Ok (Some amount) else Ok None);
  plan ← plan_cancellation_money d order_id o resolution (default 0 source);
  require_allowed plan expected ;;
  let refund := match source with
                | Some amount => Some (OrderRefund (amount - netted_vnd plan) (netted_vnd plan) now)
                | None => None
                end in
  let o' := Order (store_id o) (bound_contact_id o) (current_quote o) balance' (paid_vnd o) true
              (bool_decide (resolution = Some CustodyResolution.UNCLAIMED_DISPOSED)) refund in
  write_cancellation_credit_moves order_id now o mint plan (set_order d order_id o').

(** * The life of a credit outside a cancellation *)

(** [RemedyRepository.execute] issuing a credit: one original per proposal, and no
    late-delivery credit on a refunded order. *)
Definition issue_credit (d : db) (id proposal order_id amount policy : Z) (late_delivery : bool)
    (now : Z) : money_result db :=
  o ← require_some (orders d !! order_id) OrderMissing;
  raise_if (late_delivery && (balance_status o is? OrderBalanceStatus.REFUNDED)) OrderRefunded ;;
  raise_if (existsb (λ kc, (remedy_proposal_id kc.2 =? proposal) && (reissue_of kc.2 is? None))
              (map_to_list (credits d))) RemedyAlreadyExecuted ;;
  raise_if (bool_decide (is_Some (credits d !! id)) || (amount <=? 0)) ConstraintViolated ;;
  Ok (set_credit d id
        (Credit proposal (store_id o) (bound_contact_id o) order_id amount policy now None None None None 1)).

(** A credit as an accepted quote revision reserves it: its id, amount and policy version. *)
Definition reserved : Type := Z * Z * Z.

Definition spend_credit (store now : Z) (bill : Z * Z) (d : db) (r : reserved) : money_result db :=
  let '(id, amount, policy) := r in
  c ← require_some (credits d !! id) CreditNotFound;
  raise_if (negb (credit_store_id c =? store)) CreditNotFound ;;
  raise_if (is_voided c) CreditVoidedRefusal ;;
  raise_if (is_redeemed c) CreditAlreadyRedeemed ;;
  raise_if (negb (amount_vnd c =? amount) || negb (policy_version_id c =? policy)) CreditNotFound ;;
  Ok (set_credit d id (with_redeemed c (now, bill))).

Definition spend_reserved_remedy_credits (store now : Z) (bill : Z * Z) (d : db) (l : list reserved)
    : money_result db :=
  fold_result (spend_credit store now bill) d (stable_sort (λ a b, a.1.1 <=? b.1.1) l).

(** The money side of [OrderRepository.create]: the quote is converted at most once. *)
Definition create (d : db) (id store contact quote revision now : Z) (l : list reserved) : money_result db :=
  raise_if (existsb (λ ko, (current_quote ko.2).1 =? quote) (map_to_list (orders d))) QuoteConverted ;;
  raise_if (bool_decide (is_Some (orders d !! id))) ConstraintViolated ;;
  spend_reserved_remedy_credits store now (quote, revision)
    (set_order d id (Order store contact (quote, revision) OrderBalanceStatus.UNPAID 0 false false None)) l.

(** Any other command on an open order: its balance and what its ledger holds.  The ledger
    trigger keeps an unpaid order free of payments, and only a cancellation refunds. *)
Definition record_money (d : db) (id : Z) (balance : OrderBalanceStatus.t) (paid : Z) : money_result db :=
  o ← require_some (orders d !! id) OrderMissing;
  raise_if (cancelled o) AlreadyCancelled ;;
  raise_if ((paid <? 0) || (balance is? OrderBalanceStatus.REFUNDED)
            || ((balance is? OrderBalanceStatus.UNPAID) && negb (paid =? 0))) ConstraintViolated ;;
  Ok (set_order d id (Order (store_id o) (bound_contact_id o) (current_quote o) balance paid false
                        (disposed o) (order_refunds o))).
