(* ===== verification/CreditChains.v ===== *)
(** Remedy credits over the life of the shop: whatever is issued, spent and cancelled, in
    any order, no cancellation compensates a customer twice. *)
From S2P Require Import Prelude Catalog Orders Settlement.
From S2P Require Import CancellationMoney.
Local Open Scope laundry_scope.
Local Open Scope Z_scope.

(** * Sums over the credit table *)

Section totals.
Implicit Types (m : gmap Z credit) (f g : Z → credit → Z).

Lemma total_empty f : total f ∅ = 0.
Proof. unfold total. by rewrite map_to_list_empty. Qed.

Lemma total_insert f m k v : m !! k = None → total f (<[k:=v]> m) = f k v + total f m.
Proof.
  intros Hk. unfold total. etrans; [apply sumZ_perm, fmap_Permutation, map_to_list_insert, Hk|].
  done.
Qed.

Lemma total_split f m k v : m !! k = Some v → total f m = f k v + total f (delete k m).
Proof.
  intros Hk. rewrite <- (insert_delete_id m k v) at 1 by done. apply total_insert, lookup_delete_eq.
Qed.

Lemma total_le f g m : (∀ k v, m !! k = Some v → f k v <= g k v) → total f m <= total g m.
Proof.
  intros H. apply sumZ_map_le. apply Forall_forall. intros [k v] Hin.
  apply H. by apply elem_of_map_to_list in Hin.
Qed.

Lemma total_ext f g m : (∀ k v, m !! k = Some v → f k v = g k v) → total f m = total g m.
Proof. intros H. apply Z.le_antisymm; apply total_le; intros; rewrite H; done. Qed.

(** One entry changes, and the weight of the others does not. *)
Lemma total_change f g m k v v' : m !! k = Some v →
  (∀ j c, m !! j = Some c → j ≠ k → g j c = f j c) →
  total g (<[k:=v']> m) = total f m - f k v + g k v'.
Proof.
  intros Hk Hsame. rewrite (total_split f m k v Hk), (total_split g (<[k:=v']> m) k v');
    [|by rewrite lookup_insert_eq].
  rewrite delete_insert_eq. rewrite (total_ext g f (delete k m)); [lia|].
  intros j c Hj. destruct (decide (j = k)) as [->|Hne]; [by rewrite lookup_delete_eq in Hj|].
  rewrite lookup_delete_ne in Hj by done. by apply Hsame.
Qed.

Lemma total_reweigh f g m k v : m !! k = Some v →
  (∀ j c, m !! j = Some c → j ≠ k → g j c = f j c) → total g m = total f m - f k v + g k v.
Proof. intros Hk H. rewrite <- (insert_id m k v Hk) at 1. by apply total_change. Qed.

Lemma total_nonneg f m : (∀ k v, m !! k = Some v → 0 <= f k v) → 0 <= total f m.
Proof.
  intros H. apply sumZ_nonneg, Forall_forall. intros x (kv & -> & Hin)%list_elem_of_fmap.
  destruct kv as [k v]. apply H. by apply elem_of_map_to_list in Hin.
Qed.

Lemma total_member f m k v : (∀ k v, m !! k = Some v → 0 <= f k v) → m !! k = Some v →
  f k v <= total f m.
Proof.
  intros Hpos Hk. rewrite (total_split f m k v Hk). enough (0 <= total f (delete k m)) by lia.
  apply total_nonneg. intros j c Hj. apply lookup_delete_Some in Hj as [_ Hj]. by apply Hpos.
Qed.
End totals.

(** * What a customer holds *)

Definition live (c : credit) : bool := negb (is_redeemed c) && negb (is_voided c).

(** The claims on an order are the proposals it had been credited for when it was cancelled:
    compensation the owner grants later is not the cancelled order's own. *)
Definition claimed (issuer : Z) (claims : list Z) (c : credit) : bool :=
  (issued_from_order_id c =? issuer) && (remedy_proposal_id c in? claims).

Definition held_weight (issuer : Z) (claims : list Z) (_ : Z) (c : credit) : Z :=
  if claimed issuer claims c && live c then amount_vnd c else 0.
Definition spent_weight (m : gmap Z credit) (issuer : Z) (claims : list Z) (id : Z) (c : credit) : Z :=
  if claimed issuer claims c && is_redeemed c && negb (is_reissued m id) then amount_vnd c else 0.

(** Face value the customer can still spend, and face value spent on bills that stand. *)
Definition held (m : gmap Z credit) (issuer : Z) (claims : list Z) : Z :=
  total (held_weight issuer claims) m.
Definition spent (m : gmap Z credit) (issuer : Z) (claims : list Z) : Z :=
  total (spent_weight m issuer claims) m.

(** * Histories *)

Inductive operation :=
| Issue (id proposal order_id amount policy : Z) (late_delivery : bool) (now : Z)
| Create (id store contact quote revision now : Z) (l : list reserved)
| Money (id : Z) (balance : OrderBalanceStatus.t) (paid : Z)
| Cancel (order_id : Z) (resolution : option CustodyResolution.t)
    (expected : option CancellationMoneyFigures) (now : Z) (mint : Z → Z).

Definition perform (d : db) (o : operation) : money_result db :=
  match o with
  | Issue id p x a v late now => issue_credit d id p x a v late now
  | Create id s c q r now l => create d id s c q r now l
  | Money id b p => record_money d id b p
  | Cancel x r e now mint => cancel d x r e now mint
  end.

(** The tables, with the claims of each order cancelled without charge noted beside them. *)
Record books := Books { tables : db; claims : gmap Z (list Z) }.

Definition claims_of (d : db) (issuer : Z) : list Z :=
  remedy_proposal_id ∘ snd <$> filter (λ kc, issued_from_order_id kc.2 = issuer) (map_to_list (credits d)).

Definition noted (d : db) (o : operation) (m : gmap Z (list Z)) : gmap Z (list Z) :=
  match o with
  | Cancel x r _ _ _ => if r is? Some CustodyResolution.UNCLAIMED_DISPOSED then m else <[x := claims_of d x]> m
  | _ => m
  end.

Definition run (b : books) (o : operation) : books :=
  match perform (tables b) o with
  | Ok d => Books d (noted d o (claims b))
  | Err _ => b
  end.

Definition opened : books := Books (Db ∅ ∅) ∅.
Definition history (l : list operation) : books := foldl run opened l.

(** The shop's clock does not run backwards from one transaction to the next. *)
Definition time_of (o : operation) : option Z :=
  match o with
  | Issue _ _ _ _ _ _ now | Create _ _ _ _ _ now _ | Cancel _ _ _ now _ => Some now
  | Money _ _ _ => None
  end.
Fixpoint clocked (t : Z) (l : list operation) : bool :=
  match l with
  | [] => true
  | o :: l' => match time_of o with
               | Some now => (t <=? now) && clocked now l'
               | None => clocked t l'
               end
  end.

(** * The accounts of a cancelled order *)

Definition netted_of (o : order) : Z :=
  match order_refunds o with Some r => netted_remedy_vnd r | None => 0 end.
Definition refundable_of (o : order) : Z :=
  match order_refunds o with Some r => refunded_amount_vnd r + netted_remedy_vnd r | None => 0 end.

(** Either every chain's face value was taken off the refund, or the refund was used up and
    the chains are frozen where they are. *)
Definition netted_in_full (m : gmap Z credit) (x : Z) (o : order) (P : list Z) : Prop :=
  netted_of o = held m x P + spent m x P ∧ netted_of o <= refundable_of o.
Definition frozen (d : db) (x : Z) (o : order) (P : list Z) : Prop :=
  held (credits d) x P = 0 ∧ netted_of o = refundable_of o ∧
  0 <= refundable_of o < spent (credits d) x P ∧ covered d x o = false.

(** One write on the credits keeps the accounts of the orders already cancelled. *)
Definition keeps (cl : gmap Z (list Z)) (d d' : db) : Prop :=
  ∀ x P o, cl !! x = Some P → orders d !! x = Some o →
    (netted_in_full (credits d) x o P → netted_in_full (credits d') x o P) ∧
    (frozen d x o P → frozen d' x o P).

Lemma keeps_refl cl d : keeps cl d d.
Proof. done. Qed.
Lemma keeps_trans cl d1 d2 d3 : orders d2 = orders d1 →
  keeps cl d1 d2 → keeps cl d2 d3 → keeps cl d1 d3.
Proof.
  intros Heq H1 H2 x P o Hx Ho. destruct (H1 x P o Hx Ho), (H2 x P o Hx); [congruence|]. tauto.
Qed.
Lemma full_not_frozen d x o P : netted_in_full (credits d) x o P → ¬ frozen d x o P.
Proof. intros [H1 H2] (H3 & H4 & H5 & _). lia. Qed.

(** What every credit table the shop can have satisfies. *)
Record wf (d : db) (t : Z) : Prop := {
  wf_amount : ∀ k c, credits d !! k = Some c → 0 < amount_vnd c;
  wf_reissue : ∀ k c j, credits d !! k = Some c → reissue_of c = Some j →
    ∃ c0, credits d !! j = Some c0 ∧ is_redeemed c0 = true;
  wf_excl : ∀ k c, credits d !! k = Some c → is_voided c = true → is_redeemed c = false;
  wf_time : ∀ k c s q, credits d !! k = Some c → redeemed c = Some (s, q) → s <= t;
  wf_issuer : ∀ k c, credits d !! k = Some c → is_Some (orders d !! issued_from_order_id c);
  wf_bill : ∀ k c s q, credits d !! k = Some c → redeemed c = Some (s, q) →
    ∃ y o, orders d !! y = Some o ∧ current_quote o = q ∧ y ≠ issued_from_order_id c;
  wf_quote : ∀ x y o o', orders d !! x = Some o → orders d !! y = Some o' →
    (current_quote o).1 = (current_quote o').1 → x = y;
  wf_original : ∀ k c, credits d !! k = Some c →
    ∃ j c0, credits d !! j = Some c0 ∧ remedy_proposal_id c0 = remedy_proposal_id c ∧ reissue_of c0 = None;
}.

(** * Membership tests over the table *)

Lemma existsb_map (P : Z * credit → bool) (m : gmap Z credit) :
  existsb P (map_to_list m) = true ↔ ∃ k c, m !! k = Some c ∧ P (k, c) = true.
Proof.
  rewrite existsb_exists. split.
  - intros ([k c] & Hin & HP). exists k, c. split; [|done].
    by apply elem_of_map_to_list, list_elem_of_In.
  - intros (k & c & Hk & HP). exists (k, c). split; [|done].
    by apply list_elem_of_In, elem_of_map_to_list.
Qed.

Lemma existsb_map_update (P : Z * credit → bool) m k v v' : m !! k = Some v → P (k, v') = P (k, v) →
  existsb P (map_to_list (<[k:=v']> m)) = existsb P (map_to_list m).
Proof.
  intros Hk HP. apply eq_true_iff_eq. rewrite !existsb_map. split; intros (j & c & Hj & Hc).
  - destruct (decide (j = k)) as [->|Hne].
    + rewrite lookup_insert_eq in Hj. injection Hj as <-. exists k, v. by rewrite <- HP.
    + rewrite lookup_insert_ne in Hj by done. by exists j, c.
  - destruct (decide (j = k)) as [->|Hne].
    + exists k, v'. rewrite lookup_insert_eq, HP. by rewrite Hk in Hj; injection Hj as ->.
    + exists j, c. by rewrite lookup_insert_ne.
Qed.

Lemma existsb_map_insert (P : Z * credit → bool) m k v : m !! k = None →
  existsb P (map_to_list (<[k:=v]> m)) = P (k, v) || existsb P (map_to_list m).
Proof.
  intros Hk. apply eq_true_iff_eq. rewrite orb_true_iff, !existsb_map. split.
  - intros (j & c & Hj & Hc). apply lookup_insert_Some in Hj as [[<- <-]|[_ Hj]]; [by left|right; by exists j, c].
  - intros [HP|(j & c & Hj & Hc)].
    + exists k, v. by rewrite lookup_insert_eq.
    + exists j, c. rewrite lookup_insert_ne; [done|congruence].
Qed.

Lemma is_reissued_true m id : is_reissued m id = true ↔ ∃ k c, m !! k = Some c ∧ reissue_of c = Some id.
Proof. unfold is_reissued. rewrite existsb_map. by setoid_rewrite bool_decide_eq_true. Qed.

(** An unredeemed credit has not been reissued. *)
Lemma unredeemed_not_reissued d t k c : wf d t → credits d !! k = Some c → is_redeemed c = false →
  is_reissued (credits d) k = false.
Proof.
  intros Hwf Hk Hr. apply not_true_iff_false. intros (j & c' & Hj & Hc')%is_reissued_true.
  destruct (wf_reissue d t Hwf j c' k Hj Hc') as (c0 & Hc0 & Hr0). congruence.
Qed.

(** * What one write does to the sums *)

(** A void or a spend keeps what the credit is; only its redemption and void change. *)
Definition same_credit (c c' : credit) : Prop :=
  issued_from_order_id c' = issued_from_order_id c ∧ remedy_proposal_id c' = remedy_proposal_id c ∧
  amount_vnd c' = amount_vnd c ∧ reissue_of c' = reissue_of c ∧ issued_at c' = issued_at c.

Lemma same_claimed c c' x P : same_credit c c' → claimed x P c' = claimed x P c.
Proof. intros (H1 & H2 & _). unfold claimed. by rewrite H1, H2. Qed.

Lemma update_reissued m k c c' id : m !! k = Some c → same_credit c c' →
  is_reissued (<[k:=c']> m) id = is_reissued m id.
Proof. intros Hk (_ & _ & _ & Hr & _). apply (existsb_map_update _ m k c c'); [done|]. cbn. by rewrite Hr. Qed.

Lemma update_counted m k c c' x at_ id v : m !! k = Some c → same_credit c c' →
  counted (<[k:=c']> m) x at_ id v = counted m x at_ id v.
Proof.
  intros Hk (_ & _ & _ & Hr & Hi). unfold counted. destruct (redeemed v) as [[s q]|]; [|done].
  rewrite (existsb_map_update _ m k c c' Hk); [done|]. cbn. by rewrite Hr, Hi.
Qed.

Section update.
Context (m : gmap Z credit) (k : Z) (c c' : credit) (Hk : m !! k = Some c) (Hsame : same_credit c c').

Lemma update_held x P : held (<[k:=c']> m) x P = held m x P - held_weight x P k c + held_weight x P k c'.
Proof. by apply total_change. Qed.

Lemma update_spent x P :
  spent (<[k:=c']> m) x P = spent m x P - spent_weight m x P k c + spent_weight m x P k c'.
Proof.
  unfold spent. rewrite (total_change (spent_weight m x P) _ m k c c' Hk).
  - f_equal. unfold spent_weight. by rewrite (update_reissued m k c c' k Hk Hsame).
  - intros j v _ _. unfold spent_weight. by rewrite (update_reissued m k c c' j Hk Hsame).
Qed.

Lemma update_total x at_ : total (counted (<[k:=c']> m) x at_) (<[k:=c']> m)
  = total (counted m x at_) m - counted m x at_ k c + counted m x at_ k c'.
Proof.
  rewrite (total_change (counted m x at_) _ m k c c' Hk).
  - f_equal. by apply update_counted with c.
  - intros j v _ _. by apply update_counted with c.
Qed.
End update.

Section insert.
Context (m : gmap Z credit) (k : Z) (c : credit) (Hk : m !! k = None) (Hlive : live c = true).

Lemma live_unredeemed : redeemed c = None.
Proof. unfold live, is_redeemed in Hlive. by destruct (redeemed c). Qed.

Lemma insert_held x P : held (<[k:=c]> m) x P = held m x P + held_weight x P k c.
Proof. unfold held. rewrite total_insert by done. lia. Qed.

Lemma insert_reissued id : is_reissued (<[k:=c]> m) id = bool_decide (reissue_of c = Some id) || is_reissued m id.
Proof. unfold is_reissued. by rewrite existsb_map_insert. Qed.

(** A fresh original: nothing is replaced. *)
Lemma insert_spent_original x P : reissue_of c = None → spent (<[k:=c]> m) x P = spent m x P.
Proof.
  intros Hr. unfold spent. rewrite total_insert by done. unfold spent_weight at 1, is_redeemed.
  rewrite live_unredeemed, andb_false_r. cbn. apply total_ext. intros j v _. unfold spent_weight.
  by rewrite insert_reissued, Hr.
Qed.

Lemma insert_total_original x at_ : reissue_of c = None →
  total (counted (<[k:=c]> m) x at_) (<[k:=c]> m) = total (counted m x at_) m.
Proof.
  intros Hr. rewrite total_insert by done. unfold counted at 1. rewrite live_unredeemed. cbn.
  apply total_ext. intros j v _. unfold counted. destruct (redeemed v) as [[s q]|]; [|done].
  rewrite existsb_map_insert by done. cbn. by rewrite Hr.
Qed.

(** A reissue: the chain of the credit it replaces goes on with it. *)
Lemma insert_spent_reissue j v x P : reissue_of c = Some j → m !! j = Some v → is_reissued m j = false →
  spent (<[k:=c]> m) x P = spent m x P - spent_weight m x P j v.
Proof.
  intros Hr Hj Hn. unfold spent. rewrite total_insert by done. unfold spent_weight at 1, is_redeemed.
  rewrite live_unredeemed, andb_false_r. cbn.
  rewrite (total_reweigh (spent_weight m x P) _ m j v Hj).
  - unfold spent_weight at 3. rewrite insert_reissued, Hr, bool_decide_true by done. cbn.
    rewrite andb_false_r. lia.
  - intros i w _ Hne. unfold spent_weight. rewrite insert_reissued, Hr, bool_decide_false; [done|congruence].
Qed.

Lemma insert_total_reissue j v x at_ : reissue_of c = Some j → m !! j = Some v →
  issued_from_order_id v ≠ x →
  total (counted (<[k:=c]> m) x at_) (<[k:=c]> m) = total (counted m x at_) m.
Proof.
  intros Hr Hj Hne. rewrite total_insert by done. unfold counted at 1. rewrite live_unredeemed. cbn.
  apply total_ext. intros i w Hi. unfold counted. destruct (redeemed w) as [[s q]|]; [|done].
  rewrite existsb_map_insert by done. cbn. rewrite Hr.
  destruct (decide (i = j)) as [->|Hij].
  - rewrite Hj in Hi. injection Hi as <-. by rewrite (proj2 (Z.eqb_neq _ _) Hne).
  - rewrite bool_decide_false by congruence. done.
Qed.
End insert.

(** * Each write keeps the accounts *)

Lemma covered_mono d d' x o : covered d x o = false →
  (∀ at_, total (counted (credits d) x at_) (credits d) <= total (counted (credits d') x at_) (credits d')) →
  covered d' x o = false.
Proof.
  unfold covered. destruct (order_refunds o) as [r|]; [|done]. intros H Hle.
  apply Z.leb_gt in H. apply Z.leb_gt. specialize (Hle (refunded_at r)). lia.
Qed.

Lemma counted_nonneg m x at_ k c : 0 < amount_vnd c → 0 <= counted m x at_ k c.
Proof. intros Ha. unfold counted. destruct (redeemed c) as [[s q]|]; [|lia]. destruct (_ && _); lia. Qed.

Lemma counted_other m x at_ k c : issued_from_order_id c ≠ x → counted m x at_ k c = 0.
Proof.
  intros Hne. unfold counted. rewrite (proj2 (Z.eqb_neq _ _) Hne). by destruct (redeemed c) as [[s q]|].
Qed.

Lemma counted_unredeemed m x at_ k c : redeemed c = None → counted m x at_ k c = 0.
Proof. intros H. unfold counted. by rewrite H. Qed.

Lemma unclaimed_weight (cl : gmap Z (list Z)) x P c : cl !! x = Some P → cl !! issued_from_order_id c = None →
  claimed x P c = false ∧ issued_from_order_id c ≠ x.
Proof.
  intros Hx Hn. assert (issued_from_order_id c ≠ x) as Hne by congruence.
  split; [|done]. unfold claimed. by rewrite (proj2 (Z.eqb_neq _ _) Hne).
Qed.

Lemma keeps_void cl d k c v : credits d !! k = Some c → cl !! issued_from_order_id c = None →
  keeps cl d (set_credit d k (with_void c v)).
Proof.
  intros Hk Hn x P o Hx _. destruct (unclaimed_weight cl x P c Hx Hn) as [Hc Hne].
  assert (same_credit c (with_void c v)) as Hs by done.
  assert (held (credits (set_credit d k (with_void c v))) x P = held (credits d) x P) as Hh.
  { cbn. rewrite (update_held _ k c _ Hk). unfold held_weight.
    rewrite (same_claimed c _ x P Hs), Hc. cbn. lia. }
  assert (spent (credits (set_credit d k (with_void c v))) x P = spent (credits d) x P) as Hsp.
  { cbn. rewrite (update_spent _ k c _ Hk Hs). unfold spent_weight.
    rewrite (same_claimed c _ x P Hs), Hc. cbn. lia. }
  unfold netted_in_full, frozen. rewrite Hh, Hsp. split; [done|].
  intros (H1 & H2 & H3 & H4). do 3 (split; [done|]). apply (covered_mono d); [done|]. intros at_. cbn.
  rewrite (update_total _ k c _ Hk Hs), !(counted_other _ _ _ k) by done. lia.
Qed.

Lemma keeps_spend cl d t k c r : wf d t → credits d !! k = Some c → live c = true →
  keeps cl d (set_credit d k (with_redeemed c r)).
Proof.
  intros Hwf Hk Hl x P o Hx _. pose proof (live_unredeemed c Hl) as Hr.
  assert (same_credit c (with_redeemed c r)) as Hs by done.
  assert (is_redeemed c = false) as Hrb by (unfold is_redeemed; by rewrite Hr).
  pose proof (unredeemed_not_reissued d t k c Hwf Hk Hrb) as Hn.
  set (a := if claimed x P c then amount_vnd c else 0).
  assert (held_weight x P k c = a) as Hw by (unfold held_weight; rewrite Hl, andb_true_r; done).
  assert (held (credits (set_credit d k (with_redeemed c r))) x P = held (credits d) x P - a) as Hh.
  { cbn. rewrite (update_held _ k c _ Hk), Hw. unfold held_weight, live. cbn. rewrite andb_false_r. lia. }
  assert (spent (credits (set_credit d k (with_redeemed c r))) x P = spent (credits d) x P + a) as Hsp.
  { cbn. rewrite (update_spent _ k c _ Hk Hs). unfold spent_weight. rewrite Hrb, Hn, (same_claimed c _ x P Hs).
    cbn. rewrite andb_false_r, !andb_true_r. fold a. cbn. lia. }
  assert (0 <= a) as Ha by (unfold a; pose proof (wf_amount d t Hwf k c Hk); destruct (claimed x P c); lia).
  assert (a <= held (credits d) x P) as Hle.
  { rewrite <- Hw. apply total_member; [|done]. intros j w Hj. unfold held_weight.
    pose proof (wf_amount d t Hwf j w Hj). destruct (_ && _); lia. }
  unfold netted_in_full, frozen. rewrite Hh, Hsp. split; [lia|].
  intros (H1 & H2 & H3 & H4). do 3 (split; [lia|]). apply (covered_mono d); [done|]. intros at_. cbn.
  rewrite (update_total _ k c _ Hk Hs), (counted_unredeemed _ _ _ k c Hr).
  pose proof (counted_nonneg (credits d) x at_ k (with_redeemed c r) (wf_amount d t Hwf k c Hk)). lia.
Qed.

Lemma keeps_issue cl d k c : credits d !! k = None → live c = true → reissue_of c = None →
  (∀ x P, cl !! x = Some P → remedy_proposal_id c ∉ P) → keeps cl d (set_credit d k c).
Proof.
  intros Hk Hl Hr Hfresh x P o Hx _. unfold netted_in_full, frozen. cbn.
  rewrite insert_held, insert_spent_original by done. unfold held_weight, claimed.
  rewrite (bool_decide_false (remedy_proposal_id c ∈ P)) by by apply (Hfresh x P).
  rewrite andb_false_r, Z.add_0_r. split; [done|].
  intros (H1 & H2 & H3 & H4). do 3 (split; [done|]). apply (covered_mono d); [done|]. intros at_. cbn.
  by rewrite insert_total_original.
Qed.

(** A reissue, for an issuer whose refund took the whole chain off. *)
Lemma keeps_reissue cl d k c j v : credits d !! k = None → live c = true → reissue_of c = Some j →
  credits d !! j = Some v → is_redeemed v = true → is_reissued (credits d) j = false →
  issued_from_order_id c = issued_from_order_id v → remedy_proposal_id c = remedy_proposal_id v →
  amount_vnd c = amount_vnd v →
  (∀ P o, cl !! issued_from_order_id v = Some P → orders d !! issued_from_order_id v = Some o →
     ¬ frozen d (issued_from_order_id v) o P) →
  keeps cl d (set_credit d k c).
Proof.
  intros Hk Hl Hr Hj Hv Hn Hi Hp Ha Hok x P o Hx Ho.
  assert (claimed x P c = claimed x P v) as Hc by (unfold claimed; by rewrite Hi, Hp).
  unfold netted_in_full. cbn. rewrite insert_held, (insert_spent_reissue _ k c Hk Hl j v) by done.
  unfold held_weight, spent_weight. rewrite Hl, Hc, Ha, Hv, Hn, !andb_true_r. cbn. split; [lia|].
  destruct (decide (issued_from_order_id v = x)) as [<-|Hne]; [intros Hf; by destruct (Hok P o Hx Ho)|].
  intros (H1 & H2 & H3 & H4).
  assert (claimed x P v = false) as Hcv by (unfold claimed; by rewrite (proj2 (Z.eqb_neq _ _) Hne)).
  unfold frozen. cbn. rewrite insert_held, (insert_spent_reissue _ k c Hk Hl j v) by done.
  unfold held_weight, spent_weight. rewrite Hl, Hc, Hv, Hn, Hcv. cbn. rewrite Z.add_0_r, Z.sub_0_r.
  do 3 (split; [done|]). apply (covered_mono d); [done|]. intros at_. cbn.
  by rewrite (insert_total_reissue _ k c Hk Hl j v).
Qed.

(** * Well-formedness *)

Lemma wf_later d t t' : wf d t → t <= t' → wf d t'.
Proof. intros [] Ht. split; eauto. intros k c s q Hk Hr. etrans; eauto. Qed.

Lemma wf_update d t k c c' : wf d t → credits d !! k = Some c → same_credit c c' →
  (is_redeemed c = true → is_redeemed c' = true) →
  (is_voided c' = true → is_redeemed c' = false) →
  (∀ s q, redeemed c' = Some (s, q) → s <= t ∧
     ∃ y o, orders d !! y = Some o ∧ current_quote o = q ∧ y ≠ issued_from_order_id c) →
  wf (set_credit d k c') t.
Proof.
  intros Hwf Hk (Hi & Hp & Ha & Hre & _) Hred Hexcl Hnew.
  assert (∀ j w, <[k:=c']> (credits d) !! j = Some w → (j = k ∧ w = c') ∨ (j ≠ k ∧ credits d !! j = Some w))
    as Hcase.
  { intros j w [[<- <-]|[? ?]]%lookup_insert_Some; [by left|right; by split; [congruence|]]. }
  assert (∀ j w, credits d !! j = Some w → ∃ w', <[k:=c']> (credits d) !! j = Some w' ∧
            remedy_proposal_id w' = remedy_proposal_id w ∧ reissue_of w' = reissue_of w ∧
            (is_redeemed w = true → is_redeemed w' = true)) as Hold.
  { intros j w Hj. destruct (decide (j = k)) as [->|Hne].
    - exists c'. rewrite lookup_insert_eq. rewrite Hk in Hj. injection Hj as <-. by split_and!.
    - exists w. by rewrite lookup_insert_ne. }
  split; cbn.
  - intros j w [[-> ->]|[_ Hj]]%Hcase; [rewrite Ha|]; by eapply wf_amount.
  - intros j w i Hw Hri. assert (∃ v, credits d !! j = Some v ∧ reissue_of v = Some i) as (v & Hv & Hvi).
    { apply Hcase in Hw as [[-> ->]|[_ Hj]]; [exists c; by rewrite <- Hre|by exists w]. }
    destruct (wf_reissue d t Hwf j v i Hv Hvi) as (c0 & Hc0 & Hr0).
    destruct (Hold i c0 Hc0) as (w' & Hw' & _ & _ & Hrw). exists w'. by split; [|apply Hrw].
  - intros j w [[-> ->]|[_ Hj]]%Hcase; [done|by eapply wf_excl].
  - intros j w s q [[-> ->]|[_ Hj]]%Hcase Hr; [by apply (Hnew s q)|by eapply wf_time].
  - intros j w [[-> ->]|[_ Hj]]%Hcase; [rewrite Hi|]; by eapply wf_issuer.
  - intros j w s q [[-> ->]|[_ Hj]]%Hcase Hr; [rewrite Hi; by apply (Hnew s q)|by eapply wf_bill].
  - by apply (wf_quote d t).
  - intros j w Hw. assert (∃ i v, credits d !! i = Some v ∧ remedy_proposal_id v = remedy_proposal_id w) as (i & v & Hv & Hpv).
    { apply Hcase in Hw as [[-> ->]|[_ Hj]]; [exists k, c|exists j, w]; done. }
    destruct (wf_original d t Hwf i v Hv) as (i0 & c0 & Hc0 & Hp0 & Hr0).
    destruct (Hold i0 c0 Hc0) as (w' & Hw' & Hpw & Hrw & _). exists i0, w'. split_and!; [done|congruence|congruence].
Qed.

Lemma wf_insert d t k c : wf d t → credits d !! k = None → live c = true → 0 < amount_vnd c →
  is_Some (orders d !! issued_from_order_id c) →
  match reissue_of c with
  | Some j => ∃ v, credits d !! j = Some v ∧ is_redeemed v = true ∧ remedy_proposal_id v = remedy_proposal_id c
  | None => True
  end → wf (set_credit d k c) t.
Proof.
  intros Hwf Hk Hl Ha Hi Hre. pose proof (live_unredeemed c Hl) as Hr.
  assert (∀ j w, credits d !! j = Some w → <[k:=c]> (credits d) !! j = Some w) as Hold.
  { intros j w Hj. rewrite lookup_insert_ne; [done|congruence]. }
  assert (∀ j w, <[k:=c]> (credits d) !! j = Some w → (j = k ∧ w = c) ∨ credits d !! j = Some w) as Hcase.
  { intros j w [[<- <-]|[_ ?]]%lookup_insert_Some; [by left|by right]. }
  split; cbn.
  - intros j w [[-> ->]|Hj]%Hcase; [done|by eapply wf_amount].
  - intros j w i [[-> ->]|Hj]%Hcase Hri.
    + rewrite Hri in Hre. destruct Hre as (v & Hv & Hrv & _). exists v. by split; [apply Hold|].
    + destruct (wf_reissue d t Hwf j w i Hj Hri) as (v & Hv & Hrv). exists v. by split; [apply Hold|].
  - intros j w [[-> ->]|Hj]%Hcase Hv; [unfold is_redeemed; by rewrite Hr|by eapply wf_excl].
  - intros j w s q [[-> ->]|Hj]%Hcase Hs; [congruence|by eapply wf_time].
  - intros j w [[-> ->]|Hj]%Hcase; [done|by eapply wf_issuer].
  - intros j w s q [[-> ->]|Hj]%Hcase Hs; [congruence|by eapply wf_bill].
  - by apply (wf_quote d t).
  - intros j w [[-> ->]|Hj]%Hcase.
    + destruct (reissue_of c) as [i|] eqn:Hri; [|by exists k, c; rewrite lookup_insert_eq].
      destruct Hre as (v & Hv & _ & Hp). destruct (wf_original d t Hwf i v Hv) as (i0 & c0 & Hc0 & Hp0 & Hr0).
      exists i0, c0. split_and!; [by apply Hold|congruence|done].
    + destruct (wf_original d t Hwf j w Hj) as (i0 & c0 & Hc0 & ?). exists i0, c0. by split; [apply Hold|].
Qed.

(** Writing an order: a new one on a quote of its own, or the same one on the same quote. *)
Lemma wf_order d t x o : wf d t →
  (∀ y o', y ≠ x → orders d !! y = Some o' → (current_quote o').1 ≠ (current_quote o).1) →
  (∀ o0, orders d !! x = Some o0 → current_quote o0 = current_quote o) →
  wf (set_order d x o) t.
Proof.
  intros Hwf Hfresh Hsame.
  assert (∀ y o', orders d !! y = Some o' → ∃ o1, <[x:=o]> (orders d) !! y = Some o1 ∧ current_quote o1 = current_quote o') as Hold.
  { intros y o' Hy. destruct (decide (y = x)) as [->|Hne].
    - exists o. rewrite lookup_insert_eq. by split; [|rewrite (Hsame o' Hy)].
    - exists o'. by rewrite lookup_insert_ne. }
  split; cbn; try by (eapply wf_amount || eapply wf_reissue || eapply wf_excl || eapply wf_time || eapply wf_original).
  - intros k c Hk. destruct (wf_issuer d t Hwf k c Hk) as [o' Ho']. destruct (Hold _ _ Ho') as (o1 & Ho1 & _). by exists o1.
  - intros k c s q Hk Hr. destruct (wf_bill d t Hwf k c s q Hk Hr) as (y & o' & Hy & Hq & Hne).
    destruct (Hold _ _ Hy) as (o1 & Ho1 & Hq1). exists y, o1. split_and!; [done|congruence|done].
  - intros y z o1 o2 Hy Hz Heq.
    apply lookup_insert_Some in Hy as [[<- <-]|[Hxy Hy]], Hz as [[<- <-]|[Hxz Hz]]; try done.
    + by destruct (Hfresh z o2 (not_eq_sym Hxz) Hz).
    + by destruct (Hfresh y o1 (not_eq_sym Hxy) Hy).
    + by apply (wf_quote d t Hwf y z o1 o2).
Qed.

(** * The operations *)

Definition persists (d d' : db) : Prop :=
  ∀ k c, credits d !! k = Some c → ∃ c', credits d' !! k = Some c' ∧ same_credit c c'.

(** What writes on the credits alone establish. *)
Record credit_step (cl : gmap Z (list Z)) (t : Z) (d d' : db) : Prop := {
  step_wf : wf d' t;
  step_keeps : keeps cl d d';
  step_orders : orders d' = orders d;
  step_persists : persists d d';
}.

Lemma persists_trans d1 d2 d3 : persists d1 d2 → persists d2 d3 → persists d1 d3.
Proof.
  intros H1 H2 k c Hk. destruct (H1 k c Hk) as (c1 & Hk1 & Hs1). destruct (H2 k c1 Hk1) as (c2 & Hk2 & Hs2).
  exists c2. split; [done|]. unfold same_credit in *. intuition congruence.
Qed.

Lemma persists_insert d k c : credits d !! k = None → persists d (set_credit d k c).
Proof. intros Hk j v Hj. exists v. split; [|done]. cbn. rewrite lookup_insert_ne; [done|congruence]. Qed.

Lemma persists_update d k c c' : credits d !! k = Some c → same_credit c c' → persists d (set_credit d k c').
Proof.
  intros Hk Hs j v Hj. cbn. destruct (decide (j = k)) as [->|Hne].
  - exists c'. rewrite lookup_insert_eq. rewrite Hk in Hj. by injection Hj as <-.
  - exists v. by rewrite lookup_insert_ne.
Qed.

Lemma credit_step_refl cl t d : wf d t → credit_step cl t d d.
Proof. intros Hwf. split; [done|apply keeps_refl|done|]. intros k c Hk. by exists c. Qed.

Lemma credit_step_trans cl t d1 d2 d3 :
  credit_step cl t d1 d2 → credit_step cl t d2 d3 → credit_step cl t d1 d3.
Proof.
  intros [W1 K1 O1 P1] [W2 K2 O2 P2]. split; [done|by eapply (keeps_trans _ d1 d2)|congruence|by eapply persists_trans].
Qed.

Lemma spend_step cl t store now bill d r d' : wf d t → now <= t → spend_credit store now bill d r = Ok d' →
  (∀ k c, credits d !! k = Some c →
     ∃ y o, orders d !! y = Some o ∧ current_quote o = bill ∧ y ≠ issued_from_order_id c) →
  credit_step cl t d d' ∧
  (∀ k c', credits d' !! k = Some c' → ∃ c, credits d !! k = Some c ∧ same_credit c c').
Proof.
  intros Hwf Ht H Hbill. unfold spend_credit in H. destruct r as [[id amount] policy]. result_inv.
  match goal with Hk : credits d !! id = Some ?c |- _ => rename c into c0; rename Hk into Hk0 end.
  assert (live c0 = true) as Hl by (unfold live; by repeat match goal with Hb : _ = false |- _ => rewrite Hb end).
  assert (same_credit c0 (with_redeemed c0 (now, bill))) as Hs by done.
  split; [split|].
  - apply (wf_update d t id c0 _ Hwf Hk0 Hs); [done|unfold is_voided in *; cbn; congruence|].
    intros s q [= <- <-]. split; [done|]. by apply (Hbill id).
  - by eapply keeps_spend.
  - done.
  - by eapply persists_update.
  - intros k c' Hk. cbn in Hk. apply lookup_insert_Some in Hk as [[<- <-]|[_ Hk]]; [by exists c0|by exists c'].
Qed.

Lemma spend_all_step cl t store now bill l d d' : wf d t → now <= t →
  fold_result (spend_credit store now bill) d l = Ok d' →
  (∀ k c, credits d !! k = Some c →
     ∃ y o, orders d !! y = Some o ∧ current_quote o = bill ∧ y ≠ issued_from_order_id c) →
  credit_step cl t d d'.
Proof.
  intros Hwf Ht. revert d Hwf. induction l as [|r l IH]; intros d Hwf H Hbill; cbn in H.
  - injection H as <-. by apply credit_step_refl.
  - apply bind_Ok in H as (d1 & Hr & H).
    destruct (spend_step cl t store now bill d r d1 Hwf Ht Hr Hbill) as [Hst Hback].
    apply (credit_step_trans _ _ _ d1); [done|]. apply IH; [apply Hst|done|].
    intros k c Hk. destruct (Hback k c Hk) as (c0 & Hk0 & Hi & _). rewrite Hi, (step_orders _ _ _ _ Hst).
    by apply (Hbill k).
Qed.

Lemma void_step cl t x now d f d' : wf d t → cl !! x = None → void_credit x now d f = Ok d' →
  credit_step cl t d d'.
Proof.
  intros Hwf Hx H. unfold void_credit in H. result_inv. guards.
  match goal with Hk : credits d !! credit_id f = Some ?c |- _ => rename c into c0; rename Hk into Hk0 end.
  split.
  - apply (wf_update d t _ c0 _ Hwf Hk0); [done|done|done|]. intros s q Hr. cbn in Hr.
    split; [by eapply wf_time|by eapply wf_bill].
  - apply keeps_void with (c := c0); [done|congruence].
  - done.
  - by eapply persists_update.
Qed.

Lemma reissue_step cl t x now o mint d f d' : wf d t → reissue_credit x now o mint d f = Ok d' →
  (∀ c P o, credits d !! credit_id f = Some c → cl !! issued_from_order_id c = Some P →
     orders d !! issued_from_order_id c = Some o →
     netted_in_full (credits d) (issued_from_order_id c) o P) →
  credit_step cl t d d'.
Proof.
  intros Hwf H Hok. unfold reissue_credit in H. result_inv. guards.
  match goal with Hk : credits d !! credit_id f = Some ?c |- _ => rename c into c0; rename Hk into Hk0 end.
  match goal with Hn : ¬ is_Some _ |- _ => apply eq_None_not_Some in Hn; rename Hn into Hfree end.
  assert (is_redeemed c0 = true) as Hr.
  { unfold is_redeemed. destruct (redeemed c0); [done|]. cbn in *. done. }
  split.
  - apply wf_insert; try done; cbn; [by eapply wf_amount|by eapply wf_issuer|]. by exists c0.
  - apply (keeps_reissue cl d _ _ (credit_id f) c0); try done.
    intros P o' HP Ho. by apply full_not_frozen, Hok.
  - done.
  - by apply persists_insert.
Qed.

Lemma void_all_step cl t x now l d d' : wf d t → cl !! x = None →
  fold_result (void_credit x now) d l = Ok d' → credit_step cl t d d'.
Proof.
  intros Hwf Hx. revert d Hwf. induction l as [|f l IH]; intros d Hwf H; cbn in H.
  - injection H as <-. by apply credit_step_refl.
  - apply bind_Ok in H as (d1 & Hf & H). pose proof (void_step cl t x now d f d1 Hwf Hx Hf) as Hst.
    apply (credit_step_trans _ _ _ d1); [done|]. apply IH; [apply Hst|done].
Qed.

Lemma reissue_all_step cl t x now o mint l d d' : wf d t →
  fold_result (reissue_credit x now o mint) d l = Ok d' →
  (∀ f, f ∈ l → ∃ c, credits d !! credit_id f = Some c ∧
     ∀ P o, cl !! issued_from_order_id c = Some P → orders d !! issued_from_order_id c = Some o →
       netted_in_full (credits d) (issued_from_order_id c) o P) →
  credit_step cl t d d'.
Proof.
  intros Hwf. revert d Hwf. induction l as [|f l IH]; intros d Hwf H Hok; cbn in H.
  - injection H as <-. by apply credit_step_refl.
  - apply bind_Ok in H as (d1 & Hf & H).
    assert (credit_step cl t d d1) as Hst.
    { eapply reissue_step; [done|exact Hf|]. destruct (Hok f) as (c0 & Hc0 & Hn); [left|].
      intros c P o' Hc. rewrite Hc0 in Hc. injection Hc as <-. by apply Hn. }
    apply (credit_step_trans _ _ _ d1); [done|]. apply IH; [apply Hst|done|].
    intros g Hg. destruct (Hok g) as (c & Hc & Hn); [by right|].
    destruct (step_persists _ _ _ _ Hst _ c Hc) as (c' & Hc' & Hi & _). exists c'. split; [done|].
    rewrite Hi, (step_orders _ _ _ _ Hst). intros P o' HP Ho. by apply (step_keeps _ _ _ _ Hst), Hn.
Qed.

(** * One cancellation *)

(** Voiding changes no sum of spent credits, and leaves none of the voided ones live. *)
Lemma void_effect x now d f d' : void_credit x now d f = Ok d' →
  ∃ c, credits d !! credit_id f = Some c ∧ live c = true ∧
       d' = set_credit d (credit_id f) (with_void c (now, x)).
Proof. unfold void_credit. intros H. result_inv. guards. eexists. split; [done|]. split; [|done].
  unfold live. by repeat match goal with Hb : _ = false |- _ => rewrite Hb end. Qed.

Lemma void_all_spent x now l d d' y P : fold_result (void_credit x now) d l = Ok d' →
  spent (credits d') y P = spent (credits d) y P.
Proof.
  revert d. induction l as [|f l IH]; intros d H; cbn in H; [by injection H as <-|].
  apply bind_Ok in H as (d1 & Hf & H). rewrite (IH d1 H).
  apply void_effect in Hf as (c & Hk & Hl & ->). cbn. rewrite (update_spent _ _ c) by done.
  unfold spent_weight, is_redeemed. cbn. rewrite (live_unredeemed c Hl). rewrite !andb_false_r. cbn. lia.
Qed.

Lemma void_all_dead x now l d d' : fold_result (void_credit x now) d l = Ok d' →
  ∀ k c', credits d' !! k = Some c' → ∃ c, credits d !! k = Some c ∧ same_credit c c' ∧
    redeemed c' = redeemed c ∧ (live c' = true → live c = true ∧ ∀ f, f ∈ l → credit_id f ≠ k).
Proof.
  revert d. induction l as [|f l IH]; intros d H k c' Hk; cbn in H.
  - injection H as <-. exists c'. split_and!; try done. intros Hl. split; [done|]. intros f. by rewrite elem_of_nil.
  - apply bind_Ok in H as (d1 & Hf & H). destruct (IH d1 H k c' Hk) as (c1 & Hk1 & Hs1 & Hr1 & Hl1).
    apply void_effect in Hf as (c & Hkf & Hlf & ->). cbn in Hk1.
    apply lookup_insert_Some in Hk1 as [[Hkk <-]|[Hne Hk1]].
    + exists c. rewrite <- Hkk. split_and!; [done|done|done|]. intros Hl. apply Hl1 in Hl as [Hl _].
      unfold live, is_voided in Hl. cbn in Hl. by rewrite andb_false_r in Hl.
    + exists c1. split_and!; [done..|]. intros Hl. apply Hl1 in Hl as [Hl Hall]. split; [done|].
      intros g [->|Hg]%elem_of_cons; [done|by apply Hall].
Qed.

(** Reissuing credits of other issuers leaves this one's credits alone. *)
Lemma reissue_all_other x now o mint l d d' y : (∀ f, f ∈ l → ∃ c, credits d !! credit_id f = Some c ∧
    is_redeemed c = true ∧ issued_from_order_id c ≠ y) →
  fold_result (reissue_credit x now o mint) d l = Ok d' →
  (∀ P, spent (credits d') y P = spent (credits d) y P) ∧
  (∀ k c, credits d' !! k = Some c → issued_from_order_id c = y → credits d !! k = Some c) ∧
  persists d d'.
Proof.
  revert d. induction l as [|f l IH]; intros d Hok H; cbn in H.
  - injection H as <-. split_and!; [done|done|]. intros k c Hk. by exists c.
  - apply bind_Ok in H as (d1 & Hf & H). destruct (Hok f) as (c0 & Hc0 & Hr0 & Hy); [left|].
    unfold reissue_credit in Hf. rewrite Hc0 in Hf. cbn in Hf. apply raise_bind_Ok in Hf as [Hg Hf]. guards.
    injection Hf as Hf.
    match goal with Hn : ¬ is_Some _ |- _ => apply eq_None_not_Some in Hn; rename Hn into Hfree end.
    destruct (IH d1) as (HS & HC & HP); [|done|].
    { intros g Hin. destruct (Hok g) as (c & Hc & Hr & Hne); [by right|]. exists c.
      split_and!; [|done|done]. rewrite <- Hf. cbn. rewrite lookup_insert_ne; [done|congruence]. }
    split_and!.
    + intros P. rewrite HS, <- Hf. cbn. rewrite insert_spent_reissue with (j := credit_id f) (v := c0) by done.
      unfold spent_weight, claimed. rewrite (proj2 (Z.eqb_neq _ _) Hy). cbn. lia.
    + intros k c Hk Hi. specialize (HC k c Hk Hi). rewrite <- Hf in HC. cbn in HC.
      by apply lookup_insert_Some in HC as [[_ <-]|[_ HC]].
    + apply (persists_trans _ d1); [|done]. rewrite <- Hf. by apply persists_insert.
Qed.

(** What the plan nets is the face value of the chains spent elsewhere. *)
Lemma sumZ_filter {A} (P : A → Prop) `{∀ x, Decision (P x)} (g : A → Z) l :
  sumZ (g <$> filter P l) = sumZ ((λ x, if decide (P x) then g x else 0) <$> l).
Proof.
  induction l as [|x l IH]; [done|]. rewrite filter_cons, (fmap_cons _ x l), sumZ_cons, <- IH.
  destruct (decide (P x)); [by rewrite fmap_cons, sumZ_cons|done].
Qed.

Lemma face_spent (g : credit → bool) l :
  face (filter (λ c, state c = CreditState.SPENT) (_locked g <$> l))
  = sumZ ((λ kc, if is_redeemed kc.2 && negb (is_voided kc.2) then amount_vnd kc.2 else 0) <$> l).
Proof.
  unfold face. rewrite sumZ_filter, <- list_fmap_compose. apply sumZ_map_ext, Forall_forall.
  intros [k c] _. unfold _locked. cbn. destruct (is_voided c), (is_redeemed c); cbn; done.
Qed.

Lemma face_netted d t x P : wf d t →
  (∀ k c, credits d !! k = Some c → issued_from_order_id c = x → remedy_proposal_id c ∈ P) →
  face (filter (λ c, state c = CreditState.SPENT) (_locked (λ _, false) <$> _ISSUED_SQL d x))
  = spent (credits d) x P.
Proof.
  intros Hwf HP. rewrite face_spent. unfold _ISSUED_SQL. erewrite sumZ_perm; [|apply fmap_Permutation, stable_sort_perm].
  rewrite sumZ_filter. unfold spent, total. apply sumZ_map_ext, Forall_forall. intros [k c] Hin.
  apply elem_of_map_to_list in Hin. cbn. unfold spent_weight, claimed.
  destruct (decide (issued_from_order_id c = x)) as [Hi|Hi].
  - rewrite (proj2 (Z.eqb_eq _ _) Hi), (bool_decide_true _ (HP k c Hin Hi)). cbn.
    destruct (is_voided c) eqn:Hv.
    + rewrite (wf_excl d t Hwf k c Hin Hv). cbn. by case_decide.
    + destruct (is_reissued (credits d) k) eqn:Hre; cbn.
      * rewrite decide_False by (intros [_ ?]; done). by rewrite andb_false_r.
      * rewrite decide_True by done. by rewrite !andb_true_r.
  - rewrite decide_False by (intros [? _]; done). by rewrite (proj2 (Z.eqb_neq _ _) Hi).
Qed.

(** Every live credit of the order is in the plan's voids. *)
Lemma live_is_voided d t x k c : wf d t → credits d !! k = Some c → live c = true →
  issued_from_order_id c = x →
  ∃ f, f ∈ filter (λ f, state f = CreditState.UNSPENT) (_locked (λ _, false) <$> _ISSUED_SQL d x)
       ∧ credit_id f = k.
Proof.
  intros Hwf Hk Hl Hi. exists (_locked (λ _, false) (k, c)). split; [|done].
  unfold live in Hl. apply andb_true_iff in Hl as [Hr Hv]. guards.
  apply list_elem_of_filter. split; [unfold _locked; cbn; by rewrite Hr, Hv|].
  apply list_elem_of_fmap. exists (k, c). split; [done|]. unfold _ISSUED_SQL. rewrite stable_sort_perm.
  apply list_elem_of_filter. split; [|by apply elem_of_map_to_list]. split; [done|].
  by eapply unredeemed_not_reissued.
Qed.

(** A credit the plan reissues was spent on this order's bill, and its issuer is covered. *)
Lemma reissue_is_spent d o f : f ∈ filter (λ f, state f = CreditState.SPENT)
    (_locked (λ c, uncovered d (issued_from_order_id c)) <$> _SPENT_SQL d o) →
  ∃ c, credits d !! credit_id f = Some c ∧ is_redeemed c = true ∧ snd <$> redeemed c = Some (current_quote o) ∧
    issuer_uncovered f = uncovered d (issued_from_order_id c).
Proof.
  intros [Hst Hin]%list_elem_of_filter. apply list_elem_of_fmap in Hin as ([k c] & -> & Hin).
  unfold _SPENT_SQL in Hin. rewrite stable_sort_perm in Hin.
  apply list_elem_of_filter in Hin as [[Hq _] Hin]. apply elem_of_map_to_list in Hin. cbn in Hq.
  exists c. split_and!; [done| |done|done]. unfold is_redeemed. by destruct (redeemed c).
Qed.

(** A cancellation, unpacked. *)
Lemma cancel_Ok d x res e now mint d' : cancel d x res e now mint = Ok d' →
  ∃ o source plan balance', orders d !! x = Some o ∧ cancelled o = false ∧
    (∀ a, source = Some a → a = paid_vnd o) ∧
    plan_cancellation_money d x o res (default 0 source) = Ok plan ∧ refusal plan = None ∧
    let o' := Order (store_id o) (bound_contact_id o) (current_quote o) balance' (paid_vnd o) true
                (bool_decide (res = Some CustodyResolution.UNCLAIMED_DISPOSED))
                (match source with
                 | Some amount => Some (OrderRefund (amount - netted_vnd plan) (netted_vnd plan) now)
                 | None => None end) in
    write_cancellation_credit_moves x now o mint plan (set_order d x o') = Ok d'.
Proof.
  unfold cancel. intros H. apply bind_Ok in H as (o & Ho & H). apply require_some_Ok in Ho.
  apply raise_bind_Ok in H as [Hc H]. apply bind_Ok in H as (b' & _ & H).
  apply bind_Ok in H as (source & Hsrc & H). apply bind_Ok in H as (plan & Hp & H).
  apply bind_Ok in H as ([] & Hr & H). exists o, source, plan, b'. split_and!; try done.
  - intros a ->. destruct (_ && _) in Hsrc; [|done]. unfold _refund_source in Hsrc. by result_inv.
  - unfold require_allowed in Hr. by destruct (refusal plan).
Qed.

Lemma plan_Ok d x o res r plan : plan_cancellation_money d x o res r = Ok plan → refusal plan = None →
  0 <= r ∧
  ((res = Some CustodyResolution.UNCLAIMED_DISPOSED ∧ voided plan = [] ∧ reissued plan = []) ∨
  (res ≠ Some CustodyResolution.UNCLAIMED_DISPOSED ∧
   voided plan = filter (λ f, state f = CreditState.UNSPENT) (_locked (λ _, false) <$> _ISSUED_SQL d x) ∧
   netted_vnd plan = Z.min r (face (filter (λ f, state f = CreditState.SPENT)
                                      (_locked (λ _, false) <$> _ISSUED_SQL d x))) ∧
   reissued plan = filter (λ f, state f = CreditState.SPENT)
     (_locked (λ c, uncovered d (issued_from_order_id c)) <$> _SPENT_SQL d o) ∧
   Forall (λ f, issuer_uncovered f = false) (reissued plan))).
Proof.
  unfold plan_cancellation_money, cancellation_money_plan. intros H Href.
  apply raise_bind_Ok in H as [Hr H]. apply raise_bind_Ok in H as [_ H].
  split; [unfold figure_ok in Hr; by guards|].
  case_bool_decide as Hres; injection H as <-; [by left|right]. cbn in *. split_and!; try done.
  destruct (existsb _ _) eqn:He in Href; [done|]. apply Forall_forall. intros f Hf.
  apply not_true_iff_false. intros Hu. apply not_true_iff_false in He. apply He, existsb_exists.
  exists f. split; [by apply list_elem_of_In|done].
Qed.

(** The books: the tables well-formed, and the accounts of every order cancelled without
    charge in one of their two states. *)
Record good (b : books) (t : Z) : Prop := {
  good_wf : wf (tables b) t;
  good_open : ∀ x o, orders (tables b) !! x = Some o → cancelled o = false →
    claims b !! x = None ∧ disposed o = false ∧ order_refunds o = None;
  good_closed : ∀ x o, orders (tables b) !! x = Some o → cancelled o = true → disposed o = false →
    is_Some (claims b !! x);
  good_accounts : ∀ x P, claims b !! x = Some P → ∃ o, orders (tables b) !! x = Some o ∧
    cancelled o = true ∧ disposed o = false ∧
    (is_Some (order_refunds o) → refundable_of o = paid_vnd o) ∧
    (netted_in_full (credits (tables b)) x o P ∨ frozen (tables b) x o P);
  good_claims : ∀ x P p, claims b !! x = Some P → p ∈ P →
    ∃ k c, credits (tables b) !! k = Some c ∧ remedy_proposal_id c = p;
}.

Lemma good_covered b t x o P : good b t → orders (tables b) !! x = Some o → claims b !! x = Some P →
  uncovered (tables b) x = false → netted_in_full (credits (tables b)) x o P.
Proof.
  intros Hg Ho HP Hu. destruct (good_accounts b t Hg x P HP) as (o' & Ho' & Hc & Hd & _ & Hacc).
  rewrite Ho in Ho'. injection Ho' as <-. destruct Hacc as [Hn|(_ & _ & _ & Hf)]; [done|].
  unfold uncovered in Hu. by rewrite Ho, Hc, Hd, Hf in Hu.
Qed.

Section cancelling.
Context (b : books) (t now x : Z) (o o' : order) (mint : Z → Z) (plan : CancellationMoneyPlan) (d' : db).
Context (Hg : good b t) (Ht : t <= now) (Ho : orders (tables b) !! x = Some o) (Hopen : cancelled o = false).
Context (Hquote : current_quote o' = current_quote o).
Context (Hre : ∀ f, f ∈ reissued plan → ∃ c, credits (tables b) !! credit_id f = Some c ∧ is_redeemed c = true ∧
           snd <$> redeemed c = Some (current_quote o) ∧ uncovered (tables b) (issued_from_order_id c) = false).
Context (Hw : write_cancellation_credit_moves x now o mint plan (set_order (tables b) x o') = Ok d').

Abbreviation d := (tables b).
Abbreviation d0 := (set_order (tables b) x o').

Lemma cancelling_unnoted : claims b !! x = None.
Proof. by destruct (good_open b t Hg x o Ho Hopen). Qed.

Lemma cancelling_wf : wf d0 now.
Proof.
  apply (wf_later _ t); [|done]. apply wf_order; [apply Hg| |].
  - intros y oy Hne Hy Hq. rewrite Hquote in Hq. by apply Hne, (wf_quote _ _ (good_wf b t Hg) y x oy o).
  - intros o1 Ho1. rewrite Ho in Ho1. injection Ho1 as <-. done.
Qed.

(** A credit spent on this order's bill was issued from another order. *)
Lemma cancelling_other k c : credits d !! k = Some c → snd <$> redeemed c = Some (current_quote o) →
  issued_from_order_id c ≠ x.
Proof.
  intros Hk Hq. destruct (redeemed c) as [[s q]|] eqn:Hr; [|done]. injection Hq as ->.
  destruct (wf_bill _ _ (good_wf b t Hg) k c s (current_quote o) Hk Hr) as (y & oy & Hy & Hqy & Hne).
  rewrite (wf_quote _ _ (good_wf b t Hg) x y o oy Ho Hy); [done|]. by rewrite Hqy.
Qed.

Lemma cancelling_step : ∃ d1, fold_result (void_credit x now) d0 (voided plan) = Ok d1 ∧
  fold_result (reissue_credit x now o mint) d1 (reissued plan) = Ok d' ∧
  credit_step (claims b) now d0 d1 ∧ credit_step (claims b) now d1 d' ∧
  (∀ f, f ∈ reissued plan → ∃ c, credits d1 !! credit_id f = Some c ∧ is_redeemed c = true ∧
     issued_from_order_id c ≠ x).
Proof.
  unfold write_cancellation_credit_moves in Hw. apply bind_Ok in Hw as (d1 & Hv & Hr). exists d1.
  assert (credit_step (claims b) now d0 d1) as Hs1
    by (eapply void_all_step; [apply cancelling_wf|apply cancelling_unnoted|exact Hv]).
  assert (∀ f, f ∈ reissued plan → ∃ c c1, credits d !! credit_id f = Some c ∧ credits d1 !! credit_id f = Some c1 ∧
            same_credit c c1 ∧ is_redeemed c1 = true ∧ issued_from_order_id c ≠ x ∧
            uncovered d (issued_from_order_id c) = false) as Hfact.
  { intros f Hf. destruct (Hre f Hf) as (c & Hc & Hrc & Hq & Hu).
    destruct (step_persists _ _ _ _ Hs1 _ c Hc) as (c1 & Hc1 & Hsame). exists c, c1. split_and!; try done.
    - destruct (void_all_dead _ _ _ _ _ Hv _ c1 Hc1) as (c0 & Hc0 & _ & Hr1 & _).
      cbn in Hc0. rewrite Hc in Hc0. injection Hc0 as <-. unfold is_redeemed in *. by rewrite Hr1.
    - by eapply cancelling_other. }
  split_and!; [done|done|done| |].
  - eapply reissue_all_step; [apply Hs1|exact Hr|]. intros f Hf.
    destruct (Hfact f Hf) as (c & c1 & Hc & Hc1 & (Hi & _) & _ & Hne & Hu). exists c1. split; [done|].
    rewrite Hi, (step_orders _ _ _ _ Hs1). cbn. intros P oi HP Hoi. rewrite lookup_insert_ne in Hoi by done.
    apply (step_keeps _ _ _ _ Hs1 _ P oi HP); [cbn; by rewrite lookup_insert_ne|].
    exact (good_covered b t _ oi P Hg Hoi HP Hu).
  - intros f Hf. destruct (Hfact f Hf) as (c & c1 & Hc & Hc1 & (Hi & _) & Hr1 & Hne & _).
    exists c1. split_and!; [done|done|congruence].
Qed.

(** What the moves leave: the other accounts kept, no live credit of this order, and the same
    face value spent elsewhere. *)
Lemma cancelling_effect : wf d' now ∧ keeps (claims b) d d' ∧ orders d' = <[x:=o']> (orders d) ∧
  persists d d' ∧ (∀ P, spent (credits d') x P = spent (credits d) x P) ∧
  (∀ k c', credits d' !! k = Some c' → issued_from_order_id c' = x →
     (∃ c, credits d !! k = Some c ∧ same_credit c c') ∧
     (live c' = true → ∃ c, credits d !! k = Some c ∧ live c = true ∧ ∀ f, f ∈ voided plan → credit_id f ≠ k)).
Proof.
  destruct cancelling_step as (d1 & Hv & Hr & Hs1 & Hs2 & Hother).
  destruct (reissue_all_other x now o mint _ d1 d' x Hother Hr) as (Hsp & Hback & _).
  pose proof (credit_step_trans _ _ _ _ _ Hs1 Hs2) as [Hwf Hk Hord Hper]. split_and!; [done| |done|done| |].
  - intros y P oy HP Hy. assert (y ≠ x) as Hne by (intros ->; rewrite cancelling_unnoted in HP; done).
    apply (Hk y P oy HP). cbn. by rewrite lookup_insert_ne.
  - intros P. by rewrite Hsp, (void_all_spent _ _ _ _ _ x P Hv).
  - intros k c' Hk' Hi. apply Hback in Hk'; [|done].
    destruct (void_all_dead _ _ _ _ _ Hv k c' Hk') as (c & Hc & Hs & _ & Hl). cbn in Hc.
    split; [by exists c|]. intros Hlive. apply Hl in Hlive as [Hl' Hall]. by exists c.
Qed.
End cancelling.

(** * Every operation keeps the books good *)

Lemma good_step b t t' d' : good b t → credit_step (claims b) t' (tables b) d' → good (Books d' (claims b)) t'.
Proof.
  intros Hg [Hwf Hk Ho Hp]. split; cbn; rewrite ?Ho; [done|apply Hg|apply Hg| |].
  - intros x P HP. destruct (good_accounts b t Hg x P HP) as (o & Hx & Hc & Hd & Hpaid & Hacc).
    exists o. do 4 (split; [done|]). destruct (Hk x P o HP Hx). tauto.
  - intros x P p HP Hin. destruct (good_claims b t Hg x P p HP Hin) as (k & c & Hc & Hpc).
    destruct (Hp k c Hc) as (c' & Hc' & _ & Heq & _). exists k, c'. by rewrite Heq.
Qed.

Lemma good_later b t t' : good b t → t <= t' → good b t'.
Proof. intros [] Ht. split; try done. by eapply wf_later. Qed.

Lemma good_open_order b t x o' : good b t → wf (set_order (tables b) x o') t →
  (∀ o, orders (tables b) !! x = Some o → cancelled o = false) →
  cancelled o' = false → disposed o' = false → order_refunds o' = None →
  good (Books (set_order (tables b) x o') (claims b)) t.
Proof.
  intros Hg Hwf Hold Hc Hd Hr.
  assert (claims b !! x = None) as Hx.
  { destruct (claims b !! x) as [P|] eqn:HP; [|done].
    destruct (good_accounts b t Hg x P HP) as (o & Ho & Hco & _). by rewrite (Hold o Ho) in Hco. }
  split; cbn; [done| | | |apply Hg].
  - intros y o [[<- <-]|[_ Hy]]%lookup_insert_Some; [done|by apply (good_open b t)].
  - intros y o [[<- <-]|[_ Hy]]%lookup_insert_Some; [by rewrite Hc|by apply (good_closed b t)].
  - intros y P HP. assert (y ≠ x) as Hne by congruence. rewrite lookup_insert_ne by done.
    exact (good_accounts b t Hg y P HP).
Qed.

Lemma good_money b t x bal paid d' : good b t → record_money (tables b) x bal paid = Ok d' →
  good (Books d' (claims b)) t.
Proof.
  intros Hg H. unfold record_money in H. result_inv.
  match goal with Hx : orders _ !! x = Some ?y |- _ => rename y into o; rename Hx into Ho end.
  destruct (good_open b t Hg x o Ho) as (_ & Hd & Hr); [done|].
  apply good_open_order; try done.
  - apply wf_order; [apply Hg| |].
    + intros y oy Hne Hy Hq. by apply Hne, (wf_quote _ _ (good_wf b t Hg) y x oy o).
    + intros o1 Ho1. rewrite Ho in Ho1. by injection Ho1 as <-.
  - intros o1 Ho1. rewrite Ho in Ho1. by injection Ho1 as <-.
Qed.

Lemma good_issue b t id p x a v late now d' : good b t → t <= now →
  issue_credit (tables b) id p x a v late now = Ok d' → good (Books d' (claims b)) now.
Proof.
  intros Hg Ht H. apply (good_step b now); [by eapply good_later|].
  pose proof (good_wf _ _ (good_later _ _ _ Hg Ht)) as Hwf.
  unfold issue_credit in H. result_inv. guards.
  match goal with Hn : ¬ is_Some _ |- _ => apply eq_None_not_Some in Hn; rename Hn into Hfree end.
  match goal with Hx : existsb _ _ = false |- _ => rename Hx into Hone end.
  assert (∀ k c, credits (tables b) !! k = Some c → remedy_proposal_id c ≠ p) as Hfresh.
  { intros k c Hk Hp. destruct (wf_original _ _ Hwf k c Hk) as (j & c0 & Hj & Hpj & Hr).
    apply not_true_iff_false in Hone. apply Hone, existsb_map. exists j, c0. split; [done|]. cbn.
    rewrite Hr, bool_decide_true by done. by rewrite (proj2 (Z.eqb_eq _ _)) by congruence. }
  split; [|apply keeps_issue|done|by apply persists_insert]; try done.
  - apply wf_insert; try done; cbn; lia || by eexists.
  - cbn. intros y P HP Hin. destruct (good_claims b t Hg y P p HP Hin) as (k & c & Hk & Hp).
    by apply (Hfresh k c).
Qed.

Lemma good_create b t x store contact quote revision now l d' : good b t → t <= now →
  create (tables b) x store contact quote revision now l = Ok d' → good (Books d' (claims b)) now.
Proof.
  intros Hg Ht H. unfold create in H. apply raise_bind_Ok in H as [Hq H]. apply raise_bind_Ok in H as [Hx H].
  guards. apply eq_None_not_Some in Hx.
  pose proof (good_later _ _ _ Hg Ht) as Hg'. pose proof (good_wf _ _ Hg') as Hwf.
  set (o' := Order store contact (quote, revision) OrderBalanceStatus.UNPAID 0 false false None) in *.
  assert (wf (set_order (tables b) x o') now) as Hwf'.
  { apply wf_order; [done| |congruence]. intros y oy _ Hy Heq. apply not_true_iff_false in Hq. apply Hq.
    apply existsb_exists. exists (y, oy). split; [by apply list_elem_of_In, elem_of_map_to_list|].
    cbn. by rewrite Heq, Z.eqb_refl. }
  apply (good_step (Books (set_order (tables b) x o') (claims b)) now).
  - apply good_open_order; try done. intros o Ho. congruence.
  - eapply spend_all_step; [done|reflexivity|exact H|]. intros k c Hk. exists x, o'. cbn.
    rewrite lookup_insert_eq. split_and!; [done|done|]. intros ->.
    destruct (wf_issuer _ _ Hwf k c Hk) as [oi Hoi]. congruence.
Qed.

Lemma claims_of_member d x k c : credits d !! k = Some c → issued_from_order_id c = x →
  remedy_proposal_id c ∈ claims_of d x.
Proof.
  intros Hk Hi. apply list_elem_of_fmap. exists (k, c). split; [done|].
  apply list_elem_of_filter. split; [done|by apply elem_of_map_to_list].
Qed.

Lemma claims_of_inv d x p : p ∈ claims_of d x → ∃ k c, credits d !! k = Some c ∧ remedy_proposal_id c = p.
Proof.
  intros ([k c] & -> & [_ Hin]%list_elem_of_filter)%list_elem_of_fmap.
  exists k, c. split; [by apply elem_of_map_to_list|done].
Qed.

(** The accounts of the order just cancelled. *)
Lemma cancelled_accounts d' now x o' P source n : wf d' now →
  (∀ k c, credits d' !! k = Some c → issued_from_order_id c = x → live c = false) →
  order_refunds o' = match source with Some a => Some (OrderRefund (a - n) n now) | None => None end →
  n = Z.min (default 0 source) (spent (credits d') x P) → 0 <= default 0 source →
  netted_in_full (credits d') x o' P ∨ frozen d' x o' P.
Proof.
  intros Hwf Hdead Hr Hn Hpos.
  assert (held (credits d') x P = 0) as Hh.
  { unfold held. rewrite (total_ext _ (λ _ _, 0)); [unfold total|].
    - induction (map_to_list (credits d')) as [|kc l IH]; [done|]. by rewrite fmap_cons, sumZ_cons, IH.
    - intros k c Hk. unfold held_weight, claimed. destruct (issued_from_order_id c =? x) eqn:Hi; [|done].
      apply Z.eqb_eq in Hi. rewrite (Hdead k c Hk Hi). by rewrite andb_false_r. }
  assert (0 <= spent (credits d') x P) as Hs.
  { apply total_nonneg. intros k c Hk. unfold spent_weight. pose proof (wf_amount _ _ Hwf k c Hk).
    destruct (_ && _); lia. }
  assert (netted_of o' = n ∧ refundable_of o' = default 0 source) as [Hne Hre].
  { unfold netted_of, refundable_of. rewrite Hr. destruct source; cbn in *; lia. }
  unfold netted_in_full, frozen. rewrite Hne, Hre, Hh.
  destruct (decide (spent (credits d') x P <= default 0 source)); [left; lia|right].
  do 3 (split; [lia|]). unfold covered. rewrite Hr. destruct source as [a|]; [|done]. cbn in *.
  apply Z.leb_gt. enough (spent (credits d') x P <= total (counted (credits d') x now) (credits d')) by lia.
  apply total_le. intros k c Hk. unfold spent_weight, claimed, is_redeemed.
  pose proof (counted_nonneg (credits d') x now k c (wf_amount _ _ Hwf k c Hk)) as Hc0.
  unfold counted in *. destruct (redeemed c) as [[s q]|] eqn:Hrd; [|by rewrite andb_false_r].
  destruct (issued_from_order_id c =? x); [|done]. cbn [andb] in *. rewrite andb_true_r.
  rewrite (proj2 (Z.leb_le s now)) in Hc0 |- * by exact (wf_time _ _ Hwf k c s q Hk Hrd).
  destruct (is_reissued (credits d') k) eqn:Hri; [by rewrite andb_false_r|].
  destruct (existsb _ _) eqn:He.
  - exfalso. apply existsb_map in He as (j & w & Hj & Hw). apply andb_true_iff in Hw as [Hw _].
    apply not_true_iff_false in Hri. apply Hri, is_reissued_true. exists j, w. by guards.
  - pose proof (wf_amount _ _ Hwf k c Hk). destruct (bool_decide _); cbn; lia.
Qed.

Lemma good_cancel b t x res e now mint d' : good b t → t <= now →
  cancel (tables b) x res e now mint = Ok d' →
  good (Books d' (noted d' (Cancel x res e now mint) (claims b))) now.
Proof.
  intros Hg Ht H. apply cancel_Ok in H as (o & source & plan & b' & Ho & Hopen & Hsrc & Hp & Href & Hw).
  cbn zeta in Hw. set (o' := Order _ _ _ _ _ _ _ _) in Hw.
  destruct (plan_Ok _ _ _ _ _ _ Hp Href) as [Hpos Hplan].
  assert (∀ f, f ∈ reissued plan → ∃ c, credits (tables b) !! credit_id f = Some c ∧ is_redeemed c = true ∧
           snd <$> redeemed c = Some (current_quote o) ∧ uncovered (tables b) (issued_from_order_id c) = false) as Hre.
  { intros f Hf. destruct Hplan as [(_ & _ & Hr)|(_ & _ & _ & Hr & Hall)].
    - rewrite Hr in Hf. by apply not_elem_of_nil in Hf.
    - rewrite Forall_forall in Hall. pose proof (Hall f Hf) as Hu. rewrite Hr in Hf.
      apply reissue_is_spent in Hf as (c & Hc & Hrc & Hq & Huc). exists c. split_and!; congruence. }
  destruct (cancelling_effect b t now x o o' mint plan d' Hg Ht Ho Hopen eq_refl Hre Hw)
    as (Hwf & Hk & Hord & Hper & Hsp & Hown).
  pose proof (cancelling_unnoted b t x o Hg Ho Hopen) as Hnone.
  assert (∀ y P, claims b !! y = Some P → ∃ oy, orders d' !! y = Some oy ∧ cancelled oy = true ∧
            disposed oy = false ∧ (is_Some (order_refunds oy) → refundable_of oy = paid_vnd oy) ∧
            (netted_in_full (credits d') y oy P ∨ frozen d' y oy P)) as Hacc.
  { intros y P HP. destruct (good_accounts b t Hg y P HP) as (oy & Hy & Hc & Hd & Hpd & Ha). exists oy.
    rewrite Hord, lookup_insert_ne by congruence. do 4 (split; [done|]).
    destruct (Hk y P oy HP Hy). tauto. }
  assert (∀ y P p, claims b !! y = Some P → p ∈ P → ∃ k c, credits d' !! k = Some c ∧ remedy_proposal_id c = p) as Hcl.
  { intros y P p HP Hin. destruct (good_claims b t Hg y P p HP Hin) as (k & c & Hc & Hpc).
    destruct (Hper k c Hc) as (c' & Hc' & _ & Heq & _). exists k, c'. by rewrite Heq. }
  assert (∀ y oy, orders d' !! y = Some oy → cancelled oy = false →
            y ≠ x ∧ claims b !! y = None ∧ disposed oy = false ∧ order_refunds oy = None) as Hop.
  { intros y oy Hy Hc. rewrite Hord in Hy. apply lookup_insert_Some in Hy as [[<- <-]|[Hne Hy]]; [done|].
    split; [done|]. by apply (good_open b t). }
  destruct Hplan as [(Hres & _)|(Hnd & Hv & Hn & _)]; unfold noted.
  - rewrite bool_decide_true by done. split; cbn; [done| | |done|done].
    + intros y oy Hy Hc. by apply Hop.
    + intros y oy Hy Hc Hd. rewrite Hord in Hy. apply lookup_insert_Some in Hy as [[<- <-]|[_ Hy]].
      * cbn in Hd. by rewrite bool_decide_true in Hd.
      * by apply (good_closed b t Hg y oy).
  - rewrite bool_decide_false by done. split; cbn; [done| | | |].
    + intros y oy Hy Hc. destruct (Hop y oy Hy Hc) as (Hne & Hrest). by rewrite lookup_insert_ne.
    + intros y oy Hy Hc Hd. destruct (decide (y = x)) as [->|Hne]; [by rewrite lookup_insert_eq|].
      rewrite lookup_insert_ne by done. rewrite Hord, lookup_insert_ne in Hy by done.
      by apply (good_closed b t Hg y oy).
    + intros y P [[<- <-]|[_ HP]]%lookup_insert_Some; [|by apply Hacc].
      exists o'. rewrite Hord, lookup_insert_eq.
      split_and!; [done|done|by apply bool_decide_false| |].
      { unfold refundable_of, o'. cbn. destruct source as [a|]; [|by intros [? ?]]. cbn.
        intros _. rewrite <- (Hsrc a eq_refl). lia. }
      apply (cancelled_accounts d' now x o' _ source (netted_vnd plan)); [done| |by destruct source| |done].
      * intros k c' Hk' Hi. destruct (live c') eqn:Hl; [|done].
        destruct (Hown k c' Hk' Hi) as [(c0 & Hc0 & Hi0 & _) (c & Hc & Hlc & Hall)]; [done|].
        assert (c0 = c) as -> by congruence.
        destruct (live_is_voided _ t x k c (good_wf b t Hg) Hc Hlc) as (f & Hf & Hid); [congruence|].
        rewrite <- Hv in Hf. by destruct (Hall f Hf).
      * rewrite Hsp, Hn. f_equal. apply (face_netted _ t); [apply Hg|].
        intros k c Hk' Hi. destruct (Hper k c Hk') as (c' & Hc' & Hi' & Hp' & _).
        rewrite <- Hp'. apply claims_of_member with k; [done|congruence].
    + intros y P p [[<- <-]|[_ HP]]%lookup_insert_Some; [|by apply (Hcl y P)].
      exact (claims_of_inv d' x p).
Qed.

Lemma good_opened : good opened 0.
Proof. split; [split|..]; cbn; intros; by rewrite lookup_empty in *. Qed.

Lemma good_history l b t : good b t → clocked t l = true → ∃ t', good (foldl run b l) t'.
Proof.
  revert b t. induction l as [|o l IH]; intros b t Hg Hc; [by exists t|]. cbn [foldl].
  assert (∃ t1, good (run b o) t1 ∧ clocked t1 l = true) as (t1 & Hg1 & Hc1); [|by apply (IH _ t1)].
  cbn [clocked] in Hc. unfold run.
  destruct o as [id p x a v late now|x st ct q r now res|x bal paid|x res e now mint]; cbn [time_of perform] in *;
    try (apply andb_true_iff in Hc as [Ht Hc]; apply Z.leb_le in Ht).
  - exists now. destruct (issue_credit _ _ _ _ _ _ _ _) eqn:H; split; try done;
      [by eapply good_issue|by eapply good_later].
  - exists now. destruct (create _ _ _ _ _ _ _ _) eqn:H; split; try done;
      [by eapply good_create|by eapply good_later].
  - exists t. destruct (record_money _ _ _ _) eqn:H; split; try done. by eapply good_money.
  - exists now. destruct (cancel _ _ _ _ _ _) eqn:H; split; try done;
      [by eapply good_cancel|by eapply good_later].
Qed.


(** * Two orders and one credit *)

(** Order 1 is credited 20,000 đồng, which order 2's bill spends; both are then cancelled. *)
Definition fault : option CustodyResolution.t := Some CustodyResolution.SHOP_FAULT_NO_CHARGE.
Definition two_orders (paid spent_at cancelled_at : Z) (first second : CancellationMoneyFigures) : list operation :=
  [Create 1 1 7 10 1 1 []; Money 1 OrderBalanceStatus.PAID paid;
   Issue 100 5 1 20000 1 false 2;
   Create 2 1 7 20 1 spent_at [(100, 20000, 1)]; Money 2 OrderBalanceStatus.PAID 30000;
   Cancel 1 fault (Some first) cancelled_at (λ _, 200);
   Cancel 2 fault (Some second) 6 (λ _, 201)].
Definition both_cancelled : list operation :=
  two_orders 50000 3 4 (Figures 30000 20000 0 0) (Figures 30000 0 0 20000).
Definition order_after (l : list operation) (x : Z) : option order := orders (tables (history l)) !! x.


(** The clock matters.  Order 2 is created, and spends the credit, by a host whose clock is
    ahead; order 1 is cancelled next by one whose clock is not, so the redemption is stamped
    later than the refund that netted it and the coverage test does not see it.  The refund
    (10,000 đồng, all of it netted) does not cover the credit, yet order 2's cancellation
    reissues it: the customer, who paid 10,000 on order 1, ends holding 20,000. *)
Definition skewed : list operation :=
  two_orders 10000 5 4 (Figures 0 10000 0 0) (Figures 30000 0 0 20000).

Example skewed_clock_compensates_twice :
  let b := history skewed in
  clocked 0 skewed = false ∧
  (netted_of <$> order_after skewed 1) = Some 10000 ∧
  (cancelled <$> order_after skewed 2) = Some true ∧
  (held (credits (tables b)) 1 <$> claims b !! 1) = Some 20000.
Proof. vm_compute. split_and!; reflexivity. Qed.
