(* ===== verification/PolicyDecision.v ===== *)
(** The capability policy decision point ([packages/policy/.../decision.py]) and the gate
    every claimed agent run passes before a model may be used
    ([apps/worker/.../agent_run_policy.py]).  The guards on value types are discharged by
    the types; the facts a run is decided on are read by the database and are an argument. *)
From Stdlib Require Import Ascii String.
From S2P Require Import Prelude Clock Text.
Local Open Scope laundry_scope.
Local Open Scope Z_scope.

Module ReleaseCapability.
Inductive t :=
  | INTERNAL_SHADOW | PUBLIC_FAQ | LIST_PRICE_INFO | INTAKE_QUESTION | INTAKE_FACT_CAPTURE
  | INTAKE_RECEIPT | INCIDENT_RECEIPT | ORDER_STATUS | SLA_GUIDANCE | QUOTE_ESTIMATE | BOOKING
  | DELIVERY_ADVISORY | MARKETING_FOLLOWUP.
#[export] Instance eq_dec : EqDecision t.
Proof. solve_decision. Defined.
End ReleaseCapability.
#[export] Existing Instance ReleaseCapability.eq_dec.

Module AgentDeploymentStage.
Inductive t :=
  | MANUAL_TRUTH | SHADOW | ASSISTED | BOUNDED.
#[export] Instance eq_dec : EqDecision t.
Proof. solve_decision. Defined.
End AgentDeploymentStage.
#[export] Existing Instance AgentDeploymentStage.eq_dec.

Module AgentDataClassification.
Inductive t :=
  | SYNTHETIC | REAL_CUSTOMER.
#[export] Instance eq_dec : EqDecision t.
Proof. solve_decision. Defined.
End AgentDataClassification.
#[export] Existing Instance AgentDataClassification.eq_dec.

Module AgentToolOperation.
Inductive t :=
  | CATALOG_RESOLVE | ORDER_REQUEST_CREATE | ORDER_REQUEST_RECORD_CUSTOMER_FACTS | QUOTE_ESTIMATE
  | DELIVERY_EVALUATE | CAPACITY_CHECK | MESSAGE_DRAFT_CREATE | PUBLIC_ORDER_STATUS_GET
  | INCIDENT_OPEN | APPROVAL_REQUEST_CREATE.
#[export] Instance eq_dec : EqDecision t.
Proof. solve_decision. Defined.
End AgentToolOperation.
#[export] Existing Instance AgentToolOperation.eq_dec.

Module PolicyOutcome.
Inductive t :=
  | ALLOW | DENY | REQUIRE_HUMAN.
#[export] Instance eq_dec : EqDecision t.
Proof. solve_decision. Defined.
End PolicyOutcome.
#[export] Existing Instance PolicyOutcome.eq_dec.

Module PolicyReason.
Inductive t :=
  | POLICY_INPUT_MALFORMED | POLICY_STORE_UNAVAILABLE | POLICY_STALE | POLICY_VERSION_MISMATCH
  | GLOBAL_AUTOMATION_DISABLED | AGENT_PROCESSING_DISABLED | AGENT_OUTBOUND_DISABLED
  | CHANNEL_INGRESS_DISABLED | CAPABILITY_DISABLED | CAPABILITY_MISMATCH | STAGE_MISMATCH
  | STAGE_GATE_UNVERIFIED | RELEASE_NOT_AUTHORIZED | RELEASE_METADATA_MISMATCH
  | IDENTITY_UNAUTHORIZED | TENANT_MISMATCH | CONTACT_BINDING_MISMATCH | SUPPRESSED
  | SUPPRESSION_UNKNOWN | APPROVAL_REQUIRED | APPROVAL_INVALID | OPERATION_NOT_AUTHORIZED
  | SYNTHETIC_INTERNAL_ONLY | ALL_CONTROLS_VERIFIED.
#[export] Instance eq_dec : EqDecision t.
Proof. solve_decision. Defined.
End PolicyReason.
#[export] Existing Instance PolicyReason.eq_dec.

Module SuppressionState.
Inductive t :=
  | CLEAR | SUPPRESSED | UNKNOWN | NOT_APPLICABLE.
#[export] Instance eq_dec : EqDecision t.
Proof. solve_decision. Defined.
End SuppressionState.
#[export] Existing Instance SuppressionState.eq_dec.

Module ApprovalState.
Inductive t :=
  | NOT_REQUIRED | SATISFIED | MISSING | INVALID.
#[export] Instance eq_dec : EqDecision t.
Proof. solve_decision. Defined.
End ApprovalState.
#[export] Existing Instance ApprovalState.eq_dec.

Record CapabilityPolicyRequest := PolicyRequest {
  req_capability : ReleaseCapability.t;
  req_stage : AgentDeploymentStage.t;
  automatic_action : bool;
}.

Record CapabilityPolicySnapshot := Snapshot {
  available : bool;
  malformed : bool;
  policy_version : option string;
  expected_policy_version : string;
  expires_at : option datetime;
  all_automation_enabled : option bool;
  agent_processing_enabled : option bool;
  agent_outbound_enabled : option bool;
  channel_ingress_enabled : option bool;
  enabled_capabilities : list ReleaseCapability.t;
  capability : ReleaseCapability.t;
  stage : AgentDeploymentStage.t;
  required_gates : list string;
  verified_gates : list string;
  release_authorized : bool;
  release_capability : option ReleaseCapability.t;
  release_stage : option AgentDeploymentStage.t;
  release_commit_sha : option string;
  deployed_commit_sha : option string;
}.

Record AuthorityBinding := Authority {
  identity_authorized : bool;
  tenant_id : Z;
  authorized_tenant_id : Z;
  contact_binding_id : Z;
  authorized_contact_binding_id : Z;
  authorized_capability : ReleaseCapability.t;
}.

Record ObligationState := Obligations {
  suppression : SuppressionState.t;
  approval : ApprovalState.t;
}.

Record PolicyDecision := Decision {
  outcome : PolicyOutcome.t;
  reason_codes : list PolicyReason.t;
  decided_version : option string;
  decided_capability : ReleaseCapability.t;
  decided_stage : AgentDeploymentStage.t;
}.

(** * Patterns *)

Definition alnum (c : ascii) : bool := between 48 57 c || between 65 90 c || between 97 122 c.
Definition _VERSION (s : string) : bool :=
  match txt s with
  | c :: t => alnum c && (length t <=? 199)%nat
              && forallb (λ c, alnum c || (ord c in? [45; 46; 58; 95])) t
  | [] => false
  end.
Definition _GATE (s : string) : bool :=
  match txt s with
  | g :: d :: t => (ord g =? 71) && between 49 57 d && (2 <=? length t)%nat && (length t <=? 99)%nat
                   && forallb (λ c, between 65 90 c || is_digit_char c || (ord c =? 95)) t
  | _ => false
  end.
Definition _COMMIT (s : string) : bool :=
  (length (txt s) =? 40)%nat && forallb (λ c, is_digit_char c || between 97 102 c) (txt s).

(** * The decision point *)

Definition when (c : bool) (r : PolicyReason.t) : list PolicyReason.t := if c then [r] else [].

Definition _valid_gates (required verified : list string) : bool :=
  match required with
  | [] => false
  | _ => forallb _GATE required && forallb (λ g, g in? verified) required
  end.

Definition _deny (r : CapabilityPolicyRequest) (s : CapabilityPolicySnapshot) (reason : PolicyReason.t)
    : PolicyDecision :=
  Decision PolicyOutcome.DENY [reason] (policy_version s) (req_capability r) (req_stage r).

Definition stale (s : CapabilityPolicySnapshot) (now : datetime) : bool :=
  match expires_at s with
  | Some e => negb (aware e) || dt_ltb e now
  | None => true
  end.
Definition version_mismatch (s : CapabilityPolicySnapshot) : bool :=
  match policy_version s with
  | Some v => negb (_VERSION v) || negb (_VERSION (expected_policy_version s))
              || negb (v is? expected_policy_version s)
  | None => true
  end.
Definition metadata_mismatch (r : CapabilityPolicyRequest) (s : CapabilityPolicySnapshot) : bool :=
  negb (release_capability s is? Some (req_capability r))
  || match release_commit_sha s, deployed_commit_sha s with
     | Some c, Some d => negb (_COMMIT c) || negb (c is? d)
     | _, _ => true
     end.

Definition denial_reasons (r : CapabilityPolicyRequest) (s : CapabilityPolicySnapshot)
    (a : AuthorityBinding) (o : ObligationState) : list PolicyReason.t :=
  when (negb (all_automation_enabled s is? Some true)) PolicyReason.GLOBAL_AUTOMATION_DISABLED
  ++ when (negb (agent_processing_enabled s is? Some true)) PolicyReason.AGENT_PROCESSING_DISABLED
  ++ when (negb (agent_outbound_enabled s is? Some true)) PolicyReason.AGENT_OUTBOUND_DISABLED
  ++ when (negb (channel_ingress_enabled s is? Some true)) PolicyReason.CHANNEL_INGRESS_DISABLED
  ++ when (negb (req_capability r in? enabled_capabilities s) || negb (capability s is? req_capability r))
       PolicyReason.CAPABILITY_DISABLED
  ++ when (negb (authorized_capability a is? req_capability r)) PolicyReason.CAPABILITY_MISMATCH
  ++ when (negb (stage s is? req_stage r) || negb (release_stage s is? Some (req_stage r)))
       PolicyReason.STAGE_MISMATCH
  ++ when (negb (_valid_gates (required_gates s) (verified_gates s))) PolicyReason.STAGE_GATE_UNVERIFIED
  ++ when (negb (release_authorized s)) PolicyReason.RELEASE_NOT_AUTHORIZED
  ++ when (metadata_mismatch r s) PolicyReason.RELEASE_METADATA_MISMATCH
  ++ when (negb (identity_authorized a)) PolicyReason.IDENTITY_UNAUTHORIZED
  ++ when (negb (tenant_id a =? authorized_tenant_id a)) PolicyReason.TENANT_MISMATCH
  ++ when (negb (contact_binding_id a =? authorized_contact_binding_id a))
       PolicyReason.CONTACT_BINDING_MISMATCH
  ++ when (suppression o is? SuppressionState.SUPPRESSED) PolicyReason.SUPPRESSED
  ++ when (approval o is? ApprovalState.INVALID) PolicyReason.APPROVAL_INVALID.

Definition human_reasons (o : ObligationState) : list PolicyReason.t :=
  when (suppression o is? SuppressionState.UNKNOWN) PolicyReason.SUPPRESSION_UNKNOWN
  ++ when (approval o is? ApprovalState.MISSING) PolicyReason.APPROVAL_REQUIRED.

(** [TypeError] of a naive clock. *)
Definition _evaluate (r : CapabilityPolicyRequest) (s : CapabilityPolicySnapshot) (a : AuthorityBinding)
    (o : ObligationState) (now : datetime) : result unit PolicyDecision :=
  raise_if (negb (aware now)) tt ;;
  if malformed s then Ok (_deny r s PolicyReason.POLICY_INPUT_MALFORMED)
  else if negb (available s) then Ok (_deny r s PolicyReason.POLICY_STORE_UNAVAILABLE)
  else if stale s now then Ok (_deny r s PolicyReason.POLICY_STALE)
  else if version_mismatch s then Ok (_deny r s PolicyReason.POLICY_VERSION_MISMATCH)
  else
    let decided outcome reasons :=
      Ok (Decision outcome reasons (policy_version s) (req_capability r) (req_stage r)) in
    match denial_reasons r s a o, human_reasons o with
    | (_ :: _) as d, _ => decided PolicyOutcome.DENY (fromkeys d)
    | [], (_ :: _) as h => decided PolicyOutcome.REQUIRE_HUMAN (fromkeys h)
    | [], [] => decided PolicyOutcome.ALLOW [PolicyReason.ALL_CONTROLS_VERIFIED]
    end.

Definition evaluate (r : CapabilityPolicyRequest) (s : CapabilityPolicySnapshot) (a : AuthorityBinding)
    (o : ObligationState) (now : datetime) : PolicyDecision :=
  match _evaluate r s a o now with
  | Ok d => d
  | Err _ => Decision PolicyOutcome.DENY [PolicyReason.POLICY_INPUT_MALFORMED] None
               (req_capability r) (req_stage r)
  end.

(** * Agent runs *)

Record AgentRunPolicyRequest := RunRequest {
  run_capability : ReleaseCapability.t;
  run_stage : AgentDeploymentStage.t;
  data_classification : AgentDataClassification.t;
  provider_backed : bool;
}.

Definition SYNTHETIC_AGENT_RUN_POLICY_VERSION : string := "synthetic-internal-v1".

Definition STAGE_REQUIRED_GATES (s : AgentDeploymentStage.t) : list string :=
  match s with
  | AgentDeploymentStage.MANUAL_TRUTH | AgentDeploymentStage.SHADOW => ["G1_INTERNAL_SHADOW_READY"]
  | AgentDeploymentStage.ASSISTED => ["G1_INTERNAL_SHADOW_READY"; "G2_PUBLIC_ASSISTED_ENTRY"]
  | AgentDeploymentStage.BOUNDED =>
      ["G1_INTERNAL_SHADOW_READY"; "G2_PUBLIC_ASSISTED_ENTRY"; "G3_ASSISTED_EVIDENCE_COMPLETE";
       "G4_BOUNDED_CAPABILITY_ENTRY"]
  end%string.

Definition _unavailable_snapshot (r : AgentRunPolicyRequest) : CapabilityPolicySnapshot :=
  Snapshot false false None "unavailable" None None None None None [] (run_capability r) (run_stage r)
    (STAGE_REQUIRED_GATES (run_stage r)) [] false None None None None.

Definition _synthetic_shadow_run (r : AgentRunPolicyRequest) (a : AuthorityBinding)
    (s : SuppressionState.t) : PolicyDecision :=
  let decided outcome reasons :=
    Decision outcome reasons (Some SYNTHETIC_AGENT_RUN_POLICY_VERSION) (run_capability r) (run_stage r) in
  let denial :=
    when (negb (identity_authorized a)) PolicyReason.IDENTITY_UNAUTHORIZED
    ++ when (negb (tenant_id a =? authorized_tenant_id a)) PolicyReason.TENANT_MISMATCH
    ++ when (negb (contact_binding_id a =? authorized_contact_binding_id a))
         PolicyReason.CONTACT_BINDING_MISMATCH
    ++ when (negb (authorized_capability a is? run_capability r)) PolicyReason.CAPABILITY_MISMATCH in
  match denial with
  | _ :: _ => decided PolicyOutcome.DENY denial
  | [] =>
      if s is? SuppressionState.UNKNOWN
      then decided PolicyOutcome.REQUIRE_HUMAN [PolicyReason.SUPPRESSION_UNKNOWN]
      else decided PolicyOutcome.ALLOW [PolicyReason.SYNTHETIC_INTERNAL_ONLY]
  end.

Definition synthetic_shadow (r : AgentRunPolicyRequest) : bool :=
  (data_classification r is? AgentDataClassification.SYNTHETIC)
  && (run_stage r is? AgentDeploymentStage.SHADOW)
  && (run_capability r is? ReleaseCapability.INTERNAL_SHADOW) && negb (provider_backed r).

Definition evaluate_agent_run (r : AgentRunPolicyRequest) (snapshot : option CapabilityPolicySnapshot)
    (a : AuthorityBinding) (s : SuppressionState.t) (now : datetime) : PolicyDecision :=
  if negb (aware now) then
    Decision PolicyOutcome.DENY [PolicyReason.POLICY_INPUT_MALFORMED] None
      ReleaseCapability.INTERNAL_SHADOW AgentDeploymentStage.MANUAL_TRUTH
  else if s is? SuppressionState.SUPPRESSED then
    Decision PolicyOutcome.DENY [PolicyReason.SUPPRESSED] None (run_capability r) (run_stage r)
  else if negb (synthetic_shadow r) then
    evaluate (PolicyRequest (run_capability r) (run_stage r) false)
      (default (_unavailable_snapshot r) snapshot) a (Obligations s ApprovalState.NOT_REQUIRED) now
  else _synthetic_shadow_run r a s.

(** * The tool boundary *)

Definition CAPABILITY_OPERATIONS (c : ReleaseCapability.t) (o : AgentToolOperation.t) : bool :=
  match c with
  | ReleaseCapability.INTERNAL_SHADOW => true
  | ReleaseCapability.PUBLIC_FAQ => o is? AgentToolOperation.CATALOG_RESOLVE
  | ReleaseCapability.LIST_PRICE_INFO | ReleaseCapability.INTAKE_QUESTION =>
      o in? [AgentToolOperation.CATALOG_RESOLVE; AgentToolOperation.MESSAGE_DRAFT_CREATE]
  | ReleaseCapability.INTAKE_FACT_CAPTURE =>
      o in? [AgentToolOperation.CATALOG_RESOLVE; AgentToolOperation.ORDER_REQUEST_CREATE;
             AgentToolOperation.ORDER_REQUEST_RECORD_CUSTOMER_FACTS]
  | ReleaseCapability.INTAKE_RECEIPT => o is? AgentToolOperation.MESSAGE_DRAFT_CREATE
  | ReleaseCapability.INCIDENT_RECEIPT =>
      o in? [AgentToolOperation.INCIDENT_OPEN; AgentToolOperation.MESSAGE_DRAFT_CREATE]
  | ReleaseCapability.ORDER_STATUS =>
      o in? [AgentToolOperation.PUBLIC_ORDER_STATUS_GET; AgentToolOperation.MESSAGE_DRAFT_CREATE]
  | ReleaseCapability.SLA_GUIDANCE =>
      o in? [AgentToolOperation.CAPACITY_CHECK; AgentToolOperation.MESSAGE_DRAFT_CREATE]
  | ReleaseCapability.QUOTE_ESTIMATE =>
      o in? [AgentToolOperation.QUOTE_ESTIMATE; AgentToolOperation.DELIVERY_EVALUATE;
             AgentToolOperation.MESSAGE_DRAFT_CREATE; AgentToolOperation.APPROVAL_REQUEST_CREATE]
  | ReleaseCapability.BOOKING =>
      o in? [AgentToolOperation.CAPACITY_CHECK; AgentToolOperation.APPROVAL_REQUEST_CREATE]
  | ReleaseCapability.DELIVERY_ADVISORY =>
      o in? [AgentToolOperation.DELIVERY_EVALUATE; AgentToolOperation.MESSAGE_DRAFT_CREATE]
  | ReleaseCapability.MARKETING_FOLLOWUP => false
  end.

(** The claims the boundary reads; [claims.capabilities] is validated non-empty. *)
Record AgentRunnerClaims := Claims {
  first_capability : ReleaseCapability.t;
  claims_classification : AgentDataClassification.t;
  claims_stage : AgentDeploymentStage.t;
}.

Definition evaluate_synthetic_tool (c : AgentRunnerClaims) (operation : AgentToolOperation.t) : PolicyDecision :=
  let capability := first_capability c in
  let allowed := (claims_classification c is? AgentDataClassification.SYNTHETIC)
                 && (claims_stage c is? AgentDeploymentStage.SHADOW)
                 && (capability is? ReleaseCapability.INTERNAL_SHADOW)
                 && CAPABILITY_OPERATIONS capability operation in
  Decision (if allowed then PolicyOutcome.ALLOW else PolicyOutcome.DENY)
    [if allowed then PolicyReason.SYNTHETIC_INTERNAL_ONLY else PolicyReason.OPERATION_NOT_AUTHORIZED]
    (Some "synthetic-internal-v1"%string) capability (claims_stage c).

(** * The worker's gate *)

(** A row of [automation_execution_gates]; a flag that is not a boolean is [None]. *)
Record gate_row := Gate {
  global_automation_enabled : option bool;
  gate_processing_enabled : option bool;
  gate_outbound_enabled : option bool;
  gate_ingress_enabled : option bool;
  capability_enabled : option bool;
  stage_policy_allows : option bool;
  pdp_allows : option bool;
  gate_version : Z;
  gate_expires_at : option datetime;
}.

Record AgentRunPolicyFacts := Facts {
  facts_classification : AgentDataClassification.t;
  suppression_states : list string;
  has_source_event : bool;
  source_contact_binding_id : option Z;
  gate : option gate_row;
}.

Record ClaimedAgentRun := Claimed {
  claimed_store_id : Z;
  claimed_contact_id : Z;
  claimed_capability : ReleaseCapability.t;
  deployment_stage : AgentDeploymentStage.t;
  claimed_classification : AgentDataClassification.t;
}.

Record VerifiedReleaseAuthorization := Release {
  auth_commit_sha : string;
  auth_stage : AgentDeploymentStage.t;
  auth_capability : ReleaseCapability.t;
  starts_at : datetime;
  auth_expires_at : datetime;
}.

Definition _NO_AUTHORIZED_CONTACT : Z := 0.

(** [ValueError] of a naive clock. *)
Definition authorizes (v : VerifiedReleaseAuthorization) (commit_sha : string)
    (st : AgentDeploymentStage.t) (c : ReleaseCapability.t) (now : datetime) : result unit bool :=
  raise_if (negb (aware now)) tt ;;
  Ok ((auth_commit_sha v is? commit_sha) && (auth_stage v is? st) && (auth_capability v is? c)
      && dt_leb (starts_at v) now && dt_ltb now (auth_expires_at v)).

Definition fold_suppression (states : list string) (c : AgentDataClassification.t) : SuppressionState.t :=
  if "SUPPRESSED"%string in? states then SuppressionState.SUPPRESSED
  else if existsb (λ s, negb (s is? "CLEAR"%string)) states then SuppressionState.UNKNOWN
  else match states with
       | _ :: _ => SuppressionState.CLEAR
       | [] => if c is? AgentDataClassification.SYNTHETIC then SuppressionState.NOT_APPLICABLE
               else SuppressionState.UNKNOWN
       end.

Module AgentRunPolicyGate.
Section gate.
(** The verified release and the deployed commit, which the constructor takes together. *)
Context (release : option (VerifiedReleaseAuthorization * string)).

Definition _snapshot (claimed : ClaimedAgentRun) (facts : AgentRunPolicyFacts) (now : datetime)
    : result unit (option CapabilityPolicySnapshot) :=
  match gate facts with
  | None => Ok None
  | Some g =>
      let version := ("automation-gate-v" ++ string_of_list_ascii (str (gate_version g)))%string in
      let capability_on := (capability_enabled g is? Some true) && (stage_policy_allows g is? Some true)
                           && (pdp_allows g is? Some true) in
      authorized ← match release with
                   | Some (v, commit) => authorizes v commit (deployment_stage claimed) (claimed_capability claimed) now
                   | None => Ok false
                   end;
      Ok (Some (Snapshot true false (Some version) version (gate_expires_at g)
                  (global_automation_enabled g) (gate_processing_enabled g) (gate_outbound_enabled g)
                  (gate_ingress_enabled g) (if capability_on then [claimed_capability claimed] else [])
                  (claimed_capability claimed) (deployment_stage claimed)
                  (STAGE_REQUIRED_GATES (deployment_stage claimed)) [] authorized
                  (auth_capability ∘ fst <$> release) (auth_stage ∘ fst <$> release)
                  (auth_commit_sha ∘ fst <$> release) (snd <$> release)))
  end.

Definition gate_deny (c : ClaimedAgentRun) (reason : PolicyReason.t) : PolicyDecision :=
  Decision PolicyOutcome.DENY [reason] None (claimed_capability c) (deployment_stage c).

(** [facts]: what the reader answered, or [None] for an exception. *)
Definition decide (facts : option AgentRunPolicyFacts) (claimed : ClaimedAgentRun) (provider : bool)
    (now : datetime) : result unit PolicyDecision :=
  match facts with
  | None => Ok (gate_deny claimed PolicyReason.POLICY_STORE_UNAVAILABLE)
  | Some f =>
      if negb (facts_classification f is? claimed_classification claimed)
      then Ok (gate_deny claimed PolicyReason.POLICY_INPUT_MALFORMED)
      else
        let authorized_contact := if has_source_event f
                                  then default _NO_AUTHORIZED_CONTACT (source_contact_binding_id f)
                                  else claimed_contact_id claimed in
        snapshot ← _snapshot claimed f now;
        Ok (evaluate_agent_run
              (RunRequest (claimed_capability claimed) (deployment_stage claimed) (facts_classification f) provider)
              snapshot
              (Authority true (claimed_store_id claimed) (claimed_store_id claimed)
                 (claimed_contact_id claimed) authorized_contact (claimed_capability claimed))
              (fold_suppression (suppression_states f) (facts_classification f)) now)
  end.
End gate.
End AgentRunPolicyGate.

(** * What the decision point guarantees *)

Lemma when_nil c r : when c r = [] ↔ c = false.
Proof. by destruct c. Qed.

Lemma valid_gates_iff required verified : _valid_gates required verified = true ↔
  required ≠ [] ∧ Forall (λ g, _GATE g = true ∧ g ∈ verified) required.
Proof.
  unfold _valid_gates. destruct required as [|g l]; [by split; [|intros [? _]]|].
  rewrite andb_true_iff, !forallb_forall, Forall_forall. split.
  - intros [H1 H2]. split; [done|]. intros x Hx%list_elem_of_In. split; [by apply H1|].
    specialize (H2 x Hx). by apply bool_decide_eq_true in H2.
  - intros [_ H]. split; intros x Hx%list_elem_of_In; destruct (H x Hx); [done|].
    by apply bool_decide_eq_true.
Qed.

Lemma stale_false s now : stale s now = false ↔
  ∃ e, expires_at s = Some e ∧ aware e = true ∧ instant now <= instant e.
Proof.
  unfold stale, dt_ltb. destruct (expires_at s) as [e|]; [|naive_solver].
  rewrite orb_false_iff, negb_false_iff, Z.ltb_ge. naive_solver.
Qed.

Lemma version_match s : version_mismatch s = false ↔
  policy_version s = Some (expected_policy_version s) ∧ _VERSION (expected_policy_version s) = true.
Proof.
  unfold version_mismatch. destruct (policy_version s) as [v|]; [|naive_solver].
  rewrite !orb_false_iff, !negb_false_iff, bool_decide_eq_true. naive_solver.
Qed.

Lemma metadata_match r s : metadata_mismatch r s = false ↔
  release_capability s = Some (req_capability r) ∧
  ∃ c, release_commit_sha s = Some c ∧ deployed_commit_sha s = Some c ∧ _COMMIT c = true.
Proof.
  unfold metadata_mismatch. rewrite orb_false_iff, negb_false_iff, bool_decide_eq_true.
  destruct (release_commit_sha s) as [c|], (deployed_commit_sha s) as [d|]; try naive_solver.
  rewrite orb_false_iff, !negb_false_iff, bool_decide_eq_true. naive_solver.
Qed.

Lemma clear_suppression x : x ∈ [SuppressionState.CLEAR; SuppressionState.NOT_APPLICABLE] ↔
  x ≠ SuppressionState.SUPPRESSED ∧ x ≠ SuppressionState.UNKNOWN.
Proof. rewrite !elem_of_cons, elem_of_nil. destruct x; intuition discriminate. Qed.

Lemma settled_approval x : x ∈ [ApprovalState.NOT_REQUIRED; ApprovalState.SATISFIED] ↔
  x ≠ ApprovalState.INVALID ∧ x ≠ ApprovalState.MISSING.
Proof. rewrite !elem_of_cons, elem_of_nil. destruct x; intuition discriminate. Qed.

Lemma evaluate_ALLOW r s a o now : outcome (evaluate r s a o now) = PolicyOutcome.ALLOW ↔
  aware now = true ∧ malformed s = false ∧ available s = true ∧ stale s now = false ∧
  version_mismatch s = false ∧ denial_reasons r s a o = [] ∧ human_reasons o = [].
Proof.
  unfold evaluate, _evaluate. destruct (aware now); [|naive_solver]. cbn [negb raise_if mbind result_bind].
  destruct (malformed s); [naive_solver|]. destruct (available s); [|naive_solver]. cbn [negb].
  destruct (stale s now); [naive_solver|]. destruct (version_mismatch s); [naive_solver|].
  destruct (denial_reasons r s a o), (human_reasons o); naive_solver.
Qed.

Lemma allowed_gates r s a o now : outcome (evaluate r s a o now) = PolicyOutcome.ALLOW →
  ∃ g, g ∈ required_gates s ∧ g ∈ verified_gates s.
Proof.
  intros (_ & _ & _ & _ & _ & H & _)%evaluate_ALLOW. unfold denial_reasons in H.
  rewrite !app_nil, !when_nil, !negb_false_iff, valid_gates_iff in H.
  destruct H as (_ & _ & _ & _ & _ & _ & _ & [Hne Hg] & _).
  destruct (required_gates s) as [|g l]; [done|]. exists g. split; [left|]. by inversion Hg as [|? ? [_ ?]].
Qed.

(** the decision point is conjunctive and fails closed.  It allows exactly when every
    control holds: an aware clock, an available, well-formed, unexpired policy of the
    expected version, all four switches on, the capability enabled and authorised, the
    stage and a signed release of the deployed commit agreeing, every required gate well
    named and verified, and none of them missing, the identity, tenant and contact bound, no
    suppression and no approval outstanding. *)
Theorem policy_allows_iff r s a o now : outcome (evaluate r s a o now) = PolicyOutcome.ALLOW ↔
  (aware now = true ∧ malformed s = false ∧ available s = true ∧
   (∃ e, expires_at s = Some e ∧ aware e = true ∧ instant now <= instant e) ∧
   policy_version s = Some (expected_policy_version s) ∧ _VERSION (expected_policy_version s) = true) ∧
  (all_automation_enabled s = Some true ∧ agent_processing_enabled s = Some true ∧
   agent_outbound_enabled s = Some true ∧ channel_ingress_enabled s = Some true) ∧
  (req_capability r ∈ enabled_capabilities s ∧ capability s = req_capability r ∧
   authorized_capability a = req_capability r ∧ stage s = req_stage r) ∧
  (required_gates s ≠ [] ∧ Forall (λ g, _GATE g = true ∧ g ∈ verified_gates s) (required_gates s)) ∧
  (release_authorized s = true ∧ release_stage s = Some (req_stage r) ∧
   release_capability s = Some (req_capability r) ∧
   ∃ c, release_commit_sha s = Some c ∧ deployed_commit_sha s = Some c ∧ _COMMIT c = true) ∧
  (identity_authorized a = true ∧ tenant_id a = authorized_tenant_id a ∧
   contact_binding_id a = authorized_contact_binding_id a) ∧
  suppression o ∈ [SuppressionState.CLEAR; SuppressionState.NOT_APPLICABLE] ∧
  approval o ∈ [ApprovalState.NOT_REQUIRED; ApprovalState.SATISFIED].
Proof.
  rewrite evaluate_ALLOW, stale_false, version_match. unfold denial_reasons, human_reasons.
  rewrite !app_nil, !when_nil, !orb_false_iff, !negb_false_iff, metadata_match, valid_gates_iff.
  rewrite !bool_decide_eq_true, !bool_decide_eq_false, !Z.eqb_eq.
  pose proof (clear_suppression (suppression o)). pose proof (settled_approval (approval o)). tauto.
Qed.

Lemma synthetic_run_ALLOW r a s : outcome (_synthetic_shadow_run r a s) = PolicyOutcome.ALLOW →
  contact_binding_id a = authorized_contact_binding_id a ∧ s ≠ SuppressionState.UNKNOWN.
Proof.
  unfold _synthetic_shadow_run. destruct (_ ++ _) eqn:Hd; [|done].
  rewrite !app_nil, !when_nil, !negb_false_iff, !Z.eqb_eq in Hd.
  destruct (bool_decide (s = _)) eqn:Hs; [done|]. guards. intros _. split; [tauto|done].
Qed.

Lemma fold_suppression_clear states c :
  fold_suppression states c ≠ SuppressionState.SUPPRESSED →
  fold_suppression states c ≠ SuppressionState.UNKNOWN → Forall (λ s, s = "CLEAR"%string) states.
Proof.
  unfold fold_suppression. case_bool_decide; [done|]. destruct (existsb _ _) eqn:He; [done|].
  intros _ _. apply Forall_forall. intros s Hs. apply not_true_iff_false in He.
  destruct (decide (s = "CLEAR"%string)) as [|Hne]; [done|]. destruct He.
  apply existsb_exists. exists s. split; [by apply list_elem_of_In|]. by rewrite bool_decide_false.
Qed.

(** C14: a model is never used on a real customer.  Whatever the gate row says, whatever
    release has been verified, and whatever the switches are, the worker's gate allows a
    claimed run only if its data is synthetic, it runs in Shadow under the internal
    capability with no provider behind it, no suppression is recorded for the contact, and
    the contact is the one the source event was bound to. *)
Theorem agent_runs_stay_synthetic release facts claimed provider now d :
  AgentRunPolicyGate.decide release facts claimed provider now = Ok d → outcome d = PolicyOutcome.ALLOW →
  ∃ f, facts = Some f ∧ facts_classification f = AgentDataClassification.SYNTHETIC ∧
    claimed_classification claimed = AgentDataClassification.SYNTHETIC ∧
    deployment_stage claimed = AgentDeploymentStage.SHADOW ∧
    claimed_capability claimed = ReleaseCapability.INTERNAL_SHADOW ∧ provider = false ∧
    Forall (λ s, s = "CLEAR"%string) (suppression_states f) ∧
    (has_source_event f = true →
     claimed_contact_id claimed = default _NO_AUTHORIZED_CONTACT (source_contact_binding_id f)).
Proof.
  unfold AgentRunPolicyGate.decide. destruct facts as [f|]; [|by intros [= <-]]. intros H Hallow. exists f. split; [done|].
  case_bool_decide as Hcl; cbn [negb] in H; [|by injection H as <-].
  apply bind_Ok in H as (snapshot & Hs & [= <-]). unfold evaluate_agent_run in Hallow.
  destruct (aware now) eqn:Haw; [|done]. cbn [negb] in Hallow.
  case_bool_decide as Hsup; [done|].
  destruct (synthetic_shadow _) eqn:Hsyn; cbn [negb] in Hallow.
  - apply synthetic_run_ALLOW in Hallow as [Hc Hu]. cbn in Hc. unfold synthetic_shadow in Hsyn. guards.
    cbn in *. split_and!; try congruence; [by eapply fold_suppression_clear|].
    intros He. by rewrite He in Hc.
  - apply allowed_gates in Hallow as (g & _ & Hg). exfalso. unfold AgentRunPolicyGate._snapshot in Hs.
    destruct (gate f) as [row|]; [apply bind_Ok in Hs as (au & _ & [= <-])|injection Hs as <-];
      by apply not_elem_of_nil in Hg.
Qed.

(** A synthetic Shadow run at noon, with a row for its capability and no release. *)
Definition shadow_run : ClaimedAgentRun :=
  Claimed 1 7 ReleaseCapability.INTERNAL_SHADOW AgentDeploymentStage.SHADOW AgentDataClassification.SYNTHETIC.
Definition shadow_facts : AgentRunPolicyFacts :=
  Facts AgentDataClassification.SYNTHETIC ["CLEAR"%string] true (Some 7) None.
Definition noon : datetime := DateTime (hours 12) (Some HO_CHI_MINH).

Lemma agent_runs_stay_synthetic_witness :
  ∃ d, AgentRunPolicyGate.decide None (Some shadow_facts) shadow_run false noon = Ok d ∧
    outcome d = PolicyOutcome.ALLOW ∧
    claimed_classification shadow_run = AgentDataClassification.SYNTHETIC.
Proof.
  eexists. split; [reflexivity|]. split; [reflexivity|].
  destruct (agent_runs_stay_synthetic None (Some shadow_facts) shadow_run false noon _ eq_refl eq_refl)
    as (f & _ & _ & Hc & _). exact Hc.
Defined.
