(* ===== verification/Calendar.v ===== *)
(** Python's [date] as a day number, and its year, month and day: the proleptic Gregorian
    calendar of the standard library's [datetime].  A day number counts from 1970-01-01,
    as [Clock.date_of] does; the range limit of [date] (years 1 to 9999) is kept only where
    a date is read from text. *)
From S2P Require Import Prelude Clock.
Local Open Scope Z_scope.
Local Open Scope laundry_scope.

(** [date(1970, 1, 1).toordinal() - 1]: day numbers are counted from 0001-01-01 below. *)
Definition epoch : Z := 719_162.

Definition is_leap (y : Z) : bool :=
  (y mod 4 =? 0) && (negb (y mod 100 =? 0) || (y mod 400 =? 0)).

Definition days_in_month (y m : Z) : Z :=
  if m =? 2 then if is_leap y then 29 else 28
  else if m in? [4; 6; 9; 11] then 30 else 31.

(** Days of the year before the first of the month. *)
Definition days_before_month (y m : Z) : Z :=
  match m with
  | 1 => 0 | 2 => 31 | 3 => 59 | 4 => 90 | 5 => 120 | 6 => 151
  | 7 => 181 | 8 => 212 | 9 => 243 | 10 => 273 | 11 => 304 | _ => 334
  end + (if (2 <? m) && is_leap y then 1 else 0).

(** Days before the first of January of the year. *)
Definition days_before_year (y : Z) : Z :=
  (y - 1) * 365 + (y - 1) / 4 - (y - 1) / 100 + (y - 1) / 400.

Definition valid_date (y m d : Z) : bool :=
  (1 <=? m) && (m <=? 12) && (1 <=? d) && (d <=? days_in_month y m).

(** [date(y, m, d)] as a day number. *)
Definition day_number (y m d : Z) : Z :=
  days_before_year y + days_before_month y m + (d - 1) - epoch.

(** The year of a day: whole cycles of 400, 100, 4 and 1 years, as [date.fromordinal]
    counts them; the last day of a cycle of 4 or 400 belongs to the cycle's last year. *)
Definition year_of (day : Z) : Z :=
  let n := day + epoch in
  let n400 := n / 146_097 in let n := n mod 146_097 in
  let n100 := n / 36_524 in let n := n mod 36_524 in
  let n4 := n / 1_461 in let n := n mod 1_461 in
  let n1 := n / 365 in
  let y := n400 * 400 + n100 * 100 + n4 * 4 + n1 + 1 in
  if (n1 =? 4) || (n100 =? 4) then y - 1 else y.

Definition day_of_year (day : Z) : Z := day + epoch - days_before_year (year_of day).

(** The last month that starts on or before the day. *)
Fixpoint find_month (fuel : nat) (y m n : Z) : Z :=
  match fuel with
  | O => m
  | S k => if days_before_month y m <=? n then m else find_month k y (m - 1) n
  end.

Definition month_of (day : Z) : Z := find_month 11 (year_of day) 12 (day_of_year day).
Definition mday_of (day : Z) : Z :=
  day_of_year day - days_before_month (year_of day) (month_of day) + 1.

(** [(day.month, day.day)], and Python's order on such pairs. *)
Definition month_day (day : Z) : Z * Z := (month_of day, mday_of day).
Definition month_day_leb (a b : Z * Z) : bool :=
  (a.1 <? b.1) || ((a.1 =? b.1) && (a.2 <=? b.2)).

Example tet_2026 : (year_of 20501, month_day 20501) = (2026, (2, 17)).
Proof. reflexivity. Qed.
Example leap_day_2028 : day_number 2028 2 29 = 21243 ∧ month_day 21243 = (2, 29).
Proof. split; reflexivity. Qed.

(** * A day's fields name that day *)

Lemma year_length y : days_before_year (y + 1) = days_before_year y + (if is_leap y then 366 else 365).
Proof.
  unfold days_before_year, is_leap. replace (y + 1 - 1) with y by lia.
  destruct (Z.eqb_spec (y mod 4) 0), (Z.eqb_spec (y mod 100) 0), (Z.eqb_spec (y mod 400) 0);
    cbn [andb orb negb]; Z.to_euclidean_division_equations; lia.
Qed.

Lemma year_of_spec day :
  days_before_year (year_of day) <= day + epoch < days_before_year (year_of day + 1).
Proof.
  unfold year_of. cbv zeta. generalize (day + epoch). clear day. intros n.
  pose proof (Z.div_mod n 146_097 ltac:(lia)) as E1. pose proof (Z.mod_pos_bound n 146_097 ltac:(lia)) as B1.
  revert E1 B1. generalize (n / 146_097), (n mod 146_097). intros q400 a E1 B1.
  pose proof (Z.div_mod a 36_524 ltac:(lia)) as E2. pose proof (Z.mod_pos_bound a 36_524 ltac:(lia)) as B2.
  revert E2 B2. generalize (a / 36_524), (a mod 36_524). intros q100 b E2 B2.
  pose proof (Z.div_mod b 1_461 ltac:(lia)) as E3. pose proof (Z.mod_pos_bound b 1_461 ltac:(lia)) as B3.
  revert E3 B3. generalize (b / 1_461), (b mod 1_461). intros q4 c E3 B3.
  pose proof (Z.div_mod c 365 ltac:(lia)) as E4. pose proof (Z.mod_pos_bound c 365 ltac:(lia)) as B4.
  revert E4 B4. generalize (c / 365), (c mod 365). intros q1 d E4 B4.
  unfold days_before_year.
  destruct (Z.eqb_spec q1 4), (Z.eqb_spec q100 4); cbn [orb];
    Z.to_euclidean_division_equations; lia.
Qed.

Lemma day_of_year_range day : 0 <= day_of_year day < if is_leap (year_of day) then 366 else 365.
Proof.
  unfold day_of_year. pose proof (year_of_spec day) as H. rewrite year_length in H.
  destruct (is_leap (year_of day)); lia.
Qed.

Lemma month_step y m : 1 <= m < 12 → days_before_month y (m + 1) = days_before_month y m + days_in_month y m.
Proof.
  intros Hm. assert (m ∈ seqZ 1 11) as Hin by (apply elem_of_seqZ; lia).
  cbn in Hin. repeat (apply elem_of_cons in Hin as [->|Hin]; [destruct (is_leap y) eqn:E;
    unfold days_before_month, days_in_month; rewrite E; reflexivity|]). by apply elem_of_nil in Hin.
Qed.

Lemma days_in_month_bound y m : 28 <= days_in_month y m <= 31.
Proof. unfold days_in_month. repeat case_match; lia. Qed.

Lemma days_before_month_mono y m m' : 1 <= m <= m' → m' <= 12 → days_before_month y m <= days_before_month y m'.
Proof.
  intros [H1 H2] H3. replace m' with (m + Z.of_nat (Z.to_nat (m' - m))) in * by lia.
  induction (Z.to_nat (m' - m)) as [|k IH]; [by rewrite Z.add_0_r|].
  replace (m + Z.of_nat (S k)) with (m + Z.of_nat k + 1) in * by lia.
  rewrite month_step by lia. pose proof (days_in_month_bound y (m + Z.of_nat k)).
  specialize (IH ltac:(lia) ltac:(lia)). lia.
Qed.

Lemma find_month_spec k y n : ∀ m, m = Z.of_nat k + 1 → m <= 12 → 0 <= n →
  n < days_before_month y m + days_in_month y m →
  let r := find_month k y m n in
  1 <= r <= m ∧ days_before_month y r <= n < days_before_month y r + days_in_month y r.
Proof.
  induction k as [|k IH]; intros m Hm H12 Hn Hlt; cbn.
  - subst. change (Z.of_nat 0 + 1) with 1 in *.
    assert (days_before_month y 1 = 0) by done. lia.
  - destruct (Z.leb_spec (days_before_month y m) n); [lia|].
    destruct (IH (m - 1)) as [Hr Hb]; [lia..| |lia].
    rewrite <- month_step by lia. by rewrite Z.sub_add.
Qed.

Lemma december y : days_before_month y 12 + days_in_month y 12 = if is_leap y then 366 else 365.
Proof. unfold days_before_month, days_in_month. cbn. by destruct (is_leap y). Qed.

Lemma month_of_spec day : 1 <= month_of day <= 12 ∧
  days_before_month (year_of day) (month_of day) <= day_of_year day
    < days_before_month (year_of day) (month_of day) + days_in_month (year_of day) (month_of day).
Proof.
  apply find_month_spec; [done|done|apply day_of_year_range|].
  rewrite december. apply day_of_year_range.
Qed.

Lemma fields_valid day : valid_date (year_of day) (month_of day) (mday_of day) = true.
Proof.
  destruct (month_of_spec day) as [? ?]. unfold valid_date, mday_of.
  rewrite !andb_true_iff, !Z.leb_le. lia.
Qed.

Lemma day_number_fields day : day_number (year_of day) (month_of day) (mday_of day) = day.
Proof. unfold day_number, mday_of, day_of_year. lia. Qed.

Lemma days_before_year_mono y y' : y <= y' → days_before_year y <= days_before_year y'.
Proof. intros. unfold days_before_year. Z.to_euclidean_division_equations. lia. Qed.

Lemma year_of_unique y day :
  days_before_year y <= day + epoch < days_before_year (y + 1) → year_of day = y.
Proof.
  intros H. pose proof (year_of_spec day) as H'.
  destruct (Z.lt_trichotomy (year_of day) y) as [Hlt|[->|Hlt]]; [|done|].
  - pose proof (days_before_year_mono (year_of day + 1) y ltac:(lia)). lia.
  - pose proof (days_before_year_mono (y + 1) (year_of day) ltac:(lia)). lia.
Qed.

Lemma month_of_unique day m : 1 <= m <= 12 →
  days_before_month (year_of day) m <= day_of_year day
    < days_before_month (year_of day) m + days_in_month (year_of day) m → month_of day = m.
Proof.
  intros Hm H. destruct (month_of_spec day) as [Hr H']. set (y := year_of day) in *.
  destruct (Z.lt_trichotomy (month_of day) m) as [Hlt|[->|Hlt]]; [|done|].
  - pose proof (days_before_month_mono y (month_of day + 1) m ltac:(lia) ltac:(lia)).
    rewrite month_step in * by lia. lia.
  - pose proof (days_before_month_mono y (m + 1) (month_of day) ltac:(lia) ltac:(lia)).
    rewrite month_step in * by lia. lia.
Qed.

(** Reading a date's fields back: what [date(y, m, d)] names is [(y, m, d)] again. *)
Lemma fields_day_number y m d : valid_date y m d = true →
  year_of (day_number y m d) = y ∧ month_day (day_number y m d) = (m, d).
Proof.
  unfold valid_date. rewrite !andb_true_iff, !Z.leb_le. intros [[[H1 H2] H3] H4].
  set (day := day_number y m d).
  assert (year_of day = y) as Hy.
  { apply year_of_unique. rewrite year_length. unfold day, day_number.
    pose proof (days_before_month_mono y m 12 ltac:(lia) ltac:(lia)).
    assert (0 <= days_before_month y m).
    { pose proof (days_before_month_mono y 1 m ltac:(lia) ltac:(lia)).
      assert (days_before_month y 1 = 0) by done. lia. }
    assert (days_before_month y m + d <= if is_leap y then 366 else 365); [|lia].
    rewrite <- december. destruct (decide (m = 12)) as [->|]; [lia|].
    pose proof (days_before_month_mono y (m + 1) 12 ltac:(lia) ltac:(lia)).
    rewrite month_step in * by lia. pose proof (days_in_month_bound y 12). lia. }
  assert (day_of_year day = days_before_month y m + (d - 1)) as Hd.
  { unfold day_of_year. rewrite Hy. unfold day, day_number. lia. }
  assert (month_of day = m) as Hm by (apply month_of_unique; [lia|]; rewrite Hy, Hd; lia).
  split; [done|]. unfold month_day, mday_of. rewrite Hm, Hy, Hd. f_equal. lia.
Qed.
