(* ===== verification/Promise.v ===== *)
(** The promised-ready time of an order ([packages/domain/.../promise.py]): the shop's opening
    hours and closed days, the two ways of counting hours, a person's own time, the decision
    for an order's lines, the choices the counter offers, and where an order stands against
    its promise.  The published document is read in [TurnaroundDocument]. *)
From Stdlib Require Import String.
From S2P Require Import Prelude Clock Calendar.
Local Open Scope laundry_scope.
Local Open Scope Z_scope.

Module TurnaroundScope.
Inductive t :=
  | STANDARD_CLOTHES | SHOES | CURTAINS | BLANKETS_AND_SHEETS | OTHER_SPECIAL.
#[export] Instance eq_dec : EqDecision t.
Proof. solve_decision. Defined.
Definition value (s : t) : string :=
  match s with
  | STANDARD_CLOTHES => "STANDARD_CLOTHES" | SHOES => "SHOES" | CURTAINS => "CURTAINS"
  | BLANKETS_AND_SHEETS => "BLANKETS_AND_SHEETS" | OTHER_SPECIAL => "OTHER_SPECIAL"
  end.
Definition all : list t := [STANDARD_CLOTHES; SHOES; CURTAINS; BLANKETS_AND_SHEETS; OTHER_SPECIAL].
End TurnaroundScope.
#[export] Existing Instance TurnaroundScope.eq_dec.

Module ScopeKind.
Inductive t :=
  | FIXED | RANGE_CHOICE | HUMAN.
#[export] Instance eq_dec : EqDecision t.
Proof. solve_decision. Defined.
End ScopeKind.
#[export] Existing Instance ScopeKind.eq_dec.

Module PromiseChoice.
Inductive t :=
  | H24 | H48 | EXPRESS_2H | CUSTOM.
#[export] Instance eq_dec : EqDecision t.
Proof. solve_decision. Defined.
Definition value (c : t) : string :=
  match c with
  | H24 => "H24" | H48 => "H48" | EXPRESS_2H => "EXPRESS_2H" | CUSTOM => "CUSTOM"
  end.
End PromiseChoice.
#[export] Existing Instance PromiseChoice.eq_dec.

Module PromiseRequirement.
Inductive t :=
  | NONE | RANGE_CHOICE | CUSTOM.
#[export] Instance eq_dec : EqDecision t.
Proof. solve_decision. Defined.
End PromiseRequirement.
#[export] Existing Instance PromiseRequirement.eq_dec.

Module PromiseReason.
Inductive t :=
  | HUMAN_ETA_REQUIRED | TET_DATES_UNPUBLISHED | SERVICE_NOT_IN_POLICY | NO_LINES.
#[export] Instance eq_dec : EqDecision t.
Proof. solve_decision. Defined.
End PromiseReason.
#[export] Existing Instance PromiseReason.eq_dec.

Module PromiseRefusal.
Inductive t :=
  | PROMISE_CHOICE_NOT_APPLICABLE | PROMISE_CUSTOM_AT_REQUIRED | PROMISE_CUSTOM_AT_NOT_TAKEN
  | PROMISE_NOT_AFTER_ACCEPTANCE | PROMISE_OUTSIDE_OPENING_HOURS | PROMISE_ON_CLOSED_DAY
  | PROMISE_UNCHANGED.
#[export] Instance eq_dec : EqDecision t.
Proof. solve_decision. Defined.
End PromiseRefusal.
#[export] Existing Instance PromiseRefusal.eq_dec.

Module PromiseState.
Inductive t :=
  | ON_TRACK | DUE_SOON | LATE | MET | MISSED.
#[export] Instance eq_dec : EqDecision t.
Proof. solve_decision. Defined.
End PromiseState.
#[export] Existing Instance PromiseState.eq_dec.

Module PromiseChangeReason.
Inductive t :=
  | CUSTOMER_REQUEST | EXTRA_TREATMENT | MACHINE_ISSUE | WORKLOAD | WEATHER_DRYING | OTHER.
#[export] Instance eq_dec : EqDecision t.
Proof. solve_decision. Defined.
End PromiseChangeReason.
#[export] Existing Instance PromiseChangeReason.eq_dec.

(** The exceptions of the module, with those its lookups and assertions can raise. *)
Inductive PromiseFailure :=
  | ValueError | TurnaroundPolicyError | PromiseError (code : PromiseRefusal.t)
  | KeyError | AssertionError.
#[export] Instance PromiseFailure_eq_dec : EqDecision PromiseFailure.
Proof. solve_decision. Defined.

Definition SHOP_TIMEZONE : Z := HO_CHI_MINH.
Definition TET_WINDOW_START : Z * Z := (1, 15).
Definition TET_WINDOW_END : Z * Z := (2, 29).
Definition TET_DAYS : Z := 6.
Definition DUE_SOON : timedelta := hours 2.
Definition _MAX_DAYS_WALKED : nat := 400.

(** [LinePromise.counting]. *)
Module Counting.
Inductive t :=
  | OPENING_HOURS | CALENDAR_HOURS.
#[export] Instance eq_dec : EqDecision t.
Proof. solve_decision. Defined.
End Counting.
#[export] Existing Instance Counting.eq_dec.

Record ScopeRule := MkScopeRule {
  rule_scope : TurnaroundScope.t;
  rule_sla_id : string;
  kind : ScopeKind.t;
  rule_hours : option Z;
  choices_hours : list Z;
  default_hours : option Z;
}.
#[export] Instance ScopeRule_eq_dec : EqDecision ScopeRule.
Proof. solve_decision. Defined.

(** [opens_at] and [closes_at] are a [time]: microseconds since midnight. *)
Record TurnaroundPolicy := MkTurnaroundPolicy {
  opens_at : Z;
  closes_at : Z;
  recurring_closed : gset (Z * Z);
  closed_dates : gset Z;
  tet_years : gset Z;
  scopes : dict TurnaroundScope.t ScopeRule;
  services : dict string TurnaroundScope.t;
  express_hours : Z;
}.

Definition _in_tet_window (day : Z) : bool :=
  month_day_leb TET_WINDOW_START (month_day day) && month_day_leb (month_day day) TET_WINDOW_END.

Definition is_closed (policy : TurnaroundPolicy) (day : Z) : bool :=
  (day in? closed_dates policy) || (month_day day in? recurring_closed policy).

Definition tet_unknown (policy : TurnaroundPolicy) (day : Z) : bool :=
  _in_tet_window day && negb (year_of day in? tet_years policy).

Record LinePromise := MkLinePromise {
  service_code : string;
  scope : option TurnaroundScope.t;
  sla_id : option string;
  line_hours : option Z;
  counting : Counting.t;
}.
#[export] Instance LinePromise_eq_dec : EqDecision LinePromise.
Proof. solve_decision. Defined.

Record Promised := MkPromised {
  promised_at : datetime;
  basis : string;
  rule_id : string;
  lines : list LinePromise;
  accepted_at : datetime;
}.
#[export] Instance Promised_eq_dec : EqDecision Promised.
Proof. solve_decision. Defined.

(** [Promised | PromiseNeedsHuman]. *)
Inductive Decided :=
  | Promise (p : Promised)
  | PromiseNeedsHuman (reason_codes : list PromiseReason.t) (service_codes : list string).
#[export] Instance Decided_eq_dec : EqDecision Decided.
Proof. solve_decision. Defined.

Record PromiseOptions := MkPromiseOptions {
  requirement : PromiseRequirement.t;
  default_promised_at : option datetime;
  default_choice : option PromiseChoice.t;
  choices : list (PromiseChoice.t * option datetime);
  reason_codes : list PromiseReason.t;
  human_service_codes : list string;
}.

(** * Which scope a service belongs to *)

Definition scope_for_service (service_code category : string) : TurnaroundScope.t :=
  if category is? "standard_weight"%string then TurnaroundScope.STANDARD_CLOTHES
  else if category is? "shoes"%string then TurnaroundScope.SHOES
  else if service_code in? ["OTHER_CURTAIN"; "OTHER_CURTAIN_INSTALL"]%string
  then TurnaroundScope.CURTAINS
  else if service_code in? ["BED_BLANKET"]%string then TurnaroundScope.BLANKETS_AND_SHEETS
  else TurnaroundScope.OTHER_SPECIAL.

Definition SLA_ID_BY_SCOPE (s : TurnaroundScope.t) : string :=
  match s with
  | TurnaroundScope.STANDARD_CLOTHES => "SLA_STANDARD_CLOTHES"
  | TurnaroundScope.SHOES => "SLA_SHOES"
  | TurnaroundScope.CURTAINS => "SLA_CURTAINS"
  | TurnaroundScope.BLANKETS_AND_SHEETS => "SLA_BLANKETS_SHEETS"
  | TurnaroundScope.OTHER_SPECIAL => "SLA_OTHER_SPECIAL"
  end.

(** * Opening-hour arithmetic *)

Definition _require_aware (value : datetime) : result PromiseFailure unit :=
  raise_if (negb (aware value)) ValueError.

(** [value.replace(second=0, microsecond=0)]. *)
Definition us_per_minute : Z := 60 * us_per_second.
Definition floor_us (w : Z) : Z := w / us_per_minute * us_per_minute.
Definition _floor_minute (value : datetime) : datetime :=
  DateTime (floor_us (wall_us value)) (utcoffset_us value).

(** [datetime.combine(day, clock, SHOP_TIMEZONE)], and the clock of a datetime. *)
Definition combine (day clock : Z) : datetime :=
  DateTime (day * us_per_day + clock) (Some SHOP_TIMEZONE).
Definition clock_of (value : datetime) : Z := wall_us value mod us_per_day.

Definition dt_max (a b : datetime) : datetime := if dt_ltb a b then b else a.

(** The loop of [add_opening_hours]: [n] days are left to walk. *)
Fixpoint walk_opening (policy : TurnaroundPolicy) (n : nat) (day : Z) (cursor : datetime)
    (remaining : timedelta) : result PromiseFailure (option datetime) :=
  match n with
  | O => Err TurnaroundPolicyError
  | S n =>
      if tet_unknown policy day then Ok None
      else
        let open_at := combine day (opens_at policy) in
        let close_at := combine day (closes_at policy) in
        let next remaining :=
          walk_opening policy n (day + 1) (combine (day + 1) (opens_at policy)) remaining in
        if is_closed policy day then next remaining
        else
          let cursor := dt_max cursor open_at in
          if dt_ltb cursor close_at then
            let available := dt_sub close_at cursor in
            if remaining <=? available
            then Ok (Some (astimezone 0 (_floor_minute (dt_add cursor remaining))))
            else next (remaining - available)
          else next remaining
  end.

Definition add_opening_hours (policy : TurnaroundPolicy) (start : datetime) (h : Z)
    : result PromiseFailure (option datetime) :=
  _require_aware start ;;
  raise_if (h <=? 0) ValueError ;;
  let local := astimezone SHOP_TIMEZONE start in
  walk_opening policy _MAX_DAYS_WALKED (date_of local) local (hours h).

(** The loop that leaves closed days behind, and its [else]. *)
Fixpoint skip_closed (policy : TurnaroundPolicy) (n : nat) (day : Z) (landing : datetime)
    : result PromiseFailure (Z * datetime) :=
  match n with
  | O => Err TurnaroundPolicyError
  | S n =>
      if negb (is_closed policy day) then Ok (day, landing)
      else skip_closed policy n (day + 1) (combine (day + 1) (opens_at policy))
  end.

(** [while walked <= day]: whether one of the [n] days from [walked] is an unknown Tet day. *)
Fixpoint touches_tet (policy : TurnaroundPolicy) (n : nat) (walked : Z) : bool :=
  match n with
  | O => false
  | S n => tet_unknown policy walked || touches_tet policy n (walked + 1)
  end.

(** Before opening, to opening that day; after closing, to opening the next day. *)
Definition roll_landing (policy : TurnaroundPolicy) (landing : datetime) : Z * datetime :=
  let day := date_of landing in
  let clock := clock_of landing in
  if clock <? opens_at policy then (day, combine day (opens_at policy))
  else if closes_at policy <? clock then (day + 1, combine (day + 1) (opens_at policy))
  else (day, landing).

Definition add_calendar_hours (policy : TurnaroundPolicy) (start : datetime) (h : Z)
    : result PromiseFailure (option datetime) :=
  _require_aware start ;;
  raise_if (h <=? 0) ValueError ;;
  let local := astimezone SHOP_TIMEZONE start in
  let '(day, landing) := roll_landing policy (_floor_minute (dt_add local (hours h))) in
  '(day, landing) ← skip_closed policy _MAX_DAYS_WALKED day landing;
  let walked := date_of local in
  Ok (if touches_tet policy (Z.to_nat (day + 1 - walked)) walked then None
      else Some (astimezone 0 landing)).

Definition check_promise_time (policy : TurnaroundPolicy) (at_ after : datetime)
    : result PromiseFailure datetime :=
  _require_aware at_ ;;
  _require_aware after ;;
  let moment := _floor_minute (astimezone SHOP_TIMEZONE at_) in
  raise_if (dt_leb moment after) (PromiseError PromiseRefusal.PROMISE_NOT_AFTER_ACCEPTANCE) ;;
  raise_if (is_closed policy (date_of moment)) (PromiseError PromiseRefusal.PROMISE_ON_CLOSED_DAY) ;;
  let clock := clock_of moment in
  raise_if (negb ((opens_at policy <=? clock) && (clock <=? closes_at policy)))
    (PromiseError PromiseRefusal.PROMISE_OUTSIDE_OPENING_HOURS) ;;
  Ok (astimezone 0 moment).

(** * The decision *)

Definition scope_rule (policy : TurnaroundPolicy) (s : TurnaroundScope.t)
    : result PromiseFailure ScopeRule :=
  require_some (dict_get (scopes policy) s) KeyError.

Definition _line (policy : TurnaroundPolicy) (code : string) : result PromiseFailure LinePromise :=
  match dict_get (services policy) code with
  | None => Ok (MkLinePromise code None None None Counting.OPENING_HOURS)
  | Some s =>
      rule ← scope_rule policy s;
      Ok (MkLinePromise code (Some s) (Some (rule_sla_id rule)) (rule_hours rule)
            Counting.OPENING_HOURS)
  end.

Definition _kind (policy : TurnaroundPolicy) (line : LinePromise)
    : result PromiseFailure ScopeKind.t :=
  match scope line with
  | None => Ok ScopeKind.HUMAN
  | Some s => rule ← scope_rule policy s; Ok (kind rule)
  end.

Definition _range_hours (rule : ScopeRule) (choice : option PromiseChoice.t)
    : result PromiseFailure Z :=
  let wanted :=
    match choice with
    | Some PromiseChoice.H24 => Some 24
    | Some PromiseChoice.H48 => Some 48
    | _ => None
    end in
  match (match wanted with None => default_hours rule | Some w => Some w end) with
  | Some h =>
      raise_if (negb (h in? choices_hours rule))
        (PromiseError PromiseRefusal.PROMISE_CHOICE_NOT_APPLICABLE) ;;
      Ok h
  | None => Err (PromiseError PromiseRefusal.PROMISE_CHOICE_NOT_APPLICABLE)
  end.

(** One line of the loop that fixes the hours every line is counted at. *)
Definition count_line (policy : TurnaroundPolicy) (choice : option PromiseChoice.t)
    (line : LinePromise) : result PromiseFailure LinePromise :=
  s ← require_some (scope line) AssertionError;
  rule ← scope_rule policy s;
  match kind rule with
  | ScopeKind.FIXED =>
      h ← require_some (rule_hours rule) AssertionError;
      Ok (MkLinePromise (service_code line) (scope line) (sla_id line) (Some h)
            Counting.OPENING_HOURS)
  | _ =>
      h ← _range_hours rule choice;
      Ok (MkLinePromise (service_code line) (scope line) (sla_id line) (Some h)
            Counting.CALENDAR_HOURS)
  end.

(** When a counted line is promised; [None] across an unknown Tet. *)
Definition line_time (policy : TurnaroundPolicy) (accepted : datetime) (line : LinePromise)
    : result PromiseFailure (option datetime) :=
  h ← require_some (line_hours line) AssertionError;
  match counting line with
  | Counting.CALENDAR_HOURS => add_calendar_hours policy accepted h
  | Counting.OPENING_HOURS => add_opening_hours policy accepted h
  end.

(** The loop over the counted lines: the latest so far wins; [None] is the early return for
    an unknown Tet. *)
Fixpoint latest_line (policy : TurnaroundPolicy) (accepted : datetime)
    (latest : option (datetime * LinePromise)) (counted : list LinePromise)
    : result PromiseFailure (option (datetime * LinePromise)) :=
  match counted with
  | [] => found ← require_some latest AssertionError; Ok (Some found)
  | line :: counted =>
      at_ ← line_time policy accepted line;
      match at_ with
      | None => Ok None
      | Some at_ =>
          latest_line policy accepted
            (match latest with
             | None => Some (at_, line)
             | Some (best, _) => if dt_ltb best at_ then Some (at_, line) else latest
             end) counted
      end
  end.

Definition needs_human (reason : PromiseReason.t) : Decided := PromiseNeedsHuman [reason] [].

Definition refuse (code : PromiseRefusal.t) {A} : result PromiseFailure A := Err (PromiseError code).

Definition custom_promise (policy : TurnaroundPolicy) (accepted : datetime) (codes : list string)
    (ls : list LinePromise) (custom_at : option datetime) : result PromiseFailure Decided :=
  at_ ← require_some custom_at (PromiseError PromiseRefusal.PROMISE_CUSTOM_AT_REQUIRED);
  if codes is? [] then Ok (needs_human PromiseReason.NO_LINES)
  else
    promised ← check_promise_time policy at_ accepted;
    Ok (Promise (MkPromised promised (PromiseChoice.value PromiseChoice.CUSTOM) "STAFF_SET" ls
                   accepted)).

Definition express_promise (policy : TurnaroundPolicy) (accepted : datetime)
    (ls : list LinePromise) (kinds : list ScopeKind.t) : result PromiseFailure Decided :=
  raise_if (negb (forallb (λ k, k is? ScopeKind.FIXED) kinds)
            || existsb (λ l, negb (scope l is? Some TurnaroundScope.STANDARD_CLOTHES)) ls)
    (PromiseError PromiseRefusal.PROMISE_CHOICE_NOT_APPLICABLE) ;;
  at_ ← add_opening_hours policy accepted (express_hours policy);
  match at_ with
  | None => Ok (needs_human PromiseReason.TET_DATES_UNPUBLISHED)
  | Some at_ =>
      Ok (Promise (MkPromised at_ (PromiseChoice.value PromiseChoice.EXPRESS_2H) "EXPRESS_2H"
        ((λ l, MkLinePromise (service_code l) (scope l) (sla_id l) (Some (express_hours policy))
                 Counting.OPENING_HOURS) <$> ls) accepted))
  end.

(** The lines no rule covers: [(reasons, needing)] of the lines with their kinds. *)
Definition human_reasons (ls : list (LinePromise * ScopeKind.t)) : list PromiseReason.t :=
  (if existsb (λ lk, bool_decide (is_Some (scope lk.1)) && (lk.2 is? ScopeKind.HUMAN)) ls
   then [PromiseReason.HUMAN_ETA_REQUIRED] else []) ++
  (if existsb (λ lk, scope lk.1 is? None) ls
   then [PromiseReason.SERVICE_NOT_IN_POLICY] else []).
Definition human_codes (ls : list (LinePromise * ScopeKind.t)) : list string :=
  fromkeys ((λ lk, service_code lk.1) <$> filter (λ lk, lk.2 = ScopeKind.HUMAN) ls).

Definition rule_promise (policy : TurnaroundPolicy) (accepted : datetime)
    (ls : list LinePromise) (kinds : list ScopeKind.t) (choice : option PromiseChoice.t)
    : result PromiseFailure Decided :=
  match human_reasons (zip ls kinds) with
  | (_ :: _) as reasons => Ok (PromiseNeedsHuman reasons (human_codes (zip ls kinds)))
  | [] =>
      counted ← traverse (count_line policy choice) ls;
      found ← latest_line policy accepted None counted;
      match found with
      | None => Ok (needs_human PromiseReason.TET_DATES_UNPUBLISHED)
      | Some (latest, line) =>
          rule ← require_some (sla_id line) AssertionError;
          let basis :=
            if ScopeKind.RANGE_CHOICE in? kinds
            then PromiseChoice.value (default PromiseChoice.H48 choice) else "RULE"%string in
          Ok (Promise (MkPromised latest basis rule counted accepted))
      end
  end.

Definition compute_promise (policy : TurnaroundPolicy) (accepted : datetime) (codes : list string)
    (choice : option PromiseChoice.t) (custom_at : option datetime)
    : result PromiseFailure Decided :=
  _require_aware accepted ;;
  raise_if (bool_decide (is_Some custom_at) && negb (choice is? Some PromiseChoice.CUSTOM))
    (PromiseError PromiseRefusal.PROMISE_CUSTOM_AT_NOT_TAKEN) ;;
  ls ← traverse (_line policy) codes;
  if choice is? Some PromiseChoice.CUSTOM
  then custom_promise policy accepted codes ls custom_at
  else if codes is? [] then Ok (needs_human PromiseReason.NO_LINES)
  else
    kinds ← traverse (_kind policy) ls;
    if choice is? Some PromiseChoice.EXPRESS_2H then express_promise policy accepted ls kinds
    else
      raise_if ((choice in? [Some PromiseChoice.H24; Some PromiseChoice.H48])
                && negb (ScopeKind.RANGE_CHOICE in? kinds))
        (PromiseError PromiseRefusal.PROMISE_CHOICE_NOT_APPLICABLE) ;;
      rule_promise policy accepted ls kinds choice.

(** * What the counter shows *)

(** [compute_promise] for one choice, as an option when it promises. *)
Definition choice_option (c : PromiseChoice.t) (decided : Decided)
    : list (PromiseChoice.t * option datetime) :=
  match decided with
  | Promise p => [(c, Some (promised_at p))]
  | PromiseNeedsHuman _ _ => []
  end.

(** [except PromiseError: express = None]. *)
Definition express_option (r : result PromiseFailure Decided)
    : result PromiseFailure (list (PromiseChoice.t * option datetime)) :=
  match r with
  | Ok decided => Ok (choice_option PromiseChoice.EXPRESS_2H decided)
  | Err (PromiseError _) => Ok []
  | Err e => Err e
  end.

Definition promise_options (policy : TurnaroundPolicy) (accepted : datetime) (codes : list string)
    : result PromiseFailure PromiseOptions :=
  let pressing c := compute_promise policy accepted codes c None in
  standard ← pressing None;
  ls ← traverse (_line policy) codes;
  kinds ← traverse (_kind policy) ls;
  match standard with
  | PromiseNeedsHuman reasons needing =>
      Ok (MkPromiseOptions PromiseRequirement.CUSTOM None None [(PromiseChoice.CUSTOM, None)]
            reasons needing)
  | Promise p =>
      if ScopeKind.RANGE_CHOICE in? kinds then
        h24 ← pressing (Some PromiseChoice.H24);
        h48 ← pressing (Some PromiseChoice.H48);
        Ok (MkPromiseOptions PromiseRequirement.RANGE_CHOICE (Some (promised_at p))
              (Some PromiseChoice.H48)
              (choice_option PromiseChoice.H24 h24 ++ choice_option PromiseChoice.H48 h48
               ++ [(PromiseChoice.CUSTOM, None)]) [] [])
      else
        express ← express_option (pressing (Some PromiseChoice.EXPRESS_2H));
        Ok (MkPromiseOptions PromiseRequirement.NONE (Some (promised_at p)) None
              (express ++ [(PromiseChoice.CUSTOM, None)]) [] [])
  end.

(** * Where an order stands against its promise *)

Definition promise_state (promise_at ready_at : option datetime) (now : datetime)
    : result PromiseFailure (option PromiseState.t) :=
  match promise_at with
  | None => Ok None
  | Some promise_at =>
      _require_aware promise_at ;;
      _require_aware now ;;
      match ready_at with
      | Some ready =>
          _require_aware ready ;;
          Ok (Some (if dt_leb ready promise_at then PromiseState.MET else PromiseState.MISSED))
      | None =>
          Ok (Some (if dt_ltb promise_at now then PromiseState.LATE
                    else if dt_sub promise_at now <=? DUE_SOON then PromiseState.DUE_SOON
                    else PromiseState.ON_TRACK))
      end
  end.

Module PromiseFigures.
Inductive outcome_t :=
  | PENDING | MET | BREACHED.
Record t := Make {
  outcome : outcome_t;
  elapsed_microseconds : Z;
  remaining_microseconds : Z;
  breach_microseconds : Z;
}.
End PromiseFigures.

Definition _microseconds (value : timedelta) : Z :=
  td_days value * 86_400_000_000 + td_seconds value * 1_000_000 + td_microseconds value.

Definition promise_figures (promise_at accepted : datetime) (ready_at : option datetime)
    (now : datetime) : result PromiseFailure PromiseFigures.t :=
  _require_aware promise_at ;;
  _require_aware accepted ;;
  _require_aware now ;;
  let comparison := default now ready_at in
  _require_aware comparison ;;
  let elapsed := Z.max 0 (_microseconds (dt_sub comparison accepted)) in
  let remaining := Z.max 0 (_microseconds (dt_sub promise_at comparison)) in
  let breach := Z.max 0 (_microseconds (dt_sub comparison promise_at)) in
  let finished :=
    match ready_at with Some _ => PromiseFigures.MET | None => PromiseFigures.PENDING end in
  Ok (PromiseFigures.Make
        (if negb (breach =? 0) then PromiseFigures.BREACHED else finished)
        elapsed remaining breach).

Definition met_first_promise (first_promise_at ready_at : datetime) : result PromiseFailure bool :=
  _require_aware first_promise_at ;;
  _require_aware ready_at ;;
  Ok (dt_leb ready_at first_promise_at).
