(* ===== verification/OpeningHours.v ===== *)
(** What the two ways of counting hours of [Promise] mean.  The reference is pointwise: an
    instant is worked when it falls in the opening hours of a day that is not closed, and a
    span's working time is the number of worked microseconds in it.  [add_opening_hours]
    stops the clock after exactly the asked working time; [add_calendar_hours] gives the
    first instant a promise may name, from the asked hours on. *)
From Stdlib Require Import String.
From S2P Require Import Prelude Counting Clock Calendar Promise.
Local Open Scope laundry_scope.
Local Open Scope Z_scope.

(** Instants below are the shop's wall clock, in microseconds. *)
Definition wall_day (w : Z) : Z := w / us_per_day.
Definition wall_clock (w : Z) : Z := w mod us_per_day.

(** The shop is working at [w]. *)
Definition working (policy : TurnaroundPolicy) (w : Z) : bool :=
  negb (is_closed policy (wall_day w)) &&
  ((opens_at policy <=? wall_clock w) && (wall_clock w <? closes_at policy)).

(** A promise may name [w]: on an open day, closing time included. *)
Definition promisable (policy : TurnaroundPolicy) (w : Z) : bool :=
  negb (is_closed policy (wall_day w)) &&
  ((opens_at policy <=? wall_clock w) && (wall_clock w <=? closes_at policy)).

(** The worked microseconds of [[a, b)]. *)
Notation worked policy := (spanned (working policy)).

(** No day from [a]'s to [b]'s is in an unpublished Tet. *)
Definition tet_known (policy : TurnaroundPolicy) (a b : Z) : Prop :=
  ∀ d, wall_day a <= d <= wall_day b → tet_unknown policy d = false.

(** The opening hours of a policy the parser accepts: within one day, on whole minutes. *)
Record opening_hours_ok (policy : TurnaroundPolicy) : Prop := {
  opens_nonneg : 0 <= opens_at policy;
  opens_closes : opens_at policy < closes_at policy;
  closes_in_day : closes_at policy < us_per_day;
  opens_minute : floor_us (opens_at policy) = opens_at policy;
  closes_minute : floor_us (closes_at policy) = closes_at policy;
}.

(** The wall clock in the shop of an instant. *)
Definition shop_wall (d : datetime) : Z := instant d + SHOP_TIMEZONE.
Definition at_wall (w : Z) : datetime := astimezone 0 (DateTime w (Some SHOP_TIMEZONE)).

Lemma shop_wall_at w : shop_wall (at_wall w) = w.
Proof. unfold shop_wall, at_wall. rewrite instant_astimezone. unfold instant. cbn. lia. Qed.

(** * Days *)

Lemma us_per_day_pos : 0 < us_per_day.
Proof. done. Qed.

Lemma wall_day_of d c : 0 <= c < us_per_day → wall_day (d * us_per_day + c) = d.
Proof. intros. unfold wall_day. rewrite Z.div_add_l by done. rewrite (Z.div_small c); lia. Qed.

Lemma wall_clock_of d c : 0 <= c < us_per_day → wall_clock (d * us_per_day + c) = c.
Proof. intros. unfold wall_clock. rewrite Z.add_comm, Z.mod_add by done. by apply Z.mod_small. Qed.

Lemma wall_split w : w = wall_day w * us_per_day + wall_clock w ∧ 0 <= wall_clock w < us_per_day.
Proof.
  unfold wall_day, wall_clock. pose proof (Z.div_mod w us_per_day ltac:(done)).
  pose proof (Z.mod_pos_bound w us_per_day ltac:(done)). lia.
Qed.

Lemma wall_day_range d w : d * us_per_day <= w < (d + 1) * us_per_day ↔ wall_day w = d.
Proof.
  split.
  - intros H. unfold wall_day. symmetry. apply Z.div_unique with (w - d * us_per_day); lia.
  - intros <-. destruct (wall_split w). lia.
Qed.

(** A day on which working is decided by the clock alone. *)
Lemma working_on policy d w : d * us_per_day <= w < (d + 1) * us_per_day →
  working policy w = negb (is_closed policy d) &&
    ((d * us_per_day + opens_at policy <=? w) && (w <? d * us_per_day + closes_at policy)).
Proof.
  intros Hw. apply wall_day_range in Hw as Hd. unfold working. destruct (wall_split w) as [E _].
  rewrite Hd in *. f_equal. f_equal; apply eq_true_iff_eq; rewrite ?Z.leb_le, ?Z.ltb_lt; lia.
Qed.

(** * Counting opening hours *)

(** What walking [n] days from wall time [w] of day [d] answers for a duration [r]: the
    instant at which [r] has been worked; or the first day of an unknown Tet, reached with
    work left; or a calendar without enough working time. *)
Definition walk_post (policy : TurnaroundPolicy) (n : nat) (d w r : Z)
    (res : result PromiseFailure (option datetime)) : Prop :=
  match res with
  | Ok (Some p) => ∃ e, p = at_wall (floor_us e) ∧ worked policy w e = r ∧ w < e ∧
      working policy (e - 1) = true ∧ wall_day e < d + Z.of_nat n ∧ tet_known policy w e
  | Ok None => ∃ d', d <= d' < d + Z.of_nat n ∧ tet_unknown policy d' = true ∧
      (∀ k, d <= k < d' → tet_unknown policy k = false) ∧ worked policy w (d' * us_per_day) < r
  | Err x => x = TurnaroundPolicyError ∧ worked policy w ((d + Z.of_nat n) * us_per_day) < r ∧
      (∀ k, d <= k < d + Z.of_nat n → tet_unknown policy k = false)
  end.

Section opening.
Context (policy : TurnaroundPolicy) (Hok : opening_hours_ok policy).

Notation next_open d := ((d + 1) * us_per_day + opens_at policy).

Lemma worked_shift d w x : d * us_per_day <= w < (d + 1) * us_per_day → (d + 1) * us_per_day <= x →
  worked policy w x = worked policy w ((d + 1) * us_per_day) + worked policy (next_open d) x.
Proof.
  intros Hw Hx. destruct Hok as [H1 H2 H3 _ _]. rewrite (spanned_split _ w ((d + 1) * us_per_day) x) by lia.
  f_equal. assert (∀ y, y <= next_open d → worked policy ((d + 1) * us_per_day) y = 0) as Hnone.
  { intros y Hy. apply spanned_none. intros v Hv. rewrite (working_on policy (d + 1)) by lia.
    rewrite andb_assoc, (proj2 (Z.leb_gt _ _)), andb_false_r by lia. done. }
  destruct (Z.le_gt_cases x (next_open d)).
  - rewrite (spanned_nil _ (next_open d) x) by lia. by apply Hnone.
  - rewrite (spanned_split _ _ (next_open d) x), Hnone by lia. lia.
Qed.

Lemma worked_rest_of_day d w : d * us_per_day <= w < (d + 1) * us_per_day →
  worked policy w ((d + 1) * us_per_day) =
  if is_closed policy d then 0
  else Z.max 0 (d * us_per_day + closes_at policy - Z.max w (d * us_per_day + opens_at policy)).
Proof.
  intros Hw. destruct Hok as [H1 H2 H3 _ _]. destruct (is_closed policy d) eqn:Hc.
  { apply spanned_none. intros v Hv. rewrite (working_on policy d) by lia. by rewrite Hc. }
  set (o := d * us_per_day + opens_at policy). set (c := d * us_per_day + closes_at policy).
  assert (∀ v, d * us_per_day <= v < (d + 1) * us_per_day → working policy v = (o <=? v) && (v <? c)) as Hv.
  { intros v Hv. rewrite (working_on policy d) by lia. by rewrite Hc. }
  rewrite (spanned_split _ w (Z.max w o)), (spanned_split _ (Z.max w o) (Z.max (Z.max w o) c)) by lia.
  rewrite (spanned_none _ w), (spanned_all _ (Z.max w o)), (spanned_none _ (Z.max (Z.max w o) c)); [lia|..].
  - intros v Hr. rewrite Hv, (proj2 (Z.ltb_ge _ _)) by lia. apply andb_false_r.
  - lia.
  - intros v Hr. rewrite Hv by lia. rewrite andb_true_iff, Z.leb_le, Z.ltb_lt. lia.
  - intros v Hr. rewrite Hv, (proj2 (Z.leb_gt _ _)) by lia. done.
Qed.

(** Work that ends today. *)
Lemma worked_today d w r : d * us_per_day <= w < (d + 1) * us_per_day → is_closed policy d = false →
  0 < r <= d * us_per_day + closes_at policy - Z.max w (d * us_per_day + opens_at policy) →
  let e := Z.max w (d * us_per_day + opens_at policy) + r in
  worked policy w e = r ∧ working policy (e - 1) = true.
Proof.
  intros Hw Hc Hr e. destruct Hok as [H1 H2 H3 _ _]. unfold e.
  set (o := d * us_per_day + opens_at policy) in *.
  assert (∀ v, Z.max w o <= v < d * us_per_day + closes_at policy → working policy v = true) as Hv.
  { intros v Hv. rewrite (working_on policy d), Hc by lia. cbn [negb andb].
    rewrite andb_true_iff, Z.leb_le, Z.ltb_lt. lia. }
  split; [|apply Hv; lia]. rewrite (spanned_split _ w (Z.max w o)) by lia.
  rewrite spanned_none, spanned_all; [lia|lia|intros; apply Hv; lia|].
  intros v Hr'. rewrite (working_on policy d), Hc by lia. rewrite (proj2 (Z.leb_gt _ _)) by lia. done.
Qed.

Lemma walk_post_next n d w r a res : d * us_per_day <= w < (d + 1) * us_per_day →
  tet_unknown policy d = false → a = worked policy w ((d + 1) * us_per_day) →
  walk_post policy n (d + 1) (next_open d) (r - a) res → walk_post policy (S n) d w r res.
Proof.
  intros Hw Ht Ha. destruct Hok as [H1 H2 H3 _ _].
  assert (∀ k, k = d ∨ tet_unknown policy k = false → tet_unknown policy k = false) as Htet by naive_solver.
  destruct res as [[p|]|x]; cbn [walk_post].
  - intros (e & -> & Hr & Hlt & He & Hd & Hk). exists e. rewrite (worked_shift d w e) by lia.
    split_and!; try done; try lia. intros k Hk'. apply Htet. destruct (decide (k = d)); [by left|right].
    apply Hk. rewrite wall_day_of by lia. apply wall_day_range in Hw. lia.
  - intros (d' & Hd & Hd' & Hk & Hr). exists d'. rewrite (worked_shift d w (d' * us_per_day)) by nia.
    split_and!; try done; try lia. intros k Hk'. apply Htet. destruct (decide (k = d)); [by left|right].
    apply Hk. lia.
  - intros (-> & Hr & Hk). rewrite (worked_shift d w) by nia.
    replace (d + Z.of_nat (S n)) with (d + 1 + Z.of_nat n) by lia.
    split_and!; try done; try lia. intros k Hk'. apply Htet. destruct (decide (k = d)); [by left|right].
    apply Hk. lia.
Qed.

Lemma dt_max_shop w v : dt_max (DateTime w (Some SHOP_TIMEZONE)) (DateTime v (Some SHOP_TIMEZONE)) =
  DateTime (Z.max w v) (Some SHOP_TIMEZONE).
Proof. unfold dt_max, dt_ltb, instant. cbn. destruct (Z.ltb_spec (w - SHOP_TIMEZONE) (v - SHOP_TIMEZONE)); f_equal; lia. Qed.

Lemma walk_opening_spec n : ∀ d w r, d * us_per_day <= w < (d + 1) * us_per_day → 0 < r →
  walk_post policy n d w r (walk_opening policy n d (DateTime w (Some SHOP_TIMEZONE)) r).
Proof.
  induction n as [|n IH]; intros d w r Hw Hr.
  { cbn. rewrite spanned_nil by lia. split_and!; try done. lia. }
  destruct Hok as [H1 H2 H3 _ _]. cbn [walk_opening].
  destruct (tet_unknown policy d) eqn:Ht.
  { exists d. rewrite spanned_nil by lia. split_and!; try done; lia. }
  pose proof (worked_rest_of_day d w Hw) as Ha.
  destruct (is_closed policy d) eqn:Hc.
  { eapply (walk_post_next n d w r _ _ Hw Ht (eq_sym Ha)). rewrite Z.sub_0_r. unfold combine. apply IH; lia. }
  unfold combine. rewrite dt_max_shop.
  set (c := Z.max w (d * us_per_day + opens_at policy)) in *. unfold dt_ltb, dt_sub, instant.
  cbn [wall_us utcoffset_us default from_option id dt_add].
  destruct (Z.ltb_spec (c - SHOP_TIMEZONE) (d * us_per_day + closes_at policy - SHOP_TIMEZONE)).
  - case_match eqn:Hle; guards.
    + exists (c + r). destruct (worked_today d w r Hw Hc) as [He Hwork]; [lia|]. fold c in He, Hwork.
      assert (wall_day (c + r) = d) as Hd by (apply wall_day_range; lia).
      split_and!; try done; try lia. intros k. rewrite Hd. apply wall_day_range in Hw. rewrite Hw.
      intros ?. by replace k with d by lia.
    + eapply (walk_post_next n d w r _ _ Hw Ht (eq_sym Ha)).
      replace (Z.max 0 _) with (d * us_per_day + closes_at policy - SHOP_TIMEZONE - (c - SHOP_TIMEZONE)) by lia.
      apply IH; lia.
  - eapply (walk_post_next n d w r _ _ Hw Ht (eq_sym Ha)). rewrite Z.max_l, Z.sub_0_r by lia. apply IH; lia.
Qed.
End opening.

(** * Floors *)

Lemma floor_us_bounds w : floor_us w <= w < floor_us w + us_per_minute.
Proof. unfold floor_us. pose proof (Z.mod_pos_bound w us_per_minute ltac:(done)).
  pose proof (Z.div_mod w us_per_minute ltac:(done)). lia. Qed.

Lemma floor_us_le a w : floor_us a = a → a <= w → a <= floor_us w.
Proof.
  intros Ha H. rewrite <- Ha. unfold floor_us. apply Z.mul_le_mono_nonneg_r; [done|]. by apply Z.div_le_mono.
Qed.

Lemma floor_us_add_day d c : floor_us (d * us_per_day + c) = d * us_per_day + floor_us c.
Proof.
  unfold floor_us. change us_per_day with (1_440 * us_per_minute) at 1 2.
  rewrite Z.mul_assoc, Z.div_add_l by done. ring.
Qed.

Lemma floor_us_idemp w : floor_us (floor_us w) = floor_us w.
Proof. unfold floor_us at 1 3. f_equal. unfold floor_us. by rewrite Z.div_mul. Qed.

Lemma hours_pos h : 0 < h → us_per_hour <= hours h.
Proof. intros. unfold hours. change us_per_hour with 3_600_000_000. lia. Qed.

Lemma shop_local start : astimezone SHOP_TIMEZONE start = DateTime (shop_wall start) (Some SHOP_TIMEZONE).
Proof. done. Qed.

(** A promise in opening hours, seen from an instant worked just before it. *)
Lemma promisable_floor policy e : opening_hours_ok policy → working policy (e - 1) = true →
  promisable policy (floor_us e) = true.
Proof.
  intros [H1 H2 H3 H4 H5]. unfold working, promisable. rewrite !andb_true_iff, !Z.leb_le, Z.ltb_lt.
  intros (Hc & Ho & Hcl). destruct (wall_split (e - 1)) as [E B].
  set (d := wall_day (e - 1)) in *. set (c := wall_clock (e - 1)) in *.
  assert (floor_us e = d * us_per_day + floor_us (c + 1)) as ->.
  { rewrite <- floor_us_add_day. f_equal. lia. }
  pose proof (floor_us_bounds (c + 1)). pose proof (floor_us_le (opens_at policy) (c + 1) H4 ltac:(lia)).
  rewrite wall_day_of, wall_clock_of by lia. split_and!; [done|lia..].
Qed.

(** * The two ways of counting *)

Section counted.
Context (policy : TurnaroundPolicy) (Hok : opening_hours_ok policy).
Context (start : datetime) (h : Z) (Haware : aware start = true) (Hh : 0 < h).

Notation w := (shop_wall start).

Lemma add_opening_walk :
  walk_post policy _MAX_DAYS_WALKED (wall_day w) w (hours h) (add_opening_hours policy start h).
Proof.
  unfold add_opening_hours, _require_aware. rewrite Haware, (proj2 (Z.leb_gt _ _)) by done.
  cbn [negb raise_if mbind result_bind]. rewrite shop_local.
  apply walk_opening_spec; [done| |pose proof (hours_pos h Hh); change us_per_hour with 3_600_000_000 in *; lia].
  by apply wall_day_range.
Qed.

(** The opening-hours promise is the instant at which the asked hours have been worked. *)
Lemma add_opening_promised p : add_opening_hours policy start h = Ok (Some p) ↔
  ∃ e, p = at_wall (floor_us e) ∧ worked policy w e = hours h ∧ w < e ∧ working policy (e - 1) = true ∧
    wall_day e < wall_day w + 400 ∧ tet_known policy w e.
Proof.
  pose proof add_opening_walk as H. split; [intros E; by rewrite E in H|].
  intros (e & -> & Hr & Hlt & He & Hd & Hk). destruct (wall_split e) as [Ee Be].
  assert (∀ d', wall_day e < d' → hours h <= worked policy w (d' * us_per_day)) as Hlate.
  { intros d' Hd'. rewrite <- Hr. apply spanned_mono. nia. }
  destruct (add_opening_hours policy start h) as [[p|]|x].
  - destruct H as (e' & -> & Hr' & Hlt' & He' & _).
    by rewrite (spanned_unique (working policy) w e e') by congruence.
  - destruct H as (d' & Hd' & Ht & _ & Hr'). destruct (Z.lt_ge_cases (wall_day e) d') as [Hlt'|Hge].
    + specialize (Hlate d' Hlt'). lia.
    + rewrite Hk in Ht by lia. done.
  - destruct H as (_ & Hr' & _). specialize (Hlate (wall_day w + Z.of_nat _MAX_DAYS_WALKED) Hd). lia.
Qed.

(** It is refused as a broken calendar exactly when no 400 days have that much work in them. *)
Lemma add_opening_raises x : add_opening_hours policy start h = Err x ↔
  x = TurnaroundPolicyError ∧ worked policy w ((wall_day w + 400) * us_per_day) < hours h ∧
  (∀ k, wall_day w <= k < wall_day w + 400 → tet_unknown policy k = false).
Proof.
  pose proof add_opening_walk as H. split; [intros E; by rewrite E in H|].
  intros (-> & Hr & Hk). destruct (add_opening_hours policy start h) as [[p|]|x].
  - destruct H as (e & _ & Hr' & Hlt & He & Hd & _). destruct (wall_split e) as [Ee Be].
    assert (hours h <= worked policy w ((wall_day w + 400) * us_per_day)); [|lia].
    rewrite <- Hr'. apply spanned_mono. change (Z.of_nat _MAX_DAYS_WALKED) with 400 in Hd. nia.
  - destruct H as (d' & Hd' & Ht & _). change (Z.of_nat _MAX_DAYS_WALKED) with 400 in Hd'.
    rewrite Hk in Ht by lia. done.
  - by destruct H as [-> _].
Qed.
End counted.

(** [e] is the first instant from [f] on that a promise may name. *)
Definition earliest (policy : TurnaroundPolicy) (f e : Z) : Prop :=
  f <= e ∧ promisable policy e = true ∧ ∀ v, f <= v < e → promisable policy v = false.

(** The day on which the search of [add_calendar_hours] starts. *)
Definition landing_day (policy : TurnaroundPolicy) (f : Z) : Z :=
  if closes_at policy <? wall_clock f then wall_day f + 1 else wall_day f.

Lemma touches_tet_false policy n : ∀ a, touches_tet policy n a = false ↔
  ∀ k, a <= k < a + Z.of_nat n → tet_unknown policy k = false.
Proof.
  induction n as [|n IH]; intros a; cbn [touches_tet]; [split; [lia|done]|].
  rewrite orb_false_iff, IH. split.
  - intros [H1 H2] k Hk. destruct (decide (k = a)) as [->|]; [done|]. apply H2. lia.
  - intros H. split; [apply H; lia|]. intros k Hk. apply H. lia.
Qed.

Lemma promisable_on policy d c : 0 <= c < us_per_day → promisable policy (d * us_per_day + c) =
  negb (is_closed policy d) && ((opens_at policy <=? c) && (c <=? closes_at policy)).
Proof. intros. unfold promisable. by rewrite wall_day_of, wall_clock_of. Qed.

Section calendar.
Context (policy : TurnaroundPolicy) (Hok : opening_hours_ok policy).

Lemma skip_closed_spec n : ∀ d l,
  match skip_closed policy n d l with
  | Ok (d', l') => d <= d' < d + Z.of_nat n ∧ is_closed policy d' = false ∧
      (∀ k, d <= k < d' → is_closed policy k = true) ∧
      l' = (if d' =? d then l else combine d' (opens_at policy))
  | Err x => x = TurnaroundPolicyError ∧ ∀ k, d <= k < d + Z.of_nat n → is_closed policy k = true
  end.
Proof.
  induction n as [|n IH]; intros d l; cbn [skip_closed]; [split; [done|lia]|].
  destruct (is_closed policy d) eqn:Hc; cbn [negb].
  2: { rewrite Z.eqb_refl. split_and!; try done; lia. }
  specialize (IH (d + 1) (combine (d + 1) (opens_at policy))).
  assert (∀ b : Z, (∀ k, d + 1 <= k < b → is_closed policy k = true) →
    ∀ k, d <= k < b → is_closed policy k = true) as Hday.
  { intros b Hb k Hk. destruct (decide (k = d)) as [->|]; [done|]. apply Hb. lia. }
  destruct (skip_closed policy n (d + 1) _) as [[d' l']|x].
  - destruct IH as (Hd & Ho & Hk & ->). split_and!; [lia..|done|by apply Hday|].
    rewrite (proj2 (Z.eqb_neq d' d)) by lia. destruct (Z.eqb_spec d' (d + 1)); by subst.
  - destruct IH as (-> & Hk). split; [done|]. apply Hday. intros k ?. apply Hk. lia.
Qed.

(** Rolling an instant into opening hours finds the earliest one a promise may name. *)
Lemma roll_earliest f d' : landing_day policy f <= d' → is_closed policy d' = false →
  (∀ k, landing_day policy f <= k < d' → is_closed policy k = true) →
  earliest policy f
    (if (d' =? wall_day f) && (opens_at policy <=? wall_clock f) then f
     else d' * us_per_day + opens_at policy).
Proof.
  intros Hd Ho Hk. destruct Hok as [H1 H2 H3 _ _]. destruct (wall_split f) as [Ef Bf].
  unfold landing_day in *. set (d := wall_day f) in *. set (c := wall_clock f) in *.
  assert (∀ v, wall_day v < d' → d <= wall_day v → f <= v → promisable policy v = false) as Hbefore.
  { intros v Hv1 Hv2 Hv3. destruct (wall_split v) as [Ev Bv]. rewrite Ev, promisable_on by done.
    destruct (Z.ltb_spec (closes_at policy) c) as [Hc|Hc].
    - destruct (decide (wall_day v = d)) as [E|].
      + rewrite (proj2 (Z.leb_gt (wall_clock v) _)), !andb_false_r; [done|].
        rewrite E in Ev. assert (c <= wall_clock v); nia.
      + rewrite Hk by lia. done.
    - rewrite Hk by lia. done. }
  assert (∀ v, f <= v → v < d' * us_per_day + opens_at policy → promisable policy v = false) as Hroll.
  { intros v Hv1 Hv2. destruct (wall_split v) as [Ev Bv].
    destruct (Z.lt_ge_cases (wall_day v) d') as [Hlt|Hge]; [apply Hbefore; try done; nia|].
    rewrite Ev, promisable_on by done. rewrite (proj2 (Z.leb_gt (opens_at policy) _)) by nia.
    by rewrite andb_false_r. }
  destruct (Z.eqb_spec d' d) as [->|Hne]; cbn [andb].
  - destruct (Z.ltb_spec (closes_at policy) c) as [Hc|Hc]; [lia|].
    destruct (Z.leb_spec (opens_at policy) c).
    + split; [lia|]. split; [|lia]. rewrite Ef, promisable_on, Ho by done.
      cbn [negb andb]. rewrite andb_true_iff, !Z.leb_le. lia.
    + split; [lia|]. split; [|intros v [? ?]; by apply Hroll].
      rewrite promisable_on, Ho by lia. cbn [negb andb]. rewrite andb_true_iff, !Z.leb_le. lia.
  - assert (d < d') by (destruct (closes_at policy <? c); lia).
    split; [nia|]. split; [|intros v [? ?]; by apply Hroll].
    rewrite promisable_on, Ho by lia. cbn [negb andb]. rewrite andb_true_iff, !Z.leb_le. lia.
Qed.

Lemma roll_landing_spec f : ∃ l0,
  roll_landing policy (DateTime f (Some SHOP_TIMEZONE)) = (landing_day policy f, l0) ∧
  ∀ d', landing_day policy f <= d' →
    (if d' =? landing_day policy f then l0 else combine d' (opens_at policy)) =
    DateTime (if (d' =? wall_day f) && (opens_at policy <=? wall_clock f) then f
              else d' * us_per_day + opens_at policy) (Some SHOP_TIMEZONE).
Proof.
  unfold roll_landing, landing_day. change (clock_of _) with (wall_clock f).
  change (date_of _) with (wall_day f). pose proof (opens_closes policy Hok).
  destruct (Z.ltb_spec (wall_clock f) (opens_at policy)).
  - rewrite (proj2 (Z.ltb_ge (closes_at policy) _)), (proj2 (Z.leb_gt (opens_at policy) _)) by lia.
    eexists; split; [done|]. intros d' _. rewrite andb_false_r. destruct (Z.eqb_spec d' (wall_day f)); by subst.
  - destruct (Z.ltb_spec (closes_at policy) (wall_clock f)).
    + eexists; split; [done|]. intros d' Hd'. rewrite (proj2 (Z.eqb_neq d' (wall_day f))) by lia.
      cbn [andb]. destruct (Z.eqb_spec d' (wall_day f + 1)); by subst.
    + eexists; split; [done|]. intros d' _. rewrite (proj2 (Z.leb_le (opens_at policy) _)), andb_true_r by lia.
      by destruct (Z.eqb_spec d' (wall_day f)).
Qed.

Lemma earliest_unique f e e' : earliest policy f e → earliest policy f e' → e = e'.
Proof.
  intros (Ha & Hb & Hc) (Ha' & Hb' & Hc'). destruct (Z.lt_trichotomy e e') as [Hlt|[->|Hlt]]; [|done|].
  - rewrite Hc' in Hb by lia. done.
  - rewrite Hc in Hb' by lia. done.
Qed.
End calendar.

Section calendar_hours.
Context (policy : TurnaroundPolicy) (Hok : opening_hours_ok policy).
Context (start : datetime) (h : Z) (Haware : aware start = true) (Hh : 0 < h).

Notation w := (shop_wall start).
(** The asked hours on the clock, floored to the minute. *)
Notation f := (floor_us (shop_wall start + hours h)).

Lemma calendar_target_after : w < f.
Proof.
  pose proof (floor_us_bounds (w + hours h)). pose proof (hours_pos h Hh).
  change us_per_minute with 60_000_000 in *. change us_per_hour with 3_600_000_000 in *. lia.
Qed.

Lemma wall_day_mono a b : a <= b → wall_day a <= wall_day b.
Proof. intros. unfold wall_day. by apply Z.div_le_mono. Qed.

Lemma add_calendar_cases :
  match add_calendar_hours policy start h with
  | Ok (Some p) => ∃ e, p = at_wall e ∧ earliest policy f e ∧
      wall_day e < landing_day policy f + 400 ∧ tet_known policy w e
  | Ok None => ∃ e k, earliest policy f e ∧ wall_day e < landing_day policy f + 400 ∧
      wall_day w <= k <= wall_day e ∧ tet_unknown policy k = true
  | Err x => x = TurnaroundPolicyError ∧
      ∀ k, landing_day policy f <= k < landing_day policy f + 400 → is_closed policy k = true
  end.
Proof.
  unfold add_calendar_hours, _require_aware. rewrite Haware, (proj2 (Z.leb_gt _ _)) by done.
  cbn [negb raise_if mbind result_bind]. rewrite shop_local.
  change (_floor_minute _) with (DateTime f (Some SHOP_TIMEZONE)).
  change (date_of (DateTime w _)) with (wall_day w).
  destruct (roll_landing_spec policy Hok f) as (l0 & -> & Hl0).
  pose proof (skip_closed_spec policy _MAX_DAYS_WALKED (landing_day policy f) l0) as Hs.
  destruct (skip_closed policy _ _ _) as [[d' l']|x]; [|exact Hs].
  destruct Hs as (Hd & Ho & Hk & ->). rewrite Hl0 by lia. cbn [mbind result_bind].
  pose proof (roll_earliest policy Hok f d' ltac:(lia) Ho Hk) as He.
  set (e := if _ && _ then f else _) in *. assert (wall_day e = d') as Hde.
  { destruct Hok as [H1 H2 H3 _ _]. unfold e. destruct (Z.eqb_spec d' (wall_day f)); cbn [andb].
    - case_match; [done|]. apply wall_day_of. lia.
    - apply wall_day_of. lia. }
  assert (wall_day w <= d').
  { rewrite <- Hde. apply wall_day_mono. pose proof calendar_target_after. destruct He. lia. }
  change (Z.of_nat _MAX_DAYS_WALKED) with 400 in Hd.
  destruct (touches_tet policy _ _) eqn:Ht.
  - assert (¬ ∀ k, wall_day w <= k < wall_day w + Z.of_nat (Z.to_nat (d' + 1 - wall_day w)) →
      tet_unknown policy k = false) as Hn by (rewrite <- touches_tet_false, Ht; done).
    destruct (decide (Forall (λ k, tet_unknown policy k = false) (seqZ (wall_day w) (d' + 1 - wall_day w)))) as [Hf|Hf].
    + destruct Hn. intros k Hk'. rewrite Forall_forall in Hf. apply Hf, elem_of_seqZ. lia.
    + apply not_Forall_Exists in Hf; [|apply _]. apply Exists_exists in Hf as (k & Hin & Hne).
      apply elem_of_seqZ in Hin. exists e, k. cbn in Hne. apply not_false_is_true in Hne.
      split_and!; try done; lia.
  - exists e. rewrite touches_tet_false in Ht. split_and!; [done..|lia|].
    intros k Hk'. apply Ht. lia.
Qed.

Lemma add_calendar_promised p : add_calendar_hours policy start h = Ok (Some p) ↔
  ∃ e, p = at_wall e ∧ earliest policy f e ∧ wall_day e < landing_day policy f + 400 ∧ tet_known policy w e.
Proof.
  pose proof add_calendar_cases as H. split; [intros E; by rewrite E in H|].
  intros (e & -> & He & Hd & Hk). destruct (add_calendar_hours policy start h) as [[p|]|x].
  - destruct H as (e' & -> & He' & _). by rewrite (earliest_unique policy f e e').
  - destruct H as (e' & k & He' & _ & Hk' & Ht). rewrite (earliest_unique policy f e e') in Hk by done.
    rewrite Hk in Ht by lia. done.
  - destruct H as (-> & Hcl). destruct He as (Hfe & Hp & _). unfold promisable in Hp. guards.
    rewrite Hcl in *; [done|]. split; [|done]. unfold landing_day. pose proof (wall_day_mono f e Hfe).
    destruct (Z.ltb_spec (closes_at policy) (wall_clock f)) as [Hc|]; [|lia].
    destruct (decide (wall_day e = wall_day f)) as [E|]; [|lia].
    destruct (wall_split e), (wall_split f). rewrite E in *. lia.
Qed.
End calendar_hours.
