(* ===== verification/Json.v ===== *)
(** JSON values as the program decodes them, and the canonical snapshot of a configuration
    payload ([packages/db/.../configurations.py]): the payload without its volatile fields. *)
From Stdlib Require Import String.
From S2P Require Import Prelude.
Local Open Scope laundry_scope.

(** A decoded JSON value.  The keys of an object are distinct, as a Python dict's are; no
    modelled reader accepts a number that is not an integer, so its value is not kept. *)
Inductive json :=
  | JNull
  | JBool (b : bool)
  | JInt (z : Z)
  | JFloat
  | JStr (s : string)
  | JList (l : list json)
  | JObj (o : list (string * json)).

Notation object := (list (string * json)).

(** [mapping.get(key) == text]. *)
Definition says (o : object) (key text : string) : bool :=
  match dict_get o key with Some (JStr s) => s is? text | _ => false end.

Definition VOLATILE_HASH_FIELDS : list string :=
  ["trace_id"; "request_received_at"; "server_generated_at"]%string.
Definition volatile (key : string) : bool := key in? VOLATILE_HASH_FIELDS.

(** [_without_volatile_fields]: of any value, and of an object. *)
Fixpoint without_volatile (value : json) : json :=
  match value with
  | JObj o =>
      JObj ((fix go (o : object) :=
               match o with
               | [] => []
               | (k, v) :: o => if volatile k then go o else (k, without_volatile v) :: go o
               end) o)
  | JList l => JList (map without_volatile l)
  | _ => value
  end.

Fixpoint _without_volatile_fields (payload : object) : object :=
  match payload with
  | [] => []
  | (k, v) :: rest =>
      if volatile k then _without_volatile_fields rest
      else (k, without_volatile v) :: _without_volatile_fields rest
  end.

Lemma without_volatile_obj o : without_volatile (JObj o) = JObj (_without_volatile_fields o).
Proof. done. Qed.

(** Looking up a field that is not volatile. *)
Lemma dict_get_without_volatile o k : volatile k = false →
  dict_get (_without_volatile_fields o) k = without_volatile <$> dict_get o k.
Proof.
  intros Hk. induction o as [|[k' v] o IH]; [done|]. cbn. destruct (volatile k') eqn:Hk'.
  - rewrite IH, decide_False by congruence. done.
  - cbn. by case_decide.
Qed.

(** Induction that reaches the values inside lists and objects. *)
Section json_ind.
Context (P : json → Prop).
Context (Hleaf : ∀ j, match j with JList _ | JObj _ => True | _ => P j end).
Context (Hlist : ∀ l, Forall P l → P (JList l)) (Hobj : ∀ o, Forall (λ e, P e.2) o → P (JObj o)).

Fixpoint json_nested_ind (j : json) : P j.
Proof.
  destruct j as [|b|z| |s|l|o];
    [exact (Hleaf JNull)|exact (Hleaf (JBool b))|exact (Hleaf (JInt z))|exact (Hleaf JFloat)|exact (Hleaf (JStr s))| |].
  - apply Hlist. induction l as [|x l IH]; [constructor|]. constructor; [apply json_nested_ind|exact IH].
  - apply Hobj. induction o as [|[k v] o IH]; [constructor|].
    constructor; [apply json_nested_ind|exact IH].
Defined.
End json_ind.

(** What is stored has no volatile field left to remove. *)
Lemma without_volatile_idemp j : without_volatile (without_volatile j) = without_volatile j.
Proof.
  revert j. apply json_nested_ind; [|intros l Hl|intros o Ho].
  - by intros [].
  - cbn. f_equal. rewrite map_map. induction Hl as [|x l Hx _ IH]; cbn; [done|]. by rewrite Hx, IH.
  - rewrite !without_volatile_obj. f_equal. induction Ho as [|[k v] o Hv _ IH]; [done|]. cbn.
    destruct (volatile k) eqn:Hk; [done|]. cbn. rewrite Hk. cbn in Hv. by rewrite Hv, IH.
Qed.

Lemma without_volatile_fields_idemp o :
  _without_volatile_fields (_without_volatile_fields o) = _without_volatile_fields o.
Proof.
  pose proof (without_volatile_idemp (JObj o)) as H. rewrite !without_volatile_obj in H. by injection H.
Qed.
