(* ===== verification/TurnaroundDocument.v ===== *)
(** Reading the owner's published turnaround document ([parse_turnaround_policy] of
    [packages/domain/.../promise.py], [validate_turnaround_document] of
    [packages/db/.../promise_policy.py]): JSON in, a [Promise.TurnaroundPolicy] or a refusal
    out.  Every exception of the parser is turned into [TurnaroundPolicyError] by the code. *)
From Stdlib Require Import Ascii String.
From S2P Require Import Prelude Clock PyDecimal Text Json Calendar Promise OpeningHours.
Local Open Scope laundry_scope.
Local Open Scope Z_scope.

Notation parsed := (result PromiseFailure).
Definition malformed {A} : parsed A := Err TurnaroundPolicyError.
Definition refuse_if (c : bool) : parsed unit := raise_if c TurnaroundPolicyError.

(** [mapping[key]]. *)
Definition item (o : object) (key : string) : parsed json :=
  require_some (dict_get o key) TurnaroundPolicyError.

Definition _mapping (payload : object) (key : string) : parsed object :=
  value ← item payload key;
  match value with JObj o => Ok o | _ => malformed end.

Definition _list (payload : object) (key : string) : parsed (list json) :=
  value ← item payload key;
  match value with JList l => Ok l | _ => malformed end.

(** [_CLOCK_PATTERN] and [time.fromisoformat]: [HH:MM] of a day. *)
Definition _clock (value : json) : parsed Z :=
  match value with
  | JStr s =>
      match txt s with
      | [h1; h2; colon; m1; m2] =>
          let hh := int [h1; h2] in
          let mm := int [m1; m2] in
          refuse_if (negb (forallb is_digit_char [h1; h2; m1; m2] && (colon is? ":"%char))) ;;
          refuse_if (negb ((hh <? 24) && (mm <? 60))) ;;
          Ok ((hh * 60 + mm) * us_per_minute)
      | _ => malformed
      end
  | _ => malformed
  end.

(** [_DATE_PATTERN] and [date.fromisoformat]: [YYYY-MM-DD], from year 1. *)
Definition _date (value : json) : parsed Z :=
  match value with
  | JStr s =>
      match txt s with
      | [y1; y2; y3; y4; s1; m1; m2; s2; d1; d2] =>
          let y := int [y1; y2; y3; y4] in
          let m := int [m1; m2] in
          let d := int [d1; d2] in
          refuse_if (negb (forallb is_digit_char [y1; y2; y3; y4; m1; m2; d1; d2]
                           && (s1 is? "-"%char) && (s2 is? "-"%char))) ;;
          refuse_if (negb ((1 <=? y) && valid_date y m d)) ;;
          Ok (day_number y m d)
      | _ => malformed
      end
  | _ => malformed
  end.

(** [_MONTH_DAY_PATTERN] and [date(2000, month, day)]: [MM-DD] of a leap year. *)
Definition _month_day (value : json) : parsed (Z * Z) :=
  match value with
  | JStr s =>
      match txt s with
      | [m1; m2; s1; d1; d2] =>
          let m := int [m1; m2] in
          let d := int [d1; d2] in
          refuse_if (negb (forallb is_digit_char [m1; m2; d1; d2] && (s1 is? "-"%char))) ;;
          refuse_if (negb (valid_date 2000 m d)) ;;
          Ok (m, d)
      | _ => malformed
      end
  | _ => malformed
  end.

Definition _positive_int (value : option json) : option Z :=
  match value with
  | Some (JInt z) => if 0 <? z then Some z else None
  | _ => None
  end.

(** [_SERVICE_PATTERN]: an upper-case letter, then 1 to 63 of [A-Z0-9_]. *)
Definition service_char (c : ascii) : bool :=
  between 65 90 c || is_digit_char c || (c is? "_"%char).
Definition _SERVICE_PATTERN (code : string) : bool :=
  match txt code with
  | c :: rest =>
      between 65 90 c && forallb service_char rest && (1 <=? length rest)%nat
      && (length rest <=? 63)%nat
  | [] => false
  end.

(** [TurnaroundScope(text)] and [ScopeKind(text)]. *)
Definition scope_of (s : string) : parsed TurnaroundScope.t :=
  require_some (find (λ x, TurnaroundScope.value x is? s) TurnaroundScope.all) TurnaroundPolicyError.
Definition kind_of (s : string) : parsed ScopeKind.t :=
  if s is? "FIXED"%string then Ok ScopeKind.FIXED
  else if s is? "RANGE_CHOICE"%string then Ok ScopeKind.RANGE_CHOICE
  else if s is? "HUMAN"%string then Ok ScopeKind.HUMAN
  else malformed.

(** [str(value)] where only the text of a string can match what it is compared with. *)
Definition text_of (value : json) : parsed string :=
  match value with JStr s => Ok s | _ => malformed end.

(** [validate_tet_dates(days, year=year)]. *)
Definition validate_tet_dates (days : list Z) (year : Z) : parsed unit :=
  refuse_if (negb (Z.of_nat (length days) =? TET_DAYS)
             || negb (Z.of_nat (length (fromkeys days)) =? TET_DAYS)) ;;
  refuse_if (negb (forallb (λ day, year_of day =? year) days)) ;;
  refuse_if (negb (forallb _in_tet_window days)).

(** [int(text)] when it prints back as [text].  A negative year is refused here rather than by
    the dates of no such year. *)
Definition canonical_year (s : string) : parsed Z :=
  refuse_if (negb (isdigit (txt s) && (str (int (txt s)) is? txt s))) ;;
  Ok (int (txt s)).

(** One entry of [tet]: the year and its six days. *)
Definition tet_entry (entry : string * json) : parsed (Z * list Z) :=
  year ← canonical_year entry.1;
  match entry.2 with
  | JList days =>
      ds ← traverse _date days;
      validate_tet_dates ds year ;;
      Ok (year, ds)
  | _ => malformed
  end.

(** One entry of [_scopes]. *)
Definition _scope_rule (s : TurnaroundScope.t) (o : object) : parsed ScopeRule :=
  sla ← item o "sla_id"; sla ← text_of sla;
  refuse_if (negb (sla is? SLA_ID_BY_SCOPE s)) ;;
  k ← item o "kind"; k ← text_of k;
  k ← kind_of k;
  match k with
  | ScopeKind.FIXED =>
      h ← require_some (_positive_int (dict_get o "hours"%string)) TurnaroundPolicyError;
      Ok (MkScopeRule s sla k (Some h) [] None)
  | ScopeKind.RANGE_CHOICE =>
      match dict_get o "choices_hours"%string, dict_get o "default_hours"%string with
      | Some (JList ((_ :: _) as choices)), Some (JInt standard) =>
          hs ← traverse (λ c, require_some (_positive_int (Some c)) TurnaroundPolicyError) choices;
          refuse_if (negb (hs is? stable_sort Z.leb (fromkeys hs))) ;;
          refuse_if (negb (standard in? hs)) ;;
          Ok (MkScopeRule s sla k None hs (Some standard))
      | _, _ => malformed
      end
  | ScopeKind.HUMAN => Ok (MkScopeRule s sla k None [] None)
  end.

Definition scope_entry (entry : string * json) : parsed (TurnaroundScope.t * ScopeRule) :=
  s ← scope_of entry.1;
  match entry.2 with
  | JObj o => rule ← _scope_rule s o; Ok (s, rule)
  | _ => malformed
  end.

Definition _scopes (value : object) : parsed (dict TurnaroundScope.t ScopeRule) :=
  rules ← traverse scope_entry value;
  refuse_if (negb (forallb (λ s, s in? rules.*1) TurnaroundScope.all)) ;;
  Ok rules.

Definition service_entry (entry : string * json) : parsed (string * TurnaroundScope.t) :=
  refuse_if (negb (_SERVICE_PATTERN entry.1)) ;;
  s ← text_of entry.2;
  s ← scope_of s;
  Ok (entry.1, s).

Definition TURNAROUND_POLICY_VERSION : string := "turnaround-policy-v1".
Definition TURNAROUND_DECISION_REF : string := "DEC-037".
Definition SHOP_TIMEZONE_NAME : string := "Asia/Ho_Chi_Minh".

Definition parse_turnaround_policy (payload : object) : parsed TurnaroundPolicy :=
  refuse_if (negb (says payload "policy_version" TURNAROUND_POLICY_VERSION)) ;;
  refuse_if (negb (says payload "decision_ref" TURNAROUND_DECISION_REF)) ;;
  refuse_if (negb (says payload "timezone" SHOP_TIMEZONE_NAME)) ;;
  opening ← _mapping payload "opening_hours";
  opens ← _clock (default JNull (dict_get opening "opens"%string));
  closes ← _clock (default JNull (dict_get opening "closes"%string));
  refuse_if (negb (opens <? closes)) ;;
  recurring ← _list payload "recurring_closed"; recurring ← traverse _month_day recurring;
  tet ← _mapping payload "tet"; tet ← traverse tet_entry tet;
  adhoc ← _list payload "adhoc_closed"; adhoc ← traverse _date adhoc;
  rules ← _mapping payload "scopes"; rules ← _scopes rules;
  named ← _mapping payload "services"; named ← traverse service_entry named;
  express ← require_some (_positive_int (dict_get payload "express_hours"%string)) TurnaroundPolicyError;
  Ok (MkTurnaroundPolicy opens closes (list_to_set recurring)
        (list_to_set (tet.*2 ≫= id) ∪ list_to_set adhoc) (list_to_set tet.*1) rules named express).

(** The typed validator of the configuration repository: a policy, or its withdrawal. *)
Definition validate_turnaround_document (payload : object) : parsed unit :=
  match dict_get payload "withdrawn"%string with
  | Some (JBool true) =>
      refuse_if (negb ((list_to_set payload.*1 : gset string)
                       is? {["policy_version"%string; "decision_ref"%string; "withdrawn"%string]})
                 || negb (says payload "policy_version" TURNAROUND_POLICY_VERSION)
                 || negb (says payload "decision_ref" TURNAROUND_DECISION_REF))
  | _ => parse_turnaround_policy payload ;; Ok tt
  end.

Definition withdrawal_document : object :=
  [("policy_version", JStr TURNAROUND_POLICY_VERSION);
   ("decision_ref", JStr TURNAROUND_DECISION_REF); ("withdrawn", JBool true)]%string.

Example withdrawal_is_valid : validate_turnaround_document withdrawal_document = Ok tt.
Proof. vm_compute. reflexivity. Qed.

(** * What an accepted document is *)

Definition rule_ok (s : TurnaroundScope.t) (rule : ScopeRule) : Prop :=
  rule_scope rule = s ∧ rule_sla_id rule = SLA_ID_BY_SCOPE s ∧
  match kind rule with
  | ScopeKind.FIXED =>
      choices_hours rule = [] ∧ default_hours rule = None ∧ ∃ h, rule_hours rule = Some h ∧ 0 < h
  | ScopeKind.RANGE_CHOICE =>
      rule_hours rule = None ∧ StronglySorted Z.lt (choices_hours rule) ∧
      Forall (λ h, 0 < h) (choices_hours rule) ∧
      ∃ h, default_hours rule = Some h ∧ h ∈ choices_hours rule
  | ScopeKind.HUMAN =>
      rule_hours rule = None ∧ choices_hours rule = [] ∧ default_hours rule = None
  end.

Record policy_ok (policy : TurnaroundPolicy) : Prop := {
  ok_hours : opening_hours_ok policy;
  ok_scopes : ∀ s, ∃ rule, dict_get (scopes policy) s = Some rule ∧ rule_ok s rule;
  ok_services : Forall (λ e, _SERVICE_PATTERN e.1 = true) (services policy);
  ok_recurring : ∀ m d, (m, d) ∈ recurring_closed policy → valid_date 2000 m d = true;
  ok_tet : ∀ y, y ∈ tet_years policy → ∃ days, NoDup days ∧ length days = 6%nat ∧
    Forall (λ d, year_of d = y ∧ _in_tet_window d = true ∧ is_closed policy d = true) days;
  ok_express : 0 < express_hours policy;
}.

Lemma refuse_if_Ok c u : refuse_if c = Ok u ↔ c = false.
Proof. apply raise_if_Ok. Qed.
Lemma refuse_bind_Ok {B} c (m : parsed B) b : (refuse_if c ;; m) = Ok b ↔ c = false ∧ m = Ok b.
Proof. apply raise_bind_Ok. Qed.

(** Peel the refusals of an accepted value. *)
Ltac accepted := repeat match goal with
  | H : (refuse_if _ ;; _) = Ok _ |- _ => apply refuse_bind_Ok in H as [? H]
  | H : refuse_if _ = Ok _ |- _ => apply refuse_if_Ok in H
  | H : malformed = Ok _ |- _ => discriminate H
  | _ => result_step
  end; subst.

Lemma clock_minute k : 0 <= k < 1_440 →
  0 <= k * us_per_minute < us_per_day ∧ floor_us (k * us_per_minute) = k * us_per_minute.
Proof.
  intros. split; [change us_per_day with (1_440 * us_per_minute); change us_per_minute with 60_000_000; lia|].
  unfold floor_us. by rewrite Z.div_mul.
Qed.

Lemma int_nonneg t : forallb is_digit_char t = true → 0 <= int t.
Proof.
  intros H. unfold int. assert (∀ t a, forallb is_digit_char t = true → 0 <= a →
    0 <= fold_left (λ a c, 10 * a + default 0 (digit_value c)) t a) as aux; [|by apply aux].
  clear. induction t as [|c t IH]; intros a Ht Ha; cbn [fold_left]; [done|].
  cbn [forallb] in Ht. apply andb_true_iff in Ht as [Hc Ht]. apply IH; [done|].
  assert (0 <= default 0 (digit_value c)); [|lia]. clear -Hc. revert c Hc.
  assert (∀ c, implb (is_digit_char c) (0 <=? default 0 (digit_value c)) = true) as Hall
    by (apply for_all_chars; vm_compute; reflexivity).
  intros c Hc. specialize (Hall c). rewrite Hc in Hall. by apply Z.leb_le.
Qed.

Lemma int_two_digits a b : is_digit_char a = true → is_digit_char b = true → 0 <= int [a; b].
Proof. intros Ha Hb. apply int_nonneg. cbn. by rewrite Ha, Hb. Qed.

Lemma clock_ok value c : _clock value = Ok c → 0 <= c < us_per_day ∧ floor_us c = c.
Proof.
  destruct value; try done. cbn [_clock]. intros H. split_matches H. cbv zeta in H. accepted.
  cbn [forallb] in *. guards. apply clock_minute.
  pose proof (int_two_digits a a0). pose proof (int_two_digits a2 a3). naive_solver lia.
Qed.

Lemma month_day_ok value m d : _month_day value = Ok (m, d) → valid_date 2000 m d = true.
Proof.
  destruct value; try done. cbn [_month_day]. intros H. split_matches H. cbv zeta in H. accepted.
  by guards.
Qed.

Lemma tet_days_ok days year : validate_tet_dates days year = Ok tt →
  NoDup days ∧ length days = 6%nat ∧ Forall (λ d, year_of d = year ∧ _in_tet_window d = true) days.
Proof.
  unfold validate_tet_dates, TET_DAYS. intros H. accepted. guards.
  split; [apply fromkeys_length; lia|]. split; [lia|].
  apply Forall_forall. intros d Hd%list_elem_of_In. rewrite !forallb_forall in *.
  split; [|by auto]. apply Z.eqb_eq. auto.
Qed.

Lemma tet_entry_ok entry y days : tet_entry entry = Ok (y, days) →
  NoDup days ∧ length days = 6%nat ∧ Forall (λ d, year_of d = y ∧ _in_tet_window d = true) days.
Proof.
  unfold tet_entry. intros H. apply bind_Ok in H as (year & _ & H). split_matches H. accepted.
  match goal with H : validate_tet_dates _ _ = Ok ?u |- _ => destruct u; by apply tet_days_ok in H end.
Qed.

(** [list == sorted(set(list))] says the list is strictly ascending. *)
Lemma strictly_ascending l : l = stable_sort Z.leb (fromkeys l) → StronglySorted Z.lt l.
Proof.
  intros Hl. assert (NoDup l) as Hnd by (rewrite Hl, stable_sort_perm; apply fromkeys_NoDup).
  assert (StronglySorted (λ a b, (a <=? b) = true) l) as Hs.
  { rewrite Hl. apply stable_sort_sorted; intros *; rewrite ?Z.leb_le, ?Z.leb_gt; lia. }
  clear Hl. induction Hs as [|x l Hs IH Hx]; [constructor|]. apply NoDup_cons in Hnd as [Hn Hnd].
  constructor; [auto|]. apply Forall_forall. intros y Hy. rewrite Forall_forall in Hx.
  specialize (Hx y Hy). apply Z.leb_le in Hx. assert (x ≠ y) by congruence. lia.
Qed.

(** What every value a loop read satisfies. *)
Lemma traverse_all {A B} (f : A → parsed B) (P : B → Prop) l k :
  (∀ x y, f x = Ok y → P y) → traverse f l = Ok k → Forall P k.
Proof. intros Hf H%traverse_Forall2. induction H; constructor; eauto. Qed.

Lemma positive_int_ok v h : _positive_int v = Some h → 0 < h.
Proof. intros H. destruct v as [[]|]; cbn in H; try done. destruct (Z.ltb_spec 0 z); congruence. Qed.

Lemma positive_ints_ok cs hs :
  traverse (λ c, require_some (_positive_int (Some c)) TurnaroundPolicyError) cs = Ok hs →
  Forall (λ h, 0 < h) hs.
Proof.
  apply traverse_all. intros c h Hc%require_some_Ok. by eapply positive_int_ok.
Qed.

Lemma scope_rule_ok s o rule : _scope_rule s o = Ok rule → rule_ok s rule.
Proof.
  unfold _scope_rule. intros H. accepted. unfold rule_ok.
  match goal with k : ScopeKind.t |- _ => destruct k end; accepted; cbn; guards.
  - split_and!; try done. eexists. split; [done|]. by eapply positive_int_ok.
  - split_matches H. accepted. cbn. guards. split_and!; try done.
    + by apply strictly_ascending.
    + by eapply positive_ints_ok.
    + by eexists.
  - by split_and!.
Qed.

Lemma scope_entry_ok entry s rule : scope_entry entry = Ok (s, rule) → rule_ok s rule.
Proof.
  unfold scope_entry. intros H. apply bind_Ok in H as (s' & _ & H). split_matches H. accepted.
  by eapply scope_rule_ok.
Qed.

Lemma scopes_ok value rules : _scopes value = Ok rules →
  ∀ s, ∃ rule, dict_get rules s = Some rule ∧ rule_ok s rule.
Proof.
  unfold _scopes. intros H s. accepted. guards.
  assert (Forall (λ e : TurnaroundScope.t * ScopeRule, rule_ok e.1 e.2) rules) as Hall.
  { eapply traverse_all; [|eassumption]. intros x [? ?]. apply scope_entry_ok. }
  assert (s ∈ rules.*1) as Hs.
  { match goal with H : forallb _ _ = true |- _ => rewrite forallb_forall in H; specialize (H s) end.
    apply (bool_decide_eq_true (s ∈ rules.*1)). match goal with H : In _ _ → _ |- _ => apply H end.
    destruct s; cbn; tauto. }
  destruct (dict_get rules s) as [rule|] eqn:Hr; [|by apply dict_get_None in Hr].
  exists rule. split; [done|]. rewrite Forall_forall in Hall. by apply (Hall (s, rule)), dict_get_Some_elem.
Qed.

(** * The shop's document *)

(** The document the owner publishes for 2027 ([scripts/publish_turnaround_policy.py] on the
    confirmed sheets), with three of its services. *)
Definition scope_json (sla : string) (rest : object) : json :=
  JObj (("sla_id"%string, JStr sla) :: rest).
Definition range_json (sla : string) : json :=
  scope_json sla [("kind", JStr "RANGE_CHOICE"); ("choices_hours", JList [JInt 24; JInt 48]);
                  ("default_hours", JInt 48)]%string.
Definition shop_document : object := [
  ("policy_version", JStr TURNAROUND_POLICY_VERSION);
  ("decision_ref", JStr TURNAROUND_DECISION_REF);
  ("timezone", JStr SHOP_TIMEZONE_NAME);
  ("opening_hours", JObj [("opens", JStr "08:00"); ("closes", JStr "20:00")]);
  ("recurring_closed", JList [JStr "04-30"; JStr "05-01"]);
  ("tet", JObj [("2027", JList (JStr <$> ["2027-02-05"; "2027-02-06"; "2027-02-07"; "2027-02-08";
                                          "2027-02-09"; "2027-02-10"]))]);
  ("adhoc_closed", JList []);
  ("scopes", JObj [
    ("STANDARD_CLOTHES", scope_json "SLA_STANDARD_CLOTHES" [("kind", JStr "FIXED"); ("hours", JInt 8)]);
    ("SHOES", range_json "SLA_SHOES");
    ("CURTAINS", range_json "SLA_CURTAINS");
    ("BLANKETS_AND_SHEETS", range_json "SLA_BLANKETS_SHEETS");
    ("OTHER_SPECIAL", scope_json "SLA_OTHER_SPECIAL" [("kind", JStr "HUMAN")])]);
  ("services", JObj [("STANDARD_WASH_DRY", JStr "STANDARD_CLOTHES");
                     ("BED_BLANKET", JStr "BLANKETS_AND_SHEETS");
                     ("PLUSH_TOY", JStr "OTHER_SPECIAL")]);
  ("express_hours", JInt 2)]%string.

Definition closed_shop : TurnaroundPolicy := MkTurnaroundPolicy 0 1 ∅ ∅ ∅ [] [] 1.
Definition shop_policy : TurnaroundPolicy :=
  Eval vm_compute in match parse_turnaround_policy shop_document with Ok p => p | Err _ => closed_shop end.

Example shop_document_parses : parse_turnaround_policy shop_document = Ok shop_policy.
Proof. vm_compute. reflexivity. Qed.

Lemma month_days_ok l k : traverse _month_day l = Ok k →
  Forall (λ md, valid_date 2000 md.1 md.2 = true) k.
Proof. apply traverse_all. intros v [? ?]. apply month_day_ok. Qed.

Lemma tet_entries_ok l k : traverse tet_entry l = Ok k → Forall (λ e : Z * list Z, NoDup e.2 ∧
  length e.2 = 6%nat ∧ Forall (λ d, year_of d = e.1 ∧ _in_tet_window d = true) e.2) k.
Proof. apply traverse_all. intros v [? ?]. apply tet_entry_ok. Qed.

(** The parser's own lemma; [parsed_policies_are_sound] below is the published statement. *)
Lemma parse_ok payload policy : parse_turnaround_policy payload = Ok policy → policy_ok policy.
Proof.
  unfold parse_turnaround_policy. intros H. accepted. guards.
  repeat match goal with H : _clock _ = Ok _ |- _ => apply clock_ok in H as [??] end.
  split; cbn.
  - by split; cbn; try lia.
  - by eapply scopes_ok.
  - eapply traverse_all; [|eassumption]. intros [k v] y. unfold service_entry. cbn. intros Hs. accepted.
    cbn. by guards.
  - intros m d Hin%elem_of_list_to_set.
    match goal with H : traverse _month_day _ = Ok _ |- _ => apply month_days_ok in H; rewrite Forall_forall in H; by apply (H (m, d)) end.
  - intros y ([y' days] & -> & Hin)%elem_of_list_to_set%list_elem_of_fmap.
    match goal with H : traverse tet_entry _ = Ok _ |- _ =>
      apply tet_entries_ok in H; rewrite Forall_forall in H; destruct (H (y', days) Hin) as (Hnd & Hl & Hd) end.
    exists days. split_and!; [done..|]. eapply Forall_impl; [apply Forall_and; split; [exact Hd|]|].
    + apply Forall_forall. intros d Hd'. exact Hd'.
    + intros d [[-> Hw] Hin']. split_and!; [done..|]. unfold is_closed. cbn.
      rewrite bool_decide_true; [done|]. apply elem_of_union_l, elem_of_list_to_set, list_elem_of_bind.
      exists days. split; [done|]. apply list_elem_of_fmap. by exists (y', days).
  - by eapply positive_int_ok.
Qed.

(** C38: what the parser accepts is a policy the promise code can work with, whatever the
    document says: opening before closing on whole minutes of one day, a rule for every scope
    of the sheet, of the shape its kind needs and citing its own SLA, choices ascending with
    the default among them, six distinct closed days inside the window for every year whose
    Tet is published, real yearly closed days, and a positive express time. *)
Theorem parsed_policies_are_sound payload policy :
  parse_turnaround_policy payload = Ok policy → policy_ok policy.
Proof. apply parse_ok. Qed.

Lemma parsed_policies_are_sound_witness :
  parse_turnaround_policy shop_document = Ok shop_policy ∧ policy_ok shop_policy.
Proof.
  split; [vm_compute; reflexivity|].
  apply (parsed_policies_are_sound shop_document). vm_compute. reflexivity.
Defined.

(** * The stored document reads back *)

(** Dropping volatile fields, as storing a payload does, does not change what an accepted
    document says: none of the fields it is read from is volatile. *)
Lemma item_without_volatile o k v : volatile k = false → item o k = Ok v →
  item (_without_volatile_fields o) k = Ok (without_volatile v).
Proof.
  unfold item. intros Hk H%require_some_Ok. rewrite dict_get_without_volatile by done. by rewrite H.
Qed.

Lemma says_without_volatile o k t : volatile k = false →
  says (_without_volatile_fields o) k t = says o k t.
Proof.
  intros Hk. unfold says. rewrite dict_get_without_volatile by done. by destruct (dict_get o k) as [[]|].
Qed.

Lemma mapping_without_volatile o k m : volatile k = false → _mapping o k = Ok m →
  _mapping (_without_volatile_fields o) k = Ok (_without_volatile_fields m).
Proof.
  unfold _mapping. intros Hk H. apply bind_Ok in H as (v & Hv & H).
  rewrite (item_without_volatile _ _ _ Hk Hv). destruct v; try done. by injection H as <-.
Qed.

Lemma list_without_volatile o k l : volatile k = false → _list o k = Ok l →
  _list (_without_volatile_fields o) k = Ok (map without_volatile l).
Proof.
  unfold _list. intros Hk H. apply bind_Ok in H as (v & Hv & H).
  rewrite (item_without_volatile _ _ _ Hk Hv). destruct v; try done. by injection H as <-.
Qed.

(** A list read element by element. *)
Lemma traverse_without_volatile {B} (f : json → parsed B) l k :
  (∀ v b, f v = Ok b → f (without_volatile v) = Ok b) → traverse f l = Ok k →
  traverse f (map without_volatile l) = Ok k.
Proof.
  rewrite !traverse_Forall2. intros Hf H. induction H; constructor; auto.
Qed.

(** An object read entry by entry, none of whose names is volatile. *)
Lemma traverse_fields {B} (f : string * json → parsed B) o k :
  (∀ n v b, f (n, v) = Ok b → volatile n = false ∧ f (n, without_volatile v) = Ok b) →
  traverse f o = Ok k → traverse f (_without_volatile_fields o) = Ok k.
Proof.
  rewrite !traverse_Forall2. intros Hf H. induction H as [|[n v] b o k Hv _ IH]; [constructor|].
  apply Hf in Hv as [Hn Hv]. cbn. rewrite Hn. by constructor.
Qed.

Lemma leaf_read {B} (f : json → parsed B) :
  (∀ v b, f v = Ok b → ∃ s, v = JStr s) → ∀ v b, f v = Ok b → f (without_volatile v) = Ok b.
Proof. intros Hf v b H. by destruct (Hf v b H) as [s ->]. Qed.

Lemma date_leaf v b : _date v = Ok b → ∃ s, v = JStr s.
Proof. destruct v; try done. by eexists. Qed.
Lemma month_day_leaf v b : _month_day v = Ok b → ∃ s, v = JStr s.
Proof. destruct v; try done. by eexists. Qed.
Lemma clock_leaf v b : _clock v = Ok b → ∃ s, v = JStr s.
Proof. destruct v; try done. by eexists. Qed.

Lemma positive_int_without_volatile o k : volatile k = false →
  _positive_int (dict_get (_without_volatile_fields o) k) = _positive_int (dict_get o k).
Proof. intros Hk. rewrite dict_get_without_volatile by done. by destruct (dict_get o k) as [[]|]. Qed.

(** A canonical year is digits, the name of a scope and of a service is upper-case: none of
    them is a volatile field. *)
Lemma not_volatile n : n ≠ "trace_id"%string → n ≠ "request_received_at"%string →
  n ≠ "server_generated_at"%string → volatile n = false.
Proof.
  intros. unfold volatile, VOLATILE_HASH_FIELDS. apply bool_decide_eq_false.
  rewrite !not_elem_of_cons. split_and!; try done. apply not_elem_of_nil.
Qed.

Lemma year_not_volatile n y : canonical_year n = Ok y → volatile n = false.
Proof. intros H. apply not_volatile; intros ->; vm_compute in H; discriminate. Qed.
Lemma scope_not_volatile n s : scope_of n = Ok s → volatile n = false.
Proof.
  unfold scope_of. intros H%require_some_Ok%find_some. destruct H as [_ H]. guards. subst. by destruct s.
Qed.
Lemma service_not_volatile n : _SERVICE_PATTERN n = true → volatile n = false.
Proof. intros H. apply not_volatile; intros ->; vm_compute in H; discriminate. Qed.

Lemma tet_entry_without_volatile n v b : tet_entry (n, v) = Ok b →
  volatile n = false ∧ tet_entry (n, without_volatile v) = Ok b.
Proof.
  unfold tet_entry. cbn [fst snd]. intros H. apply bind_Ok in H as (y & Hy & H).
  split; [by eapply year_not_volatile|]. rewrite Hy. cbn [mbind result_bind]. destruct v; try done. cbn.
  apply bind_Ok in H as (ds & Hds & H). by rewrite (traverse_without_volatile _ _ _ (leaf_read _ date_leaf) Hds).
Qed.

Lemma scope_rule_without_volatile s o rule : _scope_rule s o = Ok rule →
  _scope_rule s (_without_volatile_fields o) = Ok rule.
Proof.
  unfold _scope_rule. intros H. apply bind_Ok in H as (sla & Hsla & H).
  rewrite (item_without_volatile o "sla_id"%string _ eq_refl Hsla). destruct sla; try done. cbn [without_volatile mbind result_bind text_of] in *.
  apply refuse_bind_Ok in H as [-> H]. apply bind_Ok in H as (k & Hk & H).
  rewrite (item_without_volatile o "kind"%string _ eq_refl Hk). destruct k; try done. cbn [without_volatile mbind result_bind text_of] in *.
  apply bind_Ok in H as (k & -> & H). cbn [raise_if refuse_if mbind result_bind] in *. destruct k; [|clear Hsla Hk|done].
  - by rewrite positive_int_without_volatile.
  - rewrite !dict_get_without_volatile by done.
    destruct (dict_get o "choices_hours"%string) as [[| | | | |[|c cs]|]|]; try done.
    destruct (dict_get o "default_hours"%string) as [[]|]; try done.
    apply bind_Ok in H as (hs & Hhs & H).
    assert (traverse (λ c, require_some (_positive_int (Some c)) TurnaroundPolicyError)
      (map without_volatile (c :: cs)) = Ok hs) as E.
    { apply traverse_without_volatile; [|done]. by intros [] ? ?. }
    cbn [fmap option_fmap option_map without_volatile map] in *. by rewrite E.
Qed.

Lemma scope_entry_without_volatile n v b : scope_entry (n, v) = Ok b →
  volatile n = false ∧ scope_entry (n, without_volatile v) = Ok b.
Proof.
  unfold scope_entry. cbn [fst snd]. intros H. apply bind_Ok in H as (s & Hs & H).
  split; [by eapply scope_not_volatile|]. rewrite Hs. cbn [mbind result_bind]. destruct v; try done.
  rewrite without_volatile_obj. apply bind_Ok in H as (rule & Hrule & H).
  by rewrite (scope_rule_without_volatile _ _ _ Hrule).
Qed.

Lemma service_entry_without_volatile n v b : service_entry (n, v) = Ok b →
  volatile n = false ∧ service_entry (n, without_volatile v) = Ok b.
Proof.
  unfold service_entry. cbn [fst snd]. intros H. apply refuse_bind_Ok in H as [Hn H].
  split; [apply service_not_volatile; by guards|]. rewrite Hn. by destruct v.
Qed.

Lemma parse_without_volatile payload policy : parse_turnaround_policy payload = Ok policy →
  parse_turnaround_policy (_without_volatile_fields payload) = Ok policy.
Proof.
  unfold parse_turnaround_policy. rewrite !says_without_volatile, positive_int_without_volatile by done.
  intros H. do 3 (apply refuse_bind_Ok in H as [-> H]).
  apply bind_Ok in H as (opening & Ho & H). rewrite (mapping_without_volatile payload "opening_hours"%string _ eq_refl Ho).
  apply bind_Ok in H as (opens & Hopens & H). apply bind_Ok in H as (closes & Hcloses & H).
  apply refuse_bind_Ok in H as [Hlt H].
  apply bind_Ok in H as (rec & Hr & H). rewrite (list_without_volatile payload "recurring_closed"%string _ eq_refl Hr).
  apply bind_Ok in H as (recs & Hrecs & H).
  apply bind_Ok in H as (tet & Ht & H). rewrite (mapping_without_volatile payload "tet"%string _ eq_refl Ht).
  apply bind_Ok in H as (tets & Htets & H).
  apply bind_Ok in H as (adhoc & Ha & H). rewrite (list_without_volatile payload "adhoc_closed"%string _ eq_refl Ha).
  apply bind_Ok in H as (adhocs & Hadhocs & H).
  apply bind_Ok in H as (rules & Hru & H). rewrite (mapping_without_volatile payload "scopes"%string _ eq_refl Hru).
  apply bind_Ok in H as (rs & Hrs & H).
  apply bind_Ok in H as (named & Hn & H). rewrite (mapping_without_volatile payload "services"%string _ eq_refl Hn).
  apply bind_Ok in H as (ss & Hss & H).
  assert (∀ k c, volatile k = false → _clock (default JNull (dict_get opening k)) = Ok c →
    _clock (default JNull (dict_get (_without_volatile_fields opening) k)) = Ok c) as Hclock.
  { intros k c Hk. rewrite dict_get_without_volatile by done. destruct (dict_get opening k); [|done].
    apply leaf_read, clock_leaf. }
  cbn [mbind result_bind raise_if refuse_if].
  rewrite (Hclock "opens"%string _ eq_refl Hopens), (Hclock "closes"%string _ eq_refl Hcloses). cbn [mbind result_bind].
  rewrite Hlt, (traverse_without_volatile _ _ _ (leaf_read _ month_day_leaf) Hrecs). cbn [mbind result_bind refuse_if raise_if].
  rewrite (traverse_fields _ _ _ tet_entry_without_volatile Htets),
    (traverse_without_volatile _ _ _ (leaf_read _ date_leaf) Hadhocs).
  cbn [mbind result_bind]. unfold _scopes in *. apply bind_Ok in Hrs as (rs' & Hrs' & Hrs).
  rewrite (traverse_fields _ _ _ scope_entry_without_volatile Hrs'). cbn [mbind result_bind]. rewrite Hrs.
  cbn [mbind result_bind]. by rewrite (traverse_fields _ _ _ service_entry_without_volatile Hss).
Qed.
