(* ===== verification/PromiseRules.v ===== *)
(** What a promise is worth ([compute_promise], [promise_options], [check_promise_time] of
    [packages/domain/.../promise.py]) under a policy the parser accepted: it names a whole
    minute in opening hours after acceptance, it is the latest of its lines and re-derives
    from its trace, and the counter is shown exactly the choices that would be taken. *)
From Stdlib Require Import String.
From S2P Require Import Prelude Counting Clock Json Calendar Promise OpeningHours TurnaroundDocument.
Local Open Scope laundry_scope.
Local Open Scope Z_scope.

(** An instant the shop may promise: in UTC, a whole minute, on an open day, within opening
    hours (closing time included), after the goods were accepted. *)
Definition fits (policy : TurnaroundPolicy) (after p : datetime) : Prop :=
  ∃ e, p = at_wall e ∧ floor_us e = e ∧ promisable policy e = true ∧ instant after < instant p.

Lemma instant_at_wall w : instant (at_wall w) = w - SHOP_TIMEZONE.
Proof. pose proof (shop_wall_at w). unfold shop_wall in *. lia. Qed.

Section times.
Context (policy : TurnaroundPolicy) (Hok : opening_hours_ok policy).

Lemma fits_at_wall start e : floor_us e = e → promisable policy e = true → shop_wall start < e →
  fits policy start (at_wall e).
Proof. intros. exists e. rewrite instant_at_wall. unfold shop_wall in *. split_and!; try done. lia. Qed.

Lemma add_opening_fits start h p : aware start = true → 0 < h →
  add_opening_hours policy start h = Ok (Some p) → fits policy start p.
Proof.
  intros Ha Hh (e & -> & Hw & Hlt & Hwork & _)%add_opening_promised; try done.
  apply fits_at_wall; [apply floor_us_idemp|by apply promisable_floor|].
  pose proof (spanned_le (working policy) (shop_wall start) e ltac:(lia)). pose proof (hours_pos h Hh).
  pose proof (floor_us_bounds e). change us_per_minute with 60_000_000 in *.
  change us_per_hour with 3_600_000_000 in *. lia.
Qed.

(** The earliest promisable instant from a whole minute on is a whole minute. *)
Lemma earliest_minute f e : floor_us f = f → earliest policy f e → floor_us e = e.
Proof.
  intros Hf (Hle & Hp & Hmin). pose proof (floor_us_bounds e). pose proof (floor_us_le f e Hf Hle).
  destruct (decide (floor_us e = e)) as [|Hne]; [done|]. destruct Hok as [H1 H2 H3 H4 H5].
  assert (promisable policy (floor_us e) = false) as Hf' by (apply Hmin; lia).
  destruct (wall_split e) as [E B]. rewrite E, floor_us_add_day in Hf'. rewrite E in Hp.
  pose proof (floor_us_bounds (wall_clock e)). pose proof (floor_us_le 0 (wall_clock e) eq_refl ltac:(lia)).
  rewrite promisable_on in Hf', Hp by lia. guards.
  pose proof (floor_us_le (opens_at policy) (wall_clock e) H4 ltac:(lia)).
  rewrite !andb_false_iff, !Z.leb_gt in Hf'. destruct Hf' as [Hc|[?|?]]; [|lia..].
  match goal with H : is_closed _ _ = false |- _ => by rewrite H in Hc end.
Qed.

Lemma add_calendar_fits start h p : aware start = true → 0 < h →
  add_calendar_hours policy start h = Ok (Some p) → fits policy start p.
Proof.
  intros Ha Hh (e & -> & He & _)%add_calendar_promised; try done. apply fits_at_wall.
  - eapply earliest_minute; [|exact He]. apply floor_us_idemp.
  - by destruct He as (_ & ? & _).
  - pose proof (calendar_target_after start h Hh). destruct He as [? _]. lia.
Qed.

Lemma check_fits at_ after p : check_promise_time policy at_ after = Ok p → fits policy after p.
Proof.
  unfold check_promise_time, _require_aware. intros H. result_inv. guards.
  match goal with H : dt_leb _ _ = false |- _ => unfold dt_leb in H; apply Z.leb_gt in H end.
  set (m := floor_us (shop_wall at_)). exists m. split; [done|]. split; [apply floor_us_idemp|].
  split; [|by rewrite instant_astimezone].
  unfold promisable. rewrite !andb_true_iff, negb_true_iff, !Z.leb_le. split_and!; done.
Qed.

(** A person's own time is taken exactly when, to the minute, it is later than the moment it
    is judged at, on an open day and in opening hours; a refusal says which fails first. *)
Lemma check_promise_time_iff at_ after p : aware at_ = true → aware after = true →
  check_promise_time policy at_ after = Ok p ↔
  p = at_wall (floor_us (shop_wall at_)) ∧ fits policy after p.
Proof.
  intros Ha Ha'. split.
  - intros H. split; [|by eapply check_fits]. unfold check_promise_time in H. by result_inv.
  - intros [-> (e & He & _ & Hp & Hi)]. unfold check_promise_time, _require_aware. rewrite Ha, Ha'.
    cbn [negb raise_if mbind result_bind]. apply (f_equal instant) in He. rewrite !instant_at_wall in He.
    assert (e = floor_us (shop_wall at_)) as -> by lia. unfold promisable in Hp. guards.
    change (_floor_minute _) with (DateTime (floor_us (shop_wall at_)) (Some SHOP_TIMEZONE)).
    assert (dt_leb (DateTime (floor_us (shop_wall at_)) (Some SHOP_TIMEZONE)) after = false) as ->.
    { apply Z.leb_gt. rewrite instant_at_wall in Hi. unfold instant at 2. cbn. lia. }
    change (date_of _) with (wall_day (floor_us (shop_wall at_))).
    change (clock_of _) with (wall_clock (floor_us (shop_wall at_))).
    repeat match goal with H : is_closed _ _ = false |- _ => rewrite H end.
    rewrite !(proj2 (Z.leb_le _ _)) by done. done.
Qed.
End times.

(** * The decision, as a reference *)

(** The 24-48 hours a staff member asked for, or the rule's own. *)
Definition asked (choice : option PromiseChoice.t) (rule : ScopeRule) : option Z :=
  match choice with
  | Some PromiseChoice.H24 => Some 24
  | Some PromiseChoice.H48 => Some 48
  | _ => default_hours rule
  end.

(** The hours a line of service [code] is counted at, and how. *)
Definition counts (policy : TurnaroundPolicy) (choice : option PromiseChoice.t) (code : string)
    (line : LinePromise) : Prop :=
  ∃ s rule h c, dict_get (services policy) code = Some s ∧ dict_get (scopes policy) s = Some rule ∧
  line = MkLinePromise code (Some s) (Some (SLA_ID_BY_SCOPE s)) (Some h) c ∧
  if decide (choice = Some PromiseChoice.EXPRESS_2H)
  then s = TurnaroundScope.STANDARD_CLOTHES ∧ kind rule = ScopeKind.FIXED ∧
       h = express_hours policy ∧ c = Counting.OPENING_HOURS
  else (kind rule = ScopeKind.FIXED ∧ rule_hours rule = Some h ∧ c = Counting.OPENING_HOURS) ∨
       (kind rule = ScopeKind.RANGE_CHOICE ∧ h ∈ choices_hours rule ∧ asked choice rule = Some h ∧
        c = Counting.CALENDAR_HOURS).

(** [line], promised at [t], is the first of the latest lines. *)
Definition latest (policy : TurnaroundPolicy) (accepted : datetime) (ls : list LinePromise)
    (t : datetime) (line : LinePromise) : Prop :=
  ∃ pre post, ls = pre ++ line :: post ∧ line_time policy accepted line = Ok (Some t) ∧
  Forall (λ l, ∃ t', line_time policy accepted l = Ok (Some t') ∧ instant t' < instant t) pre ∧
  Forall (λ l, ∃ t', line_time policy accepted l = Ok (Some t') ∧ instant t' <= instant t) post.

Definition basis_of (choice : option PromiseChoice.t) (ls : list LinePromise) : string :=
  match choice with
  | Some c => PromiseChoice.value c
  | None => if existsb (λ l, counting l is? Counting.CALENDAR_HOURS) ls then "H48" else "RULE"
  end.
Definition rule_of (choice : option PromiseChoice.t) (line : LinePromise) : option string :=
  if choice is? Some PromiseChoice.EXPRESS_2H then Some "EXPRESS_2H"%string else sla_id line.

(** [line_of] and [code_kind] are what [_line] and [_kind] read from a sound policy. *)
Definition line_of (policy : TurnaroundPolicy) (code : string) : LinePromise :=
  let s := dict_get (services policy) code in
  MkLinePromise code s (SLA_ID_BY_SCOPE <$> s)
    (s ≫= λ s, dict_get (scopes policy) s ≫= rule_hours) Counting.OPENING_HOURS.
Definition code_kind (policy : TurnaroundPolicy) (code : string) : ScopeKind.t :=
  match dict_get (services policy) code ≫= dict_get (scopes policy) with
  | Some rule => kind rule
  | None => ScopeKind.HUMAN
  end.

Lemma traverse_pure {E A B} (f : A → result E B) (g : A → B) l :
  (∀ x, f x = Ok (g x)) → traverse f l = Ok (g <$> l).
Proof. intros H. induction l as [|x l IH]; [done|]. cbn. by rewrite H, IH. Qed.

Section decision.
Context (policy : TurnaroundPolicy) (Hok : policy_ok policy).

Lemma rule_found s : ∃ rule, dict_get (scopes policy) s = Some rule ∧ rule_ok s rule.
Proof. apply ok_scopes, Hok. Qed.

Lemma read_line code : _line policy code = Ok (line_of policy code).
Proof.
  unfold _line, line_of, scope_rule. destruct (dict_get (services policy) code) as [s|]; [|done].
  cbn [mbind option_bind fmap option_fmap option_map]. destruct (rule_found s) as (rule & -> & (_ & Hid & _)).
  cbn. by rewrite Hid.
Qed.

Lemma read_lines codes : traverse (_line policy) codes = Ok (line_of policy <$> codes).
Proof. apply traverse_pure, read_line. Qed.

Lemma read_kinds codes :
  traverse (_kind policy) (line_of policy <$> codes) = Ok (code_kind policy <$> codes).
Proof.
  induction codes as [|code codes IH]; [done|]. cbn [fmap list_fmap traverse]. rewrite IH.
  unfold _kind, line_of, code_kind, scope_rule. cbn [scope].
  destruct (dict_get (services policy) code) as [s|]; [|done]. cbn [mbind option_bind].
  by destruct (rule_found s) as (rule & -> & _).
Qed.

Lemma human_reasons_nil codes :
  human_reasons (zip (line_of policy <$> codes) (code_kind policy <$> codes)) = [] ↔
  Forall (λ code, code_kind policy code ≠ ScopeKind.HUMAN) codes.
Proof.
  unfold human_reasons. induction codes as [|code codes IH]; [split; done|].
  cbn [fmap list_fmap zip zip_with existsb fst snd]. rewrite Forall_cons, <- IH. clear IH.
  assert (scope (line_of policy code) = None → code_kind policy code = ScopeKind.HUMAN) as Hnone.
  { unfold code_kind, line_of. cbn [scope]. by intros ->. }
  destruct (scope (line_of policy code)) as [s|].
  - rewrite (bool_decide_true (is_Some _)), (bool_decide_false (Some s = None)) by done.
    cbn [andb orb]. case_bool_decide as Hk; cbn [orb]; [|naive_solver].
    split; [done|]. by intros [? _].
  - rewrite Hnone by done. cbn. split; [by destruct (existsb _ _)|by intros [[] _]].
Qed.

Lemma range_hours_asked rule choice : _range_hours rule choice =
  match asked choice rule with
  | Some h => raise_if (negb (h in? choices_hours rule))
      (PromiseError PromiseRefusal.PROMISE_CHOICE_NOT_APPLICABLE) ;; Ok h
  | None => Err (PromiseError PromiseRefusal.PROMISE_CHOICE_NOT_APPLICABLE)
  end.
Proof. by destruct choice as [[]|]. Qed.

Lemma count_line_iff choice code l : code_kind policy code ≠ ScopeKind.HUMAN →
  choice ≠ Some PromiseChoice.EXPRESS_2H →
  count_line policy choice (line_of policy code) = Ok l ↔ counts policy choice code l.
Proof.
  unfold code_kind, count_line, counts, scope_rule. intros Hk Hc. cbn [line_of scope service_code sla_id].
  destruct (dict_get (services policy) code) as [s|]; [|done]. cbn [mbind option_bind require_some result_bind] in *.
  destruct (rule_found s) as (rule & Hr & (_ & _ & Hshape)). rewrite Hr in *. cbn [require_some mbind result_bind].
  destruct (kind rule) eqn:Hkind; [| |done].
  - destruct Hshape as (_ & _ & h & Hh & _). rewrite Hh. cbn. split.
    + intros [= <-]. exists s, rule, h, Counting.OPENING_HOURS.
      rewrite decide_False by done. split_and!; try done. by left.
    + intros (s' & rule' & h' & c & [= <-] & Hr' & -> & Hcase). rewrite decide_False in Hcase by done.
      rewrite Hr in Hr'. injection Hr' as <-. destruct Hcase as [(_ & Hh' & ->)|(Hk' & _)]; congruence.
  - rewrite range_hours_asked.
    split.
    + intros H. apply bind_Ok in H as (h & H & [= <-]). exists s, rule, h, Counting.CALENDAR_HOURS.
      destruct (asked choice rule) as [h'|]; [|discriminate].
      apply raise_bind_Ok in H as [? [= ->]]. guards. rewrite decide_False by done.
      split_and!; try done. by right.
    + intros (s' & rule' & h & c & [= <-] & Hr' & -> & Hcase). rewrite decide_False in Hcase by done.
      rewrite Hr in Hr'. injection Hr' as <-. destruct Hcase as [(Hk' & _)|(_ & Hin & -> & ->)]; [congruence|].
      by rewrite bool_decide_true.
Qed.

Lemma counts_kind choice code l : counts policy choice code l →
  code_kind policy code = (match counting l with
    | Counting.OPENING_HOURS => ScopeKind.FIXED | Counting.CALENDAR_HOURS => ScopeKind.RANGE_CHOICE end).
Proof.
  unfold code_kind. intros (s & rule & h & c & -> & Hr & -> & Hcase). cbn. rewrite Hr.
  case_decide; naive_solver.
Qed.

Lemma counts_hours choice code l : counts policy choice code l →
  ∃ h, line_hours l = Some h ∧ 0 < h.
Proof.
  intros (s & rule & h & c & _ & Hr & -> & Hcase). exists h. split; [done|].
  destruct (rule_found s) as (rule' & Hr' & (_ & _ & Hshape)). rewrite Hr in Hr'. injection Hr' as <-.
  case_decide; [destruct Hcase as (_ & _ & -> & _); by apply ok_express|].
  destruct Hcase as [(Hk & Hh & _)|(Hk & Hin & _)]; rewrite Hk in Hshape.
  - destruct Hshape as (_ & _ & h' & Hh' & ?). congruence.
  - destruct Hshape as (_ & _ & Hpos & _). rewrite Forall_forall in Hpos. auto.
Qed.
End decision.

(** * The latest line wins *)

Section latest_of.
Context (policy : TurnaroundPolicy) (accepted : datetime).
Notation time_of := (line_time policy accepted).
Notation by_then t := (λ l, ∃ t', time_of l = Ok (Some t') ∧ instant t' <= instant t).
Notation before t := (λ l, ∃ t', time_of l = Ok (Some t') ∧ instant t' < instant t).

Lemma latest_cons x ls t line : latest policy accepted (x :: ls) t line ↔
  (x = line ∧ time_of x = Ok (Some t) ∧ Forall (by_then t) ls) ∨
  (before t x ∧ latest policy accepted ls t line).
Proof.
  split.
  - intros (pre & post & E & Ht & Hpre & Hpost). destruct pre as [|y pre]; injection E as -> ->.
    + by left.
    + apply Forall_cons in Hpre as [? Hpre]. right. split; [done|]. by exists pre, post.
  - intros [(-> & Ht & Hl)|(Hx & pre & post & -> & Ht & Hpre & Hpost)].
    + exists [], ls. by split_and!.
    + exists (x :: pre), post. split_and!; try done. by constructor.
Qed.

Lemma latest_line_after ls : ∀ b lb t line,
  latest_line policy accepted (Some (b, lb)) ls = Ok (Some (t, line)) ↔
  (t = b ∧ line = lb ∧ Forall (by_then b) ls) ∨
  (latest policy accepted ls t line ∧ instant b < instant t).
Proof.
  induction ls as [|x ls IH]; intros b lb t line; cbn [latest_line].
  { cbn. split; [intros [= <- <-]; left; by split_and!|].
    intros [(-> & -> & _)|[(pre & post & E & _) _]]; [done|by destruct pre]. }
  rewrite latest_cons, Forall_cons. destruct (time_of x) as [[tx|]|e]; cbn [mbind result_bind].
  2,3: split; [done|]; intros [(_ & _ & (? & ? & _) & _)|[[(_ & ? & _)|((? & ? & _) & _)] _]]; congruence.
  unfold dt_ltb. destruct (Z.ltb_spec (instant b) (instant tx)); rewrite IH; split.
  - intros [(-> & -> & Hl)|[Hl ?]]; right; split; [by left|done| |lia]. right. split; [by exists tx|done].
  - intros [(_ & _ & (t' & [= <-] & ?) & _)|[[(-> & [= ->] & ?)|((t' & [= <-] & ?) & ?)] ?]]; [lia| |].
    + by left.
    + by right.
  - intros [(-> & -> & Hl)|[Hl ?]]; [left|right].
    + split_and!; try done. by exists tx.
    + split; [|done]. right. split; [exists tx; split; [done|lia]|done].
  - intros [(-> & -> & _ & Hl)|[[(-> & [= ->] & ?)|(_ & ?)] ?]]; [by left|lia|by right].
Qed.

Lemma latest_line_iff ls t line :
  latest_line policy accepted None ls = Ok (Some (t, line)) ↔ latest policy accepted ls t line.
Proof.
  destruct ls as [|x ls]; cbn [latest_line].
  { split; [done|]. intros (pre & post & E & _). by destruct pre. }
  rewrite latest_cons. destruct (time_of x) as [[tx|]|e]; cbn [mbind result_bind].
  2,3: split; [done|]; intros [(_ & ? & _)|((? & ? & _) & _)]; congruence.
  rewrite latest_line_after. split.
  - intros [(-> & -> & Hl)|[Hl ?]]; [by left|right]. split; [by exists tx|done].
  - intros [(-> & [= ->] & Hl)|((t' & [= <-] & ?) & ?)]; [by left|by right].
Qed.

(** Lines that all take the same time: the first is the latest. *)
Lemma latest_same ls t line : line ∈ take 1 ls → (∀ l, l ∈ ls → time_of l = Ok (Some t)) →
  latest policy accepted ls t line.
Proof.
  destruct ls as [|x ls]; cbn; [set_solver|]. rewrite take_0. intros Hx%list_elem_of_singleton Hall.
  subst. exists [], ls. split_and!; [done|apply Hall; by left|done|].
  apply Forall_forall. intros l Hl. exists t. split; [apply Hall; by right|lia].
Qed.

Lemma latest_in ls t line : latest policy accepted ls t line → line ∈ ls ∧ time_of line = Ok (Some t).
Proof. intros (pre & post & -> & ? & _). split; [set_solver|done]. Qed.
End latest_of.

(** * When, and what, an order is promised *)

Section computed.
Context (policy : TurnaroundPolicy) (Hok : policy_ok policy).
Context (accepted : datetime).

Definition express_of (code : string) : LinePromise :=
  MkLinePromise code (Some TurnaroundScope.STANDARD_CLOTHES)
    (Some (SLA_ID_BY_SCOPE TurnaroundScope.STANDARD_CLOTHES)) (Some (express_hours policy))
    Counting.OPENING_HOURS.

(** A line of standard clothing under a fixed time. *)
Definition expressible (code : string) : Prop :=
  scope (line_of policy code) = Some TurnaroundScope.STANDARD_CLOTHES ∧
  code_kind policy code = ScopeKind.FIXED.

Lemma counts_express code l :
  counts policy (Some PromiseChoice.EXPRESS_2H) code l ↔ expressible code ∧ l = express_of code.
Proof.
  unfold counts, expressible, code_kind. cbn [line_of scope]. split.
  - intros (s & rule & h & c & -> & Hr & -> & Hcase). rewrite decide_True in Hcase by done.
    destruct Hcase as (-> & Hk & -> & ->). cbn [mbind option_bind]. by rewrite Hr.
  - intros [[Hs Hk] ->]. rewrite Hs in *. destruct (rule_found policy Hok TurnaroundScope.STANDARD_CLOTHES) as (rule & Hr & _).
    cbn [mbind option_bind] in Hk. rewrite Hr in Hk. do 4 eexists. rewrite decide_True by done. by split_and!.
Qed.

Lemma Forall2_counts_express codes ls :
  Forall2 (counts policy (Some PromiseChoice.EXPRESS_2H)) codes ls ↔
  Forall expressible codes ∧ ls = express_of <$> codes.
Proof.
  split.
  - induction 1 as [|code l codes ls Hl _ [IH1 IH2]]; [done|]. apply counts_express in Hl as [? ->].
    split; [by constructor|]. by rewrite IH2.
  - intros [Hall ->]. induction Hall; constructor; [by apply counts_express|done].
Qed.

Lemma express_guard codes :
  negb (forallb (λ k, k is? ScopeKind.FIXED) (code_kind policy <$> codes))
  || existsb (λ l, negb (scope l is? Some TurnaroundScope.STANDARD_CLOTHES)) (line_of policy <$> codes)
  = false ↔ Forall expressible codes.
Proof.
  unfold expressible. induction codes as [|code codes IH]; [done|].
  rewrite Forall_cons, <- IH. cbn [fmap list_fmap forallb existsb]. clear IH.
  rewrite !orb_false_iff, !negb_false_iff, andb_true_iff, !bool_decide_eq_true. tauto.
Qed.

Lemma express_lines codes : Forall expressible codes →
  (λ l, MkLinePromise (service_code l) (scope l) (sla_id l) (Some (express_hours policy))
     Counting.OPENING_HOURS) <$> (line_of policy <$> codes) = express_of <$> codes.
Proof.
  induction 1 as [|code codes [Hs _] _ IH]; [done|]. cbn [fmap list_fmap]. f_equal; [|exact IH].
  cbn [line_of service_code scope sla_id] in *. by rewrite Hs.
Qed.

Lemma express_iff codes p : codes ≠ [] →
  express_promise policy accepted (line_of policy <$> codes) (code_kind policy <$> codes) = Ok (Promise p) ↔
  ∃ ls t line, Forall2 (counts policy (Some PromiseChoice.EXPRESS_2H)) codes ls ∧
    latest policy accepted ls t line ∧ p = MkPromised t "EXPRESS_2H" "EXPRESS_2H" ls accepted.
Proof.
  intros Hne. unfold express_promise. setoid_rewrite Forall2_counts_express.
  assert (∀ code, line_time policy accepted (express_of code) =
    add_opening_hours policy accepted (express_hours policy)) as Htime by done.
  split.
  - intros H. apply raise_bind_Ok in H as [Hg H]. apply express_guard in Hg as Hall.
    apply bind_Ok in H as ([t|] & Ht & [= <-]). rewrite express_lines by done.
    destruct codes as [|code codes]; [done|]. exists (express_of <$> code :: codes), t, (express_of code). split_and!; try done.
    apply latest_same; [by left|]. intros l (c & -> & _)%list_elem_of_fmap. by rewrite Htime.
  - intros (ls & t & line & (Hall & ->) & Hl & ->). apply express_guard in Hall as Hg. rewrite Hg.
    cbn [raise_if mbind result_bind]. apply latest_in in Hl as [(c & -> & _)%list_elem_of_fmap Ht].
    rewrite Htime in Ht. rewrite Ht. cbn [mbind result_bind]. by rewrite express_lines by done.
Qed.

Lemma ranged_iff choice codes ls : Forall2 (counts policy choice) codes ls →
  ScopeKind.RANGE_CHOICE ∈ code_kind policy <$> codes ↔
  existsb (λ l, counting l is? Counting.CALENDAR_HOURS) ls = true.
Proof.
  induction 1 as [|code l codes ls Hl _ IH]; cbn [fmap list_fmap existsb]; [set_solver|].
  rewrite elem_of_cons, orb_true_iff, IH, bool_decide_eq_true.
  rewrite (counts_kind policy choice code l Hl). destruct (counting l); naive_solver.
Qed.

Lemma rule_iff choice codes p : choice ≠ Some PromiseChoice.EXPRESS_2H →
  rule_promise policy accepted (line_of policy <$> codes) (code_kind policy <$> codes) choice = Ok (Promise p) ↔
  ∃ ls t line rule, Forall2 (counts policy choice) codes ls ∧ latest policy accepted ls t line ∧
    sla_id line = Some rule ∧
    p = MkPromised t (if ScopeKind.RANGE_CHOICE in? code_kind policy <$> codes
          then PromiseChoice.value (default PromiseChoice.H48 choice) else "RULE") rule ls accepted.
Proof.
  intros Hc. unfold rule_promise. assert (∀ ls, Forall (λ c, code_kind policy c ≠ ScopeKind.HUMAN) codes →
    traverse (count_line policy choice) (line_of policy <$> codes) = Ok ls ↔
    Forall2 (counts policy choice) codes ls) as Hcount.
  { intros ls Hk. rewrite traverse_Forall2, Forall2_fmap_l. revert ls.
    induction Hk as [|code codes' Hcode _ IH]; intros [|l ls]; try (split; by inversion 1).
    rewrite !Forall2_cons, <- IH. cbn. by rewrite count_line_iff. }
  destruct (human_reasons _) as [|r rs] eqn:Hr.
  - apply human_reasons_nil in Hr. split.
    + intros H. apply bind_Ok in H as (ls & Hls & H). apply bind_Ok in H as ([[t line]|] & Hl & H); [|done].
      apply bind_Ok in H as (rule & Hrule%require_some_Ok & [= <-]). exists ls, t, line, rule.
      rewrite <- Hcount, <- latest_line_iff by done. by split_and!.
    + intros (ls & t & line & rule & Hls & Hl & Hrule & ->). apply Hcount in Hls as ->; [|done].
      apply latest_line_iff in Hl as E. cbn [mbind result_bind]. rewrite E. cbn [mbind result_bind].
      by rewrite Hrule.
  - split; [done|]. intros (ls & _ & _ & _ & Hls & _). exfalso.
    assert (human_reasons (zip (line_of policy <$> codes) (code_kind policy <$> codes)) = []); [|congruence].
    apply human_reasons_nil. clear Hr Hcount. induction Hls as [|code l codes' ls Hl _ IH]; [constructor|].
    constructor; [|exact IH].
    rewrite (counts_kind policy choice code l Hl). by destruct (counting l).
Qed.

(** What a promise that no person picked the hour of is. *)
Definition promise_of (choice : option PromiseChoice.t) (codes : list string) (p : Promised) : Prop :=
  ∃ ls t line rule, codes ≠ [] ∧ Forall2 (counts policy choice) codes ls ∧
    (choice ∈ [Some PromiseChoice.H24; Some PromiseChoice.H48] →
     Exists (λ l, counting l = Counting.CALENDAR_HOURS) ls) ∧
    latest policy accepted ls t line ∧ rule_of choice line = Some rule ∧
    p = MkPromised t (basis_of choice ls) rule ls accepted.

Lemma existsb_calendar ls : existsb (λ l, counting l is? Counting.CALENDAR_HOURS) ls = true ↔
  Exists (λ l, counting l = Counting.CALENDAR_HOURS) ls.
Proof.
  induction ls as [|l ls IH]; cbn; [split; [done|by inversion 1]|].
  by rewrite Exists_cons, orb_true_iff, IH, bool_decide_eq_true.
Qed.

Lemma basis_ranged choice codes ls : Forall2 (counts policy choice) codes ls →
  choice ≠ Some PromiseChoice.CUSTOM → choice ≠ Some PromiseChoice.EXPRESS_2H →
  (choice ∈ [Some PromiseChoice.H24; Some PromiseChoice.H48] →
   Exists (λ l, counting l = Counting.CALENDAR_HOURS) ls) →
  (if ScopeKind.RANGE_CHOICE in? code_kind policy <$> codes
   then PromiseChoice.value (default PromiseChoice.H48 choice) else "RULE"%string) = basis_of choice ls.
Proof.
  intros Hls Hc Hx Hrange. pose proof (ranged_iff choice codes ls Hls) as Hr.
  rewrite <- existsb_calendar, <- Hr in Hrange. destruct choice as [c|]; cbn [basis_of default from_option id].
  - rewrite bool_decide_true; [done|]. apply Hrange. destruct c; set_solver.
  - clear Hrange. case_bool_decide as Hb; destruct (existsb _ ls); try done; [by apply Hr in Hb|].
    by destruct Hb; apply Hr.
Qed.

Lemma compute_promise_iff choice codes p : aware accepted = true → choice ≠ Some PromiseChoice.CUSTOM →
  compute_promise policy accepted codes choice None = Ok (Promise p) ↔ promise_of choice codes p.
Proof.
  intros Ha Hc. unfold compute_promise, _require_aware, promise_of. rewrite Ha, read_lines by done.
  rewrite (bool_decide_false (is_Some None)) by (by intros [? ?]).
  rewrite (bool_decide_false (choice = Some PromiseChoice.CUSTOM)) by done.
  cbn [negb andb raise_if mbind result_bind].
  case_bool_decide as Hne. { split; [done|]. by intros (? & ? & ? & ? & ? & _). }
  rewrite read_kinds by done. cbn [mbind result_bind]. case_bool_decide as Hx.
  { rewrite express_iff by done. rewrite Hx. split.
    - intros (ls & t & line & Hls & Hl & ->). exists ls, t, line, "EXPRESS_2H"%string. set_solver.
    - intros (ls & t & line & rule & _ & Hls & _ & Hl & [= <-] & ->). by exists ls, t, line. }
  rewrite raise_bind_Ok, rule_iff by done.
  assert (∀ ls, Forall2 (counts policy choice) codes ls →
    (bool_decide (choice ∈ [Some PromiseChoice.H24; Some PromiseChoice.H48]) &&
      negb (bool_decide (ScopeKind.RANGE_CHOICE ∈ code_kind policy <$> codes)) = false ↔
     (choice ∈ [Some PromiseChoice.H24; Some PromiseChoice.H48] →
      Exists (λ l, counting l = Counting.CALENDAR_HOURS) ls))) as Hguard.
  { intros ls Hls. rewrite <- existsb_calendar, <- (ranged_iff choice codes ls Hls).
    rewrite andb_false_iff, negb_false_iff, bool_decide_eq_false, bool_decide_eq_true.
    destruct (decide (choice ∈ [Some PromiseChoice.H24; Some PromiseChoice.H48])); tauto. }
  unfold rule_of. rewrite (bool_decide_false (choice = Some PromiseChoice.EXPRESS_2H)) by done.
  split.
  - intros (Hg & ls & t & line & rule & Hls & Hl & Hr & ->). exists ls, t, line, rule.
    pose proof (proj1 (Hguard ls Hls) Hg) as Hrange. split_and!; try done. by erewrite basis_ranged.
  - intros (ls & t & line & rule & _ & Hls & Hrange & Hl & Hr & ->). split; [by apply (Hguard ls)|].
    exists ls, t, line, rule. split_and!; try done. by erewrite basis_ranged.
Qed.

Lemma promise_time_fits choice codes ls t line : aware accepted = true →
  Forall2 (counts policy choice) codes ls → latest policy accepted ls t line → fits policy accepted t.
Proof.
  intros Ha Hls Hl. apply latest_in in Hl as [Hin Ht].
  apply list_elem_of_lookup in Hin as [i Hi].
  destruct (Forall2_lookup_r _ _ _ _ _ Hls Hi) as (code & _ & Hc).
  destruct (counts_hours policy Hok _ _ _ Hc) as (h & Hh & Hpos). pose proof (ok_hours policy Hok).
  unfold line_time in Ht. rewrite Hh in Ht. cbn [require_some mbind result_bind] in Ht.
  destruct (counting line); [by eapply add_opening_fits|by eapply add_calendar_fits].
Qed.
Lemma promise_fits_any codes choice custom p :
  compute_promise policy accepted codes choice custom = Ok (Promise p) →
  fits policy accepted (promised_at p) ∧ accepted_at p = accepted.
Proof.
  intros H. destruct (aware accepted) eqn:Ha.
  2: { unfold compute_promise, _require_aware in H. by rewrite Ha in H. }
  destruct (decide (choice = Some PromiseChoice.CUSTOM)) as [->|Hc].
  - unfold compute_promise, custom_promise in H. apply bind_Ok in H as (? & _ & H).
    apply raise_bind_Ok in H as [_ H]. apply bind_Ok in H as (ls & _ & H). cbn in H.
    apply bind_Ok in H as (at_ & _ & H). case_bool_decide; [done|].
    apply bind_Ok in H as (t & Ht & [= <-]). split; [|done]. by eapply check_fits.
  - destruct custom as [at_|].
    { unfold compute_promise, _require_aware in H. rewrite Ha in H.
      rewrite (bool_decide_true (is_Some _)), (bool_decide_false (choice = _)) in H by done. done. }
    apply compute_promise_iff in H; [|done..].
    destruct H as (ls & t & line & rule & _ & Hls & _ & Hl & _ & ->). split; [|done].
    by eapply promise_time_fits.
Qed.
End computed.

(** * Theorems *)

(** Noon on Friday 25 September 2026 in the shop, and the days around the 2028 Tet window. *)
Definition shop_time (y m d hh mm : Z) : datetime :=
  at_wall (day_number y m d * us_per_day + (hh * 60 + mm) * us_per_minute).
Definition blanket : list string := ["BED_BLANKET"%string].
Definition clothes : list string := ["STANDARD_WASH_DRY"%string].

Example friday_five : compute_promise shop_policy (shop_time 2026 9 25 17 0) clothes None None =
  Ok (Promise (MkPromised (shop_time 2026 9 26 13 0) "RULE" "SLA_STANDARD_CLOTHES"
    [MkLinePromise "STANDARD_WASH_DRY" (Some TurnaroundScope.STANDARD_CLOTHES)
       (Some "SLA_STANDARD_CLOTHES"%string) (Some 8) Counting.OPENING_HOURS] (shop_time 2026 9 25 17 0))).
Proof. vm_compute. reflexivity. Qed.
Example tet_is_skipped : add_opening_hours shop_policy (shop_time 2027 2 4 16 0) 8 =
  Ok (Some (shop_time 2027 2 11 12 0)).
Proof. vm_compute. reflexivity. Qed.
Example over_the_holidays : add_calendar_hours shop_policy (shop_time 2027 4 29 10 0) 24 =
  Ok (Some (shop_time 2027 5 2 8 0)).
Proof. vm_compute. reflexivity. Qed.

(** C22: what [add_opening_hours] promises is what the rule says.  Under a published policy, a
    number of hours from a start is promised at [p] exactly when [p] is, floored to the
    minute, the instant at which precisely that much time has been worked since the start --
    counted microsecond by microsecond in opening hours of open days -- inside 400 days and
    with no day of an unpublished Tet on the way; and the only failure is a calendar whose
    400 days hold less work than was asked. *)
Theorem opening_hours_promise_exact payload policy start h :
  parse_turnaround_policy payload = Ok policy → aware start = true → 0 < h →
  let w := shop_wall start in
  (∀ p, add_opening_hours policy start h = Ok (Some p) ↔
    ∃ e, p = at_wall (floor_us e) ∧ worked policy w e = hours h ∧ w < e ∧ working policy (e - 1) = true ∧
      wall_day e < wall_day w + 400 ∧ tet_known policy w e) ∧
  (∀ x, add_opening_hours policy start h = Err x ↔
    x = TurnaroundPolicyError ∧ worked policy w ((wall_day w + 400) * us_per_day) < hours h ∧
    (∀ k, wall_day w <= k < wall_day w + 400 → tet_unknown policy k = false)).
Proof.
  intros Hp Ha Hh w. apply parse_ok in Hp as Hok. pose proof (ok_hours policy Hok) as Hours.
  split; [intros p; by apply add_opening_promised|intros x; by apply add_opening_raises].
Qed.

Lemma opening_hours_promise_exact_witness :
  add_opening_hours shop_policy (shop_time 2026 9 25 17 0) 8 = Ok (Some (shop_time 2026 9 26 13 0)) ∧
  ∃ e, shop_time 2026 9 26 13 0 = at_wall (floor_us e) ∧
    worked shop_policy (shop_wall (shop_time 2026 9 25 17 0)) e = hours 8.
Proof.
  assert (add_opening_hours shop_policy (shop_time 2026 9 25 17 0) 8 = Ok (Some (shop_time 2026 9 26 13 0)))
    as H by (vm_compute; reflexivity).
  split; [exact H|].
  destruct (opening_hours_promise_exact shop_document shop_policy (shop_time 2026 9 25 17 0) 8
    ltac:(vm_compute; reflexivity) eq_refl ltac:(lia)) as [Hiff _].
  apply Hiff in H as (e & He & Hw & _). exists e. split; [exact He|exact Hw].
Defined.

(** a 24 or 48 hour promise is the first instant the shop can keep.  Under a published
    policy, hours counted on the clock are promised at [p] exactly when [p] is the earliest
    instant on an open day in opening hours -- closing time included -- that is not before
    the asked hours floored to the minute, found within 400 days and with no day of an
    unpublished Tet between the start and it. *)
Theorem calendar_promise_earliest payload policy start h p :
  parse_turnaround_policy payload = Ok policy → aware start = true → 0 < h →
  let w := shop_wall start in let f := floor_us (w + hours h) in
  add_calendar_hours policy start h = Ok (Some p) ↔
  ∃ e, p = at_wall e ∧ (f <= e ∧ promisable policy e = true ∧ ∀ v, f <= v < e → promisable policy v = false) ∧
    wall_day e < landing_day policy f + 400 ∧ tet_known policy w e.
Proof.
  intros Hp Ha Hh w f. apply parse_ok in Hp as Hok. pose proof (ok_hours policy Hok) as Hours.
  by apply add_calendar_promised.
Qed.

Lemma calendar_promise_earliest_witness :
  add_calendar_hours shop_policy (shop_time 2027 4 29 10 0) 24 = Ok (Some (shop_time 2027 5 2 8 0)) ∧
  ∃ e, shop_time 2027 5 2 8 0 = at_wall e ∧ promisable shop_policy e = true.
Proof.
  assert (add_calendar_hours shop_policy (shop_time 2027 4 29 10 0) 24 = Ok (Some (shop_time 2027 5 2 8 0)))
    as H by (vm_compute; reflexivity).
  split; [exact H|].
  apply (calendar_promise_earliest shop_document shop_policy (shop_time 2027 4 29 10 0) 24 _
    ltac:(vm_compute; reflexivity) eq_refl ltac:(lia)) in H as (e & He & (_ & Hp & _) & _).
  exists e. split; [exact He|exact Hp].
Defined.

(** C21: every promise can be kept.  Whatever lines an order has and whatever the counter
    chose -- the rule, 24 or 48 hours, express, or a person's own time -- a promise made
    under a published policy names a whole minute, on a day the shop is open, in opening
    hours, strictly after the goods were accepted. *)
Theorem promises_can_be_kept payload policy accepted codes choice custom p :
  parse_turnaround_policy payload = Ok policy →
  compute_promise policy accepted codes choice custom = Ok (Promise p) →
  fits policy accepted (promised_at p) ∧ accepted_at p = accepted.
Proof.
  intros Hp%parse_ok H. by apply (promise_fits_any policy Hp accepted codes choice custom).
Qed.

Lemma promises_can_be_kept_witness :
  fits shop_policy (shop_time 2026 9 25 17 0) (shop_time 2026 9 26 13 0).
Proof.
  refine (proj1 (promises_can_be_kept shop_document shop_policy _ clothes None None _ _ friday_five)).
  vm_compute. reflexivity.
Defined.

(** the order's promise is exactly its latest line's.  Under a published policy, without
    a person's own time, an order is promised [p] exactly when every line has a rule that
    needs no person -- its fixed hours of work, or the 24 to 48 hours asked for (or the
    policy's default) on the clock; for express, standard clothing only, at the express
    hours -- a 24/48 choice has a line to apply to, every line's own time is known, and [p]
    is the first of the latest lines' time, citing that line's rule, with every line's hours
    in the trace. *)
Theorem promise_is_the_latest_line payload policy accepted codes choice p :
  parse_turnaround_policy payload = Ok policy → aware accepted = true →
  choice ≠ Some PromiseChoice.CUSTOM →
  compute_promise policy accepted codes choice None = Ok (Promise p) ↔
  ∃ ls t line rule, codes ≠ [] ∧ Forall2 (counts policy choice) codes ls ∧
    (choice ∈ [Some PromiseChoice.H24; Some PromiseChoice.H48] →
     Exists (λ l, counting l = Counting.CALENDAR_HOURS) ls) ∧
    latest policy accepted ls t line ∧ rule_of choice line = Some rule ∧
    p = MkPromised t (basis_of choice ls) rule ls accepted.
Proof. intros Hp%parse_ok. by apply compute_promise_iff. Qed.

Lemma promise_is_the_latest_line_witness :
  ∃ ls t line rule, Forall2 (counts shop_policy None) clothes ls ∧
    latest shop_policy (shop_time 2026 9 25 17 0) ls t line ∧ rule_of None line = Some rule ∧
    t = shop_time 2026 9 26 13 0.
Proof.
  pose proof friday_five as H.
  apply (promise_is_the_latest_line shop_document shop_policy (shop_time 2026 9 25 17 0) clothes None _ ltac:(vm_compute; reflexivity)
    eq_refl ltac:(discriminate)) in H as (ls & t & line & rule & _ & Hls & _ & Hl & Hr & Hp).
  exists ls, t, line, rule. split; [exact Hls|]. split; [exact Hl|]. split; [exact Hr|].
  exact (eq_sym (f_equal promised_at Hp)).
Defined.

Section options.
Context (policy : TurnaroundPolicy) (Hok : policy_ok policy).
Context (accepted : datetime) (codes : list string) (Ha : aware accepted = true).

Notation promised c t := (∃ p, compute_promise policy accepted codes c None = Ok (Promise p) ∧
  promised_at p = t).

(** Express and a 24/48 choice never both apply. *)
Lemma promised_ranged c p : c ∈ [PromiseChoice.H24; PromiseChoice.H48] →
  compute_promise policy accepted codes (Some c) None = Ok (Promise p) →
  ScopeKind.RANGE_CHOICE ∈ code_kind policy <$> codes.
Proof.
  intros Hc H. apply compute_promise_iff in H; [|done..|set_solver].
  destruct H as (ls & t & line & rule & _ & Hls & Hrange & _).
  apply (ranged_iff policy Hok (Some c) codes ls Hls), existsb_calendar, Hrange. set_solver.
Qed.

Lemma promised_express p :
  compute_promise policy accepted codes (Some PromiseChoice.EXPRESS_2H) None = Ok (Promise p) →
  ScopeKind.RANGE_CHOICE ∉ code_kind policy <$> codes.
Proof.
  intros H. apply compute_promise_iff in H; [|done..]. destruct H as (ls & t & line & rule & _ & Hls & _).
  rewrite (ranged_iff policy Hok _ codes ls Hls), not_true_iff_false.
  apply Forall2_counts_express in Hls as [_ ->]; [|done].
  induction codes as [|code codes' IH]; [done|]. exact IH.
Qed.

Lemma choice_option_in c d c' t : (c', Some t) ∈ choice_option c d ↔
  c' = c ∧ ∃ p, d = Promise p ∧ promised_at p = t.
Proof. destruct d as [p|]; cbn; rewrite ?list_elem_of_singleton; [|set_solver]. naive_solver. Qed.

Lemma options_exact o : promise_options policy accepted codes = Ok o →
  match default_promised_at o with
  | Some t => promised None t ∧
      ∀ c t', c ≠ PromiseChoice.CUSTOM → (c, Some t') ∈ choices o ↔ promised (Some c) t'
  | None => compute_promise policy accepted codes None None =
      Ok (PromiseNeedsHuman (reason_codes o) (human_service_codes o)) ∧
      choices o = [(PromiseChoice.CUSTOM, None)]
  end.
Proof.
  unfold promise_options. intros H. apply bind_Ok in H as (d & Hd & H).
  rewrite read_lines in H by done. cbn [mbind result_bind] in H. rewrite read_kinds in H by done.
  cbn [mbind result_bind] in H. destruct d as [p|reasons needing]; [|by injection H as <-].
  case_bool_decide as Hr.
  - apply bind_Ok in H as (h24 & H24 & H). apply bind_Ok in H as (h48 & H48 & [= <-]). cbn.
    split; [by exists p|]. intros c t Hc. rewrite !elem_of_app, list_elem_of_singleton, !choice_option_in. split.
    + intros [[-> (q & -> & <-)]|[[-> (q & -> & <-)]|?]]; [by exists q..|done].
    + intros (q & Hq & <-). destruct c; [left|right; left|by apply promised_express in Hq|done];
        (split; [done|]); exists q; split; congruence.
  - apply bind_Ok in H as (l & Hl & [= <-]). cbn. split; [by exists p|]. intros c t Hc.
    rewrite elem_of_app, list_elem_of_singleton.
    assert ((c, Some t) ∈ l ↔ c = PromiseChoice.EXPRESS_2H ∧
      promised (Some PromiseChoice.EXPRESS_2H) t) as ->.
    { unfold express_option in Hl. destruct (compute_promise _ _ _ (Some PromiseChoice.EXPRESS_2H) _) as [d|e].
      - injection Hl as <-. rewrite choice_option_in. naive_solver.
      - destruct e; try discriminate. injection Hl as <-. split; [set_solver|naive_solver]. }
    split.
    + intros [[-> (q & Hq & <-)]|?]; [by exists q|done].
    + intros (q & Hq & <-). left. destruct c; [| |split; [done|by exists q]|done];
        destruct Hr; eapply promised_ranged; [|exact Hq| |exact Hq]; set_solver.
Qed.
End options.

(** the counter is shown the truth.  Under a published policy, when the screen says what
    pressing the button would promise, pressing it then promises that; a choice is listed
    with a time exactly when taking it would promise that time -- no choice that works is
    hidden, none that is refused is shown; and when a person must set the time, the screen
    gives the reasons and the lines the step would be refused with. *)
Theorem promise_options_truthful payload policy accepted codes o :
  parse_turnaround_policy payload = Ok policy → aware accepted = true →
  promise_options policy accepted codes = Ok o →
  match default_promised_at o with
  | Some t =>
      (∃ p, compute_promise policy accepted codes None None = Ok (Promise p) ∧ promised_at p = t) ∧
      ∀ c t', c ≠ PromiseChoice.CUSTOM → (c, Some t') ∈ choices o ↔
        ∃ p, compute_promise policy accepted codes (Some c) None = Ok (Promise p) ∧ promised_at p = t'
  | None =>
      compute_promise policy accepted codes None None =
        Ok (PromiseNeedsHuman (reason_codes o) (human_service_codes o)) ∧
      choices o = [(PromiseChoice.CUSTOM, None)]
  end.
Proof. intros Hp%parse_ok Ha. by apply options_exact. Qed.

Lemma promise_options_truthful_witness :
  ∃ p, compute_promise shop_policy (shop_time 2026 9 25 17 0) blanket (Some PromiseChoice.H24) None
    = Ok (Promise p) ∧ promised_at p = shop_time 2026 9 26 17 0.
Proof.
  destruct (promise_options shop_policy (shop_time 2026 9 25 17 0) blanket) as [o|] eqn:Ho;
    [|vm_compute in Ho; discriminate].
  pose proof (promise_options_truthful shop_document shop_policy (shop_time 2026 9 25 17 0) blanket o ltac:(vm_compute; reflexivity)
    eq_refl Ho) as H.
  assert (o = MkPromiseOptions PromiseRequirement.RANGE_CHOICE (Some (shop_time 2026 9 27 17 0))
    (Some PromiseChoice.H48)
    [(PromiseChoice.H24, Some (shop_time 2026 9 26 17 0));
     (PromiseChoice.H48, Some (shop_time 2026 9 27 17 0)); (PromiseChoice.CUSTOM, None)] [] []) as E.
  { vm_compute in Ho. vm_compute. injection Ho as <-. reflexivity. }
  rewrite E in H. destruct H as [_ H]. apply (H PromiseChoice.H24); [discriminate|left].
Defined.

(** Near an unpublished Tet the rule's 48 hours cannot be promised, and the screen then offers
    only a person's own time, although 24 hours would be taken. *)
Example tet_hides_a_day :
  choices <$> (match promise_options shop_policy (shop_time 2028 1 13 10 0) blanket with
               | Ok o => Some o | Err _ => None end) = Some [(PromiseChoice.CUSTOM, None)] ∧
  is_Ok (compute_promise shop_policy (shop_time 2028 1 13 10 0) blanket (Some PromiseChoice.H24) None) = true ∧
  add_calendar_hours shop_policy (shop_time 2028 1 13 10 0) 24 = Ok (Some (shop_time 2028 1 14 10 0)).
Proof. split_and!; vm_compute; reflexivity. Qed.

(** The shop's document with another choice of hours for blankets, as the parser accepts it. *)
Definition blanket_policy (choices : list json) (standard : Z) : parsed TurnaroundPolicy :=
  parse_turnaround_policy (dict_alter (λ _, JObj [
    ("STANDARD_CLOTHES", scope_json "SLA_STANDARD_CLOTHES" [("kind", JStr "FIXED"); ("hours", JInt 8)]);
    ("SHOES", range_json "SLA_SHOES"); ("CURTAINS", range_json "SLA_CURTAINS");
    ("BLANKETS_AND_SHEETS", scope_json "SLA_BLANKETS_SHEETS"
       [("kind", JStr "RANGE_CHOICE"); ("choices_hours", JList choices); ("default_hours", JInt standard)]);
    ("OTHER_SPECIAL", scope_json "SLA_OTHER_SPECIAL" [("kind", JStr "HUMAN")])])
    "scopes" shop_document)%string.

(** A default of 24 hours is counted as 24 and recorded as [H48]. *)
Example basis_ignores_the_default :
  (policy ← blanket_policy [JInt 24; JInt 48] 24;
   decided ← compute_promise policy (shop_time 2026 9 25 17 0) blanket None None;
   match decided with
   | Promise p => Ok (basis p, line_hours <$> lines p)
   | PromiseNeedsHuman _ _ => Err KeyError
   end) = Ok ("H48"%string, [Some 24]).
Proof. vm_compute. reflexivity. Qed.

(** Without 24 among the choices the counter's screen raises. *)
Example narrow_choices_break_the_screen :
  (policy ← blanket_policy [JInt 48] 48;
   promise_options policy (shop_time 2026 9 25 17 0) blanket) =
  Err (PromiseError PromiseRefusal.PROMISE_CHOICE_NOT_APPLICABLE).
Proof. vm_compute. reflexivity. Qed.
