(* ===== verification/Configurations.v ===== *)
(** Versioned, immutable configuration ([packages/db/.../configurations.py]): drafts are
    inserted, published once, and only published versions are read.  The table carries the
    constraints of migration 0002: a unique id, a unique version per type, and no change to
    a published row.  The canonical digest is the library's and a parameter; so are the
    typed validators, which the repository is built with. *)
From Stdlib Require Import Ascii String.
From S2P Require Import Prelude Text Json.
Local Open Scope laundry_scope.
Local Open Scope Z_scope.

Module Lifecycle.
Inductive t :=
  | DRAFT | PUBLISHED | RETIRED.
#[export] Instance eq_dec : EqDecision t.
Proof. solve_decision. Defined.
End Lifecycle.
#[export] Existing Instance Lifecycle.eq_dec.

(** A row of [configuration_versions]. *)
Record ConfigurationRow := MkConfigurationRow {
  config_id : Z;
  config_type : string;
  version : Z;
  lifecycle : Lifecycle.t;
  payload : object;
  row_snapshot_hash : string;
  created_by : Z;
  published_by : option Z;
}.

Record PublishedConfiguration := MkPublishedConfiguration {
  version_id : Z;
  published_version : Z;
  snapshot_hash_of : string;
}.

Record ConfigurationDraft := MkConfigurationDraft {
  draft_type : string;
  draft_version : Z;
  draft_payload : object;
  draft_created_by : Z;
  draft_id : Z;
}.

Inductive ConfigurationFailure :=
  | ConfigurationValidationError | ConfigurationStateError
  | InvalidDocument                      (* what the typed validator raised *)
  | UniqueViolation.                     (* the table's own constraints *)
#[export] Instance ConfigurationFailure_eq_dec : EqDecision ConfigurationFailure.
Proof. solve_decision. Defined.

Notation configured := (result ConfigurationFailure).

(** [CONFIG_TYPE_PATTERN]: an upper-case letter, then 1 to 62 of [A-Z0-9_]. *)
Definition CONFIG_TYPE_PATTERN (t : string) : bool :=
  match txt t with
  | c :: rest =>
      between 65 90 c
      && forallb (λ c, between 65 90 c || is_digit_char c || (c is? "_"%char)) rest
      && (1 <=? length rest)%nat && (length rest <=? 62)%nat
  | [] => false
  end.

(** [[0-9a-f]{64}]. *)
Definition is_sha256 (h : string) : bool :=
  (length (txt h) =? 64)%nat && forallb (λ c, is_digit_char c || between 97 102 c) (txt h).

Section repository.
(** The hex digest of RFC 8785 canonical JSON, [None] for a value that has no such form. *)
Context (digest : object → option string).
(** [self._validators]: the typed validator of a type, if one is registered. *)
Context (validators : string → option (object → bool)).

Definition snapshot_hash (p : object) : configured string :=
  require_some (digest (_without_volatile_fields p)) ConfigurationValidationError.

Definition _validate_draft (d : ConfigurationDraft) : configured unit :=
  raise_if (negb (CONFIG_TYPE_PATTERN (draft_type d)) || (draft_version d <? 1))
    ConfigurationValidationError ;;
  validator ← require_some (validators (draft_type d)) ConfigurationValidationError;
  raise_if (negb (validator (draft_payload d))) InvalidDocument ;;
  _ ← snapshot_hash (draft_payload d);
  Ok tt.

Definition same_version (t : string) (v : Z) (r : ConfigurationRow) : bool :=
  (config_type r is? t) && (version r =? v).

Definition draft_row (d : ConfigurationDraft) (h : string) : ConfigurationRow :=
  MkConfigurationRow (draft_id d) (draft_type d) (draft_version d) Lifecycle.DRAFT
    (_without_volatile_fields (draft_payload d)) h (draft_created_by d) None.

Definition create_draft (table : list ConfigurationRow) (d : ConfigurationDraft)
    : configured (list ConfigurationRow) :=
  _validate_draft d ;;
  content_hash ← snapshot_hash (draft_payload d);
  raise_if (existsb (λ r, config_id r =? draft_id d) table
            || existsb (same_version (draft_type d) (draft_version d)) table) UniqueViolation ;;
  Ok (table ++ [draft_row d content_hash]).

Definition publishable (id v : Z) (h : string) (r : ConfigurationRow) : bool :=
  (config_id r =? id) && (version r =? v) && (lifecycle r is? Lifecycle.DRAFT)
  && (row_snapshot_hash r is? h).

Definition set_published (by_ : Z) (r : ConfigurationRow) : ConfigurationRow :=
  MkConfigurationRow (config_id r) (config_type r) (version r) Lifecycle.PUBLISHED (payload r)
    (row_snapshot_hash r) (created_by r) (Some by_).

Definition publish (table : list ConfigurationRow) (id v : Z) (h : string) (by_ : Z)
    : configured (list ConfigurationRow) :=
  raise_if ((v <? 1) || negb (is_sha256 h)) ConfigurationValidationError ;;
  raise_if (negb (existsb (publishable id v h) table)) ConfigurationStateError ;;
  Ok ((λ r, if publishable id v h r then set_published by_ r else r) <$> table).

(** [ORDER BY version DESC LIMIT 1] over the published rows of the type. *)
Fixpoint latest_of (t : string) (table : list ConfigurationRow) : option ConfigurationRow :=
  match table with
  | [] => None
  | r :: table =>
      let rest := latest_of t table in
      if (config_type r is? t) && (lifecycle r is? Lifecycle.PUBLISHED) then
        match rest with
        | Some best => if version r <? version best then rest else Some r
        | None => Some r
        end
      else rest
  end.

Definition latest_published (table : list ConfigurationRow) (t : string)
    : configured (option PublishedConfiguration) :=
  raise_if (negb (CONFIG_TYPE_PATTERN t)) ConfigurationValidationError ;;
  Ok ((λ r, MkPublishedConfiguration (config_id r) (version r) (row_snapshot_hash r)) <$>
      latest_of t table).

Definition get_published (table : list ConfigurationRow) (id : Z) : option object :=
  payload <$> find (λ r, (config_id r =? id) && (lifecycle r is? Lifecycle.PUBLISHED)) table.

(** * The table *)

(** The constraints of the table, and that a stored row carries its payload's digest. *)
Record table_ok (table : list ConfigurationRow) : Prop := {
  ids_distinct : NoDup (config_id <$> table);
  versions_distinct : NoDup ((λ r, (config_type r, version r)) <$> table);
  rows_hashed : Forall (λ r, snapshot_hash (payload r) = Ok (row_snapshot_hash r) ∧
    _without_volatile_fields (payload r) = payload r ∧ 1 <= version r) table;
}.

Lemma fresh_NoDup {A} (f : ConfigurationRow → A) table r :
  NoDup (f <$> table) → f r ∉ f <$> table → NoDup (f <$> (table ++ [r])).
Proof.
  intros Hnd Hr. rewrite fmap_app. apply NoDup_app. split_and!; [done| |apply NoDup_singleton].
  intros x Hx ->%list_elem_of_singleton. done.
Qed.

Lemma create_draft_inv table d table' : create_draft table d = Ok table' →
  ∃ h, snapshot_hash (draft_payload d) = Ok h ∧ table' = table ++ [draft_row d h] ∧
  1 <= draft_version d ∧ draft_id d ∉ config_id <$> table ∧
  (draft_type d, draft_version d) ∉ (λ r, (config_type r, version r)) <$> table.
Proof.
  unfold create_draft, _validate_draft. intros H. result_inv. guards.
  eexists. split_and!; [done|done|done|..].
  - intros (r & Hid & Hr)%list_elem_of_fmap. eapply existsb_false in Hr; [|exact H]. cbn in Hr. guards. lia.
  - intros (r & [= Ht Hv] & Hr)%list_elem_of_fmap. eapply existsb_false in Hr; [|exact H0].
    unfold same_version in Hr. rewrite bool_decide_true, <- Hv, Z.eqb_refl in Hr by done. done.
Qed.

Lemma create_draft_ok table d table' : table_ok table → create_draft table d = Ok table' → table_ok table'.
Proof.
  intros [Hi Hv Hh] (h & Hhash & -> & Hpos & Hid & Hver)%create_draft_inv. split.
  - by apply fresh_NoDup.
  - by apply fresh_NoDup.
  - apply Forall_app. split; [done|]. apply Forall_singleton. cbn. unfold snapshot_hash in *.
    by rewrite without_volatile_fields_idemp.
Qed.

Lemma publish_inv table id v h by_ table' : publish table id v h by_ = Ok table' →
  is_sha256 h = true ∧ (∃ r, r ∈ table ∧ publishable id v h r = true) ∧
  table' = (λ r, if publishable id v h r then set_published by_ r else r) <$> table.
Proof.
  unfold publish. intros H. result_inv. guards. split; [done|]. split; [|done].
  match goal with H : existsb _ _ = true |- _ => apply existsb_exists in H as (r & Hr & ?) end.
  exists r. by rewrite list_elem_of_In.
Qed.

(** Publishing changes a draft's lifecycle and nothing that identifies a row or what it holds. *)
Lemma publish_fields {A} (f : ConfigurationRow → A) (table : list ConfigurationRow) id v h by_ :
  (∀ r, f (set_published by_ r) = f r) →
  f <$> ((λ r, if publishable id v h r then set_published by_ r else r) <$> table) = f <$> table.
Proof.
  intros Hf. rewrite <- list_fmap_compose. apply list_fmap_ext. intros i r _. cbn. by case_match.
Qed.

Lemma publish_ok table id v h by_ table' : table_ok table → publish table id v h by_ = Ok table' →
  table_ok table'.
Proof.
  intros [Hi Hv Hh] (_ & _ & ->)%publish_inv. split.
  - by rewrite publish_fields.
  - by rewrite publish_fields.
  - apply Forall_fmap. eapply Forall_impl; [exact Hh|]. intros r. cbn. by case_match.
Qed.

(** A published row is the same in every later table. *)
Lemma create_draft_keeps table d table' r : create_draft table d = Ok table' →
  r ∈ table → r ∈ table'.
Proof. intros (h & _ & -> & _)%create_draft_inv Hr. by apply elem_of_app; left. Qed.

Lemma publish_keeps table id v h by_ table' r : publish table id v h by_ = Ok table' →
  r ∈ table → lifecycle r = Lifecycle.PUBLISHED → r ∈ table'.
Proof.
  intros (_ & _ & ->)%publish_inv Hr Hl. apply list_elem_of_fmap. exists r. split; [|done].
  assert (publishable id v h r = false) as ->; [|done]. unfold publishable.
  rewrite (bool_decide_false (lifecycle r = _)) by congruence. by rewrite andb_false_r.
Qed.

(** * Reading *)

Lemma latest_of_spec t table :
  match latest_of t table with
  | Some r => r ∈ table ∧ config_type r = t ∧ lifecycle r = Lifecycle.PUBLISHED ∧
      ∀ r', r' ∈ table → config_type r' = t → lifecycle r' = Lifecycle.PUBLISHED → version r' <= version r
  | None => ∀ r, r ∈ table → config_type r = t → lifecycle r ≠ Lifecycle.PUBLISHED
  end.
Proof.
  induction table as [|r table IH]; cbn [latest_of]; [set_solver|].
  destruct (_ && _) eqn:E; guards.
  - destruct (latest_of t table) as [best|].
    + destruct IH as (Hb & Ht & Hp & Hmax). destruct (Z.ltb_spec (version r) (version best)).
      * split_and!; [by right|done..|]. intros r' [->|Hr']%elem_of_cons; [lia|auto].
      * split_and!; [by left|done..|]. intros r' [->|Hr']%elem_of_cons Ht' Hp'; [lia|].
        specialize (Hmax r' Hr' Ht' Hp'). lia.
    + split_and!; [by left|done..|]. intros r' [->|Hr']%elem_of_cons Ht' Hp'; [lia|]. by destruct (IH r' Hr' Ht').
  - assert (config_type r = t → lifecycle r ≠ Lifecycle.PUBLISHED) as Hr.
    { intros Ht Hp. rewrite !bool_decide_true in E by done. done. }
    destruct (latest_of t table) as [best|].
    + destruct IH as (Hb & Ht & Hp & Hmax). split_and!; [by right|done..|].
      intros r' [->|Hr']%elem_of_cons Ht' Hp'; [by destruct (Hr Ht')|auto].
    + intros r' [->|Hr']%elem_of_cons; [done|auto].
Qed.

Lemma find_published table r : NoDup (config_id <$> table) → r ∈ table →
  lifecycle r = Lifecycle.PUBLISHED → get_published table (config_id r) = Some (payload r).
Proof.
  intros Hnd Hr Hp. unfold get_published. induction table as [|x table IH]; [by apply elem_of_nil in Hr|].
  cbn [fmap list_fmap] in Hnd. apply NoDup_cons in Hnd as [Hx Hnd]. cbn [find].
  apply elem_of_cons in Hr as [->|Hr].
  - by rewrite Z.eqb_refl, bool_decide_true.
  - destruct (Z.eqb_spec (config_id x) (config_id r)) as [E|]; cbn [andb]; [|by apply IH].
    destruct Hx. rewrite E. by apply list_elem_of_fmap_2.
Qed.
End repository.
