(* ===== verification/PromiseLedger.v ===== *)
(** The turnaround policy in force and the promise an order carries
    ([packages/db/.../promise_policy.py], [order_promises.py], [orders._plan_step_promise]):
    publishing and reading the document, the first promise that receiving goods writes, and
    moving it with a reason.  A transaction is a function from the tables to the tables or an
    exception; the order's promise columns carry the trigger of migration 0057, and the
    ledger of changes its CHECKs.  Roles and store membership are facts of the caller. *)
From Stdlib Require Import Ascii String.
From S2P Require Import Prelude Clock Text Json Catalog Calendar Promise OpeningHours.
From S2P Require Import TurnaroundDocument PromiseRules Configurations.
Local Open Scope laundry_scope.
Local Open Scope Z_scope.

Definition TURNAROUND_POLICY_CONFIG_TYPE : string := "TURNAROUND_POLICY".
Definition NOTE_MAX_LENGTH : Z := 120.

Inductive LedgerFailure :=
  | TurnaroundPolicyInvalid                                   (* TurnaroundPolicyError *)
  | TurnaroundPolicyAuthorizationError
  | Configuration (e : ConfigurationFailure)
  | PromiseRequired (reasons : list PromiseReason.t) (codes : list string)
  | PromiseRefused (code : string)
  | Refused (code : PromiseRefusal.t)
  | Raised (e : PromiseFailure)
  | OrderAuthorizationError
  | OrderStateError
  | TriggerViolation.
Notation ledgered := (result LedgerFailure).

Definition lift_configuration {A} (r : configured A) : ledgered A :=
  match r with
  | Ok a => Ok a
  | Err InvalidDocument => Err TurnaroundPolicyInvalid
  | Err e => Err (Configuration e)
  end.

(** [except PromiseError]: the refusal by its code; anything else escapes. *)
Definition lift_promise {A} (r : result PromiseFailure A) : ledgered A :=
  match r with
  | Ok a => Ok a
  | Err (PromiseError code) => Err (Refused code)
  | Err e => Err (Raised e)
  end.

Record PublishedTurnaroundPolicy := MkPublished {
  policy : TurnaroundPolicy;
  policy_version_id : Z;
  policy_version : Z;
  policy_hash : string;
}.

Record PlannedPromise := MkPlanned {
  promised : Promised;
  planned_policy_version_id : Z;
}.

(** The promise columns of an order, with those the promise code reads. *)
Record PromiseOrder := MkPromiseOrder {
  commercial_status : CommercialOrderStatus.t;
  production_status : ProductionStatus.t;
  production_accepted_at : option datetime;
  production_ready_at : option datetime;
  promised_ready_at : option datetime;
  current_promise_at : option datetime;
  promise_basis : option string;
  promise_rule_id : option string;
  promise_policy_version_id : option Z;
  row_version : Z;
}.

(** A row of [order_promise_changes]. *)
Record PromiseChange := MkPromiseChange {
  previous_promise_at : datetime;
  new_promise_at : datetime;
  reason_code : PromiseChangeReason.t;
  note : option text;
  changed_by_staff_id : Z;
  changed_at : datetime;
}.

Record PromiseChangeCommand := MkPromiseChangeCommand {
  expected_row_version : Z;
  may_mutate : bool;
  store_member : bool;
  staff_user_id : Z;
  asked_promise_at : datetime;
  reason : PromiseChangeReason.t;
  command_note : option text;
  occurred_at : datetime;
}.

Section repository.
Context (digest : object → option string) (active_owner : Z → bool).

(** * The policy in force *)

Definition turnaround_validators (t : string) : option (object → bool) :=
  if t is? TURNAROUND_POLICY_CONFIG_TYPE
  then Some (λ o, is_Ok (validate_turnaround_document o)) else None.

(** [coalesce(max(version), 0)] over every row of the type. *)
Definition max_version (table : list ConfigurationRow) : Z :=
  foldr (λ r m, if config_type r is? TURNAROUND_POLICY_CONFIG_TYPE then Z.max (version r) m else m)
    0 table.

(** The digest of the document, and whether this call created a version; [id] is the new
    row's. *)
Definition publish_turnaround_policy (table : list ConfigurationRow) (actor : Z) (payload : object)
    (id : Z) : ledgered (list ConfigurationRow * (string * bool)) :=
  raise_if (negb (is_Ok (validate_turnaround_document payload))) TurnaroundPolicyInvalid ;;
  d ← lift_configuration (snapshot_hash digest payload);
  raise_if (negb (active_owner actor)) TurnaroundPolicyAuthorizationError ;;
  in_force ← lift_configuration (latest_published table TURNAROUND_POLICY_CONFIG_TYPE);
  if (match in_force with Some p => snapshot_hash_of p is? d | None => false end)
  then Ok (table, (d, false))
  else
    let next_version := max_version table + 1 in
    table ← lift_configuration (create_draft digest turnaround_validators table
      (MkConfigurationDraft TURNAROUND_POLICY_CONFIG_TYPE next_version payload actor id));
    table ← lift_configuration (publish table id next_version d actor);
    Ok (table, (d, true)).

Definition withdrawn (payload : object) : bool :=
  match dict_get payload "withdrawn"%string with Some (JBool true) => true | _ => false end.

Definition read_published_turnaround_policy (table : list ConfigurationRow)
    : ledgered (option PublishedTurnaroundPolicy) :=
  published ← lift_configuration (latest_published table TURNAROUND_POLICY_CONFIG_TYPE);
  match published with
  | None => Ok None
  | Some p =>
      match get_published table (version_id p) with
      | None => Ok None
      | Some payload =>
          d ← lift_configuration (snapshot_hash digest payload);
          if negb (d is? snapshot_hash_of p) then Ok None
          else if withdrawn payload then Ok None
          else
            match parse_turnaround_policy payload with
            | Ok pol => Ok (Some (MkPublished pol (version_id p) (published_version p) (snapshot_hash_of p)))
            | Err _ => Ok None
            end
      end
  end.

(** * The first promise *)

Definition plan_receive_promise (table : list ConfigurationRow) (codes : list string)
    (accepted_at : datetime) (choice : option PromiseChoice.t) (custom_at : option datetime)
    : ledgered (option PlannedPromise) :=
  published ← read_published_turnaround_policy table;
  match published with
  | None =>
      raise_if (bool_decide (is_Some choice) || bool_decide (is_Some custom_at))
        (PromiseRefused "TURNAROUND_POLICY_UNPUBLISHED") ;;
      Ok None
  | Some p =>
      decided ← lift_promise (compute_promise (policy p) accepted_at codes choice custom_at);
      match decided with
      | PromiseNeedsHuman reasons needing => Err (PromiseRequired reasons needing)
      | Promise found => Ok (Some (MkPlanned found (policy_version_id p)))
      end
  end.

(** [accepting]: the position in the step's plan of the transition that accepts the goods. *)
Definition _plan_step_promise (table : list ConfigurationRow) (order : PromiseOrder)
    (codes : list string) (accepting : option Z) (occurred_at : datetime)
    (choice : option PromiseChoice.t) (custom_at : option datetime)
    : ledgered (option PlannedPromise) :=
  match promised_ready_at order with
  | Some _ => Ok None
  | None =>
      match (match accepting with
             | Some index => Some (dt_add occurred_at index)
             | None => production_accepted_at order
             end) with
      | None => Ok None
      | Some accepted_at => plan_receive_promise table codes accepted_at choice custom_at
      end
  end.

(** [enforce_order_promise_update]: the trigger on the promise columns. *)
Definition promise_guard (old new : PromiseOrder) (changes : list PromiseChange) : bool :=
  (bool_decide (promised_ready_at old = None)
   || ((promised_ready_at new is? promised_ready_at old)
       && (promise_basis new is? promise_basis old)
       && (promise_rule_id new is? promise_rule_id old)
       && (promise_policy_version_id new is? promise_policy_version_id old)))
  && (bool_decide (is_Some (promised_ready_at old)) || (promised_ready_at new is? None)
      || (current_promise_at new is? promised_ready_at new))
  && ((current_promise_at old is? None) || (current_promise_at new is? current_promise_at old)
      || existsb (λ c, (Some (previous_promise_at c) is? current_promise_at old)
                       && (Some (new_promise_at c) is? current_promise_at new)) changes).

Definition update_order (old new : PromiseOrder) (changes : list PromiseChange) : ledgered PromiseOrder :=
  raise_if (negb (promise_guard old new changes)) TriggerViolation ;; Ok new.

Definition set_promise (order : PromiseOrder) (planned : PlannedPromise) : PromiseOrder :=
  let p := promised planned in
  MkPromiseOrder (commercial_status order) (production_status order) (production_accepted_at order)
    (production_ready_at order) (Some (promised_at p)) (Some (promised_at p)) (Some (basis p))
    (Some (rule_id p)) (Some (planned_policy_version_id planned)) (row_version order + 1).

Definition write_receive_promise (order : PromiseOrder) (changes : list PromiseChange)
    (expected : Z) (planned : PlannedPromise) : ledgered PromiseOrder :=
  if (row_version order =? expected) && (promised_ready_at order is? None)
  then update_order order (set_promise order planned) changes
  else Err (PromiseRefused "STALE_VERSION").

(** * Moving a promise *)

(** [None if note is None else note.strip() or None]. *)
Definition clean_note (n : option text) : option text :=
  match n with
  | Some t => if strip t is? [] then None else Some (strip t)
  | None => None
  end.

Definition set_current_promise (order : PromiseOrder) (at_ : datetime) : PromiseOrder :=
  MkPromiseOrder (commercial_status order) (production_status order) (production_accepted_at order)
    (production_ready_at order) (promised_ready_at order) (Some at_) (promise_basis order)
    (promise_rule_id order) (promise_policy_version_id order) (row_version order + 1).

Definition order_done (order : PromiseOrder) : bool :=
  (commercial_status order in? [CommercialOrderStatus.CANCELLED; CommercialOrderStatus.COMPLETED])
  || (production_status order in? [ProductionStatus.READY_AT_STORE; ProductionStatus.RELEASED]).

Definition check_change (c : PromiseChangeCommand) : ledgered unit :=
  raise_if (negb (may_mutate c)) OrderAuthorizationError ;;
  raise_if (expected_row_version c <? 1) OrderStateError ;;
  let n := clean_note (command_note c) in
  raise_if (NOTE_MAX_LENGTH <? Z.of_nat (length (default [] n))) (PromiseRefused "PROMISE_NOTE_TOO_LONG") ;;
  raise_if ((reason c is? PromiseChangeReason.OTHER) && (n is? None)) (PromiseRefused "PROMISE_NOTE_REQUIRED") ;;
  raise_if (negb (aware (asked_promise_at c))) OrderStateError ;;
  raise_if (negb (store_member c)) OrderAuthorizationError.

Definition change_once (table : list ConfigurationRow) (order : PromiseOrder)
    (changes : list PromiseChange) (c : PromiseChangeCommand)
    : ledgered (PromiseOrder * list PromiseChange) :=
  raise_if (negb (row_version order =? expected_row_version c)) OrderStateError ;;
  published ← read_published_turnaround_policy table;
  p ← require_some published (PromiseRefused "TURNAROUND_POLICY_UNPUBLISHED");
  previous ← require_some (current_promise_at order) (PromiseRefused "PROMISE_NOT_SET");
  raise_if (order_done order) (PromiseRefused "PROMISE_ORDER_DONE") ;;
  new_at ← lift_promise (check_promise_time (policy p) (asked_promise_at c) (occurred_at c));
  raise_if (instant new_at =? instant previous) (Refused PromiseRefusal.PROMISE_UNCHANGED) ;;
  let changes := changes ++ [MkPromiseChange previous new_at (reason c)
    (clean_note (command_note c)) (staff_user_id c) (occurred_at c)] in
  order ← update_order order (set_current_promise order new_at) changes;
  Ok (order, changes).

Definition change (table : list ConfigurationRow) (order : PromiseOrder)
    (changes : list PromiseChange) (c : PromiseChangeCommand)
    : ledgered (PromiseOrder * list PromiseChange) :=
  check_change c ;; change_once table order changes c.
End repository.
