(* ===== verification/PromiseLedgerFacts.v ===== *)
(** What [PromiseLedger] keeps: a published document is the policy in force until the next
    publication, the first promise never changes, the ledger of changes leads from it to what
    the customer was last told, and every time in it could be kept. *)
From Stdlib Require Import Ascii String.
From S2P Require Import Prelude Clock Text Json Catalog Calendar Promise OpeningHours.
From S2P Require Import TurnaroundDocument PromiseRules Configurations PromiseLedger.
Local Open Scope laundry_scope.
Local Open Scope Z_scope.

Section publication.
Context (digest : object → option string) (active_owner : Z → bool).

Notation publish_policy := (publish_turnaround_policy digest active_owner).
Notation in_force := (read_published_turnaround_policy digest).

Lemma max_version_bound table r : r ∈ table → config_type r = TURNAROUND_POLICY_CONFIG_TYPE →
  version r <= max_version table.
Proof.
  unfold max_version. induction table as [|x table IH]; cbn; [set_solver|].
  intros [->|Hr]%elem_of_cons Ht; [rewrite bool_decide_true by done; lia|].
  specialize (IH Hr Ht). case_match; lia.
Qed.

Lemma publish_inv_policy table actor doc id table' d created :
  publish_policy table actor doc id = Ok (table', (d, created)) →
  validate_turnaround_document doc = Ok tt ∧ snapshot_hash digest doc = Ok d ∧ active_owner actor = true ∧
  ((created = false ∧ table' = table ∧ ∃ p,
      latest_published table TURNAROUND_POLICY_CONFIG_TYPE = Ok (Some p) ∧ snapshot_hash_of p = d) ∨
   (created = true ∧ ∃ draft table1, draft = MkConfigurationDraft TURNAROUND_POLICY_CONFIG_TYPE
      (max_version table + 1) doc actor id ∧
      create_draft digest turnaround_validators table draft = Ok table1 ∧
      Configurations.publish table1 id (max_version table + 1) d actor = Ok table')).
Proof.
  unfold publish_turnaround_policy. intros H. apply raise_bind_Ok in H as [Hv H].
  assert (∀ A (r : configured A) a, lift_configuration r = Ok a → r = Ok a) as Hlift.
  { by intros A [a|[]] a' [= ->]. }
  apply bind_Ok in H as (d' & Hd%Hlift & H). apply raise_bind_Ok in H as [Ho H].
  apply bind_Ok in H as (p & Hp%Hlift & H). guards.
  assert (validate_turnaround_document doc = Ok tt) as Hdoc.
  { destruct (validate_turnaround_document doc) as [[]|]; [done|discriminate]. }
  destruct (match p with Some _ => _ | None => _ end) eqn:E.
  - injection H as <- <- <-. destruct p as [p|]; [|discriminate]. guards.
    split_and!; try done. left. split_and!; try done. by exists p.
  - apply bind_Ok in H as (t1 & Ht1%Hlift & H). apply bind_Ok in H as (t2 & Ht2%Hlift & [= <- <- <-]).
    split_and!; try done. right. split; [done|]. by exists (MkConfigurationDraft TURNAROUND_POLICY_CONFIG_TYPE (max_version table + 1) doc actor id), t1.
Qed.

Lemma publish_policy_ok table actor doc id r : table_ok digest table →
  publish_policy table actor doc id = Ok r → table_ok digest r.1.
Proof.
  destruct r as [table' [d created]]. intros Hok H%publish_inv_policy.
  destruct H as (_ & _ & _ & [(_ & -> & _)|(_ & draft & t1 & -> & Hc & Hp)]); [done|].
  eapply publish_ok; [|exact Hp]. by eapply create_draft_ok.
Qed.

Lemma publish_policy_keeps table actor doc id r row : publish_policy table actor doc id = Ok r →
  row ∈ table → lifecycle row = Lifecycle.PUBLISHED → row ∈ r.1.
Proof.
  destruct r as [table' [d created]]. intros H%publish_inv_policy Hr Hl.
  destruct H as (_ & _ & _ & [(_ & -> & _)|(_ & draft & t1 & -> & Hc & Hp)]); [done|].
  eapply publish_keeps; [exact Hp| |done]. by eapply create_draft_keeps.
Qed.

(** What a reader of the table finds. *)
Lemma in_force_row table r : table_ok digest table →
  latest_of TURNAROUND_POLICY_CONFIG_TYPE table = Some r →
  in_force table = Ok (if withdrawn (payload r) then None
    else match parse_turnaround_policy (payload r) with
         | Ok pol => Some (MkPublished pol (config_id r) (version r) (row_snapshot_hash r))
         | Err _ => None
         end).
Proof.
  intros [Hi Hv Hh] Hr. pose proof (latest_of_spec TURNAROUND_POLICY_CONFIG_TYPE table) as Hs.
  rewrite Hr in Hs. destruct Hs as (Hin & _ & Hp & _). rewrite Forall_forall in Hh.
  destruct (Hh r Hin) as (Hhash & _ & _).
  unfold read_published_turnaround_policy, latest_published. rewrite Hr.
  change (CONFIG_TYPE_PATTERN TURNAROUND_POLICY_CONFIG_TYPE) with true.
  cbn [negb raise_if mbind result_bind lift_configuration fmap option_fmap option_map version_id
    published_version snapshot_hash_of].
  rewrite find_published, Hhash by done. cbn [mbind result_bind lift_configuration].
  rewrite bool_decide_true by done. cbn [negb]. destruct (withdrawn _); [done|].
  by destruct (parse_turnaround_policy _).
Qed.

Lemma in_force_none table : latest_of TURNAROUND_POLICY_CONFIG_TYPE table = None → in_force table = Ok None.
Proof. intros H. unfold read_published_turnaround_policy, latest_published. by rewrite H. Qed.

Lemma in_force_sound table p : table_ok digest table → in_force table = Ok (Some p) →
  ∃ r, r ∈ table ∧ lifecycle r = Lifecycle.PUBLISHED ∧ config_id r = policy_version_id p ∧
    parse_turnaround_policy (payload r) = Ok (policy p).
Proof.
  intros Hok H. destruct (latest_of TURNAROUND_POLICY_CONFIG_TYPE table) as [r|] eqn:Hr.
  - rewrite (in_force_row _ _ Hok Hr) in H. pose proof (latest_of_spec TURNAROUND_POLICY_CONFIG_TYPE table) as Hs.
    rewrite Hr in Hs. destruct Hs as (Hin & _ & Hp & _). exists r.
    destruct (withdrawn _); [done|]. destruct (parse_turnaround_policy _); [|done]. by injection H as <-.
  - rewrite in_force_none in H by done. done.
Qed.

(** The row a publication adds is the latest one. *)
Lemma created_is_latest table actor doc id table' d :
  create_draft digest turnaround_validators table
    (MkConfigurationDraft TURNAROUND_POLICY_CONFIG_TYPE (max_version table + 1) doc actor id) = Ok table' →
  snapshot_hash digest doc = Ok d → ∀ table'',
  Configurations.publish table' id (max_version table + 1) d actor = Ok table'' →
  latest_of TURNAROUND_POLICY_CONFIG_TYPE table'' =
    Some (set_published actor (draft_row (MkConfigurationDraft TURNAROUND_POLICY_CONFIG_TYPE
            (max_version table + 1) doc actor id) d)).
Proof.
  intros (h & Hh & -> & _)%create_draft_inv Hd table'' (_ & _ & ->)%publish_inv. cbn [draft_payload] in Hh.
  rewrite Hd in Hh. injection Hh as <-. set (row := draft_row _ d). set (f := λ r, if publishable _ _ _ r then _ else r).
  assert (publishable id (max_version table + 1) d row = true) as Hrow.
  { unfold publishable, row. cbn. by rewrite !Z.eqb_refl, !bool_decide_true by done. }
  assert (set_published actor row ∈ f <$> (table ++ [row])) as Hin.
  { apply list_elem_of_fmap. exists row. split; [unfold f; by rewrite Hrow|]. apply elem_of_app. right. by left. }
  pose proof (latest_of_spec TURNAROUND_POLICY_CONFIG_TYPE (f <$> (table ++ [row]))) as Hs.
  destruct (latest_of _ _) as [r|]; [|by destruct (Hs _ Hin eq_refl)].
  destruct Hs as (Hr & Ht & _ & Hmax). specialize (Hmax _ Hin eq_refl eq_refl).
  apply list_elem_of_fmap in Hr as (x & -> & [Hx| ->%list_elem_of_singleton]%elem_of_app).
  - assert (version (f x) = version x ∧ config_type (f x) = config_type x) as [Ev Et] by (unfold f; by case_match).
    rewrite Ev in Hmax. rewrite Et in Ht. pose proof (max_version_bound table x Hx Ht). cbn in Hmax. lia.
  - unfold f. by rewrite Hrow.
Qed.

Lemma withdrawn_stored doc : withdrawn (_without_volatile_fields doc) = withdrawn doc.
Proof.
  unfold withdrawn. rewrite dict_get_without_volatile by done. by destruct (dict_get doc _) as [[|[]| | | | |]|].
Qed.

Lemma validated_document doc : validate_turnaround_document doc = Ok tt →
  withdrawn doc = false → ∃ pol, parse_turnaround_policy doc = Ok pol.
Proof.
  unfold validate_turnaround_document, withdrawn. intros H Hw.
  destruct (parse_turnaround_policy doc) as [pol|] eqn:Hp; [by exists pol|].
  by destruct (dict_get doc _) as [[|[]| | | | |]|].
Qed.

(** publishing a turnaround document is what puts it in force.  When the owner's
    publication creates a version, the next reader gets exactly the policy of that document,
    under its id and digest -- or none, when the document is the withdrawal -- although what
    is stored has lost its volatile fields; when it creates none, the table is untouched and
    the version in force already carries that digest; and publishing the same document again
    changes nothing. *)
Theorem published_policy_is_in_force table actor doc id table' d created :
  table_ok digest table → publish_policy table actor doc id = Ok (table', (d, created)) →
  (created = true →
     (withdrawn doc = true ∧ in_force table' = Ok None) ∨
     (withdrawn doc = false ∧ ∃ pol, parse_turnaround_policy doc = Ok pol ∧
      in_force table' = Ok (Some (MkPublished pol id (max_version table + 1) d)))) ∧
  (created = false → table' = table ∧ ∃ p,
     latest_published table TURNAROUND_POLICY_CONFIG_TYPE = Ok (Some p) ∧ snapshot_hash_of p = d) ∧
  (∀ id', publish_policy table' actor doc id' = Ok (table', (d, false))).
Proof.
  intros Hok H. pose proof (publish_policy_ok _ _ _ _ _ Hok H) as Hok'. cbn [fst] in Hok'.
  apply publish_inv_policy in H as (Hv & Hd & Ho & Hcase).
  assert (∀ p, latest_published table' TURNAROUND_POLICY_CONFIG_TYPE = Ok (Some p) → snapshot_hash_of p = d →
    ∀ id', publish_policy table' actor doc id' = Ok (table', (d, false))) as Hagain.
  { intros p Hp Hpd id'. unfold publish_turnaround_policy. rewrite Hv, Hd, Ho, Hp.
    cbn [is_Ok negb raise_if mbind result_bind lift_configuration]. by rewrite bool_decide_true. }
  destruct Hcase as [(-> & -> & p & Hp & Hpd)|(-> & draft & t1 & -> & Hc & Hpub)].
  - split; [done|]. split; [intros _; split; [done|by exists p]|]. by eapply Hagain.
  - pose proof (created_is_latest _ _ _ _ _ _ Hc Hd _ Hpub) as Hlatest.
    split; [|split; [done|]].
    + intros _. rewrite (in_force_row _ _ Hok' Hlatest). cbn [payload set_published draft_row draft_payload
        config_id version row_snapshot_hash draft_id draft_version].
      rewrite withdrawn_stored. destruct (withdrawn doc) eqn:Hw; [by left|right]. split; [done|].
      destruct (validated_document doc Hv Hw) as [pol Hpol]. exists pol. split; [done|].
      by rewrite (parse_without_volatile _ _ Hpol).
    + eapply Hagain; [unfold latest_published; by rewrite Hlatest|done].
Qed.
End publication.

(** A digest for examples: the number of keys, written as 64 digits. *)
Definition key_count (o : object) : option string :=
  Some (string_of_list_ascii (zero_padded 64 (Z.of_nat (length o)))).

Lemma published_policy_is_in_force_witness :
  ∃ table, publish_turnaround_policy key_count (λ a, a =? 1) [] 1 shop_document 7 =
    Ok (table, (string_of_list_ascii (zero_padded 64 10), true)) ∧
  read_published_turnaround_policy key_count table =
    Ok (Some (MkPublished shop_policy 7 1 (string_of_list_ascii (zero_padded 64 10)))).
Proof.
  destruct (publish_turnaround_policy key_count (λ a, a =? 1) [] 1 shop_document 7) as [[table r]|] eqn:H;
    [|vm_compute in H; discriminate].
  assert (r = (string_of_list_ascii (zero_padded 64 10), true)) as -> by (vm_compute in H; vm_compute; congruence).
  exists table. split; [reflexivity|].
  destruct (proj1 (published_policy_is_in_force key_count (λ a, a =? 1) [] 1 shop_document 7 _ _ _
    ltac:(split; constructor) H) eq_refl) as [[Hw _]|(_ & pol & Hpol & Hin)]; [vm_compute in Hw; discriminate|].
  rewrite shop_document_parses in Hpol. injection Hpol as <-. exact Hin.
Defined.

(** * The promise of one order, over any history *)

(** The columns a transition of the order writes: never a promise column. *)
Record Moved := MkMoved {
  to_commercial : CommercialOrderStatus.t;
  to_production : ProductionStatus.t;
  to_accepted_at : option datetime;
  to_ready_at : option datetime;
  versions : Z;
}.
Definition move (order : PromiseOrder) (m : Moved) : PromiseOrder :=
  MkPromiseOrder (to_commercial m) (to_production m) (to_accepted_at m) (to_ready_at m)
    (promised_ready_at order) (current_promise_at order) (promise_basis order)
    (promise_rule_id order) (promise_policy_version_id order) (row_version order + versions m).

Record shop := MkShop {
  configs : list ConfigurationRow;
  order : PromiseOrder;
  changes : list PromiseChange;
}.

(** A publication by the owner, the receiving step of the order, any other step of it, and a
    change of its promise. *)
Inductive event :=
  | Publish (actor : Z) (doc : object) (id : Z)
  | Receive (codes : list string) (accepting : option Z) (now : datetime)
      (choice : option PromiseChoice.t) (custom_at : option datetime) (m : Moved)
  | Move (m : Moved)
  | Change (c : PromiseChangeCommand).

Section ledger.
Context (digest : object → option string) (active_owner : Z → bool).

Definition receive (s : shop) (codes : list string) (accepting : option Z) (now : datetime)
    (choice : option PromiseChoice.t) (custom_at : option datetime) (m : Moved) : ledgered shop :=
  planned ← _plan_step_promise digest (configs s) (order s) codes accepting now choice custom_at;
  let moved := move (order s) m in
  match planned with
  | None => Ok (MkShop (configs s) moved (changes s))
  | Some p =>
      o ← write_receive_promise moved (changes s) (row_version moved) p;
      Ok (MkShop (configs s) o (changes s))
  end.

Definition run (s : shop) (e : event) : ledgered shop :=
  match e with
  | Publish actor doc id =>
      '(table, _) ← publish_turnaround_policy digest active_owner (configs s) actor doc id;
      Ok (MkShop table (order s) (changes s))
  | Receive codes accepting now choice custom_at m => receive s codes accepting now choice custom_at m
  | Move m => Ok (MkShop (configs s) (move (order s) m) (changes s))
  | Change c =>
      '(o, cs) ← change digest (configs s) (order s) (changes s) c;
      Ok (MkShop (configs s) o cs)
  end.

(** A refused command rolls back. *)
Definition after (s : shop) (e : event) : shop := match run s e with Ok s' => s' | Err _ => s end.
Definition history (s : shop) (es : list event) : shop := foldl after s es.

Definition taken : PromiseOrder :=
  MkPromiseOrder CommercialOrderStatus.DRAFT ProductionStatus.NOT_STARTED None None None None None None None 1.
Definition opened : shop := MkShop [] taken [].

(** What was told to the customer comes from a published policy's opening hours. *)
Definition sanctioned (table : list ConfigurationRow) (P : Z → Prop) (after p : datetime) : Prop :=
  ∃ r pol, r ∈ table ∧ lifecycle r = Lifecycle.PUBLISHED ∧ P (config_id r) ∧
    parse_turnaround_policy (payload r) = Ok pol ∧ fits pol after p.

(** The changes lead from [a] to [b], each a real move. *)
Fixpoint chain (a : datetime) (cs : list PromiseChange) (b : datetime) : Prop :=
  match cs with
  | [] => a = b
  | c :: cs => previous_promise_at c = a ∧ instant (new_promise_at c) ≠ instant a ∧ chain (new_promise_at c) cs b
  end.

Record sound (s : shop) : Prop := {
  sound_table : table_ok digest (configs s);
  sound_none : promised_ready_at (order s) = None →
    current_promise_at (order s) = None ∧ promise_basis (order s) = None ∧
    promise_rule_id (order s) = None ∧ promise_policy_version_id (order s) = None ∧ changes s = [];
  sound_first : ∀ first, promised_ready_at (order s) = Some first →
    is_Some (promise_basis (order s)) ∧ is_Some (promise_rule_id (order s)) ∧
    (∃ v accepted, promise_policy_version_id (order s) = Some v ∧ sanctioned (configs s) (λ i, i = v) accepted first) ∧
    ∃ current, current_promise_at (order s) = Some current ∧ chain first (changes s) current;
  sound_changes : Forall (λ c, sanctioned (configs s) (λ _, True) (changed_at c) (new_promise_at c)) (changes s);
}.

(** [s'] is later than [s]: the first promise and the ledger so far are as they were. *)
Definition later (s s' : shop) : Prop :=
  (∀ first, promised_ready_at (order s) = Some first →
    promised_ready_at (order s') = Some first ∧ promise_basis (order s') = promise_basis (order s) ∧
    promise_rule_id (order s') = promise_rule_id (order s) ∧
    promise_policy_version_id (order s') = promise_policy_version_id (order s)) ∧
  changes s `prefix_of` changes s' ∧
  (∀ r, r ∈ configs s → lifecycle r = Lifecycle.PUBLISHED → r ∈ configs s').

#[export] Instance later_preorder : PreOrder later.
Proof.
  split.
  - intros s. split; [done|split; [done|auto]].
  - intros s1 s2 s3 (F1 & P1 & T1) (F2 & P2 & T2). split_and!; [|by etrans|auto].
    intros first H. destruct (F1 first H) as (H' & ? & ? & ?). destruct (F2 first H') as (H'' & ? & ? & ?).
    split_and!; congruence.
Qed.

Lemma sanctioned_later t t' P a p : (∀ r, r ∈ t → lifecycle r = Lifecycle.PUBLISHED → r ∈ t') →
  sanctioned t P a p → sanctioned t' P a p.
Proof. intros Ht (r & pol & Hr & Hl & HP & Hpol & Hf). exists r, pol. by split_and!; auto. Qed.

Lemma chain_snoc a cs b c : chain a cs b → previous_promise_at c = b →
  instant (new_promise_at c) ≠ instant b → chain a (cs ++ [c]) (new_promise_at c).
Proof.
  revert a. induction cs as [|x cs IH]; intros a; cbn; [by intros -> -> ?|].
  intros (Hp & Hne & Hc) Hb Hn. by split_and!; auto.
Qed.

Lemma opened_sound : sound opened.
Proof. split; cbn; try done. by split; constructor. Qed.

(** The promise that receiving goods stores. *)
Lemma plan_sanctioned table o codes accepting now choice custom_at p : table_ok digest table →
  _plan_step_promise digest table o codes accepting now choice custom_at = Ok (Some p) →
  promised_ready_at o = None ∧ ∃ accepted,
    sanctioned table (λ i, i = planned_policy_version_id p) accepted (promised_at (promised p)).
Proof.
  intros Hok. unfold _plan_step_promise, plan_receive_promise. destruct (promised_ready_at o); [done|].
  set (acc := match accepting with Some _ => _ | None => _ end). destruct acc as [accepted|]; [|done].
  intros H. apply bind_Ok in H as ([pub|] & Hpub & H); [|by destruct (raise_if _ _)].
  apply bind_Ok in H as (d & Hd & H). destruct d as [q|]; [|done]. injection H as <-. split; [done|].
  exists accepted. destruct (in_force_sound digest table pub Hok Hpub) as (r & Hr & Hl & Hid & Hpol).
  exists r, (policy pub). split_and!; try done.
  unfold lift_promise in Hd. destruct (compute_promise _ _ _ _ _) as [q'|[]] eqn:Hq; try discriminate.
  injection Hd as ->. apply parse_ok in Hpol as Hsound. by eapply promise_fits_any in Hq as [? _].
Qed.

Lemma update_order_Ok o o' cs r : update_order o o' cs = Ok r → r = o'.
Proof. unfold update_order. intros H. by result_inv. Qed.

Lemma move_later s m : later s (MkShop (configs s) (move (order s) m) (changes s)).
Proof. split; [cbn; by intros first ->|]. split; [done|auto]. Qed.

Lemma move_sound s m : sound s → sound (MkShop (configs s) (move (order s) m) (changes s)).
Proof. intros [Ht Hn Hf Hc]. by split. Qed.

Lemma publish_sound s actor doc id r :
  publish_turnaround_policy digest active_owner (configs s) actor doc id = Ok r → sound s →
  sound (MkShop r.1 (order s) (changes s)) ∧ later s (MkShop r.1 (order s) (changes s)).
Proof.
  intros H [Ht Hn Hf Hc].
  assert (∀ row, row ∈ configs s → lifecycle row = Lifecycle.PUBLISHED → row ∈ r.1) as Hkeep
    by (intros row; by eapply publish_policy_keeps).
  split; [|by split; [|split]]. split; cbn.
  - by eapply publish_policy_ok.
  - exact Hn.
  - intros first H1. destruct (Hf first H1) as (? & ? & (v & acc & Hv & Hs) & ?). split_and!; try done.
    exists v, acc. split; [done|]. by eapply sanctioned_later.
  - eapply Forall_impl; [exact Hc|]. intros c. by apply sanctioned_later.
Qed.

Lemma receive_sound s codes accepting now choice custom_at m s' :
  receive s codes accepting now choice custom_at m = Ok s' → sound s → sound s' ∧ later s s'.
Proof.
  unfold receive. intros H Hs. apply bind_Ok in H as ([p|] & Hp & H).
  2: { injection H as <-. split; [by apply move_sound|apply move_later]. }
  apply plan_sanctioned in Hp as (Hnone & accepted & Hp); [|apply Hs].
  apply bind_Ok in H as (o & Ho & [= <-]). unfold write_receive_promise in Ho.
  destruct (_ && _); [|done]. apply update_order_Ok in Ho as ->.
  destruct Hs as [Ht Hn Hf Hc]. destruct (Hn Hnone) as (_ & _ & _ & _ & Hcs).
  split; [split; cbn; [done|done| |done]|split; cbn; [congruence|split; [done|auto]]].
  intros first [= <-]. split_and!; try done.
  - exists (planned_policy_version_id p), accepted. by split.
  - exists (promised_at (promised p)). by rewrite Hcs.
Qed.

Lemma change_sound s c o cs : change digest (configs s) (order s) (changes s) c = Ok (o, cs) → sound s →
  sound (MkShop (configs s) o cs) ∧ later s (MkShop (configs s) o cs).
Proof.
  unfold change, change_once. intros H [Ht Hn Hf Hc]. apply bind_Ok in H as (_ & _ & H).
  apply raise_bind_Ok in H as [_ H]. apply bind_Ok in H as (pub & Hpub & H).
  apply bind_Ok in H as (p & ->%require_some_Ok & H). apply bind_Ok in H as (previous & Hprev%require_some_Ok & H).
  apply raise_bind_Ok in H as [_ H]. apply bind_Ok in H as (new & Hnew & H).
  apply raise_bind_Ok in H as [Hne H]. guards. apply bind_Ok in H as (o' & ->%update_order_Ok & [= <- <-]).
  destruct (promised_ready_at (order s)) as [first|] eqn:Hfirst;
    [|destruct (Hn eq_refl) as (Hnone & _); congruence].
  destruct (Hf first eq_refl) as (Hb & Hr & Hv & current & Hcur & Hchain).
  rewrite Hprev in Hcur. injection Hcur as <-.
  assert (sanctioned (configs s) (λ _, True) (occurred_at c) new) as Hsan.
  { destruct (in_force_sound digest (configs s) p Ht Hpub) as (r & Hin & Hl & _ & Hpol).
    exists r, (policy p). split_and!; try done. unfold lift_promise in Hnew.
    destruct (check_promise_time _ _ _) as [q|[]] eqn:Hq; try discriminate. injection Hnew as ->.
    by eapply check_fits. }
  split; [split; cbn|split; cbn; [by intros ? ->|split; [by apply prefix_app_r|auto]]].
  - done.
  - by rewrite Hfirst.
  - intros ? [= <-]%(eq_trans (eq_sym Hfirst)). split_and!; [done..|]. exists new. split; [done|].
    by eapply chain_snoc.
  - apply Forall_app. split; [done|]. by apply Forall_singleton.
Qed.

Lemma after_sound s e : sound s → sound (after s e) ∧ later s (after s e).
Proof.
  intros Hs. unfold after. destruct (run s e) as [s'|] eqn:H; [|done].
  destruct e as [actor doc id|codes accepting now choice custom_at m|m|c]; cbn [run] in H.
  - apply bind_Ok in H as ([table r] & H & [= <-]). apply (publish_sound _ _ _ _ _ H Hs).
  - by eapply receive_sound.
  - injection H as <-. split; [by apply move_sound|apply move_later].
  - apply bind_Ok in H as ([o cs] & H & [= <-]). by eapply change_sound.
Qed.

Lemma history_sound es : ∀ s, sound s → sound (history s es) ∧ later s (history s es).
Proof.
  induction es as [|e es IH]; intros s Hs; [by split|]. cbn [history foldl].
  destruct (after_sound s e Hs) as [Hs1 Hl1]. destruct (IH (after s e) Hs1) as [Hs2 Hl2].
  split; [done|by etrans].
Qed.

End ledger.

(** An order received on Friday at 17:00 and moved to Monday because the customer asked. *)
Definition friday : datetime := shop_time 2026 9 25 17 0.
Definition active (accepted : datetime) : Moved :=
  MkMoved CommercialOrderStatus.ACTIVE ProductionStatus.QUEUED (Some accepted) None 3.
Definition ask (v : Z) (at_ now : datetime) : PromiseChangeCommand :=
  MkPromiseChangeCommand v true true 5 at_ PromiseChangeReason.CUSTOMER_REQUEST None now.
Definition friday_order : list event :=
  [Publish 1 shop_document 7; Receive clothes (Some 1) friday None None (active (dt_add friday 1));
   Change (ask 5 (shop_time 2026 9 28 10 0) (shop_time 2026 9 26 9 0));
   Change (ask 6 (shop_time 2026 9 28 21 0) (shop_time 2026 9 26 9 0))].

Example friday_history :
  let s := history key_count (λ a, a =? 1) opened friday_order in
  promised_ready_at (order s) = Some (shop_time 2026 9 26 13 0) ∧
  current_promise_at (order s) = Some (shop_time 2026 9 28 10 0) ∧ length (changes s) = 1%nat ∧
  row_version (order s) = 6.
Proof. vm_compute. by split_and!. Qed.
