(* ===== verification/Storage.v ===== *)
(** Laundry left waiting ([packages/domain/.../unclaimed.py]): the owner's storage policy, the
    one clock that counts the days a finished order has waited, the fee it gives, what a
    waiver takes off, and when the goods may be disposed of.  Holds and their moves are
    [OrderRepository]'s.  Instants come from [timestamptz] columns: a naive one is refused
    where the code tests for it, and comparisons are of instants. *)
From Stdlib Require Import Ascii String.
From S2P Require Import Prelude Clock Text Json Catalog Calendar Settlement.
From S2P Require Import Promise TurnaroundDocument OrderRepository.
Local Open Scope laundry_scope.
Local Open Scope Z_scope.

Definition STORAGE_POLICY_CONFIG_TYPE : string := "STORAGE_POLICY".
Definition STORAGE_POLICY_VERSION : string := "storage-policy-v1".
Definition STORAGE_DECISION_REF : string := "DEC-036".

Module ContactChannel.
Inductive t :=
  | CALL | ZALO | SMS | VISIT.
#[export] Instance eq_dec : EqDecision t.
Proof. solve_decision. Defined.
End ContactChannel.
#[export] Existing Instance ContactChannel.eq_dec.

Module ContactOutcome.
Inductive t :=
  | REACHED | NO_ANSWER | WRONG_NUMBER | PROMISED_TO_COME | MESSAGE_SENT.
#[export] Instance eq_dec : EqDecision t.
Proof. solve_decision. Defined.
End ContactOutcome.
#[export] Existing Instance ContactOutcome.eq_dec.

Module NoteRefusal.
Inductive t :=
  | NOTE_TOO_LONG | NOTE_LOOKS_LIKE_PHONE | NOTE_REQUIRED.
#[export] Instance eq_dec : EqDecision t.
Proof. solve_decision. Defined.
End NoteRefusal.
#[export] Existing Instance NoteRefusal.eq_dec.

Inductive StorageFailure :=
  | StoragePolicyError | StorageValueError | NoteError (code : NoteRefusal.t).
#[export] Instance StorageFailure_eq_dec : EqDecision StorageFailure.
Proof. solve_decision. Defined.
Notation stored := (result StorageFailure).

(** * Notes *)

Definition NOTE_MAX_LENGTH : Z := 120.

(** [" ".join(text.split())]: words separated by one space. *)
Fixpoint collapse (pending started : bool) (t : text) : text :=
  match t with
  | [] => []
  | c :: t =>
      if is_space c then collapse true started t
      else if pending && started then " "%char :: c :: collapse false true t
      else c :: collapse false true t
  end.
Definition words (t : text) : text := collapse false false t.

(** [PHONE_LIKE.search]: seven digits, one space, dot or dash allowed between two of them. *)
Definition phone_separator (c : ascii) : bool := is_space c || (c is? "."%char) || (c is? "-"%char).
Fixpoint phone_digits (n : nat) (t : text) : bool :=
  match n, t with
  | O, _ => true
  | S n, c :: t' =>
      if is_digit_char c then phone_digits n t'
      else phone_separator c
           && match t' with
              | d :: t'' => is_digit_char d && phone_digits n t''
              | [] => false
              end
  | S _, [] => false
  end.
Fixpoint PHONE_LIKE (t : text) : bool :=
  match t with
  | [] => false
  | c :: t' => (is_digit_char c && phone_digits 6 t') || PHONE_LIKE t'
  end.

Definition clean_note (t : option text) (required : bool) : stored (option text) :=
  match words <$> t with
  | None | Some [] =>
      raise_if required (NoteError NoteRefusal.NOTE_REQUIRED) ;; Ok None
  | Some cleaned =>
      raise_if (NOTE_MAX_LENGTH <? Z.of_nat (length cleaned)) (NoteError NoteRefusal.NOTE_TOO_LONG) ;;
      raise_if (PHONE_LIKE cleaned) (NoteError NoteRefusal.NOTE_LOOKS_LIKE_PHONE) ;;
      Ok (Some cleaned)
  end.

(** * The published policy *)

Record StoragePolicy := MkStoragePolicy {
  free_days : Z;
  fee_per_started_day_vnd : Z;
  fee_cap_percent : Z;
  disposal_from_day : Z;
  disposal_min_attempts : Z;
  disposal_min_attempt_days : Z;
}.
#[export] Instance StoragePolicy_eq_dec : EqDecision StoragePolicy.
Proof. solve_decision. Defined.

Definition _POLICY_KEYS : list string :=
  ["policy_version"; "decision_ref"; "timezone"; "free_days_after_ready"; "fee_per_started_day_vnd";
   "fee_cap_percent_of_quoted_total"; "disposal_from_day"; "disposal_min_contact_attempts";
   "disposal_min_contact_days"]%string.
Definition _WITHDRAWAL_KEYS : list string := ["policy_version"; "decision_ref"; "withdrawn"]%string.

(** [set(payload) == keys]. *)
Definition names_exactly (payload : object) (keys : list string) : bool :=
  (list_to_set payload.*1 : gset string) is? list_to_set keys.

Definition _figure (payload : object) (key : string) (low high : Z) : stored Z :=
  match dict_get payload key with
  | Some (JInt v) => raise_if (negb ((low <=? v) && (v <=? high))) StoragePolicyError ;; Ok v
  | _ => Err StoragePolicyError
  end.

Definition parse_storage_policy (payload : object) : stored StoragePolicy :=
  raise_if (negb (names_exactly payload _POLICY_KEYS)) StoragePolicyError ;;
  raise_if (negb (says payload "policy_version" STORAGE_POLICY_VERSION)) StoragePolicyError ;;
  raise_if (negb (says payload "decision_ref" STORAGE_DECISION_REF)) StoragePolicyError ;;
  raise_if (negb (says payload "timezone" SHOP_TIMEZONE_NAME)) StoragePolicyError ;;
  free ← _figure payload "free_days_after_ready" 1 365;
  fee ← _figure payload "fee_per_started_day_vnd" 1 1_000_000;
  cap ← _figure payload "fee_cap_percent_of_quoted_total" 1 100;
  from ← _figure payload "disposal_from_day" 1 3650;
  attempts ← _figure payload "disposal_min_contact_attempts" 1 20;
  days ← _figure payload "disposal_min_contact_days" 1 20;
  raise_if (from <=? free) StoragePolicyError ;;
  raise_if (attempts <? days) StoragePolicyError ;;
  Ok (MkStoragePolicy free fee cap from attempts days).

Definition validate_storage_document (payload : object) : stored unit :=
  match dict_get payload "withdrawn"%string with
  | Some (JBool true) =>
      raise_if (negb (names_exactly payload _WITHDRAWAL_KEYS)
                || negb (says payload "policy_version" STORAGE_POLICY_VERSION)
                || negb (says payload "decision_ref" STORAGE_DECISION_REF)) StoragePolicyError
  | _ => parse_storage_policy payload ;; Ok tt
  end.

Definition storage_withdrawal_document : object :=
  [("policy_version", JStr STORAGE_POLICY_VERSION); ("decision_ref", JStr STORAGE_DECISION_REF);
   ("withdrawn", JBool true)]%string.

(** * Days *)

Definition shop_date (moment : datetime) : stored Z :=
  raise_if (negb (aware moment)) StorageValueError ;;
  Ok (date_of (astimezone SHOP_TIMEZONE moment)).

Definition days_waiting (ready_at as_of : datetime) : stored Z :=
  now ← shop_date as_of;
  ready ← shop_date ready_at;
  Ok (Z.max 0 (now - ready)).

Definition awaiting_pickup (commercial : CommercialOrderStatus.t) (production : ProductionStatus.t)
    (mode : FulfillmentMode.t) (self_collection_recorded : bool) : bool :=
  (commercial is? CommercialOrderStatus.ACTIVE)
  && (production is? ProductionStatus.READY_AT_STORE)
  && negb self_collection_recorded && negb (mode in? MODES_EXPECTING_RETURN).

Module StorageClock.
Inductive t :=
  | RUNNING | PAUSED | STOPPED.
#[export] Instance eq_dec : EqDecision t.
Proof. solve_decision. Defined.
End StorageClock.
#[export] Existing Instance StorageClock.eq_dec.

Definition storage_clock (commercial : CommercialOrderStatus.t) (production : ProductionStatus.t)
    (resume_to : option ProductionStatus.t) (mode : FulfillmentMode.t)
    (self_collection_recorded : bool) : StorageClock.t :=
  if awaiting_pickup commercial production mode self_collection_recorded then StorageClock.RUNNING
  else if (commercial is? CommercialOrderStatus.ACTIVE) && (production in? SHELF_INTERRUPTIONS)
          && (resume_to is? Some ProductionStatus.READY_AT_STORE)
          && negb self_collection_recorded && negb (mode in? MODES_EXPECTING_RETURN)
  then StorageClock.PAUSED
  else StorageClock.STOPPED.

(** * The one clock *)

Record WaitingClock := MkWaitingClock {
  ready_on : Z;
  days : Z;
  held_days : Z;
  paused : bool;
  lifted : list (datetime * datetime);
}.

Definition held_leb (a b : StorageHold) : bool := dt_leb (held_at a) (held_at b).
Definition dt_min (a b : datetime) : datetime := if dt_ltb b a then b else a.

(** The holds since the laundry was last ready, oldest first. *)
Definition holds_since (ready_at : datetime) (holds : list StorageHold) : list StorageHold :=
  stable_sort held_leb (List.filter (λ h, dt_leb ready_at (held_at h)) holds).

Definition open_held (since : list StorageHold) : list datetime :=
  held_at <$> List.filter (λ h, resumed_at h is? None) since.

(** The lifted holds begun before [end_], each up to it. *)
Definition counted_holds (since : list StorageHold) (end_ : datetime) : list (datetime * datetime) :=
  omap (λ h, match resumed_at h with
             | Some resumed =>
                 if dt_ltb (held_at h) end_
                 then Some (held_at h, dt_max (held_at h) (dt_min resumed end_)) else None
             | None => None
             end) since.

Definition held_time (counted : list (datetime * datetime)) : timedelta :=
  sumZ ((λ hr, dt_sub hr.2 hr.1) <$> counted).

Definition waiting_clock (ready_at as_of : datetime) (holds : list StorageHold) (is_paused : bool)
    : stored WaitingClock :=
  let since := holds_since ready_at holds in
  let opened := open_held since in
  let frozen := is_paused && negb (opened is? []) in
  let end_ := if frozen then dt_min as_of (List.last opened as_of) else as_of in
  let counted := counted_holds since end_ in
  calendar ← days_waiting ready_at end_;
  days ← days_waiting ready_at (dt_add end_ (- held_time counted));
  ready ← shop_date ready_at;
  Ok (MkWaitingClock ready days (calendar - days) frozen counted).

(** [WaitingClock.reaches]: the instant the count reaches [day]. *)
Definition skip_hold (candidate : datetime) (hold : datetime * datetime) : datetime :=
  if dt_ltb hold.1 candidate then dt_add candidate (dt_sub hold.2 hold.1) else candidate.
Definition reaches (clock : WaitingClock) (day : Z) : stored (option datetime) :=
  if paused clock then Ok None
  else
    raise_if (day <? 0) StorageValueError ;;
    Ok (Some (foldl skip_hold (midnight (ready_on clock + day) SHOP_TIMEZONE) (lifted clock))).

Definition falls_on (clock : WaitingClock) (day : Z) : stored (option Z) :=
  reached ← reaches clock day;
  match reached with
  | None => Ok None
  | Some at_ => d ← shop_date at_; Ok (Some d)
  end.

Definition counted_days (ready_at as_of : datetime) (holds : list StorageHold) (is_paused : bool)
    : stored Z :=
  clock ← waiting_clock ready_at as_of holds is_paused; Ok (days clock).

(** [WAITING_DAYS_SQL] with [_HELD_TIME_SQL], for an order whose clock runs: the day count the
    waiting reads choose and order their page by. *)
Definition sql_held_time (ready_at as_of : datetime) (holds : list StorageHold) : timedelta :=
  sumZ (omap (λ h, match resumed_at h with
                   | Some resumed =>
                       if dt_leb ready_at (held_at h) && dt_ltb (held_at h) as_of
                       then Some (Z.max 0 (Z.min (instant resumed) (instant as_of) - instant (held_at h)))
                       else None
                   | None => None
                   end) holds).
Definition sql_shop_day (moment : Z) : Z := (moment + SHOP_TIMEZONE) / us_per_day.
Definition WAITING_DAYS_SQL (ready_at : option datetime) (as_of : datetime) (holds : list StorageHold)
    : option Z :=
  (λ ready, Z.max 0 (sql_shop_day (instant as_of - sql_held_time ready as_of holds)
                     - sql_shop_day (instant ready))) <$> ready_at.

(** [require_same_days]: [None] when the page and the clock agree. *)
Definition require_same_days (sql_days : option Z) (clock : option WaitingClock) : bool :=
  sql_days is? (days <$> clock).

(** * The fee *)

Record StorageFee := MkStorageFee {
  fee_days_waiting : Z;
  chargeable_days : Z;
  per_started_day_vnd : Z;
  uncapped_vnd : Z;
  cap_vnd : Z;
  fee_amount_vnd : Z;
}.

Definition capped (f : StorageFee) : bool := cap_vnd f <? uncapped_vnd f.

Definition valid_vnd (v : Z) : bool := (0 <=? v) && (v <=? MAX_SETTLEMENT_VND).

Definition storage_fee (policy : StoragePolicy) (ready_at as_of : datetime) (quoted_total_vnd : Z)
    (holds : list StorageHold) (is_paused : bool) : stored StorageFee :=
  raise_if (negb (valid_vnd quoted_total_vnd)) StorageValueError ;;
  waited ← counted_days ready_at as_of holds is_paused;
  let chargeable := Z.max 0 (waited - free_days policy) in
  let uncapped := chargeable * fee_per_started_day_vnd policy in
  let cap := quoted_total_vnd * fee_cap_percent policy / 100 in
  Ok (MkStorageFee waited chargeable (fee_per_started_day_vnd policy) uncapped cap
        (Z.min uncapped cap)).

Module StorageFeeStatus.
Inductive t :=
  | FIXED | ALREADY_PAID | WAIVED | POLICY_UNPUBLISHED | NOT_WAITING | NO_SINGLE_TOTAL
  | FREE_PERIOD | ACCRUING | PAUSED.
#[export] Instance eq_dec : EqDecision t.
Proof. solve_decision. Defined.
End StorageFeeStatus.
#[export] Existing Instance StorageFeeStatus.eq_dec.

Record OrderStorageFee := MkOrderStorageFee {
  status : StorageFeeStatus.t;
  amount_vnd : Z;
  fee : option StorageFee;
  already_paid_vnd : Z;
}.

Definition fee_already_paid (paid_vnd : Z) (quoted_total_vnd : option Z) : stored Z :=
  raise_if (negb (valid_vnd paid_vnd)) StorageValueError ;;
  match quoted_total_vnd with
  | None => Ok 0
  | Some quoted =>
      raise_if (negb (valid_vnd quoted)) StorageValueError ;;
      Ok (Z.max 0 (paid_vnd - quoted))
  end.

Definition no_fee (s : StorageFeeStatus.t) : OrderStorageFee := MkOrderStorageFee s 0 None 0.

(** The facts of one order the fee is computed from. *)
Record StorageFacts := MkStorageFacts {
  clock : StorageClock.t;
  ready_at : option datetime;
  quoted_total_vnd : option Z;
  waived : bool;
  settled : bool;
  fixed_vnd : option Z;
  paid_vnd : Z;
  holds : list StorageHold;
}.

Definition open_since_ready (f : StorageFacts) : bool :=
  existsb (λ h, (resumed_at h is? None)
                && match ready_at f with Some ready => dt_leb ready (held_at h) | None => false end)
    (holds f).

Definition _unfixed_storage_fee (policy : option StoragePolicy) (f : StorageFacts)
    (as_of : datetime) : stored OrderStorageFee :=
  if waived f then Ok (no_fee StorageFeeStatus.WAIVED)
  else
    match policy with
    | None => Ok (no_fee StorageFeeStatus.POLICY_UNPUBLISHED)
    | Some policy =>
        let is_paused := (clock f is? StorageClock.PAUSED) && open_since_ready f in
        match ready_at f with
        | None => Ok (no_fee StorageFeeStatus.NOT_WAITING)
        | Some ready =>
            if negb (clock f is? StorageClock.RUNNING) && negb is_paused
            then Ok (no_fee StorageFeeStatus.NOT_WAITING)
            else
              match quoted_total_vnd f with
              | None => Ok (no_fee StorageFeeStatus.NO_SINGLE_TOTAL)
              | Some quoted =>
                  computed ← storage_fee policy ready as_of quoted (holds f) is_paused;
                  if fee_amount_vnd computed =? 0
                  then Ok (MkOrderStorageFee StorageFeeStatus.FREE_PERIOD 0 (Some computed) 0)
                  else Ok (MkOrderStorageFee
                             (if is_paused then StorageFeeStatus.PAUSED else StorageFeeStatus.ACCRUING)
                             (fee_amount_vnd computed) (Some computed) 0)
              end
        end
    end.

Definition order_storage_fee (policy : option StoragePolicy) (f : StorageFacts) (as_of : datetime)
    : stored OrderStorageFee :=
  match fixed_vnd f with
  | Some v => Ok (MkOrderStorageFee StorageFeeStatus.FIXED v None 0)
  | None =>
      if settled f then Ok (no_fee StorageFeeStatus.FIXED)
      else
        owed_now ← _unfixed_storage_fee policy f as_of;
        already ← fee_already_paid (paid_vnd f) (quoted_total_vnd f);
        if amount_vnd owed_now <? already
        then Ok (MkOrderStorageFee StorageFeeStatus.ALREADY_PAID already (fee owed_now) already)
        else Ok (MkOrderStorageFee (status owed_now) (amount_vnd owed_now) (fee owed_now) already)
  end.

Record WaiverEffect := MkWaiverEffect {
  effect_quoted_total_vnd : Z;
  waived_vnd : Z;
  kept_vnd : Z;
  owed_after_vnd : Z;
  remaining_after_vnd : Z;
}.
Definition settles (e : WaiverEffect) : bool := remaining_after_vnd e =? 0.

Definition waiver_effect (f : OrderStorageFee) (quoted : option Z) (paid : Z)
    : stored (option WaiverEffect) :=
  match quoted with
  | Some q =>
      if negb (status f in? [StorageFeeStatus.ACCRUING; StorageFeeStatus.PAUSED]) then Ok None
      else
        let kept := already_paid_vnd f in
        covered ← fee_already_paid paid quoted;
        raise_if (negb (kept =? covered)) StorageValueError ;;
        let taken_off := amount_vnd f - kept in
        if taken_off <=? 0 then Ok None
        else Ok (Some (MkWaiverEffect q taken_off kept (q + kept) (q + kept - paid)))
  | None => Ok None
  end.

(** * Disposal *)

Module DisposalRefusal.
Inductive t :=
  | STORAGE_POLICY_UNPUBLISHED | NOT_AWAITING_PICKUP | DISPOSAL_TOO_EARLY
  | CONTACT_ATTEMPTS_TOO_FEW | CONTACT_DAYS_TOO_FEW.
#[export] Instance eq_dec : EqDecision t.
Proof. solve_decision. Defined.
End DisposalRefusal.
#[export] Existing Instance DisposalRefusal.eq_dec.

Record DisposalVerdict := MkDisposalVerdict {
  refusals : list DisposalRefusal.t;
  verdict_days_waiting : option Z;
  attempts_counted : Z;
  attempt_days : Z;
  eligible_on : option Z;
}.
Definition allowed (v : DisposalVerdict) : bool := refusals v is? [].

Definition if_so {A} (c : bool) (a : A) : list A := if c then [a] else [].

Definition disposal_verdict (policy : option StoragePolicy) (awaiting : bool)
    (ready : option datetime) (as_of : datetime) (attempt_times : list datetime)
    (holds : list StorageHold) (is_paused : bool) : stored DisposalVerdict :=
  let counted := List.filter
    (λ m, match ready with Some r => dt_leb r m | None => false end) attempt_times in
  dates ← traverse shop_date counted;
  let distinct_days := Z.of_nat (length (fromkeys dates)) in
  let attempts := Z.of_nat (length counted) in
  clock ← (match ready with
           | None => Ok None
           | Some r => c ← waiting_clock r as_of holds is_paused; Ok (Some c)
           end);
  let waited := days <$> clock in
  let not_awaiting := if_so (negb awaiting || (ready is? None)) DisposalRefusal.NOT_AWAITING_PICKUP in
  match policy with
  | None => Ok (MkDisposalVerdict (DisposalRefusal.STORAGE_POLICY_UNPUBLISHED :: not_awaiting)
                  waited attempts distinct_days None)
  | Some p =>
      eligible ← (match clock with
                  | None => Ok None
                  | Some c => falls_on c (disposal_from_day p)
                  end);
      Ok (MkDisposalVerdict
            (not_awaiting
             ++ if_so (match waited with None => true | Some w => w <? disposal_from_day p end)
                  DisposalRefusal.DISPOSAL_TOO_EARLY
             ++ if_so (attempts <? disposal_min_attempts p) DisposalRefusal.CONTACT_ATTEMPTS_TOO_FEW
             ++ if_so (distinct_days <? disposal_min_attempt_days p) DisposalRefusal.CONTACT_DAYS_TOO_FEW)
            waited attempts distinct_days eligible)
  end.

Record DisposalMoney := MkDisposalMoney {
  disposal_owed_vnd : Z;
  disposal_kept_vnd : Z;
  written_off_vnd : Z;
}.

Definition disposal_money (owed paid : Z) : stored DisposalMoney :=
  raise_if (negb ((0 <=? owed) && (0 <=? paid))) StorageValueError ;;
  raise_if (owed <? paid) StorageValueError ;;
  Ok (MkDisposalMoney owed paid (owed - paid)).
