(* ===== verification/StorageFacts.v ===== *)
(** What the storage clock and the storage fee promise.  The reference is pointwise: laundry
    is on the shelf at an instant no recorded hold covers, and the day count is that of a
    clock which runs only on the shelf.  On it rest the instant a count turns, the fee, the
    waiver and the disposal rule. *)
From Stdlib Require Import String.
From S2P Require Import Prelude Counting Clock Text Catalog Calendar Settlement.
From S2P Require Import Promise OrderRepository Storage.
Local Open Scope laundry_scope.
Local Open Scope Z_scope.

#[local] Arguments sumZ : simpl never.

(** * Recorded holds *)

(** The holds of one order as its commands record them: one after the other from [a] on, each
    lifted no earlier than it began and before the next, only the last possibly still open. *)
Fixpoint chained (a : Z) (l : list StorageHold) : bool :=
  match l with
  | [] => true
  | h :: l' =>
      (a <=? instant (held_at h)) &&
      match resumed_at h with
      | Some r => (instant (held_at h) <=? instant r) && chained (instant r) l'
      | None => l' is? []
      end
  end.

(** The laundry is on hold at [w]: an open hold lasts. *)
Definition holds_at (w : Z) (h : StorageHold) : bool :=
  (instant (held_at h) <=? w) &&
  match resumed_at h with Some r => w <? instant r | None => true end.
Definition on_shelf (holds : list StorageHold) (w : Z) : bool := negb (existsb (holds_at w) holds).

(** The time the laundry spent on the shelf since it was ready. *)
Definition shelf_time (ready as_of : datetime) (holds : list StorageHold) : Z :=
  spanned (on_shelf (holds_since ready holds)) (instant ready) (instant as_of).

Lemma chained_weaken a b l : b <= a → chained a l = true → chained b l = true.
Proof.
  intros Hb. destruct l as [|h l]; [done|]. cbn. rewrite !andb_true_iff, !Z.leb_le. naive_solver lia.
Qed.

Lemma chained_bound l : ∀ a, chained a l = true → Forall (λ h, a <= instant (held_at h)) l.
Proof.
  induction l as [|h l IH]; intros a; [by constructor|]. cbn. rewrite andb_true_iff, Z.leb_le.
  intros [Ha H]. constructor; [done|]. destruct (resumed_at h) as [r|].
  - apply andb_true_iff in H as [Hr H]. apply Z.leb_le in Hr.
    eapply Forall_impl; [by apply IH|]. cbn. lia.
  - by apply bool_decide_eq_true in H as ->.
Qed.

Lemma chained_filter (ready : datetime) l : ∀ a, chained a l = true →
  chained (Z.max a (instant ready)) (List.filter (λ h, dt_leb ready (held_at h)) l) = true.
Proof.
  induction l as [|h l IH]; intros a; [done|]. cbn. rewrite andb_true_iff, Z.leb_le. intros [Ha H].
  destruct (dt_leb ready (held_at h)) eqn:Hh; cbn.
  - apply dt_leb_le in Hh. apply andb_true_iff. split; [apply Z.leb_le; lia|].
    destruct (resumed_at h) as [r|]; [|by apply bool_decide_eq_true in H as ->].
    apply andb_true_iff in H as [Hr H]. rewrite Hr. apply Z.leb_le in Hr. cbn.
    apply IH in H. eapply chained_weaken, H. lia.
  - destruct (resumed_at h) as [r|]; [|by apply bool_decide_eq_true in H as ->].
    apply andb_true_iff in H as [Hr H]. apply Z.leb_le in Hr. eapply chained_weaken, IH, H. lia.
Qed.

Lemma insert_sorted_least {A} (leb : A → A → bool) x l :
  Forall (λ y, leb x y = true) l → insert_sorted leb x l = x :: l.
Proof. destruct 1 as [|y l Hy _]; [done|]. cbn. by rewrite Hy. Qed.

Lemma chained_sorted l : ∀ a, chained a l = true → stable_sort held_leb l = l.
Proof.
  induction l as [|h l IH]; intros a H; [done|]. apply chained_bound in H as Hb.
  cbn in H |- *. apply andb_true_iff in H as [_ H].
  assert (∃ b, chained b l = true ∧ Forall (λ y, held_leb h y = true) l) as (b & Hl & Hh).
  { destruct (resumed_at h) as [r|].
    - apply andb_true_iff in H as [Hr H]. apply Z.leb_le in Hr. exists (instant r). split; [done|].
      eapply Forall_impl; [by apply chained_bound|]. cbn. intros x Hx. apply dt_leb_le. lia.
    - apply bool_decide_eq_true in H as ->. by exists 0. }
  rewrite (IH b Hl). by apply insert_sorted_least.
Qed.

(** What [waiting_clock] sorts is already in order. *)
Lemma holds_since_chained ready a l : chained a l = true →
  holds_since ready l = List.filter (λ h, dt_leb ready (held_at h)) l
  ∧ chained (instant ready) (holds_since ready l) = true.
Proof.
  intros H. apply (chained_filter ready) in H. unfold holds_since.
  rewrite (chained_sorted _ _ H). split; [done|]. eapply chained_weaken, H. lia.
Qed.

(** * The clock stands still on hold *)

(** The part of a hold before [e]; of a lifted hold only, as the code counts. *)
Definition hold_time (e : Z) (h : StorageHold) : Z :=
  Z.max 0 (match resumed_at h with Some r => Z.min (instant r) e | None => e end - instant (held_at h)).
Definition lifted_time (e : Z) (h : StorageHold) : Z :=
  match resumed_at h with Some _ => hold_time e h | None => 0 end.

Lemma hold_times_late e l : Forall (λ h, e <= instant (held_at h)) l → sumZ (hold_time e <$> l) = 0.
Proof.
  induction 1 as [|h l Hh _ IH]; [done|]. rewrite fmap_cons, sumZ_cons, IH.
  unfold hold_time. destruct (resumed_at h); lia.
Qed.

Lemma chained_head a h l : chained a (h :: l) = true →
  Forall (λ x, instant (held_at h) <= instant (held_at x)) (h :: l).
Proof. intros H. apply chained_bound. cbn in *. rewrite Z.leb_refl. by apply andb_true_iff in H as [_ ?]. Qed.

(** Before the first hold nothing is held. *)
Lemma unheld_before a e l : Forall (λ h, e <= instant (held_at h)) l →
  spanned (λ w, existsb (holds_at w) l) a e = 0.
Proof.
  intros H. apply spanned_none. intros w Hw. apply not_true_iff_false. rewrite existsb_exists.
  intros (x & Hx & Hxw). rewrite Forall_forall in H. apply list_elem_of_In, H in Hx.
  unfold holds_at in Hxw. apply andb_true_iff in Hxw as [Hxw _]. apply Z.leb_le in Hxw. lia.
Qed.

Lemma held_span e l : ∀ a, chained a l = true → a <= e →
  spanned (λ w, existsb (holds_at w) l) a e = sumZ (hold_time e <$> l).
Proof.
  induction l as [|h l IH]; intros a Hc Ha; [by rewrite spanned_none|].
  apply chained_head in Hc as Hb. destruct (Z.le_gt_cases e (instant (held_at h))) as [Hlate|Hlt].
  { assert (Forall (λ x, e <= instant (held_at x)) (h :: l)) as He
      by (eapply Forall_impl; [exact Hb|]; cbn; lia).
    by rewrite unheld_before, hold_times_late. }
  cbn in Hc. apply andb_true_iff in Hc as [Hah Hc]. apply Z.leb_le in Hah.
  rewrite (spanned_split _ a (instant (held_at h)) e), unheld_before by (done || lia).
  rewrite fmap_cons, sumZ_cons. unfold hold_time at 1. destruct (resumed_at h) as [r|] eqn:Hres.
  - apply andb_true_iff in Hc as [Hr Hc]. apply Z.leb_le in Hr.
    rewrite (spanned_split _ _ (Z.min (instant r) e)), spanned_all by
      (lia || (intros w Hw; cbn; apply orb_true_iff; left; unfold holds_at; rewrite Hres;
               apply andb_true_iff; split; [apply Z.leb_le|apply Z.ltb_lt]; lia)).
    rewrite (spanned_ext _ (λ w, existsb (holds_at w) l)).
    2:{ intros w Hw. cbn. unfold holds_at at 1. rewrite Hres.
        destruct (Z.ltb_spec w (instant r)); [lia|]. by rewrite andb_false_r. }
    destruct (Z.le_gt_cases (instant r) e).
    + rewrite Z.min_l, (IH (instant r)) by done. lia.
    + rewrite Z.min_r, spanned_nil by lia. rewrite hold_times_late; [lia|].
      eapply Forall_impl; [by apply chained_bound|]. cbn. lia.
  - apply bool_decide_eq_true in Hc as ->. rewrite spanned_all; [unfold sumZ; cbn; lia|lia|].
    intros w Hw. cbn. unfold holds_at. rewrite Hres, orb_false_r, andb_true_r. apply Z.leb_le. lia.
Qed.

(** The time held is the lifted holds' time, whatever the order they are listed in. *)
Lemma counted_time since e : held_time (counted_holds since e) = sumZ (lifted_time (instant e) <$> since).
Proof.
  unfold held_time, counted_holds. induction since as [|h l IH]; [done|]. cbn [omap list_omap].
  rewrite (fmap_cons (lifted_time (instant e))), sumZ_cons, <- IH.
  unfold lifted_time at 1, hold_time. destruct (resumed_at h) as [r|]; [|done].
  unfold dt_ltb at 1. destruct (Z.ltb_spec (instant (held_at h)) (instant e)) as [Hlt|Hge].
  - rewrite fmap_cons, sumZ_cons. cbn. f_equal. unfold dt_sub, dt_max, dt_min, dt_ltb.
    destruct (Z.ltb_spec (instant e) (instant r)) as [H1|H1]; cbn;
    match goal with |- context [if ?a <? ?b then _ else _] => destruct (Z.ltb_spec a b) end; lia.
  - lia.
Qed.

(** The last of recorded holds is the open one, if any is. *)
Lemma chained_last l : ∀ a, chained a l = true →
  (open_held l = [] ∧ Forall (λ h, is_Some (resumed_at h)) l) ∨
  ∃ l' h, l = l' ++ [h] ∧ resumed_at h = None ∧ open_held l = [held_at h] ∧
    Forall (λ x, ∃ r, resumed_at x = Some r ∧ instant r <= instant (held_at h)) l'.
Proof.
  induction l as [|h l IH]; intros a Hc; [by left|]. cbn in Hc. apply andb_true_iff in Hc as [_ Hc].
  unfold open_held. cbn. destruct (resumed_at h) as [r|] eqn:Hr; cbn.
  - apply andb_true_iff in Hc as [_ Hc]. destruct (IH _ Hc) as [[Ho Hl]|(l' & o & -> & Ho & Hop & Hl)].
    + left. split; [exact Ho|]. constructor; [by rewrite Hr|done].
    + right. exists (h :: l'), o. split_and!; [done|done|exact Hop|].
      constructor; [|done]. exists r. split; [done|]. apply chained_bound in Hc.
      rewrite Forall_app, Forall_singleton in Hc. by destruct Hc.
  - apply bool_decide_eq_true in Hc as ->. right. by exists [], h.
Qed.

(** * The count *)

(** The shop day of an instant. *)
Lemma shop_date_Ok m : aware m = true → shop_date m = Ok (sql_shop_day (instant m)).
Proof.
  intros H. unfold shop_date. by rewrite H.
Qed.

Lemma sql_shop_day_mono a b : a <= b → sql_shop_day a <= sql_shop_day b.
Proof. intros H. unfold sql_shop_day. apply Z.div_le_mono; [done|lia]. Qed.

(** A day is reached at its midnight. *)
Lemma sql_shop_day_reached d x : d <= sql_shop_day x ↔ instant (midnight d SHOP_TIMEZONE) <= x.
Proof.
  assert (instant (midnight d SHOP_TIMEZONE) = us_per_day * d - SHOP_TIMEZONE) as -> by
    (unfold midnight, instant; cbn [wall_us utcoffset_us default]; unfold from_option, id; lia).
  unfold sql_shop_day. split; intros H.
  - pose proof (Z.mul_div_le (x + SHOP_TIMEZONE) us_per_day ltac:(done)).
    assert (us_per_day * d <= us_per_day * ((x + SHOP_TIMEZONE) / us_per_day)) by
      (apply Z.mul_le_mono_nonneg_l; [done|lia]). lia.
  - apply Z.div_le_lower_bound; [done|]. lia.
Qed.

Lemma days_waiting_Ok ready m : aware ready = true → aware m = true →
  days_waiting ready m = Ok (Z.max 0 (sql_shop_day (instant m) - sql_shop_day (instant ready))).
Proof. intros H1 H2. unfold days_waiting. by rewrite !shop_date_Ok by done. Qed.

(** The instant the clock of [waiting_clock] stops at, and what it takes out. *)
Lemma waiting_clock_spec ready as_of holds is_paused :
  aware ready = true → aware as_of = true → Forall (λ h, aware (held_at h) = true) holds →
  let since := holds_since ready holds in
  let opened := open_held since in
  let frozen := is_paused && negb (opened is? []) in
  let end_ := if frozen then dt_min as_of (List.last opened as_of) else as_of in
  let at_ d := Z.max 0 (sql_shop_day d - sql_shop_day (instant ready)) in
  let read := instant end_ - sumZ (lifted_time (instant end_) <$> since) in
  waiting_clock ready as_of holds is_paused =
    Ok (MkWaitingClock (sql_shop_day (instant ready)) (at_ read) (at_ (instant end_) - at_ read) frozen
          (counted_holds since end_)).
Proof.
  intros Hready Has Hholds since opened frozen end_ at_ read. unfold waiting_clock.
  fold since. fold opened. fold frozen. fold end_.
  assert (aware end_ = true) as Hend.
  { unfold end_. destruct frozen; [|done]. unfold dt_min. destruct (dt_ltb _ _); [|done].
    assert (∀ l, Forall (λ m, aware m = true) l → aware (List.last l as_of) = true) as Hlast.
    { intros l Hl. induction Hl as [|x l Hx _ IH]; [done|]. destruct l; [done|exact IH]. }
    apply Hlast. unfold opened, open_held. apply Forall_fmap, Forall_forall. intros h Hh.
    apply list_elem_of_In, List.filter_In in Hh as [Hh _]. apply list_elem_of_In in Hh.
    unfold since, holds_since in Hh. rewrite stable_sort_perm in Hh.
    apply list_elem_of_In, List.filter_In in Hh as [Hh _]. apply list_elem_of_In in Hh.
    rewrite Forall_forall in Hholds. by apply Hholds. }
  rewrite !days_waiting_Ok, shop_date_Ok by (by rewrite ?aware_dt_add).
  cbn. rewrite instant_dt_add, counted_time. done.
Qed.

(** The instant the clock reads is the ready time plus the time on the shelf. *)
Lemma shelf_read a ready as_of holds is_paused :
  chained a holds = true → instant ready <= instant as_of →
  (is_paused = true ∨ open_held (holds_since ready holds) = []) →
  let since := holds_since ready holds in
  let frozen := is_paused && negb (open_held since is? []) in
  let end_ := if frozen then dt_min as_of (List.last (open_held since) as_of) else as_of in
  instant end_ - sumZ (lifted_time (instant end_) <$> since) = instant ready + shelf_time ready as_of holds.
Proof.
  intros Hc Hle Hopen since frozen end_. destruct (holds_since_chained ready _ _ Hc) as [_ Hs].
  fold since in Hs, Hopen. unfold shelf_time, on_shelf. fold since.
  pose proof (spanned_negb (λ w, existsb (holds_at w) since) _ _ Hle) as Hspan.
  rewrite (held_span _ _ _ Hs) in Hspan by done.
  assert (instant end_ - sumZ (lifted_time (instant end_) <$> since)
          = instant as_of - sumZ (hold_time (instant as_of) <$> since)); [|lia].
  subst frozen end_. destruct (chained_last _ _ Hs) as [[Ho Hl]|(l' & o & Hl & Hres & Ho & Hbefore)].
  - rewrite Ho, bool_decide_true, andb_false_r by done. f_equal. apply sumZ_map_ext.
    eapply Forall_impl; [exact Hl|]. intros h [r Hr]. unfold lifted_time. by rewrite Hr.
  - rewrite Ho in *. destruct Hopen as [->|Hopen]; [|done]. rewrite bool_decide_false by done. cbn.
    assert (∀ e, sumZ (lifted_time e <$> [o]) = 0) as Hlast by (intros; cbn; unfold lifted_time; by rewrite Hres).
    assert (sumZ (hold_time (instant as_of) <$> [o]) = Z.max 0 (instant as_of - instant (held_at o))) as Hlast'
      by (cbn; rewrite sumZ_cons; unfold hold_time, sumZ; rewrite Hres; cbn; lia).
    rewrite Hl, !fmap_app, !sumZ_app, Hlast, Hlast'. unfold dt_min, dt_ltb.
    destruct (Z.ltb_spec (instant (held_at o)) (instant as_of)) as [Hlt|Hge]; cbn.
    + rewrite (sumZ_map_ext _ (hold_time (instant as_of))); [lia|].
      eapply Forall_impl; [exact Hbefore|]. intros h (r & Hr & Hro).
      unfold lifted_time, hold_time. rewrite Hr. lia.
    + rewrite (sumZ_map_ext _ (hold_time (instant as_of))); [lia|].
      eapply Forall_impl; [exact Hbefore|]. intros h (r & Hr & Hro).
      unfold lifted_time. by rewrite Hr.
Qed.

Lemma counted_clock a ready as_of holds is_paused :
  aware ready = true → aware as_of = true → Forall (λ h, aware (held_at h) = true) holds →
  chained a holds = true → instant ready <= instant as_of →
  (is_paused = true ∨ open_held (holds_since ready holds) = []) →
  ∃ clock, waiting_clock ready as_of holds is_paused = Ok clock ∧
    ready_on clock = sql_shop_day (instant ready) ∧
    days clock = sql_shop_day (instant ready + shelf_time ready as_of holds) - sql_shop_day (instant ready) ∧
    (paused clock = true ↔ is_paused = true ∧ open_held (holds_since ready holds) ≠ []) ∧
    (paused clock = false →
     days clock + held_days clock = sql_shop_day (instant as_of) - sql_shop_day (instant ready) ∧
     lifted clock = counted_holds (holds_since ready holds) as_of).
Proof.
  intros Hr Ha Hh Hc Hle Hopen. eexists. split; [by apply waiting_clock_spec|]. cbn.
  rewrite (shelf_read a) by done. split; [done|].
  assert (0 <= shelf_time ready as_of holds) by (unfold shelf_time; apply spanned_nonneg).
  pose proof (sql_shop_day_mono (instant ready) (instant ready + shelf_time ready as_of holds) ltac:(lia)).
  split; [lia|]. split.
  - rewrite andb_true_iff, negb_true_iff, bool_decide_eq_false. done.
  - intros ->. pose proof (sql_shop_day_mono _ _ Hle). split; [lia|done].
Qed.

(** * When the count turns *)

Lemma skip_none e c since : Forall (λ h, instant c <= instant (held_at h)) since →
  foldl skip_hold c (counted_holds since e) = c.
Proof.
  intros H. unfold counted_holds. induction H as [|h l Hh _ IH]; [done|]. cbn.
  assert (∀ m, skip_hold c (held_at h, m) = c) as Hskip.
  { intros m. unfold skip_hold, dt_ltb. cbn [fst snd]. cbn in Hh. by destruct (Z.ltb_spec (instant (held_at h)) (instant c)); [lia|]. }
  destruct (resumed_at h); [|done]. destruct (dt_ltb (held_at h) e); [|done]. cbn. by rewrite Hskip.
Qed.

Lemma lifted_le_hold e h : lifted_time e h <= hold_time e h.
Proof. unfold lifted_time, hold_time. destruct (resumed_at h); lia. Qed.

(** Holds recorded from [c] on take at most the time left. *)
Lemma lifted_fit c e l : chained c l = true → c <= e → c + sumZ (lifted_time e <$> l) <= e.
Proof.
  intros Hc Hle. pose proof (held_span e l c Hc Hle) as Hs.
  pose proof (spanned_le (λ w, existsb (holds_at w) l) c e Hle).
  assert (sumZ (lifted_time e <$> l) <= sumZ (hold_time e <$> l)) by
    (apply sumZ_map_le, Forall_forall; intros; apply lifted_le_hold). lia.
Qed.

Lemma skip_reaches e since : ∀ a c, chained a since = true →
  (instant (foldl skip_hold c (counted_holds since e)) <= instant e ↔
   instant c + sumZ (lifted_time (instant e) <$> since) <= instant e).
Proof.
  induction since as [|h l IH]; intros a c Hc; [cbn; unfold sumZ; cbn; lia|].
  destruct (Z.le_gt_cases (instant c) (instant (held_at h))) as [Hle|Hgt].
  - assert (chained (instant c) (h :: l) = true) as Hc'.
    { cbn in *. apply andb_true_iff in Hc as [_ ->]. rewrite andb_true_r. by apply Z.leb_le. }
    rewrite skip_none by (by apply chained_bound). split; [by apply lifted_fit|].
    intros H. assert (0 <= sumZ (lifted_time (instant e) <$> h :: l)); [|lia].
    apply sumZ_nonneg, Forall_fmap, Forall_forall. intros x _. cbn. unfold lifted_time, hold_time.
    destruct (resumed_at x); lia.
  - rewrite fmap_cons, sumZ_cons. cbn in Hc |- *. apply andb_true_iff in Hc as [_ Hc].
    unfold lifted_time at 1, hold_time.
    destruct (resumed_at h) as [r|]; [|by apply bool_decide_eq_true in Hc as ->; cbn; unfold sumZ; cbn; lia].
    apply andb_true_iff in Hc as [_ Hc].
    unfold dt_ltb at 1. destruct (Z.ltb_spec (instant (held_at h)) (instant e)) as [Hlt|Hlate].
    + cbn. fold (counted_holds l e). rewrite (IH (instant r)) by done. unfold skip_hold at 1, dt_ltb at 1.
      cbn. destruct (Z.ltb_spec (instant (held_at h)) (instant c)); [|lia].
      rewrite instant_dt_add. unfold dt_sub, dt_max, dt_min, dt_ltb.
      destruct (Z.ltb_spec (instant e) (instant r)); cbn;
      match goal with |- context [if ?a <? ?b then _ else _] => destruct (Z.ltb_spec a b) end; lia.
    + fold (counted_holds l e). rewrite (IH (instant r)) by done. lia.
Qed.

(** Holds all over by [as_of] are the same seen from any later instant. *)
Lemma counted_holds_past since as_of t :
  Forall (λ h, ∃ r, resumed_at h = Some r ∧ instant (held_at h) < instant as_of ∧ instant r <= instant as_of) since →
  instant as_of <= instant t → counted_holds since t = counted_holds since as_of.
Proof.
  intros H Ht. unfold counted_holds. induction H as [|h l (r & Hr & Hh & Hle) _ IH]; [done|].
  cbn. rewrite Hr, IH. unfold dt_ltb.
  destruct (Z.ltb_spec (instant (held_at h)) (instant t)); [|lia].
  destruct (Z.ltb_spec (instant (held_at h)) (instant as_of)); [|lia].
  do 2 f_equal. unfold dt_min, dt_ltb.
  destruct (Z.ltb_spec (instant t) (instant r)); [lia|].
  by destruct (Z.ltb_spec (instant as_of) (instant r)); [lia|].
Qed.

Definition over_by (as_of : datetime) (h : StorageHold) : Prop :=
  ∃ r, resumed_at h = Some r ∧ instant (held_at h) < instant as_of ∧ instant r <= instant as_of.

Lemma over_since ready as_of holds : Forall (over_by as_of) holds → Forall (over_by as_of) (holds_since ready holds).
Proof.
  intros H. unfold holds_since. rewrite stable_sort_perm.
  apply Forall_forall. intros h Hh. apply list_elem_of_In, List.filter_In in Hh as [Hh _].
  rewrite Forall_forall in H. by apply H, list_elem_of_In.
Qed.

Lemma over_not_open as_of l : Forall (over_by as_of) l → open_held l = [].
Proof.
  intros H. unfold open_held. induction H as [|h l (r & Hr & _) _ IH]; [done|]. cbn. by rewrite Hr.
Qed.

(** The instant [WaitingClock.reaches] names is the one from which the count reads the day. *)
Lemma turn_spec a ready as_of t holds d :
  chained a holds = true → Forall (λ h, aware (held_at h) = true) holds →
  aware ready = true → aware as_of = true → aware t = true →
  Forall (over_by as_of) holds → instant ready <= instant as_of → instant as_of <= instant t → 0 <= d →
  ∃ clock moment now, waiting_clock ready as_of holds false = Ok clock ∧
    reaches clock d = Ok (Some moment) ∧ waiting_clock ready t holds false = Ok now ∧
    (d <= days now ↔ instant moment <= instant t).
Proof.
  intros Hc Hh Hr Ha Ht Hover Hle Hle' Hd. apply (over_since ready) in Hover as Hs.
  apply over_not_open in Hs as Ho.
  destruct (counted_clock a ready as_of holds false) as (clock & Hclock & Hon & _ & Hp & Hl); [done..|by right|].
  assert (paused clock = false) as Hpf by (apply not_true_iff_false; rewrite Hp; by intros [? ?]).
  rewrite Hpf in Hl. destruct (Hl eq_refl) as [_ Hlift].
  pose proof (waiting_clock_spec ready t holds false Hr Ht Hh) as Hnow. cbn in Hnow.
  do 3 eexists. split; [done|]. split; [|split; [exact Hnow|]].
  - unfold reaches. rewrite Hpf. by destruct (Z.ltb_spec d 0); [lia|].
  - cbn. rewrite Hon, Hlift. rewrite <- (counted_holds_past _ as_of t Hs Hle').
    destruct (holds_since_chained ready _ _ Hc) as [_ Hsc]. rewrite (skip_reaches t _ _ _ Hsc).
    pose proof (sql_shop_day_reached (sql_shop_day (instant ready) + d)
      (instant t - sumZ (lifted_time (instant t) <$> holds_since ready holds))) as Hday.
    destruct (Z.eq_dec d 0) as [->|]; [|lia].
    split; [intros _|lia]. rewrite Z.add_0_r.
    assert (instant (midnight (sql_shop_day (instant ready)) SHOP_TIMEZONE) <= instant ready) by
      (by apply sql_shop_day_reached).
    pose proof (lifted_fit (instant ready) (instant t) _ Hsc ltac:(lia)). lia.
Qed.

(** The page's SQL counts the clock's days, for any holds at all. *)
Lemma sql_held_time_spec ready as_of holds :
  sql_held_time ready as_of holds = sumZ (lifted_time (instant as_of) <$> holds_since ready holds).
Proof.
  unfold holds_since. rewrite (sumZ_perm _ _ (fmap_Permutation _ _ _ (stable_sort_perm held_leb _))).
  unfold sql_held_time. induction holds as [|h l IH]; [done|]. cbn.
  destruct (dt_leb ready (held_at h)); cbn; rewrite ?fmap_cons, ?sumZ_cons; [|by destruct (resumed_at h)].
  unfold lifted_time at 1, hold_time, dt_ltb. destruct (resumed_at h) as [r|]; [|exact IH].
  destruct (Z.ltb_spec (instant (held_at h)) (instant as_of)); [rewrite sumZ_cons; f_equal; exact IH|].
  etransitivity; [exact IH|]. lia.
Qed.

Lemma sql_days_spec ready as_of holds :
  aware ready = true → aware as_of = true → Forall (λ h, aware (held_at h) = true) holds →
  ∃ clock, waiting_clock ready as_of holds false = Ok clock ∧
    WAITING_DAYS_SQL (Some ready) as_of holds = Some (days clock).
Proof.
  intros Hr Ha Hh. eexists. split; [by apply waiting_clock_spec|]. cbn. by rewrite sql_held_time_spec.
Qed.

(** * What an order owes for storage *)

Definition shelf_days (ready as_of : datetime) (holds : list StorageHold) : Z :=
  sql_shop_day (instant ready + shelf_time ready as_of holds) - sql_shop_day (instant ready).

(** What the policy charges, and what of it the ledger already holds. *)
Definition policy_charge (policy : option StoragePolicy) (f : StorageFacts) (as_of : datetime) : Z :=
  match policy, ready_at f, quoted_total_vnd f with
  | Some p, Some ready, Some quoted =>
      if negb (waived f)
         && ((clock f is? StorageClock.RUNNING) || ((clock f is? StorageClock.PAUSED) && open_since_ready f))
      then Z.min (Z.max 0 (shelf_days ready as_of (holds f) - free_days p) * fee_per_started_day_vnd p)
             (quoted * fee_cap_percent p / 100)
      else 0
  | _, _, _ => 0
  end.
Definition paid_over (f : StorageFacts) : Z :=
  match quoted_total_vnd f with Some quoted => Z.max 0 (paid_vnd f - quoted) | None => 0 end.

Record facts_ok (f : StorageFacts) (as_of : datetime) : Prop := {
  facts_aware : aware as_of = true;
  facts_holds : Forall (λ h, aware (held_at h) = true) (holds f);
  facts_chained : ∃ a, chained a (holds f) = true;
  facts_ready : ∀ ready, ready_at f = Some ready → aware ready = true ∧ instant ready <= instant as_of;
  facts_running : clock f = StorageClock.RUNNING → open_since_ready f = false;
  facts_paid : valid_vnd (paid_vnd f) = true;
  facts_quoted : ∀ q, quoted_total_vnd f = Some q → valid_vnd q = true;
}.

Lemma open_since_spec f ready : ready_at f = Some ready →
  (open_since_ready f = false ↔ open_held (holds_since ready (holds f)) = []).
Proof.
  intros Hr. unfold open_since_ready, open_held, holds_since. rewrite Hr.
  assert (∀ l, open_held l = [] ↔ Forall (λ h, resumed_at h ≠ None) l) as Hopen.
  { induction l as [|h l IH]; [by split|]. unfold open_held in *. cbn. rewrite Forall_cons, <- IH.
    destruct (resumed_at h); cbn; [naive_solver|]. split; [done|]. by intros [? _]. }
  fold (open_held (stable_sort held_leb (List.filter (λ h, dt_leb ready (held_at h)) (holds f)))).
  rewrite Hopen, stable_sort_perm. rewrite <- not_true_iff_false, existsb_exists.
  rewrite Forall_forall. setoid_rewrite <- list_elem_of_In.
  split.
  - intros H h Hh Hres. apply H. apply list_elem_of_In, List.filter_In in Hh as [Hh Hle].
    exists h. split; [by apply list_elem_of_In|]. by rewrite Hres, bool_decide_true, Hle.
  - intros H (h & Hh & Hres). apply andb_true_iff in Hres as [Hres Hle]. apply bool_decide_eq_true in Hres.
    apply (H h); [|done]. apply list_elem_of_In, List.filter_In. split; [by apply list_elem_of_In|done].
Qed.

Lemma valid_vnd_spec v : valid_vnd v = true ↔ 0 <= v <= MAX_SETTLEMENT_VND.
Proof. unfold valid_vnd. by rewrite andb_true_iff, !Z.leb_le. Qed.

Definition policy_sane (p : StoragePolicy) : Prop :=
  1 <= free_days p ∧ 1 <= fee_per_started_day_vnd p ∧ 1 <= fee_cap_percent p <= 100 ∧
  free_days p < disposal_from_day p ∧ 1 <= disposal_min_attempt_days p <= disposal_min_attempts p.

Lemma policy_charge_nonneg policy f as_of :
  (∀ p, policy = Some p → policy_sane p) → facts_ok f as_of → 0 <= policy_charge policy f as_of.
Proof.
  intros Hp [_ _ _ _ _ _ Hq]. unfold policy_charge.
  destruct policy as [p|]; [|done]. destruct (ready_at f) as [ready|]; [|done].
  destruct (quoted_total_vnd f) as [q|]; [|done]. destruct (_ && _); [|done].
  specialize (Hp p eq_refl). specialize (Hq q eq_refl). apply valid_vnd_spec in Hq.
  destruct Hp as (_ & Hf & Hc & _). apply Z.min_glb; [nia|]. apply Z.div_pos; nia.
Qed.

(** [counted_days] on the facts of an order whose clock runs or is paused. *)
Lemma counted_days_facts f as_of ready :
  facts_ok f as_of → ready_at f = Some ready →
  clock f = StorageClock.RUNNING ∨ open_since_ready f = true →
  counted_days ready as_of (holds f)
    ((clock f is? StorageClock.PAUSED) && open_since_ready f) = Ok (shelf_days ready as_of (holds f))
  ∨ (clock f ≠ StorageClock.RUNNING ∧ clock f ≠ StorageClock.PAUSED).
Proof.
  intros [Ha Hh [a Hc] Hr Hrun _ _] Hready Hcase. destruct (Hr _ Hready) as [Haw Hle].
  assert (clock f ≠ StorageClock.RUNNING ∧ clock f ≠ StorageClock.PAUSED ∨
    (((clock f is? StorageClock.PAUSED) && open_since_ready f) = true ∨
     open_held (holds_since ready (holds f)) = [])) as [Hn|Hp]; [|by right|left].
  { destruct (decide (clock f = StorageClock.RUNNING)) as [He|He].
    - right; right. apply (open_since_spec f ready Hready). auto.
    - destruct Hcase as [?|Ho]; [done|]. destruct (decide (clock f = StorageClock.PAUSED)) as [Hpa|]; [|by left].
      right; left. by rewrite Hpa, bool_decide_true, Ho. }
  destruct (counted_clock a ready as_of (holds f) ((clock f is? StorageClock.PAUSED) && open_since_ready f))
    as (c & Hclock & _ & Hd & _); [done..|].
  unfold counted_days. rewrite Hclock. cbn. by rewrite Hd.
Qed.

(** The answer of [_unfixed_storage_fee]: the policy's charge, owed while there is one. *)
Definition answers (charge : Z) (m : stored OrderStorageFee) : Prop :=
  ∃ r, m = Ok r ∧ amount_vnd r = charge ∧ status r ≠ StorageFeeStatus.ALREADY_PAID ∧
    (status r ∈ [StorageFeeStatus.ACCRUING; StorageFeeStatus.PAUSED] ↔ 0 < charge).

Lemma answers_none charge s : charge = 0 →
  s ∉ [StorageFeeStatus.ALREADY_PAID; StorageFeeStatus.ACCRUING; StorageFeeStatus.PAUSED] →
  answers charge (Ok (no_fee s)).
Proof. intros -> Hs. eexists. split; [done|]. cbn. split_and!; [done|set_solver|]. split; [set_solver|lia]. Qed.

Lemma unfixed_spec policy f as_of :
  (∀ p, policy = Some p → policy_sane p) → facts_ok f as_of →
  answers (policy_charge policy f as_of) (_unfixed_storage_fee policy f as_of).
Proof.
  intros Hsane Hf. pose proof (policy_charge_nonneg policy f as_of Hsane Hf) as Hnn.
  unfold _unfixed_storage_fee. unfold policy_charge in *. destruct (waived f) eqn:Hw; cbn [negb andb] in *.
  { apply answers_none; [|decided]. by destruct policy, (ready_at f), (quoted_total_vnd f). }
  destruct policy as [p|]; [|by apply answers_none; [|decided]].
  destruct (ready_at f) as [ready|] eqn:Hr; [|by apply answers_none; [|decided]].
  rewrite <- negb_orb. destruct (_ || _) eqn:Hrun; cbn [negb].
  2:{ apply answers_none; [|decided]. by destruct (quoted_total_vnd f). }
  destruct (quoted_total_vnd f) as [q|] eqn:Hq; [|by apply answers_none; [|decided]].
  destruct (counted_days_facts f as_of ready Hf Hr) as [Hdays|[Hn1 Hn2]].
  { apply orb_true_iff in Hrun as [H|H]; [left; by apply bool_decide_eq_true in H|right].
    by apply andb_true_iff in H as [_ ?]. }
  2:{ exfalso. by rewrite !bool_decide_false in Hrun by done. }
  unfold storage_fee. rewrite (facts_quoted _ _ Hf _ Hq). cbn. rewrite Hdays. cbn.
  set (charge := Z.min _ _) in *.
  destruct (Z.eqb_spec charge 0) as [E|E]; (eexists; split; [done|]); cbn.
  - split_and!; [done|done|]. split; [set_solver|lia].
  - split_and!; [done|by destruct (_ && _)|]. split; [lia|intros _]. destruct (_ && _); decided.
Qed.

Lemma storage_fee_spec policy f as_of :
  (∀ p, policy = Some p → policy_sane p) → facts_ok f as_of → fixed_vnd f = None → settled f = false →
  ∃ r, order_storage_fee policy f as_of = Ok r ∧
    amount_vnd r = Z.max (paid_over f) (policy_charge policy f as_of) ∧ already_paid_vnd r = paid_over f ∧
    (status r = StorageFeeStatus.ALREADY_PAID ↔ policy_charge policy f as_of < paid_over f) ∧
    (status r ∈ [StorageFeeStatus.ACCRUING; StorageFeeStatus.PAUSED] ↔
     0 < policy_charge policy f as_of ∧ paid_over f <= policy_charge policy f as_of).
Proof.
  intros Hp Hf Hfix Hset. destruct (unfixed_spec policy f as_of Hp Hf) as (r & Hr & Ha & Hs & Hacc).
  unfold order_storage_fee. rewrite Hfix, Hset, Hr. cbn.
  assert (fee_already_paid (paid_vnd f) (quoted_total_vnd f) = Ok (paid_over f)) as ->.
  { unfold fee_already_paid, paid_over. rewrite (facts_paid _ _ Hf). cbn.
    destruct (quoted_total_vnd f) as [q|] eqn:Hq; [|done]. by rewrite (facts_quoted _ _ Hf _ Hq). }
  cbn. rewrite Ha. destruct (Z.ltb_spec (policy_charge policy f as_of) (paid_over f)) as [Hlt|Hge].
  - eexists. split; [done|]. cbn. split_and!; [lia|done|by split|]. split; [set_solver|lia].
  - eexists. split; [done|]. cbn. split_and!; [lia|done| |].
    + split; [by intros ?|lia].
    + rewrite Hacc. lia.
Qed.

(** A policy the parser accepts. *)
Lemma figure_range payload key low high v : _figure payload key low high = Ok v → low <= v <= high.
Proof.
  unfold _figure. destruct (dict_get payload key) as [[]|]; try done. intros H.
  apply raise_bind_Ok in H as [H [= ->]]. apply negb_false_iff, andb_true_iff in H.
  by rewrite !Z.leb_le in H.
Qed.

Lemma parsed_storage_policy_sane payload p : parse_storage_policy payload = Ok p → policy_sane p.
Proof.
  unfold parse_storage_policy. intros H. do 4 apply raise_bind_Ok in H as [_ H].
  apply bind_Ok in H as (f & Hf & H). apply bind_Ok in H as (fee & Hfee & H).
  apply bind_Ok in H as (cap & Hcap & H). apply bind_Ok in H as (from & Hfrom & H).
  apply bind_Ok in H as (att & Hatt & H). apply bind_Ok in H as (dd & Hd & H).
  apply raise_bind_Ok in H as [H1 H]. apply raise_bind_Ok in H as [H2 H]. injection H as <-.
  apply figure_range in Hf, Hfee, Hcap, Hfrom, Hatt, Hd. apply Z.leb_gt in H1. apply Z.ltb_ge in H2.
  unfold policy_sane. cbn. lia.
Qed.

(** * Waiving it *)

Definition waive (f : StorageFacts) (ready : option datetime) (c : StorageClock.t) (hs : list StorageHold)
    : StorageFacts :=
  MkStorageFacts c ready (quoted_total_vnd f) true (settled f) (fixed_vnd f) (paid_vnd f) hs.

Lemma paid_over_covered f as_of : facts_ok f as_of →
  fee_already_paid (paid_vnd f) (quoted_total_vnd f) = Ok (paid_over f).
Proof.
  intros Hf. unfold fee_already_paid, paid_over. rewrite (facts_paid _ _ Hf). cbn.
  destruct (quoted_total_vnd f) as [q|] eqn:Hq; [|done]. by rewrite (facts_quoted _ _ Hf _ Hq).
Qed.

Lemma waiver_effect_spec policy f as_of q r :
  (∀ p, policy = Some p → policy_sane p) → facts_ok f as_of → fixed_vnd f = None → settled f = false →
  quoted_total_vnd f = Some q → order_storage_fee policy f as_of = Ok r →
  ∃ e, waiver_effect r (Some q) (paid_vnd f) = Ok e ∧
    match e with
    | None => policy_charge policy f as_of <= paid_over f
    | Some e => paid_over f < policy_charge policy f as_of ∧ effect_quoted_total_vnd e = q ∧
        kept_vnd e = paid_over f ∧
        waived_vnd e = policy_charge policy f as_of - paid_over f ∧
        owed_after_vnd e = q + kept_vnd e ∧ remaining_after_vnd e = owed_after_vnd e - paid_vnd f
    end.
Proof.
  intros Hp Hf Hfix Hset Hq Hr.
  destruct (storage_fee_spec policy f as_of Hp Hf Hfix Hset) as (r' & Hr' & Ham & Hal & _ & Hs).
  rewrite Hr in Hr'. injection Hr' as <-. unfold waiver_effect.
  assert (0 <= paid_over f) as H0 by (unfold paid_over; destruct (quoted_total_vnd f); lia).
  destruct (status r in? _) eqn:Hacc; cbn.
  - apply bool_decide_eq_true, Hs in Hacc as [Hc Hle]. pose proof (paid_over_covered _ _ Hf) as Hcov. rewrite Hq in Hcov. rewrite Hcov. cbn.
    rewrite Hal, Z.eqb_refl. cbn. rewrite Ham.
    destruct (Z.leb_spec (Z.max (paid_over f) (policy_charge policy f as_of) - paid_over f) 0);
      (eexists; split; [done|]); cbn; [lia|]. lia.
  - apply bool_decide_eq_false in Hacc. eexists. split; [done|]. cbn. rewrite Hs in Hacc. lia.
Qed.

Lemma waived_fee policy f as_of :
  facts_ok f as_of → waived f = true → fixed_vnd f = None → settled f = false →
  ∃ r, order_storage_fee policy f as_of = Ok r ∧ amount_vnd r = paid_over f.
Proof.
  intros Hf Hw Hfix Hset. unfold order_storage_fee, _unfixed_storage_fee.
  rewrite Hfix, Hset, Hw, (paid_over_covered _ _ Hf). cbn.
  assert (0 <= paid_over f) as H0 by (unfold paid_over; destruct (quoted_total_vnd f); lia).
  destruct (Z.ltb_spec 0 (paid_over f)); (eexists; split; [done|]); cbn; lia.
Qed.

(** * Disposal *)

(** The contact attempts that count, and their shop days. *)
Definition attempts_since (ready : datetime) (times : list datetime) : list datetime :=
  List.filter (λ m, dt_leb ready m) times.

Lemma shop_dates_Ok l : Forall (λ m, aware m = true) l →
  traverse shop_date l = Ok ((λ m, sql_shop_day (instant m)) <$> l).
Proof. induction 1 as [|m l Hm _ IH]; [done|]. cbn. by rewrite shop_date_Ok, IH. Qed.

Definition may_dispose (p : StoragePolicy) (awaiting : bool) (ready as_of : datetime) (times : list datetime)
    (hs : list StorageHold) : Prop :=
  awaiting = true ∧ disposal_from_day p <= shelf_days ready as_of hs ∧
  disposal_min_attempts p <= Z.of_nat (length (attempts_since ready times)) ∧
  disposal_min_attempt_days p <=
    Z.of_nat (size (list_to_set ((λ m, sql_shop_day (instant m)) <$> attempts_since ready times) : gset Z)).

Lemma if_so_nil {A} c (a : A) : if_so c a = [] ↔ c = false.
Proof. by destruct c. Qed.

Lemma size_distinct (l : list Z) : size (list_to_set l : gset Z) = length (fromkeys l).
Proof.
  rewrite <- (size_list_to_set (C := gset Z) (fromkeys l)) by apply fromkeys_NoDup.
  f_equal. apply set_eq. intros x. by rewrite !elem_of_list_to_set, elem_of_fromkeys.
Qed.

Lemma falls_on_Ok c d : 0 <= d → ∃ e, falls_on c d = Ok e.
Proof.
  intros Hd. unfold falls_on, reaches. destruct (paused c); [by eexists|].
  destruct (Z.ltb_spec d 0); [lia|]. cbn.
  assert (∀ l m, aware m = true → aware (foldl skip_hold m l) = true) as Haw.
  { induction l as [|x l IH]; [done|]. intros m Hm. apply IH. unfold skip_hold. by destruct (dt_ltb _ _). }
  rewrite shop_date_Ok by by apply Haw. by eexists.
Qed.

Lemma attempts_aware r times : Forall (λ m, aware m = true) times →
  Forall (λ m, aware m = true) (attempts_since r times).
Proof.
  intros Ht. apply Forall_forall. intros m Hm. apply list_elem_of_In, List.filter_In in Hm as [Hm _].
  rewrite Forall_forall in Ht. by apply Ht, list_elem_of_In.
Qed.

Lemma distinct_le (l : list Z) : (length (fromkeys l) <= length l)%nat.
Proof.
  apply submseteq_length, NoDup_submseteq; [apply fromkeys_NoDup|]. intros x. by rewrite elem_of_fromkeys.
Qed.

(** The verdict on an order whose clock is sound when it waits. *)
Lemma verdict_spec policy awaiting ready as_of times hs is_paused a :
  (∀ p, policy = Some p → policy_sane p) →
  chained a hs = true → Forall (λ h, aware (held_at h) = true) hs → aware as_of = true →
  Forall (λ m, aware m = true) times →
  (∀ r, ready = Some r → aware r = true ∧ instant r <= instant as_of) →
  (awaiting = true → ∀ r, ready = Some r → is_paused = true ∨ open_held (holds_since r hs) = []) →
  ∃ v, disposal_verdict policy awaiting ready as_of times hs is_paused = Ok v ∧
    (allowed v = true ↔ ∃ p r, policy = Some p ∧ ready = Some r ∧ may_dispose p awaiting r as_of times hs) ∧
    (∀ r, ready = Some r → awaiting = true →
      verdict_days_waiting v = Some (shelf_days r as_of hs) ∧
      attempts_counted v = Z.of_nat (length (attempts_since r times)) ∧
      attempt_days v = Z.of_nat (size (list_to_set
        ((λ m, sql_shop_day (instant m)) <$> attempts_since r times) : gset Z)) ∧
      attempt_days v <= attempts_counted v).
Proof.
  intros Hp Hc Hh Ha Ht Hr Hopen. unfold disposal_verdict. destruct ready as [r|].
  - destruct (Hr r eq_refl) as [Hra Hle].
    fold (attempts_since r times). rewrite shop_dates_Ok by by apply attempts_aware.
    destruct (waiting_clock r as_of hs is_paused) as [c|] eqn:Hclock;
      [|by rewrite waiting_clock_spec in Hclock].
    assert (awaiting = true → days c = shelf_days r as_of hs) as Hd.
    { intros Haw. destruct (counted_clock a r as_of hs is_paused) as (c' & Hclock' & _ & Hd & _); [done..|by apply Hopen|].
      rewrite Hclock in Hclock'. by injection Hclock' as <-. }
    pose proof (distinct_le ((λ m, sql_shop_day (instant m)) <$> attempts_since r times)) as Hdist.
    rewrite length_fmap in Hdist. cbn. destruct policy as [p|].
    2:{ eexists. split; [done|]. unfold allowed. cbn. split; [split; [by destruct awaiting|by intros (? & ? & [=] & _)]|].
        intros r' [= <-] Haw. rewrite (Hd Haw), size_distinct. split_and!; [done|done|done|lia]. }
    specialize (Hp p eq_refl). destruct (falls_on_Ok c (disposal_from_day p)) as [e ->].
    { unfold policy_sane in Hp. lia. }
    rewrite <- size_distinct in *. cbn [mbind result_bind].
    eexists. split; [done|]. unfold allowed. cbn [refusals verdict_days_waiting attempts_counted attempt_days].
    split; [|intros r' [= <-] Haw; rewrite (Hd Haw); split_and!; [done|done|done|lia]].
    rewrite bool_decide_eq_true, !app_nil, !if_so_nil, !Z.ltb_ge, orb_false_r, negb_false_iff.
    unfold may_dispose. split.
    + intros (Haw & H1 & H2 & H3). exists p, r. rewrite <- (Hd Haw). by split_and!.
    + intros (? & ? & [= <-] & [= <-] & Haw & H1 & H2 & H3). by rewrite (Hd Haw).
  - cbn. assert (List.filter (λ _, false) times = []) as ->.
    { induction times; [done|]. cbn. apply IHtimes. by inversion Ht. }
    cbn. destruct policy as [p|]; (eexists; split; [done|]); unfold allowed; cbn;
      (split; [split; [by destruct awaiting|by intros (? & ? & _ & [=] & _)]|done]).
Qed.

(** * The trace behind a fee *)

Lemma policy_charge_le policy f as_of q :
  (∀ p, policy = Some p → policy_sane p) → facts_ok f as_of → quoted_total_vnd f = Some q →
  policy_charge policy f as_of <= q.
Proof.
  intros Hp Hf Hq. pose proof (facts_quoted _ _ Hf _ Hq) as Hv. apply valid_vnd_spec in Hv.
  unfold policy_charge. rewrite Hq. destruct policy as [p|]; [|lia]. destruct (ready_at f); [|lia].
  destruct (_ && _); [|lia]. specialize (Hp p eq_refl). destruct Hp as (_ & _ & Hc & _).
  etransitivity; [apply Z.le_min_r|]. apply Z.div_le_upper_bound; nia.
Qed.

(** The figures a fee was computed from: started days past the free ones. *)
Definition trace_ok (policy : option StoragePolicy) (tr : StorageFee) : Prop :=
  ∃ p, policy = Some p ∧ chargeable_days tr = Z.max 0 (fee_days_waiting tr - free_days p) ∧
    fee_amount_vnd tr <= chargeable_days tr * fee_per_started_day_vnd p.

Definition traced (policy : option StoragePolicy) (r : OrderStorageFee) : Prop :=
  (∀ tr, fee r = Some tr → trace_ok policy tr) ∧
  (status r ∈ [StorageFeeStatus.ACCRUING; StorageFeeStatus.PAUSED] →
   ∃ tr, fee r = Some tr ∧ fee_amount_vnd tr = amount_vnd r ∧ fee_amount_vnd tr ≠ 0).

(** A positive fee has started days, as its table's CHECKs ask. *)
Lemma trace_days policy tr : (∀ p, policy = Some p → policy_sane p) → trace_ok policy tr →
  0 < fee_amount_vnd tr ∨ 0 < chargeable_days tr →
  0 < chargeable_days tr <= fee_days_waiting tr.
Proof.
  intros Hs (p & Hp & Hc & Ha) Hpos. destruct (Hs p Hp) as (Hf & Hper & _).
  assert (0 < chargeable_days tr) by nia. lia.
Qed.

Lemma untraced policy s amount already :
  s ∉ [StorageFeeStatus.ACCRUING; StorageFeeStatus.PAUSED] →
  traced policy (MkOrderStorageFee s amount None already).
Proof. intros Hs. by split; [|intros ?]. Qed.

Lemma unfixed_traced policy f as_of u : _unfixed_storage_fee policy f as_of = Ok u → traced policy u.
Proof.
  unfold _unfixed_storage_fee. destruct (waived f); [intros [= <-]; apply untraced; decided|].
  destruct policy as [p|]; [|intros [= <-]; apply untraced; decided].
  destruct (ready_at f) as [ready|]; [|intros [= <-]; apply untraced; decided].
  destruct (_ && negb _); [intros [= <-]; apply untraced; decided|].
  destruct (quoted_total_vnd f) as [q|]; [|intros [= <-]; apply untraced; decided].
  intros H. apply bind_Ok in H as (tr & Htr & H). unfold storage_fee in Htr.
  apply raise_bind_Ok in Htr as [_ Htr]. apply bind_Ok in Htr as (w & _ & [= <-]). cbn in H.
  match type of H with context [?a =? 0] => destruct (Z.eqb_spec a 0) as [E|E] end; injection H as <-;
    (split; cbn; [intros tr [= <-]; exists p; cbn; split_and!; [done|done|lia]|]); [set_solver|]. intros _. by eexists.
Qed.

Lemma fee_trace policy f as_of r : order_storage_fee policy f as_of = Ok r → traced policy r.
Proof.
  unfold order_storage_fee. destruct (fixed_vnd f); [intros [= <-]; apply untraced; decided|].
  destruct (settled f); [intros [= <-]; apply untraced; decided|].
  intros H. apply bind_Ok in H as (u & Hun & H). apply bind_Ok in H as (al & _ & H).
  apply unfixed_traced in Hun as [H1 H2].
  destruct (_ <? _); injection H as <-; split; cbn; try done. set_solver.
Qed.

(** * The properties *)

(** The shop's clock on September [d] 2026 at [hh]:[mm]. *)
Definition september (d hh mm : Z) : datetime :=
  astimezone 0 (DateTime (day_number 2026 9 d * us_per_day + hh * us_per_hour + mm * 60 * us_per_second)
                  (Some SHOP_TIMEZONE)).
Definition overnight (d : Z) : StorageHold :=
  {| held_at := september d 21 0; resumed_at := Some (september (d + 1) 8 0) |}.
Definition on_hold_since (d hh : Z) : StorageHold := {| held_at := september d hh 0; resumed_at := None |}.
Definition owner_policy : StoragePolicy := MkStoragePolicy 20 5000 50 60 3 2.

Example held_overnight : days <$> (match waiting_clock (september 1 19 55) (september 4 12 0)
    [overnight 1; overnight 2] false with Ok c => Some c | Err _ => None end) = Some 2.
Proof. vm_compute. reflexivity. Qed.

Ltac aware_list := repeat constructor.

(** the day count is that of a clock which runs only while the laundry is on the shelf.
    For holds recorded one after the other, [waiting_clock] never fails from the ready time
    on, and its days are the shop days from the ready day to the instant a clock would show
    that had started at the ready time and stood still at every instant a hold covers, an
    open one included; with no hold open, the days counted and the days held add up to the
    calendar. *)
Theorem waiting_days_on_the_shelf a ready as_of holds is_paused :
  aware ready = true → aware as_of = true → Forall (λ h, aware (held_at h) = true) holds →
  chained a holds = true → instant ready <= instant as_of →
  (open_held (holds_since ready holds) ≠ [] → is_paused = true) →
  ∃ clock, waiting_clock ready as_of holds is_paused = Ok clock ∧
    days clock = sql_shop_day (instant ready + shelf_time ready as_of holds) - sql_shop_day (instant ready) ∧
    (paused clock = true ↔ open_held (holds_since ready holds) ≠ []) ∧
    (paused clock = false →
     days clock + held_days clock = sql_shop_day (instant as_of) - sql_shop_day (instant ready)).
Proof.
  intros Hr Ha Hh Hc Hle Hopen.
  assert (is_paused = true ∨ open_held (holds_since ready holds) = []) as Hor.
  { destruct (decide (open_held (holds_since ready holds) = [])); [by right|left; auto]. }
  destruct (counted_clock a ready as_of holds is_paused) as (clock & Hclock & _ & Hd & Hp & Hl); [done..|].
  exists clock. split; [done|]. split; [done|]. split; [rewrite Hp; naive_solver|].
  intros Hpf. by apply Hl.
Qed.

Lemma waiting_days_on_the_shelf_witness :
  ∃ clock, waiting_clock (september 1 19 55) (september 9 12 0) [overnight 1; overnight 2; on_hold_since 4 15] true = Ok clock
    ∧ days clock = 2 ∧ paused clock = true.
Proof.
  destruct (waiting_days_on_the_shelf 0 (september 1 19 55) (september 9 12 0) [overnight 1; overnight 2; on_hold_since 4 15] true)
    as (c & Hc & _ & _ & _); [aware_list..|vm_compute; reflexivity|vm_compute; discriminate|done|].
  exists c. split; [exact Hc|]. vm_compute in Hc. injection Hc as <-. done.
Defined.

(** the instant [WaitingClock.reaches] names is exactly when the count turns.  Computed
    at any time with every hold over, it stays right at every later time while no new hold
    begins: the clock reads at least [d] days exactly from that instant on. *)
Theorem count_turns_when_reached a ready as_of t holds d :
  chained a holds = true → Forall (λ h, aware (held_at h) = true) holds →
  aware ready = true → aware as_of = true → aware t = true →
  Forall (over_by as_of) holds → instant ready <= instant as_of → instant as_of <= instant t → 0 <= d →
  ∃ clock moment now, waiting_clock ready as_of holds false = Ok clock ∧
    reaches clock d = Ok (Some moment) ∧ waiting_clock ready t holds false = Ok now ∧
    (d <= days now ↔ instant moment <= instant t).
Proof. apply turn_spec. Qed.

Lemma count_turns_when_reached_witness :
  ∃ clock, waiting_clock (september 1 19 55) (september 4 12 0) [overnight 1] false = Ok clock ∧
    reaches clock 20 = Ok (Some (dt_add (midnight (day_number 2026 9 21) SHOP_TIMEZONE) (hours 11))) ∧
    ∃ now, waiting_clock (september 1 19 55) (september 21 11 0) [overnight 1] false = Ok now ∧ days now = 20.
Proof.
  destruct (count_turns_when_reached 0 (september 1 19 55) (september 4 12 0) (september 21 11 0) [overnight 1] 20)
    as (c & m & n & Hc & Hm & Hn & Hiff); [done|aware_list|done|done|done| |done|done|lia|].
  { repeat constructor. eexists. split; [done|]. by vm_compute. }
  exists c. split; [exact Hc|]. rewrite Hm. vm_compute in Hc. injection Hc as <-. vm_compute in Hm.
  injection Hm as <-. split; [by vm_compute|]. exists n. split; [done|]. vm_compute in Hn. by injection Hn as <-.
Defined.

(** the waiting list's SQL counts the clock's days.  For every order whose clock runs and
    any holds at all, [WAITING_DAYS_SQL] is [waiting_clock]'s count, so the guard
    [require_same_days] never refuses a page. *)
Theorem page_counts_the_clocks_days ready as_of holds :
  aware ready = true → aware as_of = true → Forall (λ h, aware (held_at h) = true) holds →
  ∃ clock, waiting_clock ready as_of holds false = Ok clock ∧
    require_same_days (WAITING_DAYS_SQL (Some ready) as_of holds) (Some clock) = true.
Proof.
  intros Hr Ha Hh. destruct (sql_days_spec ready as_of holds Hr Ha Hh) as (c & Hc & Hd).
  exists c. split; [done|]. unfold require_same_days. rewrite Hd. by apply bool_decide_eq_true.
Qed.

Lemma page_counts_the_clocks_days_witness :
  WAITING_DAYS_SQL (Some (september 1 19 55)) (september 4 12 0) [overnight 2; overnight 1] = Some 2.
Proof.
  destruct (page_counts_the_clocks_days (september 1 19 55) (september 4 12 0) [overnight 2; overnight 1])
    as (c & Hc & Hs); [aware_list..|].
  vm_compute in Hc. injection Hc as <-. unfold require_same_days in Hs. by apply bool_decide_eq_true in Hs.
Defined.

(** what an order owes for storage.  Until its fee is fixed, [order_storage_fee] always
    answers, and the amount is the larger of what the policy charges -- the started days on
    the shelf past the free ones, capped by the quoted total's percentage; nothing when
    waived, unpublished, stopped or without one total -- and what the payments already hold
    beyond the quoted total.  So what is owed is never below what was paid. *)
Theorem storage_fee_owed policy f as_of :
  (∀ p, policy = Some p → policy_sane p) → facts_ok f as_of → fixed_vnd f = None → settled f = false →
  ∃ r, order_storage_fee policy f as_of = Ok r ∧
    amount_vnd r = Z.max (paid_over f) (policy_charge policy f as_of) ∧ already_paid_vnd r = paid_over f ∧
    (∀ q, quoted_total_vnd f = Some q → paid_vnd f <= q + amount_vnd r) ∧
    (status r = StorageFeeStatus.ALREADY_PAID ↔ policy_charge policy f as_of < paid_over f) ∧
    (status r ∈ [StorageFeeStatus.ACCRUING; StorageFeeStatus.PAUSED] ↔
     0 < policy_charge policy f as_of ∧ paid_over f <= policy_charge policy f as_of).
Proof.
  intros Hp Hf Hfix Hset. destruct (storage_fee_spec policy f as_of Hp Hf Hfix Hset) as (r & H1 & H2 & H3 & H4).
  exists r. split_and!; try done; try apply H4. intros q Hq. unfold paid_over in H2. rewrite Hq in H2. lia.
Qed.

(** A finished order of 100,000 đồng with 103,000 paid, held overnight once, on hold now. *)
Definition left_waiting (c : StorageClock.t) (paid : Z) (hs : list StorageHold) : StorageFacts :=
  MkStorageFacts c (Some (september 1 19 55)) (Some 100_000) false false None paid hs.

Lemma left_waiting_ok c paid hs as_of :
  valid_vnd paid = true → aware as_of = true → instant (september 1 19 55) <= instant as_of →
  Forall (λ h, aware (held_at h) = true) hs → chained 0 hs = true →
  (c = StorageClock.RUNNING → open_since_ready (left_waiting c paid hs) = false) →
  facts_ok (left_waiting c paid hs) as_of.
Proof.
  intros. split; try done; [by exists 0| |].
  - by intros r [= <-].
  - by intros q [= <-].
Qed.

Lemma owner_policy_sane p : Some owner_policy = Some p → policy_sane p.
Proof. intros [= <-]. unfold policy_sane, owner_policy. cbn. lia. Qed.

Lemma storage_fee_owed_witness :
  ∃ r, order_storage_fee (Some owner_policy) (left_waiting StorageClock.RUNNING 103_000 [overnight 1])
         (september 23 12 0) = Ok r ∧
    amount_vnd r = 10_000 ∧ status r = StorageFeeStatus.ACCRUING.
Proof.
  destruct (storage_fee_owed (Some owner_policy) (left_waiting StorageClock.RUNNING 103_000 [overnight 1])
    (september 23 12 0) owner_policy_sane) as (r & Hr & _); [|done|done|].
  { apply left_waiting_ok; [done|done|by vm_compute|aware_list|done|by vm_compute]. }
  exists r. split; [exact Hr|]. vm_compute in Hr. by injection Hr as <-.
Defined.
