(* ===== verification/Unclaimed.v ===== *)
(** Laundry left waiting, in the database ([packages/db/.../unclaimed.py], [storage_fees.py]):
    the storage fee of a locked order, fixed by the payment or the account charge that ends
    it, the contact attempts, the waiver and the disposal.  A [ShelfOrder] is the order row
    with the four tables of those commands; as in [OrderRepository] a command is the row
    after, or the refusal with nothing written.  The tables' CHECKs and commit-time triggers
    are written out where a command meets them; audit, outbox and idempotency envelopes are
    [Outbox]'s and [Idempotency]'s and not repeated. *)
From Stdlib Require Import String.
From S2P Require Import Prelude Clock Text Catalog Orders Accounts Settlement Payments AccountCharge.
From S2P Require Import OrderSteps OrderRepository Promise Storage.
Local Open Scope laundry_scope.
Local Open Scope string_scope.
Local Open Scope Z_scope.

Inductive UnclaimedFailure :=
  | UnclaimedAuthorizationError
  | UnclaimedRefused (reason_codes : list string)
  | UnclaimedSettlementRefused (reason_code : SettlementRefusal.t)
  | OrderFailure (e : RepoError)
  | RuleFailure (e : StorageFailure)
  | AssertionFailure
  | ConstraintViolation (what : string).
Notation unclaimed := (result UnclaimedFailure).

Definition lift_order {A} (r : repo A) : unclaimed A :=
  match r with Ok a => Ok a | Err e => Err (OrderFailure e) end.
Definition lift_storage {A} (r : stored A) : unclaimed A :=
  match r with Ok a => Ok a | Err e => Err (RuleFailure e) end.
Definition refused_as {A} (code : string) : unclaimed A := Err (UnclaimedRefused [code]).

(** * Rows *)

Module FeeBasis.
Inductive t :=
  | ACCRUED | ALREADY_PAID.
#[export] Instance eq_dec : EqDecision t.
Proof. solve_decision. Defined.
End FeeBasis.
#[export] Existing Instance FeeBasis.eq_dec.

(** A row of [order_storage_fees]: the trace is the days waited and the chargeable ones. *)
Record FixedFee := MkFixedFee {
  fixed_amount_vnd : Z;
  fixed_trace : option (Z * Z);
  fixed_basis : FeeBasis.t;
}.

Record WaiverRow := MkWaiverRow {
  waived_amount_vnd : Z;
  waiver_days_waiting : Z;
  waiver_reason : text;
}.

Record DisposalRow := MkDisposalRow {
  disposal_days_waiting : Z;
  disposal_attempts : Z;
  disposal_attempt_days : Z;
  disposal_owed : Z;
  disposal_storage_fee : Z;
  disposal_kept : Z;
  disposal_written_off : Z;
}.

Record ShelfOrder := MkShelfOrder {
  order : OrderRow;
  order_storage_fee_row : option FixedFee;
  storage_fee_waiver : option WaiverRow;
  order_contact_attempts : list datetime;
  order_disposal : option DisposalRow;
}.

Definition set_order (s : ShelfOrder) (row : OrderRow) : ShelfOrder :=
  MkShelfOrder row (order_storage_fee_row s) (storage_fee_waiver s) (order_contact_attempts s) (order_disposal s).

(** * The fee of a locked order *)

Record LockedStorageFee := MkLockedStorageFee {
  locked_fee : OrderStorageFee;
  published : option StoragePolicy;
  locked_awaiting : bool;
  locked_ready_at : option datetime;
  locked_quoted_total_vnd : option Z;
  locked_paid_vnd : Z;
  locked_waived : bool;
  locked_holds : list StorageHold;
  locked_paused : bool;
}.

(** [CASE WHEN display_total_min_vnd = display_total_max_vnd THEN display_total_min_vnd END]. *)
Definition single_total (q : QuotedTotal) : option Z :=
  match minimum_vnd q, maximum_vnd q with
  | Some a, Some b => if a =? b then Some a else None
  | _, _ => None
  end.

(** [STORAGE_HOLDS_SQL]: the holds since the laundry was ready, oldest first; [held_at >= NULL]
    selects none. *)
Definition STORAGE_HOLDS_SQL (row : OrderRow) : list StorageHold :=
  match production_ready_at row with
  | Some ready => holds_since ready (storage_holds row)
  | None => []
  end.

Definition storage_facts (s : ShelfOrder) : StorageFacts :=
  let row := order s in
  let st := row_state row in
  MkStorageFacts
    (storage_clock (commercial st) (production st) (production_resume_status st) (fulfillment_mode st)
       (self_collection_recorded st))
    (production_ready_at row) (single_total (row_quoted row))
    (bool_decide (is_Some (storage_fee_waiver s))) (bool_decide (is_Some (order_settlement row)))
    (fixed_amount_vnd <$> order_storage_fee_row s) (sumZ (order_payments row)) (STORAGE_HOLDS_SQL row).

Definition storage_fee_for_order (policy : option StoragePolicy) (s : ShelfOrder) (moment : datetime)
    : stored LockedStorageFee :=
  let f := storage_facts s in
  fee ← order_storage_fee policy f moment;
  Ok (MkLockedStorageFee fee policy (clock f is? StorageClock.RUNNING) (ready_at f) (quoted_total_vnd f)
        (paid_vnd f) (waived f) (holds f) (clock f is? StorageClock.PAUSED)).

(** [insert_fixed_storage_fee], under the columns' CHECKs. *)
Definition insert_fixed_storage_fee (storage : LockedStorageFee) (amount : Z) : unclaimed FixedFee :=
  let accrued := match fee (locked_fee storage), published storage with
                 | Some trace, Some _ => (0 <? chargeable_days trace) && (fee_amount_vnd trace =? amount)
                 | _, _ => false
                 end in
  let row := MkFixedFee amount
    (match fee (locked_fee storage) with
     | Some trace => if accrued then Some (fee_days_waiting trace, chargeable_days trace) else None
     | None => None
     end) (if accrued then FeeBasis.ACCRUED else FeeBasis.ALREADY_PAID) in
  raise_if (negb (0 <? amount)) (ConstraintViolation "order_storage_fees_amount_vnd_check") ;;
  raise_if (match fixed_trace row with
            | Some (waited, chargeable) => negb ((0 <? waited) && (0 <? chargeable) && (chargeable <=? waited))
            | None => false
            end) (ConstraintViolation "order_storage_fees_days_check") ;;
  Ok row.

(** * The money commands, with the fee owed at the moment *)

(** [PaymentRepository.record]: the fee is read under the lock, and fixed with the settlement. *)
Definition pay (policy : option StoragePolicy) (s : ShelfOrder) (caller : Caller) (expected_row_version : Z)
    (cmd : PaymentCommand) (recorded_at : datetime) : unclaimed ShelfOrder :=
  lift_order (authorize caller ;;
    raise_if (negb (row_version (order s) =? expected_row_version)) (StateError "STALE_VERSION")) ;;
  storage ← lift_storage (storage_fee_for_order policy s recorded_at);
  let owed := amount_vnd (locked_fee storage) in
  row ← lift_order (record_payment (order s) caller expected_row_version owed cmd);
  let fee_fixed := negb (bool_decide (is_Some (order_settlement (order s))))
                   && bool_decide (is_Some (order_settlement row)) && (0 <? owed) in
  if fee_fixed then
    fixed ← insert_fixed_storage_fee storage owed;
    Ok (MkShelfOrder row (Some fixed) (storage_fee_waiver s) (order_contact_attempts s) (order_disposal s))
  else Ok (set_order s row).

(** [SettlementRepository.record]. *)
Definition settle (policy : option StoragePolicy) (s : ShelfOrder) (caller : Caller) (paid_amount_vnd : Z)
    (collected_by_customer : bool) (attested_at : datetime) : unclaimed ShelfOrder :=
  lift_order (authorize caller) ;;
  storage ← lift_storage (storage_fee_for_order policy s attested_at);
  row ← lift_order (record_settlement (order s) caller (amount_vnd (locked_fee storage)) paid_amount_vnd
                      collected_by_customer);
  Ok (set_order s row).

(** [AccountRepository.charge]: a fee is fixed with the charge, its trace asserted. *)
Definition put_on_account (policy : option StoragePolicy) (s : ShelfOrder) (caller : Caller)
    (expected_row_version : Z) (standing : AccountStanding) (collected_by_customer : bool) (at_ : datetime)
    : unclaimed ShelfOrder :=
  lift_order (authorize caller ;;
    raise_if (negb (row_version (order s) =? expected_row_version)) (StateError "STALE_VERSION")) ;;
  storage ← lift_storage (storage_fee_for_order policy s at_);
  let owed := amount_vnd (locked_fee storage) in
  row ← lift_order (charge (order s) caller expected_row_version owed standing collected_by_customer);
  if 0 <? owed then
    trace ← require_some (fee (locked_fee storage)) AssertionFailure;
    require_some (published storage) AssertionFailure ;;
    raise_if (negb ((0 <? fee_days_waiting trace) && (0 <? chargeable_days trace)
                    && (chargeable_days trace <=? fee_days_waiting trace)))
      (ConstraintViolation "order_storage_fees_days_check") ;;
    Ok (MkShelfOrder row (Some (MkFixedFee owed (Some (fee_days_waiting trace, chargeable_days trace))
                                  FeeBasis.ACCRUED))
          (storage_fee_waiver s) (order_contact_attempts s) (order_disposal s))
  else Ok (set_order s row).

(** * Contact attempts *)

Definition ATTEMPT_TIMES_LIMIT : nat := 200.

Definition note_refusal (r : stored (option text)) : unclaimed (option text) :=
  match r with
  | Ok note => Ok note
  | Err (NoteError code) =>
      refused_as (match code with
                  | NoteRefusal.NOTE_TOO_LONG => "NOTE_TOO_LONG"
                  | NoteRefusal.NOTE_LOOKS_LIKE_PHONE => "NOTE_LOOKS_LIKE_PHONE"
                  | NoteRefusal.NOTE_REQUIRED => "NOTE_REQUIRED"
                  end)
  | Err e => Err (RuleFailure e)
  end.

(** [UnclaimedRepository.record_contact_attempt], for an attempt that names no reminder step. *)
Definition record_contact_attempt (s : ShelfOrder) (caller : Caller) (contact_outcome : ContactOutcome.t)
    (note : option text) (attempted_at : datetime) : unclaimed ShelfOrder :=
  raise_if (negb (has_role caller) || negb (mfa_verified caller)) UnclaimedAuthorizationError ;;
  note_refusal (clean_note note false) ;;
  (if contact_outcome is? ContactOutcome.MESSAGE_SENT then refused_as "REMINDER_STEP_REQUIRED" else Ok tt) ;;
  raise_if (negb (store_member caller)) UnclaimedAuthorizationError ;;
  let st := row_state (order s) in
  (if awaiting_pickup (commercial st) (production st) (fulfillment_mode st) (self_collection_recorded st)
   then Ok tt else refused_as "NOT_AWAITING_PICKUP") ;;
  Ok (MkShelfOrder (order s) (order_storage_fee_row s) (storage_fee_waiver s)
        (order_contact_attempts s ++ [attempted_at])%list (order_disposal s)).

(** [_attempt_times]: the newest attempts, newest first, bounded. *)
Definition _attempt_times (s : ShelfOrder) : list datetime :=
  take ATTEMPT_TIMES_LIMIT (stable_sort (λ a b, dt_leb b a) (order_contact_attempts s)).

(** * The waiver *)

(** [UPDATE orders SET row_version = row_version + 1], with or without [balance_status = 'PAID']
    and the settlement row the waiver writes. *)
Definition advance (row : OrderRow) (paid : option SettlementRow) : OrderRow :=
  match paid with
  | Some st => update_money row OrderBalanceStatus.PAID (self_collection_recorded (row_state row))
                 (order_payments row) (Some st) (account_charge row) (collection_recorded row)
  | None => update_money row (balance (row_state row)) (self_collection_recorded (row_state row))
              (order_payments row) (order_settlement row) (account_charge row) (collection_recorded row)
  end.

(** [_waiver_settlement]. *)
Definition _waiver_settlement (row : OrderRow) (effect : WaiverEffect) : unclaimed SettlementShape.t :=
  match evaluate_settlement (row_quoted row) (effect_quoted_total_vnd effect) false
          (fulfillment_mode (row_state row)) false with
  | SettlementAccepted shape _ => Ok shape
  | SettlementNotSupported reason_code _ => Err (UnclaimedSettlementRefused reason_code)
  end.

(** [waive_once], on the row its lock reads. *)
Definition waive_once (policy : option StoragePolicy) (s : ShelfOrder) (cleaned : text)
    (occurred_at : datetime) : unclaimed ShelfOrder :=
  storage ← lift_storage (storage_fee_for_order policy s occurred_at);
  (if locked_waived storage then refused_as "STORAGE_FEE_ALREADY_WAIVED" else Ok tt) ;;
  (if status (locked_fee storage) is? StorageFeeStatus.POLICY_UNPUBLISHED
   then refused_as "STORAGE_POLICY_UNPUBLISHED" else Ok tt) ;;
  effect ← lift_storage (waiver_effect (locked_fee storage) (locked_quoted_total_vnd storage)
                           (locked_paid_vnd storage));
  match effect with
  | None => refused_as "NO_STORAGE_FEE_OWED"
  | Some effect =>
      trace ← require_some (fee (locked_fee storage)) AssertionFailure;
      require_some (published storage) AssertionFailure ;;
      settlement ← (if settles effect
                    then shape ← _waiver_settlement (order s) effect; Ok (Some shape) else Ok None);
      let waiver := MkWaiverRow (waived_vnd effect) (fee_days_waiting trace) cleaned in
      raise_if (negb ((0 <? waived_amount_vnd waiver) && (0 <? waiver_days_waiting waiver)))
        (ConstraintViolation "storage_fee_waivers_check") ;;
      raise_if (bool_decide (is_Some (order_settlement (order s))))
        (ConstraintViolation "storage_fee_waivers_before_settlement") ;;
      match settlement with
      | Some shape =>
        fixed ← (if 0 <? kept_vnd effect then
                   row ← insert_fixed_storage_fee storage (kept_vnd effect); Ok (Some row)
                 else Ok (order_storage_fee_row s));
        raise_if (negb (balance (row_state (order s)) is? OrderBalanceStatus.PARTIALLY_PAID))
          (OrderFailure (StateError "STALE_VERSION: order changed during the waiver")) ;;
        Ok (MkShelfOrder
              (advance (order s) (Some {| settled_shape := shape; settled_expected_vnd := owed_after_vnd effect;
                                          settled_paid_vnd := owed_after_vnd effect |}))
              fixed (Some waiver) (order_contact_attempts s) (order_disposal s))
      | None => Ok (MkShelfOrder (advance (order s) None) (order_storage_fee_row s) (Some waiver)
                      (order_contact_attempts s) (order_disposal s))
      end
  end.

(** [UnclaimedRepository.waive_storage_fee]. *)
Definition waive_storage_fee (policy : option StoragePolicy) (s : ShelfOrder) (caller : Caller)
    (expected_row_version : Z) (reason : text) (occurred_at : datetime) : unclaimed ShelfOrder :=
  raise_if (negb (has_role caller) || negb (mfa_verified caller)) UnclaimedAuthorizationError ;;
  raise_if (expected_row_version <? 1) (OrderFailure (StateError "a valid row version is required")) ;;
  cleaned ← note_refusal (clean_note (Some reason) true);
  cleaned ← require_some cleaned AssertionFailure;
  raise_if (negb (store_member caller)) UnclaimedAuthorizationError ;;
  raise_if (negb (row_version (order s) =? expected_row_version)) (OrderFailure (StateError "STALE_VERSION")) ;;
  waive_once policy s cleaned occurred_at.

(** * Disposal *)

Definition disposal_refusal_code (r : DisposalRefusal.t) : string :=
  match r with
  | DisposalRefusal.STORAGE_POLICY_UNPUBLISHED => "STORAGE_POLICY_UNPUBLISHED"
  | DisposalRefusal.NOT_AWAITING_PICKUP => "NOT_AWAITING_PICKUP"
  | DisposalRefusal.DISPOSAL_TOO_EARLY => "DISPOSAL_TOO_EARLY"
  | DisposalRefusal.CONTACT_ATTEMPTS_TOO_FEW => "CONTACT_ATTEMPTS_TOO_FEW"
  | DisposalRefusal.CONTACT_DAYS_TOO_FEW => "CONTACT_DAYS_TOO_FEW"
  end.

(** The columns' CHECKs of [order_disposals]. *)
Definition disposal_checks (d : DisposalRow) : bool :=
  (0 <? disposal_days_waiting d) && (0 <? disposal_attempts d)
  && (0 <? disposal_attempt_days d) && (disposal_attempt_days d <=? disposal_attempts d)
  && (0 <=? disposal_owed d) && (0 <=? disposal_storage_fee d) && (disposal_storage_fee d <=? disposal_owed d)
  && (0 <=? disposal_kept d) && (0 <=? disposal_written_off d)
  && (disposal_kept d + disposal_written_off d =? disposal_owed d).

(** The two transitions that close the order, a microsecond apart. *)
Definition disposal_command (target : CommercialOrderStatus.t) (resolution : option CustodyResolution.t)
    : OrderTransitionCommand :=
  {| cmd_commercial := Some target; cmd_intake := None; cmd_production := None; cmd_readiness := None;
     cmd_accepted_at := None; cmd_custody := resolution;
     cmd_unclaimed_verified := bool_decide (is_Some resolution); cmd_refund := None |}.
Definition disposal_targets : list (CommercialOrderStatus.t * option CustodyResolution.t) :=
  [(CommercialOrderStatus.CANCELLATION_REVIEW, None);
   (CommercialOrderStatus.CANCELLED, Some CustodyResolution.UNCLAIMED_DISPOSED)].

Fixpoint close_order (row : OrderRow) (version index : Z) (occurred_at : datetime)
    (targets : list (CommercialOrderStatus.t * option CustodyResolution.t)) : unclaimed OrderRow :=
  match targets with
  | [] => Ok row
  | (target, resolution) :: targets =>
      raise_if (negb (row_version row =? version)) (OrderFailure (StateError "STALE_VERSION")) ;;
      row ← lift_order (_apply_locked_transition row (disposal_command target resolution)
                          (dt_add occurred_at index));
      close_order row (row_version row) (index + 1) occurred_at targets
  end.

(** [enforce_disposal_closes_order], at commit. *)
Definition disposal_agrees (row : OrderRow) (d : DisposalRow) : bool :=
  (commercial (row_state row) is? CommercialOrderStatus.CANCELLED)
  && (sumZ (order_payments row) =? disposal_kept d) && negb (bool_decide (is_Some (order_refund row))).

(** [dispose_once], on the row its lock reads. *)
Definition dispose_once (policy : option StoragePolicy) (s : ShelfOrder) (occurred_at : datetime)
    : unclaimed ShelfOrder :=
  storage ← lift_storage (storage_fee_for_order policy s occurred_at);
  verdict ← lift_storage (disposal_verdict (published storage) (locked_awaiting storage)
    (locked_ready_at storage) occurred_at (_attempt_times s) (locked_holds storage) (locked_paused storage));
  (if allowed verdict then Ok tt
   else Err (UnclaimedRefused (disposal_refusal_code <$> refusals verdict))) ;;
  require_some (published storage) AssertionFailure ;;
  waited ← require_some (verdict_days_waiting verdict) AssertionFailure;
  match single_total (row_quoted (order s)) with
  | None => refused_as "NO_SINGLE_TOTAL"
  | Some quoted =>
      let fee_vnd := amount_vnd (locked_fee storage) in
      money ← lift_storage (disposal_money (quoted + fee_vnd) (sumZ (order_payments (order s))));
      let row := MkDisposalRow waited (attempts_counted verdict) (attempt_days verdict)
        (disposal_owed_vnd money) fee_vnd (disposal_kept_vnd money) (written_off_vnd money) in
      raise_if (negb (disposal_checks row) || bool_decide (is_Some (order_disposal s)))
        (ConstraintViolation "order_disposals") ;;
      closed ← close_order (order s) (row_version (order s)) 1 occurred_at disposal_targets;
      raise_if (negb (disposal_agrees closed row)) (ConstraintViolation "order_disposals_close_their_order") ;;
      Ok (MkShelfOrder closed (order_storage_fee_row s) (storage_fee_waiver s)
            (order_contact_attempts s) (Some row))
  end.

(** [UnclaimedRepository.dispose]. *)
Definition dispose (policy : option StoragePolicy) (s : ShelfOrder) (caller : Caller)
    (expected_row_version : Z) (occurred_at : datetime) : unclaimed ShelfOrder :=
  raise_if (negb (has_role caller) || negb (mfa_verified caller)) UnclaimedAuthorizationError ;;
  raise_if (expected_row_version <? 1) (OrderFailure (StateError "a valid row version is required")) ;;
  raise_if (negb (store_member caller)) UnclaimedAuthorizationError ;;
  raise_if (negb (row_version (order s) =? expected_row_version)) (OrderFailure (StateError "STALE_VERSION")) ;;
  dispose_once policy s occurred_at.
