(* ===== verification/UnclaimedFacts.v ===== *)
(** Laundry left waiting, over every history: the order machine with the storage fee computed
    at the moment of each payment, settlement and charge, and the contact attempts, waiver
    and disposal beside it.  Each command carries its instant, and the machine its clock; the
    policy in force may change between any two commands. *)
From Stdlib Require Import String.
From S2P Require Import Prelude Counting Clock Text Catalog Calendar Orders Accounts Settlement.
From S2P Require Import Payments AccountCharge OrderSteps OrderRepository OrderLifecycle StepPlans.
From S2P Require Import OrderMachine Promise Storage StorageFacts Unclaimed.
Local Open Scope laundry_scope.
Local Open Scope Z_scope.

#[local] Arguments sumZ : simpl never.

Definition sane (policy : option StoragePolicy) : Prop := ∀ p, policy = Some p → policy_sane p.

(** * The machine *)

Inductive shelf_step : ShelfOrder * Z → ShelfOrder * Z → Prop :=
| shelf_transition s now caller v cmd t row :
    aware t = true → now <= instant t → cmd_unclaimed_verified cmd = false →
    transition (order s) caller v cmd t = Ok row →
    shelf_step (s, now) (set_order s row, instant t)
| shelf_composite s now caller v st slot a t row :
    aware t = true → now <= instant t → execute_step (order s) caller v st slot a t = Ok row →
    shelf_step (s, now) (set_order s row, instant t + (row_version row - row_version (order s)))
| shelf_payment policy s now caller v cmd t s' :
    sane policy → aware t = true → now <= instant t → pay policy s caller v cmd t = Ok s' →
    shelf_step (s, now) (s', instant t)
| shelf_settlement policy s now caller amount tick t s' :
    sane policy → aware t = true → now <= instant t → settle policy s caller amount tick t = Ok s' →
    shelf_step (s, now) (s', instant t)
| shelf_collection s now caller v row :
    record_collection (order s) caller v = Ok row → shelf_step (s, now) (set_order s row, now)
| shelf_leg s now caller k o row :
    record_leg (order s) caller k o = Ok row → shelf_step (s, now) (set_order s row, now)
| shelf_account policy s now caller v standing tick t s' :
    sane policy → aware t = true → now <= instant t →
    put_on_account policy s caller v standing tick t = Ok s' →
    shelf_step (s, now) (s', instant t)
| shelf_allocation s now ch amount row :
    account_charge (order s) = Some ch → 1 <= amount → _allocate (order s) ch amount = Ok row →
    shelf_step (s, now) (set_order s row, now)
| shelf_contact s now caller o note t s' :
    aware t = true → now <= instant t → record_contact_attempt s caller o note t = Ok s' →
    shelf_step (s, now) (s', instant t)
| shelf_waiver policy s now caller v reason t s' :
    sane policy → aware t = true → now <= instant t → waive_storage_fee policy s caller v reason t = Ok s' →
    shelf_step (s, now) (s', instant t)
| shelf_disposal policy s now caller v t s' :
    sane policy → aware t = true → now <= instant t → dispose policy s caller v t = Ok s' →
    shelf_step (s, now) (s', instant t + 2).

(** An order as [create] inserts it, quoted at one presentable total or none. *)
Definition shelf_created (w : ShelfOrder * Z) : Prop :=
  ∃ mode q rd now, w = (MkShelfOrder (new_row mode q rd) None None [] None, now) ∧
    ∀ total, single_total q = Some total → 0 <= total ∧ 2 * total <= MAX_SETTLEMENT_VND.

(** * The invariant *)

(** The row's own clocks and holds, all stamped by [now]. *)
Record timed (row : OrderRow) (now : Z) : Prop := {
  timed_sound : sound row;
  timed_chained : ∃ a, chained a (storage_holds row) = true;
  timed_holds : Forall (λ h, aware (held_at h) = true ∧ instant (held_at h) <= now ∧
                  ∀ r, resumed_at h = Some r → instant r <= now) (storage_holds row);
  timed_ready : ∀ r, production_ready_at row = Some r → aware r = true ∧ instant r <= now;
}.

Definition fixed_vnd_of (s : ShelfOrder) : Z := default 0 (fixed_amount_vnd <$> order_storage_fee_row s).

(** The fixed fee and the ledgers agree. *)
Definition fee_agrees (s : ShelfOrder) : Prop :=
  match balance (row_state (order s)) with
  | OrderBalanceStatus.UNPAID | OrderBalanceStatus.PARTIALLY_PAID => order_storage_fee_row s = None
  | OrderBalanceStatus.PAID =>
      ∃ total, single_total (row_quoted (order s)) = Some total ∧
        sumZ (order_payments (order s)) = total + fixed_vnd_of s
  | OrderBalanceStatus.ON_ACCOUNT =>
      ∃ c total, account_charge (order s) = Some c ∧ single_total (row_quoted (order s)) = Some total ∧
        row_owed_vnd c = total + fixed_vnd_of s ∧ row_fee_vnd c = fixed_vnd_of s
  | _ => True
  end.

Record shelved (s : ShelfOrder) (now : Z) : Prop := {
  sh_row : timed (order s) now;
  sh_quote : ∀ total, single_total (row_quoted (order s)) = Some total →
    0 <= total ∧ 2 * total <= MAX_SETTLEMENT_VND;
  sh_fixed : ∀ f, order_storage_fee_row s = Some f →
    ∃ total, single_total (row_quoted (order s)) = Some total ∧ 0 < fixed_amount_vnd f <= total;
  sh_fee : fee_agrees s;
  sh_paid : order_payments (order s) = [] ∨
    ∃ total, single_total (row_quoted (order s)) = Some total ∧ sumZ (order_payments (order s)) <= 2 * total;
  sh_account : balance (row_state (order s)) = OrderBalanceStatus.ON_ACCOUNT →
    self_collection_recorded (row_state (order s)) = true ∨
    fulfillment_mode (row_state (order s)) ∈ MODES_EXPECTING_RETURN;
  sh_cancelled : commercial (row_state (order s)) = CommercialOrderStatus.CANCELLED →
    balance (row_state (order s)) ∈ [OrderBalanceStatus.UNPAID; OrderBalanceStatus.REFUNDED] ∨
    is_Some (order_disposal s);
  sh_disposal : ∀ d, order_disposal s = Some d →
    disposal_agrees (order s) d = true ∧ disposal_checks d = true ∧
    balance (row_state (order s)) ∈ [OrderBalanceStatus.UNPAID; OrderBalanceStatus.PARTIALLY_PAID;
                                     OrderBalanceStatus.PAID];
  sh_attempts : Forall (λ m, aware m = true) (order_contact_attempts s);
}.

Lemma timed_mono row now now' : now <= now' → timed row now → timed row now'.
Proof.
  intros Hle [Hs Hc Hh Hr]. split; try done.
  - eapply Forall_impl; [exact Hh|]. cbn. intros h (? & ? & H). split_and!; [done|lia|].
    intros r Hres. specialize (H r Hres). lia.
  - intros r Hres. destruct (Hr r Hres). split; [done|lia].
Qed.

Lemma shelved_mono s now now' : now <= now' → shelved s now → shelved s now'.
Proof. intros Hle []. split; try done. by eapply timed_mono. Qed.

(** Commands that leave the row's clocks and holds alone. *)
Lemma timed_same row row' now :
  sound row' → storage_holds row' = storage_holds row → production_ready_at row' = production_ready_at row →
  timed row now → timed row' now.
Proof. intros Hs Hh Hr []. split; rewrite ?Hh, ?Hr; done. Qed.

Lemma shelf_created_shelved w : shelf_created w → shelved w.1 w.2.
Proof.
  intros (mode & q & rd & now & -> & Hq). split; cbn; try done; try by left.
  - split; cbn; try done; first [apply sound_new_row|by exists 0].
Qed.

(** * Transitions *)

Lemma chained_snoc m l : ∀ a, chained a l = true →
  Forall (λ h, instant (held_at h) <= instant m ∧ ∃ r, resumed_at h = Some r ∧ instant r <= instant m) l →
  chained (Z.min a (instant m)) (l ++ [{| held_at := m; resumed_at := None |}]) = true.
Proof.
  induction l as [|h l IH]; intros a Hc Hl.
  - cbn. rewrite andb_true_r. apply Z.leb_le. lia.
  - inversion Hl as [|? ? (Hm & r & Hr & Hrm) Hl']; subst. cbn in Hc |- *. rewrite Hr in Hc |- *.
    apply andb_true_iff in Hc as [Ha Hc]. apply andb_true_iff in Hc as [Hhr Hc].
    apply Z.leb_le in Ha. rewrite Hhr. apply andb_true_iff. split; [apply Z.leb_le; lia|].
    cbn. eapply chained_weaken; [|by apply IH]. lia.
Qed.

Lemma chained_end m l : ∀ a, chained a l = true →
  Forall (λ h, instant (held_at h) <= instant m) l → chained a (end_holds m l) = true.
Proof.
  unfold end_holds. induction l as [|h l IH]; intros a Hc Hl; [done|].
  inversion Hl as [|? ? Hm Hl']; subst. cbn in Hc |- *. apply andb_true_iff in Hc as [Ha Hc].
  destruct (resumed_at h) as [r|] eqn:Hr; cbn; rewrite ?Hr, Ha; cbn.
  - apply andb_true_iff in Hc as [-> Hc]. cbn. by apply IH.
  - apply bool_decide_eq_true in Hc as ->. rewrite andb_true_r. by apply Z.leb_le.
Qed.

Lemma open_holds_nil l : filter (λ h : StorageHold, resumed_at h = None) l = [] →
  Forall (λ h, is_Some (resumed_at h)) l.
Proof.
  induction l as [|h l IH]; [constructor|]. rewrite filter_cons. case_decide as Hh; [done|].
  intros H. constructor; [|by apply IH]. destruct (resumed_at h); [by eexists|done].
Qed.

(** The holds stay recorded one after the other. *)
Lemma write_holds_timed row now mv t :
  timed row now → now <= instant t → aware t = true →
  (mv = Some HoldMove.START → open_holds row = []) →
  (∃ a, chained a (write_holds mv t (storage_holds row)) = true) ∧
  Forall (λ h, aware (held_at h) = true ∧ instant (held_at h) <= instant t ∧
    ∀ r, resumed_at h = Some r → instant r <= instant t) (write_holds mv t (storage_holds row)).
Proof.
  intros Ht Hle Ha Hst. pose proof (timed_mono _ _ _ Hle Ht) as [_ [a Hc] Hh _].
  destruct mv as [[]|]; cbn.
  - specialize (Hst eq_refl). apply open_holds_nil in Hst. split.
    + exists (Z.min a (instant t)). apply chained_snoc; [done|]. rewrite Forall_forall in Hh, Hst |- *.
      intros h Hin. destruct (Hh h Hin) as (_ & ? & H). destruct (Hst h Hin) as [r Hr]. eauto.
    + apply Forall_app. split; [done|]. constructor; [|constructor]. by split_and!.
  - split.
    + exists a. apply chained_end; [done|]. eapply Forall_impl; [exact Hh|]. by intros h (_ & ? & _).
    + unfold end_holds. apply Forall_fmap. eapply Forall_impl; [exact Hh|]. intros h (? & ? & H). cbn.
      destruct (resumed_at h) as [r|] eqn:Hr; cbn; [rewrite Hr; by split_and!|]. split_and!; [done|done|]. by intros r [= <-].
  - split; [by exists a|done].
Qed.

Lemma commercial_frame s t ca cr r uv n :
  transition_commercial s t ca cr r uv = Ok n →
  fulfillment_mode n = fulfillment_mode s ∧ commercial s ≠ CommercialOrderStatus.CANCELLED ∧
  commercial n = t ∧
  (t = CommercialOrderStatus.CANCELLED → uv = false → balance s ≠ OrderBalanceStatus.REFUNDED →
   balance n ∈ [OrderBalanceStatus.UNPAID; OrderBalanceStatus.REFUNDED]).
Proof.
  intros H. pose proof (transition_commercial_guards _ _ _ _ _ _ _ H) as Hg.
  destruct (transition_commercial_shape _ _ _ _ _ _ _ H) as (b & -> & Hb). cbn.
  split_and!; [done| |done|].
  - intros Hs. destruct t; try (destruct Hg as [Hg _]; rewrite Hs in Hg; contradict Hg; decided); try done.
  - intros -> -> Hnr. destruct Hg as (_ & [(_&_&_&_&Hbal)|(_&Hw&Hbal)]); cbn in Hbal.
    + apply balance_after_cancellation_spec in Hbal as [[-> [->|[-> _]]]|(-> & _)]; [decided| |decided].
      unfold transition_commercial in H. apply raise_bind_Ok in H as [H _]. discriminate H.
    + subst b. unfold _work_has_begun in Hw. guards. set_solver.
Qed.

(** What one transition leaves of the row, and what it may close. *)
Lemma apply_frame row cmd t row' :
  sound row → dimension_count cmd = 1 → _apply_locked_transition row cmd t = Ok row' →
  row_quoted row' = row_quoted row ∧ order_payments row' = order_payments row ∧
  order_settlement row' = order_settlement row ∧ account_charge row' = account_charge row ∧
  fulfillment_mode (row_state row') = fulfillment_mode (row_state row) ∧
  self_collection_recorded (row_state row') = self_collection_recorded (row_state row) ∧
  (balance (row_state row') = balance (row_state row) ∨
   balance (row_state row') = OrderBalanceStatus.REFUNDED) ∧
  commercial (row_state row) ≠ CommercialOrderStatus.CANCELLED ∧
  (cmd_unclaimed_verified cmd = false →
   commercial (row_state row') = CommercialOrderStatus.CANCELLED →
   balance (row_state row') ∈ [OrderBalanceStatus.UNPAID; OrderBalanceStatus.REFUNDED]).
Proof.
  intros Hs Hdim H. pose proof (sound_wf _ Hs) as Hwf. unfold _apply_locked_transition in H.
  apply bind_Ok in H as (n & Hn & H).
  destruct (decide_transition_spec _ _ _ Hwf Hdim Hn) as (_ & _ & Hself & Haxis).
  assert (fulfillment_mode n = fulfillment_mode (row_state row) ∧
    commercial (row_state row) ≠ CommercialOrderStatus.CANCELLED ∧
    (cmd_unclaimed_verified cmd = false → commercial n = CommercialOrderStatus.CANCELLED →
     balance n ∈ [OrderBalanceStatus.UNPAID; OrderBalanceStatus.REFUNDED])) as (Hmode & Hopen & Hcan).
  { unfold decide_transition in Hn. unfold dimension_count in Hdim.
    destruct (cmd_commercial cmd) as [c|], (cmd_intake cmd) as [i|], (cmd_production cmd) as [p|];
      cbn in Hdim; try lia; try done.
    - destruct (transition_commercial _ _ _ _ _ _) as [n'|] eqn:Ht; [|done]. injection Hn as ->.
      apply commercial_frame in Ht as (Hm & Hc & Hnc & Hb). split_and!; [done|done|].
      rewrite Hnc. intros Huv Hcan. apply Hb; [done|done|].
      intros Hr. by apply Hc, (wf_refunded _ Hwf).
    - destruct (transition_intake _ _ _ _) as [n'|] eqn:Ht; [|done]. injection Hn as ->.
      apply transition_intake_guards in Ht as (Hterm & _ & Ht).
      assert (fulfillment_mode n = fulfillment_mode (row_state row) ∧ commercial n = commercial (row_state row))
        as [-> ->] by (destruct (i is? IntakeStatus.ACCEPTED); [destruct Ht as [-> _]|rewrite Ht]; done).
      split_and!; [done| |intros _]; intros Hc; rewrite Hc in Hterm; exfalso; apply Hterm; decided.
    - destruct Haxis as (_ & _ & _ & Hcom & Hterm & _). rewrite Hcom.
      apply bind_Ok in Hn as (n' & Ht & Hn). apply bind_Ok in Hn as (? & _ & Hn).
      apply raise_bind_Ok in Hn as [_ [= ->]].
      destruct (transition_production _ _) as [n''|] eqn:Htp; [|done]. injection Ht as ->.
      apply transition_production_spec in Htp as (_ & _ & r' & _ & ->).
      split_and!; [done| |intros _]; intros Hc; rewrite Hc in Hterm; exfalso; apply Hterm; decided. }
  apply raise_bind_Ok in H as [_ H]. apply raise_bind_Ok in H as [_ H].
  apply bind_Ok in H as (refund & _ & H).
  destruct (_ready_clock_effect _ _ _ _ _) as [now keep]. injection H as <-. cbn.
  split_and!; try done. destruct (cmd_production cmd).
  - left. by destruct Haxis as (_ & _ & ? & _).
  - destruct Haxis as (_ & _ & [?|[? _]] & _); auto.
Qed.

Lemma apply_timed row now cmd t row' :
  timed row now → now <= instant t → aware t = true → dimension_count cmd = 1 →
  _apply_locked_transition row cmd t = Ok row' → timed row' (instant t).
Proof.
  intros Ht Hle Ha Hdim H. pose proof (timed_sound _ _ Ht) as Hs.
  destruct (apply_sound _ _ _ _ Hs Hdim H) as [Hs' _].
  unfold _apply_locked_transition in H. apply bind_Ok in H as (n & Hn & H).
  destruct (decide_transition_spec _ _ _ (sound_wf _ Hs) Hdim Hn) as (_ & _ & _ & Haxis).
  apply raise_bind_Ok in H as [_ H]. apply raise_bind_Ok in H as [_ H]. apply bind_Ok in H as (refund & _ & H).
  destruct (_ready_clock_effect _ _ _ _ _) as [nw keep] eqn:Hclock. injection H as Hrow.
  set (mv := if bool_decide (is_Some (cmd_production cmd))
             then hold_move (production (row_state row)) (production n) (production_resume_status n) else None) in *.
  assert (mv = Some HoldMove.START → open_holds row = []) as Hst.
  { subst mv. case_bool_decide; [|done]. unfold hold_move.
    destruct ((_ && _) && _) eqn:Hh; [intros _|by repeat case_match].
    guards. apply nil_length_inv. rewrite (sound_holds _ Hs).
    pose proof (wf_resume _ (sound_wf _ Hs)) as Hw.
    destruct (production_resume_status (row_state row)); [|done]. destruct Hw as [Hw _].
    rename select (production (row_state row) = _) into Hp. rewrite Hp in Hw. contradict Hw. decided. }
  destruct (write_holds_timed row now mv t Ht Hle Ha Hst) as [Hch Hfa].
  split; [done|by subst row'|by subst row'|]. intros r Hr. subst row'. cbn in Hr.
  pose proof (timed_ready _ _ (timed_mono _ _ _ Hle Ht)) as Hready.
  assert (nw = None ∨ nw = Some t) as Hnw.
  { revert Hclock. unfold _ready_clock_effect. clear; repeat case_match; intros; simplify_eq; auto. }
  destruct Hnw as [->| ->]; cbn in Hr; [|by injection Hr as <-].
  destruct (if keep then production_ready_at row else None) as [r0|] eqn:Hkeep; cbn in Hr.
  - injection Hr as <-. destruct keep; [by apply Hready|done].
  - destruct (_ && _); [by injection Hr as <-|done].
Qed.

(** A disposed order is closed: no command that needs it open runs again. *)
Lemma disposal_closed s now d : shelved s now → order_disposal s = Some d →
  commercial (row_state (order s)) = CommercialOrderStatus.CANCELLED ∧
  balance (row_state (order s)) ∈ [OrderBalanceStatus.UNPAID; OrderBalanceStatus.PARTIALLY_PAID;
                                   OrderBalanceStatus.PAID].
Proof.
  intros Hsh Hd. destruct (sh_disposal _ _ Hsh d Hd) as (Ha & _ & Hb). unfold disposal_agrees in Ha. by guards.
Qed.

Lemma shelved_apply s now cmd t row :
  shelved s now → now <= instant t → aware t = true → dimension_count cmd = 1 →
  cmd_unclaimed_verified cmd = false →
  _apply_locked_transition (order s) cmd t = Ok row → shelved (set_order s row) (instant t).
Proof.
  intros Hsh Hle Ha Hdim Huv H. pose proof (sh_row _ _ Hsh) as Ht.
  destruct (apply_frame _ _ _ _ (timed_sound _ _ Ht) Hdim H)
    as (Hq & Hp & Hst & Hch & Hm & Hself & Hb & Hopen & Hcan).
  split; cbn; rewrite ?Hq, ?Hp, ?Hself, ?Hm; try apply Hsh.
  - by eapply apply_timed.
  - pose proof (sh_fee _ _ Hsh) as Hf. unfold fee_agrees in *. cbn. destruct Hb as [->| ->]; [|done].
    unfold fixed_vnd_of in *. cbn. by rewrite Hq, Hp, Hch.
  - intros Hacc. destruct Hb as [Hb|Hb]; [|congruence]. rewrite Hb in Hacc. by apply (sh_account _ _ Hsh).
  - intros Hc. left. by apply Hcan.
  - intros d Hd. by destruct (disposal_closed _ _ _ Hsh Hd).
Qed.

Lemma shelved_transition s now caller v cmd t row :
  shelved s now → now <= instant t → aware t = true → cmd_unclaimed_verified cmd = false →
  transition (order s) caller v cmd t = Ok row → shelved (set_order s row) (instant t).
Proof.
  intros Hsh Hle Ha Huv H. apply transition_apply in H as (Hdim & _ & H). by eapply shelved_apply.
Qed.

Lemma shelved_composite s now caller v st slot a t row :
  shelved s now → now <= instant t → aware t = true → execute_step (order s) caller v st slot a t = Ok row →
  shelved (set_order s row) (instant t + (row_version row - row_version (order s))).
Proof.
  intros Hsh Hle Ha H.
  apply (execute_step_invariant (λ r i, shelved (set_order s r) (instant t + i)) _ _ _ _ _ _ _ _
    (timed_sound _ _ (sh_row _ _ Hsh)) Ha) in H; [exact H| |].
  - apply (shelved_mono _ now); [lia|]. by destruct s.
  - intros r i cmd r' Hr HP Hdim Huv Happ.
    apply (shelved_mono _ (instant (dt_add t i))); [rewrite instant_dt_add; lia|].
    apply (shelved_apply (set_order s r) (instant t + i) cmd); try done. rewrite instant_dt_add. lia.
Qed.

(** * Money *)

Lemma lift_order_Ok {A} (r : repo A) a : lift_order r = Ok a ↔ r = Ok a.
Proof. destruct r; cbn; naive_solver. Qed.
Lemma lift_storage_Ok {A} (r : stored A) a : lift_storage r = Ok a ↔ r = Ok a.
Proof. destruct r; cbn; naive_solver. Qed.

Lemma single_total_spec q total : single_total q = Some total ↔ minimum_vnd q = Some total ∧ maximum_vnd q = Some total.
Proof.
  unfold single_total. destruct (minimum_vnd q) as [a|], (maximum_vnd q) as [b|]; try naive_solver.
  destruct (Z.eqb_spec a b); naive_solver.
Qed.

(** The facts the fee is computed from are in order on every shelved order. *)
Lemma shelved_facts s now t : shelved s now → now <= instant t → aware t = true → facts_ok (storage_facts s) t.
Proof.
  intros Hsh Hle Ha. pose proof (timed_mono _ _ _ Hle (sh_row _ _ Hsh)) as [Hs [a Hc] Hh Hr].
  assert (∀ P, Forall P (storage_holds (order s)) → Forall P (STORAGE_HOLDS_SQL (order s))) as Hsub.
  { intros P HP. unfold STORAGE_HOLDS_SQL. destruct (production_ready_at (order s)); [|constructor].
    unfold holds_since. rewrite stable_sort_perm. apply Forall_forall. intros h Hin.
    apply list_elem_of_In, List.filter_In in Hin as [Hin _]. rewrite Forall_forall in HP.
    by apply HP, list_elem_of_In. }
  split; cbn; try done.
  - eapply Forall_impl; [by apply Hsub|]. by intros h (? & _).
  - unfold STORAGE_HOLDS_SQL. destruct (production_ready_at (order s)) as [r|]; [|by exists 0].
    exists (instant r). by eapply holds_since_chained.
  - unfold storage_clock. destruct (awaiting_pickup _ _ _ _) eqn:Haw; [|by case_match]. intros _.
    unfold open_since_ready. cbn. unfold awaiting_pickup in Haw. guards.
    rename select (production _ = _) into Hp. pose proof (wf_resume _ (sound_wf _ Hs)) as Hw.
    destruct (production_resume_status (row_state (order s))) as [x|] eqn:Hres.
    { destruct Hw as [Hw _]. rewrite Hp in Hw. contradict Hw. decided. }
    pose proof (sound_holds _ Hs) as Hno. rewrite Hres in Hno. cbn in Hno.
    apply nil_length_inv, open_holds_nil in Hno.
    apply not_true_iff_false. rewrite existsb_exists. intros (h & Hin & Hopen).
    apply andb_true_iff in Hopen as [Hopen _]. apply bool_decide_eq_true in Hopen.
    pose proof (Hsub _ Hno) as Hno'. rewrite Forall_forall in Hno'.
    apply list_elem_of_In, Hno' in Hin. rewrite Hopen in Hin. by destruct Hin.
  - apply valid_vnd_spec. pose proof (sumZ_nonneg (order_payments (order s))) as Hn.
    assert (0 <= sumZ (order_payments (order s))) by
      (apply Hn; eapply Forall_impl; [apply (sound_payments _ Hs)|cbn; lia]). split; [done|].
    destruct (sh_paid _ _ Hsh) as [->|(total & Ht & Hb)]; [by unfold sumZ|].
    destruct (sh_quote _ _ Hsh _ Ht). lia.
  - intros q Hq. apply valid_vnd_spec. destruct (sh_quote _ _ Hsh _ Hq). lia.
Qed.

(** The fee a shelved order owes. *)
Definition unpaid_yet (s : ShelfOrder) : Prop := order_storage_fee_row s = None ∧ order_settlement (order s) = None.

Lemma shelved_fee policy s now t :
  sane policy → shelved s now → now <= instant t → aware t = true →
  ∃ r, order_storage_fee policy (storage_facts s) t = Ok r ∧ traced policy r ∧ 0 <= amount_vnd r ∧
    (∀ total, single_total (row_quoted (order s)) = Some total → amount_vnd r <= total) ∧
    (∀ f, order_storage_fee_row s = Some f → amount_vnd r = fixed_amount_vnd f) ∧
    (order_storage_fee_row s = None → is_Some (order_settlement (order s)) → amount_vnd r = 0) ∧
    (unpaid_yet s →
      let paid := paid_over (storage_facts s) in
      let due := policy_charge policy (storage_facts s) t in
      amount_vnd r = Z.max paid due ∧ already_paid_vnd r = paid ∧
      (status r ∈ [StorageFeeStatus.ACCRUING; StorageFeeStatus.PAUSED] ↔ 0 < due ∧ paid <= due)).
Proof.
  intros Hp Hsh Hle Ha. pose proof (shelved_facts s now t Hsh Hle Ha) as Hf. unfold unpaid_yet.
  destruct (order_storage_fee_row s) as [f|] eqn:Hfix.
  { destruct (sh_fixed _ _ Hsh _ Hfix) as (total & Ht & Hb). eexists. split.
    { unfold order_storage_fee, storage_facts. cbn. rewrite Hfix. done. }
    split; [apply untraced; decided|]. cbn. split_and!; [lia| |by intros f' [= <-]|done|by intros [? _]].
    intros t' Ht'. rewrite Ht in Ht'. injection Ht' as <-. lia. }
  destruct (order_settlement (order s)) as [st|] eqn:Hst.
  { eexists. split.
    { unfold order_storage_fee, storage_facts. cbn. rewrite Hfix, Hst. done. }
    split; [apply untraced; decided|]. cbn. split_and!; [done| |done|done|by intros [_ ?]].
    intros t' Ht'. by destruct (sh_quote _ _ Hsh _ Ht'). }
  destruct (storage_fee_spec policy (storage_facts s) t Hp Hf) as (r & Hr & Ham & Hal & _ & Hs);
    [by cbn; rewrite Hfix|cbn; by rewrite Hst|].
  exists r. split; [done|]. split; [by eapply fee_trace|].
  pose proof (policy_charge_nonneg policy _ t Hp Hf). split_and!; [lia| |done|by intros _ [? ?]|done].
  intros total Ht. rewrite Ham. apply Z.max_lub; [|by apply (policy_charge_le policy _ t total Hp Hf)].
  unfold paid_over. cbn. rewrite Ht. destruct (sh_quote _ _ Hsh _ Ht).
  destruct (sh_paid _ _ Hsh) as [->|(total' & Ht' & Hb)]; [unfold sumZ; cbn; lia|].
  rewrite Ht in Ht'. injection Ht' as <-. lia.
Qed.

(** What no money command touches. *)
Definition same_shelf (row row' : OrderRow) : Prop :=
  row_quoted row' = row_quoted row ∧ storage_holds row' = storage_holds row ∧
  production_ready_at row' = production_ready_at row ∧
  fulfillment_mode (row_state row') = fulfillment_mode (row_state row) ∧
  commercial (row_state row') = commercial (row_state row) ∧
  (self_collection_recorded (row_state row) = true → self_collection_recorded (row_state row') = true).

Lemma charges_single q fee cs : owed_charges q fee = Ok (Some cs) →
  0 <= fee ∧ ∃ total, single_total q = Some total ∧ charges_total cs = total + fee.
Proof.
  intros H. apply owed_charges_Some in H as (Hfee & total & Hmin & Hmax & _ & Hcs).
  split; [done|]. exists total. by rewrite single_total_spec.
Qed.

Lemma payment_shape row caller v fee cmd row' :
  sound row → record_payment row caller v fee cmd = Ok row' →
  same_shelf row row' ∧ commercial (row_state row) = CommercialOrderStatus.ACTIVE ∧
  balance (row_state row) ∈ PAYABLE_BALANCES ∧ order_settlement row = None ∧
  account_charge row' = account_charge row ∧
  ∃ total, single_total (row_quoted row) = Some total ∧
    ((balance (row_state row') = OrderBalanceStatus.PARTIALLY_PAID ∧ order_settlement row' = None ∧
      sumZ (order_payments row') < total + fee) ∨
     (balance (row_state row') = OrderBalanceStatus.PAID ∧ is_Some (order_settlement row') ∧
      sumZ (order_payments row') = total + fee)).
Proof.
  intros Hs H. unfold record_payment in H. apply authorize_Ok in H as (_ & _ & _ & H).
  apply raise_bind_Ok in H as [_ H]. apply bind_Ok in H as (charges & Hch & H).
  apply bind_Ok in H as (o & Ho & H). apply (proj1 (lift_program_Ok _ _)) in Hch, Ho.
  destruct o as [a|]; [|done].
  apply evaluate_payment_iff in Ho as (Hact & Hpay & _ & _ & _ & cs & -> & Hv & Hp & Hacc).
  destruct (payable_in_shop row Hs Hpay) as (_ & Hst & _).
  apply charges_single in Hch as (Hfee & total & Htot & Hcs).
  destruct Hacc as (-> & Hamt & Hcol). cbn in H.
  assert (0 <= pay_amount_vnd cmd) as Ha0 by lia.
  destruct (Z.eqb_spec (charges_total cs - sumZ (order_payments row) - pay_amount_vnd cmd) 0)
    as [Hz|Hz]; unfold completes in H; cbn [balance_after] in H.
  - rewrite bool_decide_true in H by done.
    destruct (evaluate_settlement _ _ _ _ _) as [shape t|]; [|done]. cbn in H.
    apply bind_Ok in H as ([] & _ & H). injection H as <-. cbn.
    split; [split_and!; cbn; try done; by intros ->|]. split_and!; try done.
    exists total. split; [done|]. right. rewrite sum_with_payment by done. split_and!; [done|by eexists|lia].
  - rewrite bool_decide_false in H by done. injection H as <-. cbn.
    split; [by split_and!|]. split_and!; try done.
    exists total. split; [done|]. left. rewrite sum_with_payment by done. split_and!; [done|done|lia].
Qed.

Lemma settlement_shape row caller fee amount tick row' :
  sound row → record_settlement row caller fee amount tick = Ok row' →
  same_shelf row row' ∧ commercial (row_state row) = CommercialOrderStatus.ACTIVE ∧
  balance (row_state row) = OrderBalanceStatus.UNPAID ∧ fee <= 0 ∧
  balance (row_state row') = OrderBalanceStatus.PAID ∧
  ∃ total, single_total (row_quoted row) = Some total ∧ sumZ (order_payments row') = total.
Proof.
  intros Hs H. unfold record_settlement in H. apply authorize_Ok in H as (_ & _ & _ & H).
  apply raise_bind_Ok in H as [Hact H]. apply raise_bind_Ok in H as [_ H].
  apply raise_bind_Ok in H as [Hu H]. apply raise_bind_Ok in H as [Hf H].
  apply negb_false_iff in Hu, Hact. guards. pose proof (sound_ledger _ Hs) as Hl. unfold ledger in Hl.
  rewrite Hu in Hl. destruct Hl as (Hnil & _).
  assert (self_collection_recorded (row_state row) = false) as Hself.
  { destruct (self_collection_recorded (row_state row)) eqn:E; [|done].
    pose proof (sound_goods _ Hs) as Hg. unfold goods_out in Hg. rewrite E, orb_true_r in Hg.
    specialize (Hg eq_refl). rewrite Hu in Hg. contradict Hg. decided. }
  destruct (evaluate_settlement _ _ _ _ _) as [shape t|] eqn:Hset; [|done]. cbn in H.
  apply evaluate_settlement_iff in Hset as (-> & Ht & Hm1 & Hm2 & _).
  apply bind_Ok in H as ([] & _ & H). injection H as <-. cbn.
  split; [split_and!; cbn; try done; by rewrite Hself|]. split_and!; try done.
  exists amount. rewrite single_total_spec. split; [done|].
  rewrite sum_with_payment, Hnil by lia. unfold sumZ. cbn. lia.
Qed.

Lemma charge_shape row caller v fee standing tick row' :
  sound row → charge row caller v fee standing tick = Ok row' →
  same_shelf row row' ∧ commercial (row_state row) = CommercialOrderStatus.ACTIVE ∧
  balance (row_state row) ∈ PAYABLE_BALANCES ∧ order_settlement row = None ∧
  order_settlement row' = None ∧ balance (row_state row') = OrderBalanceStatus.ON_ACCOUNT ∧
  order_payments row' = order_payments row ∧
  (self_collection_recorded (row_state row') = true ∨ fulfillment_mode (row_state row) ∈ MODES_EXPECTING_RETURN) ∧
  ∃ c total, account_charge row' = Some c ∧ single_total (row_quoted row) = Some total ∧
    row_owed_vnd c = total + fee ∧ row_fee_vnd c = fee ∧ sumZ (order_payments row) < total + fee.
Proof.
  intros Hs H. unfold charge in H. apply authorize_Ok in H as (_ & _ & _ & H).
  apply raise_bind_Ok in H as [_ H]. apply bind_Ok in H as (charges & Hch & H).
  apply bind_Ok in H as (owed & Howed & H). apply bind_Ok in H as (out & Hout & H).
  apply (proj1 (lift_program_Ok _ _)) in Hch, Hout. destruct out as [a|]; [|done]. injection H as <-.
  apply evaluate_account_charge_iff in Hout
    as (t & st & limit & Ho & Hst & _ & Hact & Hpay & Hpaid & _ & _ & Htick & _ & _ & _ & _ & _ & ->).
  destruct (payable_in_shop row Hs Hpay) as (_ & Hset & _).
  destruct charges as [cs|]; [|simplify_eq/=]. apply charges_single in Hch as (Hfee & total & Htot & Hcs).
  apply bind_Ok in Howed as (t' & Ht' & [= <-]). apply (proj1 (lift_program_Ok _ _)) in Ht'.
  apply owed_total_Ok in Ht' as [_ ->]. injection Ho as <-. cbn.
  split; [split_and!; cbn; try done; by intros ->|]. split_and!; try done.
  - destruct (decide (fulfillment_mode (row_state row) ∈ MODES_EXPECTING_RETURN)) as [Hm|Hm]; [by right|left].
    rewrite Htick, bool_decide_false by done. apply orb_true_r.
  - eexists _, total. split; [done|]. cbn. split_and!; [done|lia|done|lia].
Qed.

Lemma shelved_money s now row fixed w :
  shelved s now → sound row → same_shelf (order s) row →
  commercial (row_state (order s)) ≠ CommercialOrderStatus.CANCELLED →
  let s' := MkShelfOrder row fixed w (order_contact_attempts s) (order_disposal s) in
  (∀ f, fixed = Some f →
    ∃ total, single_total (row_quoted (order s)) = Some total ∧ 0 < fixed_amount_vnd f <= total) →
  fee_agrees s' →
  (order_payments row = [] ∨
   ∃ total, single_total (row_quoted (order s)) = Some total ∧ sumZ (order_payments row) <= 2 * total) →
  (balance (row_state row) = OrderBalanceStatus.ON_ACCOUNT →
   self_collection_recorded (row_state row) = true ∨
   fulfillment_mode (row_state (order s)) ∈ MODES_EXPECTING_RETURN) →
  shelved s' now.
Proof.
  intros Hsh Hs (Hq & Hh & Hr & Hm & Hc & Hself) Hopen s' Hfix Hfee Hpaid Hacc.
  split; cbn; rewrite ?Hq, ?Hm, ?Hc; try done; try apply Hsh.
  - eapply timed_same; [done|done|done|apply Hsh].
  - intros d Hd. by destruct (disposal_closed _ _ _ Hsh Hd).
Qed.

Lemma fixed_none_payable s now : shelved s now → balance (row_state (order s)) ∈ PAYABLE_BALANCES →
  order_storage_fee_row s = None.
Proof.
  intros Hsh Hb. pose proof (sh_fee _ _ Hsh) as Hf. unfold fee_agrees in Hf.
  revert Hb Hf. unfold PAYABLE_BALANCES. destruct (balance _); try done; intros Hb; contradict Hb; decided.
Qed.

Lemma insert_fixed_Ok storage amount fixed :
  insert_fixed_storage_fee storage amount = Ok fixed → 0 < amount ∧ fixed_amount_vnd fixed = amount.
Proof.
  unfold insert_fixed_storage_fee. intros H. apply raise_bind_Ok in H as [H1 H].
  apply raise_bind_Ok in H as [_ [= <-]]. apply negb_false_iff, Z.ltb_lt in H1. done.
Qed.

(** The fee a locked order is measured against. *)
Lemma locked_fee_Ok policy s now t L :
  sane policy → shelved s now → now <= instant t → aware t = true →
  storage_fee_for_order policy s t = Ok L →
  published L = policy ∧ traced policy (locked_fee L) ∧ 0 <= amount_vnd (locked_fee L) ∧
  (∀ total, single_total (row_quoted (order s)) = Some total → amount_vnd (locked_fee L) <= total) ∧
  order_storage_fee policy (storage_facts s) t = Ok (locked_fee L).
Proof.
  intros Hp Hsh Hle Ha H. destruct (shelved_fee policy s now t Hp Hsh Hle Ha) as (r & Hr & Htr & Hn & Hb & _).
  unfold storage_fee_for_order in H. rewrite Hr in H. cbn in H. by injection H as <-.
Qed.

Lemma pay_shelved policy s now caller v cmd t s' :
  sane policy → shelved s now → now <= instant t → aware t = true →
  pay policy s caller v cmd t = Ok s' → shelved s' (instant t).
Proof.
  intros Hp Hsh Hle Ha H. unfold pay in H. apply bind_Ok in H as (u & _ & H).
  apply bind_Ok in H as (L & HL & H). apply (proj1 (lift_storage_Ok _ _)) in HL.
  apply bind_Ok in H as (row & Hrow & H). apply (proj1 (lift_order_Ok _ _)) in Hrow.
  destruct (locked_fee_Ok _ _ _ _ _ Hp Hsh Hle Ha HL) as (_ & _ & Hfee0 & Hfee & _).
  pose proof (timed_sound _ _ (sh_row _ _ Hsh)) as Hs.
  pose proof (record_payment_sound _ _ _ _ _ _ Hs Hrow) as Hs'.
  destruct (payment_shape _ _ _ _ _ _ Hs Hrow) as (Hsame & Hact & Hpay & Hst & Hch & total & Htot & Hout).
  pose proof (fixed_none_payable _ _ Hsh Hpay) as Hnone. specialize (Hfee _ Htot).
  apply (shelved_mono _ now); [done|]. rewrite Hst in H. cbn [bool_decide] in H.
  destruct Hsame as (Hq & Hsame). assert (same_shelf (order s) row) as Hsame' by (by split).
  destruct Hout as [(Hb & Hst' & Hsum)|(Hb & [st Hst'] & Hsum)]; rewrite Hst' in H; cbn in H.
  - injection H as <-. apply shelved_money; try done; [by rewrite Hact|rewrite Hnone; done| | |by rewrite Hb].
    + unfold fee_agrees. cbn. by rewrite Hb.
    + right. exists total. split; [done|lia].
  - destruct (Z.ltb_spec 0 (amount_vnd (locked_fee L))) as [Hpos|Hz].
    + apply bind_Ok in H as (fixed & Hfix & H). injection H as <-. apply insert_fixed_Ok in Hfix as [_ Hfix].
      apply shelved_money; try done; [by rewrite Hact| | |right; exists total; split; [done|lia]|by rewrite Hb].
      * intros f [= <-]. exists total. split; [done|lia].
      * unfold fee_agrees, fixed_vnd_of. cbn. rewrite Hb, Hq. exists total. split; [done|lia].
    + injection H as <-.
      apply shelved_money; try done; [by rewrite Hact|rewrite Hnone; done| |right; exists total; split; [done|lia]|by rewrite Hb].
      unfold fee_agrees, fixed_vnd_of. cbn. rewrite Hb, Hq, Hnone. exists total. split; [done|]. cbn. lia.
Qed.

Lemma settle_shelved policy s now caller amount tick t s' :
  sane policy → shelved s now → now <= instant t → aware t = true →
  settle policy s caller amount tick t = Ok s' → shelved s' (instant t).
Proof.
  intros Hp Hsh Hle Ha H. unfold settle in H. apply bind_Ok in H as (u & _ & H).
  apply bind_Ok in H as (L & HL & H). apply bind_Ok in H as (row & Hrow & [= <-]).
  apply (proj1 (lift_order_Ok _ _)) in Hrow. pose proof (timed_sound _ _ (sh_row _ _ Hsh)) as Hs.
  pose proof (record_settlement_sound _ _ _ _ _ _ Hs Hrow) as Hs'.
  destruct (settlement_shape _ _ _ _ _ _ Hs Hrow) as (Hsame & Hact & Hu & Hf & Hb & total & Htot & Hsum).
  assert (order_storage_fee_row s = None) as Hnone
    by (eapply fixed_none_payable; [exact Hsh|]; rewrite Hu; decided).
  apply (shelved_mono _ now); [done|]. destruct (sh_quote _ _ Hsh _ Htot).
  apply shelved_money; try done; [by rewrite Hact|by rewrite Hnone| |right; exists total; split; [done|lia]|by rewrite Hb].
  unfold fee_agrees, fixed_vnd_of. cbn. destruct Hsame as (Hq & _). rewrite Hb, Hq, Hnone.
  exists total. split; [done|]. cbn. lia.
Qed.

Lemma account_shelved policy s now caller v standing tick t s' :
  sane policy → shelved s now → now <= instant t → aware t = true →
  put_on_account policy s caller v standing tick t = Ok s' → shelved s' (instant t).
Proof.
  intros Hp Hsh Hle Ha H. unfold put_on_account in H. apply bind_Ok in H as (u & _ & H).
  apply bind_Ok in H as (L & HL & H). apply (proj1 (lift_storage_Ok _ _)) in HL.
  apply bind_Ok in H as (row & Hrow & H). apply (proj1 (lift_order_Ok _ _)) in Hrow.
  destruct (locked_fee_Ok _ _ _ _ _ Hp Hsh Hle Ha HL) as (_ & _ & Hfee0 & Hfee & _).
  pose proof (timed_sound _ _ (sh_row _ _ Hsh)) as Hs.
  pose proof (charge_sound _ _ _ _ _ _ _ Hs Hrow) as Hs'.
  destruct (charge_shape _ _ _ _ _ _ _ Hs Hrow)
    as (Hsame & Hact & Hpay & Hst & Hst' & Hb & Hpays & Hleft & c & total & Hc & Htot & Howed & Hf & Hlt).
  pose proof (fixed_none_payable _ _ Hsh Hpay) as Hnone. specialize (Hfee _ Htot).
  apply (shelved_mono _ now); [done|]. destruct Hsame as (Hq & Hsame).
  assert (same_shelf (order s) row) as Hsame' by (by split).
  destruct (Z.ltb_spec 0 (amount_vnd (locked_fee L))) as [Hpos|Hz].
  - apply bind_Ok in H as (tr & _ & H). apply bind_Ok in H as (p & _ & H). apply raise_bind_Ok in H as [_ [= <-]].
    apply shelved_money; try done; [by rewrite Hact| | |rewrite Hpays; apply Hsh].
    + intros f [= <-]. exists total. split; [done|]. cbn. lia.
    + unfold fee_agrees, fixed_vnd_of. cbn. rewrite Hb, Hq. by exists c, total.
  - injection H as <-.
    apply shelved_money; try done; [by rewrite Hact|by rewrite Hnone| |rewrite Hpays; apply Hsh].
    unfold fee_agrees, fixed_vnd_of. cbn. rewrite Hb, Hq, Hnone. exists c, total. cbn. split_and!; [done..|lia|lia].
Qed.

Lemma collection_shelved s now caller v row :
  shelved s now → record_collection (order s) caller v = Ok row → shelved (set_order s row) now.
Proof.
  intros Hsh H. pose proof (timed_sound _ _ (sh_row _ _ Hsh)) as Hs.
  pose proof (record_collection_sound _ _ _ _ Hs H) as Hs'. unfold record_collection in H.
  apply authorize_Ok in H as (_ & _ & _ & H). apply raise_bind_Ok in H as [_ H].
  apply bind_Ok in H as (ref & Href & H). apply raise_bind_Ok in H as [Hnone H].
  apply raise_bind_Ok in H as [Hb [= <-]]. apply (proj1 (lift_program_Ok _ _)) in Href.
  destruct ref; [done|]. apply evaluate_collection_iff in Href as (Hact & _).
  apply orb_false_iff in Hb as [_ Hb]. apply negb_false_iff, bool_decide_eq_true in Hb.
  apply shelved_money; try done; cbn; [by rewrite Hact|apply Hsh| |apply Hsh|by rewrite Hb].
  pose proof (sh_fee _ _ Hsh) as Hf. unfold fee_agrees in *. cbn. by rewrite Hb in *.
Qed.

Lemma leg_shelved s now caller k o row :
  shelved s now → record_leg (order s) caller k o = Ok row → shelved (set_order s row) now.
Proof.
  intros Hsh H. pose proof (timed_sound _ _ (sh_row _ _ Hsh)) as Hs.
  pose proof (record_leg_sound _ _ _ _ _ Hs H) as Hs'. unfold record_leg in H.
  apply authorize_Ok in H as (_ & _ & _ & H). apply raise_bind_Ok in H as [Hact H].
  apply negb_false_iff, bool_decide_eq_true in Hact.
  do 3 apply raise_bind_Ok in H as [_ H]. apply bind_Ok in H as (u & _ & H).
  apply raise_bind_Ok in H as [_ [= <-]].
  apply shelved_money; try done; cbn; [by rewrite Hact|apply Hsh| |apply Hsh|apply Hsh].
  exact (sh_fee _ _ Hsh).
Qed.

Lemma allocation_shelved s now ch amount row :
  shelved s now → account_charge (order s) = Some ch → 1 <= amount → _allocate (order s) ch amount = Ok row →
  shelved (set_order s row) now.
Proof.
  intros Hsh Hch Ham H. pose proof (timed_sound _ _ (sh_row _ _ Hsh)) as Hs.
  pose proof (_allocate_sound _ _ _ _ Hs Hch Ham H) as Hs'. unfold _allocate in H.
  apply raise_bind_Ok in H as [Hb H]. apply raise_bind_Ok in H as [Hle H].
  apply negb_false_iff, bool_decide_eq_true in Hb. apply Z.ltb_ge in Hle.
  pose proof (sh_fee _ _ Hsh) as Hf. unfold fee_agrees in Hf. rewrite Hb in Hf.
  destruct Hf as (c & total & Hc & Htot & Howed & Hfee). rewrite Hch in Hc. injection Hc as <-.
  assert (commercial (row_state (order s)) ≠ CommercialOrderStatus.CANCELLED) as Hopen.
  { intros Hc. destruct (sh_cancelled _ _ Hsh Hc) as [Hin|[d Hd]]; [rewrite Hb in Hin; contradict Hin; decided|].
    destruct (disposal_closed _ _ _ Hsh Hd) as [_ Hin]. rewrite Hb in Hin. contradict Hin. decided. }
  assert (fixed_vnd_of s <= total) as Hfix.
  { unfold fixed_vnd_of. destruct (order_storage_fee_row s) as [f|] eqn:E; cbn.
    - destruct (sh_fixed _ _ Hsh _ E) as (t' & Ht' & ?). rewrite Htot in Ht'. injection Ht' as <-. lia.
    - by destruct (sh_quote _ _ Hsh _ Htot). }
  assert (sumZ (order_payments (order s) ++ [amount]) = sumZ (order_payments (order s)) + amount) as Hsum
    by (rewrite sumZ_app; unfold sumZ; cbn; lia).
  destruct (Z.eqb_spec (sumZ (order_payments (order s)) + amount) (row_owed_vnd ch)) as [Heq|Hne].
  - destruct (evaluate_settlement _ _ _ _ _) as [shape t|]; [|done]. cbn in H. injection H as <-.
    apply shelved_money; try done; cbn; [apply Hsh| |right; exists total; split; [done|lia]].
    unfold fee_agrees, fixed_vnd_of in *. cbn. exists total. split; [done|lia].
  - injection H as <-.
    apply shelved_money; try done; cbn; [apply Hsh| |right; exists total; split; [done|lia]|apply Hsh].
    unfold fee_agrees, fixed_vnd_of in *. cbn. rewrite Hb. by exists ch, total.
Qed.

Lemma contact_shelved s now caller o note t s' :
  shelved s now → now <= instant t → aware t = true →
  record_contact_attempt s caller o note t = Ok s' → shelved s' (instant t).
Proof.
  intros Hsh Hle Ha H. unfold record_contact_attempt in H. apply raise_bind_Ok in H as [_ H].
  apply bind_Ok in H as (n & _ & H). apply bind_Ok in H as (u & _ & H). apply raise_bind_Ok in H as [_ H].
  apply bind_Ok in H as (u' & _ & [= <-]). apply (shelved_mono s) in Hle as [Hrow]; [|done].
  split; cbn; try done. apply Forall_app. split; [done|]. by constructor.
Qed.

(** * The waiver *)

(** A fee accrues only on finished laundry of an active order the customer comes for. *)
Lemma charge_positive policy s t :
  0 < policy_charge policy (storage_facts s) t →
  ∃ p total, policy = Some p ∧ single_total (row_quoted (order s)) = Some total ∧
    storage_fee_waiver s = None ∧
    commercial (row_state (order s)) = CommercialOrderStatus.ACTIVE ∧
    self_collection_recorded (row_state (order s)) = false ∧
    fulfillment_mode (row_state (order s)) ∉ MODES_EXPECTING_RETURN.
Proof.
  unfold policy_charge. cbn. destruct policy as [p|]; [|lia].
  destruct (production_ready_at _); [|lia]. destruct (single_total _) as [total|]; [|lia].
  destruct (storage_fee_waiver s); [cbn; lia|]. cbn.
  destruct (_ || _) eqn:Hc; [|lia]. intros _. exists p, total. split_and!; try done.
  all: unfold storage_clock in Hc; destruct (awaiting_pickup _ _ _ _) eqn:Haw;
    [unfold awaiting_pickup in Haw; by guards|].
  all: destruct ((((_ && _) && _) && _) && _) eqn:Hpa; [by guards|by rewrite bool_decide_false in Hc].
Qed.

Lemma positive_balance policy s now t total :
  sane policy → shelved s now → now <= instant t → aware t = true → unpaid_yet s →
  single_total (row_quoted (order s)) = Some total →
  paid_over (storage_facts s) < policy_charge policy (storage_facts s) t →
  total <= sumZ (order_payments (order s)) →
  balance (row_state (order s)) = OrderBalanceStatus.PARTIALLY_PAID ∧ 0 < total.
Proof.
  intros Hp Hsh Hle Ha [_ Hst] Htot Hlt Hpaid. pose proof (shelved_facts s now t Hsh Hle Ha) as Hf.
  pose proof (policy_charge_le policy _ t total Hp Hf Htot) as Hb.
  assert (0 <= paid_over (storage_facts s)) as H0 by (unfold paid_over; cbn; rewrite Htot; lia).
  destruct (charge_positive policy s t) as (p & total' & _ & _ & _ & Hact & Hself & Hmode); [lia|].
  assert (0 < total) as Hpos by lia.
  split; [|done]. pose proof (timed_sound _ _ (sh_row _ _ Hsh)) as Hs. pose proof (sound_ledger _ Hs) as Hl.
  unfold ledger in Hl. destruct (balance (row_state (order s))) eqn:Hbal; try done.
  - destruct Hl as [Hnil _]. rewrite Hnil in Hpaid. unfold sumZ in Hpaid. cbn in Hpaid. lia.
  - destruct Hl as (_ & _ & st & Hst' & _). congruence.
  - destruct (sh_account _ _ Hsh Hbal) as [?|?]; congruence.
  - pose proof (wf_refunded _ (sound_wf _ Hs) Hbal). congruence.
Qed.

(** The row after a waiver of what is not yet paid; [kept] stays owed. *)
Definition waived_order (s : ShelfOrder) (total kept : Z) (w : WaiverRow) : ShelfOrder :=
  if total <=? sumZ (order_payments (order s)) then
    MkShelfOrder
      (advance (order s) (Some {| settled_shape := SettlementShape.EXACT_PAYMENT_PREPAID_SELF_COLLECTION;
                                  settled_expected_vnd := total + kept; settled_paid_vnd := total + kept |}))
      (if 0 <? kept then Some (MkFixedFee kept None FeeBasis.ALREADY_PAID) else None)
      (Some w) (order_contact_attempts s) (order_disposal s)
  else MkShelfOrder (advance (order s) None) None (Some w) (order_contact_attempts s) (order_disposal s).

(** The caller may waive, with a reason that is a note. *)
Definition may_waive (s : ShelfOrder) (caller : Caller) (v : Z) (reason : text) (cleaned : text) : Prop :=
  has_role caller = true ∧ mfa_verified caller = true ∧ store_member caller = true ∧ 1 <= v ∧
  row_version (order s) = v ∧ clean_note (Some reason) true = Ok (Some cleaned).

Lemma note_refusal_Ok r n : note_refusal r = Ok n ↔ r = Ok n.
Proof. destruct r as [|[]]; cbn; unfold refused_as; naive_solver. Qed.


Definition kept_of (s : ShelfOrder) : Z := paid_over (storage_facts s).
Definition due_of (policy : option StoragePolicy) (s : ShelfOrder) (t : datetime) : Z :=
  policy_charge policy (storage_facts s) t.
#[local] Arguments kept_of : simpl never.
#[local] Arguments due_of : simpl never.

(** A waiver with nothing to take off is refused by name. *)
Lemma waive_refused policy s now cleaned t :
  sane policy → shelved s now → now <= instant t → aware t = true →
  ¬ (unpaid_yet s ∧ kept_of s < due_of policy s t) →
  ∃ code, waive_once policy s cleaned t = refused_as code.
Proof.
  intros Hp Hsh Hle Ha Hno. unfold waive_once, storage_fee_for_order.
  pose proof (shelved_facts s now t Hsh Hle Ha) as Hf.
  destruct (shelved_fee policy s now t Hp Hsh Hle Ha) as (r & Hr & _ & _ & _ & _ & _ & Hun).
  rewrite Hr. cbn. destruct (bool_decide (is_Some (storage_fee_waiver s))); cbn; [by eexists|].
  destruct (status r is? StorageFeeStatus.POLICY_UNPUBLISHED); cbn; [by eexists|].
  assert (waiver_effect r (single_total (row_quoted (order s))) (sumZ (order_payments (order s))) = Ok None) as ->;
    [|cbn; by eexists].
  destruct (single_total (row_quoted (order s))) as [total|] eqn:Htot; [|done].
  destruct (order_storage_fee_row s) as [f|] eqn:Hfix.
  { unfold order_storage_fee, storage_facts in Hr. cbn in Hr. rewrite Hfix in Hr. by injection Hr as <-. }
  destruct (order_settlement (order s)) as [st|] eqn:Hst.
  { unfold order_storage_fee, storage_facts in Hr. cbn in Hr. rewrite Hfix, Hst in Hr. by injection Hr as <-. }
  destruct (waiver_effect_spec policy (storage_facts s) t total r Hp Hf) as (e & He & Hcase);
    [by cbn; rewrite Hfix|cbn; by rewrite Hst|done|done|].
  destruct e as [e|]; [|done]. destruct Hcase as [Hlt _]. exfalso. by apply Hno.
Qed.

(** A waiver of something unpaid goes through. *)
Lemma waive_granted policy s now cleaned t :
  sane policy → shelved s now → now <= instant t → aware t = true →
  unpaid_yet s → kept_of s < due_of policy s t →
  ∃ total waited, single_total (row_quoted (order s)) = Some total ∧ 0 < waited ∧
    waive_once policy s cleaned t =
      Ok (waived_order s total (kept_of s) (MkWaiverRow (due_of policy s t - kept_of s) waited cleaned)).
Proof.
  intros Hp Hsh Hle Ha Hun Hlt. pose proof (shelved_facts s now t Hsh Hle Ha) as Hf.
  assert (0 <= kept_of s) as H0 by (unfold kept_of, paid_over; cbn; destruct (single_total _); lia).
  destruct (charge_positive policy s t) as (p & total & -> & Htot & Hw & Hact & Hself & Hmode);
    [unfold due_of in Hlt; lia|].
  destruct (shelved_fee (Some p) s now t Hp Hsh Hle Ha) as (r & Hr & [Htr Hacc] & _ & _ & _ & _ & Hfee).
  specialize (Hfee Hun). cbv zeta in Hfee. destruct Hfee as (Ham & Hal & Hst).
  fold (kept_of s) in Ham, Hal, Hst. fold (due_of (Some p) s t) in Ham, Hst.
  assert (status r ∈ [StorageFeeStatus.ACCRUING; StorageFeeStatus.PAUSED]) as Hin by (apply Hst; lia).
  destruct (Hacc Hin) as (tr & Htrace & Htam & Hnz).
  destruct (trace_days (Some p) tr Hp (Htr tr Htrace)) as [Hdays Hdays']; [left; lia|].
  pose proof Hun as [Hfix Hset].
  destruct (waiver_effect_spec (Some p) (storage_facts s) t total r Hp Hf) as (e & He & Hcase);
    [by cbn; rewrite Hfix|cbn; by rewrite Hset|done|done|].
  fold (kept_of s) in Hcase. fold (due_of (Some p) s t) in Hcase.
  destruct e as [e|]; [|lia]. destruct Hcase as (_ & Hq & Hk & Hwv & Ho & Hrem).
  change (paid_vnd (storage_facts s)) with (sumZ (order_payments (order s))) in *.
  exists total, (fee_days_waiting tr). split; [done|]. split; [lia|].
  unfold waive_once, storage_fee_for_order. rewrite Hr. cbn. rewrite Hw. cbn.
  assert (status r ≠ StorageFeeStatus.POLICY_UNPUBLISHED) as Hnp by (intros E; rewrite E in Hin; contradict Hin; decided).
  rewrite (bool_decide_false _ Hnp). cbn. rewrite Htot, He. cbn. rewrite Htrace. cbn. rewrite Hwv.
  assert ((0 <? due_of (Some p) s t - kept_of s) && (0 <? fee_days_waiting tr) = true) as Hchk
    by (apply andb_true_iff; rewrite !Z.ltb_lt; lia).
  unfold waived_order. unfold settles. rewrite Hrem, Ho, Hk.
  assert (kept_of s = Z.max 0 (sumZ (order_payments (order s)) - total)) as Hkd
    by (unfold kept_of, paid_over; cbn; by rewrite Htot).
  destruct (Z.leb_spec total (sumZ (order_payments (order s)))) as [Hpaid|Hpaid].
  - destruct (positive_balance (Some p) s now t total Hp Hsh Hle Ha Hun Htot Hlt Hpaid) as [Hbal Hpos].
    replace (total + kept_of s - sumZ (order_payments (order s)) =? 0) with true by lia.
    unfold _waiver_settlement.
    assert (evaluate_settlement (row_quoted (order s)) (effect_quoted_total_vnd e) false
      (fulfillment_mode (row_state (order s))) false =
      SettlementAccepted SettlementShape.EXACT_PAYMENT_PREPAID_SELF_COLLECTION total) as ->.
    { apply evaluate_settlement_iff. rewrite Hq. apply single_total_spec in Htot as Hmm. destruct Hmm.
      destruct (sh_quote _ _ Hsh _ Htot). unfold shape_of. rewrite (bool_decide_false _ Hmode). split_and!; try done; lia. }
    cbn. rewrite Hchk, Hset. cbn. rewrite Hfix.
    destruct (Z.ltb_spec 0 (kept_of s)) as [Hk0|Hk0].
    + unfold insert_fixed_storage_fee. cbn. rewrite Htrace.
      replace (fee_amount_vnd tr =? kept_of s) with false by lia. rewrite andb_false_r. cbn.
      replace (0 <? kept_of s) with true by lia. cbn. by rewrite (bool_decide_true _ Hbal).
    + cbn. by rewrite (bool_decide_true _ Hbal).
  - replace (total + kept_of s - sumZ (order_payments (order s)) =? 0) with false by lia. cbn.
    rewrite Hchk, Hset, Hfix. done.
Qed.

Lemma waived_shelved policy s now t total waited cleaned :
  sane policy → shelved s now → now <= instant t → aware t = true →
  unpaid_yet s → kept_of s < due_of policy s t → single_total (row_quoted (order s)) = Some total →
  shelved (waived_order s total (kept_of s) (MkWaiverRow (due_of policy s t - kept_of s) waited cleaned)) now.
Proof.
  intros Hp Hsh Hle Ha Hun Hlt Htot. pose proof (timed_sound _ _ (sh_row _ _ Hsh)) as Hs.
  assert (kept_of s = Z.max 0 (sumZ (order_payments (order s)) - total)) as Hk
    by (unfold kept_of, paid_over; cbn; by rewrite Htot).
  destruct (charge_positive policy s t) as (p & total' & _ & Htot' & _ & Hact & _ & _); [unfold due_of in Hlt; lia|].
  rewrite Htot in Htot'. injection Htot' as <-. destruct Hun as [Hfix Hset]. destruct (sh_quote _ _ Hsh _ Htot).
  assert (sumZ (order_payments (order s)) <= 2 * total) as Hpaid2.
  { destruct (sh_paid _ _ Hsh) as [->|(t' & Ht' & ?)]; [unfold sumZ; cbn; lia|].
    rewrite Htot in Ht'. by injection Ht' as <-. }
  unfold waived_order. destruct (Z.leb_spec total (sumZ (order_payments (order s)))) as [Hpaid|Hpaid].
  - destruct (positive_balance policy s now t total Hp Hsh Hle Ha (conj Hfix Hset) Htot Hlt Hpaid) as [Hbal Hpos].
    pose proof (sound_ledger _ Hs) as Hl. unfold ledger in Hl. rewrite Hbal in Hl. destruct Hl as (_ & _ & Hch & Href).
    destruct (payable_in_shop _ Hs) as (Hin & _); [rewrite Hbal; decided|].
    assert (kept_of s = sumZ (order_payments (order s)) - total) as Hkept by lia.
    apply shelved_money; try done; cbn.
    + apply update_money_sound; try done; [by rewrite Hact|apply Hs| |intros _; decided].
      unfold ledger. cbn. rewrite Href. split_and!; [|done|].
      * exists total, (kept_of s). apply single_total_spec in Htot as [? ?]. cbn. split_and!; try done; lia.
      * eexists. split; [done|]. cbn. lia.
    + by rewrite Hact.
    + destruct (Z.ltb_spec 0 (kept_of s)) as [H0k|H0k]; [|done]. intros f [= <-]. exists total. cbn. split; [done|lia].
    + unfold fee_agrees, fixed_vnd_of. cbn. exists total. split; [done|].
      destruct (Z.ltb_spec 0 (kept_of s)); cbn; lia.
    + right. by exists total.
  - assert (balance (row_state (order s)) ≠ OrderBalanceStatus.REFUNDED) as Hnr.
    { intros Hr. pose proof (wf_refunded _ (sound_wf _ Hs) Hr). congruence. }
    apply shelved_money; try done; cbn; [|by rewrite Hact| |by right; exists total|apply Hsh].
    + apply update_money_sound; try done; [by rewrite Hact|apply Hs| |].
      2:{ intros Hg. apply (sound_goods _ Hs) in Hg. clear -Hg Hnr. set_solver. }
      apply (ledger_ext (order s)); [done..|apply Hs].
    + pose proof (sh_fee _ _ Hsh) as Hf. unfold fee_agrees, fixed_vnd_of in *. cbn. by rewrite Hfix in Hf.
Qed.

(** * Disposal *)

(** One closing transition: a commercial move that keeps the balance. *)
Definition closes_to (row row' : OrderRow) (target : CommercialOrderStatus.t) : Prop :=
  row_state row' = set_commercial (row_state row) target (balance (row_state row)) ∧
  row_version row' = row_version row + 1 ∧ row_quoted row' = row_quoted row ∧
  order_payments row' = order_payments row ∧ order_refund row' = order_refund row ∧
  order_settlement row' = order_settlement row ∧ account_charge row' = account_charge row ∧
  storage_holds row' = storage_holds row ∧ production_ready_at row' = production_ready_at row.

Lemma close_step row target res t :
  let resolved := bool_decide (is_Some res) in
  transition_commercial (row_state row) target resolved resolved res resolved =
    Ok (set_commercial (row_state row) target (balance (row_state row))) →
  ∃ row', _apply_locked_transition row (disposal_command target res) t = Ok row' ∧ closes_to row row' target.
Proof.
  intros resolved H. unfold _apply_locked_transition, decide_transition. cbn.
  fold resolved. rewrite H. cbn.
  assert ((balance (row_state row) in? [OrderBalanceStatus.PAID; OrderBalanceStatus.PARTIALLY_PAID]) &&
    (balance (row_state row) is? OrderBalanceStatus.REFUNDED) = false) as Hr
    by (by destruct (balance (row_state row))).
  rewrite Hr. cbn. eexists. split; [done|]. split_and!; try done. cbn.
  by destruct (production_ready_at row).
Qed.

Lemma close_order_Ok row t :
  commercial (row_state row) = CommercialOrderStatus.ACTIVE →
  production (row_state row) = ProductionStatus.READY_AT_STORE →
  self_collection_recorded (row_state row) = false →
  intake (row_state row) = IntakeStatus.ACCEPTED →
  balance (row_state row) ∈ [OrderBalanceStatus.UNPAID; OrderBalanceStatus.PARTIALLY_PAID;
                             OrderBalanceStatus.PAID] →
  ∃ mid row', close_order row (row_version row) 1 t disposal_targets = Ok row' ∧
    _apply_locked_transition row (disposal_command CommercialOrderStatus.CANCELLATION_REVIEW None) (dt_add t 1) = Ok mid ∧
    _apply_locked_transition mid (disposal_command CommercialOrderStatus.CANCELLED
      (Some CustodyResolution.UNCLAIMED_DISPOSED)) (dt_add t 2) = Ok row' ∧
    closes_to row mid CommercialOrderStatus.CANCELLATION_REVIEW ∧
    closes_to mid row' CommercialOrderStatus.CANCELLED.
Proof.
  intros Hc Hp Hself Hi Hb.
  destruct (close_step row CommercialOrderStatus.CANCELLATION_REVIEW None (dt_add t 1)) as (mid & Hmid & Hcl).
  { unfold transition_commercial. cbn. by rewrite Hc. }
  pose proof Hcl as (Hst & Hv & _).
  destruct (close_step mid CommercialOrderStatus.CANCELLED (Some CustodyResolution.UNCLAIMED_DISPOSED) (dt_add t 2))
    as (row' & Hrow & Hcl').
  { rewrite Hst. unfold transition_commercial. cbn. unfold _reject_resolution_contradicting_the_record. cbn.
    rewrite Hp, Hself, Hi. cbn. unfold _balance_after_cancellation.
    revert Hb. destruct (balance (row_state row)); cbn; try done; intros Hb; contradict Hb; decided. }
  exists mid, row'. split_and!; try done. unfold disposal_targets, close_order.
  rewrite Z.eqb_refl. cbn [negb raise_if mbind result_bind]. rewrite Hmid. cbn [lift_order mbind result_bind].
  rewrite Z.eqb_refl. cbn [negb raise_if mbind result_bind]. change (1 + 1) with 2. by rewrite Hrow.
Qed.

(** What the owner must find before disposing of an order's laundry. *)
Definition disposable (policy : option StoragePolicy) (s : ShelfOrder) (t : datetime) : Prop :=
  let st := row_state (order s) in
  ∃ p ready total, policy = Some p ∧ production_ready_at (order s) = Some ready ∧
    single_total (row_quoted (order s)) = Some total ∧
    may_dispose p (awaiting_pickup (commercial st) (production st) (fulfillment_mode st) (self_collection_recorded st))
      ready t (_attempt_times s) (STORAGE_HOLDS_SQL (order s)).

Lemma attempt_times_aware s now : shelved s now → Forall (λ m, aware m = true) (_attempt_times s).
Proof.
  intros Hsh. unfold _attempt_times. apply Forall_take. rewrite stable_sort_perm. apply Hsh.
Qed.

Lemma clock_running st :
  (storage_clock (commercial st) (production st) (production_resume_status st) (fulfillment_mode st)
    (self_collection_recorded st) is? StorageClock.RUNNING) =
  awaiting_pickup (commercial st) (production st) (fulfillment_mode st) (self_collection_recorded st).
Proof. unfold storage_clock. destruct (awaiting_pickup _ _ _ _); [done|]. by destruct (_ && _). Qed.

Lemma shelved_verdict policy s now t :
  sane policy → shelved s now → now <= instant t → aware t = true →
  let st := row_state (order s) in
  let awaiting := awaiting_pickup (commercial st) (production st) (fulfillment_mode st) (self_collection_recorded st) in
  ∃ v, disposal_verdict policy awaiting (production_ready_at (order s)) t (_attempt_times s)
      (STORAGE_HOLDS_SQL (order s)) (clock (storage_facts s) is? StorageClock.PAUSED) = Ok v ∧
    (allowed v = true ↔ ∃ p r, policy = Some p ∧ production_ready_at (order s) = Some r ∧
       may_dispose p awaiting r t (_attempt_times s) (STORAGE_HOLDS_SQL (order s))) ∧
    (∀ r, production_ready_at (order s) = Some r → awaiting = true →
      verdict_days_waiting v = Some (shelf_days r t (STORAGE_HOLDS_SQL (order s))) ∧
      attempts_counted v = Z.of_nat (length (attempts_since r (_attempt_times s))) ∧
      attempt_days v = Z.of_nat (size (list_to_set
        ((λ m, sql_shop_day (instant m)) <$> attempts_since r (_attempt_times s)) : gset Z)) ∧
      attempt_days v <= attempts_counted v).
Proof.
  intros Hp Hsh Hle Ha st awaiting. pose proof (shelved_facts s now t Hsh Hle Ha) as Hf.
  destruct (facts_chained _ _ Hf) as [a Hc].
  apply (verdict_spec policy awaiting _ t _ _ _ a); try done.
  - apply Hf.
  - by eapply attempt_times_aware.
  - apply Hf.
  - intros Haw r Hr. right. apply (open_since_spec (storage_facts s) r Hr), (facts_running _ _ Hf).
    apply (bool_decide_eq_true (clock (storage_facts s) = StorageClock.RUNNING)). cbn. by rewrite clock_running.
Qed.

(** What an order on the shelf owes covers what it has been paid. *)
Lemma owed_covers_paid policy s now t r total :
  sane policy → shelved s now → now <= instant t → aware t = true →
  order_storage_fee policy (storage_facts s) t = Ok r → single_total (row_quoted (order s)) = Some total →
  balance (row_state (order s)) ∈ [OrderBalanceStatus.UNPAID; OrderBalanceStatus.PARTIALLY_PAID; OrderBalanceStatus.PAID] →
  sumZ (order_payments (order s)) <= total + amount_vnd r ∧
  (balance (row_state (order s)) = OrderBalanceStatus.PAID → sumZ (order_payments (order s)) = total + amount_vnd r).
Proof.
  intros Hp Hsh Hle Ha Hr Htot Hb. pose proof (timed_sound _ _ (sh_row _ _ Hsh)) as Hs.
  pose proof (sound_ledger _ Hs) as Hl. unfold ledger in Hl. pose proof (sh_fee _ _ Hsh) as Hf. unfold fee_agrees in Hf.
  destruct (shelved_fee policy s now t Hp Hsh Hle Ha) as (r' & Hr' & _ & Hnn & _ & Hfixed & Hset & Hun).
  rewrite Hr in Hr'. injection Hr' as <-.
  destruct (balance (row_state (order s))) eqn:Hbal; try done; try (contradict Hb; decided).
  - split; [|done]. destruct Hl as (-> & _). unfold sumZ at 1. cbn. destruct (sh_quote _ _ Hsh _ Htot). lia.
  - split; [|done]. destruct Hl as (_ & Hst & _). destruct (Hun (conj Hf Hst)) as (Ham & _).
    cbv zeta in Ham. unfold paid_over in Ham. cbn in Ham. rewrite Htot in Ham. lia.
  - destruct Hf as (total' & Htot' & Hsum). rewrite Htot in Htot'. injection Htot' as <-.
    destruct Hl as (_ & _ & st & Hst & _). unfold fixed_vnd_of in Hsum.
    assert (amount_vnd r = default 0 (fixed_amount_vnd <$> order_storage_fee_row s)) as ->; [|lia].
    destruct (order_storage_fee_row s) as [f|] eqn:E; cbn; [by apply Hfixed|]. apply Hset; [done|by eexists].
Qed.

Lemma waiting_order s now :
  shelved s now →
  awaiting_pickup (commercial (row_state (order s))) (production (row_state (order s)))
    (fulfillment_mode (row_state (order s))) (self_collection_recorded (row_state (order s))) = true →
  commercial (row_state (order s)) = CommercialOrderStatus.ACTIVE ∧
  production (row_state (order s)) = ProductionStatus.READY_AT_STORE ∧
  self_collection_recorded (row_state (order s)) = false ∧
  intake (row_state (order s)) = IntakeStatus.ACCEPTED ∧ order_disposal s = None ∧
  order_refund (order s) = None ∧
  balance (row_state (order s)) ∈ [OrderBalanceStatus.UNPAID; OrderBalanceStatus.PARTIALLY_PAID;
                                   OrderBalanceStatus.PAID].
Proof.
  intros Hsh Haw. unfold awaiting_pickup in Haw. guards. rename select (commercial _ = _) into Hc.
  pose proof (timed_sound _ _ (sh_row _ _ Hsh)) as Hs.
  pose proof (sound_ledger _ Hs) as Hl. unfold ledger in Hl.
  assert (order_disposal s = None) as Hd.
  { destruct (order_disposal s) as [d|] eqn:E; [|done]. destruct (disposal_closed _ _ _ Hsh E). congruence. }
  split_and!; try done.
  - apply (wf_running _ (sound_wf _ Hs)). rewrite Hc. decided.
  - destruct (balance (row_state (order s))) eqn:Hbal; try (by destruct Hl as (_ & _ & _ & ?)); try done;
      try (by destruct Hl as (_ & ? & _)).
    pose proof (wf_refunded _ (sound_wf _ Hs) Hbal). congruence.
  - destruct (balance (row_state (order s))) eqn:Hbal; try decided; try done.
    + destruct (sh_account _ _ Hsh Hbal); [congruence|done].
    + pose proof (wf_refunded _ (sound_wf _ Hs) Hbal). congruence.
Qed.

(** The figures a disposal writes. *)
Definition disposal_of (s : ShelfOrder) (t ready : datetime) (total fee : Z) : DisposalRow :=
  let counted := attempts_since ready (_attempt_times s) in
  MkDisposalRow (shelf_days ready t (STORAGE_HOLDS_SQL (order s))) (Z.of_nat (length counted))
    (Z.of_nat (size (list_to_set ((λ m, sql_shop_day (instant m)) <$> counted) : gset Z)))
    (total + fee) fee (sumZ (order_payments (order s))) (total + fee - sumZ (order_payments (order s))).

Lemma dispose_granted policy s now t :
  sane policy → shelved s now → now <= instant t → aware t = true → disposable policy s t →
  ∃ ready total r mid row', production_ready_at (order s) = Some ready ∧
    single_total (row_quoted (order s)) = Some total ∧
    order_storage_fee policy (storage_facts s) t = Ok r ∧
    (balance (row_state (order s)) = OrderBalanceStatus.PAID →
     sumZ (order_payments (order s)) = total + amount_vnd r) ∧
    let d := disposal_of s t ready total (amount_vnd r) in
    dispose_once policy s t = Ok (MkShelfOrder row' (order_storage_fee_row s) (storage_fee_waiver s)
      (order_contact_attempts s) (Some d)) ∧
    _apply_locked_transition (order s) (disposal_command CommercialOrderStatus.CANCELLATION_REVIEW None) (dt_add t 1) = Ok mid ∧
    _apply_locked_transition mid (disposal_command CommercialOrderStatus.CANCELLED
      (Some CustodyResolution.UNCLAIMED_DISPOSED)) (dt_add t 2) = Ok row' ∧
    closes_to (order s) mid CommercialOrderStatus.CANCELLATION_REVIEW ∧
    closes_to mid row' CommercialOrderStatus.CANCELLED ∧ disposal_checks d = true ∧ disposal_agrees row' d = true.
Proof.
  intros Hp Hsh Hle Ha (p & ready & total & -> & Hready & Htot & Hmay).
  destruct Hmay as (Haw & Hd & Hn & Hdd). pose proof (waiting_order s now Hsh Haw) as (Hc & Hpr & Hself & Hi & Hnone & Href & Hb).
  destruct (shelved_fee (Some p) s now t Hp Hsh Hle Ha) as (r & Hr & _ & Hpos & _).
  destruct (owed_covers_paid (Some p) s now t r total Hp Hsh Hle Ha Hr Htot Hb) as [Hcover Hpaid].
  destruct (shelved_verdict (Some p) s now t Hp Hsh Hle Ha) as (v & Hv & Hal & Hfig).
  destruct (Hfig ready Hready Haw) as (Hw & Hat & Had & Hle2).
  destruct (close_order_Ok (order s) t Hc Hpr Hself Hi Hb) as (mid & row' & Hclose & Hm & Hrow & Hc1 & Hc2).
  exists ready, total, r, mid, row'. split_and!; try done. cbv zeta.
  assert (0 <= sumZ (order_payments (order s))) as Hsum.
  { apply sumZ_nonneg. eapply Forall_impl; [apply (sound_payments _ (timed_sound _ _ (sh_row _ _ Hsh)))|cbn; lia]. }
  destruct (sh_quote _ _ Hsh _ Htot). destruct (Hp p eq_refl) as (Hfree & _ & _ & Hfrom & Hmin).
  set (d := disposal_of s t ready total (amount_vnd r)).
  assert (disposal_checks d = true) as Hchk.
  { unfold disposal_checks, d, disposal_of. cbn -[shelf_days _attempt_times attempts_since size].
    rewrite !andb_true_iff, !Z.ltb_lt, !Z.leb_le, Z.eqb_eq. rewrite Had, Hat in Hle2. split_and!; lia. }
  assert (disposal_agrees row' d = true) as Hagr.
  { destruct Hc1 as (Hs1 & _ & _ & Hp1 & Hr1 & _), Hc2 as (Hs2 & _ & _ & Hp2 & Hr2 & _).
    unfold disposal_agrees. rewrite Hs2, Hp2, Hp1, Hr2, Hr1, Href. cbn. by rewrite Z.eqb_refl. }
  split_and!; try done. unfold dispose_once, storage_fee_for_order. rewrite Hr. cbn [mbind result_bind lift_storage].
  cbn [published locked_awaiting locked_ready_at locked_holds locked_paused locked_fee].
  change (ready_at (storage_facts s)) with (production_ready_at (order s)).
  change (holds (storage_facts s)) with (STORAGE_HOLDS_SQL (order s)).
  replace (clock (storage_facts s) is? StorageClock.RUNNING) with
    (awaiting_pickup (commercial (row_state (order s))) (production (row_state (order s)))
      (fulfillment_mode (row_state (order s))) (self_collection_recorded (row_state (order s))))
    by (symmetry; apply clock_running).
  rewrite Hv. cbn [lift_storage mbind result_bind].
  assert (allowed v = true) as -> by (apply Hal; exists p, ready; by split_and!).
  cbn [mbind result_bind require_some]. rewrite Hw. cbn [require_some mbind result_bind]. rewrite Htot.
  unfold disposal_money.
  replace ((0 <=? total + amount_vnd r) && (0 <=? sumZ (order_payments (order s)))) with true by lia.
  replace (total + amount_vnd r <? sumZ (order_payments (order s))) with false by lia.
  cbn [negb raise_if mbind result_bind lift_storage disposal_owed_vnd disposal_kept_vnd written_off_vnd].
  rewrite Hat, Had. change (MkDisposalRow _ _ _ _ _ _ _) with d. rewrite Hchk, Hnone.
  cbn [negb orb raise_if mbind result_bind]. rewrite bool_decide_false by (by intros [? ?]).
  cbn [negb orb raise_if mbind result_bind]. rewrite Hclose. cbn [mbind result_bind]. by rewrite Hagr.
Qed.

Lemma dispose_refused policy s now t :
  sane policy → shelved s now → now <= instant t → aware t = true → ¬ disposable policy s t →
  ∃ codes, dispose_once policy s t = Err (UnclaimedRefused codes).
Proof.
  intros Hp Hsh Hle Ha Hno. unfold dispose_once, storage_fee_for_order.
  destruct (shelved_fee policy s now t Hp Hsh Hle Ha) as (r & Hr & _).
  destruct (shelved_verdict policy s now t Hp Hsh Hle Ha) as (v & Hv & Hal & Hfig). rewrite Hr.
  cbn [mbind result_bind lift_storage published locked_awaiting locked_ready_at locked_holds locked_paused locked_fee].
  change (ready_at (storage_facts s)) with (production_ready_at (order s)).
  change (holds (storage_facts s)) with (STORAGE_HOLDS_SQL (order s)).
  replace (clock (storage_facts s) is? StorageClock.RUNNING) with
    (awaiting_pickup (commercial (row_state (order s))) (production (row_state (order s)))
      (fulfillment_mode (row_state (order s))) (self_collection_recorded (row_state (order s))))
    by (symmetry; apply clock_running).
  rewrite Hv. cbn [lift_storage mbind result_bind].
  destruct (allowed v) eqn:Hallowed; [|by eexists].
  destruct (proj1 Hal eq_refl) as (p & ready & -> & Hready & Hmay). pose proof Hmay as (Haw & _).
  destruct (Hfig ready Hready Haw) as (Hw & _). cbn [mbind result_bind require_some]. rewrite Hw.
  cbn [require_some mbind result_bind].
  destruct (single_total (row_quoted (order s))) as [total|] eqn:Htot; [|by eexists].
  exfalso. apply Hno. by exists p, ready, total.
Qed.

Lemma closes_shelf row row' target : closes_to row row' target →
  fulfillment_mode (row_state row') = fulfillment_mode (row_state row) ∧
  self_collection_recorded (row_state row') = self_collection_recorded (row_state row) ∧
  balance (row_state row') = balance (row_state row) ∧ commercial (row_state row') = target.
Proof. by intros (-> & _). Qed.

Lemma disposed_shelved s now t mid row' d :
  shelved s now → now <= instant t → aware t = true →
  commercial (row_state (order s)) = CommercialOrderStatus.ACTIVE →
  balance (row_state (order s)) ∈ [OrderBalanceStatus.UNPAID; OrderBalanceStatus.PARTIALLY_PAID; OrderBalanceStatus.PAID] →
  _apply_locked_transition (order s) (disposal_command CommercialOrderStatus.CANCELLATION_REVIEW None) (dt_add t 1) = Ok mid →
  _apply_locked_transition mid (disposal_command CommercialOrderStatus.CANCELLED
    (Some CustodyResolution.UNCLAIMED_DISPOSED)) (dt_add t 2) = Ok row' →
  closes_to (order s) mid CommercialOrderStatus.CANCELLATION_REVIEW →
  closes_to mid row' CommercialOrderStatus.CANCELLED → disposal_checks d = true → disposal_agrees row' d = true →
  shelved (MkShelfOrder row' (order_storage_fee_row s) (storage_fee_waiver s) (order_contact_attempts s) (Some d))
    (instant t + 2).
Proof.
  intros Hsh Hle Ha Hact Hb Hm Hr Hc1 Hc2 Hchk Hagr.
  assert (timed row' (instant t + 2)) as Ht.
  { rewrite <- instant_dt_add. apply (apply_timed mid (instant (dt_add t 1)) _ _ _) in Hr; try done.
    - eapply apply_timed; [apply Hsh| | | |exact Hm]; [rewrite instant_dt_add; lia|done|done].
    - rewrite !instant_dt_add. lia. }
  destruct (closes_shelf _ _ _ Hc1) as (Hm1 & Hse1 & Hb1 & _), (closes_shelf _ _ _ Hc2) as (Hm2 & Hse2 & Hb2 & Hcan).
  destruct Hc1 as (_ & _ & Hq1 & Hp1 & _ & _ & Hch1 & _), Hc2 as (_ & _ & Hq2 & Hp2 & _ & _ & Hch2 & _).
  pose proof (sh_fee _ _ Hsh) as Hf.
  split; cbn; rewrite ?Hq2, ?Hq1, ?Hp2, ?Hp1, ?Hm2, ?Hm1, ?Hse2, ?Hse1, ?Hb2, ?Hb1; try done; try apply Hsh.
  - unfold fee_agrees, fixed_vnd_of in *. cbn. by rewrite Hb2, Hb1, Hq2, Hq1, Hp2, Hp1, Hch2, Hch1.
  - intros _. by right.
  - intros d' [= <-]. by split_and!.
Qed.

(** * Every reachable order *)

Lemma waive_shelved policy s now caller v reason t s' :
  sane policy → shelved s now → now <= instant t → aware t = true →
  waive_storage_fee policy s caller v reason t = Ok s' → shelved s' (instant t).
Proof.
  intros Hp Hsh Hle Ha H. unfold waive_storage_fee in H. do 2 apply raise_bind_Ok in H as [_ H].
  apply bind_Ok in H as (cl & _ & H). apply bind_Ok in H as (cleaned & _ & H). do 2 apply raise_bind_Ok in H as [_ H].
  destruct (decide (order_storage_fee_row s = None ∧ order_settlement (order s) = None ∧ kept_of s < due_of policy s t))
    as [(H1 & H2 & H3)|Hno].
  - destruct (waive_granted policy s now cleaned t Hp Hsh Hle Ha (conj H1 H2) H3) as (total & w & Ht & _ & Hw).
    rewrite Hw in H. injection H as <-. apply (shelved_mono _ now); [done|]. by apply waived_shelved.
  - destruct (waive_refused policy s now cleaned t Hp Hsh Hle Ha) as [code Hc]; [|by rewrite Hc in H].
    intros [[? ?] ?]. by apply Hno.
Qed.

Lemma disposable_or policy s now t :
  sane policy → shelved s now → now <= instant t → aware t = true →
  disposable policy s t ∨ ¬ disposable policy s t.
Proof.
  intros Hp Hsh Hle Ha. destruct (shelved_verdict policy s now t Hp Hsh Hle Ha) as (v & _ & Hal & _).
  destruct (single_total (row_quoted (order s))) as [total|] eqn:Htot.
  - destruct (allowed v); [left|right].
    + destruct (proj1 Hal eq_refl) as (p & r & ? & ? & ?). by exists p, r, total.
    + intros (p & r & _ & ? & ? & _ & ?). assert (false = true) by (apply Hal; by exists p, r). done.
  - right. intros (p & r & total & _ & _ & Ht & _). congruence.
Qed.

Lemma dispose_shelved policy s now caller v t s' :
  sane policy → shelved s now → now <= instant t → aware t = true →
  dispose policy s caller v t = Ok s' → shelved s' (instant t + 2).
Proof.
  intros Hp Hsh Hle Ha H. unfold dispose in H. do 4 apply raise_bind_Ok in H as [_ H].
  destruct (disposable_or policy s now t Hp Hsh Hle Ha) as [Hd|Hno].
  - destruct (dispose_granted policy s now t Hp Hsh Hle Ha Hd)
      as (ready & total & r & mid & row' & _ & _ & _ & _ & Hdisp & Hm & Hrow & Hc1 & Hc2 & Hchk & Hagr).
    rewrite Hdisp in H. injection H as <-. destruct Hd as (p & rd & tot & _ & _ & _ & Haw & _).
    destruct (waiting_order s now Hsh Haw) as (Hact & _ & _ & _ & _ & _ & Hb).
    by eapply disposed_shelved.
  - destruct (dispose_refused policy s now t Hp Hsh Hle Ha Hno) as [codes Hc]. congruence.
Qed.

Lemma shelf_step_shelved w w' : shelved w.1 w.2 → shelf_step w w' → shelved w'.1 w'.2.
Proof.
  intros Hsh H. destruct H; cbn in *.
  - by eapply shelved_transition.
  - by eapply shelved_composite.
  - by eapply pay_shelved.
  - by eapply settle_shelved.
  - by eapply collection_shelved.
  - by eapply leg_shelved.
  - by eapply account_shelved.
  - by eapply allocation_shelved.
  - by eapply contact_shelved.
  - by eapply waive_shelved.
  - by eapply dispose_shelved.
Qed.

Definition reachable_shelf : ShelfOrder * Z → Prop := reachable shelf_created shelf_step.

Lemma reachable_shelved s now : reachable_shelf (s, now) → shelved s now.
Proof.
  intros H. change (shelved (s, now).1 (s, now).2). revert H.
  apply (reachable_invariant shelf_created shelf_step (λ w, shelved w.1 w.2)).
  - apply shelf_created_shelved.
  - intros w w'. apply shelf_step_shelved.
Qed.

(** C28: the shop never owes for money it took.  In every order any history can produce, at
    any later instant and under any storage policy then in force, the storage fee can be
    computed, and what the order owes -- its quoted total plus the fee -- is at least what
    its payments sum to, exactly that once it is paid; a fee fixed by the settlement or the
    account charge is the part of it beyond the quoted total, and a cancelled order keeps
    money only beside its disposal record, which keeps exactly that money. *)
Theorem storage_ledger_sound s now policy t :
  reachable_shelf (s, now) → sane policy → aware t = true → now <= instant t →
  ∃ L, storage_fee_for_order policy s t = Ok L ∧
    (∀ total, single_total (row_quoted (order s)) = Some total →
      balance (row_state (order s)) ∈ [OrderBalanceStatus.UNPAID; OrderBalanceStatus.PARTIALLY_PAID; OrderBalanceStatus.PAID] →
      sumZ (order_payments (order s)) <= total + amount_vnd (locked_fee L) ∧
      (balance (row_state (order s)) = OrderBalanceStatus.PAID →
       sumZ (order_payments (order s)) = total + amount_vnd (locked_fee L))) ∧
    (balance (row_state (order s)) = OrderBalanceStatus.ON_ACCOUNT →
      ∃ c total, account_charge (order s) = Some c ∧ single_total (row_quoted (order s)) = Some total ∧
        row_owed_vnd c = total + fixed_vnd_of s) ∧
    (commercial (row_state (order s)) = CommercialOrderStatus.CANCELLED →
     balance (row_state (order s)) ∈ [OrderBalanceStatus.UNPAID; OrderBalanceStatus.REFUNDED] ∨
     ∃ d, order_disposal s = Some d ∧ disposal_kept d = sumZ (order_payments (order s)) ∧
       disposal_kept d + disposal_written_off d = disposal_owed d ∧ order_refund (order s) = None).
Proof.
  intros Hr Hp Ha Hle. apply reachable_shelved in Hr as Hsh.
  destruct (shelved_fee policy s now t Hp Hsh Hle Ha) as (r & Hfee & _).
  eexists. split; [unfold storage_fee_for_order; by rewrite Hfee|]. cbn [locked_fee]. split_and!.
  - intros total Htot Hb. by apply (owed_covers_paid policy s now t r total).
  - intros Hb. pose proof (sh_fee _ _ Hsh) as Hf. unfold fee_agrees in Hf. rewrite Hb in Hf.
    destruct Hf as (c & total & ? & ? & ? & _). by exists c, total.
  - intros Hc. destruct (sh_cancelled _ _ Hsh Hc) as [?|[d Hd]]; [by left|right]. exists d.
    destruct (sh_disposal _ _ Hsh d Hd) as (Hagr & Hchk & _). unfold disposal_agrees, disposal_checks in *.
    guards. split_and!; try done; try lia. by destruct (order_refund (order s)); [exfalso; eauto|].
Qed.

(** * No command trips over its own tables *)

(** A command answers, or refuses by a named code: it never fails an assertion, a CHECK or
    trigger of its tables, or a figure's validation. *)
Definition answered {A} (r : unclaimed A) : bool :=
  match r with
  | Err AssertionFailure | Err (ConstraintViolation _) | Err (RuleFailure _) => false
  | _ => true
  end.

Lemma answered_bind {A B} (m : unclaimed A) (f : A → unclaimed B) :
  answered m = true → (∀ a, m = Ok a → answered (f a) = true) → answered (m ≫= f) = true.
Proof. destruct m as [a|e]; cbn; [auto|]. by destruct e. Qed.

Lemma answered_order {A} (r : repo A) : answered (lift_order r) = true.
Proof. by destruct r. Qed.

Lemma answered_raise c e : answered (A := unit) (Err e) = true → answered (raise_if c e) = true.
Proof. by destruct c. Qed.

Lemma answered_note t required : answered (note_refusal (clean_note t required)) = true.
Proof.
  unfold clean_note. destruct (words <$> t) as [[|c l]|]; try (by destruct required).
  by destruct (NOTE_MAX_LENGTH <? _), (PHONE_LIKE (c :: l)).
Qed.

Lemma insert_fixed_answered policy L amount : sane policy → published L = policy → traced policy (locked_fee L) →
  0 < amount → answered (insert_fixed_storage_fee L amount) = true.
Proof.
  intros Hp Hpub [Htr _] Hpos. unfold insert_fixed_storage_fee. replace (0 <? amount) with true by lia. cbn.
  rewrite Hpub. destruct (fee (locked_fee L)) as [tr|] eqn:Hfee; [|done].
  destruct policy as [p|]; [|done]. destruct (Z.ltb_spec 0 (chargeable_days tr)) as [Hc|]; [|done]. cbn.
  destruct (_ =? amount); [|done]. cbn.
  destruct (trace_days (Some p) tr Hp (Htr tr eq_refl) (or_intror Hc)).
  replace ((0 <? fee_days_waiting tr) && (0 <? chargeable_days tr) && (chargeable_days tr <=? fee_days_waiting tr))
    with true by lia. done.
Qed.

Lemma pay_answered policy s now caller v cmd t :
  sane policy → shelved s now → now <= instant t → aware t = true → answered (pay policy s caller v cmd t) = true.
Proof.
  intros Hp Hsh Hle Ha. destruct (shelved_fee policy s now t Hp Hsh Hle Ha) as (r & Hr & Htr & _).
  unfold pay. apply answered_bind; [apply answered_order|intros _ _].
  unfold storage_fee_for_order. rewrite Hr. cbn [mbind result_bind lift_storage]. cbv zeta.
  apply answered_bind; [apply answered_order|intros row _]. cbn [locked_fee].
  destruct ((_ && _) && (0 <? amount_vnd r)) eqn:E; [|done]. apply andb_true_iff in E as [_ E]. apply Z.ltb_lt in E.
  apply answered_bind; [|done]. by apply (insert_fixed_answered policy).
Qed.

Lemma account_answered policy s now caller v standing tick t :
  sane policy → shelved s now → now <= instant t → aware t = true →
  answered (put_on_account policy s caller v standing tick t) = true.
Proof.
  intros Hp Hsh Hle Ha. destruct (shelved_fee policy s now t Hp Hsh Hle Ha) as (r & Hr & [Htr Hacc] & _ & _ & _ & _ & Hun).
  unfold put_on_account. apply answered_bind; [apply answered_order|intros _ _].
  unfold storage_fee_for_order. rewrite Hr. cbn [mbind result_bind lift_storage]. cbv zeta.
  apply answered_bind; [apply answered_order|intros row Hrow]. apply (proj1 (lift_order_Ok _ _)) in Hrow.
  cbn [locked_fee published] in *. destruct (Z.ltb_spec 0 (amount_vnd r)) as [Hpos|]; [|done].
  pose proof (timed_sound _ _ (sh_row _ _ Hsh)) as Hs.
  destruct (charge_shape _ _ _ _ _ _ _ Hs Hrow)
    as (_ & _ & Hpay & Hst & _ & _ & _ & _ & c & total & _ & Htot & _ & _ & Hlt).
  destruct (Hun (conj (fixed_none_payable _ _ Hsh Hpay) Hst)) as (Ham & _ & Hstat). cbv zeta in Ham, Hstat.
  assert (paid_over (storage_facts s) = Z.max 0 (sumZ (order_payments (order s)) - total)) as Hk
    by (unfold paid_over; cbn; by rewrite Htot).
  destruct (Hacc (proj2 Hstat ltac:(lia))) as (tr & Hfee & Hfa & Hnz). rewrite Hfee. cbn.
  destruct (Htr tr Hfee) as (p & -> & Hchg & Hle'). cbn.
  destruct (trace_days (Some p) tr Hp (Htr tr Hfee)) as [H1 H2]; [left; lia|].
  replace ((0 <? fee_days_waiting tr) && (0 <? chargeable_days tr) && (chargeable_days tr <=? fee_days_waiting tr))
    with true by lia. done.
Qed.

Lemma settle_answered policy s now caller amount tick t :
  sane policy → shelved s now → now <= instant t → aware t = true →
  answered (settle policy s caller amount tick t) = true.
Proof.
  intros Hp Hsh Hle Ha. destruct (shelved_fee policy s now t Hp Hsh Hle Ha) as (r & Hr & _).
  unfold settle. apply answered_bind; [apply answered_order|intros _ _].
  unfold storage_fee_for_order. rewrite Hr. cbn [mbind result_bind lift_storage].
  apply answered_bind; [apply answered_order|done].
Qed.

Lemma waive_answered policy s now caller v reason t :
  sane policy → shelved s now → now <= instant t → aware t = true →
  answered (waive_storage_fee policy s caller v reason t) = true.
Proof.
  intros Hp Hsh Hle Ha. unfold waive_storage_fee.
  do 2 (apply answered_bind; [by apply answered_raise|intros _ _]).
  apply answered_bind; [apply answered_note|intros n Hn]. apply note_refusal_Ok in Hn.
  assert (∃ c, n = Some c) as [cleaned ->].
  { unfold clean_note in Hn. cbn in Hn. destruct (words reason); [done|].
    do 2 apply raise_bind_Ok in Hn as [_ Hn]. injection Hn as <-. by eexists. }
  cbn [require_some mbind result_bind].
  do 2 (apply answered_bind; [by apply answered_raise|intros _ _]).
  destruct (decide (order_storage_fee_row s = None ∧ order_settlement (order s) = None ∧ kept_of s < due_of policy s t))
    as [(H1 & H2 & H3)|Hno].
  - destruct (waive_granted policy s now cleaned t Hp Hsh Hle Ha (conj H1 H2) H3) as (? & ? & _ & _ & ->). done.
  - destruct (waive_refused policy s now cleaned t Hp Hsh Hle Ha) as [code ->]; [|done].
    intros [[? ?] ?]. by apply Hno.
Qed.

Lemma dispose_answered policy s now caller v t :
  sane policy → shelved s now → now <= instant t → aware t = true → answered (dispose policy s caller v t) = true.
Proof.
  intros Hp Hsh Hle Ha. unfold dispose. do 4 (apply answered_bind; [by apply answered_raise|intros _ _]).
  destruct (disposable_or policy s now t Hp Hsh Hle Ha) as [Hd|Hno].
  - by destruct (dispose_granted policy s now t Hp Hsh Hle Ha Hd) as (? & ? & ? & ? & ? & _ & _ & _ & _ & -> & _).
  - by destruct (dispose_refused policy s now t Hp Hsh Hle Ha Hno) as [codes ->].
Qed.


(** After a waiver only the kept part is owed, whatever the policy becomes. *)
Lemma waived_owes policy policy' s now t t' total w :
  sane policy → sane policy' → shelved s now → now <= instant t → aware t = true →
  unpaid_yet s → kept_of s < due_of policy s t → single_total (row_quoted (order s)) = Some total →
  let s' := waived_order s total (kept_of s) w in
  shelved s' now → aware t' = true → now <= instant t' →
  ∃ r, order_storage_fee policy' (storage_facts s') t' = Ok r ∧ amount_vnd r = kept_of s.
Proof.
  intros Hp Hp' Hsh Hle Ha [Hfix Hset] Hlt Htot s' Hsh' Ha' Hle'.
  destruct (shelved_fee policy' s' now t' Hp' Hsh' Hle' Ha') as (r & Hr & _ & _ & _ & Hfixed & Hsettled & Hun).
  exists r. split; [done|].
  assert (kept_of s = Z.max 0 (sumZ (order_payments (order s)) - total)) as Hk
    by (unfold kept_of, paid_over; cbn; by rewrite Htot).
  subst s'. unfold waived_order, unpaid_yet in *.
  destruct (Z.leb_spec total (sumZ (order_payments (order s)))) as [Hpaid|Hpaid].
  - destruct (Z.ltb_spec 0 (kept_of s)); [by rewrite (Hfixed _ eq_refl)|]. rewrite Hsettled by (done || by eexists). lia.
  - destruct (Hun (conj eq_refl Hset)) as (Ham & _). cbv zeta in Ham. rewrite Ham.
    assert (∀ f, waived f = true → policy_charge policy' f t' = 0) as Hz.
    { intros f Hf. unfold policy_charge. rewrite Hf. by destruct policy', (ready_at f), (quoted_total_vnd f). }
    rewrite Hz by done. unfold paid_over. cbn. rewrite Htot. lia.
Qed.

(** a waiver takes off exactly what is not yet paid.  For a caller who may waive, with a
    reason, it goes through exactly when the order is not settled and the policy charges more
    than the payments already hold of it.  The waived amount is the difference; under any
    policy at any later time the order then owes its quoted total plus the kept part, and it
    is settled in the same step exactly when that is already paid. *)
Theorem waiver_takes_off_the_unpaid s now policy caller v reason cleaned t :
  reachable_shelf (s, now) → sane policy → aware t = true → now <= instant t →
  may_waive s caller v reason cleaned →
  ((∃ s', waive_storage_fee policy s caller v reason t = Ok s') ↔
   unpaid_yet s ∧ kept_of s < due_of policy s t) ∧
  ∀ s', waive_storage_fee policy s caller v reason t = Ok s' →
    ∃ total waited, single_total (row_quoted (order s)) = Some total ∧
      s' = waived_order s total (kept_of s) (MkWaiverRow (due_of policy s t - kept_of s) waited cleaned) ∧
      (balance (row_state (order s')) = OrderBalanceStatus.PAID ↔ total <= sumZ (order_payments (order s))) ∧
      ∀ policy' t', sane policy' → aware t' = true → instant t <= instant t' →
        ∃ r, order_storage_fee policy' (storage_facts s') t' = Ok r ∧ amount_vnd r = kept_of s.
Proof.
  intros Hr Hp Ha Hle (Hrole & Hmfa & Hmem & Hv & Hver & Hnote). apply reachable_shelved in Hr as Hsh.
  assert (waive_storage_fee policy s caller v reason t = waive_once policy s cleaned t) as ->.
  { unfold waive_storage_fee. rewrite Hrole, Hmfa, Hmem, Hver, Z.eqb_refl, Hnote.
    replace (v <? 1) with false by lia. done. }
  assert (unpaid_yet s ∧ kept_of s < due_of policy s t ∨ ¬ (unpaid_yet s ∧ kept_of s < due_of policy s t)) as [[Hun Hlt]|Hno].
  { unfold unpaid_yet. destruct (order_storage_fee_row s), (order_settlement (order s)); try (right; naive_solver).
    destruct (Z.lt_ge_cases (kept_of s) (due_of policy s t)); [left|right]; [done|lia]. }
  - destruct (waive_granted policy s now cleaned t Hp Hsh Hle Ha Hun Hlt) as (total & waited & Htot & _ & Hw).
    rewrite Hw. split; [split; [done|by eexists]|]. intros s' [= <-]. exists total, waited.
    pose proof (waived_shelved policy s now t total waited cleaned Hp Hsh Hle Ha Hun Hlt Htot) as Hsh'.
    split_and!; [done|done| |].
    + unfold waived_order. destruct (Z.leb_spec total (sumZ (order_payments (order s)))) as [Hpaid|Hpaid]; cbn.
      { split; [by intros _|done]. }
      split; [|lia]. intros Hb. pose proof (sound_ledger _ (timed_sound _ _ (sh_row _ _ Hsh))) as Hl.
      unfold ledger in Hl. rewrite Hb in Hl. destruct Hl as (_ & _ & st & Hst & _), Hun. congruence.
    + intros policy' t' Hp' Ha' Hle'.
      apply (waived_owes policy policy' s now t); done || lia.
  - destruct (waive_refused policy s now cleaned t Hp Hsh Hle Ha Hno) as [code Hc]. rewrite Hc.
    split; [|done]. split; [by intros [? [=]]|done].
Qed.


(** * A bag nobody came back for *)

Definition abandoned_start : ShelfOrder := MkShelfOrder witness_row None None [] None.
Definition step_at (s : ShelfOrder) (st : OrderStep.t) (t : datetime) : unclaimed ShelfOrder :=
  row ← lift_order (execute_step (order s) counter (row_version (order s)) st true no_answers t);
  Ok (set_order s row).

Definition ok_or (s : ShelfOrder) (r : unclaimed ShelfOrder) : ShelfOrder := match r with Ok s' => s' | Err _ => s end.

(** Washed on the first, ready at 11, 65,000 đồng taken on the 26th: 5,000 of the fee. *)
Definition received := ok_or abandoned_start (step_at abandoned_start OrderStep.RECEIVE (september 1 8 0)).
Definition washing := ok_or received (step_at received OrderStep.START_WASH (september 1 9 0)).
Definition checked := ok_or washing (step_at washing OrderStep.QUALITY_CHECK (september 1 10 0)).
Definition on_the_shelf := ok_or checked (step_at checked OrderStep.MARK_READY (september 1 11 0)).
Definition part_paid := ok_or on_the_shelf
  (pay (Some owner_policy) on_the_shelf counter (row_version (order on_the_shelf)) (cash 65000 false) (september 26 9 0)).
Definition called (s : ShelfOrder) (t : datetime) : ShelfOrder :=
  ok_or s (record_contact_attempt s counter ContactOutcome.NO_ANSWER None t).
Definition called_once := called part_paid (september 27 9 0).
Definition called_twice := called called_once (september 28 9 0).
Definition abandoned := called called_twice (september 28 18 0).
Definition last_call : Z := instant (september 28 18 0).

Example abandoned_paid : sumZ (order_payments (order abandoned)) = 65000 ∧
  length (order_contact_attempts abandoned) = 3%nat.
Proof. vm_compute. done. Qed.

Lemma step_at_step s st t s' now :
  aware t = true → now <= instant t → step_at s st t = Ok s' →
  shelf_step (s, now) (s', instant t + (row_version (order s') - row_version (order s))).
Proof.
  intros Ha Hle H. unfold step_at in H. apply bind_Ok in H as (row & Hrow & [= <-]).
  apply (proj1 (lift_order_Ok _ _)) in Hrow. by eapply shelf_composite.
Qed.

Ltac computed := by vm_compute.
Lemma abandoned_reachable : reachable_shelf (abandoned, last_call).
Proof.
  exists (abandoned_start, 0). split.
  { exists FulfillmentMode.SELF_DROP_SELF_COLLECT, (row_quoted witness_row), (row_readiness witness_row), 0.
    split; [reflexivity|]. intros total [= <-]. split; computed. }
  eapply rtc_l; [apply (step_at_step _ OrderStep.RECEIVE (september 1 8 0) received); computed|].
  eapply rtc_l; [apply (step_at_step _ OrderStep.START_WASH (september 1 9 0) washing); computed|].
  eapply rtc_l; [apply (step_at_step _ OrderStep.QUALITY_CHECK (september 1 10 0) checked); computed|].
  eapply rtc_l; [apply (step_at_step _ OrderStep.MARK_READY (september 1 11 0) on_the_shelf); computed|].
  eapply rtc_l; [apply (shelf_payment (Some owner_policy) _ _ counter (row_version (order on_the_shelf)) (cash 65000 false)
    (september 26 9 0) part_paid); [exact owner_policy_sane|computed..]|].
  eapply rtc_l; [apply (shelf_contact _ _ counter ContactOutcome.NO_ANSWER None (september 27 9 0) called_once); computed|].
  eapply rtc_l; [apply (shelf_contact _ _ counter ContactOutcome.NO_ANSWER None (september 28 9 0) called_twice); computed|].
  apply rtc_once. apply (shelf_contact _ _ counter ContactOutcome.NO_ANSWER None (september 28 18 0) abandoned); computed.
Qed.

Definition sorry_note : text := list_ascii_of_string "khach quen".

Lemma storage_ledger_sound_witness :
  ∃ L, storage_fee_for_order (Some owner_policy) abandoned (september 30 9 0) = Ok L ∧
    65000 <= 60000 + amount_vnd (locked_fee L).
Proof.
  destruct (storage_ledger_sound abandoned last_call (Some owner_policy) (september 30 9 0) abandoned_reachable
    owner_policy_sane) as (L & HL & Howed & _); [computed|computed|].
  exists L. split; [exact HL|]. apply (Howed 60000); [computed|decided].
Defined.


Definition waived_order_now : ShelfOrder := ok_or abandoned
  (waive_storage_fee (Some owner_policy) abandoned counter (row_version (order abandoned)) sorry_note (september 30 9 0)).
Definition disposed_order_now : ShelfOrder := ok_or abandoned
  (dispose (Some owner_policy) abandoned counter (row_version (order abandoned)) (september 62 9 0)).

Lemma waiver_takes_off_the_unpaid_witness :
  balance (row_state (order waived_order_now)) = OrderBalanceStatus.PAID ∧
  waived_amount_vnd <$> storage_fee_waiver waived_order_now = Some 25000.
Proof.
  destruct (waiver_takes_off_the_unpaid abandoned last_call (Some owner_policy) counter
    (row_version (order abandoned)) sorry_note sorry_note (september 30 9 0) abandoned_reachable owner_policy_sane)
    as [_ Hres]; [computed|computed|repeat split; computed|].
  destruct (Hres waived_order_now) as (total & w & Ht & _ & Hb & _); [vm_compute; reflexivity|].
  split; [|vm_compute; reflexivity]. apply Hb.
  assert (total = 60000) as -> by (vm_compute in Ht; by injection Ht as <-). vm_compute. discriminate.
Defined.


(** More attempts than are read may hide the other days: 201 calls on two days read as one. *)
Example attempts_beyond_the_limit :
  let s := MkShelfOrder witness_row None None (september 27 9 0 :: repeat (september 28 9 0) 200) None in
  length (fromkeys ((λ m, sql_shop_day (instant m)) <$> order_contact_attempts s)) = 2%nat ∧
  length (fromkeys ((λ m, sql_shop_day (instant m)) <$> _attempt_times s)) = 1%nat.
Proof. vm_compute. done. Qed.
