(* ===== verification/Delivery.v ===== *)
(** Delivery prices ([packages/domain/.../delivery.py]): the fee of a fulfilment mode and a
    verified distance, the vehicle a weight suggests, and who must still decide.  Nothing
    here grants a slot or a dispatch. *)
From Stdlib Require Import String.
From S2P Require Import Prelude Catalog PyDecimal Pricing.
Local Open Scope laundry_scope.
Local Open Scope Z_scope.

Definition WEIGHT_PATTERN : string → bool := QUANTITY_PATTERN.
Definition MAX_NUMERIC_WEIGHT_KG : decimal := Finite 999999999999 (-3).
Definition MAX_BIGINT : Z := 9223372036854775807.

Module DeliveryVehicle.
Inductive t := MOTORCYCLE | CAR.
#[export] Instance eq_dec : EqDecision t.
Proof. solve_decision. Defined.
End DeliveryVehicle.

Module DeliveryFeeResolution.
Inductive t := NOT_APPLICABLE | AUTO_FIXED | HUMAN_APPROVED | HUMAN_INPUT_REQUIRED.
#[export] Instance eq_dec : EqDecision t.
Proof. solve_decision. Defined.
Definition value (r : t) : string :=
  match r with
  | NOT_APPLICABLE => "NOT_APPLICABLE" | AUTO_FIXED => "AUTO_FIXED"
  | HUMAN_APPROVED => "HUMAN_APPROVED" | HUMAN_INPUT_REQUIRED => "HUMAN_INPUT_REQUIRED"
  end.
End DeliveryFeeResolution.

Module DeliveryReason.
Inductive t :=
  | SELF_SERVICE_NO_DELIVERY_JOB | NEAR_ZONE_FREE | MID_ZONE_FIXED_FEE | FAR_ZONE_MANUAL_FEE
  | ONE_LEG_PRICE_UNRESOLVED | MANUAL_FEE_RECORDED_AND_ACKNOWLEDGED
  | DELIVERY_DISTANCE_UNVERIFIED | DELIVERY_FEE_REQUIRES_HUMAN
  | TRANSPORT_WEIGHT_REQUIRES_HUMAN | VEHICLE_RECOMMENDATION_ONLY | SLOT_APPROVAL_REQUIRED.
#[export] Instance eq_dec : EqDecision t.
Proof. solve_decision. Defined.
Definition value (r : t) : string :=
  match r with
  | SELF_SERVICE_NO_DELIVERY_JOB => "SELF_SERVICE_NO_DELIVERY_JOB"
  | NEAR_ZONE_FREE => "NEAR_ZONE_FREE"
  | MID_ZONE_FIXED_FEE => "MID_ZONE_FIXED_FEE"
  | FAR_ZONE_MANUAL_FEE => "FAR_ZONE_MANUAL_FEE"
  | ONE_LEG_PRICE_UNRESOLVED => "ONE_LEG_PRICE_UNRESOLVED"
  | MANUAL_FEE_RECORDED_AND_ACKNOWLEDGED => "MANUAL_FEE_RECORDED_AND_ACKNOWLEDGED"
  | DELIVERY_DISTANCE_UNVERIFIED => "DELIVERY_DISTANCE_UNVERIFIED"
  | DELIVERY_FEE_REQUIRES_HUMAN => "DELIVERY_FEE_REQUIRES_HUMAN"
  | TRANSPORT_WEIGHT_REQUIRES_HUMAN => "TRANSPORT_WEIGHT_REQUIRES_HUMAN"
  | VEHICLE_RECOMMENDATION_ONLY => "VEHICLE_RECOMMENDATION_ONLY"
  | SLOT_APPROVAL_REQUIRED => "SLOT_APPROVAL_REQUIRED"
  end.
End DeliveryReason.
#[export] Existing Instance DeliveryVehicle.eq_dec.
#[export] Existing Instance DeliveryFeeResolution.eq_dec.
#[export] Existing Instance DeliveryReason.eq_dec.

(** [DeliveryError] with its code. *)
Abbreviation delivered A := (result ErrorCode.t A).

Record DeliveryCalculationTrace := {
  trace_fulfillment_mode : FulfillmentMode.t;
  trace_verified_distance_m : option Z;
  distance_zone : option string;
  trace_planned_transport_weight_kg : option string;
  vehicle_threshold_kg : string;
  fee_rule : string;
  manual_fee_candidate_vnd : option Z;
  trace_customer_acknowledged_manual_fee : bool;
  trace_delivery_job_required : bool;
  dispatch_authorized : bool;
}.

Record DeliveryResult := {
  delivery_fee_vnd : option Z;
  fee_resolution : DeliveryFeeResolution.t;
  fee_outcome : PolicyOutcome.t;
  vehicle_recommendation : option DeliveryVehicle.t;
  vehicle_outcome : PolicyOutcome.t;
  slot_outcome : PolicyOutcome.t;
  overall_outcome : PolicyOutcome.t;
  delivery_job_required : bool;
  reason_codes : list DeliveryReason.t;
  trace : DeliveryCalculationTrace;
}.

Definition _distance_zone (distance_m : option Z) : option string :=
  match distance_m with
  | None => None
  | Some d => Some (if d <=? 2000 then "LE_2_KM"%string
                    else if d <=? 6000 then "GT_2_LE_6_KM"%string else "GT_6_KM"%string)
  end.

Definition _validate_distance (distance_m : option Z) : delivered unit :=
  match distance_m with
  | None => Ok tt
  | Some d => raise_if (negb ((0 <=? d) && (d <=? MAX_BIGINT))) ErrorCode.VALIDATION_ERROR
  end.

Definition _validate_vnd (v : Z) : delivered unit :=
  raise_if (negb ((0 <=? v) && (v <=? MAX_BIGINT))) ErrorCode.VALIDATION_ERROR.

Definition _weight (value : string) : delivered decimal :=
  raise_if (negb (WEIGHT_PATTERN value)) ErrorCode.MISSING_REQUIRED_FACT ;;
  weight ← require_some (of_literal value) ErrorCode.MISSING_REQUIRED_FACT;
  match weight with
  | Special => Err ErrorCode.MISSING_REQUIRED_FACT
  | Finite _ exponent =>
      raise_if (negb (is_finite weight) || dec_leb weight (of_int 0)
                || dec_ltb MAX_NUMERIC_WEIGHT_KG weight || (3 <? Z.max 0 (- exponent)))
        ErrorCode.MISSING_REQUIRED_FACT ;;
      Ok weight
  end.

Definition _resolve_vehicle (weight : option decimal) : option DeliveryVehicle.t * PolicyOutcome.t :=
  match weight with
  | None => (None, PolicyOutcome.REQUIRE_HUMAN)
  | Some w => (Some (if dec_ltb w (of_int 20) then DeliveryVehicle.MOTORCYCLE else DeliveryVehicle.CAR),
               PolicyOutcome.ALLOW)
  end.

(** A fee with who set it, what still has to happen, and the reason it adds. *)
Record FeeDecision := MkFeeDecision {
  fd_fee : option Z;
  fd_resolution : DeliveryFeeResolution.t;
  fd_outcome : PolicyOutcome.t;
  fd_rule : string;
  fd_reasons : list DeliveryReason.t;
}.

Definition _resolve_manual_fee (approved_fee : option Z) (acknowledged : bool) (rule : string)
    (reason : DeliveryReason.t) : FeeDecision :=
  match approved_fee, acknowledged with
  | Some fee, true =>
      MkFeeDecision (Some fee) DeliveryFeeResolution.HUMAN_APPROVED PolicyOutcome.ALLOW rule
        [reason; DeliveryReason.MANUAL_FEE_RECORDED_AND_ACKNOWLEDGED]
  | _, _ =>
      MkFeeDecision None DeliveryFeeResolution.HUMAN_INPUT_REQUIRED PolicyOutcome.REQUIRE_HUMAN rule
        [reason; DeliveryReason.DELIVERY_FEE_REQUIRES_HUMAN]
  end.

Definition _reject_manual_override (approved_fee : option Z) (acknowledged : bool) : delivered unit :=
  raise_if (bool_decide (is_Some approved_fee) || acknowledged) ErrorCode.VALIDATION_ERROR.

(** The fee branches of [evaluate_delivery], for a mode with a delivery job. *)
Definition job_fee (mode : FulfillmentMode.t) (verified_distance_m : option Z)
    (approved_manual_fee_vnd : option Z) (acknowledged : bool) : delivered FeeDecision :=
  if mode in? [FulfillmentMode.PICKUP_ONLY; FulfillmentMode.RETURN_ONLY] then
    Ok (_resolve_manual_fee approved_manual_fee_vnd acknowledged "ONE_LEG_HUMAN_PRICE"
          DeliveryReason.ONE_LEG_PRICE_UNRESOLVED)
  else
    match verified_distance_m with
    | None =>
        _reject_manual_override approved_manual_fee_vnd acknowledged ;;
        Ok (MkFeeDecision None DeliveryFeeResolution.HUMAN_INPUT_REQUIRED PolicyOutcome.REQUIRE_HUMAN
              "VERIFIED_DISTANCE_REQUIRED"
              [DeliveryReason.DELIVERY_DISTANCE_UNVERIFIED; DeliveryReason.DELIVERY_FEE_REQUIRES_HUMAN])
    | Some d =>
        if d <=? 2000 then
          _reject_manual_override approved_manual_fee_vnd acknowledged ;;
          Ok (MkFeeDecision (Some 0) DeliveryFeeResolution.AUTO_FIXED PolicyOutcome.ALLOW
                "DISTANCE_M_LE_2000" [DeliveryReason.NEAR_ZONE_FREE])
        else if d <=? 6000 then
          _reject_manual_override approved_manual_fee_vnd acknowledged ;;
          Ok (MkFeeDecision (Some 10000) DeliveryFeeResolution.AUTO_FIXED PolicyOutcome.ALLOW
                "2000_LT_DISTANCE_M_LE_6000" [DeliveryReason.MID_ZONE_FIXED_FEE])
        else Ok (_resolve_manual_fee approved_manual_fee_vnd acknowledged
                   "DISTANCE_M_GT_6000_HUMAN_PRICE" DeliveryReason.FAR_ZONE_MANUAL_FEE)
    end.

(** What a counter collection answers. *)
Definition no_delivery_job (mode : FulfillmentMode.t) (distance : option Z) (weight : option string)
    : DeliveryResult :=
  {| delivery_fee_vnd := Some 0; fee_resolution := DeliveryFeeResolution.NOT_APPLICABLE;
     fee_outcome := PolicyOutcome.ALLOW; vehicle_recommendation := None;
     vehicle_outcome := PolicyOutcome.ALLOW; slot_outcome := PolicyOutcome.ALLOW;
     overall_outcome := PolicyOutcome.ALLOW; delivery_job_required := false;
     reason_codes := [DeliveryReason.SELF_SERVICE_NO_DELIVERY_JOB];
     trace :=
       {| trace_fulfillment_mode := mode; trace_verified_distance_m := distance;
          distance_zone := _distance_zone distance; trace_planned_transport_weight_kg := weight;
          vehicle_threshold_kg := "20"; fee_rule := "NO_DELIVERY_JOB";
          manual_fee_candidate_vnd := None; trace_customer_acknowledged_manual_fee := false;
          trace_delivery_job_required := false; dispatch_authorized := false |} |}.

Definition evaluate_delivery (mode : FulfillmentMode.t) (verified_distance_m : option Z)
    (planned_transport_weight_kg : option string) (approved_manual_fee_vnd : option Z)
    (customer_acknowledged_manual_fee : bool) : delivered DeliveryResult :=
  _validate_distance verified_distance_m ;;
  planned_weight ← (match planned_transport_weight_kg with
                    | Some w => weight ← _weight w; Ok (Some weight)
                    | None => Ok None
                    end);
  (match approved_manual_fee_vnd with Some v => _validate_vnd v | None => Ok tt end) ;;
  if mode is? FulfillmentMode.SELF_DROP_SELF_COLLECT then
    _reject_manual_override approved_manual_fee_vnd customer_acknowledged_manual_fee ;;
    Ok (no_delivery_job mode verified_distance_m planned_transport_weight_kg)
  else
    let '(vehicle, vehicle_out) := _resolve_vehicle planned_weight in
    let vehicle_reason := match vehicle with
                          | None => DeliveryReason.TRANSPORT_WEIGHT_REQUIRES_HUMAN
                          | Some _ => DeliveryReason.VEHICLE_RECOMMENDATION_ONLY
                          end in
    fee ← job_fee mode verified_distance_m approved_manual_fee_vnd customer_acknowledged_manual_fee;
    let slot := PolicyOutcome.REQUIRE_HUMAN in
    Ok {| delivery_fee_vnd := fd_fee fee; fee_resolution := fd_resolution fee;
          fee_outcome := fd_outcome fee; vehicle_recommendation := vehicle;
          vehicle_outcome := vehicle_out; slot_outcome := slot;
          overall_outcome :=
            if PolicyOutcome.REQUIRE_HUMAN in? [fd_outcome fee; vehicle_out; slot]
            then PolicyOutcome.REQUIRE_HUMAN else PolicyOutcome.ALLOW;
          delivery_job_required := true;
          reason_codes := vehicle_reason :: fd_reasons fee ++ [DeliveryReason.SLOT_APPROVAL_REQUIRED];
          trace :=
            {| trace_fulfillment_mode := mode; trace_verified_distance_m := verified_distance_m;
               distance_zone := _distance_zone verified_distance_m;
               trace_planned_transport_weight_kg := planned_transport_weight_kg;
               vehicle_threshold_kg := "20"; fee_rule := fd_rule fee;
               manual_fee_candidate_vnd := approved_manual_fee_vnd;
               trace_customer_acknowledged_manual_fee := customer_acknowledged_manual_fee;
               trace_delivery_job_required := true; dispatch_authorized := false |} |}.

(** * What is charged *)

(** The published schedule: a fee, or nothing until a person has set one and the customer
    has agreed to it; [None] where the facts contradict the schedule. *)
Definition scheduled_fee (mode : FulfillmentMode.t) (distance manual : option Z) (acknowledged : bool)
    : option (option Z) :=
  let agreed := match manual with Some fee => if acknowledged then Some fee else None | None => None end in
  let fixed fee := if bool_decide (is_Some manual) || acknowledged then None else Some fee in
  match mode with
  | FulfillmentMode.SELF_DROP_SELF_COLLECT => fixed (Some 0)
  | FulfillmentMode.PICKUP_ONLY | FulfillmentMode.RETURN_ONLY => Some agreed
  | FulfillmentMode.PICKUP_AND_RETURN =>
      match distance with
      | None => fixed None
      | Some d => if d <=? 2000 then fixed (Some 0) else if d <=? 6000 then fixed (Some 10000) else Some agreed
      end
  end.

Definition fact_ok (v : option Z) : bool :=
  match v with Some v => (0 <=? v) && (v <=? MAX_BIGINT) | None => true end.
Definition weight_ok (w : option string) : bool :=
  match w with Some w => is_Ok (_weight w) | None => true end.

Lemma resolve_manual_fee_spec manual acknowledged rule reason :
  let f := _resolve_manual_fee manual acknowledged rule reason in
  fd_fee f = match manual with Some fee => if acknowledged then Some fee else None | None => None end ∧
  (fd_outcome f = PolicyOutcome.ALLOW ↔ is_Some (fd_fee f)) ∧ fd_rule f = rule.
Proof.
  destruct manual, acknowledged; cbn; split_and!; try done;
    (split; [discriminate || eauto|by intros [? ?] || done]).
Qed.

Lemma job_fee_spec mode distance manual acknowledged :
  mode ≠ FulfillmentMode.SELF_DROP_SELF_COLLECT →
  match job_fee mode distance manual acknowledged with
  | Ok f => scheduled_fee mode distance manual acknowledged = Some (fd_fee f) ∧
            (fd_outcome f = PolicyOutcome.ALLOW ↔ is_Some (fd_fee f))
  | Err e => e = ErrorCode.VALIDATION_ERROR ∧ scheduled_fee mode distance manual acknowledged = None
  end.
Proof.
  intros Hm. unfold job_fee, scheduled_fee, _reject_manual_override.
  set (overridden := bool_decide (is_Some manual) || acknowledged).
  destruct mode; [done| | |].
  2,3: rewrite bool_decide_true by set_solver; destruct (resolve_manual_fee_spec manual acknowledged
    "ONE_LEG_HUMAN_PRICE" DeliveryReason.ONE_LEG_PRICE_UNRESOLVED) as (-> & ? & _); done.
  rewrite bool_decide_false by set_solver. destruct distance as [d|].
  - destruct (d <=? 2000); [destruct overridden; cbn; naive_solver|].
    destruct (d <=? 6000); [destruct overridden; cbn; naive_solver|].
    destruct (resolve_manual_fee_spec manual acknowledged "DISTANCE_M_GT_6000_HUMAN_PRICE"
      DeliveryReason.FAR_ZONE_MANUAL_FEE) as (-> & ? & _); done.
  - destruct overridden; cbn; [done|]. split; [done|]. split; [done|by intros [? ?]].
Qed.

(** Every answer of [evaluate_delivery]: the schedule's fee, allowed exactly when there is
    one, and never a dispatch. *)
Lemma evaluate_delivery_spec mode distance weight manual acknowledged r :
  evaluate_delivery mode distance weight manual acknowledged = Ok r →
  scheduled_fee mode distance manual acknowledged = Some (delivery_fee_vnd r) ∧
  (fee_outcome r = PolicyOutcome.ALLOW ↔ is_Some (delivery_fee_vnd r)) ∧
  fact_ok distance = true ∧ fact_ok manual = true ∧ weight_ok weight = true ∧
  dispatch_authorized (trace r) = false ∧
  trace_verified_distance_m (trace r) = distance ∧ manual_fee_candidate_vnd (trace r) ∈ [None; manual].
Proof.
  unfold evaluate_delivery. intros H. apply bind_Ok in H as ([] & Hd & H).
  apply bind_Ok in H as (pw & Hw & H). apply bind_Ok in H as ([] & Hv & H).
  assert (fact_ok distance = true ∧ fact_ok manual = true ∧ weight_ok weight = true) as (? & ? & ?).
  { unfold fact_ok, weight_ok, _validate_distance, _validate_vnd in *. split_and!.
    - destruct distance; [|done]. by apply raise_if_Ok, negb_false_iff in Hd.
    - destruct manual; [|done]. by apply raise_if_Ok, negb_false_iff in Hv.
    - destruct weight; [|done]. apply bind_Ok in Hw as (? & -> & _). done. }
  case_bool_decide as Hm.
  - subst mode. apply raise_bind_Ok in H as [Hg [= <-]]. cbn. rewrite Hg. split_and!; try done; try (by left); by split; [eauto|].
  - destruct (_resolve_vehicle pw) as [vehicle out]. apply bind_Ok in H as (f & Hf & [= <-]).
    pose proof (job_fee_spec mode distance manual acknowledged Hm) as Hs. rewrite Hf in Hs.
    destruct Hs as [-> Ho]. cbn. split_and!; first [done|by (right; left)].
Qed.
