(* ===== verification/RangePrices.v ===== *)
(** Prices inside a published band ([packages/domain/.../range_prices.py]): whether the
    amounts a person chose for range-priced services lie in the bands they were shown.
    Bands are read from a revision, keyed by service. *)
From Stdlib Require Import String.
From S2P Require Import Prelude.
Local Open Scope laundry_scope.
Local Open Scope Z_scope.

Definition MAX_JCS_INTEGER : Z := 9007199254740991.

Module RangePriceRefusal.
Inductive t := RANGE_PRICE_OUT_OF_BAND | RANGE_PRICE_NOT_APPLICABLE | RANGE_PRICE_PRICEBOOK_MISMATCH.
#[export] Instance eq_dec : EqDecision t.
Proof. solve_decision. Defined.
Definition value (r : t) : string :=
  match r with
  | RANGE_PRICE_OUT_OF_BAND => "RANGE_PRICE_OUT_OF_BAND"
  | RANGE_PRICE_NOT_APPLICABLE => "RANGE_PRICE_NOT_APPLICABLE"
  | RANGE_PRICE_PRICEBOOK_MISMATCH => "RANGE_PRICE_PRICEBOOK_MISMATCH"
  end.
(** [RANGE_PRICE_REFUSAL_AUTHORITIES]. *)
Definition authority (r : t) : string :=
  match r with RANGE_PRICE_OUT_OF_BAND => "INVARIANT-3" | _ => "INVARIANT-4" end.
End RangePriceRefusal.
#[export] Existing Instance RangePriceRefusal.eq_dec.

Record PriceBand := MkPriceBand { minimum_vnd : Z; maximum_vnd : Z }.
#[export] Instance price_band_eq_dec : EqDecision PriceBand.
Proof. solve_decision. Defined.

Record RangePriceChoice := MkRangePriceChoice { choice_service_code : string; choice_amount_vnd : Z }.

Record RangePriceAttestation := {
  attested_quote_id : Z;
  attested_revision : Z;
  attested_pricebook_version_id : Z;
  attested_pricebook_version : Z;
  choices : list RangePriceChoice;
  attested_approval_id : option Z;
}.

(** [RangePriceRefused] with its service, or the resolved amounts. *)
Abbreviation ranged A := (result (RangePriceRefusal.t * option string) A).

Definition _in_band (amount : Z) (band : PriceBand) : bool :=
  (0 <=? amount) && (amount <=? MAX_JCS_INTEGER)
  && (minimum_vnd band <=? amount) && (amount <=? maximum_vnd band).

(** One pass of the loop over the choices, on the amounts so far. *)
Definition resolve_choice (bands : gmap string PriceBand) (amounts : gmap string Z)
    (choice : RangePriceChoice) : ranged (gmap string Z) :=
  let code := choice_service_code choice in
  match bands !! code with
  | None => Err (RangePriceRefusal.RANGE_PRICE_NOT_APPLICABLE, Some code)
  | Some band =>
      raise_if (bool_decide (is_Some (amounts !! code)))
        (RangePriceRefusal.RANGE_PRICE_NOT_APPLICABLE, Some code) ;;
      raise_if (negb (_in_band (choice_amount_vnd choice) band))
        (RangePriceRefusal.RANGE_PRICE_OUT_OF_BAND, Some code) ;;
      Ok (<[code := choice_amount_vnd choice]> amounts)
  end.

Definition resolve_range_prices (bands : gmap string PriceBand) (pricebook_version_id pricebook_version : Z)
    (attestation : RangePriceAttestation) : ranged (gmap string Z) :=
  raise_if (negb (attested_pricebook_version_id attestation =? pricebook_version_id)
            || negb (attested_pricebook_version attestation =? pricebook_version))
    (RangePriceRefusal.RANGE_PRICE_PRICEBOOK_MISMATCH, None) ;;
  fold_result (resolve_choice bands) ∅ (choices attestation).

(** What [range_price_rendered_document] binds: the attestation with its choices sorted by
    service and without its approval. *)
Definition range_price_rendered_document (a : RangePriceAttestation)
    : Z * Z * Z * Z * list (string * Z) :=
  (attested_quote_id a, attested_revision a, attested_pricebook_version_id a, attested_pricebook_version a,
   (λ c, (choice_service_code c, choice_amount_vnd c))
     <$> stable_sort (λ c d, String.leb (choice_service_code c) (choice_service_code d)) (choices a)).

Lemma in_band_spec amount band :
  _in_band amount band = true ↔
  0 <= amount <= MAX_JCS_INTEGER ∧ minimum_vnd band <= amount <= maximum_vnd band.
Proof. unfold _in_band. rewrite !andb_true_iff, !Z.leb_le. naive_solver. Qed.

(** The loop accepts exactly distinct services, each with its amount in its band. *)
Lemma resolve_choices_spec bands l : ∀ amounts amounts',
  fold_result (resolve_choice bands) amounts l = Ok amounts' ↔
  NoDup (choice_service_code <$> l) ∧
  (∀ c, c ∈ l → amounts !! choice_service_code c = None ∧
     ∃ band, bands !! choice_service_code c = Some band ∧ _in_band (choice_amount_vnd c) band = true) ∧
  amounts' = foldl (λ m c, <[choice_service_code c := choice_amount_vnd c]> m) amounts l.
Proof.
  induction l as [|c l IH]; intros amounts amounts'; cbn [fold_result fmap list_fmap foldl].
  - split; [intros [= <-]|by intros (_ & _ & ->)]. split_and!; [constructor|by intros ? ?%elem_of_nil|done].
  - rewrite NoDup_cons, bind_Ok. split.
    + intros (m & Hc & Hl). unfold resolve_choice in Hc. destruct (bands !! _) as [band|] eqn:Hb; [|done].
      apply raise_bind_Ok in Hc as [Hn Hc]. apply raise_bind_Ok in Hc as [Hin [= <-]]. guards.
      apply eq_None_not_Some in Hn. apply IH in Hl as (Hnd & Hall & ->).
      assert (choice_service_code c ∉ choice_service_code <$> l) as Hnew.
      { intros (c' & Heq & Hc')%list_elem_of_fmap. destruct (Hall c' Hc') as [Hm _].
        rewrite Heq, lookup_insert_eq in Hm. done. }
      split_and!; [done|done| |done]. intros c' [->|Hc']%elem_of_cons; [by split; [|exists band]|].
      destruct (Hall c' Hc') as [Hm Hband]. split; [|done].
      rewrite lookup_insert_ne in Hm; [done|]. intros Heq. apply Hnew. rewrite Heq. by apply list_elem_of_fmap_2.
    + intros ([Hnew Hnd] & Hall & ->). eexists. split.
      * destruct (Hall c ltac:(left)) as (Hm & band & Hb & Hin). unfold resolve_choice.
        rewrite Hb, Hm, Hin, bool_decide_false by (by intros [? ?]). done.
      * apply IH. split_and!; [done| |done]. intros c' Hc'. destruct (Hall c' ltac:(by right)) as [Hm Hband].
        split; [|done]. rewrite lookup_insert_ne; [done|]. intros Heq. apply Hnew. rewrite Heq. by apply list_elem_of_fmap_2.
Qed.

Lemma amounts_lookup l : ∀ (m : gmap string Z) code amount, NoDup (choice_service_code <$> l) →
  (foldl (λ m c, <[choice_service_code c := choice_amount_vnd c]> m) m l !! code = Some amount ↔
   MkRangePriceChoice code amount ∈ l ∨ code ∉ choice_service_code <$> l ∧ m !! code = Some amount).
Proof.
  induction l as [|[c a] l IH]; intros m code amount; cbn.
  - intros _. split; [right; split; [by intros ?%elem_of_nil|done]|by intros [?%elem_of_nil|[_ ?]]].
  - intros [Hn Hnd]%NoDup_cons. rewrite IH by done. rewrite elem_of_cons, not_elem_of_cons.
    destruct (decide (c = code)) as [->|Hne].
    + rewrite lookup_insert_eq. split; [intros [?|[? [= ->]]]; eauto|].
      intros [[[= ->]|?]|[[? _] _]]; [right; split; [done|done]|by left|done].
    + rewrite lookup_insert_ne by done. split; [intros [?|[? ?]]; eauto|].
      intros [[[= -> ->]|?]|[[? ?] ?]]; [done|by left|by right].
Qed.

(** Every resolved amount was chosen, and lies in the published band of its service. *)
Lemma resolve_range_prices_in_band bands version_id version a amounts :
  resolve_range_prices bands version_id version a = Ok amounts →
  attested_pricebook_version_id a = version_id ∧ attested_pricebook_version a = version ∧
  ∀ code amount, amounts !! code = Some amount ↔
    MkRangePriceChoice code amount ∈ choices a ∧
    ∃ band, bands !! code = Some band ∧ minimum_vnd band <= amount <= maximum_vnd band ∧
      0 <= amount <= MAX_JCS_INTEGER.
Proof.
  unfold resolve_range_prices. intros [Hg H]%raise_bind_Ok. guards.
  apply resolve_choices_spec in H as (Hnd & Hall & ->). split_and!; [done|done|]. intros code amount.
  rewrite amounts_lookup by done. rewrite lookup_empty. split.
  - intros [Hin|[_ ?]]; [|done]. split; [done|]. destruct (Hall _ Hin) as (_ & band & Hb & Hin').
    apply in_band_spec in Hin'. exists band. cbn in *. destruct Hin'. split_and!; [done|lia..].
  - intros [? _]. by left.
Qed.
