(* ===== verification/Quotes.v ===== *)
(** Immutable quote revisions ([packages/domain/.../quotes.py]): their lines, adjustments,
    totals, configuration references and calculation traces, and [build_quote_snapshot],
    which orders them and refuses a revision that does not reconcile.

    A canonical document is its content with its digest.  The canonical form is a library's
    (RFC 8785) and SHA-256 the platform's: [Digests] gives the digest of each kind of
    document, and a content has a canonical form exactly when its integers are JCS-safe. *)
From Stdlib Require Import Ascii String.
From S2P Require Import Prelude Catalog Clock Text PyDecimal Pricing.
From S2P Require Import Allocation Promotion Delivery.
Local Open Scope laundry_scope.
Local Open Scope Z_scope.

Definition MAX_JCS_INTEGER : Z := 9007199254740991.
(** [CODE_PATTERN], ^[A-Z][A-Z0-9_]{1,62}$. *)
Definition CODE_PATTERN : string → bool := code_text 62.
Definition blank (s : string) : bool := strip (txt s) is? [].

(** [QuoteSnapshotError]. *)
Inductive QuoteSnapshotError := SnapshotRefused.
Abbreviation snapped A := (result QuoteSnapshotError A).

Module QuoteAdjustmentKind.
Inductive t := PROMOTION | MANUAL_DISCOUNT | SURCHARGE | DELIVERY | REMEDY_CREDIT.
#[export] Instance eq_dec : EqDecision t.
Proof. solve_decision. Defined.
End QuoteAdjustmentKind.
#[export] Existing Instance QuoteAdjustmentKind.eq_dec.

Record ConfigurationSnapshotReference := {
  config_type : string;
  version_id : Z;
  version : Z;
  snapshot_hash : string;
}.

(** [ExactLineAmounts | RangeLineAmounts]; the discriminator [kind] is the constructor. *)
Inductive LineAmounts :=
| ExactLineAmounts (unit_price_vnd : option Z)
    (list_amount_vnd discount_amount_vnd net_amount_vnd : Z)
| RangeLineAmounts (unit_price_min_vnd unit_price_max_vnd : Z)
    (list_amount_min_vnd list_amount_max_vnd : Z)
    (discount_min_vnd discount_max_vnd : Z)
    (net_amount_min_vnd net_amount_max_vnd : Z).

Record QuoteLineSnapshot := {
  quote_line_id : string;
  quote_service_code : string;
  service_version_id : Z;
  line_basis : QuantityBasis.t;
  line_quantity : string;
  snapshot_unit : Unit.t;
  amounts : LineAmounts;
  price_trace_hash : string;
}.

Record QuoteAdjustmentSnapshot := {
  adjustment_id : string;
  kind : QuoteAdjustmentKind.t;
  direction : AdjustmentDirection.t;
  amount_min_vnd : Z;
  amount_max_vnd : Z;
  reason_code : string;
  source_version_id : option Z;
  adjustment_approval_id : option Z;
}.

(** What [_promotion_trace] writes: the evaluation's working with the programme it came from. *)
Record PromotionPayload := {
  traced_policy_code : string;
  configuration_version_id : Z;
  configuration_version : Z;
  traced_interval_start_at : Z;
  traced_interval_end_at_exclusive : Z;
  traced_stacking_allowed : bool;
  traced_status : PromotionStatus.t;
  traced_outcome : PolicyOutcome.t;
  traced_configured_event : option PromotionEligibilityEvent.t;
  traced_observed_event : option PromotionEligibilityEvent.t;
  traced_observed_at : option Z;
  traced_candidate_reference_at : Z;
  traced_inside_interval : bool;
  traced_eligibility_resolved : bool;
  traced_list_subtotal_vnd : Z;
  traced_eligible_subtotal_vnd : Z;
  traced_discount_vnd : Z;
  traced_net_subtotal_vnd : Z;
  traced_groups : list PromotionAllocationTrace;
  traced_lines : list PromotionLineAdjustment;
  traced_reasons : list PromotionReason.t;
}.

(** What [_delivery_trace] writes. *)
Record DeliveryPayload := {
  delivered_mode : FulfillmentMode.t;
  delivered_distance_m : option Z;
  delivered_zone : option string;
  delivered_fee_rule : string;
  delivered_resolution : DeliveryFeeResolution.t;
  delivered_outcome : PolicyOutcome.t;
  delivered_fee_vnd : option Z;
  delivered_candidate_vnd : option Z;
  delivered_acknowledged : bool;
  delivered_job_required : bool;
  delivered_dispatch_authorized : bool;
}.

(** The content of a calculation trace, by the component that wrote it. *)
Inductive TraceContent :=
| PricingTrace (t : Pricing.CalculationTrace)
| DeliveryTrace (r : DeliveryPayload)
| PromotionTrace (p : PromotionPayload)
| RemedyCreditTrace (credit_id credit_vnd policy_version_id : Z) (weights_vnd : list (string * Z))
    (a : LargestRemainderAllocation)
| ReleasedCreditTrace (credit_id credit_vnd policy_version_id : Z) (reason : string).

Record QuoteTotalsSnapshot := {
  list_service_subtotal_min_vnd : Z;
  list_service_subtotal_max_vnd : Z;
  discount_amount_min_vnd : Z;
  discount_amount_max_vnd : Z;
  net_service_subtotal_min_vnd : Z;
  net_service_subtotal_max_vnd : Z;
  quoted_delivery_fee_vnd : option Z;
  approved_surcharge_vnd : Z;
  display_total_min_vnd : option Z;
  display_total_max_vnd : option Z;
}.

(** * Canonical documents *)

Record CanonicalDocument := {
  content : TraceContent;
  document_hash : string;
}.

Record CalculationTraceSnapshot := {
  component : string;
  engine_version : string;
  captured : CanonicalDocument;
}.

Record QuoteRevisionData := {
  schema_version : Z;
  quote_id : Z;
  revision : Z;
  finality : QuoteFinality.t;
  status : QuoteRevisionStatus.t;
  priced_at : datetime;
  valid_until : option datetime;
  currency : string;
  configuration_snapshots : list ConfigurationSnapshotReference;
  lines : list QuoteLineSnapshot;
  adjustments : list QuoteAdjustmentSnapshot;
  totals : QuoteTotalsSnapshot;
  calculation_traces : list CalculationTraceSnapshot;
  calculation_engine_version : string;
  calculation_engine_hash : string;
  promotion_eligibility_event : option PromotionEligibilityEvent.t;
  promotion_eligibility_at : option datetime;
  reason_codes : list string;
  required_approvals : list string;
  approval_id : option Z;
  tax_treatment : string;
  customer_estimate_acknowledged_at : option datetime;
}.

Record RevisionDocument := {
  revision_content : QuoteRevisionData;
  revision_hash : string;
}.

Record ImmutableQuoteSnapshot := {
  data : QuoteRevisionData;
  document : RevisionDocument;
}.

(** Sixty-four lower-case hexadecimal digits. *)
Definition hexdigest (d : string) : bool :=
  (String.length d =? 64)%nat && forallb (λ c, is_digit_char c || between 97 102 c) (txt d).

(** What the program relies on of [sha256(...).hexdigest()] and [uuid5]. *)
Class Digests := {
  trace_digest : TraceContent → string;
  revision_digest : QuoteRevisionData → string;
  engine_digest : string;
  service_uuid : Z → string → Z;
  trace_digest_hex c : hexdigest (trace_digest c) = true;
  revision_digest_hex c : hexdigest (revision_digest c) = true;
  engine_digest_hex : hexdigest engine_digest = true;
}.

Definition jcs_safe (n : Z) : bool := (- MAX_JCS_INTEGER <=? n) && (n <=? MAX_JCS_INTEGER).

Definition optional (v : option Z) : list Z := match v with Some v => [v] | None => [] end.
Definition allocation_integers (a : LargestRemainderAllocation) : list Z :=
  floor_allocations_vnd a ++ remainders a ++ final_allocations_vnd a.
Definition group_integers (g : PromotionAllocationTrace) : list Z :=
  [trace_rate_bps g; eligible_subtotal_vnd g; exact_discount_numerator g; exact_discount_denominator g;
   rounded_discount_vnd g] ++ allocation_integers (allocation g).
Definition adjusted_integers (a : PromotionLineAdjustment) : list Z :=
  adj_list_amount_vnd a :: optional (adj_rate_bps a) ++ [discount_vnd a; net_amount_vnd a].

(** The integers of a trace's content. *)
Definition trace_integers (c : TraceContent) : list Z :=
  match c with
  | PricingTrace t =>
      optional (Z.of_nat <$> selected_tier t) ++ optional (trace_unit_price_vnd t)
      ++ optional (range_min_unit_vnd t) ++ optional (range_max_unit_vnd t)
  | DeliveryTrace r =>
      optional (delivered_distance_m r) ++ optional (delivered_fee_vnd r) ++ optional (delivered_candidate_vnd r)
  | PromotionTrace p =>
      [configuration_version p; traced_list_subtotal_vnd p; traced_eligible_subtotal_vnd p;
       traced_discount_vnd p; traced_net_subtotal_vnd p]
      ++ concat (group_integers <$> traced_groups p) ++ concat (adjusted_integers <$> traced_lines p)
  | RemedyCreditTrace _ vnd _ weights a => vnd :: weights.*2 ++ allocation_integers a
  | ReleasedCreditTrace _ vnd _ _ => [vnd]
  end.

Definition amounts_integers (a : LineAmounts) : list Z :=
  match a with
  | ExactLineAmounts unit_price listed discount net => optional unit_price ++ [listed; discount; net]
  | RangeLineAmounts u1 u2 l1 l2 d1 d2 n1 n2 => [u1; u2; l1; l2; d1; d2; n1; n2]
  end.

(** The integers of a revision outside its traces, which are canonical already. *)
Definition revision_integers (d : QuoteRevisionData) : list Z :=
  [schema_version d; revision d] ++ (version <$> configuration_snapshots d)
  ++ concat (amounts_integers ∘ amounts <$> lines d)
  ++ concat ((λ a, [amount_min_vnd a; amount_max_vnd a]) <$> adjustments d)
  ++ let t := totals d in
     [list_service_subtotal_min_vnd t; list_service_subtotal_max_vnd t; discount_amount_min_vnd t;
      discount_amount_max_vnd t; net_service_subtotal_min_vnd t; net_service_subtotal_max_vnd t;
      approved_surcharge_vnd t]
     ++ optional (quoted_delivery_fee_vnd t) ++ optional (display_total_min_vnd t)
     ++ optional (display_total_max_vnd t).

#[export] Instance reference_eq_dec : EqDecision ConfigurationSnapshotReference.
Proof. solve_decision. Defined.
#[export] Instance amounts_eq_dec : EqDecision LineAmounts.
Proof. solve_decision. Defined.
#[export] Instance line_eq_dec : EqDecision QuoteLineSnapshot.
Proof. solve_decision. Defined.
#[export] Instance adjustment_eq_dec : EqDecision QuoteAdjustmentSnapshot.
Proof. solve_decision. Defined.
#[export] Instance pricing_trace_eq_dec : EqDecision Pricing.CalculationTrace.
Proof. solve_decision. Defined.
#[export] Instance delivery_payload_eq_dec : EqDecision DeliveryPayload.
Proof. solve_decision. Defined.
#[export] Instance allocation_eq_dec : EqDecision LargestRemainderAllocation.
Proof. solve_decision. Defined.
#[export] Instance group_eq_dec : EqDecision PromotionAllocationTrace.
Proof. solve_decision. Defined.
#[export] Instance adjusted_eq_dec : EqDecision PromotionLineAdjustment.
Proof. solve_decision. Defined.
#[export] Instance promotion_payload_eq_dec : EqDecision PromotionPayload.
Proof. solve_decision. Defined.
#[export] Instance content_eq_dec : EqDecision TraceContent.
Proof. solve_decision. Defined.
#[export] Instance totals_eq_dec : EqDecision QuoteTotalsSnapshot.
Proof. solve_decision. Defined.
#[export] Instance document_eq_dec : EqDecision CanonicalDocument.
Proof. solve_decision. Defined.
#[export] Instance trace_eq_dec : EqDecision CalculationTraceSnapshot.
Proof. solve_decision. Defined.
#[export] Instance revision_eq_dec : EqDecision QuoteRevisionData.
Proof. solve_decision. Defined.
#[export] Instance revision_document_eq_dec : EqDecision RevisionDocument.
Proof. solve_decision. Defined.
#[export] Instance snapshot_eq_dec : EqDecision ImmutableQuoteSnapshot.
Proof. solve_decision. Defined.

Section with_digests.
Context `{!Digests}.

(** [canonical_document] of a trace and of a revision; [None] is [CanonicalizationError]. *)
Definition canonical_document (c : TraceContent) : option CanonicalDocument :=
  if forallb jcs_safe (trace_integers c)
  then Some {| content := c; document_hash := HASH_PREFIX +:+ trace_digest c |} else None.
Definition verify_canonical_document (d : CanonicalDocument) : bool :=
  match canonical_document (content d) with
  | Some rebuilt => document_hash rebuilt is? document_hash d
  | None => false
  end.

Definition canonical_revision (d : QuoteRevisionData) : option RevisionDocument :=
  if forallb jcs_safe (revision_integers d)
  then Some {| revision_content := d; revision_hash := HASH_PREFIX +:+ revision_digest d |} else None.

Definition capture_calculation_trace (name version : string) (c : TraceContent)
    : snapped CalculationTraceSnapshot :=
  raise_if (negb (CODE_PATTERN name) || blank version) SnapshotRefused ;;
  document ← require_some (canonical_document c) SnapshotRefused;
  Ok {| component := name; engine_version := version; captured := document |}.

(** * Validation

    Each check is the bool that its function returns without raising. *)

Definition _money (v : Z) : bool := (0 <=? v) && (v <=? MAX_JCS_INTEGER).
Definition _positive_int (v : Z) : bool := 0 <? v.
Definition unique {A} `{EqDecision A} (l : list A) : bool := (length (fromkeys l) =? length l)%nat.

Definition _validate_configurations (references : list ConfigurationSnapshotReference) : bool :=
  negb (length references =? 0)%nat && unique (config_type <$> references)
  && (length (filter (λ c, config_type c = "PRICEBOOK"%string) references) =? 1)%nat
  && forallb (λ c, CODE_PATTERN (config_type c) && _positive_int (version c)
                   && HASH_PATTERN (snapshot_hash c)) references.

(** [DECIMAL_PATTERN] is the pattern of a priced quantity. *)
Definition MAX_QUOTED_QUANTITY : decimal := Finite 999999999999 (-3).
Definition point_in (value : string) : bool := "."%char in? txt value.
Definition ends_with_zero (value : string) : bool :=
  match reverse (txt value) with c :: _ => c is? "0"%char | [] => false end.
Definition _canonical_positive_decimal (value : string) : bool :=
  QUANTITY_PATTERN value
  && match of_literal value with
     | Some (Finite c exponent) =>
         negb (dec_leb (Finite c exponent) (of_int 0)) && negb (dec_ltb MAX_QUOTED_QUANTITY (Finite c exponent))
         && (Z.max 0 (- exponent) <=? 3) && negb (point_in value && ends_with_zero value)
     | _ => false
     end.

Definition amounts_ok (a : LineAmounts) : bool :=
  match a with
  | ExactLineAmounts unit_price listed discount net =>
      forallb _money [listed; discount; net]
      && match unit_price with Some p => _money p | None => true end
      && negb (listed <? discount) && (net =? listed - discount)
  | RangeLineAmounts u1 u2 l1 l2 d1 d2 n1 n2 =>
      forallb _money [u1; u2; l1; l2; d1; d2; n1; n2]
      && (u1 <=? u2) && (l1 <=? l2) && (d1 <=? d2) && (n1 <=? n2) && (n1 =? l1 - d1) && (n2 =? l2 - d2)
  end.

Definition _validate_lines (ls : list QuoteLineSnapshot) : bool :=
  negb (length ls =? 0)%nat && unique (quote_line_id <$> ls)
  && forallb (λ l, negb (quote_line_id l is? ""%string) && CODE_PATTERN (quote_service_code l)
       && _canonical_positive_decimal (line_quantity l)
       && negb ((snapshot_unit l in? COUNT_UNITS) && point_in (line_quantity l))
       && HASH_PATTERN (price_trace_hash l) && amounts_ok (amounts l)) ls.

Definition trace_hash (t : CalculationTraceSnapshot) : string := document_hash (captured t).

Definition _validate_traces (traces : list CalculationTraceSnapshot) (ls : list QuoteLineSnapshot) : bool :=
  negb (length traces =? 0)%nat && unique (component <$> traces)
  && forallb (λ t, CODE_PATTERN (component t) && negb (blank (engine_version t))
                   && verify_canonical_document (captured t)) traces
  && forallb (λ l, price_trace_hash l in? (trace_hash <$> traces)) ls.

(** A line's list and discount amounts, lowest and highest. *)
Definition list_min (l : QuoteLineSnapshot) : Z :=
  match amounts l with ExactLineAmounts _ v _ _ => v | RangeLineAmounts _ _ v _ _ _ _ _ => v end.
Definition list_max (l : QuoteLineSnapshot) : Z :=
  match amounts l with ExactLineAmounts _ v _ _ => v | RangeLineAmounts _ _ _ v _ _ _ _ => v end.
Definition discount_min (l : QuoteLineSnapshot) : Z :=
  match amounts l with ExactLineAmounts _ _ v _ => v | RangeLineAmounts _ _ _ _ v _ _ _ => v end.
Definition discount_max (l : QuoteLineSnapshot) : Z :=
  match amounts l with ExactLineAmounts _ _ v _ => v | RangeLineAmounts _ _ _ _ _ v _ _ => v end.

(** What an adjustment adds to each of the sums of [_validate_adjustments]. *)
Definition credits (a : QuoteAdjustmentSnapshot) : bool :=
  kind a in? [QuoteAdjustmentKind.PROMOTION; QuoteAdjustmentKind.MANUAL_DISCOUNT; QuoteAdjustmentKind.REMEDY_CREDIT].
Definition credit_min (a : QuoteAdjustmentSnapshot) : Z := if credits a then amount_min_vnd a else 0.
Definition credit_max (a : QuoteAdjustmentSnapshot) : Z := if credits a then amount_max_vnd a else 0.
Definition of_kind (k : QuoteAdjustmentKind.t) (a : QuoteAdjustmentSnapshot) : Z :=
  if kind a is? k then amount_min_vnd a else 0.

Definition adjustment_ok (a : QuoteAdjustmentSnapshot) : bool :=
  negb (adjustment_id a is? ""%string) && CODE_PATTERN (reason_code a)
  && _money (amount_min_vnd a) && _money (amount_max_vnd a) && (amount_min_vnd a <=? amount_max_vnd a)
  && match kind a with
     | QuoteAdjustmentKind.PROMOTION => direction a is? AdjustmentDirection.CREDIT
     | QuoteAdjustmentKind.MANUAL_DISCOUNT =>
         (direction a is? AdjustmentDirection.CREDIT) && bool_decide (is_Some (adjustment_approval_id a))
     | QuoteAdjustmentKind.REMEDY_CREDIT =>
         (direction a is? AdjustmentDirection.CREDIT) && (amount_min_vnd a =? amount_max_vnd a)
         && bool_decide (is_Some (source_version_id a))
     | QuoteAdjustmentKind.DELIVERY =>
         (direction a is? AdjustmentDirection.DEBIT) && (amount_min_vnd a =? amount_max_vnd a)
     | QuoteAdjustmentKind.SURCHARGE =>
         (direction a is? AdjustmentDirection.DEBIT) && bool_decide (is_Some (adjustment_approval_id a))
         && (amount_min_vnd a =? amount_max_vnd a)
     end.

Definition _validate_adjustments (adj : list QuoteAdjustmentSnapshot) (t : QuoteTotalsSnapshot) : bool :=
  unique (adjustment_id <$> adj) && forallb adjustment_ok adj
  && (sumZ (credit_min <$> adj) =? discount_amount_min_vnd t)
  && (sumZ (credit_max <$> adj) =? discount_amount_max_vnd t)
  && (sumZ (of_kind QuoteAdjustmentKind.DELIVERY <$> adj) =? default 0 (quoted_delivery_fee_vnd t))
  && (sumZ (of_kind QuoteAdjustmentKind.SURCHARGE <$> adj) =? approved_surcharge_vnd t).

Definition _validate_totals_and_adjustments (ls : list QuoteLineSnapshot) (adj : list QuoteAdjustmentSnapshot)
    (t : QuoteTotalsSnapshot) : bool :=
  let list_mins := sumZ (list_min <$> ls) in
  let list_maxs := sumZ (list_max <$> ls) in
  let discount_mins := sumZ (discount_min <$> ls) in
  let discount_maxs := sumZ (discount_max <$> ls) in
  let actual := [list_service_subtotal_min_vnd t; list_service_subtotal_max_vnd t; discount_amount_min_vnd t;
    discount_amount_max_vnd t; net_service_subtotal_min_vnd t; net_service_subtotal_max_vnd t] in
  (actual is? [list_mins; list_maxs; discount_mins; discount_maxs; list_mins - discount_mins;
               list_maxs - discount_maxs])
  && forallb _money actual && _money (approved_surcharge_vnd t)
  && match quoted_delivery_fee_vnd t with Some fee => _money fee | None => true end
  && _validate_adjustments adj t
  && match quoted_delivery_fee_vnd t with
     | None => (display_total_min_vnd t is? None) && (display_total_max_vnd t is? None)
     | Some fee =>
         let expected_min := net_service_subtotal_min_vnd t + fee + approved_surcharge_vnd t in
         let expected_max := net_service_subtotal_max_vnd t + fee + approved_surcharge_vnd t in
         (display_total_min_vnd t is? Some expected_min) && (display_total_max_vnd t is? Some expected_max)
         && _money expected_min && _money expected_max
     end.

Definition is_range (a : LineAmounts) : bool :=
  match a with RangeLineAmounts _ _ _ _ _ _ _ _ => true | ExactLineAmounts _ _ _ _ => false end.

(** [APPROVED_EXACT] without its evidence. *)
Definition lacks_final_evidence (d : QuoteRevisionData) : bool :=
  negb (length (required_approvals d) =? 0)%nat
  || bool_decide (quoted_delivery_fee_vnd (totals d) = None)
  || existsb (λ l, line_basis l is? QuantityBasis.CUSTOMER_ESTIMATE) (lines d)
  || ((status d is? QuoteRevisionStatus.ACCEPTED_FINAL)
      && existsb (λ c, config_type c is? "PROMOTION"%string) (configuration_snapshots d)
      && bool_decide (promotion_eligibility_event d = None))
  || (status d in? [QuoteRevisionStatus.DRAFT; QuoteRevisionStatus.PROVISIONAL;
        QuoteRevisionStatus.REVIEW_REQUIRED; QuoteRevisionStatus.ACKNOWLEDGED_ESTIMATE]).

Definition _validate_finality (d : QuoteRevisionData) : bool :=
  Bool.eqb (existsb (is_range ∘ amounts) (lines d)) (finality d is? QuoteFinality.RANGE)
  && negb ((finality d is? QuoteFinality.RANGE) && (status d is? QuoteRevisionStatus.ACCEPTED_FINAL))
  && negb ((finality d is? QuoteFinality.ESTIMATE)
           && ((status d is? QuoteRevisionStatus.ACCEPTED_FINAL) || bool_decide (is_Some (approval_id d))))
  && Bool.eqb (status d is? QuoteRevisionStatus.ACKNOWLEDGED_ESTIMATE)
       (bool_decide (is_Some (customer_estimate_acknowledged_at d)))
  && match customer_estimate_acknowledged_at d with
     | Some acknowledged => aware acknowledged && (finality d is? QuoteFinality.ESTIMATE)
                            && negb (dt_ltb acknowledged (priced_at d))
     | None => true
     end
  && negb ((finality d is? QuoteFinality.APPROVED_EXACT) && lacks_final_evidence d).

Definition _validate_revision (d : QuoteRevisionData) : bool :=
  (schema_version d =? 1) && _positive_int (revision d) && (currency d is? "VND"%string)
  && aware (priced_at d)
  && match valid_until d with Some v => aware v && dt_ltb (priced_at d) v | None => true end
  && (tax_treatment d is? "UNVERIFIED"%string)
  && negb (blank (calculation_engine_version d)) && HASH_PATTERN (calculation_engine_hash d)
  && _validate_configurations (configuration_snapshots d)
  && _validate_lines (lines d)
  && _validate_traces (calculation_traces d) (lines d)
  && _validate_totals_and_adjustments (lines d) (adjustments d) (totals d)
  && _validate_finality d
  && Bool.eqb (bool_decide (promotion_eligibility_event d = None))
       (bool_decide (promotion_eligibility_at d = None))
  && match promotion_eligibility_at d with Some v => aware v | None => true end
  && forallb CODE_PATTERN (reason_codes d ++ required_approvals d).

(** * Building *)

Definition by_key {A} (key : A → string) (a b : A) : bool := String.leb (key a) (key b).
(** [tuple(sorted(set(codes)))]. *)
Definition code_set (codes : list string) : list string := stable_sort String.leb (fromkeys codes).

Definition normalized (d : QuoteRevisionData) : QuoteRevisionData :=
  {| schema_version := schema_version d; quote_id := quote_id d; revision := revision d;
     finality := finality d; status := status d; priced_at := priced_at d; valid_until := valid_until d;
     currency := currency d;
     configuration_snapshots := stable_sort (by_key config_type) (configuration_snapshots d);
     lines := stable_sort (by_key quote_line_id) (lines d);
     adjustments := stable_sort (by_key adjustment_id) (adjustments d);
     totals := totals d;
     calculation_traces := stable_sort (by_key component) (calculation_traces d);
     calculation_engine_version := calculation_engine_version d;
     calculation_engine_hash := calculation_engine_hash d;
     promotion_eligibility_event := promotion_eligibility_event d;
     promotion_eligibility_at := promotion_eligibility_at d;
     reason_codes := code_set (reason_codes d); required_approvals := code_set (required_approvals d);
     approval_id := approval_id d; tax_treatment := tax_treatment d;
     customer_estimate_acknowledged_at := customer_estimate_acknowledged_at d |}.

Definition build_quote_snapshot (d : QuoteRevisionData) : snapped ImmutableQuoteSnapshot :=
  let n := normalized d in
  raise_if (negb (_validate_revision n)) SnapshotRefused ;;
  doc ← require_some (canonical_revision n) SnapshotRefused;
  Ok {| data := n; document := doc |}.

(** [verify_canonical_document] of a revision, and the snapshot rebuilt from its data. *)
Definition verify_revision_document (doc : RevisionDocument) : bool :=
  match canonical_revision (revision_content doc) with
  | Some rebuilt => revision_hash rebuilt is? revision_hash doc
  | None => false
  end.
Definition verify_quote_snapshot (s : ImmutableQuoteSnapshot) : bool :=
  verify_revision_document (document s)
  && match build_quote_snapshot (data s) with
     | Ok rebuilt => (document rebuilt is? document s) && (data rebuilt is? data s)
     | Err _ => false
     end.
End with_digests.
