(* ===== verification/QuoteComposition.v ===== *)
(** Composing quote revisions ([packages/domain/.../quote_composition.py]): a priced request
    becomes a revision, and a revision becomes an accepted one, one with its bands closed or
    one with a remedy credit reserved.  With it the programme of [promotion_policy.py] and
    the credit allocation of [remedies.py]. *)
From Stdlib Require Import Ascii String.
From S2P Require Import Prelude Catalog Clock Text PyDecimal Uuid.
From S2P Require Import Pricing Allocation Promotion Delivery RangePrices Quotes.
Local Open Scope laundry_scope.
Local Open Scope Z_scope.

(** * What a composition answers *)

(** An exception the function does not turn into a refusal. *)
Inductive Escape :=
| SnapshotEscape
| PricingEscape (e : PricingFailure)
| PromotionAssertion
| MalformedTrace.

(** [UnresolvedQuote] with its codes, or an escape; [Ok] is [ComposedQuote]. *)
Inductive Unpriced :=
| UnresolvedQuote (unresolved_codes : list string)
| Raised (e : Escape).
Notation composition := (result Unpriced).

Definition refuse {A} (code : string) : composition A := Err (UnresolvedQuote [code]).
Definition refuse_if (c : bool) (code : string) : composition unit :=
  if c then refuse code else Ok tt.
(** A [QuoteSnapshotError] that leaves the function, and one it answers as a refusal. *)
Definition or_escape {A} (r : snapped A) : composition A :=
  match r with Ok a => Ok a | Err _ => Err (Raised SnapshotEscape) end.
Definition or_refuse {A} (r : snapped A) : composition A :=
  match r with Ok a => Ok a | Err _ => refuse "VALIDATION_ERROR" end.

Definition error_value (c : ErrorCode.t) : string :=
  match c with
  | ErrorCode.VALIDATION_ERROR => "VALIDATION_ERROR" | ErrorCode.AMBIGUOUS_SERVICE => "AMBIGUOUS_SERVICE"
  | ErrorCode.INCOMPATIBLE_UNIT => "INCOMPATIBLE_UNIT" | ErrorCode.MISSING_REQUIRED_FACT => "MISSING_REQUIRED_FACT"
  | ErrorCode.PRICE_RULE_UNRESOLVED => "PRICE_RULE_UNRESOLVED"
  | ErrorCode.MEASUREMENT_POLICY_UNRESOLVED => "MEASUREMENT_POLICY_UNRESOLVED"
  | ErrorCode.PROMOTION_ELIGIBILITY_UNRESOLVED => "PROMOTION_ELIGIBILITY_UNRESOLVED"
  | ErrorCode.RANGE_PRICE_REQUIRES_HUMAN => "RANGE_PRICE_REQUIRES_HUMAN"
  | ErrorCode.DELIVERY_DISTANCE_UNVERIFIED => "DELIVERY_DISTANCE_UNVERIFIED"
  | ErrorCode.DELIVERY_FEE_REQUIRES_HUMAN => "DELIVERY_FEE_REQUIRES_HUMAN"
  | ErrorCode.SLOT_APPROVAL_REQUIRED => "SLOT_APPROVAL_REQUIRED"
  | ErrorCode.CUSTOMER_RECONFIRMATION_REQUIRED => "CUSTOMER_RECONFIRMATION_REQUIRED"
  | ErrorCode.HUMAN_APPROVAL_REQUIRED => "HUMAN_APPROVAL_REQUIRED"
  | ErrorCode.INVALID_STATE_TRANSITION => "INVALID_STATE_TRANSITION" | ErrorCode.STALE_VERSION => "STALE_VERSION"
  | ErrorCode.IDEMPOTENCY_CONFLICT => "IDEMPOTENCY_CONFLICT" | ErrorCode.SUPPRESSED_CONTACT => "SUPPRESSED_CONTACT"
  | ErrorCode.POLICY_DENIED => "POLICY_DENIED" | ErrorCode.TOOL_UNAVAILABLE => "TOOL_UNAVAILABLE"
  | ErrorCode.RATE_LIMITED => "RATE_LIMITED"
  end.
Definition promotion_reason_value (r : PromotionReason.t) : string :=
  match r with
  | PromotionReason.PROMOTION_APPLIED => "PROMOTION_APPLIED"
  | PromotionReason.PROMOTION_OUTSIDE_INTERVAL => "PROMOTION_OUTSIDE_INTERVAL"
  | PromotionReason.PROMOTION_NOT_TARGETED => "PROMOTION_NOT_TARGETED"
  | PromotionReason.PROMOTION_TARGET_REQUIRES_HUMAN => "PROMOTION_TARGET_REQUIRES_HUMAN"
  | PromotionReason.PROMOTION_STACKING_REQUIRES_HUMAN => "PROMOTION_STACKING_REQUIRES_HUMAN"
  | PromotionReason.PROMOTION_ELIGIBILITY_UNRESOLVED => "PROMOTION_ELIGIBILITY_UNRESOLVED"
  end.

(** * The published programme *)

Record PromotionServiceRule := {
  ruled_service_code : string;
  ruled_resolution : PromotionResolution.t;
  ruled_rate_bps : option Z;
}.
Record PromotionProgram := {
  policy : PromotionPolicy;
  services : gmap string PromotionServiceRule;
}.
Record PublishedPromotionProgram := {
  program : PromotionProgram;
  published_version_id : Z;
  published_version : Z;
  published_hash : string;
}.

Definition rule_for (p : PromotionProgram) (code : string) : PromotionServiceRule :=
  match services p !! code with
  | Some rule => rule
  | None => {| ruled_service_code := code; ruled_resolution := PromotionResolution.NOT_ELIGIBLE;
               ruled_rate_bps := None |}
  end.

(** * Remedy credits on a quote *)

Record RemedyCredit := MkRemedyCredit {
  credit_id : Z;
  credit_amount_vnd : Z;
  credit_policy_version_id : Z;
  credit_approval_id : option Z;
}.
#[export] Instance remedy_credit_eq_dec : EqDecision RemedyCredit.
Proof. solve_decision. Defined.

Record CreditAllocation := {
  per_line_vnd : dict string Z;
  total_vnd : Z;
  credit_allocation : LargestRemainderAllocation;
}.

(** [allocate_remedy_credit]; the error is the ceiling of [RemedyRefused], if it names one. *)
Definition allocate_remedy_credit (line_weights_vnd : dict string Z) (credit_vnd : Z)
    : result (option Z) CreditAllocation :=
  raise_if (negb (Quotes._money credit_vnd) || (credit_vnd =? 0)) None ;;
  let weights := stable_sort id_leb line_weights_vnd in
  let available := sumZ weights.*2 in
  raise_if ((length weights =? 0)%nat || (available <=? 0) || (available <? credit_vnd))
    (Some (Z.max available 0)) ;;
  let allocation := allocate_largest_remainder weights credit_vnd available credit_vnd in
  Ok {| per_line_vnd := zip (ordered_ids allocation) (final_allocations_vnd allocation);
        total_vnd := credit_vnd; credit_allocation := allocation |}.

(** * Constants *)

Definition QUOTE_ENGINE_VERSION : string := "quote-engine-v1".
Definition PRICING_COMPONENT_VERSION : string := "pricing-v1".
Definition DELIVERY_COMPONENT_VERSION : string := "delivery-v1".
Definition PROMOTION_COMPONENT : string := "PROMOTION".
Definition PROMOTION_COMPONENT_VERSION : string := "promotion-v1".
Definition PROMOTION_SNAPSHOT_CONFIG_TYPE : string := "PROMOTION".
Definition REMEDY_CREDIT_COMPONENT_VERSION : string := "remedy-credit-v1".
Definition REMEDY_CREDIT_ADJUSTMENT_PREFIX : string := "remedy-credit-".
Definition REMEDY_CREDIT_RELEASED_COMPONENT_PREFIX : string := "REMEDY_CREDIT_RELEASED_".
Definition REMEDY_CREDIT_APPLIED : string := "REMEDY_CREDIT_APPLIED".
Definition REMEDY_CREDIT_RELEASED : string := "REMEDY_CREDIT_RELEASED".
Definition PROMOTION_NOT_PUBLISHED : string := "PROMOTION_NOT_PUBLISHED".
Definition PROMOTION_PENDING_BAND_CLOSE : string := "PROMOTION_PENDING_BAND_CLOSE".
Definition PROMOTION_CHANGED_SINCE_QUOTE : string := "PROMOTION_CHANGED_SINCE_QUOTE".
Definition PROMOTION_PUBLISHED_SINCE_APPROVAL : string := "PROMOTION_PUBLISHED_SINCE_APPROVAL".
Definition DELIVERY_FEE_UNRESOLVED : string := "DELIVERY_FEE_UNRESOLVED".
Definition REMEDY_CREDIT_REASON_CODE : string := "REMEDY_CREDIT_DEC_004".
Definition QUOTE_VALIDITY : timedelta := us_per_day.
Definition BASE_REASON_CODES : list string := ["TAX_TREATMENT_UNVERIFIED"%string].
Definition BASE_REQUIRED_APPROVALS : list string := [].
Definition PROMOTION_ADJUSTMENT_ID : string := "promotion".
Definition ACCEPTANCE_ELIGIBILITY_EVENT : PromotionEligibilityEvent.t :=
  PromotionEligibilityEvent.STORE_COMMERCIAL_ACCEPTED.
Definition PROMOTION_REASON_CODES : list string :=
  (promotion_reason_value <$>
    [PromotionReason.PROMOTION_APPLIED; PromotionReason.PROMOTION_OUTSIDE_INTERVAL;
     PromotionReason.PROMOTION_NOT_TARGETED; PromotionReason.PROMOTION_TARGET_REQUIRES_HUMAN;
     PromotionReason.PROMOTION_STACKING_REQUIRES_HUMAN; PromotionReason.PROMOTION_ELIGIBILITY_UNRESOLVED])
  ++ [PROMOTION_NOT_PUBLISHED; PROMOTION_PENDING_BAND_CLOSE].
Definition _UNACCEPTABLE_STATUSES : list QuoteRevisionStatus.t :=
  [QuoteRevisionStatus.ACCEPTED_FINAL; QuoteRevisionStatus.SUPERSEDED; QuoteRevisionStatus.EXPIRED;
   QuoteRevisionStatus.REJECTED].
Definition _UNCREDITABLE_STATUSES : list QuoteRevisionStatus.t :=
  QuoteRevisionStatus.APPROVED :: _UNACCEPTABLE_STATUSES.

Record RequestedLine := {
  requested_service_code : string;
  requested_quantity : string;
  requested_unit : Unit.t;
  requested_basis : QuantityBasis.t;
}.
Record PricebookProvenance := {
  pricebook_version_id : Z;
  pricebook_version : Z;
  pricebook_hash : string;
}.

Definition _engine_line (l : RequestedLine) : PriceLine :=
  {| service_code := requested_service_code l; quantity := requested_quantity l;
     line_unit := requested_unit l; quantity_basis := requested_basis l |}.

Definition text_of (t : list ascii) : string := string_of_list_ascii t.

Section composition.
Context `{!Digests}.

(** [QUOTE_ENGINE_HASH]. *)
Definition QUOTE_ENGINE_HASH : string := HASH_PREFIX +:+ engine_digest.

(** * Small projections *)

Definition _published_band (r : PriceResult) : option PriceBand :=
  if negb (Pricing.finality r is? QuoteFinality.RANGE) || bool_decide (is_Some (Pricing.list_amount_vnd r))
  then None
  else match result_min_vnd r, result_max_vnd r with
       | Some lo, Some hi => Some (MkPriceBand lo hi)
       | _, _ => None
       end.

Definition unresolved_reason (chosen : gmap string Z) (present_as_band : bool)
    (code : string) (r : PriceResult) : list string :=
  match _published_band r with
  | Some _ => if bool_decide (is_Some (chosen !! code)) || present_as_band then []
              else [error_value ErrorCode.RANGE_PRICE_REQUIRES_HUMAN]
  | None => if requires_human r || negb (Pricing.finality r is? QuoteFinality.ESTIMATE)
            then [error_value ErrorCode.RANGE_PRICE_REQUIRES_HUMAN]
            else match Pricing.list_amount_vnd r with
                 | None => [error_value ErrorCode.PRICE_RULE_UNRESOLVED]
                 | Some _ => []
                 end
  end.
Definition _unresolved_reasons (results : dict string PriceResult) (chosen : gmap string Z)
    (present_as_band : bool) : list string :=
  code_set (concat ((λ kv, unresolved_reason chosen present_as_band kv.1 kv.2) <$> results)).

Definition _finality (banded closed : bool) : QuoteFinality.t * QuoteRevisionStatus.t :=
  if banded then (QuoteFinality.RANGE, QuoteRevisionStatus.REVIEW_REQUIRED)
  else if closed then (QuoteFinality.APPROVED_EXACT, QuoteRevisionStatus.APPROVED)
  else (QuoteFinality.ESTIMATE, QuoteRevisionStatus.REVIEW_REQUIRED).

Definition _exactness_refusal (ls : list QuoteLineSnapshot) (fee : option Z) : option string :=
  if existsb (λ l, line_basis l is? QuantityBasis.CUSTOMER_ESTIMATE) ls
  then Some "QUOTE_QUANTITY_NOT_MEASURED"%string
  else match fee with None => Some "QUOTE_DELIVERY_FEE_UNRESOLVED"%string | Some _ => None end.

Definition _single_basis (r : PriceResult) : option QuantityBasis.t :=
  match fromkeys (quantity_bases (Pricing.trace r)) with [b] => Some b | _ => None end.

(** [_line_list]; [None] is its [QuoteSnapshotError]. *)
Definition _line_list (l : QuoteLineSnapshot) : option Z :=
  match amounts l with ExactLineAmounts _ v _ _ => Some v | RangeLineAmounts _ _ _ _ _ _ _ _ => None end.

Definition _outstanding_approvals (sources : list (list string)) : list string :=
  (λ action, "APPROVAL_OUTSTANDING_" +:+ action)%string <$> fromkeys (concat sources).
Definition refuse_outstanding (codes : list string) : composition unit :=
  if (length codes =? 0)%nat then Ok tt else Err (UnresolvedQuote codes).

Definition _revised_reason_codes (inherited recomputed : list string) : list string :=
  filter (λ c, c ∉ PROMOTION_REASON_CODES) inherited ++ recomputed.
Definition _revised_traces (inherited recomputed : list CalculationTraceSnapshot)
    : list CalculationTraceSnapshot :=
  filter (λ t, component t ∉ component <$> recomputed) inherited ++ recomputed.

(** * Delivery on a revision *)

Definition _delivery_outcome (delivery : DeliveryResult)
    : option Z * list QuoteAdjustmentSnapshot * list string :=
  let reasons := DeliveryReason.value <$> Delivery.reason_codes delivery in
  match fee_outcome delivery, delivery_fee_vnd delivery with
  | PolicyOutcome.ALLOW, Some fee =>
      if fee =? 0 then (Some fee, [], reasons)
      else (Some fee,
            [{| adjustment_id := "delivery"; kind := QuoteAdjustmentKind.DELIVERY;
                direction := AdjustmentDirection.DEBIT; amount_min_vnd := fee; amount_max_vnd := fee;
                reason_code := DeliveryFeeResolution.value (fee_resolution delivery);
                source_version_id := None; adjustment_approval_id := None |}], reasons)
  | _, _ => (None, [], DELIVERY_FEE_UNRESOLVED :: reasons)
  end.

Definition _delivery_trace (delivery : DeliveryResult) : TraceContent :=
  let t := Delivery.trace delivery in
  DeliveryTrace
    {| delivered_mode := trace_fulfillment_mode t; delivered_distance_m := trace_verified_distance_m t;
       delivered_zone := distance_zone t; delivered_fee_rule := fee_rule t;
       delivered_resolution := fee_resolution delivery; delivered_outcome := fee_outcome delivery;
       delivered_fee_vnd := delivery_fee_vnd delivery; delivered_candidate_vnd := manual_fee_candidate_vnd t;
       delivered_acknowledged := trace_customer_acknowledged_manual_fee t;
       delivered_job_required := trace_delivery_job_required t;
       delivered_dispatch_authorized := dispatch_authorized t |}.

(** * The promotion of a revision *)

(** [frozen_promotion]: the payload of the PROMOTION trace, and [Raised] when that trace is
    not a promotion's. *)
Definition frozen_promotion (priced : ImmutableQuoteSnapshot) : composition (option PromotionPayload) :=
  match list_find (λ t, component t = PROMOTION_COMPONENT) (calculation_traces (data priced)) with
  | None => Ok None
  | Some (_, t) => match content (captured t) with
                   | PromotionTrace p => Ok (Some p)
                   | _ => Err (Raised MalformedTrace)
                   end
  end.

Record PromotionOutcome := {
  promoted_lines : list QuoteLineSnapshot;
  promoted_discount_vnd : Z;
  promoted_adjustments : list QuoteAdjustmentSnapshot;
  promoted_traces : list CalculationTraceSnapshot;
  promoted_configurations : list ConfigurationSnapshotReference;
  promoted_reasons : list string;
  promoted_required_approvals : list string;
  promoted_event : option PromotionEligibilityEvent.t;
  promoted_at : option datetime;
}.

Definition _other_promotion_present (adj : list QuoteAdjustmentSnapshot) : bool :=
  existsb (λ a, (direction a is? AdjustmentDirection.CREDIT)
                && negb (adjustment_id a is? PROMOTION_ADJUSTMENT_ID)) adj.

Definition undiscounted (a : PromotionLineAdjustment) : PromotionLineAdjustment :=
  {| adj_line_id := adj_line_id a; adj_list_amount_vnd := adj_list_amount_vnd a;
     adj_rate_bps := adj_rate_bps a; discount_vnd := 0; net_amount_vnd := adj_list_amount_vnd a;
     adj_resolution := adj_resolution a |}.
Definition without_groups (t : PromotionCalculationTrace) : PromotionCalculationTrace :=
  {| policy_code := policy_code t; interval_start_at := interval_start_at t;
     interval_end_at_exclusive := interval_end_at_exclusive t;
     configured_eligibility_event := configured_eligibility_event t;
     observed_eligibility_event := observed_eligibility_event t;
     observed_eligibility_at := observed_eligibility_at t;
     candidate_reference_at := candidate_reference_at t;
     candidate_inside_interval := candidate_inside_interval t;
     eligibility_resolved := eligibility_resolved t; allocation_groups := [];
     Promotion.rounding := Promotion.rounding t; delivery_discount_vnd := delivery_discount_vnd t |}.
Definition _withheld_by_stacking (r : PromotionResult) : PromotionResult :=
  {| Promotion.status := Promotion.status r; outcome := outcome r;
     list_service_subtotal_vnd := list_service_subtotal_vnd r; eligible_service_subtotal_vnd := 0;
     discount_amount_vnd := 0; net_service_subtotal_vnd := list_service_subtotal_vnd r;
     Promotion.delivery_fee_vnd := Promotion.delivery_fee_vnd r;
     display_total_vnd := list_service_subtotal_vnd r + Promotion.delivery_fee_vnd r;
     eligibility_event := eligibility_event r; eligibility_at := eligibility_at r;
     Promotion.adjustments := undiscounted <$> Promotion.adjustments r;
     Promotion.reason_codes :=
       filter (λ c, c ≠ PromotionReason.PROMOTION_APPLIED) (Promotion.reason_codes r);
     Promotion.trace := without_groups (Promotion.trace r) |}.

Definition _promotion_line (l : QuoteLineSnapshot) (rule : PromotionServiceRule) : PromotionLine :=
  {| line_id := quote_line_id l; Promotion.list_amount_vnd := list_min l;
     resolution := ruled_resolution rule; rate_bps := ruled_rate_bps rule |}.

Definition _promotion_reasons (r : PromotionResult) (evaluation_at policy_end : datetime) : list string :=
  let reasons := promotion_reason_value <$> Promotion.reason_codes r in
  if dt_ltb evaluation_at policy_end then reasons
  else
    let outside := promotion_reason_value PromotionReason.PROMOTION_OUTSIDE_INTERVAL in
    let ended := filter (λ c, c ≠ promotion_reason_value PromotionReason.PROMOTION_ELIGIBILITY_UNRESOLVED)
                   reasons in
    if outside in? ended then ended else ended ++ [outside].

(** Times are written as [_moment_text] of their instants. *)
Definition _promotion_trace (r : PromotionResult) (published : PublishedPromotionProgram) : PromotionPayload :=
  let p := policy (program published) in
  let t := Promotion.trace r in
  {| traced_policy_code := code p; configuration_version_id := published_version_id published;
     configuration_version := published_version published;
     traced_interval_start_at := instant (start_at p);
     traced_interval_end_at_exclusive := instant (end_at_exclusive p);
     traced_stacking_allowed := stacking_allowed p; traced_status := Promotion.status r;
     traced_outcome := outcome r; traced_configured_event := configured_eligibility_event t;
     traced_observed_event := observed_eligibility_event t;
     traced_observed_at := instant <$> observed_eligibility_at t;
     traced_candidate_reference_at := instant (candidate_reference_at t);
     traced_inside_interval := candidate_inside_interval t;
     traced_eligibility_resolved := eligibility_resolved t;
     traced_list_subtotal_vnd := list_service_subtotal_vnd r;
     traced_eligible_subtotal_vnd := eligible_service_subtotal_vnd r;
     traced_discount_vnd := discount_amount_vnd r; traced_net_subtotal_vnd := net_service_subtotal_vnd r;
     traced_groups := allocation_groups t; traced_lines := Promotion.adjustments r;
     traced_reasons := Promotion.reason_codes r |}.

Definition unpromoted (lines : list QuoteLineSnapshot) (references : list ConfigurationSnapshotReference)
    (reason : string) : PromotionOutcome :=
  {| promoted_lines := lines; promoted_discount_vnd := 0; promoted_adjustments := [];
     promoted_traces := []; promoted_configurations := references; promoted_reasons := [reason];
     promoted_required_approvals := []; promoted_event := None; promoted_at := None |}.

Definition promotion_reference (published : PublishedPromotionProgram) : ConfigurationSnapshotReference :=
  {| config_type := PROMOTION_SNAPSHOT_CONFIG_TYPE; version_id := published_version_id published;
     version := published_version published; snapshot_hash := published_hash published |}.

Definition with_amounts (l : QuoteLineSnapshot) (a : LineAmounts) : QuoteLineSnapshot :=
  {| quote_line_id := quote_line_id l; quote_service_code := quote_service_code l;
     service_version_id := service_version_id l; line_basis := line_basis l;
     line_quantity := line_quantity l; snapshot_unit := snapshot_unit l; amounts := a;
     price_trace_hash := price_trace_hash l |}.

(** A line with the discount the engine allocated to it; a zero leaves the line alone. *)
Definition discounted (allocated : dict string Z) (l : QuoteLineSnapshot) : QuoteLineSnapshot :=
  match amounts l, dict_get allocated (quote_line_id l) with
  | ExactLineAmounts unit_price listed _ _, Some d =>
      if d =? 0 then l else with_amounts l (ExactLineAmounts unit_price listed d (listed - d))
  | _, _ => l
  end.

Definition promotion_row (published : PublishedPromotionProgram) (discount : Z)
    : list QuoteAdjustmentSnapshot :=
  if discount =? 0 then []
  else [{| adjustment_id := PROMOTION_ADJUSTMENT_ID; kind := QuoteAdjustmentKind.PROMOTION;
           direction := AdjustmentDirection.CREDIT; amount_min_vnd := discount;
           amount_max_vnd := discount; reason_code := code (policy (program published));
           source_version_id := Some (published_version_id published);
           adjustment_approval_id := None |}].

(** A [PromotionError] is the outcome's [refusal]; every caller answers it alike, so it is
    the refusal itself here. *)
Definition evaluated (r : promoted PromotionResult) : composition PromotionResult :=
  match r with
  | Ok r => Ok r
  | Err (PromotionError c) => refuse (error_value c)
  | Err Promotion.AssertionError => Err (Raised PromotionAssertion)
  end.

Definition _promotion_outcome (published : option PublishedPromotionProgram)
    (lines : list QuoteLineSnapshot) (adjustments : list QuoteAdjustmentSnapshot) (banded : bool)
    (evaluation_at : datetime) (eligibility_at : option datetime) : composition PromotionOutcome :=
  match published with
  | None => Ok (unpromoted lines [] PROMOTION_NOT_PUBLISHED)
  | Some published =>
      if banded then Ok (unpromoted lines [promotion_reference published] PROMOTION_PENDING_BAND_CLOSE)
      else
        refuse_if (existsb (is_range ∘ amounts) lines) (error_value ErrorCode.VALIDATION_ERROR) ;;
        let p := policy (program published) in
        let promotion_lines :=
          (λ l, _promotion_line l (rule_for (program published) (quote_service_code l))) <$> lines in
        result ← evaluated (evaluate_promotion p promotion_lines evaluation_at
                   (match eligibility_at with None => None | Some _ => Some ACCEPTANCE_ELIGIBILITY_EVENT end)
                   eligibility_at 0 (_other_promotion_present adjustments));
        let r := if PromotionReason.PROMOTION_STACKING_REQUIRES_HUMAN in? Promotion.reason_codes result
                 then _withheld_by_stacking result else result in
        let allocated := (λ a, (adj_line_id a, discount_vnd a)) <$> Promotion.adjustments r in
        t ← or_escape (capture_calculation_trace PROMOTION_COMPONENT PROMOTION_COMPONENT_VERSION
              (PromotionTrace (_promotion_trace r published)));
        Ok {| promoted_lines := discounted allocated <$> lines;
              promoted_discount_vnd := discount_amount_vnd r;
              promoted_adjustments := promotion_row published (discount_amount_vnd r);
              promoted_traces := [t]; promoted_configurations := [promotion_reference published];
              promoted_reasons := _promotion_reasons r evaluation_at (end_at_exclusive p);
              promoted_required_approvals := [];
              promoted_event := eligibility_event r; promoted_at := Promotion.eligibility_at r |}
  end.

(** * Composing a fresh revision *)

(** The request of [_compose_fresh]. *)
Record QuoteRequest := {
  request_quote_id : Z;
  request_revision : Z;
  rules : gmap string PriceRule;
  requested : list RequestedLine;
  pricebook : PricebookProvenance;
  request_priced_at : datetime;
  fulfillment_mode : FulfillmentMode.t;
  verified_distance_m : option Z;
  planned_transport_weight_kg : option string;
  approved_manual_fee_vnd : option Z;
  customer_acknowledged_manual_fee : bool;
  range_prices : option RangePriceAttestation;
  present_range_as_band : bool;
  promotion : option PublishedPromotionProgram;
}.

Definition priced_lines (r : priced (dict string PriceResult)) : composition (dict string PriceResult) :=
  match r with
  | Ok d => Ok d
  | Err (PricingError c) => refuse (error_value c)
  | Err e => Err (Raised (PricingEscape e))
  end.
Definition ranged_amounts (r : ranged (gmap string Z)) : composition (gmap string Z) :=
  match r with Ok m => Ok m | Err (reason, _) => refuse (RangePriceRefusal.value reason) end.
Definition delivered_result (r : delivered DeliveryResult) : composition DeliveryResult :=
  match r with Ok d => Ok d | Err c => refuse (error_value c) end.

(** The bands of the priced services. *)
Definition published_bands (results : dict string PriceResult) : gmap string PriceBand :=
  list_to_map (omap (λ kv, b ← _published_band kv.2; Some (kv.1, b)) results).

(** The amounts a person chose, when they attest to some. *)
Definition chosen_amounts (q : QuoteRequest) (results : dict string PriceResult) : composition (gmap string Z) :=
  match range_prices q with
  | None => Ok ∅
  | Some a =>
      amounts ← ranged_amounts (resolve_range_prices (published_bands results)
                  (pricebook_version_id (pricebook q)) (pricebook_version (pricebook q)) a);
      refuse_if (negb (bool_decide (amounts = ∅)) && bool_decide (attested_approval_id a = None))
        (error_value ErrorCode.HUMAN_APPROVAL_REQUIRED) ;;
      Ok amounts
  end.

Definition _service_version_id (p : PricebookProvenance) (code : string) : Z :=
  service_uuid (pricebook_version_id p) code.

(** The amounts of one service's line: its band, the amount chosen in it, or its price. *)
Definition line_amounts (chosen : gmap string Z) (code : string) (r : PriceResult) : composition LineAmounts :=
  match _published_band r, chosen !! code with
  | Some band, None =>
      match range_min_unit_vnd (Pricing.trace r), range_max_unit_vnd (Pricing.trace r) with
      | Some lo, Some hi =>
          Ok (RangeLineAmounts lo hi (minimum_vnd band) (maximum_vnd band) 0 0
                (minimum_vnd band) (maximum_vnd band))
      | _, _ => refuse (error_value ErrorCode.PRICE_RULE_UNRESOLVED)
      end
  | _, _ =>
      match default (Pricing.list_amount_vnd r) (Some <$> chosen !! code) with
      | Some amount => Ok (ExactLineAmounts (trace_unit_price_vnd (Pricing.trace r)) amount 0 amount)
      | None => refuse (error_value ErrorCode.PRICE_RULE_UNRESOLVED)
      end
  end.

(** One pass of the loop over the sorted services. *)
Definition compose_line (p : PricebookProvenance) (chosen : gmap string Z)
    (indexed : nat * (string * PriceResult)) : composition (QuoteLineSnapshot * CalculationTraceSnapshot) :=
  let '(index, (code, r)) := indexed in
  basis ← require_some (_single_basis r)
            (UnresolvedQuote [error_value ErrorCode.MEASUREMENT_POLICY_UNRESOLVED]);
  a ← line_amounts chosen code r;
  t ← or_escape (capture_calculation_trace ("PRICING_" +:+ code) PRICING_COMPONENT_VERSION
                   (PricingTrace (Pricing.trace r)));
  Ok ({| quote_line_id := "line-" +:+ text_of (str (Z.of_nat index)); quote_service_code := code;
         service_version_id := _service_version_id p code; line_basis := basis;
         line_quantity := aggregate_quantity (Pricing.trace r); snapshot_unit := trace_unit (Pricing.trace r);
         amounts := a; price_trace_hash := trace_hash t |}, t).

Definition enumerated {A} (l : list A) : list (nat * A) := zip (seq 1 (length l)) l.
Definition sorted_services (results : dict string PriceResult) : list (string * PriceResult) :=
  stable_sort (λ a b, String.leb a.1 b.1) results.

Definition pricebook_reference (p : PricebookProvenance) : ConfigurationSnapshotReference :=
  {| config_type := "PRICEBOOK"; version_id := pricebook_version_id p; version := pricebook_version p;
     snapshot_hash := pricebook_hash p |}.

(** Totals of lines at their list amounts, less a discount, with a fee and no surcharge. *)
Definition composed_totals (minimum maximum discount : Z) (fee : option Z) (surcharge : Z)
    : QuoteTotalsSnapshot :=
  {| list_service_subtotal_min_vnd := minimum; list_service_subtotal_max_vnd := maximum;
     discount_amount_min_vnd := discount; discount_amount_max_vnd := discount;
     net_service_subtotal_min_vnd := minimum - discount; net_service_subtotal_max_vnd := maximum - discount;
     quoted_delivery_fee_vnd := fee; approved_surcharge_vnd := surcharge;
     display_total_min_vnd := (λ fee, minimum - discount + fee + surcharge) <$> fee;
     display_total_max_vnd := (λ fee, maximum - discount + fee + surcharge) <$> fee |}.

Definition _compose_fresh (q : QuoteRequest) : composition ImmutableQuoteSnapshot :=
  refuse_if (length (requested q) =? 0)%nat (error_value ErrorCode.MISSING_REQUIRED_FACT) ;;
  results ← priced_lines (price_lines (rules q) (_engine_line <$> requested q));
  chosen ← chosen_amounts q results;
  let has_chosen := negb (bool_decide (chosen = ∅)) in
  let unresolved := _unresolved_reasons results chosen
                      (present_range_as_band q && bool_decide (range_prices q = None)) in
  refuse_outstanding unresolved ;;
  composed ← traverse (compose_line (pricebook q) chosen) (enumerated (sorted_services results));
  let lines := composed.*1 in
  let banded := existsb (is_range ∘ amounts) lines in
  delivery ← delivered_result (evaluate_delivery (fulfillment_mode q) (verified_distance_m q)
               (planned_transport_weight_kg q) (approved_manual_fee_vnd q) (customer_acknowledged_manual_fee q));
  let '(fee, delivery_adjustments, delivery_reasons) := _delivery_outcome delivery in
  delivery_trace ← or_escape (capture_calculation_trace "DELIVERY" DELIVERY_COMPONENT_VERSION
                     (_delivery_trace delivery));
  (match (if has_chosen then _exactness_refusal lines fee else None) with
   | Some code => refuse code
   | None => Ok tt
   end) ;;
  promoted ← _promotion_outcome (promotion q) lines delivery_adjustments banded (request_priced_at q) None;
  let outstanding := _outstanding_approvals [BASE_REQUIRED_APPROVALS; promoted_required_approvals promoted] in
  (if has_chosen then refuse_outstanding outstanding else Ok tt) ;;
  let totals := composed_totals (sumZ (list_min <$> lines)) (sumZ (list_max <$> lines))
                  (promoted_discount_vnd promoted) fee 0 in
  let '(finality, status) := _finality banded has_chosen in
  or_refuse (build_quote_snapshot
    {| schema_version := 1; quote_id := request_quote_id q; revision := request_revision q;
       finality := finality; status := status; priced_at := request_priced_at q;
       valid_until := Some (dt_add (request_priced_at q) QUOTE_VALIDITY); currency := "VND";
       configuration_snapshots := pricebook_reference (pricebook q) :: promoted_configurations promoted;
       lines := promoted_lines promoted;
       adjustments := delivery_adjustments ++ promoted_adjustments promoted; totals := totals;
       calculation_traces := (composed.*2 ++ [delivery_trace]) ++ promoted_traces promoted;
       calculation_engine_version := QUOTE_ENGINE_VERSION; calculation_engine_hash := QUOTE_ENGINE_HASH;
       promotion_eligibility_event := promoted_event promoted;
       promotion_eligibility_at := promoted_at promoted;
       reason_codes := BASE_REASON_CODES ++ delivery_reasons ++ promoted_reasons promoted
                       ++ (if banded then [error_value ErrorCode.RANGE_PRICE_REQUIRES_HUMAN] else []);
       required_approvals := BASE_REQUIRED_APPROVALS ++ promoted_required_approvals promoted;
       approval_id := if has_chosen then a ← range_prices q; attested_approval_id a else None;
       tax_treatment := "UNVERIFIED"; customer_estimate_acknowledged_at := None |}).

(** * Deriving the accepted revision *)

(** [_promotion_reference] and the PRICEBOOK reference, by their type. *)
Definition reference_of (type : string) (priced : ImmutableQuoteSnapshot)
    : option ConfigurationSnapshotReference :=
  snd <$> list_find (λ c, config_type c = type) (configuration_snapshots (data priced)).
Definition _promotion_reference : ImmutableQuoteSnapshot → option ConfigurationSnapshotReference :=
  reference_of PROMOTION_SNAPSHOT_CONFIG_TYPE.

(** Another version, or none, is published than the one the revision cites. *)
Definition programme_changed (reference : option ConfigurationSnapshotReference)
    (promotion : option PublishedPromotionProgram) : bool :=
  match reference, promotion with
  | Some c, Some p => negb (published_version_id p =? version_id c)
  | Some _, None => true
  | None, _ => false
  end.

Definition _reverified_eligibility (priced : ImmutableQuoteSnapshot)
    (promotion : option PublishedPromotionProgram) (accepted_at : option datetime)
    : composition (option PromotionOutcome) :=
  let reference := _promotion_reference priced in
  match reference, promotion with
  | None, None => Ok None
  | _, _ =>
      match accepted_at with
      | None => refuse (error_value ErrorCode.MISSING_REQUIRED_FACT)
      | Some at_ =>
          refuse_if (programme_changed reference promotion) PROMOTION_CHANGED_SINCE_QUOTE ;;
          frozen ← frozen_promotion priced;
          refuse_if (bool_decide (is_Some reference) && bool_decide (frozen = None))
            (error_value ErrorCode.VALIDATION_ERROR) ;;
          recomputed ← _promotion_outcome promotion (lines (data priced)) (adjustments (data priced)) false
                         at_ (Some at_);
          refuse_if (negb (promoted_discount_vnd recomputed =? default 0 (traced_discount_vnd <$> frozen)))
            PROMOTION_CHANGED_SINCE_QUOTE ;;
          match reference with
          | None => Ok None
          | Some _ =>
              refuse_if (bool_decide (promoted_event recomputed = None))
                (error_value ErrorCode.PROMOTION_ELIGIBILITY_UNRESOLVED) ;;
              Ok (Some recomputed)
          end
      end
  end.

(** The revision acceptance derives: the priced one, final, with the promotion restated. *)
Definition accepted_data (d : QuoteRevisionData) (revision : Z) (verified : option PromotionOutcome)
    : QuoteRevisionData :=
  {| schema_version := schema_version d; quote_id := quote_id d; revision := revision;
     finality := QuoteFinality.APPROVED_EXACT; status := QuoteRevisionStatus.ACCEPTED_FINAL;
     priced_at := priced_at d; valid_until := valid_until d; currency := currency d;
     configuration_snapshots := configuration_snapshots d; lines := lines d;
     adjustments := adjustments d; totals := totals d;
     calculation_traces := match verified with
                           | None => calculation_traces d
                           | Some v => _revised_traces (calculation_traces d) (promoted_traces v)
                           end;
     calculation_engine_version := calculation_engine_version d;
     calculation_engine_hash := calculation_engine_hash d;
     promotion_eligibility_event := v ← verified; promoted_event v;
     promotion_eligibility_at := v ← verified; promoted_at v;
     reason_codes := match verified with
                     | None => reason_codes d
                     | Some v => _revised_reason_codes (reason_codes d) (promoted_reasons v)
                     end;
     required_approvals := required_approvals d; approval_id := approval_id d;
     tax_treatment := tax_treatment d;
     customer_estimate_acknowledged_at := customer_estimate_acknowledged_at d |}.

Definition accept_quote_revision (priced : ImmutableQuoteSnapshot) (revision : Z)
    (promotion : option PublishedPromotionProgram) (accepted_at : option datetime)
    : composition ImmutableQuoteSnapshot :=
  let d := data priced in
  refuse_if (status d in? _UNACCEPTABLE_STATUSES) "QUOTE_ALREADY_FINAL" ;;
  refuse_if (finality d is? QuoteFinality.RANGE) (error_value ErrorCode.RANGE_PRICE_REQUIRES_HUMAN) ;;
  refuse_if (existsb (λ l, line_basis l is? QuantityBasis.CUSTOMER_ESTIMATE) (lines d))
    "QUOTE_QUANTITY_NOT_MEASURED" ;;
  refuse_if (bool_decide (quoted_delivery_fee_vnd (totals d) = None)) "QUOTE_DELIVERY_FEE_UNRESOLVED" ;;
  verified ← _reverified_eligibility priced promotion accepted_at;
  refuse_outstanding (_outstanding_approvals
    [required_approvals d; match verified with None => [] | Some v => promoted_required_approvals v end]) ;;
  or_refuse (build_quote_snapshot (accepted_data d revision verified)).

(** * Closing the bands of a stored revision *)

Definition stored_band (bands : gmap string PriceBand) (l : QuoteLineSnapshot)
    : option (gmap string PriceBand) :=
  match amounts l with
  | ExactLineAmounts _ _ _ _ => Some bands
  | RangeLineAmounts _ _ _ _ d1 d2 n1 n2 =>
      if bool_decide (is_Some (bands !! quote_service_code l)) || negb (d1 =? 0) || negb (d2 =? 0) then None
      else Some (<[quote_service_code l := MkPriceBand n1 n2]> bands)
  end.
Fixpoint stored_bands (bands : gmap string PriceBand) (ls : list QuoteLineSnapshot)
    : option (gmap string PriceBand) :=
  match ls with
  | [] => Some bands
  | l :: ls => bands ← stored_band bands l; stored_bands bands ls
  end.
Definition stored_price_bands (priced : ImmutableQuoteSnapshot) : option (gmap string PriceBand) :=
  stored_bands ∅ (lines (data priced)).

(** A band closed at the amount chosen for its service. *)
Definition closed_line (chosen : gmap string Z) (l : QuoteLineSnapshot) : QuoteLineSnapshot :=
  match amounts l with
  | ExactLineAmounts _ _ _ _ => l
  | RangeLineAmounts _ _ _ _ _ _ _ _ =>
      let amount := default 0 (chosen !! quote_service_code l) in
      with_amounts l (ExactLineAmounts None amount 0 amount)
  end.

Definition closed_data (d : QuoteRevisionData) (revision : Z) (promoted : PromotionOutcome)
    (subtotal : Z) (approval : option Z) : QuoteRevisionData :=
  let t := totals d in
  {| schema_version := schema_version d; quote_id := quote_id d; revision := revision;
     finality := QuoteFinality.APPROVED_EXACT; status := QuoteRevisionStatus.APPROVED;
     priced_at := priced_at d; valid_until := valid_until d; currency := currency d;
     configuration_snapshots := configuration_snapshots d; lines := promoted_lines promoted;
     adjustments := adjustments d ++ promoted_adjustments promoted;
     totals := composed_totals subtotal subtotal (promoted_discount_vnd promoted)
                 (quoted_delivery_fee_vnd t) (approved_surcharge_vnd t);
     calculation_traces := _revised_traces (calculation_traces d) (promoted_traces promoted);
     calculation_engine_version := calculation_engine_version d;
     calculation_engine_hash := calculation_engine_hash d;
     promotion_eligibility_event := promotion_eligibility_event d;
     promotion_eligibility_at := promotion_eligibility_at d;
     reason_codes := _revised_reason_codes
       (filter (λ c, c ≠ error_value ErrorCode.RANGE_PRICE_REQUIRES_HUMAN) (reason_codes d))
       (promoted_reasons promoted);
     required_approvals := required_approvals d; approval_id := approval;
     tax_treatment := tax_treatment d;
     customer_estimate_acknowledged_at := customer_estimate_acknowledged_at d |}.

Definition close_range_prices (priced : ImmutableQuoteSnapshot) (revision : Z)
    (attestation : RangePriceAttestation) (promotion : option PublishedPromotionProgram)
    (closed_at : option datetime) : composition ImmutableQuoteSnapshot :=
  let d := data priced in
  refuse_if (negb (finality d is? QuoteFinality.RANGE))
    (RangePriceRefusal.value RangePriceRefusal.RANGE_PRICE_NOT_APPLICABLE) ;;
  refuse_outstanding (_outstanding_approvals [required_approvals d]) ;;
  refuse_if (negb ((quote_id d =? attested_quote_id attestation) && (Quotes.revision d =? attested_revision attestation)))
    (error_value ErrorCode.VALIDATION_ERROR) ;;
  book ← require_some (reference_of "PRICEBOOK" priced)
           (UnresolvedQuote [error_value ErrorCode.VALIDATION_ERROR]);
  refuse_if (bool_decide (attested_approval_id attestation = None))
    (error_value ErrorCode.HUMAN_APPROVAL_REQUIRED) ;;
  bands ← require_some (stored_price_bands priced)
            (UnresolvedQuote [error_value ErrorCode.VALIDATION_ERROR]);
  chosen ← ranged_amounts (resolve_range_prices bands (version_id book) (version book) attestation);
  refuse_if (negb ((dom chosen : gset string) is? dom bands)) (error_value ErrorCode.RANGE_PRICE_REQUIRES_HUMAN) ;;
  let closed_lines := closed_line chosen <$> lines d in
  (match _exactness_refusal closed_lines (quoted_delivery_fee_vnd (totals d)) with
   | Some code => refuse code
   | None => Ok tt
   end) ;;
  let reference := _promotion_reference priced in
  refuse_if (programme_changed reference promotion) PROMOTION_CHANGED_SINCE_QUOTE ;;
  refuse_if (bool_decide (is_Some promotion) && bool_decide (closed_at = None))
    (error_value ErrorCode.MISSING_REQUIRED_FACT) ;;
  promoted ← _promotion_outcome promotion closed_lines (adjustments d) false
               (default (priced_at d) closed_at) None;
  refuse_if (bool_decide (reference = None) && negb (promoted_discount_vnd promoted =? 0))
    PROMOTION_PUBLISHED_SINCE_APPROVAL ;;
  refuse_outstanding (_outstanding_approvals [required_approvals d; promoted_required_approvals promoted]) ;;
  listed ← require_some (mapM _line_list (promoted_lines promoted)) (Raised SnapshotEscape);
  or_refuse (build_quote_snapshot
    (closed_data d revision promoted (sumZ listed) (attested_approval_id attestation))).

(** * Remedy credits reserved on a revision *)

(** [text.removeprefix(prefix)], when it starts with it. *)
Definition after_prefix (prefix s : string) : option string :=
  if String.prefix prefix s then Some (String.substring (String.length prefix) (String.length s) s) else None.

Definition credit_adjustment_id (credit : Z) : string :=
  REMEDY_CREDIT_ADJUSTMENT_PREFIX +:+ text_of (uuid_str credit).
(** [credit_id.hex.upper()] after a component prefix. *)
Definition credit_component (prefix : string) (credit : Z) : string :=
  prefix +:+ text_of (hex_padded 32 credit).

(** The credit of a REMEDY_CREDIT row. *)
Definition credit_of (a : QuoteAdjustmentSnapshot) : snapped RemedyCredit :=
  name ← require_some (after_prefix REMEDY_CREDIT_ADJUSTMENT_PREFIX (adjustment_id a)) SnapshotRefused;
  source ← require_some (source_version_id a) SnapshotRefused;
  raise_if (negb (amount_min_vnd a =? amount_max_vnd a)) SnapshotRefused ;;
  credit ← require_some (UUID (txt name)) SnapshotRefused;
  Ok (MkRemedyCredit credit (amount_min_vnd a) source (adjustment_approval_id a)).
Definition reserved_remedy_credits (priced : ImmutableQuoteSnapshot) : snapped (list RemedyCredit) :=
  traverse credit_of (filter (λ a, kind a = QuoteAdjustmentKind.REMEDY_CREDIT) (adjustments (data priced))).

(** The credits a revision states it released. *)
Definition released_remedy_credit_ids (priced : ImmutableQuoteSnapshot) : snapped (gset Z) :=
  ids ← traverse (λ name, require_some (UUID (txt name)) SnapshotRefused)
          (omap (λ t, after_prefix REMEDY_CREDIT_RELEASED_COMPONENT_PREFIX (component t))
             (calculation_traces (data priced)));
  Ok (list_to_set ids).

Definition line_net (l : QuoteLineSnapshot) : option (string * Z) :=
  match amounts l with
  | ExactLineAmounts _ _ _ net => Some (quote_line_id l, net)
  | RangeLineAmounts _ _ _ _ _ _ _ _ => None
  end.

(** A line with its part of a credit taken off. *)
Definition credited_line (shares : dict string Z) (l : QuoteLineSnapshot) : QuoteLineSnapshot :=
  match amounts l with
  | ExactLineAmounts unit_price listed discount net =>
      let share := default 0 (dict_get shares (quote_line_id l)) in
      with_amounts l (ExactLineAmounts unit_price listed (discount + share) (net - share))
  | RangeLineAmounts _ _ _ _ _ _ _ _ => l
  end.

Definition credit_row (c : RemedyCredit) (total : Z) : QuoteAdjustmentSnapshot :=
  {| adjustment_id := credit_adjustment_id (credit_id c); kind := QuoteAdjustmentKind.REMEDY_CREDIT;
     direction := AdjustmentDirection.CREDIT; amount_min_vnd := total; amount_max_vnd := total;
     reason_code := REMEDY_CREDIT_REASON_CODE; source_version_id := Some (credit_policy_version_id c);
     adjustment_approval_id := credit_approval_id c |}.

Definition credited_totals (t : QuoteTotalsSnapshot) (credit : Z) : QuoteTotalsSnapshot :=
  let discount := discount_amount_min_vnd t + credit in
  let subtotal := list_service_subtotal_min_vnd t - discount in
  let display := (λ fee, subtotal + fee + approved_surcharge_vnd t) <$> quoted_delivery_fee_vnd t in
  {| list_service_subtotal_min_vnd := list_service_subtotal_min_vnd t;
     list_service_subtotal_max_vnd := list_service_subtotal_max_vnd t;
     discount_amount_min_vnd := discount; discount_amount_max_vnd := discount_amount_max_vnd t + credit;
     net_service_subtotal_min_vnd := subtotal; net_service_subtotal_max_vnd := subtotal;
     quoted_delivery_fee_vnd := quoted_delivery_fee_vnd t; approved_surcharge_vnd := approved_surcharge_vnd t;
     display_total_min_vnd := display; display_total_max_vnd := display |}.

Definition credited_data (d : QuoteRevisionData) (revision : Z) (c : RemedyCredit) (a : CreditAllocation)
    (t : CalculationTraceSnapshot) : QuoteRevisionData :=
  {| schema_version := schema_version d; quote_id := quote_id d; revision := revision;
     finality := finality d; status := status d; priced_at := priced_at d; valid_until := valid_until d;
     currency := currency d; configuration_snapshots := configuration_snapshots d;
     lines := credited_line (per_line_vnd a) <$> lines d;
     adjustments := adjustments d ++ [credit_row c (total_vnd a)];
     totals := credited_totals (totals d) (total_vnd a);
     calculation_traces := calculation_traces d ++ [t];
     calculation_engine_version := calculation_engine_version d;
     calculation_engine_hash := calculation_engine_hash d;
     promotion_eligibility_event := promotion_eligibility_event d;
     promotion_eligibility_at := promotion_eligibility_at d;
     reason_codes := reason_codes d ++ [REMEDY_CREDIT_APPLIED];
     required_approvals := required_approvals d; approval_id := approval_id d;
     tax_treatment := tax_treatment d;
     customer_estimate_acknowledged_at := customer_estimate_acknowledged_at d |}.

Definition credit_trace (c : RemedyCredit) (weights : dict string Z) (a : CreditAllocation)
    : snapped CalculationTraceSnapshot :=
  capture_calculation_trace (credit_component "REMEDY_CREDIT_" (credit_id c)) REMEDY_CREDIT_COMPONENT_VERSION
    (RemedyCreditTrace (credit_id c) (total_vnd a) (credit_policy_version_id c)
       ((λ id, (id, default 0 (dict_get weights id))) <$> ordered_ids (credit_allocation a))
       (credit_allocation a)).

(** The programme that discounted this revision forbids other discounts. *)
Definition forbids_credit (p : PromotionPayload) : bool :=
  negb (traced_stacking_allowed p) && negb (traced_discount_vnd p =? 0).

Definition allocated_credit (r : result (option Z) CreditAllocation) : composition CreditAllocation :=
  match r with Ok a => Ok a | Err _ => refuse "REMEDY_CREDIT_UNALLOCATABLE" end.

Definition redeem_remedy_credit (priced : ImmutableQuoteSnapshot) (revision : Z) (credit : RemedyCredit)
    : composition ImmutableQuoteSnapshot :=
  let d := data priced in
  reserved ← or_escape (reserved_remedy_credits priced);
  refuse_if (existsb (λ item, credit_id item =? credit_id credit) reserved) "REMEDY_CREDIT_ALREADY_ON_QUOTE" ;;
  refuse_if ((finality d is? QuoteFinality.RANGE) || (status d in? _UNCREDITABLE_STATUSES))
    "REMEDY_CREDIT_REVISION_NOT_OPEN" ;;
  frozen ← frozen_promotion priced;
  refuse_if (from_option forbids_credit false frozen) "REMEDY_CREDIT_PROMOTION_NOT_STACKABLE" ;;
  weights ← require_some (mapM line_net (lines d)) (UnresolvedQuote ["REMEDY_CREDIT_REVISION_NOT_OPEN"%string]);
  allocated ← allocated_credit (allocate_remedy_credit weights (credit_amount_vnd credit));
  or_refuse (t ← credit_trace credit weights allocated;
             build_quote_snapshot (credited_data d revision credit allocated t)).

(** * Releasing the credits a new price cannot carry *)

Definition released_data (d : QuoteRevisionData) (ts : list CalculationTraceSnapshot) : QuoteRevisionData :=
  {| schema_version := schema_version d; quote_id := quote_id d; revision := revision d;
     finality := finality d; status := status d; priced_at := priced_at d; valid_until := valid_until d;
     currency := currency d; configuration_snapshots := configuration_snapshots d; lines := lines d;
     adjustments := adjustments d; totals := totals d; calculation_traces := calculation_traces d ++ ts;
     calculation_engine_version := calculation_engine_version d;
     calculation_engine_hash := calculation_engine_hash d;
     promotion_eligibility_event := promotion_eligibility_event d;
     promotion_eligibility_at := promotion_eligibility_at d;
     reason_codes := reason_codes d ++ [REMEDY_CREDIT_RELEASED];
     required_approvals := required_approvals d; approval_id := approval_id d;
     tax_treatment := tax_treatment d;
     customer_estimate_acknowledged_at := customer_estimate_acknowledged_at d |}.

Definition released_trace (cr : RemedyCredit * string) : snapped CalculationTraceSnapshot :=
  let '(c, reason) := cr in
  capture_calculation_trace (credit_component REMEDY_CREDIT_RELEASED_COMPONENT_PREFIX (credit_id c))
    REMEDY_CREDIT_COMPONENT_VERSION
    (ReleasedCreditTrace (credit_id c) (credit_amount_vnd c) (credit_policy_version_id c) reason).

Definition _state_released_credits (s : ImmutableQuoteSnapshot) (released : list (RemedyCredit * string))
    : snapped ImmutableQuoteSnapshot :=
  ts ← traverse released_trace released;
  build_quote_snapshot (released_data (data s) ts).

(** One pass over the live credits: the revision so far and the credits released. *)
Definition carry_credit (revision : Z) (acc : ImmutableQuoteSnapshot * list (RemedyCredit * string))
    (credit : RemedyCredit) : composition (ImmutableQuoteSnapshot * list (RemedyCredit * string)) :=
  match redeem_remedy_credit acc.1 revision credit with
  | Ok s => Ok (s, acc.2)
  | Err (UnresolvedQuote codes) => Ok (acc.1, acc.2 ++ [(credit, default ""%string (head codes))])
  | Err (Raised e) => Err (Raised e)
  end.

(** The first credit of each id. *)
Fixpoint distinct_credits (kept l : list RemedyCredit) : list RemedyCredit :=
  match l with
  | [] => kept
  | c :: l => distinct_credits (if credit_id c in? (credit_id <$> kept) then kept else kept ++ [c]) l
  end.

Definition compose_quote_revision (q : QuoteRequest) (remedy_credits : list RemedyCredit)
    (spent_remedy_credit_ids : gset Z) : composition ImmutableQuoteSnapshot :=
  let credits := distinct_credits [] remedy_credits in
  let live := filter (λ c, credit_id c ∉ spent_remedy_credit_ids) credits in
  let spent := (λ c, (c, "REMEDY_CREDIT_ALREADY_REDEEMED"%string))
                 <$> filter (λ c, credit_id c ∈ spent_remedy_credit_ids) credits in
  fresh ← _compose_fresh q;
  if (length credits =? 0)%nat then Ok fresh
  else
    carried ← fold_result (carry_credit (request_revision q)) (fresh, spent) live;
    if (length carried.2 =? 0)%nat then Ok carried.1
    else or_refuse (_state_released_credits carried.1 carried.2).
End composition.
