(* ===== verification/QuotesFacts.v ===== *)
(** Facts of a stored quote revision ([quotes.py]): what [build_quote_snapshot] writes is
    read back as valid, its order does not depend on the order it was given, and its money
    reconciles. *)
From Stdlib Require Import Ascii String.
From S2P Require Import Prelude Catalog Clock Text PyDecimal.
From S2P Require Import Pricing Allocation Promotion Delivery Quotes.
Local Open Scope laundry_scope.
Local Open Scope Z_scope.

#[local] Arguments sumZ : simpl never.
#[local] Arguments code_set : simpl never.
#[local] Arguments stable_sort : simpl never.

(** * Sorting again *)

Lemma stable_sort_fixed {A} (leb : A → A → bool) l :
  StronglySorted (λ a b, leb a b = true) l → stable_sort leb l = l.
Proof.
  induction 1 as [|x l _ IH Hx]; [done|]. change (insert_sorted leb x (stable_sort leb l) = x :: l). rewrite IH. destruct Hx as [|y l Hy _]; [done|]. cbn. by rewrite Hy.
Qed.

Lemma fromkeys_fixed {A} `{EqDecision A} (l : list A) : NoDup l → fromkeys l = l.
Proof.
  assert (∀ seen, NoDup l → (∀ x, x ∈ seen → x ∉ l) → fromkeys_from seen l = l) as H.
  { induction l as [|x l IH]; intros seen; [done|]. intros [Hx Hl]%NoDup_cons Hs. cbn.
    rewrite bool_decide_false by (intros Hin; apply (Hs x Hin); left). f_equal. apply IH; [done|].
    intros y [->|Hy]%elem_of_cons; [done|]. intros Hin. apply (Hs y Hy). by right. }
  intros Hl. apply H; [done|]. by intros ? ?%elem_of_nil.
Qed.

Lemma unique_NoDup {A} `{EqDecision A} (l : list A) : unique l = true ↔ NoDup l.
Proof.
  unfold unique. rewrite Nat.eqb_eq. split; [apply fromkeys_length|]. intros H. by rewrite fromkeys_fixed.
Qed.

Lemma string_leb_total s1 s2 : String.leb s1 s2 = false → String.leb s2 s1 = true.
Proof. apply leb_total_bool. Qed.
Lemma string_leb_trans (a b c : string) : String.leb a b = true → String.leb b c = true → String.leb a c = true.
Proof. intros H1 H2. apply Is_true_eq_true. transitivity b; by apply Is_true_eq_left. Qed.

Section by_key.
Context {A : Type} (key : A → string).

Lemma by_key_sorted l : StronglySorted (λ a b, by_key key a b = true) (stable_sort (by_key key) l).
Proof. apply stable_sort_sorted; [intros ??; apply string_leb_total|intros ???; apply string_leb_trans]. Qed.

Lemma by_key_again l : stable_sort (by_key key) (stable_sort (by_key key) l) = stable_sort (by_key key) l.
Proof. apply stable_sort_fixed, by_key_sorted. Qed.

(** With distinct keys the sorted list depends on the elements alone. *)
Lemma by_key_perm l1 l2 : NoDup (key <$> l1) → l1 ≡ₚ l2 →
  stable_sort (by_key key) l1 = stable_sort (by_key key) l2.
Proof.
  intros Hnd HP. apply (StronglySorted_unique (λ a b, by_key key a b = true)); [|apply by_key_sorted..|].
  - intros x y Hx Hy Hxy Hyx. rewrite stable_sort_perm in Hx, Hy.
    assert (key x = key y) as Hk by by apply String.leb_antisym.
    apply list_elem_of_lookup in Hx as [i Hi], Hy as [j Hj].
    assert (i = j) as -> by (eapply (NoDup_lookup (key <$> l1)); [done|by rewrite list_lookup_fmap, Hi|];
      by rewrite list_lookup_fmap, Hj, Hk). congruence.
  - by rewrite !stable_sort_perm.
Qed.
End by_key.

Lemma elem_of_code_set l c : c ∈ code_set l ↔ c ∈ l.
Proof. unfold code_set. by rewrite stable_sort_perm, elem_of_fromkeys. Qed.
Lemma code_set_NoDup l : NoDup (code_set l).
Proof. unfold code_set. rewrite stable_sort_perm. apply fromkeys_NoDup. Qed.
Lemma code_set_sorted l : StronglySorted (λ a b, String.leb a b = true) (code_set l).
Proof. apply stable_sort_sorted; [apply string_leb_total|apply string_leb_trans]. Qed.
Lemma code_set_again l : code_set (code_set l) = code_set l.
Proof.
  unfold code_set at 1. rewrite fromkeys_fixed by apply code_set_NoDup.
  apply stable_sort_fixed, code_set_sorted.
Qed.
(** Two lists with the same codes make the same set. *)
Lemma code_set_same l1 l2 : (∀ c, c ∈ l1 ↔ c ∈ l2) → code_set l1 = code_set l2.
Proof.
  intros H. apply (StronglySorted_unique (λ a b, String.leb a b = true)); [|apply code_set_sorted..|].
  - intros x y _ _ H1 H2. by apply String.leb_antisym.
  - apply NoDup_Permutation; [apply code_set_NoDup..|]. intros c. by rewrite !elem_of_code_set.
Qed.

Lemma normalized_again d : normalized (normalized d) = normalized d.
Proof. destruct d. unfold normalized. cbn. by rewrite !by_key_again, !code_set_again. Qed.

(** * What a built snapshot is *)

Section with_digests.
Context `{DG : !Digests}.

Lemma build_quote_snapshot_Ok d s :
  build_quote_snapshot d = Ok s ↔
  _validate_revision (normalized d) = true ∧ forallb jcs_safe (revision_integers (normalized d)) = true ∧
  s = {| data := normalized d;
         document := {| revision_content := normalized d;
                        revision_hash := HASH_PREFIX +:+ revision_digest (normalized d) |} |}.
Proof.
  unfold build_quote_snapshot, canonical_revision. rewrite raise_bind_Ok, negb_false_iff.
  destruct (forallb jcs_safe _); cbn; naive_solver.
Qed.

(** A stored revision: what [build_quote_snapshot] returns. *)
Definition stored (s : ImmutableQuoteSnapshot) : Prop := ∃ d, build_quote_snapshot d = Ok s.

Lemma stored_spec s : stored s →
  _validate_revision (data s) = true ∧ forallb jcs_safe (revision_integers (data s)) = true ∧
  normalized (data s) = data s ∧ build_quote_snapshot (data s) = Ok s.
Proof.
  intros (d & (H1 & H2 & ->)%build_quote_snapshot_Ok). cbn. rewrite normalized_again.
  split_and!; [done..|]. apply build_quote_snapshot_Ok. by rewrite normalized_again.
Qed.

(** whatever revision is stored passes its own verification: the document is the
    canonical form of the data, and building the data again gives the same snapshot. *)
Theorem built_snapshot_verifies d s :
  build_quote_snapshot d = Ok s → verify_quote_snapshot s = true.
Proof.
  intros Hs. pose proof Hs as (H1 & H2 & Heq)%build_quote_snapshot_Ok.
  unfold verify_quote_snapshot. assert (stored s) as (_ & _ & _ & Hb)%stored_spec by (by exists d).
  rewrite Hb, !bool_decide_true, Heq by done. unfold verify_revision_document, canonical_revision.
  cbn [data document revision_content revision_hash]. rewrite H2. by rewrite bool_decide_true.
Qed.

(** * The order of the parts *)

Lemma validated_unique d : _validate_revision d = true →
  NoDup (config_type <$> configuration_snapshots d) ∧ NoDup (quote_line_id <$> lines d) ∧
  NoDup (adjustment_id <$> adjustments d) ∧ NoDup (component <$> calculation_traces d).
Proof.
  unfold _validate_revision, _validate_configurations, _validate_lines, _validate_traces,
    _validate_totals_and_adjustments, _validate_adjustments. rewrite !andb_true_iff, !unique_NoDup. tauto.
Qed.

(** The same parts, in some order: equal facts, permuted parts, the same codes. *)
Record same_parts (d1 d2 : QuoteRevisionData) : Prop := {
  sp_facts :
    (schema_version d1, quote_id d1, revision d1, finality d1, status d1, priced_at d1, valid_until d1,
     currency d1, totals d1)
    = (schema_version d2, quote_id d2, revision d2, finality d2, status d2, priced_at d2, valid_until d2,
       currency d2, totals d2);
  sp_provenance :
    (calculation_engine_version d1, calculation_engine_hash d1, promotion_eligibility_event d1,
     promotion_eligibility_at d1, approval_id d1, tax_treatment d1, customer_estimate_acknowledged_at d1)
    = (calculation_engine_version d2, calculation_engine_hash d2, promotion_eligibility_event d2,
       promotion_eligibility_at d2, approval_id d2, tax_treatment d2, customer_estimate_acknowledged_at d2);
  sp_configurations : configuration_snapshots d1 ≡ₚ configuration_snapshots d2;
  sp_lines : lines d1 ≡ₚ lines d2;
  sp_adjustments : adjustments d1 ≡ₚ adjustments d2;
  sp_traces : calculation_traces d1 ≡ₚ calculation_traces d2;
  sp_reasons c : c ∈ reason_codes d1 ↔ c ∈ reason_codes d2;
  sp_approvals c : c ∈ required_approvals d1 ↔ c ∈ required_approvals d2;
}.

(** a revision is the same immutable document whatever order its lines, adjustments,
    references and traces are assembled in and however often a reason code is repeated: if
    one assembly is accepted every other is, with the same hash. *)
Theorem build_order_independent d1 d2 s :
  same_parts d1 d2 → build_quote_snapshot d1 = Ok s → build_quote_snapshot d2 = Ok s.
Proof.
  intros [Hf Hp Hc Hl Ha Ht Hr Hq] Hb. pose proof Hb as Hb'.
  apply build_quote_snapshot_Ok in Hb' as (Hv & _ & _). apply validated_unique in Hv as (H1 & H2 & H3 & H4).
  cbn [normalized configuration_snapshots lines adjustments calculation_traces] in H1, H2, H3, H4.
  rewrite stable_sort_perm in H1. rewrite stable_sort_perm in H2. rewrite stable_sort_perm in H3. rewrite stable_sort_perm in H4.
  assert (normalized d2 = normalized d1) as Hn.
  { destruct d1, d2. unfold normalized. cbn in *. simplify_eq.
    rewrite (by_key_perm _ _ _ H1 Hc), (by_key_perm _ _ _ H2 Hl), (by_key_perm _ _ _ H3 Ha),
      (by_key_perm _ _ _ H4 Ht), (code_set_same _ _ Hr), (code_set_same _ _ Hq). done. }
  apply build_quote_snapshot_Ok. rewrite Hn. by apply build_quote_snapshot_Ok.
Qed.

(** * Money *)

Definition net_min (l : QuoteLineSnapshot) : Z := list_min l - discount_min l.
Definition net_max (l : QuoteLineSnapshot) : Z := list_max l - discount_max l.

Lemma amounts_ok_money l : amounts_ok (amounts l) = true →
  0 <= discount_min l <= list_min l ∧ 0 <= discount_max l <= list_max l ∧ 0 <= net_min l <= net_max l ∧
  list_min l <= list_max l ∧
  match amounts l with
  | ExactLineAmounts _ _ _ net => net = net_min l ∧ net_min l = net_max l
  | RangeLineAmounts _ _ _ _ _ _ n1 n2 => n1 = net_min l ∧ n2 = net_max l
  end.
Proof.
  unfold amounts_ok, net_min, net_max, list_min, list_max, discount_min, discount_max, _money.
  destruct (amounts l); cbn [forallb]; intros H; guards; split_and!; lia.
Qed.

Lemma validated_lines d : _validate_revision d = true →
  lines d ≠ [] ∧ Forall (λ l, amounts_ok (amounts l) = true) (lines d).
Proof.
  unfold _validate_revision, _validate_lines. rewrite !andb_true_iff. intros H. destruct_and!.
  split; [by intros Heq; rewrite Heq in *|].
  match goal with H : forallb _ (lines d) = true |- _ => rename H into Hf end.
  apply Forall_forall. intros l Hl%list_elem_of_In. rewrite forallb_forall in Hf.
  by apply Hf, andb_true_iff in Hl as [_ ?].
Qed.

(** What the totals of a valid revision are. *)
Record reconciled (d : QuoteRevisionData) : Prop := {
  rc_list_min : list_service_subtotal_min_vnd (totals d) = sumZ (list_min <$> lines d);
  rc_list_max : list_service_subtotal_max_vnd (totals d) = sumZ (list_max <$> lines d);
  rc_discount_min : discount_amount_min_vnd (totals d) = sumZ (discount_min <$> lines d);
  rc_discount_max : discount_amount_max_vnd (totals d) = sumZ (discount_max <$> lines d);
  rc_net_min : net_service_subtotal_min_vnd (totals d) = sumZ (net_min <$> lines d);
  rc_net_max : net_service_subtotal_max_vnd (totals d) = sumZ (net_max <$> lines d);
  rc_credits_min : sumZ (credit_min <$> adjustments d) = discount_amount_min_vnd (totals d);
  rc_credits_max : sumZ (credit_max <$> adjustments d) = discount_amount_max_vnd (totals d);
  rc_delivery : sumZ (of_kind QuoteAdjustmentKind.DELIVERY <$> adjustments d)
                = default 0 (quoted_delivery_fee_vnd (totals d));
  rc_surcharge : sumZ (of_kind QuoteAdjustmentKind.SURCHARGE <$> adjustments d)
                 = approved_surcharge_vnd (totals d);
  rc_display : display_total_min_vnd (totals d) =
      (λ fee, sumZ (net_min <$> lines d) + fee + approved_surcharge_vnd (totals d))
        <$> quoted_delivery_fee_vnd (totals d) ∧
    display_total_max_vnd (totals d) =
      (λ fee, sumZ (net_max <$> lines d) + fee + approved_surcharge_vnd (totals d))
        <$> quoted_delivery_fee_vnd (totals d);
  rc_fee : match quoted_delivery_fee_vnd (totals d) with Some fee => 0 <= fee | None => True end ∧
           0 <= approved_surcharge_vnd (totals d);
  rc_lines : Forall (λ l, 0 <= discount_min l <= list_min l ∧ 0 <= discount_max l <= list_max l ∧
                          0 <= net_min l <= net_max l) (lines d);
}.

Lemma sumZ_sub {A} (f g : A → Z) l : sumZ ((λ x, f x - g x) <$> l) = sumZ (f <$> l) - sumZ (g <$> l).
Proof. induction l as [|x l IH]; [done|]. cbn [fmap list_fmap] in *. rewrite !sumZ_cons, IH. lia. Qed.

Lemma validated_reconciled d : _validate_revision d = true → reconciled d.
Proof.
  intros Hv. destruct (validated_lines d Hv) as [_ Hl].
  unfold _validate_revision, _validate_totals_and_adjustments, _validate_adjustments, _money in Hv.
  cbv zeta in Hv. rewrite !andb_true_iff in Hv. destruct_and!. guards.
  match goal with H : [_; _; _; _; _; _] = _ |- _ => injection H as E1 E2 E3 E4 E5 E6 end.
  assert (net_service_subtotal_min_vnd (totals d) = sumZ (net_min <$> lines d)) as Hmin
    by (unfold net_min; rewrite sumZ_sub; lia).
  assert (net_service_subtotal_max_vnd (totals d) = sumZ (net_max <$> lines d)) as Hmax
    by (unfold net_max; rewrite sumZ_sub; lia).
  split; try done.
  - rewrite <- Hmin, <- Hmax. destruct (quoted_delivery_fee_vnd (totals d)); guards; done.
  - split; [|done]. destruct (quoted_delivery_fee_vnd (totals d)); guards; done.
  - eapply Forall_impl; [exact Hl|]. cbn. intros l Hok. destruct (amounts_ok_money l Hok) as (?&?&?&?&?). done.
Qed.
End with_digests.
