(* ===== verification/QuoteCompositionFacts.v ===== *)
(** Facts of composed revisions ([quote_composition.py]): what every revision the program
    derives has on its bill, what acceptance keeps and what closing a band decides. *)
From Stdlib Require Import Ascii String.
From S2P Require Import Prelude Catalog Clock Text PyDecimal Uuid.
From S2P Require Import Pricing Allocation Promotion PromotionFacts Delivery RangePrices.
From S2P Require Import Quotes QuotesFacts QuoteComposition.
Local Open Scope laundry_scope.
Local Open Scope Z_scope.

#[local] Arguments sumZ : simpl never.
#[local] Arguments code_set : simpl never.
#[local] Arguments stable_sort : simpl never.

(** * Taking a composition apart *)

Lemma unpriced_if_Ok c code u : refuse_if c code = Ok u ↔ c = false.
Proof. destruct c, u; cbn; naive_solver. Qed.
Lemma unpriced_if_Err c code e : refuse_if c code = Err e ↔ c = true ∧ e = UnresolvedQuote [code].
Proof. unfold refuse_if, refuse. destruct c; split; naive_solver. Qed.
Lemma unpriced_bind_Ok {A} c code (m : composition A) a :
  (refuse_if c code ;; m) = Ok a ↔ c = false ∧ m = Ok a.
Proof. destruct c; cbn; naive_solver. Qed.
Lemma or_escape_Ok {A} (r : snapped A) a : or_escape r = Ok a ↔ r = Ok a.
Proof. destruct r; cbn; naive_solver. Qed.
Lemma or_refuse_Ok {A} (r : snapped A) a : or_refuse r = Ok a ↔ r = Ok a.
Proof. destruct r; cbn; naive_solver. Qed.
Lemma refuse_outstanding_Ok l u : refuse_outstanding l = Ok u ↔ l = [].
Proof. destruct l, u; cbn; naive_solver. Qed.
Lemma _outstanding_nil ls : _outstanding_approvals ls = [] ↔ concat ls = [].
Proof.
  unfold _outstanding_approvals. split; [|by intros ->]. intros H%fmap_nil_inv.
  apply elem_of_nil_inv. intros x Hx%elem_of_fromkeys. rewrite H in Hx. by apply elem_of_nil in Hx.
Qed.

Ltac composition_step :=
  match goal with
  | H : (refuse_if _ _ ;; _) = Ok _ |- _ => apply unpriced_bind_Ok in H as [? H]
  | H : (refuse_outstanding _ ;; _) = Ok _ |- _ =>
      let H' := fresh H in apply bind_Ok in H as ([] & H'%refuse_outstanding_Ok & H)
  | H : or_refuse _ = Ok _ |- _ => apply or_refuse_Ok in H
  | H : or_escape _ = Ok _ |- _ => apply or_escape_Ok in H
  | H : refuse _ = Ok _ |- _ => discriminate H
  end.
Ltac composition_inv := repeat (composition_step || result_step).

Section with_digests.
Context `{DG : !Digests}.

(** The fields of a built snapshot, its lists up to order. *)
Lemma built_fields d s : build_quote_snapshot d = Ok s →
  stored s ∧ data s = normalized d ∧ lines (data s) ≡ₚ lines d ∧ adjustments (data s) ≡ₚ adjustments d ∧
  configuration_snapshots (data s) ≡ₚ configuration_snapshots d ∧
  calculation_traces (data s) ≡ₚ calculation_traces d.
Proof.
  intros H. split; [by exists d|]. apply build_quote_snapshot_Ok in H as (_ & _ & ->).
  cbn [data normalized lines adjustments configuration_snapshots calculation_traces].
  split_and!; [done|apply stable_sort_perm..].
Qed.

(** Rebuilt with some parts replaced, a stored revision keeps the others as they are. *)
Lemma stored_normal s : stored s →
  stable_sort (by_key config_type) (configuration_snapshots (data s)) = configuration_snapshots (data s) ∧
  stable_sort (by_key quote_line_id) (lines (data s)) = lines (data s) ∧
  stable_sort (by_key adjustment_id) (adjustments (data s)) = adjustments (data s) ∧
  stable_sort (by_key component) (calculation_traces (data s)) = calculation_traces (data s) ∧
  code_set (reason_codes (data s)) = reason_codes (data s) ∧
  code_set (required_approvals (data s)) = required_approvals (data s).
Proof.
  intros (_ & _ & Hn & _)%stored_spec. destruct (data s). unfold normalized in Hn. cbn in *.
  injection Hn as ? ? ? ? ? ?. done.
Qed.

(** * The promotion of a revision *)

Lemma evaluated_Ok r a : evaluated r = Ok a ↔ r = Ok a.
Proof. destruct r as [?|[?|]]; cbn; naive_solver. Qed.

Lemma _withheld_adjustments r :
  Promotion.adjustments (_withheld_by_stacking r) = undiscounted <$> Promotion.adjustments r.
Proof. done. Qed.

Lemma capture_Ok name v c t : capture_calculation_trace name v c = Ok t ↔
  CODE_PATTERN name = true ∧ blank v = false ∧ forallb jcs_safe (trace_integers c) = true ∧
  t = {| component := name; engine_version := v;
         captured := {| content := c; document_hash := HASH_PREFIX +:+ trace_digest c |} |}.
Proof.
  unfold capture_calculation_trace, canonical_document. rewrite raise_bind_Ok, orb_false_iff, negb_false_iff.
  destruct (forallb jcs_safe _); cbn; naive_solver.
Qed.

(** What an outcome with a discount has behind it: an evaluation of the programme that was
    not withheld, inside the programme's interval. *)
Definition outcome_lines (ls : list QuoteLineSnapshot) (o : PromotionOutcome) : Prop :=
  ∃ share : string → Z,
    promoted_lines o = (λ l, match amounts l with
                             | ExactLineAmounts u v d n =>
                                 if share (quote_line_id l) =? 0 then l
                                 else with_amounts l (ExactLineAmounts u v (share (quote_line_id l))
                                                        (v - share (quote_line_id l)))
                             | RangeLineAmounts _ _ _ _ _ _ _ _ => l
                             end) <$> ls ∧
    promoted_discount_vnd o = sumZ ((λ l, share (quote_line_id l)) <$> ls) ∧
    Forall (λ l, share (quote_line_id l) = 0 ∨ 0 <= share (quote_line_id l) <= list_min l) ls.

Lemma unpromoted_lines ls refs reason : outcome_lines ls (unpromoted ls refs reason).
Proof.
  exists (λ _, 0). cbn. split_and!.
  - symmetry. rewrite <- (list_fmap_id ls) at 2. apply list_fmap_ext. intros i l _. by destruct (amounts l).
  - induction ls as [|l ls IH]; [done|]. cbn. by rewrite sumZ_cons, <- IH.
  - apply Forall_forall. by left.
Qed.

(** The shares of an evaluation, by line. *)
Lemma allocated_share policy plines at_ event event_at fee other r id :
  evaluate_promotion policy plines at_ event event_at fee other = Ok r → id ∈ line_id <$> plines →
  default 0 (dict_get ((λ a, (adj_line_id a, discount_vnd a)) <$> Promotion.adjustments r) id)
  = default 0 (dict_get (discounts policy plines at_ event_at) id).
Proof.
  intros (Hv & _ & _ & _ & _ & _ & _ & _ & _ & _ & ->)%evaluate_promotion_inv Hid.
  rewrite (dict_elem_get _ id (default 0 (dict_get (discounts policy plines at_ event_at) id))); [done| |].
  - rewrite <- !list_fmap_compose. apply Hv.
  - apply list_elem_of_fmap in Hid as (l & -> & Hl). rewrite <- list_fmap_compose.
    apply list_elem_of_fmap. by exists l.
Qed.

Lemma withheld_share (r : list PromotionLineAdjustment) id :
  default 0 (dict_get ((λ a, (adj_line_id a, discount_vnd a)) <$> (undiscounted <$> r)) id) = 0.
Proof. induction r as [|a r IH]; [done|]. cbn. by case_decide. Qed.

Section outcome.
Context (published : PublishedPromotionProgram) (ls : list QuoteLineSnapshot).
Let plines := (λ l, _promotion_line l (rule_for (program published) (quote_service_code l))) <$> ls.

Lemma plines_ids : line_id <$> plines = quote_line_id <$> ls.
Proof. unfold plines. by rewrite <- list_fmap_compose. Qed.
Lemma plines_amounts : Promotion.list_amount_vnd <$> plines = list_min <$> ls.
Proof. unfold plines. by rewrite <- list_fmap_compose. Qed.

(** What the engine discounts is what the lines carry. *)
Lemma evaluated_shares at_ event event_at other r :
  evaluate_promotion (policy (program published)) plines at_ event event_at 0 other = Ok r →
  let share id := default 0 (dict_get (discounts (policy (program published)) plines at_ event_at) id) in
  discount_amount_vnd r = sumZ ((λ l, share (quote_line_id l)) <$> ls) ∧
  Forall (λ l, 0 <= share (quote_line_id l) <= list_min l) ls ∧
  (discount_amount_vnd r ≠ 0 → inside (policy (program published)) (default at_ event_at) = true).
Proof.
  intros H share. pose proof H as (Hv & _ & Hmax & _ & _ & Hd & _ & _ & _ & _ & Ha)%evaluate_promotion_inv.
  split_and!.
  - rewrite Hd, <- (discounts_sum _ _ _ _ Hv Hmax). rewrite <- list_fmap_compose. unfold plines.
    by rewrite <- list_fmap_compose.
  - apply Forall_forall. intros l Hl.
    apply (discount_bounds (policy (program published)) plines at_ event_at
      (_promotion_line l (rule_for (program published) (quote_service_code l))) Hv Hmax).
    by apply (list_elem_of_fmap_2 (λ l, _promotion_line l (rule_for (program published) (quote_service_code l)))).
  - intros Hne. apply not_false_is_true. intros Hin. destruct Hne. rewrite Hd.
    destruct (discounts_spec (policy (program published)) plines at_ event_at Hv Hmax) as [_ Hiff].
    destruct (discounts _ _ _ _) as [|[k x] ds]; [done|]. destruct (Hiff k x) as [H1 _].
    destruct H1 as [H1 _]; [left|congruence].
Qed.
End outcome.

(** An outcome, on every path that answers one. *)
Record evaluated_outcome (published : PublishedPromotionProgram) (ls : list QuoteLineSnapshot)
    (at_ : datetime) (eligibility_at : option datetime) (o : PromotionOutcome) : Prop := {
  eo_exact : existsb (is_range ∘ amounts) ls = false;
  eo_trace : ∃ p t, capture_calculation_trace PROMOTION_COMPONENT PROMOTION_COMPONENT_VERSION
      (PromotionTrace p) = Ok t ∧ promoted_traces o = [t] ∧ traced_discount_vnd p = promoted_discount_vnd o ∧
      traced_stacking_allowed p = stacking_allowed (policy (program published));
  eo_configurations : promoted_configurations o = [promotion_reference published];
  eo_row : promoted_adjustments o = promotion_row published (promoted_discount_vnd o);
  eo_inside : promoted_discount_vnd o ≠ 0 →
    inside (policy (program published)) (default at_ eligibility_at) = true;
  eo_event : promoted_event o = None ∨
    promoted_event o = Some ACCEPTANCE_ELIGIBILITY_EVENT ∧ promoted_at o = eligibility_at ∧
    is_Some eligibility_at;
}.

Lemma eligibility_of policy ls at_ event event_at fee other r :
  evaluate_promotion policy ls at_ event event_at fee other = Ok r →
  eligibility_event r = None ∧ Promotion.eligibility_at r = None ∨
  eligibility_event r = event ∧ Promotion.eligibility_at r = event_at ∧ is_Some event_at.
Proof.
  unfold evaluate_promotion. intros H. result_inv. destruct (allocate_groups _) as [? ?]. result_inv. cbn.
  destruct (bool_decide (is_Some event_at)) eqn:He; [|left; by rewrite andb_false_r].
  apply bool_decide_eq_true in He. match goal with |- context [if ?c then event else None] => destruct c end; [right|left]; done.
Qed.

(** The same after the stacking rule. *)
Lemma decided_shares p ls at_ event event_at other result :
  evaluate_promotion (policy (program p))
    ((λ l, _promotion_line l (rule_for (program p) (quote_service_code l))) <$> ls)
    at_ event event_at 0 other = Ok result →
  let r := if PromotionReason.PROMOTION_STACKING_REQUIRES_HUMAN in? Promotion.reason_codes result
           then _withheld_by_stacking result else result in
  ∃ share : string → Z,
    (∀ id, id ∈ quote_line_id <$> ls →
       default 0 (dict_get ((λ a, (adj_line_id a, discount_vnd a)) <$> Promotion.adjustments r) id) = share id) ∧
    discount_amount_vnd r = sumZ ((λ l, share (quote_line_id l)) <$> ls) ∧
    Forall (λ l, 0 <= share (quote_line_id l) <= list_min l) ls ∧
    (discount_amount_vnd r ≠ 0 → inside (policy (program p)) (default at_ event_at) = true) ∧
    eligibility_event r = eligibility_event result ∧ Promotion.eligibility_at r = Promotion.eligibility_at result.
Proof.
  intros He r. destruct (evaluated_shares p ls _ _ _ _ _ He) as (Hsum & Hb & Hin).
  pose proof He as (Hv & _)%evaluate_promotion_inv. subst r. case_bool_decide.
  - exists (λ _, 0). cbn. split_and!; [intros; apply withheld_share| | |done|done|done].
    + clear. induction ls as [|l ls IH]; [done|]. cbn. by rewrite sumZ_cons, <- IH.
    + eapply Forall_impl; [exact Hb|]. cbn. lia.
  - eexists (λ id, default 0 (dict_get (discounts (policy (program p))
      ((λ l, _promotion_line l (rule_for (program p) (quote_service_code l))) <$> ls) at_ event_at) id)).
    split_and!; [|exact Hsum|exact Hb|exact Hin|done|done].
    intros id Hid. eapply allocated_share; [exact He|]. by rewrite plines_ids.
Qed.

Lemma promotion_outcome_spec promotion ls adj banded at_ eligibility_at o :
  _promotion_outcome promotion ls adj banded at_ eligibility_at = Ok o →
  outcome_lines ls o ∧ promoted_required_approvals o = [] ∧
  match promotion with
  | None => o = unpromoted ls [] PROMOTION_NOT_PUBLISHED
  | Some p => if banded then o = unpromoted ls [promotion_reference p] PROMOTION_PENDING_BAND_CLOSE
              else evaluated_outcome p ls at_ eligibility_at o
  end.
Proof.
  unfold _promotion_outcome. destruct promotion as [p|].
  2:{ intros [= <-]. split_and!; [by apply unpromoted_lines|done..]. }
  destruct banded. { intros [= <-]. split_and!; [by apply unpromoted_lines|done..]. }
  cbv zeta. intros H. composition_inv.
  repeat match goal with
  | H : evaluated _ = Ok _ |- _ => apply evaluated_Ok in H
  | H : or_escape _ = Ok _ |- _ => apply or_escape_Ok in H
  end.
  rename x into result. match goal with H : evaluate_promotion _ _ _ _ _ _ _ = Ok _ |- _ => rename H into He end.
  destruct (decided_shares p ls _ _ _ _ _ He) as (share & Hshare & Hsum & Hb & Hin & He1 & He2). subst o.
  set (r := if PromotionReason.PROMOTION_STACKING_REQUIRES_HUMAN in? Promotion.reason_codes result then _withheld_by_stacking result else result) in *.
  split_and!; [exists share; split_and!; [|done|eapply Forall_impl; [exact Hb|]; by right]|done|].
  - apply list_fmap_ext. intros i l Hi%list_elem_of_lookup_2. unfold discounted.
    destruct (amounts l); [|done]. pose proof (Hshare (quote_line_id l) (list_elem_of_fmap_2 _ _ _ Hi)) as Hs.
    cbn. destruct (dict_get _ (quote_line_id l)); cbn in Hs; by rewrite <- Hs.
  - split; cbn; [done| |done..|exact Hin|].
    + eexists _, _. split_and!; [done|done|done|done].
    + rewrite He1, He2. destruct (eligibility_of _ _ _ _ _ _ _ _ He) as [[-> ->]|(-> & -> & Hs)]; [by left|].
      right. destruct eligibility_at; [done|by destruct Hs].
Qed.
End with_digests.
