(* ===== verification/QuoteLedger.v ===== *)
(** The rows and traces of the revisions the program derives ([quote_composition.py]):
    which adjustments and calculation traces a composed, accepted, closed or credited
    revision carries, and how credits are read back from them. *)
From Stdlib Require Import Ascii String.
From S2P Require Import Prelude Catalog Clock Text PyDecimal Uuid.
From S2P Require Import Pricing Allocation Promotion Delivery RangePrices.
From S2P Require Import Quotes QuotesFacts QuoteComposition QuoteCompositionFacts.
Local Open Scope laundry_scope.
Local Open Scope Z_scope.

#[local] Arguments sumZ : simpl never.
#[local] Arguments code_set : simpl never.
#[local] Arguments stable_sort : simpl never.
#[local] Opaque UUID uuid_str hex_padded.

(** * Names under a prefix *)

Lemma substring_all s : ∀ m, (String.length s <= m)%nat → String.substring 0 m s = s.
Proof.
  induction s as [|c s IH]; intros [|m] Hm; cbn in *; try done; [lia|]. f_equal. apply IH. lia.
Qed.

Lemma after_prefix_app p s : after_prefix p (p +:+ s) = Some s.
Proof.
  unfold after_prefix. assert (String.prefix p (p +:+ s) = true ∧
    ∀ m, (String.length s <= m)%nat → String.substring (String.length p) m (p +:+ s) = s) as [-> Hsub].
  { split; induction p as [|c p IH].
    - by destruct s.
    - change (String c p +:+ s) with (String c (p +:+ s)). cbn. by destruct (ascii_dec c c).
    - apply substring_all.
    - exact IH. }
  f_equal. apply Hsub. clear. induction p as [|c p IH]; [done|].
  change (String c p +:+ s) with (String c (p +:+ s)). cbn. lia.
Qed.

Lemma prefix_head c p t : String.prefix (String c p) (text_of t) = true → c ∈ t.
Proof.
  destruct t as [|d t]; cbn; [done|]. destruct (ascii_dec c d) as [->|]; [left|done].
Qed.

Lemma txt_text_of t : txt (text_of t) = t.
Proof. apply list_ascii_of_string_of_list_ascii. Qed.

Lemma hex_padded_chars u : Forall (λ c, hex_text c = true) (hex_padded 32 u).
Proof. eapply Forall_impl; [apply hex_padded_text|]. cbn. intros ? Hc. apply Hc. Qed.

Lemma after_prefix_credit u :
  after_prefix REMEDY_CREDIT_RELEASED_COMPONENT_PREFIX (credit_component "REMEDY_CREDIT_" u) = None.
Proof.
  unfold after_prefix, credit_component.
  destruct (String.prefix _ _) eqn:Hp; [|done].
  change (String.prefix "RELEASED_" (text_of (hex_padded 32 u)) = true) in Hp.
  apply prefix_head in Hp. pose proof (hex_padded_chars u) as Hx. rewrite Forall_forall in Hx.
  by apply Hx in Hp.
Qed.

Lemma credit_component_inj p u v : is_uuid u → is_uuid v →
  credit_component p u = credit_component p v → u = v.
Proof.
  unfold credit_component. intros Hu Hv Heq.
  assert (after_prefix p (p +:+ text_of (hex_padded 32 u)) = Some (text_of (hex_padded 32 v))) as H
    by (rewrite Heq; apply after_prefix_app).
  rewrite after_prefix_app in H. apply (inj Some), (f_equal txt) in H. rewrite !txt_text_of in H.
  apply UUID_hex_upper in Hu, Hv. congruence.
Qed.

Lemma credit_adjustment_id_inj u v : is_uuid u → is_uuid v →
  credit_adjustment_id u = credit_adjustment_id v → u = v.
Proof.
  unfold credit_adjustment_id. intros Hu Hv Heq.
  assert (after_prefix REMEDY_CREDIT_ADJUSTMENT_PREFIX (REMEDY_CREDIT_ADJUSTMENT_PREFIX +:+ text_of (uuid_str u))
    = Some (text_of (uuid_str v))) as H by (rewrite Heq; apply after_prefix_app).
  rewrite after_prefix_app in H. apply (inj Some), (f_equal txt) in H. rewrite !txt_text_of in H.
  apply UUID_str in Hu, Hv. congruence.
Qed.

(** * The rows of a bill *)

Definition face_row (c : RemedyCredit) : QuoteAdjustmentSnapshot := credit_row c (credit_amount_vnd c).

(** A delivery fee, a programme's discount, or a whole remedy credit. *)
Inductive good_row (a : QuoteAdjustmentSnapshot) : Prop :=
| delivery_row : kind a = QuoteAdjustmentKind.DELIVERY → adjustment_id a = "delivery"%string →
    direction a = AdjustmentDirection.DEBIT → good_row a
| programme_row : kind a = QuoteAdjustmentKind.PROMOTION → adjustment_id a = PROMOTION_ADJUSTMENT_ID →
    amount_min_vnd a = amount_max_vnd a → good_row a
| reserved_row c : is_uuid (credit_id c) → a = face_row c → good_row a.

Definition rows_of (k : QuoteAdjustmentKind.t) (adj : list QuoteAdjustmentSnapshot) : list QuoteAdjustmentSnapshot :=
  filter (λ a, kind a = k) adj.
Definition promotion_vnd (d : QuoteRevisionData) : Z :=
  sumZ (of_kind QuoteAdjustmentKind.PROMOTION <$> adjustments d).

Lemma credit_of_row a name source id :
  after_prefix REMEDY_CREDIT_ADJUSTMENT_PREFIX (adjustment_id a) = Some name →
  source_version_id a = Some source → amount_min_vnd a = amount_max_vnd a → UUID (txt name) = Some id →
  credit_of a = Ok (MkRemedyCredit id (amount_min_vnd a) source (adjustment_approval_id a)).
Proof. unfold credit_of. intros -> -> <- Hid. cbn. rewrite Z.eqb_refl. cbn. by rewrite Hid. Qed.

Lemma credit_of_face c : is_uuid (credit_id c) → credit_of (face_row c) = Ok c.
Proof.
  intros Hc. rewrite (credit_of_row _ (text_of (uuid_str (credit_id c))) (credit_policy_version_id c) (credit_id c)).
  - by destruct c.
  - apply after_prefix_app.
  - done.
  - done.
  - rewrite txt_text_of. by apply UUID_str.
Qed.

(** The credits of good rows are read back whole. *)
Lemma read_back adj : Forall good_row adj →
  ∃ cs, traverse credit_of (rows_of QuoteAdjustmentKind.REMEDY_CREDIT adj) = Ok cs ∧
        rows_of QuoteAdjustmentKind.REMEDY_CREDIT adj = face_row <$> cs ∧
        Forall (λ c, is_uuid (credit_id c)) cs.
Proof.
  unfold rows_of. induction 1 as [|a adj Ha _ (cs & H1 & H2 & H3)]; [by exists []|].
  rewrite filter_cons. destruct Ha as [Hk _ _|Hk _ _|c Hc ->].
  - rewrite decide_False by (by rewrite Hk). eauto.
  - rewrite decide_False by (by rewrite Hk). eauto.
  - rewrite decide_True by done. exists (c :: cs). cbn [traverse fmap list_fmap].
    rewrite credit_of_face, H1, H2 by done. split_and!; [done|done|by constructor].
Qed.

Lemma row_sides a :
  credit_min a = match kind a with
                 | QuoteAdjustmentKind.DELIVERY | QuoteAdjustmentKind.SURCHARGE => 0
                 | _ => amount_min_vnd a
                 end ∧
  of_kind QuoteAdjustmentKind.PROMOTION a
  = match kind a with QuoteAdjustmentKind.PROMOTION => amount_min_vnd a | _ => 0 end ∧
  of_kind QuoteAdjustmentKind.SURCHARGE a
  = match kind a with QuoteAdjustmentKind.SURCHARGE => amount_min_vnd a | _ => 0 end.
Proof. unfold credit_min, credits, of_kind. by destruct (kind a). Qed.

(** The credit side of good rows: the programme's discount and the credits. *)
Lemma credit_side adj cs : Forall good_row adj →
  rows_of QuoteAdjustmentKind.REMEDY_CREDIT adj = face_row <$> cs →
  sumZ (credit_min <$> adj)
  = sumZ (of_kind QuoteAdjustmentKind.PROMOTION <$> adj) + sumZ (credit_amount_vnd <$> cs) ∧
  sumZ (of_kind QuoteAdjustmentKind.SURCHARGE <$> adj) = 0.
Proof.
  unfold rows_of. intros Hg. revert cs. induction Hg as [|a adj Ha _ IH]; intros cs.
  - intros Hcs. symmetry in Hcs. apply fmap_nil_inv in Hcs as ->. done.
  - rewrite filter_cons. cbn [fmap list_fmap]. rewrite !sumZ_cons. destruct Ha as [Hk _ _|Hk _ _|c Hc ->].
    + rewrite decide_False by (by rewrite Hk). intros [IH1 IH2]%IH. rewrite IH1, IH2.
      destruct (row_sides a) as (-> & -> & ->). rewrite Hk. lia.
    + rewrite decide_False by (by rewrite Hk). intros [IH1 IH2]%IH. rewrite IH1, IH2.
      destruct (row_sides a) as (-> & -> & ->). rewrite Hk. lia.
    + rewrite decide_True by done. destruct cs as [|c' cs]; [done|]. cbn [fmap list_fmap].
      intros H. pose proof (f_equal head H) as Heq. apply (f_equal tail), IH in H as [IH1 IH2]. cbn in IH1, IH2. rewrite IH1, IH2, sumZ_cons.
      destruct (row_sides (face_row c)) as (-> & -> & ->). cbn. 
      apply (inj Some), (f_equal amount_min_vnd) in Heq. cbn in Heq.
      lia.
Qed.

(** * The traces of a bill *)

Inductive known_trace (adj : list QuoteAdjustmentSnapshot) (t : CalculationTraceSnapshot) : Prop :=
| pricing_trace code : component t = "PRICING_" +:+ code → known_trace adj t
| delivery_trace : component t = "DELIVERY"%string → known_trace adj t
| promotion_trace p : component t = PROMOTION_COMPONENT → content (captured t) = PromotionTrace p → known_trace adj t
| credit_trace_of c : is_uuid c → component t = credit_component "REMEDY_CREDIT_" c →
    credit_adjustment_id c ∈ adjustment_id <$> adj → known_trace adj t
| released_trace_of c : is_uuid c → component t = credit_component REMEDY_CREDIT_RELEASED_COMPONENT_PREFIX c →
    known_trace adj t.

Definition states_release (t : CalculationTraceSnapshot) : option Z :=
  name ← after_prefix REMEDY_CREDIT_RELEASED_COMPONENT_PREFIX (component t); UUID (txt name).

Lemma known_release adj t : known_trace adj t →
  (∃ u, is_uuid u ∧ component t = credit_component REMEDY_CREDIT_RELEASED_COMPONENT_PREFIX u ∧
        after_prefix REMEDY_CREDIT_RELEASED_COMPONENT_PREFIX (component t) = Some (text_of (hex_padded 32 u)) ∧
        states_release t = Some u) ∨
  after_prefix REMEDY_CREDIT_RELEASED_COMPONENT_PREFIX (component t) = None ∧ states_release t = None.
Proof.
  unfold states_release. intros [code Hc|Hc|p Hc _|u _ Hc _|u Hu Hc]; rewrite Hc.
  1-3: by right. { right. by rewrite after_prefix_credit. }
  left. exists u. unfold credit_component. rewrite after_prefix_app. cbn [mbind option_bind].
  by rewrite txt_text_of, UUID_hex_upper.
Qed.

(** The released credits of known traces are read back. *)
Lemma released_read_back adj ts : Forall (known_trace adj) ts →
  traverse (λ name, require_some (UUID (txt name)) SnapshotRefused)
    (omap (λ t, after_prefix REMEDY_CREDIT_RELEASED_COMPONENT_PREFIX (component t)) ts)
  = Ok (omap states_release ts).
Proof.
  induction 1 as [|t ts Ht _ IH]; [done|]. cbn [omap list_omap].
  destruct (known_release adj t Ht) as [(u & Hu & _ & -> & ->)|[-> ->]]; [|exact IH].
  cbn [traverse]. rewrite txt_text_of, UUID_hex_upper, IH by done. done.
Qed.

Section with_digests.
Context `{DG : !Digests}.

(** * The ledger of a derived revision *)

Record well_made (d : QuoteRevisionData) : Prop := {
  wm_rows : Forall good_row (adjustments d);
  wm_traces : Forall (known_trace (adjustments d)) (calculation_traces d);
  wm_lines : Forall (λ l, ∃ t, t ∈ calculation_traces d ∧ component t = "PRICING_" +:+ quote_service_code l ∧
                      trace_hash t = price_trace_hash l) (lines d);
  wm_programme t p : t ∈ calculation_traces d → component t = PROMOTION_COMPONENT →
    content (captured t) = PromotionTrace p → traced_discount_vnd p = promotion_vnd d;
  wm_no_programme : PROMOTION_COMPONENT ∉ component <$> calculation_traces d → promotion_vnd d = 0;
  wm_band : finality d = QuoteFinality.RANGE → PROMOTION_COMPONENT ∉ component <$> calculation_traces d;
  wm_acknowledged : customer_estimate_acknowledged_at d = None;
}.
Definition ledger (s : ImmutableQuoteSnapshot) : Prop := stored s ∧ well_made (data s).

Lemma known_trace_mono adj adj' t : (∀ i, i ∈ adjustment_id <$> adj → i ∈ adjustment_id <$> adj') →
  known_trace adj t → known_trace adj' t.
Proof.
  intros H. destruct 1 as [code ?|?|p ? ?|u ? ? Hin|u ? ?]; [by eapply pricing_trace|by apply delivery_trace|
    by eapply promotion_trace|eapply credit_trace_of; [done..|by apply H]|by eapply released_trace_of].
Qed.

Lemma promotion_vnd_perm d d' : adjustments d' ≡ₚ adjustments d → promotion_vnd d' = promotion_vnd d.
Proof. intros H. unfold promotion_vnd. apply sumZ_perm. by rewrite H. Qed.

(** Building keeps a well-made revision well made. *)
Lemma ledger_built d s : well_made d → build_quote_snapshot d = Ok s → ledger s.
Proof.
  intros [H1 H2 H3 H4 H5 H6 H7] Hb. destruct (built_fields d s Hb) as (Hs & Hd & Hl & Ha & _ & Ht).
  split; [done|]. pose proof (promotion_vnd_perm _ _ Ha) as Hp.
  assert (Hc : component <$> calculation_traces (data s) ≡ₚ component <$> calculation_traces d) by by rewrite Ht.
  assert (Hfin : finality (data s) = finality d) by by rewrite Hd.
  assert (Hack : customer_estimate_acknowledged_at (data s) = customer_estimate_acknowledged_at d) by by rewrite Hd.
  split.
  - by rewrite Ha.
  - rewrite Ht. eapply Forall_impl; [exact H2|]. intros t. apply known_trace_mono. intros i. by rewrite Ha.
  - rewrite Hl. eapply Forall_impl; [exact H3|]. cbn. intros l (t & ? & ?). exists t. by rewrite Ht.
  - intros t p Hin. rewrite Ht in Hin. rewrite Hp. by apply H4.
  - rewrite Hc, Hp. exact H5.
  - by rewrite Hc, Hfin.
  - by rewrite Hack.
Qed.

Lemma ledger_reserved s : ledger s →
  ∃ cs, reserved_remedy_credits s = Ok cs ∧ Forall (λ c, is_uuid (credit_id c)) cs ∧
    rows_of QuoteAdjustmentKind.REMEDY_CREDIT (adjustments (data s)) = face_row <$> cs.
Proof.
  intros [_ Hs]. destruct (read_back _ (wm_rows _ Hs)) as (cs & H1 & H2 & H3). exists cs. done.
Qed.

Lemma ledger_released s : ledger s →
  released_remedy_credit_ids s = Ok (list_to_set (omap states_release (calculation_traces (data s)))).
Proof.
  intros [_ Hs]. unfold released_remedy_credit_ids. by rewrite (released_read_back _ _ (wm_traces _ Hs)).
Qed.

(** The programme's trace, found by its name. *)
Lemma frozen_found s : stored s → Forall (known_trace (adjustments (data s))) (calculation_traces (data s)) →
  ∃ frozen, frozen_promotion s = Ok frozen ∧
    (∀ p, frozen = Some p ↔ ∃ t, t ∈ calculation_traces (data s) ∧ component t = PROMOTION_COMPONENT ∧
       content (captured t) = PromotionTrace p) ∧
    (frozen = None ↔ PROMOTION_COMPONENT ∉ component <$> calculation_traces (data s)).
Proof.
  intros (Hv & _)%stored_spec Hk. apply validated_unique in Hv as (_ & _ & _ & Hu).
  unfold frozen_promotion.
  destruct (list_find _ _) as [[i t]|] eqn:Hf.
  - apply list_find_Some in Hf as (Ht & Hc & _). pose proof (list_elem_of_lookup_2 _ _ _ Ht) as Hin.
    rewrite Forall_forall in Hk. destruct (Hk t Hin) as [code H|H|p _ Hp|u _ H _|u _ H].
    1,2,4,5: by rewrite Hc in H. rewrite Hp. exists (Some p). split_and!; [done| |].
    + intros p'. split; [intros [= <-]; by exists t|]. intros (t' & Hin' & Hc' & Hp').
      assert (t' = t) as ->; [|congruence]. apply list_elem_of_lookup in Hin' as [j Hj].
      assert (i = j) as <-; [|congruence].
      eapply (NoDup_lookup (component <$> _)); [exact Hu|by rewrite list_lookup_fmap, Ht|].
      rewrite list_lookup_fmap, Hj. cbn. by rewrite Hc', Hc.
    + split; [done|]. intros Hn. destruct Hn. rewrite <- Hc. by apply list_elem_of_fmap_2.
  - apply list_find_None in Hf. rewrite Forall_forall in Hf. exists None. split_and!; [done| |].
    + intros p. split; [done|]. intros (t & Hin & Hc & _). by destruct (Hf t Hin).
    + split; [|done]. intros _ (t & Hc & Hin)%list_elem_of_fmap. by destruct (Hf t Hin).
Qed.
(** The programme's figure on a bill is the one frozen in its trace. *)
Lemma ledger_promotion s : ledger s →
  ∃ frozen, frozen_promotion s = Ok frozen ∧ promotion_vnd (data s) = default 0 (traced_discount_vnd <$> frozen) ∧
    (finality (data s) = QuoteFinality.RANGE → frozen = None).
Proof.
  intros [Hs Hw]. destruct (frozen_found s Hs (wm_traces _ Hw)) as (frozen & Hf & Hsome & Hnone).
  exists frozen. split_and!; [done| |].
  - destruct frozen as [p|]; cbn.
    + destruct (proj1 (Hsome p) eq_refl) as (t & Hin & Hc & Hp). by rewrite (wm_programme _ Hw t p).
    + by apply (wm_no_programme _ Hw), Hnone.
  - intros Hr. by apply Hnone, (wm_band _ Hw).
Qed.

(** * Every derivation *)

Lemma good_rows_app d rows :
  well_made d → Forall good_row rows → Forall good_row (adjustments d ++ rows).
Proof. intros Hw Hr. apply Forall_app. split; [apply Hw|done]. Qed.

Lemma lines_keep_traces d (keep : list CalculationTraceSnapshot) (ls : list QuoteLineSnapshot) :
  well_made d →
  (∀ t, t ∈ calculation_traces d → component t ≠ PROMOTION_COMPONENT → t ∈ keep) →
  Forall (λ l, ∃ l0, l0 ∈ lines d ∧ quote_service_code l = quote_service_code l0 ∧
                 price_trace_hash l = price_trace_hash l0) ls →
  Forall (λ l, ∃ t, t ∈ keep ∧ component t = "PRICING_" +:+ quote_service_code l ∧
                 trace_hash t = price_trace_hash l) ls.
Proof.
  intros Hw Hkeep Hls. eapply Forall_impl; [exact Hls|]. cbn. intros l (l0 & Hl0 & -> & ->).
  pose proof (wm_lines _ Hw) as Hl. rewrite Forall_forall in Hl. destruct (Hl l0 Hl0) as (t & Hin & Hc & Hh).
  exists t. split_and!; [|done|done]. apply Hkeep; [done|]. rewrite Hc. by intros [=].
Qed.

Lemma same_lines d : Forall (λ l, ∃ l0, l0 ∈ lines d ∧ quote_service_code l = quote_service_code l0 ∧
                 price_trace_hash l = price_trace_hash l0) (lines d).
Proof. apply Forall_forall. intros l Hl. by exists l. Qed.

Lemma well_made_accepted d rev verified :
  well_made d →
  (∀ v, verified = Some v → ∃ p t, promoted_traces v = [t] ∧ component t = PROMOTION_COMPONENT ∧
     content (captured t) = PromotionTrace p ∧ traced_discount_vnd p = promotion_vnd d) →
  well_made (accepted_data d rev verified).
Proof.
  intros Hw Hv. destruct verified as [v|]; cbn.
  2:{ destruct Hw. split; cbn; try done. }
  destruct (Hv v eq_refl) as (p & t & Ht & Hc & Hp & Hd).
  assert (Hin : ∀ t', t' ∈ _revised_traces (calculation_traces d) (promoted_traces v) ↔
    (component t' ≠ PROMOTION_COMPONENT ∧ t' ∈ calculation_traces d) ∨ t' = t).
  { intros t'. unfold _revised_traces. rewrite Ht, elem_of_app, list_elem_of_filter. cbn.
    rewrite !list_elem_of_singleton, Hc. done. }
  split; cbn.
  - apply Hw.
  - apply Forall_forall. intros t' [[_ Ht']| ->]%Hin; [|by eapply promotion_trace].
    pose proof (wm_traces _ Hw) as Hk. rewrite Forall_forall in Hk. by apply Hk.
  - apply (lines_keep_traces d); [done| |apply same_lines]. intros t' ? ?. apply Hin. by left.
  - intros t' p' [[? _]| ->]%Hin; [done|]. intros _ Hp'. change (promotion_vnd _) with (promotion_vnd d).
    congruence.
  - intros Hn. destruct Hn. apply list_elem_of_fmap. exists t. split; [done|]. apply Hin. by right.
  - done.
  - apply Hw.
Qed.

(** What the re-verification at acceptance establishes. *)
Definition reverified (s : ImmutableQuoteSnapshot) (p : option PublishedPromotionProgram)
    (accepted_at : option datetime) (v : PromotionOutcome) : Prop :=
  ∃ cited pub at_, _promotion_reference s = Some cited ∧ p = Some pub ∧ accepted_at = Some at_ ∧
    published_version_id pub = version_id cited ∧
    outcome_lines (lines (data s)) v ∧ evaluated_outcome pub (lines (data s)) at_ (Some at_) v ∧
    promoted_discount_vnd v = promotion_vnd (data s) ∧
    promoted_event v = Some ACCEPTANCE_ELIGIBILITY_EVENT ∧ promoted_at v = Some at_.

Lemma reverified_spec s p accepted_at verified :
  ledger s → _reverified_eligibility s p accepted_at = Ok verified →
  match verified with
  | None => _promotion_reference s = None
  | Some v => reverified s p accepted_at v
  end.
Proof.
  intros Hs. unfold _reverified_eligibility. cbv zeta.
  destruct (ledger_promotion s Hs) as (frozen & Hf & Hvnd & _). rewrite Hf.
  destruct (_promotion_reference s) as [cited|] eqn:Href.
  - intros H.
    destruct accepted_at as [at_|]; [|done]. apply unpriced_bind_Ok in H as [Hc H].
    cbn [mbind result_bind] in H. apply unpriced_bind_Ok in H as [_ H].
    apply bind_Ok in H as (v & Hv & H). apply unpriced_bind_Ok in H as [Heq H]. apply unpriced_bind_Ok in H as [He [= <-]].
    destruct p as [pub|]; [|done]. cbn in Hc. guards.
    apply promotion_outcome_spec in Hv as (Hlines & _ & Hv). exists cited, pub, at_.
    destruct (eo_event _ _ _ _ _ Hv) as [?|(? & ? & _)]; [done|]. split_and!; try done. lia.
  - destruct p as [pub|]; [|by intros [= <-]]. destruct accepted_at as [at_|]; [|done].
    intros H. apply unpriced_bind_Ok in H as [_ H]. cbn [mbind result_bind] in H.
    apply unpriced_bind_Ok in H as [_ H]. apply bind_Ok in H as (v & Hv & H).
    apply unpriced_bind_Ok in H as [_ H]. by injection H as <-.
Qed.

Lemma reverified_trace s p accepted_at v : reverified s p accepted_at v →
  ∃ payload t, promoted_traces v = [t] ∧ component t = PROMOTION_COMPONENT ∧
    content (captured t) = PromotionTrace payload ∧ traced_discount_vnd payload = promotion_vnd (data s).
Proof.
  intros (cited & pub & at_ & _ & _ & _ & _ & _ & Hv & Hd & _ & _).
  destruct (eo_trace _ _ _ _ _ Hv) as (payload & t & (_ & _ & _ & ->)%capture_Ok & Ht & Hp & _).
  eexists payload, _. split_and!; [exact Ht|done|done|]. congruence.
Qed.

(** Acceptance, taken apart. *)
Lemma accept_inv s rev p accepted_at s' :
  accept_quote_revision s rev p accepted_at = Ok s' →
  status (data s) ∉ _UNACCEPTABLE_STATUSES ∧ finality (data s) ≠ QuoteFinality.RANGE ∧
  existsb (λ l, line_basis l is? QuantityBasis.CUSTOMER_ESTIMATE) (lines (data s)) = false ∧
  is_Some (quoted_delivery_fee_vnd (totals (data s))) ∧ required_approvals (data s) = [] ∧
  ∃ verified, _reverified_eligibility s p accepted_at = Ok verified ∧
    build_quote_snapshot (accepted_data (data s) rev verified) = Ok s'.
Proof.
  unfold accept_quote_revision. cbv zeta. intros H.
  apply unpriced_bind_Ok in H as [H1 H]. apply unpriced_bind_Ok in H as [H2 H].
  apply unpriced_bind_Ok in H as [H3 H]. apply unpriced_bind_Ok in H as [H4 H].
  apply bind_Ok in H as (verified & Hv & H). apply bind_Ok in H as ([] & H5%refuse_outstanding_Ok & H).
  apply or_refuse_Ok in H. apply _outstanding_nil in H5. cbn in H5. apply app_eq_nil in H5 as [H5 _]. guards.
  split_and!; [done|done|done|by apply not_eq_None_Some|done|]. eauto.
Qed.

Lemma ledger_accepted s rev p accepted_at s' :
  ledger s → accept_quote_revision s rev p accepted_at = Ok s' → ledger s'.
Proof.
  intros Hs (_ & _ & _ & _ & _ & verified & Hv & Hb)%accept_inv.
  apply (ledger_built (accepted_data (data s) rev verified)); [|done]. apply well_made_accepted; [apply Hs|].
  intros v ->. apply (reverified_trace s p accepted_at). by apply (reverified_spec s p accepted_at (Some v)).
Qed.

(** * Closing *)

Lemma ranged_amounts_Ok r m : ranged_amounts r = Ok m ↔ r = Ok m.
Proof. destruct r as [?|[? ?]]; cbn; naive_solver. Qed.

Lemma close_inv s rev a p closed_at s' :
  close_range_prices s rev a p closed_at = Ok s' →
  finality (data s) = QuoteFinality.RANGE ∧ required_approvals (data s) = [] ∧
  quote_id (data s) = attested_quote_id a ∧ revision (data s) = attested_revision a ∧
  is_Some (attested_approval_id a) ∧
  ∃ book bands chosen o listed,
    reference_of "PRICEBOOK" s = Some book ∧ stored_price_bands s = Some bands ∧
    resolve_range_prices bands (version_id book) (version book) a = Ok chosen ∧
    (dom chosen : gset string) = dom bands ∧
    _exactness_refusal (closed_line chosen <$> lines (data s)) (quoted_delivery_fee_vnd (totals (data s))) = None ∧
    _promotion_outcome p (closed_line chosen <$> lines (data s)) (adjustments (data s)) false
      (default (priced_at (data s)) closed_at) None = Ok o ∧
    (programme_changed (_promotion_reference s) p = false ∧
     (_promotion_reference s = None → promoted_discount_vnd o = 0)) ∧
    mapM _line_list (promoted_lines o) = Some listed ∧
    build_quote_snapshot (closed_data (data s) rev o (sumZ listed) (attested_approval_id a)) = Ok s'.
Proof.
  unfold close_range_prices. cbv zeta. intros H.
  apply unpriced_bind_Ok in H as [H1 H]. apply bind_Ok in H as ([] & H2%refuse_outstanding_Ok & H).
  apply unpriced_bind_Ok in H as [H3 H]. apply bind_Ok in H as (book & Hbook%require_some_Ok & H).
  apply unpriced_bind_Ok in H as [H4 H]. apply bind_Ok in H as (bands & Hbands%require_some_Ok & H).
  apply bind_Ok in H as (chosen & Hchosen%ranged_amounts_Ok & H). apply unpriced_bind_Ok in H as [Hdom H].
  apply bind_Ok in H as ([] & Hex & H). apply unpriced_bind_Ok in H as [Hpc H].
  apply unpriced_bind_Ok in H as [_ H]. apply bind_Ok in H as (o & Ho & H).
  apply unpriced_bind_Ok in H as [Hsince H]. apply bind_Ok in H as ([] & _ & H).
  apply bind_Ok in H as (listed & Hlisted%require_some_Ok & H). apply or_refuse_Ok in H.
  apply _outstanding_nil in H2. cbn in H2. rewrite app_nil_r in H2. guards.
  split_and!; [done..|by apply not_eq_None_Some|]. exists book, bands, chosen, o, listed.
  split_and!; try done.
  - by destruct (_exactness_refusal _ _).
  - intros Hr. rewrite Hr, bool_decide_true in Hsince by done. guards. cbn in Hsince. by guards.
Qed.

Lemma outcome_same_lines ls o : outcome_lines ls o →
  Forall (λ l, ∃ l0, l0 ∈ ls ∧ quote_service_code l = quote_service_code l0 ∧
                price_trace_hash l = price_trace_hash l0) (promoted_lines o).
Proof.
  intros (share & -> & _). apply Forall_fmap, Forall_forall. intros l Hl. exists l. cbn.
  destruct (amounts l); [destruct (_ =? 0)|]; done.
Qed.

Lemma closed_same chosen l : quote_service_code (closed_line chosen l) = quote_service_code l ∧
  price_trace_hash (closed_line chosen l) = price_trace_hash l ∧ quote_line_id (closed_line chosen l) = quote_line_id l.
Proof. unfold closed_line. by destruct (amounts l). Qed.

Lemma promotion_row_good p discount : Forall good_row (promotion_row p discount).
Proof.
  unfold promotion_row. destruct (discount =? 0); [constructor|]. apply Forall_singleton.
  by apply programme_row.
Qed.
Lemma promotion_row_vnd p discount :
  sumZ (of_kind QuoteAdjustmentKind.PROMOTION <$> promotion_row p discount) = discount.
Proof.
  unfold promotion_row. destruct (Z.eqb_spec discount 0) as [->|]; [done|].
  cbn [fmap list_fmap]. rewrite sumZ_cons, (proj1 (proj2 (row_sides _))). cbn. unfold sumZ. cbn. lia.
Qed.

Lemma outcome_rows p ls adj at_ eat o :
  _promotion_outcome p ls adj false at_ eat = Ok o →
  Forall good_row (promoted_adjustments o) ∧
  sumZ (of_kind QuoteAdjustmentKind.PROMOTION <$> promoted_adjustments o) = promoted_discount_vnd o ∧
  ((promoted_traces o = [] ∧ promoted_discount_vnd o = 0) ∨
   ∃ payload t, promoted_traces o = [t] ∧ component t = PROMOTION_COMPONENT ∧
     content (captured t) = PromotionTrace payload ∧ traced_discount_vnd payload = promoted_discount_vnd o).
Proof.
  intros (_ & _ & H)%promotion_outcome_spec. destruct p as [p|].
  - split_and!; [rewrite (eo_row _ _ _ _ _ H); apply promotion_row_good|
      rewrite (eo_row _ _ _ _ _ H); apply promotion_row_vnd|].
    right. destruct (eo_trace _ _ _ _ _ H) as (payload & t & (_ & _ & _ & ->)%capture_Ok & Ht & Hp & _).
    eexists payload, _. done.
  - subst o. cbn. split_and!; [constructor|done|by left].
Qed.

Lemma ledger_closed s rev a p closed_at s' :
  ledger s → close_range_prices s rev a p closed_at = Ok s' → ledger s'.
Proof.
  intros [Hs Hw] (Hr & _ & _ & _ & _ & book & bands & chosen & o & listed & _ & _ & _ & _ & _ & Ho & _ & _ & Hb)%close_inv.
  apply (ledger_built (closed_data (data s) rev o (sumZ listed) (attested_approval_id a))); [|done].
  pose proof Ho as (Hlines & _ & _)%promotion_outcome_spec.
  pose proof (wm_band _ Hw Hr) as Hno. pose proof (wm_no_programme _ Hw Hno) as Hzero.
  destruct (outcome_rows _ _ _ _ _ _ Ho) as (Hrows & Hvnd & Ht). clear Ho Hb.
  set (d := data s) in *.
  assert (Hpv : promotion_vnd (closed_data d rev o (sumZ listed) (attested_approval_id a)) = promoted_discount_vnd o).
  { unfold promotion_vnd in *. cbn [closed_data adjustments]. rewrite fmap_app, sumZ_app, Hvnd. lia. }
  split; cbn [closed_data adjustments calculation_traces lines finality customer_estimate_acknowledged_at].
  - by apply good_rows_app.
  - pose proof (wm_traces _ Hw) as Hk. apply Forall_app. split.
    + apply Forall_forall. intros t [_ Hin]%list_elem_of_filter. rewrite Forall_forall in Hk.
      eapply known_trace_mono; [|by apply Hk]. intros i. rewrite fmap_app, elem_of_app. by left.
    + destruct Ht as [[-> _]|(payload & t & -> & Hc & Hp & _)]; [constructor|].
      apply Forall_singleton. by eapply promotion_trace.
  - apply (lines_keep_traces d); [done| |].
    + intros t Hin Hc. apply elem_of_app. left. apply list_elem_of_filter. split; [|done].
      destruct Ht as [[-> _]|(payload & t' & -> & Hc' & _)]; cbn; [by intros ?%elem_of_nil|].
      rewrite Hc'. by intros ?%list_elem_of_singleton.
    + eapply Forall_impl; [by apply outcome_same_lines|]. cbn. intros l (l1 & Hl1 & -> & ->).
      apply list_elem_of_fmap in Hl1 as (l0 & -> & Hl0). exists l0.
      destruct (closed_same chosen l0) as (-> & -> & _). done.
  - intros t p' Hin Hc Hp'. rewrite Hpv. apply elem_of_app in Hin as [[_ Hin]%list_elem_of_filter|Hin].
    + destruct Hno. rewrite <- Hc. by apply list_elem_of_fmap_2.
    + destruct Ht as [[Hnil _]|(payload & t' & Hone & _ & Hp & Hd)].
      * rewrite Hnil in Hin. by apply elem_of_nil in Hin.
      * rewrite Hone in Hin. apply list_elem_of_singleton in Hin as ->. rewrite Hp in Hp'. by injection Hp' as ->.
  - intros Hn. rewrite Hpv.
    destruct Ht as [[_ ->]|(payload & t & Hone & Hc & _)]; [done|]. destruct Hn.
    apply list_elem_of_fmap. exists t. split; [done|]. apply elem_of_app. right. rewrite Hone. by apply list_elem_of_singleton.
  - done.
  - apply Hw.
Qed.

(** * Reserving and releasing credits *)

Lemma allocated_credit_Ok r a : allocated_credit r = Ok a ↔ r = Ok a.
Proof. destruct r; cbn; naive_solver. Qed.

Lemma redeem_inv s rev c s' : redeem_remedy_credit s rev c = Ok s' →
  ∃ cs frozen weights a t,
    reserved_remedy_credits s = Ok cs ∧ credit_id c ∉ credit_id <$> cs ∧
    finality (data s) ≠ QuoteFinality.RANGE ∧ status (data s) ∉ _UNCREDITABLE_STATUSES ∧
    frozen_promotion s = Ok frozen ∧ from_option forbids_credit false frozen = false ∧
    mapM line_net (lines (data s)) = Some weights ∧
    allocate_remedy_credit weights (credit_amount_vnd c) = Ok a ∧ credit_trace c weights a = Ok t ∧
    build_quote_snapshot (credited_data (data s) rev c a t) = Ok s'.
Proof.
  unfold redeem_remedy_credit. cbv zeta. intros H.
  apply bind_Ok in H as (cs & Hcs%or_escape_Ok & H). apply unpriced_bind_Ok in H as [H1 H].
  apply unpriced_bind_Ok in H as [H2 H]. apply bind_Ok in H as (frozen & Hf & H).
  apply unpriced_bind_Ok in H as [H3 H]. apply bind_Ok in H as (weights & Hw%require_some_Ok & H).
  apply bind_Ok in H as (a & Ha%allocated_credit_Ok & H). apply or_refuse_Ok, bind_Ok in H as (t & Ht & H).
  guards. exists cs, frozen, weights, a, t. split_and!; try done.
  intros (c' & Heq & Hin)%list_elem_of_fmap. apply not_true_iff_false in H1. apply H1, existsb_exists.
  exists c'. split; [by apply list_elem_of_In|]. lia.
Qed.

Lemma allocate_total weights amount a : allocate_remedy_credit weights amount = Ok a → total_vnd a = amount.
Proof. unfold allocate_remedy_credit. cbv zeta. intros H. result_inv. done. Qed.

Lemma credited_same shares l : quote_service_code (credited_line shares l) = quote_service_code l ∧
  price_trace_hash (credited_line shares l) = price_trace_hash l ∧
  quote_line_id (credited_line shares l) = quote_line_id l ∧ list_min (credited_line shares l) = list_min l.
Proof. unfold credited_line, list_min. by destruct (amounts l) eqn:Ha; cbn; rewrite ?Ha. Qed.

Lemma well_made_more_traces d d' ts :
  well_made d → adjustments d' = adjustments d → calculation_traces d' = calculation_traces d ++ ts →
  lines d' = lines d → finality d' = finality d →
  customer_estimate_acknowledged_at d' = customer_estimate_acknowledged_at d →
  Forall (λ t, known_trace (adjustments d) t ∧ component t ≠ PROMOTION_COMPONENT) ts → well_made d'.
Proof.
  intros Hw Ha Ht Hl Hf Hack Hts.
  assert (promotion_vnd d' = promotion_vnd d) as Hp by (unfold promotion_vnd; by rewrite Ha).
  assert (Hno : ∀ t, t ∈ calculation_traces d' → component t = PROMOTION_COMPONENT → t ∈ calculation_traces d).
  { intros t. rewrite Ht, elem_of_app. intros [?|Hin]; [done|]. rewrite Forall_forall in Hts.
    by destruct (Hts t Hin). }
  assert (Hsub : ∀ t, t ∈ calculation_traces d → t ∈ calculation_traces d')
    by (intros t Hin; rewrite Ht, elem_of_app; by left).
  split.
  - rewrite Ha. apply Hw.
  - rewrite Ha, Ht. apply Forall_app. split; [apply Hw|]. eapply Forall_impl; [exact Hts|]. by intros ? [? _].
  - rewrite Hl. apply (lines_keep_traces d); [done| |apply same_lines]. intros t Hin _. by apply Hsub.
  - intros t p Hin Hc. rewrite Hp. apply (wm_programme _ Hw); [by apply Hno|done].
  - intros Hn. rewrite Hp. apply (wm_no_programme _ Hw). intros (t & Hc & Hin)%list_elem_of_fmap. destruct Hn.
    rewrite Hc. apply list_elem_of_fmap_2. by apply Hsub.
  - rewrite Hf. intros Hr (t & Hc & Hin)%list_elem_of_fmap. apply (wm_band _ Hw Hr). rewrite Hc.
    apply list_elem_of_fmap_2. by apply Hno.
  - rewrite Hack. apply Hw.
Qed.

Lemma well_made_more_rows d d' rows :
  well_made d → adjustments d' = adjustments d ++ rows → Forall good_row rows →
  sumZ (of_kind QuoteAdjustmentKind.PROMOTION <$> rows) = 0 →
  calculation_traces d' = calculation_traces d → finality d' = finality d →
  customer_estimate_acknowledged_at d' = customer_estimate_acknowledged_at d →
  Forall (λ l, ∃ l0, l0 ∈ lines d ∧ quote_service_code l = quote_service_code l0 ∧
                 price_trace_hash l = price_trace_hash l0) (lines d') → well_made d'.
Proof.
  intros Hw Ha Hrows Hzero Ht Hf Hack Hl.
  assert (promotion_vnd d' = promotion_vnd d) as Hp.
  { unfold promotion_vnd. rewrite Ha, fmap_app, sumZ_app. lia. }
  split.
  - rewrite Ha. by apply good_rows_app.
  - rewrite Ht, Ha. eapply Forall_impl; [apply Hw|]. intros t. apply known_trace_mono. intros i.
    rewrite fmap_app, elem_of_app. by left.
  - apply (lines_keep_traces d); [done| |done]. by rewrite Ht.
  - intros t p. rewrite Ht, Hp. apply Hw.
  - rewrite Ht, Hp. apply Hw.
  - rewrite Ht, Hf. apply Hw.
  - rewrite Hack. apply Hw.
Qed.

Lemma credit_trace_name c weights a t : credit_trace c weights a = Ok t →
  component t = credit_component "REMEDY_CREDIT_" (credit_id c).
Proof. by intros (_ & _ & _ & ->)%capture_Ok. Qed.

Lemma credit_component_plain c : credit_component "REMEDY_CREDIT_" c ≠ PROMOTION_COMPONENT ∧
  credit_component REMEDY_CREDIT_RELEASED_COMPONENT_PREFIX c ≠ PROMOTION_COMPONENT.
Proof. by split; intros [=]. Qed.

(** The credited revision before its new trace. *)
Definition credited_rows (d : QuoteRevisionData) (rev : Z) (c : RemedyCredit) (a : CreditAllocation)
    : QuoteRevisionData :=
  {| schema_version := schema_version d; quote_id := quote_id d; revision := rev; finality := finality d;
     status := status d; priced_at := priced_at d; valid_until := valid_until d; currency := currency d;
     configuration_snapshots := configuration_snapshots d; lines := credited_line (per_line_vnd a) <$> lines d;
     adjustments := adjustments d ++ [credit_row c (total_vnd a)]; totals := credited_totals (totals d) (total_vnd a);
     calculation_traces := calculation_traces d; calculation_engine_version := calculation_engine_version d;
     calculation_engine_hash := calculation_engine_hash d; promotion_eligibility_event := promotion_eligibility_event d;
     promotion_eligibility_at := promotion_eligibility_at d; reason_codes := reason_codes d;
     required_approvals := required_approvals d; approval_id := approval_id d; tax_treatment := tax_treatment d;
     customer_estimate_acknowledged_at := customer_estimate_acknowledged_at d |}.

Lemma ledger_credited s rev c s' :
  ledger s → is_uuid (credit_id c) → redeem_remedy_credit s rev c = Ok s' → ledger s'.
Proof.
  intros [Hs Hw] Hc (cs & frozen & weights & a & t & _ & _ & _ & _ & _ & _ & _ & Ha & Ht & Hb)%redeem_inv.
  apply (ledger_built (credited_data (data s) rev c a t)); [|done].
  apply allocate_total in Ha. apply credit_trace_name in Ht.
  assert (well_made (credited_rows (data s) rev c a)) as Hr.
  { apply (well_made_more_rows (data s) _ [credit_row c (total_vnd a)]); try done.
    - apply Forall_singleton. apply (reserved_row _ c); [done|]. by rewrite Ha.
    - cbn. apply Forall_fmap, Forall_forall. intros l Hl. exists l. destruct (credited_same (per_line_vnd a) l) as (? & ? & _).
      done. }
  apply (well_made_more_traces (credited_rows (data s) rev c a) _ [t]); try done.
  apply Forall_singleton. rewrite Ht. split; [|apply credit_component_plain].
  eapply credit_trace_of; [exact Hc|done|]. cbn. rewrite fmap_app, elem_of_app. right. by apply list_elem_of_singleton.
Qed.

Lemma released_names released ts : traverse released_trace released = Ok ts →
  component <$> ts = (λ cr, credit_component REMEDY_CREDIT_RELEASED_COMPONENT_PREFIX (credit_id cr.1)) <$> released.
Proof.
  intros H%traverse_Forall2. induction H as [|[c reason] t released ts Ht _ IH]; [done|].
  cbn [fmap list_fmap]. rewrite <- IH. f_equal. by apply capture_Ok in Ht as (_ & _ & _ & ->).
Qed.

Lemma ledger_released_stated s released s' :
  ledger s → Forall (λ cr, is_uuid (credit_id cr.1)) released →
  _state_released_credits s released = Ok s' → ledger s'.
Proof.
  intros [Hs Hw] Hu H. apply bind_Ok in H as (ts & Hts & Hb).
  apply (ledger_built (released_data (data s) ts)); [|done]. apply released_names in Hts.
  apply (well_made_more_traces (data s) _ ts); try done. apply Forall_forall. intros t Ht.
  assert (component t ∈ component <$> ts) as Hin by by apply list_elem_of_fmap_2.
  rewrite Hts in Hin. apply list_elem_of_fmap in Hin as (cr & Hc & Hin). rewrite Forall_forall in Hu.
  split; [eapply released_trace_of; [by apply Hu|done]|]. rewrite Hc. apply credit_component_plain.
Qed.

(** * Composing *)

Lemma priced_lines_Ok r d : priced_lines r = Ok d ↔ r = Ok d.
Proof. destruct r as [?|[]]; cbn; naive_solver. Qed.
Lemma delivered_result_Ok r d : delivered_result r = Ok d ↔ r = Ok d.
Proof. destruct r; cbn; naive_solver. Qed.

(** What [_compose_fresh] computed on its way to a revision. *)
Record freshly_composed (q : QuoteRequest) (s : ImmutableQuoteSnapshot) (results : dict string PriceResult)
    (chosen : gmap string Z) (composed : list (QuoteLineSnapshot * CalculationTraceSnapshot))
    (delivery : DeliveryResult) (o : PromotionOutcome) : Prop := {
  fc_priced : price_lines (rules q) (_engine_line <$> requested q) = Ok results;
  fc_chosen : chosen_amounts q results = Ok chosen;
  fc_resolved : _unresolved_reasons results chosen
    (present_range_as_band q && bool_decide (range_prices q = None)) = [];
  fc_lines : traverse (compose_line (pricebook q) chosen) (enumerated (sorted_services results)) = Ok composed;
  fc_delivery : evaluate_delivery (fulfillment_mode q) (verified_distance_m q) (planned_transport_weight_kg q)
    (approved_manual_fee_vnd q) (customer_acknowledged_manual_fee q) = Ok delivery;
  fc_promotion : _promotion_outcome (promotion q) composed.*1 (_delivery_outcome delivery).1.2
    (existsb (is_range ∘ amounts) composed.*1) (request_priced_at q) None = Ok o;
  fc_built : ∃ d dt, build_quote_snapshot d = Ok s ∧ component dt = "DELIVERY"%string ∧
    lines d = promoted_lines o ∧ adjustments d = (_delivery_outcome delivery).1.2 ++ promoted_adjustments o ∧
    calculation_traces d = (composed.*2 ++ [dt]) ++ promoted_traces o ∧
    totals d = composed_totals (sumZ (list_min <$> composed.*1)) (sumZ (list_max <$> composed.*1))
                 (promoted_discount_vnd o) (_delivery_outcome delivery).1.1 0 ∧
    (finality d, status d) = _finality (existsb (is_range ∘ amounts) composed.*1) (negb (bool_decide (chosen = ∅))) ∧
    customer_estimate_acknowledged_at d = None ∧
    quote_id d = request_quote_id q ∧ revision d = request_revision q;
}.

Lemma fresh_inv q s : _compose_fresh q = Ok s →
  ∃ results chosen composed delivery o, freshly_composed q s results chosen composed delivery o.
Proof.
  unfold _compose_fresh. cbv zeta. intros H. apply unpriced_bind_Ok in H as [_ H].
  apply bind_Ok in H as (results & H1%priced_lines_Ok & H). apply bind_Ok in H as (chosen & H2 & H).
  apply bind_Ok in H as ([] & H3%refuse_outstanding_Ok & H). apply bind_Ok in H as (composed & H4 & H).
  apply bind_Ok in H as (delivery & H5%delivered_result_Ok & H).
  destruct (_delivery_outcome delivery) as [[fee rows] reasons] eqn:Hd.
  apply bind_Ok in H as (dt & Hdt%or_escape_Ok & H). apply bind_Ok in H as ([] & _ & H).
  apply bind_Ok in H as (o & H6 & H). apply bind_Ok in H as ([] & _ & H).
  destruct (_finality _ _) as [f st] eqn:Hf. apply or_refuse_Ok in H.
  exists results, chosen, composed, delivery, o. split; rewrite ?Hd; try done.
  eexists _, dt. split; [exact H|]. rewrite Hf. apply capture_Ok in Hdt as (_ & _ & _ & ->). done.
Qed.

Lemma compose_line_inv p chosen index code r l t :
  compose_line p chosen (index, (code, r)) = Ok (l, t) →
  component t = "PRICING_" +:+ code ∧ trace_hash t = price_trace_hash l ∧ quote_service_code l = code ∧
  line_amounts chosen code r = Ok (amounts l).
Proof.
  unfold compose_line. intros H. apply bind_Ok in H as (basis & _ & H). apply bind_Ok in H as (a & Ha & H).
  apply bind_Ok in H as (t' & Ht%or_escape_Ok & [= <- <-]). apply capture_Ok in Ht as (_ & _ & _ & ->). done.
Qed.

Lemma compose_lines_inv p chosen l composed :
  traverse (compose_line p chosen) l = Ok composed →
  Forall2 (λ ir lt, component lt.2 = "PRICING_" +:+ ir.2.1 ∧ trace_hash lt.2 = price_trace_hash lt.1 ∧
    quote_service_code lt.1 = ir.2.1 ∧ line_amounts chosen ir.2.1 ir.2.2 = Ok (amounts lt.1)) l composed.
Proof.
  intros H%traverse_Forall2. eapply Forall2_impl; [exact H|]. intros [i [code r]] [ln t]. apply compose_line_inv.
Qed.

Lemma delivery_rows_good delivery : Forall good_row (_delivery_outcome delivery).1.2 ∧
  sumZ (of_kind QuoteAdjustmentKind.PROMOTION <$> (_delivery_outcome delivery).1.2) = 0.
Proof.
  unfold _delivery_outcome. destruct (fee_outcome delivery), (delivery_fee_vnd delivery) as [fee|]; try by split.
  destruct (fee =? 0); [by split|]. cbn [fst snd]. split; [apply Forall_singleton; by apply delivery_row|].
  cbn [fmap list_fmap]. by rewrite sumZ_cons, (proj1 (proj2 (row_sides _))).
Qed.

Lemma ledger_fresh q s : _compose_fresh q = Ok s → ledger s.
Proof.
  intros (results & chosen & composed & delivery & o & H)%fresh_inv.
  destruct (fc_built _ _ _ _ _ _ _ H) as (d & dt & Hb & Hdt & Hl & Ha & Ht & _ & Hf & Hack & _).
  apply (ledger_built d); [|done]. pose proof (fc_promotion _ _ _ _ _ _ _ H) as Ho.
  pose proof Ho as (Hlines & _ & Hcase)%promotion_outcome_spec.
  pose proof (compose_lines_inv _ _ _ _ (fc_lines _ _ _ _ _ _ _ H)) as Hc.
  destruct (delivery_rows_good delivery) as [Hrows Hrowsum].
  set (banded := existsb (is_range ∘ amounts) composed.*1) in *.
  assert (Forall good_row (promoted_adjustments o) ∧
    sumZ (of_kind QuoteAdjustmentKind.PROMOTION <$> promoted_adjustments o) = promoted_discount_vnd o ∧
    ((promoted_traces o = [] ∧ promoted_discount_vnd o = 0) ∨ banded = false ∧
     ∃ payload t, promoted_traces o = [t] ∧ component t = PROMOTION_COMPONENT ∧
       content (captured t) = PromotionTrace payload ∧ traced_discount_vnd payload = promoted_discount_vnd o))
    as (Hprow & Hpsum & Hpt).
  { destruct banded.
    - destruct (promotion q); subst o; (split; [by apply Forall_nil|]; split; [done|by left]).
    - destruct (outcome_rows _ _ _ _ _ _ Ho) as (? & ? & [?|?]); (split; [done|]; split; [done|]); [by left|by right]. }
  assert (Hpv : promotion_vnd d = promoted_discount_vnd o).
  { unfold promotion_vnd. rewrite Ha, fmap_app, sumZ_app. lia. }
  assert (Hcomp : ∀ t, t ∈ composed.*2 → ∃ code, component t = "PRICING_" +:+ code).
  { intros t ((l & t') & -> & Hin)%list_elem_of_fmap. apply list_elem_of_lookup in Hin as [i Hi].
    destruct (Forall2_lookup_r _ _ _ _ _ Hc Hi) as (ir & _ & Hn & _). by exists ir.2.1. }
  assert (Hplain : ∀ t, t ∈ composed.*2 ++ [dt] → component t ≠ PROMOTION_COMPONENT).
  { intros t [Hin|Hin]%elem_of_app; [destruct (Hcomp t Hin) as [code ->]; by intros [=]|].
    apply list_elem_of_singleton in Hin as ->. by rewrite Hdt. }
  split.
  - rewrite Ha. by apply Forall_app.
  - rewrite Ht. apply Forall_app. split; [apply Forall_app; split|].
    + apply Forall_forall. intros t Hin. destruct (Hcomp t Hin) as [code ?]. by eapply pricing_trace.
    + apply Forall_singleton. by apply delivery_trace.
    + destruct Hpt as [[-> _]|(_ & payload & t & -> & ? & ? & _)]; [constructor|]. apply Forall_singleton.
      by eapply promotion_trace.
  - rewrite Hl. eapply Forall_impl; [by apply outcome_same_lines|]. cbn. intros l (l0 & Hl0 & -> & ->).
    apply list_elem_of_fmap in Hl0 as ((l1 & t) & -> & Hin). cbn. exists t.
    pose proof Hin as Hin'. apply list_elem_of_lookup in Hin' as [i Hi].
    destruct (Forall2_lookup_r _ _ _ _ _ Hc Hi) as (ir & _ & Hn & Hh & Hcode & _). cbn in *.
    split_and!; [|by rewrite Hcode|done]. rewrite Ht. apply elem_of_app. left. apply elem_of_app. left.
    apply list_elem_of_fmap. by exists (l1, t).
  - intros t p Hin Hcn Hp. rewrite Hpv, Ht in *. apply elem_of_app in Hin as [Hin|Hin]; [by destruct (Hplain t Hin)|].
    destruct Hpt as [[Hnil _]|(_ & payload & t' & Hone & _ & Hp' & Hd)].
    + rewrite Hnil in Hin. by apply elem_of_nil in Hin.
    + rewrite Hone in Hin. apply list_elem_of_singleton in Hin as ->. rewrite Hp' in Hp. by injection Hp as ->.
  - intros Hn. rewrite Hpv. destruct Hpt as [[_ ->]|(_ & payload & t & Hone & Hcn & _)]; [done|]. destruct Hn.
    apply list_elem_of_fmap. exists t. split; [done|]. rewrite Ht. apply elem_of_app. right.
    rewrite Hone. by apply list_elem_of_singleton.
  - intros Hr (t & Hcn & Hin)%list_elem_of_fmap. rewrite Ht in Hin.
    apply elem_of_app in Hin as [Hin|Hin]; [by destruct (Hplain t Hin)|].
    destruct Hpt as [[Hnil _]|(Hband & _)]; [rewrite Hnil in Hin; by apply elem_of_nil in Hin|].
    rewrite Hband, Hr in Hf. unfold _finality in Hf. by destruct (negb _).
  - done.
Qed.

(** * The revisions the program derives *)

Inductive derived : ImmutableQuoteSnapshot → Prop :=
| derived_fresh q s : _compose_fresh q = Ok s → derived s
| derived_accepted s rev p at_ s' : derived s → accept_quote_revision s rev p at_ = Ok s' → derived s'
| derived_closed s rev a p at_ s' : derived s → close_range_prices s rev a p at_ = Ok s' → derived s'
| derived_credited s rev c s' :
    derived s → is_uuid (credit_id c) → redeem_remedy_credit s rev c = Ok s' → derived s'
| derived_released s released s' :
    derived s → Forall (λ cr, is_uuid (credit_id cr.1)) released →
    _state_released_credits s released = Ok s' → derived s'.

Lemma derived_ledger s : derived s → ledger s.
Proof.
  induction 1; eauto using ledger_fresh, ledger_accepted, ledger_closed, ledger_credited, ledger_released_stated.
Qed.
End with_digests.
