(* ===== verification/QuotePrices.v ===== *)
(** What the customer is charged: the bill of every derived revision, the price acceptance
    keeps, the amounts a closed band may take and the credits a bill carries
    ([quote_composition.py]). *)
From Stdlib Require Import Ascii String.
From S2P Require Import Prelude Catalog Clock Text PyDecimal Uuid.
From S2P Require Import Pricing PricingFacts Allocation Promotion PromotionFacts Delivery RangePrices.
From S2P Require Import Quotes QuotesFacts QuoteComposition QuoteCompositionFacts QuoteLedger.
Local Open Scope laundry_scope.
Local Open Scope Z_scope.

#[local] Arguments sumZ : simpl never.
#[local] Arguments code_set : simpl never.
#[local] Arguments stable_sort : simpl never.
#[local] Opaque UUID uuid_str hex_padded.

Lemma sumZ_one v : sumZ [v] = v.
Proof. unfold sumZ. cbn. lia. Qed.

Section with_digests.
Context `{DG : !Digests}.

Lemma range_free d : _validate_revision d = true → finality d ≠ QuoteFinality.RANGE →
  existsb (is_range ∘ amounts) (lines d) = false.
Proof.
  intros Hv Hf. unfold _validate_revision, _validate_finality in Hv. rewrite !andb_true_iff in Hv. destruct_and!.
  match goal with H : Bool.eqb (existsb _ _) _ = true |- _ => apply Bool.eqb_prop in H; rewrite H end.
  by apply bool_decide_eq_false.
Qed.

(** The total a bill must show: its lines at list price, less the programme's discount and
    the credits, with the fee. *)
Definition bill_total (d : QuoteRevisionData) (credits : list RemedyCredit) (fee : Z) : Z :=
  sumZ (list_min <$> lines d) - promotion_vnd d - sumZ (credit_amount_vnd <$> credits) + fee.

Lemma ledger_reconciled s : ledger s → reconciled (data s).
Proof. intros [(Hv & _)%stored_spec _]. by apply validated_reconciled. Qed.

Lemma ledger_bill s cs : ledger s → reserved_remedy_credits s = Ok cs →
  display_total_min_vnd (totals (data s)) = bill_total (data s) cs <$> quoted_delivery_fee_vnd (totals (data s)) ∧
  sumZ (net_min <$> lines (data s)) = bill_total (data s) cs 0 ∧ approved_surcharge_vnd (totals (data s)) = 0.
Proof.
  intros Hs Hcs. pose proof (ledger_reconciled s Hs) as Hr. destruct (ledger_reserved s Hs) as (cs' & Hcs' & _ & Hrows).
  rewrite Hcs in Hcs'. injection Hcs' as <-.
  destruct (credit_side _ cs (wm_rows _ (proj2 Hs)) Hrows) as [Hside Hsur].
  assert (approved_surcharge_vnd (totals (data s)) = 0) as Hz by (rewrite <- (rc_surcharge _ Hr); done).
  assert (sumZ (net_min <$> lines (data s)) = bill_total (data s) cs 0) as Hnet.
  { unfold bill_total, net_min. rewrite sumZ_sub.
    pose proof (rc_discount_min _ Hr). pose proof (rc_credits_min _ Hr). unfold promotion_vnd. lia. }
  split_and!; [|done|done]. rewrite (proj1 (rc_display _ Hr)), Hnet, Hz.
  destruct (quoted_delivery_fee_vnd _); [|done]. cbn. f_equal. unfold bill_total. lia.
Qed.

Lemma reserved_distinct s cs : ledger s → reserved_remedy_credits s = Ok cs → NoDup (credit_id <$> cs).
Proof.
  intros Hs Hcs. destruct (ledger_reserved s Hs) as (cs' & Hcs' & _ & Hrows).
  rewrite Hcs in Hcs'. injection Hcs' as <-. destruct Hs as [(Hv & _)%stored_spec _].
  apply validated_unique in Hv as (_ & _ & Hu & _).
  assert (NoDup (adjustment_id <$> (face_row <$> cs))) as Hnd.
  { rewrite <- Hrows. eapply sublist_NoDup; [exact Hu|apply fmap_sublist, sublist_filter]. }
  rewrite <- list_fmap_compose in Hnd. apply (NoDup_fmap_1 credit_adjustment_id).
  rewrite <- list_fmap_compose. exact Hnd.
Qed.

Lemma ledger_prices s :
  ledger s →
  ∃ cs frozen,
    reserved_remedy_credits s = Ok cs ∧ NoDup (credit_id <$> cs) ∧ frozen_promotion s = Ok frozen ∧
    promotion_vnd (data s) = default 0 (traced_discount_vnd <$> frozen) ∧
    display_total_min_vnd (totals (data s))
    = bill_total (data s) cs <$> quoted_delivery_fee_vnd (totals (data s)) ∧
    Forall (λ l, 0 <= net_min l <= list_min l) (lines (data s)) ∧
    (finality (data s) ≠ QuoteFinality.RANGE →
     display_total_max_vnd (totals (data s)) = display_total_min_vnd (totals (data s))).
Proof.
  intros Hs. destruct (ledger_reserved s Hs) as (cs & Hcs & _).
  destruct (ledger_promotion s Hs) as (frozen & Hf & Hp & _). exists cs, frozen.
  pose proof (ledger_reconciled s Hs) as Hr.
  split_and!; [done|by eapply reserved_distinct|done|done|by apply ledger_bill| |].
  - eapply Forall_impl; [apply (rc_lines _ Hr)|]. unfold net_min. cbn. lia.
  - intros Hfin. destruct (rc_display _ Hr) as [-> ->].
    assert (sumZ (net_max <$> lines (data s)) = sumZ (net_min <$> lines (data s))) as ->; [|done].
    destruct Hs as [(Hv & _)%stored_spec _].
    destruct (validated_lines _ Hv) as [_ Hl].
    pose proof (range_free _ Hv Hfin) as Hex.
    apply sumZ_map_ext, Forall_forall. intros l Hin. rewrite Forall_forall in Hl.
    destruct (amounts_ok_money l (Hl l Hin)) as (_ & _ & _ & _ & Ham).
    assert (is_range (amounts l) = false) as Hrange.
    { apply not_true_is_false. intros Hrange. rewrite <- not_true_iff_false in Hex. apply Hex, existsb_exists.
      exists l. split; [by apply list_elem_of_In|done]. }
    destruct (amounts l); [|done]. symmetry. apply Ham.
Qed.

(** C7: the bill of every revision the program derives, by composing, accepting, closing
    bands, reserving and releasing credits in any order: its total is its lines at list
    price, less the one discount of its frozen programme and the full face of each credit it
    reserves, with its delivery fee; no line is charged below zero, no credit is on it
    twice, and it shows no total until the fee is known. *)
Theorem derived_bill s :
  derived s →
  ∃ cs frozen,
    reserved_remedy_credits s = Ok cs ∧ NoDup (credit_id <$> cs) ∧ frozen_promotion s = Ok frozen ∧
    promotion_vnd (data s) = default 0 (traced_discount_vnd <$> frozen) ∧
    display_total_min_vnd (totals (data s))
    = bill_total (data s) cs <$> quoted_delivery_fee_vnd (totals (data s)) ∧
    Forall (λ l, 0 <= net_min l <= list_min l) (lines (data s)) ∧
    (finality (data s) ≠ QuoteFinality.RANGE →
     display_total_max_vnd (totals (data s)) = display_total_min_vnd (totals (data s))).
Proof. intros Hs%derived_ledger. by apply ledger_prices. Qed.

(** * Acceptance *)

Lemma accepted_data_normal s rev verified : stored s →
  let n := normalized (accepted_data (data s) rev verified) in
  lines n = lines (data s) ∧ adjustments n = adjustments (data s) ∧
  configuration_snapshots n = configuration_snapshots (data s) ∧ required_approvals n = required_approvals (data s).
Proof.
  intros (H1 & H2 & H3 & _ & _ & H6)%stored_normal. by split_and!.
Qed.


(** A revision that names no programme is accepted as it is, where none is published. *)
Lemma accept_unpromoted s rev accepted_at : ledger s → _promotion_reference s = None →
  accept_quote_revision s rev None accepted_at =
  (let d := data s in
   refuse_if (status d in? _UNACCEPTABLE_STATUSES) "QUOTE_ALREADY_FINAL" ;;
   refuse_if (finality d is? QuoteFinality.RANGE) (error_value ErrorCode.RANGE_PRICE_REQUIRES_HUMAN) ;;
   refuse_if (existsb (λ l, line_basis l is? QuantityBasis.CUSTOMER_ESTIMATE) (lines d))
     "QUOTE_QUANTITY_NOT_MEASURED" ;;
   refuse_if (bool_decide (quoted_delivery_fee_vnd (totals d) = None)) "QUOTE_DELIVERY_FEE_UNRESOLVED" ;;
   refuse_outstanding (_outstanding_approvals [required_approvals d; []]) ;;
   or_refuse (build_quote_snapshot (accepted_data d rev None))).
Proof.
  intros Hs Hr. unfold accept_quote_revision, _reverified_eligibility. by rewrite Hr.
Qed.

(** What makes a revision ready to accept. *)
Definition acceptable (d : QuoteRevisionData) : Prop :=
  status d ∉ _UNACCEPTABLE_STATUSES ∧ finality d ≠ QuoteFinality.RANGE ∧
  existsb (λ l, line_basis l is? QuantityBasis.CUSTOMER_ESTIMATE) (lines d) = false ∧
  is_Some (quoted_delivery_fee_vnd (totals d)) ∧ required_approvals d = [].

Lemma accepted_normal s rev : stored s →
  normalized (accepted_data (data s) rev None) = accepted_data (data s) rev None.
Proof.
  intros (H1 & H2 & H3 & H4 & H5 & H6)%stored_normal. unfold normalized, accepted_data.
  cbn [configuration_snapshots lines adjustments calculation_traces reason_codes required_approvals].
  by rewrite H1, H2, H3, H4, H5, H6.
Qed.

Lemma accepted_valid s rev : ledger s → acceptable (data s) → _promotion_reference s = None → 0 < rev →
  _validate_revision (accepted_data (data s) rev None) = true.
Proof.
  intros [Hst Hw] (Ha1 & Ha2 & Ha3 & Ha4 & Ha5) Href Hrev. pose proof Hst as (Hv & _)%stored_spec.
  pose proof (range_free _ Hv Ha2) as Hex. pose proof (wm_acknowledged _ Hw) as Hack.
  unfold _validate_revision in *. rewrite !andb_true_iff in *. destruct_and!.
  cbn [accepted_data schema_version revision currency priced_at valid_until tax_treatment
    calculation_engine_version calculation_engine_hash configuration_snapshots lines calculation_traces
    adjustments totals promotion_eligibility_event promotion_eligibility_at reason_codes required_approvals].
  split_and!; try done; [unfold _positive_int; lia|].
  unfold _validate_finality.
  cbn [accepted_data lines finality status approval_id customer_estimate_acknowledged_at priced_at].
  rewrite Hex, Hack. unfold lacks_final_evidence.
  cbn [accepted_data required_approvals totals lines status configuration_snapshots promotion_eligibility_event].
  rewrite Ha3, Ha5. destruct Ha4 as [fee ->].
  assert (existsb (λ c, config_type c is? "PROMOTION"%string) (configuration_snapshots (data s)) = false) as ->.
  { apply not_true_is_false. intros (c & Hin%list_elem_of_In & Hc)%existsb_exists. guards.
    unfold _promotion_reference, reference_of in Href. destruct (list_find _ _) as [?|] eqn:Hf; [done|].
    apply list_find_None in Hf. rewrite Forall_forall in Hf. by destruct (Hf c Hin). }
  by vm_compute.
Qed.

(** where no programme is cited or published, acceptance answers every derived
    revision: it is accepted exactly when its life is not over, it is no band, every
    quantity was measured, its delivery fee is known and no approval is outstanding. *)
Theorem accept_decided s rev accepted_at :
  derived s → _promotion_reference s = None → 0 < rev <= MAX_JCS_INTEGER →
  ((∃ s', accept_quote_revision s rev None accepted_at = Ok s') ↔ acceptable (data s)) ∧
  (∀ e, accept_quote_revision s rev None accepted_at = Err e →
     ∃ codes, e = UnresolvedQuote codes ∧ error_value ErrorCode.VALIDATION_ERROR ∉ codes).
Proof.
  intros Hd Href Hrev. pose proof (derived_ledger s Hd) as Hs.
  assert (Hok : acceptable (data s) → ∃ s', accept_quote_revision s rev None accepted_at = Ok s').
  { intros Hacc. pose proof Hacc as (H1 & H2 & H3 & H4 & H5). rewrite accept_unpromoted by done. cbv zeta.
    rewrite (bool_decide_false _ H1), (bool_decide_false _ H2), H3, H5, bool_decide_false
      by by apply not_eq_None_Some.
    assert (∃ s', build_quote_snapshot (accepted_data (data s) rev None) = Ok s') as [s' Hb].
    { eexists. apply build_quote_snapshot_Ok. rewrite accepted_normal by apply Hs.
      split_and!; [apply accepted_valid; try done; lia| |done].
      destruct Hs as [(_ & Hj & _)%stored_spec _].
      unfold revision_integers in *. cbn [app forallb] in *. rewrite !andb_true_iff in *.
      destruct Hj as (? & _ & ?). split_and!; [done| |done]. cbn. unfold jcs_safe, MAX_JCS_INTEGER in *. lia. }
    exists s'. cbn. by rewrite Hb. }
  split; [split; [|done]|].
  - intros (s' & (H1 & H2 & H3 & H4 & H5 & _)%accept_inv). done.
  - intros e H. assert (¬ acceptable (data s)) as Hn by (intros [s' Hs']%Hok; congruence).
    rewrite accept_unpromoted in H by done. cbv zeta in H.
    repeat (apply bind_Err in H as [(_ & ->)%unpriced_if_Err|([] & ?%unpriced_if_Ok & H)];
      [eexists; split; [done|]; by intros ?%list_elem_of_singleton|]).
    apply bind_Err in H as [H|([] & Ho%refuse_outstanding_Ok & H)].
    + unfold refuse_outstanding in H. destruct (_ =? 0)%nat; [done|]. injection H as <-. eexists. split; [done|].
      intros (action & Hc & _)%list_elem_of_fmap. by apply (f_equal (String.prefix "APPROVAL")) in Hc.
    + apply _outstanding_nil in Ho. cbn in Ho. rewrite app_nil_r in Ho. guards. destruct Hn.
      split_and!; try done. by apply not_eq_None_Some.
Qed.

(** * Closing a band *)

Lemma stored_bands_spec ls : ∀ bands bands', stored_bands bands ls = Some bands' →
  (∀ k v, bands !! k = Some v → bands' !! k = Some v) ∧
  (∀ l, l ∈ ls → is_range (amounts l) = true →
     discount_min l = 0 ∧ discount_max l = 0 ∧
     (amounts_ok (amounts l) = true → bands' !! quote_service_code l = Some (MkPriceBand (list_min l) (list_max l)))).
Proof.
  induction ls as [|l ls IH]; intros bands bands' H; cbn in H.
  { injection H as <-. split; [done|]. by intros l ?%elem_of_nil. }
  destruct (stored_band bands l) as [bands0|] eqn:Hb; [|done]. cbn in H. apply IH in H as [H1 H2].
  assert ((∀ k v, bands !! k = Some v → bands0 !! k = Some v) ∧
    (is_range (amounts l) = true → discount_min l = 0 ∧ discount_max l = 0 ∧
     (amounts_ok (amounts l) = true → bands0 !! quote_service_code l = Some (MkPriceBand (list_min l) (list_max l)))))
    as [H3 H4].
  { unfold stored_band, discount_min, discount_max, list_min, list_max in *.
    destruct (amounts l) as [|u1 u2 l1 l2 d1 d2 n1 n2] eqn:Ha; [by injection Hb as <-|].
    destruct (_ || _) eqn:Hg in Hb; [done|]. injection Hb as <-. guards.
    match goal with H : ¬ is_Some _ |- _ => apply eq_None_not_Some in H; rename H into Hn end. split.
    - intros k v Hk. rewrite lookup_insert_ne; [done|]. by intros <-; rewrite Hn in Hk.
    - intros _. split_and!; [lia|lia|]. intros Hok. rewrite lookup_insert_eq. unfold amounts_ok in Hok.
      guards. do 2 f_equal; lia. }
  split; [by eauto|]. intros l0 [->|Hin]%elem_of_cons; [|by eauto]. intros Hr. destruct (H4 Hr) as (? & ? & Hx).
  split_and!; [done|done|]. eauto.
Qed.

Lemma outcome_list ls o : outcome_lines ls o →
  ∃ f, promoted_lines o = f <$> ls ∧ ∀ l, list_min (f l) = list_min l ∧ list_max (f l) = list_max l ∧
    quote_line_id (f l) = quote_line_id l ∧ quote_service_code (f l) = quote_service_code l ∧
    is_range (amounts (f l)) = is_range (amounts l).
Proof.
  intros (share & -> & _). eexists. split; [done|]. intros l. unfold list_min, list_max.
  destruct (amounts l) eqn:Ha; [|by rewrite Ha]. destruct (_ =? 0); cbn; by rewrite ?Ha.
Qed.

(** C20: closing a band turns every range line into one exact amount that the attestation
    names for its service and that lies in the band the stored revision showed for it;
    exactly priced lines keep their price, so the list subtotal stays between the two the
    customer was read; and the new revision is exact, under the approval of the
    attestation, for the quote and revision it was made for. *)
Theorem close_within_the_band s rev a p closed_at s' :
  derived s → close_range_prices s rev a p closed_at = Ok s' →
  (quote_id (data s), revision (data s)) = (attested_quote_id a, attested_revision a) ∧
  (finality (data s'), status (data s')) = (QuoteFinality.APPROVED_EXACT, QuoteRevisionStatus.APPROVED) ∧
  approval_id (data s') = attested_approval_id a ∧ is_Some (attested_approval_id a) ∧
  Forall (λ l, ∃ l', l' ∈ lines (data s') ∧ quote_line_id l' = quote_line_id l ∧ is_range (amounts l') = false ∧
    if is_range (amounts l)
    then MkRangePriceChoice (quote_service_code l) (list_min l') ∈ choices a ∧
         list_min l <= list_min l' <= list_max l
    else list_min l' = list_min l) (lines (data s)) ∧
  sumZ (list_min <$> lines (data s)) <= sumZ (list_min <$> lines (data s')) <= sumZ (list_max <$> lines (data s)).
Proof.
  intros Hd Hclose. pose proof (derived_ledger s Hd) as Hs.
  destruct (close_inv _ _ _ _ _ _ Hclose) as
    (Hr & _ & Hq & Hrev & Happ & book & bands & chosen & o & listed & _ & Hbands & Hres & Hdom & _ & Ho & _ & _ & Hb).
  pose proof (built_fields _ _ Hb) as (_ & Hn & Hl & _). cbn [closed_data lines] in Hl.
  apply promotion_outcome_spec in Ho as (Hout & _ & _). destruct (outcome_list _ _ Hout) as (f & Hf & Hfs).
  apply resolve_range_prices_in_band in Hres as (_ & _ & Hin).
  destruct (validated_lines (data s)) as [_ Hok]; [by destruct Hs as [(? & _)%stored_spec _]|].
  rewrite Forall_forall in Hok. apply stored_bands_spec in Hbands as [_ Hbands].
  assert (Hclosed : ∀ l, l ∈ lines (data s) →
    is_range (amounts (closed_line chosen l)) = false ∧
    if is_range (amounts l)
    then MkRangePriceChoice (quote_service_code l) (list_min (closed_line chosen l)) ∈ choices a ∧
         list_min l <= list_min (closed_line chosen l) <= list_max l
    else list_min (closed_line chosen l) = list_min l ∧ list_min l = list_max l).
  { intros l Hlin. pose proof (Hbands l Hlin) as Hband. pose proof (Hok l Hlin) as Hamount.
    unfold closed_line. destruct (amounts l) eqn:Ha.
    { cbn. rewrite Ha. split; [done|]. split; [done|]. unfold list_min, list_max. by rewrite Ha. }
    cbn in Hband |- *. destruct (Hband eq_refl) as (_ & _ & Hb0). specialize (Hb0 Hamount).
    assert (is_Some (chosen !! quote_service_code l)) as [amount Hchosen].
    { apply elem_of_dom. rewrite Hdom. apply elem_of_dom. by eexists. }
    rewrite Hchosen. cbn. destruct (proj1 (Hin _ _) Hchosen) as (Hc & band & Hband' & Hbounds & _).
    rewrite Hb0 in Hband'. injection Hband' as <-. done. }
  split; [by rewrite Hq, Hrev|]. split; [by rewrite Hn|]. split; [by rewrite Hn|]. split; [done|]. split.
  - apply Forall_forall. intros l Hlin. destruct (Hclosed l Hlin) as [Hx Hy].
    destruct (Hfs (closed_line chosen l)) as (F1 & F2 & F3 & F4 & F5).
    exists (f (closed_line chosen l)). split_and!.
    + rewrite Hl, Hf. by apply list_elem_of_fmap_2, list_elem_of_fmap_2.
    + rewrite F3. apply closed_same.
    + by rewrite F5.
    + rewrite F1. destruct (is_range (amounts l)); [done|apply Hy].
  - assert (sumZ (list_min <$> lines (data s')) = sumZ ((λ l, list_min (closed_line chosen l)) <$> lines (data s))) as ->.
    { rewrite (sumZ_perm _ (list_min <$> promoted_lines o)) by by rewrite Hl. rewrite Hf, <- !list_fmap_compose.
      apply sumZ_map_ext, Forall_forall. intros l _. cbn. apply Hfs. }
    split; apply sumZ_map_le, Forall_forall; intros l Hlin; destruct (Hclosed l Hlin) as [_ Hy];
      destruct (is_range (amounts l)); lia.
Qed.

(** * Credits *)

Lemma nets_of ls w : Forall (λ l, amounts_ok (amounts l) = true) ls → mapM line_net ls = Some w →
  w = (λ l, (quote_line_id l, net_min l)) <$> ls.
Proof.
  intros Hok. revert w. induction Hok as [|l ls Hl _ IH]; intros w; cbn; [by intros [= <-]|].
  intros H. apply bind_Some in H as (x & Hx & H). apply bind_Some in H as (w' & Hw & [= <-]).
  rewrite (IH w') by done. f_equal. destruct (amounts_ok_money l Hl) as (_ & _ & _ & _ & Hnet).
  unfold line_net in Hx. destruct (amounts l); [|done]. injection Hx as <-. destruct Hnet as [-> _]. done.
Qed.

(** What an allocation gives each weight: all of the credit, and to no line more than it has. *)
Lemma allocate_remedy_credit_Ok w amount a :
  NoDup w.*1 → Forall (λ x, 0 <= x.2) w → allocate_remedy_credit w amount = Ok a →
  0 < amount <= MAX_JCS_INTEGER ∧ amount <= sumZ w.*2 ∧ total_vnd a = amount ∧ w ≠ [] ∧
  NoDup (per_line_vnd a).*1 ∧ (per_line_vnd a).*1 ≡ₚ w.*1 ∧ sumZ (per_line_vnd a).*2 = amount ∧
  (∀ id share, (id, share) ∈ per_line_vnd a → ∃ net, (id, net) ∈ w ∧ 0 <= share <= net).
Proof.
  intros Hnd Hw H. unfold allocate_remedy_credit in H. cbv zeta in H.
  apply raise_bind_Ok in H as [H1 H]. apply raise_bind_Ok in H as [H2 [= <-]]. unfold _money in H1. guards.
  assert (Hp : stable_sort id_leb w ≡ₚ w) by apply stable_sort_perm.
  assert (Hsum : sumZ (stable_sort id_leb w).*2 = sumZ w.*2) by (apply sumZ_perm; by rewrite Hp).
  rewrite Hsum in *. cbn [per_line_vnd total_vnd].
  change (zip _ _) with (allocation_pairs (stable_sort id_leb w) amount (sumZ w.*2) amount).
  assert (Hclose : 2 * Z.abs (sumZ w.*2 * amount - amount * sumZ (stable_sort id_leb w).*2) <= sumZ w.*2)
    by (rewrite Hsum; lia).
  assert (Hids : (allocation_pairs (stable_sort id_leb w) amount (sumZ w.*2) amount).*1 ≡ₚ w.*1)
    by by rewrite split_ids, Hp.
  split_and!; try lia; try done.
  - intros ->. by match goal with H : (length _ =? 0)%nat = false |- _ => vm_compute in H end.
  - by rewrite Hids.
  - apply split_sum; [lia|done].
  - intros id share Hin. apply split_close in Hin as (net & Hnet & Hlo & Hhi & _); [|lia|done].
    rewrite Hp in Hnet. exists net. split; [done|]. rewrite Forall_forall in Hw. specialize (Hw _ Hnet). cbn in Hw.
    assert (0 <= net * amount / sumZ w.*2) by (apply Z.div_pos; nia). nia.
Qed.

Lemma credited_lines_spec ls w amount a :
  Forall (λ l, amounts_ok (amounts l) = true) ls → NoDup (quote_line_id <$> ls) → mapM line_net ls = Some w →
  allocate_remedy_credit w amount = Ok a →
  0 < amount <= MAX_JCS_INTEGER ∧ amount <= sumZ (net_min <$> ls) ∧ total_vnd a = amount ∧
  Forall (λ l, is_range (amounts l) = false ∧ ∃ share, dict_get (per_line_vnd a) (quote_line_id l) = Some share ∧
      0 <= share <= net_min l) ls ∧
  sumZ ((λ l, default 0 (dict_get (per_line_vnd a) (quote_line_id l))) <$> ls) = amount.
Proof.
  intros Hok Hnd Hm Ha. pose proof (nets_of ls w Hok Hm) as Hw.
  assert (Hids : w.*1 = quote_line_id <$> ls) by (rewrite Hw; by rewrite <- list_fmap_compose).
  assert (Hnets : w.*2 = net_min <$> ls) by (rewrite Hw; by rewrite <- list_fmap_compose).
  assert (Forall (λ x, 0 <= x.2) w) as Hpos.
  { rewrite Hw. apply Forall_fmap. eapply Forall_impl; [exact Hok|]. cbn. intros l Hl.
    apply amounts_ok_money in Hl. lia. }
  apply allocate_remedy_credit_Ok in Ha as (H1 & H2 & H3 & H4 & H5 & H6 & H7 & H8); [|by rewrite Hids|done].
  rewrite Hnets in H2. split_and!; [lia..|lia|done| |].
  - apply Forall_forall. intros l Hl. split.
    + apply mapM_Some in Hm. apply list_elem_of_lookup in Hl as [i Hi].
      destruct (Forall2_lookup_l _ _ _ _ _ Hm Hi) as (x & _ & Hx). unfold line_net in Hx. by destruct (amounts l).
    + assert (quote_line_id l ∈ (per_line_vnd a).*1) as Hin
        by (rewrite H6, Hids; by apply list_elem_of_fmap_2).
      apply list_elem_of_fmap in Hin as ([id share] & Heq & Hin). cbn in Heq. subst id.
      exists share. split; [by apply dict_elem_get|]. destruct (H8 _ _ Hin) as (net & Hnet & Hb).
      rewrite Hw in Hnet. apply list_elem_of_fmap in Hnet as (l' & [= Hid ->] & Hl').
      assert (l' = l) as ->; [|done]. apply list_elem_of_lookup in Hl as [i Hi], Hl' as [j Hj].
      assert (i = j) as <-; [|congruence].
      eapply (NoDup_lookup (quote_line_id <$> ls)); [done|by rewrite list_lookup_fmap, Hi|].
      rewrite list_lookup_fmap, Hj. cbn. by rewrite Hid.
  - rewrite <- H7, <- (sumZ_lookup (quote_line_id <$> ls)); [by rewrite <- list_fmap_compose|done..|].
    intros k. by rewrite H6, Hids.
Qed.

Lemma reserved_perm s s' cs rows :
  ledger s → ledger s' → reserved_remedy_credits s = Ok cs →
  adjustments (data s') ≡ₚ adjustments (data s) ++ (face_row <$> rows) →
  Forall (λ c, is_uuid (credit_id c)) rows →
  ∃ cs', reserved_remedy_credits s' = Ok cs' ∧ cs' ≡ₚ cs ++ rows.
Proof.
  intros Hs Hs' Hcs Ha Hrows. destruct (ledger_reserved s Hs) as (cs0 & Hcs0 & Hu & Hr).
  rewrite Hcs in Hcs0. injection Hcs0 as <-.
  destruct (ledger_reserved s' Hs') as (cs' & Hcs' & Hu' & Hr'). exists cs'. split; [done|].
  assert (face_row <$> cs' ≡ₚ face_row <$> (cs ++ rows)) as Hp.
  { rewrite <- Hr', fmap_app, <- Hr. unfold rows_of. rewrite Ha, filter_app. f_equiv.
    clear. induction rows as [|c rows IH]; [done|]. cbn [fmap list_fmap]. rewrite filter_cons, decide_True by done.
    by f_equiv. }
  assert (∀ l, Forall (λ c, is_uuid (credit_id c)) l →
    (face_row <$> l) ≫= (λ a, match credit_of a with Ok c => [c] | Err _ => [] end) = l) as Hread.
  { clear. induction 1 as [|c l Hc _ IH]; [done|]. cbn [fmap list_fmap mbind list_bind].
    rewrite credit_of_face by done. cbn. by f_equal. }
  rewrite <- (Hread cs'), <- (Hread (cs ++ rows)) by (done || by apply Forall_app). by rewrite Hp.
Qed.

Lemma credit_lands s rev c s' :
  derived s → is_uuid (credit_id c) → redeem_remedy_credit s rev c = Ok s' →
  0 < credit_amount_vnd c <= sumZ (net_min <$> lines (data s)) ∧
  display_total_min_vnd (totals (data s'))
  = (λ total, total - credit_amount_vnd c) <$> display_total_min_vnd (totals (data s)) ∧
  Forall (λ l, ∃ l', l' ∈ lines (data s') ∧ quote_line_id l' = quote_line_id l ∧ list_min l' = list_min l ∧
    0 <= net_min l' <= net_min l) (lines (data s)) ∧
  promotion_vnd (data s') = promotion_vnd (data s) ∧ status (data s') = status (data s) ∧
  ∃ cs cs', reserved_remedy_credits s = Ok cs ∧ reserved_remedy_credits s' = Ok cs' ∧
    credit_id c ∉ credit_id <$> cs ∧ cs' ≡ₚ cs ++ [c].
Proof.
  intros Hd Hc H. pose proof (derived_ledger s Hd) as Hs. pose proof (ledger_credited s rev c s' Hs Hc H) as Hs'.
  destruct (redeem_inv _ _ _ _ H) as (cs & frozen & w & a & t & Hcs & Hnew & _ & _ & _ & _ & Hw & Ha & _ & Hb).
  destruct (built_fields _ _ Hb) as (_ & Hn & Hl & Hadj & _ & _). cbn [credited_data lines adjustments] in Hl, Hadj.
  pose proof Hs as [(Hv & _)%stored_spec _]. destruct (validated_lines _ Hv) as [_ Hok].
  destruct (validated_unique _ Hv) as (_ & Hids & _).
  destruct (credited_lines_spec _ _ _ _ Hok Hids Hw Ha) as (Hpos & Hmax & Htot & Hlines & Hsum).
  rewrite Htot in Hadj. change [credit_row c (credit_amount_vnd c)] with (face_row <$> [c]) in Hadj.
  destruct (reserved_perm s s' cs [c] Hs Hs' Hcs Hadj) as (cs' & Hcs' & Hperm); [by apply Forall_singleton|].
  assert (Hp : promotion_vnd (data s') = promotion_vnd (data s)).
  { unfold promotion_vnd. rewrite (sumZ_perm _ _ (fmap_Permutation _ _ _ Hadj)), fmap_app, sumZ_app.
    cbn [fmap list_fmap]. rewrite sumZ_one, (proj1 (proj2 (row_sides _))). cbn. lia. }
  assert (Hlist : sumZ (list_min <$> lines (data s')) = sumZ (list_min <$> lines (data s))).
  { rewrite (sumZ_perm _ _ (fmap_Permutation _ _ _ Hl)), <- list_fmap_compose.
    apply sumZ_map_ext, Forall_forall. intros l _. cbn. apply credited_same. }
  split_and!; [lia|lia| | |done|by rewrite Hn|].
  - destruct (ledger_bill s cs Hs Hcs) as (-> & _). destruct (ledger_bill s' cs' Hs' Hcs') as (-> & _).
    assert (quoted_delivery_fee_vnd (totals (data s')) = quoted_delivery_fee_vnd (totals (data s))) as -> by by rewrite Hn.
    destruct (quoted_delivery_fee_vnd _); [|done]. cbn. f_equal. unfold bill_total.
    rewrite (sumZ_perm _ _ (fmap_Permutation credit_amount_vnd _ _ Hperm)), fmap_app, sumZ_app.
    cbn [fmap list_fmap]. rewrite sumZ_one. lia.
  - apply Forall_forall. intros l Hin. rewrite Forall_forall in Hlines, Hok.
    destruct (Hlines l Hin) as (Hx & share & Hshare & Hb'). exists (credited_line (per_line_vnd a) l).
    split; [rewrite Hl; by apply list_elem_of_fmap_2|]. destruct (credited_same (per_line_vnd a) l) as (_ & _ & -> & ->).
    split_and!; [done|done| |]; unfold net_min, list_min, discount_min in *; unfold credited_line;
      destruct (amounts l); try done; cbn; rewrite Hshare; cbn; lia.
  - by exists cs, cs'.
Qed.

(** a remedy credit lands whole: the bill falls by exactly its face, which is positive
    and no more than the bill; every line keeps its list price, is charged no more than
    before and never below zero; the programme's discount stays; and the revision reserves
    what it reserved before with this credit added, read back in full. *)
Theorem credit_lands_whole s rev c s' :
  derived s → is_uuid (credit_id c) → redeem_remedy_credit s rev c = Ok s' →
  0 < credit_amount_vnd c <= sumZ (net_min <$> lines (data s)) ∧
  display_total_min_vnd (totals (data s'))
  = (λ total, total - credit_amount_vnd c) <$> display_total_min_vnd (totals (data s)) ∧
  Forall (λ l, ∃ l', l' ∈ lines (data s') ∧ quote_line_id l' = quote_line_id l ∧ list_min l' = list_min l ∧
    0 <= net_min l' <= net_min l) (lines (data s)) ∧
  promotion_vnd (data s') = promotion_vnd (data s) ∧ status (data s') = status (data s) ∧
  ∃ cs cs', reserved_remedy_credits s = Ok cs ∧ reserved_remedy_credits s' = Ok cs' ∧
    credit_id c ∉ credit_id <$> cs ∧ cs' ≡ₚ cs ++ [c].
Proof. apply credit_lands. Qed.
End with_digests.
