(* ===== verification/QuoteCredits.v ===== *)
(** Carrying credits into a new price ([compose_quote_revision]): every credit a reprice is
    given ends up on the bill or stated as released, never both and never neither. *)
From Stdlib Require Import Ascii String.
From S2P Require Import Prelude Catalog Clock Text PyDecimal Uuid.
From S2P Require Import Pricing Allocation Promotion Delivery RangePrices.
From S2P Require Import Quotes QuotesFacts QuoteComposition QuoteCompositionFacts QuoteLedger QuotePrices.
Local Open Scope laundry_scope.
Local Open Scope Z_scope.

#[local] Arguments sumZ : simpl never.
#[local] Arguments code_set : simpl never.
#[local] Arguments stable_sort : simpl never.
#[local] Opaque UUID uuid_str hex_padded.

Lemma distinct_credits_spec l : ∀ kept, NoDup (credit_id <$> kept) →
  NoDup (credit_id <$> distinct_credits kept l) ∧
  (∀ c, c ∈ distinct_credits kept l → c ∈ kept ∨ c ∈ l) ∧
  (∀ id, id ∈ credit_id <$> distinct_credits kept l ↔ id ∈ credit_id <$> kept ∨ id ∈ credit_id <$> l).
Proof.
  induction l as [|c l IH]; intros kept Hk; cbn [distinct_credits].
  { split_and!; [done|by left|]. intros id. split; [by left|]. by intros [?|?%elem_of_nil]. }
  destruct (credit_id c in? _) eqn:Hin.
  - guards. destruct (IH kept Hk) as (H1 & H2 & H3). split_and!; [done| |].
    + intros c' Hc'. destruct (H2 c' Hc'); [by left|right; by right].
    + intros id. rewrite H3. cbn [fmap list_fmap]. rewrite elem_of_cons. naive_solver.
  - guards. destruct (IH (kept ++ [c])) as (H1 & H2 & H3).
    { rewrite fmap_app. apply NoDup_app. split_and!; [done| |apply NoDup_singleton].
      intros id Hid ->%list_elem_of_singleton. done. }
    split_and!; [done| |].
    + intros c' Hc'. destruct (H2 c' Hc') as [[?| ->%list_elem_of_singleton]%elem_of_app|?];
        [by left|right; left|right; by right].
    + intros id. rewrite H3, fmap_app. cbn [fmap list_fmap]. set_solver.
Qed.

Lemma rows_none k adj : Forall (λ a, kind a ≠ k) adj → rows_of k adj = [].
Proof.
  unfold rows_of. induction 1 as [|a adj Ha _ IH]; [done|]. by rewrite filter_cons, decide_False.
Qed.

(** A trace whose name does not say so states no release. *)
Lemma states_none ts :
  Forall (λ t, after_prefix REMEDY_CREDIT_RELEASED_COMPONENT_PREFIX (component t) = None) ts →
  omap states_release ts = [].
Proof.
  induction 1 as [|t ts Ht _ IH]; [done|]. cbn. unfold states_release at 1. by rewrite Ht.
Qed.

Section with_digests.
Context `{DG : !Digests}.

(** A fresh price carries no credit and states no release. *)
Lemma fresh_uncredited q s : _compose_fresh q = Ok s →
  reserved_remedy_credits s = Ok [] ∧ omap states_release (calculation_traces (data s)) = [].
Proof.
  intros Hfresh. pose proof (ledger_fresh q s Hfresh) as Hs.
  destruct (fresh_inv q s Hfresh) as (results & chosen & composed & delivery & o & H).
  destruct (fc_built _ _ _ _ _ _ _ H) as (d & dt & Hb & Hdt & _ & Ha & Ht & _).
  destruct (built_fields d s Hb) as (_ & _ & _ & Hadj & _ & Htr).
  pose proof (fc_promotion _ _ _ _ _ _ _ H) as (_ & _ & Ho)%promotion_outcome_spec.
  pose proof (compose_lines_inv _ _ _ _ (fc_lines _ _ _ _ _ _ _ H)) as Hc.
  assert (Hcase : Forall (λ a, kind a ≠ QuoteAdjustmentKind.REMEDY_CREDIT) (promoted_adjustments o) ∧
    Forall (λ t, component t = PROMOTION_COMPONENT) (promoted_traces o)).
  { destruct (promotion q) as [p|]; [|subst o; by split]. destruct (existsb _ _); [subst o; by split|].
    destruct (eo_trace _ _ _ _ _ Ho) as (payload & t & (_ & _ & _ & ->)%capture_Ok & -> & _).
    rewrite (eo_row _ _ _ _ _ Ho). split; [|by apply Forall_singleton].
    unfold promotion_row. destruct (_ =? 0); [constructor|by apply Forall_singleton]. }
  destruct Hcase as [Hrow Htrace].
  assert (Hdrow : Forall (λ a, kind a ≠ QuoteAdjustmentKind.REMEDY_CREDIT) (_delivery_outcome delivery).1.2).
  { unfold _delivery_outcome. destruct (fee_outcome delivery), (delivery_fee_vnd delivery) as [fee|]; try constructor.
    destruct (fee =? 0); [constructor|by apply Forall_singleton]. }
  split.
  - unfold reserved_remedy_credits. fold (rows_of QuoteAdjustmentKind.REMEDY_CREDIT (adjustments (data s))).
    rewrite rows_none; [done|]. rewrite Hadj, Ha. by apply Forall_app.
  - apply states_none. rewrite Htr, Ht. apply Forall_app. split; [apply Forall_app; split|].
    + apply Forall_forall. intros t ((l & t') & -> & Hin)%list_elem_of_fmap. apply list_elem_of_lookup in Hin as [i Hi].
      destruct (Forall2_lookup_r _ _ _ _ _ Hc Hi) as (ir & _ & Hn & _). cbn [snd] in *. by rewrite Hn.
    + apply Forall_singleton. by rewrite Hdt.
    + eapply Forall_impl; [exact Htrace|]. by intros t ->.
Qed.

(** * Carrying the credits *)

(** What carrying has done so far from the fresh price [f]: each credit it has seen is
    reserved or released, and the bill has fallen by those reserved. *)
Definition carrying (f : ImmutableQuoteSnapshot) (spent : list (RemedyCredit * string)) (seen : list RemedyCredit)
    (acc : ImmutableQuoteSnapshot * list (RemedyCredit * string)) : Prop :=
  derived acc.1 ∧ spent `prefix_of` acc.2 ∧ omap states_release (calculation_traces (data acc.1)) = [] ∧
  ∃ cs, reserved_remedy_credits acc.1 = Ok cs ∧ cs ++ acc.2.*1 ≡ₚ seen ∧
    display_total_min_vnd (totals (data acc.1))
    = (λ total, total - sumZ (credit_amount_vnd <$> cs)) <$> display_total_min_vnd (totals (data f)).

Lemma redeem_states_none s rev c s' : redeem_remedy_credit s rev c = Ok s' →
  omap states_release (calculation_traces (data s)) = [] → omap states_release (calculation_traces (data s')) = [].
Proof.
  intros (cs & frozen & w & a & t & _ & _ & _ & _ & _ & _ & _ & _ & Ht & Hb)%redeem_inv Hnil.
  destruct (built_fields _ _ Hb) as (_ & _ & _ & _ & _ & Htr). cbn [credited_data calculation_traces] in Htr.
  apply Permutation_nil_r. rewrite Htr, omap_app, Hnil. cbn. unfold states_release.
  by rewrite (credit_trace_name _ _ _ _ Ht), after_prefix_credit.
Qed.

Lemma carry_step f rev spent seen acc c acc' :
  carrying f spent seen acc → is_uuid (credit_id c) → carry_credit rev acc c = Ok acc' →
  carrying f spent (seen ++ [c]) acc'.
Proof.
  intros (Hd & Hpre & Hnil & cs & Hcs & Hp & Hbill) Hc H. unfold carry_credit in H.
  destruct (redeem_remedy_credit acc.1 rev c) as [s'|[codes|?]] eqn:Hr; [injection H as <-..|done].
  - destruct (credit_lands _ _ _ _ Hd Hc Hr) as (_ & Hdis & _ & _ & _ & cs0 & cs' & Hcs0 & Hcs' & _ & Hp').
    rewrite Hcs in Hcs0. injection Hcs0 as <-. split; [by eapply derived_credited|]. split; [done|].
    split; [by eapply redeem_states_none|]. exists cs'. cbn. split_and!; [done| |].
    + rewrite Hp', <- Hp. by rewrite <- !app_assoc, (Permutation_app_comm [c]).
    + rewrite Hdis, Hbill. destruct (display_total_min_vnd (totals (data f))); [|done]. cbn. f_equal.
      rewrite (sumZ_perm _ _ (fmap_Permutation credit_amount_vnd _ _ Hp')), fmap_app, sumZ_app.
      cbn [fmap list_fmap]. rewrite sumZ_one. lia.
  - split; [done|]. split; [by apply prefix_app_r|]. split; [done|]. exists cs. split_and!; [done| |done]. cbn.
    by rewrite fmap_app, app_assoc, Hp.
Qed.

Lemma carry_all f rev spent l : ∀ seen acc acc',
  carrying f spent seen acc → Forall (λ c, is_uuid (credit_id c)) l → fold_result (carry_credit rev) acc l = Ok acc' →
  carrying f spent (seen ++ l) acc'.
Proof.
  induction l as [|c l IH]; intros seen acc acc' Hacc Hl H; cbn in H.
  { injection H as <-. by rewrite app_nil_r. }
  apply Forall_cons in Hl as [Hc Hl]. apply bind_Ok in H as (acc1 & H1 & H).
  rewrite cons_middle, app_assoc. eapply IH; [|done|exact H]. by eapply carry_step.
Qed.

Lemma stated_releases s released s' : ledger s → Forall (λ cr, is_uuid (credit_id cr.1)) released →
  _state_released_credits s released = Ok s' →
  omap states_release (calculation_traces (data s'))
  ≡ₚ omap states_release (calculation_traces (data s)) ++ (credit_id <$> released.*1) ∧
  adjustments (data s') = adjustments (data s) ∧ lines (data s') = lines (data s) ∧ totals (data s') = totals (data s).
Proof.
  intros [Hs _] Hu H. apply bind_Ok in H as (ts & Hts & Hb).
  destruct (built_fields _ _ Hb) as (_ & Hn & _ & _ & _ & Htr). cbn [released_data calculation_traces] in Htr.
  destruct (stored_normal s Hs) as (_ & H2 & H3 & _). split; [|by rewrite Hn].
  rewrite Htr, omap_app. apply Permutation_app_head. apply released_names in Hts. clear -Hts Hu.
  revert ts Hts. induction Hu as [|[c reason] released Hc _ IH]; intros ts Hts.
  - by apply fmap_nil_inv in Hts as ->.
  - destruct ts as [|t ts]; [done|]. cbn [fmap list_fmap] in Hts |- *. apply (f_equal head) in Hts as Hhd.
    apply (f_equal tail) in Hts. cbn [head tail] in *. apply (inj Some) in Hhd. cbn [omap list_omap].
    assert (states_release t = Some (credit_id c)) as ->.
    { unfold states_release. rewrite Hhd. unfold credit_component. rewrite after_prefix_app. cbn [mbind option_bind].
      rewrite txt_text_of. by apply UUID_hex_upper. }
    by rewrite (IH ts Hts).
Qed.

(** Composing with credits, taken apart. *)
Lemma compose_inv q credits spent s : compose_quote_revision q credits spent = Ok s →
  Forall (λ c, is_uuid (credit_id c)) credits →
  let distinct := distinct_credits [] credits in
  ∃ f reserved released,
    _compose_fresh q = Ok f ∧ derived s ∧ reserved_remedy_credits s = Ok reserved ∧
    released_remedy_credit_ids s = Ok (list_to_set (credit_id <$> released)) ∧ reserved ++ released ≡ₚ distinct ∧
    (∀ c, c ∈ distinct → credit_id c ∈ spent → c ∈ released) ∧
    display_total_min_vnd (totals (data s))
    = (λ total, total - sumZ (credit_amount_vnd <$> reserved)) <$> display_total_min_vnd (totals (data f)).
Proof.
  intros H Hu distinct. unfold compose_quote_revision in H. fold distinct in H. cbv zeta in H.
  apply bind_Ok in H as (f & Hf & H). exists f.
  assert (Hud : Forall (λ c, is_uuid (credit_id c)) distinct).
  { apply Forall_forall. intros c Hc. rewrite Forall_forall in Hu. apply Hu.
    by destruct (proj1 (proj2 (distinct_credits_spec credits [] NoDup_nil_2)) c Hc) as [?%elem_of_nil|]. }
  destruct (fresh_uncredited q f Hf) as [Hnone Hstates].
  assert (Hdisplay : display_total_min_vnd (totals (data f))
    = (λ total, total - sumZ (credit_amount_vnd <$> [])) <$> display_total_min_vnd (totals (data f))).
  { destruct (display_total_min_vnd _); [|done]. cbn. f_equal. unfold sumZ. cbn. lia. }
  destruct (length distinct =? 0)%nat eqn:Hlen.
  { injection H as <-. apply Nat.eqb_eq, length_zero_iff_nil in Hlen. exists [], []. rewrite Hlen.
    split_and!; [done|by eapply derived_fresh|done| |done|by intros ? ?%elem_of_nil|done].
    rewrite ledger_released by by apply derived_ledger, (derived_fresh q). by rewrite Hstates. }
  apply bind_Ok in H as (carried & Hcarried & H).
  set (spent_list := filter (λ c, credit_id c ∈ spent) distinct) in *.
  set (live := filter (λ c, credit_id c ∉ spent) distinct) in *.
  set (start := (λ c, (c, "REMEDY_CREDIT_ALREADY_REDEEMED"%string)) <$> spent_list) in *.
  assert (Hstart1 : start.*1 = spent_list) by (unfold start; by rewrite <- list_fmap_compose, list_fmap_id).
  assert (Hstart : carrying f start spent_list (f, start)).
  { split; [by eapply derived_fresh|]. split; [done|]. split; [done|]. exists []. split_and!; [done| |done]. cbn.
    by rewrite Hstart1. }
  assert (Hlive : Forall (λ c, is_uuid (credit_id c)) live).
  { apply Forall_forall. intros c [_ Hc]%list_elem_of_filter. rewrite Forall_forall in Hud. by apply Hud. }
  apply (carry_all f _ _ _ _ _ _ Hstart) in Hcarried; [|done].
  destruct Hcarried as (Hd & [later Hlater] & Hnil & cs & Hcs & Hp & Hbill).
  assert (Hall : cs ++ carried.2.*1 ≡ₚ distinct).
  { rewrite Hp. unfold spent_list, live. clear. induction distinct as [|c l IH]; [done|]. rewrite !filter_cons.
    destruct (decide (credit_id c ∈ spent)); [rewrite decide_False by naive_solver|rewrite decide_True by done].
    - cbn. by rewrite IH.
    - rewrite <- Permutation_middle. by rewrite IH. }
  assert (Hspent : ∀ c, c ∈ distinct → credit_id c ∈ spent → c ∈ carried.2.*1).
  { intros c Hc Hs. rewrite Hlater, fmap_app, elem_of_app, Hstart1. left. unfold spent_list.
    by apply list_elem_of_filter. }
  exists cs, carried.2.*1. destruct (length carried.2 =? 0)%nat eqn:Hlen2.
  - injection H as <-. apply Nat.eqb_eq, length_zero_iff_nil in Hlen2. split_and!; try done.
    rewrite ledger_released by by apply derived_ledger. by rewrite Hnil, Hlen2.
  - apply or_refuse_Ok in H. assert (Hrel : Forall (λ cr, is_uuid (credit_id cr.1)) carried.2).
    { rewrite <- Hall in Hud. apply Forall_app in Hud as [_ Hud]. clear -Hud. rewrite Forall_fmap in Hud. exact Hud. }
    destruct (stated_releases _ _ _ (derived_ledger _ Hd) Hrel H) as (Hst & Hadj & Hl & Ht).
    assert (Hds : derived s) by by eapply derived_released. split_and!; try done.
    + unfold reserved_remedy_credits. rewrite Hadj. exact Hcs.
    + rewrite ledger_released by by apply derived_ledger. f_equal. apply set_eq. intros x.
      by rewrite !elem_of_list_to_set, Hst, Hnil.
    + by rewrite Ht.
Qed.

(** C8: no credit is lost in a reprice.  Of the credits given to
    [compose_quote_revision] each one, whatever the order and repetitions, is either
    reserved on the new revision at its full face or stated as released on it, and not both;
    a credit another order has spent is released; nothing else is reserved or released; and
    the bill is the fresh one less exactly the credits reserved. *)
Theorem no_credit_is_lost q credits spent s :
  Forall (λ c, is_uuid (credit_id c)) credits → compose_quote_revision q credits spent = Ok s →
  ∃ f reserved released,
    _compose_fresh q = Ok f ∧ reserved_remedy_credits s = Ok reserved ∧
    released_remedy_credit_ids s = Ok released ∧ (∀ c, c ∈ reserved → c ∈ credits) ∧
    (∀ id, id ∈ credit_id <$> credits ↔ id ∈ credit_id <$> reserved ∨ id ∈ released) ∧
    (∀ id, id ∈ credit_id <$> reserved → id ∉ released ∧ id ∉ spent) ∧
    display_total_min_vnd (totals (data s))
    = (λ total, total - sumZ (credit_amount_vnd <$> reserved)) <$> display_total_min_vnd (totals (data f)).
Proof.
  intros Hu H. destruct (compose_inv _ _ _ _ H Hu) as (f & reserved & released & Hf & _ & Hr & Hrel & Hp & Hs & Hbill).
  destruct (distinct_credits_spec credits [] NoDup_nil_2) as (Hnd & Hfrom & Hids).
  assert (Hmem : ∀ id, id ∈ credit_id <$> reserved ∨ id ∈ credit_id <$> released ↔ id ∈ credit_id <$> credits).
  { intros id. rewrite <- elem_of_app, <- fmap_app, Hp, Hids. split; [|by right].
    by intros [?%elem_of_nil|?]. }
  rewrite <- Hp, fmap_app in Hnd. apply NoDup_app in Hnd as (_ & Hdisj & _).
  exists f, reserved, (list_to_set (credit_id <$> released)). split_and!; try done.
  - intros c Hc. destruct (Hfrom c) as [?%elem_of_nil|]; [|done..]. rewrite <- Hp. apply elem_of_app. by left.
  - intros id. rewrite elem_of_list_to_set. by rewrite Hmem.
  - intros id Hid. rewrite elem_of_list_to_set. split; [by apply Hdisj|]. intros Hspent.
    apply (Hdisj id Hid). apply list_elem_of_fmap in Hid as (c & -> & Hc). apply list_elem_of_fmap_2, Hs; [|done].
    rewrite <- Hp. apply elem_of_app. by left.
Qed.

(** * A programme that may not stack *)

Lemma redeem_forbidden s rev c frozen :
  frozen_promotion s = Ok (Some frozen) → forbids_credit frozen = true →
  ∀ s', redeem_remedy_credit s rev c ≠ Ok s'.
Proof.
  intros Hf Hforbid s' (cs & frozen' & w & a & t & _ & _ & _ & _ & Hf' & Hno & _)%redeem_inv.
  rewrite Hf in Hf'. injection Hf' as <-. cbn in Hno. congruence.
Qed.

(** a programme whose document forbids compounding and that discounts the fresh price
    wins over the credits of a reprice: every credit is released, none is reserved, and the
    customer pays the programme's price, line for line. *)
Theorem programme_wins q credits spent f frozen s :
  Forall (λ c, is_uuid (credit_id c)) credits →
  _compose_fresh q = Ok f → frozen_promotion f = Ok (Some frozen) → forbids_credit frozen = true →
  compose_quote_revision q credits spent = Ok s →
  reserved_remedy_credits s = Ok [] ∧
  released_remedy_credit_ids s = Ok (list_to_set (credit_id <$> credits)) ∧
  lines (data s) = lines (data f) ∧ totals (data s) = totals (data f).
Proof.
  intros Hu Hf Hfrozen Hforbid H.
  destruct (compose_inv _ _ _ _ H Hu) as (f' & reserved & released & Hf' & _ & Hr & Hrel & Hp & _ & _).
  rewrite Hf in Hf'. injection Hf' as <-.
  assert (Hs : adjustments (data s) = adjustments (data f) ∧ lines (data s) = lines (data f) ∧
    totals (data s) = totals (data f)).
  { unfold compose_quote_revision in H. cbv zeta in H. rewrite Hf in H. cbn [mbind result_bind] in H.
    destruct (length _ =? 0)%nat; [by injection H as <-|]. apply bind_Ok in H as (carried & Hc & H).
    eapply (fold_result_inv (λ acc, acc.1 = f ∧ Forall (λ cr, is_uuid (credit_id cr.1)) acc.2)) in Hc; [..|split].
    - destruct Hc as [Hc Hu']. destruct (length carried.2 =? 0)%nat; [injection H as <-; by rewrite Hc|].
      apply or_refuse_Ok in H. rewrite Hc in H.
      by destruct (stated_releases _ _ _ (ledger_fresh q f Hf) Hu' H) as (_ & ? & ? & ?).
    - intros acc c acc' Hin [Hacc Hrel'] Hstep. unfold carry_credit in Hstep. rewrite Hacc in Hstep.
      destruct (redeem_remedy_credit f _ c) as [s'|[codes|?]] eqn:Hr';
        [by destruct (redeem_forbidden _ _ _ _ Hfrozen Hforbid _ Hr')| |done].
      injection Hstep as <-. cbn. split; [done|]. apply Forall_app. split; [done|]. apply Forall_singleton.
      apply list_elem_of_filter in Hin as [_ Hin].
      destruct (proj1 (proj2 (distinct_credits_spec credits [] NoDup_nil_2)) c Hin) as [?%elem_of_nil|Hc']; [done|].
      rewrite Forall_forall in Hu. by apply Hu.
    - done.
    - apply Forall_fmap, Forall_forall. intros c [_ Hin]%list_elem_of_filter.
      destruct (proj1 (proj2 (distinct_credits_spec credits [] NoDup_nil_2)) c Hin) as [?%elem_of_nil|Hc']; [done|].
      rewrite Forall_forall in Hu. by apply Hu. }
  destruct Hs as (Hadj & Hl & Ht). destruct (fresh_uncredited q f Hf) as [Hnone _].
  assert (reserved = []) as ->.
  { unfold reserved_remedy_credits in *. rewrite Hadj, Hnone in Hr. by injection Hr as <-. }
  split_and!; [done| |done|done]. rewrite Hrel. f_equal. apply set_eq. intros x.
  rewrite !elem_of_list_to_set. cbn in Hp. rewrite Hp.
  rewrite (proj2 (proj2 (distinct_credits_spec credits [] NoDup_nil_2)) x). split; [|by right].
  by intros [?%elem_of_nil|?].
Qed.
End with_digests.
