(* ===== verification/QuoteEstimate.v ===== *)
(** A fresh estimate, end to end ([_compose_fresh]): its lines are the requested services
    at their reference prices, its fee the published schedule's and its total their sum
    less the programme's discount. *)
From Stdlib Require Import Ascii String.
From S2P Require Import Prelude Catalog Clock Text PyDecimal Uuid.
From S2P Require Import Pricing PricingFacts Allocation Promotion Delivery RangePrices.
From S2P Require Import Quotes QuotesFacts QuoteComposition QuoteCompositionFacts QuoteLedger QuotePrices QuoteCredits.
Local Open Scope laundry_scope.
Local Open Scope Z_scope.

#[local] Arguments sumZ : simpl never.
#[local] Arguments code_set : simpl never.
#[local] Arguments stable_sort : simpl never.

Lemma traverse_keys {E A B} (f : string * A → result E B) (d : dict string A) d' :
  traverse (λ kv, r ← f kv; Ok (kv.1, r)) d = Ok d' → d'.*1 = d.*1.
Proof.
  intros H%traverse_Forall2. induction H as [|kv kr d d' Hk _ IH]; [done|].
  apply bind_Ok in Hk as (r & _ & [= <-]). cbn [fmap list_fmap fst]. by rewrite IH.
Qed.

Lemma price_lines_NoDup rules lines d : price_lines rules lines = Ok d → NoDup d.*1.
Proof.
  intros (_ & qs & _ & H)%price_lines_grouped. apply traverse_keys in H as ->. apply grouped_NoDup. constructor.
Qed.

(** The fee of a revision is the schedule's. *)
Lemma delivery_outcome_fee mode distance weight manual acknowledged r :
  evaluate_delivery mode distance weight manual acknowledged = Ok r →
  scheduled_fee mode distance manual acknowledged = Some (_delivery_outcome r).1.1.
Proof.
  intros (-> & Hallow & _)%evaluate_delivery_spec. unfold _delivery_outcome.
  destruct (delivery_fee_vnd r) as [fee|] eqn:Hfee.
  - rewrite (proj2 Hallow) by done. by destruct (fee =? 0).
  - by destruct (fee_outcome r).
Qed.

Lemma exact_without_chosen code r a : line_amounts ∅ code r = Ok a → is_range a = false →
  Pricing.list_amount_vnd r = Some (match a with ExactLineAmounts _ v _ _ => v | RangeLineAmounts _ _ v _ _ _ _ _ => v end).
Proof.
  unfold line_amounts. rewrite lookup_empty. destruct (_published_band r).
  - destruct (range_min_unit_vnd (Pricing.trace r)), (range_max_unit_vnd (Pricing.trace r)); try done. by intros [= <-].
  - cbn. destruct (Pricing.list_amount_vnd r); [|done]. by intros [= <-].
Qed.

Section with_digests.
Context `{DG : !Digests}.

(** The composed lines are the priced services, each with the amounts of its result. *)
Lemma composed_services p chosen results composed :
  NoDup results.*1 → traverse (compose_line p chosen) (enumerated (sorted_services results)) = Ok composed →
  (quote_service_code <$> composed.*1) ≡ₚ results.*1 ∧
  ∀ l, l ∈ composed.*1 → ∃ r, dict_get results (quote_service_code l) = Some r ∧
    line_amounts chosen (quote_service_code l) r = Ok (amounts l).
Proof.
  intros Hnd Hc%compose_lines_inv.
  assert (Hidx : (enumerated (sorted_services results)).*2 = sorted_services results).
  { unfold enumerated. apply snd_zip. by rewrite length_seq. }
  assert (Hperm : sorted_services results ≡ₚ results) by apply stable_sort_perm. split.
  - assert (quote_service_code <$> composed.*1 = (sorted_services results).*1) as ->; [|by rewrite Hperm].
    rewrite <- Hidx. clear -Hc. induction Hc as [|ir lt l l' (_ & _ & Hcode & _) _ IH]; [done|].
    cbn [fmap list_fmap]. by rewrite Hcode, IH.
  - intros l ((l' & t) & -> & [i Hi]%list_elem_of_lookup)%list_elem_of_fmap. cbn.
    destruct (Forall2_lookup_r _ _ _ _ _ Hc Hi) as ([j [code r]] & Hj & _ & _ & Hcode & Ham). cbn in *. subst code.
    exists r. split; [|done]. apply dict_elem_get; [done|]. rewrite <- Hperm, <- Hidx. apply list_elem_of_fmap.
    exists (j, (quote_service_code l', r)). split; [done|]. by eapply list_elem_of_lookup_2.
Qed.

(** The services priced are those requested, each at its reference price. *)
Lemma services_priced rules ls results :
  billable rules → Z.of_nat (length ls) <= 10 ^ 15 → price_lines rules ls = Ok results →
  results.*1 ≡ₚ fromkeys (service_code <$> ls) ∧
  ∀ code r, dict_get results code = Some r → service_price rules ls code = Ok (money_of r).
Proof.
  intros Hbill Hlen Hp. pose proof (price_lines_NoDup _ _ _ Hp) as Hnd.
  assert (Hget := λ code, price_lines_get rules ls results code Hbill Hlen Hp). split.
  - apply NoDup_Permutation; [done|apply fromkeys_NoDup|]. intros code. rewrite elem_of_fromkeys.
    specialize (Hget code). destruct (dict_get results code) as [r|] eqn:Hr.
    + split; [by intros _; apply Hget|]. intros _. apply dict_get_Some_elem in Hr. apply list_elem_of_fmap. by exists (code, r).
    + apply dict_get_None in Hr. tauto.
  - intros code r Hr. specialize (Hget code). rewrite Hr in Hget. apply Hget.
Qed.

(** an estimate charges each requested service once, at the reference price of its
    lines taken together, and the delivery fee of the published schedule; its total is
    their sum less the programme's discount, and is shown exactly when the schedule has a
    fee. *)
Theorem estimate_adds_up q s :
  billable (rules q) → Z.of_nat (length (requested q)) <= 10 ^ 15 →
  _compose_fresh q = Ok s → finality (data s) = QuoteFinality.ESTIMATE →
  let ls := _engine_line <$> requested q in
  (quote_service_code <$> lines (data s)) ≡ₚ fromkeys (service_code <$> ls) ∧
  Forall (λ l, ∃ m, service_price (rules q) ls (quote_service_code l) = Ok m ∧ one_total m = Some (list_min l))
    (lines (data s)) ∧
  scheduled_fee (fulfillment_mode q) (verified_distance_m q) (approved_manual_fee_vnd q)
    (customer_acknowledged_manual_fee q) = Some (quoted_delivery_fee_vnd (totals (data s))) ∧
  display_total_min_vnd (totals (data s))
  = (λ fee, sumZ (list_min <$> lines (data s)) - promotion_vnd (data s) + fee)
      <$> quoted_delivery_fee_vnd (totals (data s)).
Proof.
  intros Hbill Hlen Hfresh Hest ls. pose proof (ledger_fresh q s Hfresh) as Hs.
  destruct (fresh_inv q s Hfresh) as (results & chosen & composed & delivery & o & H).
  destruct (fc_built _ _ _ _ _ _ _ H) as (d & dt & Hb & _ & Hl & _ & _ & Ht & Hf & _).
  destruct (built_fields d s Hb) as (_ & Hn & Hlines & _).
  assert (finality d = QuoteFinality.ESTIMATE) as Hd by by rewrite Hn in Hest.
  rewrite Hd in Hf. unfold _finality in Hf.
  destruct (existsb (is_range ∘ amounts) composed.*1) eqn:Hband; [done|].
  destruct (bool_decide (chosen = ∅)) eqn:Hchosen; [|done]. guards. subst chosen.
  pose proof (fc_promotion _ _ _ _ _ _ _ H) as (Hout & _ & _)%promotion_outcome_spec.
  destruct (outcome_list _ _ Hout) as (f & Hfl & Hfs).
  destruct (services_priced _ ls _ Hbill ltac:(unfold ls; by rewrite length_fmap) (fc_priced _ _ _ _ _ _ _ H))
    as [Hkeys Hprice].
  destruct (composed_services _ _ _ _ (price_lines_NoDup _ _ _ (fc_priced _ _ _ _ _ _ _ H))
    (fc_lines _ _ _ _ _ _ _ H)) as [Hcodes Hamounts].
  split_and!.
  - rewrite Hlines, Hl, Hfl, <- list_fmap_compose.
    rewrite (list_fmap_ext _ quote_service_code) by (intros i l _; cbn; apply Hfs). by rewrite Hcodes.
  - rewrite Hlines, Hl, Hfl. apply Forall_fmap, Forall_forall. intros l Hin. cbn.
    destruct (Hfs l) as (-> & _ & _ & -> & _). destruct (Hamounts l Hin) as (r & Hr & Ham).
    exists (money_of r). split; [by apply Hprice|]. cbn. unfold list_min.
    rewrite (exact_without_chosen _ _ _ Ham); [by destruct (amounts l)|].
    apply not_true_is_false. intros Hrange. rewrite <- not_true_iff_false in Hband. apply Hband, existsb_exists.
    exists l. split; [by apply list_elem_of_In|done].
  - rewrite (delivery_outcome_fee _ _ _ _ _ _ (fc_delivery _ _ _ _ _ _ _ H)). rewrite Hn. cbn [normalized totals].
    by rewrite Ht.
  - destruct (fresh_uncredited q s Hfresh) as [Hnone _]. rewrite (proj1 (ledger_bill s [] Hs Hnone)).
    destruct (quoted_delivery_fee_vnd _); [|done]. cbn. f_equal. unfold bill_total, sumZ. cbn. lia.
Qed.
End with_digests.
