(* ===== verification/QuoteExamples.v ===== *)
(** A pricebook, a programme and the quotes of a few customers, to evaluate the composition
    on ([quote_composition.py]). *)
From Stdlib Require Import Ascii String.
From S2P Require Import Prelude Catalog Clock Text PyDecimal Uuid.
From S2P Require Import Pricing Allocation Promotion Delivery RangePrices Quotes QuoteComposition.
Local Open Scope laundry_scope.
Local Open Scope string_scope.
Local Open Scope Z_scope.

Definition zeros : string := "0000000000000000000000000000000000000000000000000000000000000000".
(** Digests that only have the right shape. *)
#[export] Instance shaped_digests : Digests := {|
  trace_digest := λ _, zeros; revision_digest := λ _, zeros; engine_digest := zeros;
  service_uuid := λ _ _, 7;
  trace_digest_hex := λ _, eq_refl; revision_digest_hex := λ _, eq_refl; engine_digest_hex := eq_refl |}.

Definition per_kg : PriceRule :=
  {| rule_service_code := "WASH"; rule_type := PriceRuleType.FIXED_PER_UNIT; unit_price_vnd := Some 20000;
     range_min_vnd := None; range_max_vnd := None; tiers := []; rule_unit := Unit.KG |}.
Definition ao_dai : PriceRule :=
  {| rule_service_code := "AO_DAI"; rule_type := PriceRuleType.RANGE_PER_UNIT; unit_price_vnd := None;
     range_min_vnd := Some 80000; range_max_vnd := Some 240000; tiers := []; rule_unit := Unit.ITEM |}.
Definition price_list : gmap string PriceRule := {[ "WASH" := per_kg; "AO_DAI" := ao_dai ]}.
Definition book : PricebookProvenance :=
  {| pricebook_version_id := 11; pricebook_version := 3; pricebook_hash := HASH_PREFIX +:+ zeros |}.

Definition wash_kg (q : string) : RequestedLine :=
  {| requested_service_code := "WASH"; requested_quantity := q; requested_unit := Unit.KG;
     requested_basis := QuantityBasis.STAFF_MEASUREMENT |}.
Definition one_ao_dai : RequestedLine :=
  {| requested_service_code := "AO_DAI"; requested_quantity := "2"; requested_unit := Unit.ITEM;
     requested_basis := QuantityBasis.STAFF_MEASUREMENT |}.

(** The programme of July: 30% off the wash, and nothing else beside it. *)
Definition july_30 (stacks : bool) : PublishedPromotionProgram :=
  {| program :=
       {| policy :=
            {| code := "PROMO_WET30"; start_at := midnight 20651 HO_CHI_MINH;
               end_at_exclusive := midnight 20697 HO_CHI_MINH; timezone := "Asia/Ho_Chi_Minh";
               policy_event := Some PromotionEligibilityEvent.STORE_COMMERCIAL_ACCEPTED;
               stacking_allowed := stacks |};
          services := {[ "WASH" := {| ruled_service_code := "WASH";
                                      ruled_resolution := PromotionResolution.AUTO_IF_TARGETED;
                                      ruled_rate_bps := Some 3000 |} ]} |};
     published_version_id := 21; published_version := 1; published_hash := HASH_PREFIX +:+ zeros |}.

Definition monday : datetime := midnight 20660 HO_CHI_MINH.
Definition ask (ls : list RequestedLine) (p : option PublishedPromotionProgram) (band : bool) : QuoteRequest :=
  {| request_quote_id := 31; request_revision := 1; rules := price_list; requested := ls; pricebook := book;
     request_priced_at := monday; fulfillment_mode := FulfillmentMode.PICKUP_AND_RETURN;
     verified_distance_m := Some 3500; planned_transport_weight_kg := None; approved_manual_fee_vnd := None;
     customer_acknowledged_manual_fee := false; range_prices := None; present_range_as_band := band;
     promotion := p |}.
Definition a_credit (id vnd : Z) : RemedyCredit :=
  {| credit_id := id; credit_amount_vnd := vnd; credit_policy_version_id := 41; credit_approval_id := None |}.
Definition attest (amount : Z) : RangePriceAttestation :=
  {| attested_quote_id := 31; attested_revision := 1; attested_pricebook_version_id := 11;
     attested_pricebook_version := 3; choices := [MkRangePriceChoice "AO_DAI" amount];
     attested_approval_id := Some 51 |}.

Definition six_kg : QuoteRequest := ask [wash_kg "6"] None false.
Definition six_kg_in_july : QuoteRequest := ask [wash_kg "2.5"; wash_kg "3.5"] (Some (july_30 false)) false.
Definition with_ao_dai : QuoteRequest := ask [wash_kg "6"; one_ao_dai] None true.

Definition shown (r : composition ImmutableQuoteSnapshot) : option (option Z * option Z) :=
  match r with
  | Ok s => Some (display_total_min_vnd (totals (data s)), display_total_max_vnd (totals (data s)))
  | Err _ => None
  end.
Example fresh_1 : shown (_compose_fresh six_kg) = Some (Some 130000, Some 130000).
Proof. vm_compute. reflexivity. Qed.
Example fresh_2 : shown (_compose_fresh six_kg_in_july) = Some (Some 94000, Some 94000).
Proof. vm_compute. reflexivity. Qed.
Example fresh_3 : shown (_compose_fresh with_ao_dai) = Some (Some 290000, Some 610000).
Proof. vm_compute. reflexivity. Qed.
Example credits_1 : shown (compose_quote_revision six_kg [a_credit 5 30000; a_credit 6 100000] ∅)
  = Some (Some 100000, Some 100000).
Proof. vm_compute. reflexivity. Qed.
(** DEC-030: the programme wins and the credit waits. *)
Example credits_2 : shown (compose_quote_revision six_kg_in_july [a_credit 5 30000] ∅) = Some (Some 94000, Some 94000).
Proof. vm_compute. reflexivity. Qed.
Example credits_3 : shown (compose_quote_revision (ask [wash_kg "6"] (Some (july_30 true)) false) [a_credit 5 30000] ∅)
  = Some (Some 64000, Some 64000).
Proof. vm_compute. reflexivity. Qed.

(** A valid service code of more than 55 characters is too long once it names its trace
    ([PRICING_] and the code), and the snapshot error leaves [_compose_fresh]. *)
Definition long_code : string := "WASH_AND_IRON_OF_TRADITIONAL_EMBROIDERED_SILK_LONG_DRESSES".
Definition long_rule : PriceRule :=
  {| rule_service_code := long_code; rule_type := PriceRuleType.FIXED_PER_UNIT; unit_price_vnd := Some 90000;
     range_min_vnd := None; range_max_vnd := None; tiers := []; rule_unit := Unit.ITEM |}.
Definition long_request : QuoteRequest :=
  {| request_quote_id := 31; request_revision := 1; rules := {[ long_code := long_rule ]};
     requested := [{| requested_service_code := long_code; requested_quantity := "1"; requested_unit := Unit.ITEM;
                      requested_basis := QuantityBasis.STAFF_MEASUREMENT |}];
     pricebook := book; request_priced_at := monday;
     fulfillment_mode := FulfillmentMode.SELF_DROP_SELF_COLLECT; verified_distance_m := None;
     planned_transport_weight_kg := None; approved_manual_fee_vnd := None;
     customer_acknowledged_manual_fee := false; range_prices := None; present_range_as_band := false;
     promotion := None |}.
Theorem long_code_escapes :
  CODE_PATTERN long_code = true ∧ _compose_fresh long_request = Err (Raised SnapshotEscape).
Proof. split; vm_compute; reflexivity. Qed.
