(* ===== verification/QuoteWitness.v ===== *)
(** The quote theorems at work on the quotes of [QuoteExamples]. *)
From Stdlib Require Import Ascii String.
From S2P Require Import Prelude Catalog Clock Text PyDecimal Uuid.
From S2P Require Import Pricing PricingFacts Allocation Promotion Delivery RangePrices.
From S2P Require Import Quotes QuotesFacts QuoteComposition QuoteCompositionFacts.
From S2P Require Import QuoteLedger QuotePrices QuoteCredits QuoteEstimate QuoteExamples.
Local Open Scope laundry_scope.
Local Open Scope Z_scope.

(** Name the result [s] of a computation that succeeds. *)
Ltac computed r s H :=
  destruct r as [s|?] eqn:H; [|exfalso; vm_compute in H; discriminate H].

Lemma is_uuid_5 : is_uuid 5.
Proof. split; [lia|vm_compute; reflexivity]. Qed.

Definition small_hash : string := HASH_PREFIX +:+ zeros.
Definition plain_line (id : string) (amount : Z) : QuoteLineSnapshot :=
  {| quote_line_id := id; quote_service_code := "WASH"; service_version_id := 7;
     line_basis := QuantityBasis.STAFF_MEASUREMENT; line_quantity := "2"; snapshot_unit := Unit.KG;
     amounts := ExactLineAmounts None amount 0 amount; price_trace_hash := small_hash |}.
Definition plain_trace : CalculationTraceSnapshot :=
  {| component := "PRICING_WASH"; engine_version := "v1";
     captured := {| content := ReleasedCreditTrace 1 2 3 "X"; document_hash := small_hash |} |}.
Definition two_lines (ls : list QuoteLineSnapshot) (codes : list string) : QuoteRevisionData :=
  {| schema_version := 1; quote_id := 1; revision := 1; finality := QuoteFinality.ESTIMATE;
     status := QuoteRevisionStatus.REVIEW_REQUIRED; priced_at := monday; valid_until := None; currency := "VND";
     configuration_snapshots := [{| config_type := "PRICEBOOK"; version_id := 1; version := 1; snapshot_hash := small_hash |}];
     lines := ls; adjustments := []; totals := composed_totals 50000 50000 0 (Some 0) 0;
     calculation_traces := [plain_trace]; calculation_engine_version := "v1"; calculation_engine_hash := small_hash;
     promotion_eligibility_event := None; promotion_eligibility_at := None; reason_codes := codes;
     required_approvals := []; approval_id := None; tax_treatment := "UNVERIFIED";
     customer_estimate_acknowledged_at := None |}.

Lemma build_order_independent_witness :
  is_Ok (build_quote_snapshot (two_lines [plain_line "b" 20000; plain_line "a" 30000] ["ONE"; "TWO"; "ONE"]%string)) = true.
Proof.
  computed (build_quote_snapshot (two_lines [plain_line "a" 30000; plain_line "b" 20000] ["TWO"; "ONE"]%string)) s H.
  rewrite (build_order_independent (two_lines [plain_line "a" 30000; plain_line "b" 20000] ["TWO"; "ONE"]%string)
    (two_lines [plain_line "b" 20000; plain_line "a" 30000] ["ONE"; "TWO"; "ONE"]%string) s); [reflexivity| |exact H].
  split; try reflexivity; cbn [lines two_lines].
  - constructor.
  - intros c. cbn [reason_codes two_lines]. rewrite !elem_of_cons. tauto.
Defined.

Lemma derived_bill_witness :
  match _compose_fresh six_kg_in_july with
  | Ok s => ∃ cs frozen, reserved_remedy_credits s = Ok cs ∧ frozen_promotion s = Ok frozen ∧
      display_total_min_vnd (totals (data s)) = bill_total (data s) cs <$> quoted_delivery_fee_vnd (totals (data s))
  | Err _ => False
  end.
Proof.
  computed (_compose_fresh six_kg_in_july) s H.
  destruct (derived_bill s (derived_fresh _ s H)) as (cs & frozen & H1 & _ & H2 & _ & H3 & _).
  exists cs, frozen. split; [exact H1|split; [exact H2|exact H3]].
Defined.

(** The July quote, accepted on the same day. *)
Definition accepted_in_july : composition ImmutableQuoteSnapshot :=
  s ← _compose_fresh six_kg_in_july; accept_quote_revision s 2 (Some (july_30 false)) (Some monday).

Lemma accept_decided_witness :
  match _compose_fresh six_kg with
  | Ok s => ∃ s', accept_quote_revision s 2 None None = Ok s'
  | Err _ => False
  end.
Proof.
  computed (_compose_fresh six_kg) s H.
  assert (_promotion_reference s = None ∧ bool_decide (acceptable (data s)) = true) as [Hr Ha].
  { vm_compute in H. injection H as <-. split; vm_compute; reflexivity. }
  destruct (accept_decided s 2 None (derived_fresh _ s H) Hr) as [Hok _]; [vm_compute; split; congruence|].
  apply Hok. by apply bool_decide_eq_true in Ha.
Defined.

Definition closed_ao_dai : composition ImmutableQuoteSnapshot :=
  s ← _compose_fresh with_ao_dai; close_range_prices s 2 (attest 200000) None None.
Lemma close_within_the_band_witness :
  match _compose_fresh with_ao_dai, closed_ao_dai with
  | Ok s, Ok s' => 280000 <= sumZ (list_min <$> lines (data s')) <= 600000 ∧ is_Some (approval_id (data s'))
  | _, _ => False
  end.
Proof.
  unfold closed_ao_dai. computed (_compose_fresh with_ao_dai) s H. cbn [mbind result_bind].
  assert (is_Ok (close_range_prices s 2 (attest 200000) None None) = true ∧
    sumZ (list_min <$> lines (data s)) = 280000 ∧ sumZ (list_max <$> lines (data s)) = 600000) as (Ha & Hlo & Hhi).
  { vm_compute in H. injection H as <-. split_and!; vm_compute; reflexivity. }
  destruct (close_range_prices s 2 _ _ _) as [s'|?] eqn:Hs'; [|discriminate Ha].
  destruct (close_within_the_band s 2 _ _ _ s' (derived_fresh _ s H) Hs') as (_ & _ & Happ & Hsome & _ & Hsum).
  rewrite Hlo, Hhi in Hsum. split; [exact Hsum|]. by rewrite Happ.
Defined.

Lemma credit_lands_whole_witness :
  match _compose_fresh six_kg with
  | Ok s => match redeem_remedy_credit s 2 (a_credit 5 30000) with
            | Ok s' => display_total_min_vnd (totals (data s')) = Some 100000
            | Err _ => False
            end
  | Err _ => False
  end.
Proof.
  computed (_compose_fresh six_kg) s H.
  assert (is_Ok (redeem_remedy_credit s 2 (a_credit 5 30000)) = true ∧
    display_total_min_vnd (totals (data s)) = Some 130000) as [Ha Hd].
  { vm_compute in H. injection H as <-. split; vm_compute; reflexivity. }
  destruct (redeem_remedy_credit s 2 _) as [s'|?] eqn:Hs'; [|discriminate Ha].
  destruct (credit_lands_whole s 2 (a_credit 5 30000) s' (derived_fresh _ s H) is_uuid_5 Hs') as (_ & Hdis & _).
  rewrite Hdis, Hd. reflexivity.
Defined.

Lemma five_and_six : Forall (λ c, is_uuid (credit_id c)) [a_credit 5 30000; a_credit 6 100000; a_credit 5 1].
Proof. repeat constructor; vm_compute; congruence. Qed.

Lemma no_credit_is_lost_witness :
  match compose_quote_revision six_kg [a_credit 5 30000; a_credit 6 100000; a_credit 5 1] ∅ with
  | Ok s => ∃ reserved released, reserved_remedy_credits s = Ok reserved ∧ released_remedy_credit_ids s = Ok released ∧
      (6 ∈ credit_id <$> reserved ∨ 6 ∈ released)
  | Err _ => False
  end.
Proof.
  computed (compose_quote_revision six_kg [a_credit 5 30000; a_credit 6 100000; a_credit 5 1] ∅) s H.
  destruct (no_credit_is_lost _ _ _ s five_and_six H) as (f & reserved & released & _ & Hr & Hl & _ & Hall & _).
  exists reserved, released. split_and!; [exact Hr|exact Hl|]. apply Hall. right. left.
Defined.

Lemma programme_wins_witness :
  match compose_quote_revision six_kg_in_july [a_credit 5 30000] ∅ with
  | Ok s => reserved_remedy_credits s = Ok [] ∧ display_total_min_vnd (totals (data s)) = Some 94000
  | Err _ => False
  end.
Proof.
  computed (compose_quote_revision six_kg_in_july [a_credit 5 30000] ∅) s H.
  computed (_compose_fresh six_kg_in_july) f Hf.
  assert (∃ p, frozen_promotion f = Ok (Some p) ∧ forbids_credit p = true ∧
    display_total_min_vnd (totals (data f)) = Some 94000) as (p & Hp & Hforbid & Hd).
  { clear H. vm_compute in Hf. injection Hf as <-. eexists. split_and!; [vm_compute; reflexivity|vm_compute; reflexivity|
      vm_compute; reflexivity]. }
  destruct (programme_wins six_kg_in_july [a_credit 5 30000] ∅ f p s) as (Hr & _ & _ & Ht);
    [constructor; [exact is_uuid_5|constructor]|exact Hf|exact Hp|exact Hforbid|exact H|].
  split; [exact Hr|]. by rewrite Ht.
Defined.

Lemma price_list_billable : billable price_list.
Proof.
  intros code rule Hr. unfold price_list in Hr. apply lookup_insert_Some in Hr as [[_ <-]|[_ Hr]].
  - intros t Ht. by apply elem_of_nil in Ht.
  - apply lookup_singleton_Some in Hr as [_ <-]. intros t Ht. by apply elem_of_nil in Ht.
Qed.

Lemma estimate_adds_up_witness :
  match _compose_fresh six_kg with
  | Ok s => (quote_service_code <$> lines (data s)) ≡ₚ ["WASH"%string] ∧
      quoted_delivery_fee_vnd (totals (data s)) = Some 10000
  | Err _ => False
  end.
Proof.
  computed (_compose_fresh six_kg) s H.
  assert (finality (data s) = QuoteFinality.ESTIMATE) as Hf.
  { vm_compute in H. injection H as <-. reflexivity. }
  destruct (estimate_adds_up six_kg s price_list_billable ltac:(cbn; lia) H Hf) as (Hl & _ & Hfee & _).
  split; [exact Hl|]. by injection Hfee.
Defined.
