(* ===== verification/Remedies.v ===== *)
(** What the shop owes when something went wrong ([packages/domain/.../remedies.py]): the
    published figures, the fee and the ceilings of one item, and the decision on one request
    against the order's recorded facts and what earlier proposals committed.  A line's
    quantity is the text a stored snapshot admits ([Quotes._validate_lines]); instants and
    windows are compared as instants. *)
From Stdlib Require Import String.
From S2P Require Import Prelude Clock Json Catalog PyDecimal Pricing Promotion Quotes.
Local Open Scope laundry_scope.
Local Open Scope Z_scope.

Module RemedyKind.
Inductive t :=
  | FREE_REWASH | DAMAGE_COMPENSATION | LATE_DELIVERY_CREDIT | LOST_ITEM.
#[export] Instance eq_dec : EqDecision t.
Proof. solve_decision. Defined.
End RemedyKind.
#[export] Existing Instance RemedyKind.eq_dec.

Module RemedyStatus.
Inductive t :=
  | STAFF_AUTHORIZED | OWNER_APPROVAL_REQUIRED | EXECUTED | POLICY_UNRESOLVED.
#[export] Instance eq_dec : EqDecision t.
Proof. solve_decision. Defined.
End RemedyStatus.
#[export] Existing Instance RemedyStatus.eq_dec.

Module ItemFeeBasis.
Inductive t :=
  | UNIT | BAG | NOT_RECORDED.
#[export] Instance eq_dec : EqDecision t.
Proof. solve_decision. Defined.
End ItemFeeBasis.
#[export] Existing Instance ItemFeeBasis.eq_dec.

Module OwnerReason.
Inductive t :=
  | LOSS_CLAIM | ORDER_REFUNDED | ITEM_FEE_NOT_RECORDED | ABOVE_STAFF_LIMIT.
#[export] Instance eq_dec : EqDecision t.
Proof. solve_decision. Defined.
End OwnerReason.
#[export] Existing Instance OwnerReason.eq_dec.

Module RemedyRefusal.
Inductive t :=
  | REMEDY_POLICY_UNPUBLISHED | LOSS_POLICY_UNRESOLVED | REMEDY_CEILING_EXCEEDED
  | REMEDY_WINDOW_CLOSED | REMEDY_WINDOW_EVIDENCE_MISSING | REMEDY_STORE_FAULT_NOT_ATTESTED
  | REMEDY_AMOUNT_NOT_APPLICABLE | REMEDY_LINE_NOT_PRICED | REMEDY_ORDER_NOT_SETTLED
  | REMEDY_ORDER_REFUNDED | REMEDY_DELIVERY_NOT_RECORDED | REMEDY_LATENESS_BELOW_THRESHOLD
  | REMEDY_GARMENT_REQUIRED | REMEDY_GARMENT_NOT_APPLICABLE | REMEDY_GARMENT_OUT_OF_RANGE
  | REMEDY_CREDIT_UNALLOCATABLE | REMEDY_CREDIT_REVISION_NOT_OPEN | REMEDY_CREDIT_ALREADY_REDEEMED
  | REMEDY_CREDIT_PROMOTION_NOT_STACKABLE | REMEDY_LATE_DELIVERY_CREDIT_ALREADY_PROPOSED
  | REMEDY_CREDIT_ALREADY_ON_QUOTE.
#[export] Instance eq_dec : EqDecision t.
Proof. solve_decision. Defined.
End RemedyRefusal.
#[export] Existing Instance RemedyRefusal.eq_dec.

Definition REMEDY_REFUSAL_AUTHORITIES (r : RemedyRefusal.t) : string :=
  match r with
  | RemedyRefusal.REMEDY_POLICY_UNPUBLISHED => "INVARIANT-11"
  | RemedyRefusal.LOSS_POLICY_UNRESOLVED => "DEC-004"
  | RemedyRefusal.REMEDY_CEILING_EXCEEDED => "DEC-004"
  | RemedyRefusal.REMEDY_WINDOW_CLOSED => "DEC-004"
  | RemedyRefusal.REMEDY_STORE_FAULT_NOT_ATTESTED => "DEC-004"
  | RemedyRefusal.REMEDY_LATENESS_BELOW_THRESHOLD => "DEC-004"
  | RemedyRefusal.REMEDY_WINDOW_EVIDENCE_MISSING => "INVARIANT-3"
  | RemedyRefusal.REMEDY_AMOUNT_NOT_APPLICABLE => "INVARIANT-3"
  | RemedyRefusal.REMEDY_LINE_NOT_PRICED => "INVARIANT-3"
  | RemedyRefusal.REMEDY_ORDER_NOT_SETTLED => "INVARIANT-3"
  | RemedyRefusal.REMEDY_ORDER_REFUNDED => "DEC-031"
  | RemedyRefusal.REMEDY_DELIVERY_NOT_RECORDED => "INVARIANT-3"
  | RemedyRefusal.REMEDY_GARMENT_REQUIRED => "DEC-031"
  | RemedyRefusal.REMEDY_GARMENT_NOT_APPLICABLE => "DEC-031"
  | RemedyRefusal.REMEDY_GARMENT_OUT_OF_RANGE => "DEC-031"
  | RemedyRefusal.REMEDY_CREDIT_UNALLOCATABLE => "INVARIANT-2"
  | RemedyRefusal.REMEDY_CREDIT_REVISION_NOT_OPEN => "INVARIANT-4"
  | RemedyRefusal.REMEDY_CREDIT_ALREADY_REDEEMED => "DEC-015"
  | RemedyRefusal.REMEDY_CREDIT_PROMOTION_NOT_STACKABLE => "DEC-004"
  | RemedyRefusal.REMEDY_LATE_DELIVERY_CREDIT_ALREADY_PROPOSED => "DEC-004"
  | RemedyRefusal.REMEDY_CREDIT_ALREADY_ON_QUOTE => "DEC-015"
  end.

(** * The published figures *)

Inductive RemedyPolicyError := NotARemedyPolicy.
#[export] Instance RemedyPolicyError_eq_dec : EqDecision RemedyPolicyError.
Proof. solve_decision. Defined.
Notation remedied := (result RemedyPolicyError).

Definition REMEDY_POLICY_CONFIG_TYPE : string := "REMEDY_POLICY".
Definition REMEDY_POLICY_SCHEMA : string := "remedy-policy-v1".
Definition REMEDY_POLICY_VERSION : string := "remedy-dec-004-dec-031-v3".

Record RemedyPolicy := {
  defect_report_window_hours : Z;
  initial_response_window_hours : Z;
  free_rewash_window_days : Z;
  late_delivery_threshold_minutes : Z;
  late_delivery_credit_rate_bps : Z;
  damage_compensation_multiple : Z;
  staff_approval_ceiling_vnd : Z;
}.
#[export] Instance remedy_policy_eq_dec : EqDecision RemedyPolicy.
Proof. solve_decision. Defined.

(** Non-negative integer VND; a JSON Boolean or float is not one. *)
Definition _valid_amount (z : Z) : bool := (0 <=? z) && (z <=? MAX_JCS_INTEGER).
Definition _policy_integer (payload : object) (field : string) : remedied Z :=
  match dict_get payload field with
  | Some (JInt z) => raise_if (negb (_valid_amount z)) NotARemedyPolicy ;; Ok z
  | _ => Err NotARemedyPolicy
  end.

Definition parse_remedy_policy (payload : object) : remedied RemedyPolicy :=
  raise_if (negb (says payload "schema" REMEDY_POLICY_SCHEMA)) NotARemedyPolicy ;;
  raise_if (negb (says payload "decision" "DEC-004")) NotARemedyPolicy ;;
  defect ← _policy_integer payload "defect_report_window_hours";
  response ← _policy_integer payload "initial_response_window_hours";
  rewash ← _policy_integer payload "free_rewash_window_days";
  threshold ← _policy_integer payload "late_delivery_threshold_minutes";
  rate ← _policy_integer payload "late_delivery_credit_rate_bps";
  multiple ← _policy_integer payload "damage_compensation_multiple";
  staff ← _policy_integer payload "staff_approval_ceiling_vnd";
  raise_if (negb ((0 <? rate) && (rate <=? RATE_DENOMINATOR))) NotARemedyPolicy ;;
  raise_if (multiple <? 1) NotARemedyPolicy ;;
  raise_if ((defect <? 1) || (response <? 1)) NotARemedyPolicy ;;
  raise_if (rewash <? 1) NotARemedyPolicy ;;
  Ok {| defect_report_window_hours := defect; initial_response_window_hours := response;
        free_rewash_window_days := rewash; late_delivery_threshold_minutes := threshold;
        late_delivery_credit_rate_bps := rate; damage_compensation_multiple := multiple;
        staff_approval_ceiling_vnd := staff |}.

(** * Facts, requests and answers *)

Record RemedyLineFacts := {
  fact_service_code : string;
  fact_unit : Unit.t;
  fact_quantity : string;
  fact_unit_price_vnd : option Z;
  fact_net_amount_vnd : Z;
}.
#[export] Instance remedy_line_facts_eq_dec : EqDecision RemedyLineFacts.
Proof. solve_decision. Defined.

Record ItemCompensationTerms := {
  terms_line_id : string;
  terms_service_code : string;
  terms_basis : ItemFeeBasis.t;
  terms_item_fee_vnd : Z;
  terms_ceiling_vnd : Z;
  terms_pieces : Z;
  terms_line_ceiling_vnd : Z;
  terms_garments : option Z;
  terms_owner_always : list OwnerReason.t;
}.
#[export] Instance item_compensation_terms_eq_dec : EqDecision ItemCompensationTerms.
Proof. solve_decision. Defined.

Record RemedyOrderFacts := {
  goods_returned_at : option datetime;
  settled_total_vnd : option Z;
  fact_lines : dict string RemedyLineFacts;
  expects_return_leg : bool;
  return_leg_succeeded : bool;
  refunded : bool;
}.

Record RemedyCommitments := MkRemedyCommitments {
  line_committed_vnd : Z;
  late_delivery_credits : Z;
  garment_committed_vnd : option Z;
}.
#[export] Instance remedy_commitments_eq_dec : EqDecision RemedyCommitments.
Proof. solve_decision. Defined.
(** [RemedyCommitments(...)], which validates what it is given. *)
Definition remedy_commitments (line late : Z) (garment : option Z) : remedied RemedyCommitments :=
  raise_if (negb (_valid_amount line && _valid_amount late)) NotARemedyPolicy ;;
  raise_if (match garment with Some g => negb (_valid_amount g) || (line <? g) | None => false end)
    NotARemedyPolicy ;;
  Ok (MkRemedyCommitments line late garment).
Definition against_garment (c : RemedyCommitments) : Z := default (line_committed_vnd c) (garment_committed_vnd c).
Definition NO_PRIOR_COMMITMENTS : RemedyCommitments := MkRemedyCommitments 0 0 None.

Record RemedyRequest := {
  remedy_kind : RemedyKind.t;
  store_fault_attested : bool;
  request_line_id : option string;
  request_amount_vnd : option Z;
  request_garment_index : option Z;
  attested_late_by_minutes : option Z;
}.

Record RemedyAuthorized := {
  authorized_kind : RemedyKind.t;
  authorized_amount_vnd : option Z;
  authorized_direction : option AdjustmentDirection.t;
  authorized_ceiling_vnd : option Z;
  authorized_window : option (datetime * datetime); (* opened at, closes at *)
  owner_reasons : list OwnerReason.t;
  authorized_fee_basis : option ItemFeeBasis.t;
  authorized_item_fee_vnd : option Z;
  authorized_line_ceiling_vnd : option Z;
  authorized_garment_index : option Z;
}.
#[export] Instance remedy_authorized_eq_dec : EqDecision RemedyAuthorized.
Proof. solve_decision. Defined.
(** [requires_owner_approval], which [__post_init__] ties to the reasons. *)
Definition requires_owner_approval (a : RemedyAuthorized) : bool := negb (owner_reasons a is? []).

Record RemedyRefused := {
  refusal : RemedyRefusal.t;
  refused_ceiling_vnd : option Z;
  refused_window_closes_at : option datetime;
  refused_threshold_minutes : option Z;
  refused_committed_vnd : option Z;
  refused_garments : option Z;
}.
Definition refused_by (r : RemedyRefusal.t) : RemedyRefused :=
  {| refusal := r; refused_ceiling_vnd := None; refused_window_closes_at := None;
     refused_threshold_minutes := None; refused_committed_vnd := None; refused_garments := None |}.

Inductive RemedyOutcome :=
  | Authorized (a : RemedyAuthorized)
  | Refused (r : RemedyRefused).

(** * The fee and the ceilings of one item *)

Definition PER_PIECE_UNITS : list Unit.t := COUNT_UNITS.

(** [remedy_line_facts]: the exactly priced lines, by their id. *)
Definition line_facts (l : QuoteLineSnapshot) : option (string * RemedyLineFacts) :=
  match amounts l with
  | ExactLineAmounts unit_price _ _ net =>
      Some (quote_line_id l,
            {| fact_service_code := quote_service_code l; fact_unit := snapshot_unit l;
               fact_quantity := line_quantity l; fact_unit_price_vnd := unit_price;
               fact_net_amount_vnd := net |})
  | RangeLineAmounts _ _ _ _ _ _ _ _ => None
  end.
Definition remedy_line_facts (ls : list QuoteLineSnapshot) : dict string RemedyLineFacts :=
  omap line_facts ls.

Definition _is_exactly_one (quantity : string) : bool :=
  match of_literal quantity with Some q => dec_eqb q (of_int 1) | None => false end.
(** [int] of an integral decimal. *)
Definition whole (d : decimal) : Z :=
  match d with Finite c e => if 0 <=? e then c * 10 ^ e else c / 10 ^ (- e) | Special => 0 end.
Definition _whole_pieces (quantity : string) : Z :=
  match of_literal quantity with
  | Some q => if negb (is_finite q) || dec_ltb q (of_int 1) || negb (is_integral q) then 1 else whole q
  | None => 1
  end.

Definition item_fee (line : RemedyLineFacts) : ItemFeeBasis.t * Z :=
  let net := fact_net_amount_vnd line in
  if fact_unit line is? Unit.KG then (ItemFeeBasis.BAG, net)
  else if fact_unit line in? PER_PIECE_UNITS then
    match fact_unit_price_vnd line with
    | Some price => (ItemFeeBasis.UNIT, Z.min price net)
    | None => if _is_exactly_one (fact_quantity line) then (ItemFeeBasis.UNIT, net)
              else (ItemFeeBasis.NOT_RECORDED, net)
    end
  else (ItemFeeBasis.NOT_RECORDED, net).

Definition item_compensation_terms (policy : RemedyPolicy) (facts : RemedyOrderFacts) (line_id : string)
    : option ItemCompensationTerms :=
  line ← dict_get (fact_lines facts) line_id;
  let '(basis, fee) := item_fee line in
  let owner_always := (if refunded facts then [OwnerReason.ORDER_REFUNDED] else [])
    ++ (if basis is? ItemFeeBasis.NOT_RECORDED then [OwnerReason.ITEM_FEE_NOT_RECORDED] else []) in
  let pieces := if (basis is? ItemFeeBasis.UNIT) && bool_decide (is_Some (fact_unit_price_vnd line))
                then _whole_pieces (fact_quantity line) else 1 in
  let line_fee := if 1 <? pieces then Z.min (fee * pieces) (fact_net_amount_vnd line) else fee in
  Some {| terms_line_id := line_id; terms_service_code := fact_service_code line; terms_basis := basis;
          terms_item_fee_vnd := fee; terms_ceiling_vnd := fee * damage_compensation_multiple policy;
          terms_pieces := pieces;
          terms_line_ceiling_vnd := line_fee * damage_compensation_multiple policy;
          terms_garments := if basis is? ItemFeeBasis.UNIT then Some pieces else None;
          terms_owner_always := owner_always |}.

(** Which garment a claim on the line is about. *)
Definition resolve_garment (terms : ItemCompensationTerms) (garment_index : option Z)
    : result RemedyRefused (option Z) :=
  match terms_garments terms, garment_index with
  | None, Some _ => Err (refused_by RemedyRefusal.REMEDY_GARMENT_NOT_APPLICABLE)
  | None, None => Ok None
  | Some n, None =>
      if n =? 1 then Ok (Some 1)
      else Err {| refusal := RemedyRefusal.REMEDY_GARMENT_REQUIRED; refused_ceiling_vnd := None;
                  refused_window_closes_at := None; refused_threshold_minutes := None;
                  refused_committed_vnd := None; refused_garments := Some n |}
  | Some n, Some g =>
      if (1 <=? g) && (g <=? n) then Ok (Some g)
      else Err {| refusal := RemedyRefusal.REMEDY_GARMENT_OUT_OF_RANGE; refused_ceiling_vnd := None;
                  refused_window_closes_at := None; refused_threshold_minutes := None;
                  refused_committed_vnd := None; refused_garments := Some n |}
  end.

(** What counts against one garment, and the most that counts against any: proposals that
    name none count against each. *)
Definition committed_against_garment (by_garment : gmap (option Z) Z) (garment_index : Z) : Z :=
  default 0 (by_garment !! Some garment_index) + default 0 (by_garment !! None).
Definition named_amounts (by_garment : gmap (option Z) Z) : list Z :=
  omap (λ ga, match ga.1 with Some _ => Some ga.2 | None => None end) (map_to_list by_garment).
Definition committed_against_any_garment (by_garment : gmap (option Z) Z) : Z :=
  match named_amounts by_garment with [] => 0 | x :: l => foldl Z.max x l end
  + default 0 (by_garment !! None).

(** * The decision *)

Definition _ITEM_KINDS : list RemedyKind.t := [RemedyKind.DAMAGE_COMPENSATION; RemedyKind.LOST_ITEM].
Definition present {A} (o : option A) : bool := match o with Some _ => true | None => false end.

Definition _refuse_wrong_shape (r : RemedyRequest) : option RemedyRefused :=
  let not_applicable := Some (refused_by RemedyRefusal.REMEDY_AMOUNT_NOT_APPLICABLE) in
  let kind := remedy_kind r in
  if kind in? _ITEM_KINDS then
    if negb (present (request_line_id r)) || negb (from_option _valid_amount false (request_amount_vnd r))
       || present (attested_late_by_minutes r) then not_applicable else None
  else if present (request_garment_index r) then Some (refused_by RemedyRefusal.REMEDY_GARMENT_NOT_APPLICABLE)
  else if kind is? RemedyKind.LATE_DELIVERY_CREDIT then
    if present (request_amount_vnd r) || present (request_line_id r)
       || negb (from_option (λ m, 0 <=? m) false (attested_late_by_minutes r)) then not_applicable else None
  else if present (request_amount_vnd r) || present (request_line_id r) then not_applicable
  else if present (attested_late_by_minutes r) then not_applicable
  else None.

Definition _round_half_up (numerator : Z) : Z := (numerator + RATE_DENOMINATOR / 2) / RATE_DENOMINATOR.

Definition _evaluate_late_delivery (policy : RemedyPolicy) (facts : RemedyOrderFacts) (late_by : Z)
    (committed : RemedyCommitments) : RemedyOutcome :=
  if negb (late_delivery_credits committed =? 0)
  then Refused (refused_by RemedyRefusal.REMEDY_LATE_DELIVERY_CREDIT_ALREADY_PROPOSED)
  else if negb (expects_return_leg facts && return_leg_succeeded facts)
  then Refused (refused_by RemedyRefusal.REMEDY_DELIVERY_NOT_RECORDED)
  else if late_by <=? late_delivery_threshold_minutes policy
  then Refused {| refusal := RemedyRefusal.REMEDY_LATENESS_BELOW_THRESHOLD; refused_ceiling_vnd := None;
                  refused_window_closes_at := None;
                  refused_threshold_minutes := Some (late_delivery_threshold_minutes policy);
                  refused_committed_vnd := None; refused_garments := None |}
  else match settled_total_vnd facts with
  | None => Refused (refused_by RemedyRefusal.REMEDY_ORDER_NOT_SETTLED)
  | Some total =>
      let credit := _round_half_up (total * late_delivery_credit_rate_bps policy) in
      Authorized {| authorized_kind := RemedyKind.LATE_DELIVERY_CREDIT; authorized_amount_vnd := Some credit;
         authorized_direction := Some AdjustmentDirection.CREDIT; authorized_ceiling_vnd := Some credit;
         authorized_window := None;
         owner_reasons := if staff_approval_ceiling_vnd policy <? credit
                          then [OwnerReason.ABOVE_STAFF_LIMIT] else [];
         authorized_fee_basis := None; authorized_item_fee_vnd := None;
         authorized_line_ceiling_vnd := None; authorized_garment_index := None |}
  end.

Definition ceiling_exceeded (ceiling : Z) (committed : option Z) : RemedyRefused :=
  {| refusal := RemedyRefusal.REMEDY_CEILING_EXCEEDED; refused_ceiling_vnd := Some ceiling;
     refused_window_closes_at := None; refused_threshold_minutes := None;
     refused_committed_vnd := committed; refused_garments := None |}.

(** The last part of [evaluate_remedy]: a damage or loss claim inside its window. *)
Definition evaluate_item (policy : RemedyPolicy) (facts : RemedyOrderFacts) (kind : RemedyKind.t)
    (line_id : string) (amount : Z) (garment_index : option Z) (window : datetime * datetime)
    (committed : RemedyCommitments) : result RemedyRefused RemedyAuthorized :=
  terms ← require_some (item_compensation_terms policy facts line_id)
            (refused_by RemedyRefusal.REMEDY_LINE_NOT_PRICED);
  garment ← resolve_garment terms garment_index;
  raise_if (terms_ceiling_vnd terms <? amount) (ceiling_exceeded (terms_ceiling_vnd terms) None) ;;
  let item_prior := match terms_garments terms with
                    | Some n => if 1 <? n then against_garment committed else line_committed_vnd committed
                    | None => line_committed_vnd committed
                    end in
  let item_total := item_prior + amount in
  raise_if (terms_ceiling_vnd terms <? item_total)
    (ceiling_exceeded (terms_ceiling_vnd terms) (Some item_prior)) ;;
  raise_if (terms_line_ceiling_vnd terms <? line_committed_vnd committed + amount)
    (ceiling_exceeded (terms_line_ceiling_vnd terms) (Some (line_committed_vnd committed))) ;;
  Ok {| authorized_kind := kind; authorized_amount_vnd := Some amount;
        authorized_direction := Some AdjustmentDirection.CREDIT;
        authorized_ceiling_vnd := Some (terms_ceiling_vnd terms); authorized_window := Some window;
        owner_reasons := (if kind is? RemedyKind.LOST_ITEM then [OwnerReason.LOSS_CLAIM] else [])
          ++ terms_owner_always terms
          ++ (if staff_approval_ceiling_vnd policy <? item_total then [OwnerReason.ABOVE_STAFF_LIMIT] else []);
        authorized_fee_basis := Some (terms_basis terms);
        authorized_item_fee_vnd := Some (terms_item_fee_vnd terms);
        authorized_line_ceiling_vnd := Some (terms_line_ceiling_vnd terms);
        authorized_garment_index := garment |}.

Definition days (n : Z) : timedelta := n * us_per_day.

Definition evaluate_remedy (policy : RemedyPolicy) (facts : RemedyOrderFacts) (request : RemedyRequest)
    (requested_at : datetime) (committed : RemedyCommitments) : remedied RemedyOutcome :=
  raise_if (negb (aware requested_at)) NotARemedyPolicy ;;
  Ok match _refuse_wrong_shape request with
  | Some shape => Refused shape
  | None =>
      if negb (store_fault_attested request) then Refused (refused_by RemedyRefusal.REMEDY_STORE_FAULT_NOT_ATTESTED)
      else if remedy_kind request is? RemedyKind.LATE_DELIVERY_CREDIT
      then _evaluate_late_delivery policy facts (default 0 (attested_late_by_minutes request)) committed
      else
        let window := if remedy_kind request is? RemedyKind.FREE_REWASH
                      then days (free_rewash_window_days policy)
                      else hours (defect_report_window_hours policy) in
        match goods_returned_at facts with
        | None => Refused (refused_by RemedyRefusal.REMEDY_WINDOW_EVIDENCE_MISSING)
        | Some opened_at =>
            let closes_at := dt_add opened_at window in
            if dt_ltb closes_at requested_at
            then Refused {| refusal := RemedyRefusal.REMEDY_WINDOW_CLOSED; refused_ceiling_vnd := None;
                            refused_window_closes_at := Some closes_at; refused_threshold_minutes := None;
                            refused_committed_vnd := None; refused_garments := None |}
            else if remedy_kind request is? RemedyKind.FREE_REWASH
            then Authorized {| authorized_kind := RemedyKind.FREE_REWASH; authorized_amount_vnd := None;
                   authorized_direction := None; authorized_ceiling_vnd := None;
                   authorized_window := Some (opened_at, closes_at); owner_reasons := [];
                   authorized_fee_basis := None; authorized_item_fee_vnd := None;
                   authorized_line_ceiling_vnd := None; authorized_garment_index := None |}
            else match evaluate_item policy facts (remedy_kind request)
                         (default ""%string (request_line_id request)) (default 0 (request_amount_vnd request))
                         (request_garment_index request) (opened_at, closes_at) committed with
                 | Ok a => Authorized a
                 | Err r => Refused r
                 end
        end
  end.
