(* ===== verification/RemedyLedger.v ===== *)
(** Remedies in the database ([packages/db/.../remedies.py]): proposing one against the figures
    in force and the order's record, raising the owner's envelope, and carrying one out.  Each
    command is the transactions the code runs it as: [propose] reads and decides, raises the
    envelope ([Approvals]), then re-reads under the order's lock and inserts; [execute] reads
    the locked proposal, then re-checks and pays.  Other transactions may commit between them.
    The tables' CHECKs and triggers (migrations 0042, 0051, 0052) are written out where a
    command meets them; audit and outbox rows are [Outbox]'s and not repeated. *)
From Stdlib Require Import String.
From S2P Require Import Prelude Clock Text Json Configurations Catalog Quotes.
From S2P Require Import Idempotency Approvals Remedies.
Local Open Scope laundry_scope.
Local Open Scope Z_scope.

(** [RemedyStateError] with its code, and the ceiling and committed figures it carries;
    [RemedyDenied] is the one made of a domain refusal. *)
Inductive RemedyFailure :=
  | RemedyAuthorizationError
  | RemedyStateError (code : string) (ceiling committed : option Z)
  | RemedyDenied (r : RemedyRefused)
  | PolicyFailure (e : RemedyPolicyError)
  | ConfigurationsFailure (e : ConfigurationFailure)
  | EnvelopeFailure (e : IdempotencyError ApprovalError)
  | CheckViolation.
Notation remedy := (result RemedyFailure).

Definition state_error (code : string) : RemedyFailure := RemedyStateError code None None.
Definition lift_policy {A} (r : result RemedyPolicyError A) : remedy A :=
  match r with Ok a => Ok a | Err e => Err (PolicyFailure e) end.
Definition lift_configurations {A} (r : configured A) : remedy A :=
  match r with Ok a => Ok a | Err e => Err (ConfigurationsFailure e) end.

Definition REMEDY_ROLES : list ActorRole.t :=
  [ActorRole.OWNER_ADMIN; ActorRole.OPS_APPROVER; ActorRole.OPERATOR].

(** * The tables *)

Module IncidentStatus.
Inductive t :=
  | OPEN | UNDER_REVIEW | CLOSED.
#[export] Instance eq_dec : EqDecision t.
Proof. solve_decision. Defined.
End IncidentStatus.
#[export] Existing Instance IncidentStatus.eq_dec.

(** A row of [customer_incidents]. *)
Record incident_row := IncidentRow {
  incident_store : Z;
  incident_order : option Z;
  incident_status : IncidentStatus.t;
  fault_decided : bool;
  remedy_decided : bool;
}.

(** An order with its priced revision, the times of its succeeded RETURN legs, its settlement
    (id and paid amount) and the settlement each of its refunds names. *)
Record order_row := OrderRow {
  order_store : Z;
  bound_contact_id : Z;
  fulfillment_mode : FulfillmentMode.t;
  production_released_at : option datetime;
  current_snapshot_hash : string;
  current_revision : ImmutableQuoteSnapshot;
  balance_refunded : bool;
  return_legs : list datetime;
  settlement : option (Z * Z);
  order_refunds : list (option Z);
}.

(** A row of [remedy_proposals]. *)
Record proposal := Proposal {
  proposal_store : Z;
  proposal_incident : Z;
  proposal_order : Z;
  proposal_kind : RemedyKind.t;
  proposal_status : RemedyStatus.t;
  proposal_amount_vnd : option Z;
  proposal_ceiling_vnd : option Z;
  proposal_line_id : option string;
  proposal_garment : option Z;
  proposal_policy_version_id : Z;
  proposal_policy_version : Z;
  proposal_fault_attested : bool;
  proposal_late_by : option Z;
  proposal_window : option (datetime * datetime);
  proposal_hash : string;
  proposal_approval_id : option Z;
  proposed_by : Z;
  proposed_at : datetime;
  executed_at : option datetime;
  proposal_row_version : Z;
}.

(** A row of [remedy_credits] as it is issued. *)
Record credit_row := CreditRow {
  credit_proposal : Z;
  credit_store : Z;
  bearer_contact_id : Z;
  issued_from_order_id : Z;
  credit_amount : Z;
  credit_policy_version : Z;
  issued_at : datetime;
}.

Record shop := Shop {
  proposals : gmap Z proposal;
  credits : gmap Z credit_row;
  incidents : gmap Z incident_row;
  orders : gmap Z order_row;
  configurations : list ConfigurationRow;
  envelopes : store (T := Approvals.db) (R := StoredApproval);
}.

Definition with_proposals (s : shop) (m : gmap Z proposal) : shop :=
  Shop m (credits s) (incidents s) (orders s) (configurations s) (envelopes s).
Definition with_credits (s : shop) (m : gmap Z credit_row) : shop :=
  Shop (proposals s) m (incidents s) (orders s) (configurations s) (envelopes s).
Definition with_incidents (s : shop) (m : gmap Z incident_row) : shop :=
  Shop (proposals s) (credits s) m (orders s) (configurations s) (envelopes s).
Definition with_envelopes (s : shop) (e : store) : shop :=
  Shop (proposals s) (credits s) (incidents s) (orders s) (configurations s) e.

(** The CHECKs of [remedy_proposals]. *)
Definition shape_matches_kind (p : proposal) : bool :=
  let figureless := negb (present (proposal_amount_vnd p)) && negb (present (proposal_ceiling_vnd p))
    && negb (present (proposal_line_id p)) && negb (present (proposal_late_by p)) in
  let within := match proposal_amount_vnd p, proposal_ceiling_vnd p with
                | Some a, Some c => a <=? c
                | _, _ => false
                end in
  match proposal_kind p with
  | RemedyKind.FREE_REWASH => figureless
  | RemedyKind.DAMAGE_COMPENSATION => within && present (proposal_line_id p) && negb (present (proposal_late_by p))
  | RemedyKind.LATE_DELIVERY_CREDIT => within && negb (present (proposal_line_id p)) && present (proposal_late_by p)
  | RemedyKind.LOST_ITEM =>
      (within && present (proposal_line_id p) && negb (present (proposal_late_by p))) || figureless
  end.
Definition proposal_checks (p : proposal) : bool :=
  from_option (Z.leb 0) true (proposal_amount_vnd p) && from_option (Z.leb 0) true (proposal_ceiling_vnd p)
  && from_option (Z.leb 0) true (proposal_late_by p) && (0 <? proposal_policy_version p)
  && HASH_PATTERN (proposal_hash p) && (0 <? proposal_row_version p)
  && shape_matches_kind p
  && Bool.eqb (proposal_status p is? RemedyStatus.POLICY_UNRESOLVED)
       ((proposal_kind p is? RemedyKind.LOST_ITEM) && negb (present (proposal_amount_vnd p)))
  && (negb (proposal_kind p is? RemedyKind.LOST_ITEM) || negb (present (proposal_amount_vnd p))
      || (present (proposal_approval_id p) && negb (proposal_status p is? RemedyStatus.STAFF_AUTHORIZED)))
  && (negb (proposal_status p is? RemedyStatus.OWNER_APPROVAL_REQUIRED) || present (proposal_approval_id p))
  && Bool.eqb (proposal_status p is? RemedyStatus.EXECUTED) (present (executed_at p))
  && from_option (λ w, dt_ltb w.1 w.2) true (proposal_window p)
  && from_option (Z.leb 1) true (proposal_garment p)
  && (negb (present (proposal_garment p))
      || ((proposal_kind p in? _ITEM_KINDS) && present (proposal_line_id p) && present (proposal_amount_vnd p))).

(** * Reading *)

Section reads.
Context (digest : object → option string).

Record PublishedRemedyPolicy := MkPublishedRemedyPolicy {
  figures : RemedyPolicy;
  policy_version_id : Z;
  policy_version_number : Z;
  policy_snapshot_hash : string;
}.

Definition read_published_remedy_policy (table : list ConfigurationRow) : remedy (option PublishedRemedyPolicy) :=
  published ← lift_configurations (latest_published table REMEDY_POLICY_CONFIG_TYPE);
  match published with
  | None => Ok None
  | Some p =>
      match get_published table (Configurations.version_id p) with
      | None => Ok None
      | Some payload =>
          d ← lift_configurations (Configurations.snapshot_hash digest payload);
          if negb (d is? snapshot_hash_of p) then Ok None
          else match parse_remedy_policy payload with
               | Ok pol => Ok (Some (MkPublishedRemedyPolicy pol (Configurations.version_id p)
                                       (published_version p) (snapshot_hash_of p)))
               | Err _ => Ok None
               end
      end
  end.

(** The version a proposal cites, published or retired since. *)
Definition cited_version (id : Z) (r : ConfigurationRow) : bool :=
  (config_id r =? id) && (Configurations.config_type r is? REMEDY_POLICY_CONFIG_TYPE)
  && (lifecycle r in? [Lifecycle.PUBLISHED; Lifecycle.RETIRED]).
Definition _policy_by_version (table : list ConfigurationRow) (id : Z) : remedy (option RemedyPolicy) :=
  match find (cited_version id) table with
  | None => Ok None
  | Some r =>
      d ← lift_configurations (Configurations.snapshot_hash digest (payload r));
      if negb (d is? row_snapshot_hash r) then Ok None
      else match parse_remedy_policy (payload r) with Ok pol => Ok (Some pol) | Err _ => Ok None end
  end.

(** [ORDER BY dl.recorded_at LIMIT 1] over the succeeded RETURN legs. *)
Definition returned_at (legs : list datetime) : option datetime := head (stable_sort dt_leb legs).
Definition _optional_datetime (value : option datetime) : remedy (option datetime) :=
  raise_if (from_option (λ d, negb (aware d)) false value) (state_error "REMEDY_ORDER_TIMESTAMP_INVALID") ;;
  Ok value.

(** [_read_order_record]: the facts of a stored order. *)
Definition order_facts (o : order_row) : remedy RemedyOrderFacts :=
  let expects_return := fulfillment_mode o in? MODES_EXPECTING_RETURN in
  delivered_at ← _optional_datetime (returned_at (return_legs o));
  returned ← (if expects_return then Ok delivered_at else _optional_datetime (production_released_at o));
  Ok {| goods_returned_at := returned;
        settled_total_vnd := match settlement o with
                             | Some (id, paid) => if Some id in? order_refunds o then None else Some paid
                             | None => None
                             end;
        fact_lines := remedy_line_facts (lines (data (current_revision o)));
        expects_return_leg := expects_return; return_leg_succeeded := present delivered_at;
        refunded := balance_refunded o || negb (length (order_refunds o) =? 0)%nat |}.

Definition _read_order_record (s : shop) (order_id : Z) : remedy (order_row * RemedyOrderFacts) :=
  o ← require_some (orders s !! order_id) (state_error "REMEDY_INCIDENT_NOT_FOUND");
  facts ← order_facts o;
  Ok (o, facts).
Definition _read_order_for_incident (s : shop) (store incident_id : Z)
    : remedy (Z * order_row * RemedyOrderFacts * IncidentStatus.t) :=
  i ← require_some (incidents s !! incident_id) (state_error "REMEDY_INCIDENT_NOT_FOUND");
  raise_if (negb (incident_store i =? store)) (state_error "REMEDY_INCIDENT_NOT_FOUND") ;;
  order_id ← require_some (incident_order i) (state_error "REMEDY_INCIDENT_NOT_FOUND");
  '(o, facts) ← _read_order_record s order_id;
  Ok (order_id, o, facts, incident_status i).

(** * What earlier proposals committed *)

Definition _DEAD_ENVELOPE_STATUSES : list ApprovalStatus.t :=
  [ApprovalStatus.REJECTED; ApprovalStatus.EXPIRED; ApprovalStatus.CANCELLED].
(** [coalesce(s.status, 'REQUESTED') = ANY(dead)]. *)
Definition envelope_dead (s : shop) (p : proposal) : bool :=
  match proposal_approval_id p with
  | Some id => match approvals (tables (envelopes s)) !! id with
               | Some r => status r in? _DEAD_ENVELOPE_STATUSES
               | None => false
               end
  | None => false
  end.
Definition live (s : shop) (p : proposal) : bool :=
  negb ((proposal_status p is? RemedyStatus.OWNER_APPROVAL_REQUIRED) && envelope_dead s p).

Definition amount_of (p : proposal) : Z := default 0 (proposal_amount_vnd p).
(** [GROUP BY garment_index] with the sum of the amounts. *)
Fixpoint by_garment (l : list proposal) : gmap (option Z) Z :=
  match l with
  | [] => ∅
  | p :: l => let m := by_garment l in
              <[proposal_garment p := amount_of p + default 0 (m !! proposal_garment p)]> m
  end.
Definition values (m : gmap (option Z) Z) : list Z := snd <$> map_to_list m.

Definition rows (s : shop) : list (Z * proposal) := map_to_list (proposals s).
(** Damage and loss on one line of an order. *)
Definition on_line (order_id : Z) (line_id : string) (p : proposal) : bool :=
  (proposal_order p =? order_id) && (proposal_kind p in? _ITEM_KINDS) && (proposal_line_id p is? Some line_id).
Definition line_rows (s : shop) (order_id : Z) (line_id : string) : list proposal :=
  filter (λ p, on_line order_id line_id p && live s p = true) (rows s).*2.
Definition late_rows (s : shop) (order_id : Z) : list proposal :=
  filter (λ p, (proposal_order p =? order_id) && (proposal_kind p is? RemedyKind.LATE_DELIVERY_CREDIT)
               && live s p = true) (rows s).*2.

Definition _read_line_commitments (s : shop) (order_id : Z) (line_id : string) : gmap (option Z) Z :=
  by_garment (line_rows s order_id line_id).
Definition _read_commitments (s : shop) (order_id : Z) (line_id : option string) (garment : option Z)
    : remedy RemedyCommitments :=
  let grouped := from_option (_read_line_commitments s order_id) ∅ line_id in
  lift_policy (remedy_commitments (sumZ (values grouped)) (Z.of_nat (length (late_rows s order_id)))
                 (committed_against_garment grouped <$> garment)).

(** * Proposing *)

Record RemedyProposalCommand := ProposalCommand {
  prop_store : Z;
  prop_incident : Z;
  prop_kind : RemedyKind.t;
  prop_fault_attested : bool;
  prop_principal : StaffPrincipal;
  prop_line_id : option string;
  prop_amount_vnd : option Z;
  prop_late_by : option Z;
  prop_at : datetime;
  prop_garment : option Z;
}.
Definition request_of (c : RemedyProposalCommand) : RemedyRequest :=
  {| remedy_kind := prop_kind c; store_fault_attested := prop_fault_attested c;
     request_line_id := prop_line_id c; request_amount_vnd := prop_amount_vnd c;
     request_garment_index := prop_garment c; attested_late_by_minutes := prop_late_by c |}.

(** [remedy_proposal_document]: everything the owner's envelope binds. *)
Record proposal_document := ProposalDocument {
  document_proposal : Z;
  document_incident : Z;
  document_order : Z;
  document_authorized : RemedyAuthorized;
  document_policy_version_id : Z;
  document_policy_version : Z;
  document_line_id : option string;
  document_proposed_at : datetime;
}.

(** A proposal decided but not yet recorded. *)
Record prepared := Prepared {
  prep_command : RemedyProposalCommand;
  prep_id : Z;
  prep_order_id : Z;
  prep_facts : RemedyOrderFacts;
  prep_quote_hash : string;
  prep_policy : PublishedRemedyPolicy;
  prep_committed : RemedyCommitments;
  prep_outcome : RemedyAuthorized;
  prep_hash : string;
  prep_approval : option Z;
}.

Definition proposable (st : IncidentStatus.t) : bool := st in? [IncidentStatus.OPEN; IncidentStatus.UNDER_REVIEW].
Definition _require_proposable_incident (st : IncidentStatus.t) : remedy unit :=
  raise_if (negb (proposable st)) (state_error "REMEDY_INCIDENT_NOT_OPEN").

Definition authorize (w : world) (p : StaffPrincipal) (store : Z) : remedy unit :=
  raise_if (negb (is_store_member w (staff_user_id p) store)) RemedyAuthorizationError.
Definition may_act (p : StaffPrincipal) : bool := existsb (λ r, r in? REMEDY_ROLES) (roles p) && mfa_verified p.

(** [decide] of [propose]. *)
Definition decided_as (policy : PublishedRemedyPolicy) (facts : RemedyOrderFacts) (c : RemedyProposalCommand)
    (prior : RemedyCommitments) : remedy RemedyAuthorized :=
  outcome ← lift_policy (evaluate_remedy (figures policy) facts (request_of c) (prop_at c) prior);
  match outcome with Authorized a => Ok a | Refused r => Err (RemedyDenied r) end.

(** [document_hash] is the canonical digest of the proposal document. *)
Context (document_hash : proposal_document → string).

Definition propose_check (w : world) (s : shop) (c : RemedyProposalCommand) (proposal_id : Z) : remedy prepared :=
  raise_if (negb (may_act (prop_principal c))) RemedyAuthorizationError ;;
  authorize w (prop_principal c) (prop_store c) ;;
  '(order_id, o, facts, st) ← _read_order_for_incident s (prop_store c) (prop_incident c);
  published ← read_published_remedy_policy (configurations s);
  committed ← _read_commitments s order_id (prop_line_id c) (prop_garment c);
  _require_proposable_incident st ;;
  policy ← require_some published (state_error "REMEDY_POLICY_UNPUBLISHED");
  outcome ← decided_as policy facts c committed;
  let hash := document_hash
    {| document_proposal := proposal_id; document_incident := prop_incident c; document_order := order_id;
       document_authorized := outcome; document_policy_version_id := policy_version_id policy;
       document_policy_version := policy_version_number policy; document_line_id := prop_line_id c;
       document_proposed_at := prop_at c |} in
  Ok (Prepared c proposal_id order_id facts (current_snapshot_hash o) policy committed outcome hash None).

(** [_request_owner_approval]'s command. *)
Definition envelope_request (key : string) (p : prepared) : ApprovalRequestCommand :=
  let c := prep_command p in
  {| req_action := ApprovalAction.APPROVE_REMEDY;
     req_resource_type := APPROVAL_RESOURCE_TYPES ApprovalAction.APPROVE_REMEDY;
     req_resource_id := prep_id p; req_resource_version := 1; req_snapshot_hash := prep_quote_hash p;
     req_rendered_hash := prep_hash p; req_policy_version := REMEDY_POLICY_VERSION;
     req_requested_by := staff_user_id (prop_principal c); req_idempotency_key := key;
     req_store_id := prop_store c; req_actor_type := "STAFF"; req_requested_at := prop_at c |}.

Definition with_approval (p : prepared) (id : Z) : prepared :=
  Prepared (prep_command p) (prep_id p) (prep_order_id p) (prep_facts p) (prep_quote_hash p) (prep_policy p)
    (prep_committed p) (prep_outcome p) (prep_hash p) (Some id).

Context (facts_hash : MessageDraftFacts → string) (rendering_hash : MessageDraftFacts → string → string)
  (request_hash : request_payload → option string) (uuid_text : Z → string)
  (action_text : ApprovalAction.t → string) (normal : StoredApproval → option StoredApproval).

Definition _request_owner_approval (w : world) (s : shop) (p : prepared) (approval_id : Z)
    : shop * remedy prepared :=
  let '(e, r) := ApprovalRepository.request facts_hash rendering_hash request_hash uuid_text action_text normal
                   w (envelopes s) (envelope_request ("remedy-proposal:" ++ uuid_text (prep_id p))%string p)
                   approval_id in
  (with_envelopes s e,
   match r with
   | Ok stored => Ok (with_approval p (approval_request_id (response stored)))
   | Err e => Err (EnvelopeFailure e)
   end).

(** [_lock_proposable_incident], under both row locks. *)
Definition _lock_proposable_incident (s : shop) (order_id incident_id : Z) : remedy incident_row :=
  _ ← require_some (orders s !! order_id) (state_error "REMEDY_INCIDENT_NOT_FOUND");
  i ← require_some (incidents s !! incident_id) (state_error "REMEDY_INCIDENT_NOT_FOUND");
  _require_proposable_incident (incident_status i) ;;
  Ok i.

Definition proposal_of (p : prepared) : proposal :=
  let c := prep_command p in
  let a := prep_outcome p in
  {| proposal_store := prop_store c; proposal_incident := prop_incident c; proposal_order := prep_order_id p;
     proposal_kind := prop_kind c;
     proposal_status := if requires_owner_approval a then RemedyStatus.OWNER_APPROVAL_REQUIRED
                        else RemedyStatus.STAFF_AUTHORIZED;
     proposal_amount_vnd := authorized_amount_vnd a; proposal_ceiling_vnd := authorized_ceiling_vnd a;
     proposal_line_id := prop_line_id c; proposal_garment := authorized_garment_index a;
     proposal_policy_version_id := policy_version_id (prep_policy p);
     proposal_policy_version := policy_version_number (prep_policy p);
     proposal_fault_attested := prop_fault_attested c; proposal_late_by := prop_late_by c;
     proposal_window := authorized_window a; proposal_hash := prep_hash p;
     proposal_approval_id := prep_approval p; proposed_by := staff_user_id (prop_principal c);
     proposed_at := prop_at c; executed_at := None; proposal_row_version := 1 |}.

(** [_open_incident_review]. *)
Definition _open_incident_review (i : incident_row) (fault : bool) : incident_row :=
  if incident_status i is? IncidentStatus.OPEN
  then IncidentRow (incident_store i) (incident_order i) IncidentStatus.UNDER_REVIEW fault (remedy_decided i)
  else i.

(** The inserting transaction of [propose]. *)
Definition propose_commit (s : shop) (p : prepared) : remedy shop :=
  let c := prep_command p in
  i ← _lock_proposable_incident s (prep_order_id p) (prop_incident c);
  locked ← _read_commitments s (prep_order_id p) (prop_line_id c) (prop_garment c);
  (if locked is? prep_committed p then Ok tt
   else recheck ← decided_as (prep_policy p) (prep_facts p) c locked;
        raise_if (negb (recheck is? prep_outcome p)) (state_error "STALE_VERSION")) ;;
  raise_if (bool_decide (is_Some (proposals s !! prep_id p)) || negb (proposal_checks (proposal_of p)))
    CheckViolation ;;
  let s := with_proposals s (<[prep_id p := proposal_of p]> (proposals s)) in
  Ok (with_incidents s (<[prop_incident c := _open_incident_review i (prop_fault_attested c)]> (incidents s))).

(** [propose], with nothing between its transactions. *)
Definition propose (w : world) (s : shop) (c : RemedyProposalCommand) (proposal_id approval_id : Z)
    : shop * remedy Z :=
  match propose_check w s c proposal_id with
  | Err e => (s, Err e)
  | Ok p =>
      let '(s, p) := if requires_owner_approval (prep_outcome p)
                     then _request_owner_approval w s p approval_id else (s, Ok p) in
      match p with
      | Err e => (s, Err e)
      | Ok p => match propose_commit s p with
                | Ok s => (s, Ok proposal_id)
                | Err e => (s, Err e)
                end
      end
  end.

(** * Carrying out *)

Record RemedyExecutionCommand := RemedyExecution {
  run_proposal : Z;
  run_principal : StaffPrincipal;
  run_at : datetime;
}.

(** The locked row as the first transaction read it. *)
Record prepared_payment := PreparedPayment {
  pay_id : Z;
  pay_row : proposal;
  pay_contact : Z;
  pay_at : datetime;
}.

(** [_require_remedy_approval] on the binding read. *)
Definition _require_remedy_approval (binding : option approval) (store proposal_id : Z) (hash : string)
    (at_ : datetime) : remedy unit :=
  b ← require_some binding (state_error "REMEDY_APPROVAL_REQUIRED");
  raise_if (negb (store_id b =? store) || negb (action b is? ApprovalAction.APPROVE_REMEDY))
    (state_error "REMEDY_APPROVAL_NOT_BOUND") ;;
  raise_if (negb (resource_id b =? proposal_id) || negb (resource_version b =? 1))
    (state_error "REMEDY_APPROVAL_NOT_BOUND") ;;
  raise_if (negb (rendered_hash b is? hash)) (state_error "REMEDY_APPROVAL_NOT_BOUND") ;;
  raise_if (negb (status b is? ApprovalStatus.APPROVED)) (state_error "REMEDY_APPROVAL_REQUIRED") ;;
  raise_if (dt_leb (expires_at b) at_) (state_error "REMEDY_APPROVAL_EXPIRED").

Definition execute_check (w : world) (s : shop) (c : RemedyExecutionCommand) : remedy prepared_payment :=
  raise_if (negb (may_act (run_principal c))) RemedyAuthorizationError ;;
  p ← require_some (proposals s !! run_proposal c) (state_error "REMEDY_PROPOSAL_NOT_FOUND");
  o ← require_some (orders s !! proposal_order p) (state_error "REMEDY_PROPOSAL_NOT_FOUND");
  authorize w (run_principal c) (proposal_store p) ;;
  let binding := id ← proposal_approval_id p; approvals (tables (envelopes s)) !! id in
  raise_if (proposal_status p is? RemedyStatus.POLICY_UNRESOLVED) (state_error "LOSS_POLICY_UNRESOLVED") ;;
  raise_if ((proposal_kind p is? RemedyKind.LOST_ITEM) && negb (present (proposal_approval_id p)))
    (state_error "REMEDY_APPROVAL_REQUIRED") ;;
  raise_if (proposal_status p is? RemedyStatus.EXECUTED) (state_error "REMEDY_ALREADY_EXECUTED") ;;
  (if proposal_status p is? RemedyStatus.OWNER_APPROVAL_REQUIRED
   then _require_remedy_approval binding (proposal_store p) (run_proposal c) (proposal_hash p) (run_at c)
   else Ok tt) ;;
  Ok (PreparedPayment (run_proposal c) p (bound_contact_id o) (run_at c)).

(** The executed rows other than this one, of a line and of an order's late deliveries. *)
Definition paid_others (s : shop) (id : Z) (keep : proposal → bool) : list proposal :=
  (filter (λ kp, negb (kp.1 =? id) && (proposal_status kp.2 is? RemedyStatus.EXECUTED) && keep kp.2 = true)
     (rows s)).*2.
Definition by_staff (p : proposal) : bool := negb (present (proposal_approval_id p)).
Definition late_of (order_id : Z) (p : proposal) : bool :=
  (proposal_order p =? order_id) && (proposal_kind p is? RemedyKind.LATE_DELIVERY_CREDIT).

(** What was paid on the item a row is about, and what staff alone paid on it.  A garment
    staff paid nothing on has no entry in [staff], and counts 0. *)
Definition paid_on_item (terms : ItemCompensationTerms) (garment : option Z) (paid staff : gmap (option Z) Z)
    : Z * Z :=
  if from_option (Z.ltb 1) false (terms_garments terms) then
    match garment with
    | Some g => (committed_against_garment paid g, committed_against_garment staff g)
    | None => (committed_against_any_garment (delete None paid), committed_against_any_garment staff)
    end
  else (sumZ (values paid), sumZ (values staff)).

Definition _recheck_before_paying (s : shop) (id : Z) (p : proposal) : remedy unit :=
  if proposal_kind p is? RemedyKind.LATE_DELIVERY_CREDIT then
    raise_if (negb (length (paid_others s id (late_of (proposal_order p))) =? 0)%nat)
      (state_error "REMEDY_LATE_DELIVERY_CREDIT_ALREADY_PROPOSED") ;;
    '(_, facts) ← _read_order_record s (proposal_order p);
    raise_if (refunded facts) (state_error "REMEDY_ORDER_REFUNDED")
  else if negb (proposal_kind p in? _ITEM_KINDS) then Ok tt
  else
    amount ← require_some (proposal_amount_vnd p) CheckViolation;
    ceiling ← require_some (proposal_ceiling_vnd p) CheckViolation;
    line_id ← require_some (proposal_line_id p) CheckViolation;
    let others := paid_others s id (on_line (proposal_order p) line_id) in
    let paid := by_garment others in
    let staff := by_garment (filter (λ q, by_staff q = true) others) in
    let paid_total := sumZ (values paid) in
    found ← _policy_by_version (configurations s) (proposal_policy_version_id p);
    policy ← require_some found (state_error "REMEDY_POLICY_UNPUBLISHED");
    '(_, facts) ← _read_order_record s (proposal_order p);
    terms ← require_some (item_compensation_terms policy facts line_id) (state_error "REMEDY_LINE_NOT_PRICED");
    let item_ceiling := Z.min ceiling (terms_ceiling_vnd terms) in
    raise_if (item_ceiling <? amount) (RemedyStateError "REMEDY_CEILING_EXCEEDED" (Some item_ceiling) None) ;;
    let '(on_item, on_item_by_staff) := paid_on_item terms (proposal_garment p) paid staff in
    raise_if (terms_ceiling_vnd terms <? on_item + amount)
      (RemedyStateError "REMEDY_CEILING_EXCEEDED" (Some (terms_ceiling_vnd terms)) (Some on_item)) ;;
    raise_if (terms_line_ceiling_vnd terms <? paid_total + amount)
      (RemedyStateError "REMEDY_CEILING_EXCEEDED" (Some (terms_line_ceiling_vnd terms)) (Some paid_total)) ;;
    if negb (by_staff p) then Ok tt
    else
      raise_if (negb (terms_owner_always terms is? [])) (state_error "REMEDY_APPROVAL_REQUIRED") ;;
      raise_if (staff_approval_ceiling_vnd policy <? on_item_by_staff + amount)
        (state_error "REMEDY_APPROVAL_REQUIRED").

Definition executed_row (p : proposal) (at_ : datetime) : proposal :=
  Proposal (proposal_store p) (proposal_incident p) (proposal_order p) (proposal_kind p) RemedyStatus.EXECUTED
    (proposal_amount_vnd p) (proposal_ceiling_vnd p) (proposal_line_id p) (proposal_garment p)
    (proposal_policy_version_id p) (proposal_policy_version p) (proposal_fault_attested p) (proposal_late_by p)
    (proposal_window p) (proposal_hash p) (proposal_approval_id p) (proposed_by p) (proposed_at p)
    (Some at_) (proposal_row_version p + 1).

(** A claim that can still be paid; the one just carried out is [EXECUTED] and is not. *)
Definition still_open (s : shop) (p : proposal) : bool :=
  (proposal_status p is? RemedyStatus.STAFF_AUTHORIZED)
  || ((proposal_status p is? RemedyStatus.OWNER_APPROVAL_REQUIRED) && negb (envelope_dead s p)).
Definition close_incident (s : shop) (incident_id : Z) : shop :=
  match incidents s !! incident_id with
  | Some i =>
      if negb (incident_status i is? IncidentStatus.CLOSED)
         && negb (existsb (λ kp, (proposal_incident kp.2 =? incident_id) && still_open s kp.2) (rows s))
      then with_incidents s (<[incident_id := IncidentRow (incident_store i) (incident_order i)
                                 IncidentStatus.CLOSED (fault_decided i) true]> (incidents s))
      else s
  | None => s
  end.

(** The paying transaction of [execute]; a money remedy issues the credit of that id. *)
Definition execute_commit (s : shop) (x : prepared_payment) (credit_id : Z) : remedy shop :=
  let p := pay_row x in
  _recheck_before_paying s (pay_id x) p ;;
  now ← require_some (proposals s !! pay_id x) (state_error "STALE_VERSION");
  raise_if (negb (proposal_row_version now =? proposal_row_version p)
            || negb (proposal_status now is? proposal_status p)) (state_error "STALE_VERSION") ;;
  raise_if (negb (proposal_status p in? [RemedyStatus.STAFF_AUTHORIZED; RemedyStatus.OWNER_APPROVAL_REQUIRED]))
    CheckViolation ;;
  let s := with_proposals s (<[pay_id x := executed_row now (pay_at x)]> (proposals s)) in
  s ← (if proposal_kind p is? RemedyKind.FREE_REWASH then Ok s
       else
         amount ← require_some (proposal_amount_vnd p) CheckViolation;
         raise_if (bool_decide (is_Some (credits s !! credit_id)) || negb (0 <? amount)
                   || existsb (λ kc, credit_proposal kc.2 =? pay_id x) (map_to_list (credits s))) CheckViolation ;;
         Ok (with_credits s (<[credit_id := CreditRow (pay_id x) (proposal_store p) (pay_contact x)
               (proposal_order p) amount (proposal_policy_version_id p) (pay_at x)]> (credits s))));
  Ok (close_incident s (proposal_incident p)).

Definition execute (w : world) (s : shop) (c : RemedyExecutionCommand) (credit_id : Z) : remedy shop :=
  x ← execute_check w s c;
  execute_commit s x credit_id.
End reads.
