(* ===== verification/RemedyFacts.v ===== *)
(** What the remedy rules guarantee ([Remedies]): the ceilings never pass a multiple of what
    the shop charged, and splitting a claim into several gains nothing; with the grouped sums
    of the ledger reads ([RemedyLedger.by_garment]). *)
From Stdlib Require Import String.
From S2P Require Import Prelude Clock Json Configurations Catalog PyDecimal Pricing Quotes.
From S2P Require Import Idempotency Approvals Remedies RemedyLedger.
Local Open Scope laundry_scope.
Local Open Scope Z_scope.

#[local] Arguments sumZ : simpl never.
#[export] Instance sumZ_Permutation : Proper (Permutation ==> eq) sumZ.
Proof. intros l k. apply sumZ_perm. Qed.

(** * The terms of an item *)

(** The fee of one item, of every item on the line, and whether the line has several garments
    with a fee each. *)
Definition fee_of (lf : RemedyLineFacts) : Z := (item_fee lf).2.
Definition pieces_of (lf : RemedyLineFacts) : Z :=
  if ((item_fee lf).1 is? ItemFeeBasis.UNIT) && bool_decide (is_Some (fact_unit_price_vnd lf))
  then _whole_pieces (fact_quantity lf) else 1.
Definition line_fee_of (lf : RemedyLineFacts) : Z :=
  if 1 <? pieces_of lf then Z.min (fee_of lf * pieces_of lf) (fact_net_amount_vnd lf) else fee_of lf.
Definition per_garment (lf : RemedyLineFacts) : bool :=
  ((item_fee lf).1 is? ItemFeeBasis.UNIT) && (1 <? pieces_of lf).

Lemma terms_Some policy facts line_id terms :
  item_compensation_terms policy facts line_id = Some terms ↔
  ∃ lf, dict_get (fact_lines facts) line_id = Some lf ∧
    terms = {| terms_line_id := line_id; terms_service_code := fact_service_code lf;
               terms_basis := (item_fee lf).1; terms_item_fee_vnd := fee_of lf;
               terms_ceiling_vnd := fee_of lf * damage_compensation_multiple policy;
               terms_pieces := pieces_of lf;
               terms_line_ceiling_vnd := line_fee_of lf * damage_compensation_multiple policy;
               terms_garments := if (item_fee lf).1 is? ItemFeeBasis.UNIT then Some (pieces_of lf) else None;
               terms_owner_always := (if refunded facts then [OwnerReason.ORDER_REFUNDED] else [])
                 ++ (if (item_fee lf).1 is? ItemFeeBasis.NOT_RECORDED
                     then [OwnerReason.ITEM_FEE_NOT_RECORDED] else []) |}.
Proof.
  unfold item_compensation_terms, line_fee_of, fee_of, pieces_of. split.
  - destruct (dict_get _ _) as [lf|]; [|done]. cbn. destruct (item_fee lf) as [basis fee] eqn:He. cbn.
    intros [= <-]. exists lf. rewrite He. done.
  - intros (lf & -> & ->). cbn. by destruct (item_fee lf).
Qed.

(** No item's fee, and no line's, is above what the line was charged. *)
Lemma fee_le_net lf : fee_of lf <= fact_net_amount_vnd lf.
Proof.
  unfold fee_of, item_fee. destruct (_ is? _); [cbn; lia|]. destruct (_ in? _); [|cbn; lia].
  destruct (fact_unit_price_vnd lf); [cbn; lia|]. destruct (_is_exactly_one _); cbn; lia.
Qed.
Lemma line_fee_le_net lf : line_fee_of lf <= fact_net_amount_vnd lf.
Proof. unfold line_fee_of. destruct (1 <? _); [lia|apply fee_le_net]. Qed.

Lemma per_garment_terms policy facts line_id terms lf :
  item_compensation_terms policy facts line_id = Some terms →
  dict_get (fact_lines facts) line_id = Some lf →
  from_option (Z.ltb 1) false (terms_garments terms) = per_garment lf.
Proof.
  intros (lf' & Hl & ->)%terms_Some Hl'. rewrite Hl' in Hl. injection Hl as <-. cbn. unfold per_garment.
  by destruct (_ is? _).
Qed.

(** * Splitting a claim *)

(** A garment's commitments after one more claim was recorded on it. *)
Definition more (c : RemedyCommitments) (amount : Z) : RemedyCommitments :=
  MkRemedyCommitments (line_committed_vnd c + amount) (late_delivery_credits c)
    ((λ g, g + amount) <$> garment_committed_vnd c).
(** Claims on one item made one after another: what the last was answered. *)
Fixpoint claims (policy : RemedyPolicy) (facts : RemedyOrderFacts) (kind : RemedyKind.t) (line_id : string)
    (garment : option Z) (window : datetime * datetime) (c : RemedyCommitments) (amount : Z) (later : list Z)
    : result RemedyRefused RemedyAuthorized :=
  a ← evaluate_item policy facts kind line_id amount garment window c;
  match later with
  | [] => Ok a
  | next :: later => claims policy facts kind line_id garment window (more c amount) next later
  end.

(** The prior total the item's limits are compared with. *)
Definition prior_of (lf : RemedyLineFacts) (c : RemedyCommitments) : Z :=
  if per_garment lf then against_garment c else line_committed_vnd c.
Lemma against_more c amount : against_garment (more c amount) = against_garment c + amount.
Proof. unfold against_garment, more. cbn. by destruct (garment_committed_vnd c). Qed.
Lemma prior_more lf c amount : prior_of lf (more c amount) = prior_of lf c + amount.
Proof. unfold prior_of. rewrite against_more. by destruct (per_garment lf). Qed.

Lemma evaluate_item_Ok policy facts kind line_id amount garment window c a :
  evaluate_item policy facts kind line_id amount garment window c = Ok a ↔
  ∃ lf terms g, dict_get (fact_lines facts) line_id = Some lf ∧
    item_compensation_terms policy facts line_id = Some terms ∧ resolve_garment terms garment = Ok g ∧
    amount <= terms_ceiling_vnd terms ∧ prior_of lf c + amount <= terms_ceiling_vnd terms ∧
    line_committed_vnd c + amount <= terms_line_ceiling_vnd terms ∧
    a = {| authorized_kind := kind; authorized_amount_vnd := Some amount;
           authorized_direction := Some AdjustmentDirection.CREDIT;
           authorized_ceiling_vnd := Some (terms_ceiling_vnd terms); authorized_window := Some window;
           owner_reasons := (if kind is? RemedyKind.LOST_ITEM then [OwnerReason.LOSS_CLAIM] else [])
             ++ terms_owner_always terms
             ++ (if staff_approval_ceiling_vnd policy <? prior_of lf c + amount
                 then [OwnerReason.ABOVE_STAFF_LIMIT] else []);
           authorized_fee_basis := Some (terms_basis terms);
           authorized_item_fee_vnd := Some (terms_item_fee_vnd terms);
           authorized_line_ceiling_vnd := Some (terms_line_ceiling_vnd terms);
           authorized_garment_index := g |}.
Proof.
  assert (Hprior : ∀ lf terms, item_compensation_terms policy facts line_id = Some terms →
    dict_get (fact_lines facts) line_id = Some lf →
    match terms_garments terms with
    | Some n => if 1 <? n then against_garment c else line_committed_vnd c
    | None => line_committed_vnd c
    end = prior_of lf c).
  { intros lf terms Ht Hl. unfold prior_of. rewrite <- (per_garment_terms _ _ _ _ _ Ht Hl).
    destruct (terms_garments terms); cbn; [|done]. by destruct (1 <? _). }
  unfold evaluate_item. split.
  - intros H. apply bind_Ok in H as (terms & Ht & H). apply require_some_Ok in Ht.
    pose proof Ht as (lf & Hl & _)%terms_Some. rewrite (Hprior lf terms Ht Hl) in H.
    apply bind_Ok in H as (g & Hg & H). result_inv. guards. by exists lf, terms, g.
  - intros (lf & terms & g & Hl & Ht & Hg & H1 & H2 & H3 & ->). rewrite Ht. cbn. rewrite Hg. cbn.
    rewrite (Hprior lf terms Ht Hl).
    by rewrite (proj2 (Z.ltb_ge _ _) H1), (proj2 (Z.ltb_ge _ _) H2), (proj2 (Z.ltb_ge _ _) H3).
Qed.

Lemma owner_of_item policy facts kind line_id amount garment window c a lf :
  evaluate_item policy facts kind line_id amount garment window c = Ok a →
  dict_get (fact_lines facts) line_id = Some lf →
  requires_owner_approval a = true ↔
  kind = RemedyKind.LOST_ITEM ∨ refunded facts = true ∨ (item_fee lf).1 = ItemFeeBasis.NOT_RECORDED ∨
  staff_approval_ceiling_vnd policy < prior_of lf c + amount.
Proof.
  intros (lf' & terms & g & Hl & Ht & _ & _ & _ & _ & ->)%evaluate_item_Ok Hl'.
  rewrite Hl' in Hl. injection Hl as <-. apply terms_Some in Ht as (lf' & Hl & ->).
  rewrite Hl' in Hl. injection Hl as <-. unfold requires_owner_approval. cbn [owner_reasons terms_owner_always].
  rewrite negb_true_iff, bool_decide_eq_false.
  destruct (Z.ltb_spec (staff_approval_ceiling_vnd policy) (prior_of lf c + amount));
    do 2 case_bool_decide; destruct (refunded facts); cbn; naive_solver lia.
Qed.

(** C16: splitting a claim gains nothing.  Claims on one garment (or on a whole line) recorded
    one after another are all granted exactly when one claim of their sum would be, and the
    last of them needs the owner exactly when that one would. *)
Theorem splitting_gains_nothing policy facts kind line_id garment window c amount later :
  0 <= amount → Forall (Z.le 0) later → 0 <= line_committed_vnd c →
  0 <= against_garment c →
  let one := evaluate_item policy facts kind line_id (amount + sumZ later) garment window c in
  (is_Ok (claims policy facts kind line_id garment window c amount later) = is_Ok one) ∧
  (∀ a b, claims policy facts kind line_id garment window c amount later = Ok a → one = Ok b →
     requires_owner_approval a = requires_owner_approval b).
Proof.
  revert c amount. induction later as [|next later IH]; intros c amount Ha Hl Hc Hg; cbn [claims].
  - change (sumZ []) with 0. rewrite Z.add_0_r. cbv zeta.
    destruct (evaluate_item _ _ _ _ _ _ _ _); cbn; split; [done|by intros ?? [= <-] [= <-]|done..].
  - apply Forall_cons in Hl as [Hn Hl]. rewrite sumZ_cons, Z.add_assoc.
    assert (Hm : 0 <= line_committed_vnd (more c amount)) by (cbn; lia).
    assert (Hmg : 0 <= against_garment (more c amount)) by (rewrite against_more; lia).
    destruct (IH (more c amount) next Hn Hl Hm Hmg) as [IHok IHown]. clear IH.
    assert (Hs : 0 <= sumZ later) by by apply sumZ_nonneg.
    assert (Hp : ∀ lf, 0 <= prior_of lf c).
    { intros lf. unfold prior_of. by destruct (per_garment lf). }
    assert (Hiff : (∃ b, evaluate_item policy facts kind line_id (amount + next + sumZ later) garment window c = Ok b) ↔
      (∃ a, evaluate_item policy facts kind line_id amount garment window c = Ok a) ∧
      (∃ b, evaluate_item policy facts kind line_id (next + sumZ later) garment window (more c amount) = Ok b)).
    { setoid_rewrite evaluate_item_Ok. setoid_rewrite prior_more. cbn [more line_committed_vnd]. split.
      - intros (b & lf & terms & g & H1 & H2 & H3 & H4 & H5 & H6 & _). specialize (Hp lf).
        split; eexists; exists lf, terms, g; split_and!; try done; try lia.
      - intros [_ (b & lf & terms & g & H1 & H2 & H3 & H4 & H5 & H6 & _)]. specialize (Hp lf).
        eexists; exists lf, terms, g; split_and!; try done; lia. }
    cbv zeta. split.
    + assert (HIH : (∃ x, claims policy facts kind line_id garment window (more c amount) next later = Ok x) ↔
        (∃ b, evaluate_item policy facts kind line_id (next + sumZ later) garment window (more c amount) = Ok b))
        by by rewrite <- !is_Ok_true, IHok.
      apply Bool.eq_true_iff_eq. rewrite !is_Ok_true, Hiff, <- HIH. clear.
      destruct (evaluate_item policy facts kind line_id amount garment window c); cbn [mbind result_bind]; split.
      * intros [b Hb]. split; [by eexists|by exists b].
      * by intros [_ ?].
      * by intros [? ?].
      * by intros [[? ?] _].
    + intros a b H Hb. apply bind_Ok in H as (a0 & Ha0 & H).
      pose proof (proj1 Hiff (ex_intro _ b Hb)) as [_ (b' & Hb')].
      rewrite (IHown a b' H Hb'). pose proof Hb as (lf & _ & _ & Hlf & _)%evaluate_item_Ok.
      apply Bool.eq_true_iff_eq. rewrite (owner_of_item _ _ _ _ _ _ _ _ _ lf Hb' Hlf),
        (owner_of_item _ _ _ _ _ _ _ _ _ lf Hb Hlf), prior_more.
      replace (prior_of lf c + amount + (next + sumZ later)) with (prior_of lf c + (amount + next + sumZ later)) by lia.
      done.
Qed.

(** * The grouped sums *)

Lemma by_garment_lookup l g :
  default 0 (by_garment l !! g) = sumZ (amount_of <$> filter (λ p, proposal_garment p = g) l).
Proof.
  induction l as [|p l IH]; [done|]. cbn [by_garment]. rewrite filter_cons.
  destruct (decide (proposal_garment p = g)) as [<-|Hne].
  - rewrite lookup_insert_eq. cbn [fmap list_fmap default]. by rewrite sumZ_cons, IH.
  - by rewrite lookup_insert_ne.
Qed.

Lemma values_insert (m : gmap (option Z) Z) g v :
  sumZ (values (<[g := v + default 0 (m !! g)]> m)) = v + sumZ (values m).
Proof.
  unfold values. destruct (m !! g) as [old|] eqn:Hg.
  - rewrite <- insert_delete_eq, map_to_list_insert by apply lookup_delete_eq.
    rewrite <- (insert_id m g old Hg) at 2. rewrite <- insert_delete_eq, map_to_list_insert by apply lookup_delete_eq.
    cbn [fmap list_fmap]. rewrite !sumZ_cons. cbn. lia.
  - rewrite map_to_list_insert by done. cbn [fmap list_fmap]. rewrite sumZ_cons. cbn. lia.
Qed.

Lemma values_by_garment l : sumZ (values (by_garment l)) = sumZ (amount_of <$> l).
Proof.
  induction l as [|p l IH]; [done|]. cbn [by_garment fmap list_fmap]. by rewrite values_insert, sumZ_cons, IH.
Qed.

Lemma foldl_max_ge l : ∀ x, x <= foldl Z.max x l ∧ Forall (λ y, y <= foldl Z.max x l) l.
Proof.
  induction l as [|y l IH]; intros x; cbn; [by split; [lia|]|]. destruct (IH (Z.max x y)) as [H1 H2].
  split; [lia|]. constructor; [lia|done].
Qed.

(** The most that counts against any garment is no less than what counts against each. *)
Lemma any_garment_ge m g : (∀ k v, m !! k = Some v → 0 <= v) →
  committed_against_garment m g <= committed_against_any_garment m.
Proof.
  intros Hm. unfold committed_against_garment, committed_against_any_garment.
  assert (Hall : ∀ v, v ∈ named_amounts m → v <= match named_amounts m with [] => 0 | x :: l => foldl Z.max x l end).
  { intros v Hv. destruct (named_amounts m) as [|x l]; [by apply elem_of_nil in Hv|].
    destruct (foldl_max_ge l x) as [H1 H2]. apply elem_of_cons in Hv as [->|Hv]; [done|].
    rewrite Forall_forall in H2. by apply H2. }
  assert (Hpos : 0 <= match named_amounts m with [] => 0 | x :: l => foldl Z.max x l end).
  { destruct (named_amounts m) as [|x l] eqn:E; [done|]. destruct (foldl_max_ge l x) as [H1 _].
    assert (x ∈ named_amounts m) as Hx by (rewrite E; left).
    apply list_elem_of_omap in Hx as ([k v] & Hk%elem_of_map_to_list & Hx). cbn in Hx.
    destruct k; [|done]. injection Hx as ->. specialize (Hm _ _ Hk). lia. }
  destruct (m !! Some g) as [v|] eqn:Hg; cbn [default]; [|unfold id in *; lia].
  assert (v ∈ named_amounts m) as Hv.
  { apply list_elem_of_omap. exists (Some g, v). by rewrite elem_of_map_to_list. }
  specialize (Hall v Hv). unfold id in *. lia.
Qed.

Lemma by_garment_nonneg l k v : Forall (λ p, 0 <= amount_of p) l → by_garment l !! k = Some v → 0 <= v.
Proof.
  intros Hl Hk. pose proof (by_garment_lookup l k) as H. rewrite Hk in H. cbn in H. unfold id in H. subst v.
  apply sumZ_nonneg, Forall_fmap, Forall_forall. intros p [_ Hp]%list_elem_of_filter.
  rewrite Forall_forall in Hl. by apply Hl.
Qed.
