(* ===== verification/RemedyMachine.v ===== *)
(** Remedies over any history: proposals and payments of several counters interleaved, owners
    deciding envelopes, figures republished, orders refunded meanwhile.  What the approval and
    configuration tables keep, and what paying one claim is checked against
    ([_recheck_before_paying]): every limit of its item, its line and the staff. *)
From Stdlib Require Import String.
From S2P Require Import Prelude Clock Text Json Configurations Catalog Quotes.
From S2P Require Import Idempotency Approvals ApprovalsFacts Remedies RemedyLedger RemedyFacts.
Local Open Scope laundry_scope.
Local Open Scope Z_scope.
#[local] Arguments sumZ : simpl never.

(** * What the approval tables keep *)

Definition dead (r : approval) : bool := status r in? _DEAD_ENVELOPE_STATUSES.
(** A later state of the approval tables: envelopes keep their content, a dead one stays dead,
    and no decision is forgotten. *)
Definition grows (d d' : Approvals.db) : Prop :=
  (∀ id r, approvals d !! id = Some r → ∃ st v t, approvals d' !! id = Some (with_state r st v t) ∧
     (dead r = true → st = status r)) ∧
  (∀ x, x ∈ decisions d → x ∈ decisions d').

Lemma grows_refl d : grows d d.
Proof.
  split; [|done]. intros id r Hr. exists (status r), (row_version r), (updated_at r). split; [|done].
  rewrite Hr. by destruct r.
Qed.

Lemma grows_trans d d1 d' : grows d d1 → grows d1 d' → grows d d'.
Proof.
  intros [H1 H2] [H3 H4]. split; [|by auto]. intros id r Hr.
  destruct (H1 id r Hr) as (st & v & t & Hr1 & Hd1). destruct (H3 id _ Hr1) as (st' & v' & t' & Hr' & Hd').
  exists st', v', t'. split; [exact Hr'|]. intros Hdead. unfold dead in *. cbn in Hd'.
  rewrite (Hd1 Hdead) in Hd'. by apply Hd'.
Qed.

Lemma grows_update d id req v new t d' : update_state d id req v new t = Ok d' → grows d d'.
Proof.
  intros (r & Hr & _ & _ & _ & Ht & ->)%update_state_Ok. split; [|done]. intros id' r' Hr'. cbn [approvals].
  destruct (decide (id = id')) as [<-|Hne].
  - rewrite lookup_insert_eq. rewrite Hr in Hr'. injection Hr' as <-. do 3 eexists. split; [done|].
    unfold dead. intros Hd. guards. unfold _DEAD_ENVELOPE_STATUSES in Hd. rewrite !elem_of_cons, elem_of_nil in Hd.
    destruct Hd as [Hd|[Hd|[Hd|[]]]]; by rewrite Hd in Ht.
  - rewrite lookup_insert_ne by done. exists (status r'), (row_version r'), (updated_at r'). split; [|done].
    rewrite Hr'. by destruct r'.
Qed.

Lemma grows_decided d r x d' : _record_decision d r x = Ok d' → grows d d'.
Proof.
  unfold _record_decision. intros H. apply bind_Ok in H as (d1 & Hu & H). apply grows_update in Hu.
  apply insert_decision_Ok in H as [_ ->]. eapply grows_trans; [exact Hu|]. split; [exact (proj1 (grows_refl d1))|].
  intros y Hy. by right.
Qed.

Section envelope_growth.
Context (facts_hash : MessageDraftFacts → string) (rendering_hash : MessageDraftFacts → string → string)
  (request_hash : request_payload → option string) (uuid_text : Z → string)
  (action_text : ApprovalAction.t → string) (normal : StoredApproval → option StoredApproval).

Lemma grows_run s o :
  grows (tables s) (tables (ApprovalRepository.run facts_hash rendering_hash request_hash uuid_text action_text normal s o)).
Proof.
  destruct o as [w c id|w c b|w c|w c]; cbn [ApprovalRepository.run ApprovalRepository.with_tables tables].
  - unfold ApprovalRepository.request. destruct (ApprovalRepository.request_checks _ _ _ _); [|apply grows_refl].
    destruct (Idempotency.execute _ _ _ _ _) as [s' [x|e]] eqn:H.
    + apply execute_Ok in H as (sc & ky & hash & _ & _ & _ & H).
      apply execute_body_spec in H as [(-> & _)|(_ & _ & _ & t & m & H & _ & ->)]; [apply grows_refl|].
      cbn [fst tables set_record]. unfold create in H. apply bind_Ok in H as (r & _ & H).
      apply raise_bind_Ok in H as [Hfree [= <- _]]. guards. split; [|done]. intros id' r' Hr'. cbn [approvals].
      rewrite lookup_insert_ne; [by apply grows_refl|]. intros ->.
      match goal with Hn : ¬ is_Some _ |- _ => apply Hn; by exists r' end.
    + apply execute_Err in H as ->. apply grows_refl.
  - unfold ApprovalRepository.decide. destruct (_validate_human_decision c); [|apply grows_refl].
    unfold ApprovalRepository.conclude. destruct (ApprovalRepository.decide_body _ _ _ _ _) as [[[d' e] x]|] eqn:H; [|apply grows_refl].
    apply decide_body_Ok in H as (r & u & _ & _ & _ & _ & [(_ & _ & _ & H)|(_ & _ & _ & _ & H)]);
      [by eapply grows_update|by eapply grows_decided].
  - unfold ApprovalRepository.attest. destruct (_validate_reason_code _); [|apply grows_refl].
    unfold ApprovalRepository.conclude. destruct (ApprovalRepository.attest_body _ _ _ _ _) as [[[d' e] x]|] eqn:H; [|apply grows_refl].
    apply attest_body_Ok in H as (r & u & _ & _ & _ & _ & [(_ & _ & _ & H)|(_ & _ & _ & H)]);
      [by eapply grows_update|by eapply grows_decided].
  - unfold ApprovalRepository.claim_execution. destruct (negb _); [apply grows_refl|].
    unfold ApprovalRepository.conclude. destruct (ApprovalRepository.claim_body _ _ _ _ _) as [[[d' e] x]|] eqn:H; [|apply grows_refl].
    apply claim_body_Ok in H as (r & _ & _ & [(_ & _ & _ & H)|(_ & _ & _ & _ & d1 & H1 & H2)]);
      [by eapply grows_update|]. apply insert_execution_Ok in H2 as ->. by apply grows_update in H1.
Qed.

Lemma sound_run s o : sound (tables s) →
  sound (tables (ApprovalRepository.run facts_hash rendering_hash request_hash uuid_text action_text normal s o)).
Proof.
  intros Hs. destruct o; [by apply sound_request|by apply sound_decide|by apply sound_attest|by apply sound_claim].
Qed.
End envelope_growth.

(** * Who let a claim be paid *)

(** The owner's envelope of a proposal, and its one decision: approved on the proposal's exact
    content, inside the window, by somebody other than whoever proposed it. *)
Definition owner_signed (d : Approvals.db) (id : Z) (p : proposal) : Prop :=
  ∃ envelope r x, proposal_approval_id p = Some envelope ∧ approvals d !! envelope = Some r ∧
    action r = ApprovalAction.APPROVE_REMEDY ∧ resource_id r = id ∧ rendered_hash r = proposal_hash p ∧
    x ∈ decisions d ∧ decided_approval x = envelope ∧ decision x = ApprovalDecision.APPROVED ∧
    decision_binding x = binding_of r ∧ decided_by x ≠ requested_by r ∧
    instant (requested_at r) <= instant (decided_at x) < instant (expires_at r).
Definition authorised (d : Approvals.db) (id : Z) (p : proposal) : Prop :=
  by_staff p = true ∧ proposal_kind p ≠ RemedyKind.LOST_ITEM ∨ owner_signed d id p.

Lemma owner_signed_grows d d' id p : grows d d' → owner_signed d id p → owner_signed d' id p.
Proof.
  intros [Hg Hdec] (a & r & x & Ha & Hr & H). destruct (Hg a r Hr) as (st & v & t & Hr' & _).
  exists a, (with_state r st v t), x. destruct H as (? & ? & ? & ? & ?). split_and!; try done; try tauto. by apply Hdec.
Qed.
Lemma authorised_grows d d' id p : grows d d' → authorised d id p → authorised d' id p.
Proof. intros Hg [H|H]; [by left|right]. by eapply owner_signed_grows. Qed.

(** An approved envelope of a remedy was signed by the owner's own decision. *)
Lemma approved_signed d a r : sound d → approvals d !! a = Some r → status r = ApprovalStatus.APPROVED →
  action r = ApprovalAction.APPROVE_REMEDY →
  ∃ x, x ∈ decisions d ∧ decided_approval x = a ∧ decision x = ApprovalDecision.APPROVED ∧
    decision_binding x = binding_of r ∧ decided_by x ≠ requested_by r ∧
    instant (requested_at r) <= instant (decided_at x) < instant (expires_at r).
Proof.
  intros Hs Hr Hst Hact. specialize (Hs a). unfold sound_at in Hs. rewrite Hr in Hs.
  destruct Hs as [(_ & Hob & _) Hlife]. inversion Hlife; try congruence. subst.
  match goal with H : [?x] = decided _ _ |- _ => assert (x ∈ decided d a) as Hx by (rewrite <- H; left) end.
  apply list_elem_of_filter in Hx as [Ha Hx].
  match goal with H : decided_well _ _ |- _ => destruct H as (Hb & _ & Hsign & Hwin) end.
  eexists. split_and!; [exact Hx|exact Ha|done|done| |apply Hwin|apply Hwin].
  unfold signed_by in Hsign. destruct (counter_attested _); [|done]. destruct Hsign as (_ & _ & Hno).
  destruct Hno. rewrite Hob, Hact. cbn. decided.
Qed.

Lemma remedy_approval_signed d p id at_ u : sound d →
  _require_remedy_approval (a ← proposal_approval_id p; approvals d !! a) (proposal_store p) id (proposal_hash p) at_
    = Ok u → owner_signed d id p.
Proof.
  intros Hs H. unfold _require_remedy_approval in H. apply bind_Ok in H as (r & Hr & H). apply require_some_Ok in Hr.
  destruct (proposal_approval_id p) as [a|] eqn:Ha; [|done]. cbn in Hr. result_inv. guards.
  destruct (approved_signed d a r) as (x & Hx & H6 & H7 & H8 & H9 & H10); try done.
  exists a, r, x. split_and!; try done; apply H10.
Qed.

(** * Claims carried out *)

(** The executed proposals [keep] keeps. *)
Definition paid (s : shop) (keep : proposal → bool) : list proposal :=
  filter (λ p, (proposal_status p is? RemedyStatus.EXECUTED) && keep p = true) (rows s).*2.

Lemma filter_snd {A B} (f : A → bool) (g : B → bool) (l : list (A * B)) :
  (∀ ab, ab ∈ l → g ab.2 = true → f ab.1 = true) →
  (filter (λ ab, f ab.1 && g ab.2 = true) l).*2 = filter (λ b, g b = true) l.*2.
Proof.
  induction l as [|[a b] l IH]; intros Hl; [done|]. cbn [fmap list_fmap]. rewrite !filter_cons. cbn [fst snd].
  specialize (IH (λ ab Hab, Hl ab (list_elem_of_further _ _ _ Hab))).
  destruct (g b) eqn:Hg.
  - pose proof (Hl (a, b) ltac:(left) Hg) as Hf. cbn [fst] in Hf. rewrite Hf, !decide_True by done.
    cbn [fmap list_fmap]. by rewrite IH.
  - rewrite andb_false_r, !decide_False by done. exact IH.
Qed.

(** The rows a payment is compared with are all the executed ones: its own is not yet. *)
Lemma paid_others_all s id keep now : proposals s !! id = Some now → proposal_status now ≠ RemedyStatus.EXECUTED →
  paid_others s id keep = paid s keep.
Proof.
  intros Hnow Hst. unfold paid_others, paid.
  rewrite <- (filter_snd (λ k, negb (k =? id)) (λ p, (proposal_status p is? RemedyStatus.EXECUTED) && keep p)).
  - f_equal. apply list_filter_iff. intros [k p]. cbn. by rewrite andb_assoc.
  - intros [k p] Hk%elem_of_map_to_list Hp. cbn in *. guards. apply negb_true_iff, Z.eqb_neq. intros ->. congruence.
Qed.

Lemma rows_insert_new s id p : proposals s !! id = None →
  rows (with_proposals s (<[id := p]> (proposals s))) ≡ₚ (id, p) :: rows s.
Proof. intros H. unfold rows. cbn. by apply map_to_list_insert. Qed.

Lemma paid_new s id p keep : proposals s !! id = None → proposal_status p ≠ RemedyStatus.EXECUTED →
  paid (with_proposals s (<[id := p]> (proposals s))) keep ≡ₚ paid s keep.
Proof.
  intros Hid Hst. unfold paid. rewrite rows_insert_new by done. cbn [fmap list_fmap]. rewrite filter_cons_False; [done|].
  by rewrite bool_decide_false.
Qed.

Lemma rows_split s id now : proposals s !! id = Some now →
  rows s ≡ₚ (id, now) :: map_to_list (delete id (proposals s)).
Proof. intros H. unfold rows. by rewrite <- map_to_list_delete. Qed.

Lemma paid_executed s id now at_ keep : proposals s !! id = Some now → proposal_status now ≠ RemedyStatus.EXECUTED →
  paid (with_proposals s (<[id := executed_row now at_]> (proposals s))) keep
  ≡ₚ (if keep (executed_row now at_) then [executed_row now at_] else []) ++ paid s keep.
Proof.
  intros Hid Hst. unfold paid. rewrite (rows_split s id now Hid).
  assert (rows (with_proposals s (<[id := executed_row now at_]> (proposals s)))
    ≡ₚ (id, executed_row now at_) :: map_to_list (delete id (proposals s))) as ->.
  { unfold rows. cbn. rewrite <- insert_delete_eq. apply map_to_list_insert, lookup_delete_eq. }
  cbn [fmap list_fmap snd]. rewrite (filter_cons_False _ now) by by rewrite (bool_decide_false _ Hst).
  rewrite filter_cons, bool_decide_true by done. cbn [andb]. by destruct (keep (executed_row now at_)).
Qed.

(** * Reading the figures a claim cites *)

Section cited.
Context (digest : object → option string).

(** The figures of a claim's policy version, as they are read when it is paid. *)
Definition cites (s : shop) (p : proposal) (pol : RemedyPolicy) : Prop :=
  _policy_by_version digest (configurations s) (proposal_policy_version_id p) = Ok (Some pol).

Lemma find_unique {A B} (f : A → bool) (key : A → B) (k : B) l x :
  NoDup (key <$> l) → (∀ y, f y = true → key y = k) → x ∈ l → f x = true → find f l = Some x.
Proof.
  intros Hnd Hk Hx Hf. induction l as [|y l IH]; [by apply elem_of_nil in Hx|]. cbn.
  apply NoDup_cons in Hnd as [Hn Hnd]. destruct (f y) eqn:Hy.
  - apply elem_of_cons in Hx as [->|Hx]; [done|]. destruct Hn. rewrite (Hk y Hy), <- (Hk x Hf).
    by apply list_elem_of_fmap_2.
  - apply elem_of_cons in Hx as [->|Hx]; [congruence|]. by apply IH.
Qed.

Lemma cited_kept table table' id pol :
  NoDup (config_id <$> table') → (∀ r, r ∈ table → lifecycle r ≠ Lifecycle.DRAFT → r ∈ table') →
  _policy_by_version digest table id = Ok (Some pol) → _policy_by_version digest table' id = Ok (Some pol).
Proof.
  intros Hnd Hk. unfold _policy_by_version. destruct (find (cited_version id) table) as [r|] eqn:Hf; [|done].
  apply find_some in Hf as [Hr Hc]. rewrite <- list_elem_of_In in Hr.
  assert (find (cited_version id) table' = Some r) as ->; [|done].
  apply (find_unique _ config_id id); [done| | |done].
  - intros y. unfold cited_version. intros H. by guards.
  - apply Hk; [done|]. unfold cited_version in Hc. guards. intros Hd. rewrite Hd in *.
    rewrite !elem_of_cons, elem_of_nil in *. naive_solver.
Qed.
End cited.

Definition total (l : list proposal) : Z := sumZ (amount_of <$> l).

(** The claims on one garment, and those that count against it: on a line whose garments have
    no fee of their own the whole line is the item. *)
Definition on_item (lf : RemedyLineFacts) (g : Z) (p : proposal) : bool :=
  if per_garment lf then proposal_garment p is? Some g else true.
Definition about (lf : RemedyLineFacts) (g : Z) (p : proposal) : bool :=
  if per_garment lf then (proposal_garment p is? Some g) || (proposal_garment p is? None) else true.

(** Which claims a limit sums, and what figures bound them by: everything on the line, each
    item, and what staff alone authorised of each item. *)
Inductive limit (lf : RemedyLineFacts) : (proposal → bool) → (RemedyPolicy → Z) → Prop :=
  | limit_line : limit lf (λ _, true) (λ pol, line_fee_of lf * damage_compensation_multiple pol)
  | limit_item g : limit lf (on_item lf g) (λ pol, fee_of lf * damage_compensation_multiple pol)
  | limit_staff g : limit lf (λ p, by_staff p && about lf g p) staff_approval_ceiling_vnd.

Lemma total_app l k : total (l ++ k) = total l + total k.
Proof. unfold total. by rewrite fmap_app, sumZ_app. Qed.
Lemma total_cons p l : total (p :: l) = amount_of p + total l.
Proof. done. Qed.
Lemma Forall_selected {A} (P : A → Prop) (sel : A → bool) (l : list A) :
  Forall P l → Forall P (filter (λ x, sel x = true) l).
Proof. rewrite !Forall_forall. intros Hl x [_ Hx]%list_elem_of_filter. by apply Hl. Qed.
Lemma filter_both {A} (f g : A → bool) (l : list A) :
  filter (λ x, f x = true) (filter (λ x, g x = true) l) = filter (λ x, g x && f x = true) l.
Proof.
  rewrite list_filter_filter. apply list_filter_iff. intros x. rewrite andb_true_iff. tauto.
Qed.
Lemma total_filter_mono (sel sel' : proposal → bool) l :
  Forall (λ p, 0 <= amount_of p) l → (∀ p, sel p = true → sel' p = true) →
  total (filter (λ p, sel p = true) l) <= total (filter (λ p, sel' p = true) l).
Proof.
  intros Hl Hsel. induction Hl as [|p l Hp Hl IH]; [done|]. rewrite !filter_cons.
  destruct (sel p) eqn:E; [rewrite (Hsel p E), !decide_True, !total_cons by done; lia|].
  rewrite decide_False by done. destruct (sel' p); [rewrite decide_True, total_cons by done; lia|by rewrite decide_False].
Qed.
Lemma filter_all {A} (l : list A) : filter (λ _ : A, true = true) l = l.
Proof. induction l as [|p l IH]; [done|]. by rewrite filter_cons_True, IH. Qed.

(** What counts against a garment: the claims that name it and those that name none. *)
Lemma against_total g l :
  committed_against_garment (by_garment l) g
  = total (filter (λ p, (proposal_garment p is? Some g) || (proposal_garment p is? None) = true) l).
Proof.
  unfold committed_against_garment. rewrite !by_garment_lookup. unfold total.
  induction l as [|p l IH]; [done|]. rewrite !filter_cons.
  destruct (proposal_garment p) as [g'|] eqn:Hg.
  - rewrite (decide_False (P := Some g' = None)) by done.
    destruct (decide (Some g' = Some g)) as [Heq|Hne].
    + rewrite decide_True by by rewrite bool_decide_true. cbn [fmap list_fmap]. rewrite !sumZ_cons. lia.
    + rewrite decide_False; [done|]. rewrite !bool_decide_false by done. done.
  - rewrite (decide_False (P := None = Some g)), (decide_True (P := None = None)) by done.
    rewrite decide_True by by rewrite (bool_decide_true (None = None)), orb_true_r.
    cbn [fmap list_fmap]. rewrite !sumZ_cons. lia.
Qed.

Section recheck.
Context (digest : object → option string).

(** The order's priced line, as its revision recorded it. *)
Definition priced_line (s : shop) (order_id : Z) (line_id : string) (lf : RemedyLineFacts) : Prop :=
  ∃ o, orders s !! order_id = Some o ∧
    dict_get (remedy_line_facts (lines (data (current_revision o)))) line_id = Some lf.

Lemma order_facts_lines o facts : order_facts o = Ok facts →
  fact_lines facts = remedy_line_facts (lines (data (current_revision o))).
Proof. unfold order_facts. intros H. apply bind_Ok in H as (? & _ & H). by apply bind_Ok in H as (? & _ & [= <-]). Qed.

Lemma item_rows_nonneg (l : list proposal) : Forall (λ p, proposal_checks p = true) l →
  Forall (λ p, 0 <= amount_of p) l.
Proof.
  intros Hl. eapply Forall_impl; [exact Hl|]. intros p Hp. unfold proposal_checks in Hp. guards.
  unfold amount_of. destruct (proposal_amount_vnd p); cbn in *; [by guards|done].
Qed.

(** A claim on an item that passes the check keeps every limit it counts against. *)
Lemma recheck_within s id p u :
  _recheck_before_paying digest s id p = Ok u → proposal_kind p ∈ _ITEM_KINDS →
  ∃ line_id lf pol, proposal_line_id p = Some line_id ∧ priced_line s (proposal_order p) line_id lf ∧
    cites digest s p pol ∧ amount_of p <= fee_of lf * damage_compensation_multiple pol ∧
    ∀ others, others = paid_others s id (on_line (proposal_order p) line_id) →
      Forall (λ q, 0 <= amount_of q) others →
      ∀ sel bound, limit lf sel bound → sel p = true →
        total (filter (λ q, sel q = true) others) + amount_of p <= bound pol.
Proof.
  intros H Hk. unfold _recheck_before_paying in H.
  rewrite bool_decide_false in H by (intros Hl; rewrite Hl in Hk; revert Hk; decided).
  rewrite bool_decide_true in H by done. cbn [negb] in H.
  apply bind_Ok in H as (amount & Ha & H). apply bind_Ok in H as (ceiling & _ & H). apply bind_Ok in H as (line_id & Hl & H).
  apply bind_Ok in H as (found & Hpol & H). apply bind_Ok in H as (pol & Hfound & H).
  apply bind_Ok in H as ([o facts] & Hrec & H). apply bind_Ok in H as (terms & Hterms & H).
  apply require_some_Ok in Ha, Hl, Hfound, Hterms. subst found.
  unfold _read_order_record in Hrec. apply bind_Ok in Hrec as (o' & Ho & Hrec). apply require_some_Ok in Ho.
  apply bind_Ok in Hrec as (facts' & Hfacts & [= -> ->]).
  pose proof Hterms as (lf & Hlf & Heq)%terms_Some. pose proof (per_garment_terms _ _ _ _ _ Hterms Hlf) as Hpg.
  rewrite (order_facts_lines _ _ Hfacts) in Hlf.
  assert (Hc : terms_ceiling_vnd terms = fee_of lf * damage_compensation_multiple pol) by by rewrite Heq.
  assert (Hlc : terms_line_ceiling_vnd terms = line_fee_of lf * damage_compensation_multiple pol) by by rewrite Heq.
  clear Heq. apply raise_bind_Ok in H as [Hmin H].
  set (others := paid_others s id (on_line (proposal_order p) line_id)) in *.
  unfold paid_on_item in H. rewrite Hpg in H.
  assert (Ham : amount_of p = amount) by (unfold amount_of; by rewrite Ha).
  exists line_id, lf, pol. split; [done|]. split; [by exists o|]. split; [done|]. guards. split; [lia|].
  intros others' -> Hnn sel bound Hlim Hsel. fold others in Hnn |- *. rewrite Ham.
  destruct (if per_garment lf then _ else _) as [on_item_ staff_] eqn:Hpaid.
  apply raise_bind_Ok in H as [Hitem H]. apply raise_bind_Ok in H as [Hline H].
  rewrite !values_by_garment in *. fold (total others) in *. guards.
  destruct Hlim as [|g|g].
  - rewrite filter_all. lia.
  - unfold on_item in Hsel |- *. destruct (per_garment lf); [|injection Hpaid as <- <-; rewrite filter_all; lia].
    guards. rewrite Hsel in Hpaid. injection Hpaid as <- <-. rewrite against_total in Hitem.
    pose proof (total_filter_mono (λ q, proposal_garment q is? Some g) (λ q, (proposal_garment q is? Some g) || (proposal_garment q is? None))
                  others Hnn) as Hmono. cbn beta in Hmono. etrans; [apply Z.add_le_mono_r, Hmono|lia].
    intros q ->. done.
  - apply andb_true_iff in Hsel as [Hstaff Hab]. rewrite Hstaff in H. cbn [negb] in H.
    apply raise_bind_Ok in H as [_ H]. apply raise_if_Ok in H. guards. etrans; [|exact H]. apply Z.add_le_mono_r.
    rewrite <- (filter_both (about lf g) by_staff).
    unfold about in Hab |- *. destruct (per_garment lf).
    + rewrite <- against_total. apply orb_true_iff in Hab as [Hg|Hg]; guards; rewrite Hg in Hpaid; injection Hpaid as _ <-; [done|].
      apply any_garment_ge. intros k v. apply by_garment_nonneg.
      by apply Forall_selected.
    + injection Hpaid as _ <-. rewrite filter_all. done.
Qed.
End recheck.
