(* ===== verification/RemedyHistory.v ===== *)
(** Every history of remedies: counters proposing and paying at once, each between its reads
    and its write; owners deciding envelopes, figures published, and the rest of the program
    moving orders and reporting incidents meanwhile.  The steps, and the invariant they keep. *)
From Stdlib Require Import String.
From S2P Require Import Prelude Clock Text Json Configurations Catalog Quotes.
From S2P Require Import Idempotency Approvals ApprovalsFacts Remedies RemedyLedger RemedyFacts RemedyMachine.
Local Open Scope laundry_scope.
Local Open Scope Z_scope.

#[local] Arguments sumZ : simpl never.

(** The tables, the proposals decided and not yet recorded, and the payments begun. *)
Record machine := Machine {
  current : shop;
  proposing : list prepared;
  paying : list prepared_payment;
}.

(** What other commands do to the rows remedies read: an order keeps what its projection guard
    protects and its priced revision; incidents are only reported. *)
Definition same_order (o o' : order_row) : Prop :=
  order_store o' = order_store o ∧ bound_contact_id o' = bound_contact_id o ∧
  current_snapshot_hash o' = current_snapshot_hash o ∧ current_revision o' = current_revision o.
Definition orders_kept (s s' : shop) : Prop :=
  ∀ id o, orders s !! id = Some o → ∃ o', orders s' !! id = Some o' ∧ same_order o o'.
Record elsewhere (s s' : shop) : Prop := {
  same_proposals : proposals s' = proposals s;
  same_credits : credits s' = credits s;
  same_configurations : configurations s' = configurations s;
  same_envelopes : envelopes s' = envelopes s;
  kept_orders : orders_kept s s';
  kept_incidents : ∀ id i, incidents s !! id = Some i → incidents s' !! id = Some i;
  new_incidents : ∀ id i, incidents s' !! id = Some i → incidents s !! id = None → remedy_decided i = false;
}.

Definition with_configurations (s : shop) (t : list ConfigurationRow) : shop :=
  Shop (proposals s) (credits s) (incidents s) (orders s) t (envelopes s).

Section history.
Context (digest : object → option string) (validators : string → option (object → bool))
  (document_hash : proposal_document → string)
  (facts_hash : MessageDraftFacts → string) (rendering_hash : MessageDraftFacts → string → string)
  (request_hash : request_payload → option string) (uuid_text : Z → string)
  (action_text : ApprovalAction.t → string) (normal : StoredApproval → option StoredApproval).

Notation run_envelopes := (ApprovalRepository.run facts_hash rendering_hash request_hash uuid_text action_text normal).
Notation raise_envelope :=
  (_request_owner_approval facts_hash rendering_hash request_hash uuid_text action_text normal).

Inductive step : machine → machine → Prop :=
  | decides w c id p s ps xs : propose_check digest document_hash w s c id = Ok p →
      step (Machine s ps xs) (Machine s (p :: ps) xs)
  | raises w approval_id p s s' r ps xs : p ∈ ps → requires_owner_approval (prep_outcome p) = true →
      raise_envelope w s p approval_id = (s', r) →
      step (Machine s ps xs) (Machine s' (match r with Ok p' => p' :: ps | Err _ => ps end) xs)
  | records p s s' ps xs : p ∈ ps → requires_owner_approval (prep_outcome p) = present (prep_approval p) →
      propose_commit s p = Ok s' →
      step (Machine s ps xs) (Machine s' ps xs)
  | begins w c x s ps xs : execute_check w s c = Ok x →
      step (Machine s ps xs) (Machine s ps (x :: xs))
  | pays x credit_id s s' ps xs : x ∈ xs → execute_commit digest s x credit_id = Ok s' →
      step (Machine s ps xs) (Machine s' ps xs)
  | decides_envelope o s ps xs :
      step (Machine s ps xs) (Machine (with_envelopes s (run_envelopes (envelopes s) o)) ps xs)
  | drafts d t s ps xs : create_draft digest validators (configurations s) d = Ok t →
      step (Machine s ps xs) (Machine (with_configurations s t) ps xs)
  | publishes id v h by_ t s ps xs : publish (configurations s) id v h by_ = Ok t →
      step (Machine s ps xs) (Machine (with_configurations s t) ps xs)
  | others_move s s' ps xs : elsewhere s s' → step (Machine s ps xs) (Machine s' ps xs).

(** A shop with no remedy yet. *)
Record opening (m : machine) : Prop := {
  no_proposals : proposals (current m) = ∅;
  no_credits : credits (current m) = ∅;
  nothing_decided : ∀ id i, incidents (current m) !! id = Some i → remedy_decided i = false;
  configured_well : table_ok digest (configurations (current m));
  signed_well : sound (tables (envelopes (current m)));
  nothing_begun : paying m = [];
}.

(** * What every history keeps *)

Notation approvals_of s := (tables (envelopes s)).

(** No claim was paid, or the limit one of those paid was checked under still bounds them all. *)
Definition within (s : shop) (l : list proposal) (bound : RemedyPolicy → Z) : Prop :=
  l = [] ∨ ∃ p pol, p ∈ l ∧ cites digest s p pol ∧ total l <= bound pol.

Definition row_ok (s : shop) (id : Z) (p : proposal) : Prop :=
  proposal_checks p = true ∧ is_Some (orders s !! proposal_order p) ∧
  (proposal_status p = RemedyStatus.STAFF_AUTHORIZED → by_staff p = true) ∧
  (proposal_status p = RemedyStatus.EXECUTED → authorised (approvals_of s) id p).

(** The credit of a claim: its amount, to whoever the order is bound to. *)
Definition credit_of (s : shop) (k : credit_row) (p : proposal) : Prop :=
  proposal_status p = RemedyStatus.EXECUTED ∧ proposal_kind p ≠ RemedyKind.FREE_REWASH ∧
  proposal_amount_vnd p = Some (credit_amount k) ∧ 0 < credit_amount k ∧
  credit_store k = proposal_store p ∧ issued_from_order_id k = proposal_order p ∧
  ∃ o, orders s !! proposal_order p = Some o ∧ bearer_contact_id k = bound_contact_id o.
Record credits_ok (s : shop) : Prop := {
  credit_claims : ∀ c k, credits s !! c = Some k → ∃ p, proposals s !! credit_proposal k = Some p ∧ credit_of s k p;
  claim_credits : ∀ id p, proposals s !! id = Some p → proposal_status p = RemedyStatus.EXECUTED →
    proposal_kind p ≠ RemedyKind.FREE_REWASH → ∃ c k, credits s !! c = Some k ∧ credit_proposal k = id;
  credit_once : ∀ c c' k k', credits s !! c = Some k → credits s !! c' = Some k' →
    credit_proposal k = credit_proposal k' → c = c';
}.

(** A payment begun: its claim is as it was read, unless it was paid since. *)
Definition pending (s : shop) (x : prepared_payment) : Prop :=
  proposal_status (pay_row x) ≠ RemedyStatus.EXECUTED ∧
  authorised (approvals_of s) (pay_id x) (pay_row x) ∧
  (∃ o, orders s !! proposal_order (pay_row x) = Some o ∧ pay_contact x = bound_contact_id o) ∧
  ∃ p, proposals s !! pay_id x = Some p ∧ (p = pay_row x ∨ proposal_status p = RemedyStatus.EXECUTED).

Definition closed_well (s : shop) (id : Z) (i : incident_row) : Prop :=
  remedy_decided i = true → incident_status i = IncidentStatus.CLOSED ∧
  ∀ k p, proposals s !! k = Some p → proposal_incident p = id → still_open s p = false.

Record kept (m : machine) : Prop := {
  kept_configured : table_ok digest (configurations (current m));
  kept_sound : sound (approvals_of (current m));
  kept_rows : ∀ id p, proposals (current m) !! id = Some p → row_ok (current m) id p;
  kept_limits : ∀ order_id line_id lf sel bound, priced_line (current m) order_id line_id lf → limit lf sel bound →
    within (current m) (filter (λ p, sel p = true) (paid (current m) (on_line order_id line_id))) bound;
  kept_late : ∀ order_id, (length (paid (current m) (late_of order_id)) <= 1)%nat;
  kept_credits : credits_ok (current m);
  kept_closed : ∀ id i, incidents (current m) !! id = Some i → closed_well (current m) id i;
  kept_pending : Forall (pending (current m)) (paying m);
}.

Lemma kept_opening m : opening m → kept m.
Proof.
  intros [Hp Hc Hi Ht Hs Hx]. split; [done|done|..].
  - intros id p. by rewrite Hp.
  - intros ? ? ? ? ? _ _. left. unfold paid, rows. by rewrite Hp, map_to_list_empty.
  - intros o. unfold paid, rows. by rewrite Hp, map_to_list_empty; cbn; lia.
  - split; [intros c k; by rewrite Hc|intros id p; by rewrite Hp|intros c c' k k'; by rewrite Hc].
  - intros id i Hid Hd. by rewrite (Hi _ _ Hid) in Hd.
  - by rewrite Hx.
Qed.
End history.
