(* ===== verification/RemedyKept.v ===== *)
(** Every step of a remedy history keeps the invariant ([RemedyHistory.kept]): first the steps
    that write no claim, then recording one and paying one. *)
From Stdlib Require Import String.
From S2P Require Import Prelude Clock Text Json Configurations Catalog Quotes.
From S2P Require Import Idempotency Approvals ApprovalsFacts Remedies RemedyLedger RemedyFacts RemedyMachine.
From S2P Require Import RemedyHistory.
Local Open Scope laundry_scope.
Local Open Scope Z_scope.

#[local] Arguments sumZ : simpl never.

Lemma orders_kept_eq s s' : orders s' = orders s → orders_kept s s'.
Proof. intros He id o Ho. exists o. rewrite He. by split_and!. Qed.

Section kept.
Context (digest : object → option string) (validators : string → option (object → bool)).

Notation approvals_of s := (tables (envelopes s)).

(** * Steps that write no claim *)

(** What is read of the rest of the tables only grows. *)
Record later (s s' : shop) : Prop := {
  later_orders : orders_kept s s';
  later_figures : ∀ p pol, cites digest s p pol → cites digest s' p pol;
  later_envelopes : grows (approvals_of s) (approvals_of s');
}.

Lemma later_refl s : later s s.
Proof. split; [by apply orders_kept_eq|done|apply grows_refl]. Qed.

Lemma row_ok_later s s' id p : later s s' → row_ok s id p → row_ok s' id p.
Proof.
  intros [Ho _ He] (Hc & [o Hr] & Hs & Hx). split_and!; [done| |done|].
  - destruct (Ho _ _ Hr) as (o' & -> & _). done.
  - intros H. eapply authorised_grows; eauto.
Qed.

Lemma pending_later s s' x : later s s' → proposals s' = proposals s → pending s x → pending s' x.
Proof.
  intros [Ho _ He] Hp (Hst & Ha & (o & Hor & Hc) & Hrow). split_and!; [done|by eapply authorised_grows| |by rewrite Hp].
  destruct (Ho _ _ Hor) as (o' & Ho' & _ & Hb & _). exists o'. by rewrite Hb.
Qed.

Lemma within_later s s' l bound : later s s' → within digest s l bound → within digest s' l bound.
Proof. intros Hl [H|(p & pol & Hp & Hc & Hb)]; [by left|]. right. exists p, pol. split; [done|]. split; [by apply Hl|done]. Qed.

Lemma credit_of_later s s' k p : later s s' → credit_of s k p → credit_of s' k p.
Proof.
  intros [Ho _ _] (H1 & H2 & H3 & H4 & H5 & H6 & o & Hor & Hb). split_and!; try done.
  destruct (Ho _ _ Hor) as (o' & Ho' & _ & Hb' & _). exists o'. by rewrite Hb'.
Qed.

(** A line priced now was priced the same before, if the order was there. *)
Lemma priced_before s s' order_id line_id lf : orders_kept s s' → is_Some (orders s !! order_id) →
  priced_line s' order_id line_id lf → priced_line s order_id line_id lf.
Proof.
  intros Hk [o Ho] (o' & Ho' & Hl). destruct (Hk _ _ Ho) as (o'' & Ho'' & _ & _ & _ & Hr).
  rewrite Ho' in Ho''. injection Ho'' as <-. rewrite Hr in Hl. by exists o.
Qed.

Lemma envelope_dead_grows s s' p : grows (approvals_of s) (approvals_of s') →
  envelope_dead s p = true → envelope_dead s' p = true.
Proof.
  intros [Hg _]. unfold envelope_dead. destruct (proposal_approval_id p) as [a|]; [|done].
  destruct (approvals (approvals_of s) !! a) as [r|] eqn:Hr; [|done]. intros Hd.
  destruct (Hg a r Hr) as (st & v & t & -> & Hst). cbn. by rewrite (Hst Hd).
Qed.
Lemma still_open_grows s s' p : grows (approvals_of s) (approvals_of s') →
  still_open s p = false → still_open s' p = false.
Proof.
  unfold still_open. intros Hg. rewrite !orb_false_iff, !andb_false_iff, !negb_false_iff. intros [H1 H2].
  split; [done|]. destruct H2 as [H2|H2]; [by left|right]. by eapply envelope_dead_grows.
Qed.

Lemma paid_of_nil s order_id line_id : orders s !! order_id = None →
  (∀ id p, proposals s !! id = Some p → is_Some (orders s !! proposal_order p)) →
  paid s (on_line order_id line_id) = [].
Proof.
  intros Hn Hall. apply elem_of_nil_inv. intros p [Hk Hp]%list_elem_of_filter. guards.
  apply list_elem_of_fmap in Hp as ([id p'] & -> & Hp%elem_of_map_to_list). cbn in *.
  unfold on_line in *. guards. destruct (Hall _ _ Hp) as [o Ho]. congruence.
Qed.

Lemma kept_quiet s s' ps ps' xs xs' : later s s' → proposals s' = proposals s → credits s' = credits s →
  table_ok digest (configurations s') → sound (approvals_of s') →
  (∀ id i, incidents s' !! id = Some i → remedy_decided i = true → incidents s !! id = Some i) →
  (∀ x, x ∈ xs' → x ∈ xs ∨ pending s' x) →
  kept digest (Machine s ps xs) → kept digest (Machine s' ps' xs').
Proof.
  intros Hl Hp Hc Ht Hs Hi Hx [_ _ Hrows Hlim Hlate Hcred Hclosed Hpend]. cbn in *.
  assert (Hpaid : ∀ keep, paid s' keep = paid s keep) by (intros keep; unfold paid, rows; by rewrite Hp).
  split; cbn.
  - done.
  - done.
  - intros id p. rewrite Hp. intros H. eapply row_ok_later; eauto.
  - intros order_id line_id lf sel bound Hpr Hlm. rewrite Hpaid.
    destruct (orders s !! order_id) as [o|] eqn:Ho.
    + eapply within_later, Hlim; [done| |done]. eapply priced_before; [apply Hl|by eexists|done].
    + left. rewrite paid_of_nil; [done|done|]. intros id p H. apply (Hrows _ _ H).
  - intros o. by rewrite Hpaid.
  - destruct Hcred as [H1 H2 H3]. split; rewrite ?Hp, ?Hc; [|done|done]. intros c k Hk.
    destruct (H1 _ _ Hk) as (p & Hpk & Hof). exists p. split; [done|by eapply credit_of_later].
  - intros id i Hid Hd. specialize (Hi _ _ Hid Hd). destruct (Hclosed _ _ Hi Hd) as [Hst Hop]. split; [done|].
    intros k p. rewrite Hp. intros Hk Hin. eapply still_open_grows; [apply Hl|]. by eapply Hop.
  - apply Forall_forall. intros x [Hx'|Hx']%Hx; [|done]. rewrite Forall_forall in Hpend. eapply pending_later; eauto.
Qed.

Lemma kept_begun s ps ps' xs xs' : (∀ x, x ∈ xs' → x ∈ xs ∨ pending s x) →
  kept digest (Machine s ps xs) → kept digest (Machine s ps' xs').
Proof. intros Hx Hk. eapply (kept_quiet s); [apply later_refl|done|done|apply Hk|apply Hk|done|done|exact Hk]. Qed.

(** Figures are drafted and published: a version cited stays as it was. *)
Lemma cites_configured s t : NoDup (config_id <$> t) →
  (∀ r, r ∈ configurations s → lifecycle r ≠ Lifecycle.DRAFT → r ∈ t) → later s (with_configurations s t).
Proof.
  intros Hnd Ht. split; [by apply orders_kept_eq| |apply grows_refl]. intros p pol. by apply cited_kept.
Qed.
Lemma publish_keeps_cited table id v h by_ table' r : publish table id v h by_ = Ok table' →
  r ∈ table → lifecycle r ≠ Lifecycle.DRAFT → r ∈ table'.
Proof.
  intros (_ & _ & ->)%publish_inv Hr Hl. apply list_elem_of_fmap. exists r. split; [|done].
  unfold publishable. by rewrite (bool_decide_false _ Hl), andb_false_r.
Qed.

Lemma kept_configuring s ps xs t : table_ok digest t →
  (∀ r, r ∈ configurations s → lifecycle r ≠ Lifecycle.DRAFT → r ∈ t) →
  kept digest (Machine s ps xs) → kept digest (Machine (with_configurations s t) ps xs).
Proof.
  intros Ht Hr Hk. eapply (kept_quiet s); [|done|done|exact Ht|apply Hk| | |exact Hk]; [|by auto..].
  apply cites_configured; [by eapply ids_distinct|done].
Qed.

(** Envelopes are raised and decided. *)
Lemma kept_envelopes s ps ps' xs e : grows (approvals_of s) (tables e) → sound (tables e) →
  kept digest (Machine s ps xs) → kept digest (Machine (with_envelopes s e) ps' xs).
Proof.
  intros Hg Hs Hk. eapply (kept_quiet s); [|done|done|apply Hk|exact Hs| | |exact Hk]; [|by auto..].
  split; [by apply orders_kept_eq|done|exact Hg].
Qed.

(** The rest of the program moves. *)
Lemma kept_elsewhere s s' ps xs : elsewhere s s' →
  kept digest (Machine s ps xs) → kept digest (Machine s' ps xs).
Proof.
  intros [Hp Hc Ht He Ho Hki Hni] Hk. eapply (kept_quiet s); [|done|done| | | | |exact Hk].
  - split; [done|unfold cites; by rewrite Ht|rewrite He; apply grows_refl].
  - rewrite Ht. apply Hk.
  - rewrite He. apply Hk.
  - intros id i Hi Hd. destruct (incidents s !! id) as [j|] eqn:Hj; [by rewrite (Hki _ _ Hj) in Hi|].
    by rewrite (Hni _ _ Hi Hj) in Hd.
  - by left.
Qed.

(** * Beginning to pay *)

Lemma execute_check_pending w s c x ps xs : kept digest (Machine s ps xs) → execute_check w s c = Ok x → pending s x.
Proof.
  intros Hk H. unfold execute_check in H. apply raise_bind_Ok in H as [_ H].
  apply bind_Ok in H as (p & Hp & H). apply bind_Ok in H as (o & Ho & H). apply bind_Ok in H as (? & _ & H).
  apply require_some_Ok in Hp, Ho. apply raise_bind_Ok in H as [Hpol H]. apply raise_bind_Ok in H as [Hlost H].
  apply raise_bind_Ok in H as [Hex H]. apply bind_Ok in H as (u & Happ & [= <-]). guards.
  destruct (kept_rows _ _ Hk _ _ Hp) as (_ & _ & Hstaff & _). split_and!; cbn.
  - done.
  - destruct (proposal_status p is? RemedyStatus.OWNER_APPROVAL_REQUIRED) eqn:Hown; guards.
    + right. eapply remedy_approval_signed; [apply Hk|exact Happ].
    + left. assert (by_staff p = true) as Hby by (apply Hstaff; destruct (proposal_status p); done).
      split; [done|]. intros Hl. unfold by_staff in Hby. rewrite Hl, bool_decide_true, Hby in Hlost by done. done.
  - by exists o.
  - exists p. split; [done|by left].
Qed.
(** * Recording a claim *)

#[local] Instance total_Permutation : Proper (Permutation ==> eq) total.
Proof. intros l k H. unfold total. by rewrite H. Qed.

Lemma within_perm s l k bound : l ≡ₚ k → within digest s l bound → within digest s k bound.
Proof.
  intros Hlk [->|(p & pol & Hp & Hc & Hb)]; [left; by apply Permutation_nil_l in Hlk|right].
  exists p, pol. by rewrite <- Hlk.
Qed.

Lemma later_same s s' : orders s' = orders s → configurations s' = configurations s → envelopes s' = envelopes s →
  later s s'.
Proof. intros Ho Hc He. split; [by apply orders_kept_eq|unfold cites; by rewrite Hc|rewrite He; apply grows_refl]. Qed.

Lemma priced_same s s' order_id line_id lf : orders s' = orders s →
  priced_line s' order_id line_id lf → priced_line s order_id line_id lf.
Proof. intros He. unfold priced_line. by rewrite He. Qed.

Lemma still_open_same s s' p : envelopes s' = envelopes s → still_open s' p = still_open s p.
Proof. intros He. unfold still_open, envelope_dead. by rewrite He. Qed.

Lemma propose_commit_Ok s p s' : propose_commit s p = Ok s' →
  ∃ i, is_Some (orders s !! prep_order_id p) ∧ incidents s !! prop_incident (prep_command p) = Some i ∧
    proposable (incident_status i) = true ∧ proposals s !! prep_id p = None ∧
    proposal_checks (proposal_of p) = true ∧
    s' = with_incidents (with_proposals s (<[prep_id p := proposal_of p]> (proposals s)))
           (<[prop_incident (prep_command p) :=
                _open_incident_review i (prop_fault_attested (prep_command p))]> (incidents s)).
Proof.
  unfold propose_commit, _lock_proposable_incident. intros H. apply bind_Ok in H as (i & Hi & H).
  apply bind_Ok in Hi as (o & Ho & Hi). apply bind_Ok in Hi as (i' & Hi' & Hi).
  apply bind_Ok in Hi as (? & Hprop & [= ->]). apply require_some_Ok in Ho, Hi'.
  apply bind_Ok in H as (locked & _ & H). apply bind_Ok in H as (? & _ & H).
  apply raise_bind_Ok in H as [Hnew [= <-]]. unfold _require_proposable_incident in Hprop. apply raise_if_Ok in Hprop.
  apply orb_false_iff in Hnew as [Hnew%bool_decide_eq_false Hchk%negb_false_iff]. apply negb_false_iff in Hprop.
  exists i. split_and!; try done. by apply eq_None_not_Some.
Qed.

Lemma proposal_of_unpaid p : proposal_status (proposal_of p) ≠ RemedyStatus.EXECUTED.
Proof. cbn. by destruct (requires_owner_approval _). Qed.

Lemma kept_record p s s' ps xs : requires_owner_approval (prep_outcome p) = present (prep_approval p) →
  propose_commit s p = Ok s' → kept digest (Machine s ps xs) → kept digest (Machine s' ps xs).
Proof.
  intros Happ (i & Ho & Hi & Hst & Hnone & Hchk & ->)%propose_commit_Ok [Ht Hs Hrows Hlim Hlate Hcred Hclosed Hpend].
  cbn in *. set (s' := with_incidents _ _). assert (Hl : later s s') by by apply later_same.
  assert (Hpaid : ∀ keep, paid s' keep ≡ₚ paid s keep) by (intros keep; apply paid_new; [done|apply proposal_of_unpaid]).
  split; cbn; [done|done|..].
  - intros id q. destruct (decide (prep_id p = id)) as [<-|Hne].
    + rewrite lookup_insert_eq. intros [= <-]. split_and!; [done|done| |intros H; by apply proposal_of_unpaid in H].
      cbn. unfold by_staff. cbn. rewrite <- Happ. by destruct (requires_owner_approval _).
    + rewrite lookup_insert_ne by done. intros Hq. eapply row_ok_later, Hrows; done.
  - intros order_id line_id lf sel bound Hpr Hlm. eapply within_perm; [by rewrite Hpaid|].
    eapply within_later, Hlim; [done|by eapply priced_same|done].
  - intros o. by rewrite Hpaid.
  - destruct Hcred as [H1 H2 H3]. split; cbn; [|intros id q|done].
    + intros c k Hk. destruct (H1 _ _ Hk) as (q & Hq & Hof). exists q. rewrite lookup_insert_ne; [split; [done|by eapply credit_of_later]|].
      intros He. congruence.
    + destruct (decide (prep_id p = id)) as [<-|Hne].
      * rewrite lookup_insert_eq. intros [= <-] Hx. by apply proposal_of_unpaid in Hx.
      * rewrite lookup_insert_ne by done. apply H2.
  - intros id j Hj Hd. assert (Hj' : incidents s !! id = Some j ∧ prop_incident (prep_command p) ≠ id).
    { destruct (decide (prop_incident (prep_command p) = id)) as [<-|Hne]; [|by rewrite lookup_insert_ne in Hj].
      rewrite lookup_insert_eq in Hj. injection Hj as <-. exfalso.
      assert (Hdi : remedy_decided i = true) by (unfold _open_incident_review in Hd; by case_bool_decide).
      destruct (Hclosed _ _ Hi Hdi) as [Hcl _]. rewrite Hcl in Hst. done. }
    destruct Hj' as [Hj' Hne]. destruct (Hclosed _ _ Hj' Hd) as [Hcl Hop]. split; [done|]. intros k q Hq Hin. cbn in Hq.
    destruct (decide (prep_id p = k)) as [<-|Hk].
    + rewrite lookup_insert_eq in Hq. injection Hq as <-. done.
    + rewrite lookup_insert_ne in Hq by done. rewrite (still_open_same s) by done. by eapply Hop.
  - eapply Forall_impl; [exact Hpend|]. intros x (H1 & H2 & H3 & q & Hq & Hqq). split_and!; [done|done|done|].
    exists q. cbn. rewrite lookup_insert_ne; [done|congruence].
Qed.
End kept.
