(* ===== verification/RemedySafety.v ===== *)
(** Paying a claim keeps the invariant of a remedy history: its limits, its one credit, and the
    incident it closes.  And what the remedy commands guarantee over every history of the
    machine of [RemedyHistory]: the published limits, the owner's word, one credit per claim,
    and closed incidents. *)
From Stdlib Require Import String.
From S2P Require Import Prelude Clock Text Json Configurations Catalog Quotes.
From S2P Require Import Idempotency Approvals ApprovalsFacts Remedies RemedyLedger RemedyFacts RemedyMachine.
From S2P Require Import RemedyHistory RemedyKept.
Local Open Scope laundry_scope.
Local Open Scope Z_scope.
#[local] Arguments sumZ : simpl never.

(** * What paying writes *)

Lemma close_incident_spec s id :
  ∃ m, close_incident s id = with_incidents s m ∧
    (m = incidents s ∨ ∃ i, incidents s !! id = Some i ∧
       m = <[id := IncidentRow (incident_store i) (incident_order i) IncidentStatus.CLOSED (fault_decided i) true]>
             (incidents s) ∧
       ∀ k p, proposals s !! k = Some p → proposal_incident p = id → still_open s p = false).
Proof.
  unfold close_incident. destruct (incidents s !! id) as [i|] eqn:Hi; [|exists (incidents s); split; [by destruct s|by left]].
  destruct (negb _ && _) eqn:Hc; [|exists (incidents s); split; [by destruct s|by left]].
  eexists. split; [done|right]. exists i. split_and!; [done|done|]. intros k p Hp Hin.
  apply andb_true_iff in Hc as [_ Hc%negb_true_iff].
  eapply (existsb_false _ _ (k, p)) in Hc; [|by apply elem_of_map_to_list]. cbn in Hc.
  by rewrite Hin, Z.eqb_refl in Hc.
Qed.

Lemma with_credits_same s m : with_credits (with_proposals s m) (credits s) = with_proposals s m.
Proof. by destruct s. Qed.

Definition credit_for (x : prepared_payment) (amount : Z) : credit_row :=
  CreditRow (pay_id x) (proposal_store (pay_row x)) (pay_contact x) (proposal_order (pay_row x)) amount
    (proposal_policy_version_id (pay_row x)) (pay_at x).

Section paying.
Context (digest : object → option string).

(** The credits after a payment: none is issued for a rewash. *)
Inductive credited (s : shop) (x : prepared_payment) (id : Z) : gmap Z credit_row → Prop :=
  | rewash : proposal_kind (pay_row x) = RemedyKind.FREE_REWASH → credited s x id (credits s)
  | credit amount : proposal_kind (pay_row x) ≠ RemedyKind.FREE_REWASH →
      proposal_amount_vnd (pay_row x) = Some amount → 0 < amount → credits s !! id = None →
      (∀ c k, credits s !! c = Some k → credit_proposal k ≠ pay_id x) →
      credited s x id (<[id := credit_for x amount]> (credits s)).

Lemma execute_commit_Ok s x id s' : execute_commit digest s x id = Ok s' →
  ∃ now cr u, _recheck_before_paying digest s (pay_id x) (pay_row x) = Ok u ∧
    proposals s !! pay_id x = Some now ∧ proposal_status now = proposal_status (pay_row x) ∧
    (proposal_status (pay_row x) = RemedyStatus.STAFF_AUTHORIZED ∨
     proposal_status (pay_row x) = RemedyStatus.OWNER_APPROVAL_REQUIRED) ∧
    credited s x id cr ∧
    s' = close_incident (with_credits (with_proposals s (<[pay_id x := executed_row now (pay_at x)]> (proposals s))) cr)
           (proposal_incident (pay_row x)).
Proof.
  unfold execute_commit. intros H. apply bind_Ok in H as (u & Hre & H). apply bind_Ok in H as (now & Hnow & H).
  apply require_some_Ok in Hnow. apply raise_bind_Ok in H as [Hsame H]. apply raise_bind_Ok in H as [Hst H].
  apply bind_Ok in H as (s2 & Hcr & [= <-]).
  apply orb_false_iff in Hsame as [_ Hsame%negb_false_iff%bool_decide_eq_true].
  apply negb_false_iff, bool_decide_eq_true in Hst. rewrite !elem_of_cons, elem_of_nil in Hst.
  exists now. case_bool_decide as Hk.
  - exists (credits s), u. injection Hcr as <-. rewrite with_credits_same. split_and!; try done; [naive_solver|by constructor].
  - apply bind_Ok in Hcr as (amount & Ham & Hcr). apply require_some_Ok in Ham.
    apply raise_bind_Ok in Hcr as [Hfree [= <-]].
    apply orb_false_iff in Hfree as [[Hid%bool_decide_eq_false Hpos%negb_false_iff%Z.ltb_lt]%orb_false_iff Hone].
    eexists _, u. split_and!; try done; [naive_solver|].
    apply credit; [done|done|done|by apply eq_None_not_Some|]. intros c k Hc Heq.
    eapply (existsb_false _ _ (c, k)) in Hone; [|by apply elem_of_map_to_list]. cbn in Hone. by guards.
Qed.

Lemma executed_checks p at_ : proposal_checks p = true →
  proposal_status p = RemedyStatus.STAFF_AUTHORIZED ∨ proposal_status p = RemedyStatus.OWNER_APPROVAL_REQUIRED →
  proposal_checks (executed_row p at_) = true.
Proof.
  intros H Hst. unfold proposal_checks in *. rewrite !andb_true_iff in *. destruct_and!. cbn in *.
  split_and!; try done.
  - apply Z.ltb_lt. match goal with H : (0 <? proposal_row_version p) = true |- _ => apply Z.ltb_lt in H; lia end.
  - by destruct Hst as [Hst|Hst]; rewrite Hst in *; destruct (_ && _).
  - destruct Hst as [Hst|Hst]; rewrite Hst in *; destruct (proposal_kind p is? _), (present (proposal_amount_vnd p)),
      (present (proposal_approval_id p)); done.
Qed.

Lemma limit_executed lf sel bound p at_ : limit lf sel bound → sel (executed_row p at_) = sel p.
Proof. by destruct 1. Qed.

Lemma priced_unique s order_id line_id lf lf' : priced_line s order_id line_id lf → priced_line s order_id line_id lf' →
  lf = lf'.
Proof. intros (o & Ho & H) (o' & Ho' & H'). congruence. Qed.

Lemma paid_nonneg s keep : (∀ id p, proposals s !! id = Some p → proposal_checks p = true) →
  Forall (λ p, 0 <= amount_of p) (paid s keep).
Proof.
  intros Hall. apply item_rows_nonneg, Forall_selected, Forall_fmap, Forall_forall.
  intros [id p] Hp%elem_of_map_to_list. by eapply Hall.
Qed.

(** The limits after a payment. *)
Lemma within_paid s x at_ u order_id line_id lf sel bound :
  _recheck_before_paying digest s (pay_id x) (pay_row x) = Ok u →
  (∀ id p, proposals s !! id = Some p → proposal_checks p = true) →
  proposals s !! pay_id x = Some (pay_row x) → proposal_status (pay_row x) ≠ RemedyStatus.EXECUTED →
  priced_line s order_id line_id lf → limit lf sel bound →
  within digest s (filter (λ p, sel p = true) (paid s (on_line order_id line_id))) bound →
  within digest s (filter (λ p, sel p = true)
    ((if on_line order_id line_id (executed_row (pay_row x) at_) then [executed_row (pay_row x) at_] else [])
     ++ paid s (on_line order_id line_id))) bound.
Proof.
  intros Hre Hall Hp Hst Hpr Hlm Hold. set (p := pay_row x) in *. rewrite filter_app.
  destruct (on_line order_id line_id (executed_row p at_)) eqn:Hon; [|done].
  rewrite filter_cons, filter_nil, (limit_executed _ _ _ _ _ Hlm). destruct (sel p) eqn:Hsel; [|by rewrite decide_False].
  rewrite decide_True by done. right. unfold on_line in Hon. cbn in Hon. guards.
  match goal with H : proposal_kind p ∈ _ |- _ => destruct (recheck_within _ _ _ _ _ Hre H)
    as (line_id' & lf' & pol & Hl & Hpr' & Hcites & _ & Hlims) end.
  assert (line_id' = line_id) as -> by congruence. subst order_id.
  rewrite (priced_unique _ _ _ _ _ Hpr Hpr') in Hlm.
  exists (executed_row p at_), pol. split; [left|]. split; [done|]. cbn [app]. rewrite total_cons.
  rewrite (paid_others_all s _ _ p) in Hlims by done.
  specialize (Hlims _ eq_refl (paid_nonneg _ _ Hall) sel bound Hlm Hsel). unfold amount_of in *. cbn. lia.
Qed.

Lemma late_paid s x u order_id at_ :
  _recheck_before_paying digest s (pay_id x) (pay_row x) = Ok u →
  proposals s !! pay_id x = Some (pay_row x) → proposal_status (pay_row x) ≠ RemedyStatus.EXECUTED →
  (length (paid s (late_of order_id)) <= 1)%nat →
  (length ((if late_of order_id (executed_row (pay_row x) at_) then [executed_row (pay_row x) at_] else [])
     ++ paid s (late_of order_id)) <= 1)%nat.
Proof.
  intros Hre Hp Hst Hold. set (p := pay_row x) in *. destruct (late_of _ _) eqn:Hl; [|done].
  unfold late_of in Hl. cbn in Hl. guards. unfold _recheck_before_paying in Hre.
  rewrite bool_decide_true in Hre by done. apply raise_bind_Ok in Hre as [Hnone _].
  rewrite (paid_others_all s _ _ p) in Hnone by done. subst order_id. apply negb_false_iff, Nat.eqb_eq in Hnone. cbn. lia.
Qed.
(** Credits and claims after a payment. *)
Lemma credits_paid s s' x id cr : later digest s s' → credits_ok s →
  proposals s !! pay_id x = Some (pay_row x) → proposal_status (pay_row x) ≠ RemedyStatus.EXECUTED →
  (∃ o, orders s !! proposal_order (pay_row x) = Some o ∧ pay_contact x = bound_contact_id o) →
  credited s x id cr →
  proposals s' = <[pay_id x := executed_row (pay_row x) (pay_at x)]> (proposals s) → credits s' = cr →
  credits_ok s'.
Proof.
  intros Hl [H1 H2 H3] Hp Hst (o & Ho & Hb) Hcr Hps Hcs.
  assert (Hold : ∀ c k, credits s !! c = Some k → credit_proposal k ≠ pay_id x ∧
    ∃ p, proposals s' !! credit_proposal k = Some p ∧ credit_of s' k p).
  { intros c k Hk. destruct (H1 _ _ Hk) as (p & Hpk & Hof).
    assert (pay_id x ≠ credit_proposal k) as Hne by (intros He; rewrite <- He, Hp in Hpk; injection Hpk as <-; by apply Hst, Hof).
    split; [done|]. exists p. rewrite Hps, lookup_insert_ne by done. split; [done|by eapply credit_of_later]. }
  destruct (later_orders _ _ _ Hl _ _ Ho) as (o' & Ho' & _ & Hb' & _).
  destruct Hcr as [Hk|amount Hk Ham Hpos Hfree Hone]; split; rewrite Hcs.
  - intros c k Hc. by apply (Hold c k).
  - intros i p. rewrite Hps, lookup_insert_Some. intros [[_ <-]|[_ Hp']] Hs' Hk'; [done|by eapply H2].
  - apply H3.
  - intros c k. rewrite lookup_insert_Some. intros [[_ <-]|[_ Hc]]; [|by apply (Hold c k)].
    exists (executed_row (pay_row x) (pay_at x)). cbn. rewrite Hps, lookup_insert_eq. split; [done|].
    split_and!; cbn; try done. exists o'. by rewrite Hb'.
  - intros i p. rewrite Hps, lookup_insert_Some. intros [[<- <-]|[_ Hp']] Hs' Hk'.
    + exists id, (credit_for x amount). by rewrite lookup_insert_eq.
    + destruct (H2 _ _ Hp' Hs' Hk') as (c & k & Hc & <-). exists c, k. rewrite lookup_insert_ne; [done|]. congruence.
  - intros c c' k k'. rewrite !lookup_insert_Some. intros [[<- <-]|[_ Hc]] [[<- <-]|[_ Hc']] Heq; cbn in *; try done.
    + by destruct (Hone _ _ Hc').
    + by destruct (Hone _ _ Hc).
    + by eapply H3.
Qed.

Lemma kept_pay s ps xs x id s' : x ∈ xs → execute_commit digest s x id = Ok s' →
  kept digest (Machine s ps xs) → kept digest (Machine s' ps xs).
Proof.
  intros Hx (now & cr & u & Hre & Hnow & Hsame & Hst & Hcr & ->)%execute_commit_Ok [Ht Hs Hrows Hlim Hlate Hcred Hclosed Hpend].
  cbn in *. pose proof Hpend as Hall. rewrite Forall_forall in Hall. destruct (Hall x Hx) as (Hun & Haut & Hor & p & Hp & Hpp).
  clear Hall. rewrite Hnow in Hp. injection Hp as <-.
  assert (now = pay_row x) as -> by (destruct Hpp as [|Hex]; [done|congruence]). clear Hpp.
  set (s1 := with_credits _ cr). destruct (close_incident_spec s1 (proposal_incident (pay_row x))) as (m & -> & Hm).
  set (s' := with_incidents s1 m). assert (Hl : later digest s s') by by apply later_same.
  assert (Hpaid : ∀ keep, paid s' keep ≡ₚ (if keep (executed_row (pay_row x) (pay_at x))
    then [executed_row (pay_row x) (pay_at x)] else []) ++ paid s keep) by (intros keep; by apply paid_executed).
  assert (Hps : proposals s' = <[pay_id x := executed_row (pay_row x) (pay_at x)]> (proposals s)) by done.
  split; cbn [current paying]; [done|done|..].
  - intros i q. rewrite Hps, lookup_insert_Some. intros [[<- <-]|[_ Hq]]; [|eapply row_ok_later, Hrows; done].
    destruct (Hrows _ _ Hnow) as (Hc & Ho & _ & _). split_and!; [by apply executed_checks|done|done|by intros _].
  - intros order_id line_id lf sel bound Hpr Hlm. apply (priced_same s) in Hpr; [|done].
    eapply within_perm; [by rewrite Hpaid|]. eapply within_later; [exact Hl|].
    eapply within_paid; [exact Hre| |done..|by eapply Hlim]. intros i q Hq. apply (Hrows _ _ Hq).
  - intros o. rewrite Hpaid. by eapply late_paid.
  - by eapply credits_paid.
  - intros i j Hj Hd. change (incidents s' !! i = Some j) with (m !! i = Some j) in Hj.
    destruct Hm as [->|(j0 & Hj0 & -> & Hopen)].
    + destruct (Hclosed _ _ Hj Hd) as [Hcl Hop]. split; [done|]. intros k q. rewrite Hps, lookup_insert_Some.
      intros [[<- <-]|[_ Hq]] Hin; [done|]. rewrite (still_open_same s) by done. by eapply Hop.
    + apply lookup_insert_Some in Hj as [[<- <-]|[_ Hj]].
      * split; [done|]. intros k q Hq Hin. rewrite (still_open_same s1) by done. by eapply Hopen.
      * destruct (Hclosed _ _ Hj Hd) as [Hcl Hop]. split; [done|]. intros k q. rewrite Hps, lookup_insert_Some.
        intros [[<- <-]|[_ Hq]] Hin; [done|]. rewrite (still_open_same s) by done. by eapply Hop.
  - eapply Forall_impl; [exact Hpend|]. intros y (H1 & H2 & H3 & q & Hq & Hqq). split_and!; [done|done|done|].
    rewrite Hps. destruct (decide (pay_id x = pay_id y)) as [Heq|Hne].
    + rewrite Heq, lookup_insert_eq. eexists. split; [done|by right].
    + exists q. by rewrite lookup_insert_ne.
Qed.
End paying.

Section safety.
Context (digest : object → option string) (validators : string → option (object → bool))
  (document_hash : proposal_document → string)
  (facts_hash : MessageDraftFacts → string) (rendering_hash : MessageDraftFacts → string → string)
  (request_hash : request_payload → option string) (uuid_text : Z → string)
  (action_text : ApprovalAction.t → string) (normal : StoredApproval → option StoredApproval).

Notation moves := (step digest validators document_hash facts_hash rendering_hash request_hash uuid_text action_text normal).
Notation happens := (reachable (opening digest) moves).

Lemma raised_kept w s p approval_id s' r : 
  _request_owner_approval facts_hash rendering_hash request_hash uuid_text action_text normal w s p approval_id = (s', r) →
  ∃ e, s' = with_envelopes s e ∧
    (sound (tables (envelopes s)) → sound (tables e)) ∧ grows (tables (envelopes s)) (tables e).
Proof.
  unfold _request_owner_approval. set (c := envelope_request _ _).
  pose proof (grows_run facts_hash rendering_hash request_hash uuid_text action_text normal (envelopes s)
    (ApprovalRepository.Request w c approval_id)) as Hg.
  pose proof (sound_run facts_hash rendering_hash request_hash uuid_text action_text normal (envelopes s)
    (ApprovalRepository.Request w c approval_id)) as Hs.
  cbn in Hg, Hs. destruct (ApprovalRepository.request _ _ _ _ _ _ _ _ _ _) as [e r']. cbn in Hg, Hs.
  intros [= <- _]. by exists e.
Qed.

Lemma kept_step m m' : kept digest m → moves m m' → kept digest m'.
Proof.
  intros Hk H. destruct H as [w c id p s ps xs _|w a p s s' r ps xs _ _ Hr|p s s' ps xs _ Happ Hc|w c x s ps xs Hx
    |x id s s' ps xs Hin Hc|o s ps xs|d t s ps xs Ht|id v h by_ t s ps xs Ht|s s' ps xs He].
  - by eapply kept_begun; [|exact Hk]; left.
  - apply raised_kept in Hr as (e & -> & Hs & Hg). eapply kept_envelopes; [done| |exact Hk]. apply Hs, Hk.
  - by eapply kept_record.
  - eapply kept_begun; [|exact Hk]. intros y [->|Hy]%elem_of_cons; [right|by left]. by eapply execute_check_pending.
  - by eapply kept_pay.
  - eapply kept_envelopes; [apply grows_run|apply sound_run, Hk|exact Hk].
  - eapply kept_configuring; [eapply create_draft_ok; [apply Hk|done]| |exact Hk].
    intros r Hr _. by eapply create_draft_keeps.
  - eapply kept_configuring; [eapply publish_ok; [apply Hk|done]| |exact Hk].
    intros r Hr Hl. by eapply publish_keeps_cited.
  - by eapply kept_elsewhere.
Qed.

Lemma kept_reachable m : happens m → kept digest m.
Proof. apply reachable_invariant; [apply kept_opening|apply kept_step]. Qed.

Lemma cites_multiple s p pol : cites digest s p pol → 1 <= damage_compensation_multiple pol.
Proof.
  unfold cites, _policy_by_version. destruct (find _ _) as [r|]; [|done]. intros H. apply bind_Ok in H as (? & _ & H).
  destruct (negb _); [done|]. destruct (parse_remedy_policy _) as [pol'|] eqn:Hp; [|done]. injection H as ->.
  unfold parse_remedy_policy in Hp. repeat first [apply raise_bind_Ok in Hp as [? Hp]|apply bind_Ok in Hp as (? & ? & Hp)].
  injection Hp as <-. cbn. by guards.
Qed.

(** C5: the limits hold over everything paid.  However proposals and payments of several
    counters interleave, and however the figures are republished meanwhile: what was paid
    on one item, on one garment by staff alone, or on a whole line of an order is within the
    limit of a policy version that one of those claims cites, so the line never pays more than
    that version's multiple of what the line was charged. *)
Theorem paid_within_the_limits m order_id line_id lf : happens m →
  priced_line (current m) order_id line_id lf →
  (∀ sel bound, limit lf sel bound →
     let l := filter (λ p, sel p = true) (paid (current m) (on_line order_id line_id)) in
     l = [] ∨ ∃ p pol, p ∈ l ∧ cites digest (current m) p pol ∧ total l <= bound pol) ∧
  (let l := paid (current m) (on_line order_id line_id) in
   l = [] ∨ ∃ p pol, p ∈ l ∧ cites digest (current m) p pol ∧
     total l <= fact_net_amount_vnd lf * damage_compensation_multiple pol).
Proof.
  intros Hk%kept_reachable Hpr. split; [intros sel bound; by apply (kept_limits _ _ Hk)|].
  pose proof (kept_limits _ _ Hk _ _ _ _ _ Hpr (limit_line lf)) as Hline. rewrite filter_all in Hline.
  destruct Hline as [H|(p & pol & Hp & Hc & Hb)]; [by left|right]. exists p, pol. split; [done|]. split; [done|].
  pose proof (line_fee_le_net lf). pose proof (cites_multiple _ _ _ Hc). nia.
Qed.



(** C24: an incident the remedies closed is settled for good.  It stays closed, and each of its
    claims was carried out or refused: none can be paid later. *)
Theorem closed_incidents_owe_nothing m id i : happens m →
  incidents (current m) !! id = Some i → remedy_decided i = true →
  incident_status i = IncidentStatus.CLOSED ∧
  ∀ k p, proposals (current m) !! k = Some p → proposal_incident p = id →
    proposal_status p ≠ RemedyStatus.STAFF_AUTHORIZED ∧
    (proposal_status p = RemedyStatus.OWNER_APPROVAL_REQUIRED → envelope_dead (current m) p = true).
Proof.
  intros Hk%kept_reachable Hi Hd. destruct (kept_closed _ _ Hk _ _ Hi Hd) as [Hst Hop]. split; [done|].
  intros k p Hp Hin. specialize (Hop k p Hp Hin). unfold still_open in Hop.
  apply orb_false_iff in Hop as [H1%bool_decide_eq_false H2]. split; [done|]. intros Hown.
  rewrite bool_decide_true in H2 by done. by apply negb_false_iff in H2.
Qed.
End safety.
