(* ===== verification/RemedyExamples.v ===== *)
(** Histories of remedies run as functions, and one shop's: a torn shirt staff pay for, a lost
    one the owner signs for, and claims the rules refuse. *)
From Stdlib Require Import String.
From S2P Require Import Prelude Clock Text Json Configurations Catalog Quotes.
From S2P Require Import Idempotency Approvals ApprovalsFacts Remedies RemedyLedger RemedyFacts RemedyMachine.
From S2P Require Import RemedyHistory RemedySafety QuoteExamples QuoteWitness.
Local Open Scope laundry_scope.
Local Open Scope Z_scope.

#[local] Arguments sumZ : simpl never.

(** * Histories as functions *)

Inductive event :=
  | Decides (w : world) (c : RemedyProposalCommand) (id : Z)
  | Raises (w : world) (id approval_id : Z)
  | Records (id : Z)
  | Begins (w : world) (c : RemedyExecutionCommand)
  | Pays (id credit_id : Z)
  | Envelope (o : ApprovalRepository.operation)
  | Publishes (id v : Z) (h : string) (by_ : Z).

Section run.
Context (digest : object → option string) (validators : string → option (object → bool))
  (document_hash : proposal_document → string)
  (facts_hash : MessageDraftFacts → string) (rendering_hash : MessageDraftFacts → string → string)
  (request_hash : request_payload → option string) (uuid_text : Z → string)
  (action_text : ApprovalAction.t → string) (normal : StoredApproval → option StoredApproval).

(** The latest reading of a proposal or payment, by its id. *)
Definition of_id (id : Z) (l : list prepared) : option prepared := find (λ p, prep_id p =? id) l.
Definition begun (id : Z) (l : list prepared_payment) : option prepared_payment := find (λ x, pay_id x =? id) l.

Definition happen (m : machine) (e : event) : option machine :=
  let '(Machine s ps xs) := m in
  match e with
  | Decides w c id =>
      match propose_check digest document_hash w s c id with Ok p => Some (Machine s (p :: ps) xs) | Err _ => None end
  | Raises w id approval_id =>
      p ← of_id id ps;
      if requires_owner_approval (prep_outcome p) then
        let '(s', r) := _request_owner_approval facts_hash rendering_hash request_hash uuid_text action_text normal
                          w s p approval_id in
        Some (Machine s' (match r with Ok p' => p' :: ps | Err _ => ps end) xs)
      else None
  | Records id =>
      p ← of_id id ps;
      if Bool.eqb (requires_owner_approval (prep_outcome p)) (present (prep_approval p)) then
        match propose_commit s p with Ok s' => Some (Machine s' ps xs) | Err _ => None end
      else None
  | Begins w c => match execute_check w s c with Ok x => Some (Machine s ps (x :: xs)) | Err _ => None end
  | Pays id credit_id =>
      x ← begun id xs;
      match execute_commit digest s x credit_id with Ok s' => Some (Machine s' ps xs) | Err _ => None end
  | Envelope o =>
      Some (Machine (with_envelopes s (ApprovalRepository.run facts_hash rendering_hash request_hash uuid_text
                                         action_text normal (envelopes s) o)) ps xs)
  | Publishes id v h by_ =>
      match publish (configurations s) id v h by_ with
      | Ok t => Some (Machine (with_configurations s t) ps xs)
      | Err _ => None
      end
  end.
Fixpoint happens_all (m : machine) (es : list event) : option machine :=
  match es with
  | [] => Some m
  | e :: es => m ← happen m e; happens_all m es
  end.

Notation moves := (step digest validators document_hash facts_hash rendering_hash request_hash uuid_text action_text normal).

Lemma happen_moves m e m' : happen m e = Some m' → moves m m'.
Proof.
  destruct m as [s ps xs]. destruct e as [w c id|w id a|id|w c|id c|o|id v h by_]; cbn [happen]; intros H.
  - destruct (propose_check _ _ _ _ _ _) eqn:E; [|done]. injection H as <-. by econstructor.
  - apply bind_Some in H as (p & Hp & H). destruct (requires_owner_approval _) eqn:Ho; [|done].
    destruct (_request_owner_approval _ _ _ _ _ _ _ _ _ _) as [s' r] eqn:E. injection H as <-.
    eapply raises; [|exact Ho|exact E]. apply find_some in Hp as [Hp _]. by apply list_elem_of_In.
  - apply bind_Some in H as (p & Hp & H). destruct (Bool.eqb _ _) eqn:Ho; [|done].
    destruct (propose_commit _ _) eqn:E; [|done]. injection H as <-. apply Bool.eqb_prop in Ho.
    eapply records; [|exact Ho|exact E]. apply find_some in Hp as [Hp _]. by apply list_elem_of_In.
  - destruct (execute_check _ _ _) eqn:E; [|done]. injection H as <-. by econstructor.
  - apply bind_Some in H as (x & Hx & H). destruct (execute_commit _ _ _ _) eqn:E; [|done]. injection H as <-.
    eapply pays; [|exact E]. apply find_some in Hx as [Hx _]. by apply list_elem_of_In.
  - injection H as <-. constructor.
  - destruct (publish _ _ _ _ _) eqn:E; [|done]. injection H as <-. by econstructor.
Qed.

Lemma happens_all_moves es : ∀ m m', happens_all m es = Some m' → rtc moves m m'.
Proof.
  induction es as [|e es IH]; intros m m'; cbn; [by intros [= <-]; constructor|].
  intros (m1 & H & Hr)%bind_Some. eapply rtc_l; [by eapply happen_moves|by apply IH].
Qed.
End run.

(** * A shop *)

Definition text_hash (_ : proposal_document) : string := digest_text.
Definition fixed_digest (_ : object) : option string := Some zeros.
Definition figures_of (staff multiple : Z) : object :=
  [("schema", JStr REMEDY_POLICY_SCHEMA); ("decision", JStr "DEC-004");
   ("defect_report_window_hours", JInt 48); ("initial_response_window_hours", JInt 24);
   ("free_rewash_window_days", JInt 7); ("late_delivery_threshold_minutes", JInt 60);
   ("late_delivery_credit_rate_bps", JInt 1000); ("damage_compensation_multiple", JInt multiple);
   ("staff_approval_ceiling_vnd", JInt staff)]%string.
Definition published_figures (id v staff multiple : Z) : ConfigurationRow :=
  MkConfigurationRow id REMEDY_POLICY_CONFIG_TYPE v Lifecycle.PUBLISHED (figures_of staff multiple) zeros 1 (Some 1).
Definition draft_figures (id v staff multiple : Z) : ConfigurationRow :=
  MkConfigurationRow id REMEDY_POLICY_CONFIG_TYPE v Lifecycle.DRAFT (figures_of staff multiple) zeros 1 None.

(** Three shirts at 20.000đ each. *)
Definition shirts : QuoteLineSnapshot :=
  {| quote_line_id := "shirts"; quote_service_code := "SHIRT"; service_version_id := 7;
     line_basis := QuantityBasis.STAFF_MEASUREMENT; line_quantity := "3"; snapshot_unit := Unit.ITEM;
     amounts := ExactLineAmounts (Some 20000) 60000 0 60000; price_trace_hash := small_hash |}.
Definition shirts_quote : ImmutableQuoteSnapshot :=
  {| data := two_lines [shirts] []; document := {| revision_content := two_lines [shirts] []; revision_hash := zeros |} |}.
Definition shirts_order : order_row :=
  OrderRow 1 5 FulfillmentMode.SELF_DROP_SELF_COLLECT (Some (at_minute 0)) digest_text shirts_quote false [] (Some (61, 60000)) [].
Definition empty_shop (t : list ConfigurationRow) : shop :=
  Shop ∅ ∅ {[ 3 := IncidentRow 1 (Some 7) IncidentStatus.OPEN false false;
              4 := IncidentRow 1 (Some 7) IncidentStatus.OPEN false false ]}
    {[ 7 := shirts_order ]} t ApprovalRepository.empty_store.
Definition remedy_world : world :=
  World (λ staff store, (store =? 1) && ((staff =? 10) || (staff =? 20)))
    (λ id, if id =? 7 then Some (1, 3, digest_text) else None)
    (λ _, None) (λ _ _, None) (λ id, Some (1, 7, digest_text)) (λ _, None) (λ _, None) (λ _, None) (λ _, false)
    (λ _ _, None).

Definition counter : StaffPrincipal := Principal 10 [ActorRole.OPERATOR] true.
Definition claim (incident : Z) (kind : RemedyKind.t) (vnd garment minute : Z) : RemedyProposalCommand :=
  ProposalCommand 1 incident kind true counter (Some "shirts"%string) (Some vnd) None (at_minute minute) (Some garment).
Definition pay (id minute : Z) : RemedyExecutionCommand := RemedyExecution id counter (at_minute minute).
Definition owner_approves (approval : Z) : ApprovalRepository.operation :=
  ApprovalRepository.Decide remedy_world
    (DecisionCommand approval ApprovalDecision.APPROVED 1 digest_text digest_text "CUSTOMER_ASKED"
       (Principal 20 [ActorRole.OWNER_ADMIN] true) (at_minute 12) None) false.

Definition happens_in (t : list ConfigurationRow) : list event → option machine :=
  happens_all fixed_digest text_hash (λ _, digest_text) (λ _ _, digest_text) (λ _, Some "request"%string)
    (λ _, "7"%string) (λ _, "APPROVE_REMEDY"%string) Some (Machine (empty_shop t) [] []).

(** Both claims are read before either is written. *)
Definition two_claims : list event :=
  [Decides remedy_world (claim 3 RemedyKind.DAMAGE_COMPENSATION 60000 1 10) 101;
   Decides remedy_world (claim 4 RemedyKind.LOST_ITEM 150000 2 10) 102;
   Records 101; Raises remedy_world 102 500; Records 102;
   Begins remedy_world (pay 101 11); Envelope (owner_approves 500); Pays 101 901;
   Begins remedy_world (pay 102 13); Pays 102 902].
Definition one_version : list ConfigurationRow := [published_figures 41 1 100000 10].
Definition after (es : list event) : option machine := happens_in one_version es.

Lemma opens t : table_ok fixed_digest t → opening fixed_digest (Machine (empty_shop t) [] []).
Proof.
  intros Ht. split; [done|done| |done| |done].
  - intros id i. cbn [current incidents empty_shop]. rewrite lookup_insert_Some, lookup_singleton_Some.
    by intros [[_ <-]|[_ [_ <-]]].
  - intros id. done.
Qed.

(** * What the rules do with odd claims *)

(** A claim of 0 đồng is recorded, and then can never be paid: its credit breaks the table. *)
Definition nothing_claimed : list event :=
  [Decides remedy_world (claim 3 RemedyKind.DAMAGE_COMPENSATION 0 1 10) 101; Records 101;
   Begins remedy_world (pay 101 11)].
Definition paying_fails (m : option machine) (id credit_id : Z) (e : RemedyFailure) : Prop :=
  match m with
  | Some m => match begun id (paying m) with
              | Some x => execute_commit fixed_digest (current m) x credit_id = Err e
              | None => False
              end
  | None => False
  end.
Example nothing_is_never_paid : paying_fails (after nothing_claimed) 101 901 CheckViolation.
Proof. vm_compute. reflexivity. Qed.

(** A loss approved and not paid inside its window: never paid, yet live and holding its
    incident open. *)
Definition approved_loss : list event :=
  [Decides remedy_world (claim 4 RemedyKind.LOST_ITEM 150000 2 10) 102; Raises remedy_world 102 500; Records 102;
   Envelope (owner_approves 500)].
Example an_approved_claim_outlives_its_envelope :
  match after approved_loss with
  | Some m =>
      match execute_check remedy_world (current m) (pay 102 10000), proposals (current m) !! 102 with
      | Err e, Some p => e = state_error "REMEDY_APPROVAL_EXPIRED" ∧ live (current m) p = true ∧
          still_open (current m) p = true
      | _, _ => False
      end
  | None => False
  end.
Proof. vm_compute. by split_and!. Qed.

(** Two claims of one garment, the second under a raised staff limit: paying the second first
    leaves the first, which [propose] wrote, above its own version's limit. *)
Definition limit_raised : list event :=
  [Decides remedy_world (claim 3 RemedyKind.DAMAGE_COMPENSATION 60000 1 10) 101; Records 101;
   Publishes 42 2 zeros 1;
   Decides remedy_world (claim 4 RemedyKind.DAMAGE_COMPENSATION 110000 1 11) 102; Records 102;
   Begins remedy_world (pay 101 12); Begins remedy_world (pay 102 12); Pays 102 902].
Definition two_versions : list ConfigurationRow := [published_figures 41 1 100000 10; draft_figures 42 2 200000 10].
Example a_raised_limit_strands_a_claim :
  paying_fails (happens_in two_versions limit_raised) 101 901 (state_error "REMEDY_APPROVAL_REQUIRED").
Proof. vm_compute. reflexivity. Qed.

(** * The theorems at work *)

Lemma one_version_ok : table_ok fixed_digest one_version.
Proof. split; [apply NoDup_singleton..|]. by repeat constructor. Qed.

Lemma after_reachable es m : after es = Some m →
  reachable (opening fixed_digest) (step fixed_digest (λ _, None) text_hash (λ _, digest_text) (λ _ _, digest_text)
    (λ _, Some "request"%string) (λ _, "7"%string) (λ _, "APPROVE_REMEDY"%string) Some) m.
Proof. intros H. eexists. split; [apply opens, one_version_ok|]. by eapply happens_all_moves. Qed.

Definition shirts_facts : RemedyLineFacts :=
  {| fact_service_code := "SHIRT"; fact_unit := Unit.ITEM; fact_quantity := "3"; fact_unit_price_vnd := Some 20000;
     fact_net_amount_vnd := 60000 |}.

(** What the run leaves: both claims paid, the loss under its envelope, the first incident
    closed. *)
Definition left_by (m : machine) : Prop :=
  orders (current m) !! 7 = Some shirts_order ∧
  total (paid (current m) (on_line 7 "shirts")) = 210000 ∧
  (proposal_status <$> (proposals (current m) !! 101)) = Some RemedyStatus.EXECUTED ∧
  ((λ p, (proposal_status p, proposal_kind p)) <$> (proposals (current m) !! 102)) = Some (RemedyStatus.EXECUTED, RemedyKind.LOST_ITEM) ∧
  (remedy_decided <$> (incidents (current m) !! 3)) = Some true.
Lemma two_claims_left : match after two_claims with Some m => left_by m | None => False end.
Proof. vm_compute. by split_and!. Qed.
Lemma two_claims_run : ∃ m, after two_claims = Some m ∧ left_by m.
Proof. pose proof two_claims_left as H. destruct (after two_claims) as [m|]; [by exists m|done]. Qed.

Lemma paid_within_the_limits_witness :
  ∃ m, after two_claims = Some m ∧ ∃ p pol, cites fixed_digest (current m) p pol ∧
    total (paid (current m) (on_line 7 "shirts")) = 210000 ∧ 210000 <= 60000 * damage_compensation_multiple pol.
Proof.
  destruct two_claims_run as (m & H & Ho & Ht & _). exists m. split; [exact H|].
  destruct (paid_within_the_limits _ _ _ _ _ _ _ _ _ m 7 "shirts" shirts_facts (after_reachable _ _ H)) as [_ Hline].
  { exists shirts_order. split; [exact Ho|]. vm_compute. reflexivity. }
  cbv zeta in Hline. destruct Hline as [Hnil|(p & pol & _ & Hc & Hb)].
  - rewrite Hnil in Ht. discriminate Ht.
  - exists p, pol. rewrite Ht in Hb. split_and!; [exact Hc|exact Ht|exact Hb].
Defined.



Lemma closed_incidents_owe_nothing_witness :
  ∃ m i, after two_claims = Some m ∧ incidents (current m) !! 3 = Some i ∧ incident_status i = IncidentStatus.CLOSED.
Proof.
  destruct two_claims_run as (m & H & _ & _ & _ & _ & Hi).
  destruct (incidents (current m) !! 3) as [i|] eqn:Hrow; [|discriminate Hi]. injection Hi as Hd.
  exists m, i. split; [exact H|]. split; [exact Hrow|].
  apply (closed_incidents_owe_nothing _ _ _ _ _ _ _ _ _ m 3 i (after_reachable _ _ H) Hrow Hd).
Defined.

(** Three claims of 60.000đ on one shirt, and one of 180.000đ: granted alike, and both the
    owner's. *)
Definition figures_1 : RemedyPolicy :=
  {| defect_report_window_hours := 48; initial_response_window_hours := 24; free_rewash_window_days := 7;
     late_delivery_threshold_minutes := 60; late_delivery_credit_rate_bps := 1000; damage_compensation_multiple := 10;
     staff_approval_ceiling_vnd := 100000 |}.
Definition shirts_record : RemedyOrderFacts :=
  {| goods_returned_at := Some (at_minute 0); settled_total_vnd := Some 60000;
     fact_lines := [("shirts"%string, shirts_facts)]; expects_return_leg := false; return_leg_succeeded := false;
     refunded := false |}.
Definition three_claims : result RemedyRefused RemedyAuthorized :=
  claims figures_1 shirts_record RemedyKind.DAMAGE_COMPENSATION "shirts" (Some 2) (at_minute 0, at_minute 9)
    (MkRemedyCommitments 0 0 (Some 0)) 60000 [60000; 60000].
Lemma splitting_gains_nothing_witness :
  ∃ a, three_claims = Ok a ∧ requires_owner_approval a = true.
Proof.
  destruct (splitting_gains_nothing figures_1 shirts_record RemedyKind.DAMAGE_COMPENSATION "shirts" (Some 2)
    (at_minute 0, at_minute 9) (MkRemedyCommitments 0 0 (Some 0)) 60000 [60000; 60000]) as [Hok Hown];
    [lia|by repeat constructor|cbn; lia|cbn; lia|].
  destruct three_claims as [a|e] eqn:Ha; [|exfalso; vm_compute in Ha; discriminate Ha].
  exists a. split; [reflexivity|]. unfold three_claims in Ha.
  destruct (evaluate_item figures_1 shirts_record RemedyKind.DAMAGE_COMPENSATION "shirts" (60000 + sumZ [60000; 60000])
    (Some 2) (at_minute 0, at_minute 9) (MkRemedyCommitments 0 0 (Some 0))) as [b|e] eqn:Hb;
    [|rewrite Ha in Hok; discriminate Hok].
  rewrite (Hown a b Ha eq_refl). vm_compute in Hb. injection Hb as <-. vm_compute. reflexivity.
Defined.
