(* ===== verification/CashCount.v ===== *)
(** The end-of-day cash count ([packages/domain/.../cash_count.py]): what the drawer should
    hold, the difference of a count, what an entry may be, and the trace a count stores, as
    the JSON document it is.  The digest of a canonical document is a library's and a
    parameter; a note is ASCII text, and whether it reads as a phone number
    ([shop_capture.looks_like_phone], over the Unicode database) is a parameter too. *)
From Stdlib Require Import Ascii String.
From S2P Require Import Prelude Clock PyDecimal Text Json Calendar.
Local Open Scope laundry_scope.
Local Open Scope Z_scope.

Definition CASH_COUNT_RULE_IDENTIFIER : string := "cash-count-v1".
Definition COUNTED_MAX_VND : Z := 1_000_000_000.

Module CashCountKind.
Inductive t :=
  | OPENING_FLOAT | CLOSING_COUNT.
#[export] Instance eq_dec : EqDecision t.
Proof. solve_decision. Defined.
End CashCountKind.
#[export] Existing Instance CashCountKind.eq_dec.

Module ExpectedStatus.
Inductive t :=
  | COMPLETE | INCOMPLETE | FLOAT_MISSING | BOOKS_BELOW_ZERO.
#[export] Instance eq_dec : EqDecision t.
Proof. solve_decision. Defined.
Definition value (s : t) : string :=
  match s with
  | COMPLETE => "COMPLETE" | INCOMPLETE => "INCOMPLETE" | FLOAT_MISSING => "FLOAT_MISSING"
  | BOOKS_BELOW_ZERO => "BOOKS_BELOW_ZERO"
  end.
End ExpectedStatus.
#[export] Existing Instance ExpectedStatus.eq_dec.
Definition PRODUCED : list ExpectedStatus.t := [ExpectedStatus.COMPLETE; ExpectedStatus.INCOMPLETE].

Module DifferenceDirection.
Inductive t :=
  | EVEN | OVER | SHORT.
#[export] Instance eq_dec : EqDecision t.
Proof. solve_decision. Defined.
Definition value (d : t) : string := match d with EVEN => "EVEN" | OVER => "OVER" | SHORT => "SHORT" end.
End DifferenceDirection.
#[export] Existing Instance DifferenceDirection.eq_dec.

(** [CashCountError] by its reason code, the [ValueError]s and [KeyError] of a stored trace
    that cannot be read, and [CanonicalizationError]. *)
Inductive CashCountError :=
  | CashCountRefused (reason_code : string)
  | ValueError
  | KeyError
  | CanonicalizationError.
#[export] Instance cash_count_error_eq_dec : EqDecision CashCountError.
Proof. solve_decision. Defined.
Notation counted := (result CashCountError).

(** * The drawer *)

Record DrawerMovement := MkDrawerMovement {
  cash_in_vnd : Z;
  cash_in_entries : Z;
  cash_refunded_vnd : Z;
  cash_refunded_entries : Z;
  unknown_refunds_vnd : Z;
  unknown_refunds_entries : Z;
  drawer_expenses_vnd : Z;
  drawer_expenses_entries : Z;
}.
#[export] Instance drawer_movement_eq_dec : EqDecision DrawerMovement.
Proof. solve_decision. Defined.

Definition require_non_negative_vnd (amount_vnd : Z) : counted Z :=
  raise_if (amount_vnd <? 0) ValueError ;; Ok amount_vnd.

(** [DrawerMovement(...)]: every figure is validated. *)
Definition movement_ok (m : DrawerMovement) : bool :=
  forallb (Z.leb 0) [cash_in_vnd m; cash_refunded_vnd m; unknown_refunds_vnd m; drawer_expenses_vnd m;
                     cash_in_entries m; cash_refunded_entries m; unknown_refunds_entries m; drawer_expenses_entries m].
Definition drawer_movement (m : DrawerMovement) : counted DrawerMovement :=
  raise_if (negb (movement_ok m)) ValueError ;; Ok m.
Definition NO_MOVEMENT : DrawerMovement := MkDrawerMovement 0 0 0 0 0 0 0 0.

Record ExpectedCash := MkExpectedCash {
  expected_status : ExpectedStatus.t;
  expected_vnd : option Z;
  float_vnd : option Z;
  movement : DrawerMovement;
  books_over_vnd : option Z;
}.
#[export] Instance expected_cash_eq_dec : EqDecision ExpectedCash.
Proof. solve_decision. Defined.
Definition produced (e : ExpectedCash) : bool := expected_status e in? PRODUCED.

Definition expected_cash (float : option Z) (m : DrawerMovement) : counted ExpectedCash :=
  match float with
  | None => Ok (MkExpectedCash ExpectedStatus.FLOAT_MISSING None None m None)
  | Some float =>
      _ ← require_non_negative_vnd float;
      let held := float + cash_in_vnd m - cash_refunded_vnd m - drawer_expenses_vnd m in
      if held <? 0 then Ok (MkExpectedCash ExpectedStatus.BOOKS_BELOW_ZERO None (Some float) m (Some (- held)))
      else Ok (MkExpectedCash (if unknown_refunds_entries m =? 0 then ExpectedStatus.COMPLETE else ExpectedStatus.INCOMPLETE)
                 (Some held) (Some float) m None)
  end.

Record CashDifference := MkCashDifference {
  difference_amount_vnd : Z;
  difference_direction : DifferenceDirection.t;
}.
#[export] Instance cash_difference_eq_dec : EqDecision CashDifference.
Proof. solve_decision. Defined.

Definition cash_difference (counted_vnd : Z) (expected : ExpectedCash) : counted (option CashDifference) :=
  _ ← require_non_negative_vnd counted_vnd;
  Ok match expected_vnd expected with
  | None => None
  | Some figure =>
      let gap := counted_vnd - figure in
      if gap =? 0 then Some (MkCashDifference 0 DifferenceDirection.EVEN)
      else Some (MkCashDifference (Z.abs gap) (if 0 <? gap then DifferenceDirection.OVER else DifferenceDirection.SHORT))
  end.

(** * What an entry may be *)

Definition counted_amount (value : Z) : counted Z :=
  raise_if (value <? 0) (CashCountRefused "CASH_COUNT_AMOUNT_INVALID") ;;
  raise_if (COUNTED_MAX_VND <? value) (CashCountRefused "CASH_COUNT_AMOUNT_TOO_LARGE") ;;
  Ok value.

Definition recording_day (asked today : Z) : counted Z :=
  raise_if (negb (asked =? today)) (CashCountRefused "CASH_COUNT_DAY_NOT_TODAY") ;; Ok asked.

Definition NOTE_MAX : nat := 120.
(** The ASCII control characters of [_has_control]. *)
Definition _has_control (t : text) : bool := existsb (λ c, (ord c <? 32) || (ord c =? 127)) t.

(** [value.split()], and the words joined by single spaces. *)
Fixpoint words_from (word : text) (t : text) : list text :=
  match t with
  | [] => match word with [] => [] | _ => [word] end
  | c :: t => if is_space c then match word with [] => words_from [] t | _ => word :: words_from [] t end
              else words_from (word ++ [c]) t
  end.
Definition split (t : text) : list text := words_from [] t.
Fixpoint join (ws : list text) : text :=
  match ws with
  | [] => []
  | [w] => w
  | w :: ws => w ++ " "%char :: join ws
  end.

(** [ShopCaptureError]'s codes for a note. *)
Inductive CaptureError :=
  | NOTE_INVALID
  | NOTE_LOOKS_LIKE_PHONE.

Section note.
Context (looks_like_phone : text → bool).

Definition capture_note (value : option text) : result CaptureError (option text) :=
  match value with
  | None => Ok None
  | Some value =>
      let note := join (split value) in
      if note is? [] then Ok None
      else
        raise_if ((NOTE_MAX <? length note)%nat || _has_control note) NOTE_INVALID ;;
        raise_if (looks_like_phone note) NOTE_LOOKS_LIKE_PHONE ;;
        Ok (Some note)
  end.

Definition correction_reason (value : option text) (correcting : bool) : counted (option text) :=
  reason ← match capture_note value with
           | Ok note => Ok note
           | Err NOTE_LOOKS_LIKE_PHONE => Err (CashCountRefused "CASH_COUNT_REASON_LOOKS_LIKE_PHONE")
           | Err NOTE_INVALID => Err (CashCountRefused "CASH_COUNT_REASON_INVALID")
           end;
  raise_if (correcting && (reason is? None)) (CashCountRefused "CASH_COUNT_REASON_REQUIRED") ;;
  raise_if (negb correcting && negb (reason is? None)) (CashCountRefused "CASH_COUNT_REASON_NOT_EXPECTED") ;;
  Ok reason.
End note.

(** * The trace of a closing count *)

(** [date.isoformat], and [date.fromisoformat] of the form it writes; the other ISO forms
    Python reads too (a week, no dashes) are none a trace holds, and are refused here. *)
Definition isoformat (day : Z) : string :=
  string_of_list_ascii (zero_padded 4 (year_of day) ++ "-"%char :: zero_padded 2 (month_of day)
                        ++ "-"%char :: zero_padded 2 (mday_of day)).
Definition fromisoformat (s : string) : counted Z :=
  match txt s with
  | [y1; y2; y3; y4; s1; m1; m2; s2; d1; d2] =>
      let y := int [y1; y2; y3; y4] in
      let m := int [m1; m2] in
      let d := int [d1; d2] in
      raise_if (negb (forallb is_digit_char [y1; y2; y3; y4; m1; m2; d1; d2]
                      && (s1 is? "-"%char) && (s2 is? "-"%char))) ValueError ;;
      raise_if (negb ((1 <=? y) && valid_date y m d)) ValueError ;;
      Ok (day_number y m d)
  | _ => Err ValueError
  end.

Record CountTrace := MkCountTrace {
  document : object;
  trace_hash : string;
}.

Section trace.
(** [sha256] of the RFC 8785 form, in hexadecimal. *)
Context (digest : object → string).

(** [canonical_document] of a flat document: RFC 8785 has no form for an integer past 2^53. *)
Definition MAX_JCS_INTEGER : Z := 9007199254740991.
Definition jcs_safe (value : json) : bool :=
  match value with JInt z => (- MAX_JCS_INTEGER <=? z) && (z <=? MAX_JCS_INTEGER) | _ => true end.
Definition snapshot_hash (d : object) : counted string :=
  raise_if (negb (forallb jcs_safe d.*2)) CanonicalizationError ;; Ok (HASH_PREFIX +:+ digest d).

Definition optional_int (o : option Z) : json := match o with Some z => JInt z | None => JNull end.
Definition closing_document (business_day counted_vnd : Z) (expected : ExpectedCash)
    (difference : option CashDifference) : object :=
  let m := movement expected in
  [("rule", JStr CASH_COUNT_RULE_IDENTIFIER);
   ("business_day", JStr (isoformat business_day));
   ("float_vnd", optional_int (float_vnd expected));
   ("cash_in_vnd", JInt (cash_in_vnd m));
   ("cash_in_entries", JInt (cash_in_entries m));
   ("cash_refunded_vnd", JInt (cash_refunded_vnd m));
   ("cash_refunded_entries", JInt (cash_refunded_entries m));
   ("drawer_expenses_vnd", JInt (drawer_expenses_vnd m));
   ("drawer_expenses_entries", JInt (drawer_expenses_entries m));
   ("excluded_unknown_refunds_vnd", JInt (unknown_refunds_vnd m));
   ("excluded_unknown_refunds_entries", JInt (unknown_refunds_entries m));
   ("status", JStr (ExpectedStatus.value (expected_status expected)));
   ("expected_vnd", optional_int (expected_vnd expected));
   ("books_over_vnd", optional_int (books_over_vnd expected));
   ("counted_vnd", JInt counted_vnd);
   ("difference_vnd", optional_int (difference_amount_vnd <$> difference));
   ("difference_direction", match difference with
                            | Some d => JStr (DifferenceDirection.value (difference_direction d))
                            | None => JNull
                            end)]%string.

Definition closing_trace (business_day counted_vnd : Z) (expected : ExpectedCash)
    (difference : option CashDifference) : counted CountTrace :=
  let d := closing_document business_day counted_vnd expected difference in
  h ← snapshot_hash d;
  Ok (MkCountTrace d h).

(** [number(key)] and the optional float of a stored trace. *)
Definition number (d : object) (key : string) : counted Z :=
  value ← require_some (dict_get d key) KeyError;
  match value with JInt z => Ok z | _ => Err ValueError end.
Definition optional_number (d : object) (key : string) : counted (option Z) :=
  match dict_get d key with
  | None | Some JNull => Ok None
  | Some (JInt z) => Ok (Some z)
  | Some _ => Err ValueError
  end.

Definition replay_trace (d : object) : counted CountTrace :=
  raise_if (negb (says d "rule" CASH_COUNT_RULE_IDENTIFIER)) ValueError ;;
  float ← optional_number d "float_vnd";
  cash_in ← number d "cash_in_vnd";
  cash_in_n ← number d "cash_in_entries";
  refunded ← number d "cash_refunded_vnd";
  refunded_n ← number d "cash_refunded_entries";
  unknown ← number d "excluded_unknown_refunds_vnd";
  unknown_n ← number d "excluded_unknown_refunds_entries";
  spent ← number d "drawer_expenses_vnd";
  spent_n ← number d "drawer_expenses_entries";
  m ← drawer_movement (MkDrawerMovement cash_in cash_in_n refunded refunded_n unknown unknown_n spent spent_n);
  expected ← expected_cash float m;
  counted_vnd ← number d "counted_vnd";
  named ← require_some (dict_get d "business_day") KeyError;
  day ← match named with JStr s => fromisoformat s | _ => Err ValueError end;
  difference ← cash_difference counted_vnd expected;
  closing_trace day counted_vnd expected difference.
End trace.
