(* ===== verification/CashBook.v ===== *)
(** The cash count in the database ([packages/db/.../cash_counts.py]): the drawer summed from
    the ledgers, the entries with their constraints and triggers (migration 0072), recording
    one under the command's lifetime idempotency key, and the day's and the owner's reads.
    The advisory lock makes the entries of one store and day sequential.  Audit and outbox
    rows are [Outbox]'s and not repeated. *)
From Stdlib Require Import Ascii String.
From S2P Require Import Prelude Clock Text Json Payments Catalog.
From S2P Require Import Idempotency Approvals CashCount.
Local Open Scope laundry_scope.
Local Open Scope Z_scope.

Definition CASH_COUNT_ROLES : list ActorRole.t := [ActorRole.OWNER_ADMIN; ActorRole.OPS_APPROVER; ActorRole.OPERATOR].
Definition CASH_COUNT_HISTORY_ROLES : list ActorRole.t := [ActorRole.OWNER_ADMIN].
Definition HISTORY_MAX_ENTRIES : nat := 1000.
Definition REPORT_MAX_DAYS : Z := 92.

(** [CashCountRefusal] with its code and whether it is about the day's state; the window's
    refusal is one too.  [Uncaught] is an exception of the domain the command lets through. *)
Inductive CashFailure :=
  | CashCountAuthorizationError
  | CashCountRefusal (reason_code : string) (conflict : bool)
  | Uncaught (e : CashCountError)
  | ConstraintViolation.
#[export] Instance cash_failure_eq_dec : EqDecision CashFailure.
Proof. solve_decision. Defined.
Notation cashed := (result CashFailure).

(** [_refusal] around the checks of what was typed; elsewhere a domain error passes through. *)
Definition _refusal {A} (r : counted A) : cashed A :=
  match r with
  | Ok a => Ok a
  | Err (CashCountRefused code) => Err (CashCountRefusal code false)
  | Err e => Err (Uncaught e)
  end.
Definition uncaught {A} (r : counted A) : cashed A :=
  match r with Ok a => Ok a | Err e => Err (Uncaught e) end.

(** * The ledgers *)

Record payment_row := PaymentRow {
  payment_store : Z;
  payment_method : PaymentMethod.t;
  payment_amount : Z;
  payment_recorded_at : datetime;
}.
(** The direction of a refund is [TO_CUSTOMER] by the table's CHECK. *)
Record refund_row := RefundRow {
  refund_store : Z;
  refund_amount : Z;
  refund_method : option PaymentMethod.t;
  refunded_at : datetime;
}.
Record expense_row := ExpenseRow {
  expense_store : Z;
  spent_on : Z;
  expense_amount : Z;
  paid_from_drawer : bool;
  voided : bool;
}.

Record CashCountEntry := Entry {
  entry_id : Z;
  entry_store : Z;
  business_day : Z;
  entry_kind : CashCountKind.t;
  counted_vnd : Z;
  supersedes_id : option Z;
  entry_reason : option text;
  entry_status : option ExpectedStatus.t;
  entry_expected_vnd : option Z;
  entry_difference : option CashDifference;
  float_entry_id : option Z;
  entry_trace : option CountTrace;
  rule_version : option string;
  recorded_by : Z;
  recorded_at : datetime;
}.

Record books := Books {
  payments : list payment_row;
  refunds : list refund_row;
  expenses : gmap Z expense_row;
  entries : list CashCountEntry;
}.
Definition with_entries (b : books) (l : list CashCountEntry) : books := Books (payments b) (refunds b) (expenses b) l.

(** [(recorded_at AT TIME ZONE 'Asia/Ho_Chi_Minh')::date]. *)
Definition local_day (d : datetime) : Z := date_of (astimezone HO_CHI_MINH d).
Definition summed {A} (keep : A → bool) (amount : A → Z) (l : list A) : Z :=
  sumZ (amount <$> filter (λ x, keep x = true) l).
Definition counted_rows {A} (keep : A → bool) (l : list A) : Z := Z.of_nat (length (filter (λ x, keep x = true) l)).

(** One day's row of [_DRAWER_SQL]. *)
Definition cash_taken (store day : Z) (p : payment_row) : bool :=
  (payment_store p =? store) && (payment_method p is? PaymentMethod.TIEN_MAT)
  && (local_day (payment_recorded_at p) =? day).
Definition refunded_by (method : option PaymentMethod.t) (store day : Z) (r : refund_row) : bool :=
  (refund_store r =? store) && (local_day (refunded_at r) =? day) && (refund_method r is? method).
Definition drawer_expense (store day : Z) (e : expense_row) : bool :=
  (expense_store e =? store) && (spent_on e =? day) && paid_from_drawer e && negb (voided e).
Definition drawer_day (b : books) (store day : Z) : DrawerMovement :=
  let cash := refunded_by (Some PaymentMethod.TIEN_MAT) store day in
  let unknown := refunded_by None store day in
  let spent := (map_to_list (expenses b)).*2 in
  {| cash_in_vnd := summed (cash_taken store day) payment_amount (payments b);
     cash_in_entries := counted_rows (cash_taken store day) (payments b);
     cash_refunded_vnd := summed cash refund_amount (refunds b);
     cash_refunded_entries := counted_rows cash (refunds b);
     unknown_refunds_vnd := summed unknown refund_amount (refunds b);
     unknown_refunds_entries := counted_rows unknown (refunds b);
     drawer_expenses_vnd := summed (drawer_expense store day) expense_amount spent;
     drawer_expenses_entries := counted_rows (drawer_expense store day) spent |}.

(** [generate_series]; and [drawer_movements(...)[day]] of a window of that day. *)
Definition days_of (from_date to_date : Z) : list Z := seqZ from_date (to_date - from_date + 1).
Definition drawer_movements (b : books) (store from_date to_date : Z) : counted (dict Z DrawerMovement) :=
  traverse (λ day, m ← drawer_movement (drawer_day b store day); Ok (day, m)) (days_of from_date to_date).
Definition movement_on (movements : dict Z DrawerMovement) (day : Z) : counted DrawerMovement :=
  require_some (dict_get movements day) KeyError.

(** * Entries *)

(** [superseded]: another entry names this one. *)
Definition superseded (b : books) (e : CashCountEntry) : bool :=
  existsb (λ n, supersedes_id n is? Some (entry_id e)) (entries b).
(** [ORDER BY c.business_day, c.recorded_at, c.id]. *)
Definition entry_leb (a b : CashCountEntry) : bool :=
  (business_day a <? business_day b)
  || ((business_day a =? business_day b)
      && ((instant (recorded_at a) <? instant (recorded_at b))
          || ((instant (recorded_at a) =? instant (recorded_at b)) && (entry_id a <=? entry_id b)))).
Definition _entries (b : books) (store from_date to_date : Z) (limit : nat) : list CashCountEntry :=
  take limit (stable_sort entry_leb
    (filter (λ e, (entry_store e =? store) && (from_date <=? business_day e) && (business_day e <=? to_date) = true)
       (entries b))).
Definition _current (b : books) (l : list CashCountEntry) (kind : CashCountKind.t) : option CashCountEntry :=
  last (filter (λ e, (entry_kind e is? kind) && negb (superseded b e) = true) l).

(** The table's CHECKs, and the trigger on what an entry links to. *)
Definition present {A} (o : option A) : bool := match o with Some _ => true | None => false end.
Definition float_shape (e : CashCountEntry) : bool :=
  negb (present (entry_status e)) && negb (present (entry_expected_vnd e)) && negb (present (entry_difference e))
  && negb (present (float_entry_id e)) && negb (present (entry_trace e)) && negb (present (rule_version e)).
Definition closing_shape (e : CashCountEntry) : bool :=
  present (entry_trace e) && present (rule_version e)
  && match entry_status e with
     | None => false
     | Some s =>
         Bool.eqb (present (entry_expected_vnd e)) (s in? PRODUCED)
         && Bool.eqb (present (entry_difference e)) (present (entry_expected_vnd e))
         && match entry_difference e with
            | Some d => if difference_direction d is? DifferenceDirection.EVEN then difference_amount_vnd d =? 0
                        else 0 <? difference_amount_vnd d
            | None => true
            end
         && Bool.eqb (negb (present (float_entry_id e))) (s is? ExpectedStatus.FLOAT_MISSING)
     end.
(** [length(btrim(correction_reason)) BETWEEN 1 AND 120]. *)
Fixpoint ltrim (t : text) : text :=
  match t with c :: t' => if c is? " "%char then ltrim t' else t | [] => [] end.
Definition btrim (t : text) : text := reverse (ltrim (reverse (ltrim t))).
Definition reason_shape (t : text) : bool := (1 <=? length (btrim t))%nat && (length (btrim t) <=? 120)%nat.
Definition entry_checks (e : CashCountEntry) : bool :=
  (0 <=? counted_vnd e) && (counted_vnd e <=? 1_000_000_000)
  && from_option reason_shape true (entry_reason e)
  && from_option (Z.leb 0) true (entry_expected_vnd e)
  && from_option (λ d, 0 <=? difference_amount_vnd d) true (entry_difference e)
  && from_option (λ t, startswith (txt HASH_PREFIX) (txt (trace_hash t))) true (entry_trace e)
  && Bool.eqb (negb (present (supersedes_id e))) (negb (present (entry_reason e)))
  && negb (supersedes_id e is? Some (entry_id e))
  && match entry_kind e with CashCountKind.OPENING_FLOAT => float_shape e | CashCountKind.CLOSING_COUNT => closing_shape e end.
Definition linked (b : books) (id : option Z) (e : CashCountEntry) (kind : CashCountKind.t) : bool :=
  match id with
  | None => true
  | Some id => existsb (λ o, (entry_id o =? id) && (entry_store o =? entry_store e)
                             && (business_day o =? business_day e) && (entry_kind o is? kind)) (entries b)
  end.
Definition same_original (a b : CashCountEntry) : bool :=
  (entry_store a =? entry_store b) && (business_day a =? business_day b) && (entry_kind a is? entry_kind b)
  && negb (present (supersedes_id a)) && negb (present (supersedes_id b)).
(** [INSERT INTO cash_counts]: primary key, the two unique indexes, CHECKs and trigger. *)
Definition insert_entry (b : books) (e : CashCountEntry) : cashed books :=
  raise_if (existsb (λ o, entry_id o =? entry_id e) (entries b)
            || (present (supersedes_id e) && existsb (λ o, supersedes_id o is? supersedes_id e) (entries b))
            || existsb (same_original e) (entries b)
            || negb (entry_checks e)
            || negb (linked b (supersedes_id e) e (entry_kind e))
            || negb (linked b (float_entry_id e) e CashCountKind.OPENING_FLOAT)) ConstraintViolation ;;
  Ok (with_entries b (entries b ++ [e])).

(** * The day's sheet *)

Record CashCountDay := Day {
  day_date : Z;
  opening_float : option CashCountEntry;
  closing_count : option CashCountEntry;
  day_entries : list CashCountEntry;
  day_expected : ExpectedCash;
  changed_since_count : bool;
}.

Record RecordCashCountCommand := RecordCommand {
  cash_store : Z;
  cash_day : Z;
  cash_kind : CashCountKind.t;
  cash_counted : Z;
  supersedes_entry_id : option Z;
  cash_reason : option text;
  cash_principal : StaffPrincipal;
  cash_key : string;
  cash_today : Z;
  occurred_at : datetime;
}.
(** The request's payload, as the idempotency digest sees it. *)
Definition cash_payload : Type := (Z * CashCountKind.t * Z * option Z * option text).
Definition payload_of (c : RecordCashCountCommand) : cash_payload :=
  (cash_day c, cash_kind c, cash_counted c, supersedes_entry_id c, cash_reason c).

Section cash_book.
Context (looks_like_phone : text → bool) (digest : object → string).
(** [CASH_COUNT_QUERY.label]: the rule's version. *)
Context (query_label : string).

(** [_day], of the entries given. *)
Definition _day (b : books) (day : Z) (l : list CashCountEntry) (m : DrawerMovement) : cashed CashCountDay :=
  let opening := _current b l CashCountKind.OPENING_FLOAT in
  let closing := _current b l CashCountKind.CLOSING_COUNT in
  expected ← uncaught (expected_cash (counted_vnd <$> opening) m);
  changed ← match closing with
            | None => Ok false
            | Some e =>
                difference ← uncaught (cash_difference (counted_vnd e) expected);
                now ← uncaught (closing_trace digest day (counted_vnd e) expected difference);
                Ok (negb (Some (trace_hash now) is? (trace_hash <$> entry_trace e)))
            end;
  Ok (Day day opening closing l expected changed).

Definition read_day (b : books) (store day : Z) : cashed CashCountDay :=
  let l := _entries b store day day HISTORY_MAX_ENTRIES in
  movements ← uncaught (drawer_movements b store day day);
  m ← uncaught (movement_on movements day);
  _day b day l m.

Definition _require (p : StaffPrincipal) (allowed : list ActorRole.t) : cashed unit :=
  raise_if (negb (existsb (λ r, r in? allowed) (roles p)) || negb (mfa_verified p)) CashCountAuthorizationError.
Definition membership (w : world) (p : StaffPrincipal) (store : Z) : cashed unit :=
  raise_if (negb (is_store_member w (staff_user_id p) store)) CashCountAuthorizationError.

Definition today (w : world) (b : books) (store : Z) (p : StaffPrincipal) (today : Z) : cashed CashCountDay :=
  _require p CASH_COUNT_ROLES ;;
  membership w p store ;;
  read_day b store today.

(** [reports.validate_window]. *)
Definition validate_window (from_date to_date today : Z) : cashed unit :=
  raise_if (to_date <? from_date) (CashCountRefusal "REPORT_WINDOW_REVERSED" false) ;;
  raise_if (today <? to_date) (CashCountRefusal "REPORT_WINDOW_IN_FUTURE" false) ;;
  raise_if (REPORT_MAX_DAYS <? to_date - from_date + 1) (CashCountRefusal "REPORT_WINDOW_TOO_LONG" false).

(** The owner's read: the days of a window that have any entry, and whether it was cut short. *)
Definition history (w : world) (b : books) (store : Z) (p : StaffPrincipal) (from_date to_date today : Z)
    : cashed (list CashCountDay * bool) :=
  _require p CASH_COUNT_HISTORY_ROLES ;;
  membership w p store ;;
  validate_window from_date to_date today ;;
  let read := _entries b store from_date to_date (S HISTORY_MAX_ENTRIES) in
  let l := take HISTORY_MAX_ENTRIES read in
  movements ← uncaught (drawer_movements b store from_date to_date);
  days ← traverse (λ day, m ← uncaught (movement_on movements day);
                          _day b day (filter (λ e, (business_day e =? day) = true) l) m)
           (filter (λ day, existsb (λ e, business_day e =? day) l = true) (days_of from_date to_date));
  Ok (days, (HISTORY_MAX_ENTRIES <? length read)%nat).

(** * Recording *)

(** What the books say when a closing count is recorded. *)
Definition closing_snapshot (b : books) (store day counted : Z) (l : list CashCountEntry)
    : cashed (ExpectedCash * option CashDifference * option CashCountEntry * CountTrace) :=
  let opening := _current b l CashCountKind.OPENING_FLOAT in
  movements ← uncaught (drawer_movements b store day day);
  m ← uncaught (movement_on movements day);
  expected ← uncaught (expected_cash (counted_vnd <$> opening) m);
  difference ← uncaught (cash_difference counted expected);
  trace ← uncaught (closing_trace digest day counted expected difference);
  Ok (expected, difference, opening, trace).

Definition entry_of (c : RecordCashCountCommand) (id : Z) (reason : option text)
    (snapshot : option (ExpectedCash * option CashDifference * option CashCountEntry * CountTrace)) : CashCountEntry :=
  {| entry_id := id; entry_store := cash_store c; business_day := cash_day c; entry_kind := cash_kind c;
     counted_vnd := cash_counted c; supersedes_id := supersedes_entry_id c; entry_reason := reason;
     entry_status := (λ s, expected_status s.1.1.1) <$> snapshot;
     entry_expected_vnd := snapshot ≫= λ s, expected_vnd s.1.1.1;
     entry_difference := snapshot ≫= λ s, s.1.1.2;
     float_entry_id := snapshot ≫= λ s, entry_id <$> s.1.2;
     entry_trace := (λ s, s.2) <$> snapshot;
     rule_version := (λ _, query_label) <$> snapshot;
     recorded_by := staff_user_id (cash_principal c); recorded_at := occurred_at c |}.

(** The state of the day against what the command corrects. *)
Definition _require_current (current : option CashCountEntry) (corrects : option Z) : cashed unit :=
  raise_if (negb (present corrects) && present current) (CashCountRefusal "CASH_COUNT_ALREADY_RECORDED" true) ;;
  raise_if (present corrects && negb ((entry_id <$> current) is? corrects)) (CashCountRefusal "CASH_COUNT_STALE" true).

(** [record_once], inside the claim. *)
Definition record_once (c : RecordCashCountCommand) (id : Z) (b : books) : cashed (books * Z) :=
  day ← _refusal (recording_day (cash_day c) (cash_today c));
  counted ← _refusal (counted_amount (cash_counted c));
  reason ← _refusal (correction_reason looks_like_phone (cash_reason c) (present (supersedes_entry_id c)));
  let l := _entries b (cash_store c) day day HISTORY_MAX_ENTRIES in
  _require_current (_current b l (cash_kind c)) (supersedes_entry_id c) ;;
  snapshot ← (if cash_kind c is? CashCountKind.CLOSING_COUNT
              then s ← closing_snapshot b (cash_store c) day counted l; Ok (Some s)
              else Ok None);
  b ← insert_entry b (entry_of c id reason snapshot);
  Ok (b, id).

Context (request_hash : cash_payload → option string) (uuid_text : Z → string).

Definition record_command (c : RecordCashCountCommand) : IdempotentCommand :=
  Command ("store:" ++ uuid_text (cash_store c) ++ ":cash-count")%string (cash_key c) (payload_of c).

(** [record]: authorised, then once under its key; the recorded id, and whether replayed.
    The response is one identifier's text, which reads back as itself. *)
Definition record (w : world) (s : store (T := books) (R := Z)) (c : RecordCashCountCommand) (id : Z)
    : store * result (IdempotencyError CashFailure) IdempotentResult :=
  match (_require (cash_principal c) CASH_COUNT_ROLES ;; membership w (cash_principal c) (cash_store c)) with
  | Err e => (s, Err (ExecutorError e))
  | Ok _ => execute request_hash Some s (record_command c) (record_once c id)
  end.
End cash_book.
