(* ===== verification/CashMachine.v ===== *)
(** What the cash-count rules guarantee ([CashCount]): a stored trace replays to itself, the
    difference closes the day's arithmetic, and a correction's reason is a trimmed note.  And
    what the entries keep over every history of a shop's drawer: the chains of corrections. *)
From Stdlib Require Import Ascii String.
From S2P Require Import Prelude Clock PyDecimal Text Json Calendar Payments Catalog.
From S2P Require Import Idempotency Approvals CashCount CashBook.
Local Open Scope laundry_scope.
Local Open Scope Z_scope.
#[local] Arguments sumZ : simpl never.

(** * Dates as text *)

(** A day that Python's [date] can hold. *)
Definition date_ok (day : Z) : Prop := 1 <= year_of day <= 9999.

Lemma isoformat_roundtrip day : date_ok day → fromisoformat (isoformat day) = Ok day.
Proof.
  intros Hy. unfold date_ok in Hy. unfold isoformat, fromisoformat, txt. rewrite list_ascii_of_string_of_list_ascii.
  pose proof (fields_valid day) as Hv. pose proof Hv as Hr. unfold valid_date in Hr. rewrite !andb_true_iff, !Z.leb_le in Hr.
  pose proof (days_in_month_bound (year_of day) (month_of day)) as Hm.
  pose proof (int_zero_padded 4 (year_of day) ltac:(change (10 ^ Z.of_nat 4) with 10000; lia)) as H1.
  pose proof (int_zero_padded 2 (month_of day) ltac:(change (10 ^ Z.of_nat 2) with 100; lia)) as H2.
  pose proof (int_zero_padded 2 (mday_of day) ltac:(change (10 ^ Z.of_nat 2) with 100; lia)) as H3.
  pose proof (forallb_zero_padded 4 (year_of day)) as D1. pose proof (forallb_zero_padded 2 (month_of day)) as D2.
  pose proof (forallb_zero_padded 2 (mday_of day)) as D3.
  pose proof (length_zero_padded 4 (year_of day)) as L1. pose proof (length_zero_padded 2 (month_of day)) as L2.
  pose proof (length_zero_padded 2 (mday_of day)) as L3.
  destruct (zero_padded 4 (year_of day)) as [|y1 [|y2 [|y3 [|y4 [|]]]]]; try done.
  destruct (zero_padded 2 (month_of day)) as [|m1 [|m2 [|]]]; try done.
  destruct (zero_padded 2 (mday_of day)) as [|d1 [|d2 [|]]]; try done.
  cbn [app]. rewrite H1, H2, H3, Hv. cbn in D1, D2, D3. guards. cbn [forallb].
  repeat match goal with H : is_digit_char _ = true |- _ => rewrite H; clear H end.
  rewrite (proj2 (Z.leb_le _ _)) by lia. cbn. by rewrite day_number_fields.
Qed.

(** * The figures *)

(** The day's arithmetic, closed by the difference and its direction. *)
Definition signed (d : CashDifference) : Z :=
  match difference_direction d with
  | DifferenceDirection.OVER => difference_amount_vnd d
  | DifferenceDirection.SHORT => - difference_amount_vnd d
  | DifferenceDirection.EVEN => 0
  end.

Lemma expected_cash_Ok float m e : expected_cash float m = Ok e →
  movement e = m ∧ float_vnd e = float ∧
  match expected_vnd e with
  | Some v => produced e = true ∧ 0 <= v ∧ ∃ f, float = Some f ∧ 0 <= f ∧
      v = f + cash_in_vnd m - cash_refunded_vnd m - drawer_expenses_vnd m
  | None => produced e = false ∧ (float = None ∨ ∃ f, float = Some f ∧
      f + cash_in_vnd m - cash_refunded_vnd m - drawer_expenses_vnd m < 0)
  end.
Proof.
  unfold expected_cash. destruct float as [f|]; [|intros [= <-]; cbn; split_and!; try done; by left].
  intros H. apply bind_Ok in H as (? & Hf & H). unfold require_non_negative_vnd in Hf.
  apply raise_bind_Ok in Hf as [Hf _]. guards.
  destruct (Z.ltb_spec (f + cash_in_vnd m - cash_refunded_vnd m - drawer_expenses_vnd m) 0); injection H as <-; cbn.
  - split_and!; [done..|]. right. by exists f.
  - split_and!; [done|done|by destruct (unknown_refunds_entries m =? 0)|done|]. by exists f.
Qed.

Lemma cash_difference_Ok c e d : cash_difference c e = Ok d →
  0 <= c ∧ match expected_vnd e, d with
           | Some v, Some d => 0 <= difference_amount_vnd d ∧ c = v + signed d ∧
               (difference_direction d = DifferenceDirection.EVEN ↔ difference_amount_vnd d = 0)
           | None, None => True
           | _, _ => False
           end.
Proof.
  unfold cash_difference, require_non_negative_vnd. intros H. apply bind_Ok in H as (? & Hc & [= <-]).
  apply raise_bind_Ok in Hc as [Hc _]. guards. split; [done|].
  destruct (expected_vnd e) as [v|]; [|done].
  destruct (Z.eqb_spec (c - v) 0); [cbn; unfold signed; cbn; split_and!; [done|lia|done]|].
  unfold signed. destruct (Z.ltb_spec 0 (c - v)); cbn; split_and!; try lia; split; (done || lia).
Qed.

(** * The trace *)

Section trace.
Context (digest : object → string).

Lemma number_closing day c e d : let doc := closing_document day c e d in let m := movement e in
  says doc "rule" CASH_COUNT_RULE_IDENTIFIER = true ∧ optional_number doc "float_vnd" = Ok (float_vnd e) ∧
  number doc "cash_in_vnd" = Ok (cash_in_vnd m) ∧ number doc "cash_in_entries" = Ok (cash_in_entries m) ∧
  number doc "cash_refunded_vnd" = Ok (cash_refunded_vnd m) ∧
  number doc "cash_refunded_entries" = Ok (cash_refunded_entries m) ∧
  number doc "excluded_unknown_refunds_vnd" = Ok (unknown_refunds_vnd m) ∧
  number doc "excluded_unknown_refunds_entries" = Ok (unknown_refunds_entries m) ∧
  number doc "drawer_expenses_vnd" = Ok (drawer_expenses_vnd m) ∧
  number doc "drawer_expenses_entries" = Ok (drawer_expenses_entries m) ∧
  number doc "counted_vnd" = Ok c ∧ dict_get doc "business_day" = Some (JStr (isoformat day)).
Proof. cbv zeta. unfold optional_number. cbn. split_and!; try done. by destruct (float_vnd e). Qed.

Lemma replay_closing day c float m e d t : date_ok day → movement_ok m = true →
  expected_cash float m = Ok e → cash_difference c e = Ok d → closing_trace digest day c e d = Ok t →
  replay_trace digest (document t) = Ok t.
Proof.
  intros Hday Hm He Hd Ht. destruct (expected_cash_Ok _ _ _ He) as (Hem & Hef & _).
  assert (document t = closing_document day c e d) as ->.
  { unfold closing_trace in Ht. apply bind_Ok in Ht as (h & _ & [= <-]). done. }
  destruct (number_closing day c e d) as (H1 & H2 & H3 & H4 & H5 & H6 & H7 & H8 & H9 & H10 & H11 & H12).
  unfold replay_trace. rewrite H1, H2, H3, H4, H5, H6, H7, H8, H9, H10, H11, H12, Hem, Hef. cbn [negb raise_if mbind result_bind].
  unfold drawer_movement. replace (MkDrawerMovement _ _ _ _ _ _ _ _) with m by by destruct m. rewrite Hm. cbn [negb raise_if mbind result_bind].
  rewrite He. cbn [mbind result_bind require_some]. rewrite isoformat_roundtrip by done. cbn [mbind result_bind].
  rewrite Hd. exact Ht.
Qed.

(** The digest is the document's, and the document says its figures. *)
Lemma closing_trace_Ok day c e d t : closing_trace digest day c e d = Ok t →
  document t = closing_document day c e d ∧ trace_hash t = HASH_PREFIX +:+ digest (document t) ∧
  forallb jcs_safe (document t).*2 = true.
Proof.
  unfold closing_trace, snapshot_hash. intros H. apply bind_Ok in H as (h & Hh & [= <-]).
  apply raise_bind_Ok in Hh as [Hs [= <-]]. cbn. by apply negb_false_iff in Hs.
Qed.
End trace.

(** * Notes *)

Definition visible (t : text) : Prop := match t with c :: _ => is_space c = false | [] => False end.

Lemma words_from_visible t : ∀ word, (word = [] ∨ Forall (λ c, is_space c = false) word) →
  Forall (λ w, w ≠ [] ∧ Forall (λ c, is_space c = false) w) (words_from word t).
Proof.
  induction t as [|c t IH]; intros word Hw; cbn.
  - destruct word as [|x word]; [constructor|]. apply Forall_singleton. split; [done|]. by destruct Hw as [|Hw].
  - destruct (is_space c) eqn:Hc.
    + destruct word as [|x word]; [by apply IH; left|]. constructor; [split; [done|by destruct Hw as [|Hw]]|]. by apply IH; left.
    + apply IH. right. apply Forall_app. split; [by destruct Hw as [->|]|by apply Forall_singleton].
Qed.

(** A joined note neither begins nor ends with a space. *)
Lemma join_visible ws : Forall (λ w, w ≠ [] ∧ Forall (λ c, is_space c = false) w) ws →
  join ws = [] ∨ visible (join ws) ∧ visible (reverse (join ws)).
Proof.
  induction 1 as [|w ws [Hne Hw] Hws IH]; [by left|right].
  assert (Hv : visible w ∧ visible (reverse w)).
  { split; [destruct w; [done|]; by inversion Hw|]. apply Forall_reverse in Hw.
    destruct (reverse w) as [|c l] eqn:E; [|by inversion Hw]. by rewrite <- (reverse_involutive w), E in Hne. }
  destruct ws as [|w' ws]; [done|]. change (join (w :: w' :: ws)) with (w ++ " "%char :: join (w' :: ws)).
  destruct IH as [IH|[H1 H2]].
  - exfalso. inversion Hws as [|?? [Hn _] _]; subst. destruct ws; cbn in IH; [done|]. by destruct w'.
  - split; [destruct w; [done|apply Hv]|]. rewrite reverse_app, reverse_cons, <- app_assoc.
    destruct (reverse (join (w' :: ws))); [done|]. exact H2.
Qed.

Lemma capture_note_Ok phone value note : capture_note phone value = Ok (Some note) →
  visible note ∧ visible (reverse note) ∧ (length note <= NOTE_MAX)%nat.
Proof.
  unfold capture_note. destruct value as [v|]; [|done]. case_bool_decide as Hn; [done|]. intros H.
  apply raise_bind_Ok in H as [Hlen H]. apply raise_bind_Ok in H as [_ [= <-]].
  destruct (join_visible (split v)) as [|[Hv1 Hv2]]; [by apply words_from_visible; left|done|].
  split_and!; [done|done|]. apply orb_false_iff in Hlen as [Hlen _]. by apply Nat.ltb_ge.
Qed.

Lemma reason_Ok phone value correcting reason : correction_reason phone value correcting = Ok reason →
  match reason with
  | Some note => correcting = true ∧ visible note ∧ visible (reverse note) ∧ (length note <= NOTE_MAX)%nat
  | None => correcting = false
  end.
Proof.
  unfold correction_reason. intros H. apply bind_Ok in H as (r & Hr & H).
  assert (capture_note phone value = Ok r) as Hc by (destruct (capture_note phone value) as [?|[]]; [by injection Hr as ->|done..]).
  apply raise_bind_Ok in H as [H1 H]. apply raise_bind_Ok in H as [H2 [= <-]].
  destruct r as [note|].
  - apply capture_note_Ok in Hc. rewrite bool_decide_false in H2 by done. by destruct correcting.
  - rewrite bool_decide_true in H1 by done. by destruct correcting.
Qed.

(** * Correction chains *)

(** The entries of one kind of one store's day, in the order they were inserted. *)
Definition of_key (store day : Z) (kind : CashCountKind.t) (e : CashCountEntry) : bool :=
  (entry_store e =? store) && (business_day e =? day) && (entry_kind e is? kind).
Definition recorded (b : books) (store day : Z) (kind : CashCountKind.t) : list CashCountEntry :=
  filter (λ e, of_key store day kind e = true) (entries b).

(** Each entry corrects the one before it and says why; the first corrects nothing. *)
Fixpoint corrects (prev : CashCountEntry) (l : list CashCountEntry) : Prop :=
  match l with
  | [] => True
  | e :: l => supersedes_id e = Some (entry_id prev) ∧ is_Some (entry_reason e) ∧ corrects e l
  end.
Definition chain (l : list CashCountEntry) : Prop :=
  match l with
  | [] => True
  | e :: l => supersedes_id e = None ∧ entry_reason e = None ∧ corrects e l
  end.

Definition names (id : Z) (n : CashCountEntry) : Prop := supersedes_id n = Some id.

Lemma corrects_app prev l e : corrects prev l → is_Some (entry_reason e) →
  (entry_id <$> last (prev :: l)) = supersedes_id e → corrects prev (l ++ [e]).
Proof.
  revert prev. induction l as [|x l IH]; intros prev Hl Hr He; cbn in *; [by split_and!|].
  destruct Hl as (H1 & H2 & H3). split_and!; [done..|]. by apply IH.
Qed.

(** The entry nothing names is the last. *)
Lemma corrects_last prev l o : corrects prev l → o ∈ prev :: l → (∀ n, n ∈ l → ¬ names (entry_id o) n) →
  last (prev :: l) = Some o.
Proof.
  revert prev. induction l as [|x l IH]; intros prev Hl Ho Hn.
  - by apply list_elem_of_singleton in Ho as ->.
  - destruct Hl as (H1 & _ & H3). apply elem_of_cons in Ho as [->|Ho]; [by destruct (Hn x); [left|]|].
    change (last (prev :: x :: l)) with (last (x :: l)). apply IH; [done..|]. intros n Hin. apply Hn. by right.
Qed.
Lemma chain_last l o : chain l → o ∈ l → (∀ n, n ∈ l → ¬ names (entry_id o) n) → last l = Some o.
Proof.
  destruct l as [|e l]; [by intros _ ?%elem_of_nil|]. intros (_ & _ & Hl) Ho Hn. apply corrects_last; [done..|].
  intros n Hin. apply Hn. by right.
Qed.

(** Every entry of a chain that corrects another names one before it, never the last. *)
Lemma corrects_names prev l n : corrects prev l → n ∈ l → ∃ o, o ∈ prev :: l ∧ names (entry_id o) n.
Proof.
  revert prev. induction l as [|x l IH]; intros prev Hl Hn; [by apply elem_of_nil in Hn|].
  destruct Hl as (H1 & _ & H3). apply elem_of_cons in Hn as [->|Hn]; [exists prev; split; [left|done]|].
  destruct (IH x H3 Hn) as (o & Ho & Hon). exists o. split; [by right|done].
Qed.
Lemma corrects_not_last prev l n : corrects prev l → NoDup (entry_id <$> prev :: l) → n ∈ l →
  (entry_id <$> last (prev :: l)) ≠ supersedes_id n.
Proof.
  revert prev. induction l as [|x l IH]; intros prev Hl Hnd Hn; [by apply elem_of_nil in Hn|].
  destruct Hl as (H1 & _ & H3). change (last (prev :: x :: l)) with (last (x :: l)).
  apply NoDup_cons in Hnd as [Hp Hnd]. apply elem_of_cons in Hn as [->|Hn]; [|by apply IH].
  rewrite H1. intros He. apply Hp. destruct (last (x :: l)) as [y|] eqn:Hy; [|done]. injection He as <-.
  change (entry_id y ∈ entry_id <$> x :: l). apply list_elem_of_fmap_2. by apply last_Some_elem_of in Hy.
Qed.

Lemma chain_app l e : chain l → supersedes_id e = (entry_id <$> last l) →
  (is_Some (supersedes_id e) ↔ is_Some (entry_reason e)) → chain (l ++ [e]).
Proof.
  intros Hl Hs Hr. destruct l as [|x l]; cbn.
  - split_and!; [done| |done]. apply eq_None_not_Some. rewrite <- Hr, Hs. by intros [? ?].
  - destruct Hl as (H1 & H2 & H3). split_and!; [done..|]. apply corrects_app; [done| |done].
    apply Hr. rewrite Hs. destruct (last (x :: l)) eqn:E; [by eexists|]. by apply last_None in E.
Qed.

(** * What an inserted entry met *)

Lemma insert_entry_Ok b e b' : insert_entry b e = Ok b' →
  b' = with_entries b (entries b ++ [e]) ∧ entry_id e ∉ entry_id <$> entries b ∧
  (∀ o, o ∈ entries b → is_Some (supersedes_id e) → supersedes_id o ≠ supersedes_id e) ∧
  (∀ o, o ∈ entries b → same_original e o = false) ∧ entry_checks e = true ∧
  linked b (supersedes_id e) e (entry_kind e) = true ∧
  linked b (float_entry_id e) e CashCountKind.OPENING_FLOAT = true.
Proof.
  unfold insert_entry. intros H. apply raise_bind_Ok in H as [H [= <-]].
  rewrite !orb_false_iff, !negb_false_iff in H. destruct H as [[[[[H1 H2] H3] H4] H5] H6]. split_and!; try done.
  - intros (o & Ho & Hin)%list_elem_of_fmap. eapply existsb_false in H1; [|exact Hin]. guards. congruence.
  - intros o Hin [i Hi] Heq. rewrite Hi in H2. cbn in H2. eapply existsb_false in H2; [|exact Hin].
    cbn in H2. guards. congruence.
  - intros o Hin. by eapply existsb_false in H3; [|exact Hin].
Qed.

Lemma linked_Some b i e kind : linked b (Some i) e kind = true →
  ∃ o, o ∈ entries b ∧ entry_id o = i ∧ entry_store o = entry_store e ∧ business_day o = business_day e ∧
    entry_kind o = kind.
Proof.
  unfold linked. intros H. apply existsb_exists in H as (o & Hin%list_elem_of_In & H). guards. by exists o.
Qed.

Lemma checked_reason e : entry_checks e = true → is_Some (supersedes_id e) ↔ is_Some (entry_reason e).
Proof.
  unfold entry_checks. intros H. rewrite !andb_true_iff in H.
  assert (Bool.eqb (negb (present (supersedes_id e))) (negb (present (entry_reason e))) = true) as He by tauto.
  destruct (supersedes_id e), (entry_reason e); try done; split; intros [? ?]; done.
Qed.
