(* ===== verification/CashKept.v ===== *)
(** The invariant of every history of the drawer, and that each move keeps it. *)
From Stdlib Require Import Ascii String.
From S2P Require Import Prelude Clock PyDecimal Text Json Calendar Payments Catalog.
From S2P Require Import Idempotency Approvals CashCount CashMachine CashBook.
Local Open Scope laundry_scope.
Local Open Scope Z_scope.

#[local] Arguments sumZ : simpl never.

Definition with_payments (b : books) (l : list payment_row) : books := Books l (refunds b) (expenses b) (entries b).
Definition with_refunds (b : books) (l : list refund_row) : books := Books (payments b) l (expenses b) (entries b).
Definition with_expenses (b : books) (m : gmap Z expense_row) : books := Books (payments b) (refunds b) m (entries b).
(** [protect_expense]: a line is voided once, and otherwise never rewritten. *)
Definition void (e : expense_row) : expense_row :=
  ExpenseRow (expense_store e) (spent_on e) (expense_amount e) (paid_from_drawer e) true.

Section kept.
Context (looks_like_phone : text → bool) (digest : object → string) (query_label : string)
  (request_hash : cash_payload → option string) (uuid_text : Z → string).

Notation drawer := (store (T := books) (R := Z)).
Notation record := (record looks_like_phone digest query_label request_hash uuid_text).

(** What may happen to the drawer's books. *)
Inductive move : drawer → drawer → Prop :=
  | counts w c id s : date_ok (cash_day c) → move s (record w s c id).1
  | takes p r b : 0 <= payment_amount p → move (Store r b) (Store r (with_payments b (payments b ++ [p])))
  | hands_back x r b : 0 <= refund_amount x → move (Store r b) (Store r (with_refunds b (refunds b ++ [x])))
  | spends id e r b : 0 <= expense_amount e → expenses b !! id = None →
      move (Store r b) (Store r (with_expenses b (<[id := e]> (expenses b))))
  | voids id e r b : expenses b !! id = Some e → voided e = false →
      move (Store r b) (Store r (with_expenses b (<[id := void e]> (expenses b)))).
Definition opened (s : drawer) : Prop := tables s = Books [] [] ∅ [].

(** * The ledgers add up to nothing negative *)

Record ledgers_ok (b : books) : Prop := {
  payments_ok : Forall (λ p, 0 <= payment_amount p) (payments b);
  refunds_ok : Forall (λ r, 0 <= refund_amount r) (refunds b);
  expenses_ok : map_Forall (λ _ e, 0 <= expense_amount e) (expenses b);
}.

Lemma summed_nonneg {A} keep (amount : A → Z) l : Forall (λ x, 0 <= amount x) l → 0 <= summed keep amount l.
Proof.
  intros Hl. apply sumZ_nonneg, Forall_fmap, Forall_forall. intros x [_ Hx]%list_elem_of_filter.
  rewrite Forall_forall in Hl. by apply Hl.
Qed.

Lemma drawer_day_ok b store day : ledgers_ok b → movement_ok (drawer_day b store day) = true.
Proof.
  intros [Hp Hr He]. assert (Forall (λ e, 0 <= expense_amount e) (map_to_list (expenses b)).*2) as He'.
  { apply Forall_forall. intros e ([k e'] & -> & Hin%elem_of_map_to_list)%list_elem_of_fmap. by apply (He k). }
  unfold movement_ok, drawer_day. cbn [forallb cash_in_vnd cash_refunded_vnd unknown_refunds_vnd drawer_expenses_vnd
    cash_in_entries cash_refunded_entries unknown_refunds_entries drawer_expenses_entries].
  rewrite !andb_true_iff, !Z.leb_le. unfold counted_rows. split_and!; try lia; by apply summed_nonneg.
Qed.

Lemma one_day b store day : ledgers_ok b →
  (movements ← uncaught (drawer_movements b store day day); uncaught (movement_on movements day))
  = Ok (drawer_day b store day).
Proof.
  intros Hb. unfold drawer_movements, days_of. replace (day - day + 1) with 1 by lia. cbn [seqZ seq fmap list_fmap Z.to_nat].
  change (seqZ day 1) with [Z.of_nat 0 + day]. rewrite Z.add_0_l. cbn [traverse]. unfold drawer_movement.
  rewrite drawer_day_ok by done. cbn. unfold movement_on. cbn. by rewrite decide_True.
Qed.

(** * Closing counts say how they came about *)

(** A closing count's figures are those of a movement and of the float it started from. *)
Record reproduced (b : books) (e : CashCountEntry) (m : DrawerMovement) (x : ExpectedCash) (t : CountTrace) : Prop := {
  from_movement : movement_ok m = true;
  from_float : ∃ float, expected_cash float m = Ok x ∧
    match float_entry_id e with
    | Some id => ∃ o, o ∈ entries b ∧ entry_id o = id ∧
        of_key (entry_store e) (business_day e) CashCountKind.OPENING_FLOAT o = true ∧ float = Some (counted_vnd o)
    | None => float = None
    end;
  from_count : cash_difference (counted_vnd e) x = Ok (entry_difference e);
  from_trace : closing_trace digest (business_day e) (counted_vnd e) x (entry_difference e) = Ok t;
  stored_trace : entry_trace e = Some t;
  stored_status : entry_status e = Some (expected_status x);
  stored_expected : entry_expected_vnd e = expected_vnd x;
}.
Definition closing_ok (b : books) (e : CashCountEntry) : Prop :=
  date_ok (business_day e) ∧
  (entry_kind e = CashCountKind.CLOSING_COUNT → ∃ m x t, reproduced b e m x t).

Record kept (b : books) : Prop := {
  kept_ledgers : ledgers_ok b;
  kept_ids : NoDup (entry_id <$> entries b);
  kept_checks : Forall (λ e, entry_checks e = true) (entries b);
  kept_chains : ∀ store day kind, chain (recorded b store day kind);
  kept_closings : Forall (closing_ok b) (entries b);
}.

Lemma kept_opened s : opened s → kept (tables s).
Proof.
  intros ->. split; [|constructor|constructor| |constructor].
  - split; [constructor|constructor|apply map_Forall_empty].
  - done.
Qed.

Lemma reproduced_later b b' e m x t : (∀ o, o ∈ entries b → o ∈ entries b') →
  reproduced b e m x t → reproduced b' e m x t.
Proof.
  intros Hin [H1 (float & Hf & Ho) H3 H4 H5 H6 H7]. split; try done. exists float. split; [done|].
  destruct (float_entry_id e); [|done]. destruct Ho as (o & Hob & Ho). exists o. split; [by apply Hin|done].
Qed.

(** Moves of the ledgers leave the entries alone. *)
Lemma kept_moving b b' : entries b' = entries b → ledgers_ok b' → kept b → kept b'.
Proof.
  intros He Hl [_ H2 H3 H4 H5]. split; rewrite ?He; [done|done|done| |].
  - intros store day kind. unfold recorded. rewrite He. apply H4.
  - eapply Forall_impl; [exact H5|]. intros e [Hd Hc]. split; [done|]. intros Hk.
    destruct (Hc Hk) as (m & x & t & Hr). exists m, x, t. eapply reproduced_later; [|exact Hr]. by rewrite He.
Qed.

(** * Recording *)

Lemma current_elem b store day limit kind e :
  _current b (_entries b store day day limit) kind = Some e →
  e ∈ entries b ∧ of_key store day kind e = true ∧ superseded b e = false.
Proof.
  unfold _current, _entries. intros H%last_Some_elem_of. apply list_elem_of_filter in H as [Hk H].
  apply elem_of_take in H as (i & H & _). apply list_elem_of_lookup_2 in H. rewrite stable_sort_perm in H.
  apply list_elem_of_filter in H as [Hin H]. guards. split; [done|]. split; [|done]. unfold of_key.
  rewrite !andb_true_iff, !Z.eqb_eq, bool_decide_true by done. lia.
Qed.

Lemma superseded_none b e n : superseded b e = false → n ∈ entries b → ¬ names (entry_id e) n.
Proof. intros H Hn Hnm. eapply existsb_false in H; [|exact Hn]. by guards. Qed.

(** The one entry nothing corrects is the last of its chain. *)
Lemma current_last b store day kind e : kept b → e ∈ entries b → of_key store day kind e = true →
  superseded b e = false → last (recorded b store day kind) = Some e.
Proof.
  intros Hk Hin Hkey Hs. apply chain_last; [by apply kept_chains|by apply list_elem_of_filter|].
  intros n [_ Hn]%list_elem_of_filter. by eapply superseded_none.
Qed.

Lemma recorded_insert b e store day kind : recorded (with_entries b (entries b ++ [e])) store day kind
  = recorded b store day kind ++ (if of_key store day kind e then [e] else []).
Proof.
  unfold recorded. cbn [entries with_entries]. rewrite filter_app. f_equal. rewrite filter_cons, filter_nil.
  destruct (of_key store day kind e); [by rewrite decide_True|by rewrite decide_False].
Qed.

(** [record_once], undone. *)
Lemma record_once_Ok c id b b' r : record_once looks_like_phone digest query_label c id b = Ok (b', r) →
  ∃ reason snapshot, r = id ∧ cash_day c = cash_today c ∧ 0 <= cash_counted c <= COUNTED_MAX_VND ∧
    correction_reason looks_like_phone (cash_reason c) (present (supersedes_entry_id c)) = Ok reason ∧
    (let l := _entries b (cash_store c) (cash_day c) (cash_day c) HISTORY_MAX_ENTRIES in
     _require_current (_current b l (cash_kind c)) (supersedes_entry_id c) = Ok tt ∧
     match cash_kind c with
     | CashCountKind.CLOSING_COUNT => ∃ s, snapshot = Some s ∧
         closing_snapshot digest b (cash_store c) (cash_day c) (cash_counted c) l = Ok s
     | CashCountKind.OPENING_FLOAT => snapshot = None
     end) ∧
    insert_entry b (entry_of query_label c id reason snapshot) = Ok b'.
Proof.
  unfold record_once. intros H. apply bind_Ok in H as (day & Hday & H). apply bind_Ok in H as (counted & Hc & H).
  apply bind_Ok in H as (reason & Hr & H). apply bind_Ok in H as ([] & Hcur & H).
  apply bind_Ok in H as (snapshot & Hsnap & H). apply bind_Ok in H as (b1 & Hins & [= <- <-]).
  unfold recording_day in Hday. destruct (Z.eqb_spec (cash_day c) (cash_today c)) as [Heq|]; [|done].
  cbn in Hday. injection Hday as <-. unfold counted_amount in Hc.
  destruct (Z.ltb_spec (cash_counted c) 0); [done|]. cbn in Hc.
  destruct (Z.ltb_spec COUNTED_MAX_VND (cash_counted c)); [done|]. cbn in Hc. injection Hc as <-.
  exists reason, snapshot. split_and!; try done.
  - by destruct (correction_reason _ _ _) as [?|[]]; [injection Hr as ->|..].
  - destruct (cash_kind c); cbn in Hsnap; [by injection Hsnap as <-|].
    apply bind_Ok in Hsnap as (s & Hs & [= <-]). by exists s.
Qed.

Lemma closing_snapshot_Ok b store day counted l s : ledgers_ok b →
  closing_snapshot digest b store day counted l = Ok s ↔
  ∃ x d t, expected_cash (counted_vnd <$> _current b l CashCountKind.OPENING_FLOAT) (drawer_day b store day) = Ok x ∧
    cash_difference counted x = Ok d ∧ closing_trace digest day counted x d = Ok t ∧
    s = (x, d, _current b l CashCountKind.OPENING_FLOAT, t).
Proof.
  intros Hb. unfold closing_snapshot. pose proof (one_day b store day Hb) as Hm.
  destruct (uncaught (drawer_movements b store day day)) as [ms|]; [|done]. cbn in Hm |- *. rewrite Hm. cbn.
  split.
  - intros H. apply bind_Ok in H as (x & Hx & H). apply bind_Ok in H as (d & Hd & H). apply bind_Ok in H as (t & Ht & [= <-]).
    exists x, d, t. split_and!; [|by destruct (cash_difference _ _); [injection Hd as ->|]|
      by destruct (closing_trace _ _ _ _ _); [injection Ht as ->|]|done].
    by destruct (expected_cash _ _); [injection Hx as ->|].
  - intros (x & d & t & -> & Hd & Ht & ->). cbn. rewrite Hd. cbn. by rewrite Ht.
Qed.
Lemma require_current_Ok current corrects_id u : _require_current current corrects_id = Ok u →
  (entry_id <$> current) = corrects_id.
Proof.
  unfold _require_current. intros H. apply raise_bind_Ok in H as [H1 H2]. apply raise_if_Ok in H2.
  destruct corrects_id as [i|]; cbn in *; [by guards|]. by destruct current.
Qed.

(** The new entry corrects the last of its chain, or begins it. *)
Lemma corrects_the_last b c id reason snapshot b' : kept b →
  let l := _entries b (cash_store c) (cash_day c) (cash_day c) HISTORY_MAX_ENTRIES in
  _require_current (_current b l (cash_kind c)) (supersedes_entry_id c) = Ok tt →
  insert_entry b (entry_of query_label c id reason snapshot) = Ok b' →
  supersedes_entry_id c = (entry_id <$> last (recorded b (cash_store c) (cash_day c) (cash_kind c))).
Proof.
  intros Hk l Hcur Hins. apply require_current_Ok in Hcur.
  apply insert_entry_Ok in Hins as (_ & _ & _ & Horig & _). rewrite <- Hcur.
  destruct (_current b l (cash_kind c)) as [o|] eqn:Ho.
  - apply current_elem in Ho as (Hin & Hkey & Hs). by rewrite (current_last _ _ _ _ _ Hk Hin Hkey Hs).
  - destruct (recorded b (cash_store c) (cash_day c) (cash_kind c)) as [|o rest] eqn:Hr; [done|exfalso].
    pose proof (kept_chains _ Hk (cash_store c) (cash_day c) (cash_kind c)) as Hch. rewrite Hr in Hch.
    destruct Hch as (Hnone & _ & _).
    assert (Hin : o ∈ recorded b (cash_store c) (cash_day c) (cash_kind c)) by (rewrite Hr; left).
    apply list_elem_of_filter in Hin as [Hkey Hin]. specialize (Horig o Hin). unfold same_original, of_key in *. cbn in Horig, Hcur.
    apply andb_true_iff in Hkey as [[H1%Z.eqb_eq H2%Z.eqb_eq]%andb_true_iff H3%bool_decide_eq_true].
    by rewrite <- Hcur, Hnone, H1, H2, H3, !Z.eqb_refl, bool_decide_true in Horig by done.
Qed.

Lemma closing_new b c id reason snapshot b' : kept b → date_ok (cash_day c) →
  let l := _entries b (cash_store c) (cash_day c) (cash_day c) HISTORY_MAX_ENTRIES in
  match cash_kind c with
  | CashCountKind.CLOSING_COUNT => ∃ s, snapshot = Some s ∧
      closing_snapshot digest b (cash_store c) (cash_day c) (cash_counted c) l = Ok s
  | CashCountKind.OPENING_FLOAT => snapshot = None
  end →
  (∀ o, o ∈ entries b → o ∈ entries b') → closing_ok b' (entry_of query_label c id reason snapshot).
Proof.
  intros Hk Hday l Hsnap Hin. split; [done|]. cbn [entry_kind entry_of]. intros Hkind. rewrite Hkind in Hsnap.
  destruct Hsnap as (s & -> & Hs). apply closing_snapshot_Ok in Hs as (x & d & t & Hx & Hd & Ht & ->); [|apply Hk].
  destruct (_current b l CashCountKind.OPENING_FLOAT) as [o|] eqn:Ho;
    exists (drawer_day b (cash_store c) (cash_day c)), x, t; (split; [by apply drawer_day_ok, Hk| |done..]);
    eexists; (split; [exact Hx|]); [|done].
  apply current_elem in Ho as (Hob & Hkey & _). exists o. split; [by apply Hin|done].
Qed.

Lemma kept_record_once c id b b' r : kept b → date_ok (cash_day c) →
  record_once looks_like_phone digest query_label c id b = Ok (b', r) → kept b'.
Proof.
  intros Hk Hday (reason & snapshot & -> & _ & _ & _ & [Hcur Hsnap] & Hins)%record_once_Ok.
  pose proof (corrects_the_last _ _ _ _ _ _ Hk Hcur Hins) as Hlast.
  pose proof Hins as (-> & Hfresh & _ & _ & Hchk & _ & _)%insert_entry_Ok.
  set (e := entry_of query_label c id reason snapshot) in *.
  split; cbn [with_entries entries].
  - split; apply (kept_ledgers _ Hk).
  - rewrite fmap_app. apply NoDup_app. split_and!; [apply Hk| |apply NoDup_singleton].
    intros i Hi ->%list_elem_of_singleton. done.
  - apply Forall_app. split; [apply Hk|by apply Forall_singleton].
  - intros store day kind. rewrite recorded_insert. destruct (of_key store day kind e) eqn:Hkey; [|rewrite app_nil_r; apply Hk].
    apply chain_app; [apply Hk| |by apply checked_reason]. unfold of_key, e in Hkey. cbn in Hkey.
    apply andb_true_iff in Hkey as [[<-%Z.eqb_eq <-%Z.eqb_eq]%andb_true_iff <-%bool_decide_eq_true]. exact Hlast.
  - apply Forall_app. split.
    + eapply Forall_impl; [exact (kept_closings _ Hk)|]. intros o [Hd Hc]. split; [done|]. intros Hkind.
      destruct (Hc Hkind) as (m & x & t & Hr). exists m, x, t. eapply reproduced_later; [|exact Hr].
      intros o' Ho'. apply elem_of_app. by left.
    + apply Forall_singleton. eapply closing_new; [exact Hk|done|exact Hsnap|].
      intros o Ho. apply elem_of_app. by left.
Qed.

Lemma kept_move s s' : kept (tables s) → move s s' → kept (tables s').
Proof.
  intros Hk H. destruct H as [w c id s Hday|p r b Hp|x r b Hp|id e r b Hp _|id e r b He _]; cbn [tables] in *.
  - unfold CashBook.record. destruct (_require _ _ ;; _); [|done].
    destruct (execute _ _ _ _ _) as [s' [y|e]] eqn:He; cbn [fst]; [|by apply execute_Err in He as ->].
    apply execute_Ok in He as (sc & ky & hash & _ & _ & _ & He).
    apply execute_body_spec in He as [(-> & _)|(_ & _ & _ & t & i & He & _ & ->)]; [done|]. cbn [tables].
    by eapply kept_record_once.
  - eapply (kept_moving b); [done| |exact Hk]. destruct (kept_ledgers _ Hk). split; cbn; [|done..].
    apply Forall_app. split; [done|by apply Forall_singleton].
  - eapply (kept_moving b); [done| |exact Hk]. destruct (kept_ledgers _ Hk). split; cbn; [done| |done].
    apply Forall_app. split; [done|by apply Forall_singleton].
  - eapply (kept_moving b); [done| |exact Hk]. destruct (kept_ledgers _ Hk). split; cbn; [done|done|].
    by apply map_Forall_insert_2.
  - eapply (kept_moving b); [done| |exact Hk]. destruct (kept_ledgers _ Hk) as [? ? Hex]. split; cbn; [done|done|].
    apply map_Forall_insert_2; [|done]. exact (Hex id e He).
Qed.

Lemma drawer_kept s : reachable opened move s → kept (tables s).
Proof. apply (reachable_invariant _ _ (λ s, kept (tables s))); [apply kept_opened|apply kept_move]. Qed.
End kept.
