(* ===== verification/CashSafety.v ===== *)
(** What the cash count guarantees over every history of [CashKept]'s moves: one chain of
    corrections a day, and counts that reproduce.  When a count is recorded
    ([CashBook.record_once]): exactly under the stated conditions, and otherwise a named
    refusal; and when a recorded count's sheet says the books moved. *)
From Stdlib Require Import Ascii String.
From S2P Require Import Prelude Clock PyDecimal Text Json Calendar Payments Catalog.
From S2P Require Import Idempotency Approvals CashCount CashBook CashMachine CashKept.
Local Open Scope laundry_scope.
Local Open Scope Z_scope.
#[local] Arguments sumZ : simpl never.

(** * The current entry is the last of its chain *)

Lemma filter_only {A} (f : A → bool) (l : list A) o : NoDup l → last l = Some o →
  (∀ x, x ∈ l → f x = true ↔ x = o) → filter (λ x, f x = true) l = [o].
Proof.
  intros Hnd Hl Hf. apply last_Some in Hl as (l' & ->). rewrite filter_app, filter_cons, filter_nil.
  apply NoDup_app in Hnd as (_ & Hnd & _).
  rewrite decide_True by (apply Hf; [apply elem_of_app; right; left|done]).
  assert (filter (λ x, f x = true) l' = []) as ->; [|done].
  apply elem_of_nil_inv. intros x [Hx Hin]%list_elem_of_filter. apply (Hnd x Hin).
  apply Hf in Hx as ->; [left|]. apply elem_of_app. by left.
Qed.

Section safety.
Context (looks_like_phone : text → bool) (digest : object → string) (query_label : string)
  (request_hash : cash_payload → option string) (uuid_text : Z → string).

Notation happens := (reachable opened (move looks_like_phone digest query_label request_hash uuid_text)).
Notation record_once := (record_once looks_like_phone digest query_label).
Notation kept := (kept digest).

Lemma recorded_NoDup b store day kind : kept b → NoDup (entry_id <$> recorded b store day kind).
Proof.
  intros Hk. eapply sublist_NoDup; [apply (kept_ids _ _ Hk)|]. apply fmap_sublist, sublist_filter.
Qed.

Lemma entry_unique b e o : kept b → e ∈ entries b → o ∈ entries b → entry_id e = entry_id o → e = o.
Proof.
  intros Hk He Ho Heq. apply list_elem_of_lookup in He as [i Hi]. apply list_elem_of_lookup in Ho as [j Hj].
  assert (i = j) as ->; [|congruence].
  eapply NoDup_lookup; [apply (kept_ids _ _ Hk)| |]; rewrite list_lookup_fmap; [by rewrite Hi|by rewrite Hj, Heq].
Qed.

(** Nothing corrects the last entry of a chain. *)
Lemma last_unsuperseded b store day kind o : kept b → last (recorded b store day kind) = Some o →
  superseded b o = false.
Proof.
  intros Hk Hl. apply not_true_iff_false. intros Hs.
  apply existsb_exists in Hs as (n & Hn%list_elem_of_In & Hnm%bool_decide_eq_true).
  assert (Hoin : o ∈ recorded b store day kind) by by apply last_Some_elem_of.
  pose proof Hoin as [Hokey Hob]%list_elem_of_filter.
  assert (Hnin : n ∈ recorded b (entry_store n) (business_day n) (entry_kind n)).
  { apply list_elem_of_filter. split; [|done]. unfold of_key. by rewrite !Z.eqb_refl, bool_decide_true. }
  pose proof (kept_chains _ _ Hk (entry_store n) (business_day n) (entry_kind n)) as Hch.
  destruct (recorded b (entry_store n) (business_day n) (entry_kind n)) as [|x l] eqn:Hr; [by apply elem_of_nil in Hnin|].
  destruct Hch as (Hx & _ & Hch). apply elem_of_cons in Hnin as [->|Hnin]; [congruence|].
  destruct (corrects_names _ _ _ Hch Hnin) as (p & Hp & Hpn). unfold names in Hpn. rewrite Hpn in Hnm. injection Hnm as Hid.
  assert (p = o) as ->.
  { assert (p ∈ recorded b (entry_store n) (business_day n) (entry_kind n)) as Hpr by by rewrite Hr.
    apply list_elem_of_filter in Hpr as [_ Hpb]. by apply (entry_unique b). }
  assert (Hkey : of_key (entry_store n) (business_day n) (entry_kind n) o = true).
  { assert (o ∈ recorded b (entry_store n) (business_day n) (entry_kind n)) as Hor by by rewrite Hr.
    by apply list_elem_of_filter in Hor as [? _]. }
  unfold of_key in Hokey, Hkey.
  apply andb_true_iff in Hokey as [[<-%Z.eqb_eq <-%Z.eqb_eq]%andb_true_iff <-%bool_decide_eq_true].
  apply andb_true_iff in Hkey as [[H1%Z.eqb_eq H2%Z.eqb_eq]%andb_true_iff H3%bool_decide_eq_true].
  rewrite H1, H2, H3, Hr in Hl. eapply (corrects_not_last x l n Hch); [|exact Hnin|by rewrite Hl, Hpn].
  rewrite <- Hr. by apply recorded_NoDup.
Qed.

Lemma unsuperseded_last b store day kind : kept b →
  filter (λ e, negb (superseded b e) = true) (recorded b store day kind) = option_list (last (recorded b store day kind)).
Proof using Type.
  intros Hk. destruct (last (recorded b store day kind)) as [o|] eqn:Hl.
  - apply (filter_only (λ e, negb (superseded b e))); [by eapply NoDup_fmap_1, recorded_NoDup|done|].
    intros e [Hkey Hin]%list_elem_of_filter. rewrite negb_true_iff. split.
    + intros Hs. rewrite (current_last _ _ _ _ _ _ Hk Hin Hkey Hs) in Hl. congruence.
    + intros ->. by eapply last_unsuperseded.
  - apply last_None in Hl. by rewrite Hl.
Qed.

(** The entries of one store's day. *)
Definition sheet_of (b : books) (store day : Z) : list CashCountEntry :=
  filter (λ e, (entry_store e =? store) && (business_day e =? day) = true) (entries b).

Lemma current_is_last b store day kind : kept b → (length (sheet_of b store day) <= HISTORY_MAX_ENTRIES)%nat →
  _current b (_entries b store day day HISTORY_MAX_ENTRIES) kind = last (recorded b store day kind).
Proof using Type.
  clear uuid_text.
  intros Hk Hlen. unfold _current, _entries.
  assert (Hsheet : filter (λ e, (entry_store e =? store) && (day <=? business_day e) && (business_day e <=? day) = true)
    (entries b) = sheet_of b store day).
  { apply list_filter_iff. intros e. rewrite !andb_true_iff, !Z.eqb_eq, !Z.leb_le. lia. }
  rewrite Hsheet. rewrite take_ge by by rewrite stable_sort_length.
  assert (filter (λ e, (entry_kind e is? kind) && negb (superseded b e) = true) (stable_sort entry_leb (sheet_of b store day))
    ≡ₚ option_list (last (recorded b store day kind))) as Hp.
  { rewrite stable_sort_perm, <- unsuperseded_last by done. unfold sheet_of, recorded. rewrite !list_filter_filter.
    apply Permutation_refl', list_filter_iff. intros e. unfold of_key. rewrite !andb_true_iff. tauto. }
  destruct (last (recorded b store day kind)) as [o|]; cbn in Hp.
  - by apply Permutation_singleton_r in Hp as ->.
  - by apply Permutation_nil_r in Hp as ->.
Qed.


End safety.

(** * What an entry of the command passes *)

Lemma ltrim_visible t : visible t → ltrim t = t.
Proof.
  destruct t as [|c t]; [done|]. cbn. intros Hc. case_bool_decide as H; [|done]. by subst c.
Qed.
Lemma btrim_visible t : visible t → visible (reverse t) → btrim t = t.
Proof. intros H1 H2. unfold btrim. by rewrite (ltrim_visible t), ltrim_visible, reverse_involutive. Qed.
Lemma note_shape note : visible note → visible (reverse note) → (length note <= NOTE_MAX)%nat → reason_shape note = true.
Proof.
  intros H1 H2 Hl. unfold reason_shape. rewrite btrim_visible by done. unfold NOTE_MAX in Hl.
  apply andb_true_iff. split; apply Nat.leb_le; [|done]. destruct note; [done|]. cbn. lia.
Qed.

Lemma startswith_prefix p s : startswith (txt p) (txt (p +:+ s)) = true.
Proof.
  unfold startswith. apply bool_decide_eq_true.
  assert (txt (p +:+ s) = txt p ++ txt s) as ->; [|by rewrite take_app_length].
  induction p as [|c p IH]; [done|]. change (c :: txt (p +:+ s) = c :: (txt p ++ txt s)). by rewrite IH.
Qed.

(** The books' figures have a canonical form. *)
Record figures_safe (m : DrawerMovement) : Prop := {
  takings_safe : cash_in_vnd m + COUNTED_MAX_VND <= MAX_JCS_INTEGER;
  payouts_safe : cash_refunded_vnd m + drawer_expenses_vnd m <= MAX_JCS_INTEGER;
  unknown_safe : unknown_refunds_vnd m <= MAX_JCS_INTEGER;
  counts_safe : cash_in_entries m <= MAX_JCS_INTEGER ∧ cash_refunded_entries m <= MAX_JCS_INTEGER ∧
    unknown_refunds_entries m <= MAX_JCS_INTEGER ∧ drawer_expenses_entries m <= MAX_JCS_INTEGER;
}.

Section answers.
Context (looks_like_phone : text → bool) (digest : object → string) (query_label : string)
  (request_hash : cash_payload → option string) (uuid_text : Z → string).

Notation happens := (reachable opened (move looks_like_phone digest query_label request_hash uuid_text)).
Notation record_once := (record_once looks_like_phone digest query_label).
Notation kept := (kept digest).

Lemma jcs_safe_int z : - MAX_JCS_INTEGER <= z <= MAX_JCS_INTEGER → jcs_safe (JInt z) = true.
Proof. intros H. cbn. apply andb_true_iff. split; apply Z.leb_le; lia. Qed.
Lemma jcs_safe_optional o : from_option (λ z, - MAX_JCS_INTEGER <= z <= MAX_JCS_INTEGER) True o →
  jcs_safe (optional_int o) = true.
Proof. destruct o; [apply jcs_safe_int|done]. Qed.

Lemma closing_trace_total day c float m x d : movement_ok m = true → figures_safe m →
  from_option (λ f, 0 <= f <= COUNTED_MAX_VND) True float → 0 <= c <= COUNTED_MAX_VND →
  expected_cash float m = Ok x → cash_difference c x = Ok d →
  closing_trace digest day c x d
  = Ok (MkCountTrace (closing_document day c x d) (HASH_PREFIX +:+ digest (closing_document day c x d))).
Proof.
  intros Hm [Hin Hout Hun (N1 & N2 & N3 & N4)] Hf Hc Hx Hd. unfold closing_trace, snapshot_hash.
  assert (forallb jcs_safe (closing_document day c x d).*2 = true) as ->; [|done].
  pose proof (expected_cash_Ok _ _ _ Hx) as (Hxm & Hxf & Hv). pose proof (cash_difference_Ok _ _ _ Hd) as [_ Hdif].
  unfold movement_ok in Hm. cbn [forallb] in Hm. rewrite !andb_true_iff, !Z.leb_le in Hm.
  assert (Hmax : COUNTED_MAX_VND <= MAX_JCS_INTEGER) by (vm_compute; congruence).
  assert (Hfigure : from_option (λ z, 0 <= z <= MAX_JCS_INTEGER) True (expected_vnd x)).
  { destruct (expected_vnd x); [|done]. cbn in *. destruct Hv as (_ & ? & f & -> & _ & ->). cbn in Hf. lia. }
  assert (Hdiff : from_option (λ z, - MAX_JCS_INTEGER <= z <= MAX_JCS_INTEGER) True (difference_amount_vnd <$> d)).
  { destruct (expected_vnd x) as [v|], d as [d|]; try done. cbn in *. destruct Hdif as (H1 & H2 & _).
    unfold signed in H2. destruct (difference_direction d) eqn:E; [|lia|lia].
    unfold cash_difference in Hd. clear - Hd H1 E Hmax Hc Hfigure. apply bind_Ok in Hd as (? & _ & Hd).
    destruct (expected_vnd x) as [w|]; [|done]. destruct (Z.eqb_spec (c - w) 0).
    - injection Hd as <-. cbn in *. lia.
    - injection Hd as <-. cbn in *. by destruct (0 <? c - w). }
  assert (Hbooks : from_option (λ z, - MAX_JCS_INTEGER <= z <= MAX_JCS_INTEGER) True (books_over_vnd x)).
  { clear - Hx Hf Hm Hin Hout. unfold expected_cash in Hx. destruct float as [f|]; [|by injection Hx as <-].
    cbn in Hf. apply bind_Ok in Hx as (? & _ & Hx).
    destruct (Z.ltb_spec (f + cash_in_vnd m - cash_refunded_vnd m - drawer_expenses_vnd m) 0); injection Hx as <-; cbn; [lia|done]. }
  assert (Hfloat : from_option (λ z, - MAX_JCS_INTEGER <= z <= MAX_JCS_INTEGER) True (float_vnd x)).
  { rewrite Hxf. destruct float; [|done]. cbn in *. lia. }
  unfold closing_document. rewrite Hxm. cbn [fmap list_fmap snd forallb].
  rewrite !jcs_safe_int by (cbn; lia). rewrite !jcs_safe_optional; try done; [|by destruct (expected_vnd x); cbn in *; [lia|]].
  by destruct d.
Qed.
(** * The entry of an accepted command *)

Lemma existsb_none {A} (f : A → bool) l : (∀ x, x ∈ l → f x = false) → existsb f l = false.
Proof.
  intros H. apply not_true_iff_false. intros Hx. apply existsb_exists in Hx as (x & Hx%list_elem_of_In & Hf).
  by rewrite (H x Hx) in Hf.
Qed.

Notation snapshot := (option (ExpectedCash * option CashDifference * option CashCountEntry * CountTrace)).
(** The books' side of an entry, as [closing_snapshot] makes it of the current float. *)
Definition snapshot_ok (b : books) (c : RecordCashCountCommand) (sn : snapshot) : Prop :=
  match cash_kind c, sn with
  | CashCountKind.OPENING_FLOAT, None => True
  | CashCountKind.CLOSING_COUNT, Some (x, d, o, t) =>
      expected_cash (counted_vnd <$> o) (drawer_day b (cash_store c) (cash_day c)) = Ok x ∧
      cash_difference (cash_counted c) x = Ok d ∧
      (∀ o', o = Some o' → o' ∈ entries b ∧ of_key (cash_store c) (cash_day c) CashCountKind.OPENING_FLOAT o' = true) ∧
      trace_hash t = HASH_PREFIX +:+ digest (document t)
  | _, _ => False
  end.

Lemma closing_shape_of b c id reason sn : cash_kind c = CashCountKind.CLOSING_COUNT → snapshot_ok b c sn →
  closing_shape (entry_of query_label c id reason sn) = true ∧
  from_option (Z.leb 0) true (entry_expected_vnd (entry_of query_label c id reason sn)) = true ∧
  from_option (λ d, 0 <=? difference_amount_vnd d) true (entry_difference (entry_of query_label c id reason sn)) = true ∧
  from_option (λ t, startswith (txt HASH_PREFIX) (txt (trace_hash t))) true (entry_trace (entry_of query_label c id reason sn)) = true.
Proof.
  unfold snapshot_ok. intros ->. destruct sn as [[[[x d] o] t]|]; [|done]. intros (Hx & Hd & _ & Ht).
  destruct (expected_cash_Ok _ _ _ Hx) as (_ & _ & Hv). destruct (cash_difference_Ok _ _ _ Hd) as [_ Hdif].
  pose proof (startswith_prefix HASH_PREFIX (digest (document t))) as Hp. rewrite <- Ht in Hp.
  assert (Hf : Bool.eqb (negb (present (entry_id <$> o))) (expected_status x is? ExpectedStatus.FLOAT_MISSING) = true).
  { unfold expected_cash in Hx. destruct o as [o|]; cbn in Hx; [|by injection Hx as <-].
    apply bind_Ok in Hx as (? & _ & Hx). destruct (_ <? 0); injection Hx as <-; [done|]. cbn. by destruct (_ =? 0). }
  assert (Hfig : from_option (Z.leb 0) true (expected_vnd x) = true ∧
    from_option (λ d, 0 <=? difference_amount_vnd d) true d = true ∧
    Bool.eqb (present (expected_vnd x)) (expected_status x in? PRODUCED) = true ∧
    Bool.eqb (present d) (present (expected_vnd x)) = true ∧
    match d with
    | Some d => if difference_direction d is? DifferenceDirection.EVEN then difference_amount_vnd d =? 0
                else 0 <? difference_amount_vnd d
    | None => true
    end = true).
  { destruct (expected_vnd x) as [v|], d as [d|]; try done.
    - destruct Hv as (Hpr & Hpos & _). destruct Hdif as (H1 & _ & H2). unfold produced in Hpr. cbn. rewrite Hpr.
      split_and!; try done; try by apply Z.leb_le.
      destruct (decide (difference_direction d = DifferenceDirection.EVEN)) as [He|He].
      + rewrite bool_decide_true by done. apply Z.eqb_eq, H2, He.
      + rewrite bool_decide_false by done. apply Z.ltb_lt. destruct (Z.eq_dec (difference_amount_vnd d) 0); [|lia].
        by destruct He; apply H2.
    - destruct Hv as [Hpr _]. unfold produced in Hpr. cbn. by rewrite Hpr. }
  destruct Hfig as (F1 & F2 & F3 & F4 & F5). split_and!; [|exact F1|exact F2|exact Hp].
  unfold closing_shape. cbn [entry_of entry_trace rule_version entry_status entry_expected_vnd entry_difference float_entry_id
    fmap option_fmap option_map mbind option_bind present andb fst snd]. rewrite F3, F4, F5. exact Hf.
Qed.

Lemma entry_checks_of b c id reason sn : snapshot_ok b c sn → 0 <= cash_counted c <= COUNTED_MAX_VND →
  correction_reason looks_like_phone (cash_reason c) (present (supersedes_entry_id c)) = Ok reason →
  supersedes_entry_id c ≠ Some id → entry_checks (entry_of query_label c id reason sn) = true.
Proof.
  intros Hsn Hc Hr%reason_Ok Hself. unfold entry_checks. cbn [counted_vnd entry_reason supersedes_id entry_id entry_kind entry_of].
  rewrite !(proj2 (Z.leb_le _ _)) by (unfold COUNTED_MAX_VND in Hc; lia). rewrite (bool_decide_false _ Hself).
  assert (from_option reason_shape true reason = true ∧
    Bool.eqb (negb (present (supersedes_entry_id c))) (negb (present reason)) = true) as [-> ->].
  { destruct reason as [note|]; [|by rewrite Hr]. destruct Hr as (-> & H1 & H2 & H3). split; [by apply note_shape|done]. }
  destruct (cash_kind c) eqn:Hk.
  - unfold snapshot_ok in Hsn. rewrite Hk in Hsn. by destruct sn as [[[[? ?] ?] ?]|].
  - destruct (closing_shape_of b c id reason sn Hk Hsn) as (H1 & H2 & H3 & H4). by rewrite H1, H2, H3, H4.
Qed.

Lemma insert_accepts b c id reason sn : kept b → id ∉ entry_id <$> entries b → snapshot_ok b c sn →
  0 <= cash_counted c <= COUNTED_MAX_VND →
  correction_reason looks_like_phone (cash_reason c) (present (supersedes_entry_id c)) = Ok reason →
  supersedes_entry_id c = (entry_id <$> last (recorded b (cash_store c) (cash_day c) (cash_kind c))) →
  insert_entry b (entry_of query_label c id reason sn)
  = Ok (with_entries b (entries b ++ [entry_of query_label c id reason sn])).
Proof.
  intros Hk Hid Hsn Hc Hr Hs. set (e := entry_of query_label c id reason sn).
  assert (Hlast : ∀ o, last (recorded b (cash_store c) (cash_day c) (cash_kind c)) = Some o →
    o ∈ entries b ∧ of_key (cash_store c) (cash_day c) (cash_kind c) o = true).
  { intros o Ho%last_Some_elem_of. by apply list_elem_of_filter in Ho as [? ?]. }
  assert (Hself : supersedes_entry_id c ≠ Some id).
  { rewrite Hs. destruct (last _) as [o|] eqn:Hl; [|done]. intros [= Heq]. apply Hid. rewrite <- Heq.
    by apply list_elem_of_fmap_2, Hlast. }
  assert (Hlinked : ∀ i o kind, i = Some (entry_id o) → o ∈ entries b → of_key (cash_store c) (cash_day c) kind o = true →
    linked b i e kind = true).
  { intros i o kind -> Ho Hkey. apply existsb_exists. exists o. split; [by apply list_elem_of_In|]. rewrite Z.eqb_refl. exact Hkey. }
  unfold insert_entry. assert (entry_checks e = true) as -> by by apply (entry_checks_of b).
  rewrite (existsb_none (λ o, entry_id o =? entry_id e)).
  2: { intros o Ho. apply Z.eqb_neq. intros Heq. apply Hid. change id with (entry_id e). rewrite <- Heq. by apply list_elem_of_fmap_2. }
  rewrite (existsb_none (same_original e)).
  2: { intros o Ho. apply not_true_iff_false. unfold same_original. intros H. guards.
       destruct (last (recorded b (cash_store c) (cash_day c) (cash_kind c))) as [x|] eqn:Hl.
       - cbn in Hs. match goal with H : present (supersedes_id e) = false |- _ => cbn in H; by rewrite Hs in H end.
       - apply last_None in Hl. assert (o ∈ recorded b (cash_store c) (cash_day c) (cash_kind c)) as Hin; [|rewrite Hl in Hin; by apply elem_of_nil in Hin].
         apply list_elem_of_filter. split; [|done]. unfold of_key. cbn in *. rewrite !andb_true_iff, !Z.eqb_eq, bool_decide_eq_true. done. }
  assert (present (supersedes_id e) && existsb (λ o, supersedes_id o is? supersedes_id e) (entries b) = false) as ->.
  { cbn. rewrite Hs. destruct (last _) as [x|] eqn:Hl; [|done]. cbn. exact (last_unsuperseded _ _ _ _ _ _ Hk Hl). }
  assert (linked b (supersedes_id e) e (entry_kind e) = true) as ->.
  { cbn. rewrite Hs. destruct (last _) as [x|] eqn:Hl; [|done]. destruct (Hlast _ eq_refl) as [Hx Hkey].
    by apply (Hlinked _ x). }
  assert (linked b (float_entry_id e) e CashCountKind.OPENING_FLOAT = true) as ->; [|done].
  unfold snapshot_ok in Hsn. destruct sn as [[[[x d] o] t]|]; cbn; [|done].
  destruct (cash_kind c); [done|]. destruct Hsn as (_ & _ & Ho & _). destruct o as [o|]; [|done].
  destruct (Ho o eq_refl) as [Hin Hkey]. by apply (Hlinked _ o).
Qed.
(** * When a count is recorded *)

Definition accepted (b : books) (c : RecordCashCountCommand) : Prop :=
  cash_day c = cash_today c ∧ 0 <= cash_counted c <= COUNTED_MAX_VND ∧
  supersedes_entry_id c = (entry_id <$> last (recorded b (cash_store c) (cash_day c) (cash_kind c))) ∧
  ∃ reason, correction_reason looks_like_phone (cash_reason c) (present (supersedes_entry_id c)) = Ok reason.

Lemma closing_snapshot_total b store day counted o : kept b → figures_safe (drawer_day b store day) →
  (∀ e, o = Some e → e ∈ entries b) → 0 <= counted <= COUNTED_MAX_VND →
  ∃ x d t, expected_cash (counted_vnd <$> o) (drawer_day b store day) = Ok x ∧ cash_difference counted x = Ok d ∧
    closing_trace digest day counted x d = Ok t.
Proof.
  intros Hk Hsafe Ho Hc.
  assert (Hf : from_option (λ f, 0 <= f <= COUNTED_MAX_VND) True (counted_vnd <$> o)).
  { destruct o as [e|]; [|done]. pose proof (kept_checks _ _ Hk) as Hch. rewrite Forall_forall in Hch.
    specialize (Hch e (Ho e eq_refl)). unfold entry_checks in Hch. rewrite !andb_true_iff, !Z.leb_le in Hch.
    assert (0 <= counted_vnd e ∧ counted_vnd e <= 1_000_000_000) by tauto. cbn. unfold COUNTED_MAX_VND. lia. }
  assert (∃ x, expected_cash (counted_vnd <$> o) (drawer_day b store day) = Ok x) as [x Hx].
  { unfold expected_cash. destruct (counted_vnd <$> o) as [f|]; [|by eexists]. cbn in Hf.
    unfold require_non_negative_vnd. rewrite (proj2 (Z.ltb_ge f 0)) by lia. cbn. destruct (_ <? 0); by eexists. }
  assert (∃ d, cash_difference counted x = Ok d) as [d Hd].
  { unfold cash_difference, require_non_negative_vnd. rewrite (proj2 (Z.ltb_ge counted 0)) by lia. by eexists. }
  exists x, d. eexists. split; [done|]. split; [done|].
  eapply closing_trace_total; [by apply drawer_day_ok, Hk|done|exact Hf|done|exact Hx|exact Hd].
Qed.

Lemma record_accepts b c id : kept b → id ∉ entry_id <$> entries b →
  (length (sheet_of b (cash_store c) (cash_day c)) <= HISTORY_MAX_ENTRIES)%nat →
  figures_safe (drawer_day b (cash_store c) (cash_day c)) → accepted b c → ∃ r, record_once c id b = Ok r.
Proof.
  intros Hk Hid Hlen Hsafe (Hday & Hc & Hs & reason & Hr). unfold CashBook.record_once, recording_day.
  rewrite (proj2 (Z.eqb_eq _ _) Hday). cbn [negb raise_if mbind result_bind _refusal].
  unfold counted_amount. rewrite !(proj2 (Z.ltb_ge _ _)) by lia. cbn [raise_if mbind result_bind _refusal].
  rewrite Hr. cbn [mbind result_bind _refusal]. rewrite (current_is_last digest) by done.
  assert (_require_current (last (recorded b (cash_store c) (cash_day c) (cash_kind c))) (supersedes_entry_id c) = Ok tt) as ->.
  { rewrite Hs. unfold _require_current. destruct (last _); [|done]. cbn. by rewrite bool_decide_true. }
  cbn [mbind result_bind]. case_bool_decide as Hkind.
  - pose proof (current_is_last digest b (cash_store c) (cash_day c) CashCountKind.OPENING_FLOAT Hk Hlen) as Hop.
    set (o := _current b _ CashCountKind.OPENING_FLOAT) in Hop.
    assert (Hin : ∀ e, o = Some e → e ∈ entries b ∧ of_key (cash_store c) (cash_day c) CashCountKind.OPENING_FLOAT e = true).
    { intros e He. destruct (current_elem _ _ _ _ _ _ He) as (? & ? & _). done. }
    destruct (closing_snapshot_total b (cash_store c) (cash_day c) (cash_counted c) o Hk Hsafe) as (x & d & t & Hx & Hd & Ht);
      [intros e He; by apply Hin|done|].
    assert (closing_snapshot digest b (cash_store c) (cash_day c) (cash_counted c)
      (_entries b (cash_store c) (cash_day c) (cash_day c) HISTORY_MAX_ENTRIES) = Ok (x, d, o, t)) as ->.
    { apply closing_snapshot_Ok; [apply Hk|]. by exists x, d, t. }
    cbn [mbind result_bind]. rewrite insert_accepts with (reason := reason); try done; [by eexists|].
    unfold snapshot_ok. rewrite Hkind. split_and!; [done|done|done|]. by apply closing_trace_Ok in Ht as (_ & ? & _).
  - cbn [mbind result_bind]. rewrite insert_accepts with (reason := reason); try done; [by eexists|].
    unfold snapshot_ok. by destruct (cash_kind c).
Qed.

Lemma reason_refused value correcting e : correction_reason looks_like_phone value correcting = Err e →
  ∃ code, e = CashCountRefused code.
Proof.
  unfold correction_reason. intros [H|(r & _ & H)]%bind_Err.
  - destruct (capture_note _ _) as [?|[]]; [done|..]; injection H as <-; by eexists.
  - apply raise_bind_Err in H as [[_ <-]|[_ H]]; [by eexists|].
    apply raise_bind_Err in H as [[_ <-]|[_ H]]; [by eexists|done].
Qed.

Lemma record_refused b c id e : record_once c id b = Err e →
  (∃ code conflict, e = CashCountRefusal code conflict) ∨
  (cash_day c = cash_today c ∧ 0 <= cash_counted c <= COUNTED_MAX_VND ∧
   (∃ reason, correction_reason looks_like_phone (cash_reason c) (present (supersedes_entry_id c)) = Ok reason) ∧
   (entry_id <$> _current b (_entries b (cash_store c) (cash_day c) (cash_day c) HISTORY_MAX_ENTRIES) (cash_kind c))
     = supersedes_entry_id c).
Proof.
  unfold CashBook.record_once, recording_day. destruct (Z.eqb_spec (cash_day c) (cash_today c)) as [Hday|];
    [|intros [= <-]; left; by do 2 eexists]. cbn [negb raise_if mbind result_bind _refusal].
  unfold counted_amount. destruct (Z.ltb_spec (cash_counted c) 0); [intros [= <-]; left; by do 2 eexists|].
  cbn [raise_if mbind result_bind _refusal]. destruct (Z.ltb_spec COUNTED_MAX_VND (cash_counted c));
    [intros [= <-]; left; by do 2 eexists|]. cbn [raise_if mbind result_bind _refusal].
  destruct (correction_reason _ _ _) as [reason|e'] eqn:Hr.
  2: { destruct (reason_refused _ _ _ Hr) as [code ->]. intros [= <-]. left. by do 2 eexists. }
  cbn [mbind result_bind _refusal]. destruct (_require_current _ _) as [u|e'] eqn:Hcur.
  - intros _. right. split_and!; [done|lia|lia|by exists reason|]. by apply require_current_Ok in Hcur.
  - intros [= <-]. left. unfold _require_current in Hcur. apply raise_bind_Err in Hcur as [[_ <-]|[_ Hcur]]; [by do 2 eexists|].
    apply raise_if_Err in Hcur as [_ <-]. by do 2 eexists.
Qed.


(** * The books moved *)

Lemma closing_document_inj day c x d x' d' : closing_document day c x d = closing_document day c x' d' →
  float_vnd x = float_vnd x' ∧ movement x = movement x'.
Proof.
  unfold closing_document. destruct x as [st v f [] o], x' as [st' v' f' [] o']. cbn. intros [=]. subst.
  split; [|congruence]. by destruct f, f'; cbn in *; congruence.
Qed.

(** the sheet says when the books moved.  Where a closing count is current, its stored trace
    was made of an expected figure [x] that its own movement and float give; if the sheet marks
    the count as changed, what the books and the current float say now is not [x], and if it is
    not [x] the sheet marks the count, unless the digest of two different documents is one. *)
Theorem changed_since_count_exact s store day sheet e : happens s →
  read_day digest (tables s) store day = Ok sheet → closing_count sheet = Some e →
  ∃ x t, entry_trace e = Some t ∧ closing_trace digest day (counted_vnd e) x (entry_difference e) = Ok t ∧
    expected_cash (float_vnd x) (movement x) = Ok x ∧
    expected_cash (counted_vnd <$> opening_float sheet) (drawer_day (tables s) store day) = Ok (day_expected sheet) ∧
    (changed_since_count sheet = true → day_expected sheet ≠ x) ∧
    (day_expected sheet ≠ x → changed_since_count sheet = true ∨ ∃ d d', d ≠ d' ∧ digest d = digest d').
Proof.
  intros Hk%drawer_kept Hread Hcl. set (b := tables s) in *. unfold read_day in Hread.
  pose proof (one_day b store day (kept_ledgers _ _ Hk)) as Hone.
  destruct (uncaught (drawer_movements b store day day)) as [ms|]; [|done]. cbn in Hone, Hread. rewrite Hone in Hread. cbn in Hread.
  unfold _day in Hread. apply bind_Ok in Hread as (x' & Hx' & Hread). apply bind_Ok in Hread as (ch & Hch & [= <-]).
  cbn in Hcl |- *. rewrite Hcl in Hch. apply bind_Ok in Hch as (d' & Hd' & Hch). apply bind_Ok in Hch as (t' & Ht' & [= <-]).
  apply current_elem in Hcl as (Hin & Hkey & _).
  pose proof (kept_closings _ _ Hk) as Hcs. rewrite Forall_forall in Hcs. destruct (Hcs e Hin) as [_ Hc].
  unfold of_key in Hkey. apply andb_true_iff in Hkey as [[_ <-%Z.eqb_eq]%andb_true_iff Hkind%bool_decide_eq_true].
  destruct (Hc Hkind) as (m & x & t & [Hm (float & Hx & _) Hd Ht Hst _ _]). exists x, t.
  destruct (expected_cash_Ok _ _ _ Hx) as (Hxm & Hxf & _). split; [done|]. split; [done|]. split; [by rewrite Hxm, Hxf|].
  split; [by destruct (expected_cash _ _); [injection Hx' as ->|]|].
  assert (Hxx : expected_cash (float_vnd x') (movement x') = Ok x').
  { destruct (expected_cash _ _) as [y|] eqn:Hy; [|done]. injection Hx' as ->.
    destruct (expected_cash_Ok _ _ _ Hy) as (-> & -> & _). exact Hy. }
  assert (Hdd : cash_difference (counted_vnd e) x' = Ok d') by (by destruct (cash_difference _ _); [injection Hd' as ->|]).
  assert (Htt : closing_trace digest (business_day e) (counted_vnd e) x' d' = Ok t')
    by (by destruct (closing_trace _ _ _ _ _); [injection Ht' as ->|]).
  rewrite Hst. rewrite negb_true_iff, bool_decide_eq_false.
  destruct (closing_trace_Ok _ _ _ _ _ _ Ht) as (Hdoc & Hhash & _). destruct (closing_trace_Ok _ _ _ _ _ _ Htt) as (Hdoc' & Hhash' & _).
  split; [intros Hne Heq|intros Hne]; cbn in *.
  - subst x'. assert (d' = entry_difference e) as -> by congruence. congruence.
  - destruct (decide (trace_hash t' = trace_hash t)) as [Heq|Hneq]; [right|left; congruence].
    rewrite Hhash, Hhash' in Heq. apply (inj (String.append HASH_PREFIX)) in Heq. exists (document t'), (document t).
    split; [|done]. intros Hdocs. rewrite Hdoc, Hdoc' in Hdocs. apply closing_document_inj in Hdocs as [Hf Hmv].
    apply Hne. rewrite Hf, Hmv in Hxx. rewrite <- Hxm, <- Hxf in Hx. congruence.
Qed.
End answers.
