(* ===== verification/CashExamples.v ===== *)
(** A day of one shop's drawer, run as a function: a float, takings, a refund nobody said how,
    an expense and its voiding, a closing count that is short, its correction, and what the
    sheet says when a late payment comes; and a day with a thousand and one entries. *)
From Stdlib Require Import Ascii String.
From S2P Require Import Prelude Clock PyDecimal Text Json Calendar Payments Catalog.
From S2P Require Import Idempotency Approvals CashCount CashMachine CashBook CashKept CashSafety.
Local Open Scope laundry_scope.
Local Open Scope Z_scope.

(** * Histories as functions *)

Inductive event :=
  | Counts (w : world) (c : RecordCashCountCommand) (id : Z)
  | Takes (p : payment_row)
  | HandsBack (x : refund_row)
  | Spends (id : Z) (e : expense_row)
  | Voids (id : Z).

Section run.
Context (looks_like_phone : text → bool) (digest : object → string) (query_label : string)
  (request_hash : cash_payload → option string) (uuid_text : Z → string).

Notation drawer := (Idempotency.store (T := books) (R := Z)).

Definition happen (s : drawer) (e : event) : option drawer :=
  let '(Store r b) := s in
  match e with
  | Counts w c id =>
      if decide (date_ok (cash_day c)) then
        Some (record looks_like_phone digest query_label request_hash uuid_text w s c id).1
      else None
  | Takes p => if decide (0 <= payment_amount p) then Some (Store r (with_payments b (payments b ++ [p]))) else None
  | HandsBack x => if decide (0 <= refund_amount x) then Some (Store r (with_refunds b (refunds b ++ [x]))) else None
  | Spends id e =>
      match expenses b !! id with
      | None => if decide (0 <= expense_amount e) then Some (Store r (with_expenses b (<[id := e]> (expenses b)))) else None
      | Some _ => None
      end
  | Voids id =>
      match expenses b !! id with
      | Some e => if voided e then None else Some (Store r (with_expenses b (<[id := void e]> (expenses b))))
      | None => None
      end
  end.
Fixpoint happens_all (s : drawer) (es : list event) : option drawer :=
  match es with
  | [] => Some s
  | e :: es => s ← happen s e; happens_all s es
  end.

Notation moves := (move looks_like_phone digest query_label request_hash uuid_text).

Lemma event_moves s e s' : happen s e = Some s' → moves s s'.
Proof.
  destruct s as [r b]. destruct e as [w c id|p|x|id e|id]; cbn [happen]; intros H; repeat case_match; simplify_eq; by econstructor.
Qed.
Lemma events_move es : ∀ s s', happens_all s es = Some s' → rtc moves s s'.
Proof.
  induction es as [|e es IH]; intros s s' H; cbn in H; [by injection H as <-|].
  apply bind_Some in H as (s1 & H1 & H). eapply rtc_l; [by eapply event_moves|by apply IH].
Qed.
End run.

(** * A day at the counter *)

Definition may_4th : Z := day_number 2026 5 4.
(** An hour of that day by the shop's clock. *)
Definition at_hour (h : Z) : datetime := DateTime ((may_4th * 24 + h - 7) * 3_600_000_000) (Some 0).

(** A stand-in digest: the sum of a document's figures. *)
Definition figure (value : json) : Z := match value with JInt z => z | _ => 0 end.
Definition figures_sum (d : object) : string := string_of_list_ascii (zero_padded 12 (sumZ (figure <$> d.*2))).

Definition cashier : StaffPrincipal := Principal 10 [ActorRole.OPERATOR] true.
Definition drawer_world : world :=
  World (λ staff store, (store =? 1) && (staff =? 10)) (λ _, None)
    (λ _, None) (λ _ _, None) (λ _, None) (λ _, None) (λ _, None) (λ _, None) (λ _, false) (λ _ _, None).
Definition float_of (vnd : Z) (key : string) (hour : Z) : RecordCashCountCommand :=
  RecordCommand 1 may_4th CashCountKind.OPENING_FLOAT vnd None None cashier key may_4th (at_hour hour).
Definition count_of (vnd : Z) (corrects : option Z) (reason : option text) (key : string) (hour : Z) : RecordCashCountCommand :=
  RecordCommand 1 may_4th CashCountKind.CLOSING_COUNT vnd corrects reason cashier key may_4th (at_hour hour).
Definition missed : text := txt "missed a 50.000 note".
Definition corrected : RecordCashCountCommand := count_of 780000 (Some 2) (Some missed) "count-2" 21.

(** 500.000 in, 300.000 taken in cash, 20.000 spent; 730.000 counted, and then 780.000. *)
Definition the_day : list event :=
  [Counts drawer_world (float_of 500000 "float-1" 7) 1;
   Takes (PaymentRow 1 PaymentMethod.TIEN_MAT 300000 (at_hour 9));
   Spends 70 (ExpenseRow 1 may_4th 20000 true false);
   Spends 71 (ExpenseRow 1 may_4th 5000 true false);
   Voids 71;
   HandsBack (RefundRow 1 40000 None (at_hour 12));
   Counts drawer_world (count_of 730000 None None "count-1" 20) 2;
   Counts drawer_world (count_of 730000 None None "count-1" 20) 9].
Definition same_key (p : cash_payload) : option string := Some "request"%string.
Definition runs (es : list event) : option (Idempotency.store (T := books) (R := Z)) :=
  happens_all (λ _, false) figures_sum "cash-v1" same_key (λ _, "7"%string) (Store ∅ (Books [] [] ∅ [])) es.

Lemma runs_reachable es s : runs es = Some s →
  reachable opened (move (λ _, false) figures_sum "cash-v1" same_key (λ _, "7"%string)) s.
Proof. intros H%events_move. eexists. split; [|exact H]. reflexivity. Qed.

(** A figure of the run history, computed once. *)
Lemma of_run {A} (f : Idempotency.store (T := books) (R := Z) → A) es s a : runs es = Some s → f <$> runs es = Some a → f s = a.
Proof. intros ->. by injection 1. Qed.
Lemma runs_to es : (match runs es with Some _ => true | None => false end) = true → ∃ s, runs es = Some s.
Proof. destruct (runs es) as [s|]; [by exists s|done]. Qed.
#[local] Ltac from_run E f := refine (of_run f _ _ _ E _); vm_compute; reflexivity.

(** The replayed request recorded nothing again; the count is 50.000 short. *)
Definition shown (e : CashCountEntry) : Z * option ExpectedStatus.t * option Z * option CashDifference * option Z :=
  (entry_id e, entry_status e, entry_expected_vnd e, entry_difference e, float_entry_id e).
Example counted_short : (λ s, shown <$> entries (tables s)) <$> runs the_day
  = Some [(1, None, None, None, None);
          (2, Some ExpectedStatus.INCOMPLETE, Some 780000, Some (MkCashDifference 50000 DifferenceDirection.SHORT), Some 1)].
Proof. vm_compute. reflexivity. Qed.

(** The correction, then the late payment: 790.000 against 780.000 counted, and the sheet says so. *)
Definition corrected_day : list event := the_day ++ [Counts drawer_world corrected 3].
Definition late_payment : list event :=
  corrected_day ++ [Takes (PaymentRow 1 PaymentMethod.TIEN_MAT 10000 (at_hour 22))].
Definition sheet_after (es : list event) : option CashCountDay :=
  s ← runs es;
  match read_day figures_sum (tables s) 1 may_4th with Ok d => Some d | Err _ => None end.
Definition figures_shown (d : CashCountDay) : option Z * option Z * bool :=
  (entry_id <$> closing_count d, expected_vnd (day_expected d), changed_since_count d).
Example corrected_sheet : figures_shown <$> sheet_after corrected_day = Some (Some 3, Some 780000, false).
Proof. vm_compute. reflexivity. Qed.
Example late_sheet : figures_shown <$> sheet_after late_payment = Some (Some 3, Some 790000, true).
Proof. vm_compute. reflexivity. Qed.



(** The correction is taken because it names the count before it and says why; one that names
    the float is refused. *)
Definition stale : RecordCashCountCommand := count_of 780000 (Some 1) (Some missed) "count-3" 21.
Definition refused_as (c : RecordCashCountCommand) (s : Idempotency.store (T := books) (R := Z)) : option CashFailure :=
  match record_once (λ _, false) figures_sum "cash-v1" c 3 (tables s) with Ok _ => None | Err e => Some e end.

Lemma changed_since_count_exact_witness :
  ∃ s sheet e, runs late_payment = Some s ∧ read_day figures_sum (tables s) 1 may_4th = Ok sheet ∧
    closing_count sheet = Some e ∧ expected_vnd (day_expected sheet) = Some 790000 ∧
    ∃ x, day_expected sheet ≠ x ∧ expected_cash (float_vnd x) (movement x) = Ok x.
Proof.
  destruct (runs_to late_payment) as [s E]; [vm_compute; reflexivity|].
  assert (H : match read_day figures_sum (tables s) 1 may_4th with Ok d => Some (figures_shown d) | Err _ => None end
              = Some (Some 3, Some 790000, true))
    by from_run E (λ s, match read_day figures_sum (tables (R := Z) s) 1 may_4th with
                        | Ok d => Some (figures_shown d) | Err _ => None end).
  destruct (read_day figures_sum (tables s) 1 may_4th) as [sheet|] eqn:R; [|discriminate H].
  injection H as Hcl Hx Hch. destruct (closing_count sheet) as [e|] eqn:He; [|discriminate Hcl].
  destruct (changed_since_count_exact _ _ _ _ _ s 1 may_4th sheet e (runs_reachable _ _ E) R He)
    as (x & t & _ & _ & Hxx & _ & Hne & _).
  exists s, sheet, e. split; [exact E|]. split; [exact R|]. split; [exact He|]. split; [exact Hx|].
  exists x. split; [by apply Hne|exact Hxx].
Defined.

(** * A day of a thousand and one entries *)

(** The float, corrected a thousand times: the read stops at the thousandth, which the last
    one corrects, so the sheet shows no float at all, and no entry can be corrected any more. *)
Definition nth_float (n : Z) : CashCountEntry :=
  entry_of "cash-v1" (RecordCommand 1 may_4th CashCountKind.OPENING_FLOAT (500000 + n)
                        (if n =? 1 then None else Some (n - 1)) (if n =? 1 then None else Some missed)
                        cashier "key" may_4th (at_hour 7)) n (if n =? 1 then None else Some missed) None.
Definition busy_book : books := Books [] [] ∅ (nth_float <$> seqZ 1 1001).
Example busy_book_reads_none :
  _current busy_book (_entries busy_book 1 may_4th may_4th HISTORY_MAX_ENTRIES) CashCountKind.OPENING_FLOAT = None ∧
  match record_once (λ _, false) figures_sum "cash-v1"
    (RecordCommand 1 may_4th CashCountKind.OPENING_FLOAT 0 (Some 1001) (Some missed) cashier "again" may_4th (at_hour 8)) 1002 busy_book
  with Err e => e = CashCountRefusal "CASH_COUNT_STALE" true | Ok _ => False end.
Proof. split; vm_compute; reflexivity. Qed.
