(* ===== verification/LateDelivery.v ===== *)
(** How late a delivery was ([packages/domain/.../late_delivery.py]): the deadline, the arrival,
    the whole minutes between them, and the failed attempts before it; and the clock against
    its reference: which promise is the deadline, which leg the arrival, what moves neither. *)
From Stdlib Require Import String.
From S2P Require Import Prelude Clock Promise.
Local Open Scope laundry_scope.
Local Open Scope Z_scope.

Module DeadlineBasis.
Inductive t :=
  | FIRST_PROMISE | CUSTOMER_REQUEST.
#[export] Instance eq_dec : EqDecision t.
Proof. solve_decision. Defined.
End DeadlineBasis.
#[export] Existing Instance DeadlineBasis.eq_dec.

Module LateDeliveryDecision.
Inductive t :=
  | STORE_FAULT_CREDITED | NOT_STORE_FAULT.
#[export] Instance eq_dec : EqDecision t.
Proof. solve_decision. Defined.
End LateDeliveryDecision.
#[export] Existing Instance LateDeliveryDecision.eq_dec.

Module NotStoreFaultReason.
Inductive t :=
  | CUSTOMER_ABSENT | CUSTOMER_WRONG_ADDRESS | CUSTOMER_ASKED_LATER | OTHER.
#[export] Instance eq_dec : EqDecision t.
Proof. solve_decision. Defined.
End NotStoreFaultReason.
#[export] Existing Instance NotStoreFaultReason.eq_dec.

(** One [Hẹn lại], and one delivery leg, as the ledgers record them. *)
Record PromiseMove := MkPromiseMove {
  new_promise_at : datetime;
  move_reason : PromiseChangeReason.t;
  changed_at : datetime;
}.
Record LegAttempt := MkLegAttempt {
  leg_kind : string;
  leg_outcome : string;
  leg_recorded_at : datetime;
}.

Record LateDeliveryClock := MkLateDeliveryClock {
  deadline : datetime;
  deadline_basis : DeadlineBasis.t;
  delivered_at : option datetime;
  late_by_minutes : option Z;
  failed_attempts_before_deadline : list datetime;
}.
#[export] Instance late_delivery_clock_eq_dec : EqDecision LateDeliveryClock.
Proof. solve_decision. Defined.

Definition is_late_beyond (c : LateDeliveryClock) (threshold_minutes : Z) : bool :=
  from_option (Z.ltb threshold_minutes) false (late_by_minutes c).

(** [ValueError]: an instant without a time zone. *)
Inductive ClockError :=
  | NaiveInstant.
#[export] Instance clock_error_eq_dec : EqDecision ClockError.
Proof. solve_decision. Defined.

Definition attempt_ended (outcome : string) (l : LegAttempt) : bool :=
  (leg_kind l is? "RETURN"%string) && (leg_outcome l is? outcome).
Definition arrivals (legs : list LegAttempt) : list datetime :=
  stable_sort dt_leb (leg_recorded_at <$> filter (λ l, attempt_ended "SUCCEEDED" l = true) legs).

(** The loop over the moves: the newest the customer asked for by the arrival, a tie going to
    the later one of the ledger. *)
Record found_deadline := Found {
  newest : option datetime;
  found : datetime;
  found_basis : DeadlineBasis.t;
}.
(** The moves the loop does not [continue] past. *)
Definition counted (delivered : option datetime) (m : PromiseMove) : bool :=
  (move_reason m is? PromiseChangeReason.CUSTOMER_REQUEST)
  && negb (from_option (λ d, dt_ltb d (changed_at m)) false delivered).
Definition consider (delivered : option datetime) (f : found_deadline) (m : PromiseMove) : found_deadline :=
  if negb (counted delivered m) then f
  else if from_option (λ n, dt_leb n (changed_at m)) true (newest f)
  then Found (Some (changed_at m)) (new_promise_at m) DeadlineBasis.CUSTOMER_REQUEST
  else f.

Definition late_delivery_clock (first_promise : datetime) (changes : list PromiseMove) (legs : list LegAttempt)
    : result ClockError LateDeliveryClock :=
  raise_if (negb (aware first_promise)) NaiveInstant ;;
  raise_if (negb (forallb (λ m, aware (new_promise_at m) && aware (changed_at m)) changes)) NaiveInstant ;;
  raise_if (negb (forallb (λ l, aware (leg_recorded_at l)) legs)) NaiveInstant ;;
  let delivered := head (arrivals legs) in
  let d := foldl (consider delivered) (Found None first_promise DeadlineBasis.FIRST_PROMISE) changes in
  Ok {| deadline := found d; deadline_basis := found_basis d; delivered_at := delivered;
        late_by_minutes := (λ arrived, Z.max 0 (dt_sub arrived (found d) / minutes 1)) <$> delivered;
        failed_attempts_before_deadline :=
          stable_sort dt_leb (filter (λ t, dt_leb t (found d) = true)
            (leg_recorded_at <$> filter (λ l, attempt_ended "FAILED" l = true) legs)) |}.

(** * The deadline *)

Lemma consider_skips delivered f m : counted delivered m = false → consider delivered f m = f.
Proof. unfold consider. by intros ->. Qed.

(** Moves for the shop's own reasons, and moves after the arrival, change nothing. *)
Lemma consider_counted delivered moves : ∀ f,
  foldl (consider delivered) f moves = foldl (consider delivered) f (filter (λ m, counted delivered m = true) moves).
Proof.
  induction moves as [|m moves IH]; intros f; [done|]. cbn [foldl]. rewrite IH, filter_cons.
  destruct (counted delivered m) eqn:Hm; [by rewrite decide_True|]. rewrite decide_False by done. by rewrite consider_skips.
Qed.

(** The newest move the customer asked for by the arrival, the later one of two at one instant. *)
Definition newest_asked (delivered : option datetime) (moves : list PromiseMove) (m : PromiseMove) : Prop :=
  ∃ before after, moves = before ++ m :: after ∧ counted delivered m = true ∧
    (∀ x, x ∈ before → counted delivered x = true → instant (changed_at x) <= instant (changed_at m)) ∧
    (∀ x, x ∈ after → counted delivered x = true → instant (changed_at x) < instant (changed_at m)).

(** What the loop has found after some moves. *)
Definition found_well (delivered : option datetime) (first : datetime) (moves : list PromiseMove) (f : found_deadline) : Prop :=
  (f = Found None first DeadlineBasis.FIRST_PROMISE ∧ ∀ m, m ∈ moves → counted delivered m = false) ∨
  (∃ m, newest_asked delivered moves m ∧ f = Found (Some (changed_at m)) (new_promise_at m) DeadlineBasis.CUSTOMER_REQUEST).

Lemma found_well_later delivered first moves m f : found_well delivered first moves f →
  found_well delivered first (moves ++ [m]) (consider delivered f m).
Proof.
  destruct (counted delivered m) eqn:Hm.
  - unfold consider. rewrite Hm. cbn [negb]. intros [[-> Hnone]|(x & (pre & post & -> & Hx & Hpre & Hpost) & ->)]; cbn.
    + right. exists m. split; [|done]. exists moves, []. split_and!; [done|done| |by intros ? ?%elem_of_nil].
      intros x Hx Hc. by rewrite (Hnone x Hx) in Hc.
    + destruct (dt_leb (changed_at x) (changed_at m)) eqn:Hle; right.
      * apply dt_leb_le in Hle. exists m. split; [|done]. exists (pre ++ x :: post), [].
        split_and!; [done|done| |by intros ? ?%elem_of_nil].
        intros y [Hy|[->|Hy]%elem_of_cons]%elem_of_app Hc; [specialize (Hpre y Hy Hc); lia|done|specialize (Hpost y Hy Hc); lia].
      * apply not_true_iff_false in Hle. rewrite dt_leb_le in Hle. exists x. split; [|done]. exists pre, (post ++ [m]).
        split_and!; [by rewrite <- app_assoc|done|done|].
        intros y [Hy| ->%list_elem_of_singleton]%elem_of_app Hc; [by apply Hpost|lia].
  - intros [[-> Hnone]|(x & (pre & post & -> & Hx & Hpre & Hpost) & ->)]; rewrite consider_skips by done.
    + left. split; [done|]. intros y [Hy| ->%list_elem_of_singleton]%elem_of_app; [by apply Hnone|done].
    + right. exists x. split; [|done]. exists pre, (post ++ [m]). split_and!; [by rewrite <- app_assoc|done|done|].
      intros y [Hy| ->%list_elem_of_singleton]%elem_of_app Hc; [by apply Hpost|congruence].
Qed.
Lemma found_well_all delivered first moves :
  found_well delivered first moves (foldl (consider delivered) (Found None first DeadlineBasis.FIRST_PROMISE) moves).
Proof.
  induction moves as [|m moves IH] using rev_ind; [left; split; [done|by intros ? ?%elem_of_nil]|].
  rewrite foldl_app. by apply found_well_later.
Qed.

(** * The clock *)

Lemma clock_Ok first moves legs c : late_delivery_clock first moves legs = Ok c ↔
  aware first = true ∧ Forall (λ m, aware (new_promise_at m) = true ∧ aware (changed_at m) = true) moves ∧
  Forall (λ l, aware (leg_recorded_at l) = true) legs ∧
  let d := foldl (consider (head (arrivals legs))) (Found None first DeadlineBasis.FIRST_PROMISE) moves in
  c = {| deadline := found d; deadline_basis := found_basis d; delivered_at := head (arrivals legs);
         late_by_minutes := (λ arrived, Z.max 0 (dt_sub arrived (found d) / minutes 1)) <$> head (arrivals legs);
         failed_attempts_before_deadline :=
           stable_sort dt_leb (filter (λ t, dt_leb t (found d) = true)
             (leg_recorded_at <$> filter (λ l, attempt_ended "FAILED" l = true) legs)) |}.
Proof.
  unfold late_delivery_clock.
  assert (Hm : Forall (λ m, aware (new_promise_at m) = true ∧ aware (changed_at m) = true) moves ↔
    forallb (λ m, aware (new_promise_at m) && aware (changed_at m)) moves = true).
  { rewrite forallb_forall, Forall_forall. setoid_rewrite andb_true_iff. by setoid_rewrite list_elem_of_In. }
  assert (Hl : Forall (λ l, aware (leg_recorded_at l) = true) legs ↔ forallb (λ l, aware (leg_recorded_at l)) legs = true).
  { rewrite forallb_forall, Forall_forall. by setoid_rewrite list_elem_of_In. }
  rewrite Hm, Hl. destruct (aware first), (forallb _ moves), (forallb _ legs); cbn; naive_solver.
Qed.

(** The arrival is the earliest succeeded return. *)
Lemma arrival_earliest legs t : head (arrivals legs) = Some t →
  (∃ l, l ∈ legs ∧ attempt_ended "SUCCEEDED" l = true ∧ leg_recorded_at l = t) ∧
  ∀ l, l ∈ legs → attempt_ended "SUCCEEDED" l = true → instant t <= instant (leg_recorded_at l).
Proof.
  unfold arrivals. set (ts := leg_recorded_at <$> filter (λ l, attempt_ended "SUCCEEDED" l = true) legs). intros Hh.
  assert (Hin : ∀ x, x ∈ stable_sort dt_leb ts ↔ ∃ l, l ∈ legs ∧ attempt_ended "SUCCEEDED" l = true ∧ leg_recorded_at l = x).
  { intros x. rewrite stable_sort_perm. unfold ts. rewrite list_elem_of_fmap. setoid_rewrite list_elem_of_filter. naive_solver. }
  assert (Hsorted : StronglySorted (λ a b, dt_leb a b = true) (stable_sort dt_leb ts)).
  { apply stable_sort_sorted; [intros a b; rewrite <- not_true_iff_false, !dt_leb_le; lia|intros a b c; rewrite !dt_leb_le; lia]. }
  destruct (stable_sort dt_leb ts) as [|x l]; [done|]. injection Hh as ->. split; [apply Hin; left|].
  intros y Hy Hs. assert (leg_recorded_at y ∈ t :: l) as Hyt by (apply Hin; by exists y). apply elem_of_cons in Hyt as [Heq|Hyl]; [rewrite Heq; lia|].
  apply StronglySorted_inv in Hsorted as [_ Hall]. rewrite Forall_forall in Hall. by apply dt_leb_le, Hall.
Qed.
Lemma arrival_none legs : head (arrivals legs) = None ↔ ∀ l, l ∈ legs → attempt_ended "SUCCEEDED" l = false.
Proof.
  unfold arrivals. rewrite head_None. split.
  - intros H l Hl. apply not_true_iff_false. intros Hs.
    assert (leg_recorded_at l ∈ stable_sort dt_leb (leg_recorded_at <$> filter (λ l, attempt_ended "SUCCEEDED" l = true) legs)) as Hin.
    { rewrite stable_sort_perm. apply list_elem_of_fmap_2. by apply list_elem_of_filter. }
    rewrite H in Hin. by apply elem_of_nil in Hin.
  - intros H. destruct (filter (λ l, attempt_ended "SUCCEEDED" l = true) legs) as [|l r] eqn:Hf; [done|exfalso].
    assert (l ∈ filter (λ l, attempt_ended "SUCCEEDED" l = true) legs) as [Hs Hl]%list_elem_of_filter by (rewrite Hf; left).
    by rewrite (H l Hl) in Hs.
Qed.

(** [late by more than the threshold] in whole minutes is the next minute reached. *)
Lemma late_beyond_iff c first moves legs threshold : late_delivery_clock first moves legs = Ok c → 0 <= threshold →
  is_late_beyond c threshold = true ↔
  ∃ t, delivered_at c = Some t ∧ instant (deadline c) + minutes (threshold + 1) <= instant t.
Proof.
  intros (_ & _ & _ & ->)%clock_Ok Ht. unfold is_late_beyond. cbn. destruct (head (arrivals legs)) as [t|]; cbn; [|naive_solver].
  rewrite Z.ltb_lt. unfold dt_sub. set (gap := instant t - _).
  assert (Hm : minutes 1 = 60_000_000) by done. assert (Hmt : minutes (threshold + 1) = (threshold + 1) * 60_000_000).
  { unfold minutes, us_per_second. lia. }
  rewrite Hm. pose proof (Z.div_mod gap 60_000_000 ltac:(lia)). pose proof (Z.mod_pos_bound gap 60_000_000 ltac:(lia)).
  split.
  - intros H1. exists t. split; [done|]. rewrite Hmt. unfold gap in *. cbn in *. nia.
  - intros (? & [= <-] & H1). rewrite Hmt in H1. unfold gap in *. cbn in *. nia.
Qed.

(** What the reference says of a move and of a leg. *)
Definition asked_in_time (delivered : option datetime) (m : PromiseMove) : Prop :=
  move_reason m = PromiseChangeReason.CUSTOMER_REQUEST ∧ ∀ t, delivered = Some t → instant (changed_at m) <= instant t.
Definition succeeded_return (l : LegAttempt) : Prop := leg_kind l = "RETURN"%string ∧ leg_outcome l = "SUCCEEDED"%string.

Lemma counted_iff delivered m : counted delivered m = true ↔ asked_in_time delivered m.
Proof.
  unfold counted, asked_in_time. rewrite andb_true_iff, bool_decide_eq_true, negb_true_iff.
  destruct delivered as [t|]; cbn; [|naive_solver]. rewrite <- not_true_iff_false, dt_ltb_lt. split.
  - intros [H1 H2]. split; [done|]. intros ? [= <-]. lia.
  - intros [H1 H2]. split; [done|]. specialize (H2 t eq_refl). lia.
Qed.
Lemma succeeded_iff l : attempt_ended "SUCCEEDED" l = true ↔ succeeded_return l.
Proof. unfold attempt_ended, succeeded_return. by rewrite andb_true_iff, !bool_decide_eq_true. Qed.

(** C31: only the customer moves the deadline.  The deadline is the first promise, unless the
    customer asked for another time before the laundry arrived; then it is the newest such
    time, the later recorded of two at one instant.  The arrival is the earliest successful
    return; a delivery is late beyond a threshold exactly when it arrived a whole minute past
    it; and one more promise of the shop's own, or of anybody's after the arrival, put
    anywhere in the ledger, gives the same clock. *)
Theorem only_the_customer_moves_the_deadline first moves legs c : late_delivery_clock first moves legs = Ok c →
  ((deadline_basis c = DeadlineBasis.FIRST_PROMISE ∧ deadline c = first ∧
    ∀ m, m ∈ moves → ¬ asked_in_time (delivered_at c) m) ∨
   (deadline_basis c = DeadlineBasis.CUSTOMER_REQUEST ∧
    ∃ before m after, moves = before ++ m :: after ∧ asked_in_time (delivered_at c) m ∧ deadline c = new_promise_at m ∧
      (∀ x, x ∈ before → asked_in_time (delivered_at c) x → instant (changed_at x) <= instant (changed_at m)) ∧
      (∀ x, x ∈ after → asked_in_time (delivered_at c) x → instant (changed_at x) < instant (changed_at m)))) ∧
  match delivered_at c with
  | Some t => (∃ l, l ∈ legs ∧ succeeded_return l ∧ leg_recorded_at l = t) ∧
      ∀ l, l ∈ legs → succeeded_return l → instant t <= instant (leg_recorded_at l)
  | None => ∀ l, l ∈ legs → ¬ succeeded_return l
  end ∧
  (∀ threshold, 0 <= threshold → is_late_beyond c threshold = true ↔
     ∃ t, delivered_at c = Some t ∧ instant (deadline c) + minutes (threshold + 1) <= instant t) ∧
  ∀ before m after, moves = before ++ after → aware (new_promise_at m) = true → aware (changed_at m) = true →
    ¬ asked_in_time (delivered_at c) m → late_delivery_clock first (before ++ m :: after) legs = Ok c.
Proof.
  intros Hc. pose proof Hc as (Hf & Hm & Hl & ->)%clock_Ok. cbn [deadline deadline_basis delivered_at].
  split; [|split; [|split]].
  - destruct (found_well_all (head (arrivals legs)) first moves) as [[-> H]|(m & (pre & post & Heq & Hcm & Hpre & Hpost) & ->)].
    + left. split_and!; [done|done|]. intros m Hin Ha%counted_iff. by rewrite (H m Hin) in Ha.
    + right. split; [done|]. exists pre, m, post.
      split_and!; [done|by apply counted_iff|done| |]; intros x Hx Ha%counted_iff; [by apply Hpre|by apply Hpost].
  - destruct (head (arrivals legs)) as [t|] eqn:Ha.
    + apply arrival_earliest in Ha as [(l & Hin & Hs & Ht) Hall]. split; [exists l; by rewrite <- succeeded_iff|].
      intros x Hx Hxs%succeeded_iff. by apply Hall.
    + intros l Hin Hs%succeeded_iff. by rewrite (proj1 (arrival_none legs) Ha l Hin) in Hs.
  - intros threshold Ht. exact (late_beyond_iff _ _ _ _ _ Hc Ht).
  - intros before m after -> Ha1 Ha2 Hna. apply clock_Ok. apply Forall_app in Hm as [Hm1 Hm2]. split_and!; [done| |done|].
    + apply Forall_app. split; [done|by constructor].
    + cbn zeta. rewrite !foldl_app. cbn [foldl]. rewrite consider_skips; [done|].
      apply not_true_iff_false. by rewrite counted_iff.
Qed.
