(* ===== verification/LateDeliveries.v ===== *)
(** Late deliveries in the database ([packages/db/.../late_deliveries.py]): measuring from the
    stored ledgers, the list of what nobody decided about, and the decision, which opens the
    incident and proposes the credit in its own transaction.  What the list shows of an order
    is its measurement and its credit's preview; the ticket and the customer's name are left
    out.  The decision's answer is its stored row, whose JSON form reads back as itself. *)
From Stdlib Require Import Ascii String.
From S2P Require Import Prelude Clock Text Json Configurations Catalog Promise Storage.
From S2P Require Import Idempotency Approvals Remedies RemedyLedger LateDelivery.
Local Open Scope laundry_scope.
Local Open Scope Z_scope.

Definition LATE_DELIVERY_ROLES : list ActorRole.t := REMEDY_ROLES.
Definition LIST_MAX_LIMIT : Z := 100.
Definition SCAN_LIMIT : nat := 500.
Definition FOLLOW_UP_LIMIT : nat := 50.
Definition _RETURN_MODES : list FulfillmentMode.t := MODES_EXPECTING_RETURN.

(** [ListLimit] is the [ValueError] of a list asked for too little or too much, [IncidentInvalid]
    those of an incident's binding. *)
Inductive LateFailure :=
  | LateDeliveryAuthorizationError
  | LateDeliveryRefused (code : string) (threshold_minutes : option Z)
  | OrderNotVisibleError
  | NaiveDecision
  | ListLimit
  | StoreAccessError
  | IncidentInvalid
  | ClockFailure (e : ClockError)
  | RemedyFailed (e : RemedyFailure)
  | LateCheckViolation.
Notation lately := (result LateFailure).

Definition late_refused (code : string) : LateFailure := LateDeliveryRefused code None.
Definition lift_clock {A} (r : result ClockError A) : lately A :=
  match r with Ok a => Ok a | Err e => Err (ClockFailure e) end.
Definition lift_remedy {A} (r : remedy A) : lately A :=
  match r with Ok a => Ok a | Err e => Err (RemedyFailed e) end.

(** * The tables *)

Record leg_row := LegRow {
  leg_id : Z;
  leg_order : Z;
  leg_store : Z;
  leg : LegAttempt;
}.
Record change_row := ChangeRow {
  change_id : Z;
  change_order : Z;
  change : PromiseMove;
}.
(** A row of [late_delivery_decisions]. *)
Record decision_row := DecisionRow {
  decision_order : Z;
  decision_store : Z;
  decision : LateDeliveryDecision.t;
  decision_reason : option NotStoreFaultReason.t;
  decision_note : option text;
  decision_late_by : Z;
  decision_deadline : datetime;
  decision_basis : DeadlineBasis.t;
  decision_delivered_at : datetime;
  decision_incident : option Z;
  decision_proposal : option Z;
  decided_by : Z;
  decided_at : datetime;
}.

(** The remedies' tables, the promises and their changes, the legs and the decisions.  A row of
    [orders] in [base] reads the times of its succeeded return legs from [legs]. *)
Record late_shop := LateShop {
  base : shop;
  promised_ready_at : gmap Z datetime;
  promise_changes : list change_row;
  legs : list leg_row;
  decisions : gmap Z decision_row;
}.
Definition with_base (s : late_shop) (b : shop) : late_shop :=
  LateShop b (promised_ready_at s) (promise_changes s) (legs s) (decisions s).
Definition with_decisions (s : late_shop) (m : gmap Z decision_row) : late_shop :=
  LateShop (base s) (promised_ready_at s) (promise_changes s) (legs s) m.

(** * Measuring *)

(** [ORDER BY order_id, changed_at, id] and [ORDER BY order_id, recorded_at, id], of one order. *)
Definition change_leb (a b : change_row) : bool :=
  dt_ltb (changed_at (change a)) (changed_at (change b))
  || (dt_leb (changed_at (change a)) (changed_at (change b)) && (change_id a <=? change_id b)).
Definition leg_leb (a b : leg_row) : bool :=
  dt_ltb (leg_recorded_at (leg a)) (leg_recorded_at (leg b))
  || (dt_leb (leg_recorded_at (leg a)) (leg_recorded_at (leg b)) && (leg_id a <=? leg_id b)).
Definition moves_of (s : late_shop) (order_id : Z) : list PromiseMove :=
  change <$> stable_sort change_leb (filter (λ c, change_order c = order_id) (promise_changes s)).
Definition legs_of (s : late_shop) (order_id : Z) : list LegAttempt :=
  leg <$> stable_sort leg_leb
    (filter (λ l, (leg_order l =? order_id) && (leg_kind (leg l) is? "RETURN"%string) = true) (legs s)).
Definition measure_delivery (s : late_shop) (order_id : Z) (first_promise : datetime) : lately LateDeliveryClock :=
  lift_clock (late_delivery_clock first_promise (moves_of s order_id) (legs_of s order_id)).

(** * The list *)

(** A row of [LATE_CANDIDATES_SQL]. *)
Record candidate := Candidate {
  cand_order : Z;
  cand_first_promise : datetime;
  cand_arrived : datetime;
}.
Definition decided (s : late_shop) (order_id : Z) : bool :=
  existsb (λ kd, decision_order kd.2 =? order_id) (map_to_list (decisions s)).
Definition customer_asked (s : late_shop) (order_id : Z) : bool :=
  existsb (λ c, (change_order c =? order_id) && (move_reason (change c) is? PromiseChangeReason.CUSTOMER_REQUEST))
    (promise_changes s).
(** A leg joined with its order: a delivery of the store the clock applies to, undecided. *)
Definition undecided_delivery (s : late_shop) (store : Z) (l : leg_row) : option candidate :=
  o ← orders (base s) !! leg_order l;
  first_promise ← promised_ready_at s !! leg_order l;
  if (leg_store l =? store) && (order_store o =? leg_store l) && attempt_ended "SUCCEEDED" (leg l)
     && (fulfillment_mode o in? _RETURN_MODES) && negb (decided s (leg_order l))
  then Some (Candidate (leg_order l) first_promise (leg_recorded_at (leg l)))
  else None.
(** The statement's last predicate. *)
Definition may_be_late (s : late_shop) (threshold : Z) (c : candidate) : bool :=
  dt_ltb (dt_add (cand_first_promise c) (minutes threshold)) (cand_arrived c) || customer_asked s (cand_order c).
Definition cand_leb (a b : candidate) : bool :=
  dt_ltb (cand_arrived a) (cand_arrived b)
  || (dt_leb (cand_arrived a) (cand_arrived b) && (cand_order a <=? cand_order b)).
Definition LATE_CANDIDATES_SQL (s : late_shop) (store threshold : Z) (scan : nat) : list candidate :=
  take scan (stable_sort cand_leb
    (filter (λ c, may_be_late s threshold c = true) (omap (undecided_delivery s store) (legs s)))).

(** The candidates measured, and those late beyond the threshold. *)
Definition measure_deliveries (s : late_shop) (l : list candidate) : lately (list (candidate * LateDeliveryClock)) :=
  traverse (λ c, clock ← measure_delivery s (cand_order c) (cand_first_promise c); Ok (c, clock)) l.
Definition late_among (threshold : Z) (l : list (candidate * LateDeliveryClock)) : list (candidate * LateDeliveryClock) :=
  filter (λ cc, is_late_beyond cc.2 threshold = true) l.

(** [late_delivery_credit_probe] and [read_late_credit_preview] of [db/remedies.py]. *)
Definition probe_request (policy : RemedyPolicy) : RemedyRequest :=
  {| remedy_kind := RemedyKind.LATE_DELIVERY_CREDIT; store_fault_attested := true; request_line_id := None;
     request_amount_vnd := None; request_garment_index := None;
     attested_late_by_minutes := Some (late_delivery_threshold_minutes policy + 1) |}.
Definition late_delivery_credit_probe (policy : RemedyPolicy) (facts : RemedyOrderFacts) (prior : RemedyCommitments)
    (at_ : datetime) : remedy (option RemedyOutcome) :=
  if negb (expects_return_leg facts && return_leg_succeeded facts) then Ok None
  else outcome ← lift_policy (evaluate_remedy policy facts (probe_request policy) at_ prior); Ok (Some outcome).

(** Why there is no figure: the order was refunded, the domain's refusal, or no delivery. *)
Inductive preview_refusal :=
  | ORDER_REFUNDED
  | Refusal (r : RemedyRefused)
  | REMEDY_DELIVERY_NOT_RECORDED.
Record LateCreditPreview := MkLateCreditPreview {
  preview_settled_total_vnd : option Z;
  preview_refunded : bool;
  preview_credit_vnd : option Z;
  preview_requires_owner : bool;
  refusal_shown : option preview_refusal;
}.
Definition read_late_credit_preview (s : shop) (order_id : Z) (policy : RemedyPolicy) (at_ : datetime)
    : remedy LateCreditPreview :=
  '(_, facts) ← _read_order_record s order_id;
  prior ← _read_commitments s order_id None None;
  probe ← late_delivery_credit_probe policy facts prior at_;
  let granted := match probe with Some (Authorized a) => if refunded facts then None else Some a | _ => None end in
  Ok {| preview_settled_total_vnd := settled_total_vnd facts; preview_refunded := refunded facts;
        preview_credit_vnd := granted ≫= authorized_amount_vnd;
        preview_requires_owner := from_option requires_owner_approval false granted;
        refusal_shown := if refunded facts then Some ORDER_REFUNDED
                         else match probe with
                              | Some (Refused r) => Some (Refusal r)
                              | Some (Authorized _) => None
                              | None => Some REMEDY_DELIVERY_NOT_RECORDED
                              end |}.

(** A credited decision whose claim has a step to go, and [remedy_reads._next_step]. *)
Inductive NextStep :=
  | NEXT_STEP_NONE | NEXT_STEP_EXECUTE | NEXT_STEP_AWAIT_OWNER | NEXT_STEP_PROPOSE_AGAIN.
#[export] Instance next_step_eq_dec : EqDecision NextStep.
Proof. solve_decision. Defined.
Definition _next_step (st : RemedyStatus.t) (envelope : option approval) (now : datetime) : NextStep :=
  if st is? RemedyStatus.STAFF_AUTHORIZED then NEXT_STEP_EXECUTE
  else if negb (st is? RemedyStatus.OWNER_APPROVAL_REQUIRED) then NEXT_STEP_NONE
  else match envelope with
  | None => NEXT_STEP_NONE
  | Some e =>
      if dt_leb (expires_at e) now then NEXT_STEP_PROPOSE_AGAIN
      else if status e is? ApprovalStatus.APPROVED then NEXT_STEP_EXECUTE
      else if status e is? ApprovalStatus.REQUESTED then NEXT_STEP_AWAIT_OWNER
      else NEXT_STEP_PROPOSE_AGAIN
  end.

Record LateDeliveryFollowUp := MkFollowUp {
  follow_order : Z;
  follow_late_by : Z;
  follow_proposal : Z;
  follow_amount_vnd : option Z;
  follow_next_step : NextStep;
  follow_decided_at : datetime;
}.
Definition decision_leb (a b : Z * decision_row) : bool :=
  dt_ltb (decided_at a.2) (decided_at b.2) || (dt_leb (decided_at a.2) (decided_at b.2) && (a.1 <=? b.1)).
Definition _FOLLOW_UP_SQL (s : late_shop) (store : Z) : list (Z * decision_row) :=
  stable_sort decision_leb
    (filter (λ kd, (decision_store kd.2 =? store) && (decision kd.2 is? LateDeliveryDecision.STORE_FAULT_CREDITED)
       && from_option (λ p, negb (proposal_status p is? RemedyStatus.EXECUTED) && live (base s) p) false
            (id ← decision_proposal kd.2; proposals (base s) !! id) = true) (map_to_list (decisions s))).
Definition _follow_up (s : late_shop) (store : Z) (now : datetime) : list LateDeliveryFollowUp * bool :=
  let rows := take (S FOLLOW_UP_LIMIT) (_FOLLOW_UP_SQL s store) in
  (omap (λ kd : Z * decision_row,
      id ← decision_proposal kd.2;
      p ← proposals (base s) !! id;
      let envelope := a ← proposal_approval_id p; approvals (tables (envelopes (base s))) !! a in
      let next := _next_step (proposal_status p) envelope now in
      if next in? [NEXT_STEP_EXECUTE; NEXT_STEP_AWAIT_OWNER]
      then Some (MkFollowUp (decision_order kd.2) (decision_late_by kd.2) id (proposal_amount_vnd p) next (decided_at kd.2))
      else None) (take FOLLOW_UP_LIMIT rows),
   (FOLLOW_UP_LIMIT <? length rows)%nat).

Record LateDeliveryRow := MkLateDeliveryRow {
  row_order : Z;
  row_first_promise : datetime;
  row_clock : LateDeliveryClock;
  row_preview : LateCreditPreview;
}.
(** The figures read while a policy is published: threshold, staff limit, rows, whether more
    exist than are shown. *)
Record LateDeliveryList := MkLateDeliveryList {
  list_published : option (Z * Z);
  list_orders : list LateDeliveryRow;
  list_truncated : bool;
  list_follow_up : list LateDeliveryFollowUp * bool;
}.

Definition _require_role (p : StaffPrincipal) : lately unit :=
  raise_if (negb (existsb (λ r, r in? LATE_DELIVERY_ROLES) (roles p)) || negb (mfa_verified p))
    LateDeliveryAuthorizationError.
Definition member (w : world) (p : StaffPrincipal) (store : Z) : lately unit :=
  raise_if (negb (is_store_member w (staff_user_id p) store)) LateDeliveryAuthorizationError.

Section late_deliveries.
Context (digest : object → option string).

Definition _late_row (s : late_shop) (policy : RemedyPolicy) (at_ : datetime) (cc : candidate * LateDeliveryClock)
    : lately LateDeliveryRow :=
  preview ← lift_remedy (read_late_credit_preview (base s) (cand_order cc.1) policy at_);
  Ok (MkLateDeliveryRow (cand_order cc.1) (cand_first_promise cc.1) cc.2 preview).

Definition list_late (w : world) (s : late_shop) (store : Z) (p : StaffPrincipal) (as_of : datetime) (limit : Z)
    : lately LateDeliveryList :=
  _require_role p ;;
  member w p store ;;
  raise_if (negb ((1 <=? limit) && (limit <=? LIST_MAX_LIMIT))) ListLimit ;;
  let follow_up := _follow_up s store as_of in
  published ← lift_remedy (read_published_remedy_policy digest (configurations (base s)));
  match published with
  | None => Ok (MkLateDeliveryList None [] false follow_up)
  | Some published =>
      let policy := figures published in
      let threshold := late_delivery_threshold_minutes policy in
      let read := LATE_CANDIDATES_SQL s store threshold (S SCAN_LIMIT) in
      let scanned_all := (length read <=? SCAN_LIMIT)%nat in
      clocks ← measure_deliveries s (take SCAN_LIMIT read);
      let late := late_among threshold clocks in
      rows ← traverse (_late_row s policy as_of) (take (Z.to_nat limit) late);
      Ok (MkLateDeliveryList (Some (threshold, staff_approval_ceiling_vnd policy)) rows
            ((limit <? Z.of_nat (length late)) || negb scanned_all) follow_up)
  end.

(** How many nobody decided about, and whether that is a floor; [None] without a policy.  The
    statement is the list's, with fewer columns. *)
Definition count_undecided (w : world) (s : late_shop) (store : Z) (p : StaffPrincipal) : lately (option (Z * bool)) :=
  _require_role p ;;
  member w p store ;;
  published ← lift_remedy (read_published_remedy_policy digest (configurations (base s)));
  match published with
  | None => Ok None
  | Some published =>
      let threshold := late_delivery_threshold_minutes (figures published) in
      let read := LATE_CANDIDATES_SQL s store threshold (S SCAN_LIMIT) in
      clocks ← measure_deliveries s (take SCAN_LIMIT read);
      Ok (Some (Z.of_nat (length (late_among threshold clocks)), (SCAN_LIMIT <? length read)%nat))
  end.

(** * The decision *)

Record LateDeliveryDecideCommand := DecideCommand {
  decide_store : Z;
  decide_order : Z;
  verdict : LateDeliveryDecision.t;
  decide_principal : StaffPrincipal;
  decide_key : string;
  decide_reason : option NotStoreFaultReason.t;
  decide_note : option text;
  decide_at : datetime;
}.

Definition note_code (e : StorageFailure) : LateFailure :=
  late_refused match e with
               | NoteError NoteRefusal.NOTE_REQUIRED => "NOTE_REQUIRED"
               | NoteError NoteRefusal.NOTE_TOO_LONG => "NOTE_TOO_LONG"
               | NoteError NoteRefusal.NOTE_LOOKS_LIKE_PHONE => "NOTE_LOOKS_LIKE_PHONE"
               | _ => ""
               end.
Definition _checked_reason (c : LateDeliveryDecideCommand) : lately (option NotStoreFaultReason.t * option text) :=
  match verdict c with
  | LateDeliveryDecision.STORE_FAULT_CREDITED =>
      raise_if (present (decide_reason c) || from_option (λ n, negb (strip n is? [])) false (decide_note c))
        (late_refused "LATE_DELIVERY_REASON_NOT_APPLICABLE") ;;
      Ok (None, None)
  | LateDeliveryDecision.NOT_STORE_FAULT =>
      reason ← require_some (decide_reason c) (late_refused "LATE_DELIVERY_REASON_REQUIRED");
      note ← match clean_note (decide_note c) (reason is? NotStoreFaultReason.OTHER) with
             | Ok note => Ok note
             | Err e => Err (note_code e)
             end;
      Ok (Some reason, note)
  end.

(** [IncidentRepository.open_from_counter]; the text of a late delivery's summary is between the
    lengths it allows. *)
Definition open_from_counter (w : world) (b : shop) (c : LateDeliveryDecideCommand) (incident_id : Z) : lately shop :=
  raise_if (negb (is_store_member w (staff_user_id (decide_principal c)) (decide_store c))) StoreAccessError ;;
  raise_if (negb (aware (decide_at c))) IncidentInvalid ;;
  o ← require_some (orders b !! decide_order c) IncidentInvalid;
  raise_if (negb (order_store o =? decide_store c)) IncidentInvalid ;;
  raise_if (bool_decide (is_Some (incidents b !! incident_id))) LateCheckViolation ;;
  Ok (with_incidents b (<[incident_id := IncidentRow (decide_store c) (Some (decide_order c)) IncidentStatus.OPEN false false]>
                          (incidents b))).

(** The CHECKs of [late_delivery_decisions], its unique keys and its trigger (migration 0064). *)
Definition decision_checks (d : decision_row) : bool :=
  (0 <=? decision_late_by d)
  && from_option (λ n, (1 <=? length n)%nat && (length n <=? 120)%nat) true (decision_note d)
  && match decision d with
     | LateDeliveryDecision.STORE_FAULT_CREDITED =>
         present (decision_proposal d) && present (decision_incident d)
         && negb (present (decision_reason d)) && negb (present (decision_note d))
     | LateDeliveryDecision.NOT_STORE_FAULT =>
         negb (present (decision_proposal d)) && negb (present (decision_incident d)) && present (decision_reason d)
     end
  && (negb (decision_reason d is? Some NotStoreFaultReason.OTHER) || present (decision_note d)).
Definition names_its_credit (s : late_shop) (d : decision_row) : bool :=
  from_option (λ o, order_store o =? decision_store d) false (orders (base s) !! decision_order d)
  && match decision_proposal d with
     | None => true
     | Some id =>
         match proposals (base s) !! id with
         | None => false
         | Some p => (proposal_order p =? decision_order d) && (proposal_store p =? decision_store d)
                     && (Some (proposal_incident p) is? decision_incident d)
                     && (proposal_kind p is? RemedyKind.LATE_DELIVERY_CREDIT)
                     && (proposal_late_by p is? Some (decision_late_by d))
         end
     end.
Definition insert_decision (s : late_shop) (id : Z) (d : decision_row) : lately late_shop :=
  raise_if (bool_decide (is_Some (decisions s !! id)) || decided s (decision_order d)
            || (present (decision_proposal d)
                && existsb (λ kd, decision_proposal kd.2 is? decision_proposal d) (map_to_list (decisions s)))
            || negb (decision_checks d) || negb (names_its_credit s d)) LateCheckViolation ;;
  Ok (with_decisions s (<[id := d]> (decisions s))).

Context (document_hash : proposal_document → string)
  (facts_hash : MessageDraftFacts → string) (rendering_hash : MessageDraftFacts → string → string)
  (envelope_hash : request_payload → option string) (uuid_text : Z → string)
  (action_text : ApprovalAction.t → string) (normal : StoredApproval → option StoredApproval).

Notation propose :=
  (propose digest document_hash facts_hash rendering_hash envelope_hash uuid_text action_text normal).

(** The identifiers a decision draws. *)
Record drawn := Drawn {
  decision_id : Z;
  incident_id : Z;
  proposal_id : Z;
  approval_id : Z;
}.

Definition credit_proposal_of (c : LateDeliveryDecideCommand) (late_by incident : Z) : RemedyProposalCommand :=
  ProposalCommand (decide_store c) incident RemedyKind.LATE_DELIVERY_CREDIT true (decide_principal c) None None
    (Some late_by) (decide_at c) None.

(** The incident and the claim of the shop's fault. *)
Definition credit_claim (w : world) (b : shop) (c : LateDeliveryDecideCommand) (ids : drawn) (late_by : Z) : lately shop :=
  b ← open_from_counter w b c (incident_id ids);
  let '(b, r) := propose w b (credit_proposal_of c late_by (incident_id ids)) (proposal_id ids) (approval_id ids) in
  _ ← lift_remedy r;
  Ok b.

Definition decision_of (c : LateDeliveryDecideCommand) (ids : drawn) (reason : option NotStoreFaultReason.t)
    (note : option text) (clock : LateDeliveryClock) (late_by : Z) (delivered : datetime) : decision_row :=
  let credited := verdict c is? LateDeliveryDecision.STORE_FAULT_CREDITED in
  {| decision_order := decide_order c; decision_store := decide_store c; decision := verdict c;
     decision_reason := reason; decision_note := note; decision_late_by := late_by;
     decision_deadline := deadline clock; decision_basis := deadline_basis clock; decision_delivered_at := delivered;
     decision_incident := if credited then Some (incident_id ids) else None;
     decision_proposal := if credited then Some (proposal_id ids) else None;
     decided_by := staff_user_id (decide_principal c); decided_at := decide_at c |}.

(** [_decide_locked], inside the claim's transaction. *)
Definition _decide_locked (w : world) (c : LateDeliveryDecideCommand) (reason : option NotStoreFaultReason.t)
    (note : option text) (ids : drawn) (s : late_shop) : lately (late_shop * decision_row) :=
  o ← require_some (orders (base s) !! decide_order c) OrderNotVisibleError;
  raise_if (negb (order_store o =? decide_store c)) OrderNotVisibleError ;;
  raise_if (decided s (decide_order c)) (late_refused "ALREADY_DECIDED") ;;
  found ← lift_remedy (read_published_remedy_policy digest (configurations (base s)));
  published ← require_some found (late_refused "REMEDY_POLICY_UNPUBLISHED");
  let threshold := late_delivery_threshold_minutes (figures published) in
  raise_if (negb (fulfillment_mode o in? _RETURN_MODES)) (late_refused "LATE_DELIVERY_NOT_MEASURABLE") ;;
  first_promise ← require_some (promised_ready_at s !! decide_order c) (late_refused "LATE_DELIVERY_NOT_MEASURABLE");
  clock ← measure_delivery s (decide_order c) first_promise;
  delivered ← require_some (delivered_at clock) (late_refused "LATE_DELIVERY_NOT_MEASURABLE");
  late_by ← require_some (late_by_minutes clock) (late_refused "LATE_DELIVERY_NOT_MEASURABLE");
  raise_if (negb (is_late_beyond clock threshold)) (LateDeliveryRefused "NOT_LATE" (Some threshold)) ;;
  b ← (if verdict c is? LateDeliveryDecision.STORE_FAULT_CREDITED then credit_claim w (base s) c ids late_by
       else Ok (base s));
  let d := decision_of c ids reason note clock late_by delivered in
  s ← insert_decision (with_base s b) (decision_id ids) d;
  Ok (s, d).

(** The request's payload; the note's digest stands in it for the note. *)
Definition late_payload : Type := (Z * Z * LateDeliveryDecision.t * option NotStoreFaultReason.t * option string).
Context (note_digest : text → string).

Definition decide_command (c : LateDeliveryDecideCommand) (reason : option NotStoreFaultReason.t) (note : option text)
    : IdempotentCommand (V := late_payload) :=
  Command ("late-delivery-decide:" ++ uuid_text (staff_user_id (decide_principal c)))%string (decide_key c)
    (decide_store c, decide_order c, verdict c, reason, note_digest <$> note).

End late_deliveries.

Module LateDeliveryRepository.
Definition decide (digest : object → option string) (document_hash : proposal_document → string)
    (facts_hash : MessageDraftFacts → string) (rendering_hash : MessageDraftFacts → string → string)
    (envelope_hash : request_payload → option string) (uuid_text : Z → string)
    (action_text : ApprovalAction.t → string) (normal : StoredApproval → option StoredApproval)
    (note_digest : text → string) (request_hash : late_payload → option string)
    (w : world) (s : store (T := late_shop) (R := decision_row)) (c : LateDeliveryDecideCommand) (ids : drawn)
    : store * result (IdempotencyError LateFailure) IdempotentResult :=
  match (_require_role (decide_principal c) ;;
         raise_if (negb (aware (decide_at c))) NaiveDecision ;;
         checked ← _checked_reason c;
         member w (decide_principal c) (decide_store c) ;;
         Ok checked) with
  | Err e => (s, Err (ExecutorError e))
  | Ok (reason, note) => Idempotency.execute request_hash Some s (decide_command uuid_text note_digest c reason note)
        (_decide_locked digest document_hash facts_hash rendering_hash envelope_hash uuid_text action_text normal
           w c reason note ids)
  end.
End LateDeliveryRepository.
