(* ===== verification/LateList.v ===== *)
(** What the late list shows: the statement's predicate loses nothing the clock would measure as
    late, the count is the list's, and the credit on the button is the claim's. *)
From Stdlib Require Import Ascii String.
From S2P Require Import Prelude Clock Text Json Configurations Catalog Promise Storage.
From S2P Require Import Idempotency Approvals Remedies RemedyLedger LateDelivery LateDeliveries.
Local Open Scope laundry_scope.
Local Open Scope Z_scope.

(** * Sorting and filtering *)

Section sorted_filter.
Context {A : Type} (leb : A → A → bool) (keep : A → bool).
Hypothesis leb_total : ∀ x y, leb x y = false → leb y x = true.
Hypothesis leb_trans : ∀ x y z, leb x y = true → leb y z = true → leb x z = true.

Lemma insert_sorted_first x l : Forall (λ y, leb x y = true) l → insert_sorted leb x l = x :: l.
Proof. destruct l as [|y l]; [done|]. intros [H _]%Forall_cons. cbn. by rewrite H. Qed.

Lemma filter_insert_sorted x l : StronglySorted (λ a b, leb a b = true) l →
  filter (λ a, keep a = true) (insert_sorted leb x l)
  = if keep x then insert_sorted leb x (filter (λ a, keep a = true) l) else filter (λ a, keep a = true) l.
Proof.
  induction 1 as [|y l Hs IH Hy]; [|].
  { change (insert_sorted leb x []) with [x]. rewrite filter_cons, !filter_nil. by destruct (keep x). }
  cbn [insert_sorted]. destruct (leb x y) eqn:Hxy.
  - rewrite (filter_cons _ x). destruct (keep x) eqn:Hk; [rewrite decide_True by done|by rewrite decide_False].
    symmetry. apply insert_sorted_first. apply Forall_forall. intros z [_ Hz]%list_elem_of_filter.
    apply elem_of_cons in Hz as [->|Hz]; [done|]. rewrite Forall_forall in Hy. by eapply leb_trans, Hy.
  - rewrite !filter_cons. destruct (keep y) eqn:Hk.
    + rewrite !decide_True by done. rewrite IH. destruct (keep x); [|done]. cbn. by rewrite Hxy.
    + by rewrite !decide_False.
Qed.

Lemma filter_stable_sort l : filter (λ a, keep a = true) (stable_sort leb l)
  = stable_sort leb (filter (λ a, keep a = true) l).
Proof.
  induction l as [|x l IH]; [done|]. cbn [stable_sort]. rewrite filter_insert_sorted by by apply stable_sort_sorted.
  rewrite IH, filter_cons. by destruct (keep x); [rewrite decide_True|rewrite decide_False].
Qed.
End sorted_filter.

Lemma cand_leb_total a b : cand_leb a b = false → cand_leb b a = true.
Proof.
  unfold cand_leb. rewrite orb_false_iff, orb_true_iff, andb_false_iff, andb_true_iff, <- !not_true_iff_false,
    !dt_ltb_lt, !dt_leb_le, !Z.leb_le. lia.
Qed.
Lemma cand_leb_trans a b c : cand_leb a b = true → cand_leb b c = true → cand_leb a c = true.
Proof. unfold cand_leb. rewrite !orb_true_iff, !andb_true_iff, !dt_ltb_lt, !dt_leb_le, !Z.leb_le. lia. Qed.

(** * What the statement's predicate may leave out *)

(** The database keeps every instant with its zone. *)
Record zoned (s : late_shop) : Prop := {
  zoned_promises : ∀ id t, promised_ready_at s !! id = Some t → aware t = true;
  zoned_changes : Forall (λ c, aware (new_promise_at (change c)) = true ∧ aware (changed_at (change c)) = true) (promise_changes s);
  zoned_legs : Forall (λ l, aware (leg_recorded_at (leg l)) = true) (legs s);
}.

Lemma moves_of_elem s id m : m ∈ moves_of s id ↔ ∃ c, c ∈ promise_changes s ∧ change_order c = id ∧ change c = m.
Proof.
  unfold moves_of. rewrite list_elem_of_fmap. setoid_rewrite (stable_sort_perm change_leb).
  setoid_rewrite list_elem_of_filter. naive_solver.
Qed.
Lemma legs_of_elem s id a : a ∈ legs_of s id ↔
  ∃ l, l ∈ legs s ∧ leg_order l = id ∧ leg_kind (leg l) = "RETURN"%string ∧ leg l = a.
Proof.
  unfold legs_of. rewrite list_elem_of_fmap. setoid_rewrite (stable_sort_perm leg_leb).
  setoid_rewrite list_elem_of_filter. setoid_rewrite andb_true_iff. setoid_rewrite Z.eqb_eq.
  setoid_rewrite bool_decide_eq_true. naive_solver.
Qed.

Lemma measured s id first : zoned s → aware first = true → ∃ c, measure_delivery s id first = Ok c.
Proof.
  intros [_ Hc Hl] Hf. rewrite Forall_forall in Hc. rewrite Forall_forall in Hl. unfold measure_delivery.
  destruct (late_delivery_clock first (moves_of s id) (legs_of s id)) as [c|e] eqn:H; [by exists c|exfalso].
  unfold late_delivery_clock in H. rewrite Hf in H. cbn in H.
  assert (forallb (λ m, aware (new_promise_at m) && aware (changed_at m)) (moves_of s id) = true) as Hm.
  { apply forallb_forall. intros m (c & Hcs & _ & <-)%list_elem_of_In%moves_of_elem. apply andb_true_iff. by apply Hc. }
  assert (forallb (λ l, aware (leg_recorded_at l)) (legs_of s id) = true) as Hls.
  { apply forallb_forall. intros m (l & Hll & _ & _ & <-)%list_elem_of_In%legs_of_elem. by apply Hl. }
  rewrite Hm, Hls in H. done.
Qed.

Lemma undecided_spec s store l c : undecided_delivery s store l = Some c ↔
  ∃ o first, orders (base s) !! leg_order l = Some o ∧ promised_ready_at s !! leg_order l = Some first ∧
    leg_store l = store ∧ order_store o = store ∧ attempt_ended "SUCCEEDED" (leg l) = true ∧
    fulfillment_mode o ∈ _RETURN_MODES ∧ decided s (leg_order l) = false ∧
    c = Candidate (leg_order l) first (leg_recorded_at (leg l)).
Proof.
  unfold undecided_delivery. destruct (orders (base s) !! leg_order l) as [o|]; cbn; [|naive_solver].
  destruct (promised_ready_at s !! leg_order l) as [first|]; cbn; [|naive_solver].
  destruct (Z.eqb_spec (leg_store l) store); cbn; [|naive_solver].
  destruct (Z.eqb_spec (order_store o) (leg_store l)); cbn; [|naive_solver congruence].
  destruct (attempt_ended "SUCCEEDED" (leg l)); cbn; [|naive_solver].
  case_bool_decide; cbn; [|naive_solver]. destruct (decided s (leg_order l)); cbn; naive_solver.
Qed.

(** A delivery measured late beyond the threshold passes the predicate. *)
Lemma late_may_be_late s store l c clock threshold : l ∈ legs s → undecided_delivery s store l = Some c → 0 <= threshold →
  measure_delivery s (cand_order c) (cand_first_promise c) = Ok clock → is_late_beyond clock threshold = true →
  may_be_late s threshold c = true.
Proof.
  intros Hl (o & first & _ & _ & _ & _ & Hs & _ & _ & ->)%undecided_spec Ht. cbn [cand_order cand_first_promise]. intros Hm Hlate.
  unfold measure_delivery in Hm. destruct (late_delivery_clock _ _ _) as [k|] eqn:Hk; [|done]. injection Hm as ->.
  unfold may_be_late. cbn [cand_order cand_first_promise cand_arrived]. apply orb_true_iff.
  destruct (customer_asked s (leg_order l)) eqn:Hasked; [by right|left].
  apply (late_beyond_iff _ _ _ _ _ Hk Ht) in Hlate as (t & Hd & Hlate).
  pose proof Hk as (_ & _ & _ & ->)%clock_Ok. cbn [deadline delivered_at] in *.
  destruct (found_well_all (head (arrivals (legs_of s (leg_order l)))) first (moves_of s (leg_order l)))
    as [[Hfound _]|(m & (pre & post & Hmoves & Hm & _) & _)].
  - rewrite Hfound in Hlate. cbn in Hlate. apply arrival_earliest in Hd as [_ Hearly].
    apply dt_ltb_lt. rewrite instant_dt_add. assert (Hr : leg_kind (leg l) = "RETURN"%string).
    { unfold attempt_ended in Hs. by apply andb_true_iff in Hs as [?%bool_decide_eq_true _]. }
    assert (Hin : leg l ∈ legs_of s (leg_order l)) by (apply legs_of_elem; by exists l).
    specialize (Hearly _ Hin Hs). unfold minutes, us_per_second in *. lia.
  - assert (m ∈ moves_of s (leg_order l)) as (c & Hc & Ho & <-)%moves_of_elem by (rewrite Hmoves; apply elem_of_app; right; left).
    unfold customer_asked in Hasked. eapply existsb_false in Hasked; [|exact Hc]. cbn in Hasked.
    rewrite Ho, Z.eqb_refl in Hasked. unfold counted in Hm. apply andb_true_iff in Hm as [Hm _]. by rewrite Hm in Hasked.
Qed.

(** * The list and its reference *)

(** Every delivery nobody decided about that the clock measures late, oldest arrival first. *)
Definition measured_late (s : late_shop) (threshold : Z) (c : candidate) : option (candidate * LateDeliveryClock) :=
  match measure_delivery s (cand_order c) (cand_first_promise c) with
  | Ok clock => if is_late_beyond clock threshold then Some (c, clock) else None
  | Err _ => None
  end.
Definition overdue (s : late_shop) (store threshold : Z) : list (candidate * LateDeliveryClock) :=
  omap (measured_late s threshold) (stable_sort cand_leb (omap (undecided_delivery s store) (legs s))).

Lemma late_among_measured s threshold l k : measure_deliveries s l = Ok k →
  late_among threshold k = omap (measured_late s threshold) l.
Proof.
  unfold measure_deliveries. rewrite traverse_Forall2. induction 1 as [|c y l k Hc _ IH]; [done|].
  apply bind_Ok in Hc as (clock & Hm & [= <-]). unfold late_among. rewrite filter_cons. cbn [snd omap list_omap].
  unfold measured_late at 1. rewrite Hm. fold (late_among threshold k). rewrite IH.
  by destruct (is_late_beyond clock threshold); [rewrite decide_True|rewrite decide_False].
Qed.

Lemma omap_filter_keeps {A B} (f : A → option B) (keep : A → bool) (l : list A) : (∀ x y, x ∈ l → f x = Some y → keep x = true) →
  omap f (filter (λ x, keep x = true) l) = omap f l.
Proof.
  induction l as [|x l IH]; intros Hk; [done|]. rewrite filter_cons. destruct (keep x) eqn:Hx.
  - rewrite decide_True by done. cbn. rewrite IH; [done|]. intros y z Hy. apply Hk. by right.
  - rewrite decide_False by done. cbn. destruct (f x) as [y|] eqn:Hf; [|apply IH; intros z w Hz; apply Hk; by right].
    by rewrite (Hk x y (ltac:(left)) Hf) in Hx.
Qed.

(** The statement's rows, measured, are the reference's. *)
Lemma candidates_late s store threshold : 0 <= threshold →
  omap (measured_late s threshold)
    (stable_sort cand_leb (filter (λ c, may_be_late s threshold c = true) (omap (undecided_delivery s store) (legs s))))
  = overdue s store threshold.
Proof.
  intros Ht. unfold overdue. rewrite <- (filter_stable_sort _ _ cand_leb_total cand_leb_trans).
  apply omap_filter_keeps. intros c y Hc Hy. rewrite stable_sort_perm in Hc.
  apply list_elem_of_omap in Hc as (l & Hl & Hu). unfold measured_late in Hy.
  destruct (measure_delivery _ _ _) as [clock|] eqn:Hm; [|done]. destruct (is_late_beyond _ _) eqn:Hlate; [|done].
  by eapply late_may_be_late.
Qed.
Lemma omap_take_prefix {A B} (f : A → option B) n (l : list A) : omap f (take n l) `prefix_of` omap f l.
Proof. rewrite <- (take_drop n l) at 2. rewrite omap_app. by apply prefix_app_r. Qed.

Lemma fmap_prefix_of {A B} (f : A → B) (l k : list A) : l `prefix_of` k → f <$> l `prefix_of` f <$> k.
Proof. intros [m ->]. rewrite fmap_app. by apply prefix_app_r. Qed.

Section list.
Context (digest : object → option string).

Lemma published_threshold t pub : read_published_remedy_policy digest t = Ok (Some pub) →
  0 <= late_delivery_threshold_minutes (figures pub).
Proof.
  unfold read_published_remedy_policy. intros H. apply bind_Ok in H as ([p|] & _ & H); [|done].
  destruct (get_published _ _) as [payload|]; [|done]. apply bind_Ok in H as (? & _ & H).
  destruct (negb _); [done|]. destruct (parse_remedy_policy _) as [pol|] eqn:Hp; [|done]. injection H as <-.
  unfold parse_remedy_policy in Hp. repeat first [apply raise_bind_Ok in Hp as [? Hp]|apply bind_Ok in Hp as (? & ? & Hp)].
  injection Hp as <-. cbn.
  match goal with H : _policy_integer payload "late_delivery_threshold_minutes" = Ok _ |- _ =>
    unfold _policy_integer in H; destruct (dict_get payload "late_delivery_threshold_minutes") as [[]|]; try done;
    apply raise_bind_Ok in H as [Hv [= <-]]; apply negb_false_iff in Hv; unfold _valid_amount in Hv;
    apply andb_true_iff in Hv as [Hv _]; by apply Z.leb_le in Hv end.
Qed.

Lemma lift_remedy_Ok {A} (r : remedy A) (x : A) : lift_remedy r = Ok x → r = Ok x.
Proof. destruct r; [by intros [= ->]|done]. Qed.

Definition shown (r : LateDeliveryRow) : Z * datetime * LateDeliveryClock := (row_order r, row_first_promise r, row_clock r).
Definition as_shown (c : candidate * LateDeliveryClock) : Z * datetime * LateDeliveryClock :=
  (cand_order c.1, cand_first_promise c.1, c.2).

(** What one scan of the statement measures late. *)
Lemma scanned s store threshold clocks : 0 <= threshold →
  measure_deliveries s (take SCAN_LIMIT (LATE_CANDIDATES_SQL s store threshold (S SCAN_LIMIT))) = Ok clocks →
  late_among threshold clocks `prefix_of` overdue s store threshold ∧
  ((length (LATE_CANDIDATES_SQL s store threshold (S SCAN_LIMIT)) <= SCAN_LIMIT)%nat →
   late_among threshold clocks = overdue s store threshold).
Proof.
  intros Ht H. rewrite (late_among_measured _ _ _ _ H). rewrite <- (candidates_late s store threshold Ht).
  unfold LATE_CANDIDATES_SQL in *. set (l := stable_sort _ _) in *. split.
  - rewrite take_take. apply omap_take_prefix.
  - rewrite length_take. intros Hl. rewrite take_take, take_ge by lia. done.
Qed.

Lemma late_rows_shown s policy at_ l rows : traverse (_late_row s policy at_) l = Ok rows → shown <$> rows = as_shown <$> l.
Proof.
  rewrite traverse_Forall2. induction 1 as [|cc r l rows Hr _ IH]; [done|].
  apply bind_Ok in Hr as (pv & _ & [= <-]). cbn. by rewrite IH.
Qed.

(** C26: the late list misses nothing.  The orders it shows are the first of the store's
    undecided deliveries that the clock measures late beyond the published threshold, oldest
    arrival first, each with its measurement; when it does not say it was cut short it shows
    them all, and a count that is not said to be a floor is their number. *)
Theorem late_list_exact w s store p as_of limit l threshold staff : zoned s →
  list_late digest w s store p as_of limit = Ok l → list_published l = Some (threshold, staff) →
  let late := as_shown <$> overdue s store threshold in
  shown <$> list_orders l `prefix_of` late ∧
  (list_truncated l = false → shown <$> list_orders l = late) ∧
  ∃ n floor, count_undecided digest w s store p = Ok (Some (n, floor)) ∧ 
    n <= Z.of_nat (length late) ∧ (floor = false → n = Z.of_nat (length late)).
Proof.
  intros Hz H Hpub late. unfold list_late in H. unfold count_undecided.
  apply bind_Ok in H as (u & Hrole & H). apply bind_Ok in H as (u' & Hmem & H). apply raise_bind_Ok in H as [Hlim H].
  apply bind_Ok in H as ([pub|] & Hread & H); [|injection H as <-; discriminate Hpub].
  apply bind_Ok in H as (clocks & Hclocks & H). apply bind_Ok in H as (rows & Hrows & [= <-]).
  cbn [list_published list_orders list_truncated] in *. injection Hpub as <- <-.
  pose proof (published_threshold _ _ (lift_remedy_Ok _ _ Hread)) as Ht. set (threshold := late_delivery_threshold_minutes (figures pub)) in *.
  destruct (scanned s store threshold clocks Ht Hclocks) as [Hpre Hall]. apply late_rows_shown in Hrows. rewrite Hrows.
  split; [|split].
  - etransitivity; [apply (fmap_prefix_of as_shown), prefix_take|]. by apply fmap_prefix_of.
  - intros [Hn%Z.ltb_ge Hs%negb_false_iff%Nat.leb_le]%orb_false_iff. unfold late. rewrite <- (Hall Hs).
    rewrite take_ge; [done|]. lia.
  - rewrite Hrole, Hmem, Hread. cbn [mbind result_bind]. fold threshold. rewrite Hclocks. cbn [mbind result_bind]. do 2 eexists. split; [done|].
    unfold late. rewrite length_fmap. split.
    + apply prefix_length in Hpre. lia.
    + intros Hs%Nat.ltb_ge. by rewrite (Hall Hs).
Qed.
End list.
