(* ===== verification/LateSafety.v ===== *)
(** Every history of late deliveries: legs and promises recorded, remedies proposed and paid,
    and verdicts given, in any order.  What a verdict's claim is, and what a verdict keeps: the
    measurement it was given on stands, and its claim says the same. *)
From Stdlib Require Import Ascii String.
From S2P Require Import Prelude Clock Text Json Configurations Catalog Promise Storage.
From S2P Require Import Idempotency Approvals Remedies RemedyLedger RemedyHistory RemedyKept RemedySafety.
From S2P Require Import LateDelivery LateDeliveries LateList.
Local Open Scope laundry_scope.
Local Open Scope Z_scope.

(** * Claims and incidents stay what they are *)

Record same_claim (p p' : proposal) : Prop := {
  claim_store : proposal_store p' = proposal_store p;
  claim_incident : proposal_incident p' = proposal_incident p;
  claim_order : proposal_order p' = proposal_order p;
  claim_kind : proposal_kind p' = proposal_kind p;
  claim_late_by : proposal_late_by p' = proposal_late_by p;
  claim_fault : proposal_fault_attested p' = proposal_fault_attested p;
}.
Record lasting (b b' : shop) : Prop := {
  lasting_claims : ∀ id p, proposals b !! id = Some p → ∃ p', proposals b' !! id = Some p' ∧ same_claim p p';
  lasting_incidents : ∀ id i, incidents b !! id = Some i →
    ∃ i', incidents b' !! id = Some i' ∧ incident_store i' = incident_store i ∧ incident_order i' = incident_order i;
}.

Lemma same_claim_refl p : same_claim p p.
Proof. by split. Qed.
Lemma lasting_same b b' : proposals b' = proposals b → incidents b' = incidents b → lasting b b'.
Proof. intros Hp Hi. split; [intros id p H; exists p|intros id i H; exists i]; rewrite ?Hp, ?Hi; by split. Qed.
Lemma lasting_trans b1 b2 b3 : lasting b1 b2 → lasting b2 b3 → lasting b1 b3.
Proof.
  intros [C1 I1] [C2 I2]. split.
  - intros id p Hp. destruct (C1 _ _ Hp) as (p2 & H2 & []). destruct (C2 _ _ H2) as (p3 & H3 & []).
    exists p3. split; [done|]. split; congruence.
  - intros id i Hi. destruct (I1 _ _ Hi) as (i2 & H2 & ? & ?). destruct (I2 _ _ H2) as (i3 & H3 & ? & ?).
    exists i3. split_and!; [done|congruence..].
Qed.

(** One incident's row rewritten, its store and order kept. *)
Lemma lasting_incident b id i i' : incidents b !! id = Some i → incident_store i' = incident_store i →
  incident_order i' = incident_order i → lasting b (with_incidents b (<[id := i']> (incidents b))).
Proof.
  intros Hi Hs Ho. split; cbn; [intros k p Hp; exists p; by split|]. intros k j Hj.
  destruct (decide (id = k)) as [<-|Hne].
  - exists i'. rewrite lookup_insert_eq. split_and!; [done|congruence..].
  - exists j. by rewrite lookup_insert_ne.
Qed.
Lemma lasting_new_claim b id p : proposals b !! id = None → lasting b (with_proposals b (<[id := p]> (proposals b))).
Proof.
  intros Hn. split; cbn; [|intros k i Hi; by exists i]. intros k q Hq. exists q. split; [|apply same_claim_refl].
  rewrite lookup_insert_ne; [done|]. intros ->. congruence.
Qed.

Lemma lasting_record b p b' : propose_commit b p = Ok b' → lasting b b'.
Proof.
  intros (i & _ & Hi & _ & Hn & _ & ->)%propose_commit_Ok. eapply lasting_trans; [by apply (lasting_new_claim b (prep_id p))|].
  apply (lasting_incident (with_proposals b _) _ i); [done|..]; unfold _open_incident_review; by case_bool_decide.
Qed.

Lemma lasting_pay digest b x id b' : execute_commit digest b x id = Ok b' → lasting b b'.
Proof.
  intros (now & cr & _ & _ & Hnow & _ & _ & _ & ->)%execute_commit_Ok.
  set (b1 := with_credits _ cr). assert (lasting b b1) as Hb1.
  { split; cbn; [|intros k i Hi; by exists i]. intros k q Hq. destruct (decide (pay_id x = k)) as [<-|Hne].
    - rewrite lookup_insert_eq. eexists. split; [done|]. rewrite Hnow in Hq. injection Hq as <-. by split.
    - rewrite lookup_insert_ne by done. exists q. by split. }
  destruct (close_incident_spec b1 (proposal_incident (pay_row x))) as (m & -> & [->|(i & Hi & -> & _)]).
  - eapply lasting_trans; [exact Hb1|]. by apply lasting_same.
  - eapply lasting_trans; [exact Hb1|]. by eapply lasting_incident.
Qed.

(** Approvals rewritten or figures republished leave claims and incidents alone. *)
Lemma lasting_step digest validators document_hash facts_hash rendering_hash envelope_hash uuid_text action_text normal m m' :
  step digest validators document_hash facts_hash rendering_hash envelope_hash uuid_text action_text normal m m' →
  lasting (current m) (current m').
Proof.
  intros []; cbn [current]; try by apply lasting_same.
  - match goal with H : _request_owner_approval _ _ _ _ _ _ _ _ _ _ = _ |- _ => unfold _request_owner_approval in H end.
    destruct (ApprovalRepository.request _ _ _ _ _ _ _ _ _) as [e r']. simplify_eq. by apply lasting_same.
  - by eapply lasting_record.
  - by eapply lasting_pay.
  - match goal with H : elsewhere _ _ |- _ => destruct H as [Hp _ _ _ _ Hi _] end.
    split; [intros k p Hk; exists p; by rewrite Hp|intros k i Hk; exists i; split; [by apply Hi|done]].
Qed.

(** * The claim of a verdict *)

Section claims.
Context (digest : object → option string) (document_hash : proposal_document → string)
  (facts_hash : MessageDraftFacts → string) (rendering_hash : MessageDraftFacts → string → string)
  (envelope_hash : request_payload → option string) (uuid_text : Z → string)
  (action_text : ApprovalAction.t → string) (normal : StoredApproval → option StoredApproval).

Notation credit_claim := (credit_claim digest document_hash facts_hash rendering_hash envelope_hash uuid_text action_text normal).
Notation propose := (propose digest document_hash facts_hash rendering_hash envelope_hash uuid_text action_text normal).

Lemma open_Ok w b c id b' : open_from_counter w b c id = Ok b' → incidents b !! id = None ∧
  b' = with_incidents b (<[id := IncidentRow (decide_store c) (Some (decide_order c)) IncidentStatus.OPEN false false]> (incidents b)).
Proof.
  unfold open_from_counter. intros H. apply raise_bind_Ok in H as [_ H]. apply raise_bind_Ok in H as [_ H].
  apply bind_Ok in H as (o & _ & H). apply raise_bind_Ok in H as [_ H]. apply raise_bind_Ok in H as [Hn [= <-]].
  apply bool_decide_eq_false in Hn. split; [by apply eq_None_not_Some|done].
Qed.

Lemma propose_check_Ok w b c pid p : propose_check digest document_hash w b c pid = Ok p →
  ∃ order_id o facts st policy committed outcome,
    _read_order_for_incident b (prop_store c) (prop_incident c) = Ok (order_id, o, facts, st) ∧
    read_published_remedy_policy digest (configurations b) = Ok (Some policy) ∧
    _read_commitments b order_id (prop_line_id c) (prop_garment c) = Ok committed ∧
    decided_as policy facts c committed = Ok outcome ∧
    ∃ hash, p = Prepared c pid order_id facts (current_snapshot_hash o) policy committed outcome hash None.
Proof.
  unfold propose_check. intros H. apply raise_bind_Ok in H as [_ H]. apply bind_Ok in H as (? & _ & H).
  apply bind_Ok in H as ([[[order_id o] facts] st] & Hr & H). apply bind_Ok in H as (published & Hp & H).
  apply bind_Ok in H as (committed & Hc & H). apply bind_Ok in H as (? & _ & H). apply bind_Ok in H as (policy & Hpol & H).
  apply require_some_Ok in Hpol as ->. apply bind_Ok in H as (outcome & Hout & [= <-]).
  exists order_id, o, facts, st, policy, committed, outcome. split_and!; try done. by eexists.
Qed.

(** [propose] recorded its claim, decided on what it read. *)
Lemma propose_Ok w b c pid aid b' r : propose w b c pid aid = (b', Ok r) →
  ∃ p e approval, propose_check digest document_hash w b c pid = Ok p ∧
    (approval = None ↔ requires_owner_approval (prep_outcome p) = false) ∧
    let q := Prepared (prep_command p) (prep_id p) (prep_order_id p) (prep_facts p) (prep_quote_hash p) (prep_policy p)
               (prep_committed p) (prep_outcome p) (prep_hash p) approval in
    propose_commit (with_envelopes b e) q = Ok b'.
Proof.
  unfold RemedyLedger.propose. destruct (propose_check _ _ _ _ _ _) as [p|] eqn:Hc; [|done].
  assert (Hnone : prep_approval p = None).
  { by apply propose_check_Ok in Hc as (? & ? & ? & ? & ? & ? & ? & _ & _ & _ & _ & ? & ->). }
  destruct (requires_owner_approval (prep_outcome p)) eqn:Ho.
  - destruct (_request_owner_approval _ _ _ _ _ _ _ _ _ _) as [b1 [q|]] eqn:Hr; [|done].
    unfold _request_owner_approval in Hr. destruct (ApprovalRepository.request _ _ _ _ _ _ _ _ _) as [e [st|]]; [|done].
    simplify_eq. destruct (propose_commit _ _) as [b2|] eqn:Hp; [|done]. intros [= <- _].
    exists p, e, (Some (approval_request_id (response st))). rewrite Ho. by split_and!.
  - destruct (propose_commit _ _) as [b2|] eqn:Hp; [|done]. intros [= <- _]. exists p, (envelopes b), None.
    rewrite Ho. split_and!; [done|done|]. destruct p; cbn in *; subst. by destruct b.
Qed.

(** The claim of the shop's fault: decided on the order's record at the measured minutes. *)
Record credit_claimed (b : shop) (c : LateDeliveryDecideCommand) (ids : drawn) (late_by : Z) (p : proposal) : Prop := {
  claimed_row : proposal_store p = decide_store c ∧ proposal_incident p = incident_id ids ∧
    proposal_order p = decide_order c ∧ proposal_kind p = RemedyKind.LATE_DELIVERY_CREDIT ∧
    proposal_late_by p = Some late_by ∧ proposal_fault_attested p = true;
  claimed_decision : ∃ o facts policy committed outcome,
    _read_order_record b (decide_order c) = Ok (o, facts) ∧
    read_published_remedy_policy digest (configurations b) = Ok (Some policy) ∧
    _read_commitments b (decide_order c) None None = Ok committed ∧
    decided_as policy facts (credit_proposal_of c late_by (incident_id ids)) committed = Ok outcome ∧
    proposal_amount_vnd p = authorized_amount_vnd outcome ∧
    (proposal_status p = RemedyStatus.OWNER_APPROVAL_REQUIRED ↔ requires_owner_approval outcome = true);
}.

Lemma credit_claim_Ok w b c ids late_by b' : credit_claim w b c ids late_by = Ok b' →
  lasting b b' ∧ (∃ i, incidents b' !! incident_id ids = Some i ∧ incident_order i = Some (decide_order c)) ∧
  ∃ p, proposals b' !! proposal_id ids = Some p ∧ credit_claimed b c ids late_by p.
Proof.
  unfold LateDeliveries.credit_claim. intros H. apply bind_Ok in H as (b1 & Hopen & H).
  apply open_Ok in Hopen as [Hnew Hb1]. destruct (propose _ _ _ _ _) as [b2 r] eqn:Hp.
  apply bind_Ok in H as (x & Hr & [= ->]). apply lift_remedy_Ok in Hr as ->.
  apply propose_Ok in Hp as (p & e & a & Hcheck & _ & Hcommit).
  apply propose_check_Ok in Hcheck as (oid & o & facts & st & policy & committed & outcome & Hrd & Hpub & Hcom & Hdec & hash & ->).
  assert (Hrec : oid = decide_order c ∧ _read_order_record b (decide_order c) = Ok (o, facts)).
  { unfold _read_order_for_incident in Hrd. apply bind_Ok in Hrd as (i & Hi & Hrd). apply require_some_Ok in Hi.
    rewrite Hb1 in Hi. cbn in Hi. rewrite lookup_insert_eq in Hi. injection Hi as <-.
    apply raise_bind_Ok in Hrd as [_ Hrd]. cbn in Hrd. apply bind_Ok in Hrd as ([o' facts'] & Hrec & [= <- -> -> _]).
    rewrite Hb1 in Hrec. split; [done|exact Hrec]. }
  destruct Hrec as [-> Hrec]. assert (Hlast : lasting b b').
  { apply (lasting_trans _ b1); [|apply (lasting_trans _ (with_envelopes b1 e)); [by apply lasting_same|by eapply lasting_record]].
    rewrite Hb1. split; cbn; [intros k q Hk; exists q; by split|]. intros k i Hk. exists i.
    rewrite lookup_insert_ne; [done|]. intros <-. congruence. }
  split; [exact Hlast|]. apply propose_commit_Ok in Hcommit as (i & _ & Hi & _ & _ & _ & ->). cbn in Hi.
  rewrite Hb1 in Hi. cbn in Hi. rewrite lookup_insert_eq in Hi. injection Hi as <-. split.
  - eexists. cbn. rewrite lookup_insert_eq. split; [done|done].
  - eexists. cbn. rewrite lookup_insert_eq. split; [done|]. split; [done|].
    exists o, facts, policy, committed, outcome. rewrite Hb1 in Hpub, Hcom. split_and!; try done.
    all: cbn; by destruct (requires_owner_approval outcome).
Qed.

(** * A verdict, undone *)

Notation _decide_locked :=
  (_decide_locked digest document_hash facts_hash rendering_hash envelope_hash uuid_text action_text normal).

Lemma inserted_verdict_Ok s id d s' : insert_decision s id d = Ok s' →
  decisions s !! id = None ∧ decided s (decision_order d) = false ∧ decision_checks d = true ∧ names_its_credit s d = true ∧
  (∀ k d', decisions s !! k = Some d' → is_Some (decision_proposal d) → decision_proposal d' ≠ decision_proposal d) ∧
  s' = with_decisions s (<[id := d]> (decisions s)).
Proof.
  unfold insert_decision. intros H. apply raise_bind_Ok in H as [H [= <-]]. rewrite !orb_false_iff in H.
  destruct H as [[[[Hn%bool_decide_eq_false Hd] Hu] Hc%negb_false_iff] Hl%negb_false_iff].
  split_and!; try done; [by apply eq_None_not_Some|]. intros k d' Hk [x Hx] Heq. rewrite Hx in *. cbn in Hu.
  eapply (existsb_false _ _ (k, d')) in Hu; [|by apply elem_of_map_to_list]. cbn in Hu. by rewrite Heq, bool_decide_true in Hu.
Qed.

Lemma decide_locked_Ok w c reason note ids s s' d : _decide_locked w c reason note ids s = Ok (s', d) →
  ∃ pub first clock delivered late_by b,
    read_published_remedy_policy digest (configurations (base s)) = Ok (Some pub) ∧
    promised_ready_at s !! decide_order c = Some first ∧
    measure_delivery s (decide_order c) first = Ok clock ∧ delivered_at clock = Some delivered ∧
    late_by_minutes clock = Some late_by ∧ late_delivery_threshold_minutes (figures pub) < late_by ∧
    (if verdict c is? LateDeliveryDecision.STORE_FAULT_CREDITED
     then credit_claim w (base s) c ids late_by = Ok b else b = base s) ∧
    d = decision_of c ids reason note clock late_by delivered ∧
    insert_decision (with_base s b) (decision_id ids) d = Ok s'.
Proof.
  unfold LateDeliveries._decide_locked. intros H. apply bind_Ok in H as (o & _ & H). apply raise_bind_Ok in H as [_ H].
  apply raise_bind_Ok in H as [_ H]. apply bind_Ok in H as (found & Hpub & H). apply bind_Ok in H as (pub & Hf & H).
  apply require_some_Ok in Hf as ->. apply raise_bind_Ok in H as [_ H]. apply bind_Ok in H as (first & Hfirst & H).
  apply require_some_Ok in Hfirst. apply bind_Ok in H as (clock & Hm & H). apply bind_Ok in H as (delivered & Hd & H).
  apply require_some_Ok in Hd. apply bind_Ok in H as (late_by & Hl & H). apply require_some_Ok in Hl.
  apply raise_bind_Ok in H as [Hlate%negb_false_iff H]. apply bind_Ok in H as (b & Hb & H). apply bind_Ok in H as (s1 & Hins & [= <- <-]).
  unfold is_late_beyond in Hlate. rewrite Hl in Hlate. cbn in Hlate. apply Z.ltb_lt in Hlate.
  exists pub, first, clock, delivered, late_by, b. split_and!; try done; [by apply lift_remedy_Ok in Hpub|].
  by case_bool_decide; [|injection Hb as <-].
Qed.

(** * The figure on the button *)

(** Past the threshold, how late and when a credit is asked for does not change what it comes to. *)
Lemma late_answer policy facts c incident late_by prior out at_ : 0 <= late_delivery_threshold_minutes policy < late_by →
  evaluate_remedy policy facts (request_of (credit_proposal_of c late_by incident)) (decide_at c) prior = Ok out →
  aware at_ = true → evaluate_remedy policy facts (probe_request policy) at_ prior = Ok out.
Proof.
  intros Ht. unfold evaluate_remedy. intros H Ha. rewrite Ha. apply raise_bind_Ok in H as [_ H]. cbn [negb raise_if mbind result_bind].
  unfold _refuse_wrong_shape, probe_request, request_of in *. cbn in *.
  rewrite (proj2 (Z.leb_le 0 late_by)) in H by lia. rewrite (proj2 (Z.leb_le 0 (_ + 1))) by lia. cbn in *.
  rewrite <- H. f_equal. unfold _evaluate_late_delivery.
  by rewrite (proj2 (Z.leb_gt late_by _)), (proj2 (Z.leb_gt (_ + 1) _)) by lia.
Qed.

(** C27: the figure on the button is the figure of the claim.  Where the list shows a late
    delivery of an order that was not refunded, and staff say it was the shop's fault, the
    claim recorded is for exactly the credit shown, needs the owner exactly when the list said
    so, and states the measured minutes. *)
Theorem button_is_the_claim w c reason note ids s s' d pub at_ pv :
  _decide_locked w c reason note ids s = Ok (s', d) → verdict c = LateDeliveryDecision.STORE_FAULT_CREDITED →
  read_published_remedy_policy digest (configurations (base s)) = Ok (Some pub) →
  read_late_credit_preview (base s) (decide_order c) (figures pub) at_ = Ok pv → preview_refunded pv = false →
  ∃ p v, decision_proposal d = Some (proposal_id ids) ∧ proposals (base s') !! proposal_id ids = Some p ∧
    proposal_amount_vnd p = Some v ∧ preview_credit_vnd pv = Some v ∧ refusal_shown pv = None ∧
    (proposal_status p = RemedyStatus.OWNER_APPROVAL_REQUIRED ↔ preview_requires_owner pv = true) ∧
    proposal_late_by p = Some (decision_late_by d).
Proof.
  intros Hd Hv Hpub Hpv Hnr. apply decide_locked_Ok in Hd as (pub' & first & clock & delivered & late_by & b & Hpub' & _ & _ & _ & _ & Hlate & Hb & -> & Hins).
  rewrite Hpub in Hpub'. injection Hpub' as <-. rewrite Hv, bool_decide_true in Hb by done.
  apply credit_claim_Ok in Hb as (_ & _ & p & Hp & [(_ & _ & _ & _ & Hlb & _) Hdec]).
  destruct Hdec as (o & facts & policy & committed & outcome & Hrec & Hpol & Hcom & Hdec & Hamt & Hst).
  rewrite Hpub in Hpol. injection Hpol as <-.
  apply inserted_verdict_Ok in Hins as (_ & _ & _ & _ & _ & ->). unfold read_late_credit_preview in Hpv.
  rewrite Hrec in Hpv. cbn [mbind result_bind] in Hpv. rewrite Hcom in Hpv. cbn [mbind result_bind] in Hpv.
  apply bind_Ok in Hpv as (probe & Hprobe & [= <-]). cbn in Hnr |- *. rewrite Hnr.
  unfold decided_as in Hdec. apply bind_Ok in Hdec as (out & Hout & Hdec). destruct out as [a|]; [|done]. injection Hdec as ->.
  unfold lift_policy in Hout. destruct (evaluate_remedy _ _ (request_of _) _ _) as [out|] eqn:Heval; [|done]. injection Hout as ->.
  pose proof (published_threshold _ _ _ Hpub) as Ht. unfold late_delivery_credit_probe in Hprobe.
  assert (Hev : ∀ t, aware t = true → evaluate_remedy (figures pub) facts (probe_request (figures pub)) t committed = Ok (Authorized outcome))
    by (intros t Ha; eapply late_answer; [split; [exact Ht|exact Hlate]|exact Heval|exact Ha]).
  assert (Hamount : is_Some (authorized_amount_vnd outcome) ∧ negb (expects_return_leg facts && return_leg_succeeded facts) = false).
  { specialize (Hev (DateTime 0 (Some 0)) eq_refl). unfold evaluate_remedy in Hev. cbn in Hev.
    unfold _refuse_wrong_shape, probe_request in Hev. cbn in Hev. rewrite (proj2 (Z.leb_le 0 (_ + 1))) in Hev by lia. cbn in Hev.
    unfold _evaluate_late_delivery in Hev. destruct (negb (_ =? 0)); [done|]. destruct (negb (_ && _)); [done|].
    destruct (_ <=? _); [done|]. destruct (settled_total_vnd facts); [|done]. injection Hev as <-. by eexists. }
  destruct Hamount as [[v Hamount] Hleg]. rewrite Hleg in Hprobe. apply bind_Ok in Hprobe as (out & Hout & [= <-]).
  assert (out = Authorized outcome) as ->.
  { unfold lift_policy in Hout. destruct (evaluate_remedy _ _ (probe_request _) _ _) as [x|] eqn:Hx; [|done]. injection Hout as ->.
    assert (aware at_ = true) as Ha by (unfold evaluate_remedy in Hx; by destruct (aware at_)). rewrite (Hev _ Ha) in Hx. by injection Hx as <-. }
  exists p, v. rewrite Hv. cbn. by rewrite Hp, Hamt, Hamount.
Qed.
End claims.

(** * What a measurement depends on *)

(** The two keys of a ledger's order. *)
Lemma leg_leb_total a b : leg_leb a b = false → leg_leb b a = true.
Proof.
  unfold leg_leb. rewrite orb_false_iff, orb_true_iff, andb_false_iff, andb_true_iff, <- !not_true_iff_false,
    !dt_ltb_lt, !dt_leb_le, !Z.leb_le. lia.
Qed.
Lemma leg_leb_trans a b c : leg_leb a b = true → leg_leb b c = true → leg_leb a c = true.
Proof. unfold leg_leb. rewrite !orb_true_iff, !andb_true_iff, !dt_ltb_lt, !dt_leb_le, !Z.leb_le. lia. Qed.
Lemma change_leb_total a b : change_leb a b = false → change_leb b a = true.
Proof.
  unfold change_leb. rewrite orb_false_iff, orb_true_iff, andb_false_iff, andb_true_iff, <- !not_true_iff_false,
    !dt_ltb_lt, !dt_leb_le, !Z.leb_le. lia.
Qed.
Lemma change_leb_trans a b c : change_leb a b = true → change_leb b c = true → change_leb a c = true.
Proof. unfold change_leb. rewrite !orb_true_iff, !andb_true_iff, !dt_ltb_lt, !dt_leb_le, !Z.leb_le. lia. Qed.

Lemma filter_fmap_bool {A B} (f : A → B) (keep : B → bool) (l : list A) :
  filter (λ b, keep b = true) (f <$> l) = f <$> filter (λ a, keep (f a) = true) l.
Proof. induction l as [|a l IH]; [done|]. cbn [fmap list_fmap]. rewrite !filter_cons, IH. by destruct (keep (f a)). Qed.

Definition arrivals_of (s : late_shop) (id : Z) : list datetime := arrivals (legs_of s id).
Definition asked_of (s : late_shop) (id : Z) : list PromiseMove :=
  filter (λ m, counted (head (arrivals_of s id)) m = true) (moves_of s id).

Lemma arrivals_of_legs s id : arrivals_of s id = stable_sort dt_leb (leg_recorded_at <$> (leg <$>
  stable_sort leg_leb (filter (λ l, attempt_ended "SUCCEEDED" (leg l) = true)
    (filter (λ l, (leg_order l =? id) && (leg_kind (leg l) is? "RETURN"%string) = true) (legs s))))).
Proof.
  unfold arrivals_of, arrivals, legs_of. rewrite filter_fmap_bool.
  by rewrite (filter_stable_sort leg_leb (λ l, attempt_ended "SUCCEEDED" (leg l)) leg_leb_total leg_leb_trans).
Qed.
Lemma asked_of_changes s id : asked_of s id = change <$>
  stable_sort change_leb (filter (λ c, counted (head (arrivals_of s id)) (change c) = true)
    (filter (λ c, change_order c = id) (promise_changes s))).
Proof.
  unfold asked_of, moves_of. rewrite filter_fmap_bool.
  by rewrite (filter_stable_sort change_leb (λ c, counted (head (arrivals_of s id)) (change c)) change_leb_total change_leb_trans).
Qed.

(** A clock as far as the verdict keeps it. *)
Definition measurement (c : LateDeliveryClock) : datetime * DeadlineBasis.t * option datetime * option Z :=
  (deadline c, deadline_basis c, delivered_at c, late_by_minutes c).

Lemma measurement_same s s' id first c c' : arrivals_of s' id = arrivals_of s id → asked_of s' id = asked_of s id →
  measure_delivery s id first = Ok c → measure_delivery s' id first = Ok c' → measurement c' = measurement c.
Proof.
  unfold measure_delivery, asked_of, arrivals_of. intros Ha Hm Hc Hc'.
  destruct (late_delivery_clock first (moves_of s id) (legs_of s id)) as [k|] eqn:H; [|done]. injection Hc as ->.
  destruct (late_delivery_clock first (moves_of s' id) (legs_of s' id)) as [k|] eqn:H'; [|done]. injection Hc' as ->.
  apply clock_Ok in H as (_ & _ & _ & ->). apply clock_Ok in H' as (_ & _ & _ & ->). unfold measurement. cbn.
  rewrite Ha in Hm |- *. by rewrite (consider_counted _ (moves_of s' id)), Hm, <- consider_counted.
Qed.

(** * Histories *)

(** The tables, the verdicts' idempotency records, and the remedies under way. *)
Record late_machine := LateMachine {
  verdicts : store (T := late_shop) (R := decision_row);
  proposing_now : list prepared;
  paying_now : list prepared_payment;
}.
Definition with_tables (v : store (T := late_shop) (R := decision_row)) (s : late_shop) : store := Store (Idempotency.records v) s.
Definition with_legs (s : late_shop) (l : list leg_row) : late_shop :=
  LateShop (base s) (promised_ready_at s) (promise_changes s) l (decisions s).
Definition with_changes (s : late_shop) (l : list change_row) : late_shop :=
  LateShop (base s) (promised_ready_at s) l (legs s) (decisions s).
Definition with_promised (s : late_shop) (m : gmap Z datetime) : late_shop :=
  LateShop (base s) m (promise_changes s) (legs s) (decisions s).

(** The row is a succeeded return of the order. *)
Definition returned (id : Z) (l : leg_row) : bool := (leg_order l =? id) && attempt_ended "SUCCEEDED" (leg l).

Section safety.
Context (digest : object → option string) (validators : string → option (object → bool))
  (document_hash : proposal_document → string)
  (facts_hash : MessageDraftFacts → string) (rendering_hash : MessageDraftFacts → string → string)
  (envelope_hash : request_payload → option string) (uuid_text : Z → string)
  (action_text : ApprovalAction.t → string) (normal : StoredApproval → option StoredApproval)
  (note_digest : text → string) (request_hash : late_payload → option string).

Notation remedies_move := (step digest validators document_hash facts_hash rendering_hash envelope_hash uuid_text action_text normal).
Notation decide_late := (LateDeliveryRepository.decide digest document_hash facts_hash rendering_hash envelope_hash uuid_text
  action_text normal note_digest request_hash).

(** What may happen: a verdict; a move of the remedies; a leg, of which an order has one
    succeeded return (unique index, migration 0033); the first promise, once; and a change of
    it, which once the laundry has arrived is recorded later than the arrival. *)
Inductive late_move : late_machine → late_machine → Prop :=
  | gives_verdict w c ids v ps xs : late_move (LateMachine v ps xs) (LateMachine (decide_late w v c ids).1 ps xs)
  | remedies v ps xs b ps' xs' : remedies_move (Machine (base (tables v)) ps xs) (Machine b ps' xs') →
      late_move (LateMachine v ps xs) (LateMachine (with_tables v (with_base (tables v) b)) ps' xs')
  | records_leg l v ps xs : aware (leg_recorded_at (leg l)) = true →
      (attempt_ended "SUCCEEDED" (leg l) = true → existsb (returned (leg_order l)) (legs (tables v)) = false) →
      late_move (LateMachine v ps xs) (LateMachine (with_tables v (with_legs (tables v) (legs (tables v) ++ [l]))) ps xs)
  | promises id t v ps xs : aware t = true → promised_ready_at (tables v) !! id = None →
      late_move (LateMachine v ps xs)
        (LateMachine (with_tables v (with_promised (tables v) (<[id := t]> (promised_ready_at (tables v))))) ps xs)
  | promises_again c v ps xs : aware (new_promise_at (change c)) = true → aware (changed_at (change c)) = true →
      (∀ t, head (arrivals_of (tables v) (change_order c)) = Some t → instant t < instant (changed_at (change c))) →
      late_move (LateMachine v ps xs)
        (LateMachine (with_tables v (with_changes (tables v) (promise_changes (tables v) ++ [c]))) ps xs).
Definition nothing_late (m : late_machine) : Prop :=
  decisions (tables (verdicts m)) = ∅ ∧ zoned (tables (verdicts m)).

(** * What every history keeps *)

(** The verdict's row says what the clock says now, and what its claim says. *)
Definition claim_agrees (s : late_shop) (d : decision_row) : Prop :=
  match decision_proposal d with
  | None => True
  | Some id => ∃ p i, proposals (base s) !! id = Some p ∧ proposal_order p = decision_order d ∧
      proposal_store p = decision_store d ∧ proposal_kind p = RemedyKind.LATE_DELIVERY_CREDIT ∧
      proposal_late_by p = Some (decision_late_by d) ∧ proposal_fault_attested p = true ∧
      Some (proposal_incident p) = decision_incident d ∧
      incidents (base s) !! proposal_incident p = Some i ∧ incident_order i = Some (decision_order d)
  end.
Definition stands (s : late_shop) (d : decision_row) : Prop :=
  ∃ first clock, promised_ready_at s !! decision_order d = Some first ∧
    measure_delivery s (decision_order d) first = Ok clock ∧
    measurement clock = (decision_deadline d, decision_basis d, Some (decision_delivered_at d), Some (decision_late_by d)).

Record late_kept (s : late_shop) : Prop := {
  kept_zoned : zoned s;
  kept_verdicts : ∀ id d, decisions s !! id = Some d →
    decision_checks d = true ∧ 0 < decision_late_by d ∧ stands s d ∧ claim_agrees s d;
  kept_one : ∀ id id' d d', decisions s !! id = Some d → decisions s !! id' = Some d' →
    decision_order d = decision_order d' → id = id';
}.

(** Claims and incidents last; the measurements of orders already decided are the same. *)
Lemma claim_agrees_lasting s s' d : lasting (base s) (base s') → claim_agrees s d → claim_agrees s' d.
Proof.
  unfold claim_agrees. destruct (decision_proposal d) as [id|]; [|done]. intros [Hc Hi] (p & i & Hp & ? & ? & ? & ? & ? & ? & Hin & ?).
  destruct (Hc _ _ Hp) as (p' & Hp' & []). destruct (Hi _ _ Hin) as (i' & Hi' & ? & ?).
  exists p', i'. split_and!; try congruence.
Qed.
Lemma late_kept_moving s s' : decisions s' = decisions s → zoned s' → lasting (base s) (base s') →
  (∀ id t, promised_ready_at s !! id = Some t → promised_ready_at s' !! id = Some t) →
  (∀ id t, head (arrivals_of s id) = Some t → arrivals_of s' id = arrivals_of s id ∧ asked_of s' id = asked_of s id) →
  late_kept s → late_kept s'.
Proof.
  intros Hd Hz Hl Hp Hm [Hz0 Hv Ho]. split; [done| |by rewrite Hd]. rewrite Hd. intros id d Hid.
  destruct (Hv id d Hid) as (Hc & Hpos & (first & clock & Hf & Hmeas & Hsame) & Hcl). split_and!; [done|done| |by eapply claim_agrees_lasting].
  exists first. destruct (measured s' (decision_order d) first Hz) as [clock' Hclock']; [by eapply zoned_promises|].
  exists clock'. split; [by apply Hp|]. split; [done|]. rewrite <- Hsame.
  assert (head (arrivals_of s (decision_order d)) = Some (decision_delivered_at d)) as Harr.
  { unfold measure_delivery in Hmeas. destruct (late_delivery_clock _ _ _) as [k|] eqn:Hk; [|done]. injection Hmeas as ->.
    apply clock_Ok in Hk as (_ & _ & _ & ->). unfold measurement in Hsame. cbn in Hsame. injection Hsame as _ _ Hh _. exact Hh. }
  destruct (Hm _ _ Harr) as [Ha Hk]. by eapply measurement_same.
Qed.

Lemma decided_none s id : decided s id = false → ∀ k d, decisions s !! k = Some d → decision_order d ≠ id.
Proof.
  unfold decided. intros H k d Hk Heq. eapply (existsb_false _ _ (k, d)) in H; [|by apply elem_of_map_to_list].
  cbn in H. by rewrite Heq, Z.eqb_refl in H.
Qed.

Lemma kept_verdict w c reason note ids s s' d :
  _decide_locked digest document_hash facts_hash rendering_hash envelope_hash uuid_text action_text normal
    w c reason note ids s = Ok (s', d) → late_kept s → late_kept s'.
Proof.
  intros (pub & first & clock & delivered & late_by & b & Hpub & Hfirst & Hm & Hd & Hl & Hlate & Hb & -> & Hins)%decide_locked_Ok Hk.
  apply published_threshold in Hpub. set (d := decision_of c ids reason note clock late_by delivered) in *.
  assert (Hbase : lasting (base s) b ∧ claim_agrees (with_base s b) d).
  { unfold claim_agrees, d. cbn [decision_proposal decision_of]. case_bool_decide as Hv.
    - apply credit_claim_Ok in Hb as (Hlast & (i & Hi & Ho) & p & Hp & [(? & Hpi & ? & ? & ? & ?) _]). split; [done|].
      exists p, i. rewrite Hpi. cbn. by rewrite bool_decide_true.
    - subst b. by split; [apply lasting_same|]. }
  destruct Hbase as [Hlast Hcl]. assert (Hk1 : late_kept (with_base s b)).
  { eapply (late_kept_moving s); [done| |done|done|done|done]. destruct (kept_zoned _ Hk). by split. }
  apply inserted_verdict_Ok in Hins as (Hn & Hnone & Hchk & _ & _ & ->). destruct Hk1 as [[Hz1 Hz2 Hz3] Hv Ho].
  split; cbn; [by split| |].
  - intros id d'. destruct (decide (decision_id ids = id)) as [<-|Hne]; [|rewrite lookup_insert_ne by done; apply Hv].
    rewrite lookup_insert_eq. intros [= <-]. split_and!; [done|cbn; lia| |exact Hcl].
    exists first, clock. cbn. split_and!; [done|exact Hm|]. unfold measurement. by rewrite Hd, Hl.
  - intros id id' d1 d2. rewrite !lookup_insert_Some. pose proof (decided_none _ _ Hnone) as Hfree.
    intros [[<- <-]|[_ H1]] [[<- <-]|[_ H2]] Heq; [done|by destruct (Hfree _ _ H2)|by destruct (Hfree _ _ H1)|by eapply Ho].
Qed.

Lemma arrivals_append s l id : (leg_order l = id → attempt_ended "SUCCEEDED" (leg l) = false) →
  arrivals_of (with_legs s (legs s ++ [l])) id = arrivals_of s id.
Proof.
  intros Hl. rewrite !arrivals_of_legs. do 4 f_equal. cbn [legs with_legs]. rewrite !list_filter_filter, filter_app.
  rewrite <- (app_nil_r (filter _ (legs s))) at 2. f_equal. rewrite filter_cons, filter_nil. rewrite decide_False; [done|].
  intros [Hs Ho]. apply andb_true_iff in Ho as [Ho%Z.eqb_eq _]. by rewrite Hl in Hs.
Qed.
Lemma returned_arrivals s id : existsb (returned id) (legs s) = false → head (arrivals_of s id) = None.
Proof.
  intros H. apply arrival_none. intros a (l & Hl & Ho & _ & <-)%legs_of_elem. eapply existsb_false in H; [|exact Hl].
  unfold returned in H. by rewrite Ho, Z.eqb_refl in H.
Qed.
Lemma asked_append s c id : (change_order c = id → counted (head (arrivals_of s id)) (change c) = false) →
  asked_of (with_changes s (promise_changes s ++ [c])) id = asked_of s id.
Proof.
  intros Hc. rewrite !asked_of_changes. change (arrivals_of (with_changes s _) id) with (arrivals_of s id).
  do 2 f_equal. cbn [promise_changes with_changes]. rewrite !list_filter_filter, filter_app.
  rewrite <- (app_nil_r (filter _ (promise_changes s))) at 2. f_equal. rewrite filter_cons, filter_nil. rewrite decide_False; [done|].
  intros [Hk Ho]. by rewrite Hc in Hk.
Qed.

Lemma late_kept_move m m' : late_kept (tables (verdicts m)) → late_move m m' → late_kept (tables (verdicts m')).
Proof.
  intros Hk Hstep. destruct Hstep as [w c ids v ps xs|v ps xs b ps' xs' Hr|l v ps xs Ha Hone|id t v ps xs Ha Hn|c v ps xs Ha Hb Hlate];
    cbn [verdicts tables with_tables] in *.
  - unfold LateDeliveryRepository.decide. destruct (_require_role _ ;; _) as [[reason note]|]; [|done].
    destruct (Idempotency.execute _ _ _ _ _) as [v' [y|e]] eqn:He; cbn [fst]; [|by apply execute_Err in He as ->].
    apply execute_Ok in He as (sc & ky & hash & _ & _ & _ & He).
    apply execute_body_spec in He as [(-> & _)|(_ & _ & _ & t & i & He & _ & ->)]; [done|]. cbn [tables].
    by eapply kept_verdict.
  - eapply (late_kept_moving (tables v)); [done| | |done|done|done]; [by destruct (kept_zoned _ Hk); split|].
    by apply lasting_step in Hr.
  - eapply (late_kept_moving (tables v)); [done| |by apply lasting_same|done| |done].
    + destruct (kept_zoned _ Hk). split; [done|done|]. cbn. apply Forall_app. split; [done|by apply Forall_singleton].
    + intros id t Ht. assert (Heq : arrivals_of (with_legs (tables v) (legs (tables v) ++ [l])) id = arrivals_of (tables v) id).
      { apply arrivals_append. intros <-. apply not_true_iff_false. intros Hs. apply Hone, returned_arrivals in Hs. congruence. }
      split; [exact Heq|]. unfold asked_of. by rewrite Heq.
  - eapply (late_kept_moving (tables v)); [done| |by apply lasting_same| |done|done].
    + destruct (kept_zoned _ Hk) as [Hp ? ?]. split; [|done|done]. cbn. intros k u [[<- <-]|[_ Hu]]%lookup_insert_Some; [done|by eapply Hp].
    + cbn. intros k u Hu. rewrite lookup_insert_ne; [done|]. intros ->. congruence.
  - eapply (late_kept_moving (tables v)); [done| |by apply lasting_same|done| |done].
    + destruct (kept_zoned _ Hk). split; [done| |done]. cbn. apply Forall_app. split; [done|by apply Forall_singleton].
    + intros id t Ht. split; [done|]. apply asked_append. intros <-. rewrite Ht. unfold counted. cbn.
      rewrite (proj2 (dt_ltb_lt _ _)) by by apply Hlate. apply andb_false_r.
Qed.

Notation happens := (reachable nothing_late late_move).
Lemma late_reachable m : happens m → late_kept (tables (verdicts m)).
Proof.
  apply (reachable_invariant _ _ (λ m, late_kept (tables (verdicts m)))); [|apply late_kept_move].
  intros s [Hd Hz]. split; [done|intros ? ?; by rewrite Hd|intros ? ? ? ?; by rewrite Hd].
Qed.

(** C25: a verdict stands.  Over any history of legs, promises, claims, payments and verdicts an
    order has at most one verdict; the deadline, the arrival and the minutes it states are what
    the clock measures ever after; and the shop's fault names a late-delivery claim of that
    order, of its own incident, attested as the shop's fault at exactly those minutes. *)
Theorem a_verdict_stands m id d : happens m → decisions (tables (verdicts m)) !! id = Some d →
  let s := tables (verdicts m) in
  (∀ id' d', decisions s !! id' = Some d' → decision_order d' = decision_order d → id' = id) ∧
  (∃ first clock, promised_ready_at s !! decision_order d = Some first ∧
     measure_delivery s (decision_order d) first = Ok clock ∧ deadline clock = decision_deadline d ∧
     deadline_basis clock = decision_basis d ∧ delivered_at clock = Some (decision_delivered_at d) ∧
     late_by_minutes clock = Some (decision_late_by d) ∧ 0 < decision_late_by d) ∧
  match decision d with
  | LateDeliveryDecision.STORE_FAULT_CREDITED => ∃ k p i, decision_proposal d = Some k ∧ proposals (base s) !! k = Some p ∧
      proposal_order p = decision_order d ∧ proposal_kind p = RemedyKind.LATE_DELIVERY_CREDIT ∧
      proposal_late_by p = Some (decision_late_by d) ∧ proposal_fault_attested p = true ∧
      incidents (base s) !! proposal_incident p = Some i ∧ incident_order i = Some (decision_order d)
  | LateDeliveryDecision.NOT_STORE_FAULT => decision_proposal d = None ∧ is_Some (decision_reason d)
  end.
Proof.
  intros [Hz Hv Ho]%late_reachable Hd s. destruct (Hv id d Hd) as (Hchk & Hpos & (first & clock & Hf & Hm & Hsame) & Hcl).
  split; [|split].
  - intros id' d' Hd' Heq. by eapply Ho.
  - unfold measurement in Hsame. injection Hsame as H1 H2 H3 H4. exists first, clock. by split_and!.
  - unfold decision_checks in Hchk. unfold claim_agrees in Hcl.
    destruct (decision d), (decision_proposal d) as [k|]; cbn in Hchk; rewrite ?andb_false_r in Hchk; try done.
    + destruct Hcl as (p & i & ? & ? & ? & ? & ? & ? & ? & ? & ?). by exists k, p, i.
    + split; [done|]. apply andb_true_iff in Hchk as [Hchk _]. apply andb_true_iff in Hchk as [_ Hchk].
      destruct (decision_reason d); [by eexists|]. by rewrite andb_false_r in Hchk.
Qed.
End safety.
