(* ===== verification/LateExamples.v ===== *)
(** One late delivery on the counter: promised again twice, once by the shop and once at the
    customer's asking, brought back three hours after; found late, credited, and listed before.
    And a list that a backlog of deliveries on time has filled. *)
From Stdlib Require Import Ascii String.
From S2P Require Import Prelude Clock Text Json Configurations Catalog Promise Storage.
From S2P Require Import Idempotency Approvals ApprovalsFacts Remedies RemedyLedger RemedyHistory RemedyExamples.
From S2P Require Import LateDelivery LateDeliveries LateList LateSafety.
Local Open Scope laundry_scope.
Local Open Scope Z_scope.

(** * One order *)

Definition courier_order : order_row :=
  OrderRow 1 5 FulfillmentMode.RETURN_ONLY (Some (at_minute 0)) digest_text shirts_quote false [at_minute 300]
    (Some (61, 60000)) [].
Definition asked_again : list change_row :=
  [ChangeRow 1 7 (MkPromiseMove (at_minute 290) PromiseChangeReason.WORKLOAD (at_minute 50));
   ChangeRow 2 7 (MkPromiseMove (at_minute 120) PromiseChangeReason.CUSTOMER_REQUEST (at_minute 40))].
Definition two_trips : list leg_row :=
  [LegRow 1 7 1 (MkLegAttempt "RETURN" "FAILED" (at_minute 100));
   LegRow 2 7 1 (MkLegAttempt "RETURN" "SUCCEEDED" (at_minute 300))].
Definition late_order : late_shop :=
  LateShop (Shop ∅ ∅ ∅ {[ 7 := courier_order ]} one_version ApprovalRepository.empty_store)
    {[ 7 := at_minute 60 ]} asked_again two_trips ∅.
Definition our_fault : LateDeliveryDecideCommand :=
  DecideCommand 1 7 LateDeliveryDecision.STORE_FAULT_CREDITED counter "late-1" None None (at_minute 320).
Definition ids_drawn : drawn := Drawn 801 802 803 804.

Definition shop_clock : result ClockError LateDeliveryClock :=
  late_delivery_clock (at_minute 60) (moves_of late_order 7) (legs_of late_order 7).
(** The shop's own new promise, of a later hour and made last, moves nothing. *)
Example measured_late_180 : shop_clock =
  Ok (MkLateDeliveryClock (at_minute 120) DeadlineBasis.CUSTOMER_REQUEST (Some (at_minute 300)) (Some 180) [at_minute 100]).
Proof. vm_compute. reflexivity. Qed.

(** Yet another promise of the shop's own, written first. *)
Definition shop_again : PromiseMove := MkPromiseMove (at_minute 280) PromiseChangeReason.MACHINE_ISSUE (at_minute 45).
Lemma only_the_customer_moves_the_deadline_witness :
  ∃ c, shop_clock = Ok c ∧ late_delivery_clock (at_minute 60) (shop_again :: moves_of late_order 7) (legs_of late_order 7) = Ok c.
Proof.
  destruct shop_clock as [c|e] eqn:E; [|vm_compute in E; discriminate E]. exists c. split; [reflexivity|].
  destruct (only_the_customer_moves_the_deadline (at_minute 60) (moves_of late_order 7) (legs_of late_order 7) c E)
    as (_ & _ & _ & H).
  apply (H [] shop_again); [reflexivity|reflexivity|reflexivity|]. intros [Hr _]. discriminate Hr.
Defined.

Lemma zoned_start : zoned late_order.
Proof. split; [|repeat constructor|repeat constructor]. intros id t. cbn. rewrite lookup_singleton_Some. by intros [_ <-]. Qed.

(** * The list *)

Definition listed : lately LateDeliveryList :=
  list_late fixed_digest remedy_world late_order 1 counter (at_minute 310) 100.
Example one_listed : (λ l, ((λ r, (row_order r, late_by_minutes (row_clock r), preview_credit_vnd (row_preview r))) <$> list_orders l,
    list_truncated l)) <$> match listed with Ok l => Some l | Err _ => None end = Some ([(7, Some 180, Some 6000)], false).
Proof. vm_compute. reflexivity. Qed.

Lemma late_list_exact_witness :
  ∃ l, listed = Ok l ∧ (shown <$> list_orders l) = (as_shown <$> overdue late_order 1 60) ∧
    count_undecided fixed_digest remedy_world late_order 1 counter = Ok (Some (1, false)).
Proof.
  destruct listed as [l|e] eqn:E; [|vm_compute in E; discriminate E]. exists l. split; [reflexivity|].
  assert (Hp : list_published l = Some (60, 100000)) by (vm_compute in E; injection E as <-; vm_compute; reflexivity).
  assert (Ht : list_truncated l = false) by (vm_compute in E; injection E as <-; vm_compute; reflexivity).
  destruct (late_list_exact _ remedy_world late_order 1 counter (at_minute 310) 100 l 60 100000 zoned_start E Hp)
    as (_ & Hall & _).
  split; [exact (Hall Ht)|vm_compute; reflexivity].
Defined.

(** * The verdict *)

Definition opened_shop : late_machine := LateMachine (Store ∅ late_order) [] [].
Definition verdict_of (s : late_shop) : lately (late_shop * decision_row) :=
  _decide_locked fixed_digest text_hash (λ _, digest_text) (λ _ _, digest_text) (λ _, Some "request"%string)
    (λ _, "7"%string) (λ _, "APPROVE_REMEDY"%string) Some remedy_world our_fault None None ids_drawn s.
Definition after_verdict : late_machine :=
  LateMachine (LateDeliveryRepository.decide fixed_digest text_hash (λ _, digest_text) (λ _ _, digest_text)
    (λ _, Some "request"%string) (λ _, "7"%string) (λ _, "APPROVE_REMEDY"%string) Some (λ _, digest_text)
    (λ _, Some "verdict"%string) remedy_world (Store ∅ late_order) our_fault ids_drawn).1 [] [].

Lemma button_is_the_claim_witness :
  ∃ s' d p, verdict_of late_order = Ok (s', d) ∧ proposals (base s') !! 803 = Some p ∧ proposal_amount_vnd p = Some 6000 ∧
    proposal_late_by p = Some 180.
Proof.
  destruct (verdict_of late_order) as [[s' d]|e] eqn:E; [|vm_compute in E; discriminate E].
  assert (Hd : decision_late_by d = 180) by (vm_compute in E; injection E as _ <-; reflexivity).
  destruct (read_published_remedy_policy fixed_digest (configurations (base late_order))) as [[pub|]|] eqn:P;
    [|vm_compute in P; discriminate P|vm_compute in P; discriminate P].
  destruct (read_late_credit_preview (base late_order) 7 (figures pub) (at_minute 310)) as [pv|] eqn:V;
    [|vm_compute in P; injection P as <-; vm_compute in V; discriminate V].
  assert (Hv : preview_refunded pv = false ∧ preview_credit_vnd pv = Some 6000)
    by (vm_compute in P; injection P as <-; vm_compute in V; injection V as <-; split; reflexivity).
  destruct Hv as [Hnr Hcr].
  destruct (button_is_the_claim _ _ _ _ _ _ _ _ _ _ _ _ _ _ _ _ _ _ _ E eq_refl P V Hnr)
    as (p & v & _ & Hp & Hamt & Hv & _ & _ & Hl).
  exists s', d, p. split; [reflexivity|]. split; [exact Hp|]. split; [congruence|congruence].
Defined.

Lemma verdict_reachable : reachable nothing_late
  (late_move fixed_digest (λ _, None) text_hash (λ _, digest_text) (λ _ _, digest_text) (λ _, Some "request"%string)
     (λ _, "7"%string) (λ _, "APPROVE_REMEDY"%string) Some (λ _, digest_text) (λ _, Some "verdict"%string)) after_verdict.
Proof.
  exists opened_shop. split; [split; [reflexivity|exact zoned_start]|]. apply rtc_once.
  apply (gives_verdict _ _ _ _ _ _ _ _ _ _ _ remedy_world our_fault ids_drawn).
Qed.

Lemma a_verdict_stands_witness :
  ∃ d, decisions (tables (verdicts after_verdict)) !! 801 = Some d ∧ decision_late_by d = 180 ∧
    ∃ k p, decision_proposal d = Some k ∧ proposals (base (tables (verdicts after_verdict))) !! k = Some p ∧
      proposal_late_by p = Some 180.
Proof.
  assert (H : (λ d, (decision d, decision_late_by d)) <$> (decisions (tables (verdicts after_verdict)) !! 801)
    = Some (LateDeliveryDecision.STORE_FAULT_CREDITED, 180)) by (vm_compute; reflexivity).
  destruct (decisions (tables (verdicts after_verdict)) !! 801) as [d|] eqn:E; [|discriminate H]. injection H as Hd Hl.
  exists d. split; [reflexivity|]. split; [exact Hl|].
  destruct (a_verdict_stands _ _ _ _ _ _ _ _ _ _ _ after_verdict 801 d verdict_reachable E) as (_ & _ & Hc).
  rewrite Hd in Hc. destruct Hc as (k & p & i & Hk & Hp & _ & _ & Hlate & _). exists k, p.
  split; [exact Hk|]. split; [exact Hp|]. rewrite Hl in Hlate. exact Hlate.
Defined.

(** * A backlog that can never be decided *)

(** Deliveries on time whose time the customer once moved pass the statement's predicate, can
    never be decided, and are read first: five hundred of them hide every delivery that is late. *)
Definition on_time (id : Z) : leg_row := LegRow id id 1 (MkLegAttempt "RETURN" "SUCCEEDED" (at_minute 50)).
Definition asked_once (id : Z) : change_row :=
  ChangeRow id id (MkPromiseMove (at_minute 70) PromiseChangeReason.CUSTOMER_REQUEST (at_minute 40)).
Definition crowd : list Z := seqZ 1001 501.
Definition crowded : late_shop :=
  LateShop (Shop ∅ ∅ ∅ (list_to_map ((λ id, (id, courier_order)) <$> 7 :: crowd)) one_version ApprovalRepository.empty_store)
    (list_to_map ((λ id, (id, at_minute 60)) <$> 7 :: crowd)) (asked_again ++ (asked_once <$> crowd))
    (two_trips ++ (on_time <$> crowd)) ∅.
Definition hidden (s : late_shop) : option (nat * bool) :=
  match list_late fixed_digest remedy_world s 1 counter (at_minute 310) 100 with
  | Ok l => Some (length (list_orders l), list_truncated l)
  | Err _ => None
  end.
Example a_backlog_hides_the_late :
  hidden crowded = Some (0%nat, true) ∧
  match measure_delivery crowded 7 (at_minute 60) with Ok c => is_late_beyond c 60 | Err _ => false end = true.
Proof. split; vm_compute; reflexivity. Qed.
